(* ===== verification/_CoqProject ===== *)
-Q . S2P
Prelude.v
Wp.v
CString.v
Array.v
Timespec.v
Printf.v
PrintfTheorems.v
Kgets.v
Menu.v
Qsort.v
Malloc.v
MallocTheorems.v
Bitmap.v
Vmstats.v
Tlb.v
Ram.v
Segments.v
Kmalloc.v
KmallocProofs.v
Machine.v
Swapfile.v
Coremap.v
Synch.v
Biglock.v
Hangman.v
Threadlist.v
Threads.v
ThreadsProofs.v
ThreadsSteps.v
ThreadsTheorems.v
Spl.v
Copyinout.v
Uio.v
Lhd.v
Sfs.v
SfsVnops.v
SfsErrors.v
SfsFormat.v
SfsProofs.v
SfsIo.v
SfsTrunc.v
SfsDir.v
SfsTheorems.v
SfsVolume.v
SfsObjects.v
SfsRefs.v
SfsTree.v
SfsTreeTheorems.v
SfsFsops.v
ExampleVolume.v
Vnode.v
Semfs.v
Vfs.v
VfsProofs.v
SemfsProofs.v
SemfsTheorems.v
SemfsThreads.v
SfsVfs.v
VfsTheorems.v
VfsPaths.v
SfsPaths.v
ExampleVfs.v
FileSyscalls.v
Objects.v
Vm.v
Addrspace.v
Proc.v
VmInv.v
Replacement.v
FaultProofs.v
AddrspaceProofs.v
ProcProofs.v
FirstTouch.v
Termination.v
ExampleMachine.v
VmTheorems.v
MemTheorems.v
Usermode.v
ProcTheorems.v
FileTheorems.v
