(* ===== verification/Prelude.v ===== *)
(** * A verification library for the paging kernel of OS/161

    The program is the kernel of OS/161 2.0.3 (src/os161-base-2.0.3/kern), configured by
    kern/conf/PAGING: a teaching kernel for a MIPS machine to which a demand-paging virtual
    memory system, processes with waitpid, and open files were added.  The library models
    the kernel's own logic in C as functions on explicit state and proves what makes each
    part correct.

    ** How C becomes Rocq

    - A w-bit unsigned integer is a [Z]; every operation that can leave the range is written
      with its wrap-around ([u32], [u16], [u8]).  Bits are [Z.land], [Z.lor], [Z.testbit].
    - A kernel function is a computation [M S A] over the state [S] it can reach: it returns
      ([Done]), stops the machine ([Halt], with [Panic] or [AssertFailed]), runs into
      undefined behaviour ([Halt (Undefined _)]: a null or dangling pointer, an index out of
      range), ends the thread ([Exited]), or, for loops that are not structural, exhausts the
      fuel of the model ([OutOfFuel]).  Error codes are returned values, as in C.
    - Heap objects are finite maps from addresses to records, so that aliasing, double frees
      and dangling pointers mean what they mean in C; 0 is NULL.
    - What a part of the kernel does not see is a parameter: the vnode operations for system
      calls and the pager ([Machine.VnodeOps], with [VnodeLaws]), the file systems for the VFS
      layer ([Vnode.FileSystem], with [FileSystemLaws]), the answers of the disk hardware
      ([Lhd.LhdHardware], with [LhdLaws]), what other threads do while one waits.  The page
      allocator and the kernel heap call each other; the classes [HeapState], [FreePages] and
      [AllocPages] of [Kmalloc], with [FreeLaws] and [AllocLaws], are the interface between
      them, and [Coremap] and [Replacement] discharge it.

    ** The parts, and the files that model them

    Virtual memory.  A page fault enters [vm_fault]; it finds the segment, creates the inner
    page table, gets a frame (evicting a page to the swap file when none is free), loads it
    from the program file, the swap file or with zeros, and enters it in the TLB.
    - [Bitmap]: kern/lib/bitmap.c; [bitmap_alloc] refines a finite set.
    - [Vmstats]: kern/vm/vmstats.c, the counters and the report.
    - [Tlb]: kern/vm/vm_tlb.c over the processor's 64 entries.
    - [Ram]: kern/arch/mips/vm/ram.c, memory before the VM system runs.
    - [Segments]: kern/vm/segments.c and the segments addrspace.c sets up.
    - [Kmalloc], [KmallocProofs]: kern/vm/kmalloc.c, the sub-page allocator, its page
      references and free lists; heap invariant, disjointness of blocks.
    - [Machine]: the kernel state ([kstate]); one field per static variable or object table.
    - [Swapfile], [Coremap], [Vm], [Addrspace]: kern/vm/swapfile.c, coremap.c, vm.c with
      pt.c, addrspace.c with kern/syscall/loadelf.c.
    - [VmInv] (the invariant [kinv] and its preservation by the small steps),
      [Replacement] (eviction and allocation), [FaultProofs], [FirstTouch],
      [AddrspaceProofs], [Termination]: the proofs.
    - [VmTheorems], [MemTheorems]: the theorems.  A fault changes the bytes of no page that
      has contents, keeps the invariant (no frame and no swap slot has two owners), leaves
      the page mapped, gives a new page the bytes of the program, and ends; replacement is
      first in first out and loses no byte; frames and heap blocks handed out are nobody
      else's; what goes out to the swap file comes back.
    - [Usermode]: kern/syscall/runprogram.c and the exceptions of trap.c, with the processor's
      side of a TLB miss: a started program reads the bytes of its file.

    Processes and threads.
    - [Objects]: kstrdup, wait channels, creation and destruction of semaphores, locks and
      condition variables (kern/thread/synch.c, thread.c) on the kernel heap.
    - [Synch]: the operations of synch.c as steps of threads that interleave; mutual
      exclusion, no lost wakeup, in every reachable state.
    - [Threadlist]: kern/thread/threadlist.c, doubly linked lists on a heap of nodes; they
      implement sequences, and two lists never share a node.
    - [Threads]: kern/thread/thread.c and clock.c, the scheduler of several processors, cut
      into the sections that the run queue locks make; [ThreadsProofs] the steps
      and the invariant, [ThreadsSteps] its preservation, [ThreadsTheorems]: no
      section fails, every thread is in one place, migration never takes a thread from under
      a processor, an idle processor is woken, threads run in turn.
    - [Spl]: kern/thread/spl.c and spinlock.c, interrupt levels and spinlocks through context
      switches and interrupts: interrupts are off exactly while somebody wants them off.
    - [Hangman]: kern/thread/hangman.c, the deadlock detector (not configured): no cycle of
      waits is ever recorded, and a wait that would close one is always reported.
    - [Proc]: kern/proc/proc.c and kern/syscall/proc_syscalls.c; [ProcProofs],
      [ProcTheorems]: process ids, creation and destruction, waitpid.

    Files.
    - [FileSyscalls], [FileTheorems]: kern/syscall/file_syscalls.c, open files and
      descriptors over the vnode interface.
    - [Copyinout]: kern/vm/copyinout.c; user pointers cannot reach kernel memory.
    - [Uio]: kern/lib/uio.c; transfers across lists of buffers.
    - [Lhd]: kern/dev/lamebus/lhd.c, the disk driver.
    - [Sfs]: kern/fs/sfs: sfs_balloc.c, sfs_bmap.c, sfs_io.c, sfs_dir.c; [SfsFormat] the
      on-disk format; [SfsProofs] blocks, the free map and the block map of a file; [SfsIo]
      transfers; [SfsTrunc] truncation; [SfsDir] directories as finite maps from names to
      inode numbers; [SfsTheorems] reads and writes.  A read delivers the file's bytes, a
      write changes exactly its range and no other file, what was written is read back,
      truncation frees exactly what the file loses, link, unlink and lookup are insert,
      delete and lookup of the map.
    - [SfsVnops]: sfs_inode.c and sfs_vnops.c with the reference counts of kern/vfs/vnode.c;
      [SfsVolume] the consistency of a whole volume (every block has one owner, every vnode
      in memory agrees with its inode), [SfsObjects] loading, making and reclaiming vnodes,
      [SfsRefs] the references each operation takes and gives back, [SfsTree] and
      [SfsTreeTheorems] the root directory as a finite map from names to files whose link
      counts are the numbers of their names; creat, link, remove, rename, lookup, write and
      truncate keep it, change it as their names say, and lose no block on any error path.
    - [SfsFsops]: sfs_fsops.c; sync writes everything, and a volume survives unmount and
      mount.

    The VFS layer.  A path enters [vfs_open] and its like, which find the device and the file
    system and call its vnodes' operations.
    - [Vnode]: kern/include/vnode.h, fs.h, device.h and kern/vfs/vfsfail.c: the operation
      tables, and the classes [FileSystem] and [DeviceOps] that a file system and a device
      instantiate.
    - [Vfs]: kern/vfs/device.c, vfslist.c, vfslookup.c, vfscwd.c, vfspath.c, for any file
      system.  [Wp] is the program logic its proofs use.
    - [VfsProofs]: the class [FileSystemLaws], what a file system promises about references,
      and the invariant [vfs_ok] with its preservation by every operation; [VfsTheorems]: a
      step relation over all calls, the invariant of every reachable state, that every call
      returns there with the references it documents, and that device names are resolved and
      kept apart; [VfsPaths]: a path into a file system is the file system's own operations.
    - [SfsVfs]: SFS and the disk as instances, with [FileSystemLaws] proved for SFS;
      [SfsPaths]: opening, creating and removing files of a mounted SFS volume by path, and
      unmounting and mounting it, end to end.
    - [Biglock]: the recursive lock that serialises the layer, over the locks of [Synch].

    Userland semaphores: semfs, a file system whose files are semaphores.
    - [Semfs]: kern/fs/semfs: semaphores, directory entries and vnodes in three tables, names,
      references, P as reading and V as writing; an instance of [Vnode.FileSystem].
    - [SemfsProofs] (with the module [SemfsNames]), [SemfsTheorems]: the volume is a map of named counting
      semaphores with reference counts; every request does to it what its name says.
    - [SemfsThreads]: readers and writers of one semaphore interleaved: nothing is taken that
      was not given, a reader that is alone is always served.

    Libraries.
    - [CString]: common/libc/string on a memory of bytes: the block functions
      copy and fill exactly their blocks, memmove also where they overlap; the string functions
      are those of lists of bytes; strtok_r cuts a string into its words.
    - [Printf], [PrintfTheorems]: common/libc/printf and atoi.c: the state
      machine of __vprintf sends its client the text of a reference rendering; vsnprintf stays
      inside its buffer; atoi reads back what snprintf prints.
    - [Array]: kern/lib/array.c on a heap: growing arrays are lists.
    - [Timespec]: kern/lib/time.c.  [Kgets]: kern/lib/kgets.c, line editing.
    - [Menu]: the command line of kern/main/menu.c, from the bytes of the line to the calls.
    - [Malloc], [MallocTheorems]: userland/lib/libc/stdlib/malloc.c, the heap of
      a user program over sbrk: a map from pointers to sizes.  [Qsort]: qsort.c beside it.

    [ExampleMachine], [ExampleVolume] (with [ExampleTree]) and [ExampleVfs] are a running machine of
    eighteen frames, a small volume, its files and names, and a VFS layer with it: every
    theorem with hypotheses is applied there to a concrete execution.

    ** Fuel and bounds

    [coremap_alloc] makes at most two passes (a replacement leaves a free frame), [pop_victim]
    gets one unit per queued frame, [coremap_kalloc] one per frame that can be evicted,
    [uiomove] two per buffer, the string functions of [CString] one per byte of
    memory, [kgets] one per character typed, [hangman_check] one per actor,
    [malloc] one per eight bytes of heap, [qsort] one per element, [user_load] two (a load and its
    repetition), [grow] one per doubling in 32 bits; [Termination], [vm_fault_ends] and [uiomove_correct] show that
    this is enough, as do [hangman_exact],
    [malloc_refines] and [qsort_correct] for theirs.  The wait of [proc_wait] is bounded by what the other threads do, which
    is its parameter: without an exit it does not end.  Loops over arrays are structural.
    The SFS theorems assume a volume of
    less than 2^23 blocks (4 GB): above it, [sfs_blockio] computes disk offsets in 32 bits.

    ** Theorems about faults of the code

    Some theorems state what the code does where it does not do what it means to: the TLB
    entry that survives an eviction ([coremap_replace_stale_tlb]), the use after free in
    waitpid ([sys_waitpid_reads_freed]), the pid past the end of the table
    ([proc_find_by_pid_cases]), descriptor 128 ([file_descriptor_errors]), the write that a
    media error loses ([sfs_write_error_lost]), the block that truncation keeps
    ([sfs_itrunc_keeps_one_more]), the segment search that accepts the address behind the
    end ([find_segment_accepts_vtop]), the interprocessor interrupt that is lost
    ([shutdown_request_lost]), the reader of a semfs semaphore that is never woken
    ([semfs_lost_wakeup]), the null pointer at unmount ([semfs_unmount_spec],
    [semfs_unmount_null]), the creation that reports success and makes nothing
    ([semfs_creat_silent]), zeros behind a number ([left_zero_field]), the array that grows for
    ever ([array_preallocate_hangs]), the sizes that malloc rounds to nothing
    ([malloc_rounds_to_zero], [malloc_huge]).

    ** Not modelled

    Devices other than the disk, saved registers and the code that switches them,
    the dispatch of system calls and what [mips_trap] leaves for the assembly, dumbvm and the
    passing of arguments to programs (not configured), the time system call, kernel startup and
    tests, user programs and their C library but for malloc and qsort.  Of kprintf, the console
    client only; of the menu, not the commands.
    [Synch] and [Threads] take the sections that spinlocks protect as atomic, which [Spl]
    justifies on each processor; elsewhere one thread at a time is inside the modelled code,
    as [vfs_biglock] and the VM locks provide.  Interfaces meet in two places only by their laws: the system calls and the pager use open
    files through [Machine.VnodeOps], the VFS layer uses file systems through [Vnode]. *)

From stdpp Require Export base gmap sets list strings fin_maps.
From Stdlib Require Export ZArith Lia.

(** The whole development works on [Z]; [nat] appears as a list index only. *)
#[global] Open Scope Z_scope.

(** ** Machine words

    An [n]-bit unsigned C integer is a [Z] in [0, 2^n); every C operation that
    may leave the range is written with the wrap-around [u32] (or [u8], [u16]). *)

Definition u32 (x : Z) : Z := x mod 2 ^ 32.
Definition u16 (x : Z) : Z := x mod 2 ^ 16.
Definition u8 (x : Z) : Z := x mod 2 ^ 8.

(** Signed integers wrap into their range when they are converted. *)
Definition i64 (x : Z) : Z := (x + 2 ^ 63) mod 2 ^ 64 - 2 ^ 63.
Definition i32 (x : Z) : Z := (x + 2 ^ 31) mod 2 ^ 32 - 2 ^ 31.

Definition is_u32 (x : Z) : Prop := 0 <= x < 2 ^ 32.
Definition is_u8 (x : Z) : Prop := 0 <= x < 2 ^ 8.

(** <machine/vm.h> *)
Definition PAGE_SIZE : Z := 4096.
Definition PAGE_FRAME : Z := 0xfffff000.
Definition MIPS_KSEG0 : Z := 0x80000000.
Definition USERSPACETOP : Z := MIPS_KSEG0.
Definition USERSTACK : Z := USERSPACETOP.

Definition PADDR_TO_KVADDR (paddr : Z) : Z := u32 (paddr + MIPS_KSEG0).

(** <lib.h>: [DIVROUNDUP(a,b)] on [unsigned]. *)
Definition DIVROUNDUP (a b : Z) : Z := u32 (a + b - 1) / b.

(** <kern/errno.h>, the codes the modelled functions return. *)
Definition ENOSYS : Z := 1.
Definition ENOMEM : Z := 3.
Definition EFAULT : Z := 6.
Definition EINVAL : Z := 8.
Definition EPERM : Z := 9.
Definition ENOEXEC : Z := 13.
Definition EBADF : Z := 30.
Definition ENOSPC : Z := 36.

(** ** Outcomes and the kernel monad

    A kernel function can return, stop the machine ([panic] or a failed
    [KASSERT]), have no defined behaviour (a null, dangling or out-of-range
    access), end the calling thread ([thread_exit], which does not return), or,
    for a bounded loop, exhaust the model's fuel. *)

Inductive stop : Type :=
| Panic (msg : string)
| AssertFailed (msg : string)
| Undefined (msg : string).

Inductive outcome (S A : Type) : Type :=
| Done (a : A) (s : S)
| Halt (r : stop)
| Exited (s : S)
| OutOfFuel.
Arguments Done {S A} _ _.
Arguments Halt {S A} _.
Arguments Exited {S A} _.
Arguments OutOfFuel {S A}.

Definition M (S A : Type) : Type := S -> outcome S A.

#[global] Instance M_ret S : MRet (M S) := fun A a s => Done a s.
#[global] Instance M_bind S : MBind (M S) := fun A B k m s =>
  match m s with
  | Done a s' => k a s'
  | Halt r => Halt r
  | Exited s' => Exited s'
  | OutOfFuel => OutOfFuel
  end.

(** Results of the operations that keep no state of their own. *)
Inductive res (A : Type) : Type :=
| Ok (a : A)
| Err (r : stop).
Arguments Ok {A} _.
Arguments Err {A} _.

#[global] Instance res_ret : MRet res := fun A a => Ok a.
#[global] Instance res_bind : MBind res := fun A B k m =>
  match m with Ok a => k a | Err r => Err r end.

Section Combinators.
Context {S : Type}.

Definition lift {A} (r : res A) : M S A := fun s =>
  match r with Ok a => Done a s | Err e => Halt e end.
Definition halt {A} (r : stop) : M S A := fun _ => Halt r.
Definition get : M S S := fun s => Done s s.
Definition gets {A} (f : S -> A) : M S A := fun s => Done (f s) s.
Definition modify (f : S -> S) : M S unit := fun s => Done tt (f s).
Definition kassert (site : string) (b : bool) : M S unit := fun s =>
  if b then Done tt s else Halt (AssertFailed site).
Definition panic {A} (msg : string) : M S A := halt (Panic msg).
(** The thread leaves the processor for good. *)
Definition leave {A} : M S A := fun s => Exited s.
(** Dereference: [None] stands for a null, dangling or out-of-range access. *)
Definition deref {A} (what : string) (o : option A) : M S A := fun s =>
  match o with Some a => Done a s | None => Halt (Undefined what) end.
End Combinators.

(** [KASSERT] and dereference in stateless code. *)
Definition kassert_r (site : string) (b : bool) : res unit :=
  if b then Ok tt else Err (AssertFailed site).
Definition deref_r {A} (what : string) (o : option A) : res A :=
  match o with Some a => Ok a | None => Err (Undefined what) end.

(** ** Tactics *)

(** Split a bind that is known to return into its two halves. *)
Lemma bind_Done {S A B} (m : M S A) (k : A -> M S B) s b s' :
  (m ≫= k) s = Done b s' ->
  exists a s1, m s = Done a s1 /\ k a s1 = Done b s'.
Proof.
  unfold mbind, M_bind. destruct (m s) eqn:E; try discriminate. eauto.
Qed.

Lemma bind_ret {S A B} (m : M S A) (k : A -> M S B) s a s1 :
  m s = Done a s1 -> (m ≫= k) s = k a s1.
Proof. unfold mbind, M_bind. by intros ->. Qed.
Lemma bind_halt {S A B} (m : M S A) (k : A -> M S B) s r : m s = Halt r -> (m ≫= k) s = Halt r.
Proof. unfold mbind, M_bind. by intros ->. Qed.

Lemma res_bind_Ok {A B} (m : res A) (k : A -> res B) b :
  m ≫= k = Ok b -> exists a, m = Ok a /\ k a = Ok b.
Proof. unfold mbind, res_bind. destruct m; try discriminate. eauto. Qed.

(** Step through a monadic computation in hypothesis [H] that returned. *)
Ltac mstep H :=
  let a := fresh "ret" in let s := fresh "s" in let E := fresh "E" in
  first
    [ apply bind_Done in H; destruct H as (a & s & E & H)
    | apply res_bind_Ok in H; destruct H as (a & E & H) ].

(** Inversion of the primitive operations that returned. *)
Section Inversion.
Context {S A : Type}.
Implicit Types (s : S) (a : A).

Lemma kassert_Done site b s s' u : kassert site b s = Done u s' -> b = true /\ s' = s.
Proof. unfold kassert. destruct b; [|discriminate]. by inversion 1. Qed.
Lemma gets_Done (f : S -> A) s a s' : gets f s = Done a s' -> a = f s /\ s' = s.
Proof. unfold gets. by inversion 1. Qed.
Lemma modify_Done (f : S -> S) s u s' : modify f s = Done u s' -> s' = f s.
Proof. unfold modify. by inversion 1. Qed.
Lemma deref_Done what (o : option A) s a s' : deref what o s = Done a s' -> o = Some a /\ s' = s.
Proof. unfold deref. destruct o; [|discriminate]. by inversion 1. Qed.
Lemma mret_Done (x : A) s a s' : (mret x : M S A) s = Done a s' -> a = x /\ s' = s.
Proof. unfold mret, M_ret. by inversion 1. Qed.
Lemma lift_Done (r : res A) s a s' : lift r s = Done a s' -> r = Ok a /\ s' = s.
Proof. unfold lift. destruct r; [|discriminate]. by inversion 1. Qed.
End Inversion.

(** Clear the hypotheses that say a primitive operation returned; a component adds
    its own primitive operations by redefining [mprim_hook]. *)
Ltac subst_eq E := match type of E with ?a = ?x => first [subst a|subst x|idtac] end.
Ltac mprim_hook := fail.
Ltac mprim :=
  repeat match goal with
  | E : kassert _ _ _ = Done _ _ |- _ => apply kassert_Done in E; destruct E as [E ->]
  | E : gets _ _ = Done _ _ |- _ => apply gets_Done in E; destruct E as [E ->]; subst_eq E
  | E : modify _ _ = Done _ _ |- _ => apply modify_Done in E; subst_eq E
  | E : deref _ _ _ = Done _ _ |- _ => apply deref_Done in E; destruct E as [E ->]
  | E : mret _ _ = Done _ _ |- _ => apply mret_Done in E; destruct E as [E ->]; subst_eq E
  | E : lift _ _ = Done _ _ |- _ => apply lift_Done in E; destruct E as [E ->]
  | E : halt _ _ = Done _ _ |- _ => discriminate E
  | E : panic _ _ = Done _ _ |- _ => discriminate E
  | u : unit |- _ => destruct u
  | E : () = () |- _ => clear E
  | _ => mprim_hook
  end.
Ltac mgo H :=
  mprim;
  repeat (match type of H with
          | mbind _ _ _ = Done _ _ => mstep H
          | mbind _ _ = Ok _ => mstep H
          end; mprim).

(** Case analysis on the comparisons of the goal. *)
Ltac zbool :=
  repeat match goal with
  | |- context [?a <=? ?b] => destruct (Z.leb_spec a b)
  | |- context [?a <? ?b] => destruct (Z.ltb_spec a b)
  | |- context [?a =? ?b] => destruct (Z.eqb_spec a b)
  end; try reflexivity; try (exfalso; lia).

(** ** Structural properties of computations

    [preserves P m]: [m] keeps the state predicate [P] whenever it returns;
    [terminates m]: [m] never runs out of fuel.  Both follow the structure of the
    code, so the tactics below prove them from the lemmas in the hint databases. *)
Definition preserves {S A} (P : S -> Prop) (m : M S A) : Prop :=
  forall s a s', P s -> m s = Done a s' -> P s'.
Definition terminates {S A} (m : M S A) : Prop := forall s, m s <> OutOfFuel.

Create HintDb preserves.
Create HintDb terminates.

Section Structural.
Context {S : Type}.

Lemma preserves_bind {A B} P (m : M S A) (k : A -> M S B) :
  preserves P m -> (forall a, preserves P (k a)) -> preserves P (m ≫= k).
Proof. intros Hm Hk s b s' HP H. mstep H. eapply Hk; [|done]. by eapply Hm. Qed.
Lemma preserves_ret {A} P (a : A) : preserves (S := S) P (mret a).
Proof. intros s b s' HP H. by mprim. Qed.
Lemma preserves_gets {A} P (f : S -> A) : preserves P (gets f).
Proof. intros s b s' HP H. by mprim. Qed.
Lemma preserves_kassert P site b : preserves (S := S) P (kassert site b).
Proof. intros s u s' HP H. by mprim. Qed.
Lemma preserves_deref {A} P what (o : option A) : preserves (S := S) P (deref what o).
Proof. intros s u s' HP H. by mprim. Qed.
Lemma preserves_lift {A} P (r : res A) : preserves (S := S) P (lift r).
Proof. intros s u s' HP H. by mprim. Qed.
Lemma preserves_halt {A} P r : preserves (S := S) P (halt (A := A) r).
Proof. intros s u s' HP H. by mprim. Qed.
Lemma preserves_panic {A} P r : preserves (S := S) P (panic (A := A) r).
Proof. intros s u s' HP H. by mprim. Qed.
Lemma preserves_modify P (f : S -> S) : (forall s, P s -> P (f s)) -> preserves P (modify f).
Proof. intros Hf s u s' HP H. mprim. by apply Hf. Qed.

Lemma terminates_bind {A B} (m : M S A) (k : A -> M S B) :
  terminates m -> (forall a, terminates (k a)) -> terminates (m ≫= k).
Proof.
  intros Hm Hk s. unfold mbind, M_bind. destruct (m s) eqn:E; try discriminate; [apply Hk|by apply Hm in E].
Qed.
Lemma terminates_ret {A} (a : A) : terminates (S := S) (mret a).
Proof. discriminate. Qed.
Lemma terminates_gets {A} (f : S -> A) : terminates (gets f).
Proof. discriminate. Qed.
Lemma terminates_kassert site b : terminates (S := S) (kassert site b).
Proof. intros s. unfold kassert. by destruct b. Qed.
Lemma terminates_deref {A} what (o : option A) : terminates (S := S) (deref what o).
Proof. intros s. unfold deref. by destruct o. Qed.
Lemma terminates_lift {A} (r : res A) : terminates (S := S) (lift r).
Proof. intros s. unfold lift. by destruct r. Qed.
Lemma terminates_halt {A} r : terminates (S := S) (halt (A := A) r).
Proof. discriminate. Qed.
Lemma terminates_panic {A} r : terminates (S := S) (panic (A := A) r).
Proof. discriminate. Qed.
Lemma terminates_modify (f : S -> S) : terminates (modify f).
Proof. discriminate. Qed.
End Structural.

#[export] Hint Resolve preserves_ret preserves_gets preserves_kassert preserves_deref
  preserves_lift preserves_halt preserves_panic preserves_modify : preserves.
#[export] Hint Resolve terminates_ret terminates_gets terminates_kassert terminates_deref
  terminates_lift terminates_halt terminates_panic terminates_modify : terminates.

Ltac solve_structural bind auto_tac :=
  repeat match goal with
  | |- forall _, _ => intros
  | _ => solve [auto_tac]
  | |- context [mbind _ _] => apply bind
  | |- _ (let '(_, _) := ?p in _) => destruct p
  | |- context [match ?x with _ => _ end] => destruct x
  end.
Ltac solve_preserves := solve_structural @preserves_bind ltac:(eauto with preserves).
Ltac solve_terminates := solve_structural @terminates_bind ltac:(eauto with terminates).

(** ** Word and bit lemmas shared by the components *)

Lemma u32_small x : is_u32 x -> u32 x = x.
Proof. intros H. apply Z.mod_small. exact H. Qed.

Lemma u32_range x : is_u32 (u32 x).
Proof. apply Z.mod_pos_bound. lia. Qed.

Lemma i32_small x : - 2 ^ 31 <= x < 2 ^ 31 -> i32 x = x.
Proof. intros H. unfold i32. rewrite Z.mod_small; lia. Qed.
Lemma i64_small x : - 2 ^ 63 <= x < 2 ^ 63 -> i64 x = x.
Proof. intros H. unfold i64. rewrite Z.mod_small; lia. Qed.

Lemma testbit_above x n i : 0 <= x < 2 ^ n -> n <= i -> Z.testbit x i = false.
Proof.
  intros Hx Hi. destruct (Z.eq_dec x 0) as [->|]; [apply Z.testbit_0_l|].
  apply Z.bits_above_log2; [lia|]. apply Z.log2_lt_pow2; [lia|].
  assert (0 <= n). { destruct (Z.leb_spec 0 n); [lia|]. rewrite Z.pow_neg_r in Hx; lia. }
  pose proof (Z.pow_le_mono_r 2 n i). lia.
Qed.

(** Masking with [PAGE_FRAME] clears the page offset of a 32-bit address. *)
Lemma land_page_frame x : is_u32 x -> Z.land x PAGE_FRAME = x - x mod PAGE_SIZE.
Proof.
  intros Hx. transitivity (Z.ldiff x (Z.ones 12)).
  - apply Z.bits_inj'. intros i Hi. rewrite Z.land_spec, Z.ldiff_spec.
    destruct (Z.ltb_spec i 32).
    + f_equal. rewrite Z.testbit_ones_nonneg by lia.
      assert (Hc : forallb (fun k => Bool.eqb (Z.testbit PAGE_FRAME (Z.of_nat k))
                     (negb (Z.of_nat k <? 12))) (seq 0 32) = true) by reflexivity.
      rewrite forallb_forall in Hc. specialize (Hc (Z.to_nat i)).
      rewrite in_seq, Z2Nat.id in Hc by lia. apply Bool.eqb_prop, Hc. lia.
    + rewrite (testbit_above x 32) by (unfold is_u32 in *; lia). reflexivity.
  - rewrite Z.ldiff_ones_r, Z.shiftr_div_pow2, Z.shiftl_mul_pow2 by lia.
    change (2 ^ 12) with PAGE_SIZE. pose proof (Z.div_mod x PAGE_SIZE). unfold PAGE_SIZE in *. lia.
Qed.

Lemma land_page_offset x : Z.land x 0xfff = x mod PAGE_SIZE.
Proof. change 0xfff with (Z.ones 12). rewrite Z.land_ones by lia. reflexivity. Qed.

(** Testing a bit through a one-bit mask. *)
Lemma land_shiftl1 w o : 0 <= o -> (Z.land w (Z.shiftl 1 o) =? 0) = negb (Z.testbit w o).
Proof.
  intros Ho. rewrite Z.shiftl_1_l. destruct (Z.testbit w o) eqn:E; simpl.
  - apply Z.eqb_neq. intros H. apply (f_equal (fun z => Z.testbit z o)) in H.
    rewrite Z.land_spec, E, Z.pow2_bits_true, Z.testbit_0_l in H by lia. done.
  - apply Z.eqb_eq, Z.bits_inj'. intros i Hi. rewrite Z.land_spec, Z.testbit_0_l.
    destruct (decide (i = o)) as [->|]; [by rewrite E|].
    rewrite Z.pow2_bits_false by lia. apply andb_false_r.
Qed.

Lemma lor_shiftl1_bits w o i : 0 <= o -> 0 <= i ->
  Z.testbit (Z.lor w (Z.shiftl 1 o)) i = (i =? o) || Z.testbit w i.
Proof.
  intros. rewrite Z.lor_spec, Z.shiftl_1_l, orb_comm. f_equal.
  destruct (Z.eqb_spec i o) as [->|]; [by apply Z.pow2_bits_true|by apply Z.pow2_bits_false; lia].
Qed.

(** A word whose bits above [n] are clear is in range, and conversely. *)
Lemma range_of_bits x n : 0 <= n -> 0 <= x -> (forall i, n <= i -> Z.testbit x i = false) ->
  0 <= x < 2 ^ n.
Proof.
  intros Hn Hx H. split; [done|]. destruct (Z.eq_dec x 0) as [->|]; [lia|].
  apply Z.log2_lt_pow2; [lia|]. destruct (Z.ltb_spec (Z.log2 x) n); [done|].
  pose proof (Z.bit_log2 x) as Hb. rewrite H in Hb by done. discriminate Hb. lia.
Qed.

(** The state an operation leaves, for executions known to return. *)
Definition after {S A} (m : M S A) (s : S) : S := match m s with Done _ s' => s' | _ => s end.
Definition result {S A} (d : A) (m : M S A) (s : S) : A := match m s with Done a _ => a | _ => d end.

(** Executing an operation without normalising the state it leaves. *)
Definition returns {S A} `{EqDecision A} (a : A) (m : M S A) (s : S) : bool :=
  match m s with Done b _ => bool_decide (b = a) | _ => false end.

Lemma returns_runs {S A} `{EqDecision A} (a : A) (m : M S A) s : returns a m s = true -> m s = Done a (after m s).
Proof. unfold returns, after. destruct (m s); try done. by intros ->%bool_decide_eq_true. Qed.
Lemma returns_Done {S A} `{EqDecision A} (a : A) (m : M S A) s b s' : returns a m s = true -> m s = Done b s' -> b = a.
Proof. unfold returns. intros H He. rewrite He in H. by apply bool_decide_eq_true in H. Qed.
