(* ===== verification/Wp.v ===== *)
(** * Reasoning forwards about computations

    [wp E m s Q]: run from [s], [m] returns and [Q] holds of its result and the state it
    leaves, or it stops for a reason in [E]; it never runs out of fuel and never ends the
    thread.  And computations on a part of the state. *)
From S2P Require Import Prelude.

Definition wp {S A} (E : stop -> Prop) (m : M S A) (s : S) (Q : A -> S -> Prop) : Prop :=
  match m s with Done a s' => Q a s' | Halt r => E r | Exited _ => False | OutOfFuel => False end.

(** No reason to stop; or only a panic. *)
Definition never : stop -> Prop := fun _ => False.
Definition panics : stop -> Prop := fun r => match r with Panic _ => True | _ => False end.

Section Wp.
Context {S : Type} (E : stop -> Prop).

Lemma wp_bind {A B} (m : M S A) (k : A -> M S B) s Q : wp E m s (fun a s' => wp E (k a) s' Q) -> wp E (mbind (M := M S) k m) s Q.
Proof. unfold wp, mbind, M_bind. by destruct (m s). Qed.

Lemma wp_ret {A} (a : A) s (Q : A -> S -> Prop) : Q a s -> wp E (mret (M := M S) a) s Q.
Proof. done. Qed.

Lemma wp_mono {A} (m : M S A) s (P Q : A -> S -> Prop) : wp E m s P -> (forall a s', P a s' -> Q a s') -> wp E m s Q.
Proof. unfold wp. destruct (m s); auto. Qed.

Lemma wp_gets {A} (f : S -> A) s Q : Q (f s) s -> wp E (gets f) s Q.
Proof. done. Qed.
Lemma wp_get s (Q : S -> S -> Prop) : Q s s -> wp E get s Q.
Proof. done. Qed.
Lemma wp_modify (f : S -> S) s (Q : unit -> S -> Prop) : Q tt (f s) -> wp E (modify f) s Q.
Proof. done. Qed.
Lemma wp_kassert site b s (Q : unit -> S -> Prop) : b = true -> Q tt s -> wp E (kassert site b) s Q.
Proof. by intros ->. Qed.
Lemma wp_deref {A} what (o : option A) a s (Q : A -> S -> Prop) : o = Some a -> Q a s -> wp E (deref what o) s Q.
Proof. by intros ->. Qed.

Lemma wp_done {A} (m : M S A) s a s' (Q : A -> S -> Prop) : m s = Done a s' -> Q a s' -> wp E m s Q.
Proof. unfold wp. by intros ->. Qed.
End Wp.

Lemma wp_weaken {S A} (E E' : stop -> Prop) (m : M S A) s Q : (forall r, E r -> E' r) -> wp E m s Q -> wp E' m s Q.
Proof. unfold wp. destruct (m s); auto. Qed.

(** The reasons to stop may mention the run itself. *)
Lemma wp_stops {S A} (E E' : stop -> Prop) (m : M S A) s Q : wp E m s Q -> (forall r, m s = Halt r -> E r -> E' r) -> wp E' m s Q.
Proof. unfold wp. destruct (m s); auto. Qed.

(** Use a specification of an operation that always returns. *)
Lemma wp_use {S A} E (m : M S A) s (P Q : A -> S -> Prop) : wp never m s P -> (forall a s', P a s' -> Q a s') -> wp E m s Q.
Proof. intros H HQ. eapply wp_mono; [|exact HQ]. by eapply wp_weaken; [|exact H]. Qed.

Lemma wp_never {S A} (m : M S A) s Q : wp never m s Q -> exists a s', m s = Done a s' /\ Q a s'.
Proof. unfold wp. destruct (m s) as [a s'| | |]; try done. intros H. by exists a, s'. Qed.

(** Follow a computation: the binds, and the operations that always return. *)
Ltac wstep :=
  lazymatch goal with
  | |- wp _ (mbind _ _) _ _ => apply wp_bind
  | |- wp _ (gets _) _ _ => apply wp_gets
  | |- wp _ get _ _ => apply wp_get
  | |- wp _ (modify _) _ _ => apply wp_modify
  | |- wp _ (mret _) _ _ => apply wp_ret
  end; cbv beta iota.
Ltac wgo := repeat wstep.

(** ** A part of the state *)

Definition zoom {S T A} (what : string) (get : S -> option T) (put : T -> S -> S) (m : M T A) : M S A := fun s =>
  match get s with
  | None => Halt (Undefined what)
  | Some t =>
      match m t with
      | Done a t' => Done a (put t' s)
      | Halt r => Halt r
      | Exited t' => Exited (put t' s)
      | OutOfFuel => OutOfFuel
      end
  end.

Lemma wp_zoom {S T A} (E : stop -> Prop) what (get : S -> option T) put (m : M T A) s t Q :
  get s = Some t -> wp E m t (fun a t' => Q a (put t' s)) -> wp E (zoom what get put m) s Q.
Proof. unfold wp, zoom. intros ->. by destruct (m t). Qed.
