(* ===== verification/CString.v ===== *)
(** * Memory blocks and strings

    common/libc/string, which the kernel is built with: memcpy.c, memmove.c, memset.c,
    bzero.c, strlen.c, strcpy.c, strcat.c, strcmp.c, strchr.c, strrchr.c, strtok_r.c.

    Memory is a finite map from addresses to bytes, so that overlapping blocks and strings
    that share bytes are what they are in C; an access to an address that is not mapped is
    undefined.  A word is four bytes, the most significant first (the machine is a big-endian
    MIPS).  A pointer is an address; 0 is NULL.  A loop that looks for the end of a string
    gets one unit of fuel per mapped byte and one more: it meets no byte twice. *)
From S2P Require Import Prelude Wp.

Notation mem := (gmap Z Z).

Definition load8 (a : Z) : M mem Z := m ← get; deref "load" (m !! u32 a).
Definition store8 (a v : Z) : M mem unit :=
  m ← get; _ ← deref "store" (m !! u32 a); modify (<[u32 a := u8 v]>).

Definition load32 (a : Z) : M mem Z :=
  b0 ← load8 a; b1 ← load8 (a + 1); b2 ← load8 (a + 2); b3 ← load8 (a + 3);
  mret (b0 * 2 ^ 24 + b1 * 2 ^ 16 + b2 * 2 ^ 8 + b3).
Definition store32 (a v : Z) : M mem unit :=
  store8 a (Z.shiftr v 24);; store8 (a + 1) (Z.shiftr v 16);;
  store8 (a + 2) (Z.shiftr v 8);; store8 (a + 3) v.

(** [for (k=i; k<i+n; k++)] and [for (k=n; k>0; k--)] with the index [k-1]. *)
Fixpoint for_up {S} (n : nat) (i : Z) (body : Z -> M S unit) : M S unit :=
  match n with O => mret tt | Datatypes.S n' => body i;; for_up n' (i + 1) body end.
Fixpoint for_down {S} (n : nat) (body : Z -> M S unit) : M S unit :=
  match n with O => mret tt | Datatypes.S n' => body (Z.of_nat n');; for_down n' body end.

(** ** Blocks *)

Definition sizeof_long : Z := 4.
Definition word_aligned (a : Z) : bool := a mod sizeof_long =? 0.

Definition copy_word (dst src i : Z) : M mem unit :=
  v ← load32 (src + sizeof_long * i); store32 (dst + sizeof_long * i) v.
Definition copy_byte (dst src i : Z) : M mem unit :=
  v ← load8 (src + i); store8 (dst + i) v.

Definition memcpy (dst src len : Z) : M mem Z :=
  (if word_aligned dst && word_aligned src && word_aligned len then
     for_up (Z.to_nat (len / sizeof_long)) 0 (copy_word dst src)
   else
     for_up (Z.to_nat len) 0 (copy_byte dst src));;
  mret dst.

Definition memmove (dst src len : Z) : M mem Z :=
  if dst <? src then memcpy dst src len else
  (if word_aligned dst && word_aligned src && word_aligned len then
     for_down (Z.to_nat (len / sizeof_long)) (copy_word dst src)
   else
     for_down (Z.to_nat len) (copy_byte dst src));;
  mret dst.

Definition memset (ptr ch len : Z) : M mem Z :=
  for_up (Z.to_nat len) 0 (fun i => store8 (ptr + i) ch);; mret ptr.

Definition bzero (vblock len : Z) : M mem unit :=
  if word_aligned vblock && word_aligned len then
    for_up (Z.to_nat (len / sizeof_long)) 0 (fun i => store32 (vblock + sizeof_long * i) 0)
  else
    for_up (Z.to_nat len) 0 (fun i => store8 (vblock + i) 0).

(** ** Strings *)

Definition scan_fuel : M mem nat := gets (fun m => S (size m)).

Fixpoint strlen_loop (fuel : nat) (str ret : Z) : M mem Z :=
  match fuel with
  | O => fun _ => OutOfFuel
  | S f => c ← load8 (str + ret); if c =? 0 then mret ret else strlen_loop f str (u32 (ret + 1))
  end.
Definition strlen (str : Z) : M mem Z := f ← scan_fuel; strlen_loop f str 0.

Fixpoint strcpy_loop (fuel : nat) (dest src i : Z) : M mem unit :=
  match fuel with
  | O => fun _ => OutOfFuel
  | S f =>
      c ← load8 (src + i);
      if c =? 0 then store8 (dest + i) 0
      else store8 (dest + i) c;; strcpy_loop f dest src (u32 (i + 1))
  end.
Definition strcpy (dest src : Z) : M mem Z := f ← scan_fuel; strcpy_loop f dest src 0;; mret dest.

Definition strcat (dest src : Z) : M mem Z :=
  offset ← strlen dest; _ ← strcpy (u32 (dest + offset)) src; mret dest.

Fixpoint strcmp_loop (fuel : nat) (a b i : Z) : M mem Z :=
  match fuel with
  | O => fun _ => OutOfFuel
  | S f =>
      ca ← load8 (a + i);
      (* && reads b[i] only when a[i] is not 0, the tests below read it in any case *)
      cb ← load8 (b + i);
      if negb (ca =? 0) && (ca =? cb) then strcmp_loop f a b (u32 (i + 1))
      else if cb <? ca then mret 1 else if ca =? cb then mret 0 else mret (-1)
  end.
Definition strcmp (a b : Z) : M mem Z := f ← scan_fuel; strcmp_loop f a b 0.

Fixpoint strchr_loop (fuel : nat) (s ch : Z) : M mem Z :=
  match fuel with
  | O => fun _ => OutOfFuel
  | S f =>
      c ← load8 s;
      if c =? 0 then (if c =? ch then mret s else mret 0)
      else if c =? ch then mret s else strchr_loop f (u32 (s + 1)) ch
  end.
Definition strchr (s ch_arg : Z) : M mem Z := f ← scan_fuel; strchr_loop f s (u8 ch_arg).

Fixpoint strrchr_loop (i : nat) (s ch : Z) : M mem Z :=
  match i with
  | O => mret 0
  | S i' => c ← load8 (s + Z.of_nat i'); if c =? ch then mret (u32 (s + Z.of_nat i')) else strrchr_loop i' s ch
  end.
Definition strrchr (s ch_arg : Z) : M mem Z := n ← strlen s; strrchr_loop (Z.to_nat (u32 (n + 1))) s (u8 ch_arg).

(** The two scans of [strtok_r]: while the character is not NUL and is ([want]), or is not, a
    separator. *)
Fixpoint span_loop (fuel : nat) (want : bool) (seps p : Z) : M mem Z :=
  match fuel with
  | O => fun _ => OutOfFuel
  | S f =>
      c ← load8 p;
      if c =? 0 then mret p else
      where_ ← strchr seps c;
      if Bool.eqb (negb (where_ =? 0)) want then span_loop f want seps (u32 (p + 1)) else mret p
  end.

(** [*context] is a variable of the caller: its value goes in and comes out with the result. *)
Definition strtok_r (string_ seps context : Z) : M mem (Z * Z) :=
  let context := if string_ =? 0 then context else string_ in
  if context =? 0 then mret (0, context) else
  f ← scan_fuel;
  head ← span_loop f true seps context;
  c ← load8 head;
  if c =? 0 then mret (0, 0) else
  tail ← span_loop f false seps head;
  c ← load8 tail;
  if c =? 0 then mret (head, 0)
  else store8 tail 0;; mret (head, u32 (tail + 1)).

(** ** Reading and writing mapped memory *)

(** Memory holds bytes; a block is mapped. *)
Definition mem_ok (m : mem) : Prop := map_Forall (fun _ b => is_u8 b) m.
Definition mapped (m : mem) (p len : Z) : Prop := forall a, p <= a < p + len -> is_Some (m !! a).
(** A block does not roll over the top of memory. *)
Definition in_memory (p len : Z) : Prop := 0 <= p /\ 0 <= len /\ p + len <= 2 ^ 32.

Lemma load8_eq m a b : is_u32 a -> m !! a = Some b -> load8 a m = Done b m.
Proof. intros Ha Hb. unfold load8, get, deref, mbind, M_bind. by rewrite u32_small, Hb. Qed.

Lemma store8_eq m a v : is_u32 a -> is_Some (m !! a) -> store8 a v m = Done tt (<[a := u8 v]> m).
Proof.
  intros Ha [b Hb]. unfold store8, get, modify, deref, mbind, M_bind. by rewrite u32_small, Hb.
Qed.

Lemma load32_eq m a b0 b1 b2 b3 : 0 <= a -> a + 4 <= 2 ^ 32 ->
  m !! a = Some b0 -> m !! (a + 1) = Some b1 -> m !! (a + 2) = Some b2 -> m !! (a + 3) = Some b3 ->
  load32 a m = Done (b0 * 2 ^ 24 + b1 * 2 ^ 16 + b2 * 2 ^ 8 + b3) m.
Proof.
  intros Ha Ht H0 H1 H2 H3. unfold load32.
  rewrite (bind_ret _ _ _ _ _ (load8_eq m a b0 ltac:(unfold is_u32; lia) H0)).
  rewrite (bind_ret _ _ _ _ _ (load8_eq m (a + 1) b1 ltac:(unfold is_u32; lia) H1)).
  rewrite (bind_ret _ _ _ _ _ (load8_eq m (a + 2) b2 ltac:(unfold is_u32; lia) H2)).
  by rewrite (bind_ret _ _ _ _ _ (load8_eq m (a + 3) b3 ltac:(unfold is_u32; lia) H3)).
Qed.

Lemma store32_eq m a v : 0 <= a -> a + 4 <= 2 ^ 32 -> mapped m a 4 ->
  store32 a v m = Done tt (<[a + 3 := u8 v]> (<[a + 2 := u8 (Z.shiftr v 8)]>
    (<[a + 1 := u8 (Z.shiftr v 16)]> (<[a := u8 (Z.shiftr v 24)]> m)))).
Proof.
  intros Ha Ht Hm. unfold store32.
  do 3 (erewrite bind_ret; [|apply store8_eq; [unfold is_u32; lia|rewrite ?lookup_insert_ne by lia; apply Hm; lia]]).
  apply store8_eq; [unfold is_u32; lia|]. rewrite ?lookup_insert_ne by lia. apply Hm. lia.
Qed.

(** The bytes of a word that was put together from bytes. *)
Lemma word_bytes b0 b1 b2 b3 : is_u8 b0 -> is_u8 b1 -> is_u8 b2 -> is_u8 b3 ->
  let v := b0 * 2 ^ 24 + b1 * 2 ^ 16 + b2 * 2 ^ 8 + b3 in
  u8 (Z.shiftr v 24) = b0 /\ u8 (Z.shiftr v 16) = b1 /\ u8 (Z.shiftr v 8) = b2 /\ u8 v = b3.
Proof.
  unfold is_u8, u8. intros H0 H1 H2 H3. cbn zeta. rewrite !Z.shiftr_div_pow2 by lia.
  split_and!; Z.div_mod_to_equations; lia.
Qed.

(** ** Copying

    [copied m dst src lo hi m']: [m'] is [m] with the bytes [lo] to [hi] of the destination
    replaced by those that the source had in [m]. *)
Definition copied (m : mem) (dst src lo hi : Z) (m' : mem) : Prop :=
  forall a, m' !! a = if decide (dst + lo <= a < dst + hi) then m !! (src + (a - dst)) else m !! a.

Section Copy.
Context (dst src len : Z) (Hdst : in_memory dst len) (Hsrc : in_memory src len).

Definition copy_pre (m : mem) : Prop := mem_ok m /\ mapped m dst len /\ mapped m src len.

Lemma copied_pre m lo hi m' : 0 <= lo -> hi <= len -> copied m dst src lo hi m' -> copy_pre m -> copy_pre m'.
Proof.
  intros Hlo Hhi Hc (Hok & Hd & Hs). split_and!.
  - intros a b Ha. rewrite Hc in Ha. case_decide; by eapply Hok.
  - intros a Ha. rewrite Hc. case_decide; [apply Hs; lia|by apply Hd].
  - intros a Ha. rewrite Hc. case_decide; [apply Hs; lia|by apply Hs].
Qed.

(** One turn of a loop that copies [w] bytes at a time. *)
Definition copies_chunk (w : Z) (body : Z -> M mem unit) : Prop :=
  forall m i, copy_pre m -> 0 <= i -> w * (i + 1) <= len ->
    exists m', body i m = Done tt m' /\ copied m dst src (w * i) (w * (i + 1)) m'.

Lemma copy_byte_chunk : copies_chunk 1 (copy_byte dst src).
Proof.
  intros m i (Hok & Hd & Hs) Hi Hw. unfold in_memory in *.
  destruct (Hs (src + i) ltac:(lia)) as [b Hb].
  exists (<[dst + i := b]> m). split.
  - unfold copy_byte. rewrite (bind_ret _ _ _ _ _ (load8_eq m (src + i) b ltac:(unfold is_u32; lia) Hb)).
    rewrite store8_eq; [|unfold is_u32; lia|apply Hd; lia].
    unfold u8. rewrite Z.mod_small; [done|]. exact (Hok _ _ Hb).
  - intros a. case_decide.
    + replace a with (dst + i) by lia. rewrite lookup_insert_eq, <- Hb. f_equal. lia.
    + apply lookup_insert_ne. lia.
Qed.

Lemma copy_word_chunk : copies_chunk 4 (copy_word dst src).
Proof.
  intros m i (Hok & Hd & Hs) Hi Hw. unfold in_memory in *.
  destruct (Hs (src + 4 * i) ltac:(lia)) as [b0 H0]. destruct (Hs (src + 4 * i + 1) ltac:(lia)) as [b1 H1].
  destruct (Hs (src + 4 * i + 2) ltac:(lia)) as [b2 H2]. destruct (Hs (src + 4 * i + 3) ltac:(lia)) as [b3 H3].
  destruct (word_bytes b0 b1 b2 b3) as (E0 & E1 & E2 & E3); [by eapply Hok..|].
  eexists. split.
  - unfold copy_word, sizeof_long. rewrite (bind_ret _ _ _ _ _ (load32_eq m (src + 4 * i) b0 b1 b2 b3 ltac:(lia) ltac:(lia) H0 H1 H2 H3)).
    apply store32_eq; [lia..|]. intros a Ha. apply Hd. lia.
  - intros a. rewrite E0, E1, E2, E3. case_decide as Hin.
    + assert (a = dst + 4 * i \/ a = dst + 4 * i + 1 \/ a = dst + 4 * i + 2 \/ a = dst + 4 * i + 3) as [->|[->|[->| ->]]] by lia;
        rewrite ?lookup_insert_ne by lia; rewrite lookup_insert_eq;
        [rewrite <- H0|rewrite <- H1|rewrite <- H2|rewrite <- H3]; f_equal; lia.
    + by rewrite !lookup_insert_ne by lia.
Qed.

(** Forwards is right when the destination does not start inside the source. *)
Lemma for_up_copies w body m0 : 0 < w -> copies_chunk w body -> copy_pre m0 -> dst <= src \/ src + len <= dst ->
  forall n i m, 0 <= i -> w * (i + Z.of_nat n) <= len -> copied m0 dst src 0 (w * i) m ->
  exists m', for_up n i body m = Done tt m' /\ copied m0 dst src 0 (w * (i + Z.of_nat n)) m'.
Proof.
  intros Hw Hb H0 Hdir. induction n as [|n IH]; intros i m Hi Hn Hm; cbn [for_up].
  - exists m. split; [done|]. by replace (i + Z.of_nat 0) with i by lia.
  - destruct (Hb m i) as (m1 & E1 & C1); [eapply copied_pre, H0; [..|exact Hm]; nia|lia|nia|].
    rewrite (bind_ret _ _ _ _ _ E1). replace (i + Z.of_nat (S n)) with (i + 1 + Z.of_nat n) by lia.
    apply IH; [lia|nia|]. intros a. rewrite C1. case_decide.
    + rewrite decide_True by nia. rewrite Hm. rewrite decide_False; [done|nia].
    + rewrite Hm. by destruct (decide (dst + 0 <= a < dst + w * i)); [rewrite decide_True by nia|rewrite decide_False by nia].
Qed.

(** Backwards is right when the destination does not start below the source. *)
Lemma for_down_copies w body m0 : 0 < w -> copies_chunk w body -> copy_pre m0 -> src <= dst ->
  forall n m, w * Z.of_nat n <= len -> copied m0 dst src (w * Z.of_nat n) len m ->
  exists m', for_down n body m = Done tt m' /\ copied m0 dst src 0 len m'.
Proof.
  intros Hw Hb H0 Hdir. induction n as [|n IH]; intros m Hn Hm; cbn [for_down].
  - exists m. split; [done|]. by replace (w * Z.of_nat 0) with 0 in Hm by lia.
  - destruct (Hb m (Z.of_nat n)) as (m1 & E1 & C1); [eapply copied_pre, H0; [..|exact Hm]; nia|lia|nia|].
    rewrite (bind_ret _ _ _ _ _ E1). apply IH; [nia|]. intros a. rewrite C1. case_decide.
    + rewrite decide_True by nia. rewrite Hm. rewrite decide_False; [done|nia].
    + rewrite Hm. destruct (decide (dst + w * Z.of_nat (S n) <= a < dst + len)); [rewrite decide_True by nia|rewrite decide_False by nia]; done.
Qed.

Lemma whole_words : word_aligned len = true -> 4 * Z.of_nat (Z.to_nat (len / sizeof_long)) = len.
Proof. unfold word_aligned, sizeof_long, in_memory in *. rewrite Z.eqb_eq. Z.div_mod_to_equations. lia. Qed.

Lemma memcpy_copies m : copy_pre m -> dst <= src \/ src + len <= dst ->
  exists m', memcpy dst src len m = Done dst m' /\ copied m dst src 0 len m'.
Proof.
  intros Hm Hdir. assert (Hz : forall w, copied m dst src 0 (w * 0) m).
  { intros w a. rewrite decide_False by lia. done. }
  unfold memcpy. destruct (word_aligned dst && word_aligned src && word_aligned len) eqn:E.
  - apply andb_true_iff in E as [_ E]. pose proof (whole_words E) as Hl.
    destruct (for_up_copies 4 (copy_word dst src) m ltac:(lia) copy_word_chunk Hm Hdir (Z.to_nat (len / sizeof_long)) 0 m) as (m' & E' & C);
      [lia|lia|apply Hz|]. exists m'. rewrite (bind_ret _ _ _ _ _ E'). split; [done|]. by rewrite Z.add_0_l, Hl in C.
  - destruct (for_up_copies 1 (copy_byte dst src) m ltac:(lia) copy_byte_chunk Hm Hdir (Z.to_nat len) 0 m) as (m' & E' & C);
      [lia|unfold in_memory in *; lia|apply Hz|]. exists m'. rewrite (bind_ret _ _ _ _ _ E'). split; [done|].
    replace (1 * (0 + Z.of_nat (Z.to_nat len))) with len in C by (unfold in_memory in *; lia). done.
Qed.

Lemma memmove_copies m : copy_pre m ->
  exists m', memmove dst src len m = Done dst m' /\ copied m dst src 0 len m'.
Proof.
  intros Hm. unfold memmove. destruct (Z.ltb_spec dst src) as [Hlt|Hge]; [apply memcpy_copies; [done|lia]|].
  assert (Hz : copied m dst src len len m). { intros a. rewrite decide_False by lia. done. }
  destruct (word_aligned dst && word_aligned src && word_aligned len) eqn:E.
  - apply andb_true_iff in E as [_ E]. pose proof (whole_words E) as Hl.
    destruct (for_down_copies 4 (copy_word dst src) m ltac:(lia) copy_word_chunk Hm Hge (Z.to_nat (len / sizeof_long)) m) as (m' & E' & C);
      [lia|by rewrite Hl|]. exists m'. by rewrite (bind_ret _ _ _ _ _ E').
  - assert (Hl : 1 * Z.of_nat (Z.to_nat len) = len) by (unfold in_memory in *; lia).
    destruct (for_down_copies 1 (copy_byte dst src) m ltac:(lia) copy_byte_chunk Hm Hge (Z.to_nat len) m) as (m' & E' & C);
      [lia|by rewrite Hl|]. exists m'. by rewrite (bind_ret _ _ _ _ _ E').
Qed.
End Copy.

(** ** The reference: take all the bytes out first, then put them in *)

Definition read_block (m : mem) (p len : Z) : list Z := omap (fun a => m !! a) (seqZ p len).
Definition write_block (m : mem) (p : Z) (l : list Z) : mem := map_seqZ p l ∪ m.

Lemma write_block_lookup m p l a :
  write_block m p l !! a = if decide (p <= a < p + Z.of_nat (length l)) then l !! Z.to_nat (a - p) else m !! a.
Proof.
  unfold write_block. rewrite lookup_union, lookup_map_seqZ. case_decide as Hin.
  - destruct (lookup_lt_is_Some_2 l (Z.to_nat (a - p))) as [b Hb]; [lia|].
    rewrite option_guard_True by lia. rewrite Hb. by destruct (m !! a).
  - destruct (decide (p <= a)).
    + rewrite option_guard_True by lia. rewrite (lookup_ge_None_2 l) by lia. by destruct (m !! a).
    + rewrite option_guard_False by lia. by destruct (m !! a).
Qed.

Lemma read_block_lookup m p len : mapped m p len -> forall i : nat, Z.of_nat i < len -> read_block m p len !! i = m !! (p + Z.of_nat i).
Proof.
  unfold read_block. intros Hm i. revert p len Hm. induction i as [|i IH]; intros p len Hm Hi;
    rewrite (seqZ_cons p len) by lia; cbn [omap list_omap];
    destruct (Hm p ltac:(lia)) as [b Hb]; rewrite Hb; cbn.
  - by rewrite Z.add_0_r.
  - rewrite IH; [f_equal; lia|intros a Ha; apply Hm; lia|lia].
Qed.

Lemma read_block_length m p len : 0 <= len -> mapped m p len -> length (read_block m p len) = Z.to_nat len.
Proof.
  intros Hl Hm. remember (Z.to_nat len) as n eqn:En. revert p len Hl Hm En.
  induction n as [|n IH]; intros p len Hl Hm En.
  - unfold read_block. by rewrite seqZ_nil by lia.
  - unfold read_block in *. rewrite (seqZ_cons p len) by lia. cbn [omap list_omap].
    destruct (Hm p ltac:(lia)) as [b Hb]. rewrite Hb. cbn [length]. f_equal.
    apply IH; [lia| |lia]. intros a Ha. apply Hm. lia.
Qed.

Lemma copied_write_block m dst src len m' : 0 <= len -> mapped m src len ->
  copied m dst src 0 len m' -> m' = write_block m dst (read_block m src len).
Proof.
  intros Hl Hs Hc. apply map_eq. intros a. rewrite Hc, write_block_lookup, read_block_length by done.
  case_decide as Hin; [|by rewrite decide_False by lia]. rewrite decide_True by lia.
  rewrite read_block_lookup; [f_equal; lia|done|lia].
Qed.

(** C36: memmove returns for every pair of mapped blocks, also when they overlap, and leaves
    exactly the memory that results from taking all bytes of the source out first and then
    putting them at the destination: neither the direction of the copy nor copying by words
    shows. *)
Theorem memmove_correct (m : mem) (dst src len : Z)
  (Hok : mem_ok m) (Hd : in_memory dst len) (Hs : in_memory src len)
  (Md : mapped m dst len) (Ms : mapped m src len) :
  memmove dst src len m = Done dst (write_block m dst (read_block m src len)).
Proof.
  destruct (memmove_copies dst src len Hd Hs m) as (m' & E & C); [done|].
  rewrite E. f_equal. apply copied_write_block; [unfold in_memory in *; lia|done|done].
Qed.

(** A block of sixteen bytes at 4096; the overlapping copies go by words and by bytes. *)
Definition block_mem : mem := map_seqZ 4096 (seqZ 65 16).

Lemma block_mem_ok : mem_ok block_mem.
Proof. unfold mem_ok. apply (bool_decide_unpack _). vm_compute. exact I. Qed.

Lemma block_mem_mapped p len : 4096 <= p -> p + len <= 4112 -> mapped block_mem p len.
Proof.
  intros Hp Hl a Ha. unfold block_mem. rewrite lookup_map_seqZ, option_guard_True by lia.
  apply lookup_lt_is_Some. rewrite length_seqZ. lia.
Qed.

Lemma memmove_correct_witness :
  memmove 4100 4096 8 block_mem = Done 4100 (write_block block_mem 4100 [65; 66; 67; 68; 69; 70; 71; 72]) /\
  memmove 4097 4096 7 block_mem = Done 4097 (write_block block_mem 4097 [65; 66; 67; 68; 69; 70; 71]).
Proof.
  split.
  - apply (memmove_correct block_mem 4100 4096 8); [exact block_mem_ok|unfold in_memory; lia..|apply block_mem_mapped; lia|apply block_mem_mapped; lia].
  - apply (memmove_correct block_mem 4097 4096 7); [exact block_mem_ok|unfold in_memory; lia..|apply block_mem_mapped; lia|apply block_mem_mapped; lia].
Defined.

(** memcpy is the same when the destination does not start inside the source. *)
Lemma memcpy_correct (m : mem) (dst src len : Z) :
  mem_ok m -> in_memory dst len -> in_memory src len -> mapped m dst len -> mapped m src len ->
  dst <= src \/ src + len <= dst ->
  memcpy dst src len m = Done dst (write_block m dst (read_block m src len)).
Proof.
  intros Hok Hd Hs Md Ms Hdir.
  destruct (memcpy_copies dst src len Hd Hs m) as (m' & E & C); [done|done|].
  rewrite E. f_equal. apply copied_write_block; [unfold in_memory in *; lia|done|done].
Qed.

(** ** Filling *)

Definition filled (m : mem) (p lo hi b : Z) (m' : mem) : Prop :=
  forall a, m' !! a = if decide (p + lo <= a < p + hi) then Some b else m !! a.

Lemma for_up_fills p len b w body m0 : in_memory p len -> 0 < w -> mapped m0 p len ->
  (forall m i, mapped m p len -> 0 <= i -> w * (i + 1) <= len ->
     exists m', body i m = Done tt m' /\ filled m p (w * i) (w * (i + 1)) b m') ->
  forall n i m, 0 <= i -> w * (i + Z.of_nat n) <= len -> filled m0 p 0 (w * i) b m ->
  exists m', for_up n i body m = Done tt m' /\ filled m0 p 0 (w * (i + Z.of_nat n)) b m'.
Proof.
  intros Hp Hw H0 Hb. induction n as [|n IH]; intros i m Hi Hn Hm; cbn [for_up].
  - exists m. split; [done|]. by replace (i + Z.of_nat 0) with i by lia.
  - destruct (Hb m i) as (m1 & E1 & C1); [|lia|nia|].
    { intros a Ha. rewrite Hm. case_decide; [done|by apply H0]. }
    rewrite (bind_ret _ _ _ _ _ E1). replace (i + Z.of_nat (S n)) with (i + 1 + Z.of_nat n) by lia.
    apply IH; [lia|nia|]. intros a. rewrite C1. case_decide; [by rewrite decide_True by nia|].
    rewrite Hm. by destruct (decide (p + 0 <= a < p + w * i)); [rewrite decide_True by nia|rewrite decide_False by nia].
Qed.

Lemma filled_write_block m p len b m' : 0 <= len -> filled m p 0 len b m' -> m' = write_block m p (replicate (Z.to_nat len) b).
Proof.
  intros Hl Hf. apply map_eq. intros a. rewrite Hf, write_block_lookup, length_replicate.
  case_decide; [rewrite decide_True by lia|by rewrite decide_False by lia].
  symmetry. apply lookup_replicate_2. lia.
Qed.

Lemma store8_fills p len b m i : in_memory p len -> mapped m p len -> 0 <= i -> 1 * (i + 1) <= len ->
  exists m', store8 (p + i) b m = Done tt m' /\ filled m p (1 * i) (1 * (i + 1)) (u8 b) m'.
Proof.
  intros Hp Hm Hi Hl. eexists. split; [apply store8_eq; [unfold in_memory, is_u32 in *; lia|apply Hm; lia]|].
  intros a. case_decide; [replace a with (p + i) by lia; apply lookup_insert_eq|apply lookup_insert_ne; lia].
Qed.

Lemma memset_correct (m : mem) (ptr ch len : Z) : in_memory ptr len -> mapped m ptr len ->
  memset ptr ch len m = Done ptr (write_block m ptr (replicate (Z.to_nat len) (u8 ch))).
Proof.
  intros Hp Hm. destruct (for_up_fills ptr len (u8 ch) 1 (fun i => store8 (ptr + i) ch) m Hp ltac:(lia) Hm) with (n := Z.to_nat len) (i := 0) (m := m) as (m' & E & F).
  - intros. by eapply store8_fills.
  - lia.
  - unfold in_memory in *. lia.
  - intros a. by rewrite decide_False by lia.
  - unfold memset. rewrite (bind_ret _ _ _ _ _ E). f_equal. apply filled_write_block; [unfold in_memory in *; lia|].
    by replace (1 * (0 + Z.of_nat (Z.to_nat len))) with len in F by (unfold in_memory in *; lia).
Qed.

(** bzero writes words when it can: the same zeros as memset. *)
Theorem bzero_is_memset (m : mem) (p len : Z) : in_memory p len -> mapped m p len ->
  bzero p len m = (memset p 0 len;; mret tt) m.
Proof.
  intros Hp Hm. rewrite (bind_ret _ _ _ _ _ (memset_correct m p 0 len Hp Hm)). unfold bzero.
  destruct (word_aligned p && word_aligned len) eqn:E.
  - apply andb_true_iff in E as [_ E].
    destruct (for_up_fills p len 0 4 (fun i => store32 (p + sizeof_long * i) 0) m Hp ltac:(lia) Hm) with (n := Z.to_nat (len / sizeof_long)) (i := 0) (m := m) as (m' & E' & F).
    + intros m1 i Hm1 Hi Hl. unfold sizeof_long, in_memory in *. eexists. split; [apply store32_eq; [lia..|]|].
      { intros a Ha. apply Hm1. lia. }
      intros a. case_decide; [|by rewrite !lookup_insert_ne by lia].
      assert (a = p + 4 * i \/ a = p + 4 * i + 1 \/ a = p + 4 * i + 2 \/ a = p + 4 * i + 3) as [->|[->|[->| ->]]] by lia;
        rewrite ?lookup_insert_ne by lia; by rewrite lookup_insert_eq.
    + lia.
    + rewrite Z.add_0_l, (whole_words p len) by done. lia.
    + intros a. by rewrite decide_False by lia.
    + rewrite E'. cbn. f_equal. apply filled_write_block; [unfold in_memory in *; lia|].
      by rewrite Z.add_0_l, (whole_words p len) in F.
  - pose proof (memset_correct m p 0 len Hp Hm) as Hs. unfold memset in Hs. apply bind_Done in Hs as (u & s1 & E1 & E2).
    mprim. rewrite E1. cbn. by inversion E2.
Qed.

(** * What the string functions compute

    [str_at m p l]: the string [l] stands at [p], with its NUL.  Each function of
    common/libc/string on strings returns what its reference on lists says. *)

Definition bytes_at (m : mem) (p : Z) (l : list Z) : Prop :=
  forall (i : nat) b, l !! i = Some b -> m !! (p + Z.of_nat i) = Some b.

(** A string is a list of bytes that are not NUL. *)
Definition chars (l : list Z) : Prop := Forall (fun b => 0 < b < 256) l.

Record str_at (m : mem) (p : Z) (l : list Z) : Prop := {
  str_bytes : bytes_at m p (l ++ [0]);
  str_chars : chars l;
  str_low : 0 < p;
  str_high : p + Z.of_nat (length l) < 2 ^ 32 }.

Lemma bytes_at_cons m p b l : bytes_at m p (b :: l) <-> m !! p = Some b /\ bytes_at m (p + 1) l.
Proof.
  split.
  - intros H. split; [rewrite <- (Z.add_0_r p); by apply (H 0%nat)|].
    intros i c Hi. replace (p + 1 + Z.of_nat i) with (p + Z.of_nat (S i)) by lia. by apply H.
  - intros [H0 H] [|i] c Hi; [by rewrite Z.add_0_r; inversion Hi; subst|].
    replace (p + Z.of_nat (S i)) with (p + 1 + Z.of_nat i) by lia. by apply H.
Qed.

Lemma bytes_at_app m p l k : bytes_at m p (l ++ k) <-> bytes_at m p l /\ bytes_at m (p + Z.of_nat (length l)) k.
Proof.
  revert p. induction l as [|b l IH]; intros p; cbn [app length].
  - rewrite Z.add_0_r. split; [|tauto]. intros H. split; [intros i b Hi; by rewrite lookup_nil in Hi|done].
  - rewrite !bytes_at_cons, IH. replace (p + 1 + Z.of_nat (length l)) with (p + Z.of_nat (S (length l))) by lia. tauto.
Qed.

Lemma bytes_at_ext m m' p l : (forall a, p <= a < p + Z.of_nat (length l) -> m' !! a = m !! a) -> bytes_at m p l -> bytes_at m' p l.
Proof. intros He H i b Hi. rewrite He; [by apply H|]. apply lookup_lt_Some in Hi. lia. Qed.

Lemma bytes_at_write m p l : bytes_at (write_block m p l) p l.
Proof.
  intros i b Hi. pose proof (lookup_lt_Some _ _ _ Hi). rewrite write_block_lookup, decide_True by lia.
  by replace (Z.to_nat (p + Z.of_nat i - p)) with i by lia.
Qed.

Lemma str_at_nil m p : str_at m p [] <-> m !! p = Some 0 /\ 0 < p < 2 ^ 32.
Proof.
  split.
  - intros [H _ Hl Hh]. apply bytes_at_cons in H as [H _]. cbn in *. lia || (split; [done|lia]).
  - intros [H Hp]. split; [|by constructor|lia|cbn; lia]. apply bytes_at_cons. split; [done|]. intros i b Hi. by rewrite lookup_nil in Hi.
Qed.

Lemma str_at_cons m p c l : str_at m p (c :: l) <-> m !! p = Some c /\ 0 < c < 256 /\ 0 < p /\ str_at m (p + 1) l.
Proof.
  split.
  - intros [H Hc Hl Hh]. apply bytes_at_cons in H as [H0 H]. inversion Hc as [|? ? Hcc Hcl]; subst. cbn [length] in Hh.
    split_and!; [done|lia..|]. split; [done|done|lia|lia].
  - intros (H0 & Hc & Hp & [H Hcl Hl Hh]). split; [by apply bytes_at_cons|by constructor|lia|cbn [length]; lia].
Qed.

Lemma str_at_app m p l k : chars l -> 0 < p -> str_at m p (l ++ k) <-> bytes_at m p l /\ str_at m (p + Z.of_nat (length l)) k.
Proof.
  intros Hc Hp. split.
  - intros [H Ha Hl Hh]. rewrite <- app_assoc in H. apply bytes_at_app in H as [H1 H2].
    apply Forall_app in Ha as [_ Hk]. rewrite length_app in Hh. split; [done|]. split; [done|done|lia|lia].
  - intros [H1 [H2 Hk Hl Hh]]. split; [rewrite <- app_assoc; by apply bytes_at_app|by apply Forall_app|lia|rewrite length_app; lia].
Qed.

Lemma str_at_ext m m' p l : (forall a, p <= a <= p + Z.of_nat (length l) -> m' !! a = m !! a) -> str_at m p l -> str_at m' p l.
Proof. intros He [H Hc Hl Hh]. split; [|done..]. eapply bytes_at_ext, H. intros a. rewrite length_app. cbn [length]. intros Ha. apply He. lia. Qed.

Lemma str_at_chars m p l : str_at m p l -> chars l.
Proof. by intros []. Qed.

Lemma str_at_write m p l : chars l -> 0 < p -> p + Z.of_nat (length l) < 2 ^ 32 -> str_at (write_block m p (l ++ [0])) p l.
Proof. intros. split; [apply bytes_at_write|done..]. Qed.

Lemma str_at_intro m p l : chars l -> 0 < p -> bytes_at m p l -> m !! (p + Z.of_nat (length l)) = Some 0 -> p + Z.of_nat (length l) < 2 ^ 32 -> str_at m p l.
Proof.
  intros Hc Hp Hb H0 Hh. rewrite <- (app_nil_r l). apply str_at_app; [done..|]. split; [done|]. apply str_at_nil. split; [done|lia].
Qed.

(** Checking that a string stands somewhere. *)
Definition str_atb (m : mem) (p : Z) (l : list Z) : bool :=
  bool_decide ((fun a => m !! a) <$> seqZ p (Z.of_nat (length l) + 1) = Some <$> l ++ [0]) &&
  forallb (fun b => (0 <? b) && (b <? 256)) l && (0 <? p) && (p + Z.of_nat (length l) <? 2 ^ 32).
Lemma str_atb_true m p l : str_atb m p l = true -> str_at m p l.
Proof.
  unfold str_atb. rewrite !andb_true_iff, bool_decide_eq_true, forallb_forall, !Z.ltb_lt. intros [[[Hb Hc] Hl] Hh]. split; [| |done|done].
  - intros i b Hi. pose proof (lookup_lt_Some _ _ _ Hi) as Hlt. rewrite length_app in Hlt. cbn in Hlt.
    assert (E : (Some <$> l ++ [0]) !! i = Some (Some b)) by (rewrite list_lookup_fmap, Hi; done).
    rewrite <- Hb, list_lookup_fmap, lookup_seqZ_lt in E by lia. cbn in E. congruence.
  - apply Forall_forall. intros b Hin. apply list_elem_of_In in Hin. specialize (Hc b Hin). apply andb_true_iff in Hc. rewrite !Z.ltb_lt in Hc. lia.
Qed.

(** The fuel of a scan is enough: the bytes of a string are different bytes of memory. *)
Lemma bytes_at_size m p l : bytes_at m p l -> (length l <= size m)%nat.
Proof.
  intros H. transitivity (size (list_to_set (seqZ p (Z.of_nat (length l))) : gset Z)).
  - rewrite size_list_to_set by apply NoDup_seqZ. rewrite length_seqZ. lia.
  - rewrite <- size_dom. apply subseteq_size. intros a. rewrite elem_of_list_to_set, elem_of_seqZ, elem_of_dom. intros Ha.
    destruct (lookup_lt_is_Some_2 l (Z.to_nat (a - p))) as [b Hb]; [lia|]. exists b.
    rewrite <- (H _ _ Hb). f_equal. lia.
Qed.
Lemma str_at_size m p l : str_at m p l -> (length l < size m)%nat.
Proof. intros [H _ _ _]. apply bytes_at_size in H. rewrite length_app in H. cbn in H. lia. Qed.

Lemma load8_str m p q l : str_at m p l -> q = p -> load8 q m = Done (default 0 (head l)) m.
Proof.
  intros H ->. apply load8_eq; destruct l; [apply str_at_nil in H|apply str_at_cons in H|apply str_at_nil in H|apply str_at_cons in H];
    unfold is_u32; cbn; try tauto; destruct H as (? & ? & ? & [? ? ? ?]) || idtac; lia.
Qed.

Ltac load8_at H := erewrite bind_ret; [|eapply load8_str; [exact H|lia]]; cbn [default head from_option id].

(** ** strlen, strcpy, strcat *)

Lemma strlen_loop_eq m str l : forall f ret, 0 <= ret -> str_at m (str + ret) l -> (length l < f)%nat -> ret + Z.of_nat (length l) < 2 ^ 32 ->
  strlen_loop f str ret m = Done (ret + Z.of_nat (length l)) m.
Proof.
  induction l as [|c l IH]; intros [|f] ret Hr H Hf Hb; try (cbn in Hf; lia); cbn [strlen_loop]; load8_at H.
  - cbn. unfold mret, M_ret. f_equal. lia.
  - apply str_at_cons in H as (_ & Hc & _ & H). rewrite (proj2 (Z.eqb_neq c 0)) by lia. cbn [length] in *.
    rewrite u32_small by (unfold is_u32; lia). rewrite IH; [f_equal; lia|lia|by rewrite Z.add_assoc|lia|lia].
Qed.

Lemma strlen_eq m p l : str_at m p l -> strlen p m = Done (Z.of_nat (length l)) m.
Proof.
  intros H. unfold strlen, scan_fuel, gets, mbind, M_bind. rewrite strlen_loop_eq with (l := l); [done|lia|by rewrite Z.add_0_r| |].
  - apply str_at_size in H. lia.
  - destruct H. lia.
Qed.

(** One byte more is copied. *)
Lemma copied_snoc m0 dest src n m c : 0 <= n -> copied m0 dest src 0 n m -> m0 !! (src + n) = Some c ->
  copied m0 dest src 0 (n + 1) (<[dest + n := c]> m).
Proof.
  intros Hn Hc Hb a. destruct (decide (a = dest + n)) as [->|].
  - rewrite lookup_insert_eq, decide_True by lia. rewrite <- Hb. f_equal. lia.
  - rewrite lookup_insert_ne by lia. rewrite Hc.
    by destruct (decide (dest + 0 <= a < dest + n)); [rewrite decide_True by lia|rewrite decide_False by lia].
Qed.

(** The bytes of the string that are still to be copied are where they were, as long as the
    destination does not start inside the string behind its first byte. *)
Section Strcpy.
Context (m0 : mem) (dest src : Z) (l : list Z).
Context (Hm : mapped m0 dest (Z.of_nat (length l) + 1)) (Hi : in_memory dest (Z.of_nat (length l) + 1)).
Context (Hs : str_at m0 src l) (Hdir : dest <= src \/ src + Z.of_nat (length l) < dest).

Lemma strcpy_loop_eq : forall k j f m, l = j ++ k -> (length k < f)%nat -> copied m0 dest src 0 (Z.of_nat (length j)) m ->
  exists m', strcpy_loop f dest src (Z.of_nat (length j)) m = Done tt m' /\ copied m0 dest src 0 (Z.of_nat (length l) + 1) m'.
Proof.
  induction k as [|c k IH]; intros j [|f] m Hl Hf Hc; try (cbn in Hf; lia); cbn [strcpy_loop];
    pose proof (f_equal length Hl) as Hlen; rewrite length_app in Hlen; cbn [length] in Hlen;
    destruct Hs as [Hbytes Hch Hlow Hhigh]; unfold in_memory in Hi;
    rewrite Hl, <- app_assoc in Hbytes; apply bytes_at_app in Hbytes as [_ Hbytes];
    apply bytes_at_cons in Hbytes as [Hk _];
    match type of Hk with _ = Some ?c => assert (Hb : m !! (src + Z.of_nat (length j)) = Some c) by (rewrite Hc, decide_False by lia; done) end;
    (erewrite bind_ret; [|apply load8_eq; [unfold is_u32; lia|exact Hb]]);
    (assert (Hst : is_Some (m !! (dest + Z.of_nat (length j)))) by (rewrite Hc, decide_False by lia; apply Hm; lia)).
  - cbn [Z.eqb]. eexists. split; [apply store8_eq; [unfold is_u32; lia|done]|].
    replace (length l) with (length j) by lia. apply copied_snoc; [lia|done|done].
  - assert (0 < c < 256). { unfold chars in Hch. rewrite Hl in Hch. apply Forall_app in Hch as [_ Hch]. by apply Forall_inv in Hch. }
    rewrite (proj2 (Z.eqb_neq c 0)) by lia.
    erewrite bind_ret; [|apply store8_eq; [unfold is_u32; lia|done]].
    rewrite u32_small by (unfold is_u32; lia). unfold u8. rewrite Z.mod_small by lia.
    replace (Z.of_nat (length j) + 1) with (Z.of_nat (length (j ++ [c]))) by (rewrite length_app; cbn; lia).
    apply IH; [by rewrite <- app_assoc|cbn in Hf; lia|].
    rewrite length_app, Nat2Z.inj_add. apply copied_snoc; [lia|done|done].
Qed.

Lemma strcpy_copies : exists m', strcpy dest src m0 = Done dest m' /\ copied m0 dest src 0 (Z.of_nat (length l) + 1) m'.
Proof.
  unfold strcpy, scan_fuel, gets, mbind, M_bind.
  destruct (strcpy_loop_eq l [] (S (size m0)) m0 eq_refl) as (m' & E & C).
  - apply str_at_size in Hs. lia.
  - intros a. by rewrite decide_False by (cbn; lia).
  - change (Z.of_nat (length [])) with 0 in E. rewrite E. by exists m'.
Qed.
End Strcpy.

Lemma bytes_at_mapped m p l : bytes_at m p l -> mapped m p (Z.of_nat (length l)).
Proof.
  intros H a Ha. destruct (lookup_lt_is_Some_2 l (Z.to_nat (a - p))) as [b Hb]; [lia|]. exists b. rewrite <- (H _ _ Hb). f_equal. lia.
Qed.
Lemma bytes_at_read m p l : bytes_at m p l -> read_block m p (Z.of_nat (length l)) = l.
Proof.
  intros H. pose proof (bytes_at_mapped m p l H) as Hm.
  apply list_eq_same_length with (n := length l); [done|rewrite read_block_length by (done || lia); lia|].
  intros i x y Hi Hx Hy. rewrite read_block_lookup in Hx by (done || lia). rewrite (H _ _ Hy) in Hx. congruence.
Qed.
Lemma str_at_length m p l : str_at m p l -> mapped m p (Z.of_nat (length l) + 1).
Proof. intros [H _ _ _]. apply bytes_at_mapped in H. rewrite length_app, Nat2Z.inj_add in H. exact H. Qed.
Lemma str_at_read m p l : str_at m p l -> read_block m p (Z.of_nat (length l) + 1) = l ++ [0].
Proof. intros [H _ _ _]. apply bytes_at_read in H. by rewrite length_app, Nat2Z.inj_add in H. Qed.

Lemma strcpy_eq m dest src l : mapped m dest (Z.of_nat (length l) + 1) -> in_memory dest (Z.of_nat (length l) + 1) ->
  str_at m src l -> dest <= src \/ src + Z.of_nat (length l) < dest ->
  strcpy dest src m = Done dest (write_block m dest (l ++ [0])).
Proof.
  intros Hm Hi Hs Hdir. destruct (strcpy_copies m dest src l Hm Hi Hs Hdir) as (m' & E & C). rewrite E. f_equal.
  rewrite <- (str_at_read m src l Hs). apply copied_write_block; [lia|by apply str_at_length|done].
Qed.

(** strcat appends: behind it the destination holds both strings. *)
Theorem strcat_correct m dest src l k : str_at m dest l -> str_at m src k ->
  mapped m dest (Z.of_nat (length l + length k) + 1) -> in_memory dest (Z.of_nat (length l + length k) + 1) ->
  src + Z.of_nat (length k) < dest \/ dest + Z.of_nat (length l + length k) < src ->
  exists m', strcat dest src m = Done dest m' /\ str_at m' dest (l ++ k) /\
    forall a, ~ (dest <= a <= dest + Z.of_nat (length l + length k)) -> m' !! a = m !! a.
Proof.
  intros Hl Hk Hm Hi Hdis. unfold strcat, in_memory in *. rewrite (bind_ret _ _ _ _ _ (strlen_eq m dest l Hl)).
  rewrite u32_small by (unfold is_u32; lia).
  erewrite bind_ret; [|apply strcpy_eq with (l := k); [|unfold in_memory; lia|done|lia]].
  2: { intros a Ha. apply Hm. lia. }
  eexists. split; [done|]. split.
  - destruct Hl as [Hb Hc Hlo Hhi], Hk as [Hbk Hck Hlk Hhk]. split; [|by apply Forall_app|lia|rewrite length_app; lia].
    rewrite <- app_assoc. apply bytes_at_app. split; [|apply bytes_at_write].
    apply bytes_at_app in Hb as [Hb _]. eapply bytes_at_ext, Hb. intros a Ha. rewrite write_block_lookup, decide_False by lia. done.
  - intros a Ha. rewrite write_block_lookup, decide_False; [done|]. rewrite length_app. cbn. lia.
Qed.

(** ** strcmp, strchr, strrchr *)

Fixpoint lex_cmp (a b : list Z) : Z :=
  match a, b with
  | [], [] => 0
  | [], _ => -1
  | _, [] => 1
  | x :: a', y :: b' => if x =? y then lex_cmp a' b' else if y <? x then 1 else -1
  end.

Lemma lex_cmp_eq a b : lex_cmp a b = 0 <-> a = b.
Proof.
  revert b. induction a as [|x a IH]; intros [|y b]; cbn; try done.
  destruct (Z.eqb_spec x y) as [->|]; [rewrite IH; split; congruence|].
  destruct (y <? x); split; congruence.
Qed.

Lemma strcmp_loop_eq m p q a : forall b f i, 0 <= i -> str_at m (p + i) a -> str_at m (q + i) b -> (length a < f)%nat -> i + Z.of_nat (length a) < 2 ^ 32 ->
  strcmp_loop f p q i m = Done (lex_cmp a b) m.
Proof.
  induction a as [|x a IH]; intros b [|f] i Hi Ha Hb Hf Hr; try (cbn in Hf; lia); cbn [strcmp_loop];
    load8_at Ha; load8_at Hb; destruct b as [|y b]; cbn [default head from_option id]; cbn [lex_cmp]; try done.
  - apply str_at_cons in Hb as (_ & ? & _). by rewrite (proj2 (Z.ltb_ge y 0)), (proj2 (Z.eqb_neq 0 y)) by lia.
  - apply str_at_cons in Ha as (_ & ? & _). rewrite (proj2 (Z.eqb_neq x 0)) by lia. by rewrite (proj2 (Z.ltb_lt 0 x)) by lia.
  - apply str_at_cons in Ha as (_ & ? & _ & Ha), Hb as (_ & ? & _ & Hb). rewrite (proj2 (Z.eqb_neq x 0)) by lia. cbn [negb andb length] in *.
    destruct (Z.eqb_spec x y) as [->|]; [|by destruct (y <? x)].
    rewrite u32_small by (unfold is_u32; lia). apply IH; [lia|by rewrite Z.add_assoc|by rewrite Z.add_assoc|lia|lia].
Qed.

Lemma strcmp_eq m p q a b : str_at m p a -> str_at m q b -> strcmp p q m = Done (lex_cmp a b) m.
Proof.
  intros Ha Hb. unfold strcmp, scan_fuel, gets, mbind, M_bind. apply strcmp_loop_eq; [lia|by rewrite Z.add_0_r..| |].
  - apply str_at_size in Ha. lia.
  - destruct Ha. lia.
Qed.

(** The first place of a byte in a list. *)
Fixpoint index_of (c : Z) (l : list Z) : option nat :=
  match l with [] => None | x :: l' => if x =? c then Some O else S <$> index_of c l' end.

Lemma index_of_Some c l i : index_of c l = Some i -> l !! i = Some c /\ forall j, (j < i)%nat -> l !! j <> Some c.
Proof.
  revert i. induction l as [|x l IH]; intros i; cbn; [done|]. destruct (Z.eqb_spec x c) as [->|Hx].
  - intros [= <-]. split; [done|lia].
  - destruct (index_of c l) as [k|] eqn:E; [|done]. intros [= <-]. destruct (IH k eq_refl) as [H1 H2]. split; [done|].
    intros [|j] Hj; cbn; [congruence|apply H2; lia].
Qed.
Lemma index_of_None c l : index_of c l = None <-> c ∉ l.
Proof.
  induction l as [|x l IH]; cbn; [split; [intros _; apply not_elem_of_nil|done]|].
  rewrite not_elem_of_cons. destruct (Z.eqb_spec x c) as [->|Hx]; [split; [done|tauto]|].
  destruct (index_of c l); cbn; [split; [done|intros [_ H]; by apply IH in H]|]. split; [|done]. intros _. split; [congruence|by apply IH].
Qed.

Lemma strchr_loop_eq m ch l : forall f s, str_at m s l -> (length l < f)%nat ->
  strchr_loop f s ch m = Done (match index_of ch (l ++ [0]) with Some i => s + Z.of_nat i | None => 0 end) m.
Proof.
  induction l as [|c l IH]; intros [|f] s H Hf; try (cbn in Hf; lia); cbn [strchr_loop]; load8_at H; cbn [app index_of].
  - destruct (Z.eqb_spec 0 ch); cbn; unfold mret, M_ret; by rewrite ?Z.add_0_r.
  - apply str_at_cons in H as (_ & ? & ? & H). rewrite (proj2 (Z.eqb_neq c 0)) by lia.
    destruct (Z.eqb_spec c ch); cbn; unfold mret, M_ret; [by rewrite Z.add_0_r|].
    rewrite u32_small by (destruct H; unfold is_u32; lia). rewrite (IH f (s + 1)) by (done || (cbn in Hf; lia)).
    destruct (index_of ch (l ++ [0])); cbn; f_equal; lia.
Qed.

Lemma strchr_eq m s l ch : str_at m s l ->
  strchr s ch m = Done (match index_of (u8 ch) (l ++ [0]) with Some i => s + Z.of_nat i | None => 0 end) m.
Proof.
  intros H. unfold strchr, scan_fuel, gets, mbind, M_bind. apply strchr_loop_eq; [done|].
  apply str_at_size in H. lia.
Qed.

(** Asking for a byte of the string. *)
Lemma strchr_mem m s l ch : str_at m s l -> 0 < ch < 256 ->
  exists r, strchr s ch m = Done r m /\ negb (r =? 0) = bool_decide (ch ∈ l).
Proof.
  intros H Hc. rewrite (strchr_eq m s l ch H). unfold u8. rewrite Z.mod_small by lia. eexists. split; [done|].
  assert (0 < s) by (by destruct H). destruct (index_of ch (l ++ [0])) as [i|] eqn:E.
  - apply index_of_Some in E as [E _]. apply list_elem_of_lookup_2, elem_of_app in E as [E|E].
    + rewrite bool_decide_true by done. by rewrite (proj2 (Z.eqb_neq (s + Z.of_nat i) 0)) by lia.
    + apply list_elem_of_singleton in E. lia.
  - apply index_of_None in E. rewrite bool_decide_false; [done|]. set_solver.
Qed.

(** The last place: strrchr looks at the bytes of the string and its NUL from the right. *)
Fixpoint last_index (c : Z) (l : list Z) (n : nat) : option nat :=
  match n with O => None | S n' => if bool_decide (l !! n' = Some c) then Some n' else last_index c l n' end.

Lemma last_index_Some c l n i : last_index c l n = Some i -> l !! i = Some c /\ forall j, (i < j < n)%nat -> l !! j <> Some c.
Proof.
  induction n as [|n IH]; cbn; [done|]. case_bool_decide as Hn.
  - intros [= <-]. split; [done|lia].
  - intros H. destruct (IH H) as [H1 H2]. split; [done|]. intros j Hj. destruct (decide (j = n)) as [->|]; [done|apply H2; lia].
Qed.

Theorem strrchr_correct m s l ch : str_at m s l -> Z.of_nat (length l) + 1 < 2 ^ 32 ->
  strrchr s ch m = Done (match last_index (u8 ch) (l ++ [0]) (length l + 1) with Some i => s + Z.of_nat i | None => 0 end) m.
Proof.
  intros H Hl. unfold strrchr. rewrite (bind_ret _ _ _ _ _ (strlen_eq m s l H)). rewrite u32_small by (unfold is_u32; lia).
  replace (Z.to_nat (Z.of_nat (length l) + 1)) with (length l + 1)%nat by lia.
  assert (Hn : (length l + 1 <= length (l ++ [0%Z]))%nat) by (rewrite length_app; cbn; lia). revert Hn.
  generalize (length l + 1)%nat as n. induction n as [|n IH]; intros Hn; cbn [strrchr_loop last_index]; [done|].
  destruct (lookup_lt_is_Some_2 (l ++ [0]) n) as [b Hb]; [lia|]. destruct H as [Hby Hc Hlo Hhi]. rewrite length_app in Hn. cbn in Hn.
  erewrite bind_ret; [|apply load8_eq; [unfold is_u32; lia|by apply Hby]]. rewrite Hb.
  destruct (Z.eqb_spec b (u8 ch)) as [->|Hne].
  - rewrite bool_decide_true by done. rewrite u32_small by (unfold is_u32; lia). done.
  - rewrite bool_decide_false by congruence. apply IH. rewrite length_app. cbn. lia.
Qed.

(** ** strtok_r *)

Fixpoint span (P : Z -> bool) (l : list Z) : list Z * list Z :=
  match l with
  | [] => ([], [])
  | x :: l' => if P x then let '(a, b) := span P l' in (x :: a, b) else ([], l)
  end.

Lemma span_spec P l a b : span P l = (a, b) -> l = a ++ b /\ Forall (fun x => P x = true) a /\ (forall x, head b = Some x -> P x = false).
Proof.
  revert a b. induction l as [|x l IH]; intros a b; cbn; [intros [= <- <-]; by split_and!|].
  destruct (P x) eqn:E.
  - destruct (span P l) as [a' b']. intros [= <- <-]. destruct (IH a' b' eq_refl) as (-> & Ha & Hb). split_and!; [done|by constructor|done].
  - intros [= <- <-]. split_and!; [done|constructor|]. by intros y [= <-].
Qed.

Definition is_sep (seps : list Z) (c : Z) : bool := bool_decide (c ∈ seps).

Lemma span_loop_eq m want seps ks l : str_at m seps ks -> forall f p, str_at m p l -> (length l < f)%nat ->
  span_loop f want seps p m = Done (p + Z.of_nat (length (span (fun c => Bool.eqb (is_sep ks c) want) l).1)) m.
Proof.
  intros Hk. induction l as [|c l IH]; intros [|f] p H Hf; try (cbn in Hf; lia); cbn [span_loop]; load8_at H; cbn [span].
  - cbn. by rewrite Z.add_0_r.
  - apply str_at_cons in H as (_ & Hc & Hp & H). rewrite (proj2 (Z.eqb_neq c 0)) by lia.
    destruct (strchr_mem m seps ks c Hk Hc) as (r & E & Er). rewrite (bind_ret _ _ _ _ _ E), Er. unfold is_sep at 1.
    destruct (Bool.eqb _ want).
    + rewrite u32_small by (destruct H; unfold is_u32; lia). rewrite IH by (done || (cbn in Hf; lia)).
      destruct (span _ l) as [a b]. cbn [fst length]. f_equal. lia.
    + cbn. by rewrite Z.add_0_r.
Qed.

(** The next word of a string: the separators before it, the word, what follows. *)
Definition next_word (seps l : list Z) : option (list Z * list Z * list Z) :=
  let '(s, l1) := span (fun c => Bool.eqb (is_sep seps c) true) l in
  match l1 with
  | [] => None
  | _ => let '(w, r) := span (fun c => Bool.eqb (is_sep seps c) false) l1 in Some (s, w, r)
  end.

Section Strtok.
Context (m : mem) (string_ seps context p : Z) (ks l : list Z).
Context (Hp : p = if string_ =? 0 then context else string_).
Context (Hk : str_at m seps ks) (Hl : str_at m p l).

Lemma strtok_r_none : next_word ks l = None -> strtok_r string_ seps context m = Done (0, 0) m.
Proof.
  unfold next_word. destruct (span _ l) as [s l1] eqn:E. destruct l1; [|destruct (span _ (z :: l1)); done]. intros _.
  unfold strtok_r. rewrite <- Hp. rewrite (proj2 (Z.eqb_neq p 0)) by (destruct Hl; lia).
  unfold scan_fuel. erewrite bind_ret; [|done].
  erewrite bind_ret; [|apply span_loop_eq with (ks := ks) (l := l); [done..|]; apply str_at_size in Hl; lia].
  rewrite E. apply span_spec in E as (El & _). rewrite app_nil_r in El. subst s. cbn [fst].
  pose proof Hl as H0. rewrite <- (app_nil_r l) in H0. apply str_at_app in H0 as [_ H0]; [|by destruct Hl..]. by load8_at H0.
Qed.

Lemma strtok_r_some s w r : next_word ks l = Some (s, w, r) ->
  strtok_r string_ seps context m =
    Done (p + Z.of_nat (length s), match r with [] => 0 | _ => p + Z.of_nat (length (s ++ w)) + 1 end)
         (match r with [] => m | _ => <[p + Z.of_nat (length (s ++ w)) := 0]> m end).
Proof.
  unfold next_word. destruct (span _ l) as [s' l1] eqn:E. destruct l1 as [|c l1]; [done|].
  destruct (span _ (c :: l1)) as [w' r'] eqn:E2. intros [= -> -> ->].
  unfold strtok_r. rewrite <- Hp. rewrite (proj2 (Z.eqb_neq p 0)) by (destruct Hl; lia).
  unfold scan_fuel. erewrite bind_ret; [|done].
  erewrite bind_ret; [|apply span_loop_eq with (ks := ks) (l := l); [done..|]; apply str_at_size in Hl; lia].
  rewrite E. apply span_spec in E as (El & _). cbn [fst]. pose proof (str_at_chars _ _ _ Hl) as Hc.
  pose proof Hl as H0. rewrite El in H0, Hc. apply Forall_app in Hc as [Hcs Hc1]. apply str_at_app in H0 as [_ H0]; [|done|by destruct Hl].
  load8_at H0. rewrite (proj2 (Z.eqb_neq c 0)) by (apply Forall_inv in Hc1; lia).
  erewrite bind_ret; [|apply span_loop_eq with (ks := ks) (l := c :: l1); [done..|]].
  2: { apply str_at_size in Hl. rewrite El, length_app in Hl. lia. }
  rewrite E2. apply span_spec in E2 as (El2 & _). cbn [fst]. rewrite El2 in H0, Hc1. apply Forall_app in Hc1 as [Hcw Hcr].
  apply str_at_app in H0 as [_ H0]; [|done|destruct Hl; lia]. load8_at H0. rewrite length_app, Nat2Z.inj_add, Z.add_assoc.
  destruct r as [|x r]; [done|]. cbn [default head from_option id]. apply str_at_cons in H0 as (Hx & Hxr & Hq & H0).
  rewrite (proj2 (Z.eqb_neq x 0)) by lia. rewrite u32_small by (destruct H0; unfold is_u32; lia).
  erewrite bind_ret; [done|]. apply store8_eq; [destruct H0; unfold is_u32; lia|by exists x].
Qed.
End Strtok.

(** ** The words of a string

    Calling strtok_r again and again hands out the words between separators, in order; each is
    a string of its own where it stood. *)
Fixpoint words_from (seps acc l : list Z) : list (list Z) :=
  match l with
  | [] => match acc with [] => [] | _ => [acc] end
  | c :: l' =>
      if is_sep seps c then match acc with [] => words_from seps [] l' | _ => acc :: words_from seps [] l' end
      else words_from seps (acc ++ [c]) l'
  end.
Definition words (seps l : list Z) : list (list Z) := words_from seps [] l.

Lemma words_skip seps s l : Forall (fun c => is_sep seps c = true) s -> words seps (s ++ l) = words seps l.
Proof. unfold words. induction 1 as [|c s Hc Hs IH]; cbn; [done|]. by rewrite Hc. Qed.
Lemma words_from_word seps acc w l : Forall (fun c => is_sep seps c = false) w -> words_from seps acc (w ++ l) = words_from seps (acc ++ w) l.
Proof.
  intros H. revert acc. induction H as [|c w Hc Hw IH]; intros acc; cbn; [by rewrite app_nil_r|].
  rewrite Hc, IH. by rewrite <- app_assoc.
Qed.

Lemma eqb_sep_true seps c : Bool.eqb (is_sep seps c) true = is_sep seps c.
Proof. by destruct (is_sep seps c). Qed.
Lemma eqb_sep_false seps c : Bool.eqb (is_sep seps c) false = negb (is_sep seps c).
Proof. by destruct (is_sep seps c). Qed.

Lemma next_word_none seps l : next_word seps l = None -> words seps l = [].
Proof.
  unfold next_word. destruct (span _ l) as [s l1] eqn:E. destruct l1; [|by destruct (span _ (z :: l1))]. intros _.
  apply span_spec in E as (-> & Hs & _). setoid_rewrite eqb_sep_true in Hs. by rewrite words_skip.
Qed.

Lemma next_word_some seps l s w r : next_word seps l = Some (s, w, r) ->
  l = s ++ w ++ r /\ w <> [] /\ words seps l = w :: words seps (tail r).
Proof.
  unfold next_word. destruct (span _ l) as [s' l1] eqn:E. destruct l1 as [|c l1]; [done|].
  destruct (span _ (c :: l1)) as [w' r'] eqn:E2. intros [= -> -> ->].
  apply span_spec in E as (-> & Hs & Hc). apply span_spec in E2 as (El & Hw & Hr).
  setoid_rewrite eqb_sep_true in Hs. specialize (Hc c eq_refl). rewrite eqb_sep_true in Hc.
  assert (Hw0 : w <> []).
  { intros ->. cbn in El. subst r. specialize (Hr c eq_refl). rewrite eqb_sep_false, Hc in Hr. done. }
  rewrite El. split_and!; [done|done|]. rewrite words_skip by done. unfold words. rewrite words_from_word.
  2: { eapply Forall_impl; [exact Hw|]. cbn. intros x. rewrite eqb_sep_false. by destruct (is_sep seps x). }
  cbn [app]. destruct w as [|x w]; [done|]. destruct r as [|y r]; cbn; [done|].
  specialize (Hr y eq_refl). rewrite eqb_sep_false in Hr. by destruct (is_sep seps y).
Qed.

(** The state behind a call that found a word: the word and what is left are strings, and
    only the byte behind the word was written. *)
Lemma strtok_r_step m string_ seps context p ks l s w r :
  p = (if string_ =? 0 then context else string_) -> str_at m seps ks -> str_at m p l -> next_word ks l = Some (s, w, r) ->
  exists m', strtok_r string_ seps context m =
      Done (p + Z.of_nat (length s), match r with [] => 0 | _ => p + Z.of_nat (length (s ++ w)) + 1 end) m' /\
    str_at m' (p + Z.of_nat (length s)) w /\
    (forall c r', r = c :: r' -> str_at m' (p + Z.of_nat (length (s ++ w)) + 1) r') /\
    (forall a, ~ (p <= a <= p + Z.of_nat (length l)) -> m' !! a = m !! a).
Proof.
  intros Hp Hk Hl Hw. eexists. split; [by eapply strtok_r_some|]. apply next_word_some in Hw as (El & _ & _).
  pose proof (str_at_chars _ _ _ Hl) as Hc. rewrite El in Hl, Hc |- *. apply Forall_app in Hc as [Hcs Hc]. pose proof Hc as Hcw. apply Forall_app in Hcw as [Hcw _].
  assert (H0 : 0 < p) by (by destruct Hl). apply str_at_app in Hl as [_ Hl]; [|done..]. apply str_at_app in Hl as [Hbw Hr]; [|done|lia].
  rewrite !length_app. destruct r as [|c r].
  - apply str_at_nil in Hr as [Hr Hrr]. split_and!; [|intros c r' [=]|done]. apply str_at_intro; [done|lia|done|done|lia].
  - pose proof Hr as Hr'. apply str_at_cons in Hr' as (Hx & Hcr & Hq & Hr'). split_and!.
    + rewrite Nat2Z.inj_add, Z.add_assoc. apply str_at_intro; [done|lia| |by rewrite lookup_insert_eq|destruct Hr'; lia].
      eapply bytes_at_ext, Hbw. intros a Ha. apply lookup_insert_ne. lia.
    + intros c' r' [= <- <-]. rewrite Nat2Z.inj_add, Z.add_assoc. eapply str_at_ext, Hr'. intros a Ha. apply lookup_insert_ne. lia.
    + intros a Ha. apply lookup_insert_ne. cbn [length] in Ha. lia.
Qed.
