(* ===== verification/Array.v ===== *)
(** * Growable arrays: kern/lib/array.c and kern/include/array.h

    An array of pointers in a block of the kernel heap, which is replaced by a larger one when
    it is full.  The block is in the byte memory of [CString], so that the copies are made by
    the memcpy and memmove of the C library.  Which address kmalloc hands out, and whether it
    has memory, is a parameter. *)
From S2P Require Import Prelude Wp CString.

(** ** Blocks of the kernel heap *)

Record kheap := mk_kheap { kh_mem : mem; kh_blocks : gmap Z Z }.

(** Where the next block goes (0: no memory), and what is in it. *)
Class Allocator := { place : kheap -> Z -> Z; junk : Z -> Z }.
Class PlaceLaws `{!Allocator} : Prop := {
  place_ok : forall h sz p, place h sz = p -> p <> 0 ->
    0 < p /\ p mod 4 = 0 /\ 0 <= sz /\ p + sz < 2 ^ 32 /\ forall a, p <= a < p + sz -> kh_mem h !! a = None }.

Record array := mk_array { a_v : Z; a_num : Z; a_max : Z }.
Record astate := mk_astate { st_heap : kheap; st_arr : array }.

Section Array.
Context `{!Allocator}.

Definition on_mem_a {A} (x : M mem A) : M astate A :=
  zoom "memory" (fun s => Some (kh_mem (st_heap s))) (fun m s => mk_astate (mk_kheap m (kh_blocks (st_heap s))) (st_arr s)) x.
Definition set_arr (f : array -> array) : M astate unit := modify (fun s => mk_astate (st_heap s) (f (st_arr s))).

Definition heap_get (sz : Z) : M astate Z := fun s =>
  let h := st_heap s in
  let p := place h sz in
  if p =? 0 then Done 0 s
  else Done p (mk_astate (mk_kheap (write_block (kh_mem h) p ((fun a => u8 (junk a)) <$> seqZ p sz)) (<[p := sz]> (kh_blocks h))) (st_arr s)).

Definition heap_put (p : Z) : M astate unit := fun s =>
  if p =? 0 then Done tt s else
  let h := st_heap s in
  match kh_blocks h !! p with
  | None => Halt (Undefined "kfree")
  | Some sz => Done tt (mk_astate (mk_kheap (kh_mem h ∖ map_seqZ p (replicate (Z.to_nat sz) 0)) (delete p (kh_blocks h))) (st_arr s))
  end.

(** ** The operations *)

Definition array_init : M astate unit := set_arr (fun _ => mk_array 0 0 0).

Definition array_cleanup : M astate unit :=
  a ← gets st_arr;
  kassert "a->num == 0" (a_num a =? 0);;
  heap_put (a_v a);;
  set_arr (fun a => mk_array 0 (a_num a) (a_max a)).

(** [while (num > newmax) newmax = newmax ? newmax*2 : 4;] *)
Fixpoint grow (fuel : nat) (num newmax : Z) : M astate Z :=
  match fuel with
  | O => fun _ => OutOfFuel
  | S f => if newmax <? num then grow f num (if newmax =? 0 then 4 else u32 (newmax * 2)) else mret newmax
  end.

Definition array_preallocate (num : Z) : M astate Z :=
  a ← gets st_arr;
  if a_max a <? num then
    newmax ← grow 32 num (a_max a);
    newptr ← heap_get (u32 (newmax * 4));
    if newptr =? 0 then mret ENOMEM else
    _ ← on_mem_a (memcpy newptr (a_v a) (u32 (a_num a * 4)));
    heap_put (a_v a);;
    set_arr (fun a => mk_array newptr (a_num a) newmax);;
    mret 0
  else mret 0.

Definition array_setsize (num : Z) : M astate Z :=
  result ← array_preallocate num;
  if negb (result =? 0) then mret result
  else set_arr (fun a => mk_array (a_v a) num (a_max a));; mret 0.

Definition array_remove (index : Z) : M astate unit :=
  a ← gets st_arr;
  kassert "a->num <= a->max" (a_num a <=? a_max a);;
  kassert "index < a->num" (index <? a_num a);;
  let num_to_move := u32 (a_num a - u32 (index + 1)) in
  _ ← on_mem_a (memmove (u32 (a_v a + 4 * index)) (u32 (a_v a + 4 * (index + 1))) (u32 (num_to_move * 4)));
  set_arr (fun a => mk_array (a_v a) (u32 (a_num a - 1)) (a_max a)).

Definition array_num : M astate Z := gets (fun s => a_num (st_arr s)).
Definition array_get (index : Z) : M astate Z :=
  a ← gets st_arr; kassert "index < a->num" (index <? a_num a);; on_mem_a (load32 (u32 (a_v a + 4 * index))).
Definition array_set (index val : Z) : M astate unit :=
  a ← gets st_arr; kassert "index < a->num" (index <? a_num a);; on_mem_a (store32 (u32 (a_v a + 4 * index)) val).
(** The index comes back with the result. *)
Definition array_add (val : Z) : M astate (Z * Z) :=
  index ← array_num;
  ret ← array_setsize (u32 (index + 1));
  if negb (ret =? 0) then mret (ret, 0) else
  a ← gets st_arr;
  on_mem_a (store32 (u32 (a_v a + 4 * index)) val);;
  mret (0, index).
End Array.

(** ** Words in memory *)

Definition wbytes (w : Z) : list Z := [u8 (Z.shiftr w 24); u8 (Z.shiftr w 16); u8 (Z.shiftr w 8); u8 w].
Definition words_bytes (l : list Z) : list Z := mjoin (wbytes <$> l).

Lemma words_bytes_length l : length (words_bytes l) = (4 * length l)%nat.
Proof. unfold words_bytes. induction l as [|w l IH]; [done|]. change (mjoin (wbytes <$> w :: l)) with (wbytes w ++ mjoin (wbytes <$> l)). rewrite length_app, IH. cbn. lia. Qed.
Lemma words_bytes_app l k : words_bytes (l ++ k) = words_bytes l ++ words_bytes k.
Proof. unfold words_bytes. by rewrite fmap_app, join_app. Qed.

Lemma wbytes_word w : is_u32 w -> u8 (Z.shiftr w 24) * 2 ^ 24 + u8 (Z.shiftr w 16) * 2 ^ 16 + u8 (Z.shiftr w 8) * 2 ^ 8 + u8 w = w.
Proof. unfold is_u32, u8. intros H. rewrite !Z.shiftr_div_pow2 by lia. Z.div_mod_to_equations. lia. Qed.

Lemma load32_wbytes m p w : 0 <= p -> p + 4 <= 2 ^ 32 -> is_u32 w -> bytes_at m p (wbytes w) -> load32 p m = Done w m.
Proof.
  intros Hp Ht Hw Hb. pose proof (Hb 0%nat _ eq_refl) as B0. pose proof (Hb 1%nat _ eq_refl) as B1. pose proof (Hb 2%nat _ eq_refl) as B2. pose proof (Hb 3%nat _ eq_refl) as B3.
  cbn in B0. rewrite Z.add_0_r in B0. rewrite (load32_eq m p _ _ _ _ Hp Ht B0 B1 B2 B3). f_equal. by apply wbytes_word.
Qed.
Lemma store32_wbytes m p w : 0 <= p -> p + 4 <= 2 ^ 32 -> mapped m p 4 -> store32 p w m = Done tt (write_block m p (wbytes w)).
Proof.
  intros Hp Ht Hm. rewrite store32_eq by done. f_equal. apply map_eq. intros a. rewrite write_block_lookup.
  change (Z.of_nat (length (wbytes w))) with 4. case_decide; [|by rewrite !lookup_insert_ne by lia].
  assert (a = p \/ a = p + 1 \/ a = p + 2 \/ a = p + 3) as [->|[->|[->| ->]]] by lia; rewrite ?lookup_insert_ne by lia; rewrite lookup_insert_eq;
    [replace (Z.to_nat (p - p)) with 0%nat by lia|replace (Z.to_nat (p + 1 - p)) with 1%nat by lia|replace (Z.to_nat (p + 2 - p)) with 2%nat by lia|replace (Z.to_nat (p + 3 - p)) with 3%nat by lia]; done.
Qed.

Lemma mem_ok_write m p l : mem_ok m -> Forall is_u8 l -> mem_ok (write_block m p l).
Proof.
  intros Hm Hl a b. rewrite write_block_lookup. case_decide; [|by apply Hm]. rewrite Forall_lookup in Hl. apply Hl.
Qed.
Lemma words_bytes_ok l : Forall is_u8 (words_bytes l).
Proof.
  unfold words_bytes. induction l as [|w l IH]; [constructor|]. change (mjoin (wbytes <$> w :: l)) with (wbytes w ++ mjoin (wbytes <$> l)). apply Forall_app. split; [|done].
  repeat (apply Forall_cons; split; [apply Z.mod_pos_bound; lia|]). by apply Forall_nil.
Qed.

(** ** The array stands for a list *)

Lemma unmap_lookup (m : mem) p sz a : 0 <= sz ->
  (m ∖ map_seqZ p (replicate (Z.to_nat sz) 0)) !! a = if decide (p <= a < p + sz) then None else m !! a.
Proof.
  intros Hsz. case_decide as Hin.
  - apply lookup_difference_None. right. rewrite lookup_map_seqZ, option_guard_True by lia. apply lookup_lt_is_Some. rewrite length_replicate. lia.
  - destruct (m !! a) as [b|] eqn:E; [|apply lookup_difference_None; by left]. apply lookup_difference_Some. split; [done|].
    rewrite lookup_map_seqZ. destruct (decide (p <= a)); [rewrite option_guard_True by lia; apply lookup_ge_None; rewrite length_replicate; lia|by rewrite option_guard_False by lia].
Qed.

Section Proofs.
Context `{HA : !Allocator, HP : !PlaceLaws}.

Record arr_at (s : astate) (l : list Z) : Prop := {
  aa_ok : mem_ok (kh_mem (st_heap s));
  aa_words : Forall is_u32 l;
  aa_num : a_num (st_arr s) = Z.of_nat (length l);
  aa_le : a_num (st_arr s) <= a_max (st_arr s);
  aa_v : (0 <= a_v (st_arr s) /\ a_v (st_arr s) + 4 * a_max (st_arr s) < 2 ^ 32) /\ a_v (st_arr s) mod 4 = 0 /\ mapped (kh_mem (st_heap s)) (a_v (st_arr s)) (4 * a_max (st_arr s));
  aa_block : a_v (st_arr s) = 0 /\ a_max (st_arr s) = 0 \/ 0 < a_v (st_arr s) /\ kh_blocks (st_heap s) !! a_v (st_arr s) = Some (4 * a_max (st_arr s)) /\ 0 < a_max (st_arr s);
  aa_bytes : bytes_at (kh_mem (st_heap s)) (a_v (st_arr s)) (words_bytes l) }.

(** Memory outside the array's block stays as it is, and outside the array's block. *)
Definition in_array (s : astate) (a : Z) : Prop := a_v (st_arr s) <= a < a_v (st_arr s) + 4 * a_max (st_arr s).
Definition others_kept (s s' : astate) : Prop := forall a b,
  kh_mem (st_heap s) !! a = Some b -> ~ in_array s a -> kh_mem (st_heap s') !! a = Some b /\ ~ in_array s' a.

Lemma others_kept_trans s1 s2 s3 : others_kept s1 s2 -> others_kept s2 s3 -> others_kept s1 s3.
Proof. intros H1 H2 a b Ha Hn. destruct (H1 a b Ha Hn) as [Ha2 Hn2]. exact (H2 a b Ha2 Hn2). Qed.

Lemma on_mem_a_eq {A} (x : M mem A) h ar a m' : x (kh_mem h) = Done a m' -> on_mem_a x (mk_astate h ar) = Done a (mk_astate (mk_kheap m' (kh_blocks h)) ar).
Proof. unfold on_mem_a, zoom. cbn. by intros ->. Qed.

Lemma grow_eq num s : num <= 2 ^ 29 -> forall f nm, 0 < nm -> nm < 2 ^ 30 -> num <= nm * 2 ^ (Z.of_nat f) ->
  exists r, grow (S f) num nm s = Done r s /\ num <= r /\ nm <= r < 2 ^ 30.
Proof.
  intros Hnum. induction f as [|f IH]; intros nm Hpos Hnm Hf; cbn [grow]; destruct (Z.ltb_spec nm num) as [Hlt|Hge]; try (exists nm; split; [done|lia]).
  - cbn in Hf. lia.
  - rewrite (proj2 (Z.eqb_neq nm 0)) by lia. rewrite u32_small by (unfold is_u32; lia).
    destruct (IH (nm * 2)) as (r & E & H1 & H2); [lia|lia|rewrite Nat2Z.inj_succ, Z.pow_succ_r in Hf; lia|]. exists r. split; [exact E|lia].
Qed.
Lemma grow_S f num nm s : grow (S f) num nm s = (if nm <? num then grow f num (if nm =? 0 then 4 else u32 (nm * 2)) else mret nm) s.
Proof. done. Qed.
Lemma grow_array num nm s : num <= 2 ^ 29 -> 0 <= nm < num -> exists r, grow 32 num nm s = Done r s /\ num <= r < 2 ^ 30.
Proof.
  intros Hn Hpos. destruct (Z.eqb_spec nm 0) as [->|Hne].
  - rewrite (grow_S 31), (proj2 (Z.ltb_lt 0 num)) by lia. change (if 0 =? 0 then 4 else u32 (0 * 2)) with 4.
    destruct (grow_eq num s Hn 30 4) as (r & E & H1 & H2); [lia|lia|cbn; lia|]. exists r. split; [exact E|lia].
  - destruct (grow_eq num s Hn 31 nm) as (r & E & H1 & H2); [lia|lia|cbn; lia|]. exists r. split; [exact E|lia].
Qed.

(** The heap after a request. *)
Lemma heap_get_eq h ar sz : heap_get sz (mk_astate h ar) = Done (place h sz)
  (if place h sz =? 0 then mk_astate h ar
   else mk_astate (mk_kheap (write_block (kh_mem h) (place h sz) ((fun a => u8 (junk a)) <$> seqZ (place h sz) sz)) (<[place h sz := sz]> (kh_blocks h))) ar).
Proof. unfold heap_get. cbn [st_heap st_arr]. by destruct (Z.eqb_spec (place h sz) 0) as [->|]. Qed.

Lemma array_preallocate_spec s l num : arr_at s l -> 0 <= num <= 2 ^ 29 ->
  array_preallocate num s = Done ENOMEM s \/
  exists s', array_preallocate num s = Done 0 s' /\ arr_at s' l /\ num <= a_max (st_arr s') /\ a_num (st_arr s') = a_num (st_arr s) /\ others_kept s s'.
Proof.
  intros [Hok Hw Hnum Hle (Hin & Hal & Hmap) Hblk Hby] Hn. destruct s as [[m bs] [v n mx]]. cbn [st_heap st_arr kh_mem kh_blocks a_v a_num a_max] in *.
  unfold array_preallocate. erewrite bind_ret; [|done]. cbn [st_arr a_max a_num a_v].
  destruct (Z.ltb_spec mx num) as [Hlt|Hge].
  2: { right. eexists. split; [reflexivity|]. split_and!; [by split|done|done|by intros a b]. }
  destruct (grow_array num mx (mk_astate (mk_kheap m bs) (mk_array v n mx))) as (r & Eg & Hr1 & Hr2); [lia|lia|]. rewrite (bind_ret _ _ _ _ _ Eg).
  rewrite (u32_small (r * 4)) by (unfold is_u32; lia). rewrite (bind_ret _ _ _ _ _ (heap_get_eq _ _ _)).
  destruct (Z.eqb_spec (place (mk_kheap m bs) (r * 4)) 0) as [E0|Ep]; [by left|]. right.
  destruct (place_ok _ _ _ eq_refl Ep) as (Hp0 & Hpa & Hsz & Hpin & Hfresh). set (p := place (mk_kheap m bs) (r * 4)) in *. cbn [kh_mem] in Hfresh.
  cbn [kh_mem kh_blocks]. set (m1 := write_block m p ((fun a => u8 (junk a)) <$> seqZ p (r * 4))). assert (Hm1 : forall a, ~ (p <= a < p + r * 4) -> m1 !! a = m !! a).
  { intros a Ha. unfold m1. rewrite write_block_lookup, length_fmap, length_seqZ, decide_False by lia. done. }
  assert (Hm1p : mapped m1 p (r * 4)).
  { intros a Ha. unfold m1. rewrite write_block_lookup, length_fmap, length_seqZ, decide_True by lia. apply lookup_lt_is_Some. rewrite length_fmap, length_seqZ. lia. }
  assert (Hok1 : mem_ok m1). { apply mem_ok_write; [done|]. apply Forall_fmap, Forall_forall. intros a _. apply Z.mod_pos_bound. lia. }
  assert (Hdis : forall a, v <= a < v + 4 * mx -> ~ (p <= a < p + r * 4)).
  { intros a Ha Hpa'. destruct (Hmap a Ha) as [b Hb]. rewrite (Hfresh a Hpa') in Hb. done. }
  assert (Hby1 : bytes_at m1 v (words_bytes l)).
  { eapply bytes_at_ext, Hby. intros a Ha. rewrite words_bytes_length in Ha. apply Hm1, Hdis. lia. }
  rewrite u32_small by (unfold is_u32; lia).
  erewrite bind_ret; [|apply on_mem_a_eq, memcpy_correct; cbn [kh_mem]; [done|unfold in_memory; lia|unfold in_memory; lia|intros a Ha; apply Hm1p; lia| |]].
  2: { intros a Ha. rewrite Hm1 by (apply Hdis; lia). apply Hmap. lia. }
  2: { destruct (Z.leb_spec p v); [by left|right]. destruct (Z.leb_spec (v + n * 4) p); [done|]. exfalso. apply (Hdis p); lia. }
  replace (n * 4) with (Z.of_nat (length (words_bytes l))) by (rewrite words_bytes_length; lia). cbn [kh_mem kh_blocks]. rewrite (bytes_at_read _ _ _ Hby1).
  set (m2 := write_block m1 p (words_bytes l)).
  assert (Hm2 : forall a, ~ (p <= a < p + r * 4) -> m2 !! a = m !! a).
  { intros a Ha. unfold m2. rewrite write_block_lookup, words_bytes_length, decide_False by lia. by apply Hm1. }
  assert (Hfree : exists m3 bs3, heap_put v (mk_astate (mk_kheap m2 (<[p := r * 4]> bs)) (mk_array v n mx)) = Done tt (mk_astate (mk_kheap m3 bs3) (mk_array v n mx)) /\
    (forall a, m3 !! a = if decide (v <= a < v + 4 * mx) then None else m2 !! a) /\ bs3 !! p = Some (r * 4)).
  { unfold heap_put. destruct Hblk as [[-> ->]|(Hv & Hb & Hmx)].
    - eexists _, _. split; [reflexivity|]. split; [intros a; by rewrite decide_False by lia|apply lookup_insert_eq].
    - assert (p <> v) by (intros Epv; apply (Hdis v); lia).
      rewrite (proj2 (Z.eqb_neq v 0)) by lia. cbn [st_heap kh_blocks kh_mem st_arr]. rewrite lookup_insert_ne by done. rewrite Hb.
      eexists _, _. split; [reflexivity|]. split; [intros a; apply unmap_lookup; lia|]. rewrite lookup_delete_ne by done. apply lookup_insert_eq. }
  destruct Hfree as (m3 & bs3 & Ef & Hm3 & Hb3). rewrite (bind_ret _ _ _ _ _ Ef). eexists. split; [reflexivity|].
  assert (Hm3p : forall a, p <= a < p + r * 4 -> m3 !! a = m2 !! a).
  { intros a Ha. rewrite Hm3, decide_False; [done|]. intros Hv. by apply (Hdis a). }
  cbn [st_arr a_max a_num a_v]. split_and!; [|lia|done|].
  - split; cbn [st_arr st_heap a_max a_num a_v kh_mem kh_blocks]; [|done|done|lia| |right; split; [done|split; [by rewrite Z.mul_comm|lia]]|].
    + intros a b Hab. rewrite Hm3 in Hab. case_decide; [done|]. unfold m2 in Hab. eapply (mem_ok_write m1 p _ Hok1 (words_bytes_ok l)), Hab.
    + unfold in_memory. split_and!; [lia..|]. intros a Ha. rewrite Hm3p by lia. unfold m2. rewrite write_block_lookup. case_decide; [by apply lookup_lt_is_Some; lia|]. apply Hm1p. lia.
    + eapply bytes_at_ext, bytes_at_write. intros a Ha. rewrite words_bytes_length in Ha. apply Hm3p. lia.
  - intros a b Hab Hout. unfold in_array in *. cbn [st_heap kh_mem st_arr a_v a_max] in *.
    assert (~ (p <= a < p + r * 4)) by (intros Hpa'; rewrite (Hfresh a Hpa') in Hab; done).
    rewrite Hm3, decide_False by done. rewrite Hm2 by done. split; [done|lia].
Qed.

(** The words of the array at an index, and what is around them. *)
Lemma words_split (l : list Z) i w : l !! i = Some w -> words_bytes l = words_bytes (take i l) ++ wbytes w ++ words_bytes (drop (S i) l).
Proof. intros H. rewrite <- (take_drop_middle l i w H) at 1. by rewrite words_bytes_app. Qed.

Lemma words_at_index m v l i w : bytes_at m v (words_bytes l) -> l !! i = Some w -> bytes_at m (v + 4 * Z.of_nat i) (wbytes w).
Proof.
  intros Hb Hi. rewrite (words_split l i w Hi) in Hb. apply bytes_at_app in Hb as [_ Hb]. apply bytes_at_app in Hb as [Hb _].
  rewrite words_bytes_length, length_take, Nat.min_l in Hb by (apply lookup_lt_Some in Hi; lia).
  by replace (v + 4 * Z.of_nat i) with (v + Z.of_nat (4 * i)) by lia.
Qed.

(** Overwriting the words from an index on. *)
Lemma write_words m v (l k : list Z) i : (i <= length l)%nat -> bytes_at m v (words_bytes l) ->
  bytes_at (write_block m (v + 4 * Z.of_nat i) (words_bytes k)) v (words_bytes (take i l ++ k)).
Proof.
  intros Hi Hb. rewrite <- (take_drop i l), words_bytes_app in Hb. apply bytes_at_app in Hb as [Hb _].
  rewrite words_bytes_app. apply bytes_at_app. rewrite words_bytes_length, length_take, Nat.min_l by lia.
  replace (v + Z.of_nat (4 * i)) with (v + 4 * Z.of_nat i) by lia. split; [|apply bytes_at_write].
  eapply bytes_at_ext, Hb. intros a Ha. rewrite words_bytes_length, length_take, Nat.min_l in Ha by lia.
  rewrite write_block_lookup, decide_False by lia. done.
Qed.

(** Writing inside the block. *)
Lemma arr_at_write h v n mx l l' p bs : arr_at (mk_astate h (mk_array v n mx)) l ->
  bytes_at (write_block (kh_mem h) p bs) v (words_bytes l') -> Forall is_u8 bs -> Forall is_u32 l' ->
  v <= p -> p + Z.of_nat (length bs) <= v + 4 * mx -> Z.of_nat (length l') <= mx ->
  let s' := mk_astate (mk_kheap (write_block (kh_mem h) p bs) (kh_blocks h)) (mk_array v (Z.of_nat (length l')) mx) in
  arr_at s' l' /\ others_kept (mk_astate h (mk_array v n mx)) s'.
Proof.
  intros [Hok Hw Hnum Hle (Hin & Hal & Hmap) Hblk Hby] Hb Hbs Hl' Hlo Hhi Hlen s'. cbn [st_heap st_arr kh_mem kh_blocks a_v a_num a_max] in *. split.
  - split; cbn; [by apply mem_ok_write|done|done|done| |done|done]. split_and!; [lia|lia|done|]. intros a Ha. rewrite write_block_lookup.
    case_decide; [apply lookup_lt_is_Some; lia|by apply Hmap].
  - intros a b Hab Hout. unfold in_array in *. cbn in *. rewrite write_block_lookup, decide_False by lia. done.
Qed.

Lemma array_get_spec s l i w : arr_at s l -> l !! i = Some w -> array_get (Z.of_nat i) s = Done w s.
Proof.
  intros H Hi. destruct s as [h [v n mx]]. pose proof H as [Hok Hw Hnum Hle (Hin & Hal & Hmap) Hblk Hby]. cbn [st_heap st_arr kh_mem kh_blocks a_v a_num a_max] in *.
  pose proof (lookup_lt_Some _ _ _ Hi). unfold array_get. erewrite bind_ret; [|done]. cbn [st_arr a_num a_v].
  rewrite (proj2 (Z.ltb_lt _ n)) by lia. erewrite bind_ret; [|done]. rewrite u32_small by (unfold is_u32; lia).
  rewrite (on_mem_a_eq _ h _ w (kh_mem h)); [by destruct h|]. apply load32_wbytes; [lia|lia|by eapply (Forall_lookup_1 _ _ _ _ Hw)|by eapply words_at_index].
Qed.

Lemma store_word_spec h v n mx l i x : arr_at (mk_astate h (mk_array v n mx)) l -> (i <= length l)%nat -> Z.of_nat i < mx -> is_u32 x ->
  exists m', on_mem_a (store32 (u32 (v + 4 * Z.of_nat i)) x) (mk_astate h (mk_array v n mx)) = Done tt (mk_astate (mk_kheap m' (kh_blocks h)) (mk_array v n mx)) /\
    let s' := mk_astate (mk_kheap m' (kh_blocks h)) (mk_array v (Z.of_nat (length (take i l ++ x :: drop (S i) l))) mx) in
    arr_at s' (take i l ++ x :: drop (S i) l) /\ others_kept (mk_astate h (mk_array v n mx)) s'.
Proof.
  intros H Hi Hmx Hx. pose proof H as [Hok Hw Hnum Hle (Hin & Hal & Hmap) Hblk Hby]. cbn [st_heap st_arr kh_mem kh_blocks a_v a_num a_max] in *.
  exists (write_block (kh_mem h) (v + 4 * Z.of_nat i) (wbytes x)). split.
  - rewrite u32_small by (unfold is_u32; lia). apply on_mem_a_eq, store32_wbytes; [lia|lia|]. intros a Ha. apply Hmap. lia.
  - apply (arr_at_write h v n mx l); [done| | | |lia|cbn; lia|rewrite length_app, length_take; cbn [length]; rewrite length_drop; lia].
    + pose proof (write_words (kh_mem h) v l [x] i Hi Hby) as Hb. change (words_bytes [x]) with (wbytes x ++ []) in Hb. rewrite app_nil_r in Hb.
      replace (x :: drop (S i) l) with ([x] ++ drop (S i) l) by done. rewrite app_assoc, words_bytes_app. apply bytes_at_app. split; [done|].
      rewrite words_bytes_length, length_app, length_take, Nat.min_l by lia. cbn [length].
      destruct (decide (i < length l)%nat) as [Hlt|Hge]; [|rewrite drop_ge by lia; change (words_bytes []) with (@nil Z); by intros j b Hj; rewrite lookup_nil in Hj].
      destruct (lookup_lt_is_Some_2 l i Hlt) as [w Hw']. rewrite (words_split l i w Hw') in Hby. apply bytes_at_app in Hby as [_ Hby]. apply bytes_at_app in Hby as [_ Hby].
      rewrite words_bytes_length, length_take, Nat.min_l in Hby by lia. change (Z.of_nat (length (wbytes w))) with 4 in Hby.
      replace (v + Z.of_nat (4 * (i + 1))) with (v + Z.of_nat (4 * i) + 4) by lia. eapply bytes_at_ext, Hby. intros a Ha.
      rewrite write_block_lookup, decide_False; [done|]. change (Z.of_nat (length (wbytes x))) with 4. lia.
    + pose proof (words_bytes_ok [x]) as Hx'. change (words_bytes [x]) with (wbytes x ++ []) in Hx'. by rewrite app_nil_r in Hx'.
    + apply Forall_app. split; [by apply Forall_take|]. constructor; [done|by apply Forall_drop].
Qed.

Lemma array_set_spec s l i x : arr_at s l -> (i < length l)%nat -> is_u32 x ->
  exists s', array_set (Z.of_nat i) x s = Done tt s' /\ arr_at s' (<[i := x]> l) /\ others_kept s s'.
Proof.
  intros H Hi Hx. destruct s as [h [v n mx]]. pose proof H as [_ _ Hnum Hle _ _ _]. cbn in Hnum, Hle.
  destruct (store_word_spec h v n mx l i x H ltac:(lia) ltac:(lia) Hx) as (m' & E & R).
  rewrite <- (insert_take_drop l i x Hi) in R. rewrite length_insert, <- Hnum in R. eexists. split; [|exact R].
  unfold array_set. erewrite bind_ret; [|done]. cbn [st_arr a_num a_v]. rewrite (proj2 (Z.ltb_lt _ n)) by lia. erewrite bind_ret; [|done]. exact E.
Qed.

Lemma array_remove_spec s l i : arr_at s l -> (i < length l)%nat ->
  exists s', array_remove (Z.of_nat i) s = Done tt s' /\ arr_at s' (delete i l) /\ others_kept s s'.
Proof.
  intros H Hi. destruct s as [h [v n mx]]. pose proof H as [Hok Hw Hnum Hle (Hin & Hal & Hmap) Hblk Hby]. cbn [st_heap st_arr kh_mem kh_blocks a_v a_num a_max] in *.
  set (k := drop (S i) l). assert (Hkl : length k = (length l - S i)%nat) by (unfold k; by rewrite length_drop).
  assert (Hk : bytes_at (kh_mem h) (v + 4 * (Z.of_nat i + 1)) (words_bytes k)).
  { rewrite <- (take_drop (S i) l), words_bytes_app in Hby. apply bytes_at_app in Hby as [_ Hby]. rewrite words_bytes_length, length_take, Nat.min_l in Hby by lia.
    by replace (v + 4 * (Z.of_nat i + 1)) with (v + Z.of_nat (4 * S i)) by lia. }
  unfold array_remove. erewrite bind_ret; [|done]. cbn [st_arr a_num a_v a_max]. rewrite (proj2 (Z.leb_le n mx)), (proj2 (Z.ltb_lt _ n)) by lia.
  erewrite bind_ret; [|done]. erewrite bind_ret; [|done]. cbv zeta. rewrite (u32_small (Z.of_nat i + 1)), (u32_small (n - (Z.of_nat i + 1))), (u32_small (v + 4 * Z.of_nat i)), (u32_small (v + 4 * (Z.of_nat i + 1))), (u32_small ((n - (Z.of_nat i + 1)) * 4)) by (unfold is_u32; lia).
  replace ((n - (Z.of_nat i + 1)) * 4) with (Z.of_nat (length (words_bytes k))) by (rewrite words_bytes_length; lia).
  destruct (memmove_copies (v + 4 * Z.of_nat i) (v + 4 * (Z.of_nat i + 1)) (Z.of_nat (length (words_bytes k)))) with (m := kh_mem h) as (m' & Em & Cm).
  { unfold in_memory. rewrite words_bytes_length. lia. } { unfold in_memory. rewrite words_bytes_length. lia. }
  { split_and!; [done| |by apply bytes_at_mapped]. intros a Ha. rewrite words_bytes_length in Ha. apply Hmap. lia. }
  apply copied_write_block in Cm; [|lia|by apply bytes_at_mapped]. rewrite (bytes_at_read _ _ _ Hk) in Cm. subst m'.
  erewrite bind_ret; [|apply on_mem_a_eq, Em].
  destruct (arr_at_write h v n mx l (delete i l) (v + 4 * Z.of_nat i) (words_bytes k) H) as [R1 R2].
  - rewrite delete_take_drop. apply write_words; [lia|done].
  - apply words_bytes_ok.
  - rewrite delete_take_drop. apply Forall_app. split; [by apply Forall_take|by apply Forall_drop].
  - lia.
  - rewrite words_bytes_length. lia.
  - rewrite length_delete by (by apply lookup_lt_is_Some). lia.
  - eexists. split; [reflexivity|]. rewrite length_delete in R1, R2 by (by apply lookup_lt_is_Some). cbn [st_heap st_arr a_v a_num a_max].
    rewrite u32_small by (unfold is_u32; lia). replace (n - 1) with (Z.of_nat (length l - 1)) by lia. done.
Qed.

(** Whatever is in mapped memory, it is words. *)
Lemma some_words m p k : mem_ok m -> mapped m p (4 * Z.of_nat k) -> exists g, length g = k /\ Forall is_u32 g /\ bytes_at m p (words_bytes g).
Proof.
  intros Hok. revert p. induction k as [|k IH]; intros p Hm; [exists []; split_and!; [done|constructor|]; change (words_bytes []) with (@nil Z); by intros j b Hj; rewrite lookup_nil in Hj|].
  destruct (Hm p ltac:(lia)) as [b0 B0]. destruct (Hm (p + 1) ltac:(lia)) as [b1 B1]. destruct (Hm (p + 2) ltac:(lia)) as [b2 B2]. destruct (Hm (p + 3) ltac:(lia)) as [b3 B3].
  destruct (IH (p + 4)) as (g & Hg & Hgw & Hgb); [intros a Ha; apply Hm; lia|].
  pose proof (Hok _ _ B0) as R0. pose proof (Hok _ _ B1) as R1. pose proof (Hok _ _ B2) as R2. pose proof (Hok _ _ B3) as R3. unfold is_u8 in R0, R1, R2, R3.
  destruct (word_bytes b0 b1 b2 b3 R0 R1 R2 R3) as (E0 & E1 & E2 & E3).
  exists ((b0 * 2 ^ 24 + b1 * 2 ^ 16 + b2 * 2 ^ 8 + b3) :: g). split_and!; [cbn; lia|constructor; [unfold is_u32; lia|done]|].
  change (words_bytes (?w :: g)) with (wbytes w ++ words_bytes g). unfold wbytes. rewrite E0, E1, E2, E3. cbn [app].
  rewrite !bytes_at_cons. split_and!; [done|done| | |]; [by replace (p + 1 + 1) with (p + 2) by lia|by replace (p + 1 + 1 + 1) with (p + 3) by lia|by replace (p + 1 + 1 + 1 + 1) with (p + 4) by lia].
Qed.

Lemma array_setsize_spec s l n : arr_at s l -> Z.of_nat n <= 2 ^ 29 ->
  array_setsize (Z.of_nat n) s = Done ENOMEM s \/
  exists s' g, array_setsize (Z.of_nat n) s = Done 0 s' /\ arr_at s' (take n l ++ g) /\ length (take n l ++ g) = n /\ others_kept s s'.
Proof.
  intros H Hn. unfold array_setsize. destruct (array_preallocate_spec s l (Z.of_nat n) H ltac:(lia)) as [E|(s1 & E & H1 & Hmx & Hnum1 & Hk)]; [left; by rewrite (bind_ret _ _ _ _ _ E)|].
  right. rewrite (bind_ret _ _ _ _ _ E). destruct s1 as [h [v n1 mx]]. pose proof H1 as [Hok Hw Hnum Hle (Hin & Hal & Hmap) Hblk Hby]. cbn [st_heap st_arr kh_mem kh_blocks a_v a_num a_max] in *.
  destruct (some_words (kh_mem h) (v + 4 * Z.of_nat (length (take n l))) (n - length (take n l)) Hok) as (g & Hgl & Hgw & Hgb).
  { intros a Ha. rewrite length_take in Ha. apply Hmap. lia. }
  assert (Hl : length (take n l ++ g) = n) by (rewrite length_app, Hgl, length_take; lia).
  eexists _, g. split; [reflexivity|]. split_and!; [|done|exact Hk]. split; cbn; [done| |by rewrite Hl|lia|done|done|].
  - apply Forall_app. split; [by apply Forall_take|done].
  - rewrite words_bytes_app. apply bytes_at_app. split.
    + rewrite <- (take_drop n l), words_bytes_app in Hby. by apply bytes_at_app in Hby as [? _].
    + rewrite words_bytes_length. by replace (v + Z.of_nat (4 * length (take n l))) with (v + 4 * Z.of_nat (length (take n l))) by lia.
Qed.

Lemma array_add_spec s l x : arr_at s l -> Z.of_nat (length l) < 2 ^ 29 -> is_u32 x ->
  array_add x s = Done (ENOMEM, 0) s \/
  exists s', array_add x s = Done (0, Z.of_nat (length l)) s' /\ arr_at s' (l ++ [x]) /\ others_kept s s'.
Proof.
  intros H Hl Hx. unfold array_add, array_num. erewrite bind_ret; [|done]. rewrite (aa_num s l H). rewrite u32_small by (unfold is_u32; lia).
  replace (Z.of_nat (length l) + 1) with (Z.of_nat (S (length l))) by lia.
  destruct (array_setsize_spec s l (S (length l)) H ltac:(lia)) as [E|(s1 & g & E & H1 & Hlen & Hk)]; [left; by rewrite (bind_ret _ _ _ _ _ E)|].
  right. rewrite (bind_ret _ _ _ _ _ E). rewrite take_ge in H1, Hlen by lia. destruct s1 as [h [v n mx]]. pose proof H1 as [_ _ Hnum Hle _ _ _]. cbn in Hnum, Hle.
  destruct (store_word_spec h v n mx (l ++ g) (length l) x H1) as (m' & Es & R1 & R2); [rewrite length_app; lia|lia|done|].
  cbn [Z.eqb negb]. erewrite bind_ret; [|done]. cbn [st_arr a_v]. rewrite (bind_ret _ _ _ _ _ Es).
  rewrite length_app in Hlen. destruct g as [|g0 [|g1 g]]; cbn [length] in Hlen; try lia.
  rewrite take_app_length in R1, R2. rewrite drop_ge in R1, R2 by (rewrite length_app; cbn; lia).
  rewrite length_app in R1, R2, Hnum. cbn [length] in R1, R2, Hnum. rewrite <- Hnum in R1, R2.
  eexists. split; [reflexivity|]. split; [exact R1|]. by eapply others_kept_trans.
Qed.
End Proofs.

(** ** Arrays refine lists *)

Inductive array_op : Type :=
| AGet (index : nat)
| ASet (index : nat) (val : Z)
| AAdd (val : Z)
| ARemove (index : nat)
| ASetsize (num : nat).

Definition run_array_op `{!Allocator} (op : array_op) : M astate Z :=
  match op with
  | AGet i => array_get (Z.of_nat i)
  | ASet i x => array_set (Z.of_nat i) x;; mret 0
  | AAdd x => '(r, _) ← array_add x; mret r
  | ARemove i => array_remove (Z.of_nat i);; mret 0
  | ASetsize n => array_setsize (Z.of_nat n)
  end.

(** What the caller must respect: indices inside the array, pointers of 32 bits, less than
    2^29 elements. *)
Definition array_op_pre (op : array_op) (l : list Z) : Prop :=
  match op with
  | AGet i | ARemove i => (i < length l)%nat
  | ASet i x => (i < length l)%nat /\ is_u32 x
  | AAdd x => Z.of_nat (length l) < 2 ^ 29 /\ is_u32 x
  | ASetsize n => Z.of_nat n <= 2 ^ 29
  end.

(** The operation on lists: growing can fail, and then nothing has changed; new elements have
    any value. *)
Definition array_op_spec (op : array_op) (l : list Z) (r : Z) (l' : list Z) : Prop :=
  match op with
  | AGet i => l !! i = Some r /\ l' = l
  | ASet i x => r = 0 /\ l' = <[i := x]> l
  | AAdd x => r = 0 /\ l' = l ++ [x] \/ r = ENOMEM /\ l' = l
  | ARemove i => r = 0 /\ l' = delete i l
  | ASetsize n => r = 0 /\ length l' = n /\ take n l = take (length l) l' \/ r = ENOMEM /\ l' = l
  end.

Lemma others_kept_refl s : others_kept s s.
Proof. by intros a b. Qed.

(** every operation of an array returns and does to the list of its elements what its name
    says, however its block is moved and enlarged: when there is no memory the array is as it
    was, and no byte of memory outside the array's own block changes. *)
Theorem array_refines `{HA : !Allocator, HP : !PlaceLaws} (s : astate) (l : list Z) (op : array_op)
  (Hs : arr_at s l) (Hpre : array_op_pre op l) :
  exists r s' l', run_array_op op s = Done r s' /\ array_op_spec op l r l' /\ arr_at s' l' /\ others_kept s s'.
Proof.
  pose proof (others_kept_refl s) as Hrefl. destruct op as [i|i x|x|i|n]; cbn in *.
  - destruct (lookup_lt_is_Some_2 l i Hpre) as [w Hw]. exists w, s, l. split_and!; [by eapply array_get_spec|done..].
  - destruct Hpre as [Hi Hx]. destruct (array_set_spec s l i x Hs Hi Hx) as (s' & E & H1 & H2). exists 0, s', (<[i := x]> l). by rewrite (bind_ret _ _ _ _ _ E).
  - destruct Hpre as [Hl Hx]. destruct (array_add_spec s l x Hs Hl Hx) as [E|(s' & E & H1 & H2)].
    + exists ENOMEM, s, l. rewrite (bind_ret _ _ _ _ _ E). split_and!; [done|by right|done..].
    + exists 0, s', (l ++ [x]). rewrite (bind_ret _ _ _ _ _ E). split_and!; [done|by left|done..].
  - destruct (array_remove_spec s l i Hs Hpre) as (s' & E & H1 & H2). exists 0, s', (delete i l). by rewrite (bind_ret _ _ _ _ _ E).
  - destruct (array_setsize_spec s l n Hs Hpre) as [E|(s' & g & E & H1 & Hl & H2)].
    + exists ENOMEM, s, l. split_and!; [done|by right|done..].
    + exists 0, s', (take n l ++ g). split_and!; [done| |done..]. left. split_and!; [done|done|]. rewrite length_app, length_take in Hl.
      destruct (decide (n <= length l)%nat).
      * destruct g; [|cbn in Hl; lia]. rewrite app_nil_r. by rewrite (take_ge (take n l)) by (rewrite length_take; lia).
      * rewrite (take_ge l n) by lia. by rewrite take_app_length.
Qed.

(** An allocator for examples: blocks of at most a page, one per 64K, where memory is free. *)
#[local] Instance bump_allocator : Allocator := {
  place h sz :=
    let p := 65536 * Z.of_nat (1 + size (kh_blocks h)) in
    if (0 <=? sz) && (sz <=? 4096) && (p + sz <? 2 ^ 32) && forallb (fun a => bool_decide (kh_mem h !! a = None)) (seqZ p sz) then p else 0;
  junk a := 222 }.

#[local] Instance bump_laws : PlaceLaws.
Proof.
  split. intros h sz p. cbn [place bump_allocator]. cbv zeta. destruct (_ && _) eqn:E; [|congruence]. intros <- _.
  rewrite !andb_true_iff, !Z.leb_le, Z.ltb_lt, forallb_forall in E. destruct E as [[[E1 E2] E3] E4]. split_and!; [lia| |lia|lia|].
  - rewrite Z.mul_comm. change 65536 with (16384 * 4). rewrite Z.mul_assoc. apply Z.mod_mul. lia.
  - intros a Ha. specialize (E4 a). rewrite <- list_elem_of_In, elem_of_seqZ in E4. specialize (E4 ltac:(lia)). by apply bool_decide_eq_true in E4.
Qed.

Definition empty_array : astate := mk_astate (mk_kheap ∅ ∅) (mk_array 0 0 0).

Lemma empty_array_at : arr_at empty_array [].
Proof.
  split; cbn; [by intros a b|constructor|done|done| |by left|change (words_bytes []) with (@nil Z); by intros j b Hj].
  split_and!; [lia|lia|done|intros a Ha; lia].
Qed.

(** Five additions move the block from four to eight elements, then one is removed. *)
Definition five_added : outcome astate Z :=
  (run_array_op (AAdd 10);; run_array_op (AAdd 20);; run_array_op (AAdd 30);; run_array_op (AAdd 40);; run_array_op (AAdd 50)) empty_array.

Lemma array_refines_witness : exists r s' l', run_array_op (AAdd 7) empty_array = Done r s' /\ array_op_spec (AAdd 7) [] r l' /\ arr_at s' l' /\ others_kept empty_array s' /\
  exists s5, five_added = Done 0 s5 /\ a_max (st_arr s5) = 8 /\ run_array_op (AGet 4) s5 = Done 50 s5.
Proof.
  destruct (array_refines empty_array [] (AAdd 7) empty_array_at) as (r & s' & l' & H1 & H2 & H3 & H4); [split; [done|unfold is_u32; lia]|].
  exists r, s', l'. split_and!; [done..|]. eexists. split_and!; [vm_compute; reflexivity|vm_compute; reflexivity|vm_compute; reflexivity].
Defined.

(** The doubling wraps: for more than 2^31 elements it goes round for ever. *)
Theorem array_preallocate_hangs (num : Z) (s : astate) (Hnum : 2 ^ 31 < num) : forall fuel, grow fuel num 0 s = OutOfFuel.
Proof.
  assert (H : forall fuel nm, nm = 0 \/ (exists k, 2 <= k <= 31 /\ nm = 2 ^ k) -> grow fuel num nm s = OutOfFuel); [|intros; apply H; by left].
  induction fuel as [|f IH]; intros nm Hnm; [done|]. rewrite grow_S. destruct Hnm as [->|(k & Hk & ->)].
  - rewrite (proj2 (Z.ltb_lt 0 num)) by lia. apply IH. right. exists 2. by split.
  - assert (2 ^ k <= 2 ^ 31) by (apply Z.pow_le_mono_r; lia). assert (0 < 2 ^ k) by (apply Z.pow_pos_nonneg; lia).
    rewrite (proj2 (Z.ltb_lt _ num)), (proj2 (Z.eqb_neq (2 ^ k) 0)) by lia. apply IH.
    destruct (decide (k = 31)) as [->|]; [by left|right]. exists (k + 1). split; [lia|]. rewrite Z.pow_add_r by lia. unfold u32. apply Z.mod_small.
    assert (2 ^ k <= 2 ^ 30) by (apply Z.pow_le_mono_r; lia). lia.
Qed.
