(* ===== verification/Timespec.v ===== *)
(** * Times: kern/lib/time.c *)
From S2P Require Import Prelude.

(** struct timespec: 64-bit seconds, 32-bit nanoseconds, both signed. *)
Record timespec := mk_timespec { tv_sec : Z; tv_nsec : Z }.

Definition timespec_add (ts1 ts2 : timespec) : timespec :=
  let nsec := i32 (tv_nsec ts1 + tv_nsec ts2) in
  let sec := i64 (tv_sec ts1 + tv_sec ts2) in
  if 1000000000 <=? nsec then mk_timespec (i64 (sec + 1)) (i32 (nsec - 1000000000)) else mk_timespec sec nsec.

Definition timespec_sub (ts1 ts2 : timespec) : timespec :=
  let r := if tv_nsec ts1 <? tv_nsec ts2
           then mk_timespec (i64 (tv_sec ts1 - 1)) (i32 (tv_nsec ts1 + 1000000000)) else ts1 in
  mk_timespec (i64 (tv_sec r - tv_sec ts2)) (i32 (tv_nsec r - tv_nsec ts2)).

(** A normal time: the nanoseconds are less than a second, the seconds far from the ends of
    the type; and the nanoseconds it stands for. *)
Definition normal (t : timespec) : Prop := 0 <= tv_nsec t < 1000000000 /\ - 2 ^ 61 <= tv_sec t <= 2 ^ 61.
Definition nanoseconds (t : timespec) : Z := tv_sec t * 1000000000 + tv_nsec t.

Lemma timespec_add_spec a b : normal a -> normal b ->
  0 <= tv_nsec (timespec_add a b) < 1000000000 /\ nanoseconds (timespec_add a b) = nanoseconds a + nanoseconds b.
Proof.
  unfold normal, nanoseconds, timespec_add. intros [Ha Ha'] [Hb Hb'].
  rewrite (i32_small (_ + _)), (i64_small (tv_sec a + _)) by lia. destruct (Z.leb_spec 1000000000 (tv_nsec a + tv_nsec b)); cbn;
    rewrite ?i32_small, ?i64_small by lia; lia.
Qed.

Lemma timespec_sub_spec a b : normal a -> normal b ->
  0 <= tv_nsec (timespec_sub a b) < 1000000000 /\ nanoseconds (timespec_sub a b) = nanoseconds a - nanoseconds b.
Proof.
  unfold normal, nanoseconds, timespec_sub. intros [Ha Ha'] [Hb Hb'].
  destruct (Z.ltb_spec (tv_nsec a) (tv_nsec b)); cbn.
  - rewrite (i64_small (tv_sec a - 1)), (i32_small (tv_nsec a + _)) by lia. rewrite i64_small, i32_small by lia. lia.
  - rewrite i64_small, i32_small by lia. lia.
Qed.

(** Subtracting what was added gives the time back. *)
Theorem timespec_add_sub a b : normal a -> normal b -> normal (timespec_add a b) -> timespec_sub (timespec_add a b) b = a.
Proof.
  intros Ha Hb Hs. destruct (timespec_add_spec a b Ha Hb) as [_ E1]. destruct (timespec_sub_spec _ b Hs Hb) as [Hn E2].
  rewrite E1 in E2. unfold nanoseconds, normal in *. destruct a as [s n], (timespec_sub _ b) as [s' n']. cbn in *.
  assert (s = s') by lia. subst. f_equal. lia.
Qed.
