(* ===== verification/Printf.v ===== *)
(** * Printing: common/libc/printf/__printf.c and snprintf.c, common/libc/stdlib/atoi.c

    [__vprintf] is a state machine that is fed the characters of the format one by one and
    sends text to a client; the client is a class, of which printing into a buffer and printing
    to the console are instances.  Arguments are the machine's: a 32-bit word for int, long and
    size_t, a 64-bit word for long long, a pointer, a string.  Reading an argument as another
    kind is undefined, and so is signed overflow. *)
From S2P Require Import Prelude Wp CString.

Definition chr (s : string) : Z := match s with String a _ => Z.of_N (Ascii.N_of_ascii a) | EmptyString => 0 end.
Definition text (s : string) : list Z := (fun a => Z.of_N (Ascii.N_of_ascii a)) <$> String.list_ascii_of_string s.

(** The arguments. *)
Inductive va : Type :=
| VaWord (x : Z)
| VaLLong (x : Z)
| VaPtr (x : Z)
| VaStr (s : option (list Z)).

Inductive intsize : Type := INTSZ | LONGSZ | LLONGSZ | SIZETSZ.
#[global] Instance intsize_eq_dec : EqDecision intsize.
Proof. solve_decision. Defined.

Record PF (C : Type) := mk_PF {
  clientdata : C; ap : list va; charcount : Z; in_pct : bool; size_ : intsize; num : Z; sign : Z;
  spacing : Z; rightspc : bool; fillchar : Z; base : Z; baseprefix : bool; altformat : bool }.
Arguments mk_PF {C} _ _ _ _ _ _ _ _ _ _ _ _ _.
Arguments clientdata {C} _.
Arguments ap {C} _.
Arguments charcount {C} _.
Arguments in_pct {C} _.
Arguments size_ {C} _.
Arguments num {C} _.
Arguments sign {C} _.
Arguments spacing {C} _.
Arguments rightspc {C} _.
Arguments fillchar {C} _.
Arguments base {C} _.
Arguments baseprefix {C} _.
Arguments altformat {C} _.

(** The callback and its data. *)
Class Sender (C : Type) := sendfunc : list Z -> M C unit.

Definition NUMBER_BUF_SIZE : Z := (8 * 8) / 3 + 2.
Definition LLONG_MIN : Z := - 2 ^ 63.

Section Vprintf.
Context {C : Type} `{!Sender C}.

Definition set_charcount (x : Z) (p : PF C) : PF C :=
  mk_PF (clientdata p) (ap p) x (in_pct p) (size_ p) (num p) (sign p) (spacing p) (rightspc p) (fillchar p) (base p) (baseprefix p) (altformat p).
Definition set_in_pct (x : bool) (p : PF C) : PF C :=
  mk_PF (clientdata p) (ap p) (charcount p) x (size_ p) (num p) (sign p) (spacing p) (rightspc p) (fillchar p) (base p) (baseprefix p) (altformat p).
Definition set_size (x : intsize) (p : PF C) : PF C :=
  mk_PF (clientdata p) (ap p) (charcount p) (in_pct p) x (num p) (sign p) (spacing p) (rightspc p) (fillchar p) (base p) (baseprefix p) (altformat p).
Definition set_num (n s : Z) (p : PF C) : PF C :=
  mk_PF (clientdata p) (ap p) (charcount p) (in_pct p) (size_ p) n s (spacing p) (rightspc p) (fillchar p) (base p) (baseprefix p) (altformat p).
Definition set_spacing (x : Z) (p : PF C) : PF C :=
  mk_PF (clientdata p) (ap p) (charcount p) (in_pct p) (size_ p) (num p) (sign p) x (rightspc p) (fillchar p) (base p) (baseprefix p) (altformat p).
Definition set_rightspc (x : bool) (p : PF C) : PF C :=
  mk_PF (clientdata p) (ap p) (charcount p) (in_pct p) (size_ p) (num p) (sign p) (spacing p) x (fillchar p) (base p) (baseprefix p) (altformat p).
Definition set_fillchar (x : Z) (p : PF C) : PF C :=
  mk_PF (clientdata p) (ap p) (charcount p) (in_pct p) (size_ p) (num p) (sign p) (spacing p) (rightspc p) x (base p) (baseprefix p) (altformat p).
Definition set_base (b : Z) (x : bool) (p : PF C) : PF C :=
  mk_PF (clientdata p) (ap p) (charcount p) (in_pct p) (size_ p) (num p) (sign p) (spacing p) (rightspc p) (fillchar p) b x (altformat p).
Definition set_altformat (x : bool) (p : PF C) : PF C :=
  mk_PF (clientdata p) (ap p) (charcount p) (in_pct p) (size_ p) (num p) (sign p) (spacing p) (rightspc p) (fillchar p) (base p) (baseprefix p) x.
Definition set_clientdata (c : C) (p : PF C) : PF C :=
  mk_PF c (ap p) (charcount p) (in_pct p) (size_ p) (num p) (sign p) (spacing p) (rightspc p) (fillchar p) (base p) (baseprefix p) (altformat p).
Definition set_ap (l : list va) (p : PF C) : PF C :=
  mk_PF (clientdata p) l (charcount p) (in_pct p) (size_ p) (num p) (sign p) (spacing p) (rightspc p) (fillchar p) (base p) (baseprefix p) (altformat p).

(** The length is unsigned: the count wraps, it does not overflow. *)
Definition __pf_print (txt : list Z) : M (PF C) unit :=
  zoom "client" (fun p => Some (clientdata p)) set_clientdata (sendfunc txt);;
  modify (fun p => set_charcount (i32 (charcount p + Z.of_nat (length txt))) p).

Definition __pf_endfield : M (PF C) unit :=
  modify (fun p => mk_PF (clientdata p) (ap p) (charcount p) false INTSZ 0 0 0 false 32 0 false false).

(** A signed result that does not fit the type is undefined. *)
Definition fits_int (x : Z) : M (PF C) Z :=
  deref "signed overflow" (if (- 2 ^ 31 <=? x) && (x <? 2 ^ 31) then Some x else None).

Definition __pf_modifier (ch : Z) : M (PF C) unit :=
  if ch =? chr "#" then modify (set_altformat true)
  else if ch =? chr "-" then modify (set_rightspc true)
  else if ch =? chr "l" then
    modify (fun p => if decide (size_ p = LONGSZ) then set_size LLONGSZ p else set_size LONGSZ p)
  else if ch =? chr "z" then modify (set_size SIZETSZ)
  else if ch =? chr "0" then
    p ← get;
    if 0 <? spacing p then x ← fits_int (spacing p * 10); modify (set_spacing x)
    else modify (set_fillchar (chr "0"))
  else
    kassert "ch>'0' && ch<='9'" ((chr "0" <? ch) && (ch <=? chr "9"));;
    p ← get; x ← fits_int (spacing p * 10); x ← fits_int (x + (ch - chr "0")); modify (set_spacing x).

Definition va_arg : M (PF C) va :=
  p ← get;
  match ap p with [] => halt (Undefined "va_arg") | a :: l => modify (set_ap l);; mret a end.
Definition va_word : M (PF C) Z := a ← va_arg; deref "va_arg" (match a with VaWord x => Some x | _ => None end).
Definition va_llong : M (PF C) Z := a ← va_arg; deref "va_arg" (match a with VaLLong x => Some x | _ => None end).
Definition va_ptr : M (PF C) Z := a ← va_arg; deref "va_arg" (match a with VaPtr x => Some x | _ => None end).
Definition va_str : M (PF C) (option (list Z)) := a ← va_arg; deref "va_arg" (match a with VaStr x => Some x | _ => None end).

Definition __pf_getnum (ch : Z) : M (PF C) unit :=
  p ← get;
  if ch =? chr "p" then x ← va_ptr; modify (fun p => set_num x (sign p) p)
  else if ch =? chr "d" then
    signednum ← (match size_ p with LLONGSZ => x ← va_llong; mret (i64 x) | _ => x ← va_word; mret (i32 x) end);
    if signednum <? 0 then
      n ← deref "signed overflow" (if signednum =? LLONG_MIN then None else Some (- signednum));
      modify (set_num n (-1))
    else modify (fun p => set_num signednum (sign p) p)
  else
    x ← (match size_ p with LLONGSZ => va_llong | _ => va_word end);
    modify (fun p => set_num x (sign p) p).

Definition __pf_setbase (ch : Z) : M (PF C) unit :=
  modify (fun p =>
    let b := if (ch =? chr "d") || (ch =? chr "u") then 10 else if (ch =? chr "x") || (ch =? chr "p") then 16
             else if ch =? chr "o" then 8 else base p in
    set_base b (if altformat p || (ch =? chr "p") then true else baseprefix p) p).

Definition __pf_fill (spc : Z) : M (PF C) unit :=
  p ← get; for_up (Z.to_nat spc) 0 (fun _ => __pf_print [u8 (fillchar p)]).

Definition __pf_printstuff (prefix prefix2 stuff : list Z) : M (PF C) unit :=
  p ← get;
  let len := i32 (Z.of_nat (length prefix) + Z.of_nat (length prefix2) + Z.of_nat (length stuff)) in
  let spc := if len <? spacing p then spacing p - len else 0 in
  (if (0 <? spc) && negb (rightspc p) && negb (fillchar p =? chr "0") then __pf_fill spc else mret tt);;
  __pf_print prefix;;
  __pf_print prefix2;;
  (if (0 <? spc) && negb (rightspc p) && (fillchar p =? chr "0") then __pf_fill spc else mret tt);;
  __pf_print stuff;;
  (if (0 <? spc) && rightspc p then __pf_fill spc else mret tt).

(** The number buffer: a store outside of it is undefined. *)
Definition buf_store (buf : list Z) (x v : Z) : M (PF C) (list Z) :=
  deref "buf" (if (0 <=? x) && (x <? Z.of_nat (length buf)) then Some (<[Z.to_nat x := v]> buf) else None).
(** The string at [x] in the buffer. *)
Fixpoint cstring (l : list Z) : option (list Z) :=
  match l with [] => None | c :: l' => if c =? 0 then Some [] else (cons c) <$> cstring l' end.

Definition digits : list Z := text "0123456789abcdef".

Fixpoint digit_loop (fuel : nat) (buf : list Z) (x xnum : Z) : M (PF C) (list Z * Z) :=
  match fuel with
  | O => fun _ => OutOfFuel
  | S f =>
      p ← get;
      d ← deref "division by zero" (if base p =? 0 then None else Some (xnum mod base p));
      c ← deref "digits" (digits !! Z.to_nat d);
      buf ← buf_store buf x c;
      let x := x - 1 in
      let xnum := xnum / base p in
      if 0 <? xnum then digit_loop f buf x xnum else mret (buf, x)
  end.

Definition __pf_printnum : M (PF C) unit :=
  let x := NUMBER_BUF_SIZE - 1 in
  buf ← buf_store (replicate (Z.to_nat NUMBER_BUF_SIZE) 170) x 0;
  let x := x - 1 in
  p ← get;
  '(buf, x) ← digit_loop 64 buf x (num p);
  let x := x + 1 in
  let bprefix := if baseprefix p && (base p =? 16) then text "0x" else if baseprefix p && (base p =? 8) then text "0" else [] in
  let sprefix := if sign p =? 0 then [] else text "-" in
  stuff ← deref "strlen" (cstring (drop (Z.to_nat x) buf));
  __pf_printstuff sprefix bprefix stuff.

Definition one_of (s : string) (ch : Z) : bool := existsb (Z.eqb ch) (text s).

Definition __pf_send (ch : Z) : M (PF C) unit :=
  kassert "ch!=0" (negb (ch =? 0));;
  p ← get;
  if negb (in_pct p) && negb (ch =? chr "%") then __pf_print [u8 ch]
  else if negb (in_pct p) then modify (set_in_pct true)
  else if one_of "#-lz0123456789" ch then __pf_modifier ch
  else if one_of "doupx" ch then __pf_getnum ch;; __pf_setbase ch;; __pf_printnum;; __pf_endfield
  else if ch =? chr "s" then
    str ← va_str;
    __pf_printstuff [] [] (default (text "(null)") str);; __pf_endfield
  else
    x ← (if ch =? chr "c" then x ← va_word; mret (u8 x) else mret (u8 ch));
    __pf_printstuff [] [] (if x =? 0 then [] else [x]);; __pf_endfield.

Fixpoint send_all (format : list Z) : M (PF C) unit :=
  match format with [] => mret tt | ch :: format' => __pf_send ch;; send_all format' end.

(** The client's data goes in with the call and comes out with the count. *)
Definition __vprintf (format : list Z) (args : list va) : M C Z := fun c =>
  match (__pf_endfield;; send_all format;; gets charcount) (mk_PF c args 0 false INTSZ 0 0 0 false 0 0 false false) with
  | Done n p => Done n (clientdata p)
  | Halt r => Halt r
  | Exited p => Exited (clientdata p)
  | OutOfFuel => OutOfFuel
  end.
End Vprintf.

(** ** snprintf *)

Record SNP := mk_SNP { snp_mem : mem; snp_buf : Z; snp_buflen : Z; snp_bufpos : Z }.

Fixpoint __snprintf_send (data : list Z) : M SNP unit :=
  match data with
  | [] => mret tt
  | c :: data' =>
      s ← get;
      (if snp_bufpos s <? snp_buflen s then
         zoom "memory" (fun s => Some (snp_mem s)) (fun m s => mk_SNP m (snp_buf s) (snp_buflen s) (snp_bufpos s)) (store8 (snp_buf s + snp_bufpos s) c);;
         modify (fun s => mk_SNP (snp_mem s) (snp_buf s) (snp_buflen s) (u32 (snp_bufpos s + 1)))
       else mret tt);;
      __snprintf_send data'
  end.
#[export] Instance snp_sender : Sender SNP := __snprintf_send.

Definition vsnprintf (buf len : Z) (fmt : list Z) (args : list va) : M mem Z := fun m =>
  match __vprintf fmt args (mk_SNP m buf (if len =? 0 then 0 else len - 1) 0) with
  | Done chars s => ((if 0 <? len then store8 (buf + snp_bufpos s) 0 else mret tt);; mret chars) (snp_mem s)
  | Halt r => Halt r
  | Exited s => Exited (snp_mem s)
  | OutOfFuel => OutOfFuel
  end.

Definition snprintf (buf len : Z) (fmt : string) (args : list va) : M mem Z := vsnprintf buf len (text fmt) args.

(** ** kprintf: [console_send] of kern/lib/kprintf.c sends the characters to the console. *)
Fixpoint console_send (data : list Z) : M (list Z) unit :=
  match data with [] => mret tt | c :: data' => modify (fun out => out ++ [c]);; console_send data' end.
Definition console : Type := list Z.
#[export] Instance console_sender : Sender console := console_send.

(** ** atoi *)

Fixpoint skip_white (fuel : nat) (s : Z) : M mem Z :=
  match fuel with
  | O => fun _ => OutOfFuel
  | S f => c ← load8 s; if (c =? 32) || (c =? 9) then skip_white f (u32 (s + 1)) else mret s
  end.

(** [digits] is the address of the array of the ten digits. *)
Fixpoint atoi_loop (fuel : nat) (digits s val : Z) : M mem Z :=
  match fuel with
  | O => fun _ => OutOfFuel
  | S f =>
      c ← load8 s;
      if c =? 0 then mret val else
      where_ ← strchr digits c;
      if where_ =? 0 then mret val else
      atoi_loop f digits (u32 (s + 1)) (u32 (val * 10 + u32 (where_ - digits)))
  end.

Definition atoi (digits s : Z) : M mem Z :=
  f ← scan_fuel;
  s ← skip_white f s;
  c ← load8 s;
  let '(neg, s) := if c =? chr "-" then (true, u32 (s + 1)) else if c =? chr "+" then (false, u32 (s + 1)) else (false, s) in
  val ← atoi_loop f digits s 0;
  mret (if neg : bool then i32 (u32 (- val)) else i32 val).
