(* ===== verification/PrintfTheorems.v ===== *)
(** * What printf prints

    [render] is the reference: the text of a format and its arguments, defined on the format's
    directives.  For every client that obeys [SenderLaws], [__vprintf] sends this text. *)
From S2P Require Import Prelude Wp CString Printf.

(** ** The reference *)

Section Field.
Context (ms : list Z).

Definition is_digit (c : Z) : bool := (48 <=? c) && (c <=? 57).
Definition f_alt : bool := bool_decide (chr "#" ∈ ms).
Definition f_left : bool := bool_decide (chr "-" ∈ ms).
Definition f_width : Z := foldl (fun w c => w * 10 + (c - 48)) 0 (filter is_digit ms).
Definition f_zero : bool := bool_decide (head (filter is_digit ms) = Some (chr "0")).
Definition f_size : intsize :=
  foldl (fun s c => if c =? chr "l" then (if decide (s = LONGSZ) then LLONGSZ else LONGSZ) else if c =? chr "z" then SIZETSZ else s) INTSZ ms.

(** A field: blanks go before the prefix, zeros behind it. *)
Definition pad (prefix stuff : list Z) : list Z :=
  let gap := replicate (Z.to_nat (f_width - Z.of_nat (length prefix + length stuff))) (if f_zero then chr "0" else 32) in
  if f_left then prefix ++ stuff ++ gap else if f_zero then prefix ++ gap ++ stuff else gap ++ prefix ++ stuff.
End Field.

(** The digits of a number, the least significant first, and its text. *)
Fixpoint le_digits (fuel : nat) (b n : Z) : list Z :=
  match fuel with
  | O => []
  | S f => n mod b :: (if 0 <? n / b then le_digits f b (n / b) else [])
  end.
Definition digit_char (d : Z) : Z := default 0 (digits !! Z.to_nat d).
Definition number_text (b n : Z) : list Z := digit_char <$> rev (le_digits 64 b n).

Definition conv_base (ch : Z) : Z :=
  if (ch =? chr "d") || (ch =? chr "u") then 10 else if (ch =? chr "x") || (ch =? chr "p") then 16 else 8.

(** The number of an argument: whether it is negative, and its absolute value. *)
Definition conv_num (sz : intsize) (ch : Z) (args : list va) : option (bool * Z * list va) :=
  match args with
  | [] => None
  | a :: args' =>
      let signed x := if x =? LLONG_MIN then None else Some (x <? 0, Z.abs x, args') in
      if ch =? chr "p" then match a with VaPtr x => Some (false, x, args') | _ => None end
      else match a with
           | VaWord x => if decide (sz = LLONGSZ) then None else if ch =? chr "d" then signed (i32 x) else Some (false, x, args')
           | VaLLong x => if decide (sz = LLONGSZ) then (if ch =? chr "d" then signed (i64 x) else Some (false, x, args')) else None
           | _ => None
           end
  end.

Definition conv_prefix (ms : list Z) (ch : Z) : list Z :=
  if f_alt ms || (ch =? chr "p") then (if conv_base ch =? 16 then text "0x" else if conv_base ch =? 8 then text "0" else []) else [].

(** Not rendered: [%X], for which the manual page asks for upper-case hexadecimal digits and
    which the code does not know; a left-aligned field with zeros for padding; and the
    character 0. *)
Definition render_conv (ms : list Z) (ch : Z) (args : list va) : option (list Z * list va) :=
  if f_left ms && f_zero ms then None else
  if one_of "doupx" ch then
    '(neg, n, args') ← conv_num (f_size ms) ch args;
    Some (pad ms ((if neg : bool then text "-" else []) ++ conv_prefix ms ch) (number_text (conv_base ch) n), args')
  else if ch =? chr "s" then
    match args with VaStr s :: args' => Some (pad ms [] (default (text "(null)") s), args') | _ => None end
  else if ch =? chr "c" then
    match args with VaWord x :: args' => if u8 x =? 0 then None else Some (pad ms [] [u8 x], args') | _ => None end
  else if ch =? chr "X" then None else Some (pad ms [] [ch], args).

Definition is_modifier (ch : Z) : bool := one_of "#-lz0123456789" ch.

(** [cur]: the modifiers of the directive that is being read. *)
Fixpoint render_from (cur : option (list Z)) (fmt : list Z) (args : list va) : option (list Z) :=
  match fmt with
  | [] => Some []
  | ch :: fmt' =>
      match cur with
      | None => if ch =? chr "%" then render_from (Some []) fmt' args else (cons ch) <$> render_from None fmt' args
      | Some ms =>
          if is_modifier ch then
            if f_width (ms ++ [ch]) <? 2 ^ 31 then render_from (Some (ms ++ [ch])) fmt' args else None
          else
            '(out, args') ← render_conv ms ch args;
            (app out) <$> render_from None fmt' args'
      end
  end.
Definition render (fmt : list Z) (args : list va) : option (list Z) := render_from None fmt args.

Definition va_ok (a : va) : Prop :=
  match a with
  | VaWord x | VaPtr x => is_u32 x
  | VaLLong x => 0 <= x < 2 ^ 64
  | VaStr None => True
  | VaStr (Some s) => Z.of_nat (length s) < 2 ^ 31
  end.

(** ** Numbers and their digits *)

Fixpoint le_value (b : Z) (ds : list Z) : Z := match ds with [] => 0 | d :: ds' => d + b * le_value b ds' end.

Lemma le_digits_value b n f : 2 <= b -> 0 <= n < b ^ Z.of_nat f -> le_value b (le_digits f b n) = n.
Proof.
  intros Hb. revert n. induction f as [|f IH]; intros n Hn; cbn [le_digits le_value]; [cbn in Hn; lia|].
  assert (Hq : 0 <= n / b < b ^ Z.of_nat f).
  { split; [apply Z.div_pos; lia|]. apply Z.div_lt_upper_bound; [lia|]. rewrite <- Z.pow_succ_r, <- Nat2Z.inj_succ by lia. lia. }
  destruct (Z.ltb_spec 0 (n / b)) as [H|H].
  - rewrite IH by done. rewrite Z.add_comm. symmetry. apply Z.div_mod. lia.
  - cbn. assert (n / b = 0) by lia. pose proof (Z.div_mod n b ltac:(lia)). lia.
Qed.

Lemma le_digits_range b n f : 0 < b -> Forall (fun d => 0 <= d < b) (le_digits f b n).
Proof.
  intros Hb. revert n. induction f as [|f IH]; intros n; cbn; constructor; [apply Z.mod_pos_bound; lia|].
  destruct (0 <? n / b); [apply IH|constructor].
Qed.

Lemma le_digits_length b n f k : 2 <= b -> 0 <= n < b ^ Z.of_nat (S k) -> (length (le_digits f b n) <= S k)%nat.
Proof.
  intros Hb. revert n k. induction f as [|f IH]; intros n k Hn; cbn; [lia|].
  destruct (Z.ltb_spec 0 (n / b)) as [H|H]; [|cbn; lia]. destruct k as [|k].
  - rewrite Z.pow_1_r in Hn. rewrite Z.div_small in H by lia. lia.
  - apply le_n_S, IH. split; [lia|]. apply Z.div_lt_upper_bound; [lia|].
    rewrite <- Z.pow_succ_r, <- Nat2Z.inj_succ by lia. lia.
Qed.

Lemma digit_char_range d : 0 <= d < 16 -> 0 < digit_char d < 256 /\ digits !! Z.to_nat d = Some (digit_char d).
Proof.
  intros Hd. assert (Hl : (Z.to_nat d < 16)%nat) by lia. unfold digit_char. revert Hl. generalize (Z.to_nat d) as k. intros k Hk.
  do 16 (destruct k as [|k]; [vm_compute; done|]). lia.
Qed.

(** The three bases and 64-bit numbers: the text fits into the number buffer. *)
Lemma le_digits_fit b n : 8 <= b -> 0 <= n < 2 ^ 64 -> (length (le_digits 64 b n) <= 22)%nat.
Proof.
  intros Hb Hn. apply le_digits_length; [lia|]. split; [lia|]. apply Z.lt_le_trans with (8 ^ 22); [lia|].
  apply Z.pow_le_mono_l. lia.
Qed.

(** The characters of the formats as numbers. *)
Ltac chrs :=
  change (chr "#") with 35 in *; change (chr "-") with 45 in *; change (chr "l") with 108 in *; change (chr "z") with 122 in *;
  change (chr "0") with 48 in *; change (chr "9") with 57 in *; change (chr "p") with 112 in *; change (chr "d") with 100 in *;
  change (chr "u") with 117 in *; change (chr "x") with 120 in *; change (chr "o") with 111 in *; change (chr "s") with 115 in *;
  change (chr "c") with 99 in *; change (chr "%") with 37 in *.

(** ** Modifiers one by one *)

Section Snoc.
Context (ms : list Z) (c : Z).

Lemma f_alt_snoc : f_alt (ms ++ [c]) = f_alt ms || (c =? chr "#").
Proof. unfold f_alt. rewrite <- (bool_decide_ext _ _ (iff_sym (elem_of_app ms [c] _))), bool_decide_or. f_equal. rewrite (bool_decide_ext _ _ (list_elem_of_singleton _ c)). destruct (Z.eqb_spec c (chr "#")); [by apply bool_decide_true|by apply bool_decide_false]. Qed.
Lemma f_left_snoc : f_left (ms ++ [c]) = f_left ms || (c =? chr "-").
Proof. unfold f_left. rewrite <- (bool_decide_ext _ _ (iff_sym (elem_of_app ms [c] _))), bool_decide_or. f_equal. rewrite (bool_decide_ext _ _ (list_elem_of_singleton _ c)). destruct (Z.eqb_spec c (chr "-")); [by apply bool_decide_true|by apply bool_decide_false]. Qed.
Lemma f_size_snoc : f_size (ms ++ [c]) =
  if c =? chr "l" then (if decide (f_size ms = LONGSZ) then LLONGSZ else LONGSZ) else if c =? chr "z" then SIZETSZ else f_size ms.
Proof. unfold f_size. by rewrite foldl_app. Qed.
Lemma f_digits_snoc : filter is_digit (ms ++ [c]) = filter is_digit ms ++ (if is_digit c then [c] else []).
Proof. rewrite filter_app. f_equal. rewrite filter_cons, filter_nil. by destruct (is_digit c). Qed.
Lemma f_width_snoc : f_width (ms ++ [c]) = if is_digit c then f_width ms * 10 + (c - 48) else f_width ms.
Proof. unfold f_width. rewrite f_digits_snoc, foldl_app. by destruct (is_digit c). Qed.
End Snoc.

Lemma f_width_nonneg ms : 0 <= f_width ms.
Proof.
  induction ms as [|c ms IH] using rev_ind; [done|]. rewrite f_width_snoc. destruct (is_digit c) eqn:E; [|done].
  unfold is_digit in E. apply andb_true_iff in E. rewrite !Z.leb_le in E. lia.
Qed.

(** Nothing but zeros was read as long as the width is 0. *)
Lemma f_width_zero ms : f_width ms = 0 -> Forall (fun c => c = 48) (filter is_digit ms).
Proof.
  induction ms as [|c ms IH] using rev_ind; [intros _; constructor|]. rewrite f_width_snoc, f_digits_snoc.
  pose proof (f_width_nonneg ms). destruct (is_digit c) eqn:E; intros Hw; apply Forall_app.
  - unfold is_digit in E. apply andb_true_iff in E. rewrite !Z.leb_le in E. split; [apply IH; lia|]. apply Forall_singleton. lia.
  - split; [by apply IH|constructor].
Qed.
Lemma f_zero_snoc ms c : f_zero (ms ++ [c]) = if is_digit c && (f_width ms =? 0) && (c =? 48) then true else f_zero ms.
Proof.
  unfold f_zero. rewrite f_digits_snoc. destruct (is_digit c) eqn:E; cbn [andb]; [|by rewrite app_nil_r].
  destruct (Z.eqb_spec (f_width ms) 0) as [Hw|Hw]; cbn [andb].
  - apply f_width_zero in Hw. destruct (filter is_digit ms) as [|d ds]; cbn [app head].
    + destruct (Z.eqb_spec c 48) as [->|Hc]; [done|]. rewrite bool_decide_false by (intros [= ->]; by apply Hc). done.
    + apply Forall_inv in Hw as ->. by destruct (c =? 48).
  - destruct (filter is_digit ms) as [|d ds] eqn:Ed; [|done]. exfalso. apply Hw. unfold f_width. by rewrite Ed.
Qed.

Lemma one_of_true s ch : one_of s ch = true <-> ch ∈ text s.
Proof.
  unfold one_of. rewrite existsb_exists. setoid_rewrite Z.eqb_eq. split; [intros (x & Hx & ->); by apply list_elem_of_In|].
  intros H. exists ch. by rewrite <- list_elem_of_In.
Qed.

(** ** Clients

    [put c txt] is the client's data after the text was sent; sending in pieces makes no
    difference. *)
Class SenderLaws (C : Type) `{!Sender C} := {
  client_ok : C -> Prop;
  put : C -> list Z -> C;
  send_put : forall c txt, client_ok c -> sendfunc txt c = Done tt (put c txt);
  put_ok : forall c txt, client_ok c -> client_ok (put c txt);
  put_nil : forall c, client_ok c -> put c [] = c;
  put_app : forall c a b, client_ok c -> put (put c a) b = put c (a ++ b) }.

Lemma i32_add_i32 a b : i32 (i32 a + b) = i32 (a + b).
Proof.
  unfold i32. f_equal. replace ((a + 2 ^ 31) mod 2 ^ 32 - 2 ^ 31 + b + 2 ^ 31) with ((a + 2 ^ 31) mod 2 ^ 32 + b) by lia.
  rewrite Z.add_mod_idemp_l by lia. f_equal. lia.
Qed.
Lemma i32_range x : - 2 ^ 31 <= i32 x < 2 ^ 31.
Proof. unfold i32. pose proof (Z.mod_pos_bound (x + 2 ^ 31) (2 ^ 32)). lia. Qed.

Section Proofs.
Context {C : Type} `{!Sender C, !SenderLaws C}.
Implicit Types (p : PF C).

Definition pf_ok p : Prop := client_ok (clientdata p) /\ i32 (charcount p) = charcount p.
Definition sent p (txt : list Z) : PF C :=
  set_charcount (i32 (charcount p + Z.of_nat (length txt))) (set_clientdata (put (clientdata p) txt) p).

Lemma pf_print_eq p txt : pf_ok p -> __pf_print txt p = Done tt (sent p txt).
Proof.
  intros [Hc _]. unfold __pf_print, zoom, mbind, M_bind. by rewrite (send_put (clientdata p) txt Hc).
Qed.
Lemma sent_ok p txt : pf_ok p -> pf_ok (sent p txt).
Proof. intros [Hc Hn]. split; [by apply put_ok|]. cbn. apply i32_small, i32_range. Qed.
Lemma sent_app p a b : pf_ok p -> sent (sent p a) b = sent p (a ++ b).
Proof.
  intros [Hc _]. unfold sent. destruct p. cbn in *. rewrite put_app by done. rewrite i32_add_i32, length_app. unfold set_charcount, set_clientdata. cbn. do 2 f_equal. lia.
Qed.
Lemma sent_nil p : pf_ok p -> sent p [] = p.
Proof. intros [Hc Hn]. unfold sent. destruct p. cbn in *. rewrite put_nil by done. by rewrite Z.add_0_r, Hn. Qed.

Lemma pf_fill_eq p n : pf_ok p -> __pf_fill n p = Done tt (sent p (replicate (Z.to_nat n) (u8 (fillchar p)))).
Proof.
  intros Hp. unfold __pf_fill. erewrite bind_ret; [|done]. generalize (u8 (fillchar p)) as f. intros f.
  assert (H : forall k i q, pf_ok q -> for_up k i (fun _ => __pf_print [f]) q = Done tt (sent q (replicate k f))); [|by apply H].
  clear. induction k as [|k IH]; intros i q Hq; cbn [for_up replicate]; [by rewrite sent_nil|].
  rewrite (bind_ret _ _ _ _ _ (pf_print_eq q [f] Hq)). rewrite IH by by apply sent_ok. by rewrite sent_app.
Qed.

(** The fields a printed text does not touch. *)
Lemma sent_fields p txt : spacing (sent p txt) = spacing p /\ fillchar (sent p txt) = fillchar p /\ rightspc (sent p txt) = rightspc p.
Proof. done. Qed.

Definition padded p (prefix stuff : list Z) : list Z :=
  let gap := replicate (Z.to_nat (spacing p - Z.of_nat (length prefix + length stuff))) (u8 (fillchar p)) in
  if rightspc p then prefix ++ stuff ++ gap else if fillchar p =? chr "0" then prefix ++ gap ++ stuff else gap ++ prefix ++ stuff.

Lemma pf_printstuff_eq p prefix prefix2 stuff : pf_ok p -> 0 <= spacing p ->
  Z.of_nat (length (prefix ++ prefix2) + length stuff) < 2 ^ 31 ->
  __pf_printstuff prefix prefix2 stuff p = Done tt (sent p (padded p (prefix ++ prefix2) stuff)).
Proof.
  intros Hp Hs Hl. unfold __pf_printstuff, padded. erewrite bind_ret; [|done]. cbv zeta. rewrite length_app in Hl.
  rewrite i32_small by lia. rewrite length_app.
  set (len := Z.of_nat (length prefix) + Z.of_nat (length prefix2) + Z.of_nat (length stuff)).
  replace (Z.of_nat (length prefix + length prefix2 + length stuff)) with len by (unfold len; lia).
  set (spc := if len <? spacing p then spacing p - len else 0).
  assert (Hspc : Z.to_nat (spacing p - len) = Z.to_nat spc) by (unfold spc; destruct (Z.ltb_spec len (spacing p)); lia).
  rewrite Hspc. assert (Hz : 0 <= spc) by (unfold spc; destruct (Z.ltb_spec len (spacing p)); lia).
  set (gap := replicate (Z.to_nat spc) (u8 (fillchar p))).
  assert (Hif : forall b q, pf_ok q -> fillchar q = fillchar p ->
    (if (0 <? spc) && b then __pf_fill spc else mret tt) q = Done tt (sent q (if b : bool then gap else []))).
  { intros b q Hq Hf. destruct b; rewrite ?andb_true_r, ?andb_false_r; [|cbn; by rewrite sent_nil].
    destruct (Z.ltb_spec 0 spc); [rewrite pf_fill_eq by done; by rewrite Hf|].
    unfold gap. replace spc with 0 by lia. cbn. by rewrite sent_nil. }
  rewrite <- !(andb_assoc (0 <? spc)).
  pose proof (sent_ok p) as Hok.
  erewrite bind_ret; [|by apply Hif]. erewrite bind_ret; [|by apply pf_print_eq, sent_ok]. rewrite sent_app by done.
  erewrite bind_ret; [|by apply pf_print_eq, sent_ok]. rewrite sent_app by done.
  erewrite bind_ret; [|by apply Hif; [apply sent_ok|]]. rewrite sent_app by done.
  erewrite bind_ret; [|by apply pf_print_eq, sent_ok]. rewrite sent_app by done.
  rewrite Hif by (done || by apply sent_ok). rewrite sent_app by done. do 2 f_equal.
  destruct (rightspc p); cbn [negb andb]; [by rewrite !app_nil_r, !app_nil_l, <- !app_assoc|].
  destruct (fillchar p =? chr "0"); cbn [negb]; rewrite ?app_nil_r, ?app_nil_l, <- ?app_assoc; done.
Qed.

(** The digit loop fills the buffer from the right. *)
Lemma digit_loop_eq p : 2 <= base p <= 16 -> forall f buf x n, let ds := le_digits f (base p) n in
  0 <= n < base p ^ Z.of_nat f -> (0 < f)%nat -> Z.of_nat (length ds) <= x + 1 -> x < Z.of_nat (length buf) ->
  digit_loop f buf x n p =
    Done (take (Z.to_nat (x + 1) - length ds) buf ++ (digit_char <$> rev ds) ++ drop (Z.to_nat (x + 1)) buf, x - Z.of_nat (length ds)) p.
Proof.
  intros Hb. induction f as [|f IH]; intros buf x n ds Hn Hf Hx Hlen; [lia|]. subst ds. cbn [digit_loop le_digits] in *.
  assert (Hd : 0 <= n mod base p < 16) by (pose proof (Z.mod_pos_bound n (base p)); lia).
  destruct (digit_char_range _ Hd) as [Hc Hlook]. erewrite bind_ret; [|done].
  rewrite (proj2 (Z.eqb_neq (base p) 0)) by lia. erewrite bind_ret; [|done]. rewrite Hlook. erewrite bind_ret; [|done].
  cbn [length] in Hx. unfold buf_store. rewrite (proj2 (Z.leb_le 0 x)), (proj2 (Z.ltb_lt x _)) by lia. erewrite bind_ret; [|done]. cbv zeta.
  assert (Hins : <[Z.to_nat x := digit_char (n mod base p)]> buf = take (Z.to_nat x) buf ++ digit_char (n mod base p) :: drop (Z.to_nat (x + 1)) buf).
  { replace (Z.to_nat (x + 1)) with (S (Z.to_nat x)) by lia. apply insert_take_drop. lia. }
  destruct (Z.ltb_spec 0 (n / base p)) as [Hq|Hq].
  - assert (Hf1 : (0 < f)%nat). { destruct f; [|lia]. rewrite Z.pow_1_r in Hn. rewrite Z.div_small in Hq by lia. lia. }
    rewrite IH; [|split; [lia|]; apply Z.div_lt_upper_bound; [lia|]; rewrite <- Z.pow_succ_r, <- Nat2Z.inj_succ by lia; lia|done|lia|rewrite length_insert; lia].
    set (ds := le_digits f (base p) (n / base p)) in *. cbn [rev length]. rewrite Hins.
    replace (x - 1 + 1) with x by lia. f_equal. f_equal; [|lia].
    rewrite take_app_le by (rewrite length_take; lia). rewrite take_take, Nat.min_l by lia.
    rewrite drop_app_ge by (rewrite length_take; lia). rewrite length_take, Nat.min_l, Nat.sub_diag by lia. cbn [drop].
    replace (Z.to_nat (x + 1) - S (length ds))%nat with (Z.to_nat x - length ds)%nat by lia.
    rewrite fmap_app. cbn. by rewrite <- app_assoc.
  - cbn [rev app length]. rewrite Hins. cbn. replace (Z.to_nat (x + 1) - 1)%nat with (Z.to_nat x) by lia. done.
Qed.

Lemma cstring_chars l k : chars l -> cstring (l ++ 0 :: k) = Some l.
Proof. induction 1 as [|c l Hc Hl IH]; cbn; [done|]. rewrite (proj2 (Z.eqb_neq c 0)) by lia. by rewrite IH. Qed.

Lemma number_text_chars b n : 2 <= b <= 16 -> chars (number_text b n).
Proof.
  intros Hb. unfold number_text, chars. apply Forall_fmap, Forall_rev. eapply Forall_impl; [apply le_digits_range; lia|].
  intros d Hd. cbn beta in Hd |- *. unfold compose. apply digit_char_range. lia.
Qed.

Lemma pf_printnum_eq p : pf_ok p -> 0 <= spacing p -> 8 <= base p <= 16 -> 0 <= num p < 2 ^ 64 ->
  __pf_printnum p = Done tt (sent p (padded p
    ((if sign p =? 0 then [] else text "-") ++
     (if baseprefix p && (base p =? 16) then text "0x" else if baseprefix p && (base p =? 8) then text "0" else []))
    (number_text (base p) (num p)))).
Proof.
  intros Hp Hs Hb Hn. unfold __pf_printnum. cbv zeta.
  erewrite bind_ret; [|reflexivity]. erewrite bind_ret; [|done]. change (NUMBER_BUF_SIZE - 1 - 1) with 21.
  set (buf := <[Z.to_nat (NUMBER_BUF_SIZE - 1) := 0]> (replicate (Z.to_nat NUMBER_BUF_SIZE) 170)).
  pose proof (le_digits_fit (base p) (num p) ltac:(lia) Hn) as Hfit.
  erewrite bind_ret; [|apply (digit_loop_eq p ltac:(lia) 64 buf 21 (num p))].
  2: { split; [lia|]. apply Z.lt_le_trans with (2 ^ 64); [lia|]. apply Z.pow_le_mono_l. lia. }
  2: lia. 2: lia. 2: { change (length buf) with 23%nat. lia. }
  set (ds := le_digits 64 (base p) (num p)) in *. cbv beta iota.
  change (drop (Z.to_nat (21 + 1)) buf) with [0].
  replace (Z.to_nat (21 - Z.of_nat (length ds) + 1)) with (22 - length ds)%nat by lia.
  rewrite drop_app_ge by (rewrite length_take; lia). rewrite length_take.
  change (length buf) with 23%nat. change (Z.to_nat (21 + 1)) with 22%nat.
  replace (22 - length ds - (22 - length ds) `min` 23)%nat with 0%nat by lia. cbn [drop].
  change (digit_char <$> rev ds) with (number_text (base p) (num p)).
  rewrite drop_0, cstring_chars by (apply number_text_chars; lia). erewrite bind_ret; [|done].
  apply pf_printstuff_eq; [done|done|]. unfold number_text. rewrite length_app, length_fmap, length_rev. fold ds.
  assert (length (text "0x") = 2 /\ length (text "0") = 1 /\ length (text "-") = 1)%nat as (E1 & E2 & E3) by done.
  destruct (sign p =? 0), (baseprefix p), (base p =? 16), (base p =? 8); cbn [andb]; rewrite ?length_app, ?E1, ?E2, ?E3; cbn [length]; lia.
Qed.

(** ** The state machine

    Between directives, and after the modifiers [ms] of a directive. *)
Definition idle (c : C) (a : list va) (n : Z) : PF C := mk_PF c a n false INTSZ 0 0 0 false 32 0 false false.
Definition reading (c : C) (a : list va) (n : Z) (ms : list Z) : PF C :=
  mk_PF c a n true (f_size ms) 0 0 (f_width ms) (f_left ms) (if f_zero ms then chr "0" else 32) 0 false (f_alt ms).

Lemma padded_pad p ms prefix stuff : spacing p = f_width ms -> rightspc p = f_left ms -> fillchar p = (if f_zero ms then chr "0" else 32) ->
  padded p prefix stuff = pad ms prefix stuff.
Proof. intros H1 H2 H3. unfold padded, pad. rewrite H1, H2, H3. by destruct (f_zero ms). Qed.

Lemma pf_modifier_eq c a n ms ch : is_modifier ch = true -> f_width (ms ++ [ch]) < 2 ^ 31 ->
  __pf_modifier ch (reading c a n ms) = Done tt (reading c a n (ms ++ [ch])).
Proof.
  intros Hm Hw. unfold is_modifier in Hm. apply one_of_true in Hm. unfold reading at 2. rewrite f_alt_snoc, f_left_snoc, f_size_snoc, f_zero_snoc.
  rewrite f_width_snoc in *. pose proof (f_width_nonneg ms) as Hn. pose proof (f_width_zero ms) as Hz.
  assert (Hfit : forall x (q : PF C), 0 <= x < 2 ^ 31 -> fits_int x q = Done x q).
  { intros x q Hx. unfold fits_int. by rewrite (proj2 (Z.leb_le _ x)), (proj2 (Z.ltb_lt x _)) by lia. }
  change (text "#-lz0123456789") with [35; 45; 108; 122; 48; 49; 50; 51; 52; 53; 54; 55; 56; 57] in Hm.
  unfold __pf_modifier, reading. chrs.
  repeat (apply elem_of_cons in Hm as [->|Hm]); [..|by apply not_elem_of_nil in Hm];
    cbn in Hw; cbn [Z.eqb Pos.eqb andb orb]; rewrite ?orb_false_r, ?orb_true_r.
  5: { change (is_digit 48) with true. cbn [andb]. rewrite andb_true_r. erewrite bind_ret; [|done]. cbn [spacing].
       destruct (Z.ltb_spec 0 (f_width ms)) as [H|H].
       - erewrite bind_ret; [|apply Hfit; lia]. rewrite (proj2 (Z.eqb_neq (f_width ms) 0)) by lia. cbn. by rewrite Z.add_0_r.
       - rewrite (proj2 (Z.eqb_eq (f_width ms) 0)) by lia. cbn. replace (f_width ms) with 0 by lia. done. }
  1, 2, 4: done.
  1: unfold modify; cbn [size_]; by destruct (decide (f_size ms = LONGSZ)).
  all: cbn [Z.eqb Pos.eqb]; (erewrite bind_ret; [|done]); (erewrite bind_ret; [|done]); cbn [spacing];
    (erewrite bind_ret; [|apply Hfit; lia]); (erewrite bind_ret; [|apply Hfit; cbn; lia]); cbn; rewrite ?andb_false_r; done.
Qed.

Lemma va_arg_eq p a l : ap p = a :: l -> va_arg p = Done a (set_ap l p).
Proof. intros H. unfold va_arg. erewrite bind_ret; [|done]. by rewrite H. Qed.

Lemma conv_num_ok sz ch a neg k a' : Forall va_ok a -> conv_num sz ch a = Some (neg, k, a') -> 0 <= k < 2 ^ 64 /\ Forall va_ok a'.
Proof.
  intros Ha. destruct a as [|v a]; [done|]. apply Forall_cons in Ha as [Hv Ha]. unfold conv_num. cbv zeta. intros H.
  assert (Hs : forall x, - 2 ^ 63 <= x < 2 ^ 63 -> (if x =? LLONG_MIN then None else Some (x <? 0, Z.abs x, a)) = Some (neg, k, a') -> 0 <= k < 2 ^ 64 /\ Forall va_ok a').
  { intros x Hx. destruct (x =? LLONG_MIN); [done|]. intros [= _ <- <-]. split; [lia|done]. }
  pose proof i32_range as R32. assert (R64 : forall x, - 2 ^ 63 <= i64 x < 2 ^ 63) by (intros x; unfold i64; pose proof (Z.mod_pos_bound (x + 2 ^ 63) (2 ^ 64)); lia).
  unfold is_u32 in *. destruct (ch =? chr "p"); destruct v as [x|x|x|x]; try done; cbn in Hv;
    try (destruct (decide (sz = LLONGSZ)); try done); try destruct (ch =? chr "d"); try (eapply Hs; [|exact H]; specialize (R32 x); lia);
    try (eapply Hs; [|exact H]; apply R64); injection H as _ <- <-; split; try done; unfold is_u32 in Hv; lia.
Qed.

Lemma pf_getnum_eq p ch neg k a' : ch ∈ text "doupx" -> sign p = 0 -> conv_num (size_ p) ch (ap p) = Some (neg, k, a') ->
  __pf_getnum ch p = Done tt (set_num k (if neg then -1 else 0) (set_ap a' p)).
Proof.
  intros Hch Hs. destruct (ap p) as [|v a] eqn:Ea; [done|]. unfold __pf_getnum, conv_num. cbv zeta. erewrite bind_ret; [|done].
  assert (Hw : forall x, v = VaWord x -> va_word p = Done x (set_ap a p)) by (intros x ->; unfold va_word; by rewrite (bind_ret _ _ _ _ _ (va_arg_eq p _ a Ea))).
  assert (Hl : forall x, v = VaLLong x -> va_llong p = Done x (set_ap a p)) by (intros x ->; unfold va_llong; by rewrite (bind_ret _ _ _ _ _ (va_arg_eq p _ a Ea))).
  assert (Hp : forall x, v = VaPtr x -> va_ptr p = Done x (set_ap a p)) by (intros x ->; unfold va_ptr; by rewrite (bind_ret _ _ _ _ _ (va_arg_eq p _ a Ea))).
  assert (Hset : forall x, set_num x (sign (set_ap a p)) (set_ap a p) = set_num x 0 (set_ap a p)) by (intros x; cbn; by rewrite Hs).
  assert (Hsg : forall x, (if x =? LLONG_MIN then None else Some (x <? 0, Z.abs x, a)) = Some (neg, k, a') ->
    (if x <? 0 then n ← deref "signed overflow" (if x =? LLONG_MIN then None else Some (- x)); modify (set_num n (-1)) else modify (fun p => set_num x (sign p) p)) (set_ap a p)
    = Done tt (set_num k (if neg then -1 else 0) (set_ap a' p))).
  { intros x Hx. destruct (Z.eqb_spec x LLONG_MIN); [done|]. injection Hx as <- <- <-. destruct (Z.ltb_spec x 0).
    - erewrite bind_ret; [|done]. unfold modify. by rewrite Z.abs_neq by lia.
    - unfold modify. rewrite Hset. by rewrite Z.abs_eq by lia. }
  destruct (ch =? chr "p"). { destruct v as [x|x|x|x]; try done. intros [= <- <- <-]. rewrite (bind_ret _ _ _ _ _ (Hp x eq_refl)). unfold modify. by rewrite Hset. }
  destruct v as [x|x|x|x]; try done; (destruct (decide (size_ p = LLONGSZ)) as [E|E]; try done); destruct (ch =? chr "d"); intros H.
  - erewrite bind_ret; [by apply Hsg|]. destruct (size_ p); try done; by rewrite (bind_ret _ _ _ _ _ (Hw x eq_refl)).
  - injection H as <- <- <-. erewrite bind_ret; [|destruct (size_ p); try done; exact (Hw x eq_refl)]. unfold modify. by rewrite Hset.
  - erewrite bind_ret; [by apply Hsg|]. rewrite E. by rewrite (bind_ret _ _ _ _ _ (Hl x eq_refl)).
  - injection H as <- <- <-. rewrite E. erewrite bind_ret; [|exact (Hl x eq_refl)]. unfold modify. by rewrite Hset.
Qed.

Lemma conv_base_range ch : 8 <= conv_base ch <= 16.
Proof. unfold conv_base. destruct (_ || _); [lia|]. destruct (_ || _); lia. Qed.

Lemma pf_setbase_eq p ch : ch ∈ text "doupx" -> baseprefix p = false ->
  __pf_setbase ch p = Done tt (set_base (conv_base ch) (altformat p || (ch =? chr "p")) p).
Proof.
  intros Hch Hb. unfold __pf_setbase, modify, conv_base. rewrite Hb. do 2 f_equal; [|by destruct (altformat p || (ch =? chr "p"))].
  change (text "doupx") with [100; 111; 117; 112; 120] in Hch.
  repeat (apply elem_of_cons in Hch as [->|Hch]); [done..|by apply not_elem_of_nil in Hch].
Qed.

(** The end of a directive whose text is [out]. *)
Lemma endfield_sent p txt c n a : clientdata p = c -> charcount p = n -> ap p = a ->
  __pf_endfield (sent p txt) = Done tt (idle (put c txt) a (i32 (n + Z.of_nat (length txt)))).
Proof. by intros <- <- <-. Qed.

Lemma pf_send_conv c a n ms ch out a' : client_ok c -> i32 n = n -> Forall va_ok a -> 0 < ch < 256 -> is_modifier ch = false ->
  render_conv ms ch a = Some (out, a') ->
  __pf_send ch (reading c a n ms) = Done tt (idle (put c out) a' (i32 (n + Z.of_nat (length out)))) /\ Forall va_ok a'.
Proof.
  intros Hc Hn Ha Hch Hm. unfold __pf_send, render_conv. pose proof (f_width_nonneg ms) as Hw.
  rewrite (proj2 (Z.eqb_neq ch 0)) by lia. erewrite bind_ret; [|done]. erewrite bind_ret; [|done].
  cbn [in_pct reading negb andb]. unfold is_modifier in Hm. rewrite Hm.
  destruct (f_left ms && f_zero ms); [done|].
  destruct (one_of "doupx" ch) eqn:Eo.
  { apply one_of_true in Eo. destruct (conv_num (f_size ms) ch a) as [[[neg k] a1]|] eqn:En; [|done].
    cbn [mbind option_bind]. intros [= <- <-]. destruct (conv_num_ok _ _ _ _ _ _ Ha En) as [Hk Ha1]. split; [|done].
    erewrite bind_ret; [|apply pf_getnum_eq; [done|done|exact En]]. erewrite bind_ret; [|by apply pf_setbase_eq].
    match goal with |- (__pf_printnum ≫= _) ?q = _ => assert (Hq : pf_ok q) by done; pose proof (pf_printnum_eq q Hq Hw (conv_base_range ch) Hk) as Hpn end.
    rewrite (bind_ret _ _ _ _ _ Hpn). clear Hpn.
    erewrite padded_pad; [|reflexivity..]. unfold conv_prefix. cbn [sign baseprefix base num set_base set_num set_ap altformat].
    etransitivity; [apply (endfield_sent _ _ c n a1); reflexivity|]. cbn [altformat reading].
    destruct neg, (f_alt ms || (ch =? chr "p")), (conv_base ch =? 16), (conv_base ch =? 8); reflexivity. }
  assert (Hps : forall stuff b, Z.of_nat (length stuff) < 2 ^ 31 ->
    (__pf_printstuff [] [] stuff;; __pf_endfield) (set_ap b (reading c a n ms)) =
    Done tt (idle (put c (pad ms [] stuff)) b (i32 (n + Z.of_nat (length (pad ms [] stuff)))))).
  { intros stuff b Hl. erewrite bind_ret; [|apply pf_printstuff_eq; [done|exact Hw|done]].
    rewrite (padded_pad _ ms); [|reflexivity..]. apply endfield_sent; reflexivity. }
  destruct (ch =? chr "s").
  { destruct a as [|[x|x|x|x] a]; try done. intros [= <- <-]. apply Forall_cons in Ha as [Hx Ha]. split; [|done].
    unfold va_str. erewrite bind_ret; [|by erewrite bind_ret; [|by apply va_arg_eq]].
    apply (Hps (default (text "(null)") x) a). destruct x; [exact Hx|done]. }
  destruct (ch =? chr "c").
  { destruct a as [|[x|x|x|x] a]; try done. destruct (u8 x =? 0) eqn:Ez; [done|]. intros [= <- <-]. apply Forall_cons in Ha as [Hx Ha]. split; [|done].
    erewrite bind_ret; [|unfold va_word; by erewrite bind_ret; [|by erewrite bind_ret; [|by apply va_arg_eq]]].
    rewrite Ez. by apply (Hps _ a). }
  destruct (ch =? chr "X"); [done|]. intros [= <- <-]. split; [|done]. erewrite bind_ret; [|done].
  assert (Hu : u8 ch = ch) by (unfold u8; by rewrite Z.mod_small by lia). rewrite Hu, (proj2 (Z.eqb_neq ch 0)) by lia.
  exact (Hps [ch] a ltac:(done)).
Qed.

Definition machine (c : C) (a : list va) (n : Z) (cur : option (list Z)) : PF C :=
  match cur with None => idle c a n | Some ms => reading c a n ms end.

Lemma send_all_eq fmt : chars fmt -> forall c a n cur out, client_ok c -> i32 n = n -> Forall va_ok a ->
  render_from cur fmt a = Some out ->
  exists q, send_all fmt (machine c a n cur) = Done tt q /\ clientdata q = put c out /\ charcount q = i32 (n + Z.of_nat (length out)).
Proof.
  induction 1 as [|ch fmt Hch Hfmt IH]; intros c a n cur out Hc Hn Ha Hr; cbn [send_all render_from] in *.
  { injection Hr as <-. exists (machine c a n cur). rewrite put_nil by done. rewrite Z.add_0_r, Hn. by destruct cur. }
  destruct cur as [ms|]; cbn [machine].
  - destruct (is_modifier ch) eqn:Em.
    + destruct (Z.ltb_spec (f_width (ms ++ [ch])) (2 ^ 31)) as [Hw|]; [|done].
      erewrite bind_ret; [by apply (IH c a n (Some (ms ++ [ch])) out)|]. unfold __pf_send. rewrite (proj2 (Z.eqb_neq ch 0)) by lia.
      erewrite bind_ret; [|done]. erewrite bind_ret; [|done]. cbn [in_pct reading negb andb]. unfold is_modifier in Em. rewrite Em.
      apply pf_modifier_eq; done.
    + destruct (render_conv ms ch a) as [[o1 a1]|] eqn:Er; [|done]. cbn [mbind option_bind] in Hr.
      destruct (render_from None fmt a1) as [o2|] eqn:E2; [|done]. injection Hr as <-.
      destruct (pf_send_conv c a n ms ch o1 a1 Hc Hn Ha Hch Em Er) as [Es Ha1]. rewrite (bind_ret _ _ _ _ _ Es).
      destruct (IH (put c o1) a1 (i32 (n + Z.of_nat (length o1))) None o2) as (q & Eq & E3 & E4); [by apply put_ok|apply i32_small, i32_range|done|done|].
      exists q. rewrite E3, E4, put_app, i32_add_i32, length_app by done. split_and!; [exact Eq|done|f_equal; lia].
  - assert (Hs : __pf_send ch (idle c a n) = (if ch =? chr "%" then Done tt (reading c a n []) else Done tt (sent (idle c a n) [ch]))).
    { unfold __pf_send. rewrite (proj2 (Z.eqb_neq ch 0)) by lia. erewrite bind_ret; [|done]. erewrite bind_ret; [|done]. cbn [in_pct idle negb andb].
      destruct (ch =? chr "%"); cbn [negb]; [done|]. unfold u8. rewrite Z.mod_small by lia. by apply pf_print_eq. }
    destruct (ch =? chr "%") eqn:Ep; rewrite (bind_ret _ _ _ _ _ Hs); [by apply (IH c a n (Some []) out)|].
    destruct (render_from None fmt a) as [o2|] eqn:E2; [|done]. injection Hr as <-.
    destruct (IH (put c [ch]) a (i32 (n + 1)) None o2) as (q & Eq & E3 & E4); [by apply put_ok|apply i32_small, i32_range|done|done|].
    exists q. rewrite E3, E4, put_app, i32_add_i32 by done. split_and!; [exact Eq|done|cbn [length]; f_equal; lia].
Qed.

Lemma vprintf_eq fmt args c out : chars fmt -> Forall va_ok args -> client_ok c -> render fmt args = Some out ->
  __vprintf fmt args c = Done (i32 (Z.of_nat (length out))) (put c out).
Proof.
  intros Hf Ha Hc Hr. destruct (send_all_eq fmt Hf c args 0 None out Hc eq_refl Ha Hr) as (q & E & E1 & E2).
  unfold __vprintf. erewrite (bind_ret __pf_endfield); [|reflexivity]. change (mk_PF _ _ 0 false INTSZ 0 0 0 false 32 0 false false) with (machine c args 0 None).
  rewrite (bind_ret _ _ _ _ _ E). cbn. by rewrite E1, E2.
Qed.
End Proofs.

(** * Printing into buffers and reading numbers back

    The two clients of printf that the kernel uses obey the laws, so what was proved of
    [__vprintf] holds of snprintf and of printing to the console; atoi reads what "%d" prints. *)

(** ** Writing blocks one behind the other *)

Lemma write_block_nil m p : write_block m p [] = m.
Proof. unfold write_block. cbn. apply (left_id_L ∅ (∪)). Qed.
Lemma write_block_app m p a b : write_block (write_block m p a) (p + Z.of_nat (length a)) b = write_block m p (a ++ b).
Proof.
  apply map_eq. intros x. rewrite !write_block_lookup, length_app.
  destruct (decide (p + Z.of_nat (length a) <= x < p + Z.of_nat (length a) + Z.of_nat (length b))).
  - rewrite decide_True by lia. rewrite lookup_app_r by lia. f_equal. lia.
  - destruct (decide (p <= x < p + Z.of_nat (length a))); [rewrite decide_True by lia; by rewrite lookup_app_l by lia|].
    by rewrite decide_False by lia.
Qed.

(** ** The buffer of snprintf *)

Definition snp_ok (s : SNP) : Prop :=
  0 <= snp_bufpos s <= snp_buflen s /\ 0 <= snp_buf s /\ snp_buf s + snp_buflen s < 2 ^ 32 /\ mapped (snp_mem s) (snp_buf s) (snp_buflen s).
Definition snp_put (s : SNP) (txt : list Z) : SNP :=
  let fits := take (Z.to_nat (snp_buflen s - snp_bufpos s)) txt in
  mk_SNP (write_block (snp_mem s) (snp_buf s + snp_bufpos s) (u8 <$> fits)) (snp_buf s) (snp_buflen s) (snp_bufpos s + Z.of_nat (length fits)).

Lemma snp_put_ok s txt : snp_ok s -> snp_ok (snp_put s txt).
Proof.
  intros (H1 & H2 & H3 & H4). unfold snp_ok, snp_put. cbn [snp_mem snp_buf snp_buflen snp_bufpos]. rewrite length_take. split_and!; [lia..|].
  intros a Ha. rewrite write_block_lookup. case_decide as Hin; [|by apply H4]. rewrite length_fmap, length_take in Hin.
  apply lookup_lt_is_Some. rewrite length_fmap, length_take. lia.
Qed.
Lemma snp_put_nil s : snp_put s [] = s.
Proof. unfold snp_put. rewrite take_nil. change (u8 <$> []) with (@nil Z). rewrite write_block_nil. cbn [length]. rewrite Z.add_0_r. by destruct s. Qed.
Lemma snp_put_app s a b : snp_ok s -> snp_put (snp_put s a) b = snp_put s (a ++ b).
Proof.
  intros (H1 & H2 & H3 & H4). unfold snp_put. cbn [snp_mem snp_buf snp_buflen snp_bufpos]. set (k := Z.to_nat (snp_buflen s - snp_bufpos s)).
  replace (Z.to_nat (snp_buflen s - (snp_bufpos s + Z.of_nat (length (take k a))))) with (k - length a)%nat by (rewrite length_take; unfold k; lia).
  rewrite take_app, fmap_app, length_app. f_equal; [|lia].
  rewrite <- write_block_app. f_equal. rewrite length_fmap. lia.
Qed.
Lemma snp_put_full s txt : snp_bufpos s = snp_buflen s -> snp_put s txt = s.
Proof. intros H. destruct s as [m b n q]. cbn [snp_buflen snp_bufpos] in H. subst q. unfold snp_put. cbn [snp_mem snp_buf snp_buflen snp_bufpos]. rewrite Z.sub_diag. change (take (Z.to_nat 0) txt) with (@nil Z). change (u8 <$> []) with (@nil Z). rewrite write_block_nil. cbn [length]. by rewrite Z.add_0_r. Qed.

Lemma snp_send s txt : snp_ok s -> __snprintf_send txt s = Done tt (snp_put s txt).
Proof.
  revert s. induction txt as [|c txt IH]; intros s Hs; cbn [__snprintf_send]; [by rewrite snp_put_nil|].
  erewrite bind_ret; [|done]. destruct (Z.ltb_spec (snp_bufpos s) (snp_buflen s)) as [Hlt|Hge].
  - rewrite (bind_ret _ _ s tt (snp_put s [c])); [rewrite IH; [by rewrite snp_put_app|by apply snp_put_ok]|].
    destruct Hs as (H1 & H2 & H3 & H4). unfold zoom, mbind, M_bind, modify.
    rewrite store8_eq; [|unfold is_u32; lia|apply H4; lia]. unfold snp_put. cbn [snp_mem snp_buf snp_buflen snp_bufpos].
    replace (Z.to_nat (snp_buflen s - snp_bufpos s)) with (S (Z.to_nat (snp_buflen s - snp_bufpos s - 1))) by lia. cbn [take].
    rewrite take_nil. change (u8 <$> [c]) with [u8 c]. cbn [length]. rewrite u32_small by (unfold is_u32; lia). f_equal. f_equal. apply map_eq. intros a. rewrite write_block_lookup. cbn [length].
    destruct (decide (a = snp_buf s + snp_bufpos s)) as [->|]; [rewrite lookup_insert_eq, decide_True by lia; by rewrite Z.sub_diag|].
    rewrite lookup_insert_ne by done. by rewrite decide_False by lia.
  - erewrite bind_ret; [|done]. rewrite IH by done. rewrite !snp_put_full by (destruct Hs; lia). done.
Qed.

#[export] Instance snp_laws : SenderLaws SNP := {
  client_ok := snp_ok; put := snp_put; send_put c txt := snp_send c txt; put_ok := snp_put_ok;
  put_nil c _ := snp_put_nil c; put_app := snp_put_app }.

(** ** The console *)
Lemma console_send_eq (out txt : list Z) : console_send txt out = Done tt (out ++ txt).
Proof.
  revert out. induction txt as [|c txt IH]; intros out; cbn [console_send]; [by rewrite app_nil_r|].
  erewrite bind_ret; [|done]. rewrite IH. by rewrite <- app_assoc.
Qed.
#[export] Instance console_laws : SenderLaws console := {
  client_ok := fun _ => True; put := (fun out txt => out ++ txt); send_put c txt _ := console_send_eq c txt; put_ok _ _ H := H;
  put_nil c _ := app_nil_r c; put_app c a b _ := eq_sym (app_assoc c a b) }.

(** C34: for every format and arguments that fit it, __vprintf sends to any client exactly the
    text that the directives stand for, and returns its length; it never stops, and the
    buffer for the digits of a number is never left, whatever the number and the base.  The
    formats are those [render] gives a text for: all directives of the manual page but [%X], and
    no field with both [-] and a leading 0. *)
Theorem vprintf_correct {C} `{!Sender C, !SenderLaws C} (fmt : list Z) (args : list va) (c : C) (out : list Z)
  (Hf : chars fmt) (Ha : Forall va_ok args) (Hc : client_ok c) (Hr : render fmt args = Some out) :
  __vprintf fmt args c = Done (i32 (Z.of_nat (length out))) (put c out).
Proof. by apply vprintf_eq. Qed.

Definition sample_args : list va := [VaWord (2 ^ 32 - 12); VaStr (Some (text "sfs")); VaLLong (2 ^ 64 - 1); VaPtr 4096].

Lemma vprintf_correct_witness :
  __vprintf (C := console) (text "%5d|%-6s|%#llo|%12p%%") sample_args [] =
  Done 50 (text "  -12|sfs   |01777777777777777777777|      0x1000%").
Proof.
  refine (vprintf_correct (C := console) (text "%5d|%-6s|%#llo|%12p%%") sample_args []
    (text "  -12|sfs   |01777777777777777777777|      0x1000%") _ _ _ _).
  - apply (bool_decide_unpack _). vm_compute. exact I.
  - repeat (apply Forall_cons; split; [cbn; unfold is_u32; lia|]). by apply Forall_nil.
  - exact I.
  - vm_compute. reflexivity.
Defined.

Lemma vsnprintf_eq (m : mem) (buf len : Z) (fmt : list Z) (args : list va) (out : list Z)
  (Hb : 0 <= buf) (Hlen : 0 <= len) (Htop : buf + len < 2 ^ 32) (Hm : mapped m buf len)
  (Hf : chars fmt) (Ha : Forall va_ok args) (Hr : render fmt args = Some out) :
  exists m', vsnprintf buf len fmt args m = Done (i32 (Z.of_nat (length out))) m' /\
    m' = (if len =? 0 then m else write_block m buf ((u8 <$> take (Z.to_nat (len - 1)) out) ++ [0])) /\
    forall a, ~ (buf <= a < buf + len) -> m' !! a = m !! a.
Proof.
  set (s := mk_SNP m buf (if len =? 0 then 0 else len - 1) 0).
  assert (Hs : snp_ok s).
  { unfold snp_ok, s. destruct (Z.eqb_spec len 0); cbn [snp_mem snp_buf snp_buflen snp_bufpos]; (split_and!; [lia..|]); intros a Ha'; apply Hm; lia. }
  pose proof (vprintf_eq fmt args s out Hf Ha Hs Hr) as E. unfold vsnprintf. fold s. rewrite E. clear E. cbn [put snp_laws]. unfold snp_put, s.
  cbn [snp_mem snp_buf snp_buflen snp_bufpos]. rewrite Z.sub_0_r, Z.add_0_r. destruct (Z.eqb_spec len 0) as [->|Hne].
  { exists m. change (take (Z.to_nat 0) out) with (@nil Z). change (u8 <$> []) with (@nil Z). by rewrite write_block_nil. }
  rewrite (proj2 (Z.ltb_lt 0 len)) by lia. set (fits := take (Z.to_nat (len - 1)) out).
  assert (Hfl : Z.of_nat (length fits) <= len - 1) by (unfold fits; rewrite length_take; lia).
  exists (write_block m buf ((u8 <$> fits) ++ [0])). split_and!; [|done|].
  - erewrite bind_ret; [reflexivity|]. rewrite store8_eq; [|unfold is_u32; lia|].
    + f_equal. rewrite <- write_block_app, length_fmap. apply map_eq. intros a. rewrite (write_block_lookup (write_block _ _ _)). cbn [length].
      destruct (decide (a = buf + (0 + Z.of_nat (length fits)))) as [->|]; [rewrite lookup_insert_eq, decide_True by lia; by replace (Z.to_nat _) with 0%nat by lia|].
      rewrite lookup_insert_ne by done. by rewrite decide_False by lia.
    + rewrite write_block_lookup, decide_False by (rewrite length_fmap; lia). apply Hm. lia.
  - intros a Ha'. rewrite write_block_lookup, decide_False; [done|]. rewrite length_app, length_fmap. cbn. lia.
Qed.


(** An empty buffer is not touched. *)
Theorem vsnprintf_empty (m : mem) (buf : Z) (fmt : list Z) (args : list va) (out : list Z)
  (Hb : 0 <= buf) (Htop : buf < 2 ^ 32) (Hf : chars fmt) (Ha : Forall va_ok args) (Hr : render fmt args = Some out) :
  vsnprintf buf 0 fmt args m = Done (i32 (Z.of_nat (length out))) m.
Proof.
  destruct (vsnprintf_eq m buf 0 fmt args out Hb ltac:(lia) ltac:(lia)) as (m' & E & -> & _); [intros a ?; lia|done..].
Qed.

(** A buffer of six bytes is too small for the text. *)
Definition small_buf : mem := map_seqZ 4096 (replicate 16 255).


(** ** atoi *)

Definition dec_digits : list Z := text "0123456789".

Lemma digit_char_dec d : 0 <= d < 10 -> digit_char d = 48 + d /\ index_of (48 + d) (dec_digits ++ [0]) = Some (Z.to_nat d).
Proof.
  intros Hd. assert (d = 0 \/ d = 1 \/ d = 2 \/ d = 3 \/ d = 4 \/ d = 5 \/ d = 6 \/ d = 7 \/ d = 8 \/ d = 9) as Hc by lia.
  repeat destruct Hc as [->|Hc]; [done..|subst; done].
Qed.

Lemma atoi_loop_eq m dg ds : str_at m dg dec_digits -> Forall (fun d => 0 <= d < 10) ds -> forall f s val, (length ds < f)%nat ->
  str_at m s ((fun d => 48 + d) <$> ds) -> atoi_loop f dg s val m = Done (foldl (fun v d => u32 (v * 10 + d)) val ds) m.
Proof.
  intros Hdg. induction 1 as [|d ds Hd Hds IH]; intros [|f] s val Hf Hs; try (cbn in Hf; lia); cbn [atoi_loop foldl].
  - load8_at Hs. done.
  - load8_at Hs. cbn [head fmap list_fmap default from_option id].
    rewrite (proj2 (Z.eqb_neq (48 + d) 0)) by lia. destruct (digit_char_dec d Hd) as [_ Hi].
    rewrite (bind_ret _ _ _ _ _ (strchr_eq m dg dec_digits (48 + d) Hdg)). unfold u8. rewrite Z.mod_small, Hi by lia.
    assert (Hdr : 0 < dg /\ dg + 10 < 2 ^ 32) by (destruct Hdg as [_ _ ? Hh]; cbn in Hh; lia).
    rewrite (proj2 (Z.eqb_neq _ 0)) by lia. apply str_at_cons in Hs as (_ & _ & ? & Hs).
    rewrite (u32_small (s + 1)) by (destruct Hs; unfold is_u32; lia).
    rewrite (u32_small (dg + _ - dg)) by (unfold is_u32; lia). rewrite IH; [|cbn in Hf; lia|done]. do 3 f_equal. lia.
Qed.

Lemma foldl_u32 b ds val : is_u32 val -> foldl (fun v d => u32 (v * b + d)) val ds = u32 (foldl (fun v d => v * b + d) val ds).
Proof.
  intros Hv. assert (H : forall ds v w, u32 v = u32 w -> u32 (foldl (fun v d => u32 (v * b + d)) v ds) = u32 (foldl (fun v d => v * b + d) w ds)).
  { clear. induction ds as [|d ds IH]; intros v w Hvw; cbn; [done|]. apply IH. unfold u32 in *. rewrite Z.mod_mod by lia.
    rewrite <- (Z.add_mod_idemp_l (v * b)), <- (Z.add_mod_idemp_l (w * b)), <- (Z.mul_mod_idemp_l v), <- (Z.mul_mod_idemp_l w) by lia. by rewrite Hvw. }
  rewrite <- (H ds val val eq_refl). symmetry. apply u32_small. clear H. revert val Hv. induction ds as [|d ds IH]; intros v Hv; cbn; [done|]. apply IH, u32_range.
Qed.

Lemma foldl_rev_value b ds acc : foldl (fun v d => v * b + d) acc (rev ds) = le_value b ds + b ^ Z.of_nat (length ds) * acc.
Proof.
  revert acc. induction ds as [|d ds IH]; intros acc; [cbn [rev foldl le_value length]; change (b ^ Z.of_nat 0) with 1; lia|].
  cbn [rev le_value length]. rewrite foldl_app, IH. cbn [foldl]. rewrite Nat2Z.inj_succ, Z.pow_succ_r by lia. lia.
Qed.

Lemma number_text_dec n : 0 <= n < 2 ^ 64 -> let ds := rev (le_digits 64 10 n) in
  number_text 10 n = (fun d => 48 + d) <$> ds /\ Forall (fun d => 0 <= d < 10) ds /\ foldl (fun v d => v * 10 + d) 0 ds = n.
Proof.
  intros Hn ds. pose proof (le_digits_range 10 n 64 ltac:(lia)) as Hr. assert (Hds : Forall (fun d => 0 <= d < 10) ds) by (by apply Forall_rev).
  split_and!; [|done|].
  - unfold number_text. fold ds. apply Forall_fmap_ext_1. eapply Forall_impl; [exact Hds|]. intros d Hd. by apply digit_char_dec.
  - unfold ds. rewrite foldl_rev_value, le_digits_value; [lia|lia|]. split; [lia|]. apply Z.lt_le_trans with (2 ^ 64); [lia|vm_compute; done].
Qed.

(** atoi of an optional minus sign and digits. *)
Lemma atoi_eq m dg s (neg : bool) ds : str_at m dg dec_digits -> Forall (fun d => 0 <= d < 10) ds -> ds <> [] ->
  str_at m s ((if neg then text "-" else []) ++ ((fun d => 48 + d) <$> ds)) ->
  atoi dg s m = Done (let v := u32 (foldl (fun v d => v * 10 + d) 0 ds) in if neg then i32 (u32 (- v)) else i32 v) m.
Proof.
  intros Hdg Hds Hne Hs. unfold atoi, scan_fuel. erewrite bind_ret; [|done]. destruct ds as [|d ds]; [done|]. inversion Hds as [|? ? Hd _]; subst.
  pose proof (str_at_size _ _ _ Hs) as Hsz. rewrite length_app, length_fmap in Hsz. change (chr "-") with 45. change (chr "+") with 43.
  destruct neg; cbn [app] in Hs |- *.
  - change (text "-") with [45] in *. cbn [app] in Hs. erewrite bind_ret; [|cbn [skip_white]; load8_at Hs; reflexivity].
    load8_at Hs. cbn [Z.eqb Pos.eqb]. apply str_at_cons in Hs as (_ & _ & ? & Hs). rewrite u32_small by (destruct Hs; unfold is_u32; lia).
    erewrite bind_ret; [|apply (atoi_loop_eq m dg (d :: ds)); [done|done|cbn [length] in *; lia|exact Hs]].
    by rewrite foldl_u32.
  - erewrite bind_ret; [|cbn [skip_white]; load8_at Hs; cbn [head fmap list_fmap default from_option id];
      rewrite (proj2 (Z.eqb_neq (48 + d) 32)), (proj2 (Z.eqb_neq (48 + d) 9)) by lia; reflexivity].
    load8_at Hs. cbn [head fmap list_fmap default from_option id]. rewrite (proj2 (Z.eqb_neq (48 + d) 45)), (proj2 (Z.eqb_neq (48 + d) 43)) by lia.
    erewrite bind_ret; [|apply (atoi_loop_eq m dg (d :: ds)); [done|done|cbn [length] in *; lia|exact Hs]].
    by rewrite foldl_u32.
Qed.

Lemma render_d x : is_u32 x -> render (text "%d") [VaWord x] = Some ((if i32 x <? 0 then text "-" else []) ++ number_text 10 (Z.abs (i32 x))).
Proof.
  intros Hx. pose proof (i32_range x). unfold render. change (text "%d") with [37; 100]. cbn [render_from].
  change (37 =? chr "%") with true. cbv iota. change (is_modifier 100) with false. cbv iota.
  unfold render_conv. change (f_left [] && f_zero []) with false. change (one_of "doupx" 100) with true. change (f_size []) with INTSZ. cbv iota.
  unfold conv_num. change (100 =? chr "p") with false. change (100 =? chr "d") with true. cbv zeta iota. rewrite decide_False by done.
  rewrite (proj2 (Z.eqb_neq (i32 x) LLONG_MIN)) by (unfold LLONG_MIN; lia). cbn [mbind option_bind]. change (conv_base 100) with 10.
  change (conv_prefix [] 100) with (@nil Z). rewrite app_nil_r. unfold pad. change (f_width []) with 0. change (f_left []) with false. change (f_zero []) with false.
  cbv zeta iota. replace (Z.to_nat (0 - _)) with 0%nat by lia. cbn [replicate app fmap option_fmap option_map]. by rewrite app_nil_r.
Qed.

Lemma i32_abs x : is_u32 x -> (if i32 x <? 0 then i32 (u32 (- u32 (Z.abs (i32 x)))) else i32 (u32 (Z.abs (i32 x)))) = i32 x.
Proof.
  intros Hx. pose proof (i32_range x) as R. set (y := i32 x) in *. rewrite (u32_small (Z.abs y)) by (unfold is_u32; lia).
  destruct (Z.ltb_spec y 0).
  - rewrite Z.abs_neq, Z.opp_involutive by lia. unfold i32, u32. rewrite Z.add_mod_idemp_l by lia. rewrite Z.mod_small; lia.
  - rewrite Z.abs_eq by lia. apply i32_small. lia.
Qed.

(** what snprintf prints with %d into a buffer of at least twelve bytes, atoi reads back as
    the same number, for every 32-bit int, the most negative one included. *)
Theorem snprintf_atoi_roundtrip (m : mem) (buf len dg x : Z)
  (Hb : 0 < buf) (Hlen : 12 <= len) (Htop : buf + len < 2 ^ 32) (Hm : mapped m buf len)
  (Hdg : str_at m dg dec_digits) (Hap : dg + 10 < buf \/ buf + len <= dg) (Hx : is_u32 x) :
  exists m' n, snprintf buf len "%d" [VaWord x] m = Done n m' /\ atoi dg buf m' = Done (i32 x) m'.
Proof.
  destruct (vsnprintf_eq m buf len (text "%d") [VaWord x] ((if i32 x <? 0 then text "-" else []) ++ number_text 10 (Z.abs (i32 x))) ltac:(lia) ltac:(lia) Htop Hm) with (3 := render_d x Hx) as (m' & E & Em & Hframe).
  { apply (bool_decide_unpack _). vm_compute. exact I. }
  { by apply Forall_singleton. }
  pose proof (i32_range x) as R. destruct (number_text_dec (Z.abs (i32 x)) ltac:(lia)) as (Et & Hds & Hv). rewrite Et in Em, E. clear Et.
  set (ds := rev (le_digits 64 10 (Z.abs (i32 x)))) in *.
  assert (Hdl : (0 < length ds <= 10)%nat).
  { unfold ds. rewrite length_rev. split; [cbn; lia|]. apply le_digits_length; [lia|]. split; [lia|].
    apply Z.le_lt_trans with (2 ^ 31); [lia|done]. }
  set (t := (if i32 x <? 0 then text "-" else []) ++ ((fun d => 48 + d) <$> ds)) in *.
  assert (Ht : chars t /\ (length t <= 11)%nat).
  { unfold t. rewrite length_app, length_fmap. split; [|destruct (i32 x <? 0); [change (length (text "-")) with 1%nat|change (length (@nil Z)) with 0%nat]; lia]. apply Forall_app. split; [destruct (i32 x <? 0); repeat constructor|].
    apply Forall_fmap. eapply Forall_impl; [exact Hds|]. intros d Hd. cbn beta in Hd |- *. unfold compose. lia. }
  destruct Ht as [Hc Htl]. rewrite (proj2 (Z.eqb_neq len 0)) in Em by lia. rewrite take_ge in Em by lia.
  assert (Hu : u8 <$> t = t). { rewrite <- (list_fmap_id t) at 2. apply Forall_fmap_ext_1. eapply Forall_impl; [exact Hc|]. intros b Hb'. cbn beta in Hb'. unfold u8. cbn. apply Z.mod_small. lia. }
  rewrite Hu in Em. eexists m', _. split; [exact E|].
  assert (Hs : str_at m' buf t) by (subst m'; apply str_at_write; [done|lia|lia]).
  assert (Hd' : str_at m' dg dec_digits) by (eapply str_at_ext, Hdg; intros a Ha; apply Hframe; change (Z.of_nat (length dec_digits)) with 10 in Ha; lia).
  rewrite (atoi_eq m' dg buf (i32 x <? 0) ds Hd' Hds ltac:(destruct ds; [cbn in Hdl; lia|done]) Hs). cbv zeta. rewrite Hv. f_equal. by apply i32_abs.
Qed.

Definition atoi_mem : mem := write_block small_buf 65536 (dec_digits ++ [0]).

Lemma snprintf_atoi_roundtrip_witness : exists m' n, snprintf 4096 16 "%d" [VaWord 0x80000000] atoi_mem = Done n m' /\ atoi 65536 4096 m' = Done (- 2147483648) m'.
Proof.
  apply (snprintf_atoi_roundtrip atoi_mem 4096 16 65536 0x80000000); [lia..| | | |unfold is_u32; lia].
  - intros a Ha. unfold atoi_mem. rewrite write_block_lookup. case_decide; [apply lookup_lt_is_Some; cbn in *; lia|].
    unfold small_buf. rewrite lookup_map_seqZ, option_guard_True by lia. apply lookup_lt_is_Some. rewrite length_replicate. lia.
  - apply str_atb_true. vm_compute. reflexivity.
  - lia.
Defined.

(** A left-aligned field with the zero flag is filled on the right with zeros: "%-05d" prints
    12 as 12000. *)
Theorem left_zero_field : __vprintf (C := console) (text "%-05d") [VaWord 12] [] = Done 5 (text "12000").
Proof. vm_compute. reflexivity. Qed.

(** [%X] prints the letter X and takes no argument. *)
Theorem upper_hex_field : __vprintf (C := console) (text "%X") [VaWord 171] [] = Done 1 (text "X").
Proof. vm_compute. reflexivity. Qed.
