(* ===== verification/Kgets.v ===== *)
(** * Reading a line from the console: kern/lib/kgets.c

    The characters typed are a list; when it runs out, the kernel waits for more.  [kgets]
    edits the line in the caller's buffer; the reference edits a list. *)
From S2P Require Import Prelude Wp CString.

(** What goes to the console: a character, the bell, or the line again. *)
Inductive echo : Type := Putch (c : Z) | Beep | Reprint (line : list Z).

Record kgstate := mk_kgstate { kg_mem : mem; kg_in : list Z; kg_out : list echo }.

Definition kg_on_mem {A} (x : M mem A) : M kgstate A :=
  zoom "memory" (fun s => Some (kg_mem s)) (fun m s => mk_kgstate m (kg_in s) (kg_out s)) x.
Definition kg_print (es : list echo) : M kgstate unit :=
  modify (fun s => mk_kgstate (kg_mem s) (kg_in s) (kg_out s ++ es)).
Definition putch (c : Z) : M kgstate unit := kg_print [Putch c].
(** Waiting for a character that is never typed does not end. *)
Definition getch : M kgstate Z := fun s =>
  match kg_in s with [] => OutOfFuel | c :: i => Done c (mk_kgstate (kg_mem s) i (kg_out s)) end.

Definition backsp : M kgstate unit := putch 8;; putch 32;; putch 8.

(** [while (pos > 0) { backsp(); pos--; }], and the same while the character before [pos] is, or
    is not, a blank. *)
Fixpoint erase_all (pos : nat) : M kgstate nat :=
  match pos with O => mret O | S pos' => backsp;; erase_all pos' end.
Fixpoint erase_while (blank : bool) (buf : Z) (pos : nat) : M kgstate nat :=
  match pos with
  | O => mret O
  | S pos' =>
      c ← kg_on_mem (load8 (buf + Z.of_nat pos'));
      if Bool.eqb (c =? 32) blank then backsp;; erase_while blank buf pos' else mret pos
  end.

(** One turn of the loop: [inl] the position at which it breaks, [inr] the next one. *)
Definition kgets_turn (buf maxlen : Z) (pos : nat) : M kgstate (nat + nat) :=
  ch ← getch;
  if (ch =? 10) || (ch =? 13) then putch 10;; mret (inl pos)
  else if (32 <=? ch) && (ch <? 127) && (Z.of_nat pos <? u32 (maxlen - 1)) then
    putch ch;; kg_on_mem (store8 (buf + Z.of_nat pos) ch);; mret (inr (S pos))
  else if ((ch =? 8) || (ch =? 127)) && (0 <? Z.of_nat pos) then backsp;; mret (inr (pos - 1)%nat)
  else if ch =? 3 then kg_print [Putch 94; Putch 67; Putch 10];; mret (inl 0%nat)
  else if ch =? 18 then
    kg_on_mem (store8 (buf + Z.of_nat pos) 0);;
    line ← kg_on_mem (n ← strlen buf; gets (fun m => read_block m buf n));
    kg_print [Reprint line];; mret (inr pos)
  else if ch =? 21 then pos ← erase_all pos; mret (inr pos)
  else if ch =? 23 then pos ← erase_while true buf pos; pos ← erase_while false buf pos; mret (inr pos)
  else kg_print [Beep];; mret (inr pos).

Fixpoint kgets_loop (fuel : nat) (buf maxlen : Z) (pos : nat) : M kgstate nat :=
  match fuel with
  | O => fun _ => OutOfFuel
  | S f => r ← kgets_turn buf maxlen pos; match r with inl pos => mret pos | inr pos => kgets_loop f buf maxlen pos end
  end.

Definition kgets (buf maxlen : Z) : M kgstate unit :=
  f ← gets (fun s => S (length (kg_in s)));
  pos ← kgets_loop f buf maxlen 0;
  kg_on_mem (store8 (buf + Z.of_nat pos) 0).

(** ** The reference: editing a list *)

Fixpoint drop_back (blank : bool) (rl : list Z) : list Z :=
  match rl with [] => [] | c :: rl' => if Bool.eqb (c =? 32) blank then drop_back blank rl' else rl end.

Definition edit (room : Z) (line : list Z) (ch : Z) : list Z :=
  if (32 <=? ch) && (ch <? 127) && (Z.of_nat (length line) <? room) then line ++ [ch]
  else if (ch =? 8) || (ch =? 127) then take (length line - 1) line
  else if ch =? 21 then []
  else if ch =? 23 then rev (drop_back false (drop_back true (rev line)))
  else line.

Fixpoint edit_line (room : Z) (line : list Z) (typed : list Z) : option (list Z * list Z) :=
  match typed with
  | [] => None
  | ch :: typed' =>
      if (ch =? 10) || (ch =? 13) then Some (line, typed')
      else if ch =? 3 then Some ([], typed')
      else edit_line room (edit room line ch) typed'
  end.

(** ** The buffer follows the list *)
Section Kgets.
Context (m0 : mem) (buf maxlen : Z).
Context (Hb : 0 < buf) (Hmax : 0 < maxlen) (Htop : buf + maxlen <= 2 ^ 32) (Hmap : mapped m0 buf maxlen).

Record line_at (m : mem) (line : list Z) : Prop := {
  la_bytes : bytes_at m buf line;
  la_chars : chars line;
  la_room : Z.of_nat (length line) < maxlen;
  la_frame : forall a, ~ (buf <= a < buf + maxlen) -> m !! a = m0 !! a;
  la_mapped : mapped m buf maxlen }.

Lemma line_at_prefix m line k : line_at m (line ++ k) -> line_at m line.
Proof.
  intros [H1 H2 H3 H4 H5]. rewrite length_app in H3. split; [by apply bytes_at_app in H1 as [? _]|by apply Forall_app in H2 as [? _]|lia|done|done].
Qed.

(** Writing behind the line. *)
Lemma line_at_store m line c : line_at m line ->
  store8 (buf + Z.of_nat (length line)) c m = Done tt (<[buf + Z.of_nat (length line) := u8 c]> m) /\
  line_at (<[buf + Z.of_nat (length line) := u8 c]> m) line.
Proof.
  intros [H1 H2 H3 H4 H5]. split; [apply store8_eq; [unfold is_u32; lia|apply H5; lia]|]. split; [|done..| |].
  - eapply bytes_at_ext, H1. intros a Ha. apply lookup_insert_ne. lia.
  - intros a Ha. rewrite lookup_insert_ne by lia. by apply H4.
  - intros a Ha. rewrite lookup_insert_is_Some. destruct (decide (buf + Z.of_nat (length line) = a)); [by left|right; split; [done|by apply H5]].
Qed.

Lemma line_at_snoc m line c : line_at m line -> 0 < c < 256 -> Z.of_nat (length line) + 1 < maxlen ->
  line_at (<[buf + Z.of_nat (length line) := u8 c]> m) (line ++ [c]).
Proof.
  intros H Hc Hl. destruct (proj2 (line_at_store m line c H)) as [H1 H2 H3 H4 H5]. split; [|apply Forall_app_2; [done|by apply Forall_singleton]|rewrite length_app; cbn; lia|done|done].
  apply bytes_at_app. split; [done|]. apply bytes_at_cons. split; [|by intros i b Hi; rewrite lookup_nil in Hi].
  rewrite lookup_insert_eq. unfold u8. by rewrite Z.mod_small by lia.
Qed.

Lemma line_at_string m line : line_at m line -> m !! (buf + Z.of_nat (length line)) = Some 0 -> str_at m buf line.
Proof. intros [H1 H2 H3 H4 H5] H0. apply str_at_intro; [done|lia|done|done|lia]. Qed.

Lemma kg_on_mem_eq {A} (x : M mem A) s a m' : x (kg_mem s) = Done a m' -> kg_on_mem x s = Done a (mk_kgstate m' (kg_in s) (kg_out s)).
Proof. unfold kg_on_mem, zoom. by intros ->. Qed.

Lemma erase_all_eq n s : exists o, erase_all n s = Done O (mk_kgstate (kg_mem s) (kg_in s) o).
Proof.
  revert s. induction n as [|n IH]; intros s; cbn [erase_all]; [exists (kg_out s); by destruct s|].
  destruct (IH (mk_kgstate (kg_mem s) (kg_in s) (((kg_out s ++ [Putch 8]) ++ [Putch 32]) ++ [Putch 8]))) as [o E]. exists o. exact E.
Qed.

Lemma erase_while_eq blank line s : line_at (kg_mem s) line -> exists o,
  erase_while blank buf (length line) s = Done (length (rev (drop_back blank (rev line)))) (mk_kgstate (kg_mem s) (kg_in s) o).
Proof.
  revert s. induction line as [|c line IH] using rev_ind; intros s H; [exists (kg_out s); by destruct s|].
  rewrite length_app, Nat.add_1_r. cbn [erase_while]. rewrite rev_app_distr. cbn [rev app drop_back].
  destruct H as [H1 H2 H3 H4 H5]. pose proof H1 as Hc. apply bytes_at_app in Hc as [_ Hc]. apply bytes_at_cons in Hc as [Hc _].
  rewrite length_app in H3. cbn in H3.
  erewrite bind_ret; [|apply kg_on_mem_eq, load8_eq; [unfold is_u32; lia|exact Hc]].
  destruct (Bool.eqb (c =? 32) blank).
  - destruct (IH (mk_kgstate (kg_mem s) (kg_in s) (((kg_out s ++ [Putch 8]) ++ [Putch 32]) ++ [Putch 8]))) as [o E].
    + apply (line_at_prefix _ _ [c]). split; [done|done|rewrite length_app; cbn; lia|done|done].
    + exists o. exact E.
  - exists (kg_out s). rewrite <- (rev_involutive line) at 1. cbn. rewrite rev_involutive, length_app. cbn. rewrite Nat.add_1_r. by destruct s.
Qed.

Lemma drop_back_prefix blank line : exists k, line = rev (drop_back blank (rev line)) ++ k.
Proof.
  induction line as [|c line IH] using rev_ind; [by exists []|]. rewrite rev_app_distr. cbn [rev app drop_back].
  destruct (Bool.eqb (c =? 32) blank).
  - destruct IH as [k E]. exists (k ++ [c]). rewrite app_assoc. by rewrite <- E.
  - exists []. cbn. by rewrite rev_involutive, app_nil_r.
Qed.

(** One character typed that does not end the line. *)
Lemma kgets_turn_eq line m ch i o : line_at m line -> maxlen <= 2 ^ 31 ->
  (ch =? 10) || (ch =? 13) = false -> (ch =? 3) = false ->
  exists m' o', kgets_turn buf maxlen (length line) (mk_kgstate m (ch :: i) o) =
    Done (inr (length (edit (maxlen - 1) line ch))) (mk_kgstate m' i o') /\ line_at m' (edit (maxlen - 1) line ch).
Proof.
  intros H Hsmall Hnl Hcc. unfold kgets_turn, edit. erewrite bind_ret; [|done]. rewrite Hnl. cbv iota. cbn [kg_mem kg_in kg_out].
  rewrite u32_small by (unfold is_u32; lia).
  destruct ((32 <=? ch) && (ch <? 127) && (Z.of_nat (length line) <? maxlen - 1)) eqn:E1.
  { apply andb_true_iff in E1 as [E1 E3]. apply andb_true_iff in E1 as [E1 E2]. apply Z.leb_le in E1. apply Z.ltb_lt in E2, E3.
    erewrite bind_ret; [|done]. erewrite bind_ret; [|apply kg_on_mem_eq, line_at_store, H].
    eexists _, _. rewrite length_app, Nat.add_1_r. split; [done|]. apply line_at_snoc; [done|lia|lia]. }
  destruct ((ch =? 8) || (ch =? 127)) eqn:E2; cbn [andb].
  { destruct (Z.ltb_spec 0 (Z.of_nat (length line))) as [Hp|Hp].
    - erewrite bind_ret; [|done]. eexists _, _. rewrite length_take, Nat.min_l by lia. split; [done|].
      apply (line_at_prefix _ _ (drop (length line - 1) line)). by rewrite take_drop.
    - destruct line; [|cbn in Hp; lia]. rewrite Hcc. apply orb_true_iff in E2 as [->%Z.eqb_eq| ->%Z.eqb_eq]; cbn; (eexists _, _; split; [done|exact H]). }
  rewrite Hcc. destruct (Z.eqb_spec ch 18) as [->|Hr].
  { destruct (line_at_store m line 0 H) as [Es Hs]. erewrite bind_ret; [|apply kg_on_mem_eq, Es]. cbn [kg_mem kg_in kg_out].
    assert (Hstr : str_at (<[buf + Z.of_nat (length line) := u8 0]> m) buf line) by (apply line_at_string; [done|apply lookup_insert_eq]).
    erewrite bind_ret; [|apply kg_on_mem_eq; rewrite (bind_ret _ _ _ _ _ (strlen_eq _ _ _ Hstr)); reflexivity].
    eexists _, _. split; [reflexivity|exact Hs]. }
  destruct (Z.eqb_spec ch 21) as [->|Hu].
  { destruct (erase_all_eq (length line) (mk_kgstate m i o)) as [o' E]. rewrite (bind_ret _ _ _ _ _ E). eexists _, _. split; [done|].
    apply (line_at_prefix _ [] line). done. }
  destruct (Z.eqb_spec ch 23) as [->|Hw].
  { destruct (erase_while_eq true line (mk_kgstate m i o) H) as [o1 Ea]. rewrite (bind_ret _ _ _ _ _ Ea). cbn [kg_mem kg_in].
    destruct (drop_back_prefix true line) as [k1 Ek1]. rewrite Ek1 in H. apply line_at_prefix in H.
    destruct (erase_while_eq false _ (mk_kgstate m i o1) H) as [o2 Ea2]. rewrite (bind_ret _ _ _ _ _ Ea2). rewrite rev_involutive.
    eexists _, _. split; [done|]. destruct (drop_back_prefix false (rev (drop_back true (rev line)))) as [k2 Ek2].
    rewrite rev_involutive in Ek2. rewrite Ek2 in H. by apply line_at_prefix in H. }
  eexists _, _. split; [done|exact H].
Qed.

Lemma kgets_loop_eq typed : maxlen <= 2 ^ 31 -> forall line m o f l rest, line_at m line -> (length typed < f)%nat ->
  edit_line (maxlen - 1) line typed = Some (l, rest) ->
  exists m' o', kgets_loop f buf maxlen (length line) (mk_kgstate m typed o) = Done (length l) (mk_kgstate m' rest o') /\ line_at m' l.
Proof.
  intros Hsmall. induction typed as [|ch typed IH]; intros line m o [|f] l rest H Hf E; try (cbn in Hf; lia); [done|].
  cbn [edit_line kgets_loop] in *. destruct ((ch =? 10) || (ch =? 13)) eqn:Hnl.
  { injection E as <- <-. exists m. eexists. split; [|done]. unfold kgets_turn. erewrite bind_ret; [|erewrite bind_ret; [|done]; rewrite Hnl; reflexivity]. done. }
  destruct (Z.eqb_spec ch 3) as [->|Hc].
  { injection E as <- <-. exists m. eexists. split; [|by apply (line_at_prefix _ [] line)]. reflexivity. }
  destruct (kgets_turn_eq line m ch typed o H Hsmall Hnl) as (m1 & o1 & E1 & H1); [by apply Z.eqb_neq|].
  rewrite (bind_ret _ _ _ _ _ E1). apply IH; [done|cbn in Hf; lia|done].
Qed.
End Kgets.

(** kgets returns when the line is ended, with the edited line in the buffer as a string,
    reading exactly the characters up to the end of the line and writing no byte outside the
    buffer, whatever is typed. *)
Theorem kgets_correct m buf maxlen typed out line rest :
  0 < buf -> 0 < maxlen <= 2 ^ 31 -> buf + maxlen <= 2 ^ 32 -> mapped m buf maxlen ->
  edit_line (maxlen - 1) [] typed = Some (line, rest) ->
  exists m' out', kgets buf maxlen (mk_kgstate m typed out) = Done tt (mk_kgstate m' rest out') /\
    str_at m' buf line /\ Z.of_nat (length line) < maxlen /\
    (forall a, ~ (buf <= a < buf + maxlen) -> m' !! a = m !! a).
Proof.
  intros Hb Hmax Htop Hmap E.
  assert (H0 : line_at m buf maxlen m []).
  { split; [intros i b Hi; by rewrite lookup_nil in Hi|constructor|cbn; lia|done|done]. }
  destruct (kgets_loop_eq m buf maxlen Hb ltac:(lia) Htop typed ltac:(lia) [] m out (S (length typed)) line rest H0 ltac:(lia) E) as (m1 & o1 & E1 & H1).
  unfold kgets. erewrite bind_ret; [|done]. cbn [kg_in]. rewrite (bind_ret _ _ _ _ _ E1).
  destruct (line_at_store m buf maxlen Hb Htop m1 line 0 H1) as [Es Hs].
  rewrite (kg_on_mem_eq _ (mk_kgstate m1 rest o1) _ _ Es). eexists _, _. split; [done|]. cbn [kg_mem]. destruct Hs as [S1 S2 S3 S4 S5]. split_and!; [|done|done].
  apply str_at_intro; [done|lia|done|apply lookup_insert_eq|lia].
Qed.
