(* ===== verification/Menu.v ===== *)
(** * The kernel menu: kern/main/menu.c, kern/lib/kgets.c

    A line is cut at semicolons into commands and each command at blanks into words, in place:
    two uses of strtok_r are nested, each with its own context.  The first word selects a
    function of the command table.  The functions behind the table and the clock are
    parameters. *)
From S2P Require Import Prelude Wp CString Timespec.

Definition E2BIG : Z := 14.
Definition MAXMENUARGS : Z := 16.

Definition bytes_of_string (s : string) : list Z := (fun a => Z.of_N (Ascii.N_of_ascii a)) <$> String.list_ascii_of_string s.

(** The functions of the table. *)
Inductive command : Type :=
| cmd_mainmenu | cmd_opsmenu | cmd_testmenu
| cmd_shell | cmd_prog | cmd_mount | cmd_unmount | cmd_bootfs | printfile | cmd_chdir | cmd_pwd | cmd_sync
| cmd_debug | cmd_panic | cmd_deadlock | cmd_quit
| cmd_kheapstats | cmd_kheapgeneration | cmd_kheapdump
| arraytest | arraytest2 | bitmaptest | threadlisttest | kmalloctest | kmallocstress | kmalloctest3 | kmalloctest4
| threadtest | threadtest2 | threadtest3 | semtest | locktest | cvtest | cvtest2
| semu (n : nat)
| fstest | readstress | writestress | writestress2 | longstress | createstress
| swapfiletest | coremaptest | tlbtest.

(** [cmdtable], as kern/conf/PAGING configures it (no network). *)
Definition cmdtable : list (string * option command) := [
  ("?", Some cmd_mainmenu); ("h", Some cmd_mainmenu); ("help", Some cmd_mainmenu); ("?o", Some cmd_opsmenu); ("?t", Some cmd_testmenu);
  ("s", Some cmd_shell); ("p", Some cmd_prog); ("mount", Some cmd_mount); ("unmount", Some cmd_unmount); ("bootfs", Some cmd_bootfs);
  ("pf", Some printfile); ("cd", Some cmd_chdir); ("pwd", Some cmd_pwd); ("sync", Some cmd_sync); ("debug", Some cmd_debug);
  ("panic", Some cmd_panic); ("deadlock", Some cmd_deadlock); ("q", Some cmd_quit); ("exit", Some cmd_quit); ("halt", Some cmd_quit);
  ("kh", Some cmd_kheapstats); ("khgen", Some cmd_kheapgeneration); ("khdump", Some cmd_kheapdump);
  ("at", Some arraytest); ("at2", Some arraytest2); ("bt", Some bitmaptest); ("tlt", Some threadlisttest);
  ("km1", Some kmalloctest); ("km2", Some kmallocstress); ("km3", Some kmalloctest3); ("km4", Some kmalloctest4);
  ("tt1", Some threadtest); ("tt2", Some threadtest2); ("tt3", Some threadtest3); ("sy1", Some semtest);
  ("sy2", Some locktest); ("sy3", Some cvtest); ("sy4", Some cvtest2);
  ("semu1", Some (semu 1)); ("semu2", Some (semu 2)); ("semu3", Some (semu 3)); ("semu4", Some (semu 4)); ("semu5", Some (semu 5));
  ("semu6", Some (semu 6)); ("semu7", Some (semu 7)); ("semu8", Some (semu 8)); ("semu9", Some (semu 9)); ("semu10", Some (semu 10));
  ("semu11", Some (semu 11)); ("semu12", Some (semu 12)); ("semu13", Some (semu 13)); ("semu14", Some (semu 14)); ("semu15", Some (semu 15));
  ("semu16", Some (semu 16)); ("semu17", Some (semu 17)); ("semu18", Some (semu 18)); ("semu19", Some (semu 19)); ("semu20", Some (semu 20));
  ("semu21", Some (semu 21)); ("semu22", Some (semu 22));
  ("fs1", Some fstest); ("fs2", Some readstress); ("fs3", Some writestress); ("fs4", Some writestress2); ("fs5", Some longstress); ("fs6", Some createstress);
  ("pg1", Some swapfiletest); ("pg2", Some coremaptest); ("tlb", Some tlbtest) ].

(** What the menu prints itself. *)
Inductive menu_msg : Type :=
| TooManyWords
| OperationTook (t : timespec)
| CommandNotFound (name : list Z)
| KernelCommand (cmd : list Z)
| CommandFailed (error : Z).

Record mstate (W : Type) := mk_mstate { mn_mem : mem; mn_world : W; mn_out : list menu_msg }.
Arguments mk_mstate {W} _ _ _.
Arguments mn_mem {W} _.
Arguments mn_world {W} _.
Arguments mn_out {W} _.

Section Menu.
Context {W : Type}.
(** Where the compiler put a string literal, the clock, the functions of the table. *)
Context (lit : string -> Z) (clock : W -> timespec * W).
Context (handler : command -> Z -> list Z -> M (mstate W) Z).

Definition on_mem {A} (x : M mem A) : M (mstate W) A :=
  zoom "memory" (fun s => Some (mn_mem s)) (fun m s => mk_mstate m (mn_world s) (mn_out s)) x.
Definition kprint (x : menu_msg) : M (mstate W) unit :=
  modify (fun s => mk_mstate (mn_mem s) (mn_world s) (mn_out s ++ [x])).
(** The [%s] of a message. *)
Definition load_string (p : Z) : M mem (list Z) := n ← strlen p; gets (fun m => read_block m p n).

Definition gettime : M (mstate W) timespec := fun s =>
  let '(t, w) := clock (mn_world s) in Done t (mk_mstate (mn_mem s) w (mn_out s)).

(** The literal of a blank and a tab. *)
Definition blanks : string := String (Ascii.ascii_of_nat 32) (String (Ascii.ascii_of_nat 9) EmptyString).

(** The words of a command: [inl] the error, [inr] the array [args]. *)
Fixpoint words_loop (fuel : nat) (string_ context : Z) (args : list Z) : M (mstate W) (Z + list Z) :=
  match fuel with
  | O => fun _ => OutOfFuel
  | S f =>
      '(word, context) ← on_mem (strtok_r string_ (lit blanks) context);
      if word =? 0 then mret (inr args)
      else if MAXMENUARGS <=? Z.of_nat (length args) then kprint TooManyWords;; mret (inl E2BIG)
      else words_loop f 0 context (args ++ [word])
  end.

Fixpoint dispatch_loop (table : list (string * option command)) (args : list Z) : M (mstate W) Z :=
  arg0 ← deref "args[0]" (head args);
  match table with
  | [] => name ← on_mem (load_string arg0); kprint (CommandNotFound name);; mret EINVAL
  | (name, func) :: table' =>
      c ← on_mem (load8 (lit name));
      r ← (if c =? 0 then mret 1 else on_mem (strcmp arg0 (lit name)));
      if r =? 0 then
        func ← (kassert "func" (bool_decide (is_Some func));; deref "func" func);
        before ← gettime;
        result ← handler func (Z.of_nat (length args)) args;
        after ← gettime;
        kprint (OperationTook (timespec_sub after before));;
        mret result
      else dispatch_loop table' args
  end.

Definition cmd_dispatch (cmd : Z) : M (mstate W) Z :=
  w ← words_loop (Z.to_nat MAXMENUARGS + 1) cmd 0 [];
  match w with
  | inl error => mret error
  | inr [] => mret 0
  | inr args => dispatch_loop cmdtable args
  end.

Fixpoint execute_loop (fuel : nat) (string_ context : Z) (isargs : bool) : M (mstate W) unit :=
  match fuel with
  | O => fun _ => OutOfFuel
  | S f =>
      '(command, context) ← on_mem (strtok_r string_ (lit ";") context);
      if command =? 0 then mret tt else
      (if isargs : bool then c ← on_mem (load_string command); kprint (KernelCommand c) else mret tt);;
      result ← cmd_dispatch command;
      (if result =? 0 then mret tt else
       kprint (CommandFailed result);;
       if isargs then panic "Failure processing kernel arguments" else mret tt);;
      execute_loop f 0 context isargs
  end.

Definition menu_execute (line : Z) (isargs : bool) : M (mstate W) unit :=
  f ← on_mem scan_fuel; execute_loop f line 0 isargs.

(** ** What the menu promises

    [h] says what the functions do, given the words of the command: [None] when the function
    does not come back. *)
Context (h : command -> list (list Z) -> W -> list menu_msg -> option (Z * W * list menu_msg)).

Fixpoint find_command (table : list (string * option command)) (name : list Z) : option command :=
  match table with
  | [] => None
  | (n, f) :: table' => if bool_decide (name = bytes_of_string n) then f else find_command table' name
  end.

Definition spec_dispatch (ws : list (list Z)) (w : W) (o : list menu_msg) : option (Z * W * list menu_msg) :=
  match ws with
  | [] => Some (0, w, o)
  | name :: _ =>
      if MAXMENUARGS <? Z.of_nat (length ws) then Some (E2BIG, w, o ++ [TooManyWords]) else
      match find_command cmdtable name with
      | None => Some (EINVAL, w, o ++ [CommandNotFound name])
      | Some c =>
          let '(before, w1) := clock w in
          '(r, w2, o2) ← h c ws w1 o;
          let '(after, w3) := clock w2 in
          Some (r, w3, o2 ++ [OperationTook (timespec_sub after before)])
      end
  end.

Inductive menu_result : Type := Ran (w : W) (o : list menu_msg) | Panicked | NoReturn.

Fixpoint spec_execute (isargs : bool) (cmds : list (list Z)) (w : W) (o : list menu_msg) : menu_result :=
  match cmds with
  | [] => Ran w o
  | c :: cmds' =>
      match spec_dispatch (words (bytes_of_string blanks) c) w (if isargs then o ++ [KernelCommand c] else o) with
      | None => NoReturn
      | Some (r, w', o') =>
          if r =? 0 then spec_execute isargs cmds' w' o'
          else if isargs then Panicked else spec_execute isargs cmds' w' (o' ++ [CommandFailed r])
      end
  end.

(** The line is at [L] with room for [N] bytes; the literals of the menu are elsewhere. *)
Context (L N : Z).
Definition literals : list string := [";"; blanks] ++ cmdtable.*1.
Definition lits_ok (m : mem) : Prop := Forall (fun s => str_at m (lit s) (bytes_of_string s)) literals.
Definition lit_addr (a : Z) : Prop :=
  Exists (fun s => lit s <= a <= lit s + Z.of_nat (length (bytes_of_string s))) literals.
Definition line_addr (a : Z) : Prop := L <= a <= L + N.
Context (Hapart : forall a, lit_addr a -> line_addr a -> False).

(** What a function of the table may do to memory: its words are its own; the rest of the line
    and the literals are not. *)
Definition in_words (args : list Z) (ws : list (list Z)) (a : Z) : Prop :=
  exists i p w, args !! i = Some p /\ ws !! i = Some w /\ p <= a <= p + Z.of_nat (length w).
Context (Hhandler : forall c args ws s r w o,
  Forall2 (str_at (mn_mem s)) args ws -> h c ws (mn_world s) (mn_out s) = Some (r, w, o) ->
  exists m', handler c (Z.of_nat (length args)) args s = Done r (mk_mstate m' w o) /\
    forall a, lit_addr a \/ line_addr a -> ~ in_words args ws a -> m' !! a = mn_mem s !! a).

Lemma lits_ok_keep m m' : (forall a, lit_addr a -> m' !! a = m !! a) -> lits_ok m -> lits_ok m'.
Proof.
  intros Hk H. unfold lits_ok in *. rewrite Forall_forall in *. intros s Hs. eapply str_at_ext, H, Hs.
  intros a Ha. apply Hk. unfold lit_addr. rewrite Exists_exists. by exists s.
Qed.
Lemma lits_ok_at m s : lits_ok m -> s ∈ literals -> str_at m (lit s) (bytes_of_string s).
Proof. unfold lits_ok. rewrite Forall_forall. auto. Qed.

Lemma on_mem_eq {A} (x : M mem A) s a m' : x (mn_mem s) = Done a m' -> on_mem x s = Done a (mk_mstate m' (mn_world s) (mn_out s)).
Proof. unfold on_mem, zoom. by intros ->. Qed.

Lemma gettime_eq m w o t w' : clock w = (t, w') -> gettime (mk_mstate m w o) = Done t (mk_mstate m w' o).
Proof. unfold gettime. cbn. by intros ->. Qed.

(** A call to strtok_r without a word left. *)
Lemma strtok_r_over seps m : strtok_r 0 seps 0 m = Done (0, 0) m.
Proof. done. Qed.

(** The words of a command at [p]. *)
Definition within (p n : Z) (q : Z) (w : list Z) : Prop := p <= q /\ q + Z.of_nat (length w) <= p + n.

Definition words_result (p : Z) (l : list Z) (args : list Z) (s : mstate W) (r : outcome (mstate W) (Z + list Z)) : Prop :=
  exists m', (forall a, ~ (p <= a <= p + Z.of_nat (length l)) -> m' !! a = mn_mem s !! a) /\
    let ws := words (bytes_of_string blanks) l in
    if MAXMENUARGS <? Z.of_nat (length args + length ws)
    then r = Done (inl E2BIG) (mk_mstate m' (mn_world s) (mn_out s ++ [TooManyWords]))
    else exists ptrs, r = Done (inr (args ++ ptrs)) (mk_mstate m' (mn_world s) (mn_out s)) /\
           Forall2 (str_at m') ptrs ws /\ Forall2 (within p (Z.of_nat (length l))) ptrs ws.

Lemma words_loop_spec : forall n l f string_ context p args s,
  (length l < n)%nat -> p = (if string_ =? 0 then context else string_) -> str_at (mn_mem s) p l ->
  lits_ok (mn_mem s) -> (forall a, p <= a <= p + Z.of_nat (length l) -> line_addr a) ->
  Z.of_nat (length args) <= MAXMENUARGS -> MAXMENUARGS + 1 <= Z.of_nat f + Z.of_nat (length args) ->
  words_result p l args s (words_loop f string_ context args s).
Proof.
  unfold words_result. induction n as [|n IH]; intros l f string_ context p args s Hn Hp Hl Hlit Hline Ha Hf; [lia|].
  destruct f as [|f]; [unfold MAXMENUARGS in *; lia|]. cbn [words_loop].
  assert (Hsep : str_at (mn_mem s) (lit blanks) (bytes_of_string blanks)) by (apply lits_ok_at; [done|set_solver]).
  destruct (next_word (bytes_of_string blanks) l) as [[[sk w] r]|] eqn:E.
  - destruct (strtok_r_step (mn_mem s) string_ (lit blanks) context p _ l sk w r Hp Hsep Hl E) as (m1 & E1 & Hw & Hr & Hk).
    apply next_word_some in E as (El & Hw0 & Ews). rewrite Ews.
    rewrite (bind_ret _ _ _ _ _ (on_mem_eq _ _ _ _ E1)). cbv beta iota.
    rewrite (proj2 (Z.eqb_neq (p + Z.of_nat (length sk)) 0)) by (destruct Hl; lia).
    destruct (Z.leb_spec MAXMENUARGS (Z.of_nat (length args))) as [Hmax|Hmax].
    { exists m1. split; [done|]. cbn [length]. rewrite (proj2 (Z.ltb_lt MAXMENUARGS _)) by lia. done. }
    pose proof (f_equal length El) as Hlen. rewrite !length_app in Hlen.
    assert (Hwl : (0 < length w)%nat) by (destruct w; [done|cbn; lia]).
    destruct r as [|c r].
    + exists m1. split; [done|]. cbn [tail]. change (words (bytes_of_string blanks) []) with (@nil (list Z)). cbn [length].
      rewrite (proj2 (Z.ltb_ge MAXMENUARGS _)) by lia. exists [p + Z.of_nat (length sk)]. split; [|split].
      * destruct f as [|f]; [unfold MAXMENUARGS in *; lia|]. cbn [words_loop]. by rewrite (bind_ret _ _ _ _ _ (on_mem_eq _ _ _ _ (strtok_r_over _ _))).
      * by constructor.
      * constructor; [unfold within; cbn in Hlen; lia|constructor].
    + cbn [tail length] in *. rewrite length_app in *.
      destruct (IH r f 0 (p + Z.of_nat (length sk + length w) + 1) (p + Z.of_nat (length sk + length w) + 1) (args ++ [p + Z.of_nat (length sk)])
                  (mk_mstate m1 (mn_world s) (mn_out s))) as (m2 & Hk2 & R); [lia|done|by eapply Hr| |intros a Ha'; apply Hline; lia|rewrite length_app; cbn; lia..|].
      { eapply lits_ok_keep, Hlit. intros a Ha'. apply Hk. intros Hin. by eapply Hapart, Hline. }
      exists m2. cbn [mn_mem mn_world mn_out] in Hk2, R. split.
      { intros a Ha'. rewrite Hk2 by lia. apply Hk. lia. }
      rewrite length_app in R. cbn [length] in R. cbv zeta.
      replace (length args + S (length (words (bytes_of_string blanks) r)))%nat with (length args + 1 + length (words (bytes_of_string blanks) r))%nat by lia.
      destruct (MAXMENUARGS <? _); [done|]. destruct R as (ptrs & R & F1 & F2).
      exists ((p + Z.of_nat (length sk)) :: ptrs). split; [by rewrite R, <- app_assoc|]. split; constructor; try done.
      * eapply str_at_ext, Hw. intros a Ha'. apply Hk2. lia.
      * unfold within. lia.
      * eapply Forall2_impl; [exact F2|]. unfold within. intros q v. lia.
  - exists (mn_mem s). split; [done|]. rewrite (next_word_none _ _ E). cbn [length]. rewrite (proj2 (Z.ltb_ge MAXMENUARGS _)) by lia.
    exists []. rewrite (bind_ret _ _ _ _ _ (on_mem_eq _ _ _ _ (strtok_r_none _ _ _ _ _ _ _ Hp Hsep Hl E))). cbn.
    rewrite app_nil_r. by destruct s.
Qed.

Lemma load_string_eq m p l : str_at m p l -> load_string p m = Done l m.
Proof.
  intros H. unfold load_string. rewrite (bind_ret _ _ _ _ _ (strlen_eq m p l H)). unfold gets. f_equal.
  pose proof (str_at_read m p l H) as R. unfold read_block in *. rewrite seqZ_app in R by lia. rewrite omap_app in R.
  rewrite (seqZ_cons (p + Z.of_nat (length l)) 1) in R by lia. rewrite (seqZ_nil _ (Z.pred 1)) in R by lia. cbn [omap list_omap] in R.
  destruct H as [Hb _ _ _]. apply bytes_at_app in Hb as [_ Hb]. apply bytes_at_cons in Hb as [Hb _]. rewrite Hb in R. by apply app_inj_2 in R as [R _].
Qed.

(** The entries of the table have names, which are literals, and functions. *)
Definition entries_ok (table : list (string * option command)) : Prop :=
  Forall (fun e => e.1 ∈ literals /\ bytes_of_string e.1 <> [] /\ is_Some e.2) table.

Lemma cmdtable_entries : entries_ok cmdtable.
Proof.
  unfold entries_ok. rewrite Forall_forall. intros e He. split; [unfold literals; apply elem_of_app; right; by apply list_elem_of_fmap_2|].
  revert e He. rewrite <- Forall_forall. apply (bool_decide_unpack _). vm_compute. exact I.
Qed.

(** What a function of the table leaves of the memory of the menu. *)
Definition keeps_others (ptrs : list Z) (ws : list (list Z)) (m m' : mem) : Prop :=
  forall a, lit_addr a \/ line_addr a -> ~ in_words ptrs ws a -> m' !! a = m !! a.

Lemma dispatch_loop_spec args ws name s :
  Forall2 (str_at (mn_mem s)) args ws -> head ws = Some name -> lits_ok (mn_mem s) ->
  forall table, entries_ok table ->
  match find_command table name with
  | None => dispatch_loop table args s = Done EINVAL (mk_mstate (mn_mem s) (mn_world s) (mn_out s ++ [CommandNotFound name]))
  | Some c =>
      let '(before, w1) := clock (mn_world s) in
      forall r w2 o2, h c ws w1 (mn_out s) = Some (r, w2, o2) ->
      let '(after, w3) := clock w2 in
      exists m', dispatch_loop table args s = Done r (mk_mstate m' w3 (o2 ++ [OperationTook (timespec_sub after before)])) /\
        keeps_others args ws (mn_mem s) m'
  end.
Proof.
  intros Ha Hn Hlit. destruct Ha as [|arg0 name' args ws H0 Ha]; [done|]. injection Hn as ->.
  induction table as [|[n f] table IH]; intros Ht; cbn [find_command dispatch_loop].
  - erewrite bind_ret; [|done]. by rewrite (bind_ret _ _ _ _ _ (on_mem_eq _ _ _ _ (load_string_eq _ _ _ H0))).
  - apply Forall_cons in Ht as [(Hn & Hne & [c Hc]) Ht]. cbn in Hn, Hne, Hc. subst f.
    erewrite bind_ret; [|done]. pose proof (lits_ok_at _ _ Hlit Hn) as Hs.
    erewrite bind_ret; [|apply on_mem_eq, (load8_str _ _ _ _ Hs eq_refl)].
    destruct (bytes_of_string n) as [|c0 n0] eqn:En; [done|]. cbn [head default from_option id].
    rewrite (proj2 (Z.eqb_neq c0 0)) by (apply str_at_cons in Hs; lia).
    erewrite bind_ret; [|apply on_mem_eq, (strcmp_eq _ _ _ _ _ H0 Hs)]. destruct s as [m w o]. cbn [mn_mem mn_world mn_out] in *.
    case_bool_decide as Heq.
    + rewrite (proj2 (lex_cmp_eq name (c0 :: n0)) Heq). cbn [Z.eqb]. destruct (clock w) as [before w1] eqn:Eb. intros r w2 o2 Eh.
      destruct (Hhandler c (arg0 :: args) (name :: ws) (mk_mstate m w1 o) r w2 o2) as (m' & Er & Hk); [by constructor|done|].
      destruct (clock w2) as [after w3] eqn:Eaf. exists m'. split; [|exact Hk].
      erewrite bind_ret; [|done]. erewrite bind_ret; [|apply gettime_eq, Eb].
      rewrite (bind_ret _ _ _ _ _ Er). erewrite bind_ret; [|apply gettime_eq, Eaf]. done.
    + destruct (lex_cmp name (c0 :: n0) =? 0) eqn:Ez; [apply Z.eqb_eq, lex_cmp_eq in Ez; done|]. by apply IH.
Qed.

(** Words inside a region leave everything outside of it alone. *)
Lemma in_words_within p n ptrs ws a : Forall2 (within p n) ptrs ws -> in_words ptrs ws a -> p <= a <= p + n.
Proof.
  intros F (i & q & w & Hq & Hw & Ha). destruct (Forall2_lookup_lr _ _ _ _ _ _ F Hq Hw). lia.
Qed.

Lemma cmd_dispatch_spec p l s r w o :
  str_at (mn_mem s) p l -> lits_ok (mn_mem s) -> (forall a, p <= a <= p + Z.of_nat (length l) -> line_addr a) ->
  spec_dispatch (words (bytes_of_string blanks) l) (mn_world s) (mn_out s) = Some (r, w, o) ->
  exists m', cmd_dispatch p s = Done r (mk_mstate m' w o) /\
    forall a, lit_addr a \/ line_addr a -> ~ (p <= a <= p + Z.of_nat (length l)) -> m' !! a = mn_mem s !! a.
Proof.
  intros Hl Hlit Hline Hs. assert (Hp0 : p = if p =? 0 then 0 else p) by (destruct (Z.eqb_spec p 0); lia).
  destruct (words_loop_spec _ l (Z.to_nat MAXMENUARGS + 1) p 0 p [] s (Nat.lt_succ_diag_r _) Hp0 Hl Hlit Hline) as (m1 & Hk1 & R);
    [cbn; unfold MAXMENUARGS; lia..|]. cbv zeta in R. cbn [length Nat.add] in R.
  unfold cmd_dispatch. unfold spec_dispatch in Hs. destruct (MAXMENUARGS <? Z.of_nat (length (words (bytes_of_string blanks) l))) eqn:Emax.
  - rewrite (bind_ret _ _ _ _ _ R). destruct (words (bytes_of_string blanks) l) as [|name ws]; [done|]. injection Hs as <- <- <-.
    exists m1. split; [done|]. intros a _ Ha. by apply Hk1.
  - destruct R as (ptrs & R & F1 & F2). rewrite (bind_ret _ _ _ _ _ R). cbn [app]. destruct F1 as [|q name ptrs ws Hq F1].
    { injection Hs as <- <- <-. exists m1. split; [done|]. intros a _ Ha. by apply Hk1. }
    assert (Hlit1 : lits_ok m1). { eapply lits_ok_keep, Hlit. intros a Ha. apply Hk1. intros Hin. by eapply Hapart, Hline. }
    pose proof (dispatch_loop_spec (q :: ptrs) (name :: ws) name (mk_mstate m1 (mn_world s) (mn_out s)) ltac:(by constructor) eq_refl Hlit1 cmdtable cmdtable_entries) as D.
    cbn [mn_mem mn_world mn_out] in D. destruct (find_command cmdtable name) as [c|].
    + destruct (clock (mn_world s)) as [before w1]. destruct (h c (name :: ws) w1 (mn_out s)) as [[[r' w2] o2]|] eqn:Eh; [|done].
      specialize (D r' w2 o2 eq_refl). cbn in Hs. destruct (clock w2) as [after w3]. injection Hs as <- <- <-.
      destruct D as (m' & D & Hk). exists m'. split; [done|]. intros a Hin Ha. rewrite Hk; [by apply Hk1|done|].
      intros Hw. by eapply in_words_within in Hw; [|exact F2].
    + injection Hs as <- <- <-. exists m1. split; [done|]. intros a _ Ha. by apply Hk1.
Qed.

Definition execute_result (isargs : bool) (l : list Z) (s : mstate W) (r : outcome (mstate W) unit) : Prop :=
  match spec_execute isargs (words (bytes_of_string ";") l) (mn_world s) (mn_out s) with
  | Ran w o => exists m', r = Done tt (mk_mstate m' w o)
  | Panicked => r = Halt (Panic "Failure processing kernel arguments")
  | NoReturn => True
  end.

Lemma execute_loop_over f isargs s : (0 < f)%nat -> execute_loop f 0 0 isargs s = Done tt s.
Proof. destruct f; [lia|]. intros _. cbn [execute_loop]. rewrite (bind_ret _ _ _ _ _ (on_mem_eq _ _ _ _ (strtok_r_over _ _))). by destruct s. Qed.

Lemma execute_loop_spec isargs : forall n l f string_ context p s,
  (length l < n)%nat -> (length l + 1 < f)%nat -> p = (if string_ =? 0 then context else string_) -> str_at (mn_mem s) p l ->
  lits_ok (mn_mem s) -> (forall a, p <= a <= p + Z.of_nat (length l) -> line_addr a) ->
  execute_result isargs l s (execute_loop f string_ context isargs s).
Proof.
  unfold execute_result. induction n as [|n IH]; intros l f string_ context p s Hn Hf Hp Hl Hlit Hline; [lia|].
  destruct f as [|f]; [lia|]. cbn [execute_loop].
  assert (Hsep : str_at (mn_mem s) (lit ";") (bytes_of_string ";")) by (apply lits_ok_at; [done|set_solver]).
  destruct (next_word (bytes_of_string ";") l) as [[[sk w] r]|] eqn:E.
  2: { rewrite (next_word_none _ _ E). cbn [spec_execute]. exists (mn_mem s).
       by rewrite (bind_ret _ _ _ _ _ (on_mem_eq _ _ _ _ (strtok_r_none _ _ _ _ _ _ _ Hp Hsep Hl E))). }
  destruct (strtok_r_step (mn_mem s) string_ (lit ";") context p _ l sk w r Hp Hsep Hl E) as (m1 & E1 & Hw & Hr & Hk).
  apply next_word_some in E as (El & Hw0 & Ews). rewrite Ews. cbn [spec_execute].
  rewrite (bind_ret _ _ _ _ _ (on_mem_eq _ _ _ _ E1)). cbv beta iota.
  rewrite (proj2 (Z.eqb_neq (p + Z.of_nat (length sk)) 0)) by (destruct Hl; lia).
  pose proof (f_equal length El) as Hlen. rewrite !length_app in Hlen.
  assert (Hwl : (0 < length w)%nat) by (destruct w; [done|cbn; lia]).
  assert (Hlit1 : lits_ok m1). { eapply lits_ok_keep, Hlit. intros a Ha. apply Hk. intros Hin. by eapply Hapart, Hline. }
  set (o1 := if isargs then mn_out s ++ [KernelCommand w] else mn_out s).
  erewrite (bind_ret _ _ _ tt (mk_mstate m1 (mn_world s) o1)).
  2: { unfold o1. destruct isargs; [|done]. by rewrite (bind_ret _ _ _ _ _ (on_mem_eq _ (mk_mstate m1 _ _) _ _ (load_string_eq _ _ _ Hw))). }
  destruct (spec_dispatch (words (bytes_of_string blanks) w) (mn_world s) o1) as [[[res w'] o']|] eqn:Esp; [|done].
  destruct (cmd_dispatch_spec (p + Z.of_nat (length sk)) w (mk_mstate m1 (mn_world s) o1) res w' o' Hw Hlit1) as (m2 & E2 & Hk2);
    [intros a Ha; apply Hline; lia|done|]. rewrite (bind_ret _ _ _ _ _ E2). cbn [mn_mem] in Hk2.
  assert (Hlit2 : lits_ok m2). { eapply lits_ok_keep, Hlit1. intros a Ha. apply Hk2; [by left|]. intros Hin. eapply Hapart; [exact Ha|]. apply Hline. lia. }
  assert (Hnext : forall o2, execute_result isargs (tail r) (mk_mstate m2 w' o2)
    (execute_loop f 0 (match r with [] => 0 | _ => p + Z.of_nat (length (sk ++ w)) + 1 end) isargs (mk_mstate m2 w' o2))).
  { intros o2. unfold execute_result. destruct r as [|c r]; [exists m2; apply execute_loop_over; lia|]. cbn [tail length] in *.
    apply IH with (p := p + Z.of_nat (length (sk ++ w)) + 1); [lia|lia|done| |done|intros a Ha; apply Hline; rewrite length_app in Ha; lia].
    eapply str_at_ext; [|by eapply Hr]. intros a Ha. rewrite length_app in Ha. apply Hk2; [right; apply Hline; lia|lia]. }
  unfold execute_result in Hnext. cbn [mn_world mn_out] in Hnext.
  destruct (Z.eqb_spec res 0) as [->|Hres]; [erewrite bind_ret; [apply Hnext|done]|].
  destruct isargs; [done|]. erewrite bind_ret; [apply Hnext|done].
Qed.
End Menu.

(** ** Theorems *)

(** Every name of the table selects its own function: no entry is hidden by an earlier one. *)
Theorem cmdtable_unambiguous : Forall (fun e => find_command cmdtable (bytes_of_string e.1) = e.2) cmdtable.
Proof. repeat constructor. Qed.

(** C37: executing a line runs, in order, the commands between its semicolons, each with the
    words between its blanks: nothing for an empty command, an error for more than sixteen
    words or an unknown name, otherwise the function of that name with exactly these words;
    a failed command is reported, and stops the kernel when the line is the kernel's own
    arguments.  The two nested tokenisers work in place on the line; the functions may
    overwrite their own words, as those that open files do. *)
Theorem menu_execute_refines {W} (lit : string -> Z) (clock : W -> timespec * W)
  (handler : command -> Z -> list Z -> M (mstate W) Z)
  (h : command -> list (list Z) -> W -> list menu_msg -> option (Z * W * list menu_msg))
  (line : Z) (l : list Z) (isargs : bool) (s : mstate W)
  (Hline : str_at (mn_mem s) line l) (Hlits : lits_ok lit (mn_mem s))
  (Hapart : forall a, lit_addr lit a -> line_addr line (Z.of_nat (length l)) a -> False)
  (Hhandler : forall c args ws s r w o,
     Forall2 (str_at (mn_mem s)) args ws -> h c ws (mn_world s) (mn_out s) = Some (r, w, o) ->
     exists m', handler c (Z.of_nat (length args)) args s = Done r (mk_mstate m' w o) /\
       forall a, lit_addr lit a \/ line_addr line (Z.of_nat (length l)) a -> ~ in_words args ws a -> m' !! a = mn_mem s !! a) :
  match spec_execute clock h isargs (words (bytes_of_string ";") l) (mn_world s) (mn_out s) with
  | Ran w o => exists m', menu_execute lit clock handler line isargs s = Done tt (mk_mstate m' w o)
  | Panicked => menu_execute lit clock handler line isargs s = Halt (Panic "Failure processing kernel arguments")
  | NoReturn => True
  end.
Proof.
  unfold menu_execute. erewrite bind_ret; [|reflexivity]. destruct s as [m w o].
  eapply (execute_loop_spec lit clock handler h line _ Hapart Hhandler isargs (S (length l)) l); [lia| | |exact Hline|exact Hlits|unfold line_addr; lia].
  - apply str_at_size in Hline. cbn in *. lia.
  - destruct (Z.eqb_spec line 0); [destruct Hline; lia|done].
Qed.

(** ** An example

    The kernel's arguments "mount sfs lhd0; bootfs lhd0;;frob", with functions that note the
    words they are called with. *)
Definition log_lit (s : string) : Z := 65536 + 16 * match list_find (fun x => x = s) literals with Some (i, _) => Z.of_nat i | None => 0 end.
Definition log_world : Type := list (command * list (list Z)).
Definition log_clock (w : log_world) : timespec * log_world := (mk_timespec (Z.of_nat (length w)) 0, w).
Definition log_h (c : command) (ws : list (list Z)) (w : log_world) (o : list menu_msg) : option (Z * log_world * list menu_msg) :=
  Some (0, w ++ [(c, ws)], o).
Definition log_handler (c : command) (nargs : Z) (args : list Z) : M (mstate log_world) Z :=
  ws ← on_mem (foldr (fun p acc => w ← load_string p; ws ← acc; mret (w :: ws)) (mret []) args);
  modify (fun s => mk_mstate (mn_mem s) (mn_world s ++ [(c, ws)]) (mn_out s));; mret 0.
Definition log_line : list Z := bytes_of_string "mount sfs lhd0; bootfs lhd0;;frob".
Definition log_mem : mem := foldr (fun s m => write_block m (log_lit s) (bytes_of_string s ++ [0])) (write_block ∅ 4096 (log_line ++ [0])) literals.
Definition log_state : mstate log_world := mk_mstate log_mem [] [].

Lemma log_handler_ok c args ws s r w o :
  Forall2 (str_at (mn_mem s)) args ws -> log_h c ws (mn_world s) (mn_out s) = Some (r, w, o) ->
  log_handler c (Z.of_nat (length args)) args s = Done r (mk_mstate (mn_mem s) w o).
Proof.
  intros F [= <- <- <-]. unfold log_handler.
  assert (E : foldr (fun p acc => w ← load_string p; ws ← acc; mret (w :: ws)) (mret []) args (mn_mem s) = Done ws (mn_mem s)).
  { induction F as [|p x args ws Hp F IH]; cbn; [done|].
    rewrite (bind_ret _ _ _ _ _ (load_string_eq _ _ _ Hp)). by rewrite (bind_ret _ _ _ _ _ IH). }
  by rewrite (bind_ret _ _ _ _ _ (on_mem_eq _ _ _ _ E)).
Qed.

Lemma menu_execute_refines_witness : exists m,
  menu_execute log_lit log_clock log_handler 4096 false log_state =
  Done tt (mk_mstate m
    [(cmd_mount, bytes_of_string <$> ["mount"; "sfs"; "lhd0"]); (cmd_bootfs, bytes_of_string <$> ["bootfs"; "lhd0"])]
    [OperationTook (mk_timespec 1 0); OperationTook (mk_timespec 1 0); CommandNotFound (bytes_of_string "frob"); CommandFailed EINVAL]) /\
  menu_execute log_lit log_clock log_handler 4096 true log_state = Halt (Panic "Failure processing kernel arguments").
Proof.
  assert (Hline : str_at log_mem 4096 log_line) by (apply str_atb_true; vm_compute; reflexivity).
  assert (Hlits : lits_ok log_lit log_mem).
  { unfold lits_ok. apply Forall_impl with (P := fun s => str_atb log_mem (log_lit s) (bytes_of_string s) = true); [|intros s; apply str_atb_true].
    apply (bool_decide_unpack _). vm_compute. exact I. }
  assert (Hapart : forall a, lit_addr log_lit a -> line_addr 4096 (Z.of_nat (length log_line)) a -> False).
  { intros a Ha Hb. unfold lit_addr in Ha. apply Exists_exists in Ha as (s & _ & Ha). unfold line_addr, log_lit in *.
    change (Z.of_nat (length log_line)) with 33 in Hb. destruct (list_find _ _) as [[i x]|]; lia. }
  assert (Hh : forall c args ws s r w o,
     Forall2 (str_at (mn_mem s)) args ws -> log_h c ws (mn_world s) (mn_out s) = Some (r, w, o) ->
     exists m', log_handler c (Z.of_nat (length args)) args s = Done r (mk_mstate m' w o) /\
       forall a, lit_addr log_lit a \/ line_addr 4096 (Z.of_nat (length log_line)) a -> ~ in_words args ws a -> m' !! a = mn_mem s !! a).
  { intros c args ws s r w o F E. exists (mn_mem s). split; [by apply (log_handler_ok c args ws)|done]. }
  destruct (menu_execute_refines log_lit log_clock log_handler log_h 4096 log_line false log_state Hline Hlits Hapart Hh) as [m Hm].
  exists m. split; [exact Hm|].
  exact (menu_execute_refines log_lit log_clock log_handler log_h 4096 log_line true log_state Hline Hlits Hapart Hh).
Defined.
