(* ===== verification/Qsort.v ===== *)
(** * userland/lib/libc/stdlib/qsort.c

    The array is the list of its elements; the comparison is the caller's.  [qsort] recurses on
    its own front and back parts, and the element it compares with moves while it partitions. *)
From stdpp Require Import sorting.
From S2P Require Import Prelude.

Module Qsort.
Section Qsort.
Context {A : Type} (f : A -> A -> Z).

Definition elem (i : nat) : M (list A) A := l ← get; deref "data" (l !! i).

(** [COMPARE]: an element is not compared with itself. *)
Definition compare (aa bb : nat) : M (list A) Z :=
  if (aa =? bb)%nat then mret 0 else x ← elem aa; y ← elem bb; mret (f x y).

(** [EXCHANGE], through [tmp]. *)
Definition exchange (aa bb : nat) : M (list A) unit :=
  tmp ← elem aa;
  x ← elem bb;
  modify (fun l => <[aa := x]> l);;
  modify (fun l => <[bb := tmp]> l).

(** Step 2: [(pivot, head, tail)] at the end of the loop. *)
Fixpoint partition_loop (fuel : nat) (pivot head tail : nat) : M (list A) (nat * nat * nat) :=
  match fuel with
  | O => fun _ => OutOfFuel
  | S fuel =>
      if (head <? tail)%nat then
        c ← compare head pivot;
        if c <=? 0 then partition_loop fuel pivot (head + 1) tail
        else
          c ← compare tail pivot;
          if 0 <? c then partition_loop fuel pivot head (tail - 1)
          else
            exchange head tail;;
            let pivot := if (pivot =? head)%nat then tail else if (pivot =? tail)%nat then head else pivot in
            partition_loop fuel pivot (head + 1) (tail - 1)
      else mret (pivot, head, tail)
  end.

(** Step 4: lop off the values equal to the last one. *)
Fixpoint lop_loop (tail : nat) : M (list A) nat :=
  match tail with
  | O => mret O
  | S t => c ← compare t tail; if c =? 0 then lop_loop t else mret tail
  end.

(** Work on the [len] elements from [off] on. *)
Definition part (off len : nat) (m : M (list A) unit) : M (list A) unit := fun l =>
  match m (take len (drop off l)) with
  | Done _ l' => Done tt (take off l ++ l' ++ drop (off + len) l)
  | Halt r => Halt r | Exited _ => Halt (Undefined "part") | OutOfFuel => OutOfFuel
  end.

(** The special case of two elements: whether it has sorted them. *)
Definition sort_two (num : nat) : M (list A) bool :=
  if (num =? 2)%nat then c ← compare 0 1; if 0 <? c then exchange 0 1;; mret true else mret false else mret false.

(** Steps 1 to 3: the pivot, and the first element of the back part. *)
Definition divide (num : nat) : M (list A) (nat * nat) :=
  '(pivot, head, tail) ← partition_loop num (num / 2) 0 (num - 1);
  front ← (if (tail <? head)%nat then mret true else c ← compare head pivot; mret (c <=? 0));
  mret (pivot, if front : bool then (tail + 1)%nat else tail).

(** Steps 4 and 5; [again] is the recursive call. *)
Definition conquer (again : nat -> M (list A) unit) (num pivot tail : nat) : M (list A) unit :=
  if (tail =? num)%nat then
    (if (pivot <? num - 1)%nat then
       c ← compare pivot (num - 1); if 0 <? c then exchange pivot (num - 1) else mret tt
     else mret tt);;
    tail ← lop_loop (num - 1);
    if (0 <? tail)%nat then part 0 tail (again tail) else mret tt
  else
    kassert "tail > 0 && tail < num" ((0 <? tail)%nat && (tail <? num)%nat);;
    part 0 tail (again tail);;
    part tail (num - tail) (again (num - tail)%nat).

Fixpoint qsort (fuel num : nat) : M (list A) unit :=
  match fuel with
  | O => fun _ => OutOfFuel
  | S fuel =>
      if (num <=? 1)%nat then mret tt else
      sorted ← sort_two num;
      if sorted : bool then mret tt else
      '(pivot, tail) ← divide num;
      conquer (qsort fuel) num pivot tail
  end.

(** ** Correctness *)

(** What qsort needs of the comparison: "not greater" is a total preorder, and "equal" is
    symmetric. *)
Class Ordering : Prop := {
  ord_total : forall x y, f x y <= 0 \/ f y x <= 0;
  ord_trans : forall x y z, f x y <= 0 -> f y z <= 0 -> f x z <= 0;
  ord_sym : forall x y, f x y = 0 -> f y x <= 0 }.
Context {HO : Ordering}.

Definition le (x y : A) : Prop := f x y <= 0.

Lemma le_refl x : le x x.
Proof. destruct (ord_total x x); done. Qed.
Lemma gt_le x y : ~ le x y -> le y x.
Proof. intros H. destruct (ord_total x y); [done|done]. Qed.

Lemma elem_eq l i x : l !! i = Some x -> elem i l = Done x l.
Proof. intros H. unfold elem. erewrite bind_ret; [|done]. by rewrite H. Qed.

Lemma compare_eq l i j x y : l !! i = Some x -> l !! j = Some y -> exists c, compare i j l = Done c l /\ (c <= 0 <-> le x y) /\ (c = 0 -> le x y /\ le y x).
Proof.
  intros Hi Hj. unfold compare. destruct (Nat.eqb_spec i j) as [->|Hne].
  - assert (y = x) as -> by congruence. exists 0. pose proof (le_refl x). split; [done|]. split; [done|by split].
  - exists (f x y). rewrite (bind_ret _ _ _ _ _ (elem_eq _ _ _ Hi)), (bind_ret _ _ _ _ _ (elem_eq _ _ _ Hj)). split; [done|]. split; [done|]. intros H. split; [unfold le; lia|by apply ord_sym].
Qed.

Lemma exchange_eq l i j x y : l !! i = Some x -> l !! j = Some y -> i <> j -> exists l', exchange i j l = Done tt l' /\ l' ≡ₚ l /\
  l' !! i = Some y /\ l' !! j = Some x /\ (forall k, k <> i -> k <> j -> l' !! k = l !! k) /\ length l' = length l.
Proof.
  intros Hi Hj Hne. exists (<[j := x]> (<[i := y]> l)). pose proof (lookup_lt_Some _ _ _ Hi). pose proof (lookup_lt_Some _ _ _ Hj). split.
  - unfold exchange. rewrite (bind_ret _ _ _ _ _ (elem_eq _ _ _ Hi)), (bind_ret _ _ _ _ _ (elem_eq _ _ _ Hj)). done.
  - split_and!; [by apply Permutation_insert_swap| | | |by rewrite !length_insert].
    + rewrite list_lookup_insert_ne by done. by apply list_lookup_insert_eq.
    + apply list_lookup_insert_eq. by rewrite length_insert.
    + intros k H1 H2. by rewrite !list_lookup_insert_ne.
Qed.

(** Before [head] nothing is greater than the pivot's value, behind [tail] everything is. *)
Record split_at (l : list A) (p : A) (pivot head tail : nat) : Prop := {
  sp_pivot : l !! pivot = Some p;
  sp_front : forall i x, (i < head)%nat -> l !! i = Some x -> le x p;
  sp_back : forall i x, (tail < i)%nat -> l !! i = Some x -> ~ le x p;
  sp_bounds : (head <= tail + 1)%nat /\ (tail < length l)%nat }.

Lemma partition_loop_eq p fuel : forall l pivot head tail, split_at l p pivot head tail -> (1 <= fuel)%nat -> (tail + 1 - head <= fuel)%nat ->
  exists pivot' head' tail' l', partition_loop fuel pivot head tail l = Done (pivot', head', tail') l' /\ l' ≡ₚ l /\ split_at l' p pivot' head' tail' /\ (tail' <= head')%nat.
Proof.
  induction fuel as [|fuel IH]; intros l pivot head tail [Hp Hf Hb [Hb1 Hb2]] H1 Hm; [lia|]. cbn [partition_loop]. destruct (Nat.ltb_spec head tail) as [Hlt|Hge].
  2: { exists pivot, head, tail, l. split_and!; try done. }
  destruct (lookup_lt_is_Some_2 l head ltac:(lia)) as [x Hx]. destruct (lookup_lt_is_Some_2 l tail ltac:(lia)) as [y Hy].
  destruct (compare_eq l head pivot x p Hx Hp) as (c & Ec & Hc & _). rewrite (bind_ret _ _ _ _ _ Ec). destruct (Z.leb_spec c 0) as [Hc0|Hc0].
  { apply IH; [|lia|lia]. split; [done| |done|lia]. intros i z Hi Hz. destruct (decide (i = head)) as [->|]; [|apply (Hf i); [lia|done]]. assert (z = x) as -> by congruence. by apply Hc. }
  destruct (compare_eq l tail pivot y p Hy Hp) as (c2 & Ec2 & Hc2 & _). rewrite (bind_ret _ _ _ _ _ Ec2). destruct (Z.ltb_spec 0 c2) as [Hc20|Hc20].
  { apply IH; [|lia|lia]. split; [done|done| |lia]. intros i z Hi Hz. destruct (decide (i = tail)) as [->|]; [|apply (Hb i); [lia|done]]. assert (z = y) as -> by congruence. rewrite <- Hc2. lia. }
  destruct (exchange_eq l head tail x y Hx Hy ltac:(lia)) as (l1 & E1 & P1 & L1 & L2 & L3 & L4). rewrite (bind_ret _ _ _ _ _ E1).
  assert (Hxp : ~ le x p) by (rewrite <- Hc; lia). assert (Hyp : le y p) by (by apply Hc2). assert (Hph : pivot <> head) by (intros ->; assert (x = p) as -> by congruence; by apply Hxp, le_refl).
  rewrite (proj2 (Nat.eqb_neq pivot head)) by done.
  destruct (IH l1 (if (pivot =? tail)%nat then head else pivot) (head + 1)%nat (tail - 1)%nat) as (pv & h & t & l2 & E2 & P2 & S2 & H2); [|lia|lia|].
  2: { exists pv, h, t, l2. split; [done|]. split; [by rewrite P2|done]. }
  split; [| | |rewrite L4; lia].
  - destruct (Nat.eqb_spec pivot tail) as [->|]; [rewrite L1; congruence|by rewrite L3].
  - intros i z Hi Hz. destruct (decide (i = head)) as [->|]; [assert (z = y) as -> by congruence; done|]. rewrite L3 in Hz by lia. apply (Hf i); [lia|done].
  - intros i z Hi Hz. destruct (decide (i = tail)) as [->|]; [assert (z = x) as -> by congruence; done|]. destruct (decide (i = head)) as [->|]; [lia|]. rewrite L3 in Hz by lia. apply (Hb i); [lia|done].
Qed.

Lemma partition_end l p pivot head tail : split_at l p pivot head tail -> (tail <= head)%nat ->
  exists b, (if (tail <? head)%nat then mret true else c ← compare head pivot; mret (c <=? 0)) l = Done b l /\
    let t := if b then (tail + 1)%nat else tail in
    (forall i x, (i < t)%nat -> l !! i = Some x -> le x p) /\ (forall i x, (t <= i)%nat -> l !! i = Some x -> ~ le x p) /\ (0 < t <= length l)%nat.
Proof.
  intros [Hp Hf Hb [H1 H2]] Hth. assert (Hpos : forall t, (forall i x, (t <= i)%nat -> l !! i = Some x -> ~ le x p) -> (0 < t)%nat).
  { intros t Ht. destruct (decide (t = 0)%nat) as [->|]; [|lia]. exfalso. eapply (Ht pivot); [lia|exact Hp|apply le_refl]. }
  destruct (Nat.ltb_spec tail head) as [Hlt|Hge].
  - exists true. assert (head = tail + 1)%nat as -> by lia. split; [done|]. assert (Hb' : forall i x, (tail + 1 <= i)%nat -> l !! i = Some x -> ~ le x p) by (intros i x Hi; apply Hb; lia).
    split_and!; [done|done|by apply Hpos|lia].
  - assert (head = tail) as -> by lia. destruct (lookup_lt_is_Some_2 l tail H2) as [y Hy]. destruct (compare_eq l tail pivot y p Hy Hp) as (c & Ec & Hc & _).
    exists (c <=? 0). split; [by rewrite (bind_ret _ _ _ _ _ Ec)|]. destruct (Z.leb_spec c 0) as [Hc0|Hc0]; cbn.
    + assert (Hb' : forall i x, (tail + 1 <= i)%nat -> l !! i = Some x -> ~ le x p) by (intros i x Hi; apply Hb; lia). split_and!; [|done|by apply Hpos|lia].
      intros i x Hi Hx. destruct (decide (i = tail)) as [->|]; [assert (x = y) as -> by congruence; by apply Hc|apply (Hf i); [lia|done]].
    + assert (Hb' : forall i x, (tail <= i)%nat -> l !! i = Some x -> ~ le x p).
      { intros i x Hi Hx. destruct (decide (i = tail)) as [->|]; [assert (x = y) as -> by congruence; rewrite <- Hc; lia|apply (Hb i); [lia|done]]. }
      split_and!; [intros i x Hi; apply Hf; lia|done|by apply Hpos|lia].
Qed.

Lemma divide_eq l : (2 <= length l)%nat -> exists pivot t l' p, divide (length l) l = Done (pivot, t) l' /\ l' ≡ₚ l /\ l' !! pivot = Some p /\
  (forall i x, (i < t)%nat -> l' !! i = Some x -> le x p) /\ (forall i x, (t <= i)%nat -> l' !! i = Some x -> ~ le x p) /\ (0 < t <= length l')%nat.
Proof.
  intros Hl. destruct (lookup_lt_is_Some_2 l (length l / 2)) as [p Hp]; [apply Nat.div_lt; lia|].
  destruct (partition_loop_eq p (length l) l (length l / 2) 0 (length l - 1)) as (pv & h & tl & l1 & E1 & P1 & S1 & H1); [|lia|lia|].
  { split; [done|lia|intros i x Hi Hx; apply lookup_lt_Some in Hx; lia|lia]. }
  destruct (partition_end l1 p pv h tl S1 H1) as (b & Eb & H). exists pv, (if b then (tl + 1)%nat else tl), l1, p. split; [|split; [done|split; [apply S1|done]]].
  unfold divide. by rewrite (bind_ret _ _ _ _ _ E1), (bind_ret _ _ _ _ _ Eb).
Qed.

(** From [t'] to [t] the elements are equal. *)
Lemma lop_loop_eq l t z : l !! t = Some z -> exists t', lop_loop t l = Done t' l /\ (t' <= t)%nat /\ forall i x, (t' <= i <= t)%nat -> l !! i = Some x -> le x z /\ le z x.
Proof.
  revert z. induction t as [|t IH]; intros z Hz; cbn [lop_loop].
  { exists 0%nat. split_and!; [done|lia|]. intros i x Hi Hx. assert (i = 0)%nat as -> by lia. assert (x = z) as -> by congruence. split; apply le_refl. }
  destruct (lookup_lt_is_Some_2 l t ltac:(apply lookup_lt_Some in Hz; lia)) as [y Hy]. destruct (compare_eq l t (S t) y z Hy Hz) as (c & Ec & _ & Hc). rewrite (bind_ret _ _ _ _ _ Ec).
  destruct (Z.eqb_spec c 0) as [H0|H0].
  - destruct (Hc H0) as [Hyz Hzy]. destruct (IH y Hy) as (t' & E & Ht & H). exists t'. split_and!; [done|lia|]. intros i x Hi Hx. destruct (decide (i = S t)) as [->|].
    + assert (x = z) as -> by congruence. split; apply le_refl.
    + destruct (H i x ltac:(lia) Hx). split; by eapply ord_trans.
  - exists (S t). split_and!; [done|lia|]. intros i x Hi Hx. assert (i = S t) as -> by lia. assert (x = z) as -> by congruence. split; apply le_refl.
Qed.

Lemma sorted_equal l : (forall x y, x ∈ l -> y ∈ l -> le x y) -> StronglySorted le l.
Proof.
  induction l as [|x l IH]; intros H; constructor; [apply IH; intros y z Hy Hz; apply H; by right|]. apply Forall_forall. intros y Hy. apply H; [by left|by right].
Qed.

(** The largest value goes to the end. *)
Lemma pivot_last_eq l p pivot n : l !! pivot = Some p -> length l = S n -> (forall x, x ∈ l -> le x p) ->
  exists l' z, (if (pivot <? n)%nat then c ← compare pivot n; if 0 <? c then exchange pivot n else mret tt else mret tt) l = Done tt l' /\ l' ≡ₚ l /\ l' !! n = Some z /\ forall x, x ∈ l' -> le x z.
Proof.
  intros Hp Hn Hall. pose proof (lookup_lt_Some _ _ _ Hp). destruct (Nat.ltb_spec pivot n) as [Hlt|Hge].
  - destruct (lookup_lt_is_Some_2 l n ltac:(lia)) as [z Hz]. destruct (compare_eq l pivot n p z Hp Hz) as (c & Ec & Hc & _). rewrite (bind_ret _ _ _ _ _ Ec). destruct (Z.ltb_spec 0 c).
    + destruct (exchange_eq l pivot n p z Hp Hz ltac:(lia)) as (l' & E & P & _ & L & _). exists l', p. split_and!; [done|done|done|]. intros x. rewrite P. apply Hall.
    + exists l, z. split_and!; [done|done|done|]. intros x Hx. eapply ord_trans; [by apply Hall|apply Hc; lia].
  - assert (pivot = n) as -> by lia. exists l, p. by split_and!.
Qed.

Lemma part_eq off len m l l' : m (take len (drop off l)) = Done tt l' -> part off len m l = Done tt (take off l ++ l' ++ drop (off + len) l).
Proof. unfold part. by intros ->. Qed.

Definition sorts (m : M (list A) unit) (l : list A) : Prop := exists l', m l = Done tt l' /\ l' ≡ₚ l /\ StronglySorted le l'.

(** Step 4. *)
Lemma sort_rest fuel l z : (forall l', (length l' < length l)%nat -> sorts (qsort fuel (length l')) l') -> l !! (length l - 1)%nat = Some z -> (forall x, x ∈ l -> le x z) ->
  sorts (tail ← lop_loop (length l - 1); if (0 <? tail)%nat then part 0 tail (qsort fuel tail) else mret tt) l.
Proof.
  intros IH Hz Hmax. destruct (lop_loop_eq l _ z Hz) as (t & E & Ht & Heq). pose proof (lookup_lt_Some _ _ _ Hz) as Hl. unfold sorts. rewrite (bind_ret _ _ _ _ _ E).
  assert (Hd : forall x, x ∈ drop t l -> le z x). { intros x [i Hi]%list_elem_of_lookup_1. rewrite lookup_drop in Hi. apply (Heq (t + i)%nat); [apply lookup_lt_Some in Hi; lia|done]. }
  assert (Hds : StronglySorted le (drop t l)).
  { apply sorted_equal. intros x y Hx Hy. eapply ord_trans; [|by apply Hd]. apply Hmax. eapply subseteq_drop in Hx; [exact Hx]. }
  destruct (Nat.ltb_spec 0 t) as [Ht0|Ht0].
  - destruct (IH (take t l)) as (s & Es & Ps & Ss); [rewrite length_take; lia|]. rewrite length_take_le in Es by lia. exists (s ++ drop t l). split_and!.
    + rewrite (part_eq 0 t _ l s); [done|]. by rewrite drop_0.
    + by rewrite Ps, take_drop.
    + apply StronglySorted_app_2; [|done|done]. intros x y Hx Hy. rewrite Ps in Hx. eapply ord_trans; [apply Hmax|by apply Hd]. by eapply subseteq_take.
  - assert (t = 0)%nat as -> by lia. exists l. split_and!; [done|done|]. by rewrite drop_0 in Hds.
Qed.

(** Step 5. *)
Lemma sort_parts fuel l p t : (forall l', (length l' < length l)%nat -> sorts (qsort fuel (length l')) l') -> (0 < t < length l)%nat ->
  (forall i x, (i < t)%nat -> l !! i = Some x -> le x p) -> (forall i x, (t <= i)%nat -> l !! i = Some x -> ~ le x p) ->
  sorts (part 0 t (qsort fuel t);; part t (length l - t) (qsort fuel (length l - t))) l.
Proof.
  intros IH Ht Hf Hb. destruct (IH (take t l)) as (s1 & E1 & P1 & S1); [rewrite length_take; lia|]. rewrite length_take_le in E1 by lia.
  destruct (IH (drop t l)) as (s2 & E2 & P2 & S2); [rewrite length_drop; lia|]. rewrite length_drop in E2.
  assert (L1 : length s1 = t) by (rewrite P1, length_take; lia). exists (s1 ++ s2). split_and!.
  - erewrite bind_ret; [|apply part_eq; rewrite drop_0; exact E1]. rewrite take_0, app_nil_l, Nat.add_0_l. rewrite (part_eq t _ _ _ s2).
    + rewrite take_app_length' by lia. rewrite drop_ge by (rewrite length_app, length_drop; lia). by rewrite app_nil_r.
    + rewrite drop_app_length' by lia. rewrite take_ge by (rewrite length_drop; lia). done.
  - by rewrite P1, P2, take_drop.
  - apply StronglySorted_app_2; [|done|done]. intros x y Hx Hy. rewrite P1 in Hx. rewrite P2 in Hy. apply elem_of_take in Hx as (i & Hi & Hit). apply list_elem_of_lookup_1 in Hy as [j Hj]. rewrite lookup_drop in Hj.
    eapply ord_trans; [by eapply (Hf i)|]. apply gt_le, (Hb (t + j)%nat); [lia|done].
Qed.

Lemma sorts_perm m l l1 : l1 ≡ₚ l -> sorts m l1 -> exists l', m l1 = Done tt l' /\ l' ≡ₚ l /\ StronglySorted le l'.
Proof. intros P (l' & E & P' & S). exists l'. split; [done|]. split; [by rewrite P'|done]. Qed.

Lemma conquer_sorts fuel l pivot p t : (forall l', (length l' < length l)%nat -> sorts (qsort fuel (length l')) l') -> l !! pivot = Some p ->
  (forall i x, (i < t)%nat -> l !! i = Some x -> le x p) -> (forall i x, (t <= i)%nat -> l !! i = Some x -> ~ le x p) -> (0 < t <= length l)%nat ->
  sorts (conquer (qsort fuel) (length l) pivot t) l.
Proof.
  intros IH Hp Hf Hb Ht. unfold conquer. destruct (Nat.eqb_spec t (length l)) as [Hall|Hpart].
  - destruct (pivot_last_eq l p pivot (length l - 1) Hp) as (l2 & z & E2 & P2 & Hz & Hmax); [lia|intros x [i Hi]%list_elem_of_lookup_1; apply (Hf i); [apply lookup_lt_Some in Hi; lia|done]|].
    assert (L2 : length l = length l2) by (by rewrite P2). unfold sorts. rewrite (bind_ret _ _ _ _ _ E2). rewrite L2 in *. apply sorts_perm; [done|]. by apply (sort_rest fuel l2 z).
  - rewrite (proj2 (Nat.ltb_lt 0 t)), (proj2 (Nat.ltb_lt t (length l))) by lia. unfold sorts. erewrite bind_ret; [|done]. by apply (sort_parts fuel l p); [|lia| |].
Qed.

Lemma sort_two_eq l : exists b l', sort_two (length l) l = Done b l' /\ l' ≡ₚ l /\ (if b then StronglySorted le l' else l' = l).
Proof.
  unfold sort_two. destruct (Nat.eqb_spec (length l) 2) as [H2|H2]; [|by exists false, l]. destruct l as [|x [|y [|? ?]]]; try done.
  destruct (compare_eq [x; y] 0 1 x y eq_refl eq_refl) as (c & Ec & Hc & _). rewrite (bind_ret _ _ _ _ _ Ec). destruct (Z.ltb_spec 0 c) as [H0|H0]; [|by exists false, [x; y]].
  exists true, [y; x]. split; [done|]. split; [apply Permutation_swap|]. repeat constructor. apply gt_le. rewrite <- Hc. lia.
Qed.

Lemma qsort_sorts fuel : forall l, (length l <= fuel)%nat -> (1 <= fuel)%nat -> sorts (qsort fuel (length l)) l.
Proof.
  induction fuel as [|fuel IH]; intros l Hl H1; [lia|]. unfold sorts. cbn [qsort]. destruct (Nat.leb_spec (length l) 1) as [Hs|Hs].
  { exists l. split_and!; [done|done|]. destruct l as [|x [|y l]]; [constructor|repeat constructor|cbn in Hs; lia]. }
  destruct (sort_two_eq l) as (b & l1 & E1 & P1 & Hb). rewrite (bind_ret _ _ _ _ _ E1). destruct b; [by exists l1|]. subst l1.
  destruct (divide_eq l Hs) as (pv & t & l2 & p & E2 & P2 & Hp & Hf & Hbk & Ht). rewrite (bind_ret _ _ _ _ _ E2).
  assert (L2 : length l = length l2) by (by rewrite P2). rewrite L2. apply sorts_perm; [done|]. apply (conquer_sorts fuel l2 pv p t); try done. intros l' Hl'. apply IH; lia.
Qed.

(** C40: for every comparison that orders its values, qsort returns - its recursion ends and its
    assertion holds - and leaves the elements of the array, all of them and each as often as
    before, in ascending order. *)
Theorem qsort_correct l : exists l', qsort (S (length l)) (length l) l = Done tt l' /\ l' ≡ₚ l /\ StronglySorted (fun x y => f x y <= 0) l'.
Proof. apply qsort_sorts; lia. Qed.
End Qsort.

Lemma sub_ordering : Ordering Z.sub.
Proof. split; lia. Qed.

Lemma qsort_correct_witness : exists l', qsort Z.sub 10 9 [5; 1; 4; 1; 5; 9; 2; 6; 5] = Done tt l' /\ l' ≡ₚ [5; 1; 4; 1; 5; 9; 2; 6; 5] /\ StronglySorted (fun x y => x - y <= 0) l'.
Proof. exact (@qsort_correct Z Z.sub sub_ordering [5; 1; 4; 1; 5; 9; 2; 6; 5]). Defined.

Example qsort_example : qsort Z.sub 9 9 [5; 1; 4; 1; 5; 9; 2; 6; 5] = Done tt [1; 1; 2; 4; 5; 5; 5; 6; 9].
Proof. reflexivity. Qed.

End Qsort.
