(* ===== verification/Malloc.v ===== *)
(** * userland/lib/libc/stdlib/malloc.c

    The heap of a user program: blocks one behind the other from [__heapbase] to [__heaptop],
    each with a header that knows the distances to the next and the previous header in units
    of eight bytes.  The state keeps the headers by address; what is written over a header
    that is no longer one takes it away.  sbrk is a parameter: it moves the break by a
    signed amount, up or down, and returns the old one, or fails.  errx ends the program: here it halts. *)
From S2P Require Import Prelude.

Module Malloc.

Definition MBLOCKSIZE : Z := 8.
Definition MBLOCKSHIFT : Z := 3.
Definition MMAGIC : Z := 2.
Definition PAGE_SIZE : Z := 4096.

(** The bit fields of [struct mheader]; [field29] is what fits the distances. *)
Record mheader := mkMh { mh_prevblock : Z; mh_pad : Z; mh_magic1 : Z; mh_nextblock : Z; mh_inuse : Z; mh_magic2 : Z }.
Definition field29 (x : Z) : Z := x mod 2 ^ 29.

Definition M_NEXTOFF (mh : mheader) : Z := u32 (Z.shiftl (mh_nextblock mh) MBLOCKSHIFT).
Definition M_PREVOFF (mh : mheader) : Z := u32 (Z.shiftl (mh_prevblock mh) MBLOCKSHIFT).
Definition M_SIZE (mh : mheader) : Z := u32 (M_NEXTOFF mh - MBLOCKSIZE).
Definition M_OK (mh : mheader) : bool := (mh_magic1 mh =? MMAGIC) && (mh_magic2 mh =? MMAGIC).
Definition M_MKFIELD (off : Z) : Z := field29 (Z.shiftr off MBLOCKSHIFT).
(** On addresses: the header and its data, the next header, the previous one. *)
Definition M_DATA (a : Z) : Z := u32 (a + MBLOCKSIZE).
Definition M_NEXT (a : Z) (mh : mheader) : Z := u32 (a + M_NEXTOFF mh).
Definition M_PREV (a : Z) (mh : mheader) : Z := u32 (a - M_PREVOFF mh).

Definition set_prev (x : Z) (h : mheader) : mheader := mkMh x (mh_pad h) (mh_magic1 h) (mh_nextblock h) (mh_inuse h) (mh_magic2 h).
Definition set_next (x : Z) (h : mheader) : mheader := mkMh (mh_prevblock h) (mh_pad h) (mh_magic1 h) x (mh_inuse h) (mh_magic2 h).
Definition set_inuse (x : Z) (h : mheader) : mheader := mkMh (mh_prevblock h) (mh_pad h) (mh_magic1 h) (mh_nextblock h) x (mh_magic2 h).

Record heap := mkHeap { heapbase : Z; heaptop : Z; brk : Z; headers : gmap Z mheader }.
Definition set_base (x : Z) (s : heap) : heap := mkHeap x (heaptop s) (brk s) (headers s).
Definition set_top (x : Z) (s : heap) : heap := mkHeap (heapbase s) x (brk s) (headers s).
Definition set_headers (x : gmap Z mheader) (s : heap) : heap := mkHeap (heapbase s) (heaptop s) (brk s) x.

Definition header (a : Z) : M heap mheader := s ← get; deref "mheader" (headers s !! a).
Definition put_header (a : Z) (h : mheader) : M heap unit := modify (fun s => set_headers (<[a := h]> (headers s)) s).
Definition errx {A} (msg : string) : M heap A := panic msg.

(** The loops that write 0xdeadbeef: no header is left where they write. *)
Definition deadbeef (ptr size : Z) : M heap unit :=
  let n := 4 * (size / 4) in
  modify (fun s => set_headers (filter (fun x => x.1 + MBLOCKSIZE <= ptr \/ ptr + n <= x.1) (headers s)) s).

Section Malloc.
(** Whether the system moves the break, by how much it is asked. *)
Context (grants : Z -> Z -> bool).

Definition MINUS_1 : Z := 2 ^ 32 - 1.
(** The amount is an [intptr_t]: an unsigned size from 2^31 on becomes a negative number. *)
Definition sbrk (amount : Z) : M heap Z := fun s =>
  let amount := i32 amount in
  if grants (brk s) amount then Done (brk s) (mkHeap (heapbase s) (heaptop s) (brk s + amount) (headers s)) else Done MINUS_1 s.

(** The three tests of the sizes hold of the constants above. *)
Definition __malloc_init : M heap unit :=
  s ← get;
  if negb (heapbase s =? 0) || negb (heaptop s =? 0) then errx "malloc: Internal error - bad init call" else
  x ← sbrk 0;
  if x =? MINUS_1 then errx "malloc: initial sbrk failed" else
  if x =? 0 then errx "malloc: Internal error - heap began at 0" else
  modify (fun s => set_base x (set_top x s));;
  if negb (x mod MBLOCKSIZE =? 0) then
    let adjust := MBLOCKSIZE - x mod MBLOCKSIZE in
    y ← sbrk adjust;
    if y =? MINUS_1 then errx "malloc: sbrk failed aligning heap base" else
    if negb (y =? x) then errx "malloc: heap base moved during init" else
    modify (fun s => set_base (u32 (x + adjust)) (set_top (u32 (x + adjust)) s))
  else mret tt.

Definition __malloc_sbrk (size : Z) : M heap Z :=
  x ← sbrk size;
  if x =? MINUS_1 then mret 0 else
  s ← get;
  if negb (x =? heaptop s) then errx "malloc: Internal error - heap top moved itself" else
  modify (fun s => set_top (u32 (heaptop s + size)) s);;
  mret x.

Definition __malloc_split (a size : Z) : M heap unit :=
  if negb (size mod MBLOCKSIZE =? 0) then errx "malloc: Internal error (size passed to split)" else
  mh ← header a;
  if u32 (M_SIZE mh - size) <? 2 * MBLOCKSIZE then mret tt else
  let mhnext := M_NEXT a mh in
  let oldsize := M_SIZE mh in
  let mh := set_next (M_MKFIELD (u32 (size + MBLOCKSIZE))) mh in
  put_header a mh;;
  let mhnew := M_NEXT a mh in
  if mhnew =? mhnext then errx "malloc: Internal error (split screwed up?)" else
  let new := mkMh (M_MKFIELD (u32 (size + MBLOCKSIZE))) 0 MMAGIC (M_MKFIELD (u32 (oldsize - size))) 0 MMAGIC in
  put_header mhnew new;;
  s ← get;
  if negb (mhnext =? heaptop s) then h ← header mhnext; put_header mhnext (set_prev (mh_nextblock new) h) else mret tt.

(** The first-fit search: the block found, or where the loop stops, the last block's distance
    and the last block. *)
Fixpoint search (fuel : nat) (size i rightprevblock mh : Z) : M heap (Z + Z * Z * Z) :=
  match fuel with
  | O => fun _ => OutOfFuel
  | S fuel =>
      s ← get;
      if i <? heaptop s then
        h ← header i;
        if negb (M_OK h) then errx "malloc: Heap corrupt; header has bad magic bits" else
        if negb (mh_prevblock h =? rightprevblock) then errx "malloc: Heap corrupt; bad previous-block size" else
        if negb (mh_inuse h =? 0) then search fuel size (u32 (i + M_NEXTOFF h)) (mh_nextblock h) i
        else if M_SIZE h <? size then search fuel size (u32 (i + M_NEXTOFF h)) (mh_nextblock h) i
        else mret (inl i)
      else mret (inr (i, rightprevblock, mh))
  end.

(** The end of [malloc], when nothing was found. *)
Definition expand (size rightprevblock mh : Z) : M heap Z :=
  free ← (if mh =? 0 then mret None else h ← header mh; mret (if mh_inuse h =? 0 then Some h else None));
  morespace ← (match free with
    | Some h => kassert "size > M_SIZE(mh)" (M_SIZE h <? size);; mret (u32 (size - M_SIZE h))
    | None => mret (u32 (MBLOCKSIZE + size))
    end);
  let morespace := u32 (PAGE_SIZE * (u32 (morespace + PAGE_SIZE - 1) / PAGE_SIZE)) in
  p ← __malloc_sbrk morespace;
  if p =? 0 then mret 0 else
  mh ← (match free with
    | Some h => put_header mh (set_inuse 1 (set_next (M_MKFIELD (u32 (M_NEXTOFF h + morespace))) h));; mret mh
    | None => put_header p (mkMh (field29 rightprevblock) 0 MMAGIC (M_MKFIELD morespace) 1 MMAGIC);; mret p
    end);
  __malloc_split mh size;;
  mret (M_DATA mh).

(** A header takes eight bytes of the heap: one turn of the search for each. *)
Definition malloc (size : Z) : M heap Z :=
  s ← get;
  (if heapbase s =? 0 then __malloc_init else mret tt);;
  s ← get;
  if (heapbase s =? 0) || (heaptop s =? 0) || (heaptop s <? heapbase s) then errx "malloc: local data corrupt" else
  let size := Z.land (u32 (size + MBLOCKSIZE - 1)) (Z.lxor (2 ^ 32 - 1) (MBLOCKSIZE - 1)) in
  r ← search (S (Z.to_nat ((heaptop s - heapbase s) / MBLOCKSIZE))) size (heapbase s) 0 0;
  match r with
  | inl mh => __malloc_split mh size;; h ← header mh; put_header mh (set_inuse 1 h);; mret (M_DATA mh)
  | inr (i, rightprevblock, mh) =>
      if negb (i =? heaptop s) then errx "malloc: Heap corrupt; ran off end" else expand size rightprevblock mh
  end.

Definition __malloc_trymerge (a b : Z) : M heap unit :=
  mh ← header a;
  mhnext ← header b;
  if negb (mh_nextblock mh =? mh_prevblock mhnext) then errx "free: Heap corrupt (inconsistent)" else
  if negb (mh_inuse mh =? 0) || negb (mh_inuse mhnext =? 0) then mret tt else
  let mhnextnext := M_NEXT b mhnext in
  let next := M_MKFIELD (u32 (MBLOCKSIZE + M_SIZE mh + MBLOCKSIZE + M_SIZE mhnext)) in
  put_header a (set_next next mh);;
  s ← get;
  (if negb (mhnextnext =? heaptop s) then h ← header mhnextnext; put_header mhnextnext (set_prev next h) else mret tt);;
  deadbeef b MBLOCKSIZE.

Definition free (x : Z) : M heap unit :=
  if x =? 0 then mret tt else
  s ← get;
  if (heapbase s =? 0) || (heaptop s =? 0) || (heaptop s <? heapbase s) then errx "free: local data corrupt" else
  if (x <? heapbase s) || (heaptop s <=? x) then errx "free: Invalid pointer freed (out of range)" else
  let a := u32 (x - MBLOCKSIZE) in
  mh ← header a;
  if negb (M_OK mh) then errx "free: Invalid pointer freed (corrupt header)" else
  if mh_inuse mh =? 0 then errx "free: Invalid pointer freed (already free)" else
  put_header a (set_inuse 0 mh);;
  deadbeef (M_DATA a) (M_SIZE mh);;
  let mhnext := M_NEXT a mh in
  (if negb (mhnext =? heaptop s) then __malloc_trymerge a mhnext else mret tt);;
  if negb (a =? heapbase s) then h ← header a; __malloc_trymerge (M_PREV a h) a else mret tt.
End Malloc.

Definition no_heap (b : Z) : heap := mkHeap 0 0 b ∅.

Example malloc_example : exists s, (p ← malloc (fun _ _ => true) 10; q ← malloc (fun _ _ => true) 100; free p;; r ← malloc (fun _ _ => true) 5; mret [p; q; r]) (no_heap 65536) = Done [65544; 65568; 65544] s.
Proof. eexists. vm_compute. reflexivity. Qed.

End Malloc.
