(* ===== verification/MallocTheorems.v ===== *)
(** * The heap of malloc as a sequence of blocks

    [tiles h a prev l top]: from [a] to [top] the headers [h] make the blocks [l], each a
    length in units of eight bytes, its header included, and whether it is in use.  The
    abstract state of the heap is the map [used] of the blocks handed out. *)
From S2P Require Import Prelude Malloc.
Import Malloc.

Module MallocProofs.

(** ** Headers *)

Definition hd (prev n : Z) (u : bool) : mheader := mkMh prev 0 MMAGIC n (if u then 1 else 0) MMAGIC.
Notation blocks := (list (Z * bool)).

Lemma nextoff_hd prev n u : 0 <= n < 2 ^ 29 -> M_NEXTOFF (hd prev n u) = 8 * n.
Proof. intros H. unfold M_NEXTOFF. cbn [mh_nextblock hd]. unfold MBLOCKSHIFT. rewrite Z.shiftl_mul_pow2 by lia. rewrite u32_small; [lia|unfold is_u32; lia]. Qed.
Lemma prevoff_hd prev n u : 0 <= prev < 2 ^ 29 -> M_PREVOFF (hd prev n u) = 8 * prev.
Proof. intros H. unfold M_PREVOFF. cbn [mh_prevblock hd]. unfold MBLOCKSHIFT. rewrite Z.shiftl_mul_pow2 by lia. rewrite u32_small; [lia|unfold is_u32; lia]. Qed.
Lemma size_hd prev n u : 1 <= n < 2 ^ 29 -> M_SIZE (hd prev n u) = 8 * n - 8.
Proof. intros H. unfold M_SIZE. rewrite nextoff_hd by lia. unfold MBLOCKSIZE. rewrite u32_small; [lia|unfold is_u32; lia]. Qed.
Lemma mkfield_eq m : 0 <= m < 2 ^ 29 -> M_MKFIELD (8 * m) = m.
Proof. intros H. unfold M_MKFIELD, field29, MBLOCKSHIFT. rewrite Z.shiftr_div_pow2 by lia. replace (8 * m / 2 ^ 3) with m by (change (2 ^ 3) with 8; rewrite Z.mul_comm, Z.div_mul; lia). apply Z.mod_small. lia. Qed.

(** ** Tilings *)

Fixpoint span (l : blocks) : Z := match l with [] => 0 | (n, _) :: l' => 8 * n + span l' end.
Fixpoint lastn (prev : Z) (l : blocks) : Z := match l with [] => prev | (n, _) :: l' => lastn n l' end.
Fixpoint tiles (h : gmap Z mheader) (a prev : Z) (l : blocks) (top : Z) : Prop :=
  match l with
  | [] => a = top
  | (n, u) :: l' => h !! a = Some (hd prev n u) /\ 1 <= n /\ tiles h (a + 8 * n) n l' top
  end.

Lemma span_app l1 l2 : span (l1 ++ l2) = span l1 + span l2.
Proof. induction l1 as [|[n u] l1 IH]; cbn; lia. Qed.
Lemma lastn_app prev l1 l2 : lastn prev (l1 ++ l2) = lastn (lastn prev l1) l2.
Proof. revert prev. induction l1 as [|[n u] l1 IH]; intros prev; cbn; [done|apply IH]. Qed.

Lemma tiles_span h a prev l top : tiles h a prev l top -> top = a + span l /\ 0 <= span l.
Proof. revert a prev. induction l as [|[n u] l IH]; intros a prev; cbn; [lia|]. intros (_ & Hn & Ht). apply IH in Ht. lia. Qed.

Lemma tiles_app h a prev l1 l2 top : tiles h a prev (l1 ++ l2) top <-> tiles h a prev l1 (a + span l1) /\ tiles h (a + span l1) (lastn prev l1) l2 top.
Proof.
  revert a prev. induction l1 as [|[n u] l1 IH]; intros a prev; cbn; [rewrite Z.add_0_r; tauto|]. rewrite IH. replace (a + (8 * n + span l1)) with (a + 8 * n + span l1) by lia. tauto.
Qed.

Lemma tiles_frame h h' a prev l top : tiles h a prev l top -> (forall x, a <= x < top -> h' !! x = h !! x) -> tiles h' a prev l top.
Proof.
  revert a prev. induction l as [|[n u] l IH]; intros a prev; cbn; [done|]. intros (H1 & H2 & H3) Hx. pose proof (tiles_span _ _ _ _ _ H3). split_and!; [rewrite Hx; [done|lia]|done|]. apply IH; [done|]. intros x Hr. apply Hx. lia.
Qed.

(** The distance to the block before the first. *)
Lemma tiles_relink h h' a prev prev' l top : tiles h a prev l top -> (a = top \/ h' !! a = set_prev prev' <$> h !! a) -> (forall x, a < x < top -> h' !! x = h !! x) -> tiles h' a prev' l top.
Proof.
  destruct l as [|[n u] l]; cbn; [done|]. intros (H1 & H2 & H3) Ha Hx. pose proof (tiles_span _ _ _ _ _ H3). destruct Ha as [Ha|Ha]; [lia|]. rewrite H1 in Ha. split_and!; [done|done|]. eapply tiles_frame; [done|]. intros x Hr. apply Hx. lia.
Qed.

(** Some blocks are replaced by others that take the same room. *)
Lemma tiles_replace h h' a prev l1 seg seg' l2 top : tiles h a prev (l1 ++ seg ++ l2) top -> let mid := a + span l1 in let e := mid + span seg in
  span seg' = span seg -> tiles h' mid (lastn prev l1) seg' e ->
  (forall x, a <= x < mid -> h' !! x = h !! x) -> (forall x, e < x < top -> h' !! x = h !! x) -> (e = top \/ h' !! e = set_prev (lastn (lastn prev l1) seg') <$> h !! e) ->
  tiles h' a prev (l1 ++ seg' ++ l2) top.
Proof.
  intros H mid e Hs Hseg Hb Ha He. apply tiles_app in H as [H1 H2]. apply tiles_app in H2 as [H2 H3]. fold mid in H1, H2, H3. fold e in H3. apply tiles_app. fold mid. split; [by eapply tiles_frame|]. apply tiles_app. rewrite Hs. fold e. split; [done|].
  eapply tiles_relink; [exact H3|done|done].
Qed.

(** ** The blocks in use *)

Fixpoint used (a : Z) (l : blocks) : gmap Z Z :=
  match l with [] => ∅ | (n, u) :: l' => (if u : bool then {[ a + 8 := 8 * n - 8 ]} else ∅) ∪ used (a + 8 * n) l' end.

Lemma used_app a l1 l2 : used a (l1 ++ l2) = used a l1 ∪ used (a + span l1) l2.
Proof.
  revert a. induction l1 as [|[n u] l1 IH]; intros a; cbn; [by rewrite map_empty_union, Z.add_0_r|]. rewrite IH, map_union_assoc. do 2 f_equal. lia.
Qed.

Definition positive (l : blocks) : Prop := Forall (fun b => 1 <= b.1) l.

Lemma tiles_positive h a prev l top : tiles h a prev l top -> positive l.
Proof. revert a prev. induction l as [|[n u] l IH]; intros a prev; cbn; [constructor|]. intros (_ & H & Ht). constructor; [done|by eapply IH]. Qed.

Lemma used_range a l p n : positive l -> used a l !! p = Some n -> a + 8 <= p /\ 0 <= n /\ p + n <= a + span l.
Proof.
  revert a. induction l as [|[m u] l IH]; intros a Hp; cbn; [done|]. apply Forall_cons in Hp as [Hm Hp]. cbn in Hm. assert (Hs : 0 <= span l) by (clear -Hp; induction Hp as [|[k v] l Hk Hl IHl]; cbn in *; lia).
  rewrite lookup_union_Some_raw. intros [H|[_ H]]; [|apply IH in H; [lia|done]]. destruct u; [|done]. apply lookup_singleton_Some in H as [<- <-]. lia.
Qed.

(** Two blocks in use are apart. *)
Lemma used_disjoint a l p q n m : positive l -> used a l !! p = Some n -> used a l !! q = Some m -> p < q -> p + n + 8 <= q.
Proof.
  revert a. induction l as [|[k u] l IH]; intros a Hp; cbn; [done|]. apply Forall_cons in Hp as [Hk Hp]. cbn in Hk. rewrite !lookup_union_Some_raw. intros [H1|[N1 H1]] [H2|[N2 H2]] Hlt.
  - destruct u; [|done]. apply lookup_singleton_Some in H1 as [<- _], H2 as [<- _]. lia.
  - destruct u; [|done]. apply lookup_singleton_Some in H1 as [<- <-]. apply used_range in H2; [lia|done].
  - destruct u; [|done]. apply lookup_singleton_Some in H2 as [<- <-]. apply used_range in H1; [lia|done].
  - by eapply IH.
Qed.

(** ** No two free blocks side by side *)

Fixpoint coalesced (after_free : bool) (l : blocks) : Prop :=
  match l with [] => True | (_, u) :: l' => (after_free = true -> u = true) /\ coalesced (negb u) l' end.
Fixpoint lastfree (b : bool) (l : blocks) : bool := match l with [] => b | (_, u) :: l' => lastfree (negb u) l' end.

Lemma coalesced_app b l1 l2 : coalesced b (l1 ++ l2) <-> coalesced b l1 /\ coalesced (lastfree b l1) l2.
Proof. revert b. induction l1 as [|[n u] l1 IH]; intros b; cbn; [tauto|]. rewrite IH. tauto. Qed.

(** ** The invariant *)

(** The last block has room for data: a pointer that was handed out is never the top. *)
Record heap_ok (s : heap) (l : blocks) : Prop := {
  hk_base : 0 < heapbase s /\ heapbase s mod 8 = 0;
  hk_top : heaptop s < 2 ^ 32 /\ heaptop s = brk s;
  hk_tiles : tiles (headers s) (heapbase s) 0 l (heaptop s);
  hk_coalesced : coalesced false l;
  hk_last : 2 <= lastn 2 l }.

(** ** Searching *)

Lemma header_eq a s h : headers s !! a = Some h -> header a s = Done h s.
Proof. intros H. unfold header. erewrite bind_ret; [|done]. by rewrite H. Qed.

Definition fits (size : Z) (b : Z * bool) : Prop := b.2 = false /\ size <= 8 * b.1 - 8.

(** The address of the last block, or [mh] when there is none. *)
Fixpoint lastaddr (a mh : Z) (l : blocks) : Z := match l with [] => mh | (n, _) :: l' => lastaddr (a + 8 * n) a l' end.

Lemma search_eq s size l : forall fuel i prev mh, tiles (headers s) i prev l (heaptop s) -> 0 <= i -> heaptop s < 2 ^ 32 -> heaptop s - i < 8 * Z.of_nat fuel ->
  exists r, search fuel size i prev mh s = Done r s /\
    match r with
    | inl a => exists l1 n l2, l = l1 ++ (n, false) :: l2 /\ a = i + span l1 /\ size <= 8 * n - 8
    | inr (j, prev', mh') => j = heaptop s /\ prev' = lastn prev l /\ mh' = lastaddr i mh l /\ Forall (fun b => ~ fits size b) l
    end.
Proof.
  induction l as [|[n u] l IH]; intros fuel i prev mh; cbn [tiles].
  - intros -> Hi Ht Hf. destruct fuel as [|fuel]; [lia|]. exists (inr (heaptop s, prev, mh)). cbn [search]. erewrite bind_ret; [|done]. rewrite (proj2 (Z.ltb_ge _ _)) by lia. split; [done|]. by split_and!.
  - intros (Hh & Hn & Ht) Hi Htop Hf. pose proof (tiles_span _ _ _ _ _ Ht) as [Hsp Hs0]. destruct fuel as [|fuel]; [lia|]. cbn [search]. erewrite bind_ret; [|done]. rewrite (proj2 (Z.ltb_lt _ _)) by lia.
    rewrite (bind_ret _ _ _ _ _ (header_eq _ _ _ Hh)). change (M_OK (hd prev n u)) with true. cbn [negb mh_prevblock mh_nextblock mh_inuse hd]. rewrite Z.eqb_refl. cbn [negb].
    rewrite nextoff_hd, size_hd by lia. rewrite u32_small by (unfold is_u32; lia).
    assert (Hrec : ~ fits size (n, u) -> exists r, search fuel size (i + 8 * n) n i s = Done r s /\
      match r with
      | inl a => exists l1 m l2, (n, u) :: l = l1 ++ (m, false) :: l2 /\ a = i + span l1 /\ size <= 8 * m - 8
      | inr (j, prev', mh') => j = heaptop s /\ prev' = lastn prev ((n, u) :: l) /\ mh' = lastaddr i mh ((n, u) :: l) /\ Forall (fun b => ~ fits size b) ((n, u) :: l)
      end).
    { intros Hno. destruct (IH fuel (i + 8 * n) n i Ht) as (r & E & Hr); [lia|done|lia|]. exists r. split; [done|]. destruct r as [a|[[j p'] m']].
      - destruct Hr as (l1 & m & l2 & -> & -> & Hsz). exists ((n, u) :: l1), m, l2. split_and!; [done|cbn; lia|done].
      - destruct Hr as (-> & -> & -> & Hall). split_and!; [done|done|done|by constructor]. }
    destruct u; cbn [Z.eqb negb]; [apply Hrec; by intros [? _]|]. destruct (Z.ltb_spec (8 * n - 8) size) as [Hsmall|Hbig]; [apply Hrec; intros [_ H]; cbn in H; lia|].
    exists (inl i). split; [done|]. exists [], n, l. split_and!; [done|cbn; lia|done].
Qed.

(** ** Splitting *)

Definition cut (n : Z) (u : bool) (k : Z) : blocks := if n - 1 - k <? 2 then [(n, u)] else [(k + 1, u); (n - 1 - k, false)].

Lemma span_cut n u k : span (cut n u k) = 8 * n.
Proof. unfold cut. destruct (n - 1 - k <? 2); cbn; lia. Qed.

Definition same_place (s s' : heap) : Prop := heapbase s' = heapbase s /\ heaptop s' = heaptop s /\ brk s' = brk s.

Lemma malloc_split_eq s l1 n u l2 k : tiles (headers s) (heapbase s) 0 (l1 ++ [(n, u)] ++ l2) (heaptop s) -> 0 < heapbase s -> heaptop s < 2 ^ 32 -> 0 <= k <= n - 1 ->
  exists s', __malloc_split (heapbase s + span l1) (8 * k) s = Done tt s' /\ same_place s s' /\ tiles (headers s') (heapbase s) 0 (l1 ++ cut n u k ++ l2) (heaptop s).
Proof.
  intros Ht Hb Htop Hk. pose proof Ht as Ht0. apply tiles_app in Ht as [Ht1 Ht]. cbn [app tiles] in Ht. destruct Ht as (Hh & Hn & Ht2). pose proof (tiles_span _ _ _ _ _ Ht1) as [_ Hs1]. pose proof (tiles_span _ _ _ _ _ Ht2) as [Hs2 Hs2'].
  set (a := heapbase s + span l1) in *. unfold __malloc_split. replace (8 * k mod MBLOCKSIZE) with 0 by (unfold MBLOCKSIZE; rewrite Z.mul_comm, Z.mod_mul; lia). cbn [Z.eqb negb].
  rewrite (bind_ret _ _ _ _ _ (header_eq _ _ _ Hh)). rewrite size_hd by lia. rewrite (u32_small (8 * n - 8 - 8 * k)) by (unfold is_u32; lia). unfold cut, MBLOCKSIZE.
  destruct (Z.ltb_spec (8 * n - 8 - 8 * k) (2 * 8)) as [Hno|Hyes].
  { exists s. rewrite (proj2 (Z.ltb_lt (n - 1 - k) 2)) by lia. split; [done|]. by split. }
  rewrite (proj2 (Z.ltb_ge (n - 1 - k) 2)) by lia. set (pv := lastn 0 l1) in *.
  assert (F1 : M_MKFIELD (u32 (8 * k + 8)) = k + 1) by (rewrite u32_small by (unfold is_u32; lia); replace (8 * k + 8) with (8 * (k + 1)) by lia; apply mkfield_eq; lia).
  assert (F2 : M_MKFIELD (8 * n - 8 - 8 * k) = n - 1 - k) by (replace (8 * n - 8 - 8 * k) with (8 * (n - 1 - k)) by lia; apply mkfield_eq; lia).
  cbv zeta. rewrite ?size_hd by lia. rewrite F1, F2. change (set_next (k + 1) (hd pv n u)) with (hd pv (k + 1) u). unfold M_NEXT. rewrite !nextoff_hd by lia. rewrite (u32_small (a + 8 * n)), (u32_small (a + 8 * (k + 1))) by (unfold is_u32; lia).
  erewrite bind_ret; [|done]. rewrite (proj2 (Z.eqb_neq _ _)) by lia. erewrite bind_ret; [|done]. erewrite bind_ret; [|done]. cbn [set_headers heaptop headers].
  set (h2 := <[a + 8 * (k + 1) := mkMh (k + 1) 0 MMAGIC (n - 1 - k) 0 MMAGIC]> (<[a := hd pv (k + 1) u]> (headers s))).
  assert (Hseg : forall h', h' !! a = h2 !! a -> h' !! (a + 8 * (k + 1)) = h2 !! (a + 8 * (k + 1)) -> tiles h' a pv [(k + 1, u); (n - 1 - k, false)] (a + 8 * n)).
  { intros h' E1 E2. cbn. rewrite E1, E2. unfold h2. rewrite lookup_insert_ne, lookup_insert_eq by lia. rewrite lookup_insert_eq. split_and!; [done|lia|done|lia|lia]. }
  assert (Hout : forall x, x < a \/ a + 8 * n <= x -> h2 !! x = headers s !! x) by (intros x Hx; unfold h2; by rewrite !lookup_insert_ne by lia).
  destruct (Z.eqb_spec (a + 8 * n) (heaptop s)) as [Hend|Hend]; cbn [negb].
  - eexists. split; [done|]. split; [done|]. cbn. apply (tiles_replace (headers s) h2 _ _ l1 [(n, u)] [(k + 1, u); (n - 1 - k, false)] l2 _ Ht0); fold a; fold pv; [cbn; lia|cbn [span]; rewrite Z.add_0_r; by apply Hseg| | |left; cbn; lia].
    + intros x Hx. apply Hout. lia. + intros x Hx. cbn in Hx. apply Hout. lia.
  - destruct l2 as [|[m v] l2]; [cbn in Hs2; lia|]. cbn [tiles] in Ht2. destruct Ht2 as (Hh2 & Hm & Ht3). erewrite bind_ret; [|apply header_eq; cbn; rewrite Hout by lia; exact Hh2].
    eexists. split; [done|]. split; [done|]. cbn [set_headers headers]. apply (tiles_replace (headers s) _ _ _ l1 [(n, u)] [(k + 1, u); (n - 1 - k, false)] ((m, v) :: l2) _ Ht0); fold a; fold pv; cbn [span lastn]; rewrite ?Z.add_0_r; [lia| | | |].
    + apply Hseg; by rewrite lookup_insert_ne by lia.
    + intros x Hx. rewrite lookup_insert_ne by lia. apply Hout. lia.
    + intros x Hx. rewrite lookup_insert_ne by lia. apply Hout. lia.
    + right. rewrite lookup_insert_eq, Hh2. done.
Qed.

Lemma tiles_mark s l1 n u u' l2 : tiles (headers s) (heapbase s) 0 (l1 ++ [(n, u)] ++ l2) (heaptop s) -> let a := heapbase s + span l1 in
  headers s !! a = Some (hd (lastn 0 l1) n u) /\ tiles (<[a := hd (lastn 0 l1) n u']> (headers s)) (heapbase s) 0 (l1 ++ [(n, u')] ++ l2) (heaptop s).
Proof.
  intros Ht a. pose proof Ht as Ht0. apply tiles_app in Ht as [Ht1 Ht]. cbn [app tiles] in Ht. destruct Ht as (Hh & Hn & Ht2). pose proof (tiles_span _ _ _ _ _ Ht2) as [Hs2 Hs2']. fold a in Hh, Ht2, Hs2. split; [done|].
  apply (tiles_replace (headers s) _ _ _ l1 [(n, u)] [(n, u')] l2 _ Ht0); fold a; cbn [span lastn tiles]; rewrite ?Z.add_0_r; [done|by rewrite lookup_insert_eq|intros x Hx; by rewrite lookup_insert_ne by lia|intros x Hx; by rewrite lookup_insert_ne by lia|].
  destruct l2 as [|[m v] l2]; [left; cbn in Hs2; lia|right]. cbn [tiles] in Ht2. destruct Ht2 as (Hh2 & _). rewrite lookup_insert_ne by lia. by rewrite Hh2.
Qed.

(** Taking a block of [k] units and its header. *)
Lemma take_block_eq s l1 n l2 k : tiles (headers s) (heapbase s) 0 (l1 ++ [(n, false)] ++ l2) (heaptop s) -> 0 < heapbase s -> heaptop s < 2 ^ 32 -> 0 <= k <= n - 1 ->
  let a := heapbase s + span l1 in
  exists s', (__malloc_split a (8 * k);; h ← header a; put_header a (set_inuse 1 h);; mret (M_DATA a)) s = Done (a + 8) s' /\ same_place s s' /\
    tiles (headers s') (heapbase s) 0 (l1 ++ cut n true k ++ l2) (heaptop s).
Proof.
  intros Ht Hb Htop Hk a. destruct (malloc_split_eq s l1 n false l2 k Ht Hb Htop Hk) as (s1 & E1 & (P1 & P2 & P3) & T1). fold a in E1. rewrite (bind_ret _ _ _ _ _ E1).
  assert (Ha : 0 <= a /\ a + 8 <= heaptop s). { apply tiles_app in Ht as [Ht1 Ht]. cbn [app tiles] in Ht. destruct Ht as (_ & Hn & Ht2). fold a in Ht2. apply tiles_span in Ht1, Ht2. unfold a in *. lia. }
  assert (Hcut : exists m r, cut n false k = [(m, false)] ++ r /\ cut n true k = [(m, true)] ++ r) by (unfold cut; destruct (n - 1 - k <? 2); eauto).
  destruct Hcut as (m & r & C1 & C2). rewrite C1, <- app_assoc in T1. rewrite C2, <- app_assoc. rewrite <- P1, <- P2 in T1. destruct (tiles_mark s1 l1 m false true (r ++ l2) T1) as [Hh T2]. rewrite P1 in Hh. fold a in Hh.
  rewrite (bind_ret _ _ _ _ _ (header_eq _ _ _ Hh)). erewrite bind_ret; [|done]. eexists. split; [cbn; unfold M_DATA, MBLOCKSIZE; rewrite u32_small by (unfold is_u32; lia); reflexivity|].
  split; [by split_and!|]. cbn. rewrite P1, P2 in T2. fold a in T2. exact T2.
Qed.

(** ** Growing *)

Lemma round_page x : 0 < x -> x + 4095 < 2 ^ 32 -> exists q, u32 (PAGE_SIZE * (u32 (x + PAGE_SIZE - 1) / PAGE_SIZE)) = 8 * q /\ x <= 8 * q < x + 4096 /\ 2 <= q.
Proof.
  intros H0 H1. unfold PAGE_SIZE. rewrite (u32_small (x + 4096 - 1)) by (unfold is_u32; lia). pose proof (Z.div_mod (x + 4096 - 1) 4096 ltac:(lia)). pose proof (Z.mod_pos_bound (x + 4096 - 1) 4096 ltac:(lia)).
  exists (512 * ((x + 4096 - 1) / 4096)). rewrite u32_small by (unfold is_u32; lia). lia.
Qed.

Lemma lastaddr_snoc a mh l n u : lastaddr a mh (l ++ [(n, u)]) = a + span l.
Proof. revert a mh. induction l as [|[m v] l IH]; intros a mh; cbn; [lia|]. rewrite IH. lia. Qed.

Section Grow.
Context (grants : Z -> Z -> bool).
(** The break stays below the end of the address space, and -1 is no break. *)
Class SbrkLaws : Prop := sbrk_bounded : forall b n, grants b n = true -> 0 <= b -> 0 <= n -> b + n < 2 ^ 32 - 1.
Context {HS : SbrkLaws}.

Lemma malloc_sbrk_eq s n : heaptop s = brk s -> 0 < heaptop s -> 0 <= n < 2 ^ 31 ->
  (exists s', __malloc_sbrk grants n s = Done (heaptop s) s' /\ s' = mkHeap (heapbase s) (heaptop s + n) (brk s + n) (headers s) /\ heaptop s + n < 2 ^ 32 - 1) \/
  __malloc_sbrk grants n s = Done 0 s.
Proof.
  intros Ht H0 Hn. unfold __malloc_sbrk, sbrk. rewrite (i32_small n) by lia. destruct (grants (brk s) n) eqn:Eg.
  - left. pose proof (sbrk_bounded _ _ Eg ltac:(lia) ltac:(lia)). erewrite bind_ret; [|by rewrite Eg]. rewrite (proj2 (Z.eqb_neq _ _)) by (unfold MINUS_1; lia). erewrite bind_ret; [|done]. cbn [heaptop]. rewrite Ht, Z.eqb_refl. cbn [negb].
    erewrite bind_ret; [|done]. eexists. split; [done|]. split; [|lia]. unfold set_top. cbn. rewrite ?Ht, u32_small by (unfold is_u32; lia). done.
  - right. erewrite bind_ret; [|by rewrite Eg]. done.
Qed.

(** The end of [expand]: the block at the top is large enough and in use. *)
Lemma expand_split s l1 n k : tiles (headers s) (heapbase s) 0 (l1 ++ [(n, true)]) (heaptop s) -> 0 < heapbase s -> heaptop s < 2 ^ 32 -> 0 <= k <= n - 1 -> let a := heapbase s + span l1 in
  exists s', (__malloc_split a (8 * k);; mret (M_DATA a)) s = Done (a + 8) s' /\ same_place s s' /\ tiles (headers s') (heapbase s) 0 (l1 ++ cut n true k) (heaptop s).
Proof.
  intros Ht Hb Htop Hk a. destruct (malloc_split_eq s l1 n true [] k Ht Hb Htop Hk) as (s' & E & P & T). fold a in E. rewrite (bind_ret _ _ _ _ _ E). rewrite app_nil_r in T. exists s'. split; [|done].
  apply tiles_app in Ht as [Ht1 Ht]. cbn [tiles] in Ht. destruct Ht as (_ & Hn & Ht). fold a in Ht. apply tiles_span in Ht1. cbn. unfold M_DATA, MBLOCKSIZE. rewrite u32_small; [done|]. unfold is_u32, a in *. lia.
Qed.

(** What growing leaves: the last block, if it was free, has grown; else there is one more. *)
Definition grown (l : blocks) (base p k : Z) (l' : blocks) : Prop :=
  (exists l1 n q, l = l1 ++ [(n, false)] /\ p = base + span l1 + 8 /\ k <= q - 1 /\ 2 <= q /\ l' = l1 ++ cut q true k) \/
  lastfree false l = false /\ p = base + span l + 8 /\ exists q, k <= q - 1 /\ 2 <= q /\ l' = l ++ cut q true k.

(** The heap has grown, or there is no more memory and nothing has changed. *)
Definition expanded (s : heap) (l : blocks) (k : Z) : Prop :=
  expand grants (8 * k) (lastn 0 l) (lastaddr (heapbase s) 0 l) s = Done 0 s \/
  exists s' p l', expand grants (8 * k) (lastn 0 l) (lastaddr (heapbase s) 0 l) s = Done p s' /\ grown l (heapbase s) p k l' /\
    heapbase s' = heapbase s /\ heaptop s' = brk s' /\ heaptop s' < 2 ^ 32 /\ tiles (headers s') (heapbase s) 0 l' (heaptop s').

Lemma lastn_bound h a prev l top : tiles h a prev l top -> 0 <= a -> top < 2 ^ 32 -> 0 <= prev < 2 ^ 29 -> 0 <= lastn prev l < 2 ^ 29.
Proof.
  revert a prev. induction l as [|[m v] l IH]; intros a prev; cbn; [done|]. intros (_ & Hm & Ht) Ha Hto _. pose proof (tiles_span _ _ _ _ _ Ht). eapply IH; [exact Ht|lia|lia|lia].
Qed.

(** The last block is in use, or there is none. *)
Lemma expand_new s l k : heap_ok s l -> 0 <= k -> 8 * k + 8 + 4095 < 2 ^ 31 -> lastfree false l = false ->
  (if lastaddr (heapbase s) 0 l =? 0 then mret None else h ← header (lastaddr (heapbase s) 0 l); mret (if mh_inuse h =? 0 then Some h else None)) s = Done None s -> expanded s l k.
Proof.
  intros [[Hb _] [Htop Hbrk] Ht _ _] Hk Hbig Hlf Ef. pose proof (tiles_span _ _ _ _ _ Ht) as [Hsp Hsp0]. unfold expanded, expand. rewrite (bind_ret _ _ _ _ _ Ef). erewrite bind_ret; [|done]. unfold MBLOCKSIZE. rewrite (u32_small (8 + 8 * k)) by (unfold is_u32; lia).
  destruct (round_page (8 + 8 * k)) as (q & Eq & Hq & Hq0); [lia|lia|]. cbv zeta. rewrite Eq. destruct (malloc_sbrk_eq s (8 * q)) as [(s1 & E1 & -> & Hlt)|E1]; [done|lia|lia| |left; by rewrite (bind_ret _ _ _ _ _ E1)].
  right. rewrite (bind_ret _ _ _ _ _ E1). rewrite (proj2 (Z.eqb_neq _ 0)) by lia. erewrite bind_ret; [|done]. set (s2 := set_headers _ _).
  pose proof (lastn_bound _ _ _ _ _ Ht ltac:(lia) ltac:(lia) ltac:(lia)) as Hln.
  assert (T2 : tiles (headers s2) (heapbase s2) 0 (l ++ [(q, true)]) (heaptop s2)).
  { apply tiles_app. cbn [headers heapbase heaptop set_headers s2]. rewrite <- Hsp. split; [eapply tiles_frame; [exact Ht|intros x Hx; by rewrite lookup_insert_ne by lia]|]. cbn [tiles]. rewrite lookup_insert_eq, mkfield_eq by lia.
    unfold field29. rewrite Z.mod_small by lia. split_and!; [done|lia|lia]. }
  destruct (expand_split s2 l q k T2) as (s3 & E3 & (P1 & P2 & P3) & T3); [done|cbn; lia|lia|]. cbn [heapbase heaptop s2 set_headers] in E3, T3, P1, P2, P3. rewrite <- Hsp in E3.
  exists s3, (heaptop s + 8), (l ++ cut q true k). split; [exact E3|]. split; [right; split; [done|]; split; [lia|]; exists q; split_and!; [lia|lia|done]|]. rewrite P1, P2, P3. split_and!; [done|cbn; lia|lia|exact T3].
Qed.

(** The last block is free and too small. *)
Lemma expand_last s l n k : heap_ok s (l ++ [(n, false)]) -> 0 <= k -> 8 * k + 8 + 4095 < 2 ^ 31 -> 8 * n - 8 < 8 * k -> expanded s (l ++ [(n, false)]) k.
Proof.
  intros [[Hb _] [Htop Hbrk] Ht _ _] Hk Hbig Hsm. pose proof (tiles_span _ _ _ _ _ Ht) as [Hsp Hsp0]. pose proof Ht as Ht0. apply tiles_app in Ht as [Ht1 Ht]. cbn [tiles] in Ht. destruct Ht as (Hh & Hn & Ht). pose proof (tiles_span _ _ _ _ _ Ht1) as [_ Hs1].
  unfold expanded. rewrite lastaddr_snoc. set (a := heapbase s + span l) in *. unfold expand. erewrite bind_ret; [|rewrite (proj2 (Z.eqb_neq a 0)) by lia; rewrite (bind_ret _ _ _ _ _ (header_eq _ _ _ Hh)); reflexivity]. cbn [mh_inuse hd Z.eqb].
  rewrite size_hd by lia. erewrite bind_ret; [|rewrite (proj2 (Z.ltb_lt _ _)) by lia; reflexivity]. rewrite (u32_small (8 * k - (8 * n - 8))) by (unfold is_u32; lia).
  destruct (round_page (8 * k - (8 * n - 8))) as (q & Eq & Hq & Hq0); [lia|lia|]. cbv zeta. rewrite Eq. destruct (malloc_sbrk_eq s (8 * q)) as [(s1 & E1 & -> & Hlt)|E1]; [done|lia|lia| |left; by rewrite (bind_ret _ _ _ _ _ E1)].
  right. rewrite (bind_ret _ _ _ _ _ E1). rewrite (proj2 (Z.eqb_neq _ 0)) by lia. rewrite nextoff_hd by lia. rewrite (u32_small (8 * n + 8 * q)) by (unfold is_u32; lia). replace (8 * n + 8 * q) with (8 * (n + q)) by lia. rewrite mkfield_eq by lia.
  erewrite bind_ret; [|done]. set (s2 := set_headers _ _).
  assert (T2 : tiles (headers s2) (heapbase s2) 0 (l ++ [(n + q, true)]) (heaptop s2)).
  { apply tiles_app. cbn [headers heapbase heaptop set_headers s2]. fold a. split; [eapply tiles_frame; [exact Ht1|intros x Hx; by rewrite lookup_insert_ne by lia]|]. cbn [tiles]. rewrite lookup_insert_eq. split_and!; [done|lia|lia]. }
  destruct (expand_split s2 l (n + q) k T2) as (s3 & E3 & (P1 & P2 & P3) & T3); [done|cbn; lia|lia|]. cbn [heapbase heaptop s2 set_headers] in E3, T3, P1, P2, P3. fold a in E3.
  exists s3, (a + 8), (l ++ cut (n + q) true k). split; [exact E3|]. split; [left; exists l, n, (n + q); split_and!; [done|done|lia|lia|done]|]. rewrite P1, P2, P3. split_and!; [done|cbn; lia|lia|exact T3].
Qed.

Lemma lastfree_snoc b l n u : lastfree b (l ++ [(n, u)]) = negb u.
Proof. revert b. induction l as [|[m v] l IH]; intros b; cbn; [done|apply IH]. Qed.

Lemma expand_eq s l k : heap_ok s l -> 0 <= k -> 8 * k + 8 + 4095 < 2 ^ 31 -> Forall (fun b => ~ fits (8 * k) b) l -> expanded s l k.
Proof.
  intros H Hk Hbig Hno. destruct l as [|[n u] l _] using rev_ind; [by apply expand_new|]. destruct u.
  - apply expand_new; [done|done|done|by rewrite lastfree_snoc|]. rewrite lastaddr_snoc. pose proof (hk_tiles _ _ H) as Ht. pose proof (proj1 (hk_base _ _ H)). apply tiles_app in Ht as [Ht1 Ht]. cbn [tiles] in Ht. destruct Ht as (Hh & _).
    apply tiles_span in Ht1. rewrite (proj2 (Z.eqb_neq _ 0)) by lia. by rewrite (bind_ret _ _ _ _ _ (header_eq _ _ _ Hh)).
  - apply expand_last; [done|done|done|]. apply Forall_app in Hno as [_ Hno]. apply Forall_cons in Hno as [Hno _]. unfold fits in Hno. cbn in Hno. lia.
Qed.

(** ** malloc *)

Lemma round_block x : 0 <= x < 2 ^ 32 -> Z.land x (Z.lxor (2 ^ 32 - 1) (MBLOCKSIZE - 1)) = 8 * (x / 8).
Proof.
  intros Hx. change (Z.lxor (2 ^ 32 - 1) (MBLOCKSIZE - 1)) with (Z.shiftl (Z.ones 29) 3). replace (8 * (x / 8)) with (Z.shiftl (Z.shiftr x 3) 3) by (rewrite Z.shiftl_mul_pow2, Z.shiftr_div_pow2 by lia; change (2 ^ 3) with 8; lia).
  apply Z.bits_inj'. intros i Hi. rewrite Z.land_spec. destruct (Z.lt_ge_cases i 3); [rewrite !Z.shiftl_spec_low by lia; by rewrite andb_false_r|].
  rewrite !Z.shiftl_spec, Z.shiftr_spec by lia. replace (i - 3 + 3) with i by lia. destruct (Z.lt_ge_cases i 32).
  - rewrite Z.ones_spec_low by lia. apply andb_true_r.
  - rewrite Z.ones_spec_high by lia. rewrite andb_false_r. symmetry. by apply (testbit_above x 32).
Qed.

Lemma coalesced_weaken b l : coalesced true l -> coalesced b l.
Proof. destruct l as [|[n u] l]; cbn; [done|]. intros [H1 H2]. split; [auto|done]. Qed.

Lemma coalesced_cut n k l b : coalesced true l -> coalesced b (cut n true k ++ l).
Proof. intros H. unfold cut. destruct (n - 1 - k <? 2); cbn; [split; [done|by apply coalesced_weaken]|by split_and!]. Qed.

Lemma used_cut a n k : k <= n - 1 -> exists m, 8 * k <= m /\ used a (cut n true k) = {[ a + 8 := m ]}.
Proof.
  intros Hk. unfold cut. destruct (n - 1 - k <? 2); cbn; [exists (8 * n - 8)|exists (8 * k)]; (split; [lia|]); rewrite ?map_empty_union, map_union_empty; [done|]. do 2 f_equal. lia.
Qed.

Lemma lastn_cut d n u k : 2 <= n -> 2 <= lastn d (cut n u k).
Proof. intros Hn. unfold cut. destruct (Z.ltb_spec (n - 1 - k) 2); cbn; lia. Qed.
Lemma last_cut l1 n u l2 k : 2 <= lastn 2 (l1 ++ (n, u) :: l2) -> 2 <= lastn 2 (l1 ++ cut n true k ++ l2).
Proof. rewrite !lastn_app. destruct l2 as [|[m v] l2]; cbn; [|done]. intros H. by apply lastn_cut. Qed.

(** One block more in use. *)
Lemma used_more base l1 n l2 l2' k : positive l1 -> positive l2' -> 0 <= k <= n - 1 -> let mid := base + span l1 in used mid l2 = used (mid + 8 * n) l2' ->
  exists m, 8 * k <= m /\ used base (l1 ++ l2) !! (mid + 8) = None /\ used base (l1 ++ cut n true k ++ l2') = <[mid + 8 := m]> (used base (l1 ++ l2)).
Proof.
  intros Hp1 Hp2 Hk mid E. destruct (used_cut mid n k ltac:(lia)) as (m & Hm & Ec). exists m. split; [done|]. rewrite !used_app. fold mid. rewrite Ec, span_cut, E.
  assert (N1 : used base l1 !! (mid + 8) = None) by (destruct (used base l1 !! (mid + 8)) as [x|] eqn:Ex; [|done]; apply used_range in Ex; [unfold mid in *; lia|done]).
  assert (N2 : used (mid + 8 * n) l2' !! (mid + 8) = None) by (destruct (used (mid + 8 * n) l2' !! (mid + 8)) as [x|] eqn:Ex; [|done]; apply used_range in Ex; [lia|done]).
  split; [apply lookup_union_None; by split|]. rewrite <- insert_union_singleton_l. symmetry. by apply insert_union_r.
Qed.

Definition size_ok (size : Z) : Prop := 0 <= size <= 2 ^ 31 - 2 ^ 13.

(** What malloc does to a heap. *)
Definition malloced (s : heap) (l : blocks) (size : Z) (p : Z) (s' : heap) : Prop := exists l', heap_ok s' l' /\ heapbase s' = heapbase s /\
  (p = 0 /\ l' = l \/ exists n, p <> 0 /\ size <= n /\ used (heapbase s) l !! p = None /\ used (heapbase s) l' = <[p := n]> (used (heapbase s) l)).

Lemma malloc_eq s l size : heap_ok s l -> size_ok size -> exists p s', malloc grants size s = Done p s' /\ malloced s l size p s'.
Proof.
  intros H Hsz. pose proof H as [[Hb Hmod] [Htop Hbrk] Ht Hco Hla]. pose proof (tiles_span _ _ _ _ _ Ht) as [Hsp Hsp0]. pose proof (tiles_positive _ _ _ _ _ Ht) as Hpos. unfold size_ok in Hsz.
  unfold malloc. erewrite bind_ret; [|done]. rewrite (proj2 (Z.eqb_neq _ 0)) by lia. erewrite bind_ret; [|done]. erewrite bind_ret; [|done]. rewrite (proj2 (Z.eqb_neq (heapbase s) 0)), (proj2 (Z.eqb_neq (heaptop s) 0)), (proj2 (Z.ltb_ge _ _)) by lia. cbn [orb].
  rewrite u32_small by (unfold is_u32, MBLOCKSIZE; lia). rewrite round_block by (unfold MBLOCKSIZE; lia). unfold MBLOCKSIZE. set (k := (size + 8 - 1) / 8). assert (Hk : size <= 8 * k <= size + 7) by (unfold k; pose proof (Z.div_mod (size + 8 - 1) 8 ltac:(lia)); pose proof (Z.mod_pos_bound (size + 8 - 1) 8 ltac:(lia)); lia).
  cbv zeta. destruct (search_eq s (8 * k) l (S (Z.to_nat ((heaptop s - heapbase s) / 8))) (heapbase s) 0 0 Ht) as (r & Er & Hr); [lia|done| |].
  { pose proof (Z.div_mod (heaptop s - heapbase s) 8 ltac:(lia)). pose proof (Z.mod_pos_bound (heaptop s - heapbase s) 8 ltac:(lia)). lia. }
  rewrite (bind_ret _ _ _ _ _ Er). destruct r as [a|[[j prev] mh]].
  - destruct Hr as (l1 & n & l2 & -> & -> & Hn). destruct (take_block_eq s l1 n l2 k Ht Hb Htop ltac:(lia)) as (s' & E & (P1 & P2 & P3) & T). exists (heapbase s + span l1 + 8), s'. split; [exact E|].
    apply coalesced_app in Hco as [Hc1 Hc2]. cbn in Hc2. destruct Hc2 as [Hc2 Hc3]. apply Forall_app in Hpos as [Hp1 Hp2]. apply Forall_cons in Hp2 as [Hpn Hp2].
    exists (l1 ++ cut n true k ++ l2). split; [|split; [done|right]].
    + split; rewrite ?P1, ?P2, ?P3; [by split|by split|exact T| |by eapply last_cut]. apply coalesced_app. split; [done|by apply coalesced_cut].
    + destruct (used_more (heapbase s) l1 n ((n, false) :: l2) l2 k Hp1 Hp2 ltac:(lia)) as (m & Hm & N & E'); [cbn; by rewrite map_empty_union|]. exists m. apply tiles_app in Ht as [Ht1 _]. apply tiles_span in Ht1. split_and!; [lia|lia|done|done].
  - destruct Hr as (-> & -> & -> & Hno). rewrite Z.eqb_refl. cbn [negb]. destruct (expand_eq s l k H) as [E|(s' & p & l' & E & Hg & P1 & P2 & P3 & T)]; [lia|lia|done| |].
    + exists 0, s. split; [exact E|]. exists l. split; [done|]. split; [done|by left].
    + exists p, s'. split; [exact E|]. exists l'. assert (Hl' : (coalesced false l' /\ 2 <= lastn 2 l') /\ exists n, p <> 0 /\ size <= n /\ used (heapbase s) l !! p = None /\ used (heapbase s) l' = <[p := n]> (used (heapbase s) l)).
      { destruct Hg as [(l1 & n & q & -> & -> & Hq & Hq2 & ->)|(Hlf & -> & q & Hq & Hq2 & ->)].
        - apply coalesced_app in Hco as [Hc1 _]. apply Forall_app in Hpos as [Hp1 _]. apply tiles_app in Ht as [Ht1 _]. apply tiles_span in Ht1. split; [split; [apply coalesced_app; split; [done|]; rewrite <- (app_nil_r (cut _ _ _)); by apply coalesced_cut|rewrite lastn_app; by apply lastn_cut]|].
          destruct (used_more (heapbase s) l1 q [(n, false)] [] k Hp1) as (m & Hm & N & E'); [constructor|lia|cbn; by rewrite map_empty_union|]. rewrite app_nil_r in E'. exists m. split_and!; [lia|lia|done|done].
        - split; [split; [apply coalesced_app; split; [done|]; rewrite <- (app_nil_r (cut _ _ _)); by apply coalesced_cut|rewrite lastn_app; by apply lastn_cut]|].
          destruct (used_more (heapbase s) l q [] [] k Hpos) as (m & Hm & N & E'); [constructor|lia|done|]. rewrite !app_nil_r in E'. rewrite app_nil_r in N. exists m. split_and!; [lia|lia|done|done]. }
      destruct Hl' as [[Hc' Hl'] Hu]. split; [split; [by rewrite P1|by split|by rewrite P1|done|done]|]. split; [done|by right].
Qed.
End Grow.

(** ** free *)

Lemma used_split a l x n : positive l -> used a l !! x = Some n -> exists l1 m l2, l = l1 ++ [(m, true)] ++ l2 /\ x = a + span l1 + 8 /\ n = 8 * m - 8.
Proof.
  revert a. induction l as [|[m u] l IH]; intros a Hp; cbn; [done|]. apply Forall_cons in Hp as [Hm Hp]. rewrite lookup_union_Some_raw. intros [H|[_ H]].
  - destruct u; [|done]. apply lookup_singleton_Some in H as [<- <-]. exists [], m, l. split_and!; [done|cbn; lia|done].
  - destruct (IH _ Hp H) as (l1 & m' & l2 & -> & -> & ->). exists ((m, u) :: l1), m', l2. split_and!; [done|cbn; lia|done].
Qed.

Lemma deadbeef_eq p n s : exists s', deadbeef p (8 * n) s = Done tt s' /\ same_place s s' /\ forall x, x + 8 <= p \/ p + 8 * n <= x -> headers s' !! x = headers s !! x.
Proof.
  unfold deadbeef. eexists. split; [done|]. split; [done|]. intros x Hx. cbn. rewrite map_lookup_filter. destruct (headers s !! x) as [h|]; cbn; [|done].
  rewrite option_guard_True; [done|]. cbn. unfold MBLOCKSIZE. replace (8 * n) with (2 * n * 4) by lia. rewrite Z.div_mul by lia. lia.
Qed.

(** Two blocks side by side become one when both are free. *)
Definition merge (n : Z) (u : bool) (m : Z) (v : bool) : blocks := if u || v then [(n, u); (m, v)] else [(n + m, false)].

Lemma trymerge_eq s l1 n u m v l2 : tiles (headers s) (heapbase s) 0 (l1 ++ [(n, u); (m, v)] ++ l2) (heaptop s) -> 0 < heapbase s -> heaptop s < 2 ^ 32 -> let a := heapbase s + span l1 in
  exists s', __malloc_trymerge a (a + 8 * n) s = Done tt s' /\ same_place s s' /\ tiles (headers s') (heapbase s) 0 (l1 ++ merge n u m v ++ l2) (heaptop s).
Proof.
  intros Ht Hb Htop a. pose proof Ht as Ht0. apply tiles_app in Ht as [Ht1 Ht]. cbn [app tiles] in Ht. destruct Ht as (Hh1 & Hn & Hh2 & Hm & Ht2). fold a in Hh1, Hh2, Ht2. pose proof (tiles_span _ _ _ _ _ Ht1) as [_ Hs1]. pose proof (tiles_span _ _ _ _ _ Ht2) as [Hs2 Hs2']. assert (Ha : heapbase s <= a) by (unfold a; lia). set (pv := lastn 0 l1) in *.
  unfold __malloc_trymerge. rewrite (bind_ret _ _ _ _ _ (header_eq _ _ _ Hh1)), (bind_ret _ _ _ _ _ (header_eq _ _ _ Hh2)). cbn [mh_nextblock mh_prevblock mh_inuse hd]. rewrite Z.eqb_refl. cbn [negb]. unfold merge.
  destruct u; [exists s; by split_and!|]. destruct v; [exists s; by split_and!|]. cbn [Z.eqb negb orb]. cbv zeta. rewrite !size_hd by lia. unfold M_NEXT, MBLOCKSIZE. rewrite nextoff_hd by lia. rewrite (u32_small (a + 8 * n + 8 * m)) by (unfold is_u32; lia).
  replace (8 + (8 * n - 8) + 8 + (8 * m - 8)) with (8 * (n + m)) by lia. rewrite (u32_small (8 * (n + m))) by (unfold is_u32; lia). rewrite mkfield_eq by lia. erewrite bind_ret; [|done]. erewrite bind_ret; [|done]. cbn [set_headers heaptop]. change (set_next (n + m) (hd pv n false)) with (hd pv (n + m) false).
  assert (Hfin : forall s1, same_place s s1 -> headers s1 !! a = Some (hd pv (n + m) false) -> (forall x, x < a \/ a + 8 * n + 8 * m < x -> headers s1 !! x = headers s !! x) ->
    (a + 8 * n + 8 * m = heaptop s \/ headers s1 !! (a + 8 * n + 8 * m) = set_prev (n + m) <$> headers s !! (a + 8 * n + 8 * m)) ->
    exists s', deadbeef (a + 8 * n) 8 s1 = Done tt s' /\ same_place s s' /\ tiles (headers s') (heapbase s) 0 (l1 ++ [(n + m, false)] ++ l2) (heaptop s)).
  { intros s1 (P1 & P2 & P3) Hat Hx He. destruct (deadbeef_eq (a + 8 * n) 1 s1) as (s' & Ed & (Q1 & Q2 & Q3) & Hd). exists s'. split; [exact Ed|]. split; [by split_and!; congruence|].
    apply (tiles_replace (headers s) _ _ _ l1 [(n, false); (m, false)] [(n + m, false)] l2 _ Ht0); fold a; fold pv; cbn [span lastn tiles]; rewrite ?Z.add_0_r.
    - lia. - rewrite Hd by lia. split_and!; [done|lia|lia]. - intros x Hr. rewrite Hd by lia. apply Hx. lia. - intros x Hr. rewrite Hd by lia. apply Hx. lia.
    - replace (a + (8 * n + 8 * m)) with (a + 8 * n + 8 * m) by lia. rewrite Hd by lia. done. }
  destruct (Z.eqb_spec (a + 8 * n + 8 * m) (heaptop s)) as [Hend|Hend]; cbn [negb].
  - erewrite bind_ret; [|done]. apply Hfin; [done|apply lookup_insert_eq|intros x Hx; cbn; by rewrite lookup_insert_ne by lia|by left].
  - destruct l2 as [|[r w] l2]; [cbn in Hs2; lia|]. cbn [tiles] in Ht2. destruct Ht2 as (Hh3 & _). erewrite bind_ret; [|erewrite bind_ret; [|apply header_eq; cbn; rewrite lookup_insert_ne by lia; exact Hh3]; done].
    apply Hfin; [done|cbn; rewrite lookup_insert_ne by lia; apply lookup_insert_eq|intros x Hx; cbn; by rewrite !lookup_insert_ne by lia|right; cbn; rewrite lookup_insert_eq, Hh3; done].
Qed.

Lemma used_merge a n u m v : used a (merge n u m v) = used a [(n, u); (m, v)].
Proof. unfold merge. destruct u, v; cbn; rewrite ?map_empty_union; done. Qed.
Lemma span_merge n u m v : span (merge n u m v) = 8 * n + 8 * m.
Proof. unfold merge. destruct (u || v); cbn; lia. Qed.

Lemma trymerge_above s l1 m l2 : tiles (headers s) (heapbase s) 0 (l1 ++ [(m, false)] ++ l2) (heaptop s) -> 0 < heapbase s -> heaptop s < 2 ^ 32 -> coalesced false l2 -> let a := heapbase s + span l1 in
  exists s' m' l2', (if negb (a + 8 * m =? heaptop s) then __malloc_trymerge a (a + 8 * m) else mret tt) s = Done tt s' /\ same_place s s' /\ tiles (headers s') (heapbase s) 0 (l1 ++ [(m', false)] ++ l2') (heaptop s) /\
    m <= m' /\ coalesced true l2' /\ used (a + 8 * m) l2 = used (a + 8 * m') l2' /\ (2 <= lastn m l2 -> 2 <= lastn m' l2').
Proof.
  intros Ht Hb Htop Hc a. pose proof Ht as Ht0. apply tiles_app in Ht as [Ht1 Ht]. cbn [app tiles] in Ht. destruct Ht as (_ & Hm & Ht2). fold a in Ht2. pose proof (tiles_span _ _ _ _ _ Ht2) as [Hs2 Hs2']. destruct l2 as [|[r v] l2].
  { cbn in Hs2. rewrite (proj2 (Z.eqb_eq _ _)) by lia. exists s, m, []. by split_and!. }
  cbn [tiles] in Ht2. destruct Ht2 as (_ & Hr & Ht3). pose proof (tiles_span _ _ _ _ _ Ht3) as [Hs3 Hs3']. rewrite (proj2 (Z.eqb_neq _ _)) by lia. cbn [negb]. destruct (trymerge_eq s l1 m false r v l2 Ht0 Hb Htop) as (s' & E & P & T). fold a in E.
  cbn in Hc. destruct Hc as [_ Hc]. unfold merge in T. destruct v; cbn [orb] in T.
  - exists s', m, ((r, true) :: l2). split; [exact E|]. split; [done|]. split; [exact T|]. split_and!; [lia|by split|done|done].
  - exists s', (m + r), l2. split; [exact E|]. split; [done|]. split; [exact T|]. split; [lia|]. split; [exact Hc|]. split; [cbn; rewrite map_empty_union; f_equal; lia|]. cbn. destruct l2 as [|[q w] l2]; cbn; [lia|done].
Qed.

Lemma trymerge_below s l1 m l2 : tiles (headers s) (heapbase s) 0 (l1 ++ [(m, false)] ++ l2) (heaptop s) -> 0 < heapbase s -> heaptop s < 2 ^ 32 -> coalesced false l1 -> coalesced true l2 -> 2 <= lastn m l2 -> let a := heapbase s + span l1 in
  exists s' l', (if negb (a =? heapbase s) then h ← header a; __malloc_trymerge (M_PREV a h) a else mret tt) s = Done tt s' /\ same_place s s' /\ tiles (headers s') (heapbase s) 0 l' (heaptop s) /\
    coalesced false l' /\ used (heapbase s) l' = used (heapbase s) l1 ∪ used (a + 8 * m) l2 /\ 2 <= lastn 2 l'.
Proof.
  intros Ht Hb Htop Hc1 Hc2 Hl a. pose proof Ht as Ht0. apply tiles_app in Ht as [Ht1 Ht]. cbn [app tiles] in Ht. destruct Ht as (Hh & Hm & Ht2). fold a in Hh, Ht2. pose proof (tiles_span _ _ _ _ _ Ht2) as [Hs2 Hs2']. destruct l1 as [|[p w] l0 _] using rev_ind.
  { unfold a. cbn [span]. rewrite Z.add_0_r, Z.eqb_refl. exists s, ([] ++ [(m, false)] ++ l2). split; [done|]. split; [done|]. split; [exact Ht0|]. split; [by split|]. split; [|done]. cbn. by rewrite map_empty_union. }
  pose proof (lastn_bound _ _ _ _ _ Ht1 ltac:(lia)) as Hlb. fold a in Hlb. rewrite lastn_app in Hh, Hlb. cbn [lastn] in Hh, Hlb. specialize (Hlb ltac:(lia) ltac:(lia)). apply tiles_app in Ht1 as [Ht1 Htp]. cbn [tiles] in Htp. destruct Htp as (_ & Hp & Htp). pose proof (tiles_span _ _ _ _ _ Ht1) as [_ Hs1].
  assert (Ea : a = heapbase s + span l0 + 8 * p) by (unfold a; rewrite span_app; cbn; lia). rewrite (proj2 (Z.eqb_neq a (heapbase s))) by lia. cbn [negb]. rewrite (bind_ret _ _ _ _ _ (header_eq _ _ _ Hh)). unfold M_PREV. rewrite prevoff_hd by lia. rewrite u32_small by (unfold is_u32; lia).
  replace (a - 8 * p) with (heapbase s + span l0) by lia. rewrite Ea. rewrite <- app_assoc in Ht0. destruct (trymerge_eq s l0 p w m false l2 Ht0 Hb Htop) as (s' & E & P & T). exists s', (l0 ++ merge p w m false ++ l2). split; [exact E|]. split; [done|]. split; [exact T|].
  apply coalesced_app in Hc1 as [Hc0 Hc1]. cbn in Hc1. rewrite !used_app, used_merge, span_merge. split; [|split].
  - apply coalesced_app. split; [done|]. unfold merge. destruct w; cbn; [by split_and!|]. split; [apply Hc1|done].
  - rewrite <- map_union_assoc. f_equal. cbn. rewrite !map_union_empty. do 2 f_equal. lia.
  - rewrite !lastn_app. unfold merge. destruct w; cbn; [done|]. destruct l2 as [|[q v] l2]; cbn in *; [lia|done].
Qed.

Lemma free_eq s l x n : heap_ok s l -> used (heapbase s) l !! x = Some n -> exists s' l', free x s = Done tt s' /\ heap_ok s' l' /\ heapbase s' = heapbase s /\ used (heapbase s) l' = delete x (used (heapbase s) l).
Proof.
  intros [[Hb Hmod] [Htop Hbrk] Ht Hco Hla] Hx. pose proof (tiles_positive _ _ _ _ _ Ht) as Hpos. destruct (used_split _ _ _ _ Hpos Hx) as (l1 & m & l2 & -> & -> & ->). set (a := heapbase s + span l1) in *.
  pose proof Ht as Ht0. apply tiles_app in Ht as [Ht1 Ht]. cbn [app tiles] in Ht. destruct Ht as (Hh & Hm & Ht2). fold a in Hh, Ht2. pose proof (tiles_span _ _ _ _ _ Ht1) as [_ Hs1]. pose proof (tiles_span _ _ _ _ _ Ht2) as [Hs2 Hs2'].
  assert (Hlt : a + 8 < heaptop s). { rewrite !lastn_app in Hla. cbn in Hla. destruct l2 as [|[r v] l2]; [cbn in Hla, Hs2; lia|]. cbn [tiles] in Ht2. destruct Ht2 as (_ & Hr & Ht3). apply tiles_span in Ht3. lia. }
  unfold free. rewrite (proj2 (Z.eqb_neq (a + 8) 0)) by (unfold a; lia). erewrite bind_ret; [|done]. rewrite (proj2 (Z.eqb_neq (heapbase s) 0)), (proj2 (Z.eqb_neq (heaptop s) 0)), (proj2 (Z.ltb_ge (heaptop s) (heapbase s))), (proj2 (Z.ltb_ge (a + 8) (heapbase s))), (proj2 (Z.leb_gt (heaptop s) (a + 8))) by (unfold a in *; lia). cbn [orb].
  unfold MBLOCKSIZE. replace (a + 8 - 8) with a by lia. rewrite u32_small by (unfold is_u32, a in *; lia). cbv zeta. rewrite (bind_ret _ _ _ _ _ (header_eq _ _ _ Hh)). change (M_OK (hd (lastn 0 l1) m true)) with true. cbn [negb mh_inuse hd Z.eqb].
  destruct (tiles_mark s l1 m true false l2 Ht0) as [_ T1]. fold a in T1. erewrite bind_ret; [|done]. set (s1 := set_headers _ _). rewrite size_hd by (unfold a in *; lia).
  unfold M_DATA, MBLOCKSIZE. rewrite u32_small by (unfold is_u32, a in *; lia). replace (8 * m - 8) with (8 * (m - 1)) by lia. destruct (deadbeef_eq (a + 8) (m - 1) s1) as (s2 & E2 & (P1 & P2 & P3) & D2). rewrite (bind_ret _ _ _ _ _ E2).
  assert (T2 : tiles (headers s2) (heapbase s2) 0 (l1 ++ [(m, false)] ++ l2) (heaptop s2)).
  { rewrite P1, P2. change (heapbase s1) with (heapbase s). change (heaptop s1) with (heaptop s). apply tiles_app in T1 as [T1 T1']. fold a in T1, T1'. apply tiles_app. fold a. cbn [app tiles] in T1' |- *. destruct T1' as (Th & _ & T1'). split; [eapply tiles_frame; [exact T1|intros z Hz; apply D2; lia]|].
    split_and!; [rewrite D2 by lia; exact Th|done|]. eapply tiles_frame; [exact T1'|]. intros z Hz. apply D2. lia. }
  apply coalesced_app in Hco as [Hc1 Hc2]. cbn in Hc2. destruct Hc2 as [_ Hc2]. unfold M_NEXT. rewrite nextoff_hd by (unfold a in *; lia). rewrite u32_small by (unfold is_u32, a in *; lia).
  destruct (trymerge_above s2 l1 m l2 T2) as (s3 & m' & l2' & E3 & (Q1 & Q2 & Q3) & T3 & Hm' & Hc3 & Hu3 & Hl3); [rewrite P1; done|rewrite P2; done|done|]. cbn [heapbase heaptop brk s1 set_headers] in P1, P2, P3. rewrite P1, P2 in *. fold a in E3, Hu3. rewrite (bind_ret _ _ _ _ _ E3).
  rewrite <- Q1, <- Q2 in T3. destruct (trymerge_below s3 l1 m' l2' T3) as (s4 & l' & E4 & (R1 & R2 & R3) & T4 & Hc4 & Hu4 & Hl4); [by rewrite Q1|by rewrite Q2|done|done| |].
  { apply Hl3. rewrite !lastn_app in Hla. cbn in Hla. done. }
  rewrite Q1, Q2 in *. fold a in E4, Hu4. exists s4, l'. split; [exact E4|]. split; [split; rewrite ?R1, ?R2, ?R3; [by split|split; [done|congruence]|exact T4|done|done]|]. split; [congruence|].
  rewrite Hu4, <- Hu3. rewrite used_app. fold a. cbn. apply Forall_app in Hpos as [Hp1 Hp2]. apply Forall_cons in Hp2 as [_ Hp2].
  rewrite delete_union, delete_union, delete_singleton_eq, map_empty_union. f_equal; symmetry; apply delete_id.
  - destruct (used (heapbase s) l1 !! (a + 8)) as [z|] eqn:Ez; [|done]. apply used_range in Ez; [unfold a in *; lia|done].
  - destruct (used (a + 8 * m) l2 !! (a + 8)) as [z|] eqn:Ez; [|done]. apply used_range in Ez; [lia|done].
Qed.

End MallocProofs.

(** * What malloc promises

    malloc and free keep a map of blocks that are apart from each other; and what becomes of
    requests near the end of the address space. *)
Import Malloc MallocProofs.

Module MallocTheorems.

(** The first call: [b] is the break, and the system lets the heap begin there. *)
Record starts (grants : Z -> Z -> bool) (b : Z) : Prop := {
  st_break : 0 < b < 2 ^ 32 - 1;
  st_zero : grants b 0 = true;
  st_align : b mod 8 <> 0 -> grants b (8 - b mod 8) = true }.

Definition first_heap (b : Z) : heap := let b := 8 * ((b + 7) / 8) in mkHeap b b b ∅.

Lemma round_up b : b mod 8 <> 0 -> 8 * ((b + 7) / 8) = b + (8 - b mod 8).
Proof.
  intros H. pose proof (Z.mod_pos_bound b 8 ltac:(lia)). pose proof (Z.div_mod b 8 ltac:(lia)). replace ((b + 7) / 8) with (b / 8 + 1); [lia|]. apply (Z.div_unique _ _ _ (b mod 8 - 1)); lia.
Qed.
Lemma round_up_same b : b mod 8 = 0 -> 8 * ((b + 7) / 8) = b.
Proof. intros H. pose proof (Z.div_mod b 8 ltac:(lia)). replace ((b + 7) / 8) with (b / 8); [lia|]. apply (Z.div_unique _ _ _ 7); lia. Qed.

Section Promise.
Context (grants : Z -> Z -> bool) {HS : SbrkLaws grants}.

Lemma sbrk_eq n s : 0 <= n < 2 ^ 31 -> grants (brk s) n = true -> sbrk grants n s = Done (brk s) (mkHeap (heapbase s) (heaptop s) (brk s + n) (headers s)).
Proof. intros Hn. unfold sbrk. rewrite i32_small by lia. by intros ->. Qed.

Lemma malloc_init_eq b : starts grants b -> __malloc_init grants (no_heap b) = Done tt (first_heap b) /\ heap_ok (first_heap b) [].
Proof.
  intros [Hb Hz Ha]. pose proof (Z.mod_pos_bound b 8 ltac:(lia)). assert (Hlt : 8 * ((b + 7) / 8) < 2 ^ 32 - 1 /\ 0 < 8 * ((b + 7) / 8)).
  { destruct (decide (b mod 8 = 0)) as [H0|H0]; [rewrite round_up_same by done; lia|]. rewrite round_up by done. pose proof (sbrk_bounded grants _ _ (Ha H0) ltac:(lia) ltac:(lia)). lia. }
  split.
  - unfold __malloc_init. erewrite bind_ret; [|done]. cbn [no_heap heapbase heaptop Z.eqb negb orb]. erewrite bind_ret; [|by apply sbrk_eq]. cbn [brk no_heap heapbase heaptop headers].
    rewrite (proj2 (Z.eqb_neq b MINUS_1)), (proj2 (Z.eqb_neq b 0)) by (unfold MINUS_1; lia). erewrite bind_ret; [|done]. unfold MBLOCKSIZE, first_heap. destruct (Z.eqb_spec (b mod 8) 0) as [H0|H0]; cbn [negb].
    + rewrite round_up_same by done. by rewrite Z.add_0_r.
    + rewrite round_up in * by done. erewrite bind_ret; [|apply sbrk_eq; [lia|]; cbn; rewrite Z.add_0_r; by apply Ha]. cbn [set_base set_top heapbase heaptop brk headers]. rewrite Z.add_0_r. rewrite (proj2 (Z.eqb_neq b MINUS_1)) by (unfold MINUS_1; lia). rewrite Z.eqb_refl. cbn [negb].
      unfold modify, set_base, set_top. cbn. rewrite u32_small by (unfold is_u32; lia). done.
  - unfold first_heap. set (c := 8 * ((b + 7) / 8)) in *. split; cbn; try done; [|lia]. split; [lia|]. unfold c. rewrite Z.mul_comm. apply Z.mod_mul. lia.
Qed.

Lemma malloc_first b size : starts grants b -> malloc grants size (no_heap b) = malloc grants size (first_heap b).
Proof.
  intros H. destruct (malloc_init_eq b H) as [E [[Hb _] _ _ _ _]]. unfold malloc.
  erewrite bind_ret; [|done]. erewrite bind_ret; [|exact E]. symmetry. erewrite bind_ret; [|done]. rewrite (proj2 (Z.eqb_neq (heapbase (first_heap b)) 0)) by lia. erewrite bind_ret; done.
Qed.

Lemma used_aligned a l p n : positive l -> a mod 8 = 0 -> used a l !! p = Some n -> p mod 8 = 0.
Proof.
  intros Hp Ha H. destruct (used_split _ _ _ _ Hp H) as (l1 & m & l2 & -> & -> & ->). assert (Hs : span l1 mod 8 = 0).
  { clear. induction l1 as [|[k u] l1 IH]; cbn; [done|]. rewrite Z.add_comm, Z.mul_comm, Z.mod_add by lia. done. }
  replace (a + span l1 + 8) with (a + span l1 + 1 * 8) by lia. rewrite Z.mod_add by lia. rewrite Z.add_mod, Ha, Hs by lia. done.
Qed.


(** A request in the last seven bytes of the range is rounded up to nothing. *)
Theorem malloc_rounds_to_zero s size : 2 ^ 32 - 8 < size < 2 ^ 32 -> malloc grants size s = malloc grants 0 s.
Proof.
  intros Hs. unfold malloc. cbv zeta. replace (Z.land (u32 (size + MBLOCKSIZE - 1)) (Z.lxor (2 ^ 32 - 1) (MBLOCKSIZE - 1))) with (Z.land (u32 (0 + MBLOCKSIZE - 1)) (Z.lxor (2 ^ 32 - 1) (MBLOCKSIZE - 1))); [done|].
  rewrite (u32_small (0 + MBLOCKSIZE - 1)) by done. replace (u32 (size + MBLOCKSIZE - 1)) with (size + 7 - 2 ^ 32) by (unfold u32, MBLOCKSIZE; apply (Z.mod_unique _ _ 1); lia).
  rewrite !round_block by (unfold MBLOCKSIZE; lia). rewrite !Z.div_small; unfold MBLOCKSIZE; lia.
Qed.
End Promise.

(** A system that lets the break grow to 2^31. *)
Definition half (b n : Z) : bool := (0 <=? b) && (0 <=? n) && (b + n <? 2 ^ 31).
Lemma half_laws : SbrkLaws half.
Proof. intros b n. unfold half. lia. Qed.

(** A request of 4 GB less two pages asks sbrk for a negative amount: where the break may be
    lowered, the heap shrinks by the page that is in use, and the block lies behind its end. *)
Definition lowers (b n : Z) : bool := (65536 <=? b + n) && (b + n <? 2 ^ 31).
Example malloc_lowers_break : exists s, (p ← malloc lowers 4088; q ← malloc lowers 0xffffe000; mret [p; q]) (no_heap 65536) = Done [65544; 69640] s /\ heaptop s = 65536.
Proof. eexists. vm_compute. done. Qed.

(** A request of 4 GB less a page finds "memory" on a heap that does not grow. *)
Example malloc_huge : exists s, malloc half 0xfffff000 (no_heap 65536) = Done 65544 s /\ heaptop s = 65536.
Proof. eexists. vm_compute. done. Qed.


End MallocTheorems.
