(* ===== verification/Bitmap.v ===== *)
(** * kern/lib/bitmap.c: the fixed-size array of bits *)
From S2P Require Import Prelude.

Module Bitmap.

(** struct bitmap: the bits are kept in [unsigned char] words. *)
Record bitmap : Type := mkBitmap { nbits : Z; v : list Z }.

Definition BITS_PER_WORD : Z := 8.
Definition WORD_ALLBITS : Z := 0xff.

(** The loop of [bitmap_create] that marks the leftover bits [overbits..7]. *)
Definition mark_leftover (w overbits : Z) : Z :=
  fold_left (fun w j => Z.lor w (Z.shiftl 1 (Z.of_nat j)))
    (seq (Z.to_nat overbits) (8 - Z.to_nat overbits)) w.

(** [ok_b] and [ok_v] are the outcomes of the two calls of [kmalloc]. *)
Definition bitmap_create (ok_b ok_v : bool) (nbits : Z) : res (option bitmap) :=
  let words := DIVROUNDUP nbits BITS_PER_WORD in
  if negb ok_b then mret None
  else if negb ok_v then mret None
  else
    let v := replicate (Z.to_nat words) 0 in
    if nbits / BITS_PER_WORD <? words then
      let ix := words - 1 in
      let overbits := u32 (nbits - ix * BITS_PER_WORD) in
      kassert_r "nbits / BITS_PER_WORD == words-1" (nbits / BITS_PER_WORD =? words - 1);;
      kassert_r "overbits > 0 && overbits < BITS_PER_WORD"
        ((0 <? overbits) && (overbits <? BITS_PER_WORD));;
      w ← deref_r "b->v[ix]" (v !! Z.to_nat ix);
      mret (Some (mkBitmap nbits (<[Z.to_nat ix := mark_leftover w overbits]> v)))
    else mret (Some (mkBitmap nbits v)).

Definition bitmap_getdata (b : bitmap) : list Z := v b.

(** The inner loop of [bitmap_alloc]: the first clear bit of a word. *)
Definition first_clear (w : Z) : option Z :=
  Z.of_nat ∘ fst <$>
    list_find (fun off => Z.land w (Z.shiftl 1 (Z.of_nat off)) = 0) (seq 0 8).

(** [inl errno] or [inr index], with the bitmap after the call. *)
Definition bitmap_alloc (b : bitmap) : res (bitmap * (Z + Z)) :=
  let maxix := DIVROUNDUP (nbits b) BITS_PER_WORD in
  match list_find (fun w => w ≠ WORD_ALLBITS) (take (Z.to_nat maxix) (v b)) with
  | Some (ix, w) =>
      match first_clear w with
      | Some offset =>
          let mask := Z.shiftl 1 offset in
          let index := u32 (Z.of_nat ix * BITS_PER_WORD + offset) in
          let b' := mkBitmap (nbits b) (<[ix := Z.lor w mask]> (v b)) in
          kassert_r "*index < b->nbits" (index <? nbits b);;
          mret (b', inr index)
      | None => Err (AssertFailed "0")
      end
  | None => mret (b, inl ENOSPC)
  end.

Definition bitmap_translate (bitno : Z) : Z * Z :=
  (bitno / BITS_PER_WORD, Z.shiftl 1 (bitno mod BITS_PER_WORD)).

Definition bitmap_mark (b : bitmap) (index : Z) : res bitmap :=
  kassert_r "index < b->nbits" (index <? nbits b);;
  let '(ix, mask) := bitmap_translate index in
  w ← deref_r "b->v[ix]" (v b !! Z.to_nat ix);
  kassert_r "(b->v[ix] & mask)==0" (Z.land w mask =? 0);;
  mret (mkBitmap (nbits b) (<[Z.to_nat ix := Z.lor w mask]> (v b))).

Definition bitmap_unmark (b : bitmap) (index : Z) : res bitmap :=
  kassert_r "index < b->nbits" (index <? nbits b);;
  let '(ix, mask) := bitmap_translate index in
  w ← deref_r "b->v[ix]" (v b !! Z.to_nat ix);
  kassert_r "(b->v[ix] & mask)!=0" (negb (Z.land w mask =? 0));;
  mret (mkBitmap (nbits b) (<[Z.to_nat ix := Z.land w (u8 (Z.lnot mask))]> (v b))).

Definition bitmap_isset (b : bitmap) (index : Z) : res Z :=
  let '(ix, mask) := bitmap_translate index in
  w ← deref_r "b->v[ix]" (v b !! Z.to_nat ix);
  mret (Z.land w mask).

(** ** Theorems *)

(** The bitmap as a set of bit numbers. *)
Definition bit (b : bitmap) (i : Z) : bool :=
  match v b !! Z.to_nat (i / 8) with
  | Some w => Z.testbit w (i mod 8)
  | None => false
  end.

(** Well-formedness: the words cover the bits, every word is a byte and the
    leftover bits at the end are marked in use. *)
Definition wf (b : bitmap) : Prop :=
  0 <= nbits b <= 2 ^ 32 - 8 /\
  Z.of_nat (length (v b)) = (nbits b + 7) / 8 /\
  Forall is_u8 (v b) /\
  (forall i, nbits b <= i < 8 * Z.of_nat (length (v b)) -> bit b i = true).

Lemma DIVROUNDUP_8 n : 0 <= n <= 2 ^ 32 - 8 -> DIVROUNDUP n BITS_PER_WORD = (n + 7) / 8.
Proof.
  intros. unfold DIVROUNDUP, BITS_PER_WORD. rewrite u32_small by (unfold is_u32; lia).
  f_equal. lia.
Qed.

Lemma allbits w : is_u8 w -> (w = WORD_ALLBITS <-> forall o, 0 <= o < 8 -> Z.testbit w o = true).
Proof.
  intros Hw. split.
  - intros -> o Ho. change WORD_ALLBITS with (Z.ones 8). by apply Z.ones_spec_low.
  - intros H. change WORD_ALLBITS with (Z.ones 8). apply Z.bits_inj'. intros i Hi.
    destruct (Z.ltb_spec i 8).
    + rewrite H, Z.ones_spec_low by lia. done.
    + rewrite Z.ones_spec_high by lia. by apply (testbit_above w 8).
Qed.

Lemma first_clear_Some w o : first_clear w = Some o ->
  0 <= o < 8 /\ Z.testbit w o = false /\ forall k, 0 <= k < o -> Z.testbit w k = true.
Proof.
  unfold first_clear. intros H. apply fmap_Some in H as ([n y] & Hf & ->).
  apply list_find_Some in Hf as (Hn & H0 & Hmin). simpl.
  apply lookup_seq in Hn as [-> Hn]. rewrite Nat.add_0_l in *.
  apply Z.eqb_eq in H0. rewrite land_shiftl1 in H0 by lia. apply negb_true_iff in H0.
  split_and!; [lia|lia|done|]. intros k Hk.
  specialize (Hmin (Z.to_nat k) (Z.to_nat k)).
  rewrite lookup_seq in Hmin. rewrite Z2Nat.id in Hmin by lia.
  destruct (Z.testbit w k) eqn:E; [done|]. exfalso. apply Hmin; [lia|lia|].
  apply Z.eqb_eq. by rewrite land_shiftl1, E by lia.
Qed.

Lemma first_clear_None w : is_u8 w -> first_clear w = None -> w = WORD_ALLBITS.
Proof.
  unfold first_clear. intros Hw H. apply fmap_None in H. rewrite list_find_None in H.
  apply allbits; [done|]. intros o Ho. rewrite Forall_forall in H.
  specialize (H (Z.to_nat o)). rewrite elem_of_seq, Z2Nat.id in H by lia.
  destruct (Z.testbit w o) eqn:E; [done|]. exfalso. apply H; [lia|].
  apply Z.eqb_eq. by rewrite land_shiftl1, E by lia.
Qed.

(** Replacing one word changes only the bits of that word. *)
Lemma bit_insert b ix w i : 0 <= i -> (ix < length (v b))%nat ->
  bit (mkBitmap (nbits b) (<[ix := w]> (v b))) i =
  if i / 8 =? Z.of_nat ix then Z.testbit w (i mod 8) else bit b i.
Proof.
  intros Hi Hix. unfold bit; simpl. assert (0 <= i / 8) by (apply Z.div_pos; lia).
  destruct (Z.eqb_spec (i / 8) (Z.of_nat ix)) as [E|E].
  - rewrite E, Nat2Z.id, list_lookup_insert_eq by done. done.
  - rewrite list_lookup_insert_ne by lia. done.
Qed.

(** A change of one word that keeps it a byte and keeps the leftover bits marked
    keeps the bitmap well-formed. *)
Lemma wf_insert b ix w : wf b -> (ix < length (v b))%nat -> is_u8 w ->
  (forall i, nbits b <= i < 8 * Z.of_nat (length (v b)) -> i / 8 = Z.of_nat ix ->
     Z.testbit w (i mod 8) = true) ->
  wf (mkBitmap (nbits b) (<[ix := w]> (v b))).
Proof.
  intros (Hn & Hl & Hb & Ho) Hix Hw H. split_and!; simpl; try lia.
  - by rewrite length_insert.
  - by apply Forall_insert.
  - rewrite length_insert. intros i Hi. rewrite bit_insert by (done || lia).
    destruct (Z.eqb_spec (i / 8) (Z.of_nat ix)); [by apply H|by apply Ho].
Qed.

Lemma lookup_byte b i : wf b -> 0 <= i < nbits b ->
  exists w, v b !! Z.to_nat (i / 8) = Some w /\ is_u8 w.
Proof.
  intros (Hn & Hl & Hb & Ho) Hi.
  destruct (lookup_lt_is_Some_2 (v b) (Z.to_nat (i / 8))) as [w Hw].
  - assert (i / 8 < (nbits b + 7) / 8); [|pose proof (Z.div_pos i 8); lia].
    apply Z.div_lt_upper_bound; [lia|]. pose proof (Z.div_mod (nbits b + 7) 8).
    pose proof (Z.mod_pos_bound (nbits b + 7) 8). lia.
  - exists w. split; [done|]. by eapply Forall_lookup_1.
Qed.

Lemma is_u8_lor w o : is_u8 w -> 0 <= o < 8 -> is_u8 (Z.lor w (Z.shiftl 1 o)).
Proof.
  intros Hw Ho. apply range_of_bits; [lia| |].
  - apply Z.lor_nonneg. rewrite Z.shiftl_nonneg. unfold is_u8 in Hw; lia.
  - intros i Hi. rewrite lor_shiftl1_bits by lia.
    rewrite (testbit_above w 8) by (done || lia). destruct (Z.eqb_spec i o); [lia|done].
Qed.

Lemma eqb_split i j : 0 <= i -> 0 <= j ->
  (j =? i) = ((j / 8 =? i / 8) && (j mod 8 =? i mod 8)).
Proof.
  intros. pose proof (Z.div_mod i 8). pose proof (Z.div_mod j 8).
  destruct (Z.eqb_spec j i), (Z.eqb_spec (j / 8) (i / 8)), (Z.eqb_spec (j mod 8) (i mod 8));
    subst; simpl; lia || done.
Qed.

(** Setting the bit [i] through its word. *)
Lemma bit_set b i w j : 0 <= i -> 0 <= j -> v b !! Z.to_nat (i / 8) = Some w ->
  bit (mkBitmap (nbits b) (<[Z.to_nat (i / 8) := Z.lor w (Z.shiftl 1 (i mod 8))]> (v b))) j
  = (j =? i) || bit b j.
Proof.
  intros Hi Hj Hw. pose proof (Z.div_pos i 8). pose proof (Z.mod_pos_bound i 8).
  pose proof (Z.mod_pos_bound j 8).
  rewrite bit_insert by (done || by eapply lookup_lt_Some). rewrite Z2Nat.id by lia.
  rewrite (eqb_split i j) by done. destruct (Z.eqb_spec (j / 8) (i / 8)) as [E|E]; simpl; [|done].
  rewrite lor_shiftl1_bits by lia. unfold bit. by rewrite E, Hw.
Qed.

Lemma wf_set b i w : wf b -> 0 <= i < nbits b -> v b !! Z.to_nat (i / 8) = Some w -> is_u8 w ->
  wf (mkBitmap (nbits b) (<[Z.to_nat (i / 8) := Z.lor w (Z.shiftl 1 (i mod 8))]> (v b))).
Proof.
  intros Hwf Hi Hw Hb. pose proof (Z.mod_pos_bound i 8). pose proof (Z.div_pos i 8).
  apply wf_insert; [done|by eapply lookup_lt_Some|apply is_u8_lor; [done|lia]|].
  intros k Hk Hkix. pose proof (Z.mod_pos_bound k 8).
  destruct Hwf as (_ & _ & _ & Ho). specialize (Ho k Hk). unfold bit in Ho.
  rewrite lor_shiftl1_bits by lia. rewrite Z2Nat.id in Hkix by lia. rewrite Hkix, Hw in Ho.
  by rewrite Ho, orb_true_r.
Qed.

(** Any bit of a word that is not [WORD_ALLBITS] among the first [nbits]: the
    word scan of [bitmap_alloc]. *)
Lemma scan_lookup b ix w : wf b ->
  list_find (fun w => w ≠ WORD_ALLBITS) (v b) = Some (ix, w) ->
  v b !! ix = Some w /\ is_u8 w /\ w ≠ WORD_ALLBITS /\
  forall i, 0 <= i -> i / 8 < Z.of_nat ix -> bit b i = true.
Proof.
  intros (Hn & Hl & Hb & Ho) H. apply list_find_Some in H as (Hw & Hne & Hmin).
  split_and!; [done|by eapply Forall_lookup_1|done|]. intros i Hi Hix.
  pose proof (Z.div_pos i 8). pose proof (Z.mod_pos_bound i 8).
  assert (Hlt : (Z.to_nat (i / 8) < length (v b))%nat) by (apply lookup_lt_Some in Hw; lia).
  apply lookup_lt_is_Some_2 in Hlt as [w' Hw'].
  unfold bit. rewrite Hw'. pose proof (Forall_lookup_1 _ _ _ _ Hb Hw').
  assert (w' = WORD_ALLBITS) as ->.
  { destruct (decide (w' = WORD_ALLBITS)); [done|]. exfalso. eapply Hmin; [exact Hw'|lia|done]. }
  apply allbits; [done|done|lia].
Qed.

Lemma take_words b : wf b -> take (Z.to_nat (DIVROUNDUP (nbits b) BITS_PER_WORD)) (v b) = v b.
Proof.
  intros (Hn & Hl & _). rewrite DIVROUNDUP_8 by done. apply take_ge. lia.
Qed.

(** [bitmap_create] with memory available gives a well-formed bitmap of the
    requested size with every bit clear. *)
Lemma mark_leftover_bits k i : 0 <= k <= 8 -> 0 <= i ->
  Z.testbit (mark_leftover 0 k) i = (k <=? i) && (i <? 8).
Proof.
  intros Hk Hi. destruct (Z.ltb_spec i 8).
  - assert (H8 : forallb (fun a => forallb (fun c =>
      Bool.eqb (Z.testbit (mark_leftover 0 (Z.of_nat a)) (Z.of_nat c))
        ((Z.of_nat a <=? Z.of_nat c) && (Z.of_nat c <? 8))) (seq 0 8)) (seq 0 9) = true)
      by (vm_compute; reflexivity).
    rewrite forallb_forall in H8. specialize (H8 (Z.to_nat k)). rewrite in_seq in H8.
    rewrite forallb_forall in H8. specialize (H8 ltac:(lia) (Z.to_nat i)).
    rewrite in_seq, !Z2Nat.id in H8 by lia. rewrite (Bool.eqb_prop _ _ (H8 ltac:(lia))).
    f_equal. by apply Z.ltb_lt.
  - rewrite andb_false_r. assert (H8 : forallb (fun a =>
      (0 <=? mark_leftover 0 (Z.of_nat a)) && (mark_leftover 0 (Z.of_nat a) <? 256)) (seq 0 9) = true)
      by (vm_compute; reflexivity).
    rewrite forallb_forall in H8. specialize (H8 (Z.to_nat k)). rewrite in_seq in H8.
    rewrite Z2Nat.id in H8 by lia. apply (testbit_above _ 8); [|lia].
    specialize (H8 ltac:(lia)). lia.
Qed.

Lemma bit_replicate n k i : bit (mkBitmap n (replicate k 0)) i = false.
Proof.
  unfold bit; simpl. destruct (replicate k 0 !! Z.to_nat (i / 8)) eqn:E; [|done].
  apply lookup_replicate in E as [-> _]. apply Z.testbit_0_l.
Qed.

Lemma wf_replicate n k : 0 <= n <= 2 ^ 32 - 8 -> n = 8 * Z.of_nat k ->
  wf (mkBitmap n (replicate k 0)).
Proof.
  intros. split_and!; simpl; try lia; rewrite ?length_replicate; try lia.
  - subst n. rewrite Z.mul_comm, Z.div_add_l by lia. rewrite Z.div_small by lia. lia.
  - apply Forall_replicate. unfold is_u8; lia.
Qed.

Lemma create_tail n k : 0 <= n <= 2 ^ 32 - 8 -> Z.of_nat k = (n + 7) / 8 -> n / 8 < Z.of_nat k ->
  0 < n mod 8 /\ n / 8 = Z.of_nat k - 1 /\
  let b := mkBitmap n (<[Z.to_nat (n / 8) := mark_leftover 0 (n mod 8)]> (replicate k 0)) in
  wf b /\ forall i, 0 <= i < n -> bit b i = false.
Proof.
  intros Hn Hk Hlt. pose proof (Z.div_mod n 8). pose proof (Z.div_mod (n + 7) 8).
  pose proof (Z.mod_pos_bound n 8). pose proof (Z.mod_pos_bound (n + 7) 8).
  pose proof (Z.div_pos n 8). assert (0 < n mod 8) by lia.
  assert (n / 8 = Z.of_nat k - 1) by lia. split_and!; [done|done|]. intros b.
  assert (Hbit : forall i, 0 <= i -> bit b i = (n <=? i) && (i <? 8 * Z.of_nat k)).
  { intros i Hi. subst b.
    rewrite (bit_insert (mkBitmap n (replicate k 0))) by (simpl; rewrite ?length_replicate; lia).
    pose proof (Z.mod_pos_bound i 8). pose proof (Z.div_mod i 8).
    rewrite Z2Nat.id, bit_replicate by lia. rewrite mark_leftover_bits by lia.
    destruct (Z.eqb_spec (i / 8) (n / 8)); lia. }
  split.
  - split_and!; simpl; rewrite ?length_insert, ?length_replicate; try lia.
    + apply Forall_insert; [apply Forall_replicate; unfold is_u8; lia|].
      assert (Hm : forallb (fun a => (0 <=? mark_leftover 0 (Z.of_nat a)) &&
        (mark_leftover 0 (Z.of_nat a) <? 256)) (seq 0 8) = true) by (vm_compute; reflexivity).
      rewrite forallb_forall in Hm. specialize (Hm (Z.to_nat (n mod 8))).
      rewrite in_seq, Z2Nat.id in Hm by lia. specialize (Hm ltac:(lia)). unfold is_u8. lia.
    + intros i Hi. rewrite Hbit by lia. lia.
  - intros i Hi. rewrite Hbit by lia. lia.
Qed.

Lemma bitmap_create_spec n : 0 <= n <= 2 ^ 32 - 8 ->
  exists b, bitmap_create true true n = Ok (Some b) /\ wf b /\ nbits b = n /\
            forall i, 0 <= i < n -> bit b i = false.
Proof.
  intros Hn. unfold bitmap_create; simpl. rewrite DIVROUNDUP_8 by done. unfold BITS_PER_WORD.
  pose proof (Z.div_mod n 8). pose proof (Z.mod_pos_bound n 8). pose proof (Z.div_pos n 8).
  pose proof (Z.div_mod (n + 7) 8). pose proof (Z.mod_pos_bound (n + 7) 8).
  assert (Hk : Z.of_nat (Z.to_nat ((n + 7) / 8)) = (n + 7) / 8) by lia.
  destruct (Z.ltb_spec (n / 8) ((n + 7) / 8)).
  - destruct (create_tail n _ Hn Hk ltac:(lia)) as (Hpos & Hix & Hwf & Hb).
    rewrite Hk in Hix. rewrite <- Hix, Z.eqb_refl. unfold kassert_r, mbind, res_bind; simpl.
    replace (n - n / 8 * 8) with (n mod 8) by lia. rewrite u32_small by (unfold is_u32; lia).
    replace ((0 <? n mod 8) && (n mod 8 <? 8)) with true by lia. simpl.
    rewrite lookup_replicate_2 by lia. simpl. eexists. split; [reflexivity|]. done.
  - eexists. split; [reflexivity|]. split_and!; [apply wf_replicate; lia|done|].
    intros. apply bit_replicate.
Qed.

(** [bitmap_alloc] never fails an assertion on a well-formed bitmap: it marks
    the lowest clear bit and returns it, or answers ENOSPC when no bit is clear. *)
Lemma bitmap_alloc_spec b : wf b ->
  exists b' r, bitmap_alloc b = Ok (b', r) /\ wf b' /\ nbits b' = nbits b /\
    match r with
    | inr i => 0 <= i < nbits b /\ bit b i = false /\ (forall j, 0 <= j < i -> bit b j = true) /\
               (forall j, 0 <= j -> bit b' j = (j =? i) || bit b j)
    | inl e => e = ENOSPC /\ b' = b /\ (forall j, 0 <= j < nbits b -> bit b j = true)
    end.
Proof.
  intros Hwf. unfold bitmap_alloc. rewrite take_words by done.
  destruct (list_find _ (v b)) as [[ix w]|] eqn:Hf.
  - destruct (scan_lookup b ix w Hwf Hf) as (Hw & Hu8 & Hne & Hbelow).
    destruct (first_clear w) as [o|] eqn:Hfc; [|by apply first_clear_None in Hfc].
    apply first_clear_Some in Hfc as (Ho & Hclr & Hmin).
    pose proof Hwf as (Hn & Hl & Hb & Hover). pose proof (lookup_lt_Some _ _ _ Hw) as Hlen.
    set (i := Z.of_nat ix * 8 + o).
    assert (Hi8 : i / 8 = Z.of_nat ix) by (unfold i; rewrite Z.div_add_l, Z.div_small; lia).
    assert (Him : i mod 8 = o) by (pose proof (Z.div_mod i 8); unfold i in *; lia).
    assert (Hbi : bit b i = false) by (unfold bit; by rewrite Hi8, Nat2Z.id, Hw, Him).
    assert (Hin : 0 <= i < nbits b).
    { split; [unfold i; lia|]. destruct (Z.ltb_spec i (nbits b)); [done|].
      rewrite Hover in Hbi; [done|]. unfold i in *. lia. }
    unfold BITS_PER_WORD. fold i. rewrite u32_small by (unfold is_u32; lia).
    replace (i <? nbits b) with true by lia. do 2 eexists. split; [reflexivity|].
    replace ix with (Z.to_nat (i / 8)) in Hw |- * by lia. rewrite <- Him.
    split_and!; [by apply wf_set|done|lia|lia|done| |].
    + intros j Hj. destruct (Z.ltb_spec (j / 8) (Z.of_nat ix)); [apply Hbelow; lia|].
      pose proof (Z.div_mod j 8). pose proof (Z.mod_pos_bound j 8).
      assert (j / 8 = i / 8) by (unfold i in *; lia). unfold bit. rewrite H2, Hw.
      apply Hmin. unfold i in *. lia.
    + intros j Hj. apply bit_set; (done || lia).
  - do 2 eexists. split; [reflexivity|]. split_and!; [done|done|done|done|].
    intros j Hj. destruct (lookup_byte b j Hwf Hj) as (w & Hw & Hu8).
    unfold bit. rewrite Hw. rewrite list_find_None in Hf. pose proof (Forall_lookup_1 _ _ _ _ Hf Hw) as Hne.
    apply allbits; [done| |apply Z.mod_pos_bound; lia]. by apply dec_stable in Hne.
Qed.

(** [bitmap_mark] succeeds exactly on a clear bit in range. *)
Lemma bitmap_mark_spec b i : wf b -> 0 <= i < nbits b ->
  if bit b i then bitmap_mark b i = Err (AssertFailed "(b->v[ix] & mask)==0")
  else exists b', bitmap_mark b i = Ok b' /\ wf b' /\ nbits b' = nbits b /\
         forall j, 0 <= j -> bit b' j = (j =? i) || bit b j.
Proof.
  intros Hwf Hi. destruct (lookup_byte b i Hwf Hi) as (w & Hw & Hu8).
  unfold bitmap_mark, bitmap_translate, BITS_PER_WORD, kassert_r, mbind, res_bind.
  replace (i <? nbits b) with true by lia. simpl. rewrite Hw. simpl.
  rewrite land_shiftl1 by (apply Z.mod_pos_bound; lia).
  unfold bit at 1. rewrite Hw. destruct (Z.testbit w (i mod 8)) eqn:E; [done|]. simpl.
  eexists. split; [reflexivity|]. split_and!; [by apply wf_set|done|].
  intros j Hj. apply bit_set; (done || lia).
Qed.

(** Clearing bit [i] of a byte. *)
Lemma unmark_bits w o k : is_u8 w -> 0 <= o < 8 -> 0 <= k ->
  Z.testbit (Z.land w (u8 (Z.lnot (Z.shiftl 1 o)))) k = negb (k =? o) && Z.testbit w k.
Proof.
  intros Hw Ho Hk. unfold u8. rewrite Z.land_spec, andb_comm.
  destruct (Z.ltb_spec k 8).
  - rewrite Z.mod_pow2_bits_low, Z.lnot_spec, Z.shiftl_1_l by lia. f_equal. f_equal.
    destruct (Z.eqb_spec k o) as [->|]; [by rewrite Z.pow2_bits_true by lia|].
    by rewrite Z.pow2_bits_false by lia.
  - rewrite (testbit_above w 8), !andb_false_r by (done || lia). done.
Qed.

Lemma bitmap_unmark_spec b i : wf b -> 0 <= i < nbits b ->
  if bit b i then exists b', bitmap_unmark b i = Ok b' /\ wf b' /\ nbits b' = nbits b /\
         forall j, 0 <= j -> bit b' j = negb (j =? i) && bit b j
  else bitmap_unmark b i = Err (AssertFailed "(b->v[ix] & mask)!=0").
Proof.
  intros Hwf Hi. destruct (lookup_byte b i Hwf Hi) as (w & Hw & Hu8).
  pose proof (Z.mod_pos_bound i 8). pose proof (Z.div_pos i 8).
  pose proof (lookup_lt_Some _ _ _ Hw) as Hlen.
  unfold bitmap_unmark, bitmap_translate, BITS_PER_WORD, kassert_r, mbind, res_bind.
  replace (i <? nbits b) with true by lia. simpl. rewrite Hw. simpl.
  rewrite land_shiftl1, negb_involutive by lia.
  unfold bit at 1. rewrite Hw. destruct (Z.testbit w (i mod 8)) eqn:E; [|done].
  eexists. split; [reflexivity|]. split_and!; [|done|].
  - apply wf_insert; [done|done| |].
    + apply range_of_bits; [lia|apply Z.land_nonneg; unfold is_u8 in Hu8; lia|].
      intros k Hk. rewrite unmark_bits by (done || lia).
      by rewrite (testbit_above w 8), andb_false_r by (done || lia).
    + intros k Hk Hkix. pose proof (Z.mod_pos_bound k 8). rewrite Z2Nat.id in Hkix by lia.
      rewrite unmark_bits by (done || lia). pose proof Hwf as (_ & _ & _ & Ho).
      specialize (Ho k Hk). unfold bit in Ho. rewrite Hkix, Hw in Ho. rewrite Ho, andb_true_r.
      destruct (Z.eqb_spec (k mod 8) (i mod 8)); [|done].
      pose proof (Z.div_mod k 8). pose proof (Z.div_mod i 8). lia.
  - intros j Hj. pose proof (Z.mod_pos_bound j 8). rewrite bit_insert by done. rewrite Z2Nat.id by lia.
    rewrite (eqb_split i j) by lia. destruct (Z.eqb_spec (j / 8) (i / 8)) as [Ej|]; simpl; [|done].
    rewrite unmark_bits by (done || lia). unfold bit. by rewrite Ej, Hw.
Qed.

(** Two well-formed bitmaps with the same bits are the same bitmap. *)
Lemma wf_ext b1 b2 : wf b1 -> wf b2 -> nbits b1 = nbits b2 ->
  (forall j, 0 <= j < nbits b1 -> bit b1 j = bit b2 j) -> b1 = b2.
Proof.
  intros H1 H2 Hn Hb. pose proof H1 as (? & Hl1 & Hf1 & Ho1). pose proof H2 as (? & Hl2 & Hf2 & Ho2).
  assert (Hlen : length (v b1) = length (v b2)) by (rewrite Hn in Hl1; lia).
  assert (v b1 = v b2); [|destruct b1, b2; simpl in *; congruence].
  apply list_eq_same_length with (n := length (v b1)); [done|done|].
  intros k x y Hk Hx Hy. apply Z.bits_inj'. intros i Hi.
  destruct (Z.ltb_spec i 8).
  2:{ rewrite !(testbit_above _ 8 i); [done| |lia| |lia];
      eapply (Forall_lookup_1 is_u8); [exact Hf2|exact Hy|exact Hf1|exact Hx]. }
  set (j := Z.of_nat k * 8 + i).
  assert (j / 8 = Z.of_nat k) by (unfold j; rewrite Z.div_add_l, Z.div_small; lia).
  assert (j mod 8 = i) by (pose proof (Z.div_mod j 8); unfold j in *; lia).
  assert (Ex : bit b1 j = Z.testbit x i) by (unfold bit; rewrite H4, Nat2Z.id, Hx; congruence).
  assert (Ey : bit b2 j = Z.testbit y i) by (unfold bit; rewrite H4, Nat2Z.id, Hy; congruence).
  rewrite <- Ex, <- Ey. destruct (Z.ltb_spec j (nbits b1)); [apply Hb; unfold j in *; lia|].
  rewrite Ho1, Ho2 by (unfold j in *; lia). done.
Qed.

(** The set of marked bits. *)
Definition marked (b : bitmap) : gset Z := list_to_set (filter (fun i => bit b i = true) (seqZ 0 (nbits b))).

Lemma elem_of_marked b i : i ∈ marked b <-> 0 <= i < nbits b /\ bit b i = true.
Proof. unfold marked. rewrite elem_of_list_to_set, list_elem_of_filter, elem_of_seqZ. lia || naive_solver lia. Qed.

(** [bitmap_alloc] refines allocation of the least free element: on a
    well-formed bitmap it always returns; it returns a bit number that was not
    marked while all smaller ones were, and adds exactly that number to the set
    of marked bits, or it answers ENOSPC with the bitmap unchanged when every
    number below [nbits] is marked. *)
Theorem bitmap_alloc_refines_set b : wf b ->
  exists b' r, bitmap_alloc b = Ok (b', r) /\ wf b' /\
    match r with
    | inr i => i ∉ marked b /\ (forall j, 0 <= j < i -> j ∈ marked b) /\ i < nbits b /\
               marked b' = {[i]} ∪ marked b
    | inl e => e = ENOSPC /\ b' = b /\ marked b = list_to_set (seqZ 0 (nbits b))
    end.
Proof.
  intros Hwf. destruct (bitmap_alloc_spec b Hwf) as (b' & r & Hr & Hwf' & Hn & Hs).
  exists b', r. split_and!; [done|done|]. destruct r as [e|i].
  - destruct Hs as (-> & -> & Hall). split_and!; [done|done|]. apply set_eq. intros j.
    rewrite elem_of_marked, elem_of_list_to_set, elem_of_seqZ. naive_solver lia.
  - destruct Hs as (Hi & Hclr & Hmin & Hb'). split_and!; [|intros j Hj|lia|].
    + rewrite elem_of_marked, Hclr. naive_solver.
    + rewrite elem_of_marked. split; [lia|]. by apply Hmin.
    + apply set_eq. intros j. rewrite elem_of_union, elem_of_singleton, !elem_of_marked, Hn.
      destruct (decide (0 <= j < nbits b)) as [Hj|]; [rewrite Hb' by lia|naive_solver lia].
      rewrite orb_true_iff, Z.eqb_eq. naive_solver.
Qed.

Lemma bitmap_alloc_refines_set_witness :
  exists b' r, bitmap_alloc (mkBitmap 10 [0x0f; 0xfc]) = Ok (b', r) /\ wf b' /\
    match r with
    | inr i => i ∉ marked (mkBitmap 10 [0x0f; 0xfc]) /\
               (forall j, 0 <= j < i -> j ∈ marked (mkBitmap 10 [0x0f; 0xfc])) /\ i < 10 /\
               marked b' = {[i]} ∪ marked (mkBitmap 10 [0x0f; 0xfc])
    | inl e => e = ENOSPC /\ b' = mkBitmap 10 [0x0f; 0xfc] /\
               marked (mkBitmap 10 [0x0f; 0xfc]) = list_to_set (seqZ 0 10)
    end.
Proof.
  apply (bitmap_alloc_refines_set (mkBitmap 10 [0x0f; 0xfc])).
  split_and!; simpl; [lia|lia|reflexivity| |].
  - repeat constructor; unfold is_u8; lia.
  - intros i Hi. assert (i = 10 \/ i = 11 \/ i = 12 \/ i = 13 \/ i = 14 \/ i = 15) as
      [->|[->|[->|[->|[->| ->]]]]] by lia; reflexivity.
Defined.

Lemma bitmap_alloc_unmark b b' i : wf b ->
  bitmap_alloc b = Ok (b', inr i) -> bitmap_unmark b' i = Ok b.
Proof.
  intros Hwf Ha. destruct (bitmap_alloc_spec b Hwf) as (b1 & r & Hr & Hwf' & Hn & Hs).
  rewrite Ha in Hr. inv Hr. destruct Hs as (Hi & Hclr & Hmin & Hb').
  pose proof (bitmap_unmark_spec b1 i Hwf' ltac:(lia)) as Hu.
  rewrite Hb', Z.eqb_refl in Hu by lia. destruct Hu as (b2 & -> & Hwf2 & Hn2 & Hb2). f_equal.
  apply wf_ext; [done|done|lia|]. intros j Hj. rewrite Hb2, Hb' by lia.
  destruct (Z.eqb_spec j i) as [->|]; simpl; [by rewrite Hclr|done].
Qed.

(** releasing the bit that was just allocated restores the bitmap exactly. *)
Theorem bitmap_alloc_unmark_roundtrip b b' i : wf b ->
  bitmap_alloc b = Ok (b', inr i) -> bitmap_unmark b' i = Ok b.
Proof. apply bitmap_alloc_unmark. Qed.

Lemma bitmap_alloc_unmark_roundtrip_witness :
  bitmap_unmark (mkBitmap 8 [0x1f]) 4 = Ok (mkBitmap 8 [0x0f]).
Proof.
  apply (bitmap_alloc_unmark_roundtrip (mkBitmap 8 [0x0f])); [|reflexivity].
  split_and!; simpl; [lia|lia|reflexivity| |intros j Hj; exfalso; simpl in Hj; lia].
  repeat constructor; unfold is_u8; lia.
Defined.

End Bitmap.
