(* ===== verification/Vmstats.v ===== *)
(** * kern/vm/vmstats.c and kern/include/vmstats.h: the paging counters *)
From S2P Require Import Prelude.

Module Vmstats.

(** struct vmstats; every counter is an [unsigned int]. *)
Record vmstats : Type := mkVmstats {
  vms_tlbfaults : Z;
  vms_tlbfaultsfree : Z;
  vms_tlbfaultsreplace : Z;
  vms_tlbinvalidations : Z;
  vms_tlbreloads : Z;
  vms_pagefaultszeroed : Z;
  vms_pagefaultsdisk : Z;
  vms_pagefaultself : Z;
  vms_pagefaultsswapfile : Z;
  vms_swapfilewrites : Z
}.

(** [struct vmstats vms;] is zero-initialised. *)
Definition vms0 : vmstats := mkVmstats 0 0 0 0 0 0 0 0 0 0.

(** The increments [vms.<counter>++], one per counter. *)
Definition inc_tlbfaults (s : vmstats) : vmstats :=
  mkVmstats (u32 (vms_tlbfaults s + 1)) (vms_tlbfaultsfree s) (vms_tlbfaultsreplace s)
    (vms_tlbinvalidations s) (vms_tlbreloads s) (vms_pagefaultszeroed s) (vms_pagefaultsdisk s)
    (vms_pagefaultself s) (vms_pagefaultsswapfile s) (vms_swapfilewrites s).
Definition inc_tlbfaultsfree (s : vmstats) : vmstats :=
  mkVmstats (vms_tlbfaults s) (u32 (vms_tlbfaultsfree s + 1)) (vms_tlbfaultsreplace s)
    (vms_tlbinvalidations s) (vms_tlbreloads s) (vms_pagefaultszeroed s) (vms_pagefaultsdisk s)
    (vms_pagefaultself s) (vms_pagefaultsswapfile s) (vms_swapfilewrites s).
Definition inc_tlbfaultsreplace (s : vmstats) : vmstats :=
  mkVmstats (vms_tlbfaults s) (vms_tlbfaultsfree s) (u32 (vms_tlbfaultsreplace s + 1))
    (vms_tlbinvalidations s) (vms_tlbreloads s) (vms_pagefaultszeroed s) (vms_pagefaultsdisk s)
    (vms_pagefaultself s) (vms_pagefaultsswapfile s) (vms_swapfilewrites s).
Definition inc_tlbinvalidations (s : vmstats) : vmstats :=
  mkVmstats (vms_tlbfaults s) (vms_tlbfaultsfree s) (vms_tlbfaultsreplace s)
    (u32 (vms_tlbinvalidations s + 1)) (vms_tlbreloads s) (vms_pagefaultszeroed s)
    (vms_pagefaultsdisk s) (vms_pagefaultself s) (vms_pagefaultsswapfile s) (vms_swapfilewrites s).
Definition inc_tlbreloads (s : vmstats) : vmstats :=
  mkVmstats (vms_tlbfaults s) (vms_tlbfaultsfree s) (vms_tlbfaultsreplace s)
    (vms_tlbinvalidations s) (u32 (vms_tlbreloads s + 1)) (vms_pagefaultszeroed s)
    (vms_pagefaultsdisk s) (vms_pagefaultself s) (vms_pagefaultsswapfile s) (vms_swapfilewrites s).
Definition inc_pagefaultszeroed (s : vmstats) : vmstats :=
  mkVmstats (vms_tlbfaults s) (vms_tlbfaultsfree s) (vms_tlbfaultsreplace s)
    (vms_tlbinvalidations s) (vms_tlbreloads s) (u32 (vms_pagefaultszeroed s + 1))
    (vms_pagefaultsdisk s) (vms_pagefaultself s) (vms_pagefaultsswapfile s) (vms_swapfilewrites s).
Definition inc_pagefaultsdisk (s : vmstats) : vmstats :=
  mkVmstats (vms_tlbfaults s) (vms_tlbfaultsfree s) (vms_tlbfaultsreplace s)
    (vms_tlbinvalidations s) (vms_tlbreloads s) (vms_pagefaultszeroed s)
    (u32 (vms_pagefaultsdisk s + 1)) (vms_pagefaultself s) (vms_pagefaultsswapfile s)
    (vms_swapfilewrites s).
Definition inc_pagefaultself (s : vmstats) : vmstats :=
  mkVmstats (vms_tlbfaults s) (vms_tlbfaultsfree s) (vms_tlbfaultsreplace s)
    (vms_tlbinvalidations s) (vms_tlbreloads s) (vms_pagefaultszeroed s) (vms_pagefaultsdisk s)
    (u32 (vms_pagefaultself s + 1)) (vms_pagefaultsswapfile s) (vms_swapfilewrites s).
Definition inc_pagefaultsswapfile (s : vmstats) : vmstats :=
  mkVmstats (vms_tlbfaults s) (vms_tlbfaultsfree s) (vms_tlbfaultsreplace s)
    (vms_tlbinvalidations s) (vms_tlbreloads s) (vms_pagefaultszeroed s) (vms_pagefaultsdisk s)
    (vms_pagefaultself s) (u32 (vms_pagefaultsswapfile s + 1)) (vms_swapfilewrites s).
Definition inc_swapfilewrites (s : vmstats) : vmstats :=
  mkVmstats (vms_tlbfaults s) (vms_tlbfaultsfree s) (vms_tlbfaultsreplace s)
    (vms_tlbinvalidations s) (vms_tlbreloads s) (vms_pagefaultszeroed s) (vms_pagefaultsdisk s)
    (vms_pagefaultself s) (vms_pagefaultsswapfile s) (u32 (vms_swapfilewrites s + 1)).

(** What [print_vm_stats] prints: the counters, then the warnings whose
    condition holds. *)
Inductive stat_line : Type :=
| Counter (label : string) (value : Z)
| Warning (text : string).

Definition warn_tlbfaults : string :=
  "TLB Faults should be equal to TLB Faults with Free + TLB Faults with Replace".
Definition warn_pagefaults : string :=
  "TLB Faults should be equal to TLB Reloads + Page Faults (Disk) + Page Faults (Zeroed)".
Definition warn_disk : string :=
  "Page Faults from Disk should be equal to Page Fauls from ELF + Page Faults (Disk)".

Definition print_vm_stats (s : vmstats) : list stat_line :=
  [ Counter "TLB Faults" (vms_tlbfaults s);
    Counter "TLB Faults with Free" (vms_tlbfaultsfree s);
    Counter "TLB Faults with Replace" (vms_tlbfaultsreplace s);
    Counter "TLB Invalidations" (vms_tlbinvalidations s);
    Counter "TLB Reloads" (vms_tlbreloads s);
    Counter "Page Faults (Zeroed)" (vms_pagefaultszeroed s);
    Counter "Page Faults (Disk)" (vms_pagefaultsdisk s);
    Counter "Page Faults from ELF" (vms_pagefaultself s);
    Counter "Page Faults from SWAPFILE" (vms_pagefaultsswapfile s);
    Counter "SWAPFILE Writes" (vms_swapfilewrites s) ] ++
  (if u32 (vms_tlbfaultsfree s + vms_tlbfaultsreplace s) =? vms_tlbfaults s
   then [] else [Warning warn_tlbfaults]) ++
  (if u32 (u32 (vms_tlbreloads s + vms_pagefaultsdisk s) + vms_pagefaultszeroed s)
        =? vms_tlbfaults s
   then [] else [Warning warn_pagefaults]) ++
  (if u32 (vms_pagefaultself s + vms_pagefaultsswapfile s) =? vms_pagefaultsdisk s
   then [] else [Warning warn_disk]).

(** The relations the three warnings test: every TLB fault is either placed in a
    free slot or replaces one; every TLB fault is a reload, a disk read or a
    zero-fill; every disk read is from the ELF file or from the swap file. *)
Definition balanced_tlb (s : vmstats) : Prop :=
  u32 (vms_tlbfaultsfree s + vms_tlbfaultsreplace s) = vms_tlbfaults s.
Definition balanced_pf (s : vmstats) : Prop :=
  u32 (u32 (vms_tlbreloads s + vms_pagefaultsdisk s) + vms_pagefaultszeroed s) = vms_tlbfaults s.
Definition balanced_disk (s : vmstats) : Prop :=
  u32 (vms_pagefaultself s + vms_pagefaultsswapfile s) = vms_pagefaultsdisk s.
Definition balanced (s : vmstats) : Prop := balanced_tlb s /\ balanced_pf s /\ balanced_disk s.

(** ** Theorems *)

Lemma u32_add_l a b : u32 (u32 a + b) = u32 (a + b).
Proof. unfold u32. by rewrite Zplus_mod_idemp_l. Qed.
Lemma u32_add_r a b : u32 (a + u32 b) = u32 (a + b).
Proof. unfold u32. by rewrite Zplus_mod_idemp_r. Qed.

(** A counter increment on each side of a balance keeps it, wrap-around included. *)
Lemma u32_inc_balance a b c : u32 (a + b) = c -> u32 (u32 (a + 1) + b) = u32 (c + 1).
Proof. intros <-. rewrite !u32_add_l. f_equal. lia. Qed.
Lemma u32_inc_balance_r a b c : u32 (a + b) = c -> u32 (a + u32 (b + 1)) = u32 (c + 1).
Proof. intros <-. rewrite u32_add_l, u32_add_r. f_equal. lia. Qed.

(** The statistics report ends with no warning exactly when the counters balance. *)
Lemma print_vm_stats_quiet s :
  (forall t, Warning t ∉ print_vm_stats s) <-> balanced s.
Proof.
  unfold print_vm_stats, balanced, balanced_tlb, balanced_pf, balanced_disk.
  repeat match goal with |- context [?a =? ?b] => destruct (Z.eqb_spec a b) end;
    (split; [intros H|intros (? & ? & ?)]); try (split_and!; done); try done;
    try (exfalso; eapply H; rewrite !elem_of_app, ?list_elem_of_singleton; eauto; fail).
  intros t Ht. rewrite !app_nil_r in Ht. repeat (apply elem_of_cons in Ht as [?|Ht]; [done|]).
  by apply not_elem_of_nil in Ht.
Qed.

End Vmstats.
