(* ===== verification/Tlb.v ===== *)
(** * kern/vm/vm_tlb.c and <mips/tlb.h>: the software-managed TLB *)
From S2P Require Import Prelude Vmstats.
Import Vmstats.

Module Tlb.

Definition NUM_TLB : Z := 64.
Definition TLBHI_VPAGE : Z := 0xfffff000.
Definition TLBLO_PPAGE : Z := 0xfffff000.
Definition TLBLO_DIRTY : Z := 0x400.
Definition TLBLO_VALID : Z := 0x200.
Definition TLBHI_INVALID (entryno : Z) : Z := u32 (Z.shiftl (0x80000 + entryno) 12).
Definition TLBLO_INVALID : Z := 0.

(** The TLB proper (pairs of the high and the low word of each entry) with the
    static [next_victim] of [tlb_getrrvictim], an [uint8_t]. *)
Record tlb : Type := mkTlb { entries : list (Z * Z); next_victim : Z }.

(** The processor's indexed read and write of an entry. *)
Definition tlb_read (t : tlb) (index : Z) : res (Z * Z) :=
  deref_r "tlb_read: index" (entries t !! Z.to_nat index).
Definition tlb_write (ehi elo index : Z) (t : tlb) : tlb :=
  mkTlb (<[Z.to_nat index := (ehi, elo)]> (entries t)) (next_victim t).

Definition tlb_getrrvictim (t : tlb) : Z * tlb :=
  (next_victim t, mkTlb (entries t) (u8 ((next_victim t + 1) mod NUM_TLB))).

(** The scan of [vmtlb_insert] for an entry without [TLBLO_VALID], from slot [i],
    with [n] slots to go. *)
Fixpoint find_invalid (t : tlb) (i : Z) (n : nat) : res (option Z) :=
  match n with
  | O => mret None
  | S n => '(_, elo) ← tlb_read t i;
           if Z.land elo TLBLO_VALID =? 0 then mret (Some i) else find_invalid t (i + 1) n
  end.

Definition vmtlb_insert (vaddr paddr : Z) (iswritable : bool) (t : tlb) (vs : vmstats)
  : res (Z * tlb * vmstats) :=
  free ← find_invalid t 0 (Z.to_nat NUM_TLB);
  match free with
  | Some i =>
      let ehi := vaddr in
      let elo := if iswritable then Z.lor (Z.lor paddr TLBLO_DIRTY) TLBLO_VALID
                 else Z.lor paddr TLBLO_VALID in
      mret (0, tlb_write ehi elo i t, inc_tlbfaultsfree vs)
  | None =>
      let '(victim, t) := tlb_getrrvictim t in
      if victim =? -1 then mret (EFAULT, t, vs)
      else
        let ehi := vaddr in
        let elo := Z.lor paddr TLBLO_VALID in
        let elo := if iswritable then Z.lor elo TLBLO_DIRTY else elo in
        mret (0, tlb_write ehi elo victim t, inc_tlbfaultsreplace vs)
  end.

Definition vmtlb_reset (t : tlb) (vs : vmstats) : tlb * vmstats :=
  (fold_left (fun t i => tlb_write (TLBHI_INVALID (Z.of_nat i)) TLBLO_INVALID (Z.of_nat i) t)
     (seq 0 (Z.to_nat NUM_TLB)) t,
   inc_tlbinvalidations vs).

(** ** The translation the processor performs

    An entry matches a page when its high word carries the page number; a match
    translates when it has [TLBLO_VALID]. *)
Definition valid (e : Z * Z) : bool := negb (Z.land (snd e) TLBLO_VALID =? 0).
Definition matches (vaddr : Z) (e : Z * Z) : Prop := Z.land (fst e) TLBHI_VPAGE = vaddr.
#[global] Instance matches_dec vaddr e : Decision (matches vaddr e) := Z.eq_dec _ _.

(** [Some (frame, writable)]: the access is translated without a fault. *)
Definition translate (t : tlb) (vaddr : Z) : option (Z * bool) :=
  match list_find (matches vaddr) (entries t) with
  | Some (_, e) =>
      if valid e then Some (Z.land (snd e) TLBLO_PPAGE, negb (Z.land (snd e) TLBLO_DIRTY =? 0))
      else None
  | None => None
  end.

(** The slot [vmtlb_insert] must use: the first invalid one, or else the
    round-robin victim. *)
Definition target_slot (t : tlb) : nat :=
  match list_find (fun e => valid e = false) (entries t) with
  | Some (i, _) => i
  | None => Z.to_nat (next_victim t)
  end.

(** Well-formed TLB: 64 entries, the victim counter in range, no page loaded in
    two slots, every high word a page address. *)
Definition tlb_wf (t : tlb) : Prop :=
  Z.of_nat (length (entries t)) = NUM_TLB /\
  0 <= next_victim t < NUM_TLB /\
  NoDup ((fun e => Z.land (fst e) TLBHI_VPAGE) <$> entries t).

(** A page-aligned physical address below 2^32. *)
Definition frame_addr (p : Z) : Prop := is_u32 p /\ p mod PAGE_SIZE = 0.

(** ** Theorems *)

Lemma find_invalid_spec t n i : (i + n = length (entries t))%nat ->
  find_invalid t (Z.of_nat i) n =
  Ok ((fun p => Z.of_nat (i + fst p)) <$> list_find (fun e => valid e = false) (drop i (entries t))).
Proof.
  revert i. induction n as [|n IH]; intros i Hi; simpl.
  - by rewrite drop_ge by lia.
  - unfold tlb_read. rewrite Nat2Z.id.
    destruct (lookup_lt_is_Some_2 (entries t) i ltac:(lia)) as [[hi lo] He].
    rewrite He. simpl. rewrite (drop_S _ _ _ He). simpl.
    case_decide as Hv; unfold valid in Hv; simpl in Hv.
    + apply negb_false_iff in Hv. rewrite Hv. simpl. by rewrite Nat.add_0_r.
    + apply not_false_is_true, negb_true_iff in Hv. rewrite Hv. replace (Z.of_nat i + 1) with (Z.of_nat (S i)) by lia. rewrite IH by lia.
      f_equal. destruct (list_find _ (drop (S i) (entries t))) as [[k e]|]; simpl; [|done].
      by rewrite Nat.add_succ_r.
Qed.

(** Setting flag bits below the page number does not disturb the frame number. *)
Lemma low_bits_clear p i : p mod PAGE_SIZE = 0 -> 0 <= i < 12 -> Z.testbit p i = false.
Proof.
  intros Hp Hi. rewrite <- (Z.mod_pow2_bits_low p 12) by lia.
  change (2 ^ 12) with PAGE_SIZE. rewrite Hp. apply Z.testbit_0_l.
Qed.

Lemma testbit_const_high c i : 0 <= c < 2 ^ 12 -> 12 <= i -> Z.testbit c i = false.
Proof. intros. apply (testbit_above c 12); lia. Qed.

(** The three flag layouts [vmtlb_insert] can write decode to what was asked. *)
Lemma entry_fields (p : Z) (w : bool) (elo : Z) : frame_addr p ->
  elo = Z.lor (Z.lor p (if w then TLBLO_DIRTY else 0)) TLBLO_VALID ->
  Z.land elo TLBLO_PPAGE = p /\ (Z.land elo TLBLO_DIRTY =? 0) = negb w /\
  (Z.land elo TLBLO_VALID =? 0) = false.
Proof.
  intros [Hp Hal] ->.
  change TLBLO_DIRTY with (Z.shiftl 1 10). change TLBLO_VALID with (Z.shiftl 1 9).
  assert (Hd : forall i, 0 <= i -> Z.testbit (if w then Z.shiftl 1 10 else 0) i = w && (i =? 10)).
  { intros i Hi. destruct w; [|apply Z.testbit_0_l]. rewrite Z.shiftl_1_l.
    simpl. destruct (Z.eqb_spec i 10) as [->|]; [done|]. apply Z.pow2_bits_false. lia. }
  split_and!.
  - change TLBLO_PPAGE with PAGE_FRAME.
    assert (Hr : is_u32 (Z.lor (Z.lor p (if w then Z.shiftl 1 10 else 0)) (Z.shiftl 1 9))).
    { apply range_of_bits; [lia| |].
      - rewrite !Z.lor_nonneg. unfold is_u32 in Hp. by destruct w; split_and!; try lia.
      - intros i Hi. rewrite lor_shiftl1_bits, Z.lor_spec, Hd by lia.
        rewrite (testbit_above p 32) by (done || lia).
        destruct (Z.eqb_spec i 9), (Z.eqb_spec i 10); try lia; by destruct w. }
    rewrite land_page_frame by done.
    replace (_ - _) with (Z.shiftl (Z.shiftr (Z.lor (Z.lor p (if w then Z.shiftl 1 10 else 0))
      (Z.shiftl 1 9)) 12) 12).
    2:{ rewrite Z.shiftr_div_pow2, Z.shiftl_mul_pow2 by lia. change (2 ^ 12) with PAGE_SIZE.
        match goal with |- ?x / _ * _ = _ => pose proof (Z.div_mod x PAGE_SIZE) end.
        unfold PAGE_SIZE in *. lia. }
    apply Z.bits_inj'. intros i Hi. destruct (Z.ltb_spec i 12).
    + rewrite Z.shiftl_spec_low by lia. symmetry. apply low_bits_clear; [done|lia].
    + rewrite Z.shiftl_spec, Z.shiftr_spec by lia. replace (i - 12 + 12) with i by lia.
      rewrite lor_shiftl1_bits, Z.lor_spec, Hd by lia.
      destruct (Z.eqb_spec i 9), (Z.eqb_spec i 10); try lia; by rewrite andb_false_r, orb_false_r.
  - rewrite land_shiftl1, lor_shiftl1_bits, Z.lor_spec, Hd by lia.
    rewrite low_bits_clear by (done || lia). by destruct w.
  - rewrite land_shiftl1, lor_shiftl1_bits by lia. done.
Qed.

Lemma elo_writable p : Z.lor (Z.lor p TLBLO_VALID) TLBLO_DIRTY = Z.lor (Z.lor p TLBLO_DIRTY) TLBLO_VALID.
Proof. rewrite <- !Z.lor_assoc. f_equal. Qed.

(** What one insertion does: it returns 0, writes the decoded entry in the target
    slot, leaves the other slots alone, and counts the fault as free or replace. *)
Lemma vmtlb_insert_spec (v p : Z) (w : bool) (t : tlb) (vs : vmstats) : tlb_wf t -> frame_addr p ->
  exists e t' vs', vmtlb_insert v p w t vs = Ok (0, t', vs') /\
    fst e = v /\ Z.land (snd e) TLBLO_PPAGE = p /\ negb (Z.land (snd e) TLBLO_DIRTY =? 0) = w /\
    valid e = true /\
    entries t' = <[target_slot t := e]> (entries t) /\ (target_slot t < length (entries t))%nat /\
    (if list_find (fun e => valid e = false) (entries t)
     then next_victim t' = next_victim t /\ vs' = inc_tlbfaultsfree vs
     else next_victim t' = (next_victim t + 1) mod NUM_TLB /\ vs' = inc_tlbfaultsreplace vs).
Proof.
  intros (Hlen & Hnv & Hnd) Hp. unfold vmtlb_insert, target_slot.
  assert (Hl : length (entries t) = Z.to_nat NUM_TLB) by lia.
  pose proof (find_invalid_spec t (Z.to_nat NUM_TLB) 0 ltac:(lia)) as Hf.
  change (Z.of_nat 0) with 0 in Hf. rewrite Hf, drop_0. unfold mbind, res_bind.
  destruct (list_find _ (entries t)) as [[i e0]|] eqn:Hfind; simpl.
  - apply list_find_Some in Hfind as (Hi & _). pose proof (lookup_lt_Some _ _ _ Hi).
    set (elo := if w then _ else _).
    destruct (entry_fields p w elo Hp) as (Hpp & Hd & Hv).
    { unfold elo. destruct w; [done|]. by rewrite Z.lor_0_r. }
    exists (v, elo). do 2 eexists. split; [reflexivity|]. simpl. rewrite Nat2Z.id.
    split_and!; try done. + rewrite Hd. by destruct w. + unfold valid; simpl. by rewrite Hv.
  - replace (next_victim t =? -1) with false by lia.
    set (elo := if w then _ else _).
    destruct (entry_fields p w elo Hp) as (Hpp & Hd & Hv).
    { unfold elo. destruct w; [apply elo_writable|]. by rewrite Z.lor_0_r. }
    exists (v, elo). do 2 eexists. split; [reflexivity|]. simpl.
    split_and!; try done; try lia.
    + rewrite Hd. by destruct w.
    + unfold valid; simpl. by rewrite Hv.
    + unfold u8. apply Z.mod_small. pose proof (Z.mod_pos_bound (next_victim t + 1) NUM_TLB).
      unfold NUM_TLB in *. lia.
Qed.

(** Replacing one slot keeps the TLB free of duplicates when the new page was
    not loaded. *)
Lemma nodup_insert (l : list (Z * Z)) i e v :
  NoDup ((fun e => Z.land (fst e) TLBHI_VPAGE) <$> l) -> Z.land (fst e) TLBHI_VPAGE = v ->
  Forall (fun e => ~ matches v e) l ->
  NoDup ((fun e => Z.land (fst e) TLBHI_VPAGE) <$> <[i := e]> l).
Proof.
  intros Hnd Hv Hno. rewrite list_fmap_insert, Hv. apply NoDup_alt. intros j k x Hj Hk.
  destruct (decide (i < length l)%nat) as [Hi|Hi].
  2:{ rewrite list_insert_ge in Hj, Hk by (rewrite length_fmap; lia).
      by eapply NoDup_lookup. }
  assert (Hmiss : forall m, ((fun e => Z.land (fst e) TLBHI_VPAGE) <$> l) !! m = Some v -> False).
  { intros m Hm. rewrite list_lookup_fmap in Hm. apply fmap_Some in Hm as (e' & He' & Hx).
    eapply Forall_lookup_1 in Hno; [|exact He']. by apply Hno. }
  destruct (decide (j = i)) as [->|Hji], (decide (k = i)) as [->|Hki]; [done| | |].
  - rewrite list_lookup_insert_eq in Hj by (rewrite length_fmap; lia). inv Hj.
    rewrite list_lookup_insert_ne in Hk by done. by apply Hmiss in Hk.
  - rewrite list_lookup_insert_eq in Hk by (rewrite length_fmap; lia). inv Hk.
    rewrite list_lookup_insert_ne in Hj by done. by apply Hmiss in Hj.
  - rewrite list_lookup_insert_ne in Hj, Hk by done. by eapply NoDup_lookup.
Qed.

(** In a TLB without duplicates the translation is decided by the unique slot
    that carries the page. *)
Lemma translate_at t i e v : tlb_wf t -> entries t !! i = Some e -> matches v e ->
  translate t v = if valid e
                  then Some (Z.land (snd e) TLBLO_PPAGE, negb (Z.land (snd e) TLBLO_DIRTY =? 0))
                  else None.
Proof.
  intros (_ & _ & Hnd) Hi Hm. unfold translate.
  destruct (list_find (matches v) (entries t)) as [[j e']|] eqn:Hf.
  - apply list_find_Some in Hf as (Hj & Hm' & _).
    assert (j = i) as ->; [|rewrite Hi in Hj; by simplify_eq].
    eapply (NoDup_lookup _ _ _ v Hnd); rewrite list_lookup_fmap; [rewrite Hj|rewrite Hi];
      simpl; by f_equal.
  - rewrite list_find_None in Hf. by eapply Forall_lookup_1 in Hf.
Qed.

Lemma translate_miss t v : Forall (fun e => ~ matches v e) (entries t) -> translate t v = None.
Proof. intros H. unfold translate. by rewrite (proj2 (list_find_None _ _) H). Qed.

(** Insertion of a page that is not loaded, with its effect on every page. *)
Lemma vmtlb_insert_translate (v p : Z) (w : bool) t vs : tlb_wf t -> frame_addr p ->
  Z.land v TLBHI_VPAGE = v -> Forall (fun e => ~ matches v e) (entries t) ->
  exists t' vs', vmtlb_insert v p w t vs = Ok (0, t', vs') /\ tlb_wf t' /\
    translate t' v = Some (p, w) /\
    (forall v', v' <> v -> (forall e, entries t !! target_slot t = Some e -> ~ matches v' e) ->
       translate t' v' = translate t v').
Proof.
  intros Hwf Hp Hv Hmiss.
  destruct (vmtlb_insert_spec v p w t vs Hwf Hp) as (e & t' & vs' & Hins & Hfst & Hpp & Hd & Hval &
    Hent & Hslot & Hst).
  exists t', vs'. pose proof Hwf as (Hlen & Hnv & Hnd).
  assert (Hwf' : tlb_wf t').
  { split_and!.
    - rewrite Hent, length_insert. done.
    - destruct (list_find _ (entries t)); destruct Hst as [-> _]; [lia|]. apply Z.mod_pos_bound. done.
    - destruct (list_find _ (entries t)); destruct Hst as [-> _]; [lia|]. apply Z.mod_pos_bound. done.
    - rewrite Hent. apply (nodup_insert _ _ _ v); [done|by rewrite Hfst|done]. }
  split_and!; [done|done| |].
  - rewrite (translate_at t' (target_slot t) e v Hwf');
      [by rewrite Hval, Hpp, Hd|by rewrite Hent, list_lookup_insert_eq|by unfold matches; rewrite Hfst].
  - intros v' Hne Hold. destruct (decide (Exists (matches v') (entries t))) as [Hex|Hno].
    + apply Exists_exists in Hex as (e' & He' & Hm'). apply list_elem_of_lookup in He' as [j Hj].
      assert (j <> target_slot t) by (intros ->; by eapply Hold).
      rewrite (translate_at t' j e' v'), (translate_at t j e' v'); try done.
      by rewrite Hent, list_lookup_insert_ne.
    + apply not_Exists_Forall in Hno; [|apply _]. rewrite (translate_miss t v') by done.
      apply translate_miss. rewrite Hent. apply Forall_insert; [done|].
      unfold matches. rewrite Hfst, Hv. congruence.
Qed.

(** loading a page that the TLB does not hold makes the processor translate
    it to exactly the given frame with exactly the given write permission, keeps
    every page in at most one slot, and changes the translation of no page other
    than the one held by the slot that was used. *)
Theorem vmtlb_insert_correct (v p : Z) (w : bool) t vs : tlb_wf t -> frame_addr p ->
  Z.land v TLBHI_VPAGE = v -> Forall (fun e => ~ matches v e) (entries t) ->
  exists t' vs', vmtlb_insert v p w t vs = Ok (0, t', vs') /\ tlb_wf t' /\
    translate t' v = Some (p, w) /\
    (forall v', v' <> v -> (forall e, entries t !! target_slot t = Some e -> ~ matches v' e) ->
       translate t' v' = translate t v').
Proof. apply vmtlb_insert_translate. Qed.

(** A TLB whose slots all hold one of the unmapped invalid translations. *)
Definition reset_entries : list (Z * Z) :=
  (fun i => (TLBHI_INVALID (Z.of_nat i), TLBLO_INVALID)) <$> seq 0 (Z.to_nat NUM_TLB).

Lemma reset_tlb_wf nv : 0 <= nv < NUM_TLB -> tlb_wf (mkTlb reset_entries nv).
Proof.
  intros Hnv. split_and!; cbn [entries next_victim]; [reflexivity|lia|lia|].
  apply (bool_decide_unpack _). by vm_compute.
Qed.

Lemma vmtlb_insert_correct_witness : exists t' vs',
  vmtlb_insert 0x400000 0x7000 true (mkTlb reset_entries 5) vms0 = Ok (0, t', vs') /\ tlb_wf t' /\
  translate t' 0x400000 = Some (0x7000, true) /\
  (forall v', v' <> 0x400000 ->
     (forall e, reset_entries !! target_slot (mkTlb reset_entries 5) = Some e -> ~ matches v' e) ->
     translate t' v' = translate (mkTlb reset_entries 5) v').
Proof.
  apply (vmtlb_insert_correct 0x400000 0x7000 true (mkTlb reset_entries 5) vms0).
  - apply reset_tlb_wf. unfold NUM_TLB. lia.
  - split; [unfold is_u32; lia|reflexivity].
  - reflexivity.
  - apply (bool_decide_unpack _). by vm_compute.
Defined.

(** One pass of the reset loop, started at slot [i] with the slots below done. *)
Lemma reset_loop n : forall i t, (i + n = length (entries t))%nat ->
  take i (entries t) = (fun i => (TLBHI_INVALID (Z.of_nat i), TLBLO_INVALID)) <$> seq 0 i ->
  let t' := fold_left (fun t i => tlb_write (TLBHI_INVALID (Z.of_nat i)) TLBLO_INVALID (Z.of_nat i) t)
     (seq i n) t in
  entries t' = (fun i => (TLBHI_INVALID (Z.of_nat i), TLBLO_INVALID)) <$> seq 0 (i + n) /\
  next_victim t' = next_victim t.
Proof.
  induction n as [|n IH]; intros i t Hlen Htake; simpl.
  - split; [|done]. rewrite Nat.add_0_r. rewrite <- Htake. by rewrite take_ge by lia.
  - replace (i + S n)%nat with (S i + n)%nat by lia.
    edestruct (IH (S i) (tlb_write (TLBHI_INVALID (Z.of_nat i)) TLBLO_INVALID (Z.of_nat i) t))
      as [He Hnv].
    + simpl. rewrite length_insert. lia.
    + cbn [entries tlb_write]. rewrite Nat2Z.id.
      rewrite (take_S_r _ _ (TLBHI_INVALID (Z.of_nat i), TLBLO_INVALID))
        by (apply list_lookup_insert_eq; lia).
      rewrite take_insert_ge by lia. rewrite Htake, seq_S, fmap_app. done.
    + by rewrite He, Hnv.
Qed.

(** [vmtlb_reset] leaves no translation at all, for any address, in a
    well-formed TLB whatever its contents were, keeps the round-robin position
    and counts one invalidation. *)
Theorem vmtlb_reset_invalidates t vs :
  Z.of_nat (length (entries t)) = NUM_TLB -> 0 <= next_victim t < NUM_TLB ->
  let '(t', vs') := vmtlb_reset t vs in
  tlb_wf t' /\ (forall v, translate t' v = None) /\ next_victim t' = next_victim t /\
  vs' = inc_tlbinvalidations vs.
Proof.
  intros Hlen Hnv. unfold vmtlb_reset.
  destruct (reset_loop (Z.to_nat NUM_TLB) 0 t) as [He Hv]; [lia|done|]. cbv zeta in He, Hv.
  set (t' := fold_left _ _ _) in *. rewrite Nat.add_0_l in He.
  assert (t' = mkTlb reset_entries (next_victim t)) as ->.
  { destruct t' as [es nv]. cbn [entries next_victim] in He, Hv. rewrite He, Hv. reflexivity. }
  split_and!; [apply reset_tlb_wf; lia| |reflexivity|reflexivity].
  intros v. unfold translate. cbn [entries]. destruct (list_find (matches v) reset_entries) as [[i e]|] eqn:Hf; [|done].
  apply list_find_Some in Hf as (Hi & _). unfold reset_entries in Hi.
  rewrite list_lookup_fmap in Hi. apply fmap_Some in Hi as (k & _ & ->). done.
Qed.

Lemma vmtlb_reset_invalidates_witness :
  let '(t', vs') := vmtlb_reset (mkTlb (replicate 64 (0x400000, 0x7600)) 3) vms0 in
  tlb_wf t' /\ (forall v, translate t' v = None) /\ next_victim t' = 3 /\
  vs' = inc_tlbinvalidations vms0.
Proof.
  apply (vmtlb_reset_invalidates (mkTlb (replicate 64 (0x400000, 0x7600)) 3) vms0).
  - reflexivity.
  - simpl. unfold NUM_TLB. lia.
Defined.

End Tlb.
