(* ===== verification/Ram.v ===== *)
(** * kern/arch/mips/vm/ram.c: physical memory before the VM system runs *)
From S2P Require Import Prelude.

Module Ram.

(** The statics [firstpaddr] and [lastpaddr]. *)
Record ram : Type := mkRam { firstpaddr : Z; lastpaddr : Z }.

(** [mainbus_ramsize] is the size the bus reports, [firstfree] the first free
    kernel virtual address left by start.S. *)
Definition ram_bootstrap (mainbus_ramsize firstfree : Z) : ram :=
  let ramsize := if 512 * 1024 * 1024 <? mainbus_ramsize then 512 * 1024 * 1024
                 else mainbus_ramsize in
  mkRam (u32 (firstfree - MIPS_KSEG0)) ramsize.

(** 0 is the error value. *)
Definition ram_stealmem (npages : Z) (r : ram) : Z * ram :=
  let size := u32 (npages * PAGE_SIZE) in
  if lastpaddr r <? u32 (firstpaddr r + size) then (0, r)
  else (firstpaddr r, mkRam (u32 (firstpaddr r + size)) (lastpaddr r)).

Definition ram_getsize (r : ram) : Z := lastpaddr r.

Definition ram_getfirstfree (r : ram) : Z * ram := (firstpaddr r, mkRam 0 0).

(** A booted machine: page-aligned bounds within the 512 MB of kseg0, with the
    exception page below the first free address. *)
Definition ram_wf (r : ram) : Prop :=
  firstpaddr r mod PAGE_SIZE = 0 /\ lastpaddr r mod PAGE_SIZE = 0 /\
  PAGE_SIZE <= firstpaddr r <= lastpaddr r /\ lastpaddr r <= 512 * 1024 * 1024.

(** A sequence of early allocations, as the boot code performs them: the
    addresses handed out and the final state. *)
Fixpoint steal_all (reqs : list Z) (r : ram) : list Z * ram :=
  match reqs with
  | [] => ([], r)
  | n :: reqs =>
      let '(p, r) := ram_stealmem n r in
      let '(ps, r) := steal_all reqs r in
      (p :: ps, r)
  end.

(** ** Theorems *)

Lemma ram_stealmem_spec n r : ram_wf r -> 0 <= n < 2 ^ 19 ->
  let '(p, r') := ram_stealmem n r in
  ram_wf r' /\ lastpaddr r' = lastpaddr r /\
  if firstpaddr r + n * PAGE_SIZE <=? lastpaddr r
  then p = firstpaddr r /\ firstpaddr r' = firstpaddr r + n * PAGE_SIZE
  else p = 0 /\ r' = r.
Proof.
  intros (Ha & Hl & Hf & Hm) Hn. unfold ram_stealmem.
  unfold PAGE_SIZE in *. rewrite (u32_small (n * 4096)) by (unfold is_u32; lia).
  rewrite u32_small by (unfold is_u32; lia).
  destruct (Z.leb_spec (firstpaddr r + n * 4096) (lastpaddr r)).
  - replace (lastpaddr r <? firstpaddr r + n * 4096) with false by lia. split_and!; try done.
    split_and!; simpl; unfold PAGE_SIZE; try lia. rewrite Z.mod_add; lia.
  - replace (lastpaddr r <? firstpaddr r + n * 4096) with true by lia. done.
Qed.

Lemma steal_all_spec reqs : forall r, ram_wf r -> Forall (fun n => 0 <= n < 2 ^ 19) reqs ->
  let '(ps, r') := steal_all reqs r in
  ram_wf r' /\ lastpaddr r' = lastpaddr r /\ firstpaddr r <= firstpaddr r' /\
  length ps = length reqs /\
  (forall i p n, ps !! i = Some p -> reqs !! i = Some n -> p <> 0 ->
     p mod PAGE_SIZE = 0 /\ firstpaddr r <= p /\ p + n * PAGE_SIZE <= firstpaddr r') /\
  (forall i j p q n, (i < j)%nat -> ps !! i = Some p -> ps !! j = Some q -> reqs !! i = Some n ->
     p <> 0 -> q <> 0 -> p + n * PAGE_SIZE <= q).
Proof.
  induction reqs as [|n reqs IH]; intros r Hwf Hn; simpl.
  - split_and!; try done; lia.
  - inv Hn. pose proof (ram_stealmem_spec n r Hwf H1) as Hs.
    destruct (ram_stealmem n r) as [p r1]. destruct Hs as (Hwf1 & Hl1 & Hs).
    specialize (IH r1 Hwf1 H2). destruct (steal_all reqs r1) as [ps r'].
    destruct IH as (Hwf' & Hl' & Hle & Hlen & Hin & Hord).
    assert (Hp : p <> 0 -> p = firstpaddr r /\ firstpaddr r1 = firstpaddr r + n * PAGE_SIZE)
      by (destruct (_ <=? _); naive_solver).
    assert (Hle1 : firstpaddr r <= firstpaddr r1)
      by (unfold PAGE_SIZE in *; destruct (_ <=? _); [lia|destruct Hs as [_ ->]; lia]).
    split_and!; [done|lia|lia|simpl; lia| |].
    + intros [|i] q k Hq Hk Hne; simpl in *.
      * simplify_eq. destruct (Hp Hne) as [-> Hf1]. split_and!; [apply Hwf|lia|lia].
      * destruct (Hin i q k Hq Hk Hne) as (? & ? & ?). split_and!; [done|lia|lia].
    + intros [|i] [|j] a b k Hij Ha Hb Hk Hna Hnb; simpl in *; try lia.
      * simplify_eq. destruct (Hp Hna) as [-> Hf1].
        destruct (lookup_lt_is_Some_2 reqs j) as [k' Hk'].
        { apply lookup_lt_Some in Hb. lia. }
        destruct (Hin j b k' Hb Hk' Hnb) as (? & ? & ?). lia.
      * eapply (Hord i j); eauto; lia.
Qed.

(** the early allocator never hands out the same physical memory twice.
    For any sequence of requests (of less than 2 GB each), every non-zero answer
    is page-aligned, at or above the first free address and, with its pages,
    below the new first free address, which stays within RAM; the ranges of two
    different requests are disjoint and ascending. *)
Theorem ram_steal_disjoint reqs r : ram_wf r -> Forall (fun n => 0 <= n < 2 ^ 19) reqs ->
  let '(ps, r') := steal_all reqs r in
  ram_wf r' /\ lastpaddr r' = lastpaddr r /\
  (forall i p n, ps !! i = Some p -> reqs !! i = Some n -> p <> 0 ->
     p mod PAGE_SIZE = 0 /\ firstpaddr r <= p /\ p + n * PAGE_SIZE <= firstpaddr r') /\
  (forall i j p q n, (i < j)%nat -> ps !! i = Some p -> ps !! j = Some q -> reqs !! i = Some n ->
     p <> 0 -> q <> 0 -> p + n * PAGE_SIZE <= q).
Proof.
  intros Hwf Hn. pose proof (steal_all_spec reqs r Hwf Hn) as H.
  destruct (steal_all reqs r). naive_solver.
Qed.

Lemma ram_steal_disjoint_witness :
  let '(ps, r') := steal_all [1; 2; 400; 1] (ram_bootstrap 0x100000 0x80030000) in
  ram_wf r' /\ lastpaddr r' = 0x100000 /\
  (forall i p n, ps !! i = Some p -> [1; 2; 400; 1] !! i = Some n -> p <> 0 ->
     p mod PAGE_SIZE = 0 /\ 0x30000 <= p /\ p + n * PAGE_SIZE <= firstpaddr r') /\
  (forall i j p q n, (i < j)%nat -> ps !! i = Some p -> ps !! j = Some q ->
     [1; 2; 400; 1] !! i = Some n -> p <> 0 -> q <> 0 -> p + n * PAGE_SIZE <= q).
Proof.
  apply (ram_steal_disjoint [1; 2; 400; 1] (ram_bootstrap 0x100000 0x80030000)).
  - split_and!; try reflexivity; vm_compute; discriminate.
  - repeat constructor; lia.
Defined.

End Ram.
