(* ===== verification/Segments.v ===== *)
(** * kern/vm/segments.c, with the region setup of kern/vm/addrspace.c *)
From S2P Require Import Prelude.

Module Segments.

Definition NUM_SEGMENTS : Z := 3.
Definition STACK_PAGES : Z := 18.

(** struct segment; [elf_file] is the vnode, 0 for NULL. *)
Record segment : Type := mkSegment {
  vbase : Z; vtop : Z; npages : Z;
  readable : bool; writable : bool; executable : bool;
  elf_file : Z; elf_segment_start : Z; elf_base_offset : Z
}.

(** The condition both searches test; both bounds are inclusive. *)
Definition in_segment (vaddr : Z) (s : segment) : Prop := vbase s <= vaddr <= vtop s.
#[global] Instance in_segment_dec vaddr s : Decision (in_segment vaddr s) := _.

Definition segments_valid_address (segments : list segment) (vaddr : Z) : Z :=
  match list_find (in_segment vaddr) (take (Z.to_nat NUM_SEGMENTS) segments) with
  | Some _ => 0
  | None => EINVAL
  end.

Definition segments_find_segment (segments : list segment) (vaddr : Z) : option segment :=
  snd <$> list_find (in_segment vaddr) (take (Z.to_nat NUM_SEGMENTS) segments).

(** The three out-parameters [paddr], [elf_offset], [page_size] are returned. *)
Definition segments_before_load (s : segment) (vaddr paddr elf_offset page_size : Z)
  : Z * Z * Z :=
  let page_index := u32 (vaddr - vbase s) / PAGE_SIZE in
  if page_index =? 0 then
    (u32 (paddr + elf_base_offset s), elf_segment_start s, u32 (PAGE_SIZE - elf_base_offset s))
  else if page_index <? npages s then
    let first_psize := u32 (PAGE_SIZE - elf_base_offset s) in
    (paddr, u32 (elf_segment_start s + first_psize + (page_index - 1) * PAGE_SIZE), PAGE_SIZE)
  else (paddr, elf_offset, page_size).

(** The segment [as_define_region] stores for a region (the OPT_PAGING branch). *)
Definition region_segment (vaddr sz readable writeable executable v offset : Z) : segment :=
  let page_displ := Z.land vaddr (u32 (Z.lnot PAGE_FRAME)) in
  let sz := u32 (sz + page_displ) in
  let vaddr := Z.land vaddr PAGE_FRAME in
  let sz := Z.land (u32 (sz + PAGE_SIZE - 1)) PAGE_FRAME in
  let npages := sz / PAGE_SIZE in
  mkSegment vaddr (u32 (vaddr + npages * PAGE_SIZE)) npages
    (negb (readable =? 0)) (negb (writeable =? 0)) (negb (executable =? 0))
    v offset page_displ.

(** The segment [as_define_stack] stores over the old contents [s]; [npages] and
    [elf_segment_start] are not assigned. *)
Definition stack_segment (s : segment) (stackptr : Z) : segment :=
  mkSegment (u32 (stackptr - STACK_PAGES * PAGE_SIZE)) stackptr (npages s) true true false
    0 (elf_segment_start s) 0.

(** ** Theorems *)

Lemma region_segment_spec vaddr sz r w x v off :
  is_u32 vaddr -> 0 <= sz -> vaddr + sz <= 2 ^ 32 - PAGE_SIZE ->
  let s := region_segment vaddr sz r w x v off in
  vbase s = vaddr - vaddr mod PAGE_SIZE /\ elf_base_offset s = vaddr mod PAGE_SIZE /\
  vtop s = vbase s + npages s * PAGE_SIZE /\ vaddr + sz <= vtop s /\
  (0 < sz -> vtop s < vaddr + sz + PAGE_SIZE) /\ 0 <= npages s.
Proof.
  intros Hv Hsz Hov. unfold region_segment; cbn [vbase vtop npages elf_base_offset].
  change (u32 (Z.lnot PAGE_FRAME)) with 0xfff. rewrite land_page_offset.
  pose proof (Z.mod_pos_bound vaddr PAGE_SIZE). pose proof (Z.div_mod vaddr PAGE_SIZE).
  unfold PAGE_SIZE, is_u32 in *.
  rewrite (u32_small (sz + _)) by (unfold is_u32; lia).
  rewrite (u32_small (sz + _ + _ - _)) by (unfold is_u32; lia).
  rewrite (land_page_frame vaddr) by done.
  rewrite land_page_frame by (unfold is_u32; lia). unfold PAGE_SIZE.
  set (top := sz + vaddr mod 4096 + 4096 - 1).
  pose proof (Z.div_mod top 4096). pose proof (Z.mod_pos_bound top 4096).
  replace (top - top mod 4096) with (top / 4096 * 4096) by lia. rewrite Z.div_mul by lia.
  assert (0 <= top / 4096) by (apply Z.div_pos; lia).
  rewrite u32_small by (unfold is_u32; lia). split_and!; lia.
Qed.

(** [as_define_region] covers the region: for a region that does not run
    into the last page of the address space, the stored segment starts at the
    page boundary at or below it, ends less than a page above it, is a whole
    number of pages and remembers the displacement of the region in its first
    page. *)
Theorem define_region_covers vaddr sz r w x v off :
  is_u32 vaddr -> 0 < sz -> vaddr + sz <= 2 ^ 32 - PAGE_SIZE ->
  let s := region_segment vaddr sz r w x v off in
  (forall a, vaddr <= a < vaddr + sz -> in_segment a s) /\
  vbase s mod PAGE_SIZE = 0 /\ vtop s mod PAGE_SIZE = 0 /\
  vbase s + elf_base_offset s = vaddr /\ vaddr - PAGE_SIZE < vbase s /\
  vtop s < vaddr + sz + PAGE_SIZE /\ vtop s = vbase s + npages s * PAGE_SIZE.
Proof.
  intros Hv Hsz Hov s.
  destruct (region_segment_spec vaddr sz r w x v off Hv ltac:(lia) Hov) as
    (Hb & Ho & Ht & Hc & Hu & Hn). fold s in Hb, Ho, Ht, Hc, Hu, Hn.
  pose proof (Z.mod_pos_bound vaddr PAGE_SIZE ltac:(unfold PAGE_SIZE; lia)).
  pose proof (Z.div_mod vaddr PAGE_SIZE ltac:(unfold PAGE_SIZE; lia)).
  assert (Hbm : vbase s mod PAGE_SIZE = 0).
  { rewrite Hb. replace (vaddr - _) with (vaddr / PAGE_SIZE * PAGE_SIZE) by lia. apply Z.mod_mul. done. }
  split_and!; try lia.
  - intros a Ha. unfold in_segment. lia.
  - rewrite Ht, Z.mod_add by done. done.
Qed.

Lemma define_region_covers_witness :
  let s := region_segment 0x400120 0x2f00 4 0 1 7 0x120 in
  (forall a, 0x400120 <= a < 0x400120 + 0x2f00 -> in_segment a s) /\
  vbase s mod PAGE_SIZE = 0 /\ vtop s mod PAGE_SIZE = 0 /\
  vbase s + elf_base_offset s = 0x400120 /\ 0x400120 - PAGE_SIZE < vbase s /\
  vtop s < 0x400120 + 0x2f00 + PAGE_SIZE /\ vtop s = vbase s + npages s * PAGE_SIZE.
Proof. apply define_region_covers; unfold is_u32, PAGE_SIZE; lia. Defined.

(** The window [segments_before_load] chooses for the page at [vaddr]. *)
Lemma before_load_window s vaddr paddr eo ps :
  vbase s mod PAGE_SIZE = 0 -> vaddr mod PAGE_SIZE = 0 -> 0 <= vbase s ->
  is_u32 vaddr -> vbase s <= vaddr < vbase s + npages s * PAGE_SIZE ->
  0 <= elf_base_offset s < PAGE_SIZE -> 0 <= paddr < 2 ^ 32 - PAGE_SIZE ->
  0 <= elf_segment_start s -> elf_segment_start s + (vaddr - vbase s) + PAGE_SIZE < 2 ^ 32 ->
  segments_before_load s vaddr paddr eo ps =
  if vaddr =? vbase s
  then (paddr + elf_base_offset s, elf_segment_start s, PAGE_SIZE - elf_base_offset s)
  else (paddr, elf_segment_start s + (vaddr - (vbase s + elf_base_offset s)), PAGE_SIZE).
Proof.
  intros Hb Hv Hb0 Hu Hin Ho Hp Hs Hsum. unfold segments_before_load.
  pose proof (Z.div_mod (vbase s) PAGE_SIZE ltac:(done)).
  pose proof (Z.div_mod vaddr PAGE_SIZE ltac:(done)).
  unfold PAGE_SIZE, is_u32 in *. rewrite (u32_small (vaddr - vbase s)) by (unfold is_u32; lia).
  assert (Hq : (vaddr - vbase s) / 4096 = vaddr / 4096 - vbase s / 4096).
  { replace (vaddr - vbase s) with ((vaddr / 4096 - vbase s / 4096) * 4096) by lia.
    by rewrite Z.div_mul. }
  rewrite Hq. destruct (Z.eqb_spec vaddr (vbase s)) as [->|Hne].
  - rewrite Z.sub_diag. simpl. rewrite !u32_small by (unfold is_u32; lia). done.
  - replace (vaddr / 4096 - vbase s / 4096 =? 0) with false by lia.
    replace (vaddr / 4096 - vbase s / 4096 <? npages s) with true by lia.
    rewrite (u32_small (4096 - _)) by (unfold is_u32; lia).
    f_equal. f_equal. rewrite u32_small by (unfold is_u32; lia). lia.
Qed.

(** Demand loading reads the right file bytes: for every page of a segment
    the transfer window chosen by [segments_before_load] puts, at each byte of
    the frame that belongs to the region, the byte of the file at the region's
    file offset plus the distance of that address from the region's start; the
    window starts at the region's first byte in the first page, at the page
    boundary in every other one, and ends with the page. *)
Theorem before_load_offsets s vaddr paddr eo ps :
  vbase s mod PAGE_SIZE = 0 -> vaddr mod PAGE_SIZE = 0 -> 0 <= vbase s ->
  is_u32 vaddr -> vbase s <= vaddr < vbase s + npages s * PAGE_SIZE ->
  0 <= elf_base_offset s < PAGE_SIZE -> 0 <= paddr < 2 ^ 32 - PAGE_SIZE ->
  0 <= elf_segment_start s -> elf_segment_start s + (vaddr - vbase s) + PAGE_SIZE < 2 ^ 32 ->
  let region_start := vbase s + elf_base_offset s in
  let '(paddr', eo', ps') := segments_before_load s vaddr paddr eo ps in
  paddr' = paddr + (Z.max vaddr region_start - vaddr) /\
  paddr' + ps' = paddr + PAGE_SIZE /\
  forall k, 0 <= k < ps' ->
    eo' + k = elf_segment_start s + ((vaddr + (paddr' + k - paddr)) - region_start).
Proof.
  intros. rewrite before_load_window by done. destruct (Z.eqb_spec vaddr (vbase s)) as [->|Hne].
  - split_and!; [lia|lia|]. intros; lia.
  - pose proof (Z.div_mod (vbase s) PAGE_SIZE ltac:(done)).
    pose proof (Z.div_mod vaddr PAGE_SIZE ltac:(done)). unfold PAGE_SIZE in *.
    split_and!; [lia|lia|]. intros; lia.
Qed.

Lemma before_load_offsets_witness :
  let s := region_segment 0x400120 0x2f00 4 0 1 7 0x120 in
  let region_start := vbase s + elf_base_offset s in
  let '(paddr', eo', ps') := segments_before_load s 0x401000 0x9000 0 PAGE_SIZE in
  paddr' = 0x9000 + (Z.max 0x401000 region_start - 0x401000) /\
  paddr' + ps' = 0x9000 + PAGE_SIZE /\
  forall k, 0 <= k < ps' ->
    eo' + k = elf_segment_start s + ((0x401000 + (paddr' + k - 0x9000)) - region_start).
Proof.
  apply (before_load_offsets (region_segment 0x400120 0x2f00 4 0 1 7 0x120));
    try reflexivity; try (split; reflexivity || (vm_compute; discriminate)); vm_compute; discriminate.
Defined.

(** Both searches accept the address one past the end of a segment: the
    upper bound test is inclusive, so a page-aligned [vtop] is taken to be inside
    the segment although the region ends before it. *)
Theorem find_segment_accepts_vtop s rest :
  vbase s <= vtop s ->
  segments_find_segment (s :: rest) (vtop s) = Some s /\
  segments_valid_address (s :: rest) (vtop s) = 0.
Proof.
  intros H. unfold segments_find_segment, segments_valid_address.
  change (Z.to_nat NUM_SEGMENTS) with 3%nat. simpl.
  rewrite !decide_True by (unfold in_segment; lia). done.
Qed.

Lemma find_segment_accepts_vtop_witness :
  segments_find_segment [region_segment 0x400000 0x1000 4 0 1 7 0] 0x401000
    = Some (region_segment 0x400000 0x1000 4 0 1 7 0) /\
  segments_valid_address [region_segment 0x400000 0x1000 4 0 1 7 0] 0x401000 = 0.
Proof.
  apply (find_segment_accepts_vtop (region_segment 0x400000 0x1000 4 0 1 7 0) []).
  vm_compute. discriminate.
Defined.

End Segments.
