(* ===== verification/Kmalloc.v ===== *)
(** * kern/vm/kmalloc.c: the kernel heap

    The configuration compiled has SLOW, SLOWER, GUARDS, LABELS, CHECKBEEF and
    CHECKGUARDS undefined, so the checking passes are empty.  The free list that
    the C code threads through the first word of the free blocks of a page is the
    list of their offsets; [freelist_offset] is its head. *)
From S2P Require Import Prelude.

Module Kmalloc.

Definition NSIZES : Z := 8.
Definition sizes : list Z := [16; 32; 64; 128; 256; 512; 1024; 2048].
Definition LARGEST_SUBPAGE_SIZE : Z := 2048.
Definition INVALID_OFFSET : Z := 0xffff.
(** [sizeof(struct pageref)] is 16, so a page holds 256 of them. *)
Definition SIZEOF_PAGEREF : Z := 16.
Definition NPAGEREFS_PER_PAGE : Z := PAGE_SIZE / SIZEOF_PAGEREF.
Definition INUSE_WORDS : Z := NPAGEREFS_PER_PAGE / 32.
Definition NUM_PAGEREFPAGES : Z := 16.

(** struct pageref; the links are in [sizebases] and [allbase] below. *)
Record pageref : Type := mkPageref {
  pageaddr_and_blocktype : Z;
  freelist : list Z;
  nfree : Z
}.

Definition freelist_offset (pr : pageref) : Z :=
  match freelist pr with o :: _ => o | [] => INVALID_OFFSET end.

Definition PR_PAGEADDR (pr : pageref) : Z := Z.land (pageaddr_and_blocktype pr) PAGE_FRAME.
Definition PR_BLOCKTYPE (pr : pageref) : Z :=
  Z.land (pageaddr_and_blocktype pr) (u32 (Z.lnot PAGE_FRAME)).
Definition MKPAB (pa blk : Z) : Z :=
  Z.lor (Z.land pa PAGE_FRAME) (Z.land blk (u32 (Z.lnot PAGE_FRAME))).

(** struct kheap_root: a page of pagerefs (0 when there is none), the bitmap of
    the ones in use and their number. *)
Record kheap_root : Type := mkRoot { page : Z; pagerefs_inuse : list Z; numinuse : Z }.

(** The statics of kmalloc.c: [kheaproots], the pagerefs by address, and the
    heads of the linked lists as the lists of the pagerefs on them. *)
Record kheap : Type := mkKheap {
  kheaproots : list kheap_root;
  pagerefs : gmap Z pageref;
  sizebases : list (list Z);
  allbase : list Z
}.

Definition empty_root : kheap_root := mkRoot 0 (replicate (Z.to_nat INUSE_WORDS) 0) 0.
Definition kheap0 : kheap :=
  mkKheap (replicate (Z.to_nat NUM_PAGEREFPAGES) empty_root) ∅
    (replicate (Z.to_nat NSIZES) []) [].

Definition set_roots (r : list kheap_root) (h : kheap) : kheap :=
  mkKheap r (pagerefs h) (sizebases h) (allbase h).
Definition set_pageref (a : Z) (pr : pageref) (h : kheap) : kheap :=
  mkKheap (kheaproots h) (<[a := pr]> (pagerefs h)) (sizebases h) (allbase h).
Definition set_lists (sb : list (list Z)) (ab : list Z) (h : kheap) : kheap :=
  mkKheap (kheaproots h) (pagerefs h) sb ab.

(** Unlinking the first node equal to [x], as the [guy] loops do. *)
Fixpoint unlink (x : Z) (l : list Z) : list Z :=
  match l with
  | [] => []
  | y :: l => if y =? x then l else y :: unlink x l
  end.

(** The state the heap lives in, and the page allocator underneath it. *)
Class HeapState (S : Type) : Type := { heap_of : S -> kheap; set_heap : kheap -> S -> S }.
Class FreePages (S : Type) : Type := free_kpages : Z -> M S unit.
Class AllocPages (S : Type) : Type := alloc_kpages : Z -> M S Z.

Section Free.
Context {S : Type} {HS : HeapState S} {FP : FreePages S}.

Definition get_pageref (a : Z) : M S pageref := fun s =>
  deref "pageref" (pagerefs (heap_of s) !! a) s.

Definition modify_heap (f : kheap -> kheap) : M S unit := fun s =>
  Done tt (set_heap (f (heap_of s)) s).

Definition remove_lists (pr blktype : Z) : M S unit :=
  kassert "blktype>=0 && blktype<NSIZES" ((0 <=? blktype) && (blktype <? NSIZES));;
  modify_heap (fun h =>
    set_lists (alter (unlink pr) (Z.to_nat blktype) (sizebases h)) (unlink pr (allbase h)) h).

(** The loop of [freepageref] over the roots, [i] being the next one. *)
Fixpoint freepageref_loop (p : Z) (i : nat) (roots : list kheap_root) : res (nat * kheap_root) :=
  match roots with
  | [] => Err (AssertFailed "0: pageref wasn't on any of the pages")
  | root :: roots =>
      if page root =? 0 then
        kassert_r "root->numinuse == 0" (numinuse root =? 0);;
        freepageref_loop p (Datatypes.S i) roots
      else
        let j := u32 ((p - page root) / SIZEOF_PAGEREF) in
        if j <? NPAGEREFS_PER_PAGE then
          let w := Z.to_nat (j / 32) in
          let k := Z.shiftl 1 (j mod 32) in
          word ← deref_r "root->pagerefs_inuse[i]" (pagerefs_inuse root !! w);
          kassert_r "(root->pagerefs_inuse[i] & k) != 0" (negb (Z.land word k =? 0));;
          kassert_r "root->numinuse > 0" (0 <? numinuse root);;
          mret (i, mkRoot (page root)
                     (<[w := Z.land word (u32 (Z.lnot k))]> (pagerefs_inuse root))
                     (numinuse root - 1))
        else freepageref_loop p (Datatypes.S i) roots
  end.

Definition freepageref (p : Z) : M S unit :=
  h ← gets heap_of;
  '(i, root) ← lift (freepageref_loop p 0 (kheaproots h));
  modify_heap (fun h => set_roots (<[i := root]> (kheaproots h)) h).

(** The search of [subpage_kfree]: the pageref whose page holds [ptraddr]. *)
Fixpoint find_page (ptraddr : Z) (l : list Z) : M S (option (Z * pageref)) :=
  match l with
  | [] => mret None
  | a :: l =>
      pr ← get_pageref a;
      kassert "blktype >= 0 && blktype < NSIZES"
        ((0 <=? PR_BLOCKTYPE pr) && (PR_BLOCKTYPE pr <? NSIZES));;
      if (PR_PAGEADDR pr <=? ptraddr) && (ptraddr <? u32 (PR_PAGEADDR pr + PAGE_SIZE))
      then mret (Some (a, pr)) else find_page ptraddr l
  end.

Definition blocksize (blktype : Z) : M S Z :=
  deref "sizes[blktype]" (sizes !! Z.to_nat blktype).

(** 0, or -1 when the pointer is on no heap page. *)
Definition subpage_kfree (ptraddr : Z) : M S Z :=
  h ← gets heap_of;
  found ← find_page ptraddr (allbase h);
  match found with
  | None => mret (-1)
  | Some (a, pr) =>
      let prpage := PR_PAGEADDR pr in
      let blktype := PR_BLOCKTYPE pr in
      let offset := u32 (ptraddr - prpage) in
      sz ← blocksize blktype;
      (if (PAGE_SIZE <=? offset) || negb (offset mod sz =? 0)
       then panic "kfree: subpage free of invalid addr" else mret tt);;
      (if freelist_offset pr =? INVALID_OFFSET then mret tt
       else kassert "fl != fl->next" (negb (offset =? freelist_offset pr)));;
      let pr' := mkPageref (pageaddr_and_blocktype pr) (offset :: freelist pr)
                   (u16 (nfree pr + 1)) in
      modify_heap (set_pageref a pr');;
      kassert "pr->nfree <= PAGE_SIZE / sizes[blktype]" (nfree pr' <=? PAGE_SIZE / sz);;
      if nfree pr' =? PAGE_SIZE / sz then
        remove_lists a blktype;;
        freepageref a;;
        free_kpages prpage;;
        mret 0
      else mret 0
  end.

Definition kfree (ptr : Z) : M S unit :=
  if ptr =? 0 then mret tt
  else
    r ← subpage_kfree ptr;
    if r =? 0 then mret tt
    else
      kassert "(vaddr_t)ptr%PAGE_SIZE==0" (ptr mod PAGE_SIZE =? 0);;
      free_kpages ptr.
End Free.

Section Alloc.
Context {S : Type} {HS : HeapState S} {FP : FreePages S} {AP : AllocPages S}.

(** [&kheaproots[i]] read again after the page allocator ran. *)
Definition get_root (i : nat) : M S kheap_root := fun s =>
  deref "kheaproots[i]" (kheaproots (heap_of s) !! i) s.

Definition allocpagerefpage (i : nat) : M S unit :=
  root ← get_root i;
  kassert "root->page == NULL" (page root =? 0);;
  va ← alloc_kpages 1;
  if va =? 0 then mret tt
  else
    kassert "va % PAGE_SIZE == 0" (va mod PAGE_SIZE =? 0);;
    root ← get_root i;
    if negb (page root =? 0) then
      free_kpages va;;
      root ← get_root i;
      kassert "root->page != NULL" (negb (page root =? 0))
    else
      modify_heap (fun h =>
        set_roots (<[i := mkRoot va (pagerefs_inuse root) (numinuse root)]> (kheaproots h)) h).

(** The first clear bit of a word that is not full. *)
Definition clear_bit (w : Z) : option nat :=
  fst <$> list_find (fun j => Z.land w (Z.shiftl 1 (Z.of_nat j)) = 0) (seq 0 32).

(** The search of [allocpageref]: root, word and bit of the first free slot; a
    full root is skipped, and so are its full words. *)
Definition root_slot (root : kheap_root) : option (nat * nat) :=
  if NPAGEREFS_PER_PAGE <=? numinuse root then None
  else match list_find (fun w => w ≠ 0xffffffff) (pagerefs_inuse root) with
       | Some (i, w) => (fun j => (i, j)) <$> clear_bit w
       | None => None
       end.
Fixpoint find_slot (whichroot : nat) (roots : list kheap_root) : option (nat * nat * nat) :=
  match roots with
  | [] => None
  | root :: roots =>
      match root_slot root with
      | Some (i, j) => Some (whichroot, i, j)
      | None => find_slot (Datatypes.S whichroot) roots
      end
  end.

(** 0 is NULL. *)
Definition allocpageref : M S Z :=
  h ← gets heap_of;
  match find_slot 0 (kheaproots h) with
  | None => mret 0
  | Some (whichroot, i, j) =>
      root ← get_root whichroot;
      w ← deref "root->pagerefs_inuse[i]" (pagerefs_inuse root !! i);
      modify_heap (fun h => set_roots (<[whichroot :=
        mkRoot (page root) (<[i := Z.lor w (Z.shiftl 1 (Z.of_nat j))]> (pagerefs_inuse root))
          (numinuse root + 1)]> (kheaproots h)) h);;
      (if page root =? 0 then allocpagerefpage whichroot else mret tt);;
      root ← get_root whichroot;
      if page root =? 0 then mret 0
      else mret (page root + SIZEOF_PAGEREF * (Z.of_nat i * 32 + Z.of_nat j))
  end.

Definition blocktype (clientsz : Z) : M S Z :=
  match list_find (fun sz => clientsz <= sz) sizes with
  | Some (i, _) => mret (Z.of_nat i)
  | None => panic "Subpage allocator cannot handle allocation of size"
  end.

(** The scan of [subpage_kmalloc] for a page of the right size with room. *)
Fixpoint find_free_page (blktype : Z) (l : list Z) : M S (option Z) :=
  match l with
  | [] => mret None
  | a :: l =>
      pr ← get_pageref a;
      kassert "PR_BLOCKTYPE(pr) == blktype" (PR_BLOCKTYPE pr =? blktype);;
      if 0 <? nfree pr then mret (Some a) else find_free_page blktype l
  end.

(** The code at the label [doalloc]. *)
Definition doalloc (a : Z) : M S Z :=
  pr ← get_pageref a;
  kassert "pr->freelist_offset < PAGE_SIZE" (freelist_offset pr <? PAGE_SIZE);;
  let prpage := PR_PAGEADDR pr in
  let retptr := u32 (prpage + freelist_offset pr) in
  let nfree' := u16 (nfree pr - 1) in
  match tail (freelist pr) with
  | next :: _ =>
      kassert "pr->nfree > 0" (0 <? nfree');;
      kassert "fla - prpage < PAGE_SIZE" (next <? PAGE_SIZE)
  | [] => kassert "pr->nfree == 0" (nfree' =? 0)
  end;;
  modify_heap (set_pageref a
    (mkPageref (pageaddr_and_blocktype pr) (tail (freelist pr)) nfree'));;
  mret retptr.

(** The free list of a fresh page: built by the loop from block 0 upwards, each
    block pointing to the one before it, so the last block is the head. *)
Definition fresh_freelist (n sz : Z) : list Z :=
  reverse ((fun i => Z.of_nat i * sz) <$> seq 0 (Z.to_nat n)).

Definition subpage_kmalloc (sz : Z) : M S Z :=
  blktype ← blocktype sz;
  h ← gets heap_of;
  l ← deref "sizebases[blktype]" (sizebases h !! Z.to_nat blktype);
  found ← find_free_page blktype l;
  match found with
  | Some a => doalloc a
  | None =>
      prpage ← alloc_kpages 1;
      if prpage =? 0 then mret 0
      else
        kassert "prpage % PAGE_SIZE == 0" (prpage mod PAGE_SIZE =? 0);;
        a ← allocpageref;
        if a =? 0 then free_kpages prpage;; mret 0
        else
          bsz ← blocksize blktype;
          let n := PAGE_SIZE / bsz in
          let pr := mkPageref (MKPAB prpage blktype) (fresh_freelist n bsz) n in
          kassert "pr->freelist_offset == (pr->nfree-1)*sizes[blktype]"
            (freelist_offset pr =? (n - 1) * bsz);;
          modify_heap (set_pageref a pr);;
          modify_heap (fun h => set_lists
            (alter (cons a) (Z.to_nat blktype) (sizebases h)) (a :: allbase h) h);;
          doalloc a
  end.

Definition kmalloc (sz : Z) : M S Z :=
  let checksz := sz in
  if LARGEST_SUBPAGE_SIZE <=? checksz then
    let npages := u32 (sz + PAGE_SIZE - 1) / PAGE_SIZE in
    address ← alloc_kpages npages;
    if address =? 0 then mret 0
    else
      kassert "address % PAGE_SIZE == 0" (address mod PAGE_SIZE =? 0);;
      mret address
  else subpage_kmalloc sz.
End Alloc.


(** ** Well-formed heaps *)

Definition bsize (t : Z) : Z := default 0 (sizes !! Z.to_nat t).

(** A kernel page address: page-aligned, in kseg0. *)
Definition page_ok (p : Z) : Prop :=
  p mod PAGE_SIZE = 0 /\ MIPS_KSEG0 <= p < 0xa0000000.

(** A page of blocks: the free list holds distinct block offsets and [nfree]
    counts them. *)
Record pageref_ok (pr : pageref) : Prop := {
  pr_page : page_ok (PR_PAGEADDR pr);
  pr_type : 0 <= PR_BLOCKTYPE pr < NSIZES;
  pr_count : nfree pr = Z.of_nat (length (freelist pr));
  pr_nodup : NoDup (freelist pr);
  pr_offsets : Forall (fun o => 0 <= o < PAGE_SIZE /\ o mod bsize (PR_BLOCKTYPE pr) = 0) (freelist pr)
}.

(** The pages of blocks, the pages of pagerefs, and all the pages the heap owns. *)
Definition subpages (h : kheap) : list Z :=
  omap (fun a => PR_PAGEADDR <$> pagerefs h !! a) (allbase h).
Definition rootpages (h : kheap) : list Z := filter (fun p => p ≠ 0) (page <$> kheaproots h).
Definition owned (h : kheap) : gset Z := list_to_set (subpages h ++ rootpages h).

(** Slot [j] of a root is in use. *)
Definition inuse (root : kheap_root) (j : Z) : bool :=
  match pagerefs_inuse root !! Z.to_nat (j / 32) with
  | Some w => Z.testbit w (j mod 32)
  | None => false
  end.

Definition on_root (h : kheap) (a : Z) (r : nat) (j : Z) : Prop :=
  exists root, kheaproots h !! r = Some root /\ page root <> 0 /\
    a = page root + SIZEOF_PAGEREF * j /\ 0 <= j < NPAGEREFS_PER_PAGE /\ inuse root j = true.

Record heap_ok (h : kheap) : Prop := {
  ok_refs : forall a, a ∈ allbase h -> exists pr, pagerefs h !! a = Some pr /\ pageref_ok pr;
  ok_nodup : NoDup (allbase h);
  ok_pages : NoDup (subpages h ++ rootpages h);
  ok_sizes : length (sizebases h) = Z.to_nat NSIZES;
  ok_size : forall t l, sizebases h !! t = Some l -> NoDup l /\
    forall a, a ∈ l -> a ∈ allbase h /\
      exists pr, pagerefs h !! a = Some pr /\ PR_BLOCKTYPE pr = Z.of_nat t;
  ok_slots : forall a, a ∈ allbase h -> exists r j, on_root h a r j;
  ok_roots : length (kheaproots h) = Z.to_nat NUM_PAGEREFPAGES;
  ok_root : forall r root, kheaproots h !! r = Some root ->
    length (pagerefs_inuse root) = Z.to_nat INUSE_WORDS /\ (page root = 0 \/ page_ok (page root))
}.

(** The change to the heap that code running below the page allocator may make:
    blocks and pages may be given back, but no page is added, the pages of
    pagerefs stay, and a slot in use stays in use unless it belonged to a page of
    blocks that was given back. *)
Definition heap_shrinks (h h' : kheap) : Prop :=
  (page <$> kheaproots h') = (page <$> kheaproots h) /\ allbase h' ⊆ allbase h /\
  (forall r root j, kheaproots h !! r = Some root -> inuse root j = true ->
     0 <= j < NPAGEREFS_PER_PAGE ->
     (page root = 0 \/ page root + SIZEOF_PAGEREF * j ∉ allbase h) ->
     exists root', kheaproots h' !! r = Some root' /\ inuse root' j = true).

(** [q] is a block the heap has handed out. *)
Definition allocated (h : kheap) (q : Z) : Prop :=
  exists a pr, a ∈ allbase h /\ pagerefs h !! a = Some pr /\
    PR_PAGEADDR pr <= q < PR_PAGEADDR pr + PAGE_SIZE /\
    (q - PR_PAGEADDR pr) mod bsize (PR_BLOCKTYPE pr) = 0 /\
    (q - PR_PAGEADDR pr) ∉ freelist pr.

(** The block at [q] is handed out and has [n] bytes. *)
Definition block (h : kheap) (q n : Z) : Prop :=
  exists a pr, a ∈ allbase h /\ pagerefs h !! a = Some pr /\
    PR_PAGEADDR pr <= q < PR_PAGEADDR pr + PAGE_SIZE /\
    (q - PR_PAGEADDR pr) mod bsize (PR_BLOCKTYPE pr) = 0 /\
    (q - PR_PAGEADDR pr) ∉ freelist pr /\ n = bsize (PR_BLOCKTYPE pr).

(** ** What the heap relies on

    The state invariant [Inv W Y] of the system around the heap: [Y] is the set of
    single pages the heap code holds outside its own records, [W] whatever else is
    reserved; [held] are the blocks other code holds pointers to; [Rel] is the
    change of state other code tolerates. *)
Class FreeLaws (S : Type) {HS : HeapState S} {FP : FreePages S} : Type := {
  Inv : gset Z -> gset Z -> S -> Prop;
  Rel : S -> S -> Prop;
  held : S -> Z -> Prop;
  Rel_refl s : Rel s s;
  Rel_trans s1 s2 s3 : Rel s1 s2 -> Rel s2 s3 -> Rel s1 s3;
  heap_of_set h s : heap_of (set_heap h s) = h;
  held_set h s q : held (set_heap h s) q <-> held s q;
  Inv_heap_ok W Y s : Inv W Y s -> heap_ok (heap_of s);
  Inv_disj W Y s : Inv W Y s -> owned (heap_of s) ## Y;
  Inv_held W Y s q : Inv W Y s -> held s q -> allocated (heap_of s) q;
  Inv_set W Y Y' h s : Inv W Y s -> heap_ok h ->
    owned h ∪ Y' = owned (heap_of s) ∪ Y -> owned h ## Y' ->
    (forall q, held s q -> allocated h q) ->
    Inv W Y' (set_heap h s) /\ Rel s (set_heap h s);
  free_law W Y s p s' : Inv W Y s -> p ∈ Y -> free_kpages p s = Done tt s' ->
    Inv W (Y ∖ {[p]}) s' /\ Rel s s' /\ heap_of s' = heap_of s /\
    (forall q, held s' q <-> held s q)
}.

(** The blocks handed out that are not among those [held] stay as they are: they are
    handed out still, with the same size, and have not become [held] ones. *)
Definition keeps {S : Type} `{FreeLaws S} (s s' : S) : Prop :=
  forall q n, block (heap_of s) q n -> ~ held s q -> block (heap_of s') q n /\ ~ held s' q.

(** The pages [r], [r + PAGE_SIZE], ... of an allocation of [n] pages. *)
Definition page_range (r n : Z) : gset Z :=
  list_to_set ((fun k => r + Z.of_nat k * PAGE_SIZE) <$> seq 0 (Z.to_nat n)).

Class AllocLaws (S : Type) {HS : HeapState S} {FP : FreePages S} {AP : AllocPages S}
  {FL : FreeLaws S} : Prop :=
  alloc_law : forall W Y s n r s', Inv W Y s -> 0 < n -> alloc_kpages n s = Done r s' ->
    Rel s s' /\ heap_shrinks (heap_of s) (heap_of s') /\ keeps s s' /\
    (r = 0 /\ Inv W Y s' \/
     r <> 0 /\ page_ok r /\
     (n = 1 -> r ∉ Y /\ r ∉ owned (heap_of s') /\ Inv W ({[r]} ∪ Y) s') /\
     (n <> 1 -> page_range r n ## W /\ Inv (page_range r n ∪ W) Y s')).

End Kmalloc.
