(* ===== verification/KmallocProofs.v ===== *)
(** * Correctness of the kernel heap

    Invariants of kern/vm/kmalloc.c proved against the interface [FreeLaws] and
    [AllocLaws] of the page allocator. *)
From S2P Require Import Prelude Kmalloc.
Import Kmalloc.

Module KmallocProofs.

(** ** Block sizes, page words and free lists *)

Lemma sizes_lookup t : 0 <= t < NSIZES -> sizes !! Z.to_nat t = Some (bsize t).
Proof.
  intros Ht. unfold bsize. destruct (sizes !! Z.to_nat t) eqn:E; [done|].
  apply lookup_ge_None in E. simpl in E. unfold NSIZES in Ht. lia.
Qed.

Lemma bsize_bounds t : 0 <= t < NSIZES ->
  16 <= bsize t <= 2048 /\ PAGE_SIZE mod bsize t = 0 /\ 2 <= PAGE_SIZE / bsize t <= 256.
Proof.
  intros Ht.
  assert (H : forallb (fun k => let b := bsize (Z.of_nat k) in
    (16 <=? b) && (b <=? 2048) && (PAGE_SIZE mod b =? 0) && (2 <=? PAGE_SIZE / b) &&
    (PAGE_SIZE / b <=? 256)) (seq 0 8) = true) by reflexivity.
  rewrite forallb_forall in H. specialize (H (Z.to_nat t)). unfold NSIZES in Ht.
  rewrite in_seq, Z2Nat.id in H by lia. specialize (H ltac:(lia)). cbv zeta in H. lia.
Qed.

Lemma low12_land x : Z.land x (u32 (Z.lnot PAGE_FRAME)) = x mod PAGE_SIZE.
Proof. change (u32 (Z.lnot PAGE_FRAME)) with 0xfff. apply land_page_offset. Qed.

(** The packed word of a pageref decodes to the page and the block type. *)
Lemma MKPAB_decode p t fl n : page_ok p -> 0 <= t < NSIZES ->
  PR_PAGEADDR (mkPageref (MKPAB p t) fl n) = p /\ PR_BLOCKTYPE (mkPageref (MKPAB p t) fl n) = t.
Proof.
  intros [Hp Hr] Ht. unfold PR_PAGEADDR, PR_BLOCKTYPE, MKPAB. cbn [pageaddr_and_blocktype].
  unfold NSIZES, MIPS_KSEG0 in *.
  rewrite !low12_land. rewrite (land_page_frame p), Hp, Z.sub_0_r by (unfold is_u32; lia).
  rewrite (Z.mod_small t) by (unfold PAGE_SIZE; lia).
  assert (Hor : Z.lor p t = p + t).
  { symmetry. apply Z.add_nocarry_lor. apply Z.bits_inj'. intros i Hi. rewrite Z.land_spec, Z.testbit_0_l.
    destruct (Z.ltb_spec i 12).
    - rewrite <- (Z.mod_pow2_bits_low p 12) by lia. change (2 ^ 12) with PAGE_SIZE.
      by rewrite Hp, Z.testbit_0_l.
    - rewrite (testbit_above t 12), andb_false_r by lia. done. }
  rewrite Hor. rewrite land_page_frame by (unfold is_u32; lia).
  unfold PAGE_SIZE in *. rewrite <- Z.add_mod_idemp_l, Hp, Z.add_0_l by lia.
  rewrite Z.mod_small by lia. split; lia.
Qed.

(** Block offsets of a page: at most [PAGE_SIZE / size] distinct ones, and a list
    that long holds them all. *)
Lemma offsets_incl sz (l : list Z) : 0 < sz -> PAGE_SIZE mod sz = 0 ->
  Forall (fun o => 0 <= o < PAGE_SIZE /\ o mod sz = 0) l ->
  l ⊆ (fun i => Z.of_nat i * sz) <$> seq 0 (Z.to_nat (PAGE_SIZE / sz)).
Proof.
  intros Hsz Hdiv Hl o Ho. rewrite Forall_forall in Hl. destruct (Hl o Ho) as [Hr Hm].
  apply list_elem_of_fmap. exists (Z.to_nat (o / sz)).
  pose proof (Z.div_mod o sz ltac:(lia)). pose proof (Z.div_mod PAGE_SIZE sz ltac:(lia)).
  assert (0 <= o / sz) by (apply Z.div_pos; lia).
  split; [rewrite Z2Nat.id; lia|]. apply elem_of_seq. split; [lia|].
  rewrite Nat.add_0_l. apply Z2Nat.inj_lt; [lia| |nia]. apply Z.div_pos; lia.
Qed.

Lemma offsets_length sz (l : list Z) : 0 < sz -> PAGE_SIZE mod sz = 0 -> NoDup l ->
  Forall (fun o => 0 <= o < PAGE_SIZE /\ o mod sz = 0) l ->
  Z.of_nat (length l) <= PAGE_SIZE / sz.
Proof.
  intros Hsz Hdiv Hnd Hl. pose proof (offsets_incl sz l Hsz Hdiv Hl) as Hin.
  assert (0 <= PAGE_SIZE / sz) by (apply Z.div_pos; unfold PAGE_SIZE; lia).
  assert (length l <= Z.to_nat (PAGE_SIZE / sz))%nat; [|lia].
  replace (Z.to_nat (PAGE_SIZE / sz)) with
    (length ((fun i => Z.of_nat i * sz) <$> seq 0 (Z.to_nat (PAGE_SIZE / sz))))
    by (by rewrite length_fmap, length_seq).
  apply submseteq_length, NoDup_submseteq; done.
Qed.

Lemma offsets_full sz (l : list Z) o : 0 < sz -> PAGE_SIZE mod sz = 0 -> NoDup l ->
  Forall (fun o => 0 <= o < PAGE_SIZE /\ o mod sz = 0) l ->
  Z.of_nat (length l) = PAGE_SIZE / sz -> 0 <= o < PAGE_SIZE -> o mod sz = 0 -> o ∈ l.
Proof.
  intros Hsz Hdiv Hnd Hl Hlen Ho Hm. destruct (decide (o ∈ l)) as [|Hno]; [done|exfalso].
  pose proof (offsets_length sz (o :: l) Hsz Hdiv) as H. simpl in H.
  specialize (H ltac:(by constructor) ltac:(by constructor)). lia.
Qed.

Lemma fresh_freelist_ok sz : 0 < sz -> PAGE_SIZE mod sz = 0 ->
  NoDup (fresh_freelist (PAGE_SIZE / sz) sz) /\
  Forall (fun o => 0 <= o < PAGE_SIZE /\ o mod sz = 0) (fresh_freelist (PAGE_SIZE / sz) sz) /\
  Z.of_nat (length (fresh_freelist (PAGE_SIZE / sz) sz)) = PAGE_SIZE / sz.
Proof.
  intros Hsz Hdiv. assert (0 <= PAGE_SIZE / sz) by (apply Z.div_pos; unfold PAGE_SIZE; lia).
  unfold fresh_freelist. split_and!.
  - rewrite reverse_Permutation. apply NoDup_fmap_2; [intros i j; nia|apply NoDup_seq].
  - apply Forall_forall. intros o Ho. rewrite elem_of_reverse in Ho.
    apply list_elem_of_fmap in Ho as (i & -> & Hi). apply elem_of_seq in Hi.
    pose proof (Z.div_mod PAGE_SIZE sz ltac:(lia)). split; [nia|]. apply Z.mod_mul. lia.
  - rewrite length_reverse, length_fmap, length_seq. lia.
Qed.

(** ** Pages the heap owns *)

Lemma omap_ext_in {A B} (f g : A -> option B) (l : list A) :
  (forall x, x ∈ l -> f x = g x) -> omap f l = omap g l.
Proof.
  induction l as [|x l IH]; intros H; [done|]. csimpl. rewrite H by left.
  rewrite IH; [done|]. intros y Hy. apply H. by right.
Qed.

Lemma elem_of_subpages h p : p ∈ subpages h <->
  exists a pr, a ∈ allbase h /\ pagerefs h !! a = Some pr /\ PR_PAGEADDR pr = p.
Proof.
  unfold subpages. rewrite list_elem_of_omap. split.
  - intros (a & Ha & Hp). apply fmap_Some in Hp as (pr & Hpr & ->). eauto.
  - intros (a & pr & Ha & Hpr & <-). exists a. by rewrite Hpr.
Qed.

Lemma elem_of_owned h p : p ∈ owned h <-> p ∈ subpages h \/ p ∈ rootpages h.
Proof. unfold owned. by rewrite elem_of_list_to_set, elem_of_app. Qed.

(** Two pagerefs of a well-formed heap never describe the same page. *)
Lemma same_page h a b pa pb : heap_ok h -> a ∈ allbase h -> b ∈ allbase h ->
  pagerefs h !! a = Some pa -> pagerefs h !! b = Some pb ->
  PR_PAGEADDR pa = PR_PAGEADDR pb -> a = b.
Proof.
  intros Hok Ha Hb Hpa Hpb Heq. pose proof (ok_pages h Hok) as Hnd.
  apply NoDup_app in Hnd as (Hnd & _ & _). unfold subpages in Hnd.
  revert Ha Hb Hnd. induction (allbase h) as [|c l IH]; intros Ha Hb Hnd; [by inv Ha|].
  csimpl in Hnd. apply elem_of_cons in Ha, Hb.
  assert (Hcase : forall x y px py, x = c -> y ∈ l -> pagerefs h !! x = Some px ->
            pagerefs h !! y = Some py -> PR_PAGEADDR px = PR_PAGEADDR py -> False).
  { intros x y px py -> Hy Hpx Hpy Hp. rewrite Hpx in Hnd. simpl in Hnd.
    apply NoDup_cons in Hnd as [Hno _]. apply Hno. apply list_elem_of_omap.
    exists y. by rewrite Hpy, Hp. }
  destruct Ha as [Ha|Ha], Hb as [Hb|Hb]; [congruence| | |].
  - exfalso. eapply (Hcase a b); eauto.
  - exfalso. eapply (Hcase b a); eauto.
  - apply IH; [done|done|]. destruct (pagerefs h !! c); simpl in Hnd; [by inv Hnd|done].
Qed.

Lemma aligned_same_page p q x : p mod PAGE_SIZE = 0 -> q mod PAGE_SIZE = 0 ->
  p <= x < p + PAGE_SIZE -> q <= x < q + PAGE_SIZE -> p = q.
Proof.
  intros Hp Hq Hxp Hxq. pose proof (Z.div_mod p PAGE_SIZE ltac:(done)).
  pose proof (Z.div_mod q PAGE_SIZE ltac:(done)). unfold PAGE_SIZE in *. lia.
Qed.

(** ** Changing one page of blocks *)

Lemma subpages_set_pageref h a pr pr' : pagerefs h !! a = Some pr ->
  pageaddr_and_blocktype pr' = pageaddr_and_blocktype pr ->
  subpages (set_pageref a pr' h) = subpages h.
Proof.
  intros Hpr Hpab. unfold subpages. cbn [allbase pagerefs set_pageref]. apply omap_ext_in.
  intros x _. rewrite lookup_insert. case_decide as Hx; [|done]. subst x. rewrite Hpr. simpl.
  unfold PR_PAGEADDR. by rewrite Hpab.
Qed.

Lemma heap_ok_set_pageref h a pr pr' : heap_ok h -> a ∈ allbase h ->
  pagerefs h !! a = Some pr -> pageaddr_and_blocktype pr' = pageaddr_and_blocktype pr ->
  pageref_ok pr' ->
  heap_ok (set_pageref a pr' h) /\ owned (set_pageref a pr' h) = owned h.
Proof.
  intros Hok Ha Hpr Hpab Hpr'. pose proof (subpages_set_pageref h a pr pr' Hpr Hpab) as Hsub.
  split; [|unfold owned; by rewrite Hsub].
  destruct Hok as [Hrefs Hnd Hpages Hszs Hsz Hslots Hroots Hroot].
  split; cbn [allbase pagerefs sizebases kheaproots set_pageref]; try done.
  - intros x Hx. rewrite lookup_insert. case_decide; [eauto|]. by apply Hrefs.
  - by rewrite Hsub.
  - intros t l Hl. destruct (Hsz t l Hl) as [Hndl Hin]. split; [done|]. intros x Hx.
    destruct (Hin x Hx) as (Hxa & prx & Hprx & Ht). split; [done|].
    rewrite lookup_insert. case_decide as Hax; [|eauto]. subst x. exists pr'. split; [done|].
    rewrite Hpr in Hprx. inv Hprx. unfold PR_BLOCKTYPE. by rewrite Hpab.
Qed.

(** Handing out a block of page [a] keeps the other blocks as they were. *)
(** A heap that has every block of another has all its allocated addresses. *)
Lemma allocated_mono h h' q : (forall n, block h q n -> block h' q n) -> allocated h q -> allocated h' q.
Proof.
  intros Hm (a & pr & Ha & Hpr & Hr & Ho & Hno).
  destruct (Hm (bsize (PR_BLOCKTYPE pr))) as (a' & pr' & ? & ? & ? & ? & ? & _); [by exists a, pr|].
  by exists a', pr'.
Qed.

Lemma block_set_pageref h a pr pr' q n : heap_ok h -> a ∈ allbase h ->
  pagerefs h !! a = Some pr -> pageaddr_and_blocktype pr' = pageaddr_and_blocktype pr ->
  (q - PR_PAGEADDR pr ∉ freelist pr -> q - PR_PAGEADDR pr ∉ freelist pr') ->
  block h q n -> block (set_pageref a pr' h) q n.
Proof.
  intros Hok Ha Hpr Hpab Hsub (b & pb & Hb & Hpb & Hr & Hm & Hno & ->).
  exists b, (if decide (a = b) then pr' else pb). cbn [allbase pagerefs set_pageref].
  rewrite lookup_insert. split; [done|]. case_decide as Hab; [|done]. subst b.
  rewrite Hpr in Hpb. inv Hpb. unfold PR_PAGEADDR, PR_BLOCKTYPE in *. rewrite Hpab.
  split_and!; try done; try lia. by apply Hsub.
Qed.

Lemma doalloc_pageref_ok pr : pageref_ok pr ->
  pageref_ok (mkPageref (pageaddr_and_blocktype pr) (tail (freelist pr))
                (Z.of_nat (length (tail (freelist pr))))).
Proof.
  intros [Hp Ht Hc Hn Ho]. split; try done; cbn [freelist].
  - destruct (freelist pr); [done|]. by inv Hn.
  - destruct (freelist pr); [done|]. by inv Ho.
Qed.

(** ** Unlinking *)

Lemma elem_of_unlink x l y : NoDup l -> y ∈ unlink x l <-> y ∈ l /\ y <> x.
Proof.
  induction l as [|z l IH]; intros Hnd; simpl; [by rewrite elem_of_nil; naive_solver|].
  inv Hnd. destruct (Z.eqb_spec z x) as [->|Hne].
  - rewrite elem_of_cons. split; [|naive_solver]. intros Hy. split; [by right|]. by intros ->.
  - rewrite !elem_of_cons, IH by done. naive_solver.
Qed.

Lemma NoDup_unlink x l : NoDup l -> NoDup (unlink x l).
Proof.
  induction l as [|z l IH]; intros Hnd; simpl; [done|]. inv Hnd.
  destruct (Z.eqb_spec z x); [done|]. constructor; [|by apply IH].
  rewrite elem_of_unlink by done. naive_solver.
Qed.

Lemma unlink_perm x l : x ∈ l -> l ≡ₚ x :: unlink x l.
Proof.
  induction l as [|z l IH]; intros Hx; simpl; [by inv Hx|].
  destruct (Z.eqb_spec z x) as [->|Hne]; [done|].
  apply elem_of_cons in Hx as [->|Hx]; [done|]. rewrite (IH Hx) at 1. constructor.
Qed.

(** ** Releasing a page of blocks *)

(** The heap after page [a] left both lists. *)
Definition drop_page (a : Z) (t : nat) (h : kheap) : kheap :=
  set_lists (alter (unlink a) t (sizebases h)) (unlink a (allbase h)) h.

Lemma subpages_drop h a t pr : a ∈ allbase h -> pagerefs h !! a = Some pr ->
  subpages h ≡ₚ PR_PAGEADDR pr :: subpages (drop_page a t h).
Proof.
  intros Ha Hpr. unfold subpages, drop_page. cbn [allbase pagerefs set_lists].
  rewrite (unlink_perm a (allbase h)) at 1 by done. csimpl. by rewrite Hpr.
Qed.

Lemma heap_ok_drop h a pr : heap_ok h -> a ∈ allbase h -> pagerefs h !! a = Some pr ->
  let h' := drop_page a (Z.to_nat (PR_BLOCKTYPE pr)) h in
  heap_ok h' /\ PR_PAGEADDR pr ∉ owned h' /\ owned h = {[PR_PAGEADDR pr]} ∪ owned h'.
Proof.
  intros Hok Ha Hpr h'. pose proof (subpages_drop h a (Z.to_nat (PR_BLOCKTYPE pr)) pr Ha Hpr) as Hp.
  fold h' in Hp. destruct Hok as [Hrefs Hnd Hpages Hszs Hsz Hslots Hroots Hroot].
  assert (Hpages' : NoDup (PR_PAGEADDR pr :: subpages h' ++ rootpages h')).
  { change (rootpages h') with (rootpages h). rewrite app_comm_cons, <- Hp. done. }
  destruct (Hrefs a Ha) as (pr0 & Hpr0 & Hok0). rewrite Hpr in Hpr0. inv Hpr0.
  split_and!.
  - split; unfold h', drop_page; cbn [allbase pagerefs sizebases kheaproots set_lists]; try done.
    + intros x Hx. rewrite elem_of_unlink in Hx by done. apply Hrefs, Hx.
    + by apply NoDup_unlink.
    + by inv Hpages'.
    + by rewrite length_alter.
    + intros t l Hl. rewrite list_lookup_alter in Hl. case_decide as Ht.
      * subst t. apply fmap_Some in Hl as (l0 & Hl0 & ->). destruct (Hsz _ l0 Hl0) as [Hnd0 Hin].
        split; [by apply NoDup_unlink|]. intros x Hx. rewrite elem_of_unlink in Hx by done.
        destruct Hx as [Hx Hne]. destruct (Hin x Hx) as (? & ?). by rewrite elem_of_unlink.
      * destruct (Hsz t l Hl) as [Hndl Hin]. split; [done|]. intros x Hx.
        destruct (Hin x Hx) as (Hxa & prx & Hprx & Htx). rewrite elem_of_unlink by done.
        split; [|eauto]. split; [done|]. intros ->. rewrite Hpr in Hprx. inv Hprx. lia.
    + intros x Hx. rewrite elem_of_unlink in Hx by done. apply Hslots, Hx.
  - rewrite elem_of_owned, <- elem_of_app. by inv Hpages'.
  - apply set_eq. intros x. rewrite elem_of_union, elem_of_singleton, !elem_of_owned, Hp, elem_of_cons.
    change (rootpages h') with (rootpages h). tauto.
Qed.

(** ** The slots of the pageref pages *)

Lemma inuse_insert root w x n j : 0 <= j -> (w < length (pagerefs_inuse root))%nat ->
  inuse (mkRoot (page root) (<[w := x]> (pagerefs_inuse root)) n) j =
  if j / 32 =? Z.of_nat w then Z.testbit x (j mod 32) else inuse root j.
Proof.
  intros Hj Hw. unfold inuse. cbn [pagerefs_inuse].
  assert (0 <= j / 32) by (apply Z.div_pos; lia).
  destruct (Z.eqb_spec (j / 32) (Z.of_nat w)) as [E|E].
  - rewrite E, Nat2Z.id, list_lookup_insert_eq by done. done.
  - rewrite list_lookup_insert_ne by lia. done.
Qed.

(** Replacing a root by one with the same page that still marks the slots of the
    live pagerefs. *)
Lemma heap_ok_set_root h i root root' : heap_ok h -> kheaproots h !! i = Some root ->
  page root' = page root -> length (pagerefs_inuse root') = length (pagerefs_inuse root) ->
  (forall a j, a ∈ allbase h -> page root <> 0 -> a = page root + SIZEOF_PAGEREF * j ->
     0 <= j < NPAGEREFS_PER_PAGE -> inuse root j = true -> inuse root' j = true) ->
  let h' := set_roots (<[i := root']> (kheaproots h)) h in
  heap_ok h' /\ owned h' = owned h.
Proof.
  intros Hok Hi Hpg Hlen Hkeep h'.
  assert (Hrp : rootpages h' = rootpages h).
  { unfold rootpages, h'. cbn [kheaproots set_roots]. f_equal. rewrite list_fmap_insert, Hpg.
    apply list_insert_id. by rewrite list_lookup_fmap, Hi. }
  split; [|unfold owned; rewrite Hrp; done].
  destruct Hok as [Hrefs Hnd Hpages Hszs Hsz Hslots Hroots Hroot].
  split; unfold h'; cbn [allbase pagerefs sizebases kheaproots set_roots]; try done.
  - fold h'. rewrite Hrp. done.
  - intros a Ha. destruct (Hslots a Ha) as (r & j & root0 & Hr & Hp0 & Haj & Hj & Hin).
    exists r, j. unfold on_root. cbn [kheaproots set_roots].
    destruct (decide (i = r)) as [->|Hne].
    + rewrite Hi in Hr. inv Hr. exists root'. rewrite list_lookup_insert_eq by (by eapply lookup_lt_Some).
      rewrite Hpg. split_and!; try done; try lia. by eapply Hkeep.
    + exists root0. rewrite list_lookup_insert_ne by done. done.
  - by rewrite length_insert.
  - intros r rt Hr. destruct (decide (i = r)) as [->|Hne].
    + rewrite list_lookup_insert_eq in Hr by (by eapply lookup_lt_Some). inv Hr.
      rewrite Hlen, Hpg. by apply (Hroot r).
    + rewrite list_lookup_insert_ne in Hr by done. by apply (Hroot r).
Qed.

(** Two pageref pages are different, so a pageref address names one slot. *)
Lemma root_unique h r1 r2 a1 a2 : heap_ok h ->
  kheaproots h !! r1 = Some a1 -> kheaproots h !! r2 = Some a2 ->
  page a1 <> 0 -> page a1 = page a2 -> r1 = r2.
Proof.
  intros Hok H1 H2 Hp Heq. pose proof (ok_pages h Hok) as Hnd.
  apply NoDup_app in Hnd as (_ & _ & Hnd). unfold rootpages in Hnd.
  revert r1 r2 H1 H2 Hnd. induction (kheaproots h) as [|b l IH]; intros r1 r2 H1 H2 Hnd; [done|].
  assert (Hcase : forall k c, l !! k = Some c -> page b = page c -> page b <> 0 -> False).
  { intros k c Hk Hb Hb0. csimpl in Hnd. rewrite filter_cons_True in Hnd by done.
    apply NoDup_cons in Hnd as [Hno _]. apply Hno. apply list_elem_of_filter. split; [done|].
    rewrite Hb. apply list_elem_of_fmap. exists c. split; [done|]. by eapply list_elem_of_lookup_2. }
  destruct r1 as [|r1], r2 as [|r2]; simpl in *.
  - done.
  - simplify_eq. exfalso. by eapply Hcase.
  - simplify_eq. exfalso. eapply Hcase; [exact H1|done|congruence].
  - f_equal. apply IH; [done|done|]. csimpl in Hnd.
    destruct (decide (page b = 0)); [rewrite filter_cons_False in Hnd by naive_solver; done|].
    rewrite filter_cons_True in Hnd by done. by inv Hnd.
Qed.

Lemma freepageref_loop_spec p roots : forall i0 i root',
  freepageref_loop p i0 roots = Ok (i, root') ->
  exists k root word, i = (i0 + k)%nat /\ roots !! k = Some root /\ page root <> 0 /\
    let j := u32 ((p - page root) / SIZEOF_PAGEREF) in
    j < NPAGEREFS_PER_PAGE /\ pagerefs_inuse root !! Z.to_nat (j / 32) = Some word /\
    root' = mkRoot (page root)
      (<[Z.to_nat (j / 32) := Z.land word (u32 (Z.lnot (Z.shiftl 1 (j mod 32))))]>
         (pagerefs_inuse root)) (numinuse root - 1).
Proof.
  induction roots as [|root roots IH]; intros i0 i root' H; [discriminate|].
  cbn [freepageref_loop] in H. destruct (Z.eqb_spec (page root) 0) as [E|E].
  - mstep H. destruct (IH (S i0) i root' H) as (k & rt & w & -> & Hk & Hrest).
    exists (S k), rt, w. split; [lia|]. done.
  - destruct (Z.ltb_spec (u32 ((p - page root) / SIZEOF_PAGEREF)) NPAGEREFS_PER_PAGE) as [Hj|Hj].
    + mstep H. mstep H. mstep H. unfold deref_r in E0.
      destruct (pagerefs_inuse root !! _) as [w|] eqn:Hw; [|discriminate]. inv E0.
      inv H. exists 0%nat, root, ret. rewrite Nat.add_0_r. cbv zeta. split_and!; done.
    + destruct (IH (S i0) i root' H) as (k & rt & w & -> & Hk & Hrest).
      exists (S k), rt, w. split; [lia|]. done.
Qed.

(** Clearing a bit of a word of 32 slots. *)
Lemma clear_slot_bits w o k : 0 <= o < 32 -> 0 <= k < 32 ->
  Z.testbit (Z.land w (u32 (Z.lnot (Z.shiftl 1 o)))) k = negb (k =? o) && Z.testbit w k.
Proof.
  intros Ho Hk. unfold u32. rewrite Z.land_spec, andb_comm. f_equal.
  rewrite Z.mod_pow2_bits_low, Z.lnot_spec, Z.shiftl_1_l by lia. f_equal.
  destruct (Z.eqb_spec k o) as [->|]; [by rewrite Z.pow2_bits_true by lia|].
  by rewrite Z.pow2_bits_false by lia.
Qed.

Lemma slot_index p pg : page_ok pg -> MIPS_KSEG0 <= p < 0xa0001000 ->
  u32 ((p - pg) / SIZEOF_PAGEREF) < NPAGEREFS_PER_PAGE ->
  u32 ((p - pg) / SIZEOF_PAGEREF) = (p - pg) / SIZEOF_PAGEREF /\ pg <= p < pg + PAGE_SIZE.
Proof.
  intros [Ha Hp] Hr. unfold SIZEOF_PAGEREF, MIPS_KSEG0 in *.
  change NPAGEREFS_PER_PAGE with 256. intros H.
  assert (-0x2000100 <= (p - pg) / 16 < 0x2000200).
  { split; [apply Z.div_le_lower_bound; lia|apply Z.div_lt_upper_bound; lia]. }
  pose proof (Z.div_mod (p - pg) 16 ltac:(lia)). pose proof (Z.mod_pos_bound (p - pg) 16 ltac:(lia)).
  destruct (Z.ltb_spec ((p - pg) / 16) 0) as [Hneg|Hpos].
  - exfalso. unfold u32 in H. rewrite <- (Z.mod_add _ 1 (2 ^ 32)), Z.mod_small in H; lia.
  - rewrite u32_small in * by (unfold is_u32; lia). unfold PAGE_SIZE. lia.
Qed.

(** The slot of a pageref that left the lists can be released. *)
Lemma heap_ok_free_slot h p r j i root' : heap_ok h -> p ∉ allbase h -> on_root h p r j ->
  freepageref_loop p 0 (kheaproots h) = Ok (i, root') ->
  let h' := set_roots (<[i := root']> (kheaproots h)) h in
  heap_ok h' /\ owned h' = owned h /\
  exists root, i = r /\ kheaproots h !! r = Some root /\ page root' = page root /\
    p = page root + SIZEOF_PAGEREF * j /\
    forall j', 0 <= j' < NPAGEREFS_PER_PAGE -> j' <> j -> inuse root j' = true -> inuse root' j' = true.
Proof.
  intros Hok Hnp (rt & Hrt & Hpg & Hp & Hj & Hin) Hloop.
  apply freepageref_loop_spec in Hloop as (k & root & word & -> & Hk & Hpg0 & Hj0 & Hw & ->).
  rewrite Nat.add_0_l. change (NPAGEREFS_PER_PAGE) with 256 in Hj.
  destruct (ok_root h Hok r rt Hrt) as [_ [?|Hrtok]]; [done|].
  destruct (ok_root h Hok k root Hk) as [Hlen [?|Hrok]]; [done|].
  assert (Hpr : MIPS_KSEG0 <= p < 0xa0001000)
    by (destruct Hrtok as [_ ?]; unfold SIZEOF_PAGEREF, MIPS_KSEG0 in *; lia).
  destruct (slot_index p (page root) Hrok Hpr Hj0) as [Hu Hin0].
  assert (Heq : page root = page rt).
  { eapply aligned_same_page; [apply Hrok|apply Hrtok|exact Hin0|].
    unfold SIZEOF_PAGEREF, PAGE_SIZE in *. lia. }
  assert (k = r) as -> by (eapply root_unique; eauto). rewrite Hrt in Hk. inv Hk.
  assert (Hj' : (page root + SIZEOF_PAGEREF * j - page root) / SIZEOF_PAGEREF = j).
  { replace (_ - _) with (j * SIZEOF_PAGEREF) by lia. by apply Z.div_mul. }
  rewrite Hu, Hj' in *.
  assert (Hkeep : forall j', 0 <= j' < NPAGEREFS_PER_PAGE -> j' <> j -> inuse root j' = true ->
    inuse (mkRoot (page root) (<[Z.to_nat (j / 32) := Z.land word (u32 (Z.lnot (Z.shiftl 1 (j mod 32))))]>
         (pagerefs_inuse root)) (numinuse root - 1)) j' = true).
  { intros j' Hj1 Hjj Hin1. rewrite inuse_insert by (lia || by eapply lookup_lt_Some).
    rewrite Z2Nat.id by (apply Z.div_pos; lia).
    destruct (Z.eqb_spec (j' / 32) (j / 32)) as [E|]; [|done].
    pose proof (Z.mod_pos_bound j 32 ltac:(lia)). pose proof (Z.mod_pos_bound j' 32 ltac:(lia)).
    rewrite clear_slot_bits by lia. unfold inuse in Hin1. rewrite E, Hw in Hin1.
    rewrite Hin1, andb_true_r. pose proof (Z.div_mod j 32 ltac:(lia)).
    pose proof (Z.div_mod j' 32 ltac:(lia)). destruct (Z.eqb_spec (j' mod 32) (j mod 32)); [lia|done]. }
  destruct (heap_ok_set_root h r root (mkRoot (page root) (<[Z.to_nat (j / 32) :=
    Z.land word (u32 (Z.lnot (Z.shiftl 1 (j mod 32))))]> (pagerefs_inuse root)) (numinuse root - 1)))
    as [Hok' Hown]; try done.
  - cbn [pagerefs_inuse]. by rewrite length_insert.
  - intros a j' Ha _ Haj Hj1 Hin1. apply Hkeep; [done| |done]. intros ->. congruence.
  - split_and!; [done|done|]. exists root. split_and!; done.
Qed.

(** ** Shrinking *)

Lemma heap_shrinks_refl h : heap_shrinks h h.
Proof. split_and!; try done. eauto. Qed.

Lemma heap_shrinks_trans h1 h2 h3 : heap_shrinks h1 h2 -> heap_shrinks h2 h3 -> heap_shrinks h1 h3.
Proof.
  intros (Hp1 & Ha1 & Hs1) (Hp2 & Ha2 & Hs2). split_and!; [congruence|set_solver|].
  intros r root j Hr Hin Hj Hfree. destruct (Hs1 r root j Hr Hin Hj Hfree) as (root' & Hr' & Hin').
  assert (page root' = page root) as Hpg.
  { apply (f_equal (fun l => l !! r)) in Hp1. rewrite !list_lookup_fmap, Hr, Hr' in Hp1. by inv Hp1. }
  apply (Hs2 r root' j); try done. rewrite Hpg. destruct Hfree as [?|?]; [by left|right; set_solver].
Qed.

(** Giving back page [a] with its slot shrinks the heap. *)
Lemma heap_shrinks_release h a t r j i root' : heap_ok h -> a ∈ allbase h ->
  on_root (drop_page a t h) a r j -> heap_ok (drop_page a t h) -> a ∉ allbase (drop_page a t h) ->
  freepageref_loop a 0 (kheaproots h) = Ok (i, root') ->
  heap_shrinks h (set_roots (<[i := root']> (kheaproots h)) (drop_page a t h)).
Proof.
  intros Hok Ha Hslot Hok2 Hna Hloop.
  destruct (heap_ok_free_slot _ a r j i root' Hok2 Hna Hslot Hloop) as
    (_ & _ & root & -> & Hroot & Hpg & Haj & Hkeep). cbn [drop_page kheaproots set_lists] in Hroot.
  unfold heap_shrinks. cbn [kheaproots allbase set_roots drop_page set_lists]. split_and!.
  - rewrite list_fmap_insert, Hpg. apply list_insert_id. by rewrite list_lookup_fmap, Hroot.
  - intros x Hx. rewrite elem_of_unlink in Hx by (by apply ok_nodup). apply Hx.
  - intros r' rt j' Hr' Hin Hj' Hfree. destruct (decide (r' = r)) as [->|Hne].
    + rewrite Hroot in Hr'. inv Hr'. exists root'.
      rewrite list_lookup_insert_eq by (by eapply lookup_lt_Some). split; [done|].
      apply Hkeep; try done. intros ->. destruct Hslot as (rt0 & Hrt0 & Hp0 & _).
      cbn [drop_page kheaproots set_lists] in Hrt0. rewrite Hroot in Hrt0. inv Hrt0. naive_solver.
    + exists rt. rewrite list_lookup_insert_ne by done. done.
Qed.

(** ** kfree *)

Section Free.
Context {S : Type} {HS : HeapState S} {FP : FreePages S} {FL : FreeLaws S}.

Lemma get_pageref_Done a s pr s' : get_pageref a s = Done pr s' ->
  s' = s /\ pagerefs (heap_of s) !! a = Some pr.
Proof. unfold get_pageref, deref. destruct (_ !! a); [|discriminate]. by inversion 1. Qed.

Lemma find_page_spec p l s r s' : find_page p l s = Done r s' -> s' = s /\
  match r with
  | Some (a, pr) => a ∈ l /\ pagerefs (heap_of s) !! a = Some pr /\
      PR_PAGEADDR pr <= p < u32 (PR_PAGEADDR pr + PAGE_SIZE)
  | None => forall a, a ∈ l -> exists pr, pagerefs (heap_of s) !! a = Some pr /\
      ~ (PR_PAGEADDR pr <= p < u32 (PR_PAGEADDR pr + PAGE_SIZE))
  end.
Proof.
  induction l as [|a l IH]; cbn [find_page]; intros H.
  - inv H. split; [done|]. intros a Ha. by inv Ha.
  - mstep H. apply get_pageref_Done in E as [-> Hpr]. mstep H. apply kassert_Done in E as [_ ->].
    destruct (_ && _) eqn:Hrange.
    + inv H. apply andb_true_iff in Hrange as [?%Z.leb_le ?%Z.ltb_lt]. split_and!; try done. left.
    + destruct (IH H) as [-> Hr]. split; [done|]. destruct r as [[b pr]|].
      * destruct Hr as (? & ?). split; [by right|done].
      * intros b Hb. apply elem_of_cons in Hb as [->|Hb]; [|by apply Hr].
        eexists. split; [exact Hpr|]. intros [??]. apply andb_false_iff in Hrange. lia.
Qed.

(** The search finds the page of an allocated block. *)
Lemma find_page_allocated p s r s' : heap_ok (heap_of s) -> allocated (heap_of s) p ->
  find_page p (allbase (heap_of s)) s = Done r s' ->
  s' = s /\ exists a pr, r = Some (a, pr) /\ a ∈ allbase (heap_of s) /\
    pagerefs (heap_of s) !! a = Some pr /\ pageref_ok pr /\
    PR_PAGEADDR pr <= p < PR_PAGEADDR pr + PAGE_SIZE /\
    (p - PR_PAGEADDR pr) mod bsize (PR_BLOCKTYPE pr) = 0 /\ p - PR_PAGEADDR pr ∉ freelist pr.
Proof.
  intros Hok (b & pb & Hb & Hpb & Hr & Hm & Hno) H. apply find_page_spec in H as [-> H].
  split; [done|]. assert (Hu : forall a pr, a ∈ allbase (heap_of s) -> pagerefs (heap_of s) !! a = Some pr ->
    pageref_ok pr /\ u32 (PR_PAGEADDR pr + PAGE_SIZE) = PR_PAGEADDR pr + PAGE_SIZE).
  { intros a pr Ha Hpr. destruct (ok_refs _ Hok a Ha) as (pr' & Hpr' & Hpok). rewrite Hpr in Hpr'.
    inv Hpr'. split; [done|]. destruct (pr_page _ Hpok) as [_ ?].
    apply u32_small. unfold is_u32, PAGE_SIZE, MIPS_KSEG0 in *. lia. }
  destruct r as [[a pr]|].
  - destruct H as (Ha & Hpr & Hin). destruct (Hu a pr Ha Hpr) as [Hpok Hup].
    destruct (Hu b pb Hb Hpb) as [Hbok Hub]. rewrite Hup in Hin.
    assert (PR_PAGEADDR pr = PR_PAGEADDR pb) as Hpg.
    { eapply aligned_same_page; [apply (pr_page _ Hpok)|apply (pr_page _ Hbok)|exact Hin|exact Hr]. }
    assert (a = b) as -> by (by eapply same_page). rewrite Hpr in Hpb. inv Hpb. eauto 10.
  - destruct (H b Hb) as (pr & Hpr & Hnin). rewrite Hpb in Hpr. inv Hpr.
    destruct (Hu b pr Hb Hpb) as [_ Hub]. rewrite Hub in Hnin. done.
Qed.

(** The page record after a block came back. *)
Lemma free_pageref_ok pr o : pageref_ok pr -> 0 <= o < PAGE_SIZE ->
  o mod bsize (PR_BLOCKTYPE pr) = 0 -> o ∉ freelist pr ->
  u16 (nfree pr + 1) = nfree pr + 1 /\
  pageref_ok (mkPageref (pageaddr_and_blocktype pr) (o :: freelist pr) (nfree pr + 1)).
Proof.
  intros [Hp Ht Hc Hn Ho] Hr Hm Hno. destruct (bsize_bounds _ Ht) as (Hb & Hdiv & Hcnt).
  pose proof (offsets_length (bsize (PR_BLOCKTYPE pr)) (o :: freelist pr) ltac:(lia) Hdiv
    ltac:(by constructor) ltac:(by constructor)) as Hlen. simpl in Hlen.
  split; [unfold u16; rewrite Z.mod_small; lia|].
  split; cbn [freelist nfree]; try done; [simpl; lia|by constructor|by constructor].
Qed.

Lemma heap_shrinks_set_pageref h a pr h' :
  heap_shrinks (set_pageref a pr h) h' -> heap_shrinks h h'.
Proof. done. Qed.

(** A block leaves [held] untouched pages: the invariant survives the update of one
    page record that frees only the block [p], which nobody holds. *)
Lemma Inv_free_block W Y s p a pr : Inv W Y s -> ~ held s p ->
  a ∈ allbase (heap_of s) -> pagerefs (heap_of s) !! a = Some pr -> pageref_ok pr ->
  PR_PAGEADDR pr <= p < PR_PAGEADDR pr + PAGE_SIZE ->
  (p - PR_PAGEADDR pr) mod bsize (PR_BLOCKTYPE pr) = 0 -> p - PR_PAGEADDR pr ∉ freelist pr ->
  let pr' := mkPageref (pageaddr_and_blocktype pr) ((p - PR_PAGEADDR pr) :: freelist pr) (nfree pr + 1) in
  Inv W Y (set_heap (set_pageref a pr' (heap_of s)) s) /\
  Rel s (set_heap (set_pageref a pr' (heap_of s)) s) /\
  forall q n, block (heap_of s) q n -> q <> p -> block (set_pageref a pr' (heap_of s)) q n.
Proof.
  intros HI Hnh Ha Hpr Hpok Hr Hm Hno pr'. pose proof (Inv_heap_ok _ _ _ HI) as Hok.
  destruct (free_pageref_ok pr (p - PR_PAGEADDR pr) Hpok ltac:(lia) Hm Hno) as [_ Hpok'].
  destruct (heap_ok_set_pageref (heap_of s) a pr pr' Hok Ha Hpr eq_refl Hpok') as [Hok' Hown].
  assert (Hkeep : forall q n, block (heap_of s) q n -> q <> p -> block (set_pageref a pr' (heap_of s)) q n).
  { intros q n Hq Hne. eapply block_set_pageref; [done|done|exact Hpr|done| |done].
    intros Hqno. cbn [freelist pr']. rewrite not_elem_of_cons. split; [lia|done]. }
  destruct (Inv_set W Y Y (set_pageref a pr' (heap_of s)) s) as [HI' HR']; [done|done|by rewrite Hown|rewrite Hown; by eapply Inv_disj| |done].
  intros q Hq. eapply allocated_mono; [|by eapply Inv_held]. intros n Hb. apply Hkeep; [done|]. by intros ->.
Qed.

(** No block of a page whose blocks are all free is allocated. *)
Lemma full_page_no_block h a pr q n : heap_ok h -> a ∈ allbase h -> pagerefs h !! a = Some pr ->
  nfree pr = PAGE_SIZE / bsize (PR_BLOCKTYPE pr) -> block h q n ->
  block (drop_page a (Z.to_nat (PR_BLOCKTYPE pr)) h) q n.
Proof.
  intros Hok Ha Hpr Hfull (b & pb & Hb & Hpb & Hr & Hm & Hno & ->).
  destruct (ok_refs _ Hok a Ha) as (pr0 & Hpr0 & Hpok). rewrite Hpr in Hpr0. inv Hpr0.
  exists b, pb. unfold drop_page. cbn [allbase pagerefs set_lists].
  rewrite elem_of_unlink by (by apply ok_nodup). split_and!; try done; try lia.
  intros ->. rewrite Hpr in Hpb. inv Hpb. apply Hno.
  destruct (bsize_bounds _ (pr_type _ Hpok)) as (Hbs & Hdiv & _).
  apply (offsets_full (bsize (PR_BLOCKTYPE pb))); try done; try lia.
  - apply (pr_nodup _ Hpok). - apply (pr_offsets _ Hpok).
  - rewrite <- (pr_count _ Hpok). done.
Qed.

(** Giving the page of a completely free pageref back. *)
Lemma release_page_inv W Y s a pr s' : Inv W Y s -> a ∈ allbase (heap_of s) ->
  pagerefs (heap_of s) !! a = Some pr ->
  nfree pr = PAGE_SIZE / bsize (PR_BLOCKTYPE pr) ->
  (remove_lists a (PR_BLOCKTYPE pr);; freepageref a;; free_kpages (PR_PAGEADDR pr);; mret 0) s
    = Done 0 s' ->
  Inv W Y s' /\ Rel s s' /\ heap_shrinks (heap_of s) (heap_of s') /\ (forall q, held s' q <-> held s q) /\
  forall q n, block (heap_of s) q n -> block (heap_of s') q n.
Proof.
  intros HI Ha Hpr Hfull H. pose proof (Inv_heap_ok _ _ _ HI) as Hok.
  destruct (heap_ok_drop (heap_of s) a pr Hok Ha Hpr) as (Hok2 & Hnp & Hown).
  set (h2 := drop_page a (Z.to_nat (PR_BLOCKTYPE pr)) (heap_of s)) in *.
  destruct (Inv_set W Y ({[PR_PAGEADDR pr]} ∪ Y) h2 s HI Hok2) as [HI2 HR2].
  { rewrite Hown. set_solver. }
  { pose proof (Inv_disj _ _ _ HI). set_solver. }
  { intros q Hq. eapply allocated_mono; [|by eapply Inv_held]. intros n. by apply full_page_no_block. }
  mstep H. unfold remove_lists in E. mstep E. apply kassert_Done in E0 as [_ ->].
  inv E. fold (drop_page a (Z.to_nat (PR_BLOCKTYPE pr)) (heap_of s)) in H. fold h2 in H.
  mstep H. unfold freepageref in E. mstep E. inv E0. rewrite heap_of_set in E.
  mstep E. unfold lift in E0. destruct (freepageref_loop a 0 (kheaproots h2)) as [[i root]|] eqn:Hloop; [|discriminate].
  inv E0. inv E. rewrite heap_of_set in H.
  destruct (ok_slots _ Hok a Ha) as (r & j & Hslot).
  assert (Hna : a ∉ allbase h2).
  { unfold h2, drop_page. cbn [allbase set_lists]. rewrite elem_of_unlink by (by apply ok_nodup). tauto. }
  destruct (heap_ok_free_slot h2 a r j i root Hok2 Hna Hslot Hloop) as (Hok3 & Hown3 & _).
  pose proof (heap_shrinks_release (heap_of s) a _ r j i root Hok Ha Hslot Hok2 Hna Hloop) as Hshr.
  fold h2 in Hshr.
  set (h3 := set_roots (<[i := root]> (kheaproots h2)) h2) in *.
  destruct (Inv_set W _ ({[PR_PAGEADDR pr]} ∪ Y) h3 _ HI2 Hok3) as [HI3 HR3].
  { by rewrite heap_of_set, Hown3. }
  { rewrite Hown3. pose proof (Inv_disj _ _ _ HI2). rewrite heap_of_set in *. done. }
  { intros q Hq. apply (Inv_held _ _ _ q HI2) in Hq. rewrite heap_of_set in Hq. done. }
  mstep H. match goal with u : unit |- _ => destruct u end.
  destruct (free_law _ _ _ (PR_PAGEADDR pr) _ HI3 ltac:(set_solver) E) as (HI4 & HR4 & Hheap & Hheld).
  inv H. split_and!.
  - replace Y with (({[PR_PAGEADDR pr]} ∪ Y) ∖ {[PR_PAGEADDR pr]}); [done|].
    assert (PR_PAGEADDR pr ∉ Y); [|set_solver]. intros HpY.
    pose proof (Inv_disj _ _ _ HI) as Hd. rewrite Hown in Hd. set_solver.
  - eapply Rel_trans; [exact HR2|]. eapply Rel_trans; [exact HR3|exact HR4].
  - rewrite Hheap, heap_of_set. exact Hshr.
  - intros q. rewrite Hheld, !held_set. done.
  - intros q n Hb. rewrite Hheap, heap_of_set. by apply (full_page_no_block (heap_of s) a pr q n).
Qed.

Lemma blocksize_Done t (s s' : S) sz : 0 <= t < NSIZES ->
  blocksize t s = Done sz s' -> s' = s /\ sz = bsize t.
Proof.
  intros Ht. unfold blocksize, deref. rewrite sizes_lookup by done. by inversion 1.
Qed.

(** [kfree] of a block that was handed out and that nobody else holds: the
    invariant is kept, and so is every other block. *)
Lemma subpage_kfree_inv W Y s p r s' : Inv W Y s -> ~ held s p -> allocated (heap_of s) p ->
  subpage_kfree p s = Done r s' ->
  r = 0 /\ Inv W Y s' /\ Rel s s' /\ heap_shrinks (heap_of s) (heap_of s') /\
  (forall q, held s' q <-> held s q) /\
  forall q n, block (heap_of s) q n -> q <> p -> block (heap_of s') q n.
Proof.
  intros HI Hnh Hal H. pose proof (Inv_heap_ok _ _ _ HI) as Hok.
  unfold subpage_kfree in H. mstep H. inv E. mstep H.
  apply find_page_allocated in E as (-> & a & pr & -> & Ha & Hpr & Hpok & Hr & Hm & Hno); [|done|done].
  mstep H. apply blocksize_Done in E as [-> ->]; [|apply (pr_type _ Hpok)].
  assert (Hoff : u32 (p - PR_PAGEADDR pr) = p - PR_PAGEADDR pr).
  { apply u32_small. unfold is_u32, PAGE_SIZE in *. lia. }
  rewrite Hoff in H. mstep H.
  assert (s0 = s) as ->.
  { destruct (_ || _) in E; [discriminate|]. by inv E. }
  clear E. mstep H. assert (s0 = s) as ->.
  { destruct (_ =? _) in E; [by inv E|]. by apply kassert_Done in E as [_ ->]. }
  clear E. destruct (free_pageref_ok pr (p - PR_PAGEADDR pr) Hpok ltac:(lia) Hm Hno) as [Hu16 Hpok'].
  rewrite Hu16 in H. mstep H. inv E. mstep H. apply kassert_Done in E as [Hle ->].
  destruct (Inv_free_block W Y s p a pr HI Hnh Ha Hpr Hpok Hr Hm Hno) as (HI1 & HR1 & Hkeep).
  set (pr' := mkPageref _ (_ :: _) _) in *.
  destruct (nfree pr' =? PAGE_SIZE / bsize (PR_BLOCKTYPE pr)) eqn:Hfull.
  - apply Z.eqb_eq in Hfull. assert (Hd : r = 0).
    { mstep H. mstep H. mstep H. by inv H. }
    subst r. split; [done|].
    destruct (release_page_inv W Y _ a pr' s' HI1) as (HI2 & HR2 & Hs2 & Hheld & Hk2); try done.
    + rewrite heap_of_set. done.
    + rewrite heap_of_set. cbn [pagerefs set_pageref]. by rewrite lookup_insert_eq.
    + rewrite heap_of_set in Hs2, Hk2. split_and!; [done|by eapply Rel_trans| |intros q; by rewrite Hheld, held_set|auto].
      by eapply heap_shrinks_set_pageref.
  - inv H. rewrite !heap_of_set. split_and!; [done|done|done| |intros q; apply held_set|done].
    eapply heap_shrinks_set_pageref, heap_shrinks_refl.
Qed.

Lemma kfree_inv W Y s p s' u : Inv W Y s -> ~ held s p -> allocated (heap_of s) p ->
  kfree p s = Done u s' ->
  Inv W Y s' /\ Rel s s' /\ heap_shrinks (heap_of s) (heap_of s') /\ (forall q, held s' q <-> held s q) /\
  forall q n, block (heap_of s) q n -> q <> p -> block (heap_of s') q n.
Proof.
  intros HI Hnh Hal H. unfold kfree in H. destruct (Z.eqb_spec p 0) as [->|Hp0].
  - exfalso. destruct Hal as (a & pr & Ha & Hpr & Hr & _).
    destruct (ok_refs _ (Inv_heap_ok _ _ _ HI) a Ha) as (pr' & Hpr' & Hpok). rewrite Hpr in Hpr'.
    inv Hpr'. destruct (pr_page _ Hpok) as [_ ?]. unfold MIPS_KSEG0 in *. lia.
  - mstep H. apply (subpage_kfree_inv W Y) in E as (-> & HI' & HR & Hs & Hh & Hk); try done.
    inv H. done.
Qed.

(** Whatever the heap updates and [free_kpages] preserve, [kfree] preserves. *)
Lemma find_page_preserves (P : S -> Prop) p l : preserves P (find_page p l).
Proof. intros s a s' HP H. by apply find_page_spec in H as [-> _]. Qed.

Lemma kfree_preserves (P : S -> Prop) :
  (forall h s, P s -> P (set_heap h s)) -> (forall p, preserves P (free_kpages p)) ->
  forall p, preserves P (kfree p).
Proof.
  intros Hheap Hfree p.
  assert (Hm : forall f, preserves P (modify_heap f)) by (intros f s u s' HP H; inv H; auto).
  pose proof (find_page_preserves P).
  unfold kfree, subpage_kfree, remove_lists, freepageref, blocksize. solve_preserves.
Qed.

End Free.

(** ** kmalloc *)

(** Recording a fresh pageref that is on no list changes no page and no block. *)
Lemma heap_ok_fresh_pageref h a pr : heap_ok h -> a ∉ allbase h ->
  heap_ok (set_pageref a pr h) /\ owned (set_pageref a pr h) = owned h /\
  forall q n, block h q n -> block (set_pageref a pr h) q n.
Proof.
  intros Hok Hna.
  assert (Hl : forall x, x ∈ allbase h -> <[a := pr]> (pagerefs h) !! x = pagerefs h !! x).
  { intros x Hx. rewrite lookup_insert_ne; [done|]. intros ->. done. }
  assert (Hsub : subpages (set_pageref a pr h) = subpages h).
  { unfold subpages. cbn [allbase pagerefs set_pageref]. apply omap_ext_in.
    intros x Hx. by rewrite Hl. }
  split_and!; [|unfold owned; by rewrite Hsub|].
  - destruct Hok as [Hrefs Hnd Hpages Hszs Hsz Hslots Hroots Hroot].
    split; cbn [allbase pagerefs sizebases kheaproots set_pageref]; try done.
    + intros x Hx. rewrite Hl by done. by apply Hrefs.
    + by rewrite Hsub.
    + intros t l Ht. destruct (Hsz t l Ht) as [Hndl Hin]. split; [done|]. intros x Hx.
      destruct (Hin x Hx) as (Hxa & ?). by rewrite Hl.
  - intros q n (b & pb & Hb & Hpb & ?). exists b, pb. cbn [allbase pagerefs set_pageref].
    rewrite Hl by done. done.
Qed.

(** The heap after the fresh page [a] of type [t] joined both lists. *)
Definition add_page (a : Z) (t : nat) (h : kheap) : kheap :=
  set_lists (alter (cons a) t (sizebases h)) (a :: allbase h) h.

Lemma heap_ok_add_page h a t pr r j : heap_ok h -> a ∉ allbase h -> pagerefs h !! a = Some pr ->
  pageref_ok pr -> PR_BLOCKTYPE pr = Z.of_nat t -> PR_PAGEADDR pr ∉ owned h -> on_root h a r j ->
  heap_ok (add_page a t h) /\ owned (add_page a t h) = {[PR_PAGEADDR pr]} ∪ owned h /\
  forall q n, block h q n -> block (add_page a t h) q n.
Proof.
  intros Hok Hna Hpr Hpok Ht Hnp Hslot.
  assert (Hsub : subpages (add_page a t h) = PR_PAGEADDR pr :: subpages h).
  { unfold subpages, add_page. cbn [allbase pagerefs set_lists]. csimpl. by rewrite Hpr. }
  split_and!.
  - destruct Hok as [Hrefs Hnd Hpages Hszs Hsz Hslots Hroots Hroot].
    split; unfold add_page; cbn [allbase pagerefs sizebases kheaproots set_lists]; try done.
    + intros x Hx. apply elem_of_cons in Hx as [->|Hx]; [eauto|by apply Hrefs].
    + by constructor.
    + fold (add_page a t h). rewrite Hsub. change (rootpages (add_page a t h)) with (rootpages h).
      simpl. constructor; [|done]. rewrite elem_of_app, <- elem_of_owned. done.
    + by rewrite length_alter.
    + intros t' l Hl. rewrite list_lookup_alter in Hl. case_decide as Heq.
      * subst t'. apply fmap_Some in Hl as (l0 & Hl0 & ->). destruct (Hsz _ l0 Hl0) as [Hnd0 Hin].
        split; [constructor; [|done]; intros Hal; by apply Hna, Hin|]. intros x Hx.
        apply elem_of_cons in Hx as [->|Hx]; [split; [left|eauto]|].
        destruct (Hin x Hx) as [? ?]. split; [by right|done].
      * destruct (Hsz t' l Hl) as [Hndl Hin]. split; [done|]. intros x Hx.
        destruct (Hin x Hx) as [? ?]. split; [by right|done].
    + intros x Hx. apply elem_of_cons in Hx as [->|Hx]; [by exists r, j|by apply Hslots].
  - apply set_eq. intros x. rewrite elem_of_union, elem_of_singleton, !elem_of_owned, Hsub, elem_of_cons.
    change (rootpages (add_page a t h)) with (rootpages h). tauto.
  - intros q n (b & pb & Hb & Hpb & ?). exists b, pb. unfold add_page. cbn [allbase pagerefs set_lists].
    split; [by right|]. done.
Qed.

(** A root gets its page. *)
Lemma heap_ok_new_rootpage h w root va n : heap_ok h -> kheaproots h !! w = Some root ->
  page root = 0 -> page_ok va -> va ∉ owned h ->
  let h' := set_roots (<[w := mkRoot va (pagerefs_inuse root) n]> (kheaproots h)) h in
  heap_ok h' /\ owned h' = {[va]} ∪ owned h.
Proof.
  intros Hok Hw Hpg Hva Hno h'.
  assert (va <> 0) by (destruct Hva as [_ ?]; unfold MIPS_KSEG0 in *; lia).
  assert (Hrp : rootpages h' ≡ₚ va :: rootpages h).
  { unfold rootpages, h'. cbn [kheaproots set_roots]. rewrite list_fmap_insert. cbn [page].
    assert (Hl : (page <$> kheaproots h) !! w = Some 0) by (by rewrite list_lookup_fmap, Hw, <- Hpg).
    rewrite insert_take_drop by (by eapply lookup_lt_Some).
    rewrite <- (take_drop_middle _ _ _ Hl) at 3. rewrite !filter_app, filter_cons_True by done.
    rewrite filter_cons_False by naive_solver. by rewrite Permutation_middle. }
  split.
  - destruct Hok as [Hrefs Hnd Hpages Hszs Hsz Hslots Hroots Hroot].
    split; unfold h'; cbn [allbase pagerefs sizebases kheaproots set_roots]; try done.
    + fold h'. change (subpages h') with (subpages h). rewrite Hrp, <- Permutation_middle.
      constructor; [|done]. rewrite elem_of_app, <- elem_of_owned. done.
    + intros a Ha. destruct (Hslots a Ha) as (r & j & rt & Hr & Hp0 & ?).
      exists r, j, rt. cbn [kheaproots set_roots]. rewrite list_lookup_insert_ne; [done|].
      intros ->. rewrite Hw in Hr. inv Hr.
    + by rewrite length_insert.
    + intros r rt Hr. destruct (decide (w = r)) as [->|Hne].
      * rewrite list_lookup_insert_eq in Hr by (by eapply lookup_lt_Some). inv Hr. cbn [page pagerefs_inuse].
        split; [by apply (Hroot r root)|by right].
      * rewrite list_lookup_insert_ne in Hr by done. by apply (Hroot r).
  - apply set_eq. intros x. rewrite elem_of_union, elem_of_singleton, !elem_of_owned, Hrp, elem_of_cons.
    change (subpages h') with (subpages h). tauto.
Qed.

Lemma find_slot_spec roots : forall w0 w i j, find_slot w0 roots = Some (w, i, j) ->
  exists k root word, w = (w0 + k)%nat /\ roots !! k = Some root /\
    pagerefs_inuse root !! i = Some word /\ (j < 32)%nat /\ Z.testbit word (Z.of_nat j) = false.
Proof.
  induction roots as [|root roots IH]; intros w0 w i j H; [discriminate|].
  cbn [find_slot] in H. destruct (root_slot root) as [[i' j']|] eqn:Hs.
  - inv H. unfold root_slot in Hs. destruct (_ <=? _); [discriminate|].
    destruct (list_find _ _) as [[i' wd]|] eqn:Hf; [|discriminate].
    apply fmap_Some in Hs as (j' & Hj & ?). simplify_eq.
    unfold clear_bit in Hj. apply fmap_Some in Hj as ([j2 y] & Hj & ->).
    apply list_find_Some in Hf as (Hw & _ & _). apply list_find_Some in Hj as (Hj & H0 & _).
    apply lookup_seq in Hj as [-> Hj]. cbn [fst]. rewrite Nat.add_0_l in *.
    apply Z.eqb_eq in H0. rewrite land_shiftl1 in H0 by lia. apply negb_true_iff in H0.
    exists 0%nat, root, wd. rewrite Nat.add_0_r. done.
  - destruct (IH (S w0) w i j H) as (k & rt & wd & -> & Hk & Hrest).
    exists (S k), rt, wd. split; [lia|]. done.
Qed.

(** Taking a free slot of a root keeps the heap as it is. *)
Lemma heap_ok_take_slot h w root i j word n : heap_ok h -> kheaproots h !! w = Some root ->
  pagerefs_inuse root !! i = Some word -> (j < 32)%nat ->
  let root' := mkRoot (page root) (<[i := Z.lor word (Z.shiftl 1 (Z.of_nat j))]> (pagerefs_inuse root)) n in
  let h' := set_roots (<[w := root']> (kheaproots h)) h in
  heap_ok h' /\ owned h' = owned h /\ inuse root' (Z.of_nat i * 32 + Z.of_nat j) = true /\
  0 <= Z.of_nat i * 32 + Z.of_nat j < NPAGEREFS_PER_PAGE.
Proof.
  intros Hok Hw Hi Hj root' h'. pose proof (lookup_lt_Some _ _ _ Hi) as Hil.
  destruct (ok_root h Hok w root Hw) as [Hlen _].
  assert (Hi8 : (i < 8)%nat) by (rewrite Hlen in Hil; exact Hil).
  assert (Hmono : forall k, 0 <= k -> inuse root k = true -> inuse root' k = true).
  { intros k Hk Hin. unfold root'. rewrite inuse_insert by (done || lia).
    destruct (Z.eqb_spec (k / 32) (Z.of_nat i)) as [E|]; [|done].
    pose proof (Z.mod_pos_bound k 32). rewrite lor_shiftl1_bits by lia.
    unfold inuse in Hin. rewrite E, Nat2Z.id, Hi in Hin. by rewrite Hin, orb_true_r. }
  destruct (heap_ok_set_root h w root root') as [Hok' Hown]; try done.
  - unfold root'. cbn [pagerefs_inuse]. by rewrite length_insert.
  - intros a k _ _ _ Hk. apply Hmono. lia.
  - split_and!; try done; try lia; [|change NPAGEREFS_PER_PAGE with 256; lia].
    unfold root'. rewrite inuse_insert by lia.
    rewrite Z.div_add_l, (Z.div_small (Z.of_nat j)), Z.add_0_r, Z.eqb_refl by lia.
    rewrite Z.add_comm, Z.mod_add, Z.mod_small, lor_shiftl1_bits, Z.eqb_refl by lia. done.
Qed.

(** A slot that is not in use belongs to no page of blocks. *)
Lemma clear_slot_fresh h w root k : heap_ok h -> kheaproots h !! w = Some root -> page root <> 0 ->
  0 <= k < NPAGEREFS_PER_PAGE -> inuse root k = false ->
  page root + SIZEOF_PAGEREF * k ∉ allbase h.
Proof.
  intros Hok Hw Hp Hk Hin Ha.
  destruct (ok_slots h Hok _ Ha) as (r & j & rt & Hr & Hp' & Heq & Hj & Hin').
  destruct (ok_root h Hok w root Hw) as [_ [?|Hrok]]; [done|].
  destruct (ok_root h Hok r rt Hr) as [_ [?|Hrtok]]; [done|].
  change NPAGEREFS_PER_PAGE with 256 in *. unfold SIZEOF_PAGEREF in *.
  assert (page root = page rt) as Hpg.
  { eapply (aligned_same_page _ _ (page root + 16 * k)); [apply Hrok|apply Hrtok| |];
      unfold PAGE_SIZE; lia. }
  assert (w = r) as -> by (by eapply root_unique). rewrite Hw in Hr. inv Hr.
  assert (k = j) as -> by lia. congruence.
Qed.

Section Alloc.
Context {S : Type} {HS : HeapState S} {FP : FreePages S} {AP : AllocPages S}
  {FL : FreeLaws S} {AL : AllocLaws S}.

(** Taking a block from a page with room: always succeeds. *)
Lemma doalloc_eq s a pr o rest : pagerefs (heap_of s) !! a = Some pr -> pageref_ok pr ->
  freelist pr = o :: rest ->
  doalloc a s = Done (PR_PAGEADDR pr + o)
    (set_heap (set_pageref a (mkPageref (pageaddr_and_blocktype pr) rest (Z.of_nat (length rest)))
       (heap_of s)) s).
Proof.
  intros Hpr Hpok Hfl. unfold doalloc, get_pageref, mbind, M_bind, deref. rewrite Hpr.
  pose proof (pr_offsets _ Hpok) as Ho. rewrite Hfl in Ho. apply Forall_cons in Ho as [[Ho _] Hrest].
  unfold freelist_offset. rewrite Hfl. unfold kassert. replace (o <? PAGE_SIZE) with true by lia.
  pose proof (pr_count _ Hpok) as Hc. rewrite Hfl in Hc. simpl length in Hc.
  destruct (bsize_bounds _ (pr_type _ Hpok)) as (Hb & Hdiv & Hcnt).
  pose proof (offsets_length (bsize (PR_BLOCKTYPE pr)) (freelist pr) ltac:(lia) Hdiv (pr_nodup _ Hpok) (pr_offsets _ Hpok)) as Hlen.
  rewrite Hfl in Hlen. simpl length in Hlen.
  assert (u16 (nfree pr - 1) = Z.of_nat (length rest)) as ->
    by (unfold u16; rewrite Hc, Z.mod_small; lia).
  destruct (pr_page _ Hpok) as [_ Hpg].
  rewrite u32_small by (unfold is_u32, PAGE_SIZE, MIPS_KSEG0 in *; lia).
  cbn [tail]. destruct rest as [|o' rest']; [done|]. simpl length.
  apply Forall_cons in Hrest as [[Ho' _] _].
  rewrite (proj2 (Z.ltb_lt 0 (Z.of_nat (Datatypes.S (length rest')))) ltac:(lia)). replace (o' <? PAGE_SIZE) with true by lia. done.
Qed.

Lemma block_allocated h q n : block h q n -> allocated h q.
Proof. intros (a & pr & ? & ? & ? & ? & ? & _). by exists a, pr. Qed.

Lemma bsize_divides t : 0 <= t < NSIZES -> 0 < bsize t /\ (bsize t | PAGE_SIZE).
Proof.
  intros Ht. unfold NSIZES in Ht.
  assert (t = 0 \/ t = 1 \/ t = 2 \/ t = 3 \/ t = 4 \/ t = 5 \/ t = 6 \/ t = 7) as Hc by lia.
  repeat destruct Hc as [->|Hc]; try subst t; (split; [done|]);
    apply Z.mod_divide; done.
Qed.

(** A block lies inside its page. *)
Lemma block_in_page pr q : pageref_ok pr -> PR_PAGEADDR pr <= q < PR_PAGEADDR pr + PAGE_SIZE ->
  (q - PR_PAGEADDR pr) mod bsize (PR_BLOCKTYPE pr) = 0 ->
  q + bsize (PR_BLOCKTYPE pr) <= PR_PAGEADDR pr + PAGE_SIZE.
Proof.
  intros Hok Hq Hm. destruct (bsize_divides _ (pr_type _ Hok)) as [Hpos [k Hk]].
  set (n := bsize _) in *. apply Z.mod_divide in Hm as [m Hm]; [|lia].
  assert (m < k) by nia. assert ((m + 1) * n <= k * n) by nia. lia.
Qed.

(** Different blocks do not overlap. *)
Lemma block_disjoint h q m r n : heap_ok h -> block h q m -> block h r n -> q <> r ->
  q + m <= r \/ r + n <= q.
Proof.
  intros Hok (a & pa & Ha & Hpa & Hq & Hqm & _ & ->) (b & pb & Hb & Hpb & Hr & Hrm & _ & ->) Hne.
  destruct (ok_refs _ Hok a Ha) as (pr & Hpr & Hoka). rewrite Hpa in Hpr. injection Hpr as <-.
  destruct (ok_refs _ Hok b Hb) as (pr & Hpr & Hokb). rewrite Hpb in Hpr. injection Hpr as <-.
  pose proof (block_in_page pa q Hoka Hq Hqm). pose proof (block_in_page pb r Hokb Hr Hrm).
  destruct (decide (a = b)) as [->|Hab].
  - rewrite Hpa in Hpb. injection Hpb as <-. destruct (bsize_divides _ (pr_type _ Hoka)) as [Hpos _].
    set (n := bsize _) in *. apply Z.mod_divide in Hqm as [x Hx], Hrm as [y Hy]; [|lia..].
    destruct (Z.lt_trichotomy x y) as [?|[->|?]];
      [left; assert ((x + 1) * n <= y * n) by nia; lia|lia|right; assert ((y + 1) * n <= x * n) by nia; lia].
  - destruct (pr_page _ Hoka) as [Hma _], (pr_page _ Hokb) as [Hmb _].
    assert (PR_PAGEADDR pa <> PR_PAGEADDR pb).
    { intros Heq. apply Hab. eapply (same_page h); eauto. }
    apply Z.mod_divide in Hma as [x Hx], Hmb as [y Hy]; [|done..]. unfold PAGE_SIZE in *.
    assert (x < y \/ y < x) as [?|?] by lia; lia.
Qed.

Lemma doalloc_inv W Y s a pr r s' : Inv W Y s -> a ∈ allbase (heap_of s) ->
  pagerefs (heap_of s) !! a = Some pr -> 0 < nfree pr -> doalloc a s = Done r s' ->
  Inv W Y s' /\ Rel s s' /\ block (heap_of s') r (bsize (PR_BLOCKTYPE pr)) /\
  ~ allocated (heap_of s) r /\ r <> 0 /\ (forall q, held s' q <-> held s q) /\
  forall q n, block (heap_of s) q n -> block (heap_of s') q n.
Proof.
  intros HI Ha Hpr Hn H. pose proof (Inv_heap_ok _ _ _ HI) as Hok.
  destruct (ok_refs _ Hok a Ha) as (pr0 & Hpr0 & Hpok). rewrite Hpr in Hpr0. inv Hpr0.
  pose proof (pr_count _ Hpok) as Hc. destruct (freelist pr0) as [|o rest] eqn:Hfl; [simpl in Hc; lia|].
  rewrite (doalloc_eq s a pr0 o rest Hpr Hpok Hfl) in H. inv H.
  pose proof (pr_offsets _ Hpok) as Ho. pose proof (pr_nodup _ Hpok) as Hnd. rewrite Hfl in Ho, Hnd.
  apply Forall_cons in Ho as [[Ho Hm] Hrest]. apply NoDup_cons in Hnd as [Hno Hnd].
  pose proof (doalloc_pageref_ok pr0 Hpok) as Hpok'. rewrite Hfl in Hpok'. cbn [tail] in Hpok'.
  set (pr' := mkPageref _ rest _) in *.
  destruct (heap_ok_set_pageref (heap_of s) a pr0 pr' Hok Ha Hpr eq_refl Hpok') as [Hok' Hown].
  assert (Hkeep : forall q n, block (heap_of s) q n -> block (set_pageref a pr' (heap_of s)) q n).
  { intros q n Hq. eapply block_set_pageref; [done|done|exact Hpr|done| |done].
    rewrite Hfl. cbn [freelist pr']. rewrite not_elem_of_cons. tauto. }
  destruct (Inv_set W Y Y (set_pageref a pr' (heap_of s)) s HI Hok') as [HI' HR'].
  { by rewrite Hown. }
  { rewrite Hown. by eapply Inv_disj. }
  { intros q Hq. eapply allocated_mono; [|by eapply Inv_held]. auto. }
  split_and!; [done|done| | | |intros q; apply held_set|by rewrite heap_of_set].
  - rewrite heap_of_set. exists a, pr'. cbn [allbase pagerefs set_pageref]. rewrite lookup_insert_eq.
    unfold pr', PR_PAGEADDR, PR_BLOCKTYPE. cbn [pageaddr_and_blocktype freelist].
    fold (PR_PAGEADDR pr0) (PR_BLOCKTYPE pr0). replace (_ + o - _) with o by lia.
    split_and!; try done; lia.
  - intros (b & pb & Hb & Hpb & Hr & Hmb & Hnob).
    destruct (ok_refs _ Hok b Hb) as (pb0 & Hpb0 & Hbok). rewrite Hpb in Hpb0. inv Hpb0.
    assert (PR_PAGEADDR pr0 = PR_PAGEADDR pb0) as Hpg.
    { eapply aligned_same_page; [apply (pr_page _ Hpok)|apply (pr_page _ Hbok)| |exact Hr]. lia. }
    assert (a = b) as -> by (eapply (same_page (heap_of s)); eauto). rewrite Hpr in Hpb. inv Hpb.
    apply Hnob. rewrite Hfl. replace (_ + o - _) with o by lia. left.
  - destruct (pr_page _ Hpok) as [_ ?]. unfold MIPS_KSEG0 in *. lia.
Qed.

Lemma find_free_page_spec t l s r s' : find_free_page t l s = Done r s' -> s' = s /\
  match r with
  | Some a => a ∈ l /\ exists pr, pagerefs (heap_of s) !! a = Some pr /\ 0 < nfree pr
  | None => forall a, a ∈ l -> exists pr, pagerefs (heap_of s) !! a = Some pr /\ nfree pr <= 0
  end.
Proof.
  induction l as [|a l IH]; cbn [find_free_page]; intros H.
  - inv H. split; [done|]. intros a Ha. by inv Ha.
  - mstep H. apply get_pageref_Done in E as [-> Hpr]. mstep H. apply kassert_Done in E as [_ ->].
    destruct (Z.ltb_spec 0 (nfree ret)).
    + inv H. split; [done|]. split; [left|eauto].
    + destruct (IH H) as [-> Hr]. split; [done|]. destruct r as [b|].
      * destruct Hr as [? ?]. split; [by right|done].
      * intros b Hb. apply elem_of_cons in Hb as [->|Hb]; [eauto|by apply Hr].
Qed.

Lemma get_root_Done i s root s' : get_root i s = Done root s' ->
  kheaproots (heap_of s) !! i = Some root /\ s' = s.
Proof. unfold get_root. apply deref_Done. Qed.
Lemma modify_heap_Done f s u s' : modify_heap f s = Done u s' -> s' = set_heap (f (heap_of s)) s.
Proof. unfold modify_heap. by inversion 1. Qed.

Ltac mprim_hook ::=
  match goal with
  | E : get_root _ _ = Done _ _ |- _ => apply get_root_Done in E; destruct E as [E ->]
  | E : get_pageref _ _ = Done _ _ |- _ => apply get_pageref_Done in E; destruct E as [-> E]
  | E : modify_heap _ _ = Done _ _ |- _ => apply modify_heap_Done in E; subst_eq E
  | E : blocksize _ _ = Done _ _ |- _ => unfold blocksize in E
  end.

(** Slot [k] of root [w] is marked in use but belongs to no page of blocks: the
    slot [allocpageref] is handing out. *)
Definition reserved (h : kheap) (w : nat) (k : Z) : Prop :=
  0 <= k < NPAGEREFS_PER_PAGE /\ exists root, kheaproots h !! w = Some root /\
  inuse root k = true /\ (page root = 0 \/ page root + SIZEOF_PAGEREF * k ∉ allbase h).

Lemma reserved_shrinks h h' w k : heap_shrinks h h' -> reserved h w k -> reserved h' w k.
Proof.
  intros (Hp & Ha & Hs) (Hk & root & Hw & Hin & Hfree). split; [done|].
  destruct (Hs w root k Hw Hin Hk Hfree) as (root' & Hw' & Hin').
  assert (page root' = page root) as Hpg.
  { apply (f_equal (fun l => l !! w)) in Hp. rewrite !list_lookup_fmap, Hw, Hw' in Hp. by inv Hp. }
  exists root'. rewrite Hpg. set_solver.
Qed.

Lemma keeps_refl (s : S) : keeps s s.
Proof. by intros q n. Qed.
Lemma keeps_trans (s1 s2 s3 : S) : keeps s1 s2 -> keeps s2 s3 -> keeps s1 s3.
Proof. intros H1 H2 q n Hb Hh. destruct (H1 q n Hb Hh). auto. Qed.
(** An update of the heap that leaves the blocks. *)
Lemma keeps_of_blocks (s s' : S) : (forall q n, block (heap_of s) q n -> block (heap_of s') q n) ->
  (forall q, held s' q -> held s q) -> keeps s s'.
Proof. intros Hb Hh q n Hq Hn. split; auto. Qed.
Lemma keeps_set h (s : S) : (forall q n, block (heap_of s) q n -> block h q n) -> keeps s (set_heap h s).
Proof. intros Hb. apply keeps_of_blocks; [by rewrite heap_of_set|]. intros q. by rewrite held_set. Qed.

(** A page that the heap does not own carries no pageref in use. *)
Lemma fresh_page_no_pageref h va k : heap_ok h -> page_ok va -> va ∉ owned h ->
  0 <= k < NPAGEREFS_PER_PAGE -> va + SIZEOF_PAGEREF * k ∉ allbase h.
Proof.
  intros Hok Hva Hno Hk Ha. destruct (ok_slots h Hok _ Ha) as (r & j & rt & Hr & Hp & Heq & Hj & _).
  destruct (ok_root h Hok r rt Hr) as [_ [?|Hrok]]; [done|]. apply Hno.
  change NPAGEREFS_PER_PAGE with 256 in *. unfold SIZEOF_PAGEREF in *.
  assert (va = page rt) as ->.
  { eapply (aligned_same_page _ _ (va + 16 * k)); [apply Hva|apply Hrok| |]; unfold PAGE_SIZE; lia. }
  apply elem_of_owned. right. unfold rootpages. rewrite list_elem_of_filter. split; [done|].
  apply list_elem_of_fmap. exists rt. split; [done|]. by eapply list_elem_of_lookup_2.
Qed.

Lemma allocpagerefpage_inv W Y s w k u s' : Inv W Y s -> reserved (heap_of s) w k ->
  allocpagerefpage w s = Done u s' ->
  Inv W Y s' /\ Rel s s' /\ reserved (heap_of s') w k /\
  allbase (heap_of s') ⊆ allbase (heap_of s) /\ keeps s s'.
Proof.
  intros HI Hres H. unfold allocpagerefpage in H. mstep H. apply get_root_Done in E as [Hw ->].
  mgo H. apply Z.eqb_eq in E.
  destruct (alloc_law W Y s 1 ret0 s0 HI ltac:(lia) E0) as (HR & Hsh & Hk & Hcase).
  pose proof (reserved_shrinks _ _ _ _ Hsh Hres) as Hres1. pose proof Hsh as (Hpages & Hsub & _).
  destruct Hcase as [(-> & HI1)|(Hr0 & Hpok & [(HnY & Hno & HI1) _])]; [|lia|].
  - rewrite Z.eqb_refl in H. mprim. done.
  - rewrite (proj2 (Z.eqb_neq _ _) Hr0) in H. mgo H. rename E2 into Hw1.
    assert (page ret1 = 0) as Hp0.
    { apply (f_equal (fun l => l !! w)) in Hpages. rewrite !list_lookup_fmap, Hw, Hw1 in Hpages.
      cbn in Hpages. congruence. }
    rewrite Hp0 in H. simpl in H. inv H.
    pose proof (Inv_heap_ok _ _ _ HI1) as Hok.
    destruct (heap_ok_new_rootpage _ w ret1 ret0 (numinuse ret1) Hok Hw1 Hp0 Hpok Hno) as [Hok' Hown].
    destruct Hres1 as (Hkr & rt & Hrt & Hin & _). rewrite Hw1 in Hrt. inv Hrt.
    destruct (Inv_set W _ Y _ _ HI1 Hok') as [HI' HR'].
    { rewrite Hown. set_solver. }
    { rewrite Hown. pose proof (Inv_disj _ _ _ HI1). set_solver. }
    { intros q Hq. exact (Inv_held _ _ _ _ HI1 Hq). }
    split_and!; [done|by eapply Rel_trans| |by rewrite heap_of_set|eapply keeps_trans; [exact Hk|by apply keeps_set]].
    rewrite heap_of_set. split; [done|].
    exists (mkRoot ret0 (pagerefs_inuse rt) (numinuse rt)). cbn [kheaproots set_roots page allbase].
    rewrite list_lookup_insert_eq by (by eapply lookup_lt_Some). split_and!; [done|done|].
    right. by apply fresh_page_no_pageref.
Qed.

(** [allocpageref] hands out an unused slot of a page of pagerefs, or NULL. *)
Lemma allocpageref_inv W Y s a s' : Inv W Y s -> allocpageref s = Done a s' ->
  Inv W Y s' /\ Rel s s' /\ keeps s s' /\
  (a = 0 \/ a <> 0 /\ a ∉ allbase (heap_of s') /\ exists r j, on_root (heap_of s') a r j).
Proof.
  intros HI H. unfold allocpageref in H. mgo H.
  destruct (find_slot 0 (kheaproots (heap_of s))) as [[[w i] j]|] eqn:Hf; [|mprim].
  2:{ split_and!; [done|apply Rel_refl|apply keeps_refl|by left]. }
  mstep H. apply get_root_Done in E as [Hw ->]. mgo H.
  apply find_slot_spec in Hf as (k & root & word & -> & Hk & Hi & Hj & Hbit).
  change (0 + k)%nat with k in *. rewrite Hw in Hk. inv Hk.
  pose proof (Inv_heap_ok _ _ _ HI) as Hok.
  destruct (heap_ok_take_slot (heap_of s) k root i j word (numinuse root + 1) Hok Hw Hi Hj)
    as (Hok' & Hown & Hin & Hrange).
  set (kk := Z.of_nat i * 32 + Z.of_nat j) in *.
  assert (Hin0 : inuse root kk = false).
  { unfold inuse, kk. rewrite Z.div_add_l, (Z.div_small (Z.of_nat j)), Z.add_0_r, Nat2Z.id, Hi by lia.
    by rewrite Z.add_comm, Z.mod_add, Z.mod_small by lia. }
  set (h1 := set_roots _ _) in *.
  destruct (Inv_set W Y Y h1 s HI Hok') as [HI1 HR1].
  { by rewrite Hown. }
  { rewrite Hown. by eapply Inv_disj. }
  { intros q Hq. exact (Inv_held _ _ _ _ HI Hq). }
  assert (Hres : reserved (heap_of (set_heap h1 s)) k kk).
  { rewrite heap_of_set. split; [done|]. eexists. unfold h1 at 1. cbn [kheaproots set_roots].
    rewrite list_lookup_insert_eq by (by eapply lookup_lt_Some). split_and!; [done|done|].
    cbn [page]. destruct (decide (page root = 0)); [by left|right]. by apply (clear_slot_fresh (heap_of s) k). }
  assert (Hmid : Inv W Y s0 /\ Rel s s0 /\ keeps s s0 /\ reserved (heap_of s0) k kk).
  { destruct (page root =? 0).
    - destruct (allocpagerefpage_inv W Y _ k kk _ _ HI1 Hres E0) as (? & ? & ? & _ & Hk).
      split_and!; [done|by eapply Rel_trans| |done]. eapply (keeps_trans _ (set_heap h1 s)); [by apply keeps_set|exact Hk].
    - mprim. split_and!; [done..|by apply keeps_set|done]. }
  destruct Hmid as (HI2 & HR2 & Hk2 & (_ & rt & Hrt & Hinrt & Hfree)).
  rename E1 into Hw2. rewrite Hrt in Hw2. inv Hw2.
  destruct (Z.eqb_spec (page ret1) 0) as [Hp|Hp]; mprim; split_and!; try done; [by left|right].
  destruct Hfree as [?|Hfree]; [done|]. 
  destruct (ok_root _ (Inv_heap_ok _ _ _ HI2) _ _ Hrt) as [_ [?|[_ Hrok]]]; [done|].
  split_and!; [unfold SIZEOF_PAGEREF, MIPS_KSEG0 in *; lia|done|]. exists k, kk, ret1. done.
Qed.

Lemma blocktype_spec sz (s : S) t s' : 0 <= sz -> blocktype sz s = Done t s' ->
  s' = s /\ 0 <= t < NSIZES /\ sz <= bsize t /\ forall t', 0 <= t' < t -> bsize t' < sz.
Proof.
  intros Hsz H. unfold blocktype in H.
  destruct (list_find _ _) as [[i x]|] eqn:Hf; [|discriminate]. mprim.
  apply list_find_Some in Hf as (Hi & Hle & Hfirst).
  pose proof (lookup_lt_Some _ _ _ Hi) as Hlt. simpl in Hlt. unfold NSIZES.
  split_and!; [done|lia|lia| |].
  - unfold bsize. rewrite Nat2Z.id, Hi. done.
  - intros t' Ht'. pose proof (sizes_lookup t' ltac:(unfold NSIZES; lia)) as Hl.
    specialize (Hfirst _ _ Hl ltac:(lia)). cbn beta in Hfirst. lia.
Qed.

(** The pageref of a fresh page of blocks. *)
Lemma fresh_pageref_ok p t : page_ok p -> 0 <= t < NSIZES ->
  let n := PAGE_SIZE / bsize t in
  let pr := mkPageref (MKPAB p t) (fresh_freelist n (bsize t)) n in
  pageref_ok pr /\ PR_PAGEADDR pr = p /\ PR_BLOCKTYPE pr = t /\ 0 < nfree pr.
Proof.
  intros Hp Ht n pr. destruct (MKPAB_decode p t (fresh_freelist n (bsize t)) n Hp Ht) as [Hpa Hbt].
  destruct (bsize_bounds t Ht) as (Hb & Hdiv & Hn).
  destruct (fresh_freelist_ok (bsize t) ltac:(lia) Hdiv) as (Hnd & Hoff & Hlen).
  fold pr in Hpa, Hbt. split_and!; [|done|done|cbn [nfree pr]; lia].
  split; rewrite ?Hpa, ?Hbt; try done.
Qed.

(** A fresh page [p] that the code holds becomes a page of blocks of the heap. *)
Lemma publish_page_inv W Y s p a t r j : Inv W ({[p]} ∪ Y) s -> p ∉ Y -> page_ok p ->
  0 <= t < NSIZES -> a ∉ allbase (heap_of s) -> on_root (heap_of s) a r j ->
  let n := PAGE_SIZE / bsize t in
  let pr := mkPageref (MKPAB p t) (fresh_freelist n (bsize t)) n in
  let s3 := set_heap (set_pageref a pr (heap_of s)) s in
  let s4 := set_heap (add_page a (Z.to_nat t) (heap_of s3)) s3 in
  Inv W Y s4 /\ Rel s s4 /\ a ∈ allbase (heap_of s4) /\
  pagerefs (heap_of s4) !! a = Some pr /\ 0 < nfree pr /\ keeps s s4.
Proof.
  intros HI HnY Hpok Ht Hna Hon n pr s3 s4. pose proof (Inv_disj _ _ _ HI) as Hdisj.
  destruct (fresh_pageref_ok p t Hpok Ht) as (Hprok & Hpa & Hbt & Hnf). fold n pr in Hprok, Hpa, Hbt.
  destruct (heap_ok_fresh_pageref _ a pr (Inv_heap_ok _ _ _ HI) Hna) as (Hok3 & Hown3 & Hal3).
  destruct (Inv_set W _ ({[p]} ∪ Y) _ _ HI Hok3) as [HI3 HR3].
  { by rewrite Hown3. }
  { by rewrite Hown3. }
  { intros q Hq. eapply allocated_mono; [apply Hal3|by eapply Inv_held]. }
  assert (Hh3 : heap_of s3 = set_pageref a pr (heap_of s)) by apply heap_of_set.
  destruct (heap_ok_add_page (heap_of s3) a (Z.to_nat t) pr r j) as (Hok4 & Hown4 & Hal4);
    rewrite ?Hh3; try done.
  { cbn [pagerefs set_pageref]. apply lookup_insert_eq. }
  { lia. }
  { rewrite Hpa, Hown3. set_solver. }
  destruct (Inv_set W _ Y (add_page a (Z.to_nat t) (heap_of s3)) _ HI3 Hok4) as [HI4 HR4].
  { rewrite Hown4, Hpa. fold s3. set_solver. }
  { rewrite Hown4, Hpa, Hh3, Hown3. set_solver. }
  { intros q Hq. eapply allocated_mono; [apply Hal4|by eapply Inv_held]. }
  split_and!; [done|by eapply Rel_trans| | |done|]; [..|eapply keeps_trans; apply keeps_set; [exact Hal3|exact Hal4]];
    unfold s4; rewrite heap_of_set, Hh3; unfold add_page.
  - left.
  - cbn [pagerefs set_lists set_pageref]. apply lookup_insert_eq.
Qed.

(** What a successful small allocation gives: a block of at least [sz] bytes that no
    one holds; every block handed out before and not given back meanwhile is still
    there, and is another one. *)
Definition fresh_block (s s' : S) (sz r : Z) : Prop :=
  r <> 0 /\ ~ held s' r /\
  (forall q n, block (heap_of s) q n -> ~ held s q -> q <> r) /\
  exists n, sz <= n /\ block (heap_of s') r n.

Lemma doalloc_fresh W Y s0 s a pr r s' sz : Inv W Y s -> keeps s0 s -> a ∈ allbase (heap_of s) ->
  pagerefs (heap_of s) !! a = Some pr -> 0 < nfree pr -> sz <= bsize (PR_BLOCKTYPE pr) ->
  doalloc a s = Done r s' ->
  Inv W Y s' /\ Rel s s' /\ keeps s0 s' /\ fresh_block s0 s' sz r.
Proof.
  intros HI Hk Ha Hpr Hn Hsz H.
  destruct (doalloc_inv W Y s a pr r s' HI Ha Hpr Hn H) as (HI' & HR & Hr & Hnr & Hr0 & Hh & Hb).
  split_and!; [done|done| |].
  - eapply keeps_trans; [exact Hk|]. apply keeps_of_blocks; [done|]. intros q. by rewrite Hh.
  - split_and!; [done| | |eauto].
    + rewrite Hh. intros Hq. by apply Hnr, (Inv_held W Y).
    + intros q n Hq Hnh ->. destruct (Hk r n Hq Hnh) as [Hbl _]. apply Hnr. by eapply block_allocated.
Qed.

Lemma subpage_kmalloc_inv W Y s sz r s' : Inv W Y s -> 0 <= sz ->
  subpage_kmalloc sz s = Done r s' ->
  Inv W Y s' /\ Rel s s' /\ keeps s s' /\ (r = 0 \/ fresh_block s s' sz r).
Proof.
  intros HI Hsz H. unfold subpage_kmalloc in H. mstep H.
  apply blocktype_spec in E as (-> & Ht & Hbs & _); [|done]. mgo H.
  apply find_free_page_spec in E0 as [-> Hfound]. destruct ret1 as [a|].
  - destruct Hfound as (Hal & pr & Hpr & Hn).
    destruct (ok_size _ (Inv_heap_ok _ _ _ HI) _ _ E) as [_ Hin]. destruct (Hin a Hal) as (Ha & pr0 & Hpr0 & Htype).
    rewrite Hpr in Hpr0. injection Hpr0 as <-. rewrite Z2Nat.id in Htype by lia.
    destruct (doalloc_fresh W Y s s a pr r s' sz HI (keeps_refl s) Ha Hpr Hn) as (? & ? & ? & ?); [by rewrite Htype|done|].
    split_and!; auto.
  - mstep H. destruct (alloc_law W Y s 1 ret1 s0 HI ltac:(lia) E0) as (HR & Hsh & Hk & Hcase).
    destruct Hcase as [(-> & HI1)|(Hr0 & Hpok & [(HnY & Hno & HI1) _])]; [|lia|].
    { rewrite Z.eqb_refl in H. mprim. split_and!; try done. by left. }
    rewrite (proj2 (Z.eqb_neq _ _) Hr0) in H. mgo H.
    destruct (allocpageref_inv W _ _ _ _ HI1 E2) as (HI2 & HR2 & Hk2 & Hslot).
    assert (Hks : keeps s s1) by (by eapply keeps_trans).
    destruct (Z.eqb_spec ret2 0) as [->|Ha0].
    { mgo H. destruct (free_law W _ _ ret1 _ HI2 ltac:(set_solver) E3) as (HI3 & HR3 & Hh3 & Hhd).
      replace (({[ret1]} ∪ Y) ∖ {[ret1]}) with Y in HI3 by set_solver.
      split_and!; [done| | |by left].
      - eapply Rel_trans; [done|]. by eapply Rel_trans.
      - eapply keeps_trans; [exact Hks|]. apply keeps_of_blocks; [by rewrite Hh3|]. intros q. by rewrite Hhd. }
    destruct Hslot as [?|(_ & Hna & rr & j & Hon)]; [done|].
    mgo H. rewrite (sizes_lookup _ Ht) in E3. inv E3.
    destruct (publish_page_inv W Y s1 ret1 ret2 ret rr j HI2 HnY Hpok Ht Hna Hon)
      as (HI4 & HR4 & Hab & Hpr & Hnf & Hk4).
    destruct (fresh_pageref_ok ret1 ret Hpok Ht) as (_ & _ & Hty & _).
    destruct (doalloc_fresh W Y s _ ret2 _ r s' sz HI4 (keeps_trans _ _ _ Hks Hk4) Hab Hpr Hnf) as (HI' & HR' & Hk' & Hf);
      [by rewrite Hty|done|].
    split_and!; [done| |done|by right].
    do 3 (eapply Rel_trans; [eassumption|]). done.
Qed.

(** A request below the largest block size is served from the heap: a block that
    nobody has yet, or NULL. *)
Lemma kmalloc_small_inv W Y s sz r s' : Inv W Y s -> 0 <= sz < LARGEST_SUBPAGE_SIZE ->
  kmalloc sz s = Done r s' ->
  Inv W Y s' /\ Rel s s' /\ keeps s s' /\ (r = 0 \/ fresh_block s s' sz r).
Proof.
  intros HI Hsz H. unfold kmalloc in H. rewrite (proj2 (Z.leb_gt _ _)) in H by lia.
  eapply subpage_kmalloc_inv; [done| |done]. lia.
Qed.

(** A larger request goes to the page allocator, rounded up to whole pages. *)
Lemma kmalloc_large_eq s sz : LARGEST_SUBPAGE_SIZE <= sz ->
  kmalloc sz s = (address ← alloc_kpages (DIVROUNDUP sz PAGE_SIZE);
                  if address =? 0 then mret 0
                  else kassert "address % PAGE_SIZE == 0" (address mod PAGE_SIZE =? 0);;
                       mret address) s.
Proof.
  intros Hsz. unfold kmalloc. rewrite (proj2 (Z.leb_le _ _)) by done.
  done.
Qed.

Lemma kmalloc_large_inv W Y s sz r s' : Inv W Y s -> LARGEST_SUBPAGE_SIZE <= sz ->
  sz + PAGE_SIZE - 1 < 2 ^ 32 -> kmalloc sz s = Done r s' ->
  let n := DIVROUNDUP sz PAGE_SIZE in
  Rel s s' /\
  (r = 0 /\ Inv W Y s' \/
   r <> 0 /\ page_ok r /\ (n = 1 -> r ∉ Y /\ r ∉ owned (heap_of s') /\ Inv W ({[r]} ∪ Y) s') /\
   (n <> 1 -> page_range r n ## W /\ Inv (page_range r n ∪ W) Y s')).
Proof.
  intros HI Hsz Hov H n. rewrite kmalloc_large_eq in H by done. fold n in H. mstep H.
  assert (0 < n).
  { clear -Hsz Hov. unfold LARGEST_SUBPAGE_SIZE, PAGE_SIZE in *.
    unfold n, DIVROUNDUP. rewrite u32_small by (unfold is_u32; lia). apply Z.div_str_pos. lia. }
  destruct (alloc_law W Y s n ret s0 HI ltac:(done) E) as (HR & _ & _ & Hcase).
  destruct (Z.eqb_spec ret 0) as [->|]; mgo H; split; try done.
Qed.

End Alloc.
End KmallocProofs.
