(* ===== verification/Machine.v ===== *)
(** * The kernel state shared by the VM files

    One record holds the static variables of coremap.c, vm.c, swapfile.c,
    vm_tlb.c, vmstats.c, ram.c and kmalloc.c, the kernel objects the VM code
    reaches through pointers (address spaces, inner page tables, segment tables,
    processes, locks, by kernel address), the process table of proc.c, the TLB, physical memory and the file system.
    The VM code is modelled as it runs on one processor with one thread inside it:
    the locks it takes are not part of the state. *)
From S2P Require Import Prelude Bitmap Vmstats Tlb Ram Segments Kmalloc.
Import Bitmap Vmstats Tlb Segments Kmalloc.

Module Machine.

(** ** Files

    The VM code reads and writes files through the vnode operations, which
    dispatch to whatever file system the vnode belongs to; they are a parameter.
    [vop_read fs v off len] is [(errno, residual, data, fs')]: [len - residual]
    bytes [data 0 ..] were transferred; [vop_write] likewise consumes its data. *)
Class VnodeOps : Type := {
  fstore : Type;
  vop_read : fstore -> Z -> Z -> Z -> Z * Z * (Z -> Z) * fstore;
  vop_write : fstore -> Z -> Z -> Z -> (Z -> Z) -> Z * Z * fstore;
  vfs_open : fstore -> string -> Z -> Z * Z * fstore;
  vfs_close : fstore -> Z -> fstore;
  vop_incref : fstore -> Z -> fstore
}.

(** What <vnode.h> documents of VOP_READ and VOP_WRITE on a regular file: a file
    is a size and the bytes below it; a successful read transfers the bytes that
    exist in the range and changes nothing; a successful write transfers
    everything, replaces exactly the range and extends the file to its end. *)
Class VnodeLaws {VO : VnodeOps} : Type := {
  fsize : fstore -> Z -> Z;
  fbyte : fstore -> Z -> Z -> Z;
  vop_read_ok fs v off len e r d fs' : vop_read fs v off len = (e, r, d, fs') ->
    0 <= off -> 0 <= len ->
    0 <= r <= len /\ (forall v, fsize fs' v = fsize fs v) /\
    (forall v a, 0 <= a < fsize fs v -> fbyte fs' v a = fbyte fs v a) /\
    (e = 0 -> len - r = Z.max 0 (Z.min len (fsize fs v - off)) /\
              forall k, 0 <= k < len - r -> d k = fbyte fs v (off + k));
  vop_write_ok fs v off len d r fs' : vop_write fs v off len d = (0, r, fs') ->
    0 <= off -> 0 <= len ->
    r = 0 /\ fsize fs' v = Z.max (fsize fs v) (off + len) /\
    (forall v', v' <> v -> fsize fs' v' = fsize fs v') /\
    (forall k, 0 <= k < len -> fbyte fs' v (off + k) = d k) /\
    (forall v' a, 0 <= a < fsize fs v' -> (v' <> v \/ ~ off <= a < off + len) ->
       fbyte fs' v' a = fbyte fs v' a)
}.

(** ** Physical memory: a byte per physical address *)
Definition mem : Type := Z -> Z.

Definition mem_write (dst len : Z) (data : Z -> Z) (m : mem) : mem := fun a =>
  if (dst <=? a) && (a <? dst + len) then data (a - dst) else m a.

(** A kernel virtual address of kseg0 as a physical address. *)
Definition KVADDR_TO_PADDR (va : Z) : Z := u32 (va - MIPS_KSEG0).

(** ** Kernel objects *)

(** struct pt_entry *)
Record pt_entry : Type := mkPte { pte_paddr : Z; pte_valid : bool; pte_swapped : bool }.

(** struct coremap_entry; [ce_as] is the address of an address space. *)
Record coremap_entry : Type := mkCe {
  ce_as : Z; ce_vaddr : Z; ce_paddr : Z; ce_is_free : bool; ce_alloc_size : Z
}.

(** struct queue_node: the node's own address and the index of the coremap entry
    it points to; [next] is the order of the list. *)
Record queue_node : Type := mkNode { qn_addr : Z; qn_entry : nat }.

(** struct addrspace: the address of the segment table, and the outer page table
    of addresses of inner tables (0 for NULL). *)
Record addrspace : Type := mkAs { as_segments : Z; as_page_table : list Z }.

(** struct proc (but for its spinlock); pointers are addresses. *)
Record proc : Type := mkProc {
  p_name : Z; p_numthreads : Z; p_addrspace : Z; p_cwd : Z; p_cv : Z; p_cv_lock : Z;
  p_status_set : bool; p_status : Z; p_pid : Z; p_open_ftable : list Z
}.

(** The other objects on the kernel heap: strings, wait channels, and the semaphores,
    sleep locks and condition variables made of them.  Their state matters only to threads that
    run at the same time, so here they are their pointers. *)
Inductive kobj : Type :=
| KRaw  (* allocated, not initialised *)
| KString (s : string)
| KWchan (wc_name : Z)
| KSem (sem_name sem_wchan sem_count : Z)
| KLock (lk_name lk_wchan : Z)
| KCv (cv_name cv_wchan : Z).

Definition OUTER_PT_SIZE : Z := 1024.
Definition INNER_PT_SIZE : Z := 1024.
Definition OUTER_PT_INDEX (vaddr : Z) : Z := Z.shiftr vaddr 22.
Definition INNER_PT_INDEX (vaddr : Z) : Z := Z.land (Z.shiftr vaddr 12) 0x3FF.
Definition COREMAP_INDEX (paddr : Z) : Z := paddr / PAGE_SIZE.
Definition SWAPFILE_MAX_PAGES : Z := 9 * 1024 * 1024 / PAGE_SIZE.
Definition SIZEOF_QUEUE_NODE : Z := 8.
Definition SIZEOF_PT_ENTRY : Z := 8.
Definition SIZEOF_COREMAP_ENTRY : Z := 20.
Definition SIZEOF_SEGMENT : Z := 28.
Definition SIZEOF_ADDRSPACE : Z := 4 + 4 * OUTER_PT_SIZE.

Section State.
Context {VO : VnodeOps}.

Record kstate : Type := mkK {
  ram : Ram.ram;
  vm_initialized : bool;
  coremap : list coremap_entry;
  num_frames : Z;
  replacement_queue : list queue_node;
  kheap_st : kheap;
  addrspaces : gmap Z addrspace;
  inner_pts : gmap Z (list pt_entry);
  segtabs : gmap Z (list segment);
  hwtlb : tlb;
  vms : vmstats;
  swapfile : Z;
  swapfile_freeentries : option bitmap;
  fs : fstore;
  pmem : mem;
  procs : gmap Z proc;
  curproc : Z;
  kobjs : gmap Z kobj;
  pid_table : list Z;
  kproc : Z
}.

Definition set_ram (x : Ram.ram) (s : kstate) : kstate :=
  mkK x (vm_initialized s) (coremap s) (num_frames s) (replacement_queue s) (kheap_st s) (addrspaces s) (inner_pts s) (segtabs s) (hwtlb s) (vms s) (swapfile s) (swapfile_freeentries s) (fs s) (pmem s) (procs s) (curproc s) (kobjs s) (pid_table s) (kproc s).
Definition set_vm_initialized (x : bool) (s : kstate) : kstate :=
  mkK (ram s) x (coremap s) (num_frames s) (replacement_queue s) (kheap_st s) (addrspaces s) (inner_pts s) (segtabs s) (hwtlb s) (vms s) (swapfile s) (swapfile_freeentries s) (fs s) (pmem s) (procs s) (curproc s) (kobjs s) (pid_table s) (kproc s).
Definition set_coremap (x : list coremap_entry) (s : kstate) : kstate :=
  mkK (ram s) (vm_initialized s) x (num_frames s) (replacement_queue s) (kheap_st s) (addrspaces s) (inner_pts s) (segtabs s) (hwtlb s) (vms s) (swapfile s) (swapfile_freeentries s) (fs s) (pmem s) (procs s) (curproc s) (kobjs s) (pid_table s) (kproc s).
Definition set_num_frames (x : Z) (s : kstate) : kstate :=
  mkK (ram s) (vm_initialized s) (coremap s) x (replacement_queue s) (kheap_st s) (addrspaces s) (inner_pts s) (segtabs s) (hwtlb s) (vms s) (swapfile s) (swapfile_freeentries s) (fs s) (pmem s) (procs s) (curproc s) (kobjs s) (pid_table s) (kproc s).
Definition set_replacement_queue (x : list queue_node) (s : kstate) : kstate :=
  mkK (ram s) (vm_initialized s) (coremap s) (num_frames s) x (kheap_st s) (addrspaces s) (inner_pts s) (segtabs s) (hwtlb s) (vms s) (swapfile s) (swapfile_freeentries s) (fs s) (pmem s) (procs s) (curproc s) (kobjs s) (pid_table s) (kproc s).
Definition set_kheap_st (x : kheap) (s : kstate) : kstate :=
  mkK (ram s) (vm_initialized s) (coremap s) (num_frames s) (replacement_queue s) x (addrspaces s) (inner_pts s) (segtabs s) (hwtlb s) (vms s) (swapfile s) (swapfile_freeentries s) (fs s) (pmem s) (procs s) (curproc s) (kobjs s) (pid_table s) (kproc s).
Definition set_addrspaces (x : gmap Z addrspace) (s : kstate) : kstate :=
  mkK (ram s) (vm_initialized s) (coremap s) (num_frames s) (replacement_queue s) (kheap_st s) x (inner_pts s) (segtabs s) (hwtlb s) (vms s) (swapfile s) (swapfile_freeentries s) (fs s) (pmem s) (procs s) (curproc s) (kobjs s) (pid_table s) (kproc s).
Definition set_inner_pts (x : gmap Z (list pt_entry)) (s : kstate) : kstate :=
  mkK (ram s) (vm_initialized s) (coremap s) (num_frames s) (replacement_queue s) (kheap_st s) (addrspaces s) x (segtabs s) (hwtlb s) (vms s) (swapfile s) (swapfile_freeentries s) (fs s) (pmem s) (procs s) (curproc s) (kobjs s) (pid_table s) (kproc s).
Definition set_segtabs (x : gmap Z (list segment)) (s : kstate) : kstate :=
  mkK (ram s) (vm_initialized s) (coremap s) (num_frames s) (replacement_queue s) (kheap_st s) (addrspaces s) (inner_pts s) x (hwtlb s) (vms s) (swapfile s) (swapfile_freeentries s) (fs s) (pmem s) (procs s) (curproc s) (kobjs s) (pid_table s) (kproc s).
Definition set_hwtlb (x : tlb) (s : kstate) : kstate :=
  mkK (ram s) (vm_initialized s) (coremap s) (num_frames s) (replacement_queue s) (kheap_st s) (addrspaces s) (inner_pts s) (segtabs s) x (vms s) (swapfile s) (swapfile_freeentries s) (fs s) (pmem s) (procs s) (curproc s) (kobjs s) (pid_table s) (kproc s).
Definition set_vms (x : vmstats) (s : kstate) : kstate :=
  mkK (ram s) (vm_initialized s) (coremap s) (num_frames s) (replacement_queue s) (kheap_st s) (addrspaces s) (inner_pts s) (segtabs s) (hwtlb s) x (swapfile s) (swapfile_freeentries s) (fs s) (pmem s) (procs s) (curproc s) (kobjs s) (pid_table s) (kproc s).
Definition set_swapfile (x : Z) (s : kstate) : kstate :=
  mkK (ram s) (vm_initialized s) (coremap s) (num_frames s) (replacement_queue s) (kheap_st s) (addrspaces s) (inner_pts s) (segtabs s) (hwtlb s) (vms s) x (swapfile_freeentries s) (fs s) (pmem s) (procs s) (curproc s) (kobjs s) (pid_table s) (kproc s).
Definition set_swapfile_freeentries (x : option bitmap) (s : kstate) : kstate :=
  mkK (ram s) (vm_initialized s) (coremap s) (num_frames s) (replacement_queue s) (kheap_st s) (addrspaces s) (inner_pts s) (segtabs s) (hwtlb s) (vms s) (swapfile s) x (fs s) (pmem s) (procs s) (curproc s) (kobjs s) (pid_table s) (kproc s).
Definition set_fs (x : fstore) (s : kstate) : kstate :=
  mkK (ram s) (vm_initialized s) (coremap s) (num_frames s) (replacement_queue s) (kheap_st s) (addrspaces s) (inner_pts s) (segtabs s) (hwtlb s) (vms s) (swapfile s) (swapfile_freeentries s) x (pmem s) (procs s) (curproc s) (kobjs s) (pid_table s) (kproc s).
Definition set_pmem (x : mem) (s : kstate) : kstate :=
  mkK (ram s) (vm_initialized s) (coremap s) (num_frames s) (replacement_queue s) (kheap_st s) (addrspaces s) (inner_pts s) (segtabs s) (hwtlb s) (vms s) (swapfile s) (swapfile_freeentries s) (fs s) x (procs s) (curproc s) (kobjs s) (pid_table s) (kproc s).
Definition set_procs (x : gmap Z proc) (s : kstate) : kstate :=
  mkK (ram s) (vm_initialized s) (coremap s) (num_frames s) (replacement_queue s) (kheap_st s) (addrspaces s) (inner_pts s) (segtabs s) (hwtlb s) (vms s) (swapfile s) (swapfile_freeentries s) (fs s) (pmem s) x (curproc s) (kobjs s) (pid_table s) (kproc s).
Definition set_curproc (x : Z) (s : kstate) : kstate :=
  mkK (ram s) (vm_initialized s) (coremap s) (num_frames s) (replacement_queue s) (kheap_st s) (addrspaces s) (inner_pts s) (segtabs s) (hwtlb s) (vms s) (swapfile s) (swapfile_freeentries s) (fs s) (pmem s) (procs s) x (kobjs s) (pid_table s) (kproc s).
Definition set_kobjs (x : gmap Z kobj) (s : kstate) : kstate :=
  mkK (ram s) (vm_initialized s) (coremap s) (num_frames s) (replacement_queue s) (kheap_st s) (addrspaces s) (inner_pts s) (segtabs s) (hwtlb s) (vms s) (swapfile s) (swapfile_freeentries s) (fs s) (pmem s) (procs s) (curproc s) x (pid_table s) (kproc s).
Definition set_pid_table (x : list Z) (s : kstate) : kstate :=
  mkK (ram s) (vm_initialized s) (coremap s) (num_frames s) (replacement_queue s) (kheap_st s) (addrspaces s) (inner_pts s) (segtabs s) (hwtlb s) (vms s) (swapfile s) (swapfile_freeentries s) (fs s) (pmem s) (procs s) (curproc s) (kobjs s) x (kproc s).
Definition set_kproc (x : Z) (s : kstate) : kstate :=
  mkK (ram s) (vm_initialized s) (coremap s) (num_frames s) (replacement_queue s) (kheap_st s) (addrspaces s) (inner_pts s) (segtabs s) (hwtlb s) (vms s) (swapfile s) (swapfile_freeentries s) (fs s) (pmem s) (procs s) (curproc s) (kobjs s) (pid_table s) x.

#[global] Instance kstate_heap : HeapState kstate := {| heap_of := kheap_st; set_heap := set_kheap_st |}.

(** The page table entry a pointer [(table, index)] refers to. *)
Definition pte_ptr : Type := Z * Z.

Definition load_pte (p : pte_ptr) : M kstate pt_entry := fun s =>
  (t ← deref "page table" (inner_pts s !! fst p); deref "page table entry" (t !! Z.to_nat (snd p))) s.
Definition store_pte (p : pte_ptr) (e : pt_entry) : M kstate unit := fun s =>
  (t ← deref "page table" (inner_pts s !! fst p);
   modify (set_inner_pts (<[fst p := <[Z.to_nat (snd p) := e]> t]> (inner_pts s)))) s.

Definition load_ce (i : nat) : M kstate coremap_entry := fun s =>
  deref "coremap entry" (coremap s !! i) s.
Definition store_ce (i : nat) (c : coremap_entry) : M kstate unit := fun s =>
  Done tt (set_coremap (<[i := c]> (coremap s)) s).

(** VOP_READ into, and VOP_WRITE from, kernel memory at [kva] (the uio set up by
    [uio_kinit]); the result is errno and the residual count. *)
Definition VOP_READ_kernel (v kva len off : Z) : M kstate (Z * Z) := fun s =>
  let '(e, r, d, f) := vop_read (fs s) v off len in
  Done (e, r) (set_pmem (mem_write (KVADDR_TO_PADDR kva) (len - r) d (pmem s)) (set_fs f s)).
Definition VOP_WRITE_kernel (v kva len off : Z) : M kstate (Z * Z) := fun s =>
  let '(e, r, f) := vop_write (fs s) v off len (fun k => pmem s (KVADDR_TO_PADDR kva + k)) in
  Done (e, r) (set_fs f s).

Definition bzero_kernel (kva len : Z) : M kstate unit := fun s =>
  Done tt (set_pmem (mem_write (KVADDR_TO_PADDR kva) len (fun _ => 0) (pmem s)) s).

Definition count (f : vmstats -> vmstats) : M kstate unit := fun s =>
  Done tt (set_vms (f (vms s)) s).
End State.

End Machine.
