(* ===== verification/Swapfile.v ===== *)
(** * kern/vm/swapfile.c: writing pages to and reading them from the swap file *)
From S2P Require Import Prelude Bitmap Vmstats Machine.
Import Bitmap Vmstats Machine.

Module Swapfile.
Section Swapfile.
Context {VO : VnodeOps}.

(** A pointer that is about to be dereferenced. *)
Definition nonnull (what : string) (p : Z) : M kstate Z :=
  deref what (if p =? 0 then None else Some p).

(** [swap_index] is the store through the pointer argument of the same name. *)
Definition swapfile_writepage (pageaddr : Z) (swap_index : Z -> M kstate unit) : M kstate Z :=
  freeentries ← gets swapfile_freeentries;
  b ← deref "swapfile_freeentries" freeentries;
  '(b', result) ← lift (bitmap_alloc b);
  modify (set_swapfile_freeentries (Some b'));;
  match result with
  | inl _ => panic "Out of swap space"
  | inr index =>
      v ← gets swapfile;
      v ← nonnull "swapfile" v;
      '(result, _) ← VOP_WRITE_kernel v (PADDR_TO_KVADDR pageaddr) PAGE_SIZE
                       (u32 (index * PAGE_SIZE));
      if negb (result =? 0) then mret result
      else
        count inc_swapfilewrites;;
        swap_index index;;
        mret 0
  end.

Definition swapfile_readpage (frame swap_index : Z) : M kstate Z :=
  kassert "swap_index < SWAPFILE_MAX_PAGES" (swap_index <? SWAPFILE_MAX_PAGES);;
  v ← gets swapfile;
  v ← nonnull "swapfile" v;
  '(result, _) ← VOP_READ_kernel v (PADDR_TO_KVADDR frame) PAGE_SIZE
                   (u32 (swap_index * PAGE_SIZE));
  if negb (result =? 0) then mret result
  else
    freeentries ← gets swapfile_freeentries;
    b ← deref "swapfile_freeentries" freeentries;
    b' ← lift (bitmap_unmark b swap_index);
    modify (set_swapfile_freeentries (Some b'));;
    count inc_pagefaultsswapfile;;
    count inc_pagefaultsdisk;;
    mret 0.

End Swapfile.
End Swapfile.
