(* ===== verification/Coremap.v ===== *)
(** * kern/vm/coremap.c: the frame allocator and page replacement

    With it, the kernel page allocator of kern/vm/vm.c ([alloc_kpages],
    [free_kpages]), which closes the loop between the coremap and the kernel heap,
    and [pt_get] of kern/vm/pt.c. *)
From S2P Require Import Prelude Bitmap Vmstats Tlb Ram Segments Kmalloc Machine Swapfile.
Import Bitmap Vmstats Tlb Segments Kmalloc Machine Swapfile.

Module Coremap.
Section Coremap.
Context {VO : VnodeOps}.

(** ** Freeing *)

Definition ce_set_free (b : bool) (c : coremap_entry) : coremap_entry :=
  mkCe (ce_as c) (ce_vaddr c) (ce_paddr c) b (ce_alloc_size c).

Definition coremap_free (paddr : Z) : M kstate unit :=
  n ← gets num_frames;
  kassert "COREMAP_INDEX(paddr) < num_frames" (COREMAP_INDEX paddr <? n);;
  let i := Z.to_nat (COREMAP_INDEX paddr) in
  c ← load_ce i;
  store_ce i (ce_set_free true c);;
  c ← load_ce i;
  kassert "coremap[COREMAP_INDEX(paddr)].is_free" (ce_is_free c).

(** The loop of [coremap_kfree], [n] frames from [i] on. *)
Fixpoint free_frames (i n : nat) : M kstate unit :=
  match n with
  | O => mret tt
  | S n => c ← load_ce i; store_ce i (ce_set_free true c);; free_frames (S i) n
  end.

Definition coremap_kfree (paddr : Z) : M kstate unit :=
  n ← gets num_frames;
  kassert "COREMAP_INDEX(paddr) < num_frames" (COREMAP_INDEX paddr <? n);;
  c ← load_ce (Z.to_nat (COREMAP_INDEX paddr));
  free_frames (Z.to_nat (COREMAP_INDEX paddr)) (Z.to_nat (ce_alloc_size c)).

Definition vm_free_kpages (addr : Z) : M kstate unit :=
  ini ← gets vm_initialized;
  if (ini : bool) then coremap_kfree (u32 (addr - MIPS_KSEG0)) else mret tt.

#[global] Instance kstate_free_pages : FreePages kstate := vm_free_kpages.

(** ** The replacement queue *)

Definition queue_pop : M kstate (option nat) :=
  q ← gets replacement_queue;
  match q with
  | [] => mret None
  | node :: q' =>
      modify (set_replacement_queue q');;
      kfree (qn_addr node);;
      mret (Some (qn_entry node))
  end.

(** ** Page replacement *)

Definition get_as (as_ : Z) : M kstate addrspace := fun s =>
  deref "address space" (addrspaces s !! as_) s.

Definition pt_get (as_ vaddr : Z) : M kstate pte_ptr :=
  kassert "as != NULL" (negb (as_ =? 0));;
  a ← get_as as_;
  t ← deref "as->page_table[OUTER_PT_INDEX(vaddr)]"
        (as_page_table a !! Z.to_nat (OUTER_PT_INDEX vaddr));
  mret (t, INNER_PT_INDEX vaddr).

(** [victim = queue_pop(); while (victim->is_free) victim = queue_pop();] with
    at most [fuel] pops. *)
Fixpoint pop_victim (fuel : nat) : M kstate nat :=
  match fuel with
  | O => fun _ => OutOfFuel
  | S fuel =>
      v ← queue_pop;
      victim ← deref "victim->is_free" v;
      c ← load_ce victim;
      if ce_is_free c then pop_victim fuel else mret victim
  end.

Definition coremap_replace : M kstate Z :=
  q ← gets replacement_queue;
  kassert "replacement_queue != NULL" (negb (bool_decide (q = [])));;
  victim ← pop_victim (S (length q));
  c ← load_ce victim;
  kassert "!victim->is_free" (negb (ce_is_free c));;
  let paddr := ce_paddr c in
  entry ← pt_get (ce_as c) (ce_vaddr c);
  res ← swapfile_writepage (ce_paddr c) (fun index =>
          e ← load_pte entry; store_pte entry (mkPte index (pte_valid e) (pte_swapped e)));
  (if negb (res =? 0) then panic "coremap_replace: Page swapout failure" else mret tt);;
  c ← load_ce victim;
  store_ce victim (ce_set_free true c);;
  kassert "entry != NULL" (negb (bool_decide (entry = (0, 0))));;
  e ← load_pte entry;
  store_pte entry (mkPte (pte_paddr e) (pte_valid e) true);;
  mret paddr.

(** ** Kernel pages *)

(** The scan of [coremap_kalloc] over the frames [i], [i+1], ...: the pair
    [(first, last)] of the first run of [npages] free frames, or the last value of
    [first].  [(i == 0) | !coremap[i-1].is_free] evaluates both operands. *)
Fixpoint kscan (cm : list coremap_entry) (npages : Z) (i n : nat) (first : Z) : res (Z * option Z) :=
  match n with
  | O => mret (first, None)
  | S n =>
      c ← deref_r "coremap[i]" (cm !! i);
      if ce_is_free c then
        prev ← deref_r "coremap[i-1]" (match i with O => None | S j => cm !! j end);
        let first := if (Z.of_nat i =? 0) || negb (ce_is_free prev) then Z.of_nat i else first in
        if npages <=? u32 (Z.of_nat i - first + 1) then mret (first, Some (Z.of_nat i))
        else kscan cm npages (S i) n first
      else kscan cm npages (S i) n first
  end.

(** The marking loop: [n] frames from [first + i] on. *)
Fixpoint mark_allocated (first i n : nat) (npages : Z) : M kstate unit :=
  match n with
  | O => mret tt
  | S n =>
      c ← load_ce (first + i);
      let size := if (i =? 0)%nat then npages else ce_alloc_size c in
      store_ce (first + i)
        (mkCe (ce_as c) (ce_vaddr c) (u32 (Z.of_nat (first + i) * PAGE_SIZE)) false size);;
      mark_allocated first (S i) n npages
  end.

Fixpoint coremap_kalloc_loop (fuel : nat) (npages first : Z) : M kstate Z :=
  match fuel with
  | O => fun _ => OutOfFuel
  | S fuel =>
      cm ← gets coremap;
      n ← gets num_frames;
      '(first, found) ← lift (kscan cm npages 0 (Z.to_nat n) first);
      match found with
      | Some last =>
          mark_allocated (Z.to_nat first) 0 (Z.to_nat (u32 (last - first + 1))) npages;;
          mret (u32 (first * PAGE_SIZE))
      | None => coremap_replace;; coremap_kalloc_loop fuel npages first
      end
  end.

(** Every pass that finds no run removes at least one node of the queue, and the
    pass after the last one fails the assertion of [coremap_replace]. *)
Definition coremap_kalloc (npages : Z) : M kstate Z :=
  q ← gets replacement_queue;
  coremap_kalloc_loop (S (S (length q))) npages 0.

Definition vm_alloc_kpages (npages : Z) : M kstate Z :=
  ini ← gets vm_initialized;
  if (ini : bool) then
    paddr ← coremap_kalloc npages;
    mret (PADDR_TO_KVADDR paddr)
  else
    r ← gets ram;
    let '(paddr, r') := Ram.ram_stealmem npages r in
    modify (set_ram r');;
    if paddr =? 0 then mret 0 else mret (PADDR_TO_KVADDR paddr).

#[global] Instance kstate_alloc_pages : AllocPages kstate := vm_alloc_kpages.

(** ** User frames *)

(** [head] is read before [kmalloc] runs: when page replacement inside [kmalloc]
    has removed and freed that node, the walk starts in freed memory. *)
Definition queue_push (entry : nat) : M kstate Z :=
  q ← gets replacement_queue;
  node ← kmalloc SIZEOF_QUEUE_NODE;
  if node =? 0 then mret ENOMEM
  else
    match q with
    | [] => modify (set_replacement_queue [mkNode node entry]);; mret 0
    | head :: _ =>
        q' ← gets replacement_queue;
        match q' with
        | head' :: _ =>
            if qn_addr head' =? qn_addr head then
              modify (set_replacement_queue (q' ++ [mkNode node entry]));; mret 0
            else halt (Undefined "queue_push: head was freed")
        | [] => halt (Undefined "queue_push: head was freed")
        end
    end.

Definition get_curproc : M kstate proc := fun s =>
  deref "curproc" (procs s !! curproc s) s.

Fixpoint coremap_alloc_loop (fuel : nat) (as_ vaddr : Z) : M kstate Z :=
  match fuel with
  | O => fun _ => OutOfFuel
  | S fuel =>
      cm ← gets coremap;
      n ← gets num_frames;
      match list_find (fun c => ce_is_free c = true) (take (Z.to_nat n) cm) with
      | Some (i, c) =>
          let paddr := u32 (Z.of_nat i * PAGE_SIZE) in
          store_ce i (mkCe as_ vaddr paddr false (ce_alloc_size c));;
          queue_push i;;
          mret paddr
      | None => coremap_replace;; coremap_alloc_loop fuel as_ vaddr
      end
  end.

(** A replacement leaves the victim's frame free, so the second pass finds one. *)
Definition coremap_alloc (vaddr : Z) : M kstate Z :=
  p ← get_curproc;
  coremap_alloc_loop 2 (p_addrspace p) vaddr.

(** ** Inversion of the accessors *)

Lemma load_ce_Done i s c s' : load_ce i s = Done c s' -> coremap s !! i = Some c /\ s' = s.
Proof. apply deref_Done. Qed.
Lemma store_ce_Done i c s u s' : store_ce i c s = Done u s' ->
  s' = set_coremap (<[i := c]> (coremap s)) s.
Proof. unfold store_ce. by inversion 1. Qed.
Lemma get_as_Done a s x s' : get_as a s = Done x s' -> addrspaces s !! a = Some x /\ s' = s.
Proof. apply deref_Done. Qed.
Lemma get_curproc_Done s x s' : get_curproc s = Done x s' -> procs s !! curproc s = Some x /\ s' = s.
Proof. apply deref_Done. Qed.
Lemma count_Done f s u s' : count f s = Done u s' -> s' = set_vms (f (vms s)) s.
Proof. unfold count. by inversion 1. Qed.

Lemma nonnull_Done what p s r s' : nonnull what p s = Done r s' -> p <> 0 /\ r = p /\ s' = s.
Proof.
  unfold nonnull. intros H. mprim. destruct (Z.eqb_spec p 0); [discriminate|]. by inv H.
Qed.
Lemma load_pte_Done t j s e s' : load_pte (t, j) s = Done e s' ->
  (inner_pts s !! t ≫= fun l => l !! Z.to_nat j) = Some e /\ s' = s.
Proof. unfold load_pte. cbn [fst snd]. intros H. mgo H. rewrite E. done. Qed.
Lemma store_pte_Done t j e s u s' : store_pte (t, j) e s = Done u s' ->
  exists l, inner_pts s !! t = Some l /\
    s' = set_inner_pts (<[t := <[Z.to_nat j := e]> l]> (inner_pts s)) s.
Proof. unfold store_pte. cbn [fst snd]. intros H. mgo H. eauto. Qed.

End Coremap.

Ltac mprim_hook ::=
  match goal with
  | E : load_ce _ _ = Done _ _ |- _ => apply load_ce_Done in E; destruct E as [E ->]
  | E : store_ce _ _ _ = Done _ _ |- _ => apply store_ce_Done in E; subst_eq E
  | E : get_as _ _ = Done _ _ |- _ => apply get_as_Done in E; destruct E as [E ->]
  | E : get_curproc _ = Done _ _ |- _ => apply get_curproc_Done in E; destruct E as [E ->]
  | E : count _ _ = Done _ _ |- _ => apply count_Done in E; subst_eq E
  | E : nonnull _ _ _ = Done _ _ |- _ => apply nonnull_Done in E; destruct E as (E & -> & ->)
  | E : load_pte _ _ = Done _ _ |- _ => apply load_pte_Done in E; destruct E as [E ->]
  | E : store_pte _ _ _ = Done _ _ |- _ =>
      apply store_pte_Done in E; let l := fresh "l" in destruct E as (l & E & ->)
  end.

End Coremap.
