(* ===== verification/Synch.v ===== *)
(** * kern/thread/synch.c: semaphores, locks and condition variables between threads

    Threads interleave at the granularity of the critical sections that the spinlocks
    of synch.c make atomic.  A thread is outside, in the test of a wait loop, or asleep
    on a wait channel; [wchan_sleep] puts the running thread at the end of the channel,
    [wchan_wakeone] takes the first thread off it, and a thread that was woken goes
    back to the test of its loop. *)
From S2P Require Import Prelude.

Module Synch.

Definition tid : Type := nat.

(** ** Wait channels (kern/thread/thread.c) *)

Definition wchan_sleep (t : tid) (wc : list tid) : list tid := wc ++ [t].
Definition wchan_wakeone (wc : list tid) : option tid * list tid :=
  match wc with [] => (None, []) | t :: wc => (Some t, wc) end.
Definition wchan_wakeall (wc : list tid) : list tid * list tid := (wc, []).
Definition wchan_isempty (wc : list tid) : bool := bool_decide (wc = []).

(** The set of the thread that was woken, if any. *)
Definition woken (o : option tid) : gset tid := match o with Some t => {[t]} | None => ∅ end.

(** ** Semaphores *)

(** [sem_testing]: the threads at the test of the loop of [P]. *)
Record sem : Type := mkSem { sem_count : Z; sem_waiting : list tid; sem_testing : gset tid }.

Definition sem_new (initial_count : Z) : sem := mkSem initial_count [] ∅.

Definition P_enter (t : tid) (s : sem) : sem :=
  mkSem (sem_count s) (sem_waiting s) ({[t]} ∪ sem_testing s).

(** One pass of [while (sem_count == 0) wchan_sleep(...)] and, when it ends, what
    follows; [true] when the thread leaves [P]. *)
Definition P_test (t : tid) (s : sem) : res (sem * bool) :=
  if sem_count s =? 0 then
    mret (mkSem (sem_count s) (wchan_sleep t (sem_waiting s)) (sem_testing s ∖ {[t]}), false)
  else
    kassert_r "sem->sem_count > 0" (0 <? sem_count s);;
    mret (mkSem (sem_count s - 1) (sem_waiting s) (sem_testing s ∖ {[t]}), true).

Definition V (s : sem) : res sem :=
  let count := u32 (sem_count s + 1) in
  kassert_r "sem->sem_count > 0" (0 <? count);;
  let '(target, wc) := wchan_wakeone (sem_waiting s) in
  mret (mkSem count wc (woken target ∪ sem_testing s)).

(** What threads can do to a semaphore; the counts say how often [P] has returned and
    [V] was called. *)
Inductive sem_step : sem * Z * Z -> sem * Z * Z -> Prop :=
| step_P_enter t s p v : t ∉ sem_testing s -> t ∉ sem_waiting s ->
    sem_step (s, p, v) (P_enter t s, p, v)
| step_P_sleep t s s' p v : t ∈ sem_testing s -> P_test t s = Ok (s', false) ->
    sem_step (s, p, v) (s', p, v)
| step_P_pass t s s' p v : t ∈ sem_testing s -> P_test t s = Ok (s', true) ->
    sem_step (s, p, v) (s', p + 1, v)
| step_V s s' p v : V s = Ok s' -> sem_step (s, p, v) (s', p, v + 1).

Definition sem_reachable (n : Z) : sem * Z * Z -> Prop := rtc sem_step (sem_new n, 0, 0).

(** A thread sleeps or tests, not both; while threads sleep there are at least as many
    at the test as the count is high; and the count is what it should be. *)
Definition sem_inv (n : Z) (x : sem * Z * Z) : Prop :=
  let '(s, p, v) := x in
  0 <= sem_count s < 2 ^ 32 /\ NoDup (sem_waiting s) /\ (forall t, t ∈ sem_waiting s -> t ∉ sem_testing s) /\
  (sem_waiting s <> [] -> sem_count s <= Z.of_nat (size (sem_testing s))) /\
  sem_count s + p = n + v.

Lemma sem_inv_step n x y : sem_inv n x -> sem_step x y -> sem_inv n y.
Proof.
  intros H Hst. destruct Hst as [t s p v Ht1 Ht2|t s s' p v Ht Hp|t s s' p v Ht Hp|s s' p v Hv];
    unfold sem_inv in H; destruct H as (Hc & Hnd & Hdis & Hw & Hcons); unfold sem_inv.
  - cbn. split_and!; try done; try lia.
    + intros t' Ht'. specialize (Hdis t' Ht'). rewrite not_elem_of_union, not_elem_of_singleton.
      split; [|done]. by intros ->.
    + intros Hne. specialize (Hw Hne). rewrite size_union, size_singleton by set_solver. lia.
  - unfold P_test in Hp. destruct (Z.eqb_spec (sem_count s) 0) as [H0|]; [|by destruct (0 <? _)].
    injection Hp as <-. cbn. rewrite H0 in *. split_and!; try done; try lia.
    + unfold wchan_sleep. apply NoDup_app. split_and!; [done| |apply NoDup_singleton].
      intros x Hx ->%list_elem_of_singleton. by apply (Hdis t).
    + intros t' [Ht'| ->%list_elem_of_singleton]%elem_of_app; [|set_solver]. specialize (Hdis t' Ht'). set_solver.
  - unfold P_test in Hp. destruct (Z.eqb_spec (sem_count s) 0) as [|H0]; [done|].
    unfold kassert_r in Hp. destruct (Z.ltb_spec 0 (sem_count s)); [|done]. injection Hp as <-. cbn.
    split_and!; try done; try lia.
    + intros t' Ht'. specialize (Hdis t' Ht'). set_solver.
    + intros Hne. specialize (Hw Hne). rewrite size_difference by set_solver. rewrite size_singleton. lia.
  - unfold V, kassert_r in Hv. destruct (Z.ltb_spec 0 (u32 (sem_count s + 1))) as [Hpos|]; [|done].
    assert (Hu : u32 (sem_count s + 1) = sem_count s + 1).
    { destruct (decide (sem_count s + 1 = 2 ^ 32)) as [Heq|]; [by rewrite Heq in Hpos|].
      apply u32_small. unfold is_u32. lia. }
    rewrite Hu in Hv. destruct (sem_waiting s) as [|t w] eqn:Hwt; injection Hv as <-; cbn.
    + pose proof (u32_range (sem_count s + 1)) as Hr. rewrite Hu in Hr. unfold is_u32 in Hr.
      split_and!; try done; try lia. intros t Ht. by apply not_elem_of_nil in Ht.
    + pose proof (u32_range (sem_count s + 1)) as Hr. rewrite Hu in Hr. unfold is_u32 in Hr.
      apply NoDup_cons in Hnd as [Hni Hnd]. pose proof (Hdis t (list_elem_of_here _ _)) as Htt.
      specialize (Hw ltac:(done)). split_and!; try done; try lia.
      * intros t' Ht'. rewrite not_elem_of_union, not_elem_of_singleton.
        split; [by intros -> |]. apply Hdis. by right.
      * intros _. rewrite size_union, size_singleton by set_solver. lia.
Qed.

Lemma sem_inv_reachable n x : 0 <= n < 2 ^ 32 -> sem_reachable n x -> sem_inv n x.
Proof.
  intros Hn H. unfold sem_reachable in H. remember (sem_new n, 0, 0) as x0 eqn:Hx0.
  assert (H0 : sem_inv n x0).
  { subst x0. unfold sem_inv. cbn. split_and!; try done; try lia. constructor. }
  clear Hx0. induction H as [|x y z Hxy _ IH]; [done|]. apply IH. by eapply sem_inv_step.
Qed.

(** C27: semaphores lose no wakeup and admit nobody for free.  In every state that
    threads can reach through [P] and [V]: a thread that sleeps while the count is
    positive implies that another one is about to test it; and [P] has returned at most
    as often as the initial count plus the calls of [V]. *)
Theorem sem_correct n s p v : 0 <= n < 2 ^ 32 -> sem_reachable n (s, p, v) ->
  (sem_waiting s <> [] -> 0 < sem_count s -> sem_testing s <> ∅) /\ p <= n + v /\
  sem_count s = n + v - p.
Proof.
  intros Hn H. destruct (sem_inv_reachable n _ Hn H) as (Hc & _ & _ & Hw & Hcons).
  split_and!; [|lia|lia]. intros Hne Hpos Hemp. specialize (Hw Hne). rewrite Hemp, size_empty in Hw. lia.
Qed.

(** Two threads wait, one is let in by a [V]. *)
Lemma sem_correct_witness : let s := mkSem 1 [2%nat] {[1%nat]} in
  sem_reachable 0 (s, 0, 1) /\ sem_testing s <> ∅.
Proof.
  assert (H : sem_reachable 0 (mkSem 1 [2%nat] {[1%nat]}, 0, 1)).
  { eapply rtc_l; [apply (step_P_enter 1%nat); set_solver|].
    eapply rtc_l; [apply (step_P_sleep 1%nat); [set_solver|reflexivity]|].
    eapply rtc_l; [apply (step_P_enter 2%nat); [set_solver|set_solver]|].
    eapply rtc_l; [apply (step_P_sleep 2%nat); [set_solver|reflexivity]|].
    eapply rtc_l; [apply step_V; reflexivity|].
    match goal with |- rtc _ (?a, _, _) _ => replace a with (mkSem 1 [2%nat] {[1%nat]}) end; [apply rtc_refl|done]. }
  split; [exact H|].
  apply (proj1 (sem_correct 0 _ 0 1 ltac:(lia) H)); [discriminate|reflexivity].
Defined.

(** ** Locks and condition variables *)

(** A lock and a condition variable used with it.  [lk_testing]: the threads at the
    test of the loop of [lock_acquire]; [inside]: those that returned from it and have
    not called [lock_release]; [cv_spin]: the thread that holds the spinlock of the
    condition variable on its way to sleep; [cv_woken]: those that were woken and have
    not called [lock_acquire] again. *)
Record lkcv : Type := mkLk {
  lk_owner : option tid; lk_waiting : list tid; lk_testing : gset tid; inside : gset tid;
  cv_spin : option tid; cv_waiting : list tid; cv_woken : gset tid
}.

Definition lk_new : lkcv := mkLk None [] ∅ ∅ None [] ∅.

Definition lock_do_i_hold (t : tid) (s : lkcv) : bool := bool_decide (lk_owner s = Some t).

(** Entering [lock_acquire]; a thread on its way back from [cv_wait] enters as well. *)
Definition lock_enter (t : tid) (s : lkcv) : res lkcv :=
  kassert_r "!lock_do_i_hold(lock)" (negb (lock_do_i_hold t s));;
  mret (mkLk (lk_owner s) (lk_waiting s) ({[t]} ∪ lk_testing s) (inside s)
    (cv_spin s) (cv_waiting s) (cv_woken s ∖ {[t]})).

(** One pass of [while (lk_owner != NULL) wchan_sleep(...)]. *)
Definition lock_test (t : tid) (s : lkcv) : lkcv :=
  match lk_owner s with
  | Some _ => mkLk (lk_owner s) (wchan_sleep t (lk_waiting s)) (lk_testing s ∖ {[t]}) (inside s)
                (cv_spin s) (cv_waiting s) (cv_woken s)
  | None => mkLk (Some t) (lk_waiting s) (lk_testing s ∖ {[t]}) ({[t]} ∪ inside s)
              (cv_spin s) (cv_waiting s) (cv_woken s)
  end.

Definition lock_release (t : tid) (s : lkcv) : res lkcv :=
  kassert_r "lock_do_i_hold(lock)" (lock_do_i_hold t s);;
  let '(target, wc) := wchan_wakeone (lk_waiting s) in
  mret (mkLk None wc (woken target ∪ lk_testing s) (inside s ∖ {[t]})
    (cv_spin s) (cv_waiting s) (cv_woken s)).

(** [cv_wait]: with the spinlock of the condition variable held, the lock is released
    and then the thread goes to sleep. *)
Definition cv_wait_release (t : tid) (s : lkcv) : res lkcv :=
  kassert_r "lock_do_i_hold(lock)" (lock_do_i_hold t s);;
  s ← lock_release t s;
  mret (mkLk (lk_owner s) (lk_waiting s) (lk_testing s) (inside s)
    (Some t) (cv_waiting s) (cv_woken s)).
Definition cv_wait_sleep (t : tid) (s : lkcv) : lkcv :=
  mkLk (lk_owner s) (lk_waiting s) (lk_testing s) (inside s)
    None (wchan_sleep t (cv_waiting s)) (cv_woken s).

Definition cv_signal (t : tid) (s : lkcv) : res lkcv :=
  kassert_r "lock_do_i_hold(lock)" (lock_do_i_hold t s);;
  let '(target, wc) := wchan_wakeone (cv_waiting s) in
  mret (mkLk (lk_owner s) (lk_waiting s) (lk_testing s) (inside s)
    (cv_spin s) wc (woken target ∪ cv_woken s)).
Definition cv_broadcast (t : tid) (s : lkcv) : res lkcv :=
  kassert_r "lock_do_i_hold(lock)" (lock_do_i_hold t s);;
  let '(targets, wc) := wchan_wakeall (cv_waiting s) in
  mret (mkLk (lk_owner s) (lk_waiting s) (lk_testing s) (inside s)
    (cv_spin s) wc (list_to_set targets ∪ cv_woken s)).

(** A thread that is in none of the operations. *)
Definition outside (t : tid) (s : lkcv) : Prop :=
  t ∉ lk_waiting s /\ t ∉ lk_testing s /\ t ∉ inside s /\ cv_spin s <> Some t /\
  t ∉ cv_waiting s /\ t ∉ cv_woken s.

(** The sections of the operations, as events of a run. *)
Inductive event : Type :=
| Enter (t : tid) | Test (t : tid) | Release (t : tid) | Wait (t : tid) | Sleep (t : tid) | Signal (t : tid) | Broadcast (t : tid).

(** While a thread is on its way to sleep it holds the spinlock of the condition variable:
    the sections that take the spinlock do not run. *)
Inductive lk_step : lkcv -> event -> lkcv -> Prop :=
| step_enter t s s' : outside t s \/ t ∈ cv_woken s /\ cv_spin s = None -> lock_enter t s = Ok s' -> lk_step s (Enter t) s'
| step_test t s : t ∈ lk_testing s -> lk_step s (Test t) (lock_test t s)
| step_release t s s' : t ∈ inside s -> lock_release t s = Ok s' -> lk_step s (Release t) s'
| step_wait t s s' : t ∈ inside s -> cv_spin s = None -> cv_wait_release t s = Ok s' -> lk_step s (Wait t) s'
| step_sleep t s : cv_spin s = Some t -> lk_step s (Sleep t) (cv_wait_sleep t s)
| step_signal t s s' : t ∈ inside s -> cv_spin s = None -> cv_signal t s = Ok s' -> lk_step s (Signal t) s'
| step_broadcast t s s' : t ∈ inside s -> cv_spin s = None -> cv_broadcast t s = Ok s' -> lk_step s (Broadcast t) s'.

(** A run from the start, by its events in order. *)
Inductive lk_run : list event -> lkcv -> Prop :=
| run_new : lk_run [] lk_new
| run_step h s e s' : lk_run h s -> lk_step s e s' -> lk_run (h ++ [e]) s'.

(** ** What a condition variable promises

    [waits_of h]: the threads that have called [cv_wait] and that nobody has woken, in the
    order of their calls; [wakes_of h]: those that were woken and have not gone on.  A signal
    is for the one that called first, a broadcast for all. *)
Definition cv_spec (x : list tid * gset tid) (e : event) : list tid * gset tid :=
  match e with
  | Wait t => (x.1 ++ [t], x.2)
  | Signal _ => match x.1 with [] => x | t :: l => (l, {[t]} ∪ x.2) end
  | Broadcast _ => ([], list_to_set x.1 ∪ x.2)
  | Enter t => (x.1, x.2 ∖ {[t]})
  | _ => x
  end.
Definition cv_history (h : list event) : list tid * gset tid := fold_left cv_spec h ([], ∅).
Definition waits_of (h : list event) : list tid := (cv_history h).1.
Definition wakes_of (h : list event) : gset tid := (cv_history h).2.

(** Whoever is inside owns the lock; a thread is in one place only; when nobody owns
    the lock and threads sleep on it, one is on its way to the test. *)
Definition lk_inv (s : lkcv) : Prop :=
  inside s = woken (lk_owner s) /\
  NoDup (lk_waiting s) /\ NoDup (cv_waiting s) /\
  (forall t, t ∈ lk_waiting s -> t ∉ lk_testing s /\ t ∉ inside s /\ cv_spin s <> Some t /\ t ∉ cv_waiting s /\ t ∉ cv_woken s) /\
  (forall t, t ∈ lk_testing s -> t ∉ inside s /\ cv_spin s <> Some t /\ t ∉ cv_waiting s /\ t ∉ cv_woken s) /\
  (forall t, t ∈ inside s -> cv_spin s <> Some t /\ t ∉ cv_waiting s /\ t ∉ cv_woken s) /\
  (forall t, cv_spin s = Some t -> t ∉ cv_waiting s /\ t ∉ cv_woken s) /\
  (forall t, t ∈ cv_waiting s -> t ∉ cv_woken s) /\
  (lk_owner s = None -> lk_waiting s <> [] -> lk_testing s <> ∅).

Lemma wakeone_cases (wc : list tid) :
  wc = [] /\ wchan_wakeone wc = (None, []) \/
  exists t wc', wc = t :: wc' /\ wchan_wakeone wc = (Some t, wc').
Proof. destruct wc as [|t wc]; [by left|right]. by exists t, wc. Qed.

Lemma NoDup_snoc {A} (l : list A) x : NoDup l -> x ∉ l -> NoDup (l ++ [x]).
Proof.
  intros Hl Hx. apply NoDup_app. split_and!; [done| |apply NoDup_singleton].
  by intros y Hy ->%list_elem_of_singleton.
Qed.

Lemma lk_release_inv t s s' : lk_inv s -> lock_release t s = Ok s' ->
  lk_inv s' /\ lk_owner s = Some t /\ lk_owner s' = None /\ cv_spin s' = cv_spin s /\ cv_waiting s' = cv_waiting s /\
  cv_woken s' = cv_woken s /\ t ∉ lk_waiting s' /\ t ∉ lk_testing s' /\ inside s' = ∅.
Proof.
  intros (Hin & Hn1 & Hn2 & Hw & Ht & Hi & Hs & Hc & Hl) H. unfold lock_release, kassert_r, lock_do_i_hold in H.
  case_bool_decide as Ho; [|done]. rewrite Ho in Hin. cbn in Hin.
  destruct (wakeone_cases (lk_waiting s)) as [[Hwt Hwk]|(t' & wc & Hwt & Hwk)]; rewrite Hwk in H;
    injection H as <-; rewrite Hwt in *; unfold lk_inv; cbn.
  - rewrite Hin in *. split_and!; try done; try set_solver.
  - apply NoDup_cons in Hn1 as [Hn0 Hn1]. rewrite Hin in *.
    split_and!; try done; try set_solver.
Qed.

(** A claim about one thread, from the claims about it in the state before. *)
Ltac at_thread Hw Ht Hi Hs Hc :=
  let x := fresh "x" in let Hx := fresh "Hx" in
  intros x Hx; specialize (Hw x); specialize (Ht x); specialize (Hi x); specialize (Hs x); specialize (Hc x); set_solver.

Lemma lk_test_inv t s : lk_inv s -> t ∈ lk_testing s -> lk_inv (lock_test t s).
Proof.
  intros (Hin & Hn1 & Hn2 & Hw & Ht & Hi & Hs & Hc & Hl) H. destruct (Ht t H) as (Ht1 & Ht2 & Ht3 & Ht4).
  unfold lock_test, wchan_sleep. destruct (lk_owner s) as [o|] eqn:Ho; unfold lk_inv; cbn in *; rewrite Hin in *.
  - split_and!; try done; try (at_thread Hw Ht Hi Hs Hc).
    apply NoDup_snoc; [done|]. intros Hx. by destruct (Hw t Hx).
  - split_and!; try done; try (at_thread Hw Ht Hi Hs Hc). by rewrite union_empty_r_L.
Qed.

Lemma lk_enter_inv t s s' : lk_inv s -> outside t s \/ t ∈ cv_woken s /\ cv_spin s = None ->
  lock_enter t s = Ok s' -> lk_inv s'.
Proof.
  intros (Hin & Hn1 & Hn2 & Hw & Ht & Hi & Hs & Hc & Hl) Hout H.
  unfold lock_enter, kassert_r in H. destruct (negb _); [|done]. injection H as <-. unfold lk_inv; cbn.
  assert (Hn : t ∉ lk_waiting s /\ t ∉ inside s /\ cv_spin s <> Some t /\ t ∉ cv_waiting s).
  { destruct Hout as [Hout|[Hwk Hsp]]; [by destruct Hout as (? & ? & ? & ? & ? & ?)|].
    rewrite Hsp in *. set_solver. }
  split_and!; try done; try set_solver.
Qed.

Lemma lk_wake_inv l wc s : lk_inv s -> cv_spin s = None -> cv_waiting s = l ++ wc ->
  lk_inv (mkLk (lk_owner s) (lk_waiting s) (lk_testing s) (inside s) (cv_spin s) wc (list_to_set l ∪ cv_woken s)).
Proof.
  intros (Hin & Hn1 & Hn2 & Hw & Ht & Hi & Hs & Hc & Hl) Hsp Hcw. unfold lk_inv; cbn. rewrite Hsp, Hcw in *.
  apply NoDup_app in Hn2 as (_ & Hd & Hn2). split_and!; try done; set_solver.
Qed.

Lemma lk_inv_step s e s' : lk_inv s -> lk_step s e s' -> lk_inv s'.
Proof.
  intros Hinv Hst. destruct Hst as [t s s' Hout H|t s Hin|t s s' Hin H|t s s' Hin Hsp H|t s Hsp|t s s' Hin Hsp H|t s s' Hin Hsp H].
  - by eapply lk_enter_inv.
  - by apply lk_test_inv.
  - by apply (lk_release_inv t) in H as [? _].
  - unfold cv_wait_release, kassert_r in H. destruct (lock_do_i_hold t s); [|done].
    destruct (lock_release t s) as [s1|] eqn:Hr; [|done]. injection H as <-.
    assert (Hti : t ∉ cv_waiting s /\ t ∉ cv_woken s).
    { destruct Hinv as (_ & _ & _ & _ & _ & Hi & _). by destruct (Hi t Hin). }
    apply (lk_release_inv t) in Hr as ((Ha & Hb & Hc & Hd & He & Hf & Hg & Hh & Hk) & Ho & Ho' & Hs1 & Hc1 & Hw1 & ? & ? & Hi1);
      [|done]. rewrite <- Hc1, <- Hw1 in Hti. rewrite Hi1 in Ha, Hd, He, Hf. rewrite Ho' in Ha, Hk. unfold lk_inv; cbn. rewrite Hi1, Ho'.
    split_and!; try done; try set_solver.
  - destruct Hinv as (Hin & Hn1 & Hn2 & Hw & Ht & Hi & Hs & Hc & Hl). destruct (Hs t Hsp).
    unfold lk_inv, cv_wait_sleep, wchan_sleep; cbn. rewrite Hsp in *.
    split_and!; try done; try (at_thread Hw Ht Hi Hs Hc). by apply NoDup_snoc.
  - unfold cv_signal, kassert_r in H. destruct (lock_do_i_hold t s); [|done].
    destruct (wakeone_cases (cv_waiting s)) as [[Hwt Hwk]|(t' & wc & Hwt & Hwk)]; rewrite Hwk in H; injection H as <-.
    + rewrite <- (list_to_set_nil (C := gset tid)). by apply lk_wake_inv.
    + pose proof (lk_wake_inv [t'] wc s Hinv Hsp Hwt) as Hi. by rewrite list_to_set_singleton_L in Hi.
  - unfold cv_broadcast, kassert_r in H. destruct (lock_do_i_hold t s); [|done]. injection H as <-.
    apply lk_wake_inv; [done|done|]. by rewrite app_nil_r.
Qed.

Lemma lk_inv_new : lk_inv lk_new.
Proof. unfold lk_inv. cbn. split_and!; try done; try constructor; set_solver. Qed.
Lemma lk_inv_run h s : lk_run h s -> lk_inv s.
Proof. induction 1; [exact lk_inv_new|by eapply lk_inv_step]. Qed.

Lemma cv_history_snoc h e : cv_history (h ++ [e]) = cv_spec (cv_history h) e.
Proof. unfold cv_history. by rewrite fold_left_app. Qed.

(** The threads the condition variable knows of, in the order of their calls. *)
Definition cv_queue (s : lkcv) : list tid := cv_waiting s ++ match cv_spin s with Some t => [t] | None => [] end.

Lemma lock_release_cv t s s' : lock_release t s = Ok s' -> cv_spin s' = cv_spin s /\ cv_waiting s' = cv_waiting s /\ cv_woken s' = cv_woken s.
Proof. intros H. unfold lock_release, kassert_r in H. destruct (lock_do_i_hold t s); [|done]. destruct (wchan_wakeone _). by injection H as <-. Qed.

Lemma cv_step_spec s e s' : lk_inv s -> lk_step s e s' -> (cv_queue s', cv_woken s') = cv_spec (cv_queue s, cv_woken s) e.
Proof.
  intros Hinv Hst. destruct Hst as [t s s' Hout H|t s Hin|t s s' Hin H|t s s' Hin Hsp H|t s Hsp|t s s' Hin Hsp H|t s s' Hin Hsp H]; unfold cv_queue; cbn.
  - unfold lock_enter, kassert_r in H. destruct (negb _); [|done]. by injection H as <-.
  - unfold lock_test. by destruct (lk_owner s).
  - apply lock_release_cv in H as (-> & -> & ->). done.
  - unfold cv_wait_release, kassert_r in H. destruct (lock_do_i_hold t s); [|done]. destruct (lock_release t s) as [s1|] eqn:Hr; [|done]. injection H as <-.
    apply lock_release_cv in Hr as (_ & Hw & Hk). cbn. by rewrite Hsp, Hw, Hk, app_nil_r.
  - by rewrite Hsp, app_nil_r.
  - unfold cv_signal, kassert_r in H. destruct (lock_do_i_hold t s); [|done]. rewrite Hsp, app_nil_r in *.
    destruct (wakeone_cases (cv_waiting s)) as [[Hwt Hwk]|(t' & wc & Hwt & Hwk)]; rewrite Hwk in H; injection H as <-; cbn; rewrite Hwt, ?app_nil_r; [|done].
    by rewrite union_empty_l_L.
  - unfold cv_broadcast, kassert_r in H. destruct (lock_do_i_hold t s); [|done]. injection H as <-. cbn. by rewrite Hsp, app_nil_r.
Qed.

Lemma cv_run_spec h s : lk_run h s -> (cv_queue s, cv_woken s) = cv_history h.
Proof.
  induction 1 as [|h s e s' Hr IH Hst]; [done|]. rewrite cv_history_snoc, <- IH. apply cv_step_spec; [by eapply lk_inv_run|done].
Qed.

(** C26: locks exclude, and neither they nor condition variables lose a wakeup.  In
    every run of threads through [lock_acquire], [lock_release], [cv_wait], [cv_signal] and
    [cv_broadcast], however their sections interleave: a thread that is between acquire and
    release is the owner, so there is at most one; when the lock is free and threads
    sleep on it one of them was woken and is about to test it.  The threads asleep in
    [cv_wait], or on their way to sleep, are exactly those that have called it and that no
    signal or broadcast since then was for, in the order of their calls, where a signal is for
    the thread that called first and a broadcast for all; every other thread that has called
    it is awake until it goes for the lock again, so no wakeup is lost, also not one between
    the release of the lock and the sleep. *)
Theorem lock_cv_correct h s : lk_run h s ->
  (forall t, t ∈ inside s <-> lk_owner s = Some t) /\
  (lk_owner s = None -> lk_waiting s <> [] -> exists t, t ∈ lk_testing s) /\
  cv_queue s = waits_of h /\ cv_woken s = wakes_of h /\ NoDup (cv_queue s) /\
  (forall t, t ∈ cv_queue s -> t ∉ inside s /\ t ∉ cv_woken s).
Proof.
  intros Hr. pose proof (cv_run_spec h s Hr) as Hq. apply lk_inv_run in Hr as (Hin & Hn1 & Hn2 & Hw & Ht & Hi & Hs & Hc & Hl). split; [|split; [|split; [|split; [|split]]]].
  - intros t. rewrite Hin. destruct (lk_owner s); cbn; set_solver.
  - intros Ho Hne. by apply set_choose_L, Hl.
  - unfold waits_of. by rewrite <- Hq.
  - unfold wakes_of. by rewrite <- Hq.
  - unfold cv_queue. destruct (cv_spin s) as [t|]; [apply NoDup_snoc; [done|by apply Hs]|by rewrite app_nil_r].
  - intros t Hx. unfold cv_queue in Hx. apply elem_of_app in Hx as [Hx|Hx].
    + split; [intros Hti; by destruct (Hi t Hti) as (_ & ? & _)|by apply Hc].
    + destruct (cv_spin s) as [t'|] eqn:E; [|by apply not_elem_of_nil in Hx]. apply list_elem_of_singleton in Hx as ->. split; [intros Hti; by destruct (Hi t' Hti)|by apply Hs].
Qed.

(** ** Running events *)

#[global] Instance outside_dec t s : Decision (outside t s).
Proof. unfold outside. apply _. Defined.
Definition ok {A} (r : res A) : option A := match r with Ok a => Some a | Err _ => None end.
Definition exec (s : lkcv) (e : event) : option lkcv :=
  match e with
  | Enter t => guard (outside t s \/ t ∈ cv_woken s /\ cv_spin s = None);; ok (lock_enter t s)
  | Test t => guard (t ∈ lk_testing s);; Some (lock_test t s)
  | Release t => guard (t ∈ inside s);; ok (lock_release t s)
  | Wait t => guard (t ∈ inside s);; guard (cv_spin s = None);; ok (cv_wait_release t s)
  | Sleep t => guard (cv_spin s = Some t);; Some (cv_wait_sleep t s)
  | Signal t => guard (t ∈ inside s);; guard (cv_spin s = None);; ok (cv_signal t s)
  | Broadcast t => guard (t ∈ inside s);; guard (cv_spin s = None);; ok (cv_broadcast t s)
  end.

Lemma ok_Ok {A} (r : res A) a : ok r = Some a -> r = Ok a.
Proof. destruct r; [|done]. by intros [= ->]. Qed.
Lemma exec_step s e s' : exec s e = Some s' -> lk_step s e s'.
Proof.
  destruct e as [t|t|t|t|t|t|t]; cbn; intros H; repeat case_guard; try done; simplify_option_eq; try (apply ok_Ok in H); by constructor.
Qed.
Lemma exec_run h s0 s : forall h0, lk_run h0 s0 -> foldl (fun o e => s ← o; exec s e) (Some s0) h = Some s -> lk_run (h0 ++ h) s.
Proof.
  revert s0. induction h as [|e h IH]; intros s0 h0 Hr H; cbn in H; [injection H as <-; by rewrite app_nil_r|].
  destruct (exec s0 e) as [s1|] eqn:E; [|exfalso; clear -H; induction h; done]. replace (h0 ++ e :: h) with ((h0 ++ [e]) ++ h) by (by rewrite <- app_assoc).
  apply (IH s1); [|done]. eapply run_step; [done|by apply exec_step].
Qed.

(** Thread 1 waits on the condition variable; thread 2 takes the lock, as soon as it is free,
    and signals; thread 1 is awake and thread 3 sleeps on the lock. *)
Definition handover : list event := [Enter 1; Test 1; Wait 1; Enter 2; Test 2; Sleep 1; Enter 3; Test 3; Signal 2]%nat.
Lemma lock_cv_correct_witness : let s := mkLk (Some 2%nat) [3%nat] ∅ {[2%nat]} None [] {[1%nat]} in
  lk_run handover s /\ cv_queue s = waits_of handover /\ cv_woken s = wakes_of handover /\ wakes_of handover = {[1%nat]}.
Proof.
  assert (H : lk_run handover (mkLk (Some 2%nat) [3%nat] ∅ {[2%nat]} None [] {[1%nat]})) by (apply (exec_run handover lk_new _ []); [apply run_new|vm_compute; reflexivity]).
  split; [exact H|]. destruct (lock_cv_correct _ _ H) as (_ & _ & H3 & H4 & _). split; [exact H3|]. split; [exact H4|]. vm_compute. reflexivity.
Defined.

End Synch.
