(* ===== verification/Biglock.v ===== *)
(** * kern/vfs/vfslist.c: the big lock of the VFS layer

    [vfs_biglock] is a lock of synch.c made recursive by the counter [vfs_biglock_depth].
    Threads interleave between the test of the owner, [lock_acquire], the increment, the
    decrement and [lock_release]; only what the lock's own spinlock covers is atomic. *)
From stdpp Require Import functions.
From S2P Require Import Prelude Synch.
Import Synch.

Module Biglock.

(** Where a thread is, and how many acquisitions it has not released: in neither function;
    inside [lock_acquire]; about to increment the depth; about to call [lock_release]. *)
Inductive phase : Type := Quiet (n : nat) | Locking (n : nat) | Locked (n : nat) | Unlocking (n : nat).

Record biglock : Type := mkBl { vfs_biglock : lkcv; vfs_biglock_depth : Z; at_ : tid -> phase }.
Definition biglock_new : biglock := mkBl lk_new 0 (fun _ => Quiet 0).

Definition go (t : tid) (p : phase) (s : biglock) : biglock := mkBl (vfs_biglock s) (vfs_biglock_depth s) (<[t := p]> (at_ s)).

(** [vfs_biglock_acquire], up to [lock_acquire] or past it. *)
Definition acquire_begin (t : tid) (n : nat) (s : biglock) : res biglock :=
  if negb (lock_do_i_hold t (vfs_biglock s)) then
    lk ← lock_enter t (vfs_biglock s);
    mret (mkBl lk (vfs_biglock_depth s) (<[t := Locking n]> (at_ s)))
  else if vfs_biglock_depth s =? 0 then
    lk ← lock_enter t (vfs_biglock s);
    mret (mkBl lk (vfs_biglock_depth s) (<[t := Locking n]> (at_ s)))
  else mret (go t (Locked n) s).

(** One pass of the loop of [lock_acquire]. *)
Definition acquire_test (t : tid) (n : nat) (s : biglock) : biglock :=
  let lk := lock_test t (vfs_biglock s) in
  mkBl lk (vfs_biglock_depth s) (if lock_do_i_hold t lk then <[t := Locked n]> (at_ s) else at_ s).

(** [vfs_biglock_depth++] *)
Definition acquire_end (t : tid) (n : nat) (s : biglock) : biglock :=
  mkBl (vfs_biglock s) (u32 (vfs_biglock_depth s + 1)) (<[t := Quiet (S n)]> (at_ s)).

(** [vfs_biglock_release], up to [lock_release]. *)
Definition release_begin (t : tid) (n : nat) (s : biglock) : res biglock :=
  kassert_r "lock_do_i_hold(vfs_biglock)" (lock_do_i_hold t (vfs_biglock s));;
  kassert_r "vfs_biglock_depth > 0" (0 <? vfs_biglock_depth s);;
  let depth := vfs_biglock_depth s - 1 in
  mret (mkBl (vfs_biglock s) depth (<[t := if depth =? 0 then Unlocking n else Quiet (n - 1)]> (at_ s))).

Definition release_end (t : tid) (n : nat) (s : biglock) : res biglock :=
  lk ← lock_release t (vfs_biglock s);
  mret (mkBl lk (vfs_biglock_depth s) (<[t := Quiet (n - 1)]> (at_ s))).

Definition vfs_biglock_do_i_hold (t : tid) (s : biglock) : bool := lock_do_i_hold t (vfs_biglock s).

(** Threads release what they acquired, and do not nest 2^32 deep. *)
Inductive bl_step : biglock -> biglock -> Prop :=
| step_begin t n s s' : at_ s t = Quiet n -> Z.of_nat n < 2 ^ 32 - 1 -> acquire_begin t n s = Ok s' -> bl_step s s'
| step_test t n s : at_ s t = Locking n -> t ∈ lk_testing (vfs_biglock s) -> bl_step s (acquire_test t n s)
| step_end t n s : at_ s t = Locked n -> bl_step s (acquire_end t n s)
| step_release t n s s' : at_ s t = Quiet (S n) -> release_begin t (S n) s = Ok s' -> bl_step s s'
| step_unlock t n s s' : at_ s t = Unlocking n -> release_end t n s = Ok s' -> bl_step s s'.

Definition bl_reachable : biglock -> Prop := rtc bl_step biglock_new.

(** The thread is the owner, and the depth is its own. *)
Definition thread_ok (s : biglock) (t : tid) : Prop :=
  let lk := vfs_biglock s in
  match at_ s t with
  | Quiet 0 => lk_owner lk <> Some t /\ t ∉ lk_waiting lk /\ t ∉ lk_testing lk
  | Locking n => n = 0%nat /\ lk_owner lk <> Some t
  | Quiet n => lk_owner lk = Some t /\ vfs_biglock_depth s = Z.of_nat n /\ Z.of_nat n < 2 ^ 32
  | Locked n => lk_owner lk = Some t /\ vfs_biglock_depth s = Z.of_nat n /\ Z.of_nat n < 2 ^ 32 - 1
  | Unlocking n => n = 1%nat /\ lk_owner lk = Some t /\ vfs_biglock_depth s = 0
  end.

Record bl_inv (s : biglock) : Prop := {
  bi_lock : lk_inv (vfs_biglock s);
  bi_cv : cv_spin (vfs_biglock s) = None /\ cv_waiting (vfs_biglock s) = [] /\ cv_woken (vfs_biglock s) = ∅;
  bi_free : lk_owner (vfs_biglock s) = None -> vfs_biglock_depth s = 0;
  bi_thread t : thread_ok s t
}.

(** What the owner does concerns no other thread. *)
Lemma other_thread s s' t x : bl_inv s -> x <> t -> at_ s' x = at_ s x -> lk_owner (vfs_biglock s) = Some t -> lk_owner (vfs_biglock s') <> Some x ->
  (x ∉ lk_waiting (vfs_biglock s) -> x ∉ lk_testing (vfs_biglock s) -> x ∉ lk_waiting (vfs_biglock s') /\ x ∉ lk_testing (vfs_biglock s')) -> thread_ok s' x.
Proof.
  intros Hi Hne Hat Ho Ho' Hw. pose proof (bi_thread _ Hi x) as Hx. unfold thread_ok in *. rewrite Hat. destruct (at_ s x) as [[|n]|n|n|n].
  - destruct Hx as (_ & H1 & H2). split; [done|]. by apply Hw.
  - destruct Hx as [Hx _]. congruence.
  - by destruct Hx.
  - destruct Hx as [Hx _]. congruence.
  - destruct Hx as (_ & Hx & _). congruence.
Qed.

Lemma step_begin_inv t n s s' : bl_inv s -> at_ s t = Quiet n -> Z.of_nat n < 2 ^ 32 - 1 -> acquire_begin t n s = Ok s' -> bl_inv s'.
Proof.
  intros Hi Hat Hn He. pose proof (bi_thread _ Hi t) as Ht. unfold thread_ok in Ht. rewrite Hat in Ht. unfold acquire_begin, lock_do_i_hold in He. destruct (bi_cv _ Hi) as (C1 & C2 & C3). destruct n as [|n].
  - destruct Ht as (Ho & Hw & Hts). rewrite bool_decide_false in He by done. cbn [negb] in He. destruct (lock_enter t (vfs_biglock s)) as [lk|] eqn:El; [|done]. injection He as <-.
    assert (Hlk : lk_inv lk).
    { apply (lk_enter_inv t (vfs_biglock s)); [apply Hi| |exact El]. left. pose proof (bi_lock _ Hi) as (Hin & _). split_and!; [done|done| |by rewrite C1|rewrite C2; apply not_elem_of_nil|rewrite C3; set_solver].
      rewrite Hin. destruct (lk_owner (vfs_biglock s)) as [o|]; cbn; [|set_solver]. rewrite not_elem_of_singleton. congruence. }
    unfold lock_enter, kassert_r, lock_do_i_hold in El. rewrite bool_decide_false in El by done. injection El as <-. split; cbn.
    + exact Hlk.
    + rewrite C3. split_and!; [done|done|set_solver].
    + apply Hi.
    + intros x. unfold thread_ok. cbn. destruct (decide (x = t)) as [->|Hne]; [rewrite fn_lookup_insert; done|rewrite fn_lookup_insert_ne by done].
      pose proof (bi_thread _ Hi x) as Hx. unfold thread_ok in Hx. destruct (at_ s x) as [[|k]|k|k|k]; try done. destruct Hx as (? & ? & ?). split_and!; [done|done|set_solver].
  - destruct Ht as (Ho & Hd & Hb). rewrite bool_decide_true in He by done. cbn [negb] in He. rewrite Hd in He. destruct (Z.eqb_spec (Z.of_nat (S n)) 0) as [|_]; [lia|]. injection He as <-.
    split; cbn; [apply Hi|done|by rewrite Ho|]. intros x. destruct (decide (x = t)) as [->|Hne].
    + unfold thread_ok. cbn. rewrite fn_lookup_insert. split_and!; [done|done|done].
    + apply (other_thread s _ t x Hi Hne); [cbn; by rewrite fn_lookup_insert_ne|done|cbn; congruence|done].
Qed.

Lemma step_test_inv t n s : bl_inv s -> at_ s t = Locking n -> t ∈ lk_testing (vfs_biglock s) -> bl_inv (acquire_test t n s).
Proof.
  intros Hi Hat Ht. pose proof (bi_thread _ Hi t) as Hx. unfold thread_ok in Hx. rewrite Hat in Hx. destruct Hx as [-> Ho]. pose proof (lk_test_inv t (vfs_biglock s) (bi_lock _ Hi) Ht) as Hlk.
  destruct (bi_cv _ Hi) as (C1 & C2 & C3). unfold acquire_test. unfold lock_test, wchan_sleep in *. destruct (lk_owner (vfs_biglock s)) as [o|] eqn:Eo; cbn [lock_do_i_hold lk_owner].
  - unfold lock_do_i_hold. cbn [lk_owner]. rewrite bool_decide_false by done. split; cbn; [exact Hlk|done|done|]. intros x. pose proof (bi_thread _ Hi x) as Hx. unfold thread_ok in *. cbn. rewrite Eo in Hx.
    destruct (at_ s x) as [[|k]|k|k|k] eqn:Ex; try done. destruct Hx as (H1 & H2 & H3). split_and!; [done| |set_solver]. rewrite elem_of_app, list_elem_of_singleton. intros [| ->]; [done|congruence].
  - unfold lock_do_i_hold. cbn [lk_owner]. rewrite bool_decide_true by done. split; cbn; [exact Hlk|done|done|]. intros x. unfold thread_ok. cbn. destruct (decide (x = t)) as [->|Hne].
    + rewrite fn_lookup_insert. split_and!; [done|by apply (bi_free _ Hi)|lia].
    + rewrite fn_lookup_insert_ne by done. pose proof (bi_thread _ Hi x) as Hx. unfold thread_ok in Hx. rewrite Eo in Hx. destruct (at_ s x) as [[|k]|k|k|k]; try (by destruct Hx); try (by destruct Hx as (? & ? & ?)).
      * destruct Hx as (_ & H2 & H3). split_and!; [congruence|done|set_solver].
      * destruct Hx as [-> _]. split; [done|congruence].
Qed.

Lemma step_end_inv t n s : bl_inv s -> at_ s t = Locked n -> bl_inv (acquire_end t n s).
Proof.
  intros Hi Hat. pose proof (bi_thread _ Hi t) as Hx. unfold thread_ok in Hx. rewrite Hat in Hx. destruct Hx as (Ho & Hd & Hb). split; cbn; [apply Hi|apply Hi|by rewrite Ho|].
  intros x. destruct (decide (x = t)) as [->|Hne].
  - unfold thread_ok. cbn. rewrite fn_lookup_insert. split_and!; [done| |lia]. rewrite Hd, u32_small; [lia|unfold is_u32; lia].
  - apply (other_thread s _ t x Hi Hne); [cbn; by rewrite fn_lookup_insert_ne|done|cbn; congruence|done].
Qed.

Lemma step_release_inv t n s s' : bl_inv s -> at_ s t = Quiet (S n) -> release_begin t (S n) s = Ok s' -> bl_inv s'.
Proof.
  intros Hi Hat He. pose proof (bi_thread _ Hi t) as Hx. unfold thread_ok in Hx. rewrite Hat in Hx. destruct Hx as (Ho & Hd & Hb). unfold release_begin, kassert_r, lock_do_i_hold in He.
  rewrite bool_decide_true in He by done. destruct (0 <? vfs_biglock_depth s); [|done]. injection He as <-. split; cbn; [apply Hi|apply Hi|by rewrite Ho|]. intros x. destruct (decide (x = t)) as [->|Hne].
  - unfold thread_ok. cbn [at_ vfs_biglock vfs_biglock_depth]. rewrite fn_lookup_insert, Hd. destruct (Z.eqb_spec (Z.of_nat (S n) - 1) 0) as [H0|H0]; [split_and!; [lia|done|done]|].
    destruct n as [|n]; [lia|]. cbn [Nat.sub]. split_and!; [done|lia|lia].
  - apply (other_thread s _ t x Hi Hne); [cbn; by rewrite fn_lookup_insert_ne|done|cbn; congruence|done].
Qed.

Lemma step_unlock_inv t n s s' : bl_inv s -> at_ s t = Unlocking n -> release_end t n s = Ok s' -> bl_inv s'.
Proof.
  intros Hi Hat He. pose proof (bi_thread _ Hi t) as Hx. unfold thread_ok in Hx. rewrite Hat in Hx. destruct Hx as (-> & Ho & Hd). unfold release_end in He. destruct (lock_release t (vfs_biglock s)) as [lk|] eqn:El; [|done].
  injection He as <-. pose proof El as Hrel. apply (lk_release_inv t) in Hrel as (Hlk & _ & Ho' & S1 & S2 & S3 & Hw & Hts & _); [|apply Hi]. destruct (bi_cv _ Hi) as (C1 & C2 & C3).
  split; cbn [at_ vfs_biglock vfs_biglock_depth]; [exact Hlk|by rewrite S1, S2, S3|done|]. intros x. destruct (decide (x = t)) as [->|Hne].
  - unfold thread_ok. cbn. rewrite fn_lookup_insert. split_and!; [congruence|done|done].
  - apply (other_thread s _ t x Hi Hne); [cbn; by rewrite fn_lookup_insert_ne|done|cbn; congruence|]. cbn. intros Hxw Hxt.
    unfold lock_release, kassert_r, lock_do_i_hold in El. rewrite bool_decide_true in El by done.
    destruct (wakeone_cases (lk_waiting (vfs_biglock s))) as [[E1 E2]|(y & wc & E1 & E2)]; rewrite E2 in El; injection El as <-; cbn; rewrite E1 in Hxw; set_solver.
Qed.

Lemma bl_inv_step s s' : bl_inv s -> bl_step s s' -> bl_inv s'.
Proof.
  intros Hi Hst. destruct Hst; [by eapply step_begin_inv|by eapply step_test_inv|by eapply step_end_inv|by eapply step_release_inv|by eapply step_unlock_inv].
Qed.

Lemma bl_inv_reachable s : bl_reachable s -> bl_inv s.
Proof.
  intros H. assert (H0 : bl_inv biglock_new).
  { split; [exact lk_inv_new|done|done|]. intros t. unfold thread_ok. cbn. split_and!; [done|apply not_elem_of_nil|set_solver]. }
  unfold bl_reachable in H. induction H as [|x y z Hxy _ IH]; [done|]. apply IH. by eapply bl_inv_step.
Qed.

(** A thread between [vfs_biglock_acquire] and the [vfs_biglock_release] that matches it. *)
Definition holding (s : biglock) (t : tid) : Prop := exists n, at_ s t = Quiet (S n).

(** The big lock of the VFS layer is a recursive lock.  In every interleaving of threads
    that release what they acquired: at most one thread is between acquire and release; the
    depth is the number of its own acquisitions; no assertion of [vfs_biglock_acquire],
    [vfs_biglock_release] or the lock fails, so neither stops the kernel and the branch for a
    lock that is held at depth 0 is not taken; and the lock is free, with a thread on its way
    to it if any waits, when nobody holds it. *)
Theorem biglock_recursive s : bl_reachable s ->
  (forall t t', holding s t -> holding s t' -> t = t') /\
  (forall t n, at_ s t = Quiet (S n) -> vfs_biglock_depth s = Z.of_nat (S n) /\ vfs_biglock_do_i_hold t s = true) /\
  (forall t n, at_ s t = Quiet n -> exists s', acquire_begin t n s = Ok s' /\ (at_ s' t = Locking 0 \/ at_ s' t = Locked n /\ vfs_biglock_depth s <> 0)) /\
  (forall t n, at_ s t = Quiet (S n) -> exists s', release_begin t (S n) s = Ok s') /\
  (forall t n, at_ s t = Unlocking n -> exists s', release_end t n s = Ok s' /\ at_ s' t = Quiet 0 /\ lk_owner (vfs_biglock s') = None) /\
  (lk_owner (vfs_biglock s) = None -> vfs_biglock_depth s = 0 /\ (lk_waiting (vfs_biglock s) <> [] -> exists t, t ∈ lk_testing (vfs_biglock s))).
Proof.
  intros Hr. pose proof (bl_inv_reachable s Hr) as Hi. assert (Hown : forall t n, at_ s t = Quiet (S n) -> lk_owner (vfs_biglock s) = Some t /\ vfs_biglock_depth s = Z.of_nat (S n)).
  { intros t n Hat. pose proof (bi_thread _ Hi t) as Hx. unfold thread_ok in Hx. rewrite Hat in Hx. by destruct Hx as (? & ? & ?). }
  split_and!.
  - intros t t' [n Hn] [n' Hn']. destruct (Hown t n Hn), (Hown t' n' Hn'). congruence.
  - intros t n Hat. destruct (Hown t n Hat) as [Ho Hd]. split; [done|]. by apply bool_decide_eq_true.
  - intros t n Hat. unfold acquire_begin, lock_do_i_hold. destruct n as [|n].
    + pose proof (bi_thread _ Hi t) as Hx. unfold thread_ok in Hx. rewrite Hat in Hx. destruct Hx as (Ho & _). rewrite bool_decide_false by done. cbn [negb].
      unfold lock_enter, kassert_r, lock_do_i_hold. rewrite bool_decide_false by done. cbn. eexists. split; [reflexivity|]. left. cbn. by rewrite fn_lookup_insert.
    + destruct (Hown t n Hat) as [Ho Hd]. rewrite bool_decide_true by done. cbn [negb]. rewrite Hd. destruct (Z.eqb_spec (Z.of_nat (S n)) 0) as [|Hd0]; [lia|]. eexists. split; [reflexivity|]. right. cbn.
      by rewrite fn_lookup_insert.
  - intros t n Hat. destruct (Hown t n Hat) as [Ho Hd]. unfold release_begin, kassert_r, lock_do_i_hold. rewrite bool_decide_true by done. rewrite Hd. destruct (Z.ltb_spec 0 (Z.of_nat (S n))) as [_|]; [by eexists|lia].
  - intros t n Hat. pose proof (bi_thread _ Hi t) as Hx. unfold thread_ok in Hx. rewrite Hat in Hx. destruct Hx as (-> & Ho & _). unfold release_end, lock_release, kassert_r, lock_do_i_hold. rewrite bool_decide_true by done.
    destruct (wchan_wakeone _) as [o wc]. cbn. eexists. split; [reflexivity|]. cbn. by rewrite fn_lookup_insert.
  - intros Ho. split; [by apply (bi_free _ Hi)|]. intros Hw. pose proof (bi_lock _ Hi) as (_ & _ & _ & _ & _ & _ & _ & _ & Hl). by apply set_choose_L, Hl.
Qed.

(** Thread 1 holds the lock twice, thread 2 waits. *)
Lemma biglock_recursive_witness : exists s, bl_reachable s /\ at_ s 1%nat = Quiet 2 /\ at_ s 2%nat = Locking 0 /\ vfs_biglock_depth s = 2 /\ ~ holding s 2%nat.
Proof.
  assert (H : exists s, bl_reachable s /\ at_ s 1%nat = Quiet 2 /\ at_ s 2%nat = Locking 0).
  { eexists. split.
    1: eapply rtc_l; [eapply (step_begin 1%nat 0); [reflexivity|lia|reflexivity]|].
    eapply rtc_l; [apply (step_test 1%nat 0); [reflexivity|cbn; set_solver]|].
    eapply rtc_l; [apply (step_end 1%nat 0); reflexivity|].
    eapply rtc_l; [eapply (step_begin 1%nat 1); [reflexivity|lia|reflexivity]|].
    eapply rtc_l; [apply (step_end 1%nat 1); reflexivity|].
    eapply rtc_l; [eapply (step_begin 2%nat 0); [reflexivity|lia|reflexivity]|]. apply rtc_refl.
    split; reflexivity. }
  destruct H as (s & H & H1 & H2). exists s. destruct (biglock_recursive s H) as (_ & Hd & _). destruct (Hd 1%nat 1%nat H1) as [Hd1 _].
  split; [exact H|]. split; [exact H1|]. split; [exact H2|]. split; [exact Hd1|]. intros [n Hn]. rewrite H2 in Hn. discriminate Hn.
Defined.

End Biglock.
