(* ===== verification/Hangman.v ===== *)
(** * The deadlock detector: kern/thread/hangman.c

    Actors (processors, threads) wait for lockables (spinlocks, locks), and a lockable is held
    by an actor.  [hangman_lock] makes each of the three calls one step.  The detector panics
    exactly when the wait it is told of closes a cycle; otherwise no cycle of waits is ever
    there, which is why its own search always ends. *)
From stdpp Require Import relations.
From S2P Require Import Prelude.

Module Hangman.

(** The actors by address, with [a_waiting], and the lockables, with [l_holding]; 0 is NULL. *)
Record graph := mkGraph { a_waiting : gmap Z Z; l_holding : gmap Z Z }.

Definition set_waiting (a l : Z) (g : graph) : graph := mkGraph (<[a := l]> (a_waiting g)) (l_holding g).
Definition set_holding (l a : Z) (g : graph) : graph := mkGraph (a_waiting g) (<[l := a]> (l_holding g)).

Definition get_waiting (a : Z) : M graph Z := g ← get; deref "actor" (a_waiting g !! a).
Definition get_holding (l : Z) : M graph Z := g ← get; deref "lockable" (l_holding g !! l).

(** [HANGMAN_ACTORINIT], [HANGMAN_LOCKABLEINIT]. *)
Definition hangman_actorinit (a : Z) : M graph unit := modify (set_waiting a 0).
Definition hangman_lockableinit (l : Z) : M graph unit := modify (set_holding l 0).

(** The search of [hangman_check]: whether it goes to [found]. *)
Fixpoint check_loop (fuel : nat) (cur target : Z) : M graph bool :=
  match fuel with
  | O => fun _ => OutOfFuel
  | S f =>
      if cur =? 0 then mret false
      else if cur =? target then mret true
      else
        w ← get_waiting cur;
        if w =? 0 then mret false else h ← get_holding w; check_loop f h target
  end.

(** The report: the actors between the lockable and the target, in order. *)
Fixpoint report_loop (fuel : nat) (cur target : Z) : M graph (list Z) :=
  match fuel with
  | O => fun _ => OutOfFuel
  | S f =>
      if cur =? target then mret [cur]
      else w ← get_waiting cur; h ← get_holding w; l ← report_loop f h target; mret (cur :: l)
  end.

(** One turn for every actor. *)
Definition turns (g : graph) : nat := S (size (a_waiting g)).

Definition hangman_check (start target : Z) : M graph unit :=
  cur ← get_holding start;
  f ← gets turns;
  found ← check_loop f cur target;
  if found : bool then report_loop f cur target;; panic "Deadlock." else mret tt.

Section Calls.
(** The lockable of [hangman_lock] itself. *)
Context (own : Z).

Definition hangman_wait (a l : Z) : M graph unit :=
  if l =? own then mret tt else
  w ← get_waiting a;
  if negb (w =? 0) then panic "hangman_wait: already waiting for something?" else
  hangman_check l a;;
  modify (set_waiting a l).

Definition hangman_acquire (a l : Z) : M graph unit :=
  if l =? own then mret tt else
  w ← get_waiting a;
  if negb (w =? l) then panic "hangman_acquire: not waiting for lock" else
  h ← get_holding l;
  if negb (h =? 0) then panic "hangman_acquire: lock still held" else
  modify (set_holding l a);; modify (set_waiting a 0).

Definition hangman_release (a l : Z) : M graph unit :=
  if l =? own then mret tt else
  w ← get_waiting a;
  if negb (w =? 0) then panic "hangman_release: waiting for something?" else
  h ← get_holding l;
  if negb (h =? a) then panic "hangman_release: not the holder" else
  modify (set_holding l 0).
End Calls.

(** ** The graph of waits *)

(** [a] waits for something [b] holds. *)
Definition blocked (g : graph) (a b : Z) : Prop := exists l, a_waiting g !! a = Some l /\ l <> 0 /\ l_holding g !! l = Some b /\ b <> 0.

(** Pointers point to actors and lockables; nobody waits for himself through others. *)
Record inv (g : graph) : Prop := {
  iv_null : a_waiting g !! 0 = None;
  iv_waiting : forall a l, a_waiting g !! a = Some l -> l <> 0 -> is_Some (l_holding g !! l);
  iv_holding : forall l a, l_holding g !! l = Some a -> a <> 0 -> is_Some (a_waiting g !! a);
  iv_acyclic : forall a, ~ tc (blocked g) a a }.

Lemma blocked_fun g a b c : blocked g a b -> blocked g a c -> b = c.
Proof. intros (l & H1 & _ & H2 & _) (k & H3 & _ & H4 & _). congruence. Qed.

(** Whom [hangman_check] would find: the actors at the end of waits from the lockable. *)
Definition leads (g : graph) (l a : Z) : Prop := exists h, l_holding g !! l = Some h /\ h <> 0 /\ rtc (blocked g) h a.

(** ** The search *)

Section Search.
Context (g : graph) (Hg : inv g).

Lemma blocked_dom a b : blocked g a b -> a ∈ dom (a_waiting g).
Proof. intros (l & H & _). apply elem_of_dom. eauto. Qed.

Lemma get_waiting_eq a : a ∈ dom (a_waiting g) -> exists w, a_waiting g !! a = Some w /\ get_waiting a g = Done w g.
Proof. intros [w Hw]%elem_of_dom. exists w. split; [done|]. unfold get_waiting. erewrite bind_ret; [|done]. by rewrite Hw. Qed.
Lemma get_holding_eq l h : l_holding g !! l = Some h -> get_holding l g = Done h g.
Proof. intros H. unfold get_holding. erewrite bind_ret; [|done]. by rewrite H. Qed.

Lemma few_actors seen : NoDup seen -> (forall a, a ∈ seen -> a ∈ dom (a_waiting g)) -> (length seen <= size (a_waiting g))%nat.
Proof.
  intros Hn Hs. assert (Hsub : list_to_set seen ⊆ dom (a_waiting g)) by (intros a Ha%elem_of_list_to_set; by apply Hs).
  apply subseteq_size in Hsub. by rewrite size_list_to_set, size_dom in Hsub.
Qed.

(** The actors on the way are different, so there are at most as many as there are actors. *)
Lemma check_loop_eq target fuel : forall seen cur, cur <> 0 -> cur ∈ dom (a_waiting g) -> NoDup seen -> (forall a, a ∈ seen -> a ∈ dom (a_waiting g) /\ tc (blocked g) a cur) ->
  (size (a_waiting g) < fuel + length seen)%nat ->
  exists b, check_loop fuel cur target g = Done b g /\ (b = true <-> rtc (blocked g) cur target) /\
    (b = true -> exists l, report_loop fuel cur target g = Done l g).
Proof.
  induction fuel as [|f IH]; intros seen cur Hz Hc Hn Hs Hf; [pose proof (few_actors seen Hn (fun a Ha => proj1 (Hs a Ha))); lia|].
  assert (Hn' : NoDup (cur :: seen)). { apply NoDup_cons. split; [|done]. intros Hin. destruct (Hs _ Hin) as [_ Hc']. by apply (iv_acyclic g Hg cur). }
  assert (Hf1 : (0 < f)%nat). { enough (length (cur :: seen) <= size (a_waiting g))%nat by (cbn in *; lia). apply few_actors; [done|]. intros a [->|Ha]%elem_of_cons; [done|by apply Hs]. }
  cbn [check_loop report_loop]. rewrite (proj2 (Z.eqb_neq cur 0)) by done. destruct (Z.eqb_spec cur target) as [->|Ht].
  { exists true. split; [done|]. split; [split; [intros _; apply rtc_refl|done]|]. intros _. by exists [target]. }
  destruct (get_waiting_eq cur Hc) as (w & Hw & Ew). erewrite !bind_ret by exact Ew. destruct (Z.eqb_spec w 0) as [->|Hw0].
  { exists false. split; [done|]. split; [|done]. split; [done|]. intros H. exfalso. inversion H as [|? y ? (l & H1 & H2 & _)]; subst; [done|congruence]. }
  destruct (iv_waiting g Hg _ _ Hw Hw0) as [h Hh]. erewrite !bind_ret by (by apply get_holding_eq). destruct (decide (h = 0)) as [->|Hh0].
  { exists false. split; [by destruct f; [lia|]|]. split; [|done]. split; [done|]. intros H. exfalso. inversion H as [|? y ? (l & H1 & H2 & H3 & H4)]; subst; [done|congruence]. }
  assert (Hb : blocked g cur h) by (exists w; by split_and!).
  destruct (IH (cur :: seen) h) as (b & E & Hb' & Hr); [done|by apply elem_of_dom, (iv_holding g Hg w)|done| |cbn; lia|].
  - intros a Ha. apply elem_of_cons in Ha as [->|Ha]; [split; [done|by apply tc_once]|]. destruct (Hs _ Ha) as [H1 H2]. split; [done|]. by eapply tc_r.
  - exists b. split; [done|]. split.
    + rewrite Hb'. split; [intros H; by eapply rtc_l|]. intros H. inversion H as [|? y ? Hy]; subst; [done|]. by rewrite (blocked_fun _ _ _ _ Hb Hy).
    + intros Htrue. destruct (Hr Htrue) as [l El]. exists (cur :: l). by rewrite (bind_ret _ _ _ _ _ El).
Qed.

Lemma hangman_check_eq l a : is_Some (l_holding g !! l) -> a <> 0 -> (leads g l a /\ hangman_check l a g = Halt (Panic "Deadlock.")) \/ (~ leads g l a /\ hangman_check l a g = Done tt g).
Proof.
  intros [h Hh] Ha. unfold hangman_check. erewrite bind_ret by (by apply get_holding_eq). erewrite bind_ret by done. unfold leads. destruct (decide (h = 0)) as [->|Hh0].
  { right. split; [intros (h & H1 & H2 & _); congruence|]. done. }
  destruct (check_loop_eq a (turns g) [] h Hh0) as (b & E & Hb & Hr); [by apply elem_of_dom, (iv_holding g Hg l)|constructor|intros x Hx; by apply not_elem_of_nil in Hx|unfold turns; cbn; lia|].
  erewrite bind_ret by exact E. destruct b; [left|right].
  - split; [exists h; split_and!; [done|done|by apply Hb]|]. destruct (Hr eq_refl) as [r Er]. by rewrite (bind_ret _ _ _ _ _ Er).
  - split; [|done]. intros (h' & H1 & _ & H3). assert (h' = h) as -> by congruence. apply Hb in H3. done.
Qed.
End Search.

(** ** The calls keep the graph free of cycles *)

(** What the callers of hangman respect: actors and lockables are initialised. *)
Inductive call := Wait (a l : Z) | Acquire (a l : Z) | Release (a l : Z) | ActorInit (a : Z) | LockableInit (l : Z).

Definition run (own : Z) (c : call) : M graph unit :=
  match c with
  | Wait a l => hangman_wait own a l | Acquire a l => hangman_acquire own a l | Release a l => hangman_release own a l
  | ActorInit a => hangman_actorinit a | LockableInit l => hangman_lockableinit l
  end.

Definition proper (g : graph) (c : call) : Prop :=
  match c with
  | Wait a l | Acquire a l | Release a l => is_Some (a_waiting g !! a) /\ l <> 0 /\ is_Some (l_holding g !! l)
  | ActorInit a => a <> 0 /\ a_waiting g !! a = None
  | LockableInit l => l <> 0 /\ l_holding g !! l = None
  end.

Lemma acyclic_sub g g' : (forall a b, blocked g' a b -> blocked g a b) -> (forall a, ~ tc (blocked g) a a) -> forall a, ~ tc (blocked g') a a.
Proof.
  intros Hs Ha a H. apply (Ha a). revert H. generalize a at 2 4. intros b H. induction H as [x y H|x y z H1 H2 IH]; [apply tc_once; auto|eapply tc_l; eauto].
Qed.

(** A wait that leads back to nobody closes no cycle. *)
Lemma acyclic_wait g a l : inv g -> a_waiting g !! a = Some 0 -> ~ leads g l a -> forall x, ~ tc (blocked (set_waiting a l g)) x x.
Proof.
  intros Hg Ha Hl. set (g' := set_waiting a l g).
  assert (Hold : forall x y, x <> a -> blocked g' x y -> blocked g x y). { intros x y Hx (k & H1 & H2). exists k. split; [|done]. cbn in H1. by rewrite lookup_insert_ne in H1. }
  assert (Hback : forall x, rtc (blocked g') x a -> rtc (blocked g) x a).
  { intros x H. refine (rtc_ind_l (fun x => rtc (blocked g) x a) a _ _ x H); [done|]. clear x H. intros x y H1 _ IH. destruct (decide (x = a)) as [->|Hx]; [done|]. eapply rtc_l; [by apply Hold|done]. }
  (* the cycle goes through [a] *)
  assert (Hthru : forall x y, tc (blocked g') x y -> tc (blocked g) x y \/ rtc (blocked g') x a /\ rtc (blocked g') a y).
  { intros x y H. induction H as [x y H|x y z H1 H2 IH]; (destruct (decide (x = a)) as [->|Hx]; [right; split; [done|]|]).
    - by apply rtc_once. - left. apply tc_once. by apply Hold. - eapply rtc_l; [done|by apply tc_rtc].
    - destruct IH as [IH|[I1 I2]]; [left; eapply tc_l; [by apply Hold|done]|right; split; [by eapply rtc_l|done]]. }
  intros x H. assert (Haa : exists h, blocked g' a h /\ rtc (blocked g') h a).
  { destruct (Hthru _ _ H) as [Hx|[H1 H2]]; [by apply (iv_acyclic g Hg) in Hx|]. assert (Ht : tc (blocked g') a a).
    { inversion H2 as [|? y ? Hy Hyx]; subst; [by eapply tc_rtc_l|]. eapply tc_rtc_r; [eapply tc_rtc_r; [by apply tc_once|done]|done]. }
    inversion Ht as [? ? Hb|? h ? Hb Hr]; subst; [by exists a|exists h; split; [done|by apply tc_rtc]]. }
  destruct Haa as (h & (k & H1 & H2 & H3 & H4) & Hr). cbn in H1. rewrite lookup_insert_eq in H1. injection H1 as <-. apply Hl. exists h. split_and!; [done|done|by apply Hback].
Qed.

(** The actor that gets the lockable waits for nothing, so no cycle goes through it. *)
Lemma acyclic_acquire g a l : inv g -> a_waiting g !! a = Some l -> forall x, ~ tc (blocked (set_waiting a 0 (set_holding l a g))) x x.
Proof.
  intros Hg Ha. set (g' := set_waiting a 0 (set_holding l a g)).
  assert (Hout : forall x y, blocked g' x y -> x <> a /\ (y = a \/ blocked g x y)).
  { intros x y (k & H1 & H2 & H3 & H4). cbn in H1, H3. destruct (decide (x = a)) as [->|Hx]; [rewrite lookup_insert_eq in H1; congruence|]. rewrite lookup_insert_ne in H1 by done. split; [done|].
    destruct (decide (k = l)) as [->|Hk]; [rewrite lookup_insert_eq in H3; left; congruence|]. rewrite lookup_insert_ne in H3 by done. right. exists k. by split_and!. }
  assert (Hfrom : forall x y, tc (blocked g') x y -> x <> a) by (intros x y H; inversion H as [? ? Hb|? ? ? Hb]; subst; by apply Hout in Hb as [? _]).
  assert (Hold : forall x y, tc (blocked g') x y -> y <> a -> tc (blocked g) x y).
  { intros x y H. induction H as [x y H|x y z H1 H2 IH]; intros Hy.
    - apply Hout in H as [_ [?|?]]; [done|by apply tc_once].
    - apply Hout in H1 as [_ [->|?]]; [by apply Hfrom in H2|]. eapply tc_l; [done|by apply IH]. }
  intros x H. apply (iv_acyclic g Hg x), Hold; [done|by eapply Hfrom].
Qed.

Lemma inv_wait g a l : inv g -> a_waiting g !! a = Some 0 -> is_Some (l_holding g !! l) -> ~ leads g l a -> inv (set_waiting a l g).
Proof.
  intros Hg Ha Hl Hn. split; cbn; [|..|by apply acyclic_wait].
  - destruct (decide (a = 0)) as [->|]; [by rewrite (iv_null g Hg) in Ha|]. rewrite lookup_insert_ne by done. apply Hg.
  - intros b k. rewrite lookup_insert_Some. intros [[_ <-]|[_ Hb]]; [done|by apply (iv_waiting g Hg b)].
  - intros k b Hk Hb. apply lookup_insert_is_Some. destruct (decide (a = b)); [by left|right; split; [done|by apply (iv_holding g Hg k)]].
Qed.
Lemma inv_acquire g a l : inv g -> a_waiting g !! a = Some l -> inv (set_waiting a 0 (set_holding l a g)).
Proof.
  intros Hg Ha. split; cbn; [|..|by apply acyclic_acquire].
  - destruct (decide (a = 0)) as [->|]; [by rewrite (iv_null g Hg) in Ha|]. rewrite lookup_insert_ne by done. apply Hg.
  - intros b k. rewrite lookup_insert_Some. intros [[_ <-]|[_ Hb]]; [done|]. intros Hk. apply lookup_insert_is_Some. destruct (decide (l = k)); [by left|right; split; [done|by apply (iv_waiting g Hg b)]].
  - intros k b. rewrite lookup_insert_Some. intros [[_ <-]|[_ Hk]] Hb; apply lookup_insert_is_Some; [by left|]. destruct (decide (a = b)); [by left|right; split; [done|by apply (iv_holding g Hg k)]].
Qed.
Lemma inv_release g l : inv g -> inv (set_holding l 0 g).
Proof.
  intros Hg. split; cbn; [apply Hg|..].
  - intros b k Hb Hk. apply lookup_insert_is_Some. destruct (decide (l = k)); [by left|right; split; [done|by apply (iv_waiting g Hg b)]].
  - intros k b. rewrite lookup_insert_Some. intros [[_ <-]|[_ Hk]] Hb; [done|by apply (iv_holding g Hg k)].
  - apply (acyclic_sub g); [|apply Hg]. intros x y (k & H1 & H2 & H3 & H4). exists k. cbn in H3. rewrite lookup_insert_Some in H3. destruct H3 as [[_ <-]|[_ H3]]; [done|by split_and!].
Qed.
Lemma inv_actorinit g a : inv g -> a <> 0 -> a_waiting g !! a = None -> inv (set_waiting a 0 g).
Proof.
  intros Hg H0 Ha. split; cbn; [by rewrite lookup_insert_ne by done; apply Hg|..].
  - intros b k. rewrite lookup_insert_Some. intros [[_ <-]|[_ Hb]]; [done|by apply (iv_waiting g Hg b)].
  - intros k b Hk Hb. apply lookup_insert_is_Some. destruct (decide (a = b)); [by left|right; split; [done|by apply (iv_holding g Hg k)]].
  - apply (acyclic_sub g); [|apply Hg]. intros x y (k & H1 & H2 & H3 & H4). exists k. cbn in H1. rewrite lookup_insert_Some in H1. destruct H1 as [[_ <-]|[_ H1]]; [done|by split_and!].
Qed.

Lemma run_inv own c g g' : inv g -> proper g c -> run own c g = Done tt g' -> inv g'.
Proof.
  intros Hg Hp. destruct c as [a l|a l|a l|a|l]; cbn [run proper] in *.
  - destruct Hp as ([w Hw] & Hl0 & Hl). unfold hangman_wait. destruct (l =? own); [by intros [= <-]|]. unfold get_waiting. erewrite bind_ret; [|erewrite bind_ret; [|done]; by rewrite Hw].
    destruct (Z.eqb_spec w 0) as [->|]; [|done]. cbn [negb]. destruct (hangman_check_eq g Hg l a Hl) as [[_ E]|[Hn E]]; [intros ->; by rewrite (iv_null g Hg) in Hw|by rewrite (bind_halt _ _ _ _ E)|].
    rewrite (bind_ret _ _ _ _ _ E). intros [= <-]. by apply inv_wait.
  - destruct Hp as ([w Hw] & Hl0 & [h Hh]). unfold hangman_acquire. destruct (l =? own); [by intros [= <-]|]. unfold get_waiting. erewrite bind_ret; [|erewrite bind_ret; [|done]; by rewrite Hw].
    destruct (Z.eqb_spec w l) as [->|]; [|done]. cbn [negb]. unfold get_holding. erewrite bind_ret; [|erewrite bind_ret; [|done]; by rewrite Hh]. destruct (h =? 0); [|done]. intros [= <-]. by apply inv_acquire.
  - destruct Hp as ([w Hw] & Hl0 & [h Hh]). unfold hangman_release. destruct (l =? own); [by intros [= <-]|]. unfold get_waiting. erewrite bind_ret; [|erewrite bind_ret; [|done]; by rewrite Hw].
    destruct (w =? 0); [|done]. cbn [negb]. unfold get_holding. erewrite bind_ret; [|erewrite bind_ret; [|done]; by rewrite Hh]. destruct (h =? a); [|done]. intros [= <-]. by apply inv_release.
  - destruct Hp. intros [= <-]. by apply inv_actorinit.
  - intros [= <-]. by apply inv_release.
Qed.

(** The states that calls lead to, from a kernel without locks. *)
Inductive reachable (own : Z) : graph -> Prop :=
| reach_boot : reachable own (mkGraph ∅ ∅)
| reach_call g c g' : reachable own g -> proper g c -> run own c g = Done tt g' -> reachable own g'.

Lemma reachable_inv own g : reachable own g -> inv g.
Proof. induction 1 as [|g c g' _ IH Hp E]; [|by eapply run_inv]. split; cbn; try done. intros a H. inversion H as [? ? (l & ? & _)|? ? ? (l & ? & _)]; subst; done. Qed.

(** C38: the deadlock detector is exact.  In every state the calls can lead to, nobody waits for
    himself through the holders of what is waited for; and when an actor that waits for nothing
    is about to wait for a lockable, hangman_wait returns, with its search at an end, and
    records the wait, or panics: it panics exactly when that wait would close a cycle. *)
Theorem hangman_exact own g a l : reachable own g -> a_waiting g !! a = Some 0 -> l <> own -> is_Some (l_holding g !! l) ->
  (forall x, ~ tc (blocked g) x x) /\
  (leads g l a /\ hangman_wait own a l g = Halt (Panic "Deadlock.") \/
   ~ leads g l a /\ hangman_wait own a l g = Done tt (set_waiting a l g) /\ forall x, ~ tc (blocked (set_waiting a l g)) x x).
Proof.
  intros Hr Ha Ho Hl. pose proof (reachable_inv own g Hr) as Hg. split; [apply Hg|]. unfold hangman_wait. rewrite (proj2 (Z.eqb_neq l own)) by done.
  unfold get_waiting. erewrite bind_ret; [|erewrite bind_ret; [|done]; by rewrite Ha]. cbn [negb Z.eqb].
  destruct (hangman_check_eq g Hg l a Hl) as [[H E]|[H E]]; [intros ->; by rewrite (iv_null g Hg) in Ha|left|right].
  - split; [done|]. by rewrite (bind_halt _ _ _ _ E).
  - split; [done|]. split; [by rewrite (bind_ret _ _ _ _ _ E)|by apply acyclic_wait].
Qed.

(** Two processors and two spinlocks, each processor with one and the first waiting for the
    other's: the second closes the cycle. *)
Definition example_calls : list call := [ActorInit 1; ActorInit 2; LockableInit 10; LockableInit 20; Wait 1 10; Acquire 1 10; Wait 2 20; Acquire 2 20; Wait 1 20].
Definition example_graph : graph := mkGraph {[ 1 := 20; 2 := 0 ]} {[ 10 := 1; 20 := 2 ]}.

Lemma hangman_example_reachable : reachable 99 example_graph.
Proof.
  assert (Hall : forall cs g, reachable 99 g -> foldr (fun c k g => proper g c /\ exists g', run 99 c g = Done tt g' /\ k g') (fun g => g = example_graph) cs g -> reachable 99 example_graph).
  { induction cs as [|c cs IH]; intros g Hg; cbn; [by intros <-|]. intros (Hp & g' & E & H). eapply IH; [|exact H]. by eapply reach_call. }
  apply (Hall example_calls (mkGraph ∅ ∅)); [constructor|]. cbn.
  repeat first [split; [split_and!; vm_compute; first [done|by eexists]|]; eexists; split; [vm_compute; reflexivity|] | vm_compute; reflexivity].
Qed.

Lemma hangman_exact_witness : leads example_graph 10 2 /\ hangman_wait 99 2 10 example_graph = Halt (Panic "Deadlock.").
Proof.
  destruct (hangman_exact 99 example_graph 2 10) as [_ [H|(_ & H & _)]]; [exact hangman_example_reachable|done|done|by exists 1|exact H|]. exfalso. vm_compute in H. done.
Defined.

End Hangman.
