(* ===== verification/Threadlist.v ===== *)
(** * kern/thread/threadlist.c: lists of threads

    Doubly linked lists through the nodes inside the threads, with two bookend nodes in the
    list itself, at the level of pointers: the nodes are a map from addresses.  The list is
    at address [tl], its head node there, its tail node behind it; [off] is the offset of
    [t_listnode] in [struct thread].  DEBUGASSERT is compiled out. *)
From S2P Require Import Prelude Wp.

Module Threadlist.

Record tln : Type := mkTln { tln_prev : Z; tln_next : Z; tln_self : Z }.
Record heap : Type := mkHeap { nodes : gmap Z tln; tl_counts : gmap Z Z }.

Definition SIZEOF_NODE : Z := 12.
Definition tl_head (tl : Z) : Z := tl.
Definition tl_tail (tl : Z) : Z := tl + SIZEOF_NODE.

Definition get_node (a : Z) : M heap tln := h ← get; deref "struct threadlistnode" (nodes h !! a).
Definition put_node (a : Z) (n : tln) : M heap unit := modify (fun h => mkHeap (<[a := n]> (nodes h)) (tl_counts h)).
Definition get_count (tl : Z) : M heap Z := h ← get; deref "struct threadlist" (tl_counts h !! tl).
Definition put_count (tl c : Z) : M heap unit := modify (fun h => mkHeap (nodes h) (<[tl := c]> (tl_counts h))).

Definition set_prev (a p : Z) : M heap unit := n ← get_node a; put_node a (mkTln p (tln_next n) (tln_self n)).
Definition set_next (a x : Z) : M heap unit := n ← get_node a; put_node a (mkTln (tln_prev n) x (tln_self n)).

Section Threadlist.
Context (off : Z).
Definition t_listnode (t : Z) : Z := t + off.

Definition threadlistnode_init (a t : Z) : M heap unit :=
  kassert "t != NULL" (negb (t =? 0));;
  put_node a (mkTln 0 0 t).

Definition threadlistnode_cleanup (a : Z) : M heap unit :=
  n ← get_node a;
  kassert "tln->tln_next == NULL" (tln_next n =? 0);;
  kassert "tln->tln_prev == NULL" (tln_prev n =? 0);;
  kassert "tln->tln_self != NULL" (negb (tln_self n =? 0)).

Definition threadlist_init (tl : Z) : M heap unit :=
  put_node (tl_head tl) (mkTln 0 (tl_tail tl) 0);;
  put_node (tl_tail tl) (mkTln (tl_head tl) 0 0);;
  put_count tl 0.

Definition threadlist_isempty (tl : Z) : M heap bool := c ← get_count tl; mret (c =? 0).

Definition threadlist_cleanup (tl : Z) : M heap unit :=
  e ← threadlist_isempty tl;
  kassert "threadlist_isempty(tl)" e;;
  c ← get_count tl;
  kassert "tl->tl_count == 0" (c =? 0).

Definition threadlist_insertafternode (onlist t : Z) : M heap unit :=
  let addee := t_listnode t in
  set_prev addee onlist;;
  o ← get_node onlist;
  set_next addee (tln_next o);;
  n ← get_node addee;
  set_next (tln_prev n) addee;;
  n ← get_node addee;
  set_prev (tln_next n) addee.

Definition threadlist_insertbeforenode (t onlist : Z) : M heap unit :=
  let addee := t_listnode t in
  o ← get_node onlist;
  set_prev addee (tln_prev o);;
  set_next addee onlist;;
  n ← get_node addee;
  set_next (tln_prev n) addee;;
  n ← get_node addee;
  set_prev (tln_next n) addee.

Definition threadlist_removenode (a : Z) : M heap unit :=
  n ← get_node a;
  set_next (tln_prev n) (tln_next n);;
  n ← get_node a;
  set_prev (tln_next n) (tln_prev n);;
  set_prev a 0;;
  set_next a 0.

(** [tl->tl_count++] and [tl->tl_count--], unsigned *)
Definition add_count (tl d : Z) : M heap unit := c ← get_count tl; put_count tl (u32 (c + d)).

Definition threadlist_addhead (tl t : Z) : M heap unit := threadlist_insertafternode (tl_head tl) t;; add_count tl 1.
Definition threadlist_addtail (tl t : Z) : M heap unit := threadlist_insertbeforenode t (tl_tail tl);; add_count tl 1.

(** The thread, or 0 for NULL. *)
Definition threadlist_remhead (tl : Z) : M heap Z :=
  h ← get_node (tl_head tl);
  let a := tln_next h in
  n ← get_node a;
  if tln_next n =? 0 then mret 0
  else
    threadlist_removenode a;;
    add_count tl (-1);;
    n ← get_node a;
    mret (tln_self n).

Definition threadlist_remtail (tl : Z) : M heap Z :=
  h ← get_node (tl_tail tl);
  let a := tln_prev h in
  n ← get_node a;
  if tln_prev n =? 0 then mret 0
  else
    threadlist_removenode a;;
    add_count tl (-1);;
    n ← get_node a;
    mret (tln_self n).

Definition threadlist_insertafter (tl onlist addee : Z) : M heap unit := threadlist_insertafternode (t_listnode onlist) addee;; add_count tl 1.
Definition threadlist_insertbefore (tl addee onlist : Z) : M heap unit := threadlist_insertbeforenode addee (t_listnode onlist);; add_count tl 1.
Definition threadlist_remove (tl t : Z) : M heap unit := threadlist_removenode (t_listnode t);; add_count tl (-1).

(** ** Chains of nodes *)

(** The nodes of [L], addresses with their threads, between the node [p] and the node [x]. *)
Definition first (L : list (Z * Z)) (x : Z) : Z := match L with [] => x | (a, _) :: _ => a end.
Fixpoint last_of (p : Z) (L : list (Z * Z)) : Z := match L with [] => p | (a, _) :: L => last_of a L end.
Fixpoint dll (h : gmap Z tln) (p : Z) (L : list (Z * Z)) (x : Z) : Prop :=
  match L with [] => True | (a, t) :: L => h !! a = Some (mkTln p (first L x) t) /\ dll h a L x end.

Lemma dll_split h p L1 a t L2 x : dll h p (L1 ++ (a, t) :: L2) x <-> dll h p L1 a /\ h !! a = Some (mkTln (last_of p L1) (first L2 x) t) /\ dll h a L2 x.
Proof.
  revert p. induction L1 as [|[b u] L1 IH]; intros p; cbn; [tauto|]. rewrite IH. destruct L1 as [|[c w] L1]; cbn; tauto.
Qed.

Lemma dll_frame h h' p L x : (forall a, a ∈ L.*1 -> h' !! a = h !! a) -> dll h p L x -> dll h' p L x.
Proof.
  revert p. induction L as [|[a t] L IH]; intros p Hf; cbn; [done|]. intros [Ha Hd]. split; [rewrite Hf; [done|left]|]. apply IH; [|done]. intros b Hb. apply Hf. by right.
Qed.

(** The nodes of the list at [tl] that holds the threads [ts]. *)
Definition chain (tl : Z) (ts : list Z) : list (Z * Z) := (tl_head tl, 0) :: ((fun t => (t_listnode t, t)) <$> ts) ++ [(tl_tail tl, 0)].

Record tl_repr (h : heap) (tl : Z) (ts : list Z) : Prop := {
  tr_dll : dll (nodes h) 0 (chain tl ts) 0;
  tr_nodup : NoDup (chain tl ts).*1;
  tr_null : 0 ∉ (chain tl ts).*1 /\ 0 ∉ ts;
  tr_count : tl_counts h !! tl = Some (Z.of_nat (length ts))
}.

(** A thread that is on no list. *)
Definition unlinked (h : heap) (t : Z) : Prop := nodes h !! t_listnode t = Some (mkTln 0 0 t).

(** Only the nodes of one list, and one more, change; and only its count. *)
Definition changes (h h' : heap) (tl : Z) (ts : list Z) (t : Z) : Prop :=
  (forall a, a ∉ (chain tl ts).*1 -> a <> t_listnode t -> nodes h' !! a = nodes h !! a) /\ (forall b, b <> tl -> tl_counts h' !! b = tl_counts h !! b).

(** ** The links *)

Definition upd (a : Z) (n : tln) (h : heap) : heap := mkHeap (<[a := n]> (nodes h)) (tl_counts h).

Lemma get_node_is a n h : nodes h !! a = Some n -> get_node a h = Done n h.
Proof. intros Ha. unfold get_node, mbind, M_bind, get. by rewrite Ha. Qed.
Lemma set_prev_is a p n h : nodes h !! a = Some n -> set_prev a p h = Done tt (upd a (mkTln p (tln_next n) (tln_self n)) h).
Proof. intros Ha. unfold set_prev. by rewrite (bind_ret _ _ _ _ _ (get_node_is a n h Ha)). Qed.
Lemma set_next_is a x n h : nodes h !! a = Some n -> set_next a x h = Done tt (upd a (mkTln (tln_prev n) x (tln_self n)) h).
Proof. intros Ha. unfold set_next. by rewrite (bind_ret _ _ _ _ _ (get_node_is a n h Ha)). Qed.

(** Lookups in a heap with some nodes written. *)
Ltac node := unfold upd; cbn [nodes]; rewrite ?lookup_insert_eq; repeat (rewrite lookup_insert_ne by congruence); rewrite ?lookup_insert_eq; try done; try reflexivity.
Ltac run_get := erewrite (bind_ret _ _ _ _ _ (get_node_is _ _ _ _)); cbn [tln_prev tln_next tln_self].
Ltac run_prev := erewrite (bind_ret _ _ _ _ _ (set_prev_is _ _ _ _ _)); cbn [tln_prev tln_next tln_self].
Ltac run_next := erewrite (bind_ret _ _ _ _ _ (set_next_is _ _ _ _ _)); cbn [tln_prev tln_next tln_self].

(** [n] between [a] and [b]. *)
Definition linked (n a b : Z) (t pa ta xb tb : Z) (h : heap) : heap := upd b (mkTln n xb tb) (upd a (mkTln pa n ta) (upd n (mkTln a b t) h)).

Lemma heap_eq h h' : nodes h = nodes h' -> tl_counts h = tl_counts h' -> h = h'.
Proof. destruct h, h'. cbn. congruence. Qed.

Lemma insertafter_is a b t pa ta xb tb h : unlinked h t -> nodes h !! a = Some (mkTln pa b ta) -> nodes h !! b = Some (mkTln a xb tb) ->
  a <> b -> a <> t_listnode t -> b <> t_listnode t -> threadlist_insertafternode a t h = Done tt (linked (t_listnode t) a b t pa ta xb tb h).
Proof.
  intros Ht Ha Hb H1 H2 H3. unfold threadlist_insertafternode. set (n := t_listnode t) in *. unfold unlinked in Ht. fold n in Ht.
  rewrite (bind_ret _ _ _ _ _ (set_prev_is n a _ h Ht)). cbn [tln_next tln_self].
  rewrite (bind_ret _ _ _ _ _ (get_node_is a (mkTln pa b ta) (upd n (mkTln a 0 t) h) ltac:(node))). cbn [tln_next].
  rewrite (bind_ret _ _ _ _ _ (set_next_is n b (mkTln a 0 t) (upd n (mkTln a 0 t) h) ltac:(node))). cbn [tln_prev tln_self].
  set (h2 := upd n (mkTln a b t) (upd n (mkTln a 0 t) h)). rewrite (bind_ret _ _ _ _ _ (get_node_is n (mkTln a b t) h2 ltac:(unfold h2; node))). cbn [tln_prev].
  rewrite (bind_ret _ _ _ _ _ (set_next_is a n (mkTln pa b ta) h2 ltac:(unfold h2; node))). cbn [tln_prev tln_self].
  rewrite (bind_ret _ _ _ _ _ (get_node_is n (mkTln a b t) (upd a (mkTln pa n ta) h2) ltac:(unfold h2; node))). cbn [tln_next].
  rewrite (set_prev_is b n (mkTln a xb tb) (upd a (mkTln pa n ta) h2)) by (unfold h2; node). f_equal. unfold linked, h2, upd. apply heap_eq; cbn; [|done]. by rewrite insert_insert_eq.
Qed.

Lemma insertbefore_is a b t pa ta xb tb h : unlinked h t -> nodes h !! a = Some (mkTln pa b ta) -> nodes h !! b = Some (mkTln a xb tb) ->
  a <> b -> a <> t_listnode t -> b <> t_listnode t -> threadlist_insertbeforenode t b h = Done tt (linked (t_listnode t) a b t pa ta xb tb h).
Proof.
  intros Ht Ha Hb H1 H2 H3. unfold threadlist_insertbeforenode. set (n := t_listnode t) in *. unfold unlinked in Ht. fold n in Ht.
  rewrite (bind_ret _ _ _ _ _ (get_node_is b _ h Hb)). cbn [tln_prev]. rewrite (bind_ret _ _ _ _ _ (set_prev_is n a _ h Ht)). cbn [tln_next tln_self].
  rewrite (bind_ret _ _ _ _ _ (set_next_is n b (mkTln a 0 t) (upd n (mkTln a 0 t) h) ltac:(node))). cbn [tln_prev tln_self].
  set (h2 := upd n (mkTln a b t) (upd n (mkTln a 0 t) h)). rewrite (bind_ret _ _ _ _ _ (get_node_is n (mkTln a b t) h2 ltac:(unfold h2; node))). cbn [tln_prev].
  rewrite (bind_ret _ _ _ _ _ (set_next_is a n (mkTln pa b ta) h2 ltac:(unfold h2; node))). cbn [tln_prev tln_self].
  rewrite (bind_ret _ _ _ _ _ (get_node_is n (mkTln a b t) (upd a (mkTln pa n ta) h2) ltac:(unfold h2; node))). cbn [tln_next].
  rewrite (set_prev_is b n (mkTln a xb tb) (upd a (mkTln pa n ta) h2)) by (unfold h2; node). f_equal. unfold linked, h2, upd. apply heap_eq; cbn; [|done]. by rewrite insert_insert_eq.
Qed.

(** [n] is taken out from between [a] and [b]. *)
Definition cut (n a b : Z) (t pa ta xb tb : Z) (h : heap) : heap := upd n (mkTln 0 0 t) (upd b (mkTln a xb tb) (upd a (mkTln pa b ta) h)).

Lemma removenode_is n a b t pa ta xb tb h : nodes h !! n = Some (mkTln a b t) -> nodes h !! a = Some (mkTln pa n ta) -> nodes h !! b = Some (mkTln n xb tb) ->
  a <> b -> a <> n -> b <> n -> threadlist_removenode n h = Done tt (cut n a b t pa ta xb tb h).
Proof.
  intros Hn Ha Hb H1 H2 H3. unfold threadlist_removenode. rewrite (bind_ret _ _ _ _ _ (get_node_is n _ h Hn)). cbn [tln_prev tln_next].
  rewrite (bind_ret _ _ _ _ _ (set_next_is a b _ h Ha)). cbn [tln_prev tln_self].
  rewrite (bind_ret _ _ _ _ _ (get_node_is n (mkTln a b t) (upd a (mkTln pa b ta) h) ltac:(node))). cbn [tln_prev tln_next].
  rewrite (bind_ret _ _ _ _ _ (set_prev_is b a (mkTln n xb tb) (upd a (mkTln pa b ta) h) ltac:(node))). cbn [tln_next tln_self].
  set (h2 := upd b (mkTln a xb tb) (upd a (mkTln pa b ta) h)). rewrite (bind_ret _ _ _ _ _ (set_prev_is n 0 (mkTln a b t) h2 ltac:(unfold h2; node))). cbn [tln_next tln_self].
  rewrite (set_next_is n 0 (mkTln 0 b t) (upd n (mkTln 0 b t) h2)) by node. f_equal. unfold cut, h2, upd. apply heap_eq; cbn; [|done]. by rewrite insert_insert_eq.
Qed.

(** ** The chain after a link or a cut *)

Lemma dll_linked h p L1 a ta b tb L2 x n t : dll (nodes h) p (L1 ++ (a, ta) :: (b, tb) :: L2) x -> NoDup (L1 ++ (a, ta) :: (b, tb) :: L2).*1 -> n ∉ (L1 ++ (a, ta) :: (b, tb) :: L2).*1 ->
  nodes h !! a = Some (mkTln (last_of p L1) b ta) /\ nodes h !! b = Some (mkTln a (first L2 x) tb) /\ a <> b /\ a <> n /\ b <> n /\
  dll (nodes (linked n a b t (last_of p L1) ta (first L2 x) tb h)) p (L1 ++ (a, ta) :: (n, t) :: (b, tb) :: L2) x.
Proof.
  intros Hd Hnd Hn. apply dll_split in Hd as (D1 & Ha & D2). cbn [first dll] in Ha, D2. destruct D2 as [Hb D2]. rewrite fmap_app in Hnd, Hn. cbn [fmap list_fmap fst] in Hnd, Hn.
  apply NoDup_app in Hnd as (_ & Hdis & Hnd). apply NoDup_cons in Hnd as [Na Hnd]. apply NoDup_cons in Hnd as [Nb _]. rewrite not_elem_of_app, !not_elem_of_cons in Hn. destruct Hn as (N1 & Nna & Nnb & N2).
  rewrite not_elem_of_cons in Na. destruct Na as [Hab Na]. split_and!; [done|done|done|done|done|]. apply dll_split. cbn [dll first]. split_and!.
  - eapply dll_frame; [|exact D1]. intros c Hc. assert (c <> a) by (intros ->; apply (Hdis a Hc); left). assert (c <> b) by (intros ->; apply (Hdis b Hc); right; left). assert (c <> n) by congruence. unfold linked. node.
  - unfold linked. node.
  - unfold linked. node.
  - unfold linked. node.
  - eapply dll_frame; [|exact D2]. intros c Hc. assert (c <> a) by congruence. assert (c <> b) by congruence. assert (c <> n) by congruence. unfold linked. node.
Qed.

Lemma dll_cut h p L1 a ta n t b tb L2 x : dll (nodes h) p (L1 ++ (a, ta) :: (n, t) :: (b, tb) :: L2) x -> NoDup (L1 ++ (a, ta) :: (n, t) :: (b, tb) :: L2).*1 ->
  nodes h !! n = Some (mkTln a b t) /\ nodes h !! a = Some (mkTln (last_of p L1) n ta) /\ nodes h !! b = Some (mkTln n (first L2 x) tb) /\ a <> b /\ a <> n /\ b <> n /\
  dll (nodes (cut n a b t (last_of p L1) ta (first L2 x) tb h)) p (L1 ++ (a, ta) :: (b, tb) :: L2) x.
Proof.
  intros Hd Hnd. apply dll_split in Hd as (D1 & Ha & D2). cbn [first dll] in Ha, D2. destruct D2 as (Hn & Hb & D2). rewrite fmap_app in Hnd. cbn [fmap list_fmap fst] in Hnd.
  apply NoDup_app in Hnd as (_ & Hdis & Hnd). apply NoDup_cons in Hnd as [Na Hnd]. apply NoDup_cons in Hnd as [Nn Hnd]. apply NoDup_cons in Hnd as [Nb _]. rewrite !not_elem_of_cons in Na. rewrite !not_elem_of_cons in Nn.
  destruct Na as (Han & Hab & Na). destruct Nn as [Hnb Nn]. split_and!; [done|done|done|done|done|done|]. apply dll_split. cbn [dll first]. split_and!.
  - eapply dll_frame; [|exact D1]. intros c Hc. assert (c <> a) by (intros ->; apply (Hdis a Hc); left). assert (c <> n) by (intros ->; apply (Hdis n Hc); right; left).
    assert (c <> b) by (intros ->; apply (Hdis b Hc); right; right; left). unfold cut. node.
  - unfold cut. node.
  - unfold cut. node.
  - eapply dll_frame; [|exact D2]. intros c Hc. assert (c <> a) by congruence. assert (c <> b) by congruence. assert (c <> n) by congruence. unfold cut. node.
Qed.

(** ** Lists *)

Definition node_of (t : Z) : Z * Z := (t_listnode t, t).

(** The nodes around a place of the list. *)
Definition before (tl : Z) (l1 : list Z) : Z := match last l1 with Some t => t_listnode t | None => tl_head tl end.
Definition behind (tl : Z) (l2 : list Z) : Z := match l2 with t :: _ => t_listnode t | [] => tl_tail tl end.

Lemma chain_place tl l1 l2 : exists L1 ta tb L2, chain tl (l1 ++ l2) = L1 ++ (before tl l1, ta) :: (behind tl l2, tb) :: L2 /\
  forall t, chain tl (l1 ++ t :: l2) = L1 ++ (before tl l1, ta) :: node_of t :: (behind tl l2, tb) :: L2.
Proof.
  assert (H1 : exists L1 ta, (tl_head tl, 0) :: (node_of <$> l1) = L1 ++ [(before tl l1, ta)]).
  { destruct l1 as [|u l1] using rev_ind; [by exists [], 0|]. unfold before. rewrite last_snoc, fmap_app. exists ((tl_head tl, 0) :: (node_of <$> l1)), u. done. }
  assert (H2 : exists tb L2, (node_of <$> l2) ++ [(tl_tail tl, 0)] = (behind tl l2, tb) :: L2) by (destruct l2 as [|u l2]; cbn; eauto).
  destruct H1 as (L1 & ta & H1), H2 as (tb & L2 & H2). exists L1, ta, tb, L2. unfold chain.
  assert (Hc : forall l, (tl_head tl, 0) :: (node_of <$> l1 ++ l) ++ [(tl_tail tl, 0)] = L1 ++ (before tl l1, ta) :: (node_of <$> l) ++ [(tl_tail tl, 0)]).
  { intros l. rewrite fmap_app, <- (assoc_L (++)), app_comm_cons, H1, <- (assoc_L (++)). done. }
  split; [rewrite Hc; by rewrite H2|]. intros t. rewrite Hc. cbn. by rewrite H2.
Qed.

Lemma dll_prev h p L x a : dll h p L x -> a ∈ L.*1 -> exists n, h !! a = Some n /\ (tln_prev n = p \/ tln_prev n ∈ L.*1).
Proof.
  revert p. induction L as [|[b u] L IH]; intros p; cbn; [by intros _ ?%elem_of_nil|]. intros [Hb Hd]. rewrite elem_of_cons. intros [->|Ha]; [eexists; split; [exact Hb|by left]|].
  destruct (IH b Hd Ha) as (n & Hn & Hp). exists n. split; [done|]. right. rewrite elem_of_cons. destruct Hp; auto.
Qed.

(** A thread on no list is not on this one. *)
Lemma unlinked_fresh h tl ts t : tl_repr h tl ts -> unlinked h t -> t_listnode t ∉ (chain tl ts).*1.
Proof.
  intros Hr Hu Hin. destruct (tr_null _ _ _ Hr) as [H0 _]. pose proof (tr_dll _ _ _ Hr) as Hd. unfold unlinked in Hu. unfold chain in *. cbn [dll fmap list_fmap fst] in *. destruct Hd as [Hh Hd].
  rewrite not_elem_of_cons in H0. destruct H0 as [Hhd H0]. apply elem_of_cons in Hin as [E|Hin].
  - rewrite E, Hh in Hu. injection Hu as E1 _. apply H0. rewrite <- E1. destruct ts as [|u ts]; cbn; rewrite elem_of_cons; by left.
  - destruct (dll_prev _ _ _ _ _ Hd Hin) as (n & Hn & Hp). rewrite Hu in Hn. injection Hn as <-. cbn in Hp. destruct Hp as [Hp|Hp]; [by apply Hhd|by apply H0].
Qed.

Lemma add_count_is tl d c h : tl_counts h !! tl = Some c -> add_count tl d h = Done tt (mkHeap (nodes h) (<[tl := u32 (c + d)]> (tl_counts h))).
Proof. intros Hc. unfold add_count, get_count, mbind, M_bind, get. by rewrite Hc. Qed.

Lemma chain_perm tl l1 t l2 : (chain tl (l1 ++ t :: l2)).*1 ≡ₚ t_listnode t :: (chain tl (l1 ++ l2)).*1.
Proof. destruct (chain_place tl l1 l2) as (L1 & ta & tb & L2 & -> & ->). rewrite !fmap_app. cbn. rewrite <- !Permutation_middle. constructor. Qed.

(** The thread [t] was added between [l1] and [l2], or taken out; the rest of the heap stays. *)
Definition put_count_in (tl c : Z) (h : heap) : heap := mkHeap (nodes h) (<[tl := c]> (tl_counts h)).

Lemma added h tl l1 l2 t : tl_repr h tl (l1 ++ l2) -> unlinked h t -> t <> 0 -> t_listnode t <> 0 -> Z.of_nat (length (l1 ++ l2)) < 2 ^ 32 - 1 ->
  exists h1 h', threadlist_insertafternode (before tl l1) t h = Done tt h1 /\ threadlist_insertbeforenode t (behind tl l2) h = Done tt h1 /\ add_count tl 1 h1 = Done tt h' /\
    tl_repr h' tl (l1 ++ t :: l2) /\ changes h h' tl (l1 ++ l2) t.
Proof.
  intros Hr Hu Ht Hn Hlen. pose proof (unlinked_fresh h tl _ t Hr Hu) as Hfr. destruct (chain_place tl l1 l2) as (L1 & ta & tb & L2 & Hc & Hc').
  pose proof (tr_dll _ _ _ Hr) as Hd. pose proof (tr_nodup _ _ _ Hr) as Hnd. rewrite Hc in Hd, Hnd. assert (Hfr' := Hfr). rewrite Hc in Hfr'.
  destruct (dll_linked h 0 L1 _ ta _ tb L2 0 (t_listnode t) t Hd Hnd Hfr') as (Ha & Hb & H1 & H2 & H3 & Hd'). eexists _, _.
  split; [by apply insertafter_is|]. split; [by apply insertbefore_is|]. split; [apply (add_count_is tl 1 (Z.of_nat (length (l1 ++ l2)))), Hr|]. split.
  - split; cbn [nodes tl_counts].
    + rewrite Hc'. exact Hd'.
    + rewrite chain_perm. apply NoDup_cons. split; [done|apply Hr].
    + destruct (tr_null _ _ _ Hr) as [H0 H0']. split; [rewrite chain_perm, not_elem_of_cons; split; [congruence|done]|]. rewrite <- Permutation_middle, not_elem_of_cons. split; [congruence|done].
    + cbn. rewrite lookup_insert_eq, !length_app. rewrite length_app in Hlen. cbn [length]. f_equal. rewrite u32_small; unfold is_u32; lia.
  - split; [|intros b Hb'; cbn; by rewrite lookup_insert_ne]. intros a Hna Hnt. rewrite Hc, fmap_app in Hna. cbn in Hna. rewrite not_elem_of_app, !not_elem_of_cons in Hna. destruct Hna as (_ & N1 & N2 & _).
    cbn. unfold linked. node.
Qed.

Lemma taken_out h tl l1 t l2 : tl_repr h tl (l1 ++ t :: l2) -> Z.of_nat (length (l1 ++ t :: l2)) < 2 ^ 32 ->
  exists h1 h', threadlist_removenode (t_listnode t) h = Done tt h1 /\ add_count tl (-1) h1 = Done tt h' /\ get_node (t_listnode t) h' = Done (mkTln 0 0 t) h' /\
    tl_repr h' tl (l1 ++ l2) /\ changes h h' tl (l1 ++ t :: l2) t /\ unlinked h' t.
Proof.
  intros Hr Hlen. destruct (chain_place tl l1 l2) as (L1 & ta & tb & L2 & Hc & Hc'). pose proof (tr_dll _ _ _ Hr) as Hd. pose proof (tr_nodup _ _ _ Hr) as Hnd. rewrite Hc' in Hd, Hnd. unfold node_of in Hd, Hnd.
  destruct (dll_cut h 0 L1 _ ta _ t _ tb L2 0 Hd Hnd) as (Hn & Ha & Hb & H1 & H2 & H3 & Hd'). eexists _, _.
  split; [by apply (removenode_is _ (before tl l1) (behind tl l2) t (last_of 0 L1) ta (first L2 0) tb)|]. split; [apply (add_count_is tl (-1) (Z.of_nat (length (l1 ++ t :: l2)))), Hr|].
  assert (Hul : nodes (cut (t_listnode t) (before tl l1) (behind tl l2) t (last_of 0 L1) ta (first L2 0) tb h) !! t_listnode t = Some (mkTln 0 0 t)) by (unfold cut; node).
  split; [by apply get_node_is|]. pose proof (tr_nodup _ _ _ Hr) as Hnd2. rewrite chain_perm in Hnd2. apply NoDup_cons in Hnd2 as [Hfr Hnd2]. destruct (tr_null _ _ _ Hr) as [H0 H0']. split_and!.
  - split; cbn [nodes tl_counts].
    + rewrite Hc. exact Hd'.
    + exact Hnd2.
    + rewrite chain_perm, not_elem_of_cons in H0. rewrite <- Permutation_middle, not_elem_of_cons in H0'. tauto.
    + cbn. rewrite lookup_insert_eq, !length_app. rewrite length_app in Hlen. cbn [length] in *. f_equal. rewrite u32_small; unfold is_u32; lia.
  - split; [|intros b Hb'; cbn; by rewrite lookup_insert_ne]. intros a Hna Hnt. rewrite Hc', fmap_app in Hna. cbn in Hna. rewrite not_elem_of_app, !not_elem_of_cons in Hna. destruct Hna as (_ & N1 & _ & N2 & _).
    cbn. unfold cut. node.
  - exact Hul.
Qed.

(** ** Several lists *)

Lemma on_chain tl ts t : t ∈ ts -> t_listnode t ∈ (chain tl ts).*1.
Proof. intros (l1 & l2 & ->)%list_elem_of_split. rewrite chain_perm. left. Qed.

(** A chain that meets a set of nodes closed under the way back begins in it. *)
Lemma chain_back h p L x (C : list Z) a : dll h p L x -> 0 ∉ L.*1 -> a ∈ L.*1 -> a ∈ C ->
  (forall c n, c ∈ C -> h !! c = Some n -> tln_prev n = 0 \/ tln_prev n ∈ C) -> first L x ∈ C.
Proof.
  intros Hd H0 Ha HC Hcl. revert p a Hd H0 Ha HC. induction L as [|[b u] L IH]; intros p a; cbn; [by intros _ _ ?%elem_of_nil|].
  intros [Hb Hd] H0. rewrite not_elem_of_cons in H0. destruct H0 as [Hb0 H0]. rewrite elem_of_cons. intros [->|Ha] HC; [done|].
  pose proof (IH b a Hd H0 Ha HC) as Hf. destruct L as [|[c w] L]; [by apply elem_of_nil in Ha|]. cbn in Hf, Hd. destruct Hd as [Hc _]. destruct (Hcl c _ Hf Hc) as [E|]; cbn in *; congruence.
Qed.

(** Two lists share no node. *)
Lemma lists_disjoint h tl ts tl' ts' a : tl_repr h tl ts -> tl_repr h tl' ts' -> tl <> tl' -> a ∈ (chain tl ts).*1 -> a ∉ (chain tl' ts').*1.
Proof.
  intros Hr Hr' Hne Ha Ha'. pose proof (tr_dll _ _ _ Hr) as Hd. pose proof (tr_dll _ _ _ Hr') as Hd'. destruct (tr_null _ _ _ Hr) as [H0 _], (tr_null _ _ _ Hr') as [H0' _].
  assert (Hh : first (chain tl ts) 0 ∈ (chain tl' ts').*1).
  { apply (chain_back _ _ _ _ _ a Hd H0 Ha Ha'). intros c n Hc Hn. destruct (dll_prev _ _ _ _ _ Hd' Hc) as (n' & Hn' & Hp). rewrite Hn in Hn'. by injection Hn' as <-. }
  cbn in Hh, Hd, Hd'. destruct Hd as [Hd _], Hd' as [_ Hd']. apply elem_of_cons in Hh as [E|Hh]; [by apply Hne|].
  destruct (dll_prev _ _ _ _ _ Hd' Hh) as (n & Hn & Hp). rewrite Hd in Hn. injection Hn as <-. cbn in Hp, H0'. rewrite not_elem_of_cons in H0'. destruct H0' as [N1 N2]. destruct Hp as [Hp|Hp]; [by apply N1|by apply N2].
Qed.

Lemma others_stay h h' tl ts t : tl_repr h tl ts -> changes h h' tl ts t ->
  (forall tl' ts', tl' <> tl -> (unlinked h t \/ t ∈ ts) -> tl_repr h tl' ts' -> tl_repr h' tl' ts') /\ (forall u, unlinked h u -> u <> t -> unlinked h' u).
Proof.
  intros Hr [Hn Hc]. split.
  - intros tl' ts' Hne Ht Hr'. split; [|apply Hr'|apply Hr'|rewrite Hc by done; apply Hr']. eapply dll_frame; [|apply Hr']. intros a Ha. apply Hn.
    + intros Ha'. apply (lists_disjoint h tl' ts' tl ts a Hr' Hr Hne Ha Ha').
    + intros ->. destruct Ht as [Hu|Hin]; [exact (unlinked_fresh h tl' ts' t Hr' Hu Ha)|]. apply (lists_disjoint h tl' ts' tl ts _ Hr' Hr Hne Ha). by apply on_chain.
  - intros u Hu Hne. unfold unlinked in *. rewrite Hn; [done|by apply (unlinked_fresh h tl ts u)|unfold t_listnode; lia].
Qed.

(** ** The operations on lists *)

Inductive tl_op : Type :=
  | AddHead (t : Z) | AddTail (t : Z) | RemHead | RemTail | InsertAfter (onlist t : Z) | InsertBefore (t onlist : Z) | Remove (t : Z).

Definition run (tl : Z) (o : tl_op) : M heap Z :=
  match o with
  | AddHead t => threadlist_addhead tl t;; mret 0
  | AddTail t => threadlist_addtail tl t;; mret 0
  | RemHead => threadlist_remhead tl
  | RemTail => threadlist_remtail tl
  | InsertAfter u t => threadlist_insertafter tl u t;; mret 0
  | InsertBefore t u => threadlist_insertbefore tl t u;; mret 0
  | Remove t => threadlist_remove tl t;; mret 0
  end.

(** What an operation does to the sequence of threads, and what it returns. *)
Fixpoint put_at (l : Z -> list Z) (u : Z) (ts : list Z) : list Z :=
  match ts with [] => [] | x :: ts => if x =? u then l x ++ ts else x :: put_at l u ts end.
Definition tl_spec (o : tl_op) (ts : list Z) : Z * list Z :=
  match o with
  | AddHead t => (0, t :: ts)
  | AddTail t => (0, ts ++ [t])
  | RemHead => (default 0 (head ts), tail ts)
  | RemTail => (default 0 (last ts), removelast ts)
  | InsertAfter u t => (0, put_at (fun x => [x; t]) u ts)
  | InsertBefore t u => (0, put_at (fun x => [t; x]) u ts)
  | Remove t => (0, put_at (fun _ => []) t ts)
  end.

(** Only a thread on no list is added, and only next to one on this list. *)
Definition addable (h : heap) (t : Z) : Prop := unlinked h t /\ t <> 0 /\ t_listnode t <> 0.
Definition op_ok (h : heap) (ts : list Z) (o : tl_op) : Prop :=
  match o with
  | AddHead t | AddTail t => addable h t
  | RemHead | RemTail => True
  | InsertAfter u t | InsertBefore t u => addable h t /\ u ∈ ts
  | Remove t => t ∈ ts
  end.

(** The result [v], the threads [ts'] on the list, every other list as before, and a thread
    that was on no list or has left this one is on none. *)
Definition outcome (h : heap) (tl : Z) (ts : list Z) (m : M heap Z) (r : Z * list Z) : Prop :=
  exists h', m h = Done (fst r) h' /\ tl_repr h' tl (snd r) /\ (forall tl' ts', tl' <> tl -> tl_repr h tl' ts' -> tl_repr h' tl' ts') /\
    (forall u, unlinked h u \/ u ∈ ts -> u ∉ snd r -> unlinked h' u).

Lemma tl_not_unlinked h tl ts t : tl_repr h tl ts -> t ∈ ts -> ~ unlinked h t.
Proof.
  intros Hr Ht Hu. apply (unlinked_fresh h tl ts t Hr Hu). by apply on_chain.
Qed.

Lemma tl_nodup h tl l1 t l2 : tl_repr h tl (l1 ++ t :: l2) -> t ∉ l1 ++ l2.
Proof.
  intros Hr Hin. pose proof (tr_nodup _ _ _ Hr) as Hnd. rewrite chain_perm in Hnd. apply NoDup_cons in Hnd as [Hn _]. apply Hn. by apply on_chain.
Qed.

Lemma added_outcome h tl l1 l2 t m : tl_repr h tl (l1 ++ l2) -> addable h t -> Z.of_nat (length (l1 ++ l2)) < 2 ^ 32 - 1 ->
  (m = threadlist_insertafternode (before tl l1) t \/ m = threadlist_insertbeforenode t (behind tl l2)) ->
  outcome h tl (l1 ++ l2) ((m;; add_count tl 1);; mret 0) (0, l1 ++ t :: l2).
Proof.
  intros Hr (Hu & Ht & Hn) Hlen Hm. destruct (added h tl l1 l2 t Hr Hu Ht Hn Hlen) as (h1 & h' & H1 & H2 & H3 & Hr' & Hch). destruct (others_stay h h' tl _ t Hr Hch) as [Ho Hun].
  exists h'. cbn [fst snd]. split_and!; [|done|intros; apply Ho; auto|].
  - destruct Hm as [->| ->]; [rewrite (bind_ret _ _ _ tt h'); [done|]; by rewrite (bind_ret _ _ _ _ _ H1)|]. rewrite (bind_ret _ _ _ tt h'); [done|]. by rewrite (bind_ret _ _ _ _ _ H2).
  - intros u Hu' Hni. rewrite <- Permutation_middle, not_elem_of_cons in Hni. destruct Hni. destruct Hu' as [Hu'|Hu']; [by apply Hun|done].
Qed.

Lemma taken_outcome h tl l1 t l2 : tl_repr h tl (l1 ++ t :: l2) -> Z.of_nat (length (l1 ++ t :: l2)) < 2 ^ 32 ->
  outcome h tl (l1 ++ t :: l2) (threadlist_removenode (t_listnode t);; add_count tl (-1);; n ← get_node (t_listnode t); mret (tln_self n)) (t, l1 ++ l2).
Proof.
  intros Hr Hlen. destruct (taken_out h tl l1 t l2 Hr Hlen) as (h1 & h' & H1 & H2 & H3 & Hr' & Hch & Hu). destruct (others_stay h h' tl _ t Hr Hch) as [Ho Hun].
  exists h'. cbn [fst snd]. split_and!; [|done|intros; apply Ho; [done| |done]; right; set_solver|].
  - rewrite (bind_ret _ _ _ _ _ H1), (bind_ret _ _ _ _ _ H2), (bind_ret _ _ _ _ _ H3). done.
  - intros u Hu' Hni. destruct (decide (u = t)) as [->|Hne]; [done|]. destruct Hu' as [Hu'|Hu']; [by apply Hun|]. rewrite <- Permutation_middle, elem_of_cons in Hu'. by destruct Hu'.
Qed.

Lemma put_at_is l u ts : u ∈ ts -> exists l1 l2, ts = l1 ++ u :: l2 /\ put_at l u ts = l1 ++ l u ++ l2.
Proof.
  induction ts as [|x ts IH]; [by intros ?%elem_of_nil|]. intros Hu. cbn. destruct (Z.eqb_spec x u) as [->|Hne]; [by exists [], ts|].
  destruct IH as (l1 & l2 & -> & ->); [apply elem_of_cons in Hu as [Hu|Hu]; [congruence|done]|]. by exists (x :: l1), l2.
Qed.

Lemma get_end h tl ts : tl_repr h tl ts ->
  (exists t, nodes h !! tl_head tl = Some (mkTln 0 (behind tl ts) t)) /\ (exists t, nodes h !! tl_tail tl = Some (mkTln (before tl ts) 0 t)).
Proof.
  intros Hr. pose proof (tr_dll _ _ _ Hr) as Hd. unfold chain in Hd. split.
  - cbn in Hd. destruct Hd as [Hd _]. exists 0. rewrite Hd. by destruct ts.
  - rewrite app_comm_cons in Hd. apply dll_split in Hd as (_ & Hd & _). exists 0. rewrite Hd. f_equal. f_equal. destruct ts as [|t ts _] using rev_ind; [done|]. unfold before. rewrite last_snoc.
    rewrite fmap_app, app_comm_cons. generalize ((tl_head tl, 0) :: ((fun t => (t_listnode t, t)) <$> ts)). intros L. generalize 0. induction L as [|[a w] L IH]; intros p; cbn; [done|apply IH].
Qed.

Lemma node_in h tl l1 t l2 : tl_repr h tl (l1 ++ t :: l2) -> nodes h !! t_listnode t = Some (mkTln (before tl l1) (behind tl l2) t) /\ before tl l1 <> 0 /\ behind tl l2 <> 0.
Proof.
  intros Hr. destruct (chain_place tl l1 l2) as (L1 & ta & tb & L2 & _ & Hc). pose proof (tr_dll _ _ _ Hr) as Hd. pose proof (tr_nodup _ _ _ Hr) as Hnd. destruct (tr_null _ _ _ Hr) as [H0 _]. rewrite Hc in Hd, Hnd, H0. unfold node_of in *.
  destruct (dll_cut h 0 L1 _ ta _ t _ tb L2 0 Hd Hnd) as (Hn & _). rewrite fmap_app in H0. cbn in H0. rewrite not_elem_of_app, !not_elem_of_cons in H0. destruct H0 as (_ & ? & _ & ? & _). split_and!; congruence.
Qed.

Lemma empty_outcome h tl : tl_repr h tl [] -> outcome h tl [] (mret 0) (0, []).
Proof. intros Hr. exists h. split_and!; [done|done|done|]. intros u [Hu|Hu] _; [done|by apply elem_of_nil in Hu]. Qed.

Lemma remhead_outcome h tl ts : tl_repr h tl ts -> Z.of_nat (length ts) < 2 ^ 32 -> outcome h tl ts (threadlist_remhead tl) (tl_spec RemHead ts).
Proof.
  intros Hr Hlen. destruct (get_end h tl ts Hr) as [[w Hh] [w' Ht]]. destruct ts as [|t ts].
  - destruct (empty_outcome h tl Hr) as (h' & E & Ho). exists h'. split; [|exact Ho]. unfold threadlist_remhead. rewrite (bind_ret _ _ _ _ _ (get_node_is _ _ _ Hh)). cbn [tln_next behind]. by rewrite (bind_ret _ _ _ _ _ (get_node_is _ _ _ Ht)).
  - destruct (node_in h tl [] t ts Hr) as (Hn & _ & Hne). destruct (taken_outcome h tl [] t ts Hr Hlen) as (h' & E & Ho). exists h'. split; [|exact Ho]. unfold threadlist_remhead.
    rewrite (bind_ret _ _ _ _ _ (get_node_is _ _ _ Hh)). cbn [tln_next behind]. rewrite (bind_ret _ _ _ _ _ (get_node_is _ _ _ Hn)). cbn [tln_next]. destruct (Z.eqb_spec (behind tl ts) 0); [done|exact E].
Qed.

Lemma remtail_outcome h tl ts : tl_repr h tl ts -> Z.of_nat (length ts) < 2 ^ 32 -> outcome h tl ts (threadlist_remtail tl) (tl_spec RemTail ts).
Proof.
  intros Hr Hlen. destruct (get_end h tl ts Hr) as [[w Hh] [w' Ht]]. destruct ts as [|t ts _] using rev_ind.
  - destruct (empty_outcome h tl Hr) as (h' & E & Ho). exists h'. split; [|exact Ho]. unfold threadlist_remtail. rewrite (bind_ret _ _ _ _ _ (get_node_is _ _ _ Ht)). cbn [tln_prev before last]. by rewrite (bind_ret _ _ _ _ _ (get_node_is _ _ _ Hh)).
  - destruct (node_in h tl ts t [] Hr) as (Hn & Hne & _). destruct (taken_outcome h tl ts t [] Hr Hlen) as (h' & E & Ho). unfold tl_spec. rewrite last_snoc, removelast_last. rewrite app_nil_r in Ho. exists h'. split; [|exact Ho]. unfold threadlist_remtail.
    rewrite (bind_ret _ _ _ _ _ (get_node_is _ _ _ Ht)). cbn [tln_prev]. replace (before tl (ts ++ [t])) with (t_listnode t) by (unfold before; by rewrite last_snoc). rewrite (bind_ret _ _ _ _ _ (get_node_is _ _ _ Hn)). cbn [tln_prev]. destruct (Z.eqb_spec (before tl ts) 0); [done|exact E].
Qed.

Lemma remove_outcome h tl ts t : tl_repr h tl ts -> t ∈ ts -> Z.of_nat (length ts) < 2 ^ 32 -> outcome h tl ts (threadlist_remove tl t;; mret 0) (tl_spec (Remove t) ts).
Proof.
  intros Hr Ht Hlen. cbn [tl_spec]. destruct (put_at_is (fun _ => []) t ts Ht) as (l1 & l2 & -> & ->). destruct (taken_out h tl l1 t l2 Hr Hlen) as (h1 & h2 & H1 & H2 & _).
  destruct (taken_outcome h tl l1 t l2 Hr Hlen) as (h' & E & Ho). exists h'. split; [|exact Ho]. unfold threadlist_remove. rewrite (bind_ret _ _ _ _ _ H1), (bind_ret _ _ _ _ _ H2) in E.
  rewrite (bind_ret _ _ _ tt h2); [|by rewrite (bind_ret _ _ _ _ _ H1)]. unfold mbind, M_bind in E. unfold get_node, mbind, M_bind, get in E. destruct (deref _ _ h2) eqn:D; cbn in E; [|done..]. unfold deref in D. destruct (nodes h2 !! t_listnode t); [|done]. injection D as <- <-. cbn. unfold mret, M_ret in *. congruence.
Qed.

(** A list begins empty. *)
Lemma threadlist_init_repr h tl : tl <> 0 -> tl_tail tl <> 0 -> exists h', threadlist_init tl h = Done tt h' /\ tl_repr h' tl [] /\ threadlist_cleanup tl h' = Done tt h'.
Proof.
  intros H0 H1. eexists. split; [reflexivity|]. assert (tl_head tl <> tl_tail tl) by (unfold tl_head, tl_tail, SIZEOF_NODE; lia). split.
  - split; cbn.
    + split_and!; [node|node|done].
    + apply NoDup_cons. split; [by intros E%list_elem_of_singleton|apply NoDup_singleton].
    + rewrite !not_elem_of_cons. split_and!; [unfold tl_head; congruence|congruence|by intros ?%elem_of_nil..].
    + by rewrite lookup_insert_eq.
  - unfold threadlist_cleanup, threadlist_isempty, get_count, mbind, M_bind, get. cbn. rewrite lookup_insert_eq. cbn. by rewrite lookup_insert_eq.
Qed.

(** C18: every operation on a thread list does to the sequence of threads on it what its name
    says: it runs without fault, returns the thread taken out (NULL when the list is empty),
    the links and the count then represent the new sequence, every other list keeps its
    threads, and a thread that was on no list, or has left this one, is on none.  Two lists
    of one heap never need be assumed disjoint: the links make them so. *)
Theorem threadlist_refines h tl ts o : tl_repr h tl ts -> op_ok h ts o -> Z.of_nat (length ts) < 2 ^ 32 - 1 -> outcome h tl ts (run tl o) (tl_spec o ts).
Proof.
  intros Hr Ho Hlen. destruct o as [t|t| | |u t|t u|t]; cbn [op_ok] in Ho.
  - apply (added_outcome h tl [] ts t); auto.
  - pose proof (added_outcome h tl ts [] t (threadlist_insertbeforenode t (tl_tail tl))) as H. rewrite !app_nil_r in H. apply H; auto.
  - apply remhead_outcome; [done|lia].
  - apply remtail_outcome; [done|lia].
  - destruct Ho as [Ha Hu]. cbn [tl_spec]. destruct (put_at_is (fun x => [x; t]) u ts Hu) as (l1 & l2 & -> & ->). pose proof (added_outcome h tl (l1 ++ [u]) l2 t (threadlist_insertafternode (t_listnode u) t)) as H. rewrite <- !(assoc_L (++)) in H.
    apply H; auto. left. unfold before. by rewrite last_snoc.
  - destruct Ho as [Ha Hu]. cbn [tl_spec]. destruct (put_at_is (fun x => [t; x]) u ts Hu) as (l1 & l2 & -> & ->). apply (added_outcome h tl l1 (u :: l2) t); auto.
  - apply remove_outcome; [done|done|lia].
Qed.

End Threadlist.

(** A list at 0x1000 with the threads 0x2000 and 0x3000; [t_listnode] is 8 bytes into a thread. *)
Definition example_heap : heap :=
  mkHeap (<[0x1000 := mkTln 0 0x2008 0]> (<[0x2008 := mkTln 0x1000 0x3008 0x2000]> (<[0x3008 := mkTln 0x2008 0x100c 0x3000]> {[ 0x100c := mkTln 0x3008 0 0 ]}))) {[ 0x1000 := 2 ]}.

Lemma example_heap_repr : tl_repr 8 example_heap 0x1000 [0x2000; 0x3000].
Proof. split; [by split_and!|by apply (bool_decide_unpack _); vm_compute|split; by apply (bool_decide_unpack _); vm_compute|done]. Qed.

Lemma threadlist_refines_witness : outcome 8 example_heap 0x1000 [0x2000; 0x3000] (run 8 0x1000 RemHead) (0x2000, [0x3000]).
Proof. apply (threadlist_refines 8 example_heap 0x1000 [0x2000; 0x3000] RemHead); [exact example_heap_repr|exact I|cbn; lia]. Defined.

End Threadlist.
