(* ===== verification/Threads.v ===== *)
(** * kern/thread/thread.c: threads on several processors

    Processors interleave at the granularity of the run queue locks: each definition below
    that is a section runs with the locks it takes held throughout, or touches only what
    its processor alone touches.  Between two sections a processor is at a [place] of the
    code.  One lock is held across sections: [thread_switch] gives up the wait channel's
    spinlock before it sets [t_state], with the run queue still locked ([Switching]).

    Lists of threads are sequences here; threadlist.c implements them (Threadlist).  Wait
    channels are those of Synch.  Names of threads and channels are only printed and are
    left out; so are the saved registers, except whether they are the ones
    [switchframe_init] made, and [as_activate], which Addrspace models.  Interrupt levels
    and the spinlocks themselves are the subject of Spl; the spinlock of a wait channel is
    its user's, and orders the operations on the channel. *)
From S2P Require Import Prelude Wp Synch.
Import Synch.

Module Threads.

Inductive threadstate : Type := S_RUN | S_READY | S_SLEEP | S_ZOMBIE.
#[global] Instance threadstate_eq_dec : EqDecision threadstate.
Proof. solve_decision. Defined.

(** [t_stack]: the four words at the bottom of the stack, or NULL; [t_fresh]: it has not
    run, its context leads to [thread_startup]. *)
Record thread : Type := mkThread {
  t_state : threadstate; t_stack : option (list Z); t_cpu : option nat; t_proc : option Z; t_fresh : bool
}.
Definition set_state (x : threadstate) (t : thread) : thread := mkThread x (t_stack t) (t_cpu t) (t_proc t) (t_fresh t).
Definition set_stack (x : option (list Z)) (t : thread) : thread := mkThread (t_state t) x (t_cpu t) (t_proc t) (t_fresh t).
Definition set_tcpu (x : nat) (t : thread) : thread := mkThread (t_state t) (t_stack t) (Some x) (t_proc t) (t_fresh t).
Definition set_proc (x : option Z) (t : thread) : thread := mkThread (t_state t) (t_stack t) (t_cpu t) x (t_fresh t).
Definition set_fresh (x : bool) (t : thread) : thread := mkThread (t_state t) (t_stack t) (t_cpu t) (t_proc t) x.

(** Where a processor is between two sections. *)
Inductive place : Type :=
  | Normal                                              (* it runs its thread, interrupts on *)
  | Switching (newstate : threadstate)                  (* in [thread_switch], its thread queued *)
  | Waiting                                             (* in [wait] of [cpu_idle] *)
  | Woken                                               (* behind [wait]: interrupts are let in *)
  | Waking (list : list tid)                            (* threads off a channel, to make runnable *)
  | Counting (i : nat) (my_count total_count : Z)       (* in [thread_consider_migration]: its loops *)
  | Taking (one_share to_send : Z)
  | Sending (i : nat) (one_share to_send : Z) (victims : list tid)
  | Returning (victims : list tid)
  | Yielding                                            (* in [hardclock], before [thread_yield] *)
  | Clearing                                            (* behind [interprocessor_interrupt] *)
  | Halted.

#[global] Instance place_eq_dec : EqDecision place.
Proof. solve_decision. Defined.

(** [c_shootdown]: the first [c_numshootdown] entries; [c_ipi_line]: the interrupt line. *)
Record cpu : Type := mkCpu {
  c_curthread : tid; c_zombies : list tid; c_hardclocks : Z; c_isidle : bool; c_runqueue : list tid;
  c_ipi_pending : Z; c_shootdown : list Z; c_ipi_line : bool; c_place : place
}.
Definition set_cur (x : tid) (c : cpu) : cpu := mkCpu x (c_zombies c) (c_hardclocks c) (c_isidle c) (c_runqueue c) (c_ipi_pending c) (c_shootdown c) (c_ipi_line c) (c_place c).
Definition set_zombies (x : list tid) (c : cpu) : cpu := mkCpu (c_curthread c) x (c_hardclocks c) (c_isidle c) (c_runqueue c) (c_ipi_pending c) (c_shootdown c) (c_ipi_line c) (c_place c).
Definition set_hardclocks (x : Z) (c : cpu) : cpu := mkCpu (c_curthread c) (c_zombies c) x (c_isidle c) (c_runqueue c) (c_ipi_pending c) (c_shootdown c) (c_ipi_line c) (c_place c).
Definition set_isidle (x : bool) (c : cpu) : cpu := mkCpu (c_curthread c) (c_zombies c) (c_hardclocks c) x (c_runqueue c) (c_ipi_pending c) (c_shootdown c) (c_ipi_line c) (c_place c).
Definition set_runqueue (x : list tid) (c : cpu) : cpu := mkCpu (c_curthread c) (c_zombies c) (c_hardclocks c) (c_isidle c) x (c_ipi_pending c) (c_shootdown c) (c_ipi_line c) (c_place c).
Definition set_pending (x : Z) (c : cpu) : cpu := mkCpu (c_curthread c) (c_zombies c) (c_hardclocks c) (c_isidle c) (c_runqueue c) x (c_shootdown c) (c_ipi_line c) (c_place c).
Definition set_shootdown (x : list Z) (c : cpu) : cpu := mkCpu (c_curthread c) (c_zombies c) (c_hardclocks c) (c_isidle c) (c_runqueue c) (c_ipi_pending c) x (c_ipi_line c) (c_place c).
Definition set_line (x : bool) (c : cpu) : cpu := mkCpu (c_curthread c) (c_zombies c) (c_hardclocks c) (c_isidle c) (c_runqueue c) (c_ipi_pending c) (c_shootdown c) x (c_place c).
Definition set_place (x : place) (c : cpu) : cpu := mkCpu (c_curthread c) (c_zombies c) (c_hardclocks c) (c_isidle c) (c_runqueue c) (c_ipi_pending c) (c_shootdown c) (c_ipi_line c) x.

(** The threads in the kernel heap, [allcpus], the wait channels, and [p_numthreads] of
    the processes. *)
Record sys : Type := mkSys { threads : gmap tid thread; allcpus : list cpu; wchans : gmap Z (list tid); numthreads : gmap Z Z }.
Definition set_threads (x : gmap tid thread) (s : sys) : sys := mkSys x (allcpus s) (wchans s) (numthreads s).
Definition set_allcpus (x : list cpu) (s : sys) : sys := mkSys (threads s) x (wchans s) (numthreads s).
Definition set_wchans (x : gmap Z (list tid)) (s : sys) : sys := mkSys (threads s) (allcpus s) x (numthreads s).
Definition set_numthreads (x : gmap Z Z) (s : sys) : sys := mkSys (threads s) (allcpus s) (wchans s) x.

Definition get_cpu (c : nat) : M sys cpu := s ← get; deref "struct cpu" (allcpus s !! c).
Definition put_cpu (c : nat) (k : cpu) : M sys unit := modify (fun s => set_allcpus (<[c := k]> (allcpus s)) s).
Definition on_cpu (c : nat) (f : cpu -> cpu) : M sys unit := k ← get_cpu c; put_cpu c (f k).
Definition get_thread (t : tid) : M sys thread := s ← get; deref "struct thread" (threads s !! t).
Definition put_thread (t : tid) (th : thread) : M sys unit := modify (fun s => set_threads (<[t := th]> (threads s)) s).
Definition on_thread (t : tid) (f : thread -> thread) : M sys unit := th ← get_thread t; put_thread t (f th).
Definition goto (c : nat) (p : place) : M sys unit := on_cpu c (set_place p).

(** Back from an interrupt handler. *)
Definition resume (c : nat) : M sys unit := on_cpu c (fun k => set_place (if c_isidle k then Woken else Normal) k).

(** ** Interprocessor interrupts *)

Definition IPI_PANIC : Z := 0.
Definition IPI_OFFLINE : Z := 1.
Definition IPI_UNIDLE : Z := 2.
Definition IPI_TLBSHOOTDOWN : Z := 3.
Definition TLBSHOOTDOWN_MAX : Z := 16.

Definition mainbus_send_ipi (target : nat) : M sys unit := on_cpu target (set_line true).
Definition lamebus_clear_ipi (target : nat) : M sys unit := on_cpu target (set_line false).

Definition ipi_send (target : nat) (code : Z) : M sys unit :=
  kassert "code >= 0 && code < 32" ((0 <=? code) && (code <? 32));;
  on_cpu target (fun k => set_pending (Z.lor (c_ipi_pending k) (Z.shiftl 1 code)) k);;
  mainbus_send_ipi target.

Fixpoint ipi_broadcast_loop (c : nat) (code : Z) (i n : nat) : M sys unit :=
  match n with
  | O => mret tt
  | S n => (if bool_decide (i = c) then mret tt else ipi_send i code);; ipi_broadcast_loop c code (S i) n
  end.
Definition ipi_broadcast (c : nat) (code : Z) : M sys unit := n ← gets (fun s => length (allcpus s)); ipi_broadcast_loop c code 0 n.

Definition ipi_tlbshootdown (target : nat) (mapping : Z) : M sys unit :=
  k ← get_cpu target;
  (if Z.of_nat (length (c_shootdown k)) =? TLBSHOOTDOWN_MAX then panic "ipi_tlbshootdown: Too many shootdowns queued"
   else put_cpu target (set_shootdown (c_shootdown k ++ [mapping]) k));;
  on_cpu target (fun k => set_pending (Z.lor (c_ipi_pending k) (Z.shiftl 1 IPI_TLBSHOOTDOWN)) k);;
  mainbus_send_ipi target.

(** [vm_tlbshootdown] of kern/vm/vm.c does nothing. *)
Definition interprocessor_interrupt (c : nat) : M sys unit :=
  k ← get_cpu c;
  let bits := c_ipi_pending k in
  if Z.testbit bits IPI_PANIC then goto c Halted
  else if Z.testbit bits IPI_OFFLINE then goto c Halted
  else
    (if Z.testbit bits IPI_TLBSHOOTDOWN then on_cpu c (set_shootdown []) else mret tt);;
    on_cpu c (set_pending 0);;
    goto c Clearing.

(** [mainbus_interrupt] clears the line when the handler is done. *)
Definition interrupt_clear (c : nat) : M sys unit := lamebus_clear_ipi c;; resume c.

(** ** Creating and destroying threads *)

Definition THREAD_STACK_MAGIC : Z := 0xbaadf00d.

Definition thread_checkstack_init (t : tid) : M sys unit :=
  on_thread t (set_stack (Some [THREAD_STACK_MAGIC; THREAD_STACK_MAGIC; THREAD_STACK_MAGIC; THREAD_STACK_MAGIC])).

Definition stack_word (i : nat) (ws : list Z) : M sys unit := kassert "((uint32_t*)thread->t_stack)[i] == THREAD_STACK_MAGIC" (bool_decide (ws !! i = Some THREAD_STACK_MAGIC)).
Definition thread_checkstack (t : tid) : M sys unit :=
  th ← get_thread t;
  match t_stack th with
  | None => mret tt
  | Some ws => stack_word 0 ws;; stack_word 1 ws;; stack_word 2 ws;; stack_word 3 ws
  end.

(** [a]: what [kmalloc] returns for the structure; [named]: whether [kstrdup] succeeds. *)
Definition thread_create (a : option tid) (named : bool) : M sys (option tid) :=
  match a with
  | None => mret None
  | Some t => if named then put_thread t (mkThread S_READY None None None true);; mret (Some t) else mret None
  end.

(** The threads on the lists of a processor, and the ones it is moving between lists. *)
Definition in_hand (p : place) : list tid :=
  match p with Waking l => l | Sending _ _ _ l => l | Returning l => l | _ => [] end.
Definition lists (s : sys) : list tid :=
  concat ((fun k => c_runqueue k ++ c_zombies k ++ in_hand (c_place k)) <$> allcpus s) ++ concat (map_to_list (wchans s)).*2.

(** [threadlistnode_cleanup] asserts that the thread is on no list. *)
Definition threadlistnode_cleanup (t : tid) : M sys unit :=
  s ← get; kassert "tln->tln_next == NULL && tln->tln_prev == NULL" (bool_decide (t ∉ lists s)).

Definition thread_destroy (c : nat) (t : tid) : M sys unit :=
  k ← get_cpu c;
  kassert "thread != curthread" (negb (bool_decide (t = c_curthread k)));;
  th ← get_thread t;
  kassert "thread->t_state != S_RUN" (negb (bool_decide (t_state th = S_RUN)));;
  kassert "thread->t_proc == NULL" (bool_decide (t_proc th = None));;
  threadlistnode_cleanup t;;
  modify (fun s => set_threads (delete t (threads s)) s).

Fixpoint exorcise_loop (c : nat) (fuel : nat) : M sys unit :=
  match fuel with
  | O => fun _ => OutOfFuel
  | S fuel =>
      k ← get_cpu c;
      match c_zombies k with
      | [] => mret tt
      | z :: zs =>
          put_cpu c (set_zombies zs k);;
          kassert "z != curthread" (negb (bool_decide (z = c_curthread k)));;
          th ← get_thread z;
          kassert "z->t_state == S_ZOMBIE" (bool_decide (t_state th = S_ZOMBIE));;
          thread_destroy c z;;
          exorcise_loop c fuel
      end
  end.
Definition exorcise (c : nat) : M sys unit := k ← get_cpu c; exorcise_loop c (S (length (c_zombies k))).

(** [proc_addthread] and [proc_remthread] of kern/proc/proc.c *)
Definition proc_addthread (p : Z) (t : tid) : M sys Z :=
  th ← get_thread t;
  kassert "t->t_proc == NULL" (bool_decide (t_proc th = None));;
  s ← get;
  n ← deref "struct proc" (numthreads s !! p);
  modify (fun s => set_numthreads (<[p := u32 (n + 1)]> (numthreads s)) s);;
  on_thread t (set_proc (Some p));;
  mret 0.

Definition proc_remthread (t : tid) : M sys unit :=
  th ← get_thread t;
  kassert "proc != NULL" (negb (bool_decide (t_proc th = None)));;
  p ← deref "proc" (t_proc th);
  s ← get;
  n ← deref "struct proc" (numthreads s !! p);
  kassert "proc->p_numthreads > 0" (0 <? n);;
  modify (fun s => set_numthreads (<[p := n - 1]> (numthreads s)) s);;
  on_thread t (set_proc None).

(** ** Run queues *)

Definition thread_make_runnable (c : nat) (target : tid) (already_have_lock : bool) : M sys unit :=
  th ← get_thread target;
  targetcpu ← deref "target->t_cpu" (t_cpu th);
  (if already_have_lock then kassert "spinlock_do_i_hold(&targetcpu->c_runqueue_lock)" (bool_decide (targetcpu = c)) else mret tt);;
  put_thread target (set_state S_READY th);;
  on_cpu targetcpu (fun k => set_runqueue (c_runqueue k ++ [target]) k);;
  k ← get_cpu targetcpu;
  if c_isidle k && negb (bool_decide (targetcpu = c)) then ipi_send targetcpu IPI_UNIDLE else mret tt.

(** [a], [named], [stack]: what the allocator returns; [proc]: NULL for the caller's. *)
Definition thread_fork (c : nat) (a : option tid) (named : bool) (stack : option (list Z)) (proc : option Z) : M sys Z :=
  k ← get_cpu c;
  o ← thread_create a named;
  match o with
  | None => mret ENOMEM
  | Some newthread =>
      on_thread newthread (set_stack stack);;
      match stack with
      | None => thread_destroy c newthread;; mret ENOMEM
      | Some _ =>
          thread_checkstack_init newthread;;
          cur ← get_thread (c_curthread k);
          mycpu ← deref "curthread->t_cpu" (t_cpu cur);
          on_thread newthread (set_tcpu mycpu);;
          p ← deref "proc" (match proc with Some p => Some p | None => t_proc cur end);
          result ← proc_addthread p newthread;
          if negb (result =? 0) then thread_destroy c newthread;; mret result
          else
            thread_make_runnable c newthread false;;
            mret 0
      end
  end.

(** ** The switch *)

(** Behind [switchframe_switch], or in [thread_startup] up to its call of [spl0], on the stack
    of the next thread. *)
Definition switch_in (c : nat) : M sys unit :=
  k ← get_cpu c;
  on_thread (c_curthread k) (set_state S_RUN);;
  exorcise c.
Definition thread_startup (c : nat) : M sys unit :=
  k ← get_cpu c;
  on_thread (c_curthread k) (fun th => set_fresh false (set_state S_RUN th));;
  exorcise c.

(** The loop that looks for the next thread, once: with the run queue locked, again before
    [cpu_idle]. *)
Definition switch_pick (c : nat) : M sys unit :=
  k ← get_cpu c;
  match c_runqueue k with
  | [] => goto c Waiting
  | next :: rq =>
      put_cpu c (set_place Normal (set_cur next (set_isidle false (set_runqueue rq k))));;
      th ← get_thread next;
      if t_fresh th then thread_startup c else switch_in c
  end.

(** From [cur->t_state = newstate] on. *)
Definition switch_end (c : nat) (newstate : threadstate) : M sys unit :=
  k ← get_cpu c;
  on_thread (c_curthread k) (set_state newstate);;
  on_cpu c (set_isidle true);;
  switch_pick c.

(** Up to there; [wc] is the channel of S_SLEEP. *)
Definition thread_switch (c : nat) (newstate : threadstate) (wc : Z) : M sys unit :=
  k ← get_cpu c;
  let cur := c_curthread k in
  if c_isidle k then resume c
  else
    thread_checkstack cur;;
    if bool_decide (newstate = S_READY) && bool_decide (c_runqueue k = []) then resume c
    else
      match newstate with
      | S_RUN => panic "Illegal S_RUN in thread_switch"
      | S_READY => thread_make_runnable c cur true
      | S_SLEEP => modify (fun s => set_wchans (<[wc := wchan_sleep cur (default [] (wchans s !! wc))]> (wchans s)) s)
      | S_ZOMBIE => put_cpu c (set_zombies (c_zombies k ++ [cur]) k)
      end;;
      goto c (Switching newstate).

Definition thread_yield (c : nat) : M sys unit := thread_switch c S_READY 0.

(** [thread_exit], up to the first assertion and from there; an interrupt can come between. *)
Definition thread_exit_detach (c : nat) : M sys unit := k ← get_cpu c; proc_remthread (c_curthread k).
Definition thread_exit (c : nat) : M sys unit :=
  k ← get_cpu c;
  th ← get_thread (c_curthread k);
  kassert "cur->t_proc == NULL" (bool_decide (t_proc th = None));;
  thread_checkstack (c_curthread k);;
  thread_switch c S_ZOMBIE 0.

(** ** Wait channels *)

Definition sleep_on (c : nat) (wc : Z) : M sys unit := thread_switch c S_SLEEP wc.

Definition wakeone (c : nat) (wc : Z) : M sys unit :=
  s ← get;
  let '(target, rest) := wchan_wakeone (default [] (wchans s !! wc)) in
  match target with
  | None => mret tt
  | Some t => modify (set_wchans (<[wc := rest]> (wchans s)));; goto c (Waking [t])
  end.

Definition wakeall (c : nat) (wc : Z) : M sys unit :=
  s ← get;
  let '(targets, rest) := wchan_wakeall (default [] (wchans s !! wc)) in
  modify (set_wchans (<[wc := rest]> (wchans s)));;
  goto c (Waking targets).

(** The next thread of the private list is made runnable. *)
Definition wake_next (c : nat) (l : list tid) : M sys unit :=
  match l with
  | [] => resume c
  | t :: l => thread_make_runnable c t false;; goto c (Waking l)
  end.

(** ** Migration and the clock *)

Definition MIGRATE_HARDCLOCKS : Z := 16.

Definition migrate_count (c i : nat) (my_count total_count : Z) : M sys unit :=
  n ← gets (fun s => length (allcpus s));
  if bool_decide (i < n)%nat then
    k ← get_cpu i;
    let count := Z.of_nat (length (c_runqueue k)) in
    goto c (Counting (S i) (if bool_decide (i = c) then count else my_count) (u32 (total_count + count)))
  else
    let one_share := DIVROUNDUP total_count (Z.of_nat n) in
    if my_count <? one_share then goto c Yielding
    else goto c (Taking one_share (my_count - one_share)).

Fixpoint take_loop (c : nat) (n : nat) (victims : list tid) : M sys (list tid) :=
  match n with
  | O => mret victims
  | S n =>
      k ← get_cpu c;
      t ← deref "threadlist_remtail" (last (c_runqueue k));
      put_cpu c (set_runqueue (removelast (c_runqueue k)) k);;
      take_loop c n (t :: victims)
  end.
Definition migrate_take (c : nat) (one_share to_send : Z) : M sys unit :=
  victims ← take_loop c (Z.to_nat to_send) [];
  goto c (Sending 0 one_share to_send victims).

(** The inner loop, on the processor [i]; every pass takes one from [to_send]. *)
Fixpoint send_loop (c i : nat) (one_share : Z) (to_send : nat) (victims : list tid) : M sys (nat * list tid) :=
  match to_send with
  | O => mret (O, victims)
  | S n =>
      k ← get_cpu i;
      if Z.of_nat (length (c_runqueue k)) <? one_share then
        me ← get_cpu c;
        t ← deref "threadlist_remhead" (head victims);
        let victims := tail victims in
        if bool_decide (t = c_curthread me) then send_loop c i one_share n (victims ++ [t])
        else
          on_thread t (set_tcpu i);;
          put_cpu i (set_runqueue (c_runqueue k ++ [t]) k);;
          (if c_isidle k then ipi_send i IPI_UNIDLE else mret tt);;
          send_loop c i one_share n victims
      else mret (S n, victims)
  end.
Definition migrate_send (c i : nat) (one_share to_send : Z) (victims : list tid) : M sys unit :=
  n ← gets (fun s => length (allcpus s));
  if bool_decide (i < n)%nat && (0 <? to_send) then
    if bool_decide (i = c) then goto c (Sending (S i) one_share to_send victims)
    else
      '(to_send, victims) ← send_loop c i one_share (Z.to_nat to_send) victims;
      goto c (Sending (S i) one_share (Z.of_nat to_send) victims)
  else goto c (Returning victims).

(** The leftovers go back. *)
Definition migrate_return (c : nat) (victims : list tid) : M sys unit :=
  on_cpu c (fun k => set_runqueue (c_runqueue k ++ victims) k);;
  goto c Yielding.

(** [schedule] does nothing. *)
Definition hardclock (c : nat) : M sys unit :=
  k ← get_cpu c;
  let n := u32 (c_hardclocks k + 1) in
  put_cpu c (set_hardclocks n k);;
  if n mod MIGRATE_HARDCLOCKS =? 0 then goto c (Counting 0 0 0) else goto c Yielding.

(** [timerclock]: everything that waits on [lbolt] is awakened. *)
Definition timerclock (c : nat) (lbolt : Z) : M sys unit := wakeall c lbolt.

(** ** Starting and stopping *)

(** The structure of the processor joins [allcpus] with its first thread in it. *)
Definition cpu_create (a : option tid) (named : bool) (stack : option (list Z)) (kproc : Z) : M sys nat :=
  o ← thread_create a named;
  match o with
  | None => panic "cpu_create: thread_create failed"
  | Some t =>
      c ← gets (fun s => length (allcpus s));
      modify (fun s => set_allcpus (allcpus s ++ [mkCpu t [] 0 false [] 0 [] false Normal]) s);;
      on_thread t (set_tcpu c);;
      (if bool_decide (c = 0%nat) then mret tt
       else
         match stack with
         | None => panic "cpu_create: couldn't allocate stack"
         | Some _ => on_thread t (set_stack stack);; thread_checkstack_init t
         end);;
      on_thread t (set_fresh false);; (* it is running, or starts in [cpu_start_secondary] *)
      result ← proc_addthread kproc t;
      if negb (result =? 0) then panic "cpu_create: proc_addthread" else mret c
  end.

Definition thread_bootstrap (a : option tid) (kproc : Z) : M sys unit :=
  modify (set_allcpus []);;
  c ← cpu_create a true None kproc;
  k ← get_cpu c;
  th ← get_thread (c_curthread k);
  kassert "curthread->t_proc == kproc" (bool_decide (t_proc th = Some kproc)).

Definition thread_shutdown (c : nat) : M sys unit := ipi_broadcast c IPI_OFFLINE.
Definition thread_panic (c : nat) : M sys unit :=
  ipi_broadcast c IPI_PANIC;;
  on_cpu c (set_runqueue []).

End Threads.
