(* ===== verification/ThreadsProofs.v ===== *)
(** * The steps of the processors and their invariant

    [step]: one section of one processor, when it can run.  [inv]: every thread is in one
    place, with the state, the processor and the process that go with the place; nobody
    waits in [cpu_idle] for work that is there. *)
From S2P Require Import Prelude Wp Synch Threads.
Import Synch Threads.

Module ThreadsInv.

(** ** Steps *)

Inductive action : Type :=
  | Fork (a : option tid) (named : bool) (stack : option (list Z)) (proc : option Z)
  | Yield | Sleep (wc : Z) | Detach | Exit | Switch | WakeOne (wc : Z) | WakeAll (wc : Z) | WakeNext
  | Interrupted | Retry | Clock | Count | Take | Send | GiveBack | ClockYield | Ipi | IpiDone | Shutdown.

Definition run (c : nat) (a : action) : M sys unit :=
  k ← get_cpu c;
  match a, c_place k with
  | Fork a named stack proc, _ => _ ← thread_fork c a named stack proc; mret tt
  | Yield, _ => thread_yield c
  | Sleep wc, _ => sleep_on c wc
  | Detach, _ => thread_exit_detach c
  | Exit, _ => thread_exit c
  | Switch, Switching newstate => switch_end c newstate
  | WakeOne wc, _ => wakeone c wc
  | WakeAll wc, _ => wakeall c wc
  | WakeNext, Waking l => wake_next c l
  | Interrupted, _ => goto c Woken
  | Retry, _ => switch_pick c
  | Clock, _ => hardclock c
  | Count, Counting i my_count total_count => migrate_count c i my_count total_count
  | Take, Taking one_share to_send => migrate_take c one_share to_send
  | Send, Sending i one_share to_send victims => migrate_send c i one_share to_send victims
  | GiveBack, Returning victims => migrate_return c victims
  | ClockYield, _ => thread_yield c
  | Ipi, _ => interprocessor_interrupt c
  | IpiDone, _ => interrupt_clear c
  | Shutdown, _ => thread_shutdown c
  | _, _ => halt (Undefined "not there")
  end.

(** The run queue of a processor is locked across sections only while it switches. *)
Definition unlocked (s : sys) (c : nat) : Prop := forall k ns, allcpus s !! c = Some k -> c_place k <> Switching ns.

(** Only a thread that has a process does anything but exit; only a fresh block of memory
    becomes a thread; a 32-bit memory has room for less than 2^32 threads. *)
Definition proc_of (s : sys) (k : cpu) : option Z := threads s !! c_curthread k ≫= t_proc.
Definition can (s : sys) (c : nat) (k : cpu) (a : action) : Prop :=
  match a, c_place k with
  | Fork a _ _ p, Normal => is_Some (proc_of s k) /\ (forall t, a = Some t -> threads s !! t = None) /\ (forall q, p = Some q -> is_Some (numthreads s !! q)) /\ Z.of_nat (size (threads s)) < 2 ^ 32 - 1
  | Yield, Normal => True
  | Sleep _, Normal => is_Some (proc_of s k)
  | Detach, Normal => is_Some (proc_of s k)
  | Exit, Normal => proc_of s k = None
  | Switch, Switching _ => True
  | WakeOne _, (Normal | Woken) => True
  | WakeAll _, (Normal | Woken) => True
  | WakeNext, Waking l => forall t th c', head l = Some t -> threads s !! t = Some th -> t_cpu th = Some c' -> unlocked s c'
  | Interrupted, Waiting => True
  | Retry, Woken => True
  | Clock, (Normal | Woken) => True
  | Count, Counting i _ _ => unlocked s i
  | Take, Taking _ _ => True
  | Send, Sending i _ _ _ => unlocked s i
  | GiveBack, Returning _ => True
  | ClockYield, Yielding => True
  | Ipi, (Normal | Woken) => c_ipi_line k = true
  | IpiDone, Clearing => True
  | Shutdown, Normal => True
  | _, _ => False
  end.
Definition enabled (s : sys) (c : nat) (a : action) : Prop := exists k, allcpus s !! c = Some k /\ can s c k a.

Inductive step (s s' : sys) : Prop := Step (c : nat) (a : action) : enabled s c a -> run c a s = Done tt s' -> step s s'.

(** ** The invariant *)

Definition running (k : cpu) : bool := negb (c_isidle k) && match c_place k with Switching _ => false | _ => true end.

(** The threads a processor has: the one it runs, those on its lists, those in its hand. *)
Definition occupants (k : cpu) : list tid := (if running k then [c_curthread k] else []) ++ c_runqueue k ++ c_zombies k ++ in_hand (c_place k).
Definition everywhere (s : sys) : list tid := concat (occupants <$> allcpus s) ++ concat (map_to_list (wchans s)).*2.

Definition is_thread (T : gmap tid thread) (P : thread -> Prop) (t : tid) : Prop := exists th, T !! t = Some th /\ P th.

Definition ready_on (c : nat) (th : thread) : Prop := t_state th = S_READY /\ t_cpu th = Some c.
Definition dead_on (k : cpu) (c : nat) (t : tid) (th : thread) : Prop :=
  t_cpu th = Some c /\ t_proc th = None /\ (t_state th = S_ZOMBIE \/ t = c_curthread k /\ c_place k = Switching S_ZOMBIE).

(** The processor of [t] is about to set the state of [t] to S_SLEEP. *)
Definition lags (cs : list cpu) (c : nat) (t : tid) : Prop := exists k, cs !! c = Some k /\ c_curthread k = t /\ c_place k = Switching S_SLEEP.
Definition asleep (cs : list cpu) (t : tid) (th : thread) : Prop :=
  exists c, t_cpu th = Some c /\ (c < length cs)%nat /\ (t_state th = S_SLEEP \/ lags cs c t).

Definition place_ok (T : gmap tid thread) (cs : list cpu) (c : nat) (k : cpu) : Prop :=
  match c_place k with
  | Normal => c_isidle k = false
  | Switching S_RUN => False
  | Switching S_READY => c_curthread k ∈ c_runqueue k
  | Switching S_SLEEP => c_curthread k ∉ c_runqueue k /\ c_curthread k ∉ c_zombies k
  | Switching S_ZOMBIE => c_curthread k ∈ c_zombies k
  | Waiting => c_isidle k = true /\ (c_runqueue k = [] \/ c_ipi_line k = true /\ Z.testbit (c_ipi_pending k) IPI_UNIDLE = true)
  | Woken => c_isidle k = true
  | Waking l => forall t, t ∈ l -> is_thread T (asleep cs t) t
  | Counting _ my_count _ => 0 <= my_count <= Z.of_nat (length (c_runqueue k))
  | Taking _ to_send => 0 <= to_send <= Z.of_nat (length (c_runqueue k))
  | Sending _ _ to_send victims => 0 <= to_send <= Z.of_nat (length victims) /\ forall t, t ∈ victims -> is_thread T (ready_on c) t
  | Returning victims => forall t, t ∈ victims -> is_thread T (ready_on c) t
  | Yielding | Clearing | Halted => True
  end.

Record cpu_ok (T : gmap tid thread) (cs : list cpu) (c : nat) (k : cpu) : Prop := {
  ok_cur : is_thread T (fun th => t_cpu th = Some c /\ (running k = true -> t_state th = S_RUN \/ t_state th = S_READY)) (c_curthread k);
  ok_queue : forall t, t ∈ c_runqueue k -> is_thread T (ready_on c) t;
  ok_zombies : forall t, t ∈ c_zombies k -> is_thread T (dead_on k c t) t;
  ok_place : place_ok T cs c k
}.

Definition magic_stack (th : thread) : Prop :=
  t_stack th = None \/ t_stack th = Some [THREAD_STACK_MAGIC; THREAD_STACK_MAGIC; THREAD_STACK_MAGIC; THREAD_STACK_MAGIC].

(** The threads of a process. *)
Definition of_proc (T : gmap tid thread) (p : Z) : gmap tid thread := filter (fun x => t_proc x.2 = Some p) T.

(** [H]: the threads a section has in its hands. *)
Record inv (H : list tid) (s : sys) : Prop := {
  i_perm : everywhere s ++ H ≡ₚ (map_to_list (threads s)).*1;
  i_cpus : forall c k, allcpus s !! c = Some k -> cpu_ok (threads s) (allcpus s) c k;
  i_wchans : forall w l t, wchans s !! w = Some l -> t ∈ l -> is_thread (threads s) (asleep (allcpus s) t) t;
  i_stacks : forall t th, threads s !! t = Some th -> magic_stack th;
  i_procs : forall t th p, threads s !! t = Some th -> t_proc th = Some p -> is_Some (numthreads s !! p);
  i_count : forall p n, numthreads s !! p = Some n -> n = Z.of_nat (size (of_proc (threads s) p));
  i_size : Z.of_nat (size (threads s)) < 2 ^ 32
}.

End ThreadsInv.

(** * The invariant of the processors under changes of one processor, thread or channel *)
Import Synch Threads ThreadsInv.

Module ThreadsProofs.

(** ** Where threads are *)

Lemma concat_insert (f : cpu -> list tid) cs c k k' : cs !! c = Some k -> concat (f <$> <[c := k']> cs) ++ f k ≡ₚ concat (f <$> cs) ++ f k'.
Proof.
  revert c. induction cs as [|x cs IH]; intros [|c] Hc; cbn in *; [done|done| |].
  - injection Hc as ->. solve_Permutation.
  - rewrite <- !(assoc_L (++)). by rewrite (IH c Hc).
Qed.

Lemma wchans_insert (m : gmap Z (list tid)) w l : concat (map_to_list (<[w := l]> m)).*2 ++ default [] (m !! w) ≡ₚ concat (map_to_list m).*2 ++ l.
Proof.
  destruct (m !! w) as [l0|] eqn:E; cbn.
  - rewrite <- (insert_delete_id m w l0 E) at 2. rewrite <- insert_delete_eq. rewrite !map_to_list_insert by apply lookup_delete_eq. cbn. solve_Permutation.
  - rewrite app_nil_r, map_to_list_insert by done. cbn. apply (comm (++)).
Qed.

Lemma inv_nodup H s : inv H s -> NoDup (everywhere s ++ H).
Proof. intros Hi. rewrite (i_perm _ _ Hi). apply NoDup_fst_map_to_list. Qed.

Lemma inv_thread_at H s t : inv H s -> t ∈ everywhere s ++ H -> is_Some (threads s !! t).
Proof.
  intros Hi Ht. rewrite (i_perm _ _ Hi), list_elem_of_fmap in Ht. destruct Ht as ([u th] & -> & Hin). apply elem_of_map_to_list in Hin. cbn. eauto.
Qed.

Lemma in_everywhere s c k t : allcpus s !! c = Some k -> t ∈ occupants k -> t ∈ everywhere s.
Proof.
  intros Hc Ht. unfold everywhere. rewrite elem_of_app. left. apply list_elem_of_In, in_concat. exists (occupants k). rewrite <- !list_elem_of_In. split; [|done].
  apply list_elem_of_fmap. exists k. split; [done|]. by eapply list_elem_of_lookup_2.
Qed.
Lemma in_wchan s w l t : wchans s !! w = Some l -> t ∈ l -> t ∈ concat (map_to_list (wchans s)).*2.
Proof.
  intros Hw Ht. apply list_elem_of_In, in_concat. exists l. rewrite <- !list_elem_of_In. split; [|done]. apply list_elem_of_fmap. exists (w, l). split; [done|]. by apply elem_of_map_to_list.
Qed.

Section Places.
Context (H : list tid) (s : sys) (Hi : inv H s).

(** A processor has a thread once, and no other processor, channel or hand has it. *)
Lemma occ_split c k : allcpus s !! c = Some k -> exists R, everywhere s ≡ₚ occupants k ++ R ++ concat (map_to_list (wchans s)).*2 /\
  forall c' k', c' <> c -> allcpus s !! c' = Some k' -> occupants k' ⊆ R.
Proof.
  intros Hc. exists (concat (occupants <$> take c (allcpus s)) ++ concat (occupants <$> drop (S c) (allcpus s))). split.
  - unfold everywhere. rewrite <- (take_drop_middle (allcpus s) c k Hc) at 1. rewrite fmap_app, concat_app. cbn. solve_Permutation.
  - intros c' k' Hne Hc' t Ht. rewrite elem_of_app. assert (Hlt : (c' < length (allcpus s))%nat) by (by eapply lookup_lt_Some). destruct (decide (c' < c)%nat).
    + left. apply list_elem_of_In, in_concat. exists (occupants k'). rewrite <- !list_elem_of_In. split; [|done]. apply list_elem_of_fmap. exists k'. split; [done|].
      apply (list_elem_of_lookup_2 _ c'). by rewrite lookup_take_lt.
    + right. apply list_elem_of_In, in_concat. exists (occupants k'). rewrite <- !list_elem_of_In. split; [|done]. apply list_elem_of_fmap. exists k'. split; [done|].
      apply (list_elem_of_lookup_2 _ (c' - S c)%nat). rewrite lookup_drop. by replace (S c + (c' - S c))%nat with c' by lia.
Qed.

Lemma occ_nodup c k : allcpus s !! c = Some k -> NoDup (occupants k).
Proof.
  intros Hc. destruct (occ_split c k Hc) as (R & Hp & _). pose proof (inv_nodup H s Hi) as Hn. rewrite Hp, <- !(assoc_L (++)) in Hn. by apply NoDup_app in Hn as [? _].
Qed.
Lemma occ_same c k c' k' t : allcpus s !! c = Some k -> allcpus s !! c' = Some k' -> t ∈ occupants k -> t ∈ occupants k' -> c' = c.
Proof.
  intros Hc Hc' Ht Ht'. destruct (decide (c' = c)) as [|Hne]; [done|]. destruct (occ_split c k Hc) as (R & Hp & HR). specialize (HR c' k' Hne Hc' t Ht').
  pose proof (inv_nodup H s Hi) as Hn. rewrite Hp, <- !(assoc_L (++)) in Hn. apply NoDup_app in Hn as (_ & Hd & _). exfalso. apply (Hd t Ht). rewrite elem_of_app. by left.
Qed.
Lemma occ_not_wchan c k t w l : allcpus s !! c = Some k -> t ∈ occupants k -> wchans s !! w = Some l -> t ∉ l.
Proof.
  intros Hc Ht Hw Hl. destruct (occ_split c k Hc) as (R & Hp & _). pose proof (inv_nodup H s Hi) as Hn. rewrite Hp, <- !(assoc_L (++)) in Hn.
  apply NoDup_app in Hn as (_ & Hd & _). apply (Hd t Ht). rewrite !elem_of_app. right; left. by eapply in_wchan.
Qed.
Lemma hand_not_occ c k t : t ∈ H -> allcpus s !! c = Some k -> t ∉ occupants k.
Proof.
  intros Ht Hc Hin. pose proof (inv_nodup H s Hi) as Hn. apply NoDup_app in Hn as (_ & Hd & _). apply (Hd t); [by eapply in_everywhere|done].
Qed.
Lemma hand_not_wchan t w l : t ∈ H -> wchans s !! w = Some l -> t ∉ l.
Proof.
  intros Ht Hw Hl. pose proof (inv_nodup H s Hi) as Hn. apply NoDup_app in Hn as (_ & Hd & _). apply (Hd t); [|done]. unfold everywhere. rewrite elem_of_app. right. by eapply in_wchan.
Qed.
End Places.

Lemma occ_cur k : running k = true -> c_curthread k ∈ occupants k.
Proof. intros Hr. unfold occupants. rewrite Hr. cbn. left. Qed.
Lemma occ_queue k t : t ∈ c_runqueue k -> t ∈ occupants k.
Proof. intros Ht. unfold occupants. rewrite !elem_of_app. auto. Qed.
Lemma occ_zombie k t : t ∈ c_zombies k -> t ∈ occupants k.
Proof. intros Ht. unfold occupants. rewrite !elem_of_app. auto. Qed.
Lemma occ_hand k t : t ∈ in_hand (c_place k) -> t ∈ occupants k.
Proof. intros Ht. unfold occupants. rewrite !elem_of_app. auto. Qed.
#[local] Hint Resolve occ_cur occ_queue occ_zombie occ_hand : core.

(** ** Changing a processor *)

Lemma is_thread_mono T (P Q : thread -> Prop) t : is_thread T P t -> (forall th, T !! t = Some th -> P th -> Q th) -> is_thread T Q t.
Proof. intros (th & Ht & HP) HQ. exists th. auto. Qed.

Definition lag_kept (T : gmap tid thread) (k k' : cpu) : Prop :=
  c_place k = Switching S_SLEEP -> c_place k' = Switching S_SLEEP /\ c_curthread k' = c_curthread k \/ is_thread T (fun th => t_state th = S_SLEEP) (c_curthread k).

Lemma asleep_mono T cs c k k' t : cs !! c = Some k -> lag_kept T k k' -> is_thread T (asleep cs t) t -> is_thread T (asleep (<[c := k']> cs) t) t.
Proof.
  intros Hc Hl Ht. eapply is_thread_mono; [exact Ht|]. intros th Hth (d & Hd & Hlt & Hs). exists d. rewrite length_insert. split_and!; [done|done|].
  destruct Hs as [Hs|(kd & Hkd & Hcur & Hpl)]; [by left|]. destruct (decide (d = c)) as [->|Hne]; [|right; exists kd; by rewrite list_lookup_insert_ne].
  rewrite Hc in Hkd. injection Hkd as <-. destruct (Hl Hpl) as [[Hp' Hc']|(th' & Hth' & Hs)].
  - right. exists k'. rewrite list_lookup_insert_eq by done. split_and!; congruence.
  - left. rewrite Hcur, Hth in Hth'. congruence.
Qed.

Lemma cpu_ok_mono T cs c k k' d kd : cs !! c = Some k -> lag_kept T k k' -> cpu_ok T cs d kd -> cpu_ok T (<[c := k']> cs) d kd.
Proof.
  intros Hc Hl [H1 H2 H3 H4]. split; [done|done|done|]. unfold place_ok in *. destruct (c_place kd); try done. intros t Ht. eapply asleep_mono; eauto.
Qed.

Lemma inv_cpu H H' s c k k' : inv H s -> allcpus s !! c = Some k -> occupants k' ++ H' ≡ₚ occupants k ++ H -> cpu_ok (threads s) (allcpus s) c k' -> lag_kept (threads s) k k' ->
  inv H' (set_allcpus (<[c := k']> (allcpus s)) s).
Proof.
  intros Hi Hc Hp Hok Hl. destruct Hi as [I1 I2 I3 I4 I5 I6 I7]. split; cbn; try done.
  - rewrite <- I1. unfold everywhere. cbn. apply (Permutation_app_inv_r (occupants k)). pose proof (concat_insert occupants (allcpus s) c k k' Hc) as Hx.
    transitivity ((concat (occupants <$> <[c := k']> (allcpus s)) ++ occupants k) ++ concat (map_to_list (wchans s)).*2 ++ H'); [solve_Permutation|]. rewrite Hx.
    transitivity (concat (occupants <$> allcpus s) ++ concat (map_to_list (wchans s)).*2 ++ (occupants k' ++ H')); [solve_Permutation|]. rewrite Hp. solve_Permutation.
  - intros d kd Hd. apply list_lookup_insert_Some in Hd as [(-> & -> & _)|[Hne Hd]]; eapply cpu_ok_mono; eauto.
  - intros w l t Hw Ht. eapply asleep_mono; eauto.
Qed.

(** ** Changing a channel *)

Lemma inv_wchan H H' s w l : inv H s -> l ++ H' ≡ₚ default [] (wchans s !! w) ++ H -> (forall t, t ∈ l -> is_thread (threads s) (asleep (allcpus s) t) t) ->
  inv H' (set_wchans (<[w := l]> (wchans s)) s).
Proof.
  intros Hi Hp Hl. destruct Hi as [I1 I2 I3 I4 I5 I6 I7]. split; cbn; try done.
  - rewrite <- I1. unfold everywhere. cbn. set (old := default [] (wchans s !! w)) in *. apply (Permutation_app_inv_r old).
    transitivity (concat (occupants <$> allcpus s) ++ (concat (map_to_list (<[w := l]> (wchans s))).*2 ++ old) ++ H'); [solve_Permutation|].
    unfold old. rewrite wchans_insert. fold old. transitivity (concat (occupants <$> allcpus s) ++ concat (map_to_list (wchans s)).*2 ++ (l ++ H')); [solve_Permutation|]. rewrite Hp. solve_Permutation.
  - intros w' l' t Hw Ht. apply lookup_insert_Some in Hw as [[_ <-]|[_ Hw]]; eauto.
Qed.

(** ** Changing a thread *)

Lemma is_thread_insert T (P : thread -> Prop) t th' u : is_thread T P u -> (u = t -> P th') -> is_thread (<[t := th']> T) P u.
Proof.
  intros (th & Hu & HP) HQ. destruct (decide (u = t)) as [->|Hne]; [exists th'; rewrite lookup_insert_eq; auto|]. exists th. by rewrite lookup_insert_ne.
Qed.

Lemma of_proc_insert T t th p : T !! t = None -> size (of_proc (<[t := th]> T) p) = (size (of_proc T p) + if bool_decide (t_proc th = Some p) then 1 else 0)%nat.
Proof.
  intros Ht. unfold of_proc. case_bool_decide as E.
  - rewrite map_filter_insert_True by done. rewrite map_size_insert_None; [lia|]. apply map_lookup_filter_None. by left.
  - rewrite map_filter_insert_False by done. rewrite delete_id by done. lia.
Qed.

Lemma of_proc_update T t th th' p : T !! t = Some th -> t_proc th' = t_proc th -> size (of_proc (<[t := th']> T) p) = size (of_proc T p).
Proof.
  intros Ht Hp. rewrite <- (insert_delete_id T t th Ht) at 2. rewrite <- (insert_delete_eq T). rewrite !of_proc_insert by apply lookup_delete_eq. by rewrite Hp.
Qed.

Lemma dom_insert_perm (T : gmap tid thread) t th th' : T !! t = Some th -> (map_to_list (<[t := th']> T)).*1 ≡ₚ (map_to_list T).*1.
Proof.
  intros Ht. rewrite <- (insert_delete_id T t th Ht) at 2. rewrite <- (insert_delete_eq T). by rewrite !map_to_list_insert by apply lookup_delete_eq.
Qed.

(** What the rest of the system says about a thread that changes. *)
Definition fits (s : sys) (t : tid) (th : thread) : Prop :=
  (forall c k, allcpus s !! c = Some k -> c_curthread k = t -> t_cpu th = Some c /\ (running k = true -> t_state th = S_RUN \/ t_state th = S_READY)) /\
  (forall c k, allcpus s !! c = Some k -> t ∈ c_runqueue k -> ready_on c th) /\
  (forall c k, allcpus s !! c = Some k -> t ∈ c_zombies k -> dead_on k c t th) /\
  (forall c k, allcpus s !! c = Some k -> t ∈ in_hand (c_place k) -> match c_place k with Waking _ => asleep (allcpus s) t th | _ => ready_on c th end) /\
  (forall w l, wchans s !! w = Some l -> t ∈ l -> asleep (allcpus s) t th).

Lemma inv_thread_proc H s t th th' N : inv H s -> threads s !! t = Some th -> magic_stack th' -> fits s t th' ->
  (forall q, is_Some (numthreads s !! q) -> is_Some (N !! q)) -> (forall q, t_proc th' = Some q -> is_Some (N !! q)) -> (forall p n, N !! p = Some n -> n = Z.of_nat (size (of_proc (<[t := th']> (threads s)) p))) ->
  inv H (set_threads (<[t := th']> (threads s)) (set_numthreads N s)).
Proof.
  intros Hi Ht Hm (F1 & F2 & F3 & F4 & F5) HN Hp Hcnt. destruct Hi as [I1 I2 I3 I4 I5 I6 I7]. split; cbn.
  - rewrite (dom_insert_perm _ t th) by done. exact I1.
  - intros c k Hc. destruct (I2 c k Hc) as [O1 O2 O3 O4]. split.
    + eapply is_thread_insert; [exact O1|]. intros E. by apply F1.
    + intros u Hu. eapply is_thread_insert; [by apply O2|]. intros ->. by apply (F2 c k).
    + intros u Hu. eapply is_thread_insert; [by apply O3|]. intros ->. by apply (F3 c k).
    + specialize (F4 c k Hc). unfold place_ok in *. destruct (c_place k) as [| | | |l| | |i os ts vs|vs| | |]; try done.
      * intros u Hu. eapply is_thread_insert; [by apply O4|]. intros ->. by apply F4.
      * destruct O4 as [O4 O5]. split; [done|]. intros u Hu. eapply is_thread_insert; [by apply O5|]. intros ->. by apply F4.
      * intros u Hu. eapply is_thread_insert; [by apply O4|]. intros ->. by apply F4.
  - intros w l u Hw Hu. eapply is_thread_insert; [by eapply I3|]. intros ->. by eapply F5.
  - intros u tu Hu. apply lookup_insert_Some in Hu as [[_ <-]|[_ Hu]]; eauto.
  - intros u tu p Hu Hpu. apply lookup_insert_Some in Hu as [[_ <-]|[_ Hu]]; eauto.
  - exact Hcnt.
  - rewrite map_size_insert_Some by eauto. done.
Qed.

Lemma inv_thread H s t th th' : inv H s -> threads s !! t = Some th -> t_proc th' = t_proc th -> magic_stack th' -> fits s t th' ->
  inv H (set_threads (<[t := th']> (threads s)) s).
Proof.
  intros Hi Ht Hp Hm Hf. destruct s as [T cs ws N]. apply (inv_thread_proc H (mkSys T cs ws N) t th th' N); cbn in *; auto.
  - intros q Hq. rewrite Hp in Hq. by apply (i_procs _ _ Hi t th).
  - intros p n Hn. rewrite (of_proc_update _ t th) by done. by apply (i_count _ _ Hi).
Qed.

(** A thread in the hands of a section fits unless it is some processor's current one. *)
Lemma fits_hand H s t th : inv H s -> t ∈ H -> (forall c k, allcpus s !! c = Some k -> c_curthread k = t -> t_cpu th = Some c) -> fits s t th.
Proof.
  intros Hi Ht Hcur. assert (Hno : forall c k, allcpus s !! c = Some k -> t ∉ occupants k) by (intros c k; by apply (hand_not_occ H s Hi)). split_and!.
  - intros c k Hc E. split; [eauto|]. intros Hr. exfalso. apply (Hno c k Hc). rewrite <- E. auto.
  - intros c k Hc Hin. exfalso. by apply (Hno c k Hc), occ_queue.
  - intros c k Hc Hin. exfalso. by apply (Hno c k Hc), occ_zombie.
  - intros c k Hc Hin. exfalso. by apply (Hno c k Hc), occ_hand.
  - intros w l Hw Hin. exfalso. by eapply (hand_not_wchan H s Hi).
Qed.

(** The processor whose current thread a thread is. *)
Lemma cur_cpu H s c k t th : inv H s -> allcpus s !! c = Some k -> c_curthread k = t -> threads s !! t = Some th -> t_cpu th = Some c.
Proof. intros Hi Hc E Ht. destruct (ok_cur _ _ _ _ (i_cpus _ _ Hi c k Hc)) as (th' & Ht' & Hcpu & _). rewrite E, Ht in Ht'. congruence. Qed.

(** The thread a processor runs fits with the states S_RUN and S_READY. *)
Lemma fits_running H s c k th' : inv H s -> allcpus s !! c = Some k -> running k = true -> t_cpu th' = Some c -> t_state th' = S_RUN \/ t_state th' = S_READY -> fits s (c_curthread k) th'.
Proof.
  intros Hi Hc Hr Hcpu Hst. pose proof (occ_cur k Hr) as Hocc. pose proof (occ_nodup H s Hi c k Hc) as Hnd. unfold occupants in Hnd. rewrite Hr in Hnd. cbn in Hnd. apply NoDup_cons in Hnd as [Hnd _].
  assert (Hno : forall c' k', allcpus s !! c' = Some k' -> c_curthread k ∈ c_runqueue k' ++ c_zombies k' ++ in_hand (c_place k') -> False).
  { intros c' k' Hc' Hin. assert (c' = c) as -> by (eapply (occ_same H s Hi c k c' k'); [done|done|done|]; unfold occupants; rewrite elem_of_app; by right). rewrite Hc in Hc'. injection Hc' as <-. by apply Hnd. }
  destruct (inv_thread_at H s (c_curthread k) Hi) as [th Hth]; [rewrite elem_of_app; left; by eapply in_everywhere|].
  split_and!.
  - intros c' k' Hc' E. pose proof (cur_cpu H s c' k' _ th Hi Hc' E Hth). pose proof (cur_cpu H s c k _ th Hi Hc eq_refl Hth). split; [congruence|done].
  - intros c' k' Hc' Hin. exfalso. apply (Hno c' k' Hc'). rewrite !elem_of_app. auto.
  - intros c' k' Hc' Hin. exfalso. apply (Hno c' k' Hc'). rewrite !elem_of_app. auto.
  - intros c' k' Hc' Hin. exfalso. apply (Hno c' k' Hc'). rewrite !elem_of_app. auto.
  - intros w l Hw Hin. exfalso. by eapply (occ_not_wchan H s Hi c k).
Qed.

(** ** Threads that begin and end *)

Lemma inv_new H s t th : inv H s -> threads s !! t = None -> t_proc th = None -> magic_stack th -> Z.of_nat (size (threads s)) < 2 ^ 32 - 1 -> inv (t :: H) (set_threads (<[t := th]> (threads s)) s).
Proof.
  intros Hi Ht Hp Hm Hsz. destruct Hi as [I1 I2 I3 I4 I5 I6 I7].
  assert (Hup : forall P u, is_thread (threads s) P u -> is_thread (<[t := th]> (threads s)) P u) by (intros P u (thu & Hu & HP); exists thu; rewrite lookup_insert_ne by congruence; done).
  split; cbn.
  - rewrite map_to_list_insert by done. cbn. rewrite <- I1. solve_Permutation.
  - intros c k Hc. destruct (I2 c k Hc) as [O1 O2 O3 O4]. split; [auto|auto|auto|]. unfold place_ok in *. destruct (c_place k); try done; [auto| |auto]. destruct O4. auto.
  - eauto.
  - intros u tu Hu. apply lookup_insert_Some in Hu as [[_ <-]|[_ Hu]]; eauto.
  - intros u tu p Hu Hpu. apply lookup_insert_Some in Hu as [[_ <-]|[_ Hu]]; [congruence|eauto].
  - intros p n Hn. rewrite of_proc_insert by done. rewrite Hp. rewrite bool_decide_false by done. rewrite Nat.add_0_r. auto.
  - rewrite map_size_insert_None by done. lia.
Qed.

Lemma inv_gone H s t th : inv (t :: H) s -> threads s !! t = Some th -> t_proc th = None -> (forall c k, allcpus s !! c = Some k -> c_curthread k <> t) -> inv H (set_threads (delete t (threads s)) s).
Proof.
  intros Hi Ht Hp Hcur. assert (Hno : forall c k, allcpus s !! c = Some k -> t ∉ occupants k) by (intros c k; apply (hand_not_occ (t :: H) s Hi); left).
  assert (Hnw : forall w l, wchans s !! w = Some l -> t ∉ l) by (intros w l; apply (hand_not_wchan (t :: H) s Hi); left). destruct Hi as [I1 I2 I3 I4 I5 I6 I7].
  assert (Hup : forall P u, u <> t -> is_thread (threads s) P u -> is_thread (delete t (threads s)) P u) by (intros P u Hne (thu & Hu & HP); exists thu; rewrite lookup_delete_ne by congruence; done).
  split; cbn.
  - apply (Permutation_cons_inv (a := t)). rewrite <- (map_to_list_delete (threads s) t th Ht) in I1. cbn in I1. rewrite <- I1. unfold everywhere. cbn. solve_Permutation.
  - intros c k Hc. specialize (Hno c k Hc). destruct (I2 c k Hc) as [O1 O2 O3 O4]. split; [apply Hup; [by eapply Hcur|done]| | |].
    + intros u Hu. apply Hup; [|auto]. intros ->. by apply Hno, occ_queue.
    + intros u Hu. apply Hup; [|auto]. intros ->. by apply Hno, occ_zombie.
    + pose proof (occ_hand k t) as Hh. unfold place_ok in *. destruct (c_place k) as [| | | |l| | |i os ts vs|vs| | |]; try done.
      * intros u Hu. apply Hup; [|auto]. intros ->. auto.
      * destruct O4 as [O4 O5]. split; [done|]. intros u Hu. apply Hup; [|auto]. intros ->. auto.
      * intros u Hu. apply Hup; [|auto]. intros ->. auto.
  - intros w l u Hw Hu. apply Hup; [|eauto]. intros ->. by eapply Hnw.
  - intros u tu [_ Hu]%lookup_delete_Some. eauto.
  - intros u tu p [_ Hu]%lookup_delete_Some. eauto.
  - intros p n Hn. rewrite (I6 p n Hn). rewrite <- (insert_delete_id (threads s) t th Ht) at 1. rewrite of_proc_insert by apply lookup_delete_eq. rewrite bool_decide_false by congruence. f_equal. lia.
  - rewrite map_size_delete_Some by eauto. lia.
Qed.

(** A thread joins a process, or leaves its process. *)
Lemma of_proc_le T p : (size (of_proc T p) <= size T)%nat.
Proof. apply map_size_filter_le || (apply map_subseteq_size, map_filter_subseteq). Qed.

Lemma inv_join H s t th p n : inv H s -> threads s !! t = Some th -> t_proc th = None -> numthreads s !! p = Some n -> fits s t (set_proc (Some p) th) ->
  inv H (set_threads (<[t := set_proc (Some p) th]> (threads s)) (set_numthreads (<[p := u32 (n + 1)]> (numthreads s)) s)).
Proof.
  intros Hi Ht Hp Hn Hf. pose proof (i_count _ _ Hi p n Hn) as Hc. pose proof (i_size _ _ Hi) as Hs.
  assert (Hnew : forall q, size (of_proc (<[t := set_proc (Some p) th]> (threads s)) q) = (size (of_proc (threads s) q) + if bool_decide (p = q) then 1 else 0)%nat).
  { intros q. rewrite <- (insert_delete_id (threads s) t th Ht) at 2. rewrite <- (insert_delete_eq (threads s)). rewrite !of_proc_insert by apply lookup_delete_eq. rewrite Hp. cbn [set_proc t_proc].
    rewrite (bool_decide_false (None = Some q)) by done. rewrite Nat.add_0_r. f_equal. by rewrite (bool_decide_ext (Some p = Some q) (p = q)) by naive_solver. }
  apply (inv_thread_proc H s t th); auto.
  - apply (i_stacks _ _ Hi t th Ht).
  - intros q Hq. destruct (decide (q = p)) as [->|]; [rewrite lookup_insert_eq; eauto|by rewrite lookup_insert_ne].
  - intros q [= <-]. rewrite lookup_insert_eq. eauto.
  - intros q m Hm. rewrite Hnew. apply lookup_insert_Some in Hm as [[<- <-]|[Hne Hm]].
    + rewrite bool_decide_true by done. pose proof (of_proc_le (<[t := set_proc (Some p) th]> (threads s)) p) as Hle. rewrite Hnew, bool_decide_true, map_size_insert_Some in Hle by eauto.
      rewrite u32_small; unfold is_u32; lia.
    + rewrite bool_decide_false by done. rewrite Nat.add_0_r. by apply (i_count _ _ Hi).
Qed.

Lemma inv_leave H s t th p n : inv H s -> threads s !! t = Some th -> t_proc th = Some p -> numthreads s !! p = Some n -> fits s t (set_proc None th) ->
  0 < n /\ inv H (set_threads (<[t := set_proc None th]> (threads s)) (set_numthreads (<[p := n - 1]> (numthreads s)) s)).
Proof.
  intros Hi Ht Hp Hn Hf. pose proof (i_count _ _ Hi p n Hn) as Hc.
  assert (Hnew : forall q, size (of_proc (threads s) q) = (size (of_proc (<[t := set_proc None th]> (threads s)) q) + if bool_decide (p = q) then 1 else 0)%nat).
  { intros q. rewrite <- (insert_delete_id (threads s) t th Ht) at 1. rewrite <- (insert_delete_eq (threads s)). rewrite !of_proc_insert by apply lookup_delete_eq. rewrite Hp. cbn [set_proc t_proc].
    rewrite (bool_decide_false (None = Some q)) by done. rewrite Nat.add_0_r. f_equal. by rewrite (bool_decide_ext (Some p = Some q) (p = q)) by naive_solver. }
  split; [rewrite Hc, Hnew, bool_decide_true by done; lia|]. apply (inv_thread_proc H s t th); auto.
  - apply (i_stacks _ _ Hi t th Ht).
  - intros q Hq. destruct (decide (q = p)) as [->|]; [rewrite lookup_insert_eq; eauto|by rewrite lookup_insert_ne].
  - done.
  - intros q m Hm. apply lookup_insert_Some in Hm as [[<- <-]|[Hne Hm]].
    + rewrite Hc, Hnew, bool_decide_true by done. lia.
    + rewrite (i_count _ _ Hi q m Hm), Hnew, bool_decide_false by done. by rewrite Nat.add_0_r.
Qed.

End ThreadsProofs.
