(* ===== verification/ThreadsSteps.v ===== *)
(** * Every section of a processor runs, and keeps the invariant *)
From S2P Require Import Prelude Wp Synch Threads ThreadsProofs.
Import Synch Threads ThreadsInv ThreadsProofs.

Module ThreadsSteps.

(** ** The primitive operations *)

Section Prim.
Context (E : stop -> Prop).
Lemma wp_get_cpu c k s Q : allcpus s !! c = Some k -> Q k s -> wp E (get_cpu c) s Q.
Proof. intros Hc HQ. unfold get_cpu, wp, mbind, M_bind, get. by rewrite Hc. Qed.
Lemma wp_put_cpu c k s (Q : unit -> sys -> Prop) : Q tt (set_allcpus (<[c := k]> (allcpus s)) s) -> wp E (put_cpu c k) s Q.
Proof. done. Qed.
Lemma wp_on_cpu c f k s (Q : unit -> sys -> Prop) : allcpus s !! c = Some k -> Q tt (set_allcpus (<[c := f k]> (allcpus s)) s) -> wp E (on_cpu c f) s Q.
Proof. intros Hc HQ. unfold on_cpu. apply wp_bind. by eapply wp_get_cpu. Qed.
Lemma wp_get_thread t th s Q : threads s !! t = Some th -> Q th s -> wp E (get_thread t) s Q.
Proof. intros Ht HQ. unfold get_thread, wp, mbind, M_bind, get. by rewrite Ht. Qed.
Lemma wp_put_thread t th s (Q : unit -> sys -> Prop) : Q tt (set_threads (<[t := th]> (threads s)) s) -> wp E (put_thread t th) s Q.
Proof. done. Qed.
Lemma wp_on_thread t f th s (Q : unit -> sys -> Prop) : threads s !! t = Some th -> Q tt (set_threads (<[t := f th]> (threads s)) s) -> wp E (on_thread t f) s Q.
Proof. intros Ht HQ. unfold on_thread. apply wp_bind. by eapply wp_get_thread. Qed.
End Prim.

(** ** Places *)

(** A processor moves to another place, the threads staying where they are. *)
Lemma inv_goto H s c k k' : inv H s -> allcpus s !! c = Some k -> occupants k' = occupants k -> cpu_ok (threads s) (allcpus s) c k' -> (c_place k = Switching S_SLEEP -> False) ->
  inv H (set_allcpus (<[c := k']> (allcpus s)) s).
Proof. intros Hi Hc Ho Hok Hl. eapply inv_cpu; [done|done|by rewrite Ho|done|]. intros E. by destruct (Hl E). Qed.

(** A processor that neither sleeps nor switches has an innocent place. *)
Definition quiet_place (p : place) : bool := match p with Normal | Woken | Yielding | Clearing | Counting _ _ _ | Taking _ _ | Waking [] | Returning [] | Halted => true | _ => false end.

Lemma dead_moves T k k' c t : is_thread T (dead_on k c t) t -> (c_place k <> Switching S_ZOMBIE \/ is_thread T (fun th => t_state th = S_ZOMBIE) (c_curthread k)) -> is_thread T (dead_on k' c t) t.
Proof.
  intros Ht Hk. eapply is_thread_mono; [exact Ht|]. intros th Hth (H1 & H2 & H3). split_and!; [done|done|]. left. destruct H3 as [|[-> Hp]]; [done|]. destruct Hk as [Hk|(th' & Hth' & Hz)]; [done|]. congruence.
Qed.

(** [k'] has the threads of [k] and a place that is no longer [Switching]. *)
Lemma cpu_ok_place T cs c k k' : cpu_ok T cs c k -> c_place k <> Switching S_ZOMBIE -> c_curthread k' = c_curthread k -> c_runqueue k' = c_runqueue k -> c_zombies k' = c_zombies k ->
  (running k' = true -> running k = true) -> place_ok T cs c k' -> cpu_ok T cs c k'.
Proof.
  intros [O1 O2 O3 O4] Hz Hc Hr Hzo Hrun Hp. split; [|by rewrite Hr| |done].
  - rewrite Hc. eapply is_thread_mono; [exact O1|]. intros th _ [H1 H2]. auto.
  - rewrite Hzo. intros t Ht. eapply dead_moves; [by apply O3|]. by left.
Qed.

(** ** Making a thread runnable *)

Definition queued (c d : nat) (t : tid) (k : cpu) : cpu :=
  let k1 := set_runqueue (c_runqueue k ++ [t]) k in
  if c_isidle k && negb (bool_decide (d = c)) then set_line true (set_pending (Z.lor (c_ipi_pending k) (Z.shiftl 1 IPI_UNIDLE)) k1) else k1.

Lemma ipi_send_is d code k s : allcpus s !! d = Some k -> 0 <= code < 32 ->
  ipi_send d code s = Done tt (set_allcpus (<[d := set_line true (set_pending (Z.lor (c_ipi_pending k) (Z.shiftl 1 code)) k)]> (allcpus s)) s).
Proof.
  intros Hd Hcode. pose proof (lookup_lt_Some _ _ _ Hd) as Hlt. unfold ipi_send, mainbus_send_ipi, on_cpu, put_cpu, get_cpu, kassert, mbind, M_bind, get, modify, deref.
  replace ((0 <=? code) && (code <? 32)) with true by (symmetry; apply andb_true_iff; lia). rewrite Hd. cbn [set_allcpus allcpus threads wchans numthreads]. rewrite list_lookup_insert_eq by done. cbn. by rewrite list_insert_insert_eq.
Qed.

Lemma make_runnable_is c t b th d k s : threads s !! t = Some th -> t_cpu th = Some d -> allcpus s !! d = Some k -> (b = true -> d = c) ->
  thread_make_runnable c t b s = Done tt (set_allcpus (<[d := queued c d t k]> (allcpus s)) (set_threads (<[t := set_state S_READY th]> (threads s)) s)).
Proof.
  intros Ht Hd Hk Hb. pose proof (lookup_lt_Some _ _ _ Hk) as Hlt. unfold thread_make_runnable, get_thread, on_cpu, get_cpu, put_cpu, put_thread, mbind, M_bind, get, modify, deref. rewrite Ht, Hd.
  replace ((if b then kassert "spinlock_do_i_hold(&targetcpu->c_runqueue_lock)" (bool_decide (d = c)) else mret tt) s) with (Done (S := sys) tt s) by (destruct b; [rewrite bool_decide_true by auto|]; done).
  cbn [set_threads allcpus threads]. rewrite Hk. cbn [set_allcpus allcpus]. rewrite list_lookup_insert_eq by done. unfold queued. cbn [c_isidle set_runqueue].
  destruct (c_isidle k && negb (bool_decide (d = c))); [|done]. erewrite ipi_send_is; [|cbn; by rewrite list_lookup_insert_eq|done]. cbn. by rewrite list_insert_insert_eq.
Qed.

Lemma queued_fields c d t k : let k' := queued c d t k in
  c_curthread k' = c_curthread k /\ c_zombies k' = c_zombies k /\ c_isidle k' = c_isidle k /\ c_runqueue k' = c_runqueue k ++ [t] /\ c_place k' = c_place k.
Proof. unfold queued. by destruct (c_isidle k && negb (bool_decide (d = c))). Qed.

Lemma queued_unidles c d t k : c_isidle k = true -> d <> c -> c_ipi_line (queued c d t k) = true /\ Z.testbit (c_ipi_pending (queued c d t k)) IPI_UNIDLE = true.
Proof.
  intros Hid Hne. unfold queued. rewrite Hid, bool_decide_false by done. cbn [andb negb set_line set_pending set_runqueue c_ipi_pending c_ipi_line]. split; [done|]. rewrite Z.lor_spec. apply orb_true_iff. by right.
Qed.

(** The run queue grows at its end; the rest of the processor is as it was. *)
Lemma inv_enqueue H s d k k' t : inv (t :: H) s -> allcpus s !! d = Some k -> is_thread (threads s) (ready_on d) t -> (forall ns, c_place k <> Switching ns) ->
  c_curthread k' = c_curthread k -> c_zombies k' = c_zombies k -> c_isidle k' = c_isidle k -> c_runqueue k' = c_runqueue k ++ [t] -> c_place k' = c_place k ->
  (c_place k = Waiting -> c_ipi_line k' = true /\ Z.testbit (c_ipi_pending k') IPI_UNIDLE = true) ->
  inv H (set_allcpus (<[d := k']> (allcpus s)) s).
Proof.
  intros Hi Hd Ht Hns Ecur Ez Eid Erq Ep Hidle. pose proof (i_cpus _ _ Hi d k Hd) as [O1 O2 O3 O4]. assert (Hrun : running k' = running k) by (unfold running; by rewrite Eid, Ep).
  eapply inv_cpu; [done|done| | |].
  - unfold occupants. rewrite Hrun, Ecur, Ez, Erq, Ep. solve_Permutation.
  - split; rewrite ?Hrun, ?Ecur, ?Ez, ?Erq.
    + exact O1.
    + intros u [Hu| ->%list_elem_of_singleton]%elem_of_app; auto.
    + intros u Hu. eapply dead_moves; [by apply O3|]. left. by intros Hx%Hns.
    + unfold place_ok in *. rewrite Ep, ?Eid, ?Ecur, ?Erq, ?Ez. destruct (c_place k) as [|ns| | | | | | | | | |]; try done.
      * by destruct (Hns ns).
      * destruct O4 as [O4 O5]. split; [done|]. right. by apply Hidle.
      * rewrite length_app. cbn. lia.
      * rewrite length_app. cbn. lia.
  - intros Hx. by destruct (Hns _ Hx).
Qed.

Lemma inv_queued H s c d t th k : inv (t :: H) s -> threads s !! t = Some th -> t_cpu th = Some d -> allcpus s !! d = Some k -> (forall ns, c_place k <> Switching ns) -> (c_place k = Waiting -> d <> c) ->
  inv H (set_allcpus (<[d := queued c d t k]> (allcpus s)) (set_threads (<[t := set_state S_READY th]> (threads s)) s)).
Proof.
  intros Hi Ht Hd Hk Hns Hw. destruct (queued_fields c d t k) as (Ecur & Ez & Eid & Erq & Ep).
  assert (Hi' : inv (t :: H) (set_threads (<[t := set_state S_READY th]> (threads s)) s)).
  { eapply inv_thread; [done|done|done|apply (i_stacks _ _ Hi t th Ht)|]. eapply fits_hand; [done|left|]. intros c' k' Hc' E. cbn. by eapply cur_cpu. }
  apply (inv_enqueue H _ d k _ t Hi'); [done| |done..|].
  - exists (set_state S_READY th). cbn. by rewrite lookup_insert_eq.
  - intros Hp. pose proof (ok_place _ _ _ _ (i_cpus _ _ Hi d k Hk)) as Hok. unfold place_ok in Hok. rewrite Hp in Hok. destruct Hok as [Hid _]. apply queued_unidles; auto.
Qed.

(** ** Zombies *)

Lemma lists_everywhere s t : t ∈ lists s -> t ∈ everywhere s.
Proof.
  unfold lists, everywhere. rewrite !elem_of_app. intros [Ht|Ht]; [|by right]. left. apply list_elem_of_In, in_concat in Ht as (l & Hl & Htl). apply list_elem_of_In in Hl. apply list_elem_of_In in Htl.
  apply list_elem_of_fmap in Hl as (k & -> & Hk). apply list_elem_of_In, in_concat. exists (occupants k). rewrite <- !list_elem_of_In. split; [by apply list_elem_of_fmap_2|]. unfold occupants. rewrite elem_of_app. by right.
Qed.

Lemma thread_destroy_ok H s c k t th : inv (t :: H) s -> allcpus s !! c = Some k -> threads s !! t = Some th -> t_state th <> S_RUN -> t_proc th = None -> (forall d kd, allcpus s !! d = Some kd -> c_curthread kd <> t) ->
  wp never (thread_destroy c t) s (fun _ s' => s' = set_threads (delete t (threads s)) s /\ inv H s').
Proof.
  intros Hi Hc Ht Hst Hp Hcur. unfold thread_destroy. apply wp_bind. eapply wp_get_cpu; [done|]. apply wp_bind, wp_kassert; [rewrite bool_decide_false; [done|]; intros ->; by apply (Hcur c k)|].
  apply wp_bind. eapply wp_get_thread; [done|]. apply wp_bind, wp_kassert; [by rewrite bool_decide_false|]. apply wp_bind, wp_kassert; [by rewrite bool_decide_true|].
  apply wp_bind. unfold threadlistnode_cleanup. wgo. apply wp_kassert.
  - apply bool_decide_eq_true. intros Hl. pose proof (inv_nodup _ _ Hi) as Hn. apply NoDup_app in Hn as (_ & Hd & _). apply (Hd t); [by apply lists_everywhere|left].
  - wgo. split; [done|]. by apply (inv_gone H s t th).
Qed.

Lemma exorcise_loop_ok n : forall s c k, inv [] s -> allcpus s !! c = Some k -> running k = true -> (length (c_zombies k) < n)%nat ->
  wp never (exorcise_loop c n) s (fun _ s' => inv [] s' /\ allcpus s' !! c = Some (set_zombies [] k)).
Proof.
  induction n as [|n IH]; intros s c k Hi Hc Hrun Hlen; [lia|]. cbn [exorcise_loop]. apply wp_bind. eapply wp_get_cpu; [done|]. pose proof (i_cpus _ _ Hi c k Hc) as Hok.
  destruct (c_zombies k) as [|z zs] eqn:Ez.
  { apply wp_ret. split; [done|]. rewrite Hc. f_equal. destruct k. cbn in Ez |- *. by rewrite Ez. }
  assert (Hns : forall ns, c_place k <> Switching ns) by (intros ns E; unfold running in Hrun; rewrite E, andb_false_r in Hrun; done).
  destruct (ok_zombies _ _ _ _ Hok z) as (th & Hth & Hcpu & Hp & Hz); [rewrite Ez; left|]. assert (Hst : t_state th = S_ZOMBIE) by (destruct Hz as [|[_ Hx]]; [done|by destruct (Hns _ Hx)]).
  assert (Hne : z <> c_curthread k).
  { intros ->. pose proof (occ_nodup [] s Hi c k Hc) as Hnd. unfold occupants in Hnd. rewrite Hrun, Ez in Hnd. cbn in Hnd. apply NoDup_cons in Hnd as [Hnd _]. apply Hnd. rewrite elem_of_app. right. left. }
  set (k1 := set_zombies zs k). set (s1 := set_allcpus (<[c := k1]> (allcpus s)) s). pose proof (lookup_lt_Some _ _ _ Hc) as Hlt.
  assert (Hi1 : inv [z] s1).
  { eapply (inv_cpu [] [z]); [done|done| | |].
    - unfold occupants. change (running k1) with (running k). cbn. rewrite Ez. solve_Permutation.
    - destruct Hok as [O1 O2 O3 O4]. split; [exact O1|exact O2| |].
      + intros t Ht. eapply dead_moves; [apply O3; rewrite Ez; by right|]. left. apply Hns.
      + unfold place_ok in *. cbn. destruct (c_place k); try done. by destruct (Hns newstate).
    - intros E. by destruct (Hns _ E). }
  apply wp_bind, wp_put_cpu. fold k1 s1. apply wp_bind, wp_kassert; [by rewrite bool_decide_false|]. apply wp_bind. eapply wp_get_thread; [done|]. apply wp_bind, wp_kassert; [by rewrite bool_decide_true|].
  assert (Hc1 : allcpus s1 !! c = Some k1) by (cbn; by rewrite list_lookup_insert_eq). apply wp_bind. eapply wp_use; [eapply (thread_destroy_ok [] s1 c k1 z th); [done|done|done|congruence|done|]|].
  - intros d kd Hd E. pose proof (cur_cpu _ _ d kd z th Hi1 Hd E Hth) as Hd'. rewrite Hcpu in Hd'. injection Hd' as <-. rewrite Hc1 in Hd. injection Hd as <-. by apply Hne.
  - cbv beta. intros _ s2 [-> Hi2]. eapply wp_mono; [apply (IH _ c k1 Hi2 Hc1 Hrun); cbn; cbn in Hlen; lia|]. cbv beta. intros _ s' [H1 H2]. done.
Qed.

Lemma exorcise_ok s c k : inv [] s -> allcpus s !! c = Some k -> running k = true -> wp never (exorcise c) s (fun _ s' => inv [] s' /\ allcpus s' !! c = Some (set_zombies [] k)).
Proof. intros Hi Hc Hr. unfold exorcise. apply wp_bind. eapply wp_get_cpu; [done|]. apply exorcise_loop_ok; [done|done|done|lia]. Qed.

(** ** The switch *)

Lemma set_running_ok s c k f th : inv [] s -> allcpus s !! c = Some k -> running k = true -> threads s !! c_curthread k = Some th ->
  (f = set_state S_RUN \/ f = fun th => set_fresh false (set_state S_RUN th)) ->
  inv [] (set_threads (<[c_curthread k := f th]> (threads s)) s).
Proof.
  intros Hi Hc Hr Hth Hf. assert (Hcpu : t_cpu th = Some c) by (by eapply (cur_cpu [] s c k)). eapply inv_thread; [done|done| | |].
  - destruct Hf; by subst.
  - pose proof (i_stacks _ _ Hi _ _ Hth). destruct Hf; by subst.
  - eapply fits_running; [done|done|done| |]; destruct Hf; subst; auto.
Qed.

(** [k] has no thread to run, its own one is where its state says. *)
Definition between (T : gmap tid thread) (k : cpu) : Prop :=
  c_isidle k = true /\ in_hand (c_place k) = [] /\ (forall ns, c_place k = Switching ns -> is_thread T (fun th => t_state th = ns) (c_curthread k)).

(** The thread at the head of the queue runs. *)
Definition next_runs (c : nat) (k : cpu) (s' : sys) : Prop :=
  forall next q, c_runqueue k = next :: q -> exists k', allcpus s' !! c = Some k' /\ c_curthread k' = next /\ c_runqueue k' = q /\ c_place k' = Normal.

Lemma switch_pick_ok s c k : inv [] s -> allcpus s !! c = Some k -> between (threads s) k -> wp never (switch_pick c) s (fun _ s' => inv [] s' /\ next_runs c k s').
Proof.
  intros Hi Hc (Hid & Hh & Hst). pose proof (i_cpus _ _ Hi c k Hc) as Hok. destruct Hok as [O1 O2 O3 O4]. pose proof (lookup_lt_Some _ _ _ Hc) as Hlt.
  assert (Hz : forall k' t, t ∈ c_zombies k -> is_thread (threads s) (dead_on k' c t) t).
  { intros k' t Ht. eapply dead_moves; [by apply O3|]. destruct (decide (c_place k = Switching S_ZOMBIE)); [right; by apply Hst|by left]. }
  assert (Hl : forall k', lag_kept (threads s) k k') by (intros k' E; right; by apply Hst).
  assert (Hrun : running k = false) by (unfold running; by rewrite Hid). unfold switch_pick. apply wp_bind. eapply wp_get_cpu; [done|]. destruct (c_runqueue k) as [|next rq] eqn:Erq.
  - unfold goto. eapply wp_on_cpu; [done|]. split; [|unfold next_runs; by rewrite Erq]. eapply inv_cpu; [done|done| | |apply Hl].
    + unfold occupants. rewrite Hrun. unfold running. cbn. by rewrite Hid, Hh.
    + split; cbn; [|by rewrite Erq|by apply Hz|].
      * eapply is_thread_mono; [exact O1|]. intros th _ [H1 _]. split; [done|]. unfold running. cbn. by rewrite Hid.
      * unfold place_ok. cbn. rewrite Erq. auto.
  - destruct (O2 next) as (th & Hth & Hs & Hcpu); [left|]. set (k1 := set_place Normal (set_cur next (set_isidle false (set_runqueue rq k)))).
    apply wp_bind, wp_put_cpu. set (s1 := set_allcpus (<[c := k1]> (allcpus s)) s).
    assert (Hi1 : inv [] s1).
    { eapply inv_cpu; [done|done| | |apply Hl].
      - unfold occupants. rewrite Hrun. unfold running. cbn. rewrite Erq, Hh. done.
      - split; cbn; [|intros t Ht; apply O2; by right|by apply Hz|done]. exists th. split; [done|]. split; [done|]. auto. }
    assert (Hc1 : allcpus s1 !! c = Some k1) by (cbn; by rewrite list_lookup_insert_eq). apply wp_bind. eapply wp_get_thread; [done|].
    assert (Hgo : forall f, (f = set_state S_RUN \/ f = fun th => set_fresh false (set_state S_RUN th)) -> wp never (k ← get_cpu c; on_thread (c_curthread k) f;; exorcise c) s1 (fun _ s' => inv [] s' /\ next_runs c k s')).
    { intros f Hf. apply wp_bind. eapply wp_get_cpu; [done|]. apply wp_bind. eapply wp_on_thread; [done|]. eapply wp_mono; [eapply (exorcise_ok _ c k1); [by eapply (set_running_ok s1 c k1 f th)|done|done]|]. cbv beta. intros _ s' [Hi' Hk']. split; [done|]. intros n q E. rewrite Erq in E. injection E as <- <-. by eexists. }
    destruct (t_fresh th); [apply Hgo; by right|apply Hgo; by left].
Qed.

(** The state of a thread that was queued is set. *)
Lemma fits_sleep s c k th : inv [] s -> allcpus s !! c = Some k -> c_place k = Switching S_SLEEP -> threads s !! c_curthread k = Some th -> fits s (c_curthread k) (set_state S_SLEEP th).
Proof.
  intros Hi Hc Hp Hth. assert (Hcpu : t_cpu th = Some c) by (by eapply (cur_cpu [] s c k)). pose proof (lookup_lt_Some _ _ _ Hc) as Hlt.
  pose proof (ok_place _ _ _ _ (i_cpus _ _ Hi c k Hc)) as Hpl. unfold place_ok in Hpl. rewrite Hp in Hpl. destruct Hpl as [Hnq Hnz].
  assert (Has : asleep (allcpus s) (c_curthread k) (set_state S_SLEEP th)) by (exists c; cbn; auto).
  assert (Hsame : forall c' k', allcpus s !! c' = Some k' -> t_cpu th = Some c' -> c' = c /\ k' = k) by (intros c' k' Hc' E; rewrite Hcpu in E; injection E as <-; rewrite Hc in Hc'; by injection Hc' as <-).
  split_and!.
  - intros c' k' Hc' E. destruct (Hsame c' k' Hc') as [-> ->]; [by eapply cur_cpu|]. split; [done|]. unfold running. by rewrite Hp, andb_false_r.
  - intros c' k' Hc' Hin. destruct (ok_queue _ _ _ _ (i_cpus _ _ Hi c' k' Hc') _ Hin) as (th' & Hth' & _ & Hcpu'). rewrite Hth in Hth'. injection Hth' as <-. by destruct (Hsame c' k' Hc' Hcpu') as [-> ->].
  - intros c' k' Hc' Hin. destruct (ok_zombies _ _ _ _ (i_cpus _ _ Hi c' k' Hc') _ Hin) as (th' & Hth' & Hcpu' & _). rewrite Hth in Hth'. injection Hth' as <-. by destruct (Hsame c' k' Hc' Hcpu') as [-> ->].
  - intros c' k' Hc' Hin. pose proof (ok_place _ _ _ _ (i_cpus _ _ Hi c' k' Hc')) as Hpl. unfold place_ok in Hpl. destruct (c_place k') as [| | | |l| | |i os ts vs|vs| | |] eqn:E; cbn in Hin; try by apply elem_of_nil in Hin.
    + exact Has.
    + destruct Hpl as [_ Hpl]. destruct (Hpl _ Hin) as (th' & Hth' & _ & Hcpu'). rewrite Hth in Hth'. injection Hth' as <-. destruct (Hsame c' k' Hc' Hcpu') as [-> ->]. congruence.
    + destruct (Hpl _ Hin) as (th' & Hth' & _ & Hcpu'). rewrite Hth in Hth'. injection Hth' as <-. destruct (Hsame c' k' Hc' Hcpu') as [-> ->]. congruence.
  - done.
Qed.

Lemma fits_zombie s c k th : inv [] s -> allcpus s !! c = Some k -> c_place k = Switching S_ZOMBIE -> threads s !! c_curthread k = Some th -> fits s (c_curthread k) (set_state S_ZOMBIE th).
Proof.
  intros Hi Hc Hp Hth. pose proof (i_cpus _ _ Hi c k Hc) as Hok. pose proof (ok_place _ _ _ _ Hok) as Hin. unfold place_ok in Hin. rewrite Hp in Hin.
  destruct (ok_zombies _ _ _ _ Hok _ Hin) as (th' & Hth' & Hcpu & Hpr & _). rewrite Hth in Hth'. injection Hth' as <-. pose proof (occ_nodup [] s Hi c k Hc) as Hnd. unfold occupants in Hnd.
  apply NoDup_app in Hnd as (_ & _ & Hnd). apply NoDup_app in Hnd as (_ & Hd & _). pose proof (occ_zombie k _ Hin) as Hocc.
  assert (Hsame : forall c' k', allcpus s !! c' = Some k' -> c_curthread k ∈ occupants k' -> c' = c /\ k' = k).
  { intros c' k' Hc' Ho. assert (c' = c) as -> by (by eapply (occ_same [] s Hi c k c' k')). rewrite Hc in Hc'. by injection Hc' as <-. }
  split_and!.
  - intros c' k' Hc' E. pose proof (cur_cpu _ _ c' k' _ th Hi Hc' E Hth) as Hcpu'. split; [done|]. rewrite Hcpu in Hcpu'. injection Hcpu' as <-. rewrite Hc in Hc'. injection Hc' as <-. unfold running. by rewrite Hp, andb_false_r.
  - intros c' k' Hc' Hq. destruct (Hsame c' k' Hc' (occ_queue _ _ Hq)) as [-> ->]. exfalso. apply (Hd _ Hq). rewrite elem_of_app. by left.
  - intros c' k' Hc' Hq. destruct (Hsame c' k' Hc' (occ_zombie _ _ Hq)) as [-> ->]. split_and!; [done|done|by left].
  - intros c' k' Hc' Hq. destruct (Hsame c' k' Hc' (occ_hand _ _ Hq)) as [-> ->]. rewrite Hp in Hq. by apply elem_of_nil in Hq.
  - intros w l Hw Hl. exfalso. by eapply (occ_not_wchan [] s Hi c k).
Qed.

Lemma set_state_id x th : t_state th = x -> set_state x th = th.
Proof. by destruct th; cbn; intros ->. Qed.

Lemma set_switched s c k ns th : inv [] s -> allcpus s !! c = Some k -> c_place k = Switching ns -> threads s !! c_curthread k = Some th ->
  inv [] (set_threads (<[c_curthread k := set_state ns th]> (threads s)) s).
Proof.
  intros Hi Hc Hp Hth. pose proof (i_cpus _ _ Hi c k Hc) as Hok. pose proof (ok_place _ _ _ _ Hok) as Hpl. unfold place_ok in Hpl. rewrite Hp in Hpl. destruct ns.
  - done.
  - destruct (ok_queue _ _ _ _ Hok _ Hpl) as (th' & Hth' & Hst & _). rewrite Hth in Hth'. injection Hth' as <-. rewrite (set_state_id S_READY th Hst).
    rewrite insert_id by done. by destruct s.
  - eapply inv_thread; [done|done|done|apply (i_stacks _ _ Hi _ _ Hth)|by apply (fits_sleep s c k)].
  - eapply inv_thread; [done|done|done|apply (i_stacks _ _ Hi _ _ Hth)|by apply (fits_zombie s c k)].
Qed.

Lemma switch_end_ok s c k ns : inv [] s -> allcpus s !! c = Some k -> c_place k = Switching ns -> wp never (switch_end c ns) s (fun _ s' => inv [] s' /\ next_runs c k s').
Proof.
  intros Hi Hc Hp. pose proof (lookup_lt_Some _ _ _ Hc) as Hlt. destruct (ok_cur _ _ _ _ (i_cpus _ _ Hi c k Hc)) as (th & Hth & Hcpu & _). pose proof (set_switched s c k ns th Hi Hc Hp Hth) as Hi1.
  set (s1 := set_threads _ s) in Hi1. unfold switch_end. apply wp_bind. eapply wp_get_cpu; [done|]. apply wp_bind. eapply wp_on_thread; [done|]. fold s1. apply wp_bind. eapply wp_on_cpu; [done|].
  set (k1 := set_isidle true k). assert (Hi2 : inv [] (set_allcpus (<[c := k1]> (allcpus s1)) s1)).
  { pose proof (i_cpus _ _ Hi1 c k Hc) as Hok. eapply inv_cpu; [done|done| | |].
    - unfold occupants, running. cbn. rewrite Hp, andb_false_r. done.
    - destruct Hok as [O1 O2 O3 O4]. split; [|done| |].
      + eapply is_thread_mono; [exact O1|]. intros th' _ [H1 _]. split; [done|]. by unfold running.
      + intros t Ht. eapply is_thread_mono; [by apply O3|]. done.
      + unfold place_ok in *. cbn. rewrite Hp in *. done.
    - intros E. left. done. }
  eapply wp_mono; [eapply (switch_pick_ok _ c k1); [done|cbn; by rewrite list_lookup_insert_eq|]|done]. split_and!; [done|cbn; by rewrite Hp|]. intros ns' E. cbn in E. rewrite Hp in E. injection E as <-.
  exists (set_state ns th). cbn. by rewrite lookup_insert_eq.
Qed.

(** ** Leaving the processor *)

Lemma resume_ok H s c k : inv H s -> allcpus s !! c = Some k -> in_hand (c_place k) = [] -> (forall ns, c_place k <> Switching ns) -> wp never (resume c) s (fun _ s' => inv H s').
Proof.
  intros Hi Hc Hh Hns. unfold resume. eapply wp_on_cpu; [done|]. pose proof (i_cpus _ _ Hi c k Hc) as Hok.
  assert (Hr : running k = negb (c_isidle k)) by (unfold running; destruct (c_place k); rewrite ?andb_true_r; try done; by destruct (Hns newstate)).
  eapply inv_goto; [done|done| |eapply cpu_ok_place; [exact Hok|..]|apply Hns]; try done.
  - unfold occupants. rewrite Hr, Hh. unfold running. cbn. by destruct (c_isidle k).
  - rewrite Hr. unfold running. cbn. by destruct (c_isidle k).
  - unfold place_ok. cbn. by destruct (c_isidle k).
Qed.

Lemma checkstack_ok H s t th Q : inv H s -> threads s !! t = Some th -> Q tt s -> wp never (thread_checkstack t) s Q.
Proof.
  intros Hi Ht HQ. unfold thread_checkstack. apply wp_bind. eapply wp_get_thread; [done|]. destruct (i_stacks _ _ Hi t th Ht) as [->| ->]; [by apply wp_ret|].
  unfold stack_word. apply wp_bind, wp_kassert; [done|]. apply wp_bind, wp_kassert; [done|]. apply wp_bind, wp_kassert; [done|]. by apply wp_kassert.
Qed.

(** [thread_switch] by the thread that runs. *)
Section Leave.
Context (s : sys) (c : nat) (k : cpu) (th : thread).
Context (Hi : inv [] s) (Hc : allcpus s !! c = Some k) (Hrun : running k = true) (Hh : in_hand (c_place k) = []) (Hth : threads s !! c_curthread k = Some th).

Lemma leave_cpu : t_cpu th = Some c.
Proof. by eapply (cur_cpu [] s c k). Qed.
Lemma leave_place ns : c_place k <> Switching ns.
Proof. intros E. unfold running in Hrun. by rewrite E, andb_false_r in Hrun. Qed.
Lemma leave_nodup : c_curthread k ∉ c_runqueue k /\ c_curthread k ∉ c_zombies k.
Proof. pose proof (occ_nodup [] s Hi c k Hc) as Hnd. unfold occupants in Hnd. rewrite Hrun in Hnd. cbn in Hnd. apply NoDup_cons in Hnd as [Hnd _]. rewrite !elem_of_app in Hnd. tauto. Qed.

Lemma leave_ready : wp never (thread_make_runnable c (c_curthread k) true;; goto c (Switching S_READY)) s (fun _ s' => inv [] s').
Proof.
  pose proof (lookup_lt_Some _ _ _ Hc) as Hlt. destruct (queued_fields c c (c_curthread k) k) as (Ecur & Ez & Eid & Erq & Ep). apply wp_bind. eapply wp_done; [by apply (make_runnable_is c _ true th c k s Hth leave_cpu Hc)|].
  unfold goto. eapply wp_on_cpu; [cbn; by rewrite list_lookup_insert_eq|]. cbn [set_allcpus allcpus set_threads threads wchans numthreads]. rewrite list_insert_insert_eq.
  set (T := <[c_curthread k := set_state S_READY th]> (threads s)). set (s1 := set_threads T s).
  assert (Hi1 : inv [] s1). { eapply inv_thread; [done|done|done|apply (i_stacks _ _ Hi _ _ Hth)|]. eapply (fits_running [] s c k); [done|done|done|apply leave_cpu|by right]. }
  pose proof (i_cpus _ _ Hi1 c k Hc) as [O1 O2 O3 O4]. apply (inv_cpu [] [] s1 c k); [done|done| | |intros E; by destruct (leave_place _ E)].
  - unfold occupants. rewrite Hrun. unfold running. cbn [set_place c_place c_isidle c_runqueue c_zombies c_curthread]. rewrite andb_false_r, Erq, Ez, Hh. cbn. solve_Permutation.
  - split; cbn [set_place c_curthread c_runqueue c_zombies].
    + rewrite Ecur. eapply is_thread_mono; [exact O1|]. intros th' _ [H1 _]. split; [done|]. unfold running. cbn. by rewrite andb_false_r.
    + rewrite Erq. intros t [Ht| ->%list_elem_of_singleton]%elem_of_app; [by apply O2|]. exists (set_state S_READY th). cbn. unfold T. rewrite lookup_insert_eq. split; [done|]. split; [done|apply leave_cpu].
    + rewrite Ez. intros t Ht. eapply dead_moves; [by apply O3|]. left. apply leave_place.
    + unfold place_ok. cbn. rewrite Ecur, Erq, elem_of_app. right. by apply list_elem_of_singleton.
Qed.

Lemma leave_sleep wc : wp never (modify (fun s => set_wchans (<[wc := wchan_sleep (c_curthread k) (default [] (wchans s !! wc))]> (wchans s)) s);; goto c (Switching S_SLEEP)) s (fun _ s' => inv [] s').
Proof.
  pose proof (lookup_lt_Some _ _ _ Hc) as Hlt. apply wp_bind. wgo. unfold goto. eapply wp_on_cpu; [done|]. set (k1 := set_place (Switching S_SLEEP) k). pose proof (i_cpus _ _ Hi c k Hc) as [O1 O2 O3 O4].
  assert (Hi1 : inv [c_curthread k] (set_allcpus (<[c := k1]> (allcpus s)) s)).
  { eapply (inv_cpu []); [done|done| | |intros E; by destruct (leave_place _ E)].
    - unfold occupants. rewrite Hrun. unfold running. cbn. rewrite andb_false_r, Hh. cbn. solve_Permutation.
    - split; [|done| |].
      + eapply is_thread_mono; [exact O1|]. intros th' _ [H1 _]. split; [done|]. unfold running. cbn. by rewrite andb_false_r.
      + intros t Ht. eapply dead_moves; [by apply O3|]. left. apply leave_place.
      + apply leave_nodup. }
  apply (inv_wchan [c_curthread k] [] _ wc) with (l := wchan_sleep (c_curthread k) (default [] (wchans s !! wc))) in Hi1; [exact Hi1| |]; unfold wchan_sleep; cbn [set_allcpus wchans threads allcpus].
  - solve_Permutation.
  - intros t [Ht| ->%list_elem_of_singleton]%elem_of_app.
    + destruct (wchans s !! wc) as [l|] eqn:Ew; [|by apply elem_of_nil in Ht]. apply (i_wchans _ _ Hi1 wc l t Ew Ht).
    + exists th. split; [done|]. exists c. rewrite length_insert. split_and!; [apply leave_cpu|done|]. right. exists k1. by rewrite list_lookup_insert_eq.
Qed.

Lemma leave_zombie : t_proc th = None -> wp never (put_cpu c (set_zombies (c_zombies k ++ [c_curthread k]) k);; goto c (Switching S_ZOMBIE)) s (fun _ s' => inv [] s').
Proof.
  intros Hp. pose proof (lookup_lt_Some _ _ _ Hc) as Hlt. apply wp_bind, wp_put_cpu. unfold goto. eapply wp_on_cpu; [cbn; by rewrite list_lookup_insert_eq|]. cbn [set_allcpus allcpus threads wchans numthreads]. rewrite list_insert_insert_eq.
  pose proof (i_cpus _ _ Hi c k Hc) as [O1 O2 O3 O4]. eapply (inv_cpu [] [] s c k); [done|done| | |intros E; by destruct (leave_place _ E)].
  - unfold occupants. rewrite Hrun. unfold running. cbn. rewrite andb_false_r, Hh. cbn. solve_Permutation.
  - split; cbn.
    + eapply is_thread_mono; [exact O1|]. intros th' _ [H1 _]. split; [done|]. unfold running. cbn. by rewrite andb_false_r.
    + done.
    + intros t [Ht| ->%list_elem_of_singleton]%elem_of_app; [eapply dead_moves; [by apply O3|]; left; apply leave_place|]. exists th. split; [done|]. split_and!; [apply leave_cpu|done|by right].
    + unfold place_ok. cbn. rewrite elem_of_app. right. by apply list_elem_of_singleton.
Qed.
End Leave.

Lemma thread_switch_ok s c k ns wc : inv [] s -> allcpus s !! c = Some k -> c_place k = Normal \/ c_place k = Yielding -> ns <> S_RUN ->
  (ns = S_ZOMBIE -> is_thread (threads s) (fun th => t_proc th = None) (c_curthread k)) -> wp never (thread_switch c ns wc) s (fun _ s' => inv [] s').
Proof.
  intros Hi Hc Hp Hns Hz. unfold thread_switch. apply wp_bind. eapply wp_get_cpu; [done|]. assert (Hh : in_hand (c_place k) = []) by (by destruct Hp as [-> | ->]).
  assert (Hsw : forall x, c_place k <> Switching x) by (intros x; by destruct Hp as [-> | ->]). destruct (c_isidle k) eqn:Hid; [by eapply resume_ok|].
  assert (Hrun : running k = true) by (unfold running; rewrite Hid; by destruct Hp as [-> | ->]). destruct (ok_cur _ _ _ _ (i_cpus _ _ Hi c k Hc)) as (th & Hth & Hcpu & _).
  apply wp_bind. eapply checkstack_ok; [done|done|]. destruct (bool_decide (ns = S_READY) && bool_decide (c_runqueue k = [])); [by eapply resume_ok|]. destruct ns; [done| | |].
  - by eapply leave_ready.
  - by eapply leave_sleep.
  - eapply leave_zombie; try done. destruct (Hz eq_refl) as (th' & Hth' & Hx). congruence.
Qed.

(** ** Beginning and ending a thread *)

Definition magic : list Z := [THREAD_STACK_MAGIC; THREAD_STACK_MAGIC; THREAD_STACK_MAGIC; THREAD_STACK_MAGIC].

Lemma detach_ok s c k : inv [] s -> allcpus s !! c = Some k -> running k = true -> is_Some (proc_of s k) -> wp never (thread_exit_detach c) s (fun _ s' => inv [] s').
Proof.
  intros Hi Hc Hrun [p Hp]. unfold proc_of in Hp. destruct (threads s !! c_curthread k) as [th|] eqn:Hth; [|done]. cbn in Hp. destruct (i_procs _ _ Hi _ th p Hth Hp) as [n Hn].
  assert (Hcpu : t_cpu th = Some c) by (by eapply (cur_cpu [] s c k)). destruct (ok_cur _ _ _ _ (i_cpus _ _ Hi c k Hc)) as (th' & Hth' & _ & Hst). rewrite Hth in Hth'. injection Hth' as <-.
  destruct (inv_leave [] s _ th p n Hi Hth Hp Hn) as [Hpos Hi']; [eapply (fits_running [] s c k); auto|]. unfold thread_exit_detach, proc_remthread. apply wp_bind. eapply wp_get_cpu; [done|].
  apply wp_bind. eapply wp_get_thread; [done|]. apply wp_bind, wp_kassert; [by rewrite Hp|]. apply wp_bind. eapply wp_deref; [done|]. wgo. eapply wp_deref; [done|].
  apply wp_bind, wp_kassert; [lia|]. wgo. eapply wp_on_thread; [exact Hth|]. exact Hi'.
Qed.

Lemma exit_ok s c k : inv [] s -> allcpus s !! c = Some k -> c_place k = Normal -> proc_of s k = None -> wp never (thread_exit c) s (fun _ s' => inv [] s').
Proof.
  intros Hi Hc Hp Hpr. destruct (ok_cur _ _ _ _ (i_cpus _ _ Hi c k Hc)) as (th & Hth & Hcpu & _). unfold proc_of in Hpr. rewrite Hth in Hpr. cbn in Hpr. unfold thread_exit. apply wp_bind. eapply wp_get_cpu; [done|].
  apply wp_bind. eapply wp_get_thread; [done|]. apply wp_bind, wp_kassert; [by rewrite bool_decide_true|]. apply wp_bind. eapply checkstack_ok; [done|done|]. eapply thread_switch_ok; [done|done|by left|done|]. intros _. by exists th.
Qed.

Section Fork.
Context (s : sys) (c : nat) (k : cpu) (t : tid) (Hi : inv [] s) (Hc : allcpus s !! c = Some k) (Ht : threads s !! t = None) (Hsz : Z.of_nat (size (threads s)) < 2 ^ 32 - 1).

Lemma new_not_cur d kd : allcpus s !! d = Some kd -> c_curthread kd <> t.
Proof. intros Hd E. destruct (ok_cur _ _ _ _ (i_cpus _ _ Hi d kd Hd)) as (th & Hth & _). congruence. Qed.

(** The new thread, in hand, with some stack and processor. *)
Lemma new_inv th : t_proc th = None -> magic_stack th -> inv [t] (set_threads (<[t := th]> (threads s)) s).
Proof. intros Hp Hm. by apply inv_new. Qed.

Lemma create_failed : wp never (thread_destroy c t) (set_threads (<[t := mkThread S_READY None None None true]> (threads s)) s) (fun _ s' => inv [] s').
Proof.
  eapply wp_mono; [eapply (thread_destroy_ok [] _ c k t); [by apply new_inv; [|left]|done|cbn; by rewrite lookup_insert_eq|done|done|]|by intros _ s' [_ ?]].
  intros d kd Hd. by apply new_not_cur with d.
Qed.

Lemma addthread_ok th p n (Q : Z -> sys -> Prop) : t_proc th = None -> magic_stack th -> numthreads s !! p = Some n ->
  (forall s', inv [t] s' -> threads s' !! t = Some (set_proc (Some p) th) -> allcpus s' = allcpus s -> Q 0 s') -> wp never (proc_addthread p t) (set_threads (<[t := th]> (threads s)) s) Q.
Proof.
  intros Hp Hm Hn HQ. pose proof (new_inv th Hp Hm) as Hi1. unfold proc_addthread. apply wp_bind. eapply wp_get_thread; [cbn; by rewrite lookup_insert_eq|]. apply wp_bind, wp_kassert; [by rewrite Hp|].
  wgo. eapply wp_deref; [exact Hn|]. wgo. eapply wp_on_thread; [cbn; by rewrite lookup_insert_eq|]. wgo. apply HQ; cbn; [|by rewrite lookup_insert_eq|done].
  eapply (inv_join [t] _ t th p n) in Hi1; [exact Hi1|cbn; by rewrite lookup_insert_eq|done|done|]. eapply fits_hand; [exact Hi1|left|]. intros d kd Hd E. by destruct (new_not_cur d kd Hd).
Qed.
End Fork.

Lemma fork_ok s c k a named stack proc : inv [] s -> allcpus s !! c = Some k -> c_place k = Normal -> is_Some (proc_of s k) -> (forall t, a = Some t -> threads s !! t = None) ->
  (forall q, proc = Some q -> is_Some (numthreads s !! q)) -> Z.of_nat (size (threads s)) < 2 ^ 32 - 1 -> wp never (thread_fork c a named stack proc) s (fun _ s' => inv [] s').
Proof.
  intros Hi Hc Hpl [p0 Hp0] Ha Hproc Hsz. unfold proc_of in Hp0. destruct (threads s !! c_curthread k) as [cur|] eqn:Hcur; [|done]. cbn in Hp0. assert (Hcpu : t_cpu cur = Some c) by (by eapply (cur_cpu [] s c k)).
  unfold thread_fork. apply wp_bind. eapply wp_get_cpu; [done|]. apply wp_bind. destruct a as [t|]; cbn [thread_create]; [|by wgo]. destruct named; [|by wgo]. specialize (Ha t eq_refl).
  apply wp_bind, wp_put_thread. wgo. eapply wp_on_thread; [cbn; by rewrite lookup_insert_eq|]. cbn [set_threads threads allcpus wchans numthreads]. rewrite insert_insert_eq. unfold set_stack at 1. cbn [t_state t_cpu t_proc t_fresh].
  destruct stack as [ws|]; [|apply wp_bind; eapply wp_mono; [by apply (create_failed s c k t Hi Hc Ha Hsz)|]; cbv beta; intros _ s' Hi'; by wgo].
  apply wp_bind. unfold thread_checkstack_init. eapply wp_on_thread; [cbn; by rewrite lookup_insert_eq|]. cbn [set_threads threads allcpus wchans numthreads]. rewrite insert_insert_eq. unfold set_stack at 1. cbn [t_state t_cpu t_proc t_fresh].
  assert (Hne : c_curthread k <> t) by congruence. apply wp_bind. eapply wp_get_thread; [cbn; rewrite lookup_insert_ne by congruence; exact Hcur|]. apply wp_bind. eapply wp_deref; [done|].
  apply wp_bind. eapply wp_on_thread; [cbn; by rewrite lookup_insert_eq|]. cbn [set_threads threads allcpus wchans numthreads]. rewrite insert_insert_eq. unfold set_tcpu at 1. cbn [t_state t_stack t_proc t_fresh].
  assert (Hp : exists p n, match proc with Some p => Some p | None => t_proc cur end = Some p /\ numthreads s !! p = Some n).
  { destruct proc as [q|]; [destruct (Hproc q eq_refl) as [n Hn]; by exists q, n|]. destruct (i_procs _ _ Hi _ _ _ Hcur Hp0) as [n Hn]. by exists p0, n. }
  destruct Hp as (p & n & Hp & Hn). apply wp_bind. eapply wp_deref; [exact Hp|]. apply wp_bind. eapply (addthread_ok s t Hi Ha Hsz _ p n); [done|by right|done|]. intros s' Hi' Ht' Hcs. cbn [Z.eqb negb].
  apply wp_bind. rewrite <- Hcs in Hc. eapply wp_done; [eapply (make_runnable_is c t false _ c k s' Ht'); done|]. wgo. eapply inv_queued; [done|done|done|done|by rewrite Hpl|by rewrite Hpl].
Qed.

(** ** Moving to another place *)

(** [k'] differs from [k] in the place, the clock and the interrupts. *)
Definition same_threads (k k' : cpu) : Prop :=
  c_curthread k' = c_curthread k /\ c_zombies k' = c_zombies k /\ c_isidle k' = c_isidle k /\ c_runqueue k' = c_runqueue k.
Definition switching (p : place) : bool := match p with Switching _ => true | _ => false end.

Lemma still H H' s c k k' : inv H s -> allcpus s !! c = Some k -> switching (c_place k) = false -> switching (c_place k') = false -> same_threads k k' ->
  in_hand (c_place k') ++ H' ≡ₚ in_hand (c_place k) ++ H -> place_ok (threads s) (allcpus s) c k' -> inv H' (set_allcpus (<[c := k']> (allcpus s)) s).
Proof.
  intros Hi Hc Hs Hs' (Ec & Ez & Eid & Erq) Hh Hp. assert (Hr : running k' = running k) by (unfold running; rewrite Eid; destruct (c_place k), (c_place k'); done).
  eapply inv_cpu; [done|done| |eapply cpu_ok_place; [by apply (i_cpus _ _ Hi c k Hc)|..]|]; try done.
  - unfold occupants. rewrite Hr, Ec, Ez, Erq, <- !(assoc_L (++)). by rewrite Hh.
  - intros E. by rewrite E in Hs.
  - by rewrite Hr.
  - intros E. by rewrite E in Hs.
Qed.

(** A processor that runs its thread or has been interrupted in [cpu_idle]. *)
Definition open (k : cpu) : Prop := c_place k = Normal \/ c_place k = Woken.
Lemma open_hand k : open k -> in_hand (c_place k) = [] /\ switching (c_place k) = false.
Proof. by intros [-> | ->]. Qed.

Lemma interrupted_ok s c k : inv [] s -> allcpus s !! c = Some k -> c_place k = Waiting -> wp never (goto c Woken) s (fun _ s' => inv [] s').
Proof.
  intros Hi Hc Hp. unfold goto. eapply wp_on_cpu; [done|]. pose proof (ok_place _ _ _ _ (i_cpus _ _ Hi c k Hc)) as Hok. unfold place_ok in Hok. rewrite Hp in Hok.
  eapply (still [] [] s c k); [done|done|by rewrite Hp|done|done|by rewrite Hp|]. apply Hok.
Qed.

Lemma hardclock_ok s c k : inv [] s -> allcpus s !! c = Some k -> open k -> wp never (hardclock c) s (fun _ s' => inv [] s').
Proof.
  intros Hi Hc Ho. pose proof (lookup_lt_Some _ _ _ Hc) as Hlt. destruct (open_hand k Ho) as [Hh Hs]. unfold hardclock. apply wp_bind. eapply wp_get_cpu; [done|]. apply wp_bind, wp_put_cpu.
  destruct (_ =? 0); unfold goto; (eapply wp_on_cpu; [cbn; by rewrite list_lookup_insert_eq|]); cbn [set_allcpus allcpus threads wchans numthreads]; rewrite list_insert_insert_eq;
    (eapply (still [] [] s c k); [done|done|done|done|done|by rewrite Hh|]); [|done]. unfold place_ok. cbn. lia.
Qed.

Lemma ipi_ok s c k : inv [] s -> allcpus s !! c = Some k -> open k -> wp never (interprocessor_interrupt c) s (fun _ s' => inv [] s').
Proof.
  intros Hi Hc Ho. pose proof (lookup_lt_Some _ _ _ Hc) as Hlt. destruct (open_hand k Ho) as [Hh Hs]. unfold interprocessor_interrupt, goto. apply wp_bind. eapply wp_get_cpu; [done|].
  assert (Hgo : forall p k', p = Halted \/ p = Clearing -> same_threads k k' -> inv [] (set_allcpus (<[c := set_place p k']> (allcpus s)) s)).
  { intros p k' Hp Hk. eapply (still [] [] s c k); [done|done|done|by destruct Hp as [-> | ->]|done|rewrite Hh; by destruct Hp as [-> | ->]|by destruct Hp as [-> | ->]]. }
  destruct (Z.testbit _ IPI_PANIC); [eapply wp_on_cpu; [done|]; apply Hgo; [by left|done]|]. destruct (Z.testbit _ IPI_OFFLINE); [eapply wp_on_cpu; [done|]; apply Hgo; [by left|done]|].
  apply wp_bind. destruct (Z.testbit _ IPI_TLBSHOOTDOWN).
  - eapply wp_on_cpu; [done|]. apply wp_bind. eapply wp_on_cpu; [cbn; by rewrite list_lookup_insert_eq|]. eapply wp_on_cpu; [cbn; by rewrite list_insert_insert_eq, list_lookup_insert_eq|].
    cbn [set_allcpus allcpus threads wchans numthreads]. rewrite !list_insert_insert_eq. apply Hgo; [by right|done].
  - wgo. eapply wp_on_cpu; [done|]. eapply wp_on_cpu; [cbn; by rewrite list_lookup_insert_eq|]. cbn [set_allcpus allcpus threads wchans numthreads]. rewrite !list_insert_insert_eq. apply Hgo; [by right|done].
Qed.

Lemma ipi_done_ok s c k : inv [] s -> allcpus s !! c = Some k -> c_place k = Clearing -> wp never (interrupt_clear c) s (fun _ s' => inv [] s').
Proof.
  intros Hi Hc Hp. pose proof (lookup_lt_Some _ _ _ Hc) as Hlt. unfold interrupt_clear, lamebus_clear_ipi, resume. apply wp_bind. eapply wp_on_cpu; [done|]. eapply wp_on_cpu; [cbn; by rewrite list_lookup_insert_eq|].
  cbn [set_allcpus allcpus threads wchans numthreads c_isidle set_line]. rewrite list_insert_insert_eq. eapply (still [] [] s c k); [done|done|by rewrite Hp|by destruct (c_isidle k)|done|rewrite Hp; by destruct (c_isidle k)|].
  unfold place_ok. cbn. by destruct (c_isidle k) eqn:E.
Qed.

Lemma broadcast_ok c code n : forall s i, inv [] s -> 0 <= code < 32 -> (i + n <= length (allcpus s))%nat -> wp never (ipi_broadcast_loop c code i n) s (fun _ s' => inv [] s').
Proof.
  induction n as [|n IH]; intros s i Hi Hcode Hn; cbn [ipi_broadcast_loop]; [by wgo|]. apply wp_bind. case_bool_decide as Hic; [wgo; apply IH; [done|done|lia]|].
  destruct (lookup_lt_is_Some_2 (allcpus s) i) as [k Hk]; [lia|]. eapply wp_done; [by apply (ipi_send_is i code k s)|]. apply IH; [|done|cbn; rewrite length_insert; lia].
  pose proof (i_cpus _ _ Hi i k Hk) as [O1 O2 O3 O4]. eapply (inv_cpu [] [] s i k); [done|done|done| |by intros E; left]. split; [done|done|done|]. unfold place_ok in *. cbn [set_line set_pending c_place c_ipi_line c_ipi_pending c_isidle c_runqueue c_curthread c_zombies].
  destruct (c_place k); try done. destruct O4 as [O4 O5]. split; [done|]. destruct O5 as [O5|[_ O5]]; [by left|]. right. split; [done|]. by rewrite Z.lor_spec, O5.
Qed.

(** ** Waking *)

Lemma to_hand s c k l : inv l s -> allcpus s !! c = Some k -> open k -> (forall t, t ∈ l -> is_thread (threads s) (asleep (allcpus s) t) t) -> wp never (goto c (Waking l)) s (fun _ s' => inv [] s').
Proof.
  intros Hi Hc Ho Hl. destruct (open_hand k Ho) as [Hh Hs]. unfold goto. eapply wp_on_cpu; [done|]. eapply (still l [] s c k); [done|done|done|done|done| |exact Hl]. rewrite Hh. cbn. by rewrite app_nil_r.
Qed.

Lemma wakeone_ok s c k wc : inv [] s -> allcpus s !! c = Some k -> open k -> wp never (wakeone c wc) s (fun _ s' => inv [] s').
Proof.
  intros Hi Hc Ho. unfold wakeone. wgo. destruct (wchans s !! wc) as [[|t rest]|] eqn:Ew; cbn [default wchan_wakeone]; [by wgo| |by wgo].
  pose proof (i_wchans _ _ Hi wc (t :: rest)) as Hw. wgo. eapply (to_hand _ c k [t]); [|done|done|].
  - eapply (inv_wchan []); [done|rewrite Ew; cbn; solve_Permutation|]. intros u Hu. eapply Hw; [done|by right].
  - intros u ->%list_elem_of_singleton. eapply Hw; [done|left].
Qed.

Lemma wakeall_ok s c k wc : inv [] s -> allcpus s !! c = Some k -> open k -> wp never (wakeall c wc) s (fun _ s' => inv [] s').
Proof.
  intros Hi Hc Ho. unfold wakeall. wgo. cbn [wchan_wakeall]. wgo. eapply (to_hand _ c k); [|done|done|].
  - eapply (inv_wchan []); [done|cbn; solve_Permutation|]. by intros u Hu%elem_of_nil.
  - cbn. intros u Hu. destruct (wchans s !! wc) as [l|] eqn:Ew; [|by apply elem_of_nil in Hu]. by eapply (i_wchans _ _ Hi wc l).
Qed.

Lemma queued_place c t p k : queued c c t (set_place p k) = set_place p (queued c c t k).
Proof. unfold queued. rewrite bool_decide_true by done. cbn. by rewrite !andb_false_r. Qed.

Lemma wake_next_ok s c k l : inv [] s -> allcpus s !! c = Some k -> c_place k = Waking l -> (forall t th d, head l = Some t -> threads s !! t = Some th -> t_cpu th = Some d -> unlocked s d) ->
  wp never (wake_next c l) s (fun _ s' => inv [] s').
Proof.
  intros Hi Hc Hp Hfree. pose proof (lookup_lt_Some _ _ _ Hc) as Hlt. pose proof (ok_place _ _ _ _ (i_cpus _ _ Hi c k Hc)) as Hok. unfold place_ok in Hok. rewrite Hp in Hok. destruct l as [|t l]; cbn [wake_next].
  { eapply resume_ok; [done|done|by rewrite Hp|by rewrite Hp]. }
  destruct (Hok t) as (th & Hth & d & Hd & Hdlt & _); [left|]. destruct (lookup_lt_is_Some_2 _ _ Hdlt) as [kd Hkd]. pose proof (Hfree t th d eq_refl Hth Hd) as Hun.
  set (k1 := set_place (Waking l) k). assert (Hi1 : inv [t] (set_allcpus (<[c := k1]> (allcpus s)) s)).
  { eapply (still []); [done|done|by rewrite Hp|done|done|rewrite Hp; cbn; solve_Permutation|]. unfold place_ok. cbn. intros u Hu. apply Hok. by right. }
  apply wp_bind. eapply wp_done; [by apply (make_runnable_is c t false th d kd s)|]. unfold goto. destruct (decide (d = c)) as [->|Hne].
  - rewrite Hc in Hkd. injection Hkd as <-. eapply wp_on_cpu; [cbn; by rewrite list_lookup_insert_eq|]. cbn [set_allcpus allcpus set_threads threads wchans numthreads]. rewrite list_insert_insert_eq, <- queued_place. fold k1.
    eapply (inv_queued [] _ c c t th k1) in Hi1; [|done|done|cbn; by rewrite list_lookup_insert_eq|done|done]. cbn in Hi1. by rewrite list_insert_insert_eq in Hi1.
  - eapply wp_on_cpu; [cbn; by rewrite list_lookup_insert_ne|]. cbn [set_allcpus allcpus set_threads threads wchans numthreads]. rewrite list_insert_insert_ne by done. fold k1.
    eapply (inv_queued [] _ c d t th kd) in Hi1; [exact Hi1|done|done|cbn; by rewrite list_lookup_insert_ne|by intros ns E; apply (Hun kd ns Hkd)|done].
Qed.

(** ** Migration *)

Lemma DIVROUNDUP_nonneg a b : 0 <= b -> 0 <= DIVROUNDUP a b.
Proof.
  intros Hb. unfold DIVROUNDUP. pose proof (u32_range (a + b - 1)) as Hr. unfold is_u32 in Hr. destruct (Z.eq_dec b 0) as [->|]; [by rewrite Zdiv_0_r|]. apply Z.div_pos; lia.
Qed.

Lemma count_ok s c k i my total : inv [] s -> allcpus s !! c = Some k -> c_place k = Counting i my total -> wp never (migrate_count c i my total) s (fun _ s' => inv [] s').
Proof.
  intros Hi Hc Hp. pose proof (ok_place _ _ _ _ (i_cpus _ _ Hi c k Hc)) as Hok. unfold place_ok in Hok. rewrite Hp in Hok. unfold migrate_count, goto. wgo.
  assert (Hgo : forall p, switching p = false -> in_hand p = [] -> place_ok (threads s) (allcpus s) c (set_place p k) -> wp never (on_cpu c (set_place p)) s (fun _ s' => inv [] s')).
  { intros p H1 H2 H3. eapply wp_on_cpu; [done|]. eapply (still [] [] s c k); [done|done|by rewrite Hp|done|done|rewrite Hp; cbn; by rewrite H2|done]. }
  case_bool_decide as Hn.
  - destruct (lookup_lt_is_Some_2 _ _ Hn) as [ki Hki]. apply wp_bind. eapply wp_get_cpu; [done|]. apply Hgo; [done|done|]. unfold place_ok. cbn. case_bool_decide; [|lia]. subst i. rewrite Hc in Hki. injection Hki as <-. lia.
  - destruct (Z.ltb_spec my (DIVROUNDUP total (Z.of_nat (length (allcpus s))))); apply Hgo; try done. unfold place_ok. cbn. pose proof (DIVROUNDUP_nonneg total (Z.of_nat (length (allcpus s)))). lia.
Qed.

Lemma set_runqueue_id k : set_runqueue (c_runqueue k) k = k.
Proof. by destruct k. Qed.
Lemma set_allcpus_id s : set_allcpus (allcpus s) s = s.
Proof. by destruct s. Qed.

Lemma take_loop_is c n : forall s k q vs vs', allcpus s !! c = Some k -> c_runqueue k = q ++ vs -> length vs = n ->
  take_loop c n vs' s = Done (vs ++ vs') (set_allcpus (<[c := set_runqueue q k]> (allcpus s)) s).
Proof.
  induction n as [|n IH]; intros s k q vs vs' Hc Hq Hn.
  - destruct vs; [|done]. rewrite app_nil_r in Hq. cbn. by rewrite <- Hq, set_runqueue_id, list_insert_id, set_allcpus_id.
  - pose proof (lookup_lt_Some _ _ _ Hc) as Hlt. destruct vs as [|t vs _] using rev_ind; [done|]. rewrite length_app in Hn. cbn in Hn. rewrite (assoc_L (++)) in Hq. cbn [take_loop].
    unfold get_cpu, put_cpu, mbind, M_bind, get, modify, deref. rewrite Hc, Hq, last_snoc, removelast_last. erewrite (IH _ _ q vs (t :: vs')); [|cbn; by rewrite list_lookup_insert_eq|done|lia].
    cbn. rewrite list_insert_insert_eq, <- (assoc_L (++)). done.
Qed.

Lemma take_ok s c k share m : inv [] s -> allcpus s !! c = Some k -> c_place k = Taking share m -> wp never (migrate_take c share m) s (fun _ s' => inv [] s').
Proof.
  intros Hi Hc Hp. pose proof (lookup_lt_Some _ _ _ Hc) as Hlt. pose proof (i_cpus _ _ Hi c k Hc) as [O1 O2 O3 O4]. unfold place_ok in O4. rewrite Hp in O4.
  set (n := (length (c_runqueue k) - Z.to_nat m)%nat). set (q := take n (c_runqueue k)). set (vs := drop n (c_runqueue k)). assert (Hq : c_runqueue k = q ++ vs) by (symmetry; apply take_drop).
  assert (Hvs : length vs = Z.to_nat m) by (unfold vs; rewrite length_drop; unfold n; lia). unfold migrate_take. apply wp_bind. eapply wp_done; [by apply (take_loop_is c _ s k q vs [])|].
  unfold goto. eapply wp_on_cpu; [cbn; by rewrite list_lookup_insert_eq|]. cbn [set_allcpus allcpus threads wchans numthreads]. rewrite list_insert_insert_eq, app_nil_r.
  eapply (inv_cpu [] [] s c k); [done|done| | |unfold lag_kept; by rewrite Hp].
  - unfold occupants, running. cbn. rewrite Hp, Hq. cbn. solve_Permutation.
  - split; cbn.
    + eapply is_thread_mono; [exact O1|]. unfold running. cbn. by rewrite Hp.
    + intros t Ht. apply O2. rewrite Hq, elem_of_app. by left.
    + intros t Ht. eapply dead_moves; [by apply O3|]. left. by rewrite Hp.
    + unfold place_ok. cbn. split; [lia|]. intros t Ht. apply O2. rewrite Hq, elem_of_app. by right.
Qed.

Lemma inv_hands H H' s : inv H s -> H ≡ₚ H' -> inv H' s.
Proof. intros [I1 I2 I3 I4 I5 I6 I7] Hp. split; try done. by rewrite <- Hp. Qed.

(** What the loop over one processor keeps; [P] is the place the processor [c] leaves it for,
    with the victims in hand. *)
Definition sending (c : nat) (k : cpu) (P : place) (vs : list tid) (s : sys) : Prop :=
  allcpus s !! c = Some k /\ inv vs (set_allcpus (<[c := set_place P k]> (allcpus s)) s) /\ forall t, t ∈ vs -> is_thread (threads s) (ready_on c) t.

Lemma send_one c k P i ki t vs s : sending c k P (t :: vs) s -> i <> c -> allcpus s !! i = Some ki -> switching (c_place ki) = false -> t <> c_curthread k ->
  wp never (on_thread t (set_tcpu i);; put_cpu i (set_runqueue (c_runqueue ki ++ [t]) ki);; if c_isidle ki then ipi_send i IPI_UNIDLE else mret tt) s
    (fun _ s' => sending c k P vs s' /\ allcpus s' !! i = Some (queued c i t ki)).
Proof.
  intros (Hc & Hi & Hr) Hne Hki Hsw Hcur. pose proof (lookup_lt_Some _ _ _ Hki) as Hlt. destruct (Hr t) as (th & Hth & Hst & Hcpu); [left|]. set (s0 := set_allcpus (<[c := set_place P k]> (allcpus s)) s) in Hi.
  destruct (queued_fields c i t ki) as (Ecur & Ez & Eid & Erq & Ep). pose proof (lookup_lt_Some _ _ _ Hc) as Hltc.
  set (T := <[t := set_tcpu i th]> (threads s)). assert (Hi1 : inv (t :: vs) (set_threads T s0)).
  { eapply (inv_thread (t :: vs) s0 t th); [exact Hi|exact Hth|done|apply (i_stacks _ _ Hi t th Hth)|]. eapply fits_hand; [exact Hi|left|]. intros d kd Hd E. exfalso. pose proof (cur_cpu _ _ d kd t th Hi Hd E Hth) as Hd'. rewrite Hcpu in Hd'. injection Hd' as <-.
    cbn in Hd. rewrite list_lookup_insert_eq in Hd by done. injection Hd as <-. by apply Hcur. }
  assert (Hi2 : inv vs (set_allcpus (<[i := queued c i t ki]> (allcpus s0)) (set_threads T s0))).
  { apply (inv_enqueue vs _ i ki _ t Hi1); try done.
    - cbn. by rewrite list_lookup_insert_ne.
    - exists (set_tcpu i th). cbn. unfold T. by rewrite lookup_insert_eq.
    - intros ns E. by rewrite E in Hsw.
    - intros E. apply queued_unidles; [|done]. pose proof (ok_place _ _ _ _ (i_cpus _ _ Hi1 i ki ltac:(cbn; by rewrite list_lookup_insert_ne))) as Hok. unfold place_ok in Hok. rewrite E in Hok. apply Hok. }
  assert (Hnd : NoDup (t :: vs)) by (pose proof (inv_nodup _ _ Hi) as Hn; by apply NoDup_app in Hn as (_ & _ & ?)). apply NoDup_cons in Hnd as [Hnd _].
  assert (Hfin : sending c k P vs (set_allcpus (<[i := queued c i t ki]> (allcpus s)) (set_threads T s)) /\ (<[i := queued c i t ki]> (allcpus s)) !! i = Some (queued c i t ki)).
  { rewrite list_lookup_insert_eq by done. split; [|done]. split_and!.
    - cbn. by rewrite list_lookup_insert_ne.
    - cbn in Hi2 |- *. by rewrite list_insert_insert_ne by done.
    - intros u Hu. cbn. unfold T. eapply is_thread_insert; [apply Hr; by right|]. intros ->. done. }
  apply wp_bind. eapply wp_on_thread; [done|]. fold T. apply wp_bind, wp_put_cpu. unfold queued in Hfin. rewrite (bool_decide_false (i = c)) in Hfin by done. cbn [negb] in Hfin. rewrite andb_true_r in Hfin.
  unfold queued. rewrite (bool_decide_false (i = c)) by done. cbn [negb]. rewrite andb_true_r. destruct (c_isidle ki); [|by wgo].
  eapply wp_done; [apply ipi_send_is; [cbn; by rewrite list_lookup_insert_eq|done]|]. cbn [set_allcpus allcpus set_threads threads wchans numthreads]. rewrite list_insert_insert_eq. exact Hfin.
Qed.

Lemma send_loop_ok c k P i share n : forall vs s ki, sending c k P vs s -> i <> c -> allcpus s !! i = Some ki -> switching (c_place ki) = false -> (n <= length vs)%nat ->
  wp never (send_loop c i share n vs) s (fun r s' => sending c k P (snd r) s' /\ (fst r <= length (snd r))%nat).
Proof.
  induction n as [|n IH]; intros vs s ki Hs Hne Hki Hsw Hlen; cbn [send_loop]; [by wgo|]. apply wp_bind. eapply wp_get_cpu; [done|]. destruct (_ <? share); [|by wgo].
  pose proof Hs as (Hc & Hi & Hr). apply wp_bind. eapply wp_get_cpu; [done|]. destruct vs as [|t vs]; [cbn in Hlen; lia|]. apply wp_bind. eapply wp_deref; [done|]. cbn [tail]. cbn in Hlen. case_bool_decide as Hcur.
  - apply (IH _ s ki); [|done|done|done|rewrite length_app; cbn; lia]. split_and!; [done| |].
    + eapply inv_hands; [exact Hi|]. solve_Permutation.
    + intros u Hu. apply Hr. rewrite elem_of_app, list_elem_of_singleton in Hu. rewrite elem_of_cons. tauto.
  - eapply (send_one c k P i ki t vs) in Hs as Hw; [|done|done|done|done].
    apply wp_never in Hw as ([] & s' & E & Hs' & Hki'). apply bind_Done in E as ([] & s1 & E1 & E). apply bind_Done in E as ([] & s2 & E2 & E3).
    apply wp_bind. eapply wp_done; [exact E1|]. apply wp_bind. eapply wp_done; [exact E2|]. apply wp_bind. eapply wp_done; [exact E3|]. apply (IH vs s' (queued c i t ki)); [done|done|done| |lia].
    destruct (queued_fields c i t ki) as (_ & _ & _ & _ & Ep). by rewrite Ep.
Qed.

Lemma send_ok s c k i share m vs : inv [] s -> allcpus s !! c = Some k -> c_place k = Sending i share m vs -> unlocked s i -> wp never (migrate_send c i share m vs) s (fun _ s' => inv [] s').
Proof.
  intros Hi Hc Hp Hun. pose proof (lookup_lt_Some _ _ _ Hc) as Hlt. pose proof (ok_place _ _ _ _ (i_cpus _ _ Hi c k Hc)) as Hok. unfold place_ok in Hok. rewrite Hp in Hok. destruct Hok as [Hm Hr].
  unfold migrate_send, goto. wgo.
  assert (Hgo : forall p, switching p = false -> in_hand p = vs -> place_ok (threads s) (allcpus s) c (set_place p k) -> wp never (on_cpu c (set_place p)) s (fun _ s' => inv [] s')).
  { intros p H1 H2 H3. eapply wp_on_cpu; [done|]. eapply (still [] [] s c k); [done|done|by rewrite Hp|done|done|rewrite Hp; cbn; by rewrite H2|done]. }
  destruct (bool_decide (i < length (allcpus s))%nat && (0 <? m)) eqn:E; [|by apply Hgo]. apply andb_true_iff in E as [E _]. apply bool_decide_eq_true in E. case_bool_decide as Hic; [by apply Hgo|].
  destruct (lookup_lt_is_Some_2 _ _ E) as [ki Hki]. set (P := Sending (S i) share 0 []).
  assert (Hs : sending c k P vs s). { split_and!; [done| |done]. eapply (still [] vs s c k); [done|done|by rewrite Hp|done|done|rewrite Hp; cbn; by rewrite app_nil_r|]. unfold place_ok. cbn. split; [lia|]. by intros t Ht%elem_of_nil. }
  apply wp_bind. eapply wp_mono; [eapply (send_loop_ok c k P i share _ vs s ki Hs Hic Hki); [|lia]|].
  - specialize (Hun ki). destruct (c_place ki); try done. by destruct (Hun newstate Hki).
  - cbv beta. intros [m' vs'] s' [(Hc' & Hi' & Hr') Hm']. cbn [fst snd] in *. eapply wp_on_cpu; [done|]. pose proof (lookup_lt_Some _ _ _ Hc') as Hlt'.
    eapply (still vs' [] _ c (set_place P k) (set_place (Sending (S i) share (Z.of_nat m') vs') k)) in Hi'; [|cbn; by rewrite list_lookup_insert_eq|done|done|done|cbn; by rewrite app_nil_r|unfold place_ok; cbn; split; [lia|done]].
    cbn in Hi'. by rewrite list_insert_insert_eq in Hi'.
Qed.

Lemma return_ok s c k vs : inv [] s -> allcpus s !! c = Some k -> c_place k = Returning vs -> wp never (migrate_return c vs) s (fun _ s' => inv [] s').
Proof.
  intros Hi Hc Hp. pose proof (lookup_lt_Some _ _ _ Hc) as Hlt. pose proof (i_cpus _ _ Hi c k Hc) as [O1 O2 O3 O4]. unfold place_ok in O4. rewrite Hp in O4. unfold migrate_return, goto. apply wp_bind. eapply wp_on_cpu; [done|].
  eapply wp_on_cpu; [cbn; by rewrite list_lookup_insert_eq|]. cbn [set_allcpus allcpus threads wchans numthreads]. rewrite list_insert_insert_eq. eapply (inv_cpu [] [] s c k); [done|done| | |unfold lag_kept; by rewrite Hp].
  - unfold occupants, running. cbn. rewrite Hp. cbn. solve_Permutation.
  - split; cbn.
    + eapply is_thread_mono; [exact O1|]. unfold running. cbn. by rewrite Hp.
    + intros t [Ht|Ht]%elem_of_app; auto.
    + intros t Ht. eapply dead_moves; [by apply O3|]. left. by rewrite Hp.
    + done.
Qed.

End ThreadsSteps.
