(* ===== verification/ThreadsTheorems.v ===== *)
(** * Threads on several processors: the theorems *)
From S2P Require Import Prelude Wp Synch Threads ThreadsProofs ThreadsSteps.
Import Synch Threads ThreadsInv ThreadsProofs ThreadsSteps.

Module ThreadsTheorems.

(** ** Starting *)

Definition no_cpus (kproc : Z) : sys := mkSys ∅ [] ∅ {[ kproc := 0 ]}.

(** The processors are created one after the other, before any of them switches. *)
Inductive booted (kproc : Z) : sys -> Prop :=
  | boot_first t s : thread_bootstrap (Some t) kproc (no_cpus kproc) = Done tt s -> booted kproc s
  | boot_next t ws s c s' : booted kproc s -> threads s !! t = None -> Z.of_nat (size (threads s)) < 2 ^ 32 - 1 -> cpu_create (Some t) true (Some ws) kproc s = Done c s' -> booted kproc s'.

Definition reachable (kproc : Z) (s : sys) : Prop := exists s0, booted kproc s0 /\ rtc step s0 s.

(** A processor joins with its first thread. *)
Lemma inv_new_cpu s t th : inv [t] s -> threads s !! t = Some th -> t_cpu th = Some (length (allcpus s)) -> t_state th = S_READY ->
  inv [] (set_allcpus (allcpus s ++ [mkCpu t [] 0 false [] 0 [] false Normal]) s).
Proof.
  intros Hi Ht Hcpu Hst. set (k := mkCpu t [] 0 false [] 0 [] false Normal). destruct Hi as [I1 I2 I3 I4 I5 I6 I7].
  assert (Has : forall u, is_thread (threads s) (asleep (allcpus s) u) u -> is_thread (threads s) (asleep (allcpus s ++ [k]) u) u).
  { intros u Hu. eapply is_thread_mono; [exact Hu|]. intros thu _ (c & Hc & Hlt & Hs). exists c. rewrite length_app. split_and!; [done|lia|]. destruct Hs as [|(kc & Hkc & ?)]; [by left|]. right. exists kc. split; [|done]. by apply lookup_app_l_Some. }
  split; cbn; try done.
  - rewrite <- I1. unfold everywhere. cbn. rewrite fmap_app, concat_app. cbn. solve_Permutation.
  - intros c kc Hc. apply lookup_app_Some in Hc as [Hc|[Hlen Hc]].
    + destruct (I2 c kc Hc) as [O1 O2 O3 O4]. split; [done|done|done|]. unfold place_ok in *. destruct (c_place kc); try done. auto.
    + apply list_lookup_singleton_Some in Hc as [Hc <-]. replace c with (length (allcpus s)) by lia. split; [|by intros u Hu%elem_of_nil|by intros u Hu%elem_of_nil|done]. exists th. cbn. auto.
  - eauto.
Qed.

Lemma cpu_create_ok s t stack kproc n : inv [] s -> threads s !! t = None -> Z.of_nat (size (threads s)) < 2 ^ 32 - 1 -> numthreads s !! kproc = Some n -> (allcpus s <> [] -> is_Some stack) ->
  wp never (cpu_create (Some t) true stack kproc) s
    (fun c s' => inv [] s' /\ c = length (allcpus s) /\ numthreads s' !! kproc = Some (u32 (n + 1)) /\
       exists k th, allcpus s' !! c = Some k /\ threads s' !! c_curthread k = Some th /\ t_proc th = Some kproc).
Proof.
  intros Hi Ht Hsz Hn Hstk. set (c := length (allcpus s)). set (st := if bool_decide (c = 0%nat) then None else Some magic). set (th := mkThread S_READY st (Some c) None false).
  assert (Hm : magic_stack th) by (unfold th, st; case_bool_decide; [by left|by right]). pose proof (inv_new [] s t th Hi Ht eq_refl Hm Hsz) as Hi1.
  assert (Hnc : forall d kd, allcpus s !! d = Some kd -> c_curthread kd <> t) by (intros d kd Hd; by apply (new_not_cur s t Hi Ht d)).
  eapply (inv_join [t] _ t th kproc n) in Hi1; [|cbn; by rewrite lookup_insert_eq|done|done|eapply fits_hand; [exact Hi1|left|]; intros d kd Hd E; by destruct (Hnc d kd Hd)].
  eapply (inv_new_cpu _ t (set_proc (Some kproc) th)) in Hi1; [|cbn; by rewrite lookup_insert_eq|done|done]. cbn in Hi1. rewrite insert_insert_eq in Hi1.
  unfold cpu_create. cbn [thread_create]. wgo. unfold put_thread. wgo. eapply wp_on_thread; [cbn; by rewrite lookup_insert_eq|].
  cbn [set_threads set_allcpus threads allcpus wchans numthreads]. fold c. rewrite insert_insert_eq. unfold set_tcpu. cbn [t_state t_stack t_proc t_fresh].
  set (s1 := set_threads (<[t := set_fresh false th]> (threads s)) (set_allcpus (allcpus s ++ [mkCpu t [] 0 false [] 0 [] false Normal]) s)).
  match goal with |- wp _ (mbind ?K ?m) ?s0 ?Q => enough (Hk : wp never (mbind K (mret tt)) (set_threads (<[t := mkThread S_READY st (Some c) None true]> (threads s)) (set_allcpus (allcpus s ++ [mkCpu t [] 0 false [] 0 [] false Normal]) s)) Q) end.
  - apply wp_bind. unfold st in Hk. case_bool_decide as Hc0; [exact Hk|]. destruct stack as [ws|]; [|destruct (Hstk ltac:(intros E; apply Hc0; unfold c; by rewrite E)); done].
    apply wp_bind. eapply wp_on_thread; [cbn; by rewrite lookup_insert_eq|]. unfold thread_checkstack_init. eapply wp_on_thread; [cbn; by rewrite lookup_insert_eq|]. cbn [set_threads threads allcpus wchans numthreads]. rewrite !insert_insert_eq. exact Hk.
  - wgo. eapply wp_on_thread; [cbn; by rewrite lookup_insert_eq|]. cbn [set_threads set_allcpus threads allcpus wchans numthreads]. rewrite insert_insert_eq. unfold set_fresh. cbn [t_state t_stack t_cpu t_proc].
    unfold proc_addthread. apply wp_bind, wp_bind. eapply wp_get_thread; [cbn; by rewrite lookup_insert_eq|]. apply wp_bind, wp_kassert; [done|]. wgo. eapply wp_deref; [exact Hn|]. wgo.
    eapply wp_on_thread; [cbn; by rewrite lookup_insert_eq|]. cbn [set_threads set_numthreads threads allcpus wchans numthreads]. rewrite insert_insert_eq. wgo. cbn [Z.eqb negb]. wgo. split_and!.
    + exact Hi1.
    + done.
    + cbn. by rewrite lookup_insert_eq.
    + eexists _, _. cbn. split; [apply list_lookup_middle; done|]. cbn. by rewrite lookup_insert_eq.
Qed.

Lemma inv_no_cpus kproc : inv [] (no_cpus kproc).
Proof.
  split; cbn; try done.
  intros p n Hn. apply lookup_singleton_Some in Hn as [<- <-]. by vm_compute.
Qed.

Lemma bootstrap_ok t kproc : wp never (thread_bootstrap (Some t) kproc) (no_cpus kproc) (fun _ s => inv [] s /\ is_Some (numthreads s !! kproc)).
Proof.
  unfold thread_bootstrap. wgo. eapply wp_use; [eapply (cpu_create_ok (no_cpus kproc) t None kproc 0)|]; [apply inv_no_cpus|done|done|by apply lookup_singleton_eq|done|].
  cbv beta. intros c s (Hi & -> & Hn & k & th & Hk & Hth & Hp). apply wp_bind. eapply wp_get_cpu; [done|]. apply wp_bind. eapply wp_get_thread; [done|]. apply wp_kassert; [by rewrite bool_decide_true|]. split; [done|eauto].
Qed.

Lemma booted_inv kproc s : booted kproc s -> inv [] s /\ is_Some (numthreads s !! kproc).
Proof.
  induction 1 as [t s Hb|t ws s c s' _ [Hi [n Hn]] Ht Hsz Hc].
  - pose proof (bootstrap_ok t kproc) as Hw. unfold wp in Hw. by rewrite Hb in Hw.
  - pose proof (cpu_create_ok s t (Some ws) kproc n Hi Ht Hsz Hn ltac:(eauto)) as Hw. unfold wp in Hw. rewrite Hc in Hw. destruct Hw as (Hi' & _ & Hn' & _). eauto.
Qed.

(** ** Running *)

Lemma threads_run_ok s c a : inv [] s -> enabled s c a -> wp never (run c a) s (fun _ s' => inv [] s').
Proof.
  intros Hi (k & Hc & Hcan). unfold run. apply wp_bind. eapply wp_get_cpu; [done|]. unfold can in Hcan.
  destruct a, (c_place k) eqn:Hp; try done; try (destruct Hcan; fail).
  all: try (by eapply hardclock_ok; [done|done|unfold open; auto]); try (by eapply ipi_ok; [done|done|unfold open; auto]); try (by eapply wakeone_ok; [done|done|unfold open; auto]); try (by eapply wakeall_ok; [done|done|unfold open; auto]).
  - destruct Hcan as (H1 & H2 & H3 & H4). apply wp_bind. eapply wp_mono; [by eapply fork_ok|]. done.
  - eapply thread_switch_ok; [done|done|by left|done|done].
  - eapply thread_switch_ok; [done|done|by left|done|done].
  - eapply detach_ok; [done|done| |done]. pose proof (ok_place _ _ _ _ (i_cpus _ _ Hi c k Hc)) as Hok. unfold place_ok in Hok. rewrite Hp in Hok. unfold running. by rewrite Hok, Hp.
  - by eapply exit_ok.
  - eapply wp_mono; [by eapply switch_end_ok|]. by intros _ s' [? _].
  - by eapply wake_next_ok.
  - by eapply interrupted_ok.
  - eapply wp_mono; [eapply switch_pick_ok; [done|done|]|by intros _ s' [? _]]. pose proof (ok_place _ _ _ _ (i_cpus _ _ Hi c k Hc)) as Hok. unfold place_ok in Hok. rewrite Hp in Hok. split_and!; [done|by rewrite Hp|]. intros ns E. congruence.
  - by eapply count_ok.
  - by eapply take_ok.
  - by eapply send_ok.
  - by eapply return_ok.
  - eapply thread_switch_ok; [done|done|by right|done|done].
  - by eapply ipi_done_ok.
  - unfold thread_shutdown, ipi_broadcast. wgo. by apply broadcast_ok.
Qed.

Lemma threads_reachable_inv kproc s : reachable kproc s -> inv [] s.
Proof.
  intros (s0 & Hb & Hr). apply booted_inv in Hb as [Hi _]. induction Hr as [|s s' s'' [c a He Hrun] _ IH]; [done|]. apply IH. pose proof (threads_run_ok s c a Hi He) as Hw. unfold wp in Hw. by rewrite Hrun in Hw.
Qed.

(** C15: the scheduler never fails.  Whatever threads do on however many processors, fork,
    yield, sleep, wake each other, exit, migrate, be interrupted, in every interleaving of
    the sections that the run queue locks make, each section runs to its end: no assertion of
    thread.c fails, no thread is taken from an empty list, no freed thread is touched. *)
Theorem threads_safe kproc s c a : reachable kproc s -> enabled s c a -> exists s', run c a s = Done tt s' /\ reachable kproc s'.
Proof.
  intros Hr He. pose proof (threads_run_ok s c a (threads_reachable_inv kproc s Hr) He) as Hw. apply wp_never in Hw as ([] & s' & E & _). exists s'. split; [done|].
  destruct Hr as (s0 & Hb & Hr). exists s0. split; [done|]. eapply rtc_r; [exact Hr|]. by econstructor.
Qed.

(** C14: in every reachable state each thread is in exactly one place: running on one
    processor, on one list, or in one processor's hands; a thread on a run queue is ready
    and belongs to that processor; the stack a processor runs on, or idles on, is nobody
    else's, so that no other processor runs or queues its thread; and a process counts its
    threads. *)
Theorem threads_one_place kproc s : reachable kproc s ->
  everywhere s ≡ₚ (map_to_list (threads s)).*1 /\ NoDup (everywhere s) /\
  (forall c k t, allcpus s !! c = Some k -> t ∈ c_runqueue k -> is_thread (threads s) (ready_on c) t) /\
  (forall c k c' k', allcpus s !! c = Some k -> allcpus s !! c' = Some k' -> c_curthread k' = c_curthread k \/ c_curthread k ∈ c_runqueue k' -> c' = c) /\
  (forall p n, numthreads s !! p = Some n -> n = Z.of_nat (size (of_proc (threads s) p))).
Proof.
  intros Hr. pose proof (threads_reachable_inv kproc s Hr) as Hi. pose proof (i_perm _ _ Hi) as Hp. rewrite app_nil_r in Hp. split_and!; [done|rewrite Hp; apply NoDup_fst_map_to_list| | |apply (i_count _ _ Hi)].
  - intros c k t Hc. apply (ok_queue _ _ _ _ (i_cpus _ _ Hi c k Hc)).
  - intros c k c' k' Hc Hc' Hx. destruct (ok_cur _ _ _ _ (i_cpus _ _ Hi c k Hc)) as (th & Hth & Hcpu & _). assert (Hcpu' : t_cpu th = Some c'); [|congruence]. destruct Hx as [Hx|Hx]; [by eapply (cur_cpu [] s c' k')|].
    destruct (ok_queue _ _ _ _ (i_cpus _ _ Hi c' k' Hc') _ Hx) as (th' & Hth' & _ & ?). congruence.
Qed.

(** C16: no processor sleeps through its work.  In every reachable state, a processor that
    is in [wait] with a thread on its run queue has been sent the interrupt that ends it:
    its line is up, and IPI_UNIDLE is among its pending interrupts. *)
Theorem idle_cpu_is_woken kproc s c k : reachable kproc s -> allcpus s !! c = Some k -> c_place k = Waiting -> c_runqueue k <> [] ->
  c_ipi_line k = true /\ Z.testbit (c_ipi_pending k) IPI_UNIDLE = true.
Proof.
  intros Hr Hc Hp Hq. pose proof (ok_place _ _ _ _ (i_cpus _ _ (threads_reachable_inv kproc s Hr) c k Hc)) as Hok. unfold place_ok in Hok. rewrite Hp in Hok. destruct Hok as [_ [Hx|Hx]]; done.
Qed.

(** ** Round robin *)

(** The processor [c] yields [n] times in a row. *)
Definition yield_now (c : nat) : M sys unit :=
  thread_yield c;;
  k ← get_cpu c;
  match c_place k with Switching ns => switch_end c ns | _ => mret tt end.
Fixpoint yields (c n : nat) : M sys unit := match n with O => mret tt | S n => yields c n;; yield_now c end.

Definition turn (s : sys) (c : nat) (L : list tid) : Prop := inv [] s /\ exists k, allcpus s !! c = Some k /\ c_place k = Normal /\ c_curthread k :: c_runqueue k = L.

Lemma set_place_id p k : c_place k = p -> set_place p k = k.
Proof. by destruct k; cbn; intros ->. Qed.

Lemma yield_turn s c t L : turn s c (t :: L) -> wp never (yield_now c) s (fun _ s' => turn s' c (L ++ [t])).
Proof.
  intros (Hi & k & Hc & Hp & HL). injection HL as <- <-. pose proof (lookup_lt_Some _ _ _ Hc) as Hlt. pose proof (ok_place _ _ _ _ (i_cpus _ _ Hi c k Hc)) as Hid. unfold place_ok in Hid. rewrite Hp in Hid.
  assert (Hrun : running k = true) by (unfold running; by rewrite Hid, Hp). destruct (ok_cur _ _ _ _ (i_cpus _ _ Hi c k Hc)) as (th & Hth & Hcpu & _).
  unfold yield_now, thread_yield, thread_switch. apply wp_bind, wp_bind. eapply wp_get_cpu; [done|]. rewrite Hid. apply wp_bind. eapply checkstack_ok; [done|done|]. rewrite bool_decide_true by done. cbn [andb].
  destruct (c_runqueue k) as [|next q] eqn:Eq.
  - rewrite bool_decide_true by done. unfold resume. eapply wp_on_cpu; [done|]. rewrite Hid. rewrite (set_place_id Normal k Hp), list_insert_id, set_allcpus_id by done.
    apply wp_bind. eapply wp_get_cpu; [done|]. rewrite Hp. apply wp_ret. split; [done|]. exists k. by rewrite Eq.
  - rewrite bool_decide_false by done. pose proof (leave_ready s c k th Hi Hc Hrun ltac:(by rewrite Hp) Hth) as Hw. apply wp_never in Hw as ([] & s1 & E & Hi1). eapply wp_done; [exact E|].
    rewrite (bind_ret _ _ _ _ _ (make_runnable_is c _ true th c k s Hth Hcpu Hc ltac:(done))) in E. unfold goto, on_cpu, get_cpu, put_cpu, mbind, M_bind, get, deref, modify in E. cbn [set_allcpus allcpus set_threads] in E.
    rewrite list_lookup_insert_eq in E by done. injection E as <-. destruct (queued_fields c c (c_curthread k) k) as (Ecur & _ & _ & Erq & _). rewrite list_insert_insert_eq in Hi1 |- *.
    set (k1 := set_place (Switching S_READY) (queued c c (c_curthread k) k)) in *. apply wp_bind. eapply wp_get_cpu; [cbn; by rewrite list_lookup_insert_eq|]. cbn [set_place c_place k1].
    eapply wp_mono; [eapply (switch_end_ok _ c k1 S_READY); [exact Hi1|cbn; by rewrite list_lookup_insert_eq|done]|]. cbv beta. intros _ s' [Hi' Hn]. split; [done|].
    destruct (Hn next (q ++ [c_curthread k])) as (k' & Hk' & H1 & H2 & H3); [cbn; by rewrite Erq, Eq|]. exists k'. split_and!; [done|done|]. by rewrite H1, H2.
Qed.

Lemma yields_turn s c L n : turn s c L -> (n <= length L)%nat -> wp never (yields c n) s (fun _ s' => turn s' c (drop n L ++ take n L)).
Proof.
  intros Ht. induction n as [|n IH]; intros Hn; cbn [yields]; [apply wp_ret; cbn; by rewrite app_nil_r|]. apply wp_bind. eapply wp_mono; [apply IH; lia|]. cbv beta. intros _ s' Hs'.
  destruct (lookup_lt_is_Some_2 L n) as [t Hl]; [lia|]. rewrite (drop_S L t n Hl) in Hs'. cbn in Hs'. eapply wp_mono; [by apply yield_turn|]. cbv beta. intros _ s'' H. by rewrite (take_S_r L n t Hl), (assoc_L (++)).
Qed.

(** threads run in round-robin fashion.  A processor that yields [i] times in a row
    runs the thread that was at place [i] of its run queue (its own at 0), and the queue has
    turned by [i]: after one yield for every thread, each has run once and the order is the
    one at the start. *)
Theorem yield_round_robin kproc s c k i : reachable kproc s -> allcpus s !! c = Some k -> c_place k = Normal -> (i <= length (c_curthread k :: c_runqueue k))%nat ->
  let L := c_curthread k :: c_runqueue k in
  exists s' k', yields c i s = Done tt s' /\ allcpus s' !! c = Some k' /\ c_place k' = Normal /\ c_curthread k' :: c_runqueue k' = drop i L ++ take i L /\
    (forall t, L !! i = Some t -> c_curthread k' = t).
Proof.
  intros Hr Hc Hp Hi L. assert (Ht : turn s c L) by (split; [by eapply threads_reachable_inv|by exists k]). pose proof (yields_turn s c L i Ht Hi) as Hw. apply wp_never in Hw as ([] & s' & E & _ & k' & Hk' & Hp' & HL').
  exists s', k'. split_and!; [done|done|done|done|]. intros t Hl. rewrite (drop_S L t i Hl) in HL'. by injection HL'.
Qed.

(** ** Examples of runs *)

(** [can], evaluated; forks with a process of their own are left out. *)
Definition unlockedb (s : sys) (c : nat) : bool := match allcpus s !! c with Some k => negb (switching (c_place k)) | None => true end.
Definition canb (s : sys) (k : cpu) (a : action) : bool :=
  match a, c_place k with
  | Fork (Some t) _ _ None, Normal => bool_decide (is_Some (proc_of s k)) && bool_decide (threads s !! t = None) && (Z.of_nat (size (threads s)) <? 2 ^ 32 - 1)
  | Yield, Normal | Switch, Switching _ | WakeOne _, (Normal | Woken) | WakeAll _, (Normal | Woken) | Interrupted, Waiting | Retry, Woken | Clock, (Normal | Woken)
  | Take, Taking _ _ | GiveBack, Returning _ | ClockYield, Yielding | IpiDone, Clearing | Shutdown, Normal => true
  | (Sleep _ | Detach), Normal => bool_decide (is_Some (proc_of s k))
  | Exit, Normal => bool_decide (proc_of s k = None)
  | WakeNext, Waking l =>
      match head l ≫= fun t => threads s !! t with Some th => match t_cpu th with Some c => unlockedb s c | None => true end | None => true end
  | Count, Counting i _ _ => unlockedb s i
  | Send, Sending i _ _ _ => unlockedb s i
  | Ipi, (Normal | Woken) => c_ipi_line k
  | _, _ => false
  end.

Lemma unlockedb_ok s c : unlockedb s c = true -> unlocked s c.
Proof. unfold unlockedb. intros H k ns Hk E. by rewrite Hk, E in H. Qed.

Lemma canb_ok s c k a : canb s k a = true -> can s c k a.
Proof.
  unfold canb, can. intros H. destruct a as [[t|] named stack [p|]| | | | | | | | | | | | | | | | | | | ]; try done; destruct (c_place k) as [| | | |l| | | | | | |] eqn:Hp; try done; try by apply bool_decide_eq_true in H.
  - rewrite !andb_true_iff in H. destruct H as [[H1 H2] H3]. apply bool_decide_eq_true in H1, H2. split_and!; [done|by intros u [= <-]|done|lia].
  - intros t th d Ht Hth Hd. rewrite Ht in H. cbn in H. rewrite Hth, Hd in H. by apply unlockedb_ok.
  - by apply unlockedb_ok.
  - by apply unlockedb_ok.
Qed.

Fixpoint go (l : list (nat * action)) (s : sys) : option sys :=
  match l with
  | [] => Some s
  | (c, a) :: l =>
      match allcpus s !! c with
      | Some k => if canb s k a then match run c a s with Done _ s' => go l s' | _ => None end else None
      | None => None
      end
  end.

Lemma go_reachable kproc l : forall s s', reachable kproc s -> go l s = Some s' -> reachable kproc s'.
Proof.
  induction l as [|[c a] l IH]; intros s s' Hr Hg; cbn in Hg; [congruence|]. destruct (allcpus s !! c) as [k|] eqn:Hc; [|done]. destruct (canb s k a) eqn:Hk; [|done].
  destruct (run c a s) as [[] s1| | |] eqn:E; try done. eapply IH; [|exact Hg]. destruct Hr as (s0 & Hb & Hr). exists s0. split; [done|]. eapply rtc_r; [exact Hr|]. econstructor; [|exact E]. exists k. split; [done|]. by apply canb_ok.
Qed.

(** Two processors, with the threads 0 and 1. *)
Definition two_cpus : sys :=
  match (thread_bootstrap (Some 0%nat) 100;; cpu_create (Some 1%nat) true (Some [0; 0; 0; 0]) 100) (no_cpus 100) with Done _ s => s | _ => no_cpus 100 end.

Lemma two_cpus_reachable : reachable 100 two_cpus.
Proof.
  exists two_cpus. split; [|apply rtc_refl]. destruct (thread_bootstrap (Some 0%nat) 100 (no_cpus 100)) as [[] s| | |] eqn:E; [|by vm_compute in E..].
  eapply (boot_next 100 1%nat [0; 0; 0; 0] s 1%nat); [by eapply boot_first| | |]; vm_compute in E; injection E as <-; [done|done|]. by vm_compute.
Qed.

(** Thread 1 sleeps, its processor idles, thread 0 wakes it. *)
Definition woken_idle : list (nat * action) := [(1%nat, Sleep 7); (1%nat, Switch); (0%nat, WakeOne 7); (0%nat, WakeNext)].
(** Processor 1 takes the interrupt; between the handler and the clearing of the line,
    processor 0 asks everybody to go offline. *)
Definition shut_down : list (nat * action) := woken_idle ++ [(0%nat, WakeNext); (1%nat, Interrupted); (1%nat, Ipi); (0%nat, Shutdown); (1%nat, IpiDone)].
Definition after (l : list (nat * action)) : sys := default two_cpus (go l two_cpus).

Lemma after_reachable l : is_Some (go l two_cpus) -> reachable 100 (after l).
Proof. intros [s Hs]. unfold after. rewrite Hs. by apply (go_reachable 100 l two_cpus s two_cpus_reachable). Qed.

Lemma threads_safe_witness : exists s', run 0 Yield two_cpus = Done tt s' /\ reachable 100 s'.
Proof. apply (threads_safe 100 two_cpus 0 Yield two_cpus_reachable). eexists. split; [reflexivity|exact I]. Defined.

Lemma threads_one_place_witness : NoDup (everywhere (after woken_idle)).
Proof. apply (threads_one_place 100 (after woken_idle)). apply after_reachable. vm_compute. by eexists. Defined.

Lemma idle_cpu_is_woken_witness : exists k, allcpus (after woken_idle) !! 1%nat = Some k /\ c_ipi_line k = true /\ Z.testbit (c_ipi_pending k) IPI_UNIDLE = true.
Proof.
  eexists. split; [vm_compute; reflexivity|]. apply (idle_cpu_is_woken 100 (after woken_idle) 1%nat); [apply after_reachable; vm_compute; by eexists|vm_compute; reflexivity|reflexivity|discriminate].
Defined.

(** Thread 0 forks thread 2 and yields once. *)
Definition forked : list (nat * action) := [(0%nat, Fork (Some 2%nat) true (Some [0; 0; 0; 0]) None)].
Lemma yield_round_robin_witness : exists s' k', yields 0 1 (after forked) = Done tt s' /\ allcpus s' !! 0%nat = Some k' /\ c_curthread k' = 2%nat.
Proof.
  destruct (yield_round_robin 100 (after forked) 0 (mkCpu 0%nat [] 0 false [2%nat] 0 [] false Normal) 1) as (s' & k' & H1 & H2 & _ & _ & H3);
    [apply after_reachable; vm_compute; by eexists|by vm_compute|reflexivity|cbn; lia|]. exists s', k'. split_and!; [exact H1|exact H2|]. by apply H3.
Defined.

(** An interrupt can be lost: [mainbus_interrupt] clears the line after the handler has
    read the pending interrupts, so that a request that comes between stays pending with
    the line down, and the processor does not hear of it. *)
Theorem shutdown_request_lost : exists s k, reachable 100 s /\ allcpus s !! 1%nat = Some k /\ Z.testbit (c_ipi_pending k) IPI_OFFLINE = true /\ c_ipi_line k = false /\ c_place k = Woken.
Proof.
  exists (after shut_down). eexists. split; [apply after_reachable; vm_compute; by eexists|]. split; [vm_compute; reflexivity|]. done.
Qed.

End ThreadsTheorems.
