(* ===== verification/Spl.v ===== *)
(** * kern/thread/spl.c, kern/thread/spinlock.c: interrupt levels and spinlocks

    Several processors, each with the thread it runs.  The interrupt level is kept per
    thread, in [t_curspl] and the counter [t_iplhigh_count]; whether interrupts are off, and
    the number of spinlocks held, per processor.  [thread_switch] carries the run queue lock
    from one thread to the next, and [mips_trap] adjusts the level of the thread it
    interrupts, unless the interrupt came in the idle loop, where [cpu_irqonoff] lets
    interrupts in with the level high.  curcpu exists throughout: this is after thread_bootstrap. *)
From stdpp Require Import functions.
From S2P Require Import Prelude Wp.

Module Spl.

Definition tid : Type := nat.
Definition IPL_NONE : Z := 0.
Definition IPL_HIGH : Z := 1.

Record level : Type := mkLevel { t_curspl : Z; t_iplhigh_count : Z }.
Record spinlock : Type := mkLock { splk_lock : bool; splk_holder : option nat }.
(** [spinning]: the lock a processor waits for in the loop of [spinlock_acquire]. *)
Record pcpu : Type := mkPcpu { curthread : tid; irqs_on : bool; c_spinlocks : Z; spinning : option Z }.

(** [parked]: the threads that are switched out, or new. *)
Record st : Type := mkSt { levels : tid -> level; cpus : nat -> pcpu; splocks : gmap Z spinlock; parked : gset tid }.

Definition set_levels (x : tid -> level) (s : st) : st := mkSt x (cpus s) (splocks s) (parked s).
Definition set_cpu (c : nat) (k : pcpu) (s : st) : st := mkSt (levels s) (<[c := k]> (cpus s)) (splocks s) (parked s).
Definition set_lock (l : Z) (x : spinlock) (s : st) : st := mkSt (levels s) (cpus s) (<[l := x]> (splocks s)) (parked s).

Definition spinlock_init : spinlock := mkLock false None.
Definition lock_of (s : st) (l : Z) : spinlock := default spinlock_init (splocks s !! l).
Definition cur_level (c : nat) (s : st) : level := levels s (curthread (cpus s c)).
Definition put_level (c : nat) (x : level) : M st unit := modify (fun s => set_levels (<[curthread (cpus s c) := x]> (levels s)) s).

(** [cpu_irqoff] and [cpu_irqon] *)
Definition cpu_irq (c : nat) (on : bool) : M st unit := modify (fun s => let k := cpus s c in set_cpu c (mkPcpu (curthread k) on (c_spinlocks k) (spinning k)) s).

Definition splraise (c : nat) (oldspl newspl : Z) : M st unit :=
  kassert "oldspl == IPL_NONE" (oldspl =? IPL_NONE);;
  kassert "newspl == IPL_HIGH" (newspl =? IPL_HIGH);;
  l ← gets (cur_level c);
  (if t_iplhigh_count l =? 0 then cpu_irq c false else mret tt);;
  put_level c (mkLevel (t_curspl l) (t_iplhigh_count l + 1)).

Definition spllower (c : nat) (oldspl newspl : Z) : M st unit :=
  kassert "oldspl == IPL_HIGH" (oldspl =? IPL_HIGH);;
  kassert "newspl == IPL_NONE" (newspl =? IPL_NONE);;
  l ← gets (cur_level c);
  put_level c (mkLevel (t_curspl l) (t_iplhigh_count l - 1));;
  if t_iplhigh_count l - 1 =? 0 then cpu_irq c true else mret tt.

Definition set_curspl (c : nat) (spl : Z) : M st unit := l ← gets (cur_level c); put_level c (mkLevel spl (t_iplhigh_count l)).

Definition splx (c : nat) (spl : Z) : M st Z :=
  l ← gets (cur_level c);
  if t_curspl l <? spl then
    splraise c (t_curspl l) spl;;
    set_curspl c spl;;
    mret (t_curspl l)
  else if spl <? t_curspl l then
    set_curspl c spl;;
    spllower c (t_curspl l) spl;;
    mret (t_curspl l)
  else mret spl.
Definition spl0 (c : nat) : M st Z := splx c IPL_NONE.
Definition splhigh (c : nat) : M st Z := splx c IPL_HIGH.

(** [spinlock_acquire] up to its loop, and the pass of the loop that gets the lock. *)
Definition spinlock_acquire (c : nat) (l : Z) : M st unit :=
  splraise c IPL_NONE IPL_HIGH;;
  s ← get;
  let k := cpus s c in
  if bool_decide (splk_holder (lock_of s l) = Some c) then panic "Deadlock on spinlock"
  else modify (set_cpu c (mkPcpu (curthread k) (irqs_on k) (c_spinlocks k + 1) (Some l))).
Definition spinlock_get (c : nat) (l : Z) : M st unit :=
  s ← get;
  if splk_lock (lock_of s l) then mret tt
  else
    let k := cpus s c in
    modify (set_lock l (mkLock true (Some c)));;
    modify (set_cpu c (mkPcpu (curthread k) (irqs_on k) (c_spinlocks k) None)).

Definition spinlock_do_i_hold (c : nat) (l : Z) (s : st) : bool := bool_decide (splk_holder (lock_of s l) = Some c).

Definition spinlock_release (c : nat) (l : Z) : M st unit :=
  s ← get;
  let k := cpus s c in
  kassert "splk->splk_holder == curcpu->c_self" (spinlock_do_i_hold c l s);;
  kassert "curcpu->c_spinlocks > 0" (0 <? c_spinlocks k);;
  modify (set_cpu c (mkPcpu (curthread k) (irqs_on k) (c_spinlocks k - 1) (spinning k)));;
  modify (set_lock l (mkLock false None));;
  spllower c IPL_HIGH IPL_NONE.

Definition spinlock_cleanup (l : Z) : M st unit :=
  s ← get;
  kassert "splk->splk_holder == NULL" (bool_decide (splk_holder (lock_of s l) = None));;
  kassert "spinlock_data_get(&splk->splk_lock) == 0" (negb (splk_lock (lock_of s l))).

(** The levels of a new thread: [thread_create], and the increment of [thread_fork]. *)
Definition new_thread (t : tid) : M st unit :=
  modify (fun s => mkSt (<[t := mkLevel IPL_HIGH 1]> (levels s)) (cpus s) (splocks s) (parked s));;
  modify (fun s => mkSt (<[t := mkLevel (t_curspl (levels s t)) (t_iplhigh_count (levels s t) + 1)]> (levels s)) (cpus s) (splocks s) ({[t]} ∪ parked s)).

(** [switchframe_switch] in [thread_switch]. *)
Definition switch_to (c : nat) (next : tid) : M st unit :=
  modify (fun s => let k := cpus s c in
    mkSt (levels s) (<[c := mkPcpu next (irqs_on k) (c_spinlocks k) (spinning k)]> (cpus s)) (splocks s) (({[curthread k]} ∪ parked s) ∖ {[next]})).

(** [mips_trap] before and after the handler of an interrupt.  The processor has turned
    interrupts off; the result is [doadjust].  Back from the trap, interrupts are as they
    were when it came: on. *)
Definition trap_enter (c : nat) : M st bool :=
  cpu_irq c false;;
  l ← gets (cur_level c);
  if t_curspl l =? 0 then
    kassert "curthread->t_curspl == 0" (t_curspl l =? 0);;
    kassert "curthread->t_iplhigh_count == 0" (t_iplhigh_count l =? 0);;
    put_level c (mkLevel IPL_HIGH (t_iplhigh_count l + 1));;
    mret true
  else mret false.
Definition trap_leave (c : nat) (doadjust : bool) : M st unit :=
  l ← gets (cur_level c);
  (if doadjust then
     kassert "curthread->t_curspl == IPL_HIGH" (t_curspl l =? IPL_HIGH);;
     kassert "curthread->t_iplhigh_count == 1" (t_iplhigh_count l =? 1);;
     put_level c (mkLevel 0 (t_iplhigh_count l - 1))
   else mret tt);;
  cpu_irq c true.

(** ** The machine *)

(** [idling]: the processors that are in [cpu_irqonoff], which [cpu_idle] calls, between its
    two writes to the status register; [doadjusts]: the local variable [doadjust] of the
    activations of [mips_trap] on the stack of a thread, the innermost first. *)
Record mach : Type := mkMach { core : st; idling : nat -> bool; doadjusts : tid -> list bool }.

Definition current (m : mach) (c : nat) : tid := curthread (cpus (core m) c).
Definition set_core (s : st) (m : mach) : mach := mkMach s (idling m) (doadjusts m).
Definition on_core {A} (x : M st A) : M mach A := zoom "" (fun m => Some (core m)) set_core x.
Definition set_idling (c : nat) (b : bool) : M mach unit := modify (fun m => mkMach (core m) (<[c := b]> (idling m)) (doadjusts m)).
Definition set_doadjusts (t : tid) (bs : list bool) : M mach unit := modify (fun m => mkMach (core m) (idling m) (<[t := bs]> (doadjusts m))).

(** [cpu_irqonoff]: [SET_STATUS(xon)], then, four instructions later, [SET_STATUS(xoff)].
    Neither touches [t_curspl]. *)
Definition irqonoff_on (c : nat) : M mach unit := on_core (cpu_irq c true);; set_idling c true.
Definition irqonoff_off (c : nat) : M mach unit := on_core (cpu_irq c false);; set_idling c false.

Definition interrupt (c : nat) : M mach unit :=
  b ← on_core (trap_enter c);
  m ← get;
  set_doadjusts (current m c) (b :: doadjusts m (current m c)).
Definition interrupt_return (c : nat) : M mach unit :=
  m ← get;
  b ← deref "no trap frame" (head (doadjusts m (current m c)));
  set_doadjusts (current m c) (tail (doadjusts m (current m c)));;
  on_core (trap_leave c b).

(** Between the two writes of [cpu_irqonoff], and not in the handler of an interrupt that
    came there: the only frame that did not adjust the level is that handler's. *)
Definition window (m : mach) (c : nat) : bool := idling m c && forallb id (doadjusts m (current m c)).

(** ** Steps *)

Inductive op : Type :=
  | Splx (spl : Z) | Acquire (l : Z) | Get (l : Z) | Release (l : Z) | New (t : tid) | SwitchTo (next : tid) | TrapEnter | TrapLeave | IrqOn | IrqOff.

Definition run (c : nat) (o : op) : M mach unit :=
  match o with
  | Splx spl => _ ← on_core (splx c spl); mret tt
  | Acquire l => on_core (spinlock_acquire c l)
  | Get l => on_core (spinlock_get c l)
  | Release l => on_core (spinlock_release c l)
  | New t => on_core (new_thread t);; set_doadjusts t []
  | SwitchTo next => on_core (switch_to c next)
  | TrapEnter => interrupt c
  | TrapLeave => interrupt_return c
  | IrqOn => irqonoff_on c
  | IrqOff => irqonoff_off c
  end.

(** A processor that waits for a spinlock does nothing else, and one that is between the two
    writes of [cpu_irqonoff] only takes interrupts; nobody takes a lock twice or releases one
    it does not hold; threads switch with interrupts disabled by [splhigh] and the run queue
    lock as the only one held, and not from the idle loop ([thread_switch] returns at once
    when [c_isidle] is set); the idle loop calls [cpu_idle] at splhigh with the run queue
    lock released; a handler leaves no lock behind. *)
Definition can (m : mach) (c : nat) (o : op) : Prop :=
  let s := core m in let k := cpus s c in
  match o with
  | Get l => window m c = false /\ spinning k = Some l
  | Splx spl => window m c = false /\ spinning k = None /\ (spl = IPL_NONE \/ spl = IPL_HIGH)
  | Acquire l => window m c = false /\ spinning k = None /\ splk_holder (lock_of s l) <> Some c
  | Release l => window m c = false /\ spinning k = None /\ splk_holder (lock_of s l) = Some c
  | New t => window m c = false /\ spinning k = None /\ t ∉ parked s /\ (forall d, curthread (cpus s d) <> t)
  | SwitchTo next => idling m c = false /\ spinning k = None /\ t_curspl (cur_level c s) = IPL_HIGH /\ c_spinlocks k = 1 /\ (next = curthread k \/ next ∈ parked s)
  | TrapEnter => irqs_on k = true
  | TrapLeave => window m c = false /\ doadjusts m (current m c) <> [] /\ spinning k = None /\ t_curspl (cur_level c s) = IPL_HIGH /\ c_spinlocks k = 0
  | IrqOn => idling m c = false /\ spinning k = None /\ t_curspl (cur_level c s) = IPL_HIGH /\ c_spinlocks k = 0
  | IrqOff => window m c = true
  end.

Inductive step (m m' : mach) : Prop := Step (c : nat) (o : op) : can m c o -> run c o m = Done tt m' -> step m m'.

(** Every processor begins with its own thread, interrupts off. *)
Definition start : mach := mkMach (mkSt (fun _ => mkLevel IPL_HIGH 1) (fun c => mkPcpu (2 * c)%nat false 0 None) ∅ ∅) (fun _ => false) (fun _ => []).
Definition reachable (m : mach) : Prop := rtc step start m.

(** ** The invariant *)

Definition held (s : st) (c : nat) : gmap Z spinlock := filter (fun x => splk_holder x.2 = Some c) (splocks s).

(** [w]: the processors where interrupts are on although the level is high. *)
Record cpu_ok (w : nat -> bool) (s : st) (c : nat) : Prop := {
  ok_spl : t_curspl (cur_level c s) = IPL_NONE \/ t_curspl (cur_level c s) = IPL_HIGH;
  ok_count : t_iplhigh_count (cur_level c s) = c_spinlocks (cpus s c) + t_curspl (cur_level c s);
  ok_irq : irqs_on (cpus s c) = (t_iplhigh_count (cur_level c s) =? 0) || w c;
  ok_locks : c_spinlocks (cpus s c) = Z.of_nat (size (held s c)) + (if spinning (cpus s c) then 1 else 0)
}.

Record inv (w : nat -> bool) (s : st) : Prop := {
  i_cpu : forall c, cpu_ok w s c;
  i_own : forall c d, curthread (cpus s c) = curthread (cpus s d) -> c = d;
  i_parked : forall t, t ∈ parked s -> levels s t = mkLevel IPL_HIGH 2 /\ forall c, curthread (cpus s c) <> t;
  i_word : forall l x, splocks s !! l = Some x -> splk_lock x = bool_decide (is_Some (splk_holder x))
}.

(** At most one frame of a stack did not adjust the level. *)
Fixpoint once (bs : list bool) : bool :=
  match bs with [] => true | true :: bs => once bs | false :: bs => forallb id bs end.

Lemma once_all bs : forallb id bs = true -> once bs = true.
Proof. induction bs as [|[] bs IH]; cbn; [done|done|discriminate]. Qed.

Record minv (m : mach) : Prop := {
  mi_core : inv (window m) (core m);
  mi_window : forall c, window m c = true -> cur_level c (core m) = mkLevel IPL_HIGH 1 /\ spinning (cpus (core m) c) = None /\ c_spinlocks (cpus (core m) c) = 0;
  mi_frames : forall c, idling m c = false -> forallb id (doadjusts m (current m c)) = true;
  mi_parked : forall t, t ∈ parked (core m) -> forallb id (doadjusts m t) = true;
  mi_once : forall t, once (doadjusts m t) = true
}.

(** What a processor does to its own level and its own locks. *)
Record local (c : nat) (s s' : st) : Prop := {
  l_cpus : forall d, d <> c -> cpus s' d = cpus s d;
  l_cur : curthread (cpus s' c) = curthread (cpus s c);
  l_levels : forall t, t <> curthread (cpus s c) -> levels s' t = levels s t;
  l_parked : parked s' = parked s
}.

Lemma local_inv (w w' : nat -> bool) s s' c : (forall d, d <> c -> w' d = w d) -> inv w s -> local c s s' -> cpu_ok w' s' c -> (forall d, d <> c -> size (held s' d) = size (held s d)) ->
  (forall l y, splocks s' !! l = Some y -> splk_lock y = bool_decide (is_Some (splk_holder y))) -> inv w' s'.
Proof.
  intros Hw' Hi [Hcpus Hcur Hlev Hpark] Hok Hheld Hw. assert (Hcpu : forall d, curthread (cpus s' d) = curthread (cpus s d)) by (intros d; destruct (decide (d = c)) as [->|]; [done|by rewrite Hcpus]). split.
  - intros d. destruct (decide (d = c)) as [->|Hne]; [done|]. assert (E : cur_level d s' = cur_level d s) by (unfold cur_level; rewrite Hcpu; apply Hlev; intros E; apply Hne; by apply (i_own _ _ Hi)).
    destruct (i_cpu _ _ Hi d) as [O1 O2 O3 O4]. split; rewrite ?E, ?Hheld, ?Hcpus, ?Hw' by done; done.
  - intros d e. rewrite !Hcpu. apply (i_own _ _ Hi).
  - rewrite Hpark. intros t Ht. destruct (i_parked _ _ Hi t Ht) as [Hl Hc]. split; [rewrite Hlev; [done|]; intros ->; by apply (Hc c)|]. intros d. rewrite Hcpu. apply Hc.
  - exact Hw.
Qed.

(** ** The level of a processor *)

(** The part of the state an operation of processor [c] reads and writes: the level of its
    thread, its registers and counters, the locks; [s'] has these and agrees with [s] elsewhere. *)
Definition own (c : nat) (s s' : st) (x : level) (k : pcpu) : Prop := local c s s' /\ cur_level c s' = x /\ cpus s' c = k.

Lemma own_here c s : own c s s (cur_level c s) (cpus s c).
Proof. done. Qed.

Section Ops.
Context (E : stop -> Prop) (c : nat) (s0 : st).

Lemma wp_put_level s x y k (Q : unit -> st -> Prop) : own c s0 s x k ->
  (forall s', own c s0 s' y k -> splocks s' = splocks s -> Q tt s') -> wp E (put_level c y) s Q.
Proof.
  intros ([H1 H2 H3 H4] & Hx & Hk) HQ. unfold put_level. wgo. apply HQ; [|done]. split; [split; cbn; auto|].
  - intros t Ht. rewrite fn_lookup_insert_ne; [auto|]. by rewrite H2.
  - split; [unfold cur_level; cbn; by rewrite fn_lookup_insert|done].
Qed.

Lemma wp_put_pcpu s x k k' (Q : unit -> st -> Prop) : own c s0 s x k -> curthread k' = curthread k ->
  (forall s', own c s0 s' x k' -> splocks s' = splocks s -> Q tt s') -> wp E (modify (set_cpu c k')) s Q.
Proof.
  intros ([H1 H2 H3 H4] & Hx & Hk) Hc HQ. wgo. apply HQ; [|done]. split; [split; cbn; auto|].
  - intros d Hd. rewrite fn_lookup_insert_ne by done. auto.
  - rewrite fn_lookup_insert, Hc, <- H2. by rewrite Hk.
  - split; [unfold cur_level; cbn; rewrite fn_lookup_insert, Hc, <- Hk; exact Hx|cbn; by rewrite fn_lookup_insert].
Qed.

Definition with_irq (on : bool) (k : pcpu) : pcpu := mkPcpu (curthread k) on (c_spinlocks k) (spinning k).
Definition raised (x : level) : level := mkLevel (t_curspl x) (t_iplhigh_count x + 1).
Definition lowered (x : level) : level := mkLevel (t_curspl x) (t_iplhigh_count x - 1).

Lemma wp_cpu_irq s x k on (Q : unit -> st -> Prop) : own c s0 s x k ->
  (forall s', own c s0 s' x (with_irq on k) -> splocks s' = splocks s -> Q tt s') -> wp E (cpu_irq c on) s Q.
Proof. intros Ho HQ. pose proof Ho as (_ & _ & Hk). unfold cpu_irq. apply (wp_put_pcpu s x k (with_irq on k)) in HQ; [|done|done]. unfold wp, modify in *. rewrite Hk. exact HQ. Qed.

Lemma wp_splraise s x k (Q : unit -> st -> Prop) : own c s0 s x k ->
  (forall s', own c s0 s' (raised x) (if t_iplhigh_count x =? 0 then with_irq false k else k) -> splocks s' = splocks s -> Q tt s') -> wp E (splraise c IPL_NONE IPL_HIGH) s Q.
Proof.
  intros Ho HQ. pose proof Ho as (_ & Hx & _). unfold splraise. apply wp_bind, wp_kassert; [done|]. apply wp_bind, wp_kassert; [done|]. wgo. rewrite Hx. destruct (t_iplhigh_count x =? 0).
  - eapply wp_cpu_irq; [exact Ho|]. intros s1 Ho1 E1. eapply wp_put_level; [exact Ho1|]. intros s2 Ho2 E2. apply HQ; [done|congruence].
  - wgo. eapply wp_put_level; [exact Ho|]. intros s2 Ho2 E2. by apply HQ.
Qed.

Lemma wp_spllower s x k (Q : unit -> st -> Prop) : own c s0 s x k ->
  (forall s', own c s0 s' (lowered x) (if t_iplhigh_count x - 1 =? 0 then with_irq true k else k) -> splocks s' = splocks s -> Q tt s') -> wp E (spllower c IPL_HIGH IPL_NONE) s Q.
Proof.
  intros Ho HQ. pose proof Ho as (_ & Hx & _). unfold spllower. apply wp_bind, wp_kassert; [done|]. apply wp_bind, wp_kassert; [done|]. wgo. rewrite Hx.
  eapply wp_put_level; [exact Ho|]. intros s1 Ho1 E1. destruct (t_iplhigh_count x - 1 =? 0).
  - eapply wp_cpu_irq; [exact Ho1|]. intros s2 Ho2 E2. apply HQ; [done|congruence].
  - wgo. by apply HQ.
Qed.
End Ops.

(** ** Locks *)

Definition held_in (m : gmap Z spinlock) (c : nat) : gmap Z spinlock := filter (fun x => splk_holder x.2 = Some c) m.

Lemma held_insert m c l x : size (held_in (<[l := x]> m) c) = (size (held_in (delete l m) c) + if bool_decide (splk_holder x = Some c) then 1 else 0)%nat.
Proof.
  rewrite <- insert_delete_eq. unfold held_in. case_bool_decide.
  - rewrite map_filter_insert_True by done. rewrite map_size_insert_None; [lia|]. apply map_lookup_filter_None. left. apply lookup_delete_eq.
  - rewrite map_filter_insert_False by done. rewrite delete_id by apply lookup_delete_eq. lia.
Qed.

Lemma held_old m c l x : default spinlock_init (m !! l) = x -> size (held_in m c) = (size (held_in (delete l m) c) + if bool_decide (splk_holder x = Some c) then 1 else 0)%nat.
Proof.
  destruct (m !! l) as [y|] eqn:E; cbn; intros <-.
  - rewrite <- (insert_delete_id m l y E) at 1. rewrite held_insert. by rewrite delete_delete_eq.
  - rewrite delete_id by done. rewrite bool_decide_false by done. lia.
Qed.

(** ** The operations keep the invariant *)

Definition level_ok (w : bool) (x : level) (k : pcpu) (locks : nat) : Prop :=
  (t_curspl x = IPL_NONE \/ t_curspl x = IPL_HIGH) /\ t_iplhigh_count x = c_spinlocks k + t_curspl x /\ irqs_on k = (t_iplhigh_count x =? 0) || w /\ c_spinlocks k = Z.of_nat locks + (if spinning k then 1 else 0).

Lemma level_of w s c : inv w s -> level_ok (w c) (cur_level c s) (cpus s c) (size (held s c)) /\ 0 <= c_spinlocks (cpus s c).
Proof. intros Hi. destruct (i_cpu _ _ Hi c) as [O1 O2 O3 O4]. split; [done|]. destruct (spinning (cpus s c)) in O4; lia. Qed.

Lemma own_inv (w w' : nat -> bool) s s' c x k : (forall d, d <> c -> w' d = w d) -> inv w s -> own c s s' x k -> level_ok (w' c) x k (size (held s' c)) -> (forall d, d <> c -> size (held s' d) = size (held s d)) ->
  (forall l y, splocks s' !! l = Some y -> splk_lock y = bool_decide (is_Some (splk_holder y))) -> inv w' s' /\ local c s s'.
Proof. intros Hw Hi (Hl & <- & <-) (H1 & H2 & H3 & H4). split; [|done]. by apply (local_inv w w' s s' c). Qed.

Lemma own_keep (w w' : nat -> bool) s s' c x k : (forall d, d <> c -> w' d = w d) -> inv w s -> own c s s' x k -> splocks s' = splocks s -> level_ok (w' c) x k (size (held s c)) -> inv w' s' /\ local c s s'.
Proof.
  intros Hw Hi Ho E Hl. assert (Hh : forall d, held s' d = held s d) by (intros d; unfold held; by rewrite E). eapply own_inv; [done|done|done|by rewrite Hh|intros d _; by rewrite Hh|]. rewrite E. apply (i_word _ _ Hi).
Qed.

Section Steps.
Context (w : nat -> bool) (s : st) (c : nat) (Hi : inv w s).

Section Low.
Context (Hwc : w c = false).

Lemma level_low : level_ok false (cur_level c s) (cpus s c) (size (held s c)) /\ 0 <= c_spinlocks (cpus s c).
Proof. rewrite <- Hwc. by apply level_of. Qed.


Lemma set_curspl_is s1 x k spl (Q : unit -> st -> Prop) : own c s s1 x k -> (forall s', own c s s' (mkLevel spl (t_iplhigh_count x)) k -> splocks s' = splocks s1 -> Q tt s') -> wp never (set_curspl c spl) s1 Q.
Proof. intros Ho HQ. pose proof Ho as (_ & Hx & _). unfold set_curspl. wgo. rewrite Hx. eapply wp_put_level; eauto. Qed.

Lemma splx_ok spl : spl = IPL_NONE \/ spl = IPL_HIGH -> wp never (splx c spl) s (fun _ s' => inv w s' /\ local c s s').
Proof.
  intros Hs. destruct (level_low) as [(H1 & H2 & H3 & H4) H0]. pose proof (own_here c s) as Ho. set (x := cur_level c s) in *. set (k := cpus s c) in *. unfold splx. wgo. fold x.
  destruct (Z.ltb_spec (t_curspl x) spl); [|destruct (Z.ltb_spec spl (t_curspl x)); [|by wgo]].
  - replace (t_curspl x) with IPL_NONE in * by (unfold IPL_NONE, IPL_HIGH in *; lia). replace spl with IPL_HIGH by (unfold IPL_NONE, IPL_HIGH in *; lia). apply wp_bind. eapply wp_splraise; [exact Ho|]. intros s1 Ho1 E1.
    apply wp_bind. eapply set_curspl_is; [exact Ho1|]. intros s2 Ho2 E2. wgo. eapply own_keep; [done|exact Hi|exact Ho2|congruence|]. rewrite Hwc; unfold level_ok, IPL_NONE, IPL_HIGH, raised in *. cbn [t_curspl t_iplhigh_count].
    destruct (Z.eqb_spec (t_iplhigh_count x) 0); cbn; split_and!; auto; try lia; rewrite ?H3; zbool.
  - replace (t_curspl x) with IPL_HIGH in * by (unfold IPL_NONE, IPL_HIGH in *; lia). replace spl with IPL_NONE by (unfold IPL_NONE, IPL_HIGH in *; lia). apply wp_bind. eapply set_curspl_is; [exact Ho|]. intros s1 Ho1 E1.
    apply wp_bind. eapply wp_spllower; [exact Ho1|]. intros s2 Ho2 E2. wgo. eapply own_keep; [done|exact Hi|exact Ho2|congruence|]. rewrite Hwc; unfold level_ok, IPL_NONE, IPL_HIGH, lowered in *. cbn [t_curspl t_iplhigh_count].
    destruct (Z.eqb_spec (t_iplhigh_count x - 1) 0); cbn; split_and!; auto; try lia; rewrite ?H3; zbool.
Qed.

Lemma acquire_ok l : spinning (cpus s c) = None -> splk_holder (lock_of s l) <> Some c -> wp never (spinlock_acquire c l) s (fun _ s' => inv w s' /\ local c s s').
Proof.
  intros Hsp Hl. destruct (level_low) as [(H1 & H2 & H3 & H4) H0]. pose proof (own_here c s) as Ho. set (x := cur_level c s) in *. set (k := cpus s c) in *. unfold spinlock_acquire. apply wp_bind. eapply wp_splraise; [exact Ho|]. intros s1 Ho1 E1. wgo.
  pose proof Ho1 as (_ & _ & Hk1). unfold lock_of in *. rewrite E1, bool_decide_false by done. eapply wp_put_pcpu; [exact Ho1|by rewrite Hk1|]. intros s2 Ho2 E2. eapply own_keep; [done|exact Hi|exact Ho2|congruence|]. rewrite Hsp in H4.
  rewrite Hwc; unfold level_ok, raised, IPL_NONE, IPL_HIGH in *. cbn. rewrite Hk1. destruct (Z.eqb_spec (t_iplhigh_count x) 0); cbn; split_and!; auto; try lia; rewrite ?H3; zbool.
Qed.

Lemma get_ok l : spinning (cpus s c) = Some l -> wp never (spinlock_get c l) s (fun _ s' => inv w s' /\ local c s s').
Proof.
  intros Hsp. destruct (level_low) as [(H1 & H2 & H3 & H4) H0]. unfold spinlock_get. wgo. destruct (splk_lock (lock_of s l)) eqn:Hw; [by wgo|]. wgo.
  assert (Hh : splk_holder (lock_of s l) = None).
  { unfold lock_of in *. destruct (splocks s !! l) as [y|] eqn:Ey; [|done]. cbn in *. pose proof (i_word _ _ Hi l y Ey) as Hx. rewrite Hw in Hx. symmetry in Hx. apply bool_decide_eq_false in Hx. by apply eq_None_not_Some. }
  assert (Hsz : forall d, size (held_in (<[l := mkLock true (Some c)]> (splocks s)) d) = (size (held s d) + if bool_decide (d = c) then 1 else 0)%nat).
  { intros d. rewrite held_insert. change (held s d) with (held_in (splocks s) d). rewrite (held_old (splocks s) d l (lock_of s l)) by done. rewrite Hh. cbn. rewrite Nat.add_0_r. f_equal. apply (f_equal (fun b : bool => if b then 1%nat else 0%nat)). apply bool_decide_ext. naive_solver. }
  eapply (own_inv w w s _ c (cur_level c s) (mkPcpu (curthread (cpus s c)) (irqs_on (cpus s c)) (c_spinlocks (cpus s c)) None)); [done|done| | | |].
  - split; [split; cbn; auto; [intros d Hd; by rewrite fn_lookup_insert_ne|by rewrite fn_lookup_insert]|]. split; [unfold cur_level; cbn; by rewrite fn_lookup_insert|cbn; by rewrite fn_lookup_insert].
  - rewrite Hwc; unfold level_ok. cbn [t_curspl c_spinlocks irqs_on spinning]. unfold held. cbn [set_cpu set_lock splocks]. fold (held_in (<[l := mkLock true (Some c)]> (splocks s)) c). rewrite Hsz, bool_decide_true by done. rewrite Hsp in H4. split_and!; auto. lia.
  - intros d Hd. unfold held at 1. cbn [set_cpu set_lock splocks]. fold (held_in (<[l := mkLock true (Some c)]> (splocks s)) d). rewrite Hsz, bool_decide_false by done. lia.
  - cbn. intros l' y Hy. apply lookup_insert_Some in Hy as [[_ <-]|[_ Hy]]; [done|]. by apply (i_word _ _ Hi l').
Qed.

Lemma release_ok l : splk_holder (lock_of s l) = Some c -> wp never (spinlock_release c l) s (fun _ s' => inv w s' /\ local c s s').
Proof.
  intros Hl. destruct (level_low) as [(H1 & H2 & H3 & H4) H0]. pose proof (own_here c s) as Ho. set (x := cur_level c s) in *. set (k := cpus s c) in *.
  assert (Hsz : forall d, size (held s d) = (size (held_in (<[l := spinlock_init]> (splocks s)) d) + if bool_decide (d = c) then 1 else 0)%nat).
  { intros d. rewrite held_insert. change (held s d) with (held_in (splocks s) d). rewrite (held_old (splocks s) d l (lock_of s l)) by done. rewrite Hl, (bool_decide_false (splk_holder spinlock_init = _)) by done. rewrite Nat.add_0_r. f_equal.
    apply (f_equal (fun b : bool => if b then 1%nat else 0%nat)). apply bool_decide_ext. naive_solver. }
  pose proof (Hsz c) as Hc. rewrite bool_decide_true in Hc by done.
  unfold spinlock_release. wgo. apply wp_kassert; [unfold spinlock_do_i_hold; by rewrite bool_decide_true|]. fold k. apply wp_bind, wp_kassert; [destruct (spinning k) in H4; lia|]. apply wp_bind. eapply wp_put_pcpu; [exact Ho|done|]. intros s1 Ho1 E1. wgo.
  assert (Ho2 : own c s (set_lock l (mkLock false None) s1) x (mkPcpu (curthread k) (irqs_on k) (c_spinlocks k - 1) (spinning k))) by (destruct Ho1 as ([L1 L2 L3 L4] & ? & ?); split; [by split|done]).
  eapply wp_spllower; [exact Ho2|]. intros s2 Ho3 E3. cbn [set_lock splocks] in E3. rewrite E1 in E3. assert (Hh : forall d, held s2 d = held_in (<[l := spinlock_init]> (splocks s)) d) by (intros d; unfold held; by rewrite E3).
  eapply own_inv; [done|exact Hi|exact Ho3| | |].
  - rewrite Hh. rewrite Hwc; unfold level_ok, lowered. cbn [t_curspl t_iplhigh_count]. destruct (Z.eqb_spec (t_iplhigh_count x - 1) 0); cbn; split_and!; auto; try lia; rewrite ?H3; zbool; destruct (spinning k) in H4; unfold IPL_NONE, IPL_HIGH in *; lia.
  - intros d Hd. rewrite Hh, Hsz, bool_decide_false by done. lia.
  - rewrite E3. intros l' y Hy. apply lookup_insert_Some in Hy as [[_ <-]|[_ Hy]]; [done|]. by apply (i_word _ _ Hi l').
Qed.

Lemma new_ok t : t ∉ parked s -> (forall d, curthread (cpus s d) <> t) -> wp never (new_thread t) s (fun _ s' => inv w s' /\ cpus s' = cpus s /\ parked s' = {[t]} ∪ parked s /\ forall u, u <> t -> levels s' u = levels s u).
Proof.
  intros Hp Hc. unfold new_thread. wgo. destruct Hi as [I1 I2 I3 I4]. assert (Hlev : forall u, u <> t -> forall x y : level, (<[t := x]> (<[t := y]> (levels s))) u = levels s u) by (intros u Hu x y; by rewrite !fn_lookup_insert_ne).
  split; [|split_and!; [done|done|intros u Hu; by apply Hlev]]. split; cbn; [|done| |done].
  - intros d. destruct (I1 d) as [O1 O2 O3 O4]. split; unfold cur_level in *; cbn [levels cpus]; rewrite ?Hlev by (by apply Hc); done.
  - intros u [->%elem_of_singleton|Hu]%elem_of_union; [split; [by rewrite !fn_lookup_insert|done]|]. destruct (I3 u Hu) as [H1 H2]. split; [|done]. rewrite Hlev; [done|]. by intros ->.
Qed.

Lemma switch_ok next : spinning (cpus s c) = None -> t_curspl (cur_level c s) = IPL_HIGH -> c_spinlocks (cpus s c) = 1 -> next = curthread (cpus s c) \/ next ∈ parked s -> wp never (switch_to c next) s (fun _ s' => inv w s' /\ levels s' = levels s /\ (forall d, d <> c -> cpus s' d = cpus s d) /\ curthread (cpus s' c) = next /\ parked s' = ({[curthread (cpus s c)]} ∪ parked s) ∖ {[next]}).
Proof.
  intros Hsp Hhi Hn Hnext. destruct (level_low) as [(H1 & H2 & H3 & H4) H0]. unfold switch_to. wgo. set (k' := mkPcpu next _ _ _).
  assert (Hlv : cur_level c s = mkLevel IPL_HIGH 2) by (destruct (cur_level c s) as [a b]; cbn in *; subst; unfold IPL_HIGH in *; f_equal; lia).
  assert (Hlev : levels s next = mkLevel IPL_HIGH 2) by (destruct Hnext as [->|Hx]; [exact Hlv|by apply (i_parked _ _ Hi)]). assert (Hnot : forall d, d <> c -> curthread (cpus s d) <> next).
  { intros d Hd. destruct Hnext as [->|Hx]; [intros E; apply Hd; by apply (i_own _ _ Hi)|by apply (i_parked _ _ Hi)]. }
  assert (Hck : forall d, cpus (mkSt (levels s) (<[c := k']> (cpus s)) (splocks s) (({[curthread (cpus s c)]} ∪ parked s) ∖ {[next]})) d = if decide (d = c) then k' else cpus s d).
  { intros d. cbn. case_decide as Hd; [subst d; by rewrite fn_lookup_insert|by rewrite fn_lookup_insert_ne]. }
  split; [|split_and!; [done|intros d Hd; rewrite Hck; by destruct (decide (d = c))|rewrite Hck; by destruct (decide (c = c))|done]]. split.
  - intros d. destruct (decide (d = c)) as [->|Hd].
    + split; unfold cur_level; rewrite Hck; destruct (decide (c = c)); try done; cbn [levels curthread k' c_spinlocks irqs_on spinning]; rewrite ?Hlev; cbn.
      * by right.
      * unfold IPL_HIGH. lia.
      * by rewrite H3, Hlv.
    + destruct (i_cpu _ _ Hi d) as [O1 O2 O3 O4]. split; unfold cur_level; rewrite Hck; destruct (decide (d = c)); done.
  - intros d e. rewrite !Hck. destruct (decide (d = c)) as [->|Hd], (decide (e = c)) as [->|He]; cbn; [done| | |apply (i_own _ _ Hi)].
    + intros E. by destruct (Hnot e He).
    + intros E. by destruct (Hnot d Hd).
  - cbn [parked levels]. intros t [Ht Hne]%elem_of_difference. apply not_elem_of_singleton in Hne. split.
    + apply elem_of_union in Ht as [->%elem_of_singleton|Ht]; [exact Hlv|by apply (i_parked _ _ Hi)].
    + intros d. rewrite Hck. destruct (decide (d = c)) as [->|Hd]; [cbn; congruence|]. apply elem_of_union in Ht as [->%elem_of_singleton|Ht]; [intros E; apply Hd; by apply (i_own _ _ Hi)|by apply (i_parked _ _ Hi)].
  - apply (i_word _ _ Hi).
Qed.

End Low.

(** Interrupts are switched and the level stays. *)
Lemma irq_ok (w' : nat -> bool) on : (forall d, d <> c -> w' d = w d) -> on = (t_iplhigh_count (cur_level c s) =? 0) || w' c ->
  wp never (cpu_irq c on) s (fun _ s' => inv w' s' /\ own c s s' (cur_level c s) (with_irq on (cpus s c))).
Proof.
  intros Hw ->. destruct (level_of w s c Hi) as [(H1 & H2 & H3 & H4) H0]. eapply wp_cpu_irq; [apply own_here|]. intros s' Ho E. split; [|done].
  eapply (own_keep w w'); [done|done|exact Ho|done|]. unfold level_ok, with_irq. cbn. by split_and!.
Qed.

Lemma trap_enter_ok : irqs_on (cpus s c) = true -> (w c = true -> cur_level c s = mkLevel IPL_HIGH 1) ->
  wp never (trap_enter c) s (fun b s' => b = negb (w c) /\ inv (<[c := false]> w) s' /\ local c s s').
Proof.
  intros Hon Hw. destruct (level_of w s c Hi) as [(H1 & H2 & H3 & H4) H0]. pose proof (own_here c s) as Ho. unfold trap_enter. apply wp_bind.
  eapply wp_cpu_irq; [exact Ho|]. intros s1 Ho1 E1. pose proof Ho1 as (_ & Hx1 & _). wgo. rewrite Hx1.
  assert (Hd : forall d, d <> c -> (<[c := false]> w) d = w d) by (intros d Hd; by rewrite fn_lookup_insert_ne). destruct (w c) eqn:Ew.
  - rewrite (Hw eq_refl) in *. cbn. wgo. split; [done|]. eapply own_keep; [exact Hd|done|exact Ho1|done|]. rewrite fn_lookup_insert. unfold level_ok, with_irq in *. cbn in *. by split_and!.
  - rewrite orb_false_r, Hon in H3. symmetry in H3. apply Z.eqb_eq in H3. assert (Hz : t_curspl (cur_level c s) = 0) by (unfold IPL_NONE, IPL_HIGH in *; lia). rewrite Hz, H3. cbn [Z.eqb].
    apply wp_bind, wp_kassert; [done|]. apply wp_bind, wp_kassert; [done|]. apply wp_bind. eapply wp_put_level; [exact Ho1|]. intros s2 Ho2 E2. wgo. split; [done|].
    eapply own_keep; [exact Hd|done|exact Ho2|congruence|]. rewrite fn_lookup_insert. unfold level_ok, with_irq, IPL_NONE, IPL_HIGH in *. cbn. split_and!; auto; lia.
Qed.

Lemma trap_leave_ok b : w c = false -> t_curspl (cur_level c s) = IPL_HIGH -> c_spinlocks (cpus s c) = 0 ->
  wp never (trap_leave c b) s (fun _ s' => inv (<[c := negb b]> w) s' /\ local c s s' /\ (b = false -> cur_level c s' = mkLevel IPL_HIGH 1 /\ spinning (cpus s' c) = None /\ c_spinlocks (cpus s' c) = 0)).
Proof.
  intros Hw Hhi Hn. destruct (level_low Hw) as [(H1 & H2 & H3 & H4) H0]. assert (Hsp : spinning (cpus s c) = None) by (destruct (spinning (cpus s c)); [lia|done]). rewrite Hhi, Hn in H2.
  assert (Hd : forall d, d <> c -> (<[c := negb b]> w) d = w d) by (intros d Hd; by rewrite fn_lookup_insert_ne). unfold trap_leave. wgo. destruct b.
  - apply wp_bind, wp_kassert; [lia|]. apply wp_bind, wp_kassert; [unfold IPL_HIGH in *; lia|]. eapply wp_put_level; [apply own_here|]. intros s1 Ho1 E1. eapply wp_cpu_irq; [exact Ho1|]. intros s2 Ho2 E2.
    assert (Hk : inv (<[c := false]> w) s2 /\ local c s s2); [|by destruct Hk]. eapply own_keep; [exact Hd|done|exact Ho2|congruence|]. rewrite fn_lookup_insert, Hsp in *. unfold level_ok, with_irq, IPL_NONE, IPL_HIGH in *. cbn. rewrite H2, Hn, Hsp. split_and!; auto; lia.
  - wgo. eapply wp_mono; [apply (irq_ok (<[c := true]> w) true Hd); rewrite fn_lookup_insert; by rewrite orb_true_r|]. intros _ s' [Hi' (Hl & Hx & Hk)]. split_and!; [done|done|intros _; rewrite Hx, Hk; cbn; split_and!; auto].
    destruct (cur_level c s); cbn in *. f_equal; [done|]. unfold IPL_HIGH in *. lia.
Qed.
End Steps.

(** ** The machine keeps its invariant *)

Lemma wp_on_core {A} E (x : M st A) m (Q : A -> mach -> Prop) : wp E x (core m) (fun a s' => Q a (set_core s' m)) -> wp E (on_core x) m Q.
Proof. intros H. by eapply wp_zoom. Qed.

Lemma inv_ext (w w' : nat -> bool) s : (forall c, w' c = w c) -> inv w s -> inv w' s.
Proof. intros Hw [I1 I2 I3 I4]. split; [|done..]. intros c. destruct (I1 c) as [O1 O2 O3 O4]. split; [done|done|by rewrite Hw|done]. Qed.

Lemma local_current c s m : local c (core m) s -> forall d, curthread (cpus s d) = current m d.
Proof. intros [H1 H2 H3 H4] d. destruct (decide (d = c)) as [->|]; [done|]. by rewrite H1. Qed.

Lemma local_other w c d s m : inv w (core m) -> local c (core m) s -> d <> c -> cpus s d = cpus (core m) d /\ cur_level d s = cur_level d (core m).
Proof.
  intros Hi Hl Hd. split; [by apply Hl|]. unfold cur_level. rewrite (local_current c s m Hl). apply Hl. intros E. apply Hd. by apply (i_own _ _ Hi).
Qed.

(** A step of processor [c] that leaves the current threads as they are, and the frames of
    all threads but its own. *)
Lemma minv_local m m' c : minv m -> local c (core m) (core m') -> (forall d, d <> c -> idling m' d = idling m d) -> (forall t, t <> current m c -> doadjusts m' t = doadjusts m t) ->
  inv (<[c := window m' c]> (window m)) (core m') ->
  (window m' c = true -> cur_level c (core m') = mkLevel IPL_HIGH 1 /\ spinning (cpus (core m') c) = None /\ c_spinlocks (cpus (core m') c) = 0) ->
  (idling m' c = false -> forallb id (doadjusts m' (current m c)) = true) -> once (doadjusts m' (current m c)) = true -> minv m'.
Proof.
  intros [M1 M2 M3 M4 M5] Hl Hid Hfr Hi Hw Hf Ho. assert (Hcur : forall d, current m' d = current m d) by (intros d; by apply (local_current c)).
  assert (Hdo : forall d, d <> c -> doadjusts m' (current m d) = doadjusts m (current m d)) by (intros d Hd; apply Hfr; intros E; apply Hd; by apply (i_own _ _ M1)).
  assert (Hwin : forall d, d <> c -> window m' d = window m d) by (intros d Hd; unfold window; by rewrite Hid, Hcur, Hdo). split.
  - eapply inv_ext; [|exact Hi]. intros d. destruct (decide (d = c)) as [->|Hd]; [by rewrite fn_lookup_insert|]. rewrite fn_lookup_insert_ne by done. by apply Hwin.
  - intros d Hd. destruct (decide (d = c)) as [->|Hne]; [by apply Hw|]. rewrite Hwin in Hd by done. destruct (local_other _ c d _ m M1 Hl Hne) as [-> ->]. by apply M2.
  - intros d Hd. rewrite Hcur. destruct (decide (d = c)) as [->|Hne]; [by apply Hf|]. rewrite Hid in Hd by done. rewrite Hdo by done. by apply M3.
  - intros t Ht. rewrite (l_parked _ _ _ Hl) in Ht. rewrite Hfr; [by apply M4|]. intros ->. by apply (i_parked _ _ M1) in Ht as [_ Ht]; destruct (Ht c).
  - intros t. destruct (decide (t = current m c)) as [->|Ht]; [done|]. by rewrite Hfr.
Qed.

Section Machine.
Context (m : mach) (c : nat) (Hm : minv m).

Lemma insert_window b : window m c = b -> forall d, (<[c := b]> (window m)) d = window m d.
Proof. intros <- d. destruct (decide (d = c)) as [->|]; [by rewrite fn_lookup_insert|by rewrite fn_lookup_insert_ne]. Qed.

Lemma core_ok {A} (x : M st A) : window m c = false -> wp never x (core m) (fun _ s' => inv (window m) s' /\ local c (core m) s') -> wp never (on_core x) m (fun _ m' => minv m').
Proof.
  intros Hw Hx. apply wp_on_core. eapply wp_mono; [exact Hx|]. intros a s' [Hi Hl]. assert (E : window (set_core s' m) c = window m c) by (unfold window, current; cbn; by rewrite (l_cur _ _ _ Hl)).
  apply (minv_local m _ c); try done; rewrite ?E, ?Hw; cbn [core idling doadjusts set_core].
  - eapply inv_ext; [|exact Hi]. by apply insert_window.
  - done.
  - intros Hd. by apply (mi_frames _ Hm).
  - apply (mi_once _ Hm).
Qed.

Lemma new_step t : t ∉ parked (core m) -> (forall d, current m d <> t) -> wp never (on_core (new_thread t);; set_doadjusts t []) m (fun _ m' => minv m').
Proof.
  intros Hp Hc. apply wp_bind, wp_on_core. destruct Hm as [M1 M2 M3 M4 M5]. eapply wp_mono; [by apply (new_ok _ _ M1)|]. intros _ s' (Hi & Ec & Ep & El). unfold set_doadjusts. wgo. set (m' := mkMach _ _ _).
  assert (Hcur : forall d, current m' d = current m d) by (intros d; unfold current, m'; cbn; by rewrite Ec).
  assert (Hdo : forall d, doadjusts m' (current m d) = doadjusts m (current m d)) by (intros d; cbn; by rewrite fn_lookup_insert_ne by (symmetry; apply Hc)).
  assert (Hwin : forall d, window m' d = window m d) by (intros d; unfold window; by rewrite Hcur, Hdo). split.
  - by eapply inv_ext.
  - intros d. rewrite Hwin. intros Hd. unfold cur_level, m'. cbn. rewrite Ec, El by apply Hc. by apply M2.
  - intros d Hd. rewrite Hcur, Hdo. by apply M3.
  - cbn. rewrite Ep. intros u [->%elem_of_singleton|Hu]%elem_of_union; [by rewrite fn_lookup_insert|]. rewrite fn_lookup_insert_ne; [by apply M4|]. by intros ->.
  - intros u. cbn. destruct (decide (u = t)) as [->|]; [by rewrite fn_lookup_insert|by rewrite fn_lookup_insert_ne].
Qed.

Lemma switch_step next : idling m c = false -> spinning (cpus (core m) c) = None -> t_curspl (cur_level c (core m)) = IPL_HIGH -> c_spinlocks (cpus (core m) c) = 1 -> next = current m c \/ next ∈ parked (core m) ->
  wp never (on_core (switch_to c next)) m (fun _ m' => minv m').
Proof.
  intros Hid Hsp Hhi Hn Hnext. pose proof Hm as [M1 M2 M3 M4 M5]. assert (Hw : window m c = false) by (unfold window; by rewrite Hid). apply wp_on_core. eapply wp_mono; [by apply (switch_ok _ _ c M1 Hw)|].
  intros _ s' (Hi & El & Ec & En & Ep). set (m' := set_core s' m). assert (Hwin : forall d, window m' d = window m d).
  { intros d. unfold window, current, m'. cbn. destruct (decide (d = c)) as [->|]; [by rewrite Hid|by rewrite Ec]. }
  assert (Hf : forallb id (doadjusts m next) = true) by (destruct Hnext as [->|Hx]; [by apply M3|by apply M4]). split.
  - by eapply inv_ext.
  - intros d. rewrite Hwin. intros Hd. assert (d <> c) by congruence. unfold cur_level, m'. cbn. rewrite El, Ec by done. by apply M2.
  - intros d Hd. unfold current, m'. cbn. destruct (decide (d = c)) as [->|]; [by rewrite En|]. rewrite Ec by done. by apply M3.
  - unfold m'. cbn. rewrite Ep. intros u [[->%elem_of_singleton|Hu]%elem_of_union _]%elem_of_difference; [by apply M3|by apply M4].
  - done.
Qed.

Lemma interrupt_step : irqs_on (cpus (core m) c) = true -> wp never (interrupt c) m (fun _ m' => minv m').
Proof.
  intros Hon. pose proof Hm as [M1 M2 M3 M4 M5]. unfold interrupt. apply wp_bind, wp_on_core. eapply wp_mono; [apply (trap_enter_ok _ _ c M1 Hon); intros Hw; by apply M2|]. intros b s' (-> & Hi & Hl). unfold set_doadjusts. wgo.
  assert (Ecur : current (set_core s' m) c = current m c) by apply Hl. rewrite Ecur. set (m' := mkMach _ _ _).
  assert (Ef : doadjusts m' (current m c) = negb (window m c) :: doadjusts m (current m c)) by (cbn; by rewrite fn_lookup_insert).
  assert (Ew : window m' c = false). { unfold window at 1. change (current m' c) with (current (set_core s' m) c). rewrite Ecur, Ef. cbn. unfold window. destruct (idling m c); [|done]. by destruct (forallb id (doadjusts m (current m c))). }
  apply (minv_local m m' c); try done.
  - intros t Ht. cbn. by rewrite fn_lookup_insert_ne.
  - rewrite Ew. exact Hi.
  - by rewrite Ew.
  - intros Hd. rewrite Ef. cbn in *. unfold window. rewrite Hd. cbn. by apply M3.
  - rewrite Ef. cbn. unfold window. specialize (M3 c). destruct (idling m c); cbn; [|apply M5]. destruct (forallb id _) eqn:E; [done|apply M5].
Qed.

Lemma interrupt_return_step : window m c = false -> doadjusts m (current m c) <> [] -> t_curspl (cur_level c (core m)) = IPL_HIGH -> c_spinlocks (cpus (core m) c) = 0 -> wp never (interrupt_return c) m (fun _ m' => minv m').
Proof.
  intros Hw Hne Hhi Hn. pose proof Hm as [M1 M2 M3 M4 M5]. destruct (doadjusts m (current m c)) as [|b bs] eqn:Ef; [done|]. unfold interrupt_return. wgo. rewrite Ef. eapply wp_deref; [done|]. unfold set_doadjusts. wgo.
  apply wp_on_core. eapply wp_mono; [by apply (trap_leave_ok _ _ c M1 b Hw)|]. intros _ s' (Hi & Hl & Hback). cbn [tail]. set (m' := set_core s' _).
  assert (Ef' : doadjusts m' (current m c) = bs) by (cbn; by rewrite fn_lookup_insert). pose proof (M5 (current m c)) as Ho. rewrite Ef in Ho.
  assert (Ecur : current m' c = current m c) by apply Hl. assert (Ew : window m' c = negb b).
  { unfold window at 1. rewrite Ecur, Ef'. change (idling m' c) with (idling m c). pose proof (M3 c) as Hf. unfold window in Hw. rewrite Ef in Hf, Hw. destruct (idling m c), b; cbn in *; try done. by specialize (Hf eq_refl). }
  apply (minv_local m m' c); try done.
  - intros t Ht. cbn. by rewrite fn_lookup_insert_ne.
  - by rewrite Ew.
  - rewrite Ew. intros Hb. apply Hback. by destruct b.
  - intros Hd. rewrite Ef'. specialize (M3 c Hd). rewrite Ef in M3. cbn in M3. by apply andb_true_iff in M3 as [_ M3].
  - rewrite Ef'. destruct b; cbn in Ho; [done|]. by apply once_all.
Qed.

Lemma irqonoff_step (on : bool) : (if on then idling m c = false /\ spinning (cpus (core m) c) = None /\ t_curspl (cur_level c (core m)) = IPL_HIGH /\ c_spinlocks (cpus (core m) c) = 0 else window m c = true) ->
  wp never (on_core (cpu_irq c on);; set_idling c on) m (fun _ m' => minv m').
Proof.
  intros Hon. pose proof Hm as [M1 M2 M3 M4 M5].
  assert (Hlow : cur_level c (core m) = mkLevel IPL_HIGH 1 /\ spinning (cpus (core m) c) = None /\ c_spinlocks (cpus (core m) c) = 0 /\ forallb id (doadjusts m (current m c)) = true).
  { destruct on; [|destruct (M2 c Hon) as (? & ? & ?); unfold window in Hon; apply andb_true_iff in Hon as [_ ?]; done]. destruct Hon as (Hid & Hsp & Hhi & Hn). split_and!; [|done|done|by apply M3].
    destruct (level_of _ _ c M1) as [(_ & H2 & _) _]. destruct (cur_level c (core m)); cbn in *. unfold IPL_HIGH in *. f_equal; [done|lia]. }
  destruct Hlow as (Hlev & Hsp & Hn & Hall). apply wp_bind, wp_on_core. eapply wp_mono; [apply (irq_ok _ _ c M1 (<[c := on]> (window m)))|].
  - intros d Hd. by rewrite fn_lookup_insert_ne.
  - by rewrite Hlev, fn_lookup_insert.
  - intros _ s' [Hi (Hl & Hx & Hk)]. unfold set_idling. wgo. set (m' := mkMach _ _ _). assert (Ecur : current m' c = current m c) by apply Hl.
    assert (Ew : window m' c = on) by (unfold window; rewrite Ecur; cbn; rewrite fn_lookup_insert, Hall; by destruct on). apply (minv_local m m' c); try done.
    + intros d Hd. cbn. by rewrite fn_lookup_insert_ne.
    + by rewrite Ew.
    + intros _. change (core m') with s'. by rewrite Hx, Hk.
    + apply M5.
Qed.
End Machine.

Lemma spl_run_ok m c o : minv m -> can m c o -> wp never (run c o) m (fun _ m' => minv m').
Proof.
  intros Hm Hc. pose proof (mi_core _ Hm) as Hi. destruct o; cbn [run]; unfold can in Hc.
  - destruct Hc as (? & ? & ?). apply wp_bind. eapply wp_mono; [apply (core_ok m c Hm); [done|by apply splx_ok]|done].
  - destruct Hc as (? & ? & ?). apply (core_ok m c Hm); [done|]. by apply acquire_ok.
  - destruct Hc as (? & ?). apply (core_ok m c Hm); [done|]. by apply get_ok.
  - destruct Hc as (? & ? & ?). apply (core_ok m c Hm); [done|]. by apply release_ok.
  - destruct Hc as (_ & _ & ? & ?). by apply new_step.
  - destruct Hc as (? & ? & ? & ? & ?). by apply switch_step.
  - by apply interrupt_step.
  - destruct Hc as (? & ? & _ & ? & ?). by apply interrupt_return_step.
  - by apply (irqonoff_step m c Hm true).
  - by apply (irqonoff_step m c Hm false).
Qed.

Lemma spl_start_inv : minv start.
Proof.
  split; [split; cbn|..]; try done.
  - intros c. split; cbn; [by right|done|done|done].
  - intros c d E. lia.
Qed.

Lemma spl_reachable_inv m : reachable m -> minv m.
Proof.
  unfold reachable. intros Hr. remember start as m0 eqn:E0. assert (Hi : minv m0) by (subst; apply spl_start_inv). clear E0. induction Hr as [|m m' m'' [c o Hc Hrun] _ IH]; [done|].
  apply IH. pose proof (spl_run_ok m c o Hi Hc) as Hw. unfold wp in Hw. by rewrite Hrun in Hw.
Qed.


(** Processor 0 opens interrupts and takes lock 5; processor 1 waits for it; processor 2
    idles and takes an interrupt. *)
Definition next (c : nat) (o : op) (m : mach) : mach := match run c o m with Done _ m' => m' | _ => m end.
Definition example_state : mach := next 2 TrapEnter (next 2 IrqOn (next 1 (Acquire 5) (next 0 (Get 5) (next 0 (Acquire 5) (next 0 (Splx IPL_NONE) start))))).

Lemma next_reachable c o m : reachable m -> can m c o -> reachable (next c o m).
Proof.
  intros Hr Hc. pose proof (spl_run_ok m c o (spl_reachable_inv m Hr) Hc) as Hw. apply wp_never in Hw as ([] & s' & E & _). unfold next. rewrite E. eapply rtc_r; [exact Hr|]. by econstructor.
Qed.

Lemma example_reachable : reachable example_state.
Proof. repeat apply next_reachable; [apply rtc_refl|..]; vm_compute; auto; by repeat split; auto. Qed.


End Spl.
