(* ===== verification/Copyinout.v ===== *)
(** * kern/vm/copyinout.c: copying between the kernel and user programs

    Memory as the kernel sees it through virtual addresses, with the addresses at
    which an access ends in a fault that [vm_fault] refuses; such a fault makes
    [copyfail] resume the copying function, which returns [EFAULT].  The libc
    [memcpy] copies from low to high addresses, so what was copied before the fault
    is a prefix. *)
From S2P Require Import Prelude.

Module Copyinout.

Record space : Type := mkSpace { contents : Z -> Z; bad : Z -> bool }.

Definition store (a b : Z) (sp : space) : space :=
  mkSpace (fun x => if x =? a then b else contents sp x) (bad sp).

(** The bytes at [a], [a+1], ... in order, until [n] are read or one faults. *)
Fixpoint load_bytes (sp : space) (a : Z) (n : nat) : list Z * bool :=
  match n with
  | O => ([], true)
  | S n =>
      if bad sp a then ([], false)
      else let '(l, ok) := load_bytes sp (a + 1) n in (contents sp a :: l, ok)
  end.

(** Storing the bytes of [data] from [a] on, until one faults. *)
Fixpoint store_bytes (sp : space) (a : Z) (data : list Z) : space * bool :=
  match data with
  | [] => (sp, true)
  | b :: data => if bad sp a then (sp, false) else store_bytes (store a b sp) (a + 1) data
  end.

(** [(result, stoplen)] *)
Definition copycheck (userptr len : Z) : Z * Z :=
  let bot := userptr in
  let top := u32 (bot + len - 1) in
  if top <? bot then (EFAULT, len)
  else if USERSPACETOP <=? bot then (EFAULT, len)
  else if USERSPACETOP <=? top then (0, USERSPACETOP - bot)
  else (0, len).

(** The bytes that arrived at the kernel buffer, and the result. *)
Definition copyin (usersrc len : Z) (sp : space) : Z * list Z :=
  let '(result, stoplen) := copycheck usersrc len in
  if negb (result =? 0) then (result, [])
  else if negb (stoplen =? len) then (EFAULT, [])
  else let '(l, ok) := load_bytes sp usersrc (Z.to_nat len) in
       (if ok then 0 else EFAULT, l).

Definition copyout (src : list Z) (userdest len : Z) (sp : space) : Z * space :=
  let '(result, stoplen) := copycheck userdest len in
  if negb (result =? 0) then (result, sp)
  else if negb (stoplen =? len) then (EFAULT, sp)
  else let '(sp, ok) := store_bytes sp userdest (take (Z.to_nat len) src) in
       (if ok then 0 else EFAULT, sp).

Definition ENAMETOOLONG : Z := 7.

(** The loop of [copystr]: byte [i] of the source, and whether the access at position
    [i] to the user side faults.  The bytes stored at the destination, and the result
    with [*gotlen], or [None] when an access faulted. *)
Fixpoint copystr (src : Z -> Z) (fault : Z -> bool) (maxlen stoplen i : Z) (n : nat)
  : list Z * option (Z * option Z) :=
  match n with
  | O => ([], Some (if stoplen <? maxlen then EFAULT else ENAMETOOLONG, None))
  | S n =>
      if fault i then ([], None)
      else if src i =? 0 then ([src i], Some (0, Some (i + 1)))
      else let '(l, r) := copystr src fault maxlen stoplen (i + 1) n in (src i :: l, r)
  end.

(** [(result, *actual)] and the bytes stored in the kernel buffer. *)
Definition copyinstr (usersrc len : Z) (sp : space) : Z * option Z * list Z :=
  let '(result, stoplen) := copycheck usersrc len in
  if negb (result =? 0) then (result, None, [])
  else
    match copystr (fun i => contents sp (usersrc + i)) (fun i => bad sp (usersrc + i))
            len stoplen 0 (Z.to_nat (Z.min len stoplen)) with
    | (l, None) => (EFAULT, None, l)
    | (l, Some (result, actual)) => (result, actual, l)
    end.

Definition copyoutstr (src : Z -> Z) (userdest len : Z) (sp : space) : Z * option Z * space :=
  let '(result, stoplen) := copycheck userdest len in
  if negb (result =? 0) then (result, None, sp)
  else
    let '(l, r) := copystr src (fun i => bad sp (userdest + i)) len stoplen 0 (Z.to_nat (Z.min len stoplen)) in
    let '(sp, _) := store_bytes sp userdest l in
    match r with
    | None => (EFAULT, None, sp)
    | Some (result, actual) => (result, actual, sp)
    end.

(** ** What they may touch *)

(** An address user code may access. *)
Definition user_ok (sp : space) (a : Z) : Prop := 0 <= a < USERSPACETOP /\ bad sp a = false.

Lemma copycheck_spec p len e sl : is_u32 p -> is_u32 len -> copycheck p len = (e, sl) ->
  (e = 0 -> p < USERSPACETOP /\ 0 <= sl /\ p + sl <= USERSPACETOP /\
            (sl = len \/ len <> sl /\ sl < len /\ p + sl = USERSPACETOP \/ p = 0 /\ len = 0)) /\
  (0 < len -> p + len <= USERSPACETOP -> e = 0 /\ sl = len) /\ (e = 0 \/ e = EFAULT).
Proof.
  unfold is_u32, copycheck. intros Hp Hl. change USERSPACETOP with (2 ^ 31).
  assert (Htop : u32 (p + len - 1) = p + len - 1 \/ u32 (p + len - 1) = p + len - 1 - 2 ^ 32 /\ 2 ^ 32 <= p + len - 1 \/
    p = 0 /\ len = 0 /\ u32 (p + len - 1) = 2 ^ 32 - 1).
  { unfold u32. destruct (decide (p + len - 1 < 0)); [right; right|].
    - assert (p = 0) as -> by lia. assert (len = 0) as -> by lia. done.
    - destruct (decide (p + len - 1 < 2 ^ 32)); [left; apply Z.mod_small; lia|right; left].
      rewrite <- (Z.mod_small (p + len - 1 - 2 ^ 32) (2 ^ 32)) by lia.
      rewrite <- (Z.mod_add (p + len - 1 - 2 ^ 32) 1) by lia. split; [f_equal|]; lia. }
  destruct (Z.ltb_spec (u32 (p + len - 1)) p), (Z.leb_spec (2 ^ 31) p), (Z.leb_spec (2 ^ 31) (u32 (p + len - 1)));
    intros [= <- <-]; split_and!; try (intros; discriminate); try (intros; split_and!); auto; try lia.
Qed.

Lemma load_bytes_spec sp a n l ok : load_bytes sp a n = (l, ok) ->
  (length l <= n)%nat /\ (forall k b, l !! k = Some b -> b = contents sp (a + Z.of_nat k) /\ bad sp (a + Z.of_nat k) = false) /\
  (ok = true <-> length l = n) /\
  (ok = false -> bad sp (a + Z.of_nat (length l)) = true).
Proof.
  revert a l ok. induction n as [|n IH]; cbn; intros a l ok H.
  { injection H as <- <-. cbn. split_and!; try done; lia. }
  destruct (bad sp a) eqn:Hb.
  { injection H as <- <-. cbn. split_and!; try done; try lia. intros _. by rewrite Z.add_0_r. }
  destruct (load_bytes sp (a + 1) n) as [l' ok'] eqn:Hr. injection H as <- <-.
  apply IH in Hr as (H1 & H2 & H3 & H4). cbn. split_and!; try lia.
  - intros [|k] b Hk; cbn in Hk.
    + injection Hk as <-. by rewrite Z.add_0_r.
    + destruct (H2 k b Hk) as [-> ?]. replace (a + Z.of_nat (S k)) with (a + 1 + Z.of_nat k) by lia. done.
  - rewrite H3. lia.
  - intros Hf. specialize (H4 Hf). by replace (a + Z.of_nat (S (length l'))) with (a + 1 + Z.of_nat (length l')) by lia.
Qed.

Lemma store_bytes_spec data : forall sp a sp' ok, store_bytes sp a data = (sp', ok) ->
  bad sp' = bad sp /\
  exists n, (n <= length data)%nat /\ (ok = true <-> n = length data) /\
    (forall k, (k < n)%nat -> bad sp (a + Z.of_nat k) = false) /\
    (ok = false -> bad sp (a + Z.of_nat n) = true) /\
    (forall x, contents sp' x = if (a <=? x) && (x <? a + Z.of_nat n)
                                then default 0 (data !! Z.to_nat (x - a)) else contents sp x).
Proof.
  induction data as [|b data IH]; cbn; intros sp a sp' ok H.
  { injection H as <- <-. split; [done|]. exists O. split_and!; try done; try lia. intros x.
    by replace ((a <=? x) && (x <? a + Z.of_nat 0)) with false by zbool. }
  destruct (bad sp a) eqn:Hb.
  { injection H as <- <-. split; [done|]. exists O. split_and!; try done; try lia.
    - intros _. by rewrite Z.add_0_r.
    - intros x. by replace ((a <=? x) && (x <? a + Z.of_nat 0)) with false by zbool. }
  apply IH in H as (Hbad & n & Hn & Hok & Hg & Hf & Hc). cbn in Hbad, Hg, Hf. split; [done|].
  exists (S n). split_and!; try lia.
  - rewrite Hok. cbn. lia.
  - intros [|k] Hk; [by rewrite Z.add_0_r|]. specialize (Hg k). replace (a + Z.of_nat (S k)) with (a + 1 + Z.of_nat k) by lia. apply Hg. lia.
  - intros ?. replace (a + Z.of_nat (S n)) with (a + 1 + Z.of_nat n) by lia. auto.
  - intros x. rewrite Hc. cbn. destruct (Z.eqb_spec x a) as [->|Hx].
    + replace ((a + 1 <=? a) && (a <? a + 1 + Z.of_nat n)) with false by zbool.
      replace ((a <=? a) && (a <? a + Z.of_nat (S n))) with true by zbool. by rewrite Z.sub_diag.
    + replace ((a <=? x) && (x <? a + Z.of_nat (S n))) with ((a + 1 <=? x) && (x <? a + 1 + Z.of_nat n)) by zbool.
      destruct ((a + 1 <=? x) && (x <? a + 1 + Z.of_nat n)) eqn:E; [|done].
      by replace (Z.to_nat (x - a)) with (S (Z.to_nat (x - (a + 1)))) by lia.
Qed.

Lemma user_range sp p len : 0 < len -> (forall a, p <= a < p + len -> user_ok sp a) ->
  0 <= p /\ p + len <= USERSPACETOP /\ copycheck p len = (0, len).
Proof.
  intros Hl Hu. destruct (Hu p ltac:(lia)) as [Hp _]. destruct (Hu (p + len - 1) ltac:(lia)) as [Hq _].
  split_and!; [lia|lia|]. destruct (copycheck p len) as [e sl] eqn:Hc.
  apply copycheck_spec in Hc as (_ & H & _); [|unfold is_u32, USERSPACETOP, MIPS_KSEG0 in *; lia..].
  destruct H as [-> ->]; [lia|lia|done].
Qed.

Lemma copyin_ok p len sp : 0 < len -> (forall a, p <= a < p + len -> user_ok sp a) ->
  copyin p len sp = (0, contents sp <$> seqZ p len).
Proof.
  intros Hl Hu. destruct (user_range sp p len Hl Hu) as (Hp & Hq & Hc). unfold copyin. rewrite Hc. cbn. rewrite Z.eqb_refl. cbn.
  destruct (load_bytes sp p (Z.to_nat len)) as [l ok] eqn:Hb. apply load_bytes_spec in Hb as (H1 & H2 & H3 & H4).
  assert (ok = true) as ->.
  { destruct ok; [done|]. specialize (H4 eq_refl). destruct (decide (length l = Z.to_nat len)) as [He|He]; [by apply H3 in He|].
    destruct (Hu (p + Z.of_nat (length l)) ltac:(lia)) as [_ Hb]. congruence. }
  f_equal. apply list_eq. intros i. destruct (l !! i) as [b|] eqn:Hi.
  - pose proof (lookup_lt_Some _ _ _ Hi). destruct (H2 i b Hi) as [-> _]. symmetry. rewrite list_lookup_fmap.
    rewrite (lookup_seqZ_lt p len i) by lia. done.
  - apply lookup_ge_None in Hi. symmetry. apply lookup_ge_None. rewrite length_fmap, length_seqZ. assert (length l = Z.to_nat len) by (by apply H3). lia.
Qed.

Lemma copyout_ok src p len sp : 0 < len -> len <= Z.of_nat (length src) ->
  (forall a, p <= a < p + len -> user_ok sp a) ->
  exists sp', copyout src p len sp = (0, sp') /\ bad sp' = bad sp /\
    forall x, contents sp' x = if (p <=? x) && (x <? p + len) then default 0 (src !! Z.to_nat (x - p)) else contents sp x.
Proof.
  intros Hl Hs Hu. destruct (user_range sp p len Hl Hu) as (Hp & Hq & Hc). unfold copyout. rewrite Hc. cbn. rewrite Z.eqb_refl. cbn.
  destruct (store_bytes sp p (take (Z.to_nat len) src)) as [sp' ok] eqn:Hb.
  apply store_bytes_spec in Hb as (Hbad & n & Hn & Hok & Hg & Hf & Hcont).
  rewrite length_take in *. assert (ok = true) as ->.
  { destruct ok; [done|]. specialize (Hf eq_refl). destruct (decide (n = Z.to_nat len)) as [->|He]; [assert (false = true) by (apply Hok; lia); done|].
    destruct (Hu (p + Z.of_nat n) ltac:(lia)) as [_ Hb]. congruence. }
  exists sp'. split_and!; [done|done|]. assert (n = Z.to_nat len) as -> by (assert (n = (Z.to_nat len `min` length src)%nat) by (by apply Hok); lia).
  intros x. rewrite Hcont, Z2Nat.id by lia. destruct ((p <=? x) && (x <? p + len)) eqn:E; [|done].
  rewrite lookup_take_lt; [done|]. lia.
Qed.

(** ** Safety *)

Lemma copycheck_zero p : is_u32 p -> forall sl, copycheck p 0 = (0, sl) -> sl <> 0.
Proof.
  unfold is_u32. intros Hp sl Hc. destruct (decide (p = 0)) as [->|]; [vm_compute in Hc; injection Hc as <-; done|].
  unfold copycheck in Hc. rewrite (u32_small (p + 0 - 1)) in Hc by (unfold is_u32; lia). by replace (p + 0 - 1 <? p) with true in Hc by lia.
Qed.

(** The range that [copyin] and [copyout] go on to access. *)
Lemma copycheck_range p len : is_u32 p -> is_u32 len -> copycheck p len = (0, len) -> 0 < len /\ p + len <= USERSPACETOP.
Proof.
  intros Hp Hl Hc. assert (len <> 0) by (intros ->; by apply (copycheck_zero p Hp 0)).
  apply copycheck_spec in Hc as (H1 & _); [|done..]. destruct (H1 eq_refl) as (_ & _ & ? & _). unfold is_u32 in *. lia.
Qed.

(** What [copyout] does, in one statement. *)
Lemma copyout_range src p len sp : is_u32 p -> is_u32 len -> len <= Z.of_nat (length src) ->
  exists r sp', copyout src p len sp = (r, sp') /\
    (forall x, contents sp' x <> contents sp x -> user_ok sp x /\ p <= x < p + len) /\
    (r = 0 \/ r = EFAULT) /\ (r = 0 <-> 0 < len /\ forall a, p <= a < p + len -> user_ok sp a) /\
    (r = 0 -> forall k, 0 <= k < len -> contents sp' (p + k) = default 0 (src !! Z.to_nat k)).
Proof.
  intros Hp Hl Hs. assert (Hfail : copycheck p len <> (0, len) -> copyout src p len sp = (EFAULT, sp) /\ ~ (0 < len /\ forall a, p <= a < p + len -> user_ok sp a)).
  { intros Hne. split; [|intros [H0 Hu]; by destruct (user_range sp p len H0 Hu) as (_ & _ & ?)]. unfold copyout.
    destruct (copycheck p len) as [e sl] eqn:Hc. pose proof Hc as Hc'. apply copycheck_spec in Hc' as (_ & _ & [-> | ->]); [|done..]. cbn.
    destruct (Z.eqb_spec sl len) as [->|]; done. }
  destruct (decide (copycheck p len = (0, len))) as [Hc|Hc].
  2:{ destruct (Hfail Hc) as [He Hno]. exists EFAULT, sp. split_and!; [done|done|by right|split; [done|by intros ?%Hno]|done]. }
  destruct (copycheck_range p len Hp Hl Hc) as [H0 Htop]. unfold copyout. rewrite Hc. cbn. rewrite Z.eqb_refl. cbn.
  destruct (store_bytes sp p (take (Z.to_nat len) src)) as [sp' ok] eqn:Hst.
  apply store_bytes_spec in Hst as (_ & n & Hn & Hok & Hg & Hf & Hcont). rewrite length_take_le in Hn, Hok by lia. unfold is_u32 in Hp.
  exists (if ok then 0 else EFAULT), sp'. split; [done|]. split.
  { intros x. rewrite Hcont. destruct ((p <=? x) && (x <? p + Z.of_nat n)) eqn:E; [|done]. intros _. split; [|lia]. split; [lia|].
    replace x with (p + Z.of_nat (Z.to_nat (x - p))) by lia. apply Hg. lia. }
  destruct ok.
  - assert (n = Z.to_nat len) as -> by (by apply Hok). split_and!; [by left|split; [|done]|].
    + intros _. split; [done|]. intros a Ha. split; [lia|]. replace a with (p + Z.of_nat (Z.to_nat (a - p))) by lia. apply Hg. lia.
    + intros _ k Hk. rewrite Hcont. replace (_ && _) with true by zbool. rewrite lookup_take_lt by lia. do 2 f_equal. lia.
  - assert (Hlt : (n < Z.to_nat len)%nat) by (destruct (decide (n = Z.to_nat len)) as [He|]; [by apply Hok in He|lia]).
    split_and!; [by right|split; [done|]|done]. intros [_ Hu]. destruct (Hu (p + Z.of_nat n) ltac:(lia)) as [_ Hb]. rewrite Hf in Hb; done.
Qed.



(** The loop of [copystr]. *)
Lemma copystr_spec src fault maxlen stoplen n : forall i l r, copystr src fault maxlen stoplen i n = (l, r) ->
  (length l <= n)%nat /\ (forall k b, l !! k = Some b -> b = src (i + Z.of_nat k) /\ fault (i + Z.of_nat k) = false) /\
  match r with
  | None => exists k, (k < n)%nat /\ k = length l /\ fault (i + Z.of_nat k) = true
  | Some (e, got) =>
      e = 0 /\ got = Some (i + Z.of_nat (length l)) /\ (exists s, l = s ++ [0] /\ Forall (fun c => c <> 0) s) \/
      e = (if stoplen <? maxlen then EFAULT else ENAMETOOLONG) /\ got = None /\ length l = n /\ Forall (fun c => c <> 0) l
  end.
Proof.
  induction n as [|n IH]; cbn [copystr]; intros i l r H.
  { injection H as <- <-. split_and!; [done|done|]. right. split_and!; done. }
  destruct (fault i) eqn:Hf.
  { injection H as <- <-. split_and!; [cbn; lia|done|]. exists O. split_and!; [lia|done|]. by rewrite Z.add_0_r. }
  destruct (Z.eqb_spec (src i) 0) as [Hz|Hz].
  { injection H as <- <-. split_and!; [cbn; lia| |].
    - intros [|k] b Hk; [|by destruct k]. injection Hk as <-. rewrite Z.add_0_r. done.
    - left. split_and!; [done|done|]. exists []. rewrite Hz. done. }
  destruct (copystr src fault maxlen stoplen (i + 1) n) as [l1 r1] eqn:Hr. injection H as <- <-. apply IH in Hr as (H1 & H2 & H3).
  split_and!; [cbn; lia| |].
  - intros [|k] b Hk; cbn in Hk; [injection Hk as <-; by rewrite Z.add_0_r|]. replace (i + Z.of_nat (S k)) with (i + 1 + Z.of_nat k) by lia. by apply H2.
  - destruct r1 as [[e got]|].
    + destruct H3 as [(-> & -> & s & -> & Hs)|(-> & -> & Hl & Hs)]; [left|right].
      * split_and!; [done|f_equal; cbn; lia|]. exists (src i :: s). split; [done|]. by constructor.
      * split_and!; [done|done|cbn; lia|by constructor].
    + destruct H3 as (k & Hk & -> & Hfk). exists (S (length l1)). split_and!; [lia|done|]. by replace (i + Z.of_nat (S (length l1))) with (i + 1 + Z.of_nat (length l1)) by lia.
Qed.

(** [copyinstr] reads only accessible user addresses, at most [len] of them and never
    past the end of user space; the buffer then holds a prefix of what is there.  It returns
    0 only with a string that ends at the first zero byte, and reports its length;
    ENAMETOOLONG only when [len] bytes without a zero were read; EFAULT otherwise. *)
Theorem copyinstr_correct p len sp : is_u32 p -> is_u32 len ->
  exists r got l, copyinstr p len sp = (r, got, l) /\ Z.of_nat (length l) <= len /\
    (forall k b, l !! k = Some b -> user_ok sp (p + Z.of_nat k) /\ b = contents sp (p + Z.of_nat k)) /\
    (r = 0 /\ got = Some (Z.of_nat (length l)) /\ (exists s, l = s ++ [0] /\ Forall (fun c => c <> 0) s) \/
     r = ENAMETOOLONG /\ got = None /\ Z.of_nat (length l) = len /\ Forall (fun c => c <> 0) l \/
     r = EFAULT /\ got = None).
Proof.
  intros Hp Hl. unfold copyinstr. destruct (copycheck p len) as [e sl] eqn:Hc. pose proof Hc as Hc'.
  apply copycheck_spec in Hc' as (H0 & _ & He); [|done..]. destruct He as [-> | ->].
  2:{ exists EFAULT, None, []. split_and!; [done|unfold is_u32 in *; cbn; lia|done|]. right. by right. }
  destruct (H0 eq_refl) as (Hpt & Hsl & Htop & Hcases). cbn. unfold is_u32 in *.
  destruct (copystr _ _ _ _ _ _) as [l r] eqn:Hr. apply copystr_spec in Hr as (H1 & H2 & H3).
  assert (Hlen : Z.of_nat (length l) <= len /\ Z.of_nat (length l) <= sl) by lia.
  assert (Hchars : forall k b, l !! k = Some b -> user_ok sp (p + Z.of_nat k) /\ b = contents sp (p + Z.of_nat k)).
  { intros k b Hk. destruct (H2 k b Hk) as [-> Hb]. pose proof (lookup_lt_Some _ _ _ Hk). split; [|done]. split; [lia|done]. }
  destruct r as [[e got]|].
  - exists e, got, l. split_and!; [done|lia|done|]. destruct H3 as [(-> & -> & Hs)|(-> & -> & Hn & Hs)]; [left; split_and!; [done|done|done]|right].
    destruct (Z.ltb_spec sl len) as [Hlt|Hge]; [by right|]. left. split_and!; [done|done|lia|done].
  - exists EFAULT, None, l. split_and!; [done|lia|done|]. right. by right.
Qed.

Lemma copyinstr_correct_witness : let sp := mkSpace (fun a => if a =? 102 then 0 else 65) (fun _ => false) in
  exists got l, copyinstr 100 10 sp = (0, got, l) /\ exists s, l = s ++ [0] /\ Forall (fun c => c <> 0) s.
Proof.
  intros sp. destruct (copyinstr_correct 100 10 sp) as (r & got & l & He & _ & _ & Hr); [unfold is_u32; lia..|].
  assert (r = 0) by (vm_compute in He; congruence). subst r. exists got, l. split; [exact He|].
  destruct Hr as [(_ & _ & H)|[(H & _)|(H & _)]]; [exact H|discriminate H..].
Defined.

End Copyinout.
