(* ===== verification/Uio.v ===== *)
(** * kern/lib/uio.c: moving data between the kernel and scattered buffers

    A [struct uio] describes buffers in one memory, kernel or user, which the record
    carries along: [uio_mem].  The kernel side of a transfer, [ptr], is the list of the
    bytes at that address; it never overlaps the buffers of the uio. *)
From S2P Require Import Prelude Copyinout.
Import Copyinout.

Module Uio.

Inductive uio_rw_t : Type := UIO_READ | UIO_WRITE.
Inductive uio_seg : Type := UIO_USERISPACE | UIO_USERSPACE | UIO_SYSSPACE.
#[global] Instance uio_rw_dec : EqDecision uio_rw_t. Proof. solve_decision. Defined.
#[global] Instance uio_seg_dec : EqDecision uio_seg. Proof. solve_decision. Defined.

Record iovec : Type := mkIov { iov_base : Z; iov_len : Z }.

(** [uio_iovcnt] is the length of [uio_iov]; [uio_resid] is a [size_t], [uio_offset]
    an [off_t]; [uio_space] is the address of the address space, 0 for NULL. *)
Record uio : Type := mkUio {
  uio_iov : list iovec; uio_offset : Z; uio_resid : Z; uio_segflg : uio_seg;
  uio_rw : uio_rw_t; uio_space : Z; uio_mem : space
}.

Definition set_iov (x : list iovec) (u : uio) : uio :=
  mkUio x (uio_offset u) (uio_resid u) (uio_segflg u) (uio_rw u) (uio_space u) (uio_mem u).
Definition set_offset (x : Z) (u : uio) : uio :=
  mkUio (uio_iov u) x (uio_resid u) (uio_segflg u) (uio_rw u) (uio_space u) (uio_mem u).
Definition set_resid (x : Z) (u : uio) : uio :=
  mkUio (uio_iov u) (uio_offset u) x (uio_segflg u) (uio_rw u) (uio_space u) (uio_mem u).
Definition set_mem (x : space) (u : uio) : uio :=
  mkUio (uio_iov u) (uio_offset u) (uio_resid u) (uio_segflg u) (uio_rw u) (uio_space u) x.

(** [memmove] within the kernel. *)
Definition load_kernel (sp : space) (a : Z) (n : nat) : list Z :=
  (fun k => contents sp (a + Z.of_nat k)) <$> seq 0 n.
Definition store_kernel (sp : space) (a : Z) (l : list Z) : space :=
  mkSpace (fun x => if (a <=? x) && (x <? a + Z.of_nat (length l))
                    then default 0 (l !! Z.to_nat (x - a)) else contents sp x) (bad sp).

(** Bytes [pos, pos + length new) of a buffer replaced. *)
Definition splice (pos : nat) (new l : list Z) : list Z :=
  take pos l ++ new ++ drop (pos + length new) l.

(** The transfer of [size] bytes between position [pos] of [ptr] and the buffer at
    [base]: the result, and [ptr] after it; the memory changes in the state. *)
Definition transfer (ptr : list Z) (pos : nat) (base size : Z) : M uio (Z * list Z) := fun u =>
  let n := Z.to_nat size in
  match uio_segflg u, uio_rw u with
  | UIO_SYSSPACE, UIO_READ =>
      Done (0, ptr) (set_mem (store_kernel (uio_mem u) base (take n (drop pos ptr))) u)
  | UIO_SYSSPACE, UIO_WRITE =>
      Done (0, splice pos (load_kernel (uio_mem u) base n) ptr) u
  | _, UIO_READ =>
      let '(result, sp) := copyout (drop pos ptr) base size (uio_mem u) in
      Done (result, ptr) (set_mem sp u)
  | _, UIO_WRITE =>
      let '(result, l) := copyin base size (uio_mem u) in
      Done (result, splice pos l ptr) u
  end.

(** The loop of [uiomove], with [n] bytes to go from position [pos] of [ptr]. *)
Fixpoint uiomove_loop (fuel : nat) (ptr : list Z) (pos : nat) (n : Z) : M uio (Z * list Z) :=
  match fuel with
  | O => fun _ => OutOfFuel
  | S fuel =>
      u ← get;
      if (0 <? n) && (0 <? uio_resid u) then
        iov ← deref "uio->uio_iov" (head (uio_iov u));
        let size := if n <? iov_len iov then n else iov_len iov in
        if size =? 0 then
          modify (set_iov (tail (uio_iov u)));;
          if bool_decide (tail (uio_iov u) = []) then panic "uiomove: ran out of buffers"
          else uiomove_loop fuel ptr pos n
        else
          '(result, ptr) ← transfer ptr pos (iov_base iov) size;
          if negb (result =? 0) then mret (result, ptr)
          else
            modify (fun u => set_iov (mkIov (u32 (iov_base iov + size)) (iov_len iov - size) :: tail (uio_iov u))
                      (set_resid (u32 (uio_resid u - size)) (set_offset (uio_offset u + size) u)));;
            uiomove_loop fuel ptr (pos + Z.to_nat size) (n - size)
      else mret (0, ptr)
  end.

Section Uiomove.
(** What [proc_getas] returns. *)
Context (curas : Z).

(** Every turn of the loop uses up a buffer or is followed by one that does. *)
Definition uiomove (ptr : list Z) (n : Z) : M uio (Z * list Z) :=
  u ← get;
  (if bool_decide (uio_segflg u = UIO_SYSSPACE)
   then kassert "uio->uio_space == NULL" (uio_space u =? 0)
   else kassert "uio->uio_space == proc_getas()" (uio_space u =? curas));;
  uiomove_loop (2 * length (uio_iov u) + 2) ptr 0 n.

(** [n] bytes of zeros, 16 at a time. *)
Fixpoint zeros_loop (fuel : nat) (n : Z) : M uio Z :=
  match fuel with
  | O => fun _ => OutOfFuel
  | S fuel =>
      if 0 <? n then
        let amt := if n <? 16 then n else 16 in
        '(result, _) ← uiomove (replicate 16 0) amt;
        if negb (result =? 0) then mret result else zeros_loop fuel (n - amt)
      else mret 0
  end.

Definition uiomovezeros (n : Z) : M uio Z :=
  u ← get;
  kassert "uio->uio_rw == UIO_READ" (bool_decide (uio_rw u = UIO_READ));;
  zeros_loop (S (Z.to_nat n)) n.

End Uiomove.

Definition uio_kinit (kbuf len pos : Z) (rw : uio_rw_t) (sp : space) : uio :=
  mkUio [mkIov kbuf len] pos len UIO_SYSSPACE rw 0 sp.

(** ** What [uiomove] does

    The bytes a uio still describes, by their addresses in order. *)
Definition iov_addrs (iovs : list iovec) : list Z :=
  mjoin ((fun iov => seqZ (iov_base iov) (iov_len iov)) <$> iovs).
Definition addrs (u : uio) : list Z := iov_addrs (uio_iov u).

(** The memory may be accessed at [a]. *)
Definition accessible (u : uio) (a : Z) : Prop :=
  uio_segflg u = UIO_SYSSPACE \/ user_ok (uio_mem u) a.

Definition iov_ok (iov : iovec) : Prop :=
  0 <= iov_base iov < 2 ^ 32 /\ 0 <= iov_len iov < 2 ^ 32 /\ iov_base iov + iov_len iov <= 2 ^ 32.

(** A uio that can be served: disjoint buffers that may be accessed and have room for
    what it asks. *)
Record uio_ok (curas : Z) (u : uio) : Prop := {
  uk_iov : Forall iov_ok (uio_iov u);
  uk_nodup : NoDup (addrs u);
  uk_resid : 0 <= uio_resid u <= Z.of_nat (length (addrs u)) /\ uio_resid u < 2 ^ 32;
  uk_acc : forall a, a ∈ addrs u -> accessible u a;
  uk_space : uio_space u = if bool_decide (uio_segflg u = UIO_SYSSPACE) then 0 else curas
}.

(** [n] bytes went from the front of the buffers to position [pos] of [ptr], or the
    other way round. *)
Record moved (n : nat) (pos : nat) (ptr ptr' : list Z) (u u' : uio) : Prop := {
  mv_addrs : addrs u' = drop n (addrs u);
  mv_offset : uio_offset u' = uio_offset u + Z.of_nat n;
  mv_resid : uio_resid u' = uio_resid u - Z.of_nat n;
  mv_same : uio_segflg u' = uio_segflg u /\ uio_rw u' = uio_rw u /\ uio_space u' = uio_space u /\
            bad (uio_mem u') = bad (uio_mem u);
  mv_iov : Forall iov_ok (uio_iov u');
  mv_read : uio_rw u = UIO_READ -> ptr' = ptr /\
    (forall i a, take n (addrs u) !! i = Some a -> contents (uio_mem u') a = default 0 (ptr !! (pos + i)%nat)) /\
    (forall a, a ∉ take n (addrs u) -> contents (uio_mem u') a = contents (uio_mem u) a);
  mv_write : uio_rw u = UIO_WRITE -> (forall a, contents (uio_mem u') a = contents (uio_mem u) a) /\
    ptr' = splice pos (contents (uio_mem u) <$> take n (addrs u)) ptr
}.

Lemma length_splice pos new l : (pos + length new <= length l)%nat -> length (splice pos new l) = length l.
Proof. intros. unfold splice. rewrite !length_app, length_take, length_drop. lia. Qed.

Lemma splice_nil pos l : splice pos [] l = l.
Proof. unfold splice. cbn. rewrite Nat.add_0_r. apply take_drop. Qed.

Lemma splice_splice pos l1 l2 l : (pos + length l1 <= length l)%nat ->
  splice (pos + length l1) l2 (splice pos l1 l) = splice pos (l1 ++ l2) l.
Proof.
  intros H. unfold splice. rewrite length_app.
  rewrite (app_assoc (take pos l)). rewrite take_app_length' by (rewrite length_app, length_take; lia).
  rewrite drop_app_ge by (rewrite length_app, length_take; lia).
  rewrite length_app, length_take, drop_drop, <- !app_assoc. do 3 f_equal. f_equal. lia.
Qed.

Lemma splice_lookup pos new l i : (pos + length new <= length l)%nat ->
  splice pos new l !! i = if decide (pos <= i < pos + length new)%nat then new !! (i - pos)%nat else l !! i.
Proof.
  intros H. unfold splice. destruct (decide (i < pos)%nat).
  - rewrite lookup_app_l by (rewrite length_take; lia). rewrite lookup_take_lt by lia.
    rewrite decide_False by lia. done.
  - rewrite lookup_app_r by (rewrite length_take; lia). rewrite length_take_le by lia.
    destruct (decide _) as [Hi|Hi].
    + by rewrite lookup_app_l by lia.
    + rewrite lookup_app_r, lookup_drop by lia. f_equal. lia.
Qed.

Lemma moved_0 pos ptr u : Forall iov_ok (uio_iov u) -> moved 0 pos ptr ptr u u.
Proof.
  intros H. split; try done; try lia.
  intros _. by rewrite splice_nil.
Qed.

Lemma moved_trans n1 n2 pos ptr ptr1 ptr2 u u1 u2 : NoDup (addrs u) -> (n1 <= length (addrs u))%nat ->
  (pos + n1 <= length ptr)%nat ->
  moved n1 pos ptr ptr1 u u1 -> moved n2 (pos + n1) ptr1 ptr2 u1 u2 -> moved (n1 + n2) pos ptr ptr2 u u2.
Proof.
  intros Hnd Hn1 Hpos [A1 O1 R1 (S1 & W1 & P1 & B1) I1 Rd1 Wr1] [A2 O2 R2 (S2 & W2 & P2 & B2) I2 Rd2 Wr2].
  assert (Htk : take (n1 + n2) (addrs u) = take n1 (addrs u) ++ take n2 (addrs u1)).
  { rewrite A1. rewrite take_take_drop. done. }
  rewrite <- (take_drop n1 (addrs u)), <- A1 in Hnd. apply NoDup_app in Hnd as (_ & Hdis & _).
  split.
  - by rewrite A2, A1, drop_drop.
  - lia.
  - lia.
  - split_and!; congruence.
  - done.
  - intros Hr. rewrite W1 in Rd2. destruct (Rd1 Hr) as (-> & H1 & H1'). destruct (Rd2 Hr) as (-> & H2 & H2').
    split; [done|]. rewrite Htk. split.
    + intros i a Hi. destruct (decide (i < n1)%nat).
      * rewrite lookup_app_l in Hi by (rewrite length_take; lia). rewrite H2'; [by apply H1|].
        intros Ha. apply (Hdis a); [by eapply list_elem_of_lookup_2|]. by apply elem_of_take in Ha as (j & Hj & _); eapply list_elem_of_lookup_2.
      * rewrite lookup_app_r, length_take in Hi by (rewrite length_take; lia).
        rewrite (H2 _ _ Hi). do 2 f_equal. lia.
    + intros a Ha. rewrite not_elem_of_app in Ha. destruct Ha. rewrite H2', H1' by done. done.
  - intros Hw. rewrite W1 in Wr2. destruct (Wr1 Hw) as (H1 & ->). destruct (Wr2 Hw) as (H2 & ->).
    split; [intros; by rewrite H2|]. rewrite Htk, fmap_app.
    replace n1 with (length (contents (uio_mem u) <$> take n1 (addrs u))) at 1
      by (rewrite length_fmap, length_take; lia).
    rewrite splice_splice by (rewrite length_fmap, length_take; lia). do 2 f_equal.
    apply list_fmap_ext. intros. apply H1.
Qed.

Lemma elem_of_seqZ_range a b l : a ∈ seqZ b l <-> b <= a < b + l.
Proof. rewrite elem_of_seqZ. lia. Qed.

(** After a transfer of [size] bytes to or from the first buffer. *)
Definition advance (iov : iovec) (size : Z) (u : uio) : uio :=
  set_iov (mkIov (u32 (iov_base iov + size)) (iov_len iov - size) :: tail (uio_iov u))
    (set_resid (u32 (uio_resid u - size)) (set_offset (uio_offset u + size) u)).

Lemma seqZ_split b l n : 0 <= n <= l -> seqZ b l = seqZ b n ++ seqZ (b + n) (l - n).
Proof. intros. replace l with (n + (l - n)) at 1 by lia. by rewrite seqZ_app by lia. Qed.

Lemma addrs_advance iov rest size : iov_ok iov -> 0 < size <= iov_len iov ->
  iov_addrs (mkIov (u32 (iov_base iov + size)) (iov_len iov - size) :: rest)
  = drop (Z.to_nat size) (iov_addrs (iov :: rest)) /\
  take (Z.to_nat size) (iov_addrs (iov :: rest)) = seqZ (iov_base iov) size /\
  iov_ok (mkIov (u32 (iov_base iov + size)) (iov_len iov - size)).
Proof.
  intros (Hb & Hl & Hbl) Hs. unfold iov_addrs. cbn. rewrite (seqZ_split (iov_base iov) (iov_len iov) size) by lia.
  rewrite <- app_assoc.
  assert (He : length (seqZ (iov_base iov) size) = Z.to_nat size) by (rewrite length_seqZ; lia).
  rewrite drop_app_length' by done. rewrite take_app_length' by done.
  pose proof (u32_range (iov_base iov + size)) as Hr. unfold is_u32 in Hr.
  destruct (decide (size = iov_len iov)) as [->|Hne].
  - rewrite Z.sub_diag. cbn. split_and!; try done; unfold iov_ok; cbn; lia.
  - assert (Hu : u32 (iov_base iov + size) = iov_base iov + size) by (apply u32_small; unfold is_u32; lia).
    rewrite Hu in *. split_and!; try done; unfold iov_ok; cbn; lia.
Qed.

Lemma transfer_moved ptr pos iov rest size u : uio_iov u = iov :: rest -> Forall iov_ok (iov :: rest) ->
  0 < size <= iov_len iov -> size <= uio_resid u < 2 ^ 32 -> (pos + Z.to_nat size <= length ptr)%nat ->
  (forall a, a ∈ addrs u -> accessible u a) ->
  exists ptr' u1, transfer ptr pos (iov_base iov) size u = Done (0, ptr') u1 /\
    moved (Z.to_nat size) pos ptr ptr' u (advance iov size u1).
Proof.
  intros Hiov [Hok Hoks]%Forall_cons Hs Hres Hpos Hacc.
  destruct (addrs_advance iov rest size Hok Hs) as (Ha & Ht & Hok').
  assert (Hin : forall a, iov_base iov <= a < iov_base iov + size -> accessible u a).
  { intros a Hr. apply Hacc. unfold addrs. rewrite Hiov. unfold iov_addrs. cbn. apply elem_of_app. left.
    apply elem_of_seqZ_range. destruct Hok as (? & ? & ?). lia. }
  assert (Hu32 : u32 (uio_resid u - size) = uio_resid u - size) by (apply u32_small; unfold is_u32; lia).
  assert (Hmk : forall ptr' sp, bad sp = bad (uio_mem u) ->
    (uio_rw u = UIO_READ -> ptr' = ptr /\
       forall x, contents sp x = if (iov_base iov <=? x) && (x <? iov_base iov + size)
                 then default 0 (ptr !! (pos + Z.to_nat (x - iov_base iov))%nat) else contents (uio_mem u) x) ->
    (uio_rw u = UIO_WRITE -> (forall x, contents sp x = contents (uio_mem u) x) /\
       ptr' = splice pos (contents (uio_mem u) <$> seqZ (iov_base iov) size) ptr) ->
    moved (Z.to_nat size) pos ptr ptr' u (advance iov size (set_mem sp u))).
  { intros ptr' sp Hbad Hrd Hwr. split; unfold addrs; cbn; rewrite ?Hiov; cbn [tail]; try rewrite Ht.
    - done.
    - lia.
    - rewrite Hu32. lia.
    - by split_and!.
    - by apply Forall_cons.
    - intros Hr. destruct (Hrd Hr) as [-> Hc]. split; [done|]. split.
      + intros i a Hi. apply lookup_seqZ in Hi as [-> Hi]. rewrite Hc.
        replace ((_ <=? _) && _) with true by zbool. do 3 f_equal. lia.
      + intros a Hna. rewrite Hc. destruct ((iov_base iov <=? a) && (a <? iov_base iov + size)) eqn:E; [|done].
        exfalso. apply Hna. apply elem_of_seqZ_range. lia.
    - intros Hw. destruct (Hwr Hw) as [? ->]. done. }
  unfold transfer. destruct (uio_segflg u) eqn:Hseg, (uio_rw u) eqn:Hrw.
  1,3: destruct (copyout_ok (drop pos ptr) (iov_base iov) size (uio_mem u)) as (sp & -> & Hbad & Hc);
    [lia|rewrite length_drop; lia|intros a Hr; destruct (Hin a Hr) as [?|?]; [congruence|done]|];
    eexists _, _; (split; [reflexivity|]); apply Hmk; [done| |by intros]; intros _; (split; [done|]); intros x; rewrite Hc, lookup_drop; done.
  1,2: rewrite copyin_ok; [|lia|intros a Hr; destruct (Hin a Hr) as [?|?]; [congruence|done]];
    eexists _, _; (split; [reflexivity|]); apply (Hmk _ (uio_mem u)); [done|by intros|by intros].
  - eexists _, _. split; [reflexivity|]. apply Hmk; [done| |by intros]. intros _. split; [done|]. intros x. cbn.
    rewrite length_take, length_drop.
    replace (Z.of_nat (Z.to_nat size `min` (length ptr - pos))) with size by lia.
    destruct ((iov_base iov <=? x) && (x <? iov_base iov + size)) eqn:E; [|done].
    rewrite lookup_take_lt, lookup_drop by lia. done.
  - eexists _, _. split; [reflexivity|]. apply (Hmk _ (uio_mem u)); [done|by intros|]. intros _. split; [done|]. f_equal.
    unfold load_kernel, seqZ. rewrite <- list_fmap_compose. apply list_fmap_ext. intros i k Hk. cbn. f_equal. lia.
Qed.

Lemma moved_iov n pos ptr ptr' iovs u u' : iov_addrs iovs = addrs u ->
  moved n pos ptr ptr' (set_iov iovs u) u' -> moved n pos ptr ptr' u u'.
Proof.
  intros Ha [A O R S I Rd Wr]. assert (Ha' : addrs (set_iov iovs u) = addrs u) by exact Ha.
  rewrite Ha' in *. by split.
Qed.

Lemma moved_accessible n pos ptr ptr' u u' : moved n pos ptr ptr' u u' ->
  (forall a, a ∈ addrs u -> accessible u a) -> forall a, a ∈ addrs u' -> accessible u' a.
Proof.
  intros [A _ _ (S & _ & _ & B) _ _ _] Hacc a Ha. rewrite A in Ha.
  assert (Hin : a ∈ addrs u) by (apply list_elem_of_lookup in Ha as [i Hi]; rewrite lookup_drop in Hi; by eapply list_elem_of_lookup_2).
  destruct (Hacc a Hin) as [Hs|[Hr Hb]]; [left; congruence|right]. split; [done|]. by rewrite B.
Qed.

(** One turn of the loop at a buffer that is used up. *)
Lemma loop_skip fuel ptr pos n u iov rest : uio_iov u = iov :: rest -> iov_len iov = 0 -> rest <> [] ->
  0 < n -> 0 < uio_resid u ->
  uiomove_loop (S fuel) ptr pos n u = uiomove_loop fuel ptr pos n (set_iov rest u).
Proof.
  intros Hi Hl Hr Hn Hres. cbn [uiomove_loop]. unfold mbind, M_bind, get, deref. 
  replace ((0 <? n) && (0 <? uio_resid u)) with true by zbool. rewrite Hi. cbn [head]. rewrite Hl.
  replace (n <? 0) with false by lia. cbn. by rewrite bool_decide_false.
Qed.

(** One turn of the loop at a buffer with room. *)
Lemma loop_transfer fuel ptr pos n u iov rest ptr' u1 : uio_iov u = iov :: rest -> 0 < iov_len iov ->
  0 < n -> 0 < uio_resid u -> let size := if n <? iov_len iov then n else iov_len iov in
  transfer ptr pos (iov_base iov) size u = Done (0, ptr') u1 ->
  uiomove_loop (S fuel) ptr pos n u = uiomove_loop fuel ptr' (pos + Z.to_nat size) (n - size) (advance iov size u1).
Proof.
  intros Hi Hl Hn Hres size Ht. cbn [uiomove_loop]. unfold mbind, M_bind, get, deref.
  replace ((0 <? n) && (0 <? uio_resid u)) with true by zbool. rewrite Hi. cbn [head]. fold size.
  replace (size =? 0) with false by (unfold size; destruct (n <? iov_len iov); lia). rewrite Ht. done.
Qed.

Lemma loop_done fuel ptr pos u : uiomove_loop (S fuel) ptr pos 0 u = Done (0, ptr) u.
Proof. done. Qed.

Lemma uiomove_loop_moved iovs : forall u fuel ptr pos n, uio_iov u = iovs -> Forall iov_ok iovs ->
  NoDup (addrs u) -> (forall a, a ∈ addrs u -> accessible u a) ->
  0 <= n <= uio_resid u -> uio_resid u <= Z.of_nat (length (addrs u)) -> uio_resid u < 2 ^ 32 ->
  (pos + Z.to_nat n <= length ptr)%nat -> (2 * length iovs + 1 <= fuel)%nat ->
  exists ptr' u', uiomove_loop fuel ptr pos n u = Done (0, ptr') u' /\ moved (Z.to_nat n) pos ptr ptr' u u'.
Proof.
  induction iovs as [|iov rest IH]; intros u fuel ptr pos n Hi Hok Hnd Hacc Hn Hr Hr32 Hpos Hf;
    (destruct fuel as [|fuel]; [cbn in Hf; lia|]).
  { unfold addrs in Hr. rewrite Hi in Hr. cbn in Hr. assert (n = 0) as -> by lia. rewrite loop_done.
    eexists _, _. split; [done|]. apply moved_0. by rewrite Hi. }
  destruct (decide (n = 0)) as [->|Hn0].
  { rewrite loop_done. eexists _, _. split; [done|]. apply moved_0. by rewrite Hi. }
  pose proof Hok as [Hiok Hroks]%Forall_cons.
  destruct (decide (iov_len iov = 0)) as [Hl|Hl].
  { assert (Ha : iov_addrs rest = addrs u) by (unfold addrs; rewrite Hi; unfold iov_addrs; cbn; by rewrite Hl).
    assert (rest <> []) by (intros ->; rewrite <- Ha in Hr; cbn in Hr; lia).
    rewrite (loop_skip fuel ptr pos n u iov rest) by (done || lia).
    destruct (IH (set_iov rest u) fuel ptr pos n) as (ptr' & u' & He & Hm); try done;
      unfold addrs; cbn [set_iov uio_iov uio_resid]; try rewrite Ha; try done.
    { cbn in Hf. lia. }
    exists ptr', u'. split; [done|]. by eapply moved_iov. }
  destruct Hiok as (Hb & Hlr & Hbl). set (size := if n <? iov_len iov then n else iov_len iov).
  assert (Hsz : 0 < size <= iov_len iov /\ size <= n) by (unfold size; destruct (Z.ltb_spec n (iov_len iov)); lia).
  destruct (transfer_moved ptr pos iov rest size u) as (ptr1 & u1 & Ht & Hm1); try done; try lia.
  rewrite (loop_transfer fuel ptr pos n u iov rest ptr1 u1) by (done || lia). fold size.
  assert (Hlen1 : length ptr1 = length ptr).
  { destruct Hm1 as [_ _ _ _ _ Hrd Hwr]. destruct (uio_rw u); [by destruct (Hrd eq_refl) as [-> _]|].
    destruct (Hwr eq_refl) as [_ ->]. apply length_splice. rewrite length_fmap, length_take. lia. }
  destruct (decide (n = size)) as [Hns|Hns].
  { replace (n - size) with 0 by lia. destruct fuel as [|fuel]; [cbn in Hf; lia|]. rewrite loop_done.
    eexists _, _. split; [done|]. by rewrite Hns. }
  assert (size = iov_len iov) as Hsl by (unfold size in *; destruct (Z.ltb_spec n (iov_len iov)); lia).
  destruct fuel as [|fuel]; [cbn in Hf; lia|].
  set (u2 := advance iov size u1) in *.
  assert (Hiov2 : uio_iov u2 = mkIov (u32 (iov_base iov + size)) (iov_len iov - size) :: rest).
  { subst u2. cbn. f_equal. transitivity (tail (uio_iov u)); [|by rewrite Hi]. f_equal. clear -Ht. unfold transfer in Ht.
    destruct (uio_segflg u), (uio_rw u); try (by injection Ht as _ <-);
      [destruct (copyout _ _ _ _)|destruct (copyin _ _ _)|destruct (copyout _ _ _ _)|destruct (copyin _ _ _)]; by injection Ht as _ _ <-. }
  assert (Haddr2 : iov_addrs rest = addrs u2).
  { unfold addrs. rewrite Hiov2, Hsl, Z.sub_diag. done. }
  pose proof (mv_addrs _ _ _ _ _ _ Hm1) as Ha2. pose proof (mv_resid _ _ _ _ _ _ Hm1) as Hr2.
  assert (Hlen2 : length (addrs u2) = (length (addrs u) - Z.to_nat size)%nat) by (rewrite Ha2; apply length_drop).
  assert (rest <> []).
  { intros ->. rewrite <- Haddr2 in Hlen2. change (length (iov_addrs [])) with O in Hlen2.
    lia. }
  rewrite (loop_skip fuel ptr1 _ (n - size) u2 _ rest Hiov2); [|cbn; lia|done|lia|lia].
  destruct (IH (set_iov rest u2) fuel ptr1 (pos + Z.to_nat size)%nat (n - size)) as (ptr' & u' & He & Hm2);
    try done; unfold addrs; cbn [set_iov uio_iov uio_resid]; try rewrite Haddr2; try lia.
  { rewrite Ha2. rewrite <- (take_drop (Z.to_nat size) (addrs u)) in Hnd. by apply NoDup_app in Hnd as (_ & _ & ?). }
  { intros a Ha. apply (moved_accessible _ _ _ _ _ _ Hm1 Hacc a Ha). }
  { cbn in Hf. lia. }
  exists ptr', u'. split; [done|]. replace (Z.to_nat n) with (Z.to_nat size + Z.to_nat (n - size))%nat by lia.
  eapply moved_trans; [done|lia|lia|exact Hm1|]. by eapply moved_iov.
Qed.

(** [uiomove] of [n] bytes on a uio that asks for at least as many. *)
Lemma uiomove_moved curas ptr n u : uio_ok curas u -> 0 <= n <= uio_resid u -> n <= Z.of_nat (length ptr) ->
  exists ptr' u', uiomove curas ptr n u = Done (0, ptr') u' /\ moved (Z.to_nat n) 0 ptr ptr' u u' /\ uio_ok curas u'.
Proof.
  intros [Hok Hnd [Hr Hr32] Hacc Hsp] Hn Hp.
  destruct (uiomove_loop_moved (uio_iov u) u (2 * length (uio_iov u) + 2) ptr 0 n) as (ptr' & u' & He & Hm);
    try done; try lia.
  exists ptr', u'. split; [|split; [done|]].
  - unfold uiomove, mbind, M_bind, get. rewrite Hsp.
    case_bool_decide; unfold kassert; rewrite Z.eqb_refl; done.
  - pose proof (mv_addrs _ _ _ _ _ _ Hm) as Ha. pose proof (mv_resid _ _ _ _ _ _ Hm) as Hr'.
    pose proof (mv_same _ _ _ _ _ _ Hm) as (Hs & _ & Hs' & _). split.
    + by apply (mv_iov _ _ _ _ _ _ Hm).
    + rewrite Ha. rewrite <- (take_drop (Z.to_nat n) (addrs u)) in Hnd. by apply NoDup_app in Hnd as (_ & _ & ?).
    + rewrite Ha, length_drop. lia.
    + by apply (moved_accessible _ _ _ _ _ _ Hm).
    + by rewrite Hs', Hsp, Hs.
Qed.

(** For a read only the bytes of [ptr] matter. *)
Lemma moved_read_ext n pos pos2 ptr ptr2 u u' : uio_rw u = UIO_READ ->
  (forall i, (i < n)%nat -> default 0 (ptr !! (pos + i)%nat) = default 0 (ptr2 !! (pos2 + i)%nat)) ->
  moved n pos ptr ptr u u' -> moved n pos2 ptr2 ptr2 u u'.
Proof.
  intros Hrw Hext [A O R S I Rd Wr]. destruct (Rd Hrw) as (_ & H1 & H2). split; try done.
  - intros _. split_and!; [done| |done]. intros i a Hi. rewrite <- Hext; [by apply H1|].
    apply lookup_lt_Some in Hi. rewrite length_take in Hi. lia.
  - by rewrite Hrw.
Qed.

Lemma zeros_lookup n i : default 0 (replicate n 0 !! i) = 0.
Proof. destruct (replicate n 0 !! i) eqn:E; [|done]. by apply lookup_replicate in E as [-> _]. Qed.

Lemma zeros_loop_moved curas fuel : forall n u, uio_ok curas u -> uio_rw u = UIO_READ -> 0 <= n <= uio_resid u ->
  (Z.to_nat n < fuel)%nat ->
  exists u', zeros_loop curas fuel n u = Done 0 u' /\ uio_ok curas u' /\
    forall z, moved (Z.to_nat n) 0 (replicate z 0) (replicate z 0) u u'.
Proof.
  induction fuel as [|fuel IH]; intros n u Hu Hrw Hn Hf; [lia|]. cbn [zeros_loop].
  destruct (Z.ltb_spec 0 n).
  2:{ exists u. assert (n = 0) as -> by lia. split_and!; try done. intros z. apply moved_0. apply Hu. }
  set (amt := if n <? 16 then n else 16).
  assert (Ha : 0 < amt <= 16 /\ amt <= n) by (unfold amt; destruct (Z.ltb_spec n 16); lia).
  destruct (uiomove_moved curas (replicate 16 0) amt u Hu ltac:(lia) ltac:(cbn; lia)) as (ptr' & u1 & He & Hm & Hu1).
  assert (ptr' = replicate 16 0) as ->.
  { by destruct (mv_read _ _ _ _ _ _ Hm Hrw) as [? _]. }
  pose proof (mv_same _ _ _ _ _ _ Hm) as (_ & Hrw1 & _ & _). pose proof (mv_resid _ _ _ _ _ _ Hm) as Hr1.
  destruct (IH (n - amt) u1 Hu1 ltac:(congruence) ltac:(lia) ltac:(lia)) as (u2 & He2 & Hu2 & Hm2).
  exists u2. unfold mbind, M_bind. rewrite He. cbn. split_and!; [done|done|]. intros z.
  replace (Z.to_nat n) with (Z.to_nat amt + Z.to_nat (n - amt))%nat by lia.
  apply (moved_read_ext _ 0 0 (replicate (Z.to_nat n) 0)); [done|intros; by rewrite !zeros_lookup|].
  eapply moved_trans; [apply Hu| |rewrite length_replicate; lia| |].
  - destruct Hu as [_ _ Hres _ _]. lia.
  - eapply moved_read_ext; [done| |exact Hm]. intros. by rewrite !zeros_lookup.
  - eapply (moved_read_ext _ 0 _ (replicate (Z.to_nat n) 0)); [congruence| |apply Hm2]. intros. by rewrite !zeros_lookup.
Qed.

Lemma uiomovezeros_moved curas n u : uio_ok curas u -> uio_rw u = UIO_READ -> 0 <= n <= uio_resid u ->
  exists u', uiomovezeros curas n u = Done 0 u' /\ uio_ok curas u' /\
    moved (Z.to_nat n) 0 (replicate (Z.to_nat n) 0) (replicate (Z.to_nat n) 0) u u'.
Proof.
  intros Hu Hrw Hn. destruct (zeros_loop_moved curas (S (Z.to_nat n)) n u Hu Hrw Hn ltac:(lia)) as (u' & He & Hu' & Hm).
  exists u'. split_and!; [|done|apply Hm]. unfold uiomovezeros, mbind, M_bind, get. by rewrite bool_decide_true.
Qed.

(** C28: [uiomove] of [n] bytes, through any list of buffers, in the kernel or in the
    current process: the first [n] addresses of the request get the [n] bytes of [ptr], in
    order and across buffer boundaries, and no other byte of the memory changes (when
    reading), or the first [n] bytes of [ptr] become the bytes at those addresses (when
    writing); the request advances by [n], and what is left of it can be served again. *)
Theorem uiomove_correct curas ptr n u : uio_ok curas u -> 0 <= n <= uio_resid u -> n <= Z.of_nat (length ptr) ->
  exists ptr' u', uiomove curas ptr n u = Done (0, ptr') u' /\ uio_ok curas u' /\
    addrs u' = drop (Z.to_nat n) (addrs u) /\ uio_offset u' = uio_offset u + n /\ uio_resid u' = uio_resid u - n /\
    (uio_rw u = UIO_READ -> ptr' = ptr /\
       (forall i a, take (Z.to_nat n) (addrs u) !! i = Some a -> contents (uio_mem u') a = default 0 (ptr !! i)) /\
       (forall a, a ∉ take (Z.to_nat n) (addrs u) -> contents (uio_mem u') a = contents (uio_mem u) a)) /\
    (uio_rw u = UIO_WRITE -> (forall a, contents (uio_mem u') a = contents (uio_mem u) a) /\
       ptr' = (contents (uio_mem u) <$> take (Z.to_nat n) (addrs u)) ++ drop (Z.to_nat n) ptr).
Proof.
  intros Hu Hn Hp. destruct (uiomove_moved curas ptr n u Hu Hn Hp) as (ptr' & u' & He & [A O R S I Rd Wr] & Hu').
  exists ptr', u'. split_and!; try done; try lia. intros Hw. destruct (Wr Hw) as [H ->]. split; [done|]. unfold splice. cbn [take app Nat.add].
  rewrite length_fmap, length_take_le; [done|]. pose proof (uk_resid _ _ Hu). lia.
Qed.

(** Two buffers; the transfer ends in the second. *)
Definition two_buffers : uio :=
  mkUio [mkIov 100 2; mkIov 200 3] 0 5 UIO_SYSSPACE UIO_READ 0 (mkSpace (fun _ => 0) (fun _ => false)).

Lemma two_buffers_ok : uio_ok 0 two_buffers.
Proof.
  split.
  - apply Forall_cons. split; [unfold iov_ok; cbn; lia|]. apply Forall_cons. split; [unfold iov_ok; cbn; lia|]. by apply Forall_nil.
  - apply (bool_decide_unpack _). vm_compute. exact I.
  - change (length (addrs two_buffers)) with 5%nat. cbn. lia.
  - intros a _. by left.
  - done.
Qed.

Lemma uiomove_correct_witness : exists u', uiomove 0 [7; 8; 9] 3 two_buffers = Done (0, [7; 8; 9]) u' /\ uio_resid u' = 2 /\
  contents (uio_mem u') 200 = 9.
Proof.
  destruct (uiomove_correct 0 [7; 8; 9] 3 two_buffers two_buffers_ok) as (ptr' & u' & He & _ & _ & _ & Hr & Hrd & _); [cbn; lia..|].
  destruct (Hrd eq_refl) as (-> & Hx & _). exists u'. split; [exact He|]. split; [exact Hr|]. exact (Hx 2%nat 200 eq_refl).
Defined.

End Uio.
