(* ===== verification/Lhd.v ===== *)
(** * kern/dev/lamebus/lhd.c: the disk driver

    One request at a time: the semaphores [lh_clear] and [lh_done] make other threads
    wait and are not part of the state.  The disk itself is hardware: how its
    operations end is a parameter. *)
From S2P Require Import Prelude Copyinout Uio.
Import Copyinout Uio.

Module Lhd.

Definition LHD_SECTSIZE : Z := 512.
Definition LHD_IDLE : Z := 0.
Definition LHD_WORKING : Z := 1.
Definition LHD_OK : Z := 4.
Definition LHD_INVSECT : Z := 12.
Definition LHD_MEDIA : Z := 20.
Definition LHD_STATEMASK : Z := 0x1d.

Definition EAGAIN : Z := 4.
Definition EIO : Z := 32.

(** The hardware: the value of the status register when the operation with number [n]
    ends, and what a write that failed leaves on the sector. *)
Class LhdHardware : Type := {
  lhd_status : nat -> uio_rw_t -> Z;
  lhd_torn : nat -> list Z -> list Z -> list Z
}.

(** struct lhd_softc: the number of sectors, the on-card buffer; with the sectors of
    the disk and the number of operations so far. *)
Record lhd : Type := mkLhd {
  d_blocks : Z; lh_buf : list Z; sectors : Z -> list Z; lh_ops : nat
}.

Definition set_lh_buf (x : list Z) (d : lhd) : lhd := mkLhd (d_blocks d) x (sectors d) (lh_ops d).

Definition write_sector (sector : Z) (data : list Z) (d : lhd) : lhd :=
  mkLhd (d_blocks d) (lh_buf d) (fun x => if x =? sector then data else sectors d x) (lh_ops d).

Definition lhd_code_to_errno (code : Z) : Z :=
  let st := Z.land code LHD_STATEMASK in
  if st =? LHD_OK then 0
  else if st =? LHD_INVSECT then EINVAL
  else if st =? LHD_MEDIA then EIO
  else EAGAIN.

(** The interrupt handler on a status: the result it reports, or nothing. *)
Definition lhd_irq (val : Z) : option Z :=
  let st := Z.land val LHD_STATEMASK in
  if (st =? LHD_IDLE) || (st =? LHD_WORKING) then None
  else if (st =? LHD_OK) || (st =? LHD_INVSECT) || (st =? LHD_MEDIA) then Some (lhd_code_to_errno val)
  else None.

Section Lhd.
Context {HW : LhdHardware} (curas : Z).

(** The operation on [sector] that the write to the status register starts, up to the
    result [lhd_irq] saves.  [P(lh_done)] waits for ever when no result is reported. *)
Definition lhd_operate (rw : uio_rw_t) (sector : Z) : M lhd Z := fun d =>
  let n := lh_ops d in
  let d := mkLhd (d_blocks d) (lh_buf d) (sectors d) (S n) in
  match lhd_irq (lhd_status n rw) with
  | None => OutOfFuel
  | Some result =>
      match rw with
      | UIO_READ => Done result (if result =? 0 then set_lh_buf (sectors d sector) d else d)
      | UIO_WRITE =>
          Done result (write_sector sector
            (if result =? 0 then lh_buf d else lhd_torn n (sectors d sector) (lh_buf d)) d)
      end
  end.

(** A computation on the uio, whose memory is not the driver's. *)
Definition on_uio {S A} (m : M uio A) (u : uio) : M S (A * uio) := fun s =>
  match m u with
  | Done a u' => Done (a, u') s
  | Halt r => Halt r
  | Exited _ => OutOfFuel
  | OutOfFuel => OutOfFuel
  end.

(** [uiomove(lh->lh_buf, LHD_SECTSIZE, uio)] *)
Definition move_buf (u : uio) : M lhd (Z * uio) :=
  buf ← gets lh_buf;
  '(result, buf, u) ← on_uio (uiomove curas buf LHD_SECTSIZE) u;
  modify (set_lh_buf buf);;
  mret (result, u).

(** The loop over the sectors, [n] of them from [sector] on. *)
Fixpoint lhd_sectors (n : nat) (sector : Z) (u : uio) : M lhd (Z * uio) :=
  match n with
  | O => mret (0, u)
  | S n =>
      '(result, u) ← (match uio_rw u with UIO_WRITE => move_buf u | UIO_READ => mret (0, u) end);
      if negb (result =? 0) then mret (result, u)
      else
        result ← lhd_operate (uio_rw u) (u32 sector);
        '(result, u) ← (if (result =? 0) && bool_decide (uio_rw u = UIO_READ) then move_buf u
                        else mret (result, u));
        if negb (result =? 0) then mret (result, u) else lhd_sectors n (sector + 1) u
  end.

Definition lhd_io (u : uio) : M lhd (Z * uio) :=
  let sector := u32 (Z.quot (uio_offset u) LHD_SECTSIZE) in
  let sectoff := u32 (Z.rem (uio_offset u) LHD_SECTSIZE) in
  let len := uio_resid u / LHD_SECTSIZE in
  let lenoff := uio_resid u mod LHD_SECTSIZE in
  if negb (sectoff =? 0) || negb (lenoff =? 0) then mret (EINVAL, u)
  else
    d ← get;
    if d_blocks d <? u32 (sector + len) then mret (EINVAL, u)
    else lhd_sectors (Z.to_nat len) sector u.


(** ** One sector *)

(** Every operation ends, and the only error of a request for a sector that exists is a
    media error. *)
Class LhdLaws : Prop := {
  lhd_ends n rw : lhd_irq (lhd_status n rw) = Some 0 \/ lhd_irq (lhd_status n rw) = Some EIO
}.

(** From its operation [n] on the disk reports no error on a write. *)
Definition writes_ok (n : nat) : Prop := forall m, (n <= m)%nat -> lhd_irq (lhd_status m UIO_WRITE) = Some 0.

(** A disk of that many sectors, that takes every write from here on. *)
Definition dev_ok (d : lhd) : Prop :=
  0 <= d_blocks d < 2 ^ 32 - 1 /\ length (lh_buf d) = 512%nat /\ (forall b, length (sectors d b) = 512%nat) /\ writes_ok (lh_ops d).
Context {HL : LhdLaws}.

(** A uio for block [b]. *)
Definition block_uio (b : Z) (u : uio) : Prop := uio_offset u = b * LHD_SECTSIZE /\ uio_resid u = LHD_SECTSIZE.

(** The disk after a write of [data] to block [b]. *)
Definition wrote (b : Z) (data : list Z) (d d' : lhd) : Prop :=
  forall x, sectors d' x = if x =? b then data else sectors d x.

Lemma move_buf_spec u d : uio_ok curas u -> LHD_SECTSIZE <= uio_resid u -> length (lh_buf d) = 512%nat ->
  exists buf u', move_buf u d = Done (0, u') (set_lh_buf buf d) /\ moved 512 0 (lh_buf d) buf u u' /\ uio_ok curas u'.
Proof.
  intros Hu Hr Hb. destruct (uiomove_moved curas (lh_buf d) LHD_SECTSIZE u Hu) as (buf & u' & He & Hm & Hu');
    [unfold LHD_SECTSIZE in *; lia..|]. exists buf, u'. unfold move_buf, mbind, M_bind, gets, on_uio. rewrite He. done.
Qed.

Lemma splice_all new l : length new = length l -> splice 0 new l = new.
Proof. intros H. unfold splice. cbn. rewrite drop_ge by lia. apply app_nil_r. Qed.

Lemma lhd_io_sector b u d : 0 <= d_blocks d < 2 ^ 32 - 1 -> 0 <= b < d_blocks d -> uio_ok curas u -> block_uio b u ->
  lhd_io u d = lhd_sectors 1 b u d.
Proof.
  intros Hd Hb Hu [Ho Hr]. unfold lhd_io. rewrite Ho, Hr. change (LHD_SECTSIZE) with 512.
  rewrite Z.rem_mul, Z.quot_mul by lia. change (u32 0) with 0. change (512 mod 512) with 0. change (512 / 512) with 1.
  change (negb (0 =? 0) || negb (0 =? 0)) with false. cbv iota.
  rewrite (u32_small b) by (unfold is_u32; lia). unfold mbind at 1, M_bind at 1, get.
  rewrite u32_small by (unfold is_u32; lia). by replace (d_blocks d <? b + 1) with false by lia.
Qed.

Lemma sectors_write b u d : dev_ok d -> 0 <= b < d_blocks d -> uio_ok curas u -> uio_rw u = UIO_WRITE ->
  LHD_SECTSIZE <= uio_resid u ->
  exists u' d' buf, lhd_sectors 1 b u d = Done (0, u') d' /\ dev_ok d' /\ d_blocks d' = d_blocks d /\
    moved 512 0 (lh_buf d) buf u u' /\ uio_ok curas u' /\ wrote b (contents (uio_mem u) <$> take 512 (addrs u)) d d'.
Proof.
  intros (Hd & Hbuf & Hsec & Hwr) Hb Hu Hrw Hres.
  destruct (move_buf_spec u d Hu Hres Hbuf) as (buf & u' & Hmv & Hm & Hu').
  pose proof (mv_same _ _ _ _ _ _ Hm) as (_ & Hrw' & _ & _). rewrite Hrw in Hrw'.
  destruct (mv_write _ _ _ _ _ _ Hm Hrw) as (_ & Hbuf').
  assert (Hlen : length (contents (uio_mem u) <$> take 512 (addrs u)) = 512%nat).
  { rewrite length_fmap, length_take. destruct Hu as [_ _ Hr _ _]. unfold LHD_SECTSIZE in Hres. lia. }
  rewrite splice_all in Hbuf' by lia. 
  eexists u', _, buf. split.
  { cbn [lhd_sectors]. rewrite Hrw. unfold mbind, M_bind. rewrite Hmv. cbn. rewrite Hrw'.
    unfold lhd_operate. rewrite Hwr by done. cbn. rewrite bool_decide_false by done. cbn. rewrite u32_small by (unfold is_u32; lia). reflexivity. }
  subst buf. split_and!; try done. split_and!; cbn; try done; try lia.
  - intros x. destruct (Z.eqb_spec x b); [lia|apply Hsec].
  - intros m ?. apply Hwr. lia.
Qed.

Lemma sectors_read b u d : dev_ok d -> 0 <= b < d_blocks d -> uio_ok curas u -> uio_rw u = UIO_READ ->
  LHD_SECTSIZE <= uio_resid u ->
  exists r u' d', lhd_sectors 1 b u d = Done (r, u') d' /\ dev_ok d' /\ d_blocks d' = d_blocks d /\
    sectors d' = sectors d /\ uio_ok curas u' /\
    (r = 0 /\ moved 512 0 (sectors d b) (sectors d b) u u' \/ r = EIO /\ u' = u).
Proof.
  intros (Hd & Hbuf & Hsec & Hwr) Hb Hu Hrw Hres. cbn [lhd_sectors]. rewrite Hrw. unfold mbind, M_bind. cbn [mret M_ret].
  change (@mret (M lhd) (M_ret lhd) (Z * uio)%type (0, u) d) with (@Done lhd (Z * uio)%type (0, u) d). cbn iota. cbn [negb Z.eqb]. rewrite Hrw.
  unfold lhd_operate. rewrite u32_small by (unfold is_u32; lia). assert (Hwr' : writes_ok (S (lh_ops d))) by (intros m ?; apply Hwr; lia).
  destruct (lhd_ends (lh_ops d) UIO_READ) as [-> | ->]; cbn [Z.eqb].
  - rewrite bool_decide_true by done. cbn [andb].
    set (d1 := mkLhd _ _ _ _). destruct (move_buf_spec u (set_lh_buf (sectors d1 b) d1) Hu Hres) as (buf & u' & Hmv & Hm & Hu'); [apply Hsec|].
    rewrite Hmv. cbn. destruct (mv_read _ _ _ _ _ _ Hm Hrw) as (Hbuf' & _ & _). cbn in Hbuf'.
    eexists _, _, _. split; [reflexivity|]. subst buf. cbn in *. split_and!; try done.
    { split_and!; cbn; [lia|lia|apply Hsec|exact Hsec|exact Hwr']. } { by left. }
  - change (EIO =? 0) with false. cbn. eexists _, _, _. split; [reflexivity|]. cbn. split_and!; try done. by right.
Qed.

(** A write whose first attempt meets a media error is lost: the request that the
    driver hands back asks for nothing any more. *)
Lemma sectors_write_fails b u d : length (lh_buf d) = 512%nat -> uio_ok curas u -> uio_rw u = UIO_WRITE ->
  LHD_SECTSIZE <= uio_resid u -> is_u32 b -> lhd_irq (lhd_status (lh_ops d) UIO_WRITE) = Some EIO ->
  exists u' d' buf, lhd_sectors 1 b u d = Done (EIO, u') d' /\ moved 512 0 (lh_buf d) buf u u' /\
    d_blocks d' = d_blocks d /\ lh_ops d' = S (lh_ops d) /\
    wrote b (lhd_torn (lh_ops d) (sectors d b) (contents (uio_mem u) <$> take 512 (addrs u))) d d'.
Proof.
  intros Hbuf Hu Hrw Hres Hb Hst.
  destruct (move_buf_spec u d Hu Hres Hbuf) as (buf & u' & Hmv & Hm & Hu').
  pose proof (mv_same _ _ _ _ _ _ Hm) as (_ & Hrw' & _ & _). rewrite Hrw in Hrw'.
  destruct (mv_write _ _ _ _ _ _ Hm Hrw) as (_ & Hbuf').
  assert (Hlen : length (contents (uio_mem u) <$> take 512 (addrs u)) = 512%nat).
  { rewrite length_fmap, length_take. destruct Hu as [_ _ Hr _ _]. unfold LHD_SECTSIZE in Hres. lia. }
  rewrite splice_all in Hbuf' by lia. 
  eexists u', _, buf. split.
  { cbn [lhd_sectors]. rewrite Hrw. unfold mbind, M_bind. rewrite Hmv. cbn. rewrite Hrw'.
    unfold lhd_operate. change (lh_ops (set_lh_buf buf d)) with (lh_ops d). rewrite Hst. cbn. rewrite u32_small by done. reflexivity. }
  subst buf. done.
Qed.

End Lhd.
End Lhd.
