(* ===== verification/Sfs.v ===== *)
(** * kern/fs/sfs: the file system, up to directories

    sfs_balloc.c, sfs_bmap.c, sfs_io.c and sfs_dir.c, with the on-disk structures of
    <kern/sfs.h>.  The machine is big-endian, so words are stored with the high byte
    first.  [vfs_biglock] makes one operation at a time run in a file system and is
    not part of the state; it also protects the static buffers, which are local here:
    each use overwrites the whole buffer before it reads it. *)
From S2P Require Import Prelude Bitmap Copyinout Uio Lhd.
Import Bitmap Copyinout Uio Lhd.

Module Sfs.

Definition SFS_MAGIC : Z := 0xabadf001.
Definition SFS_BLOCKSIZE : Z := 512.
Definition SFS_SUPER_BLOCK : Z := 0.
Definition SFS_FREEMAP_START : Z := 2.
Definition SFS_NDIRECT : Z := 15.
Definition SFS_NINDIRECT : Z := 1.
Definition SFS_DBPERIDB : Z := 128.
Definition SFS_NAMELEN : Z := 60.
Definition SFS_NOINO : Z := 0.
Definition SFS_ROOTDIR_INO : Z := 1.
Definition SFS_TYPE_INVAL : Z := 0.
Definition SFS_TYPE_FILE : Z := 1.
Definition SFS_TYPE_DIR : Z := 2.
Definition SIZEOF_DIRENTRY : Z := 64.

Definition ENOTDIR : Z := 17.
Definition EISDIR : Z := 18.
Definition ENOENT : Z := 19.
Definition EEXIST : Z := 22.
Definition ENXIO : Z := 26.
Definition EBUSY : Z := 27.
Definition EFBIG : Z := 38.

(** The size of the free map, in [uint32_t]. *)
Definition SFS_BITSPERBLOCK : Z := 4096.
Definition SFS_FREEMAPBITS (nblocks : Z) : Z := u32 (u32 (nblocks + SFS_BITSPERBLOCK - 1) / SFS_BITSPERBLOCK * SFS_BITSPERBLOCK).
Definition SFS_FREEMAPBLOCKS (nblocks : Z) : Z := SFS_FREEMAPBITS nblocks / SFS_BITSPERBLOCK.

(** ** Words and bytes *)

Definition put32 (x : Z) : list Z := [u8 (x / 2 ^ 24); u8 (x / 2 ^ 16); u8 (x / 2 ^ 8); u8 x].
Definition put16 (x : Z) : list Z := [u8 (x / 2 ^ 8); u8 x].

(** An array of [uint32_t] as bytes, and back. *)
Definition bytes_of (ws : list Z) : list Z := mjoin (put32 <$> ws).
Fixpoint words_of (l : list Z) : list Z :=
  match l with
  | a :: b :: c :: d :: l => (a * 2 ^ 24 + b * 2 ^ 16 + c * 2 ^ 8 + d) :: words_of l
  | _ => []
  end.

(** ** On-disk structures *)

(** struct sfs_dinode *)
Record dinode : Type := mkDinode {
  sfi_size : Z; sfi_type : Z; sfi_linkcount : Z; sfi_direct : list Z; sfi_indirect : Z; sfi_waste : list Z
}.

Definition dinode_bytes (i : dinode) : list Z :=
  put32 (sfi_size i) ++ put16 (sfi_type i) ++ put16 (sfi_linkcount i) ++
  bytes_of (sfi_direct i ++ sfi_indirect i :: sfi_waste i).

Definition dinode_of (l : list Z) : dinode :=
  let w := words_of l in
  let word k := default 0 (w !! k) in
  mkDinode (word 0%nat) (word 1%nat / 2 ^ 16) (word 1%nat mod 2 ^ 16) (take 15 (drop 2 w)) (word 17%nat) (drop 18 w).

(** struct sfs_direntry *)
Record direntry : Type := mkDirentry { sfd_ino : Z; sfd_name : list Z }.

Definition direntry_bytes (e : direntry) : list Z := put32 (sfd_ino e) ++ sfd_name e.
Definition direntry_of (l : list Z) : direntry :=
  mkDirentry (default 0 (words_of (take 4 l) !! 0%nat)) (drop 4 l).

(** The string at the start of a character array. *)
Fixpoint c_string (l : list Z) : list Z :=
  match l with
  | [] => []
  | c :: l => if c =? 0 then [] else c :: c_string l
  end.

(** ** The volume *)

(** struct sfs_vnode; [vn_refcount] is that of its [sv_absvn]. *)
Record sfs_vnode : Type := mkSv { sv_i : dinode; sv_ino : Z; sv_dirty : bool; vn_refcount : Z }.

(** struct sfs_superblock; [sb_nblocks] is a field of [sfs_fs] below. *)
Record superblock : Type := mkSuper { sb_magic : Z; sb_volname : list Z; sb_reserved : list Z }.

(** struct sfs_fs: the superblock, the free map, the vnodes in memory (the table of their
    addresses, and the structures), the device. *)
Record sfs_fs : Type := mkSfs {
  sb_nblocks : Z; sfs_freemap : bitmap; sfs_freemapdirty : bool; sfs_vnodes : list Z;
  svs : gmap Z sfs_vnode; sfs_device : lhd; sv_allocs : nat; sfs_sb : superblock; sfs_superdirty : bool
}.

Definition set_freemap (x : bitmap) (s : sfs_fs) : sfs_fs :=
  mkSfs (sb_nblocks s) x true (sfs_vnodes s) (svs s) (sfs_device s) (sv_allocs s) (sfs_sb s) (sfs_superdirty s).
Definition set_vnodes (x : list Z) (s : sfs_fs) : sfs_fs :=
  mkSfs (sb_nblocks s) (sfs_freemap s) (sfs_freemapdirty s) x (svs s) (sfs_device s) (sv_allocs s) (sfs_sb s) (sfs_superdirty s).
Definition set_svs (x : gmap Z sfs_vnode) (s : sfs_fs) : sfs_fs :=
  mkSfs (sb_nblocks s) (sfs_freemap s) (sfs_freemapdirty s) (sfs_vnodes s) x (sfs_device s) (sv_allocs s) (sfs_sb s) (sfs_superdirty s).
Definition set_device (x : lhd) (s : sfs_fs) : sfs_fs :=
  mkSfs (sb_nblocks s) (sfs_freemap s) (sfs_freemapdirty s) (sfs_vnodes s) (svs s) x (sv_allocs s) (sfs_sb s) (sfs_superdirty s).

Definition get_sv (sv : Z) : M sfs_fs sfs_vnode := fun s => deref "sfs_vnode" (svs s !! sv) s.
(** A store to a field of [sv->sv_i] or to [sv->sv_dirty]. *)
Definition update_sv (sv : Z) (f : sfs_vnode -> sfs_vnode) : M sfs_fs unit :=
  v ← get_sv sv; modify (fun s => set_svs (<[sv := f v]> (svs s)) s).

Definition set_size (x : Z) (i : dinode) : dinode :=
  mkDinode x (sfi_type i) (sfi_linkcount i) (sfi_direct i) (sfi_indirect i) (sfi_waste i).
Definition set_direct (k : nat) (b : Z) (i : dinode) : dinode :=
  mkDinode (sfi_size i) (sfi_type i) (sfi_linkcount i) (<[k := b]> (sfi_direct i)) (sfi_indirect i) (sfi_waste i).
Definition set_indirect (b : Z) (i : dinode) : dinode :=
  mkDinode (sfi_size i) (sfi_type i) (sfi_linkcount i) (sfi_direct i) b (sfi_waste i).
Definition set_linkcount (x : Z) (i : dinode) : dinode :=
  mkDinode (sfi_size i) (sfi_type i) x (sfi_direct i) (sfi_indirect i) (sfi_waste i).
Definition set_type (x : Z) (i : dinode) : dinode :=
  mkDinode (sfi_size i) x (sfi_linkcount i) (sfi_direct i) (sfi_indirect i) (sfi_waste i).

(** The change of the inode, with [sv_dirty = true]. *)
Definition dirty (f : dinode -> dinode) (v : sfs_vnode) : sfs_vnode :=
  mkSv (f (sv_i v)) (sv_ino v) true (vn_refcount v).

Section Sfs.
Context {HW : LhdHardware} (curas : Z).

(** ** sfs_io.c: blocks *)

Definition devop_io (u : uio) : M sfs_fs (Z * uio) := fun s =>
  match lhd_io curas u (sfs_device s) with
  | Done r d => Done r (set_device d s)
  | Halt r => Halt r
  | Exited _ => OutOfFuel
  | OutOfFuel => OutOfFuel
  end.

(** With [tries] retries left. *)
Fixpoint rwblock_retry (tries : nat) (u : uio) : M sfs_fs (Z * uio) :=
  '(result, u) ← devop_io u;
  if result =? EINVAL then panic "sfs: DEVOP_IO returned EINVAL"
  else if result =? EIO then
    match tries with
    | O => mret (result, u)
    | S tries => rwblock_retry tries u
    end
  else mret (result, u).

Definition sfs_rwblock (u : uio) : M sfs_fs (Z * uio) := rwblock_retry 10 u.

(** A buffer of the kernel as a memory of its own, from address 0 on. *)
Definition buffer_space (l : list Z) : space := mkSpace (fun a => default 0 (l !! Z.to_nat a)) (fun _ => false).
Definition buffer (u : uio) (len : Z) : list Z := contents (uio_mem u) <$> seqZ 0 len.

(** The result and the buffer after it; it starts out as [old]. *)
Definition sfs_readblock (block : Z) (old : list Z) : M sfs_fs (Z * list Z) :=
  kassert "len == SFS_BLOCKSIZE" (Z.of_nat (length old) =? SFS_BLOCKSIZE);;
  '(result, u) ← sfs_rwblock (uio_kinit 0 SFS_BLOCKSIZE (block * SFS_BLOCKSIZE) UIO_READ (buffer_space old));
  mret (result, buffer u SFS_BLOCKSIZE).

Definition sfs_writeblock (block : Z) (data : list Z) : M sfs_fs Z :=
  kassert "len == SFS_BLOCKSIZE" (Z.of_nat (length data) =? SFS_BLOCKSIZE);;
  '(result, _) ← sfs_rwblock (uio_kinit 0 SFS_BLOCKSIZE (block * SFS_BLOCKSIZE) UIO_WRITE (buffer_space data));
  mret result.

Definition zero_block : list Z := replicate (Z.to_nat SFS_BLOCKSIZE) 0.

(** ** sfs_balloc.c *)

Definition sfs_clearblock (block : Z) : M sfs_fs Z := sfs_writeblock block zero_block.

(** [(result, *diskblock)] *)
Definition sfs_balloc : M sfs_fs (Z * Z) :=
  map ← gets sfs_freemap;
  '(map, r) ← lift (bitmap_alloc map);
  match r with
  | inl result => mret (result, 0)
  | inr diskblock =>
      modify (set_freemap map);;
      nblocks ← gets sb_nblocks;
      if nblocks <=? diskblock then panic "sfs: balloc: invalid block"
      else
        result ← sfs_clearblock diskblock;
        (if negb (result =? 0) then
           map ← gets sfs_freemap;
           map ← lift (bitmap_unmark map diskblock);
           modify (set_freemap map)
         else mret tt);;
        mret (result, diskblock)
  end.

Definition sfs_bfree (diskblock : Z) : M sfs_fs unit :=
  map ← gets sfs_freemap;
  map ← lift (bitmap_unmark map diskblock);
  modify (set_freemap map).

Definition sfs_bused (diskblock : Z) : M sfs_fs bool :=
  nblocks ← gets sb_nblocks;
  if nblocks <=? diskblock then panic "sfs: sfs_bused called on out of range block"
  else
    map ← gets sfs_freemap;
    w ← lift (bitmap_isset map diskblock);
    mret (negb (w =? 0)).

(** ** sfs_bmap.c *)

(** The check before a block is handed back. *)
Definition check_used (block : Z) : M sfs_fs unit :=
  if negb (block =? 0) then
    used ← sfs_bused block;
    if negb used then panic "sfs: Data block marked free" else mret tt
  else mret tt.

(** The direct blocks. *)
Definition bmap_direct (sv fileblock : Z) (doalloc : bool) : M sfs_fs (Z * Z) :=
  v ← get_sv sv;
  block ← deref "sfi_direct" (sfi_direct (sv_i v) !! Z.to_nat fileblock);
  '(result, block) ←
    (if (block =? 0) && doalloc then
       '(result, block) ← sfs_balloc;
       (if result =? 0 then update_sv sv (dirty (set_direct (Z.to_nat fileblock) block)) else mret tt);;
       mret (result, block)
     else mret (0, block));
  if negb (result =? 0) then mret (result, 0)
  else check_used block;; mret (0, block).

(** The indirect block [idblock], whose contents are [idbuf], at offset [idoff]. *)
Definition bmap_indirect (idblock : Z) (idbuf : list Z) (idoff : Z) (doalloc : bool) : M sfs_fs (Z * Z) :=
  block ← deref "idbuf" (idbuf !! Z.to_nat idoff);
  '(result, block) ←
    (if (block =? 0) && doalloc then
       '(result, block) ← sfs_balloc;
       if negb (result =? 0) then mret (result, block)
       else
         result ← sfs_writeblock idblock (bytes_of (<[Z.to_nat idoff := block]> idbuf));
         mret (result, block)
     else mret (0, block));
  if negb (result =? 0) then mret (result, 0)
  else check_used block;; mret (0, block).

(** [(result, *diskblock)] *)
Definition sfs_bmap (sv fileblock : Z) (doalloc : bool) : M sfs_fs (Z * Z) :=
  if fileblock <? SFS_NDIRECT then bmap_direct sv fileblock doalloc
  else
    let fileblock := fileblock - SFS_NDIRECT in
    let idnum := fileblock / SFS_DBPERIDB in
    let idoff := fileblock mod SFS_DBPERIDB in
    if SFS_NINDIRECT <=? idnum then mret (EFBIG, 0)
    else
      v ← get_sv sv;
      let idblock := sfi_indirect (sv_i v) in
      if (idblock =? 0) && negb doalloc then mret (0, 0)
      else if idblock =? 0 then
        '(result, idblock) ← sfs_balloc;
        if negb (result =? 0) then mret (result, 0)
        else
          update_sv sv (dirty (set_indirect idblock));;
          bmap_indirect idblock (replicate (Z.to_nat SFS_DBPERIDB) 0) idoff doalloc
      else
        '(result, idbuf) ← sfs_readblock idblock zero_block;
        if negb (result =? 0) then mret (result, 0)
        else bmap_indirect idblock (words_of idbuf) idoff doalloc.

(** The loop of [sfs_itrunc] over the direct blocks, from [i] on. *)
Fixpoint trunc_direct (sv blocklen : Z) (i n : nat) : M sfs_fs unit :=
  match n with
  | O => mret tt
  | S n =>
      v ← get_sv sv;
      block ← deref "sfi_direct" (sfi_direct (sv_i v) !! i);
      (if (blocklen <=? Z.of_nat i) && negb (block =? 0) then
         sfs_bfree block;;
         update_sv sv (dirty (set_direct i 0))
       else mret tt);;
      trunc_direct sv blocklen (S i) n
  end.

(** The loop over the indirect block, from [j] on: the buffer, [hasnonzero], [iddirty]. *)
Fixpoint trunc_indirect (blocklen : Z) (idbuf : list Z) (j n : nat) (hasnonzero iddirty : bool)
  : M sfs_fs (list Z * bool * bool) :=
  match n with
  | O => mret (idbuf, hasnonzero, iddirty)
  | S n =>
      block ← deref "idbuf" (idbuf !! j);
      '(idbuf, iddirty) ←
        (if (blocklen <? SFS_NDIRECT + Z.of_nat j) && negb (block =? 0) then
           sfs_bfree block;;
           mret (<[j := 0]> idbuf, true)
         else mret (idbuf, iddirty));
      block ← deref "idbuf" (idbuf !! j);
      trunc_indirect blocklen idbuf (S j) n (hasnonzero || negb (block =? 0)) iddirty
  end.

(** [len] is an [off_t]; [DIVROUNDUP] is computed in 64 bits and truncated. *)
Definition sfs_itrunc (sv len : Z) : M sfs_fs Z :=
  let blocklen := u32 (Z.quot (len + SFS_BLOCKSIZE - 1) SFS_BLOCKSIZE) in
  trunc_direct sv blocklen 0 (Z.to_nat SFS_NDIRECT);;
  v ← get_sv sv;
  let idblock := sfi_indirect (sv_i v) in
  let baseblock := SFS_NDIRECT in
  let highblock := baseblock + SFS_DBPERIDB - 1 in
  result ←
    (if (blocklen <? highblock) && negb (idblock =? 0) then
       '(result, buf) ← sfs_readblock idblock zero_block;
       if negb (result =? 0) then mret result
       else
         '(idbuf, hasnonzero, iddirty) ← trunc_indirect blocklen (words_of buf) 0 (Z.to_nat SFS_DBPERIDB) false false;
         if negb hasnonzero then
           sfs_bfree idblock;;
           update_sv sv (dirty (set_indirect 0));;
           mret 0
         else if (iddirty : bool) then sfs_writeblock idblock (bytes_of idbuf)
         else mret 0
     else mret 0);
  if negb (result =? 0) then mret result
  else
    update_sv sv (dirty (set_size (u32 len)));;
    mret 0.

(** ** sfs_io.c: files *)

Definition sfs_partialio (sv : Z) (u : uio) (skipstart len : Z) : M sfs_fs (Z * uio) :=
  let doalloc := bool_decide (uio_rw u = UIO_WRITE) in
  kassert "skipstart + len <= SFS_BLOCKSIZE" (skipstart + len <=? SFS_BLOCKSIZE);;
  let fileblock := u32 (Z.quot (uio_offset u) SFS_BLOCKSIZE) in
  '(result, diskblock) ← sfs_bmap sv fileblock doalloc;
  if negb (result =? 0) then mret (result, u)
  else
    '(result, iobuf) ←
      (if diskblock =? 0 then
         kassert "uio->uio_rw == UIO_READ" (bool_decide (uio_rw u = UIO_READ));;
         mret (0, zero_block)
       else sfs_readblock diskblock zero_block);
    if negb (result =? 0) then mret (result, u)
    else
      '(result, part, u) ← on_uio (uiomove curas (drop (Z.to_nat skipstart) iobuf) len) u;
      if negb (result =? 0) then mret (result, u)
      else if bool_decide (uio_rw u = UIO_WRITE) then
        result ← sfs_writeblock diskblock (take (Z.to_nat skipstart) iobuf ++ part);
        mret (result, u)
      else mret (0, u).

Definition sfs_blockio (sv : Z) (u : uio) : M sfs_fs (Z * uio) :=
  let doalloc := bool_decide (uio_rw u = UIO_WRITE) in
  let fileblock := u32 (Z.quot (uio_offset u) SFS_BLOCKSIZE) in
  '(result, diskblock) ← sfs_bmap sv fileblock doalloc;
  if negb (result =? 0) then mret (result, u)
  else if diskblock =? 0 then
    kassert "uio->uio_rw == UIO_READ" (bool_decide (uio_rw u = UIO_READ));;
    on_uio (uiomovezeros curas SFS_BLOCKSIZE) u
  else
    let saveoff := uio_offset u in
    let diskoff := u32 (diskblock * SFS_BLOCKSIZE) in
    kassert "uio->uio_resid >= SFS_BLOCKSIZE" (SFS_BLOCKSIZE <=? uio_resid u);;
    let saveres := uio_resid u in
    let diskres := SFS_BLOCKSIZE in
    '(result, u) ← sfs_rwblock (set_resid diskres (set_offset diskoff u));
    mret (result, set_resid (u32 (uio_resid u - diskres + saveres)) (set_offset (uio_offset u - diskoff + saveoff) u)).

(** The loop over the whole blocks. *)
Fixpoint sfs_blocks (sv : Z) (n : nat) (u : uio) : M sfs_fs (Z * uio) :=
  match n with
  | O => mret (0, u)
  | S n =>
      '(result, u) ← sfs_blockio sv u;
      if negb (result =? 0) then mret (result, u) else sfs_blocks sv n u
  end.

(** The transfer proper, up to the label [out]. *)
Definition sfs_io_blocks (sv : Z) (u : uio) : M sfs_fs (Z * uio) :=
  let blkoff := u32 (Z.rem (uio_offset u) SFS_BLOCKSIZE) in
  '(result, u) ←
    (if negb (blkoff =? 0) then
       let len := SFS_BLOCKSIZE - blkoff in
       let len := if uio_resid u <? len then uio_resid u else len in
       sfs_partialio sv u blkoff len
     else mret (0, u));
  if negb (result =? 0) || (uio_resid u =? 0) then mret (result, u)
  else
    kassert "uio->uio_offset % SFS_BLOCKSIZE == 0" (Z.rem (uio_offset u) SFS_BLOCKSIZE =? 0);;
    let nblocks := uio_resid u / SFS_BLOCKSIZE in
    '(result, u) ← sfs_blocks sv (Z.to_nat nblocks) u;
    if negb (result =? 0) then mret (result, u)
    else
      kassert "uio->uio_resid < SFS_BLOCKSIZE" (uio_resid u <? SFS_BLOCKSIZE);;
      if 0 <? uio_resid u then sfs_partialio sv u 0 (uio_resid u) else mret (0, u).

Definition sfs_io (sv : Z) (u : uio) : M sfs_fs (Z * uio) :=
  v ← get_sv sv;
  let origresid := uio_resid u in
  let size := sfi_size (sv_i v) in
  let endpos := uio_offset u + uio_resid u in
  if bool_decide (uio_rw u = UIO_READ) && (size <=? uio_offset u) then mret (0, u)
  else
    let clip := bool_decide (uio_rw u = UIO_READ) && (size <? endpos) in
    let extraresid := if clip then u32 (endpos - size) else 0 in
    kassert "uio->uio_resid > extraresid" (negb clip || (extraresid <? uio_resid u));;
    '(result, u) ← sfs_io_blocks sv (set_resid (u32 (uio_resid u - extraresid)) u);
    v ← get_sv sv;
    (if negb (uio_resid u =? origresid) && bool_decide (uio_rw u = UIO_WRITE) && (sfi_size (sv_i v) <? uio_offset u)
     then update_sv sv (dirty (set_size (u32 (uio_offset u))))
     else mret tt);;
    mret (result, set_resid (u32 (uio_resid u + extraresid)) u).

(** [sfs_metaio] with [UIO_READ]: the bytes read. *)
Definition sfs_metaio_read (sv actualpos len : Z) : M sfs_fs (Z * list Z) :=
  let vnblock := u32 (Z.quot actualpos SFS_BLOCKSIZE) in
  let blockoffset := Z.to_nat (Z.rem actualpos SFS_BLOCKSIZE) in
  '(result, diskblock) ← sfs_bmap sv vnblock false;
  if negb (result =? 0) then mret (result, [])
  else if diskblock =? 0 then mret (0, replicate (Z.to_nat len) 0)
  else
    '(result, metaiobuf) ← sfs_readblock diskblock zero_block;
    if negb (result =? 0) then mret (result, [])
    else mret (0, take (Z.to_nat len) (drop blockoffset metaiobuf)).

(** [sfs_metaio] with [UIO_WRITE]. *)
Definition sfs_metaio_write (sv actualpos : Z) (data : list Z) : M sfs_fs Z :=
  let vnblock := u32 (Z.quot actualpos SFS_BLOCKSIZE) in
  let blockoffset := Z.to_nat (Z.rem actualpos SFS_BLOCKSIZE) in
  '(result, diskblock) ← sfs_bmap sv vnblock true;
  if negb (result =? 0) then mret result
  else
    kassert "rw == UIO_READ" (negb (diskblock =? 0));;
    '(result, metaiobuf) ← sfs_readblock diskblock zero_block;
    if negb (result =? 0) then mret result
    else
      result ← sfs_writeblock diskblock (splice blockoffset data metaiobuf);
      if negb (result =? 0) then mret result
      else
        v ← get_sv sv;
        let endpos := actualpos + Z.of_nat (length data) in
        (if sfi_size (sv_i v) <? endpos then update_sv sv (dirty (set_size (u32 endpos))) else mret tt);;
        mret 0.

(** ** sfs_dir.c *)

Definition sfs_readdir (sv slot : Z) : M sfs_fs (Z * direntry) :=
  '(result, l) ← sfs_metaio_read sv (u32 (slot * SIZEOF_DIRENTRY)) SIZEOF_DIRENTRY;
  mret (result, direntry_of l).

Definition sfs_writedir (sv slot : Z) (sd : direntry) : M sfs_fs Z :=
  kassert "slot>=0" (0 <=? slot);;
  sfs_metaio_write sv (u32 (slot * SIZEOF_DIRENTRY)) (direntry_bytes sd).

Definition sfs_dir_nentries (sv : Z) : M sfs_fs Z :=
  v ← get_sv sv;
  kassert "sv->sv_i.sfi_type == SFS_TYPE_DIR" (sfi_type (sv_i v) =? SFS_TYPE_DIR);;
  let size := sfi_size (sv_i v) in
  if negb (size mod SIZEOF_DIRENTRY =? 0) then panic "sfs: directory: Invalid size"
  else mret (size / SIZEOF_DIRENTRY).

(** What [sfs_dir_findname] has found so far: the inode number and the slot, and an empty slot. *)
Definition found : Type := option (Z * Z) * option Z.

(** The loop, [n] slots from [i] on. *)
Fixpoint findname_loop (sv : Z) (name : list Z) (i : Z) (n : nat) (acc : found) : M sfs_fs (Z * found) :=
  match n with
  | O => mret (0, acc)
  | S n =>
      '(result, tsd) ← sfs_readdir sv i;
      if negb (result =? 0) then mret (result, acc)
      else if sfd_ino tsd =? SFS_NOINO then findname_loop sv name (i + 1) n (fst acc, Some i)
      else if bool_decide (c_string (take (Z.to_nat (SFS_NAMELEN - 1)) (sfd_name tsd)) = name) then
        kassert "found==0" (bool_decide (fst acc = None));;
        findname_loop sv name (i + 1) n (Some (sfd_ino tsd, i), snd acc)
      else findname_loop sv name (i + 1) n acc
  end.

(** The result, and what was found. *)
Definition sfs_dir_findname (sv : Z) (name : list Z) : M sfs_fs (Z * found) :=
  nentries ← sfs_dir_nentries sv;
  '(result, acc) ← findname_loop sv name 0 (Z.to_nat nentries) (None, None);
  if negb (result =? 0) then mret (result, acc)
  else mret (match fst acc with Some _ => 0 | None => ENOENT end, acc).

(** [(result, *slot)] *)
Definition sfs_dir_link (sv : Z) (name : list Z) (ino : Z) : M sfs_fs (Z * Z) :=
  '(result, acc) ← sfs_dir_findname sv name;
  if negb (result =? 0) && negb (result =? ENOENT) then mret (result, -1)
  else if result =? 0 then mret (EEXIST, -1)
  else if SFS_NAMELEN <? Z.of_nat (length name) + 1 then mret (ENAMETOOLONG, -1)
  else
    emptyslot ← (match snd acc with Some e => mret e | None => sfs_dir_nentries sv end);
    let sd := mkDirentry ino (name ++ replicate (Z.to_nat SFS_NAMELEN - length name) 0) in
    result ← sfs_writedir sv emptyslot sd;
    mret (result, emptyslot).

Definition sfs_dir_unlink (sv slot : Z) : M sfs_fs Z :=
  sfs_writedir sv slot (mkDirentry SFS_NOINO (replicate (Z.to_nat SFS_NAMELEN) 0)).

End Sfs.
End Sfs.
