(* ===== verification/SfsVnops.v ===== *)
(** * kern/fs/sfs: vnodes and their operations

    sfs_inode.c, [sfs_lookonce] of sfs_dir.c and sfs_vnops.c, with the reference counts of
    kern/vfs/vnode.c.  The address of a [struct sfs_vnode] stands for the vnode inside it.
    [kmalloc] of a vnode and the growth of the vnode table are parameters: whether they
    succeed depends on the kernel heap. *)
From S2P Require Import Prelude Bitmap Copyinout Uio Lhd Sfs.
Import Bitmap Copyinout Uio Lhd Sfs.

Module SfsVnops.

(** The kernel heap as SFS sees it: the result of the [n]-th allocation of a vnode, given
    the vnodes that are there (0 is NULL), and whether the table can take one more. *)
Class SfsMemory : Type := {
  sv_kmalloc : nat -> gset Z -> Z;
  vnodearray_grows : nat -> bool
}.

Definition set_refcount (x : Z) (v : sfs_vnode) : sfs_vnode := mkSv (sv_i v) (sv_ino v) (sv_dirty v) x.
Definition set_clean (v : sfs_vnode) : sfs_vnode := mkSv (sv_i v) (sv_ino v) false (vn_refcount v).
Definition count_alloc (s : sfs_fs) : sfs_fs :=
  mkSfs (sb_nblocks s) (sfs_freemap s) (sfs_freemapdirty s) (sfs_vnodes s) (svs s) (sfs_device s) (S (sv_allocs s)) (sfs_sb s) (sfs_superdirty s).

Section SfsVnops.
Context {HW : LhdHardware} (curas : Z) {SM : SfsMemory}.

Local Notation sfs_readblock := (sfs_readblock curas).
Local Notation sfs_writeblock := (sfs_writeblock curas).

(** [kfree(sv)] *)
Definition free_sv (sv : Z) : M sfs_fs unit := modify (fun s => set_svs (delete sv (svs s)) s).

(** ** sfs_inode.c *)

Definition sfs_sync_inode (sv : Z) : M sfs_fs Z :=
  v ← get_sv sv;
  if sv_dirty v then
    result ← sfs_writeblock (sv_ino v) (dinode_bytes (sv_i v));
    if negb (result =? 0) then mret result
    else update_sv sv set_clean;; mret 0
  else mret 0.

(** The index of [sv] in the table. *)
Definition vnode_index (sv : Z) (l : list Z) : option nat := fst <$> list_find (eq sv) l.

Definition sfs_reclaim (sv : Z) : M sfs_fs Z :=
  v ← get_sv sv;
  if negb (vn_refcount v =? 1) then
    kassert "v->vn_refcount>1" (1 <? vn_refcount v);;
    update_sv sv (set_refcount (vn_refcount v - 1));;
    mret EBUSY
  else
    result ← (if sfi_linkcount (sv_i v) =? 0 then sfs_itrunc curas sv 0 else mret 0);
    if negb (result =? 0) then mret result
    else
      result ← sfs_sync_inode sv;
      if negb (result =? 0) then mret result
      else
        v ← get_sv sv;
        (if sfi_linkcount (sv_i v) =? 0 then sfs_bfree (sv_ino v) else mret tt);;
        vnodes ← gets sfs_vnodes;
        match vnode_index sv vnodes with
        | None => panic "sfs: reclaim vnode not in vnode pool"
        | Some ix =>
            modify (set_vnodes (delete ix vnodes));;
            kassert "vn->vn_refcount == 1" (vn_refcount v =? 1);;
            free_sv sv;;
            mret 0
        end.

(** kern/vfs/vnode.c: [VOP_INCREF] and [VOP_DECREF]. *)
Definition vnode_incref (sv : Z) : M sfs_fs unit :=
  v ← get_sv sv; update_sv sv (set_refcount (vn_refcount v + 1)).

Definition vnode_decref (sv : Z) : M sfs_fs unit :=
  v ← get_sv sv;
  kassert "vn->vn_refcount > 0" (0 <? vn_refcount v);;
  if 1 <? vn_refcount v then update_sv sv (set_refcount (vn_refcount v - 1))
  else sfs_reclaim sv;; mret tt.

(** The search of [sfs_loadvnode] through the table. *)
Fixpoint find_loaded (ino : Z) (l : list Z) : M sfs_fs (option Z) :=
  match l with
  | [] => mret None
  | sv :: l =>
      v ← get_sv sv;
      used ← sfs_bused (sv_ino v);
      if negb used then panic "sfs: Found inode in unallocated block"
      else if sv_ino v =? ino then mret (Some sv)
      else find_loaded ino l
  end.

(** [(result, *ret)] *)
Definition sfs_loadvnode (ino forcetype : Z) : M sfs_fs (Z * Z) :=
  vnodes ← gets sfs_vnodes;
  loaded ← find_loaded ino vnodes;
  match loaded with
  | Some sv =>
      kassert "forcetype==SFS_TYPE_INVAL" (forcetype =? SFS_TYPE_INVAL);;
      vnode_incref sv;;
      mret (0, sv)
  | None =>
      n ← gets sv_allocs;
      live ← gets svs;
      modify count_alloc;;
      let sv := sv_kmalloc n (dom live) in
      if sv =? 0 then mret (ENOMEM, 0)
      else
        used ← sfs_bused ino;
        if negb used then panic "sfs: Tried to load inode from unallocated block"
        else
          '(result, buf) ← sfs_readblock ino zero_block;
          if negb (result =? 0) then mret (result, 0)
          else
            let i := dinode_of buf in
            '(i, isdirty) ←
              (if negb (forcetype =? SFS_TYPE_INVAL) then
                 kassert "sv->sv_i.sfi_type == SFS_TYPE_INVAL" (sfi_type i =? SFS_TYPE_INVAL);;
                 mret (set_type forcetype i, true)
               else mret (i, false));
            if negb ((sfi_type i =? SFS_TYPE_FILE) || (sfi_type i =? SFS_TYPE_DIR))
            then panic "sfs: loadvnode: Invalid inode type"
            else if negb (vnodearray_grows n) then mret (ENOMEM, 0)
            else
              modify (fun s => set_vnodes (sfs_vnodes s ++ [sv]) (set_svs (<[sv := mkSv i ino isdirty 1]> (svs s)) s));;
              mret (0, sv)
  end.

Definition sfs_makeobj (type : Z) : M sfs_fs (Z * Z) :=
  '(result, ino) ← sfs_balloc curas;
  if negb (result =? 0) then mret (result, 0)
  else
    '(result, sv) ← sfs_loadvnode ino type;
    (if negb (result =? 0) then sfs_bfree ino else mret tt);;
    mret (result, sv).

Definition sfs_getroot : M sfs_fs (Z * Z) :=
  '(result, sv) ← sfs_loadvnode SFS_ROOTDIR_INO SFS_TYPE_INVAL;
  if negb (result =? 0) then mret (result, 0)
  else
    v ← get_sv sv;
    if negb (sfi_type (sv_i v) =? SFS_TYPE_DIR) then mret (EINVAL, 0)
    else mret (0, sv).

(** ** sfs_dir.c: [sfs_lookonce]

    [(result, *ret, *slot)] *)
Definition sfs_lookonce (sv : Z) (name : list Z) : M sfs_fs (Z * Z * Z) :=
  '(result, acc) ← sfs_dir_findname curas sv name;
  if negb (result =? 0) then mret (result, 0, 0)
  else
    '(ino, slot) ← deref "ino" (fst acc);
    '(result, ret) ← sfs_loadvnode ino SFS_TYPE_INVAL;
    if negb (result =? 0) then mret (result, 0, slot)
    else
      v ← get_sv ret;
      if sfi_linkcount (sv_i v) =? 0 then panic "sfs: name has linkcount 0"
      else mret (0, ret, slot).

(** ** sfs_vnops.c *)

Definition O_ACCMODE : Z := 3.
Definition O_RDONLY : Z := 0.
Definition O_APPEND : Z := 32.
Definition S_IFREG : Z := 0x1000.
Definition S_IFDIR : Z := 0x2000.

Definition sfs_eachopendir (openflags : Z) : Z :=
  if negb (Z.land openflags O_ACCMODE =? O_RDONLY) then EISDIR
  else if negb (Z.land openflags O_APPEND =? 0) then EISDIR
  else 0.

Definition sfs_read (sv : Z) (u : uio) : M sfs_fs (Z * uio) :=
  kassert "uio->uio_rw==UIO_READ" (bool_decide (uio_rw u = UIO_READ));; sfs_io curas sv u.

Definition sfs_write (sv : Z) (u : uio) : M sfs_fs (Z * uio) :=
  kassert "uio->uio_rw==UIO_WRITE" (bool_decide (uio_rw u = UIO_WRITE));; sfs_io curas sv u.

(** [(result, *ret)] *)
Definition sfs_gettype (sv : Z) : M sfs_fs (Z * Z) :=
  v ← get_sv sv;
  if sfi_type (sv_i v) =? SFS_TYPE_FILE then mret (0, S_IFREG)
  else if sfi_type (sv_i v) =? SFS_TYPE_DIR then mret (0, S_IFDIR)
  else panic "sfs: gettype: Invalid inode type".

(** The fields of [struct stat] that are not zero: mode, size, links. *)
Record stat : Type := mkStat { st_mode : Z; st_size : Z; st_nlink : Z }.

Definition sfs_stat (sv : Z) : M sfs_fs (Z * stat) :=
  '(result, mode) ← sfs_gettype sv;
  if negb (result =? 0) then mret (result, mkStat mode 0 0)
  else
    v ← get_sv sv;
    mret (0, mkStat mode (sfi_size (sv_i v)) (sfi_linkcount (sv_i v))).

Definition sfs_fsync (sv : Z) : M sfs_fs Z := sfs_sync_inode sv.

Definition sfs_truncate (sv len : Z) : M sfs_fs Z := sfs_itrunc curas sv len.

(** [++] and [--] on [sfi_linkcount], a [uint16_t]. *)
Definition add_link (d : Z) (v : sfs_vnode) : sfs_vnode := dirty (fun i => set_linkcount (u16 (sfi_linkcount i + d)) i) v.

Definition sfs_creat (sv : Z) (name : list Z) (excl : bool) : M sfs_fs (Z * Z) :=
  '(result, acc) ← sfs_dir_findname curas sv name;
  if negb (result =? 0) && negb (result =? ENOENT) then mret (result, 0)
  else if (result =? 0) && excl then mret (EEXIST, 0)
  else if result =? 0 then
    '(ino, _) ← deref "ino" (fst acc);
    '(result, newguy) ← sfs_loadvnode ino SFS_TYPE_INVAL;
    if negb (result =? 0) then mret (result, 0) else mret (0, newguy)
  else
    '(result, newguy) ← sfs_makeobj SFS_TYPE_FILE;
    if negb (result =? 0) then mret (result, 0)
    else
      v ← get_sv newguy;
      '(result, _) ← sfs_dir_link curas sv name (sv_ino v);
      if negb (result =? 0) then vnode_decref newguy;; mret (result, 0)
      else
        update_sv newguy (add_link 1);;
        mret (0, newguy).

Definition sfs_link (dir : Z) (name : list Z) (file : Z) : M sfs_fs Z :=
  f ← get_sv file;
  if sfi_type (sv_i f) =? SFS_TYPE_DIR then mret EINVAL
  else
    '(result, _) ← sfs_dir_link curas dir name (sv_ino f);
    if negb (result =? 0) then mret result
    else
      update_sv file (add_link 1);;
      mret 0.

Definition sfs_remove (dir : Z) (name : list Z) : M sfs_fs Z :=
  '(result, victim, slot) ← sfs_lookonce dir name;
  if negb (result =? 0) then mret result
  else
    result ← sfs_dir_unlink curas dir slot;
    (if result =? 0 then
       v ← get_sv victim;
       kassert "victim->sv_i.sfi_linkcount > 0" (0 <? sfi_linkcount (sv_i v));;
       update_sv victim (add_link (-1))
     else mret tt);;
    vnode_decref victim;;
    mret result.

Definition sfs_rename (d1 : Z) (n1 : list Z) (d2 : Z) (n2 : list Z) : M sfs_fs Z :=
  kassert "d1==d2" (d1 =? d2);;
  d ← get_sv d1;
  kassert "sv->sv_ino == SFS_ROOTDIR_INO" (sv_ino d =? SFS_ROOTDIR_INO);;
  '(result, g1, slot1) ← sfs_lookonce d1 n1;
  if negb (result =? 0) then mret result
  else
    g ← get_sv g1;
    kassert "g1->sv_i.sfi_type == SFS_TYPE_FILE" (sfi_type (sv_i g) =? SFS_TYPE_FILE);;
    '(result, slot2) ← sfs_dir_link curas d1 n2 (sv_ino g);
    if negb (result =? 0) then vnode_decref g1;; mret result
    else
      update_sv g1 (add_link 1);;
      result ← sfs_dir_unlink curas d1 slot1;
      if negb (result =? 0) then
        (** puke_harder *)
        result2 ← sfs_dir_unlink curas d1 slot2;
        if negb (result2 =? 0) then panic "sfs: rename: Cannot recover"
        else
          update_sv g1 (fun v => mkSv (set_linkcount (u16 (sfi_linkcount (sv_i v) - 1)) (sv_i v)) (sv_ino v) (sv_dirty v) (vn_refcount v));;
          vnode_decref g1;;
          mret result
      else
        g ← get_sv g1;
        kassert "g1->sv_i.sfi_linkcount>0" (0 <? sfi_linkcount (sv_i g));;
        update_sv g1 (add_link (-1));;
        vnode_decref g1;;
        mret 0.

(** [(result, *ret, buf)] *)
Definition sfs_lookparent (sv : Z) (path : list Z) (buflen : Z) : M sfs_fs (Z * Z * list Z) :=
  v ← get_sv sv;
  if negb (sfi_type (sv_i v) =? SFS_TYPE_DIR) then mret (ENOTDIR, 0, [])
  else if buflen <? Z.of_nat (length path) + 1 then mret (ENAMETOOLONG, 0, [])
  else
    vnode_incref sv;;
    mret (0, sv, path).

Definition sfs_lookup (sv : Z) (path : list Z) : M sfs_fs (Z * Z) :=
  v ← get_sv sv;
  if negb (sfi_type (sv_i v) =? SFS_TYPE_DIR) then mret (ENOTDIR, 0)
  else
    '(result, final, _) ← sfs_lookonce sv path;
    if negb (result =? 0) then mret (result, 0) else mret (0, final).

End SfsVnops.
End SfsVnops.
