(* ===== verification/SfsErrors.v ===== *)
(** * Where the errors of SFS come from

    Whatever the state of the volume: an operation that answers EIO met a disk operation
    that failed, one that answers ENOMEM was refused memory, and one that answers ENOSPC
    found fewer free blocks than it may need.  The operations are followed through every
    branch, with the number of disk operations and of requests for memory, and the blocks
    that an operation can take. *)
From S2P Require Import Prelude Bitmap Copyinout Uio Lhd Sfs SfsVnops.
Import Bitmap Copyinout Uio Lhd Sfs SfsVnops.

Module SfsErrors.

(** ** The free map *)

(** The free map has a word for every bit. *)
Definition covered (b : bitmap) : Prop := 0 <= nbits b <= 2 ^ 32 - 8 /\ Z.of_nat (length (v b)) = (nbits b + 7) / 8.
Definition free_in (b : bitmap) : nat := length (filter (fun j => bit b j = false) (seqZ 0 (nbits b))).
Definition free_blocks (s : sfs_fs) : nat := free_in (sfs_freemap s).

Lemma filter_all_but {A} `{EqDecision A} (P Q : A -> Prop) `{forall x, Decision (P x), forall x, Decision (Q x)} i l :
  NoDup l -> (forall x, x ∈ l -> P x -> x = i \/ Q x) -> (length (filter P l) <= length (filter Q l) + (if decide (i ∈ l) then 1 else 0))%nat.
Proof.
  induction 1 as [|x l Hx Hnd IH]; intros HPQ; [done|]. assert (IH' := IH (fun y Hy => HPQ y (list_elem_of_further _ _ _ Hy))). pose proof (HPQ x (list_elem_of_here _ _)) as Hh. rewrite !filter_cons.
  destruct (decide (i ∈ l)) as [Hi|Hi]; [rewrite (decide_True (P := i ∈ x :: l)) by (by right); assert (x <> i) by (by intros ->); destruct (decide (P x)) as [HP|HP]|].
  - destruct (Hh HP) as [|HQ]; [done|]. rewrite decide_True by done. cbn. lia.
  - destruct (decide (Q x)); cbn; lia.
  - destruct (decide (x = i)) as [->|Hne]; [rewrite (decide_True (P := i ∈ i :: l)) by left; destruct (decide (P i)), (decide (Q i)); cbn; lia|].
    rewrite (decide_False (P := i ∈ x :: l)) by (intros [|]%elem_of_cons; congruence). destruct (decide (P x)) as [HP|HP]; [|destruct (decide (Q x)); cbn; lia].
    destruct (Hh HP) as [|HQ]; [done|]. rewrite decide_True by done. cbn. lia.
Qed.

Lemma free_in_le b b' i : nbits b' = nbits b -> (forall j, 0 <= j -> bit b j = false -> j = i \/ bit b' j = false) -> (free_in b <= free_in b' + 1)%nat.
Proof.
  intros Hn H. unfold free_in. rewrite Hn. pose proof (filter_all_but (fun j => bit b j = false) (fun j => bit b' j = false) i (seqZ 0 (nbits b)) (NoDup_seqZ _ _)) as Hl.
  assert (Hall : forall x, x ∈ seqZ 0 (nbits b) -> bit b x = false -> x = i \/ bit b' x = false) by (intros x Hx; apply H; apply elem_of_seqZ in Hx; lia).
  specialize (Hl Hall). destruct (decide (i ∈ seqZ 0 (nbits b))); lia.
Qed.
Lemma free_in_mono b b' : nbits b' = nbits b -> (forall j, bit b j = false -> bit b' j = false) -> (free_in b <= free_in b')%nat.
Proof.
  intros Hn H. unfold free_in. rewrite Hn. pose proof (filter_all_but (fun j => bit b j = false) (fun j => bit b' j = false) (-1) (seqZ 0 (nbits b)) (NoDup_seqZ _ _) ltac:(auto)) as Hl.
  rewrite decide_False in Hl; [lia|]. rewrite elem_of_seqZ. lia.
Qed.

Lemma bit_updated n l ix w j : bit (mkBitmap n (<[ix := w]> l)) j = if decide (Z.to_nat (j / 8) = ix /\ (ix < length l)%nat) then Z.testbit w (j mod 8) else bit (mkBitmap n l) j.
Proof.
  unfold bit. cbn [v]. case_decide as H; [destruct H as [-> H]; by rewrite list_lookup_insert_eq|]. destruct (decide (ix = Z.to_nat (j / 8))) as [->|Hne]; [|by rewrite list_lookup_insert_ne].
  by rewrite list_insert_ge by lia.
Qed.

Lemma covered_insert n l ix w : covered (mkBitmap n l) -> covered (mkBitmap n (<[ix := w]> l)).
Proof. intros [H1 H2]. split; [done|]. cbn [v nbits] in *. by rewrite length_insert. Qed.

Lemma alloc_effect b b' r : covered b -> bitmap_alloc b = Ok (b', r) ->
  covered b' /\ (free_in b <= free_in b' + 1)%nat /\ match r with inl e => e = ENOSPC /\ b' = b /\ free_in b = 0%nat | inr _ => True end.
Proof.
  intros Hc. pose proof Hc as [Hn Hl]. destruct b as [n l]. cbn [nbits v] in *. unfold bitmap_alloc. cbn [nbits v]. rewrite DIVROUNDUP_8 by done. destruct (list_find _ _) as [[ix w]|] eqn:Hf.
  - apply list_find_Some in Hf as (Hw & _ & _). apply lookup_take_Some in Hw as [Hw Hix]. destruct (first_clear w) as [o|] eqn:Ho; [|done]. apply first_clear_Some in Ho as (Ho & Hclr & _).
    unfold mbind, res_bind, kassert_r. destruct (_ <? n); [|done]. intros [= <- <-]. split_and!; [by apply covered_insert| |done].
    apply (free_in_le _ _ (8 * Z.of_nat ix + o)); [done|]. intros j Hj0 Hj. rewrite bit_updated. case_decide as Hd; [|right; exact Hj]. destruct Hd as [Hd Hlen].
    unfold bit in Hj. cbn [v] in Hj. rewrite Hd, Hw in Hj. rewrite Z.lor_spec, Hj. cbn [orb]. pose proof (Z.mod_pos_bound j 8 ltac:(lia)).
    destruct (decide (j mod 8 = o)) as [E|E]; [left; pose proof (Z.div_mod j 8 ltac:(lia)); pose proof (Z.div_pos j 8); lia|right].
    rewrite Z.shiftl_spec by lia. destruct (Z.ltb_spec (j mod 8) o); [by rewrite Z.testbit_neg_r by lia|]. change 1 with (2 ^ 0). apply Z.pow2_bits_false. lia.
  - intros [= <- <-]. split_and!; [done|lia|done|done|]. unfold free_in. cbn [nbits]. destruct (filter _ _) as [|j rest] eqn:E; [done|exfalso].
    assert (Hj : j ∈ filter (fun j => bit (mkBitmap n l) j = false) (seqZ 0 n)) by (rewrite E; left). apply list_elem_of_filter in Hj as [Hbit Hj]. apply elem_of_seqZ in Hj. clear E. apply not_true_iff_false in Hbit. apply Hbit.
    rewrite list_find_None in Hf. rewrite Forall_forall in Hf. unfold bit. cbn [v]. destruct (l !! Z.to_nat (j / 8)) as [w|] eqn:Hw.
    + assert (Hin : w ∈ take (Z.to_nat ((n + 7) / 8)) l) by (rewrite take_ge by lia; by eapply list_elem_of_lookup_2). specialize (Hf w Hin). apply dec_stable in Hf as ->.
      change WORD_ALLBITS with (Z.ones 8). apply Z.ones_spec_low. apply Z.mod_pos_bound. lia.
    + apply lookup_ge_None in Hw. pose proof (Z.div_pos j 8). assert (j / 8 < (n + 7) / 8); [|lia]. apply Z.div_lt_upper_bound; [lia|]. pose proof (Z.div_mod (n + 7) 8 ltac:(lia)). pose proof (Z.mod_pos_bound (n + 7) 8 ltac:(lia)). lia.
Qed.

Lemma unmark_effect b b' i : covered b -> bitmap_unmark b i = Ok b' -> covered b' /\ (free_in b <= free_in b')%nat.
Proof.
  intros Hc. destruct b as [n l]. unfold bitmap_unmark, bitmap_translate, mbind, res_bind, kassert_r, deref_r. cbn [nbits v]. destruct (i <? n); [|done]. destruct (l !! _) as [w|] eqn:Hw; [|done]. destruct (negb _); [|done].
  intros [= <-]. split; [by apply covered_insert|]. apply free_in_mono; [done|]. intros j Hj. rewrite bit_updated. case_decide as Hd; [|exact Hj]. destruct Hd as [Hd _].
  unfold bit in Hj. cbn [v] in Hj. rewrite Hd, Hw in Hj. by rewrite Z.land_spec, Hj.
Qed.

(** ** The disk *)

Lemma transfer_code p pos base size u r p' u' : transfer p pos base size u = Done (r, p') u' -> r = 0 \/ r = EFAULT.
Proof.
  unfold transfer. assert (Hc : forall a n, (copycheck a n).1 = 0 \/ (copycheck a n).1 = EFAULT) by (intros a n; unfold copycheck; repeat case_match; cbn; auto).
  assert (Ho : forall l a n sp, (copyout l a n sp).1 = 0 \/ (copyout l a n sp).1 = EFAULT).
  { intros l a n sp. unfold copyout. pose proof (Hc a n) as H. destruct (copycheck a n) as [e k]. cbn in H. destruct (negb (e =? 0)); [cbn; tauto|]. destruct (negb _); [cbn; tauto|]. destruct (store_bytes _ _ _) as [? []]; cbn; tauto. }
  assert (Hi : forall a n sp, (copyin a n sp).1 = 0 \/ (copyin a n sp).1 = EFAULT).
  { intros a n sp. unfold copyin. pose proof (Hc a n) as H. destruct (copycheck a n) as [e k]. cbn in H. destruct (negb (e =? 0)); [cbn; tauto|]. destruct (negb _); [cbn; tauto|]. destruct (load_bytes _ _ _) as [? []]; cbn; tauto. }
  pose proof (Ho (drop pos p) base size (uio_mem u)) as H1. pose proof (Hi base size (uio_mem u)) as H2. intros H.
  destruct (uio_segflg u), (uio_rw u), (copyout _ _ _ _), (copyin _ _ _); inversion H; subst; auto.
Qed.

Lemma uiomove_loop_code fuel : forall p pos n u r p' u', uiomove_loop fuel p pos n u = Done (r, p') u' -> r = 0 \/ r = EFAULT.
Proof.
  induction fuel as [|fuel IH]; intros p pos n u r p' u' H; cbn [uiomove_loop] in H; [done|].
  apply bind_Done in H as (x & u1 & E & H). destruct (_ && _); [|mprim; injection H as <- <-; by left]. apply bind_Done in H as (iov & u2 & E2 & H).
  destruct (_ =? 0); [apply bind_Done in H as ([] & u3 & E3 & H); destruct (bool_decide _); [done|by eapply IH]|].
  apply bind_Done in H as ([r1 p1] & u3 & E3 & H). apply transfer_code in E3. destruct (negb (r1 =? 0)); [mprim; injection H as <- <-; done|]. apply bind_Done in H as ([] & u4 & E4 & H). by eapply IH.
Qed.
Lemma uiomove_code curas p n u r p' u' : uiomove curas p n u = Done (r, p') u' -> r = 0 \/ r = EFAULT.
Proof. unfold uiomove. intros H. apply bind_Done in H as (x & u1 & E & H). apply bind_Done in H as ([] & u2 & E2 & H). by apply uiomove_loop_code in H. Qed.

Lemma zeros_loop_code curas fuel : forall n u r u', zeros_loop curas fuel n u = Done r u' -> r = 0 \/ r = EFAULT.
Proof.
  induction fuel as [|fuel IH]; intros n u r u' H; cbn [zeros_loop] in H; [done|]. destruct (0 <? n); [|mprim; by left].
  apply bind_Done in H as ([r1 p1] & u1 & E & H). apply uiomove_code in E. destruct (negb (r1 =? 0)); [by mprim|]. by eapply IH.
Qed.
Lemma uiomovezeros_code curas n u r u' : uiomovezeros curas n u = Done r u' -> r = 0 \/ r = EFAULT.
Proof. unfold uiomovezeros. intros H. apply bind_Done in H as (x & u1 & E & H). apply bind_Done in H as ([] & u2 & E2 & H). by apply zeros_loop_code in H. Qed.

Lemma irq_code val r : lhd_irq val = Some r -> r = 0 \/ r = EINVAL \/ r = EIO \/ r = EAGAIN.
Proof. unfold lhd_irq, lhd_code_to_errno. repeat case_match; intros [= <-]; auto. Qed.

Section Errors.
Context {HW : LhdHardware} (curas : Z).

(** Of the disk operations numbered from [n] up to [n'], one failed. *)
Definition failed (n n' : nat) : Prop := exists k rw, (n <= k < n')%nat /\ lhd_irq (lhd_status k rw) = Some EIO.

Lemma move_buf_code u d r u' d' : move_buf curas u d = Done (r, u') d' -> lh_ops d' = lh_ops d /\ (r = 0 \/ r = EFAULT).
Proof.
  unfold move_buf. intros H. apply bind_Done in H as (buf & d1 & E1 & H). apply bind_Done in H as ([[r1 b1] u1] & d2 & E2 & H). apply bind_Done in H as ([] & d3 & E3 & H).
  unfold on_uio in E2. destruct (uiomove curas buf LHD_SECTSIZE u) as [[r2 b2] u2| | |] eqn:Eu; try done. inversion E1. inversion E2. inversion E3. inversion H. subst. split; [done|by apply uiomove_code in Eu].
Qed.

Lemma operate_code rw sector d r d' : lhd_operate rw sector d = Done r d' -> lh_ops d' = S (lh_ops d) /\ lhd_irq (lhd_status (lh_ops d) rw) = Some r.
Proof. unfold lhd_operate. destruct (lhd_irq _) as [x|]; [|done]. destruct rw; intros [= <- <-]; split; try done. by destruct (x =? 0). Qed.

Lemma sectors_blame n : forall sector u d r u' d', lhd_sectors curas n sector u d = Done (r, u') d' ->
  (lh_ops d <= lh_ops d')%nat /\ (r = EIO -> failed (lh_ops d) (lh_ops d')) /\ r <> ENOMEM /\ r <> ENOSPC.
Proof.
  induction n as [|n IH]; intros sector u d r u' d' H; cbn [lhd_sectors] in H; [inversion H; subst; done|].
  apply bind_Done in H as ([r1 u1] & d1 & E1 & H). assert (H1 : lh_ops d1 = lh_ops d /\ (r1 = 0 \/ r1 = EFAULT)) by (destruct (uio_rw u); [inversion E1; subst; auto|by eapply move_buf_code]).
  destruct H1 as [L1 C1]. destruct (Z.eqb_spec r1 0) as [->|Hr1]; cbn [negb] in H; [|inversion H; subst; destruct C1 as [-> | ->]; [done|rewrite L1; done]].
  apply bind_Done in H as (r2 & d2 & E2 & H). apply operate_code in E2 as [L2 Hirq]. apply bind_Done in H as ([r3 u3] & d3 & E3 & H).
  assert (H3 : lh_ops d3 = lh_ops d2 /\ (r3 = r2 \/ r3 = 0 \/ r3 = EFAULT)) by (destruct (_ && _); [apply move_buf_code in E3 as [? ?]; tauto|inversion E3; subst; auto]).
  destruct H3 as [L3 C3]. destruct (Z.eqb_spec r3 0) as [->|Hr3]; cbn [negb] in H.
  - destruct (IH _ _ _ _ _ _ H) as (I1 & I2 & I3). split; [lia|]. split; [|done]. intros ->. destruct (I2 eq_refl) as (k & w & Hk & Hw). exists k, w. split; [lia|done].
  - inversion H. subst. pose proof (irq_code _ _ Hirq) as Hc. split; [lia|]. split; [|destruct C3 as [->|[->| ->]]; [destruct Hc as [->|[->|[->| ->]]]; done|done|done]].
    intros ->. exists (lh_ops d1), (uio_rw u1). split; [lia|]. destruct C3 as [<-|[?|?]]; done.
Qed.

Lemma lhd_io_blame u d r u' d' : lhd_io curas u d = Done (r, u') d' ->
  (lh_ops d <= lh_ops d')%nat /\ (r = EIO -> failed (lh_ops d) (lh_ops d')) /\ r <> ENOMEM /\ r <> ENOSPC.
Proof.
  unfold lhd_io. destruct (_ || _); [by inversion 1; subst|]. intros H. apply bind_Done in H as (x & d1 & E & H). inversion E. subst. destruct (_ <? _); [inversion H; by subst|]. by eapply sectors_blame.
Qed.

(** ** Following an operation *)

Context {SM : SfsMemory}.

Definition ops (s : sfs_fs) : nat := lh_ops (sfs_device s).

(** From [s] to [s'] a disk operation failed; a request for memory was refused. *)
Definition disk_failed (s s' : sfs_fs) : Prop := failed (ops s) (ops s').
Definition refused (s s' : sfs_fs) : Prop := exists n, (sv_allocs s <= n < sv_allocs s')%nat /\ (vnodearray_grows n = false \/ exists live, sv_kmalloc n live = 0).

Lemma disk_failed_before s s1 s2 : (ops s <= ops s1)%nat -> disk_failed s1 s2 -> disk_failed s s2.
Proof. intros Hle (n & w & Hn & Hw). exists n, w. split; [lia|done]. Qed.

(** [s'] comes after [s], with at most [k] blocks less. *)
Record later (k : nat) (s s' : sfs_fs) : Prop := {
  la_covered : covered (sfs_freemap s');
  la_ops : (ops s <= ops s')%nat;
  la_allocs : (sv_allocs s <= sv_allocs s')%nat;
  la_free : (free_blocks s <= free_blocks s' + k)%nat
}.

(** There is a reason for the error [r] of an operation that may take [k] blocks. *)
Definition excused (k : nat) (s s' : sfs_fs) (r : Z) : Prop :=
  (r = EIO -> disk_failed s s') /\ (r = ENOMEM -> refused s s') /\ (r = ENOSPC -> (free_blocks s < k)%nat).

Lemma excused_const k s s' r : (r =? EIO) || (r =? ENOMEM) || (r =? ENOSPC) = false -> excused k s s' r.
Proof. intros H. apply orb_false_iff in H as [[H1 H2]%orb_false_iff H3]. split_and!; intros ->; done. Qed.

Lemma later_refl s : covered (sfs_freemap s) -> later 0 s s.
Proof. intros H. split; [done|lia|lia|lia]. Qed.
Lemma later_trans k1 k2 s s1 s2 : later k1 s s1 -> later k2 s1 s2 -> later (k1 + k2) s s2.
Proof. intros [A1 B1 C1 D1] [A2 B2 C2 D2]. split; [done|lia|lia|lia]. Qed.
Lemma later_le k k' s s' : (k <= k')%nat -> later k s s' -> later k' s s'.
Proof. intros Hk [A B C D]. split; [done|lia|lia|lia]. Qed.

Lemma excused_after k s s1 s2 j r : excused k s s1 r -> later j s1 s2 -> excused k s s2 r.
Proof.
  intros (E1 & E2 & E3) [_ B C _]. split_and!; [| |done].
  - intros Hr. destruct (E1 Hr) as (n & w & Hn & Hw). exists n, w. split; [lia|done].
  - intros Hr. destruct (E2 Hr) as (n & Hn & Hw). exists n. split; [lia|done].
Qed.
Lemma excused_before k j s s1 s2 r : later j s s1 -> excused k s1 s2 r -> excused (j + k) s s2 r.
Proof.
  intros [_ B C D] (E1 & E2 & E3). split_and!.
  - intros Hr. destruct (E1 Hr) as (n & w & Hn & Hw). exists n, w. split; [lia|done].
  - intros Hr. destruct (E2 Hr) as (n & Hn & Hw). exists n. split; [lia|done].
  - intros Hr. specialize (E3 Hr). lia.
Qed.
Lemma excused_le k k' s s' r : (k <= k')%nat -> excused k s s' r -> excused k' s s' r.
Proof. intros Hk (E1 & E2 & E3). split_and!; [done|done|]. intros Hr. specialize (E3 Hr). lia. Qed.

(** The rest [m] of a computation, in [s], ends with [P]. *)
Definition from {A} (P : A -> sfs_fs -> Prop) (m : M sfs_fs A) (s : sfs_fs) : Prop := forall a s', m s = Done a s' -> P a s'.

(** The operation [m] takes at most [k] blocks, and its error, [code] of its result, has a
    reason. *)
Definition ends {A} (k : nat) (code : A -> Z) (s0 : sfs_fs) (a : A) (s' : sfs_fs) : Prop := later k s0 s' /\ excused k s0 s' (code a).
Definition runs {A} (k : nat) (code : A -> Z) (m : M sfs_fs A) : Prop := forall s, covered (sfs_freemap s) -> from (ends k code s) m s.
Definition fine {A} (a : A) : Z := 0.

(** When [m] answers ENOSPC no block is free any more. *)
Definition leaves {A} (code : A -> Z) (a : A) (s' : sfs_fs) : Prop := covered (sfs_freemap s') /\ (code a = ENOSPC -> free_blocks s' = 0%nat).
Definition fills {A} (code : A -> Z) (m : M sfs_fs A) : Prop := forall s, covered (sfs_freemap s) -> from (leaves code) m s.

Lemma runs_from {A} k code (m : M sfs_fs A) : (forall s, later 0 s s -> from (ends k code s) m s) -> runs k code m.
Proof. intros H s Hc. exact (H s (later_refl s Hc)). Qed.

Section Rules.
Context {A : Type} (P : A -> sfs_fs -> Prop).

Lemma from_assoc {B C} (m : M sfs_fs B) (g : B -> M sfs_fs C) (f : C -> M sfs_fs A) s : from P (m ≫= (fun b => g b ≫= f)) s -> from P ((m ≫= g) ≫= f) s.
Proof. intros H a s' He. apply H. unfold mbind, M_bind in *. by destruct (m s). Qed.
Lemma from_ret_bind {B} (b : B) (f : B -> M sfs_fs A) s : from P (f b) s -> from P (mret b ≫= f) s.
Proof. done. Qed.
Lemma from_panic_bind {B} what (f : B -> M sfs_fs A) s : from P (panic what ≫= f) s.
Proof. by intros a s'. Qed.
Lemma from_panic what s : from P (panic what) s.
Proof. by intros a s'. Qed.

Context (s0 : sfs_fs) (k : nat) (code : A -> Z).
Lemma from_bind {B} k0 k1 code1 (m : M sfs_fs B) (f : B -> M sfs_fs A) s : runs k1 code1 m -> later k0 s0 s ->
  (forall b s', later (k0 + k1) s0 s' -> later k1 s s' -> excused (k0 + k1) s0 s' (code1 b) -> from (ends k code s0) (f b) s') -> from (ends k code s0) (m ≫= f) s.
Proof.
  intros Hm Hs Hf a s' He. apply bind_Done in He as (b & s1 & E & He). destruct (Hm s (la_covered _ _ _ Hs) b s1 E) as [Hl Hx]. apply (Hf b s1); [by eapply later_trans|done|by eapply excused_before|done].
Qed.
Lemma from_ret k0 a s : later k0 s0 s -> (k0 <= k)%nat -> excused k s0 s (code a) -> from (ends k code s0) (mret a) s.
Proof. intros Hs Hk Hx b s' He. inversion He; subst. split; [by eapply later_le|done]. Qed.
Lemma from_tail k0 k1 (m : M sfs_fs A) s : runs k1 code m -> later k0 s0 s -> (k0 + k1 <= k)%nat -> from (ends k code s0) m s.
Proof.
  intros Hm Hs Hk a s' He. destruct (Hm s (la_covered _ _ _ Hs) a s' He) as [Hl Hx]. split; [eapply later_le; [exact Hk|by eapply later_trans]|eapply excused_le; [exact Hk|by eapply excused_before]].
Qed.

Lemma pour_bind {B} code1 (m : M sfs_fs B) (f : B -> M sfs_fs A) s : fills code1 m -> covered (sfs_freemap s) ->
  (forall b s', covered (sfs_freemap s') -> (code1 b = ENOSPC -> free_blocks s' = 0%nat) -> from (leaves code) (f b) s') -> from (leaves code) (m ≫= f) s.
Proof. intros Hm Hs Hf a s' He. apply bind_Done in He as (b & s1 & E & He). destruct (Hm s Hs b s1 E) as [Hc Hx]. by apply (Hf b s1). Qed.
Lemma pour_ret a s : covered (sfs_freemap s) -> (code a = ENOSPC -> free_blocks s = 0%nat) -> from (leaves code) (mret a) s.
Proof. intros Hs Hx b s' He. by inversion He; subst. Qed.
Lemma pour_tail (m : M sfs_fs A) s : fills code m -> covered (sfs_freemap s) -> from (leaves code) m s.
Proof. intros Hm Hs. by apply Hm. Qed.
End Rules.

Lemma runs_fills {A} code (m : M sfs_fs A) : runs 0 code m -> fills code m.
Proof. intros Hm s Hc a s' He. destruct (Hm s Hc a s' He) as [Hl (_ & _ & Hx)]. split; [by eapply la_covered|]. intros Hr. specialize (Hx Hr). lia. Qed.

(** Operations that do not touch the disk, the free map or the heap. *)
Lemma runs_quiet {A} (m : M sfs_fs A) : (forall s a s', m s = Done a s' -> sfs_freemap s' = sfs_freemap s /\ sfs_device s' = sfs_device s /\ sv_allocs s' = sv_allocs s) -> runs 0 fine m.
Proof.
  intros H s Hc a s' He. destruct (H s a s' He) as (E1 & E2 & E3). split; [|by apply excused_const]. split; unfold free_blocks, ops; rewrite ?E1, ?E2, ?E3; [done|lia|lia|lia].
Qed.

Lemma runs_gets {A} (f : sfs_fs -> A) : runs 0 fine (gets f).
Proof. apply runs_quiet. by inversion 1; subst. Qed.
Lemma runs_ret {A} (a : A) : runs 0 fine (mret a).
Proof. apply runs_quiet. by inversion 1; subst. Qed.
Lemma runs_kassert what b : runs 0 fine (kassert what b).
Proof. apply runs_quiet. unfold kassert. destruct b; by inversion 1; subst. Qed.
Lemma runs_deref {A} what (o : option A) : runs 0 fine (deref what o).
Proof. apply runs_quiet. unfold deref. destruct o; by inversion 1; subst. Qed.
Lemma get_sv_same sv s a s' : get_sv sv s = Done a s' -> s' = s.
Proof. unfold get_sv, deref. destruct (svs s !! sv); by inversion 1. Qed.
Lemma kassert_same what b (s : sfs_fs) s' : kassert what b s = Done tt s' -> s' = s.
Proof. unfold kassert. destruct b; by inversion 1. Qed.
Lemma update_sv_same sv f s s' : update_sv sv f s = Done tt s' -> sfs_freemap s' = sfs_freemap s.
Proof. unfold update_sv, mbind, M_bind, get_sv, deref, modify. destruct (svs s !! sv); by inversion 1. Qed.
Lemma runs_get_sv sv : runs 0 fine (get_sv sv).
Proof. apply runs_quiet. intros s a s'. unfold get_sv, deref. destruct (svs s !! sv); by inversion 1; subst. Qed.
Lemma runs_update_sv sv f : runs 0 fine (update_sv sv f).
Proof. apply runs_quiet. intros s a s' H. unfold update_sv, mbind, M_bind, get_sv, deref, modify in H. destruct (svs s !! sv); by inversion H; subst. Qed.
Lemma runs_modify f : (forall s, sfs_freemap (f s) = sfs_freemap s /\ sfs_device (f s) = sfs_device s /\ sv_allocs (f s) = sv_allocs s) -> runs 0 fine (modify f).
Proof. intros H. apply runs_quiet. intros s a s'. inversion 1; subst. apply H. Qed.
Lemma runs_lift {A} (r : res A) : runs 0 fine (lift r).
Proof. apply runs_quiet. unfold lift. destruct r; by inversion 1; subst. Qed.
Lemma runs_bused b : runs 0 fine (sfs_bused b).
Proof.
  apply runs_quiet. intros s a s' H. unfold sfs_bused in H. apply bind_Done in H as (n & s1 & E1 & H). inversion E1; subst. destruct (_ <=? b); [done|]. apply bind_Done in H as (m & s2 & E2 & H). inversion E2; subst.
  apply bind_Done in H as (w & s3 & E3 & H). apply lift_Done in E3 as [_ ->]. by inversion H; subst.
Qed.
End Errors.

Create HintDb runs.
#[export] Hint Resolve runs_gets runs_ret runs_kassert runs_deref runs_get_sv runs_update_sv runs_lift runs_bused : runs.
#[export] Hint Extern 1 (runs _ _ (modify _)) => (apply runs_modify; by intros) : runs.

(** A step of a computation; the branches of one; the end. *)
Ltac excuse := cbn [fst snd fine id] in *; first
  [ apply excused_const; reflexivity
  | match goal with E : ?r = 0 |- excused _ _ _ ?r => rewrite E; apply excused_const; reflexivity end
  | match goal with H : excused _ ?s0 _ ?r |- excused _ ?s0 _ ?r => solve [eapply excused_le; [|exact H]; lia | eapply excused_le; [|eapply excused_after; [exact H|eassumption]]; lia | eapply excused_le; [|eapply excused_after; [exact H|eauto 8 using later_trans]]; lia] end ].
Ltac follow_one :=
  lazymatch goal with
  | |- from _ (let '(_, _) := ?p in _) _ => destruct p
  | |- from _ (mbind _ (mbind _ _)) _ => apply from_assoc; cbv beta
  | |- from _ (mbind _ (mret _)) _ => apply from_ret_bind; cbv beta
  | |- from _ (mbind _ (panic _)) _ => apply from_panic_bind
  | |- from _ (mbind _ (let '(_, _) := ?p in _)) _ => destruct p
  | |- from _ (mbind _ (if negb (?r =? 0) then _ else _)) _ => destruct (Z.eqb_spec r 0); cbn [negb]
  | |- from _ (mbind _ (if ?r =? 0 then _ else _)) _ => destruct (Z.eqb_spec r 0)
  | |- from _ (mbind _ (if ?b then _ else _)) _ => destruct b
  | |- from _ (mbind _ (match ?o with _ => _ end)) _ => destruct o
  | |- from (ends _ _ _) (mbind _ _) _ => eapply from_bind; [solve [eauto with runs]|eassumption|intros; cbv beta]
  | |- from _ (if negb (?r =? 0) then _ else _) _ => destruct (Z.eqb_spec r 0); cbn [negb]
  | |- from _ (if ?b then _ else _) _ => destruct b
  | |- from _ (match ?o with _ => _ end) _ => destruct o
  | |- from _ (panic _) _ => apply from_panic
  | |- from (leaves _) (mbind _ _) _ => eapply pour_bind; [solve [eauto with runs]|eassumption|intros; cbv beta]
  | |- from (ends _ _ _) (mret _) _ => eapply from_ret; [eassumption|lia|excuse]
  | |- from (leaves _) (mret _) _ => apply pour_ret; [eassumption|cbn [fst snd fine id] in *; done || congruence || auto]
  | |- from (leaves _) _ _ => eapply pour_tail; [solve [eauto with runs]|eassumption]
  | |- from (ends _ _ _) _ _ => eapply from_tail; [solve [eauto with runs]|eassumption|lia]
  end.
Ltac follow := apply runs_from; intros ? ?; repeat follow_one.

Section Operations.
Context {HW : LhdHardware} {SM : SfsMemory} (curas : Z).

(** ** Blocks *)

Lemma runs_devop_io u : runs 0 fst (devop_io curas u).
Proof.
  intros s Hc [r u'] s' H. unfold devop_io in H. destruct (lhd_io curas u (sfs_device s)) as [[r1 u1] d1| | |] eqn:E; try done. inversion H; subst. destruct (lhd_io_blame _ _ _ _ _ _ E) as (H1 & H2 & H3 & H4).
  split; [split; [done|exact H1|done|unfold free_blocks; cbn; lia]|]. by split_and!.
Qed.
#[local] Hint Resolve runs_devop_io : runs.
Lemma runs_rwblock tries : forall u, runs 0 fst (rwblock_retry curas tries u).
Proof. induction tries as [|n IH]; intros u; cbn [rwblock_retry]; follow. Qed.
#[local] Hint Resolve runs_rwblock : runs.
Lemma runs_readblock b old : runs 0 fst (sfs_readblock curas b old).
Proof. unfold sfs_readblock, sfs_rwblock. follow. Qed.
Lemma runs_writeblock b data : runs 0 id (sfs_writeblock curas b data).
Proof. unfold sfs_writeblock, sfs_rwblock. follow. Qed.
#[local] Hint Resolve runs_readblock runs_writeblock : runs.

Lemma runs_bfree b : runs 0 fine (sfs_bfree b).
Proof.
  intros s Hc [] s' H. unfold sfs_bfree in H. apply bind_Done in H as (m & s2 & E2 & H). inversion E2; subst. apply bind_Done in H as (m' & s3 & E3 & H). apply lift_Done in E3 as [E3 ->]. inversion H; subst.
  destruct (unmark_effect _ _ _ Hc E3) as [Hc' Hfr]. split; [|by apply excused_const]. split; [done|done|done|unfold free_blocks; cbn; lia].
Qed.
#[local] Hint Resolve runs_bfree : runs.

Lemma runs_balloc : runs 1 fst (sfs_balloc curas).
Proof.
  intros s Hc [r b] s' H. unfold sfs_balloc in H. apply bind_Done in H as (m & s1 & E1 & H). inversion E1; subst. apply bind_Done in H as ([m' x] & s2 & E2 & H). apply lift_Done in E2 as [E2 ->].
  destruct (alloc_effect _ _ _ Hc E2) as (Hc' & Hf & Hx). destruct x as [e|blk].
  - destruct Hx as (-> & -> & Hz). inversion H; subst. split; [eapply later_le; [|by apply later_refl]; lia|]. split_and!; try done. intros _. cbn. unfold free_blocks. lia.
  - apply bind_Done in H as ([] & s3 & E3 & H). inversion E3; subst. assert (Hl : later 1 s1 (set_freemap m' s1)) by (split; [done|done|done|unfold free_blocks; cbn; lia]). revert H.
    assert (Hfrom : from (ends 1 fst s1) (nblocks ← gets sb_nblocks; if nblocks <=? blk then panic "sfs: balloc: invalid block" else
      result ← sfs_clearblock curas blk; (if negb (result =? 0) then sfs_bfree blk else mret tt);; mret (result, blk)) (set_freemap m' s1)).
    { unfold sfs_clearblock. repeat follow_one. }
    intros H. exact (Hfrom (r, b) s' H).
Qed.
#[local] Hint Resolve runs_balloc : runs.

Lemma runs_check_used b : runs 0 fine (check_used b).
Proof. unfold check_used. follow. Qed.
#[local] Hint Resolve runs_check_used : runs.
Lemma runs_bmap sv fb doalloc : runs 2 fst (sfs_bmap curas sv fb doalloc).
Proof. unfold sfs_bmap, bmap_direct, bmap_indirect. follow. Qed.
Lemma runs_bmap_look sv fb : runs 0 fst (sfs_bmap curas sv fb false).
Proof.
  unfold sfs_bmap, bmap_direct, bmap_indirect. cbn [negb]. apply runs_from. intros s0 Hs0. destruct (fb <? SFS_NDIRECT); [follow_one; follow_one; rewrite andb_false_r; repeat follow_one|].
  destruct (_ <=? _); [repeat follow_one|]. follow_one. destruct (_ =? 0); cbn [andb]; [repeat follow_one|]. repeat first [rewrite andb_false_r | follow_one].
Qed.
#[local] Hint Resolve runs_bmap_look : runs.
#[local] Hint Resolve runs_bmap | 10 : runs.

Lemma runs_trunc_direct sv bl n : forall i, runs 0 fine (trunc_direct sv bl i n).
Proof. induction n as [|n IH]; intros i; cbn [trunc_direct]; follow. Qed.
Lemma runs_trunc_indirect bl n : forall idbuf j a b, runs 0 fine (trunc_indirect bl idbuf j n a b).
Proof. induction n as [|n IH]; intros idbuf j a b; cbn [trunc_indirect]; follow. Qed.
#[local] Hint Resolve runs_trunc_direct runs_trunc_indirect : runs.
Lemma runs_itrunc sv len : runs 0 id (sfs_itrunc curas sv len).
Proof. unfold sfs_itrunc. follow. Qed.

(** ** Directories *)

Lemma runs_metaio_read sv pos len : runs 0 fst (sfs_metaio_read curas sv pos len).
Proof. unfold sfs_metaio_read. follow. Qed.
Lemma runs_metaio_write sv pos data : runs 2 id (sfs_metaio_write curas sv pos data).
Proof. unfold sfs_metaio_write. follow. Qed.
#[local] Hint Resolve runs_itrunc runs_metaio_read runs_metaio_write : runs.

Lemma runs_findname_loop sv name n : forall i acc, runs 0 fst (findname_loop curas sv name i n acc).
Proof. induction n as [|n IH]; intros i acc; cbn [findname_loop]; unfold sfs_readdir; follow. Qed.
Lemma runs_nentries sv : runs 0 fine (sfs_dir_nentries sv).
Proof. unfold sfs_dir_nentries. follow. Qed.
#[local] Hint Resolve runs_findname_loop runs_nentries : runs.
Lemma runs_findname sv name : runs 0 fst (sfs_dir_findname curas sv name).
Proof. unfold sfs_dir_findname. follow. destruct (fst p); follow_one. Qed.
#[local] Hint Resolve runs_findname : runs.
Lemma runs_dir_link sv name ino : runs 2 fst (sfs_dir_link curas sv name ino).
Proof. unfold sfs_dir_link, sfs_writedir. follow. Qed.
Lemma runs_dir_unlink sv slot : runs 2 id (sfs_dir_unlink curas sv slot).
Proof. unfold sfs_dir_unlink, sfs_writedir. follow. Qed.
#[local] Hint Resolve runs_dir_link runs_dir_unlink : runs.

(** ** Vnodes *)

Lemma runs_sync_inode sv : runs 0 id (sfs_sync_inode curas sv).
Proof. unfold sfs_sync_inode. follow. Qed.
#[local] Hint Resolve runs_sync_inode : runs.
Lemma runs_reclaim sv : runs 0 id (sfs_reclaim curas sv).
Proof. unfold sfs_reclaim, free_sv. follow. Qed.
#[local] Hint Resolve runs_reclaim : runs.
Lemma runs_incref sv : runs 0 fine (vnode_incref sv).
Proof. unfold vnode_incref. follow. Qed.
Lemma runs_decref sv : runs 0 fine (vnode_decref curas sv).
Proof. unfold vnode_decref. follow. Qed.
#[local] Hint Resolve runs_incref runs_decref : runs.
Lemma runs_find_loaded ino l : runs 0 fine (find_loaded ino l).
Proof. induction l as [|a l IH]; cbn [find_loaded]; follow. Qed.
#[local] Hint Resolve runs_find_loaded : runs.

(** A request for memory, and what its refusal excuses. *)
Lemma from_ask {A} s0 k code (f : nat -> gmap Z sfs_vnode -> M sfs_fs A) k0 s : later k0 s0 s ->
  (forall n live s', later k0 s0 s' -> (sv_allocs s0 <= n < sv_allocs s')%nat -> from (ends k code s0) (f n live) s') ->
  from (ends k code s0) (n ← gets sv_allocs; live ← gets svs; modify count_alloc;; f n live) s.
Proof.
  intros Hs Hf. assert (Hc : later k0 s0 (count_alloc s)). { destruct Hs as [A1 A2 A3 A4]. split; [done|done|cbn; lia|done]. }
  apply (Hf (sv_allocs s) (svs s) (count_alloc s) Hc). pose proof (la_allocs _ _ _ Hs). cbn. lia.
Qed.
Lemma excused_memory k s0 s n j s' : (sv_allocs s0 <= n < sv_allocs s)%nat -> later j s s' -> vnodearray_grows n = false \/ (exists live, sv_kmalloc n live = 0) -> excused k s0 s' ENOMEM.
Proof. intros Hn Hl Hr. split_and!; [done| |done]. intros _. exists n. pose proof (la_allocs _ _ _ Hl). split; [lia|done]. Qed.

Lemma runs_loadvnode ino ft : runs 0 fst (sfs_loadvnode curas ino ft).
Proof.
  unfold sfs_loadvnode. apply runs_from. intros s0 Hs0. follow_one. follow_one. destruct b0 as [sv|]; [repeat follow_one|].
  eapply from_ask; [eassumption|]. intros n live s1 Hs1 Hn. cbv zeta. set (a := sv_kmalloc n (dom live)). destruct (Z.eqb_spec a 0) as [Hz|Hz].
  { eapply from_ret; [exact Hs1|lia|]. eapply excused_memory; [exact Hn|by eapply later_refl, la_covered|eauto]. }
  destruct (vnodearray_grows n) eqn:Hg; cbn [negb]; repeat follow_one.
  all: eapply from_ret; [eassumption|lia|]. all: eapply excused_memory; [exact Hn| |by left]; eauto using later_trans.
Qed.

#[local] Hint Resolve runs_loadvnode : runs.
Lemma runs_makeobj type : runs 1 fst (sfs_makeobj curas type).
Proof. unfold sfs_makeobj. follow. Qed.
Lemma runs_getroot : runs 0 fst (sfs_getroot curas).
Proof. unfold sfs_getroot. follow. Qed.
Notation code3 := (fun x : Z * _ * _ => x.1.1).
Lemma runs_lookonce sv name : runs 0 code3 (sfs_lookonce curas sv name).
Proof. unfold sfs_lookonce. follow. Qed.
#[local] Hint Resolve runs_makeobj runs_getroot runs_lookonce : runs.

(** ** The operations *)

Lemma runs_lookup sv path : runs 0 fst (sfs_lookup curas sv path).
Proof. unfold sfs_lookup. follow. Qed.
Lemma runs_creat sv name excl : runs 3 fst (sfs_creat curas sv name excl).
Proof. unfold sfs_creat. follow. Qed.
Lemma runs_link dir name file : runs 2 id (sfs_link curas dir name file).
Proof. unfold sfs_link. follow. Qed.
Lemma runs_remove dir name : runs 2 id (sfs_remove curas dir name).
Proof. unfold sfs_remove. follow. Qed.
Lemma runs_rename d1 n1 d2 n2 : runs 6 id (sfs_rename curas d1 n1 d2 n2).
Proof. unfold sfs_rename. follow. Qed.

(** ** Files *)

Lemma on_uio_quiet {A} (code : A * uio -> Z) (m : M uio A) u : (forall a u', m u = Done a u' -> code (a, u') = 0 \/ code (a, u') = EFAULT) -> runs 0 code (on_uio m u).
Proof.
  intros Hm s Hc [a u'] s' H. unfold on_uio in H. destruct (m u) as [a1 u1| | |] eqn:E; try done. inversion H; subst. split; [by apply later_refl|]. destruct (Hm a u' eq_refl) as [-> | ->]; by apply excused_const.
Qed.
Lemma runs_uiomove p n u : runs 0 code3 (on_uio (S := sfs_fs) (uiomove curas p n) u).
Proof. apply on_uio_quiet. intros [r p'] u' H. by apply uiomove_code in H. Qed.
Lemma runs_uiomovezeros n u : runs 0 fst (on_uio (S := sfs_fs) (uiomovezeros curas n) u).
Proof. apply on_uio_quiet. intros r u' H. by apply uiomovezeros_code in H. Qed.
#[local] Hint Resolve runs_uiomove runs_uiomovezeros : runs.

Lemma runs_partialio sv u skip len : runs 2 fst (sfs_partialio curas sv u skip len).
Proof. unfold sfs_partialio. follow. Qed.
Lemma runs_blockio sv u : runs 2 fst (sfs_blockio curas sv u).
Proof. unfold sfs_blockio, sfs_rwblock. follow. Qed.
#[local] Hint Resolve runs_partialio runs_blockio : runs.
Lemma runs_blocks sv n : forall u, runs (2 * n) fst (sfs_blocks curas sv n u).
Proof. induction n as [|n IH]; intros u; cbn [sfs_blocks]; follow. Qed.


Lemma io_blocks_runs sv u s a s' : covered (sfs_freemap s) -> sfs_io_blocks curas sv u s = Done a s' -> exists k, ends k fst s a s'.
Proof.
  intros Hc H. unfold sfs_io_blocks in H. apply bind_Done in H as ([r1 u1] & s1 & E1 & H).
  assert (H1 : ends 2 fst s (r1, u1) s1) by (destruct (negb _); [exact (runs_partialio _ _ _ _ s Hc _ _ E1)|inversion E1; subst; split; [apply (later_le 0); [lia|by apply later_refl]|by apply excused_const]]).
  destruct H1 as [L1 X1]. exists (2 + 2 * Z.to_nat (uio_resid u1 / SFS_BLOCKSIZE) + 2)%nat. revert a s' H.
  match goal with |- forall a s', ?m _ = _ -> _ => change (from (ends (2 + 2 * Z.to_nat (uio_resid u1 / SFS_BLOCKSIZE) + 2) fst s) m s1) end.
  pose proof (runs_blocks sv (Z.to_nat (uio_resid u1 / SFS_BLOCKSIZE)) u1) as Hb. repeat follow_one.
Qed.

Lemma io_takes sv u s a s' : covered (sfs_freemap s) -> sfs_io curas sv u s = Done a s' -> exists k, ends k fst s a s'.
Proof.
  intros Hc H. unfold sfs_io in H. apply bind_Done in H as (v & s1 & E1 & H). destruct (runs_get_sv sv s Hc v s1 E1) as [L1 _]. destruct (_ && _) in H.
  { inversion H; subst. exists 0%nat. split; [done|by apply excused_const]. }
  apply bind_Done in H as ([] & s2 & E2 & H). destruct (runs_kassert _ _ s1 (la_covered _ _ _ L1) tt s2 E2) as [L2 _]. apply bind_Done in H as ([r u1] & s3 & E3 & H).
  apply (io_blocks_runs _ _ _ _ _ (la_covered _ _ _ L2)) in E3 as (k & L3 & X3). pose proof (later_trans _ _ _ _ _ L1 L2) as L12. pose proof (later_trans _ _ _ _ _ L12 L3) as L. pose proof (excused_before _ _ _ _ _ _ L12 X3) as X.
  exists (0 + 0 + k)%nat. revert a s' H. match goal with |- forall a s', ?m _ = _ -> _ => change (from (ends (0 + 0 + k) fst s) m s3) end. repeat follow_one.
Qed.

(** A write that answers ENOSPC leaves no block free. *)
Ltac pour := intros ? ?; repeat follow_one.
#[local] Hint Resolve runs_fills | 5 : runs.
Lemma fills_balloc : fills fst (sfs_balloc curas).
Proof.
  intros s Hc [r b] s' H. pose proof (runs_balloc s Hc _ _ H) as [Hl _]. split; [by eapply la_covered|]. cbn [fst]. intros ->. unfold sfs_balloc in H. apply bind_Done in H as (m & s1 & E1 & H). inversion E1; subst.
  apply bind_Done in H as ([m' x] & s2 & E2 & H). apply lift_Done in E2 as [E2 ->]. destruct (alloc_effect _ _ _ Hc E2) as (Hc' & _ & Hx). destruct x as [e|blk]; [inversion H; subst; apply Hx|exfalso].
  apply bind_Done in H as ([] & s3 & E3 & H). inversion E3; subst. apply bind_Done in H as (nb & s4 & E4 & H). inversion E4; subst. destruct (_ <=? blk); [done|]. apply bind_Done in H as (r & s5 & E5 & H).
  destruct (runs_writeblock _ _ _ (Hc' : covered (sfs_freemap (set_freemap m' _))) _ _ E5) as [_ (_ & _ & Hx')]. apply bind_Done in H as ([] & s6 & E6 & H). inversion H; subst. specialize (Hx' eq_refl). lia.
Qed.
#[local] Hint Resolve fills_balloc : runs.
Lemma fills_bmap sv fb doalloc : fills fst (sfs_bmap curas sv fb doalloc).
Proof. unfold sfs_bmap, bmap_direct, bmap_indirect. pour. Qed.
#[local] Hint Resolve fills_bmap : runs.
Lemma fills_partialio sv u skip len : fills fst (sfs_partialio curas sv u skip len).
Proof. unfold sfs_partialio. pour. Qed.
Lemma fills_blockio sv u : fills fst (sfs_blockio curas sv u).
Proof. unfold sfs_blockio, sfs_rwblock. pour. Qed.
#[local] Hint Resolve fills_partialio fills_blockio : runs.
Lemma fills_blocks sv n : forall u, fills fst (sfs_blocks curas sv n u).
Proof. induction n as [|n IH]; intros u; cbn [sfs_blocks]; pour. Qed.
#[local] Hint Resolve fills_blocks : runs.
Lemma fills_io_blocks sv u : fills fst (sfs_io_blocks curas sv u).
Proof. unfold sfs_io_blocks. pour. Qed.
#[local] Hint Resolve fills_io_blocks : runs.
Lemma fills_io sv u : fills fst (sfs_io curas sv u).
Proof.
  intros s Hc a s' H. unfold sfs_io in H. apply bind_Done in H as (v & s1 & E1 & H). apply get_sv_same in E1 as ->. destruct (_ && _) in H; [by inversion H; subst|].
  apply bind_Done in H as ([] & s2 & E2 & H). apply kassert_same in E2 as ->. apply bind_Done in H as ([r u1] & s3 & E3 & H). destruct (fills_io_blocks _ _ s Hc _ _ E3) as [Hc3 Hx]. apply bind_Done in H as (v3 & s4 & E4 & H). apply get_sv_same in E4 as ->.
  apply bind_Done in H as ([] & s5 & E5 & H). assert (Hm : sfs_freemap s5 = sfs_freemap s3) by (destruct (_ && _) in E5; [by eapply update_sv_same|by inversion E5; subst]).
  inversion H; subst. unfold leaves, free_blocks in *. by rewrite Hm.
Qed.

End Operations.

#[export] Hint Resolve runs_itrunc runs_decref runs_incref runs_getroot runs_lookup runs_creat runs_link runs_remove runs_rename : runs.

(** ** Operations that ask for no memory *)
Section Blocks.
Context {HW : LhdHardware} (curas : Z).

#[local] Instance some_memory : SfsMemory := {| sv_kmalloc _ _ := 0; vnodearray_grows _ := true |}.

Lemma itrunc_reason sv len s r s' : covered (sfs_freemap s) -> sfs_itrunc curas sv len s = Done r s' -> r = EIO -> disk_failed s s'.
Proof. intros Hc He. exact (proj1 (proj2 (runs_itrunc curas sv len s Hc r s' He))). Qed.

Lemma readblock_reason b old s r data s' : covered (sfs_freemap s) -> sfs_readblock curas b old s = Done (r, data) s' -> (ops s <= ops s')%nat /\ (r = EIO -> disk_failed s s').
Proof. intros Hc He. destruct (runs_readblock curas b old s Hc _ _ He) as [L (X & _)]. split; [exact (la_ops _ _ _ L)|exact X]. Qed.

Lemma io_reason sv u s r u' s' : covered (sfs_freemap s) -> sfs_io curas sv u s = Done (r, u') s' ->
  (r = EIO -> disk_failed s s') /\ (r = ENOSPC -> free_blocks s' = 0%nat).
Proof.
  intros Hc He. destruct (io_takes curas sv u s (r, u') s' Hc He) as (k & _ & (Hd & _)). split; [exact Hd|]. exact (proj2 (fills_io curas sv u s Hc _ _ He)).
Qed.

End Blocks.
End SfsErrors.
