(* ===== verification/SfsFormat.v ===== *)
(** * The on-disk format of SFS: structures as bytes and back *)
From S2P Require Import Prelude Bitmap Copyinout Uio Lhd Sfs.
Import Sfs.

Module SfsFormat.

Lemma put32_word x l : is_u32 x -> words_of (put32 x ++ l) = x :: words_of l.
Proof.
  intros Hx. unfold is_u32 in Hx. unfold put32, u8. cbn [app words_of]. f_equal.
  pose proof (Z.div_mod x (2 ^ 24)). pose proof (Z.div_mod x (2 ^ 16)). pose proof (Z.div_mod x (2 ^ 8)).
  assert (E1 : x / 2 ^ 16 = 2 ^ 8 * (x / 2 ^ 24) + (x / 2 ^ 16) mod 2 ^ 8).
  { rewrite (Z.div_mod (x / 2 ^ 16) (2 ^ 8)) at 1 by lia. by rewrite Z.div_div by lia. }
  assert (E2 : x / 2 ^ 8 = 2 ^ 8 * (x / 2 ^ 16) + (x / 2 ^ 8) mod 2 ^ 8).
  { rewrite (Z.div_mod (x / 2 ^ 8) (2 ^ 8)) at 1 by lia. by rewrite Z.div_div by lia. }
  assert (E3 : (x / 2 ^ 24) mod 2 ^ 8 = x / 2 ^ 24).
  { apply Z.mod_small. split; [apply Z.div_pos; lia|]. apply Z.div_lt_upper_bound; lia. }
  rewrite E3. lia.
Qed.

Lemma bytes_of_cons w ws : bytes_of (w :: ws) = put32 w ++ bytes_of ws.
Proof. done. Qed.

Lemma words_bytes ws : Forall is_u32 ws -> words_of (bytes_of ws) = ws.
Proof.
  induction 1 as [|w ws Hw _ IH]; [done|]. rewrite bytes_of_cons, put32_word by done. by rewrite IH.
Qed.

Lemma length_bytes_of ws : length (bytes_of ws) = (4 * length ws)%nat.
Proof. induction ws as [|w ws IH]; [done|]. rewrite bytes_of_cons, length_app, IH. cbn. lia. Qed.

Lemma length_words_of n : forall l, length l = (4 * n)%nat -> length (words_of l) = n.
Proof.
  induction n as [|n IH]; intros l Hl; [by destruct l|].
  destruct l as [|a [|b [|c [|d l]]]]; cbn in Hl; try lia. cbn. f_equal. apply IH. lia.
Qed.

Lemma words_of_zeros n : words_of (replicate (4 * n) 0) = replicate n 0.
Proof.
  induction n as [|n IH]; [done|]. replace (4 * S n)%nat with (4 + 4 * n)%nat by lia.
  rewrite replicate_add. cbn [replicate app words_of]. by rewrite IH.
Qed.

(** Two 16-bit fields make up one word. *)
Lemma put16_put16 a b : 0 <= a < 2 ^ 16 -> 0 <= b < 2 ^ 16 -> put16 a ++ put16 b = put32 (a * 2 ^ 16 + b).
Proof.
  intros Ha Hb. unfold put16, put32, u8. cbn [app].
  assert (E0 : (a * 2 ^ 16 + b) / 2 ^ 16 = a) by (rewrite Z.div_add_l by lia; rewrite Z.div_small by lia; lia).
  assert (E1 : (a * 2 ^ 16 + b) / 2 ^ 24 = a / 2 ^ 8).
  { replace (2 ^ 24) with (2 ^ 16 * 2 ^ 8) by lia. rewrite <- Z.div_div by lia. by rewrite E0. }
  assert (E2 : (a * 2 ^ 16 + b) / 2 ^ 8 = a * 2 ^ 8 + b / 2 ^ 8).
  { replace (a * 2 ^ 16 + b) with (a * 2 ^ 8 * 2 ^ 8 + b) by lia. rewrite Z.div_add_l by lia. done. }
  rewrite E0, E1, E2. do 3 f_equal.
  - rewrite Z.add_comm, Z.mod_add by lia. done.
  - f_equal. replace (a * 2 ^ 16 + b) with (b + (a * 2 ^ 8) * 2 ^ 8) by lia. by rewrite Z.mod_add by lia.
Qed.

(** An inode that fits its on-disk form. *)
Definition dinode_fits (i : dinode) : Prop :=
  is_u32 (sfi_size i) /\ 0 <= sfi_type i < 2 ^ 16 /\ 0 <= sfi_linkcount i < 2 ^ 16 /\
  length (sfi_direct i) = 15%nat /\ Forall is_u32 (sfi_direct i) /\ is_u32 (sfi_indirect i) /\
  length (sfi_waste i) = 110%nat /\ Forall is_u32 (sfi_waste i).

Lemma dinode_bytes_of i : dinode_fits i ->
  dinode_bytes i = bytes_of (sfi_size i :: (sfi_type i * 2 ^ 16 + sfi_linkcount i) :: sfi_direct i ++ sfi_indirect i :: sfi_waste i).
Proof.
  intros (_ & Ht & Hl & _). unfold dinode_bytes. rewrite !(bytes_of_cons (sfi_size i)), (bytes_of_cons (_ * _ + _)).
  rewrite <- put16_put16 by done. by rewrite <- app_assoc.
Qed.

Lemma length_dinode_bytes i : dinode_fits i -> length (dinode_bytes i) = 512%nat.
Proof.
  intros Hf. rewrite dinode_bytes_of, length_bytes_of by done. destruct Hf as (_ & _ & _ & Hd & _ & _ & Hw & _).
  cbn. rewrite length_app. cbn. rewrite Hd, Hw. done.
Qed.

Lemma dinode_of_bytes i : dinode_fits i -> dinode_of (dinode_bytes i) = i.
Proof.
  intros Hf. rewrite dinode_bytes_of by done. destruct Hf as (Hs & Ht & Hl & Hd & Hdu & Hi & Hw & Hwu).
  unfold dinode_of. rewrite words_bytes.
  2:{ rewrite !Forall_cons, Forall_app, Forall_cons. unfold is_u32 in *. split_and!; try done; lia. }
  cbn [lookup list_lookup]. destruct i as [sz ty lc dir ind wst]. cbn in *. cbv zeta. f_equal.
  - rewrite Z.div_add_l by lia. rewrite Z.div_small by lia. lia.
  - rewrite Z.add_comm, Z.mod_add by lia. apply Z.mod_small. lia.
  - rewrite drop_0, take_app_length' by lia. done.
  - change (default 0 ((dir ++ ind :: wst) !! 15%nat) = ind). by rewrite list_lookup_middle.
  - rewrite drop_app_ge by lia. rewrite Hd. done.
Qed.

(** Directory entries: 4 bytes of inode number and 60 of name. *)
Definition direntry_fits (e : direntry) : Prop := is_u32 (sfd_ino e) /\ length (sfd_name e) = 60%nat.

Lemma length_direntry_bytes e : direntry_fits e -> length (direntry_bytes e) = 64%nat.
Proof. intros [_ Hn]. unfold direntry_bytes. rewrite length_app, Hn. done. Qed.

Lemma direntry_of_bytes e : direntry_fits e -> direntry_of (direntry_bytes e) = e.
Proof.
  intros [Hi Hn]. unfold direntry_of, direntry_bytes. rewrite take_app_length' by done. rewrite drop_app_length' by done.
  rewrite <- (app_nil_r (put32 _)), put32_word by done. by destruct e.
Qed.

(** A name padded with zeros reads back as the name. *)
Lemma c_string_padded name k n : Forall (fun c => c <> 0) name -> (length name <= n)%nat ->
  c_string (take n (name ++ replicate k 0)) = name.
Proof.
  intros Hn. revert n. induction Hn as [|c name Hc _ IH]; intros n Hl; cbn [app].
  - destruct k, n; done.
  - destruct n as [|n]; [cbn in Hl; lia|]. cbn. replace (c =? 0) with false by lia. f_equal. apply IH. cbn in Hl. lia.
Qed.

End SfsFormat.
