(* ===== verification/SfsProofs.v ===== *)
(** * The block layer of SFS: what blocks, allocation and the block map do *)
From S2P Require Import Prelude Bitmap Copyinout Uio Lhd Sfs SfsErrors SfsFormat.
Import Bitmap Copyinout Uio Lhd Sfs SfsErrors SfsFormat.

Module SfsProofs.

(** Run the first operation of a computation that returns. *)
Ltac mrun H := rewrite (bind_ret _ _ _ _ _ H); cbv beta iota zeta.

Lemma bind_mret {S A B} (a : A) (k : A -> M S B) s : mbind (M := M S) k (mret a) s = k a s.
Proof. done. Qed.

Lemma kassert_true {S} site b (s : S) : b = true -> kassert site b s = Done tt s.
Proof. by intros ->. Qed.

(** Run the operations that always return. *)
Ltac mpure :=
  repeat (match goal with
  | |- context [mbind ?k (gets ?f) ?s] => rewrite (bind_ret (gets f) k s (f s) s eq_refl)
  | |- context [mbind ?k (modify ?f) ?s] => rewrite (bind_ret (modify f) k s tt (f s) eq_refl)
  | |- context [mbind _ (mret _) _] => rewrite bind_mret
  end; cbv beta iota zeta).

(** A vnode whose inode may have changed: then it is marked dirty. *)
Definition kept (v v' : sfs_vnode) : Prop := vn_refcount v' = vn_refcount v /\ (v' = v \/ sv_dirty v' = true).

Lemma kept_refl v : kept v v.
Proof. split; [done|by left]. Qed.

Lemma kept_trans v v1 v2 : kept v v1 -> kept v1 v2 -> kept v v2.
Proof. intros [? [->|?]] [? [->|?]]; split; try congruence; auto. Qed.

Lemma kept_dirty v f : kept v (dirty f v).
Proof. split; [done|by right]. Qed.
#[export] Hint Resolve kept_refl kept_dirty : core.

(** A change of the free map is recorded. *)
Definition recorded (s s' : sfs_fs) : Prop :=
  sfs_superdirty s' = sfs_superdirty s /\ nbits (sfs_freemap s') = nbits (sfs_freemap s) /\
  (sfs_freemapdirty s' = true \/ sfs_freemap s' = sfs_freemap s /\ sfs_freemapdirty s' = sfs_freemapdirty s).

Lemma recorded_refl s : recorded s s.
Proof. split_and!; [done|done|by right]. Qed.
Lemma recorded_trans s s1 s2 : recorded s s1 -> recorded s1 s2 -> recorded s s2.
Proof. intros (B & C & D) (B' & C' & D'). split_and!; try congruence. destruct D' as [|[-> ->]]; auto. Qed.
Lemma recorded_same s s' : sfs_superdirty s' = sfs_superdirty s -> sfs_freemap s' = sfs_freemap s ->
  sfs_freemapdirty s' = sfs_freemapdirty s -> recorded s s'.
Proof. intros B C D. split_and!; [done|by rewrite C|by right]. Qed.
Lemma recorded_device s d : recorded s (set_device d s).
Proof. split_and!; [done|done|by right]. Qed.
Lemma recorded_svs s m : recorded s (set_svs m s).
Proof. split_and!; [done|done|by right]. Qed.
Lemma recorded_vnodes s l : recorded s (set_vnodes l s).
Proof. split_and!; [done|done|by right]. Qed.
Lemma recorded_freemap s m : nbits m = nbits (sfs_freemap s) -> recorded s (set_freemap m s).
Proof. intros Hm. split_and!; [done|done|by left]. Qed.

(** Vnodes are allocated only by [sfs_loadvnode]. *)
Definition fixed (s s' : sfs_fs) : Prop := sv_allocs s' = sv_allocs s /\ recorded s s'.

Lemma fixed_refl s : fixed s s.
Proof. split; [done|apply recorded_refl]. Qed.
Lemma fixed_trans s s1 s2 : fixed s s1 -> fixed s1 s2 -> fixed s s2.
Proof. intros [A B] [A' B']. split; [congruence|by eapply recorded_trans]. Qed.
Lemma fixed_device s d : fixed s (set_device d s).
Proof. split; [done|apply recorded_device]. Qed.
Lemma fixed_svs s m : fixed s (set_svs m s).
Proof. split; [done|apply recorded_svs]. Qed.
Lemma fixed_freemap s m : nbits m = nbits (sfs_freemap s) -> fixed s (set_freemap m s).
Proof. intros Hm. split; [done|by apply recorded_freemap]. Qed.
#[export] Hint Resolve recorded_refl recorded_device recorded_svs recorded_vnodes fixed_refl fixed_device fixed_svs : core.
#[export] Hint Resolve recorded_freemap fixed_freemap : core.
#[export] Hint Extern 0 (recorded _ _) => (apply recorded_same; reflexivity) : core.

Section SfsProofs.
Context {HW : LhdHardware} (curas : Z) {HL : LhdLaws}.

(** ** Blocks *)

Definition block (s : sfs_fs) (b : Z) : list Z := sectors (sfs_device s) b.
Definition used (s : sfs_fs) (b : Z) : Prop := bit (sfs_freemap s) b = true.
#[global] Instance used_dec s b : Decision (used s b) := bool_eq_dec _ _.

(** A mounted volume, on a disk that reports no error on a write from here on
    ([dev_ok]): the superblock and what lies behind the last block are in use; block
    addresses in bytes fit 32 bits. *)
Record fs_ok (s : sfs_fs) : Prop := {
  fo_dev : dev_ok (sfs_device s);
  fo_nblocks : 0 < sb_nblocks s <= d_blocks (sfs_device s) /\ sb_nblocks s < 2 ^ 23;
  fo_map : wf (sfs_freemap s) /\ sb_nblocks s <= nbits (sfs_freemap s);
  fo_tail : forall b, sb_nblocks s <= b < nbits (sfs_freemap s) -> used s b;
  fo_super : used s 0
}.

Lemma fs_covered s : fs_ok s -> covered (sfs_freemap s).
Proof. intros Hs. destruct (fo_map _ Hs) as [(Hn & Hl & _) _]. by split. Qed.

Definition in_volume (s : sfs_fs) (b : Z) : Prop := 0 <= b < sb_nblocks s.

(** The device after operations that change no sector. *)
Definition quiet (d d' : lhd) : Prop := dev_ok d' /\ d_blocks d' = d_blocks d /\ sectors d' = sectors d.

Lemma quiet_refl d : dev_ok d -> quiet d d.
Proof. by intros. Qed.

Lemma fs_ok_device s d' : fs_ok s -> dev_ok d' -> d_blocks d' = d_blocks (sfs_device s) -> fs_ok (set_device d' s).
Proof. intros [A B C D E] Hd Hb. split; cbn; try done. by rewrite Hb. Qed.

Lemma quiet_ok s d' : fs_ok s -> quiet (sfs_device s) d' -> fs_ok (set_device d' s).
Proof. intros H (? & ? & ?). by apply fs_ok_device. Qed.

Lemma rwblock_read tries : forall b u s, fs_ok s -> in_volume s b -> uio_ok curas u -> block_uio b u -> uio_rw u = UIO_READ ->
  exists r u' d', rwblock_retry curas tries u s = Done (r, u') (set_device d' s) /\ quiet (sfs_device s) d' /\ uio_ok curas u' /\
    (r = 0 /\ moved 512 0 (block s b) (block s b) u u' \/ r = EIO /\ u' = u).
Proof.
  induction tries as [|tries IH]; intros b u s Hs Hb Hu Hbu Hrw; pose proof (fo_dev _ Hs) as Hd; pose proof (fo_nblocks _ Hs) as [Hn _];
    (destruct (sectors_read curas b u (sfs_device s)) as (r & u' & d' & He & Hd' & Hbl & Hsec & Hu' & Hr);
      [done|unfold in_volume in Hb; lia|done|done|by rewrite (proj2 Hbu)|]);
    rewrite <- lhd_io_sector in He by (apply Hd || done || (unfold in_volume in Hb; lia));
    (assert (Hio : devop_io curas u s = Done (r, u') (set_device d' s)) by (unfold devop_io; by rewrite He));
    cbn [rwblock_retry]; mrun Hio; (destruct Hr as [[-> Hm]|[-> ->]]).
  - exists 0, u', d'. split_and!; try done. by left.
  - exists EIO, u, d'. split_and!; try done. by right.
  - exists 0, u', d'. split_and!; try done. by left.
  - change (EIO =? EINVAL) with false. change (EIO =? EIO) with true. cbv iota.
    destruct (IH b u (set_device d' s)) as (r2 & u2 & d2 & He2 & (Hq1 & Hq2 & Hq3) & Hu2 & Hr2); try done.
    { apply fs_ok_device; [done|done|congruence]. }
    exists r2, u2, d2. split_and!; [exact He2| |done|].
    + split_and!; [done|cbn in Hq2; congruence|cbn in Hq3; congruence].
    + unfold block in *. cbn in Hr2. by rewrite Hsec in Hr2.
Qed.

Lemma rwblock_write tries b u s : fs_ok s -> in_volume s b -> uio_ok curas u -> block_uio b u -> uio_rw u = UIO_WRITE ->
  exists u' d' buf, rwblock_retry curas tries u s = Done (0, u') (set_device d' s) /\ dev_ok d' /\
    d_blocks d' = d_blocks (sfs_device s) /\ uio_ok curas u' /\ moved 512 0 (lh_buf (sfs_device s)) buf u u' /\
    wrote b (contents (uio_mem u) <$> take 512 (addrs u)) (sfs_device s) d'.
Proof.
  intros Hs Hb Hu Hbu Hrw. pose proof (fo_dev _ Hs) as Hd. pose proof (fo_nblocks _ Hs) as [Hn _].
  destruct (sectors_write curas b u (sfs_device s)) as (u' & d' & buf & He & Hd' & Hbl & Hm & Hu' & Hw);
    [done|unfold in_volume in Hb; lia|done|done|by rewrite (proj2 Hbu)|].
  rewrite <- lhd_io_sector in He by (apply Hd || done || (unfold in_volume in Hb; lia)).
  assert (Hio : devop_io curas u s = Done (0, u') (set_device d' s)) by (unfold devop_io; by rewrite He).
  exists u', d', buf. split_and!; try done. destruct tries; cbn [rwblock_retry]; by mrun Hio.
Qed.

(** The uio for a kernel buffer of one block. *)
Lemma kinit_ok b rw sp : uio_ok curas (uio_kinit 0 SFS_BLOCKSIZE (b * SFS_BLOCKSIZE) rw sp) /\
  block_uio b (uio_kinit 0 SFS_BLOCKSIZE (b * SFS_BLOCKSIZE) rw sp) /\
  addrs (uio_kinit 0 SFS_BLOCKSIZE (b * SFS_BLOCKSIZE) rw sp) = seqZ 0 512.
Proof.
  unfold SFS_BLOCKSIZE. assert (Ha : addrs (uio_kinit 0 512 (b * 512) rw sp) = seqZ 0 512).
  { unfold addrs, iov_addrs. cbn [uio_iov uio_kinit fmap list_fmap mjoin list_join iov_base iov_len]. by rewrite app_nil_r. }
  split; [|split; [by split|exact Ha]]. split.
  - apply Forall_singleton. unfold iov_ok. cbn. lia.
  - rewrite Ha. apply NoDup_seqZ.
  - rewrite Ha, length_seqZ. cbn. lia.
  - intros a _. by left.
  - done.
Qed.

Lemma buffer_spec (l : list Z) u : length l = 512%nat ->
  (forall i a, seqZ 0 512 !! i = Some a -> contents (uio_mem u) a = default 0 (l !! i)) -> buffer u SFS_BLOCKSIZE = l.
Proof.
  intros Hl H. unfold buffer. apply list_eq_same_length with 512%nat; [by rewrite Hl|rewrite length_fmap, length_seqZ; done|].
  intros i x y Hi Hx Hy. rewrite list_lookup_fmap in Hx. rewrite (lookup_seqZ_lt 0 SFS_BLOCKSIZE i) in Hx by (unfold SFS_BLOCKSIZE; lia).
  cbn in Hx. injection Hx as <-. rewrite (H i); [by rewrite Hy|]. apply lookup_seqZ_lt. unfold SFS_BLOCKSIZE in *. lia.
Qed.

Lemma readblock_spec b old s : fs_ok s -> in_volume s b -> length old = 512%nat ->
  exists r data d', sfs_readblock curas b old s = Done (r, data) (set_device d' s) /\ quiet (sfs_device s) d' /\
    (r = 0 /\ data = block s b \/ r = EIO).
Proof.
  intros Hs Hb Hold. assert (Hk : kassert "len == SFS_BLOCKSIZE" (Z.of_nat (length old) =? SFS_BLOCKSIZE) s = Done tt s) by (by rewrite Hold).
  unfold sfs_readblock. mrun Hk.
  destruct (kinit_ok b UIO_READ (buffer_space old)) as (Hu & Hbu & Ha).
  destruct (rwblock_read 10 b _ s Hs Hb Hu Hbu eq_refl) as (r & u' & d' & He & Hq & Hu' & Hr).
  unfold sfs_rwblock. mrun He.
  eexists _, _, d'. split; [reflexivity|]. split; [done|]. destruct Hr as [[-> Hm]|[-> _]]; [left|by right]. split; [done|].
  destruct (mv_read _ _ _ _ _ _ Hm eq_refl) as (_ & H & _). rewrite Ha in H.
  apply buffer_spec; [apply (fo_dev _ Hs)|]. intros i a Hi. rewrite (H i a); [done|].
  rewrite lookup_take_lt; [done|]. apply lookup_lt_Some in Hi. rewrite length_seqZ in Hi. lia.
Qed.

Lemma buffer_data data : length data = 512%nat -> contents (buffer_space data) <$> take 512 (seqZ 0 512) = data.
Proof.
  intros Hlen. apply list_eq_same_length with 512%nat; [by rewrite Hlen|by rewrite length_fmap, length_take, length_seqZ|].
  intros i y z Hi Hy Hz. rewrite list_lookup_fmap, lookup_take_lt in Hy by done.
  rewrite (lookup_seqZ_lt 0 512 i) in Hy by lia. cbn in Hy. injection Hy as <-. rewrite Z.add_0_l, Nat2Z.id. by rewrite Hz.
Qed.

Lemma writeblock_spec b data s : fs_ok s -> in_volume s b -> length data = 512%nat ->
  exists d', sfs_writeblock curas b data s = Done 0 (set_device d' s) /\ dev_ok d' /\
    d_blocks d' = d_blocks (sfs_device s) /\ wrote b data (sfs_device s) d'.
Proof.
  intros Hs Hb Hlen. assert (Hk : kassert "len == SFS_BLOCKSIZE" (Z.of_nat (length data) =? SFS_BLOCKSIZE) s = Done tt s) by (by rewrite Hlen).
  unfold sfs_writeblock. mrun Hk.
  destruct (kinit_ok b UIO_WRITE (buffer_space data)) as (Hu & Hbu & Ha).
  destruct (rwblock_write 10 b _ s Hs Hb Hu Hbu eq_refl) as (u' & d' & buf & He & Hd & Hbl & Hu' & Hm & Hw).
  unfold sfs_rwblock. mrun He.
  exists d'. split_and!; try done. intros x. rewrite Hw. destruct (x =? b); [|done]. rewrite Ha. by apply buffer_data.
Qed.

(** ** Allocation *)

Lemma length_zero_block : length zero_block = 512%nat.
Proof. apply length_replicate. Qed.

(** What allocation and block I/O leave alone. *)
Definition same_files (s s' : sfs_fs) : Prop :=
  sb_nblocks s' = sb_nblocks s /\ sfs_vnodes s' = sfs_vnodes s /\ svs s' = svs s /\ fixed s s'.

(** Block [b] was free and is now in use, filled with zeros; nothing else changed. *)
Record allocated (b : Z) (s s' : sfs_fs) : Prop := {
  al_range : 0 < b < sb_nblocks s;
  al_free : ~ used s b;
  al_used : forall x, 0 <= x -> used s' x <-> x = b \/ used s x;
  al_block : forall x, block s' x = if x =? b then zero_block else block s x;
  al_same : same_files s s'
}.

Lemma used_super s b : fs_ok s -> ~ used s b -> b <> 0.
Proof. intros Hs Hb ->. apply Hb. apply (fo_super _ Hs). Qed.

Lemma balloc_spec s : fs_ok s -> exists r b s', sfs_balloc curas s = Done (r, b) s' /\ fs_ok s' /\
  (r = 0 /\ allocated b s s' \/ r = ENOSPC /\ s' = s).
Proof.
  intros Hs. pose proof Hs as [Hdev Hn [Hwf Hnb] Htail Hsup].
  destruct (bitmap_alloc_spec _ Hwf) as (fm & r & Ha & Hwf' & Hnb' & Hr).
  unfold sfs_balloc. mpure.
  assert (Hl : lift (bitmap_alloc (sfs_freemap s)) s = Done (fm, r) s) by (unfold lift; by rewrite Ha).
  mrun Hl. destruct r as [e|b].
  { destruct Hr as (-> & _). exists ENOSPC, 0, s. split_and!; [done|done|]. by right. }
  destruct Hr as (Hb & Hclr & Hmin & Hbits).
  assert (Hbn : b < sb_nblocks s).
  { destruct (decide (b < sb_nblocks s)); [done|]. specialize (Htail b). unfold used in Htail. rewrite Htail in Hclr; [done|lia]. }
  assert (Hfree : ~ used s b) by (unfold used; by rewrite Hclr). pose proof (used_super s b Hs Hfree).
  set (s1 := set_freemap fm s).
  assert (Hused : forall x, 0 <= x -> used s1 x <-> x = b \/ used s x).
  { intros x Hx. unfold used, s1. cbn. rewrite (Hbits x Hx). destruct (Z.eqb_spec x b); cbn; naive_solver. }
  assert (Hs1 : fs_ok s1).
  { split; cbn; try done.
    - split; [done|]. by rewrite Hnb'.
    - intros x Hx. rewrite Hnb' in Hx. apply Hused; [lia|]. right. by apply Htail.
    - apply Hused; [lia|]. by right. }
  mpure. fold s1. change (sb_nblocks s1) with (sb_nblocks s).
  replace (sb_nblocks s <=? b) with false by lia.
  destruct (writeblock_spec b zero_block s1 Hs1) as (d' & He & Hd' & Hbl & Hw); [unfold in_volume; cbn; lia|apply length_zero_block|].
  unfold sfs_clearblock. mrun He. eexists _, _, _. split; [reflexivity|]. split; [by apply fs_ok_device|]. left. split; [done|].
  split; try done; try lia. split_and!; try done. by eapply fixed_trans; [by apply fixed_freemap|apply fixed_device].
Qed.

Lemma bused_spec s b : fs_ok s -> in_volume s b -> sfs_bused b s = Done (bool_decide (used s b)) s.
Proof.
  intros Hs Hb. pose proof Hs as [_ _ [Hwf Hnb] _ _]. unfold sfs_bused. mpure.
  unfold in_volume in Hb. replace (sb_nblocks s <=? b) with false by lia. mpure. unfold mbind, M_bind, lift.
  unfold bitmap_isset, bitmap_translate. destruct (lookup_byte _ b Hwf ltac:(lia)) as (w & Hw & _).
  unfold BITS_PER_WORD. rewrite Hw. cbn. rewrite land_shiftl1 by (apply Z.mod_pos_bound; lia).
  assert (Hbit : bit (sfs_freemap s) b = Z.testbit w (b mod 8)) by (unfold bit; by rewrite Hw).
  rewrite negb_involutive. unfold mret, M_ret. f_equal. case_bool_decide as Hu; unfold used in Hu; rewrite Hbit in Hu;
    by destruct (Z.testbit w (b mod 8)).
Qed.

Lemma check_used_spec s b : fs_ok s -> (b <> 0 -> in_volume s b /\ used s b) -> check_used b s = Done tt s.
Proof.
  intros Hs Hb. unfold check_used. destruct (Z.eqb_spec b 0); [done|]. destruct (Hb n) as [Hv Hu]. cbn [negb].
  mrun (bused_spec s b Hs Hv). by rewrite bool_decide_true.
Qed.

(** Freeing the blocks of a list. *)
Lemma bfree_spec s b : fs_ok s -> 0 < b < sb_nblocks s -> used s b ->
  exists s', sfs_bfree b s = Done tt s' /\ fs_ok s' /\ same_files s s' /\ sfs_device s' = sfs_device s /\
    forall x, 0 <= x -> used s' x <-> x <> b /\ used s x.
Proof.
  intros Hs Hb Hu. pose proof Hs as [Hdev Hn [Hwf Hnb] Htail Hsup]. pose proof (bitmap_unmark_spec _ b Hwf ltac:(lia)) as H.
  rewrite Hu in H. destruct H as (fm & Ha & Hwf' & Hnb' & Hbits).
  exists (set_freemap fm s). unfold sfs_bfree. mpure. unfold mbind, M_bind, lift. rewrite Ha.
  assert (Hused : forall x, 0 <= x -> used (set_freemap fm s) x <-> x <> b /\ used s x).
  { intros x Hx. unfold used. cbn. rewrite (Hbits x Hx). destruct (Z.eqb_spec x b); cbn; naive_solver. }
  split_and!; try done; [|split_and!; try done; by apply fixed_freemap]. split; cbn; try done.
  - split; [done|]. by rewrite Hnb'.
  - intros x Hx. rewrite Hnb' in Hx. apply Hused; [lia|]. split; [lia|]. by apply Htail.
  - apply Hused; [lia|]. split; [lia|done].
Qed.

(** ** The block map of a file

    Slot -1 is the pointer to the indirect block, slot [n >= 0] the one to the data
    block [n]; 0 is no block. *)
Definition NSLOTS : Z := 143.
Definition ptrs (s : sfs_fs) (i : dinode) : list Z :=
  if sfi_indirect i =? 0 then replicate 128 0 else words_of (block s (sfi_indirect i)).
Definition ptr (s : sfs_fs) (i : dinode) (n : Z) : Z :=
  if n =? -1 then sfi_indirect i
  else if n <? SFS_NDIRECT then default 0 (sfi_direct i !! Z.to_nat n)
  else default 0 (ptrs s i !! Z.to_nat (n - SFS_NDIRECT)).

Definition slot (n : Z) : Prop := -1 <= n < NSLOTS.

(** Every block of the file is a block of the volume and in use, and no block is there
    twice. *)
Record inode_ok (s : sfs_fs) (i : dinode) : Prop := {
  io_direct : length (sfi_direct i) = 15%nat;
  io_size : 0 <= sfi_size i <= NSLOTS * SFS_BLOCKSIZE;
  io_ptr : forall n, slot n -> ptr s i n <> 0 -> 0 < ptr s i n < sb_nblocks s /\ used s (ptr s i n);
  io_inj : forall n m, slot n -> slot m -> ptr s i n <> 0 -> ptr s i n = ptr s i m -> n = m
}.

Lemma length_ptrs s i : fs_ok s -> length (ptrs s i) = 128%nat.
Proof.
  intros Hs. unfold ptrs. destruct (sfi_indirect i =? 0); [apply length_replicate|].
  apply length_words_of. apply (fo_dev _ Hs).
Qed.

Lemma ptr_ext s s' i n : (sfi_indirect i <> 0 -> block s' (sfi_indirect i) = block s (sfi_indirect i)) ->
  ptr s' i n = ptr s i n.
Proof. intros H. unfold ptr, ptrs. destruct (Z.eqb_spec (sfi_indirect i) 0); [done|]. by rewrite H. Qed.

(** The inode of a file whose blocks are left alone. *)
Lemma inode_ok_frame s s' i : inode_ok s i -> sb_nblocks s' = sb_nblocks s ->
  (forall n, slot n -> ptr s i n <> 0 -> used s' (ptr s i n)) ->
  (sfi_indirect i <> 0 -> block s' (sfi_indirect i) = block s (sfi_indirect i)) -> inode_ok s' i.
Proof.
  intros [A B C D] Hn Hu Hb. split; try done.
  - intros n Hs. rewrite (ptr_ext s s' i n Hb), Hn. intros Hp. split; [by apply C|by apply Hu].
  - intros n m Hs Hm. rewrite !(ptr_ext s s' i _ Hb). by apply D.
Qed.

(** One slot, which was empty, gets a fresh block. *)
Lemma inode_ok_fresh s s' i i' k b : inode_ok s i -> length (sfi_direct i') = 15%nat -> sfi_size i' = sfi_size i ->
  sb_nblocks s' = sb_nblocks s -> 0 < b < sb_nblocks s -> ~ used s b ->
  (forall x, 0 <= x -> x = b \/ used s x -> used s' x) ->
  (forall n, slot n -> ptr s' i' n = if n =? k then b else ptr s i n) -> inode_ok s' i'.
Proof.
  intros [A B C D] Hd Hsz Hn Hb Hfree Hu Hp. split; try done; [by rewrite Hsz|..].
  - intros n Hs. rewrite (Hp n Hs), Hn. destruct (n =? k); intros Hne.
    + split; [done|]. apply Hu; [lia|by left].
    + destruct (C n Hs Hne). split; [done|]. apply Hu; [lia|by right].
  - intros n m Hs Hm. rewrite (Hp n Hs), (Hp m Hm). destruct (Z.eqb_spec n k), (Z.eqb_spec m k); try (by subst); intros Hne He.
    + exfalso. apply Hfree. rewrite He. apply C; [done|lia].
    + exfalso. apply Hfree. rewrite <- He. by apply C.
    + by apply D.
Qed.

(** The words of an indirect block are block numbers. *)
Lemma ptrs_u32 s i : fs_ok s -> inode_ok s i -> Forall is_u32 (ptrs s i).
Proof.
  intros Hs Hi. apply Forall_lookup. intros k w Hk. pose proof (lookup_lt_Some _ _ _ Hk) as Hl. rewrite length_ptrs in Hl by done.
  assert (Hp : ptr s i (Z.of_nat k + 15) = w).
  { unfold ptr, SFS_NDIRECT. replace (Z.of_nat k + 15 =? -1) with false by lia. replace (Z.of_nat k + 15 <? 15) with false by lia.
    replace (Z.to_nat (Z.of_nat k + 15 - 15)) with k by lia. by rewrite Hk. }
  destruct (decide (w = 0)) as [->|Hw]; [unfold is_u32; lia|]. pose proof (io_ptr _ _ Hi (Z.of_nat k + 15)) as H. rewrite Hp in H.
  pose proof (fo_nblocks _ Hs). unfold is_u32. destruct H as [H _]; [unfold slot, NSLOTS; lia|done|lia].
Qed.

(** The part of an inode that the block map does not touch. *)
Definition meta (i : dinode) : Z * Z * Z * list Z := (sfi_size i, sfi_type i, sfi_linkcount i, sfi_waste i).

(** From [s] to [s'] the file of inode [i] got new blocks and became [i']; blocks in
    use stay, and so do their contents, except for the indirect block; every block
    that is new belongs to the file. *)
Record grown (s : sfs_fs) (i : dinode) (s' : sfs_fs) (i' : dinode) : Prop := {
  gr_ok : inode_ok s' i';
  gr_meta : meta i' = meta i;
  gr_used : forall x, 0 <= x -> used s x -> used s' x;
  gr_new : forall x, 0 <= x -> used s' x -> used s x \/ exists n, slot n /\ ptr s' i' n = x;
  gr_block : forall x, 0 <= x -> used s x -> x = 0 \/ x <> sfi_indirect i -> block s' x = block s x;
  gr_keep : forall n, slot n -> ptr s i n <> 0 -> ptr s' i' n = ptr s i n;
  gr_indirect : sfi_indirect i' = sfi_indirect i \/ ~ used s (sfi_indirect i');
  gr_fs : sb_nblocks s' = sb_nblocks s /\ sfs_vnodes s' = sfs_vnodes s /\ fixed s s'
}.

Lemma grown_refl s i d' : inode_ok s i -> quiet (sfs_device s) d' -> grown s i (set_device d' s) i.
Proof.
  intros Hi (Hd & Hb & Hsec). assert (Hbl : forall x, block (set_device d' s) x = block s x) by (intros; unfold block; cbn; by rewrite Hsec).
  split; try done; auto; [|intros n _ _; by apply ptr_ext].
  apply (inode_ok_frame s); try done. intros n Hn Hp. by apply (io_ptr _ _ Hi).
Qed.

(** *** Looking up *)

Lemma get_sv_spec s sv v : svs s !! sv = Some v -> get_sv sv s = Done v s.
Proof. intros H. unfold get_sv. by rewrite H. Qed.

Lemma update_sv_spec s sv v f : svs s !! sv = Some v -> update_sv sv f s = Done tt (set_svs (<[sv := f v]> (svs s)) s).
Proof. intros H. unfold update_sv. by mrun (get_sv_spec s sv v H). Qed.

Lemma deref_spec {S A} what (o : option A) a (s : S) : o = Some a -> deref what o s = Done a s.
Proof. by intros ->. Qed.

Lemma direct_lookup s i n : inode_ok s i -> 0 <= n < SFS_NDIRECT -> sfi_direct i !! Z.to_nat n = Some (ptr s i n).
Proof.
  intros Hi Hn. unfold SFS_NDIRECT in Hn. destruct (lookup_lt_is_Some_2 (sfi_direct i) (Z.to_nat n)) as [b Hb].
  { rewrite (io_direct _ _ Hi). lia. }
  unfold ptr, SFS_NDIRECT. replace (n =? -1) with false by lia. replace (n <? 15) with true by lia. by rewrite Hb.
Qed.

Lemma ptrs_lookup s i n : fs_ok s -> SFS_NDIRECT <= n < NSLOTS -> ptrs s i !! Z.to_nat (n - SFS_NDIRECT) = Some (ptr s i n).
Proof.
  intros Hs Hn. unfold SFS_NDIRECT, NSLOTS in Hn. destruct (lookup_lt_is_Some_2 (ptrs s i) (Z.to_nat (n - SFS_NDIRECT))) as [b Hb].
  { rewrite length_ptrs by done. unfold SFS_NDIRECT. lia. }
  unfold ptr. unfold SFS_NDIRECT in *. replace (n =? -1) with false by lia. replace (n <? 15) with false by lia. by rewrite Hb.
Qed.

Lemma ptr_volume s i n : inode_ok s i -> slot n -> ptr s i n <> 0 -> in_volume s (ptr s i n) /\ used s (ptr s i n).
Proof. intros Hi Hn Hp. destruct (io_ptr _ _ Hi n Hn Hp). split; [unfold in_volume; lia|done]. Qed.

Lemma ptr_indirect s i : ptr s i (-1) = sfi_indirect i.
Proof. done. Qed.

Lemma slot_indirect : slot (-1).
Proof. unfold slot, NSLOTS. lia. Qed.

(** The offset computation for a block behind the direct ones. *)
Lemma indirect_index n : SFS_NDIRECT <= n < NSLOTS ->
  (n - SFS_NDIRECT) / SFS_DBPERIDB = 0 /\ (n - SFS_NDIRECT) mod SFS_DBPERIDB = n - SFS_NDIRECT.
Proof. unfold SFS_NDIRECT, NSLOTS, SFS_DBPERIDB. intros. split; [apply Z.div_small|apply Z.mod_small]; lia. Qed.

Lemma bmap_look s sv v n : fs_ok s -> svs s !! sv = Some v -> inode_ok s (sv_i v) -> 0 <= n < NSLOTS ->
  exists r b d', sfs_bmap curas sv n false s = Done (r, b) (set_device d' s) /\ quiet (sfs_device s) d' /\
    (r = 0 /\ b = ptr s (sv_i v) n \/ r = EIO).
Proof.
  intros Hs Hsv Hi Hn. pose proof (fo_dev _ Hs) as Hdev.
  assert (Hself : set_device (sfs_device s) s = s) by (by destruct s).
  assert (Hslot : slot n) by (unfold slot, NSLOTS in *; lia).
  unfold sfs_bmap. destruct (Z.ltb_spec n SFS_NDIRECT) as [Hd|Hd].
  - unfold bmap_direct. mrun (get_sv_spec s sv v Hsv).
    mrun (deref_spec "sfi_direct" _ _ s (direct_lookup s (sv_i v) n Hi ltac:(lia))).
    rewrite andb_false_r. mpure. cbn [negb Z.eqb].
    mrun (check_used_spec s (ptr s (sv_i v) n) Hs (ptr_volume s (sv_i v) n Hi Hslot)).
    exists 0, (ptr s (sv_i v) n), (sfs_device s). rewrite Hself. split_and!; [done|by apply quiet_refl|by left].
  - destruct (indirect_index n ltac:(lia)) as [E1 E2]. rewrite E1, E2. change (SFS_NINDIRECT <=? 0) with false. cbv iota zeta.
    mrun (get_sv_spec s sv v Hsv). destruct (Z.eqb_spec (sfi_indirect (sv_i v)) 0) as [H0|H0].
    + exists 0, 0, (sfs_device s). rewrite Hself. split_and!; [done|by apply quiet_refl|]. left. split; [done|].
      pose proof (ptrs_lookup s (sv_i v) n Hs ltac:(lia)) as Hp. unfold ptrs in Hp. rewrite H0 in Hp. cbn [Z.eqb] in Hp.
      by apply lookup_replicate in Hp as [? _].
    + cbn [andb].
      destruct (readblock_spec (sfi_indirect (sv_i v)) zero_block s Hs) as (r & data & d' & He & Hq & Hr);
        [by apply (ptr_volume s (sv_i v) (-1) Hi slot_indirect)|apply length_zero_block|].
      mrun He. destruct Hr as [[-> ->]| ->]; [|exists EIO, 0, d'; split_and!; auto].
      cbn [negb Z.eqb]. unfold bmap_indirect.
      assert (Hw : words_of (block s (sfi_indirect (sv_i v))) = ptrs s (sv_i v)) by (unfold ptrs; by destruct (Z.eqb_spec (sfi_indirect (sv_i v)) 0)).
      rewrite Hw. mrun (deref_spec "idbuf" _ _ (set_device d' s) (ptrs_lookup s (sv_i v) n Hs ltac:(lia))).
      rewrite andb_false_r. mpure. cbn [negb Z.eqb].
      mrun (check_used_spec (set_device d' s) (ptr s (sv_i v) n) (quiet_ok s d' Hs Hq) (ptr_volume s (sv_i v) n Hi Hslot)).
      exists 0, (ptr s (sv_i v) n), d'. split_and!; [done|done|by left].
Qed.

(** A block that is there need not be allocated. *)
Lemma bmap_present s sv v n : fs_ok s -> svs s !! sv = Some v -> inode_ok s (sv_i v) -> 0 <= n < NSLOTS -> ptr s (sv_i v) n <> 0 ->
  sfs_bmap curas sv n true s = sfs_bmap curas sv n false s.
Proof.
  intros Hs Hsv Hi Hn Hp. unfold sfs_bmap. destruct (Z.ltb_spec n SFS_NDIRECT) as [Hd|Hd].
  - unfold bmap_direct. rewrite !(bind_ret _ _ _ _ _ (get_sv_spec s sv v Hsv)). rewrite !(bind_ret _ _ _ _ _ (deref_spec "sfi_direct" _ _ s (direct_lookup s (sv_i v) n Hi ltac:(lia)))). by replace (ptr s (sv_i v) n =? 0) with false by lia.
  - destruct (indirect_index n ltac:(lia)) as [E1 E2]. rewrite E1, E2. change (SFS_NINDIRECT <=? 0) with false. cbv iota zeta. rewrite !(bind_ret _ _ _ _ _ (get_sv_spec s sv v Hsv)).
    assert (Hw : sfi_indirect (sv_i v) <> 0). { intros H0. apply Hp. pose proof (ptrs_lookup s (sv_i v) n Hs ltac:(lia)) as Hl. unfold ptrs in Hl. rewrite H0 in Hl. by apply lookup_replicate in Hl as [? _]. }
    replace (sfi_indirect (sv_i v) =? 0) with false by lia. cbn [andb].
    destruct (readblock_spec (sfi_indirect (sv_i v)) zero_block s Hs) as (r & data & d' & He & Hq & Hr); [by apply (ptr_volume s (sv_i v) (-1) Hi slot_indirect)|apply length_zero_block|].
    rewrite !(bind_ret _ _ _ _ _ He). destruct Hr as [[-> ->]| ->]; [|done]. cbn [negb Z.eqb]. unfold bmap_indirect.
    assert (Hpt : words_of (block s (sfi_indirect (sv_i v))) = ptrs s (sv_i v)) by (unfold ptrs; by replace (sfi_indirect (sv_i v) =? 0) with false by lia).
    rewrite Hpt. rewrite !(bind_ret _ _ _ _ _ (deref_spec "idbuf" _ _ (set_device d' s) (ptrs_lookup s (sv_i v) n Hs ltac:(lia)))). by replace (ptr s (sv_i v) n =? 0) with false by lia.
Qed.

Lemma bmap_big s sv n alloc : NSLOTS <= n -> sfs_bmap curas sv n alloc s = Done (EFBIG, 0) s.
Proof.
  intros Hn. unfold sfs_bmap, NSLOTS, SFS_NDIRECT, SFS_NINDIRECT, SFS_DBPERIDB in *. replace (n <? 15) with false by lia.
  replace (1 <=? (n - 15) / 128) with true; [done|]. symmetry. apply Z.leb_le. apply Z.div_le_lower_bound; lia.
Qed.

(** *** Allocating *)

Lemma grown_trans s i s1 i1 s2 i2 : fs_ok s -> grown s i s1 i1 -> grown s1 i1 s2 i2 -> grown s i s2 i2.
Proof.
  intros Hs [O1 M1 U1 N1 B1 K1 I1 (F1 & F2 & F3)] [O2 M2 U2 N2 B2 K2 I2 (G1 & G2 & G3)]. split; try congruence; auto.
  - intros x Hx Hu. destruct (decide (x = 0)) as [->|Hx0]; [left; apply (fo_super _ Hs)|].
    destruct (N2 x Hx Hu) as [Hu1|H]; [|by right]. destruct (N1 x Hx Hu1) as [|(n & Hn & Hp)]; [by left|right].
    exists n. split; [done|]. rewrite K2; [done|done|by rewrite Hp].
  - intros x Hx Hu Hne. rewrite B2; [by apply B1|done|by apply U1|]. destruct Hne as [|Hne]; [by left|]. destruct I1 as [->|Hni]; [by right|]. right. by intros ->.
  - intros n Hn Hp. rewrite K2; [by apply K1|done|by rewrite K1].
  - destruct I2 as [H2|H2].
    + rewrite H2. done.
    + right. intros Hu. apply H2. apply U1; [|done].
      destruct (decide (sfi_indirect i2 = 0)) as [->|]; [lia|]. rewrite <- (ptr_indirect s2).
      destruct (io_ptr _ _ O2 (-1) slot_indirect) as [? _]; [done|lia].
  - split; [congruence|]. split; [congruence|by eapply fixed_trans].
Qed.

(** A slot of [s] that was empty holds the fresh block [b] in [s']. *)
Lemma grown_fresh s i s' i' k b : fs_ok s -> inode_ok s i -> slot k -> ptr s i k = 0 -> length (sfi_direct i') = 15%nat -> meta i' = meta i ->
  0 < b < sb_nblocks s -> ~ used s b -> (forall x, 0 <= x -> used s' x <-> x = b \/ used s x) ->
  (forall x, 0 <= x -> used s x -> x = 0 \/ x <> sfi_indirect i -> block s' x = block s x) ->
  (forall n, slot n -> ptr s' i' n = if n =? k then b else ptr s i n) ->
  sb_nblocks s' = sb_nblocks s /\ sfs_vnodes s' = sfs_vnodes s /\ fixed s s' -> grown s i s' i'.
Proof.
  intros Hs Hi Hk H0 Hd Hm Hb Hfree Hu Hbl Hp Hf. split; try done.
  - eapply (inode_ok_fresh s s' i i' k b); try done; [unfold meta in Hm; congruence|apply Hf|]. intros x Hx. by apply Hu.
  - intros x Hx Hux. apply Hu; auto.
  - intros x Hx Hux. apply Hu in Hux as [->|]; [|by left|done]. right. exists k. split; [done|]. rewrite Hp by done. by rewrite Z.eqb_refl.
  - intros n Hn Hne. rewrite Hp by done. destruct (Z.eqb_spec n k) as [->|]; [done|done].
  - pose proof (Hp (-1) slot_indirect) as H1. rewrite !ptr_indirect in H1. destruct (Z.eqb_spec (-1) k) as [<-|]; [right|by left].
    by rewrite H1.
Qed.

Lemma ptr_set_direct s s' i k b n : inode_ok s i -> 0 <= k < SFS_NDIRECT -> slot n ->
  (sfi_indirect i <> 0 -> block s' (sfi_indirect i) = block s (sfi_indirect i)) ->
  ptr s' (set_direct (Z.to_nat k) b i) n = if n =? k then b else ptr s i n.
Proof.
  intros Hi Hk Hn Hbl. unfold slot in Hn. rewrite <- (ptr_ext s s' i n Hbl). unfold ptr, ptrs, SFS_NDIRECT in *. cbn.
  destruct (Z.eqb_spec n (-1)), (Z.ltb_spec n 15), (Z.eqb_spec n k) as [->|]; try lia; try done.
  - rewrite list_lookup_insert_eq; [done|]. rewrite (io_direct _ _ Hi). lia.
  - rewrite list_lookup_insert_ne by lia. done.
Qed.

(** What [sfs_bmap] with [doalloc] does to file [sv]. *)
Definition mapped (sv n r b : Z) (s : sfs_fs) (v : sfs_vnode) (s' : sfs_fs) (v' : sfs_vnode) : Prop :=
  fs_ok s' /\ svs s' = <[sv := v']> (svs s) /\ sv_ino v' = sv_ino v /\ kept v v' /\
  grown s (sv_i v) s' (sv_i v') /\
  (r = 0 /\ b <> 0 /\ (forall m, 0 <= m < NSLOTS -> ptr s' (sv_i v') m = if m =? n then b else ptr s (sv_i v) m) /\
     (ptr s (sv_i v) n <> 0 -> b = ptr s (sv_i v) n) /\
     (ptr s (sv_i v) n = 0 -> ~ used s b /\ block s' b = zero_block)
   \/ (r = ENOSPC \/ r = EIO) /\ forall m, 0 <= m < NSLOTS -> ptr s' (sv_i v') m = ptr s (sv_i v) m).

Lemma mapped_found sv n s v d' : fs_ok s -> svs s !! sv = Some v -> inode_ok s (sv_i v) -> quiet (sfs_device s) d' ->
  ptr s (sv_i v) n <> 0 -> mapped sv n 0 (ptr s (sv_i v) n) s v (set_device d' s) v.
Proof.
  intros Hs Hsv Hi Hq Hp. split; [by apply quiet_ok|]. split; [cbn; by rewrite insert_id|]. split; [done|]. split; [done|].
  split; [by apply grown_refl|]. left. split_and!; try done. intros m Hm.
  rewrite (ptr_ext s); [by destruct (Z.eqb_spec m n) as [->|]|]. intros _. unfold block. cbn. by destruct Hq as (_ & _ & ->).
Qed.

Lemma mapped_failed sv n r b s v d' : fs_ok s -> svs s !! sv = Some v -> inode_ok s (sv_i v) -> quiet (sfs_device s) d' ->
  r = ENOSPC \/ r = EIO -> mapped sv n r b s v (set_device d' s) v.
Proof.
  intros Hs Hsv Hi Hq Hr. split; [by apply quiet_ok|]. split; [cbn; by rewrite insert_id|]. split; [done|]. split; [done|].
  split; [by apply grown_refl|]. right. split; [done|]. intros m Hm. apply ptr_ext. intros _. unfold block. cbn. by destruct Hq as (_ & _ & ->).
Qed.

Lemma set_device_id s : set_device (sfs_device s) s = s.
Proof. by destruct s. Qed.

Lemma bmap_direct_alloc s sv v n : fs_ok s -> svs s !! sv = Some v -> inode_ok s (sv_i v) -> 0 <= n < SFS_NDIRECT ->
  exists r b s' v', bmap_direct curas sv n true s = Done (r, b) s' /\ mapped sv n r b s v s' v'.
Proof.
  intros Hs Hsv Hi Hn. pose proof (fo_dev _ Hs) as Hdev.
  assert (Hslot : slot n) by (unfold slot, NSLOTS, SFS_NDIRECT in *; lia).
  unfold bmap_direct. mrun (get_sv_spec s sv v Hsv). mrun (deref_spec "sfi_direct" _ _ s (direct_lookup s (sv_i v) n Hi Hn)).
  rewrite andb_true_r. destruct (Z.eqb_spec (ptr s (sv_i v) n) 0) as [H0|H0].
  2:{ mpure. cbn [negb Z.eqb]. mrun (check_used_spec s (ptr s (sv_i v) n) Hs (ptr_volume s (sv_i v) n Hi Hslot)).
      eexists _, _, _, v. split; [reflexivity|]. pose proof (mapped_found sv n s v (sfs_device s) Hs Hsv Hi (quiet_refl _ Hdev) H0) as Hm. by rewrite set_device_id in Hm. }
  destruct (balloc_spec s Hs) as (r & b & s1 & He & Hs1 & Hr).
  destruct Hr as [[-> Hal]|[-> ->]].
  2:{ assert (Hrun : (sfs_balloc curas ≫= λ '(result, block0), (if result =? 0 then update_sv sv (dirty (set_direct (Z.to_nat n) block0)) else mret ()) ;; mret (result, block0)) s = Done (ENOSPC, b) s).
      { mrun He. done. }
      mrun Hrun. change (negb (ENOSPC =? 0)) with true. cbv iota. eexists _, _, _, v. split; [reflexivity|].
      pose proof (mapped_failed sv n ENOSPC 0 s v (sfs_device s) Hs Hsv Hi (quiet_refl _ Hdev) (or_introl eq_refl)) as Hm.
      by rewrite set_device_id in Hm. }
  destruct Hal as [Hrange Hfree Hused Hblock (Hn1 & Hv1 & Hsvs & Hal1)].
  assert (Hsv1 : svs s1 !! sv = Some v) by (by rewrite Hsvs).
  set (v' := dirty (set_direct (Z.to_nat n) b) v). set (s2 := set_svs (<[sv := v']> (svs s1)) s1).
  assert (Hrun : (sfs_balloc curas ≫= λ '(result, block0), (if result =? 0 then update_sv sv (dirty (set_direct (Z.to_nat n) block0)) else mret ()) ;; mret (result, block0)) s = Done (0, b) s2).
  { mrun He. cbn [Z.eqb]. by mrun (update_sv_spec s1 sv v (dirty (set_direct (Z.to_nat n) b)) Hsv1). }
  mrun Hrun. cbn [negb Z.eqb].
  assert (Hs2 : fs_ok s2) by (destruct Hs1; by split).
  assert (Hin : sfi_indirect (sv_i v) <> 0 -> block s2 (sfi_indirect (sv_i v)) = block s (sfi_indirect (sv_i v))).
  { intros Hne. change (block s2) with (block s1). rewrite Hblock. destruct (Z.eqb_spec (sfi_indirect (sv_i v)) b) as [<-|]; [|done].
    exfalso. apply Hfree. by apply (io_ptr _ _ Hi (-1) slot_indirect). }
  assert (Hp : forall m, slot m -> ptr s2 (sv_i v') m = if m =? n then b else ptr s (sv_i v) m).
  { intros m Hm. by apply ptr_set_direct. }
  assert (Hub : in_volume s2 b /\ used s2 b).
  { split; [unfold in_volume; cbn; rewrite Hn1; lia|]. apply (Hused b); [lia|]. by left. }
  mrun (check_used_spec s2 b Hs2 (fun _ => Hub)).
  exists 0, b, s2, v'. split; [reflexivity|]. split_and!; try done.
  { cbn. by rewrite Hsvs. }
  { apply kept_dirty. }
  { apply (grown_fresh s (sv_i v) s2 (sv_i v') n b); try done.
    - cbn. rewrite length_insert. apply Hi.
    - intros x Hx Hux Hne. change (block s2 x) with (block s1 x). rewrite Hblock. destruct (Z.eqb_spec x b) as [->|]; done. }
  left. split_and!; try done; try lia.
  { intros m Hm. apply Hp. unfold slot. lia. }
  intros _. split; [done|]. change (block s2 b) with (block s1 b). by rewrite Hblock, Z.eqb_refl.
Qed.

Lemma mapped_trans sv n r b s v s1 v1 s2 v2 : fs_ok s -> sv_ino v1 = sv_ino v -> kept v v1 ->
  svs s1 = <[sv := v1]> (svs s) -> grown s (sv_i v) s1 (sv_i v1) ->
  (forall m, 0 <= m < NSLOTS -> ptr s1 (sv_i v1) m = ptr s (sv_i v) m) -> 0 <= n < NSLOTS -> 0 <= b ->
  mapped sv n r b s1 v1 s2 v2 -> mapped sv n r b s v s2 v2.
Proof.
  intros Hs Hino Href Hsvs Hg Hp Hn Hb (H1 & H2 & H3 & H4 & H5 & H6). split_and!; try congruence.
  - rewrite H2, Hsvs. by rewrite insert_insert_eq.
  - by eapply kept_trans.
  - by eapply grown_trans.
  - destruct H6 as [(-> & Hb0 & Hm & Hk & Hf)|[Hr Hm]]; [left|right].
    + rewrite (Hp n Hn) in Hk, Hf. split_and!; try done.
      * intros m Hmr. rewrite Hm by done. by rewrite Hp.
      * intros H0. destruct (Hf H0) as [Hnu ?]. split; [|done]. intros Hu. apply Hnu. by apply (gr_used _ _ _ _ Hg).
    + split; [done|]. intros m Hmr. rewrite Hm by done. by apply Hp.
Qed.

Lemma ptr_set_entry s s' i k b n : fs_ok s -> inode_ok s i -> sfi_indirect i <> 0 -> SFS_NDIRECT <= k < NSLOTS -> is_u32 b -> slot n ->
  block s' (sfi_indirect i) = bytes_of (<[Z.to_nat (k - SFS_NDIRECT) := b]> (ptrs s i)) ->
  ptr s' i n = if n =? k then b else ptr s i n.
Proof.
  intros Hs Hi H0 Hk Hb Hn Hbl. pose proof (length_ptrs s i Hs) as Hlen. unfold slot in Hn. unfold NSLOTS, SFS_NDIRECT in *.
  assert (Hp : ptrs s' i = <[Z.to_nat (k - 15) := b]> (ptrs s i)).
  { unfold ptrs at 1. destruct (Z.eqb_spec (sfi_indirect i) 0); [done|]. rewrite Hbl. apply words_bytes.
    apply Forall_insert; [by apply ptrs_u32|done]. }
  unfold ptr, SFS_NDIRECT. rewrite Hp. destruct (Z.eqb_spec n (-1)), (Z.ltb_spec n 15), (Z.eqb_spec n k) as [->|]; try lia; try done.
  - rewrite list_lookup_insert_eq by lia. done.
  - rewrite list_lookup_insert_ne by lia. done.
Qed.

Lemma bmap_indirect_alloc s sv v n : fs_ok s -> svs s !! sv = Some v -> inode_ok s (sv_i v) -> sfi_indirect (sv_i v) <> 0 ->
  SFS_NDIRECT <= n < NSLOTS ->
  exists r b s', bmap_indirect curas (sfi_indirect (sv_i v)) (ptrs s (sv_i v)) (n - SFS_NDIRECT) true s = Done (r, b) s' /\
    0 <= b /\ mapped sv n r b s v s' v.
Proof.
  intros Hs Hsv Hi H0 Hn. pose proof (fo_dev _ Hs) as Hdev. pose proof (fo_nblocks _ Hs) as [_ Hnb].
  assert (Hslot : slot n) by (unfold slot, NSLOTS, SFS_NDIRECT in *; lia).
  unfold bmap_indirect. mrun (deref_spec "idbuf" _ _ s (ptrs_lookup s (sv_i v) n Hs Hn)).
  rewrite andb_true_r. destruct (Z.eqb_spec (ptr s (sv_i v) n) 0) as [Hp0|Hp0].
  2:{ mpure. cbn [negb Z.eqb]. mrun (check_used_spec s (ptr s (sv_i v) n) Hs (ptr_volume s (sv_i v) n Hi Hslot)).
      eexists _, _, _. split; [reflexivity|]. split; [destruct (io_ptr _ _ Hi n Hslot Hp0); lia|].
      pose proof (mapped_found sv n s v (sfs_device s) Hs Hsv Hi (quiet_refl _ Hdev) Hp0) as Hm. by rewrite set_device_id in Hm. }
  set (idblock := sfi_indirect (sv_i v)) in *.
  set (k := λ '(result, block0), if negb (result =? 0) then mret (result, block0)
     else sfs_writeblock curas idblock (bytes_of (<[Z.to_nat (n - SFS_NDIRECT):=block0]> (ptrs s (sv_i v)))) ≫= λ result0 : Z, mret (result0, block0)).
  destruct (balloc_spec s Hs) as (r & b & s1 & He & Hs1 & [[-> Hal]|[-> ->]]).
  2:{ assert (Hrun : (sfs_balloc curas ≫= k) s = Done (ENOSPC, b) s) by (by mrun He). mrun Hrun.
      change (negb (ENOSPC =? 0)) with true. cbv iota. eexists _, _, _. split; [reflexivity|]. split; [lia|].
      pose proof (mapped_failed sv n ENOSPC 0 s v (sfs_device s) Hs Hsv Hi (quiet_refl _ Hdev) (or_introl eq_refl)) as Hm.
      by rewrite set_device_id in Hm. }
  destruct Hal as [Hrange Hfree Hused Hblock (Hn1 & Hv1 & Hsvs & Hal1)].
  destruct (ptr_volume s (sv_i v) (-1) Hi slot_indirect H0) as [Hidv Hidu]. change (ptr s (sv_i v) (-1)) with idblock in *.
  set (data := bytes_of (<[Z.to_nat (n - SFS_NDIRECT):=b]> (ptrs s (sv_i v)))).
  assert (Hdata : length data = 512%nat) by (unfold data; rewrite length_bytes_of, length_insert, length_ptrs; done).
  destruct (writeblock_spec idblock data s1 Hs1) as (d' & Hw & Hd' & Hbl & Hwr); [unfold in_volume in *; by rewrite Hn1|done|].
  set (s2 := set_device d' s1) in *.
  assert (Hrun : (sfs_balloc curas ≫= k) s = Done (0, b) s2).
  { mrun He. unfold k. cbn [negb Z.eqb]. fold data. by mrun Hw. }
  mrun Hrun. cbn [negb Z.eqb].
  assert (Hs2 : fs_ok s2) by (by apply fs_ok_device).
  assert (Hub : in_volume s2 b /\ used s2 b).
  { split; [unfold in_volume; cbn; rewrite Hn1; lia|]. apply (Hused b); [lia|]. by left. }
  mrun (check_used_spec s2 b Hs2 (fun _ => Hub)).
  assert (Hbid : b <> idblock) by (intros ->; done).
  assert (Hblk : forall x, block s2 x = if x =? idblock then data else if x =? b then zero_block else block s x).
  { intros x. change (block s2 x) with (sectors d' x). rewrite Hwr. destruct (x =? idblock); [done|]. apply Hblock. }
  assert (Hp : forall m, slot m -> ptr s2 (sv_i v) m = if m =? n then b else ptr s (sv_i v) m).
  { intros m Hm. apply ptr_set_entry; try done; [unfold is_u32; lia|]. fold idblock. by rewrite Hblk, Z.eqb_refl. }
  exists 0, b, s2. split; [reflexivity|]. split; [lia|]. split_and!; try done.
  { cbn. rewrite Hsvs. by rewrite insert_id. }
  { apply (grown_fresh s (sv_i v) s2 (sv_i v) n b); try done; [apply Hi|].
    intros x Hx Hux Hne. rewrite Hblk. fold idblock in Hne. destruct (Z.eqb_spec x idblock), (Z.eqb_spec x b) as [->|]; try done; destruct Hne; congruence. }
  left. split_and!; try done; try lia.
  { intros m Hm. apply Hp. unfold slot. lia. }
  intros _. split; [done|]. rewrite Hblk, Z.eqb_refl. by destruct (Z.eqb_spec b idblock).
Qed.

Lemma bmap_alloc s sv v n : fs_ok s -> svs s !! sv = Some v -> inode_ok s (sv_i v) -> 0 <= n < NSLOTS ->
  exists r b s' v', sfs_bmap curas sv n true s = Done (r, b) s' /\ mapped sv n r b s v s' v'.
Proof.
  intros Hs Hsv Hi Hn. pose proof (fo_dev _ Hs) as Hdev. unfold sfs_bmap. destruct (Z.ltb_spec n SFS_NDIRECT) as [Hd|Hd].
  { apply bmap_direct_alloc; done || lia. }
  destruct (indirect_index n ltac:(lia)) as [E1 E2]. rewrite E1, E2. change (SFS_NINDIRECT <=? 0) with false. cbv iota zeta.
  mrun (get_sv_spec s sv v Hsv). rewrite andb_false_r. destruct (Z.eqb_spec (sfi_indirect (sv_i v)) 0) as [H0|H0].
  - destruct (balloc_spec s Hs) as (r & b & s1 & He & Hs1 & [[-> Hal]|[-> ->]]); mrun He.
    2:{ change (negb (ENOSPC =? 0)) with true. cbv iota. eexists _, _, _, v. split; [reflexivity|].
        pose proof (mapped_failed sv n ENOSPC 0 s v (sfs_device s) Hs Hsv Hi (quiet_refl _ Hdev) (or_introl eq_refl)) as Hm.
        by rewrite set_device_id in Hm. }
    cbn [negb Z.eqb]. destruct Hal as [Hrange Hfree Hused Hblock (Hn1 & Hv1 & Hsvs & Hal1)].
    assert (Hsv1 : svs s1 !! sv = Some v) by (by rewrite Hsvs).
    mrun (update_sv_spec s1 sv v (dirty (set_indirect b)) Hsv1).
    set (v1 := dirty (set_indirect b) v). set (s2 := set_svs (<[sv := v1]> (svs s1)) s1).
    assert (Hs2 : fs_ok s2) by (destruct Hs1; by split).
    assert (Hptrs : ptrs s2 (sv_i v1) = replicate 128 0).
    { unfold ptrs. cbn [v1 sv_i dirty set_indirect sfi_indirect]. replace (b =? 0) with false by lia.
      change (block s2 b) with (block s1 b). rewrite Hblock, Z.eqb_refl. apply (words_of_zeros 128). }
    assert (Hp : forall m, slot m -> ptr s2 (sv_i v1) m = if m =? -1 then b else ptr s (sv_i v) m).
    { intros m Hm. unfold ptr at 1. rewrite Hptrs. unfold ptr, ptrs. rewrite H0. cbn [Z.eqb v1 sv_i dirty set_indirect sfi_indirect sfi_direct].
      by destruct (m =? -1). }
    assert (Hg : grown s (sv_i v) s2 (sv_i v1)).
    { apply (grown_fresh s (sv_i v) s2 (sv_i v1) (-1) b); try done; [apply (io_direct _ _ Hi)|].
      intros x Hx Hux Hne. change (block s2 x) with (block s1 x). rewrite Hblock. destruct (Z.eqb_spec x b) as [->|]; done. }
    destruct (bmap_indirect_alloc s2 sv v1 n Hs2) as (r & b2 & s3 & He3 & Hb2 & Hm); try done; try lia.
    { cbn. by rewrite lookup_insert_eq. }
    { apply (gr_ok _ _ _ _ Hg). }
    { cbn. lia. }
    rewrite Hptrs in He3. exists r, b2, s3, v1. split; [exact He3|].
    eapply (mapped_trans sv n r b2 s v s2 v1 s3 v1); try done; [apply kept_dirty|cbn; by rewrite Hsvs|].
    intros m Hm'. rewrite Hp by (unfold slot; lia). by replace (m =? -1) with false by lia.
  - destruct (readblock_spec (sfi_indirect (sv_i v)) zero_block s Hs) as (r & data & d' & He & Hq & Hr);
      [by apply (ptr_volume s (sv_i v) (-1) Hi slot_indirect)|apply length_zero_block|].
    mrun He. destruct Hr as [[-> ->]| ->]; [|change (negb (EIO =? 0)) with true; cbv iota;
      eexists _, _, _, v; split; [reflexivity|]; apply mapped_failed; auto].
    cbn [negb Z.eqb].
    assert (Hw : words_of (block s (sfi_indirect (sv_i v))) = ptrs (set_device d' s) (sv_i v)).
    { unfold ptrs. destruct (Z.eqb_spec (sfi_indirect (sv_i v)) 0); [done|]. unfold block. cbn. by destruct Hq as (_ & _ & ->). }
    pose proof (grown_refl s (sv_i v) d' Hi Hq) as Hg.
    rewrite Hw. destruct (bmap_indirect_alloc (set_device d' s) sv v n) as (r & b2 & s3 & He3 & Hb2 & Hm);
      [by apply quiet_ok|done|apply Hg|done|lia|].
    exists r, b2, s3, v. split; [exact He3|].
    eapply (mapped_trans sv n r b2 s v (set_device d' s) v s3 v); try done; [cbn; by rewrite insert_id|].
    intros m _. apply ptr_ext. intros _. unfold block. cbn. by destruct Hq as (_ & _ & ->).
Qed.

End SfsProofs.
End SfsProofs.
