(* ===== verification/SfsIo.v ===== *)
(** * File I/O in SFS: what [sfs_io] transfers *)
From S2P Require Import Prelude Bitmap Copyinout Uio Lhd Sfs SfsFormat SfsProofs.
Import Bitmap Copyinout Uio Lhd Sfs SfsFormat SfsProofs.

Module SfsIo.

Section SfsIo.
Context {HW : LhdHardware} (curas : Z) {HL : LhdLaws}.

(** ** The bytes of a file *)

Definition FILE_MAX : Z := NSLOTS * SFS_BLOCKSIZE.

(** Byte [k]; a block that is missing reads as zeros. *)
Definition fbyte (s : sfs_fs) (i : dinode) (k : Z) : Z :=
  let b := ptr s i (k / 512) in
  if b =? 0 then 0 else default 0 (block s b !! Z.to_nat (k mod 512)).
Definition fbytes (s : sfs_fs) (i : dinode) (off : Z) (n : nat) : list Z := fbyte s i <$> seqZ off (Z.of_nat n).

(** The file of inode [i] became [i'] through writes: it keeps its blocks, the blocks
    it got were free, and no block outside the file changed. *)
Record extended (s : sfs_fs) (i : dinode) (s' : sfs_fs) (i' : dinode) : Prop := {
  ex_ok : inode_ok s' i';
  ex_meta : meta i' = meta i;
  ex_used : forall x, 0 <= x -> used s x -> used s' x;
  ex_new : forall x, 0 <= x -> used s' x -> used s x \/ exists n, slot n /\ ptr s' i' n = x;
  ex_block : forall x, 0 <= x -> used s x -> (forall n, slot n -> ptr s i n <> 0 -> ptr s i n <> x) -> block s' x = block s x;
  ex_keep : forall n, slot n -> ptr s i n <> 0 -> ptr s' i' n = ptr s i n;
  ex_fresh : forall n, slot n -> ptr s' i' n <> ptr s i n -> ~ used s (ptr s' i' n);
  ex_fs : sb_nblocks s' = sb_nblocks s /\ sfs_vnodes s' = sfs_vnodes s /\ fixed s s'
}.

Lemma extended_trans s i s1 i1 s2 i2 : fs_ok s -> extended s i s1 i1 -> extended s1 i1 s2 i2 -> extended s i s2 i2.
Proof.
  intros Hs [O1 M1 U1 N1 B1 K1 F1 (A1 & A2 & A3)] [O2 M2 U2 N2 B2 K2 F2 (C1 & C2 & C3)]. split; try congruence; auto.
  - intros x Hx Hu. destruct (decide (x = 0)) as [->|Hx0]; [left; apply (fo_super _ Hs)|].
    destruct (N2 x Hx Hu) as [Hu1|H]; [|by right]. destruct (N1 x Hx Hu1) as [|(n & Hn & Hp)]; [by left|right].
    exists n. split; [done|]. rewrite K2; [done|done|by rewrite Hp].
  - intros x Hx Hu Hni. rewrite B2; [by apply B1|done|by apply U1|]. intros n Hn H0 Hp.
    destruct (decide (ptr s1 i1 n = ptr s i n)) as [He|He]; [apply (Hni n Hn); congruence|]. apply (F1 n Hn He). by rewrite Hp.
  - intros n Hn Hp. rewrite K2; [by apply K1|done|by rewrite K1].
  - intros n Hn Hne. destruct (decide (ptr s2 i2 n = ptr s1 i1 n)) as [He|He].
    + rewrite He. apply F1; [done|]. by rewrite <- He.
    + intros Hu. apply (F2 n Hn He). apply U1; [|done].
      destruct (decide (ptr s2 i2 n = 0)) as [->|H0]; [lia|]. destruct (io_ptr _ _ O2 n Hn H0). lia.
  - split; [congruence|]. split; [congruence|by eapply fixed_trans].
Qed.

Lemma extended_refl s i d' : inode_ok s i -> quiet (sfs_device s) d' -> extended s i (set_device d' s) i.
Proof.
  intros Hi Hq. pose proof (grown_refl s i d' Hi Hq) as [? ? ? ? ? ? ? ?]. destruct Hq as (_ & _ & Hsec).
  assert (Hp : forall n, ptr (set_device d' s) i n = ptr s i n).
  { intros n. apply ptr_ext. intros _. unfold block. cbn. by rewrite Hsec. }
  split; try done; auto.
  - intros x _ _ _. unfold block. cbn. by rewrite Hsec.
Qed.

(** [sfs_bmap] extends the file and leaves its bytes alone. *)
Lemma mapped_extended sv n r b s v s' v' : 0 <= n < NSLOTS -> inode_ok s (sv_i v) -> mapped sv n r b s v s' v' ->
  extended s (sv_i v) s' (sv_i v') /\ forall k, 0 <= k < FILE_MAX -> fbyte s' (sv_i v') k = fbyte s (sv_i v) k.
Proof.
  intros Hn Hi (Hs' & _ & _ & _ & Hg & Hr). pose proof Hg as [O M U N B K I F].
  assert (Hown : forall x, 0 <= x -> used s x -> (forall n, slot n -> ptr s (sv_i v) n <> 0 -> ptr s (sv_i v) n <> x) -> block s' x = block s x).
  { intros x Hx Hu Hni. apply B; [done|done|]. destruct (decide (x = 0)) as [|Hx0]; [by left|right]. intros ->. by apply (Hni (-1) slot_indirect). }
  assert (Hdata : forall m, 0 <= m < NSLOTS -> ptr s (sv_i v) m <> 0 -> block s' (ptr s (sv_i v) m) = block s (ptr s (sv_i v) m)).
  { intros m Hm Hp. assert (slot m) by (unfold slot; lia). destruct (io_ptr _ _ Hi m H Hp) as [Hb Hu]. apply B; [lia|done|].
    right. intros He. assert (m = -1); [|lia]. apply (io_inj _ _ Hi); try done. }
  assert (Hidx : forall k, 0 <= k < FILE_MAX -> 0 <= k / 512 < NSLOTS).
  { unfold FILE_MAX, SFS_BLOCKSIZE. intros k Hk. split; [apply Z.div_pos; lia|]. apply Z.div_lt_upper_bound; lia. }
  split.
  - split; try done. intros m Hm Hne. destruct (decide (m = -1)) as [->|Hm1].
    { rewrite !ptr_indirect in *. destruct I as [|]; [congruence|done]. }
    assert (Hmr : 0 <= m < NSLOTS) by (unfold slot in Hm; lia).
    destruct Hr as [(_ & _ & Hp & Hk & Hf)|[_ Hp]]; rewrite Hp in Hne |- * by done; [|done].
    destruct (Z.eqb_spec m n) as [->|]; [|done]. destruct (decide (ptr s (sv_i v) n = 0)) as [H0|H0]; [by apply Hf|].
    by rewrite (Hk H0) in Hne.
  - intros k Hk. pose proof (Hidx k Hk) as Hm. unfold fbyte.
    destruct Hr as [(_ & Hb & Hp & Hk' & Hf)|[_ Hp]]; rewrite Hp by done.
    + destruct (Z.eqb_spec (k / 512) n) as [->|Hne].
      * replace (b =? 0) with false by lia. destruct (Z.eqb_spec (ptr s (sv_i v) n) 0) as [H0|H0].
        { destruct (Hf H0) as [_ ->]. apply zeros_lookup. }
        rewrite (Hk' H0). by rewrite Hdata.
      * destruct (Z.eqb_spec (ptr s (sv_i v) (k / 512)) 0); [done|]. by rewrite Hdata.
    + destruct (Z.eqb_spec (ptr s (sv_i v) (k / 512)) 0); [done|]. by rewrite Hdata.
Qed.

(** New contents for a data block of the file. *)
Lemma extended_write s i s' n data : inode_ok s i -> 0 <= n < NSLOTS -> ptr s i n <> 0 ->
  same_files s s' -> sfs_freemap s' = sfs_freemap s ->
  (forall x, block s' x = if x =? ptr s i n then data else block s x) ->
  extended s i s' i /\ forall k, 0 <= k < FILE_MAX ->
    fbyte s' i k = if k / 512 =? n then default 0 (data !! Z.to_nat (k mod 512)) else fbyte s i k.
Proof.
  intros Hi Hn H0 (S1 & S2 & S3 & S4) Hfm Hb. assert (Hsl : slot n) by (unfold slot; lia).
  assert (Hind : sfi_indirect i <> 0 -> block s' (sfi_indirect i) = block s (sfi_indirect i)).
  { intros Hne. rewrite Hb. destruct (Z.eqb_spec (sfi_indirect i) (ptr s i n)) as [He|]; [|done].
    assert (-1 = n); [|lia]. apply (io_inj _ _ Hi); try done; apply slot_indirect. }
  assert (Hp : forall m, ptr s' i m = ptr s i m) by (intros m; by apply ptr_ext).
  assert (Hu : forall x, used s' x <-> used s x) by (intros x; unfold used; by rewrite Hfm).
  split; [split|]; try done.
  - apply (inode_ok_frame s); try done. intros m Hm Hne. apply Hu. by apply (io_ptr _ _ Hi).
  - intros x _. apply Hu.
  - intros x _ Hux. left. by apply Hu.
  - intros x Hx _ Hni. rewrite Hb. destruct (Z.eqb_spec x (ptr s i n)) as [->|]; [|done]. by destruct (Hni n Hsl).
  - intros m Hm Hne. by rewrite Hp in Hne.
  - intros k Hk. unfold fbyte. rewrite Hp, Hb. unfold FILE_MAX, SFS_BLOCKSIZE in Hk.
    assert (Hkn : 0 <= k / 512 < NSLOTS) by (split; [apply Z.div_pos; lia|apply Z.div_lt_upper_bound; lia]).
    destruct (Z.eqb_spec (k / 512) n) as [->|Hne].
    + rewrite Z.eqb_refl. by destruct (Z.eqb_spec (ptr s i n) 0).
    + destruct (Z.eqb_spec (ptr s i (k / 512)) 0) as [|Hk0]; [done|]. destruct (Z.eqb_spec (ptr s i (k / 512)) (ptr s i n)) as [He|]; [|done].
      destruct Hne. apply (io_inj _ _ Hi); try done. unfold slot; lia.
Qed.

(** ** Transfers *)

(** [n] bytes of the uio were served; when reading they were [data]. *)
Record io_moved (n : nat) (data : list Z) (u u' : uio) : Prop := {
  im_addrs : addrs u' = drop n (addrs u);
  im_offset : uio_offset u' = uio_offset u + Z.of_nat n;
  im_resid : uio_resid u' = uio_resid u - Z.of_nat n;
  im_same : uio_segflg u' = uio_segflg u /\ uio_rw u' = uio_rw u /\ uio_space u' = uio_space u /\
            bad (uio_mem u') = bad (uio_mem u);
  im_read : uio_rw u = UIO_READ ->
    (forall j a, take n (addrs u) !! j = Some a -> contents (uio_mem u') a = default 0 (data !! j)) /\
    (forall a, a ∉ take n (addrs u) -> contents (uio_mem u') a = contents (uio_mem u) a);
  im_write : uio_rw u = UIO_WRITE -> forall a, contents (uio_mem u') a = contents (uio_mem u) a
}.

Lemma moved_io n pos p p' data u u' : moved n pos p p' u u' ->
  (uio_rw u = UIO_READ -> forall j, (j < n)%nat -> default 0 (p !! (pos + j)%nat) = default 0 (data !! j)) ->
  io_moved n data u u'.
Proof.
  intros [A O R S I Rd Wr] Hd. split; try done.
  - intros Hr. destruct (Rd Hr) as (_ & H1 & H2). split; [|done]. intros j a Hj. rewrite <- Hd; [by apply H1|done|].
    apply lookup_lt_Some in Hj. rewrite length_take in Hj. lia.
  - intros Hw. by destruct (Wr Hw).
Qed.

Lemma io_moved_ext n d d' u u' : (uio_rw u = UIO_READ -> forall j, (j < n)%nat -> default 0 (d !! j) = default 0 (d' !! j)) ->
  io_moved n d u u' -> io_moved n d' u u'.
Proof.
  intros Hd [A O R S Rd Wr]. split; try done. intros Hr. destruct (Rd Hr) as (H1 & H2). split; [|done].
  intros j a Hj. rewrite <- Hd; [by apply H1|done|]. apply lookup_lt_Some in Hj. rewrite length_take in Hj. lia.
Qed.

Lemma io_moved_refl u data : io_moved 0 data u u.
Proof. split; try done; try lia. Qed.

Lemma io_moved_trans n1 n2 d d2 u u1 u2 : NoDup (addrs u) -> (n1 <= length (addrs u))%nat ->
  (uio_rw u = UIO_READ -> forall j, (j < n2)%nat -> default 0 (d !! (n1 + j)%nat) = default 0 (d2 !! j)) ->
  io_moved n1 d u u1 -> io_moved n2 d2 u1 u2 -> io_moved (n1 + n2) d u u2.
Proof.
  intros Hnd Hn1 Hd [A1 O1 R1 (S1 & W1 & P1 & B1) Rd1 Wr1] [A2 O2 R2 (S2 & W2 & P2 & B2) Rd2 Wr2].
  assert (Htk : take (n1 + n2) (addrs u) = take n1 (addrs u) ++ take n2 (addrs u1)) by (rewrite A1; by rewrite take_take_drop).
  rewrite <- (take_drop n1 (addrs u)), <- A1 in Hnd. apply NoDup_app in Hnd as (_ & Hdis & _). split; try lia.
  - by rewrite A2, A1, drop_drop.
  - split_and!; congruence.
  - intros Hr. rewrite W1 in Rd2. destruct (Rd1 Hr) as (H1 & H1'). destruct (Rd2 Hr) as (H2 & H2'). rewrite Htk. split.
    + intros j a Hj. destruct (decide (j < n1)%nat).
      * rewrite lookup_app_l in Hj by (rewrite length_take; lia). rewrite H2'; [by apply H1|].
        intros Ha. apply (Hdis a); [by eapply list_elem_of_lookup_2|]. by apply elem_of_take in Ha as (q & Hq & _); eapply list_elem_of_lookup_2.
      * rewrite lookup_app_r, length_take in Hj by (rewrite length_take; lia).
        rewrite (H2 _ _ Hj). rewrite <- Hd; [f_equal; f_equal; lia|done|]. apply lookup_lt_Some in Hj. rewrite length_take in Hj. lia.
    + intros a Ha. rewrite not_elem_of_app in Ha. destruct Ha. rewrite H2', H1' by done. done.
  - intros Hw a. rewrite W1 in Wr2. rewrite (Wr2 Hw). by apply Wr1.
Qed.

(** The bytes a write takes from the uio. *)
Definition wdata (u : uio) (n : nat) : list Z := contents (uio_mem u) <$> take n (addrs u).

(** [n] bytes were transferred between the uio and the file from its offset on. *)
Record io_step (n : nat) (s : sfs_fs) (i : dinode) (u : uio) (s' : sfs_fs) (i' : dinode) (u' : uio) : Prop := {
  st_uio : io_moved n (fbytes s i (uio_offset u) n) u u';
  st_ext : extended s i s' i';
  st_read : uio_rw u = UIO_READ -> i' = i /\ exists d', s' = set_device d' s /\ quiet (sfs_device s) d';
  st_bytes : forall k, 0 <= k < FILE_MAX -> fbyte s' i' k =
    if bool_decide (uio_rw u = UIO_WRITE) && (uio_offset u <=? k) && (k <? uio_offset u + Z.of_nat n)
    then default 0 (wdata u n !! Z.to_nat (k - uio_offset u)) else fbyte s i k;
  st_max : n = O \/ uio_offset u + Z.of_nat n <= FILE_MAX
}.

Lemma fbytes_lookup s i off n j : (j < n)%nat -> default 0 (fbytes s i off n !! j) = fbyte s i (off + Z.of_nat j).
Proof. intros Hj. unfold fbytes. rewrite list_lookup_fmap, (lookup_seqZ_lt off _ j) by lia. done. Qed.

Lemma quiet_fbyte s d' i k : quiet (sfs_device s) d' -> fbyte (set_device d' s) i k = fbyte s i k.
Proof.
  intros (_ & _ & Hsec). unfold fbyte. rewrite (ptr_ext s). 2:{ intros _. unfold block. cbn. by rewrite Hsec. }
  destruct (ptr s i (k / 512) =? 0); [done|]. unfold block. cbn. by rewrite Hsec.
Qed.

Lemma step_0 s i u d' : inode_ok s i -> quiet (sfs_device s) d' -> io_step 0 s i u (set_device d' s) i u.
Proof.
  intros Hi Hq. split.
  - apply io_moved_refl.
  - by apply extended_refl.
  - intros _. split; [done|]. by exists d'.
  - intros k Hk. rewrite Z.add_0_r. replace (_ && _ && _) with false.
    2:{ destruct (bool_decide _); [|done]. cbn. zbool. }
    by apply quiet_fbyte.
  - by left.
Qed.

Lemma step_trans n1 n2 s i u s1 i1 u1 s2 i2 u2 : fs_ok s -> uio_ok curas u -> 0 <= uio_offset u -> Z.of_nat n1 <= uio_resid u ->
  io_step n1 s i u s1 i1 u1 -> io_step n2 s1 i1 u1 s2 i2 u2 -> io_step (n1 + n2) s i u s2 i2 u2.
Proof.
  intros Hs Hu Hoff Hn1 [U1 E1 R1 B1 X1] [U2 E2 R2 B2 X2].
  pose proof (im_same _ _ _ _ U1) as (_ & Hrw & _ & _). pose proof (im_offset _ _ _ _ U1) as Ho.
  assert (Hlen : (n1 <= length (addrs u))%nat) by (destruct Hu as [_ _ Hr _ _]; lia). split.
  - eapply (io_moved_trans n1 n2 _ (fbytes s1 i1 (uio_offset u1) n2)); [apply (uk_nodup _ _ Hu)|done| |eapply io_moved_ext; [|exact U1]|exact U2].
    + intros Hr j Hj. destruct (R1 Hr) as (-> & d' & -> & Hq). rewrite !fbytes_lookup by lia. rewrite quiet_fbyte by done. f_equal. lia.
    + intros _ j Hj. by rewrite !fbytes_lookup by lia.
  - by eapply extended_trans.
  - intros Hr. rewrite Hrw in R2. destruct (R1 Hr) as (-> & d1 & -> & Q1). destruct (R2 Hr) as (-> & d2 & -> & Q2).
    split; [done|]. exists d2. split; [done|]. destruct Q1 as (? & ? & ?), Q2 as (? & ? & ?). cbn in *. split_and!; congruence.
  - intros k Hk. rewrite B2, B1 by done. rewrite Hrw, Ho. destruct (bool_decide (uio_rw u = UIO_WRITE)) eqn:Hw; [apply bool_decide_eq_true in Hw|done]. cbn [andb].
    assert (Hwd : wdata u (n1 + n2) = wdata u n1 ++ wdata u1 n2).
    { unfold wdata. rewrite (im_addrs _ _ _ _ U1), <- take_take_drop, fmap_app. f_equal. apply list_fmap_ext. intros ? a _.
      symmetry. by apply (im_write _ _ _ _ U1). }
    assert (Hl1 : length (wdata u n1) = n1) by (unfold wdata; rewrite length_fmap, length_take; lia).
    rewrite Hwd. set (o := uio_offset u) in *.
    destruct (Z.leb_spec (o + Z.of_nat n1) k), (Z.ltb_spec k (o + Z.of_nat n1 + Z.of_nat n2)), (Z.leb_spec o k),
      (Z.ltb_spec k (o + Z.of_nat n1)), (Z.ltb_spec k (o + Z.of_nat (n1 + n2))); try lia; cbn [andb]; try done.
    + rewrite lookup_app_r by lia. rewrite Hl1. do 2 f_equal. lia.
    + by rewrite lookup_app_l by lia.
  - lia.
Qed.

(** What serving [req] bytes of a uio means: the result, and how many of them were
    transferred. *)
Definition served (req sv : Z) (s : sfs_fs) (v : sfs_vnode) (u : uio) (r : Z) (s' : sfs_fs) (v' : sfs_vnode) (u' : uio) : Prop :=
  fs_ok s' /\ svs s' = <[sv := v']> (svs s) /\ sv_ino v' = sv_ino v /\ kept v v' /\ uio_ok curas u' /\
  (r = 0 \/ r = EIO \/ r = ENOSPC /\ uio_rw u = UIO_WRITE \/ r = EFBIG /\ FILE_MAX < uio_offset u + Z.max 1 req) /\
  exists n, Z.of_nat n <= req /\ (r = 0 -> Z.of_nat n = req) /\ io_step n s (sv_i v) u s' (sv_i v') u'.

(** Nothing was transferred: an error before, with the state as it was. *)
Lemma served_error req sv s v u r d' : 0 <= req -> fs_ok s -> svs s !! sv = Some v -> inode_ok s (sv_i v) -> uio_ok curas u ->
  quiet (sfs_device s) d' -> r = EIO \/ r = EFBIG /\ FILE_MAX <= uio_offset u -> served req sv s v u r (set_device d' s) v u.
Proof.
  intros Hreq Hs Hsv Hi Hu Hq Hr. unfold served. split_and!; try done; [by apply quiet_ok|cbn; by rewrite insert_id| |].
  { destruct Hr as [|[-> ?]]; [auto|]. do 3 right. split; [done|lia]. }
  exists O. split_and!; [lia|by destruct Hr as [->|[-> _]]|]. by apply step_0.
Qed.

(** ... or with a block allocated to the file. *)
Lemma step_mapped sv n r b s v s' v' u d' : 0 <= n < NSLOTS -> inode_ok s (sv_i v) -> uio_rw u = UIO_WRITE -> mapped sv n r b s v s' v' ->
  quiet (sfs_device s') d' -> fs_ok s -> io_step 0 s (sv_i v) u (set_device d' s') (sv_i v') u.
Proof.
  intros Hn Hi Hw Hm Hq Hs. destruct (mapped_extended _ _ _ _ _ _ _ _ Hn Hi Hm) as [He Hb].
  pose proof (ex_ok _ _ _ _ He) as Hi'. split.
  - apply io_moved_refl.
  - eapply extended_trans; [done|exact He|]. by apply extended_refl.
  - by rewrite Hw.
  - intros k Hk. rewrite quiet_fbyte by done. rewrite Hb by done. rewrite Z.add_0_r. replace (_ && _ && _) with false; [done|].
    destruct (bool_decide _); [|done]. cbn. zbool.
  - by left.
Qed.

(** A block of the file, as [sfs_partialio] and the others read it. *)
Definition block_image (s : sfs_fs) (i : dinode) (m : Z) (l : list Z) : Prop :=
  length l = 512%nat /\ forall j, (j < 512)%nat -> default 0 (l !! j) = fbyte s i (m * 512 + Z.of_nat j).

Lemma block_index m j : 0 <= j < 512 -> (m * 512 + j) / 512 = m /\ (m * 512 + j) mod 512 = j.
Proof.
  intros Hj. split; [rewrite Z.div_add_l by lia; rewrite Z.div_small by lia; lia|].
  rewrite Z.add_comm, Z.mod_add by lia. apply Z.mod_small. lia.
Qed.

Lemma image_zero s i m : ptr s i m = 0 -> block_image s i m zero_block.
Proof.
  intros H0. split; [apply length_zero_block|]. intros j Hj. unfold fbyte. destruct (block_index m (Z.of_nat j)) as [-> _]; [lia|].
  rewrite H0. apply zeros_lookup.
Qed.

Lemma image_block s i m : fs_ok s -> ptr s i m <> 0 -> block_image s i m (block s (ptr s i m)).
Proof.
  intros Hs H0. split; [apply (fo_dev _ Hs)|]. intros j Hj. unfold fbyte. destruct (block_index m (Z.of_nat j)) as [-> ->]; [lia|].
  replace (ptr s i m =? 0) with false by lia. by rewrite Nat2Z.id.
Qed.

Lemma fileblock_spec off : 0 <= off < 2 ^ 41 -> u32 (Z.quot off SFS_BLOCKSIZE) = off / 512.
Proof.
  intros H. unfold SFS_BLOCKSIZE. rewrite Z.quot_div_nonneg by lia. apply u32_small. unfold is_u32.
  split; [apply Z.div_pos; lia|]. apply Z.div_lt_upper_bound; lia.
Qed.

(** The request is within what offsets can be. *)
Definition offset_ok (u : uio) : Prop := 0 <= uio_offset u /\ uio_offset u + uio_resid u < 2 ^ 41.

Lemma on_uio_run {S A} (m : M uio A) u a u' (s : S) : m u = Done a u' -> on_uio m u s = Done (a, u') s.
Proof. intros H. unfold on_uio. by rewrite H. Qed.

Lemma partialio_read sv s v u len : fs_ok s -> svs s !! sv = Some v -> inode_ok s (sv_i v) -> uio_ok curas u -> offset_ok u ->
  uio_rw u = UIO_READ -> 0 <= len <= uio_resid u -> uio_offset u mod 512 + len <= 512 ->
  exists r s' v' u', sfs_partialio curas sv u (uio_offset u mod 512) len s = Done (r, u') s' /\ served len sv s v u r s' v' u'.
Proof.
  intros Hs Hsv Hi Hu [Ho1 Ho2] Hrw Hlen Hskip. set (m := uio_offset u / 512). set (skip := uio_offset u mod 512) in *.
  pose proof (Z.mod_pos_bound (uio_offset u) 512 ltac:(lia)) as Hsk. fold skip in Hsk.
  pose proof (Z.div_mod (uio_offset u) 512 ltac:(lia)) as Hdm. fold m skip in Hdm.
  pose proof (fo_dev _ Hs) as Hdev. unfold sfs_partialio.
  assert (Hk : (skip + len <=? SFS_BLOCKSIZE) = true) by (unfold SFS_BLOCKSIZE; lia).
  mrun (kassert_true "skipstart + len <= SFS_BLOCKSIZE" _ s Hk). rewrite fileblock_spec by lia. fold m. rewrite Hrw. change (bool_decide (UIO_READ = UIO_WRITE)) with false.
  assert (Hm0 : 0 <= m) by (apply Z.div_pos; lia).
  destruct (decide (m < NSLOTS)) as [Hm|Hm].
  2:{ mrun (bmap_big curas s sv m false ltac:(lia)). exists EFBIG, s, v, u. split; [done|].
      rewrite <- (set_device_id s) at 2. apply served_error; try done; try lia; right; unfold FILE_MAX, SFS_BLOCKSIZE; lia. }
  destruct (bmap_look curas s sv v m Hs Hsv Hi ltac:(lia)) as (r & b & d' & He & Hq & Hr). mrun He.
  destruct Hr as [[-> ->]| ->]; [|exists EIO, (set_device d' s), v, u; split; [done|]; apply served_error; auto; lia].
  cbn [negb Z.eqb]. set (s1 := set_device d' s). assert (Hs1 : fs_ok s1) by (by apply quiet_ok).
  assert (Hbuf : exists r buf d2, (if ptr s (sv_i v) m =? 0 then
      kassert "uio->uio_rw == UIO_READ" (bool_decide (UIO_READ = UIO_READ)) ;; mret (0, zero_block)
      else sfs_readblock curas (ptr s (sv_i v) m) zero_block) s1 = Done (r, buf) (set_device d2 s) /\
      quiet (sfs_device s) d2 /\ (r = 0 /\ block_image s (sv_i v) m buf \/ r = EIO)).
  { destruct (Z.eqb_spec (ptr s (sv_i v) m) 0) as [H0|H0].
    - exists 0, zero_block, d'. split_and!; [done|done|]. left. split; [done|]. by apply image_zero.
    - destruct (readblock_spec curas (ptr s (sv_i v) m) zero_block s1 Hs1) as (r & data & d2 & He2 & Hq2 & Hr2);
        [by apply (ptr_volume s (sv_i v) m Hi ltac:(unfold slot; lia))|apply length_zero_block|].
      exists r, data, d2. split; [exact He2|]. split.
      { destruct Hq as (? & ? & ?), Hq2 as (? & ? & ?). cbn in *. split_and!; congruence. }
      destruct Hr2 as [[-> ->]| ->]; [left|by right]. split; [done|]. replace (block s1 (ptr s (sv_i v) m)) with (block s (ptr s (sv_i v) m)).
      + by apply image_block.
      + unfold block. cbn. by destruct Hq as (_ & _ & ->). }
  destruct Hbuf as (r2 & buf & d2 & He2 & Hq2 & Hr2). mrun He2.
  destruct Hr2 as [[-> [Hl Him]]| ->]; [|exists EIO, (set_device d2 s), v, u; split; [done|]; apply served_error; auto; lia].
  cbn [negb Z.eqb].
  destruct (uiomove_moved curas (drop (Z.to_nat skip) buf) len u Hu ltac:(lia) ltac:(rewrite length_drop, Hl; lia)) as (part & u' & Hmv & Hmoved & Hu').
  mrun (on_uio_run (uiomove curas (drop (Z.to_nat skip) buf) len) u (0, part) u' (set_device d2 s) Hmv). cbn [negb Z.eqb].
  pose proof (mv_same _ _ _ _ _ _ Hmoved) as (_ & Hrw' & _ & _). rewrite Hrw', Hrw.
  change (bool_decide (UIO_READ = UIO_WRITE)) with false. cbv iota.
  exists 0, (set_device d2 s), v, u'. split; [done|]. unfold served. split_and!; try done; [by apply quiet_ok|cbn; by rewrite insert_id|auto|].
  exists (Z.to_nat len). split_and!; [lia|lia|]. split.
  - eapply moved_io; [exact Hmoved|]. intros _ j Hj. rewrite fbytes_lookup by done. rewrite lookup_drop, Him by lia. f_equal. lia.
  - by apply extended_refl.
  - intros _. split; [done|]. by exists d2.
  - intros k Hk'. rewrite Hrw. rewrite quiet_fbyte by done. done.
  - right. unfold FILE_MAX, SFS_BLOCKSIZE. lia.
Qed.

(** A data block of the file gets new contents in a range. *)
Lemma patch_block sv b s v s1 v1 s2 m skip new : fs_ok s -> inode_ok s (sv_i v) -> 0 <= m < NSLOTS ->
  mapped sv m 0 b s v s1 v1 -> 0 <= skip -> skip + Z.of_nat (length new) <= 512 ->
  same_files s1 s2 -> sfs_freemap s2 = sfs_freemap s1 ->
  (forall x, block s2 x = if x =? b then splice (Z.to_nat skip) new (block s1 b) else block s1 x) ->
  extended s (sv_i v) s2 (sv_i v1) /\ forall k, 0 <= k < FILE_MAX -> fbyte s2 (sv_i v1) k =
    if (m * 512 + skip <=? k) && (k <? m * 512 + skip + Z.of_nat (length new))
    then default 0 (new !! Z.to_nat (k - (m * 512 + skip))) else fbyte s (sv_i v) k.
Proof.
  intros Hs Hi Hm Hmap Hsk Hsl Hsf Hfm Hbl.
  destruct (mapped_extended _ _ _ _ _ _ _ _ Hm Hi Hmap) as [He Hb].
  destruct Hmap as (Hs1 & _ & _ & _ & Hg & [(_ & Hb0 & Hp & _ & _)|[[?|?] _]]); [|done|done].
  pose proof (gr_ok _ _ _ _ Hg) as Hi1. assert (Hpm : ptr s1 (sv_i v1) m = b) by (by rewrite Hp, Z.eqb_refl).
  destruct (extended_write s1 (sv_i v1) s2 m _ Hi1 Hm ltac:(by rewrite Hpm) Hsf Hfm ltac:(rewrite Hpm; exact Hbl)) as [He2 Hb2].
  assert (Hlo : length (block s1 b) = 512%nat) by apply (fo_dev _ Hs1).
  split; [by eapply extended_trans|]. intros k Hk. rewrite Hb2 by done.
  pose proof (Z.div_mod k 512 ltac:(lia)) as Hdm. pose proof (Z.mod_pos_bound k 512 ltac:(lia)) as Hmb.
  destruct (Z.eqb_spec (k / 512) m) as [Hkm|Hkm].
  2:{ replace (_ && _) with false by (destruct (Z.leb_spec (m * 512 + skip) k), (Z.ltb_spec k (m * 512 + skip + Z.of_nat (length new))); try done; nia).
      by apply Hb. }
  rewrite splice_lookup by lia. destruct (decide _) as [Hin|Hout].
  - replace (_ && _) with true by zbool. do 2 f_equal. lia.
  - replace (_ && _) with false by zbool. rewrite <- Hb by done. unfold fbyte. rewrite Hkm, Hpm. by replace (b =? 0) with false by lia.
Qed.

(** ... in the range the uio covers. *)
Lemma step_write sv n b s v s1 v1 s2 u u' m skip len : fs_ok s -> inode_ok s (sv_i v) -> 0 <= m < NSLOTS ->
  mapped sv m 0 b s v s1 v1 -> n = Z.to_nat len -> 0 <= skip -> 0 <= len -> skip + len <= 512 -> uio_offset u = m * 512 + skip ->
  len <= Z.of_nat (length (addrs u)) -> uio_rw u = UIO_WRITE ->
  same_files s1 s2 -> sfs_freemap s2 = sfs_freemap s1 ->
  (forall x, block s2 x = if x =? b then splice (Z.to_nat skip) (wdata u n) (block s1 b) else block s1 x) ->
  (forall d, io_moved n d u u') -> io_step n s (sv_i v) u s2 (sv_i v1) u'.
Proof.
  intros Hs Hi Hm Hmap -> Hsk Hlen Hsl Hoff Hla Hw Hsf Hfm Hbl Hmv.
  assert (Hlw : length (wdata u (Z.to_nat len)) = Z.to_nat len) by (unfold wdata; rewrite length_fmap, length_take; lia).
  destruct (patch_block sv b s v s1 v1 s2 m skip (wdata u (Z.to_nat len)) Hs Hi Hm Hmap Hsk) as [He Hb]; [lia|done|done|done|].
  split; [apply Hmv|done|by rewrite Hw| |right; unfold FILE_MAX, SFS_BLOCKSIZE; lia].
  intros k Hk. rewrite Hb by done. rewrite Hw, bool_decide_true by done. cbn [andb]. by rewrite Hoff, Hlw.
Qed.

Lemma write_moved n p p' u u' : moved n 0 p p' u u' -> uio_rw u = UIO_WRITE -> (n <= length p)%nat ->
  (forall d, io_moved n d u u') /\ p' = wdata u n ++ drop n p \/ (length (addrs u) < n)%nat.
Proof.
  intros Hm Hw Hn. destruct (decide (n <= length (addrs u))%nat); [left|right; lia]. split.
  - intros d. eapply moved_io; [exact Hm|]. by rewrite Hw.
  - destruct (mv_write _ _ _ _ _ _ Hm Hw) as [_ ->]. unfold splice, wdata. cbn [take app Nat.add].
    by rewrite length_fmap, length_take_le by lia.
Qed.

Lemma served_mapped sv m r b s v s1 v1 u d' req r' : 0 <= req -> fs_ok s -> inode_ok s (sv_i v) -> 0 <= m < NSLOTS -> uio_ok curas u ->
  uio_rw u = UIO_WRITE -> mapped sv m r b s v s1 v1 -> quiet (sfs_device s1) d' -> r' = ENOSPC \/ r' = EIO ->
  served req sv s v u r' (set_device d' s1) v1 u.
Proof.
  intros Hreq Hs Hi Hm Hu Hw Hmap Hq Hr. pose proof Hmap as (Hs1 & Hsvs & Hino & Href & _). unfold served.
  split_and!; try done; [by apply quiet_ok|destruct Hr as [->| ->]; auto|]. exists O. split_and!; [lia|by destruct Hr; subst|]. by eapply step_mapped.
Qed.

Lemma partialio_write sv s v u len : fs_ok s -> svs s !! sv = Some v -> inode_ok s (sv_i v) -> uio_ok curas u -> offset_ok u ->
  uio_rw u = UIO_WRITE -> 0 <= len <= uio_resid u -> uio_offset u mod 512 + len <= 512 ->
  exists r s' v' u', sfs_partialio curas sv u (uio_offset u mod 512) len s = Done (r, u') s' /\ served len sv s v u r s' v' u'.
Proof.
  intros Hs Hsv Hi Hu [Ho1 Ho2] Hrw Hlen Hskip. set (m := uio_offset u / 512). set (skip := uio_offset u mod 512) in *.
  pose proof (Z.mod_pos_bound (uio_offset u) 512 ltac:(lia)) as Hsk. fold skip in Hsk.
  pose proof (Z.div_mod (uio_offset u) 512 ltac:(lia)) as Hdm. fold m skip in Hdm.
  pose proof (fo_dev _ Hs) as Hdev. unfold sfs_partialio.
  assert (Hk : (skip + len <=? SFS_BLOCKSIZE) = true) by (unfold SFS_BLOCKSIZE; lia).
  mrun (kassert_true "skipstart + len <= SFS_BLOCKSIZE" _ s Hk).
  rewrite fileblock_spec by lia. fold m. rewrite Hrw. change (bool_decide (UIO_WRITE = UIO_WRITE)) with true.
  assert (Hm0 : 0 <= m) by (apply Z.div_pos; lia).
  destruct (decide (m < NSLOTS)) as [Hm|Hm].
  2:{ mrun (bmap_big curas s sv m true ltac:(lia)). exists EFBIG, s, v, u. split; [done|].
      rewrite <- (set_device_id s) at 2. apply served_error; try done; try lia; right; unfold FILE_MAX, SFS_BLOCKSIZE; lia. }
  destruct (bmap_alloc curas s sv v m Hs Hsv Hi ltac:(lia)) as (r & b & s1 & v1 & He & Hmap). mrun He.
  pose proof Hmap as (Hs1 & Hsvs & Hino & Href & Hg & Hr). pose proof (fo_dev _ Hs1) as Hdev1.
  destruct Hr as [(-> & Hb0 & Hp & _ & _)|[Hr _]].
  2:{ replace (negb (r =? 0)) with true by (destruct Hr; by subst). exists r, s1, v1, u. split; [done|].
      pose proof (served_mapped sv m r b s v s1 v1 u (sfs_device s1) len r) as Hsm. rewrite set_device_id in Hsm.
      apply Hsm; auto; [lia|by apply quiet_refl]. }
  cbn [negb Z.eqb]. replace (b =? 0) with false by lia.
  assert (Hbv : in_volume s1 b).
  { pose proof (Hp m ltac:(lia)) as Hpm. rewrite Z.eqb_refl in Hpm. rewrite <- Hpm in Hb0 |- *.
    by apply (ptr_volume s1 (sv_i v1) m (gr_ok _ _ _ _ Hg) ltac:(unfold slot; lia)). }
  destruct (readblock_spec curas b zero_block s1 Hs1 Hbv length_zero_block) as (r & buf & d2 & He2 & Hq2 & Hr2). mrun He2.
  destruct Hr2 as [[-> ->]| ->].
  2:{ exists EIO, (set_device d2 s1), v1, u. split; [done|]. apply (served_mapped sv m 0 b); auto. lia. }
  cbn [negb Z.eqb]. assert (Hl : length (block s1 b) = 512%nat) by apply Hdev1.
  destruct (uiomove_moved curas (drop (Z.to_nat skip) (block s1 b)) len u Hu ltac:(lia) ltac:(rewrite length_drop, Hl; lia)) as (part & u' & Hmv & Hmoved & Hu').
  mrun (on_uio_run (uiomove curas (drop (Z.to_nat skip) (block s1 b)) len) u (0, part) u' (set_device d2 s1) Hmv). cbn [negb Z.eqb].
  pose proof (mv_same _ _ _ _ _ _ Hmoved) as (_ & Hrw' & _ & _). rewrite Hrw', Hrw. change (bool_decide (UIO_WRITE = UIO_WRITE)) with true. cbv iota.
  destruct (write_moved _ _ _ _ _ Hmoved Hrw) as [[Him Hpart]|Hbad]; [rewrite length_drop, Hl; lia| |destruct Hu as [_ _ Hres _ _]; lia].
  set (data := take (Z.to_nat skip) (block s1 b) ++ part).
  assert (Hld : length data = 512%nat).
  { unfold data. rewrite Hpart, !length_app, length_take, !length_drop, Hl. unfold wdata. rewrite length_fmap, length_take.
    destruct Hu as [_ _ Hres _ _]. lia. }
  assert (Hs1' : fs_ok (set_device d2 s1)) by (by apply quiet_ok).
  destruct (writeblock_spec curas b data (set_device d2 s1) Hs1' Hbv Hld) as (d3 & He3 & Hd3 & Hbl3 & Hw3). mrun He3.
  exists 0, (set_device d3 s1), v1, u'. split; [done|]. unfold served. split_and!; try done; [|auto|].
  { apply fs_ok_device; [done|done|]. cbn in Hbl3. rewrite Hbl3. apply Hq2. }
  exists (Z.to_nat len). split_and!; [lia|lia|].
  eapply (step_write sv _ b s v s1 v1 _ u u' m skip len); try done; try lia.
  - destruct Hu as [_ _ Hres _ _]. lia.
  - intros x. change (block (set_device d3 s1) x) with (sectors d3 x). rewrite Hw3. destruct (x =? b); [|cbn; by destruct Hq2 as (_ & _ & ->)].
    unfold data, splice. rewrite Hpart, drop_drop. unfold wdata. rewrite length_fmap, length_take_le; [done|]. destruct Hu as [_ _ Hres _ _]. lia.
Qed.

(** *** Whole blocks *)

(** [sfs_blockio] lends the device the user's own uio, at the disk's offset. *)
Definition at_block (b : Z) (u : uio) : uio := set_resid SFS_BLOCKSIZE (set_offset (b * SFS_BLOCKSIZE) u).
Definition back (b : Z) (u u1 : uio) : uio :=
  set_resid (u32 (uio_resid u1 - SFS_BLOCKSIZE + uio_resid u)) (set_offset (uio_offset u1 - b * SFS_BLOCKSIZE + uio_offset u) u1).

Lemma at_block_ok b u : uio_ok curas u -> 512 <= uio_resid u -> uio_ok curas (at_block b u) /\ block_uio b (at_block b u).
Proof.
  intros [Hok Hnd Hr Hacc Hsp] H. split; [|done]. split; try done. change (addrs (at_block b u)) with (addrs u). cbn. unfold SFS_BLOCKSIZE. lia.
Qed.

Lemma back_moved b p p' u u1 : moved 512 0 p p' (at_block b u) u1 -> 512 <= uio_resid u -> uio_ok curas u -> uio_ok curas u1 ->
  moved 512 0 p p' u (back b u u1) /\ uio_ok curas (back b u u1).
Proof.
  intros [A O R S I Rd Wr] Hres [_ _ Hr _ _] [Hok1 Hnd1 Hr1 Hacc1 Hsp1].
  change (addrs (at_block b u)) with (addrs u) in *. cbn in O, R. unfold SFS_BLOCKSIZE in *.
  assert (Hu : u32 (uio_resid u1 - 512 + uio_resid u) = uio_resid u - 512) by (rewrite R; rewrite u32_small by (unfold is_u32; lia); lia).
  assert (Hbr : uio_resid (back b u u1) = uio_resid u - 512) by exact Hu.
  assert (Hba : addrs (back b u u1) = drop 512 (addrs u)) by exact A.
  split; [split|split]; try done; try lia; try exact Hacc1.
  - cbn. unfold SFS_BLOCKSIZE. lia.
  - rewrite Hba, length_drop. lia.
Qed.

Lemma blockio_back sv u s (r b : Z) u1 s1 s2 : sfs_bmap curas sv (uio_offset u / 512) (bool_decide (uio_rw u = UIO_WRITE)) s = Done (0, b) s1 ->
  offset_ok u -> 512 <= uio_resid u -> 0 < b < 2 ^ 23 -> sfs_rwblock curas (at_block b u) s1 = Done (r, u1) s2 ->
  sfs_blockio curas sv u s = Done (r, back b u u1) s2.
Proof.
  intros He [Ho1 Ho2] Hres Hb Hrw. unfold sfs_blockio. rewrite fileblock_spec by lia. mrun He. cbn [negb Z.eqb].
  replace (b =? 0) with false by lia. rewrite (u32_small (b * SFS_BLOCKSIZE)) by (unfold is_u32, SFS_BLOCKSIZE; lia).
  assert (Hk : (SFS_BLOCKSIZE <=? uio_resid u) = true) by (unfold SFS_BLOCKSIZE; lia).
  mrun (kassert_true "uio->uio_resid >= SFS_BLOCKSIZE" _ s1 Hk). fold (at_block b u). mrun Hrw. done.
Qed.

Lemma blockio_read sv s v u : fs_ok s -> svs s !! sv = Some v -> inode_ok s (sv_i v) -> uio_ok curas u -> offset_ok u ->
  uio_rw u = UIO_READ -> 512 <= uio_resid u -> uio_offset u mod 512 = 0 ->
  exists r s' v' u', sfs_blockio curas sv u s = Done (r, u') s' /\ served 512 sv s v u r s' v' u'.
Proof.
  intros Hs Hsv Hi Hu Ho Hrw Hres Hmod. pose proof Ho as [Ho1 Ho2]. set (m := uio_offset u / 512).
  pose proof (Z.div_mod (uio_offset u) 512 ltac:(lia)) as Hdm. fold m in Hdm. pose proof (fo_dev _ Hs) as Hdev.
  assert (Hm0 : 0 <= m) by (apply Z.div_pos; lia).
  assert (Hserved : forall r d' u' buf, m < NSLOTS -> block_image s (sv_i v) m buf -> r = 0 -> quiet (sfs_device s) d' -> uio_ok curas u' ->
    moved 512 0 buf buf u u' -> served 512 sv s v u r (set_device d' s) v u').
  { intros r d' u' buf Hm [_ Him] -> Hq Hu' Hmv. unfold served. split_and!; try done; [by apply quiet_ok|cbn; by rewrite insert_id|auto|].
    exists 512%nat. split_and!; [lia|lia|]. split.
    - eapply moved_io; [exact Hmv|]. intros _ j Hj. rewrite fbytes_lookup by done. cbn [Nat.add]. rewrite Him by lia. f_equal. lia.
    - by apply extended_refl.
    - intros _. split; [done|]. by exists d'.
    - intros k Hk. rewrite Hrw. by rewrite quiet_fbyte.
    - right. unfold FILE_MAX, SFS_BLOCKSIZE. lia. }
  destruct (decide (m < NSLOTS)) as [Hm|Hm].
  2:{ exists EFBIG, s, v, u. split.
      { unfold sfs_blockio. rewrite fileblock_spec by lia. fold m. by mrun (bmap_big curas s sv m (bool_decide (uio_rw u = UIO_WRITE)) ltac:(lia)). }
      rewrite <- (set_device_id s) at 2. apply served_error; try done; try lia; right; unfold FILE_MAX, SFS_BLOCKSIZE; lia. }
  destruct (bmap_look curas s sv v m Hs Hsv Hi ltac:(lia)) as (r & b & d' & He & Hq & Hr).
  replace false with (bool_decide (uio_rw u = UIO_WRITE)) in He by (by rewrite Hrw).
  destruct Hr as [[-> ->]| ->].
  2:{ exists EIO, (set_device d' s), v, u. split; [|apply served_error; auto; lia].
      unfold sfs_blockio. rewrite fileblock_spec by lia. fold m. by mrun He. }
  set (s1 := set_device d' s) in *. assert (Hs1 : fs_ok s1) by (by apply quiet_ok).
  destruct (decide (ptr s (sv_i v) m = 0)) as [H0|H0].
  - destruct (uiomovezeros_moved curas 512 u Hu Hrw ltac:(lia)) as (u' & Hz & Hu' & Hmv).
    exists 0, s1, v, u'. split.
    + unfold sfs_blockio. rewrite fileblock_spec by lia. fold m. mrun He. cbn [negb Z.eqb]. rewrite H0. cbn [Z.eqb].
      assert (Hk : bool_decide (uio_rw u = UIO_READ) = true) by (by rewrite Hrw).
      mrun (kassert_true "uio->uio_rw == UIO_READ" _ s1 Hk). by apply on_uio_run.
    + eapply Hserved; [done|by apply image_zero|done|done|done|exact Hmv].
  - destruct (io_ptr _ _ Hi m ltac:(unfold slot; lia) H0) as [Hbv _].
    destruct (at_block_ok (ptr s (sv_i v) m) u Hu Hres) as [Hau Hab].
    destruct (rwblock_read curas 10 (ptr s (sv_i v) m) _ s1 Hs1 ltac:(unfold in_volume in *; cbn; lia) Hau Hab Hrw) as (r & u1 & d2 & He2 & Hq2 & Hu1 & Hr2).
    assert (Hq' : quiet (sfs_device s) d2).
    { destruct Hq as (? & ? & ?), Hq2 as (? & ? & ?). cbn in *. split_and!; congruence. }
    exists r, (set_device d2 s1), v, (back (ptr s (sv_i v) m) u u1). split.
    { eapply blockio_back; try done. pose proof (fo_nblocks _ Hs). lia. }
    change (set_device d2 s1) with (set_device d2 s). destruct Hr2 as [[-> Hmv]|[-> ->]].
    + destruct (back_moved _ _ _ _ _ Hmv Hres Hu Hu1) as [Hmv' Hu']. eapply Hserved; [done| |done|done|done|exact Hmv'].
      replace (block s1 (ptr s (sv_i v) m)) with (block s (ptr s (sv_i v) m)); [by apply image_block|].
      unfold block. cbn. by destruct Hq as (_ & _ & ->).
    + replace (back _ _ _) with u; [apply served_error; auto; lia|]. destruct Hu as [_ _ Hr _ _].
      unfold back, at_block. cbn. unfold SFS_BLOCKSIZE. replace (512 - 512 + uio_resid u) with (uio_resid u) by lia.
      rewrite u32_small by (unfold is_u32; lia). replace (_ + uio_offset u) with (uio_offset u) by lia. by destruct u.
Qed.

Lemma blockio_write sv s v u : fs_ok s -> svs s !! sv = Some v -> inode_ok s (sv_i v) -> uio_ok curas u -> offset_ok u ->
  uio_rw u = UIO_WRITE -> 512 <= uio_resid u -> uio_offset u mod 512 = 0 ->
  exists r s' v' u', sfs_blockio curas sv u s = Done (r, u') s' /\ served 512 sv s v u r s' v' u'.
Proof.
  intros Hs Hsv Hi Hu Ho Hrw Hres Hmod. pose proof Ho as [Ho1 Ho2]. set (m := uio_offset u / 512).
  pose proof (Z.div_mod (uio_offset u) 512 ltac:(lia)) as Hdm. fold m in Hdm. pose proof (fo_dev _ Hs) as Hdev.
  assert (Hm0 : 0 <= m) by (apply Z.div_pos; lia).
  destruct (decide (m < NSLOTS)) as [Hm|Hm].
  2:{ exists EFBIG, s, v, u. split.
      { unfold sfs_blockio. rewrite fileblock_spec by lia. fold m. by mrun (bmap_big curas s sv m (bool_decide (uio_rw u = UIO_WRITE)) ltac:(lia)). }
      rewrite <- (set_device_id s) at 2. apply served_error; try done; try lia; right; unfold FILE_MAX, SFS_BLOCKSIZE; lia. }
  destruct (bmap_alloc curas s sv v m Hs Hsv Hi ltac:(lia)) as (r & b & s1 & v1 & He & Hmap).
  replace true with (bool_decide (uio_rw u = UIO_WRITE)) in He by (by rewrite Hrw).
  pose proof Hmap as (Hs1 & Hsvs & Hino & Href & Hg & Hr). pose proof (fo_dev _ Hs1) as Hdev1.
  destruct Hr as [(-> & Hb0 & Hp & _ & _)|[Hr _]].
  2:{ exists r, s1, v1, u. split.
      { unfold sfs_blockio. rewrite fileblock_spec by lia. fold m. mrun He. by destruct Hr; subst. }
      pose proof (served_mapped sv m r b s v s1 v1 u (sfs_device s1) 512 r) as Hsm. rewrite set_device_id in Hsm.
      apply Hsm; auto; [lia|by apply quiet_refl]. }
  assert (Hbv : 0 < b < sb_nblocks s1).
  { pose proof (Hp m ltac:(lia)) as Hpm. rewrite Z.eqb_refl in Hpm. rewrite <- Hpm in Hb0 |- *.
    by apply (io_ptr s1 (sv_i v1) (gr_ok _ _ _ _ Hg) m ltac:(unfold slot; lia)). }
  destruct (at_block_ok b u Hu Hres) as [Hau Hab].
  destruct (rwblock_write curas 10 b _ s1 Hs1 ltac:(unfold in_volume; lia) Hau Hab Hrw) as (u1 & d2 & buf & He2 & Hd2 & Hbl2 & Hu1 & Hmv & Hw2).
  destruct (back_moved _ _ _ _ _ Hmv Hres Hu Hu1) as [Hmv' Hu'].
  exists 0, (set_device d2 s1), v1, (back b u u1). split.
  { eapply blockio_back; try done. pose proof (fo_nblocks _ Hs1). lia. }
  unfold served. split_and!; try done; [by apply fs_ok_device|auto|].
  exists 512%nat. split_and!; [lia|lia|].
  assert (Hla : 512 <= Z.of_nat (length (addrs u))) by (destruct Hu as [_ _ Hr _ _]; lia).
  eapply (step_write sv _ b s v s1 v1 _ u _ m 0 512); try done; try lia.
  - intros x. change (block (set_device d2 s1) x) with (sectors d2 x). rewrite Hw2. destruct (x =? b); [|done].
    rewrite splice_all; [done|]. unfold wdata. rewrite length_fmap, length_take_le by lia. symmetry. apply Hdev1.
  - intros d. eapply moved_io; [exact Hmv'|]. by rewrite Hrw.
Qed.

(** *** The whole transfer *)

Lemma partialio_served sv s v u len : fs_ok s -> svs s !! sv = Some v -> inode_ok s (sv_i v) -> uio_ok curas u -> offset_ok u ->
  0 <= len <= uio_resid u -> uio_offset u mod 512 + len <= 512 ->
  exists r s' v' u', sfs_partialio curas sv u (uio_offset u mod 512) len s = Done (r, u') s' /\ served len sv s v u r s' v' u'.
Proof. intros. destruct (uio_rw u) eqn:E; [by apply partialio_read|by apply partialio_write]. Qed.

Lemma blockio_served sv s v u : fs_ok s -> svs s !! sv = Some v -> inode_ok s (sv_i v) -> uio_ok curas u -> offset_ok u ->
  512 <= uio_resid u -> uio_offset u mod 512 = 0 ->
  exists r s' v' u', sfs_blockio curas sv u s = Done (r, u') s' /\ served 512 sv s v u r s' v' u'.
Proof. intros. destruct (uio_rw u) eqn:E; [by apply blockio_read|by apply blockio_write]. Qed.

Lemma served_none sv s v u : fs_ok s -> svs s !! sv = Some v -> inode_ok s (sv_i v) -> uio_ok curas u -> served 0 sv s v u 0 s v u.
Proof.
  intros Hs Hsv Hi Hu. unfold served. split_and!; try done; [by rewrite insert_id|auto|]. exists O. split_and!; [done|done|].
  rewrite <- (set_device_id s) at 2. apply step_0; [done|]. apply quiet_refl, Hs.
Qed.

Lemma served_le req req' sv s v u r s' v' u' : served req sv s v u r s' v' u' -> r <> 0 -> req <= req' -> served req' sv s v u r s' v' u'.
Proof.
  intros (? & ? & ? & ? & ? & He & n & ? & ? & ?) Hr Hle. unfold served. split_and!; try done.
  - destruct He as [?|[?|[?|[? ?]]]]; auto. do 3 right. split; [done|lia].
  - exists n. split_and!; [lia|done|done].
Qed.

(** What the rest of a transfer starts from. *)
Lemma served_next req sv s v u s1 v1 u1 : served req sv s v u 0 s1 v1 u1 -> 0 <= req -> offset_ok u ->
  fs_ok s1 /\ svs s1 !! sv = Some v1 /\ inode_ok s1 (sv_i v1) /\ uio_ok curas u1 /\ offset_ok u1 /\
  uio_offset u1 = uio_offset u + req /\ uio_resid u1 = uio_resid u - req /\ uio_rw u1 = uio_rw u.
Proof.
  intros (Hs & Hsv & _ & _ & Hu & _ & n & _ & Hn & [Hm He _ _ _]) Hreq [Ho1 Ho2]. specialize (Hn eq_refl).
  pose proof (im_offset _ _ _ _ Hm). pose proof (im_resid _ _ _ _ Hm). pose proof (im_same _ _ _ _ Hm) as (_ & ? & _ & _).
  unfold offset_ok. split_and!; try done; try lia; [rewrite Hsv; by rewrite lookup_insert_eq|by apply He].
Qed.

Lemma served_trans req1 req2 sv s v u s1 v1 u1 r s2 v2 u2 : fs_ok s -> uio_ok curas u -> offset_ok u -> 0 <= req1 <= uio_resid u -> r = 0 \/ 0 < req2 ->
  served req1 sv s v u 0 s1 v1 u1 -> served req2 sv s1 v1 u1 r s2 v2 u2 -> served (req1 + req2) sv s v u r s2 v2 u2.
Proof.
  intros Hs Hu [Ho _] Hr1 Hr2 (_ & Hsv1 & Hi1 & Hc1 & _ & _ & n1 & _ & Hn1 & St1) (Hs2 & Hsv2 & Hi2 & Hc2 & Hu2 & Hr & n2 & Hle & Hn2 & St2).
  specialize (Hn1 eq_refl). unfold served. split_and!; try congruence.
  - rewrite Hsv2, Hsv1. by rewrite insert_insert_eq.
  - by eapply kept_trans.
  - pose proof (im_same _ _ _ _ (st_uio _ _ _ _ _ _ _ St1)) as (_ & Hrw & _ & _).
    pose proof (im_offset _ _ _ _ (st_uio _ _ _ _ _ _ _ St1)) as Hoff. rewrite Hrw, Hoff in Hr.
    destruct Hr as [?|[?|[?|[? ?]]]]; auto. do 3 right. split; [done|]. destruct Hr2; [by subst|lia].
  - exists (n1 + n2)%nat. split_and!; [lia|intros ->; specialize (Hn2 eq_refl); lia|].
    eapply (step_trans n1 n2); try done. lia.
Qed.

Lemma blocks_served n : forall sv s v u, fs_ok s -> svs s !! sv = Some v -> inode_ok s (sv_i v) -> uio_ok curas u -> offset_ok u ->
  512 * Z.of_nat n <= uio_resid u -> uio_offset u mod 512 = 0 ->
  exists r s' v' u', sfs_blocks curas sv n u s = Done (r, u') s' /\ (n = O -> r = 0) /\ served (512 * Z.of_nat n) sv s v u r s' v' u'.
Proof.
  induction n as [|n IH]; intros sv s v u Hs Hsv Hi Hu Ho Hres Hmod; cbn [sfs_blocks].
  { exists 0, s, v, u. split_and!; [done|done|]. by apply served_none. }
  destruct (blockio_served sv s v u Hs Hsv Hi Hu Ho ltac:(lia) Hmod) as (r & s1 & v1 & u1 & He & Hv1). mrun He.
  destruct (Z.eqb_spec r 0) as [->|Hr]; cbn [negb].
  2:{ exists r, s1, v1, u1. split_and!; [done|done|]. eapply served_le; [done|done|lia]. }
  destruct (served_next _ _ _ _ _ _ _ _ Hv1 ltac:(lia) Ho) as (Hs1 & Hsv1 & Hi1 & Hu1 & Ho1 & Hoff & Hres1 & _).
  destruct (IH sv s1 v1 u1 Hs1 Hsv1 Hi1 Hu1 Ho1) as (r & s2 & v2 & u2 & He2 & Hn0 & Hv2); [lia| |].
  { rewrite Hoff. rewrite <- Z.add_mod_idemp_r by lia. change (512 mod 512) with 0. by rewrite Z.add_0_r. }
  exists r, s2, v2, u2. split_and!; [done|done|]. replace (512 * Z.of_nat (S n)) with (512 + 512 * Z.of_nat n) by lia.
  eapply served_trans; [done|done|done| | |exact Hv1|exact Hv2]; [lia|]. destruct n; [by left; apply Hn0|lia].
Qed.

(** The leading partial block. *)
Lemma head_served sv s v u : fs_ok s -> svs s !! sv = Some v -> inode_ok s (sv_i v) -> uio_ok curas u -> offset_ok u -> 0 <= uio_resid u ->
  let blkoff := u32 (Z.rem (uio_offset u) SFS_BLOCKSIZE) in
  exists len r s' v' u', 0 <= len <= uio_resid u /\ (len = uio_resid u \/ (uio_offset u + len) mod 512 = 0) /\
    (if negb (blkoff =? 0) then
       let len := SFS_BLOCKSIZE - blkoff in
       let len := if uio_resid u <? len then uio_resid u else len in
       sfs_partialio curas sv u blkoff len
     else mret (0, u)) s = Done (r, u') s' /\ served len sv s v u r s' v' u'.
Proof.
  intros Hs Hsv Hi Hu Ho Hres blkoff. pose proof Ho as [Ho1 Ho2]. pose proof (Z.mod_pos_bound (uio_offset u) 512 ltac:(lia)) as Hb.
  assert (Hbk : blkoff = uio_offset u mod 512).
  { unfold blkoff, SFS_BLOCKSIZE. rewrite Z.rem_mod_nonneg by lia. apply u32_small. unfold is_u32. lia. }
  rewrite Hbk. destruct (Z.eqb_spec (uio_offset u mod 512) 0) as [H0|H0]; cbn [negb].
  { exists 0, 0, s, v, u. split_and!; try lia; [right; by rewrite Z.add_0_r|done|by apply served_none]. }
  set (len := if uio_resid u <? SFS_BLOCKSIZE - uio_offset u mod 512 then _ else _).
  assert (Hl : 0 <= len <= uio_resid u /\ uio_offset u mod 512 + len <= 512 /\ (len = uio_resid u \/ len = 512 - uio_offset u mod 512)).
  { unfold len, SFS_BLOCKSIZE. destruct (Z.ltb_spec (uio_resid u) (512 - uio_offset u mod 512)); lia. }
  destruct Hl as (Hl1 & Hl2 & Hl3). destruct (partialio_served sv s v u len Hs Hsv Hi Hu Ho Hl1 Hl2) as (r & s' & v' & u' & He & Hv).
  exists len, r, s', v', u'. split_and!; try done; [lia|lia|]. destruct Hl3 as [|Hl3]; [by left|right].
  rewrite Hl3. pose proof (Z.div_mod (uio_offset u) 512 ltac:(lia)).
  replace (uio_offset u + (512 - uio_offset u mod 512)) with ((uio_offset u / 512 + 1) * 512) by lia. apply Z.mod_mul. lia.
Qed.

Lemma io_blocks_served sv s v u : fs_ok s -> svs s !! sv = Some v -> inode_ok s (sv_i v) -> uio_ok curas u -> offset_ok u -> 0 <= uio_resid u ->
  exists r s' v' u', sfs_io_blocks curas sv u s = Done (r, u') s' /\ served (uio_resid u) sv s v u r s' v' u'.
Proof.
  intros Hs Hsv Hi Hu Ho Hres. unfold sfs_io_blocks.
  destruct (head_served sv s v u Hs Hsv Hi Hu Ho Hres) as (len & r & s1 & v1 & u1 & Hlen & Hal & He & Hv1). mrun He.
  destruct (Z.eqb_spec r 0) as [->|Hr]; cbn [negb orb].
  2:{ exists r, s1, v1, u1. split; [done|]. eapply served_le; [done|done|lia]. }
  destruct (served_next _ _ _ _ _ _ _ _ Hv1 ltac:(lia) Ho) as (Hs1 & Hsv1 & Hi1 & Hu1 & Ho1 & Hoff & Hres1 & _).
  destruct (Z.eqb_spec (uio_resid u1) 0) as [H0|H0].
  { exists 0, s1, v1, u1. split; [done|]. by replace (uio_resid u) with len by lia. }
  destruct Hal as [Hal|Hal]; [lia|]. rewrite <- Hoff in Hal.
  assert (Hk : (Z.rem (uio_offset u1) SFS_BLOCKSIZE =? 0) = true).
  { destruct Ho1. unfold SFS_BLOCKSIZE. rewrite Z.rem_mod_nonneg by lia. by apply Z.eqb_eq. }
  mrun (kassert_true "uio->uio_offset % SFS_BLOCKSIZE == 0" _ s1 Hk). change SFS_BLOCKSIZE with 512.
  pose proof (Z.div_mod (uio_resid u1) 512 ltac:(lia)) as Hdm. pose proof (Z.mod_pos_bound (uio_resid u1) 512 ltac:(lia)) as Hmb.
  set (n := Z.to_nat (uio_resid u1 / 512)). assert (Hn : Z.of_nat n = uio_resid u1 / 512) by (apply Z2Nat.id, Z.div_pos; lia).
  destruct (blocks_served n sv s1 v1 u1 Hs1 Hsv1 Hi1 Hu1 Ho1 ltac:(lia) Hal) as (r & s2 & v2 & u2 & He2 & Hn0 & Hv2). mrun He2.
  assert (Hv12 : served (len + 512 * Z.of_nat n) sv s v u r s2 v2 u2) 
    by (eapply served_trans; [done|done|done| | |exact Hv1|exact Hv2]; [lia|destruct n; [by left; apply Hn0|lia]]).
  destruct (Z.eqb_spec r 0) as [->|Hr]; cbn [negb].
  2:{ exists r, s2, v2, u2. split; [done|]. eapply served_le; [done|done|lia]. }
  destruct (served_next _ _ _ _ _ _ _ _ Hv2 ltac:(lia) Ho1) as (Hs2 & Hsv2 & Hi2 & Hu2 & Ho2 & Hoff2 & Hres2 & _).
  assert (Hk2 : (uio_resid u2 <? 512) = true) by lia.
  mrun (kassert_true "uio->uio_resid < SFS_BLOCKSIZE" _ s2 Hk2).
  destruct (Z.ltb_spec 0 (uio_resid u2)).
  - assert (Hm2 : uio_offset u2 mod 512 = 0).
    { rewrite Hoff2, Z.mul_comm, Z.mod_add by lia. done. }
    destruct (partialio_served sv s2 v2 u2 (uio_resid u2) Hs2 Hsv2 Hi2 Hu2 Ho2 ltac:(lia) ltac:(lia)) as (r & s3 & v3 & u3 & He3 & Hv3).
    rewrite Hm2 in He3. exists r, s3, v3, u3. split; [done|].
    replace (uio_resid u) with (len + 512 * Z.of_nat n + uio_resid u2) by lia.
    eapply served_trans; [done|done|done| | |exact Hv12|exact Hv3]; lia.
  - exists 0, s2, v2, u2. split; [done|]. by replace (uio_resid u) with (len + 512 * Z.of_nat n) by lia.
Qed.

(** ** sfs_io *)

(** How many bytes a read gets: up to the end of the file. *)
Definition readable (i : dinode) (u : uio) : Z := Z.max 0 (Z.min (uio_resid u) (sfi_size i - uio_offset u)).

Lemma set_resid_ok u r : uio_ok curas u -> 0 <= r <= uio_resid u -> uio_ok curas (set_resid r u).
Proof. intros [Hok Hnd Hr Hacc Hsp] H. split; try done. change (addrs (set_resid r u)) with (addrs u). cbn. lia. Qed.

Lemma io_moved_resid n data u u' x : 0 <= x -> uio_resid u' + x = uio_resid u - Z.of_nat n ->
  io_moved n data (set_resid (uio_resid u - x) u) u' -> io_moved n data u (set_resid (uio_resid u' + x) u').
Proof. intros Hx He [A O R S Rd Wr]. by split. Qed.

(** After the update of the size. *)
Definition grow (n : nat) (u : uio) (v v1 : sfs_vnode) : sfs_vnode :=
  if negb (Nat.eqb n 0) && (sfi_size (sv_i v) <? uio_offset u + Z.of_nat n)
  then dirty (set_size (uio_offset u + Z.of_nat n)) v1 else v1.

Lemma set_resid_id u : set_resid (uio_resid u) u = u.
Proof. by destruct u. Qed.

Lemma sfs_io_read sv s v u : fs_ok s -> svs s !! sv = Some v -> inode_ok s (sv_i v) -> uio_ok curas u -> offset_ok u ->
  uio_rw u = UIO_READ ->
  exists r n u' d', sfs_io curas sv u s = Done (r, u') (set_device d' s) /\ quiet (sfs_device s) d' /\
    (r = 0 /\ Z.of_nat n = readable (sv_i v) u \/ r = EIO /\ Z.of_nat n <= readable (sv_i v) u) /\
    io_moved n (fbytes s (sv_i v) (uio_offset u) n) u u'.
Proof.
  intros Hs Hsv Hi Hu Ho Hrw. pose proof Ho as [Ho1 Ho2]. pose proof (uk_resid _ _ Hu) as Hres. pose proof (io_size _ _ Hi) as Hsz.
  assert (Hget : get_sv sv s = Done v s) by (unfold get_sv, deref; by rewrite Hsv).
  unfold sfs_io. mrun Hget. unfold readable. rewrite Hrw, bool_decide_true by done. cbn [andb]. set (size := sfi_size (sv_i v)) in *.
  destruct (Z.leb_spec size (uio_offset u)).
  { exists 0, O, u, (sfs_device s). rewrite set_device_id. split_and!; [done|apply quiet_refl, Hs|left; split; [done|lia]|apply io_moved_refl]. }
  set (endpos := uio_offset u + uio_resid u). set (x := if size <? endpos then u32 (endpos - size) else 0).
  assert (Hx : x = Z.max 0 (endpos - size) /\ x <= uio_resid u /\ (size < endpos -> x < uio_resid u)).
  { unfold x, endpos in *. destruct (Z.ltb_spec size (uio_offset u + uio_resid u)); [rewrite u32_small by (unfold is_u32; lia)|]; lia. }
  destruct Hx as (Hx & Hx1 & Hx2).
  assert (Hk : negb (size <? endpos) || (x <? uio_resid u) = true) by (destruct (Z.ltb_spec size endpos); [cbn; lia|done]).
  mrun (kassert_true "uio->uio_resid > extraresid" _ s Hk). rewrite u32_small by (unfold is_u32; lia).
  set (u0 := set_resid (uio_resid u - x) u). assert (Hu0 : uio_ok curas u0) by (apply set_resid_ok; [done|lia]).
  destruct (io_blocks_served sv s v u0 Hs Hsv Hi Hu0) as (r & s1 & v1 & u1 & He & Hs1 & Hsv1 & _ & _ & Hu1 & Hr & n & Hn & Hn0 & [Hm _ Hrd _ _]);
    [unfold u0; split; cbn; lia|unfold u0; cbn; lia|].
  mrun He. destruct (Hrd Hrw) as (Hv1 & d' & -> & Hq). clear Hrd.
  pose proof (im_same _ _ _ _ Hm) as (_ & Hrw1 & _ & _). pose proof (im_resid _ _ _ _ Hm) as Hr1. cbn in Hrw1, Hr1, Hn, Hn0.
  assert (Hget1 : get_sv sv (set_device d' s) = Done v (set_device d' s)) by (unfold get_sv, deref; cbn; by rewrite Hsv).
  mrun Hget1. rewrite Hrw1, Hrw. change (bool_decide (UIO_READ = UIO_WRITE)) with false. rewrite andb_false_r. cbn [andb].
  rewrite bind_mret. rewrite u32_small by (unfold is_u32; lia).
  exists r, n, (set_resid (uio_resid u1 + x) u1), d'. split_and!; [done|done| |].
  - destruct Hr as [-> |[-> |[[_ ?]|[_ Hbig]]]]; [left; split; [done|specialize (Hn0 eq_refl); lia]|right; split; [done|lia]| |].
    + cbn in *. congruence.
    + exfalso. unfold u0, FILE_MAX in Hbig. cbn in Hbig. lia.
  - apply io_moved_resid; [lia|lia|exact Hm].
Qed.

(** The bytes of the file from [off] on were replaced by [data]: what else changed. *)
Record written (sv off : Z) (data : list Z) (s : sfs_fs) (v : sfs_vnode) (s' : sfs_fs) (v' : sfs_vnode) : Prop := {
  wr_ok : fs_ok s';
  wr_svs : svs s' = <[sv := v']> (svs s);
  wr_ino : sv_ino v' = sv_ino v /\ kept v v';
  wr_inode : inode_ok s' (sv_i v');
  wr_size : sfi_size (sv_i v') =
    if Nat.eqb (length data) 0 then sfi_size (sv_i v) else Z.max (sfi_size (sv_i v)) (off + Z.of_nat (length data));
  wr_kind : sfi_type (sv_i v') = sfi_type (sv_i v) /\ sfi_linkcount (sv_i v') = sfi_linkcount (sv_i v) /\ sfi_waste (sv_i v') = sfi_waste (sv_i v);
  wr_bytes : forall k, 0 <= k < FILE_MAX -> fbyte s' (sv_i v') k =
    if (off <=? k) && (k <? off + Z.of_nat (length data)) then default 0 (data !! Z.to_nat (k - off)) else fbyte s (sv_i v) k;
  wr_used : forall x, 0 <= x -> used s x -> used s' x;
  wr_new : forall x, 0 <= x -> used s' x -> used s x \/ exists m, slot m /\ ptr s' (sv_i v') m = x;
  wr_block : forall x, 0 <= x -> used s x -> (forall m, slot m -> ptr s (sv_i v) m <> 0 -> ptr s (sv_i v) m <> x) -> block s' x = block s x;
  wr_keep : forall m, slot m -> ptr s (sv_i v) m <> 0 -> ptr s' (sv_i v') m = ptr s (sv_i v) m;
  wr_fresh : forall m, slot m -> ptr s' (sv_i v') m <> ptr s (sv_i v) m -> ~ used s (ptr s' (sv_i v') m);
  wr_fs : sb_nblocks s' = sb_nblocks s /\ sfs_vnodes s' = sfs_vnodes s /\ fixed s s';
  wr_max : length data = O \/ off + Z.of_nat (length data) <= FILE_MAX
}.

Lemma resize_inode s i x : inode_ok s i -> 0 <= x <= FILE_MAX -> inode_ok s (set_size x i).
Proof. intros [A B C D] Hx. by split. Qed.

(** The file was extended in place, then its size was set. *)
Lemma written_resize sv off data s v s1 v1 v' : fs_ok s1 -> inode_ok s (sv_i v) -> svs s1 = <[sv := v1]> (svs s) ->
  extended s (sv_i v) s1 (sv_i v1) -> (length data = O \/ off + Z.of_nat (length data) <= FILE_MAX) ->
  (forall k, 0 <= k < FILE_MAX -> fbyte s1 (sv_i v1) k =
    if (off <=? k) && (k <? off + Z.of_nat (length data)) then default 0 (data !! Z.to_nat (k - off)) else fbyte s (sv_i v) k) ->
  sv_ino v' = sv_ino v /\ kept v v' -> sv_i v' = set_size (sfi_size (sv_i v')) (sv_i v1) ->
  sfi_size (sv_i v') = (if Nat.eqb (length data) 0 then sfi_size (sv_i v) else Z.max (sfi_size (sv_i v)) (off + Z.of_nat (length data))) ->
  0 <= off -> written sv off data s v (set_svs (<[sv := v']> (svs s1)) s1) v'.
Proof.
  intros Hs1 Hi Hsv1 [O M U N B K F X] Hmax Hb Hino Hv' Hsize Hoff. pose proof (io_size _ _ Hi) as Hsz.
  set (s' := set_svs (<[sv := v']> (svs s1)) s1). injection M as Hmsz Hmty Hmlc Hmw.
  assert (Hp : forall m, ptr s' (sv_i v') m = ptr s1 (sv_i v1) m) by (intros m; by rewrite Hv').
  split; try done.
  - by destruct Hs1.
  - cbn. rewrite Hsv1. by rewrite insert_insert_eq.
  - rewrite Hv'. apply resize_inode; [by destruct O|]. rewrite Hsize. unfold FILE_MAX in *. destruct (Nat.eqb_spec (length data) 0); lia.
  - by rewrite Hv'.
  - intros k Hk. rewrite <- Hb by done. by rewrite Hv'.
  - intros x Hx Hu. destruct (N x Hx Hu) as [|(m & Hm & Hpm)]; [by left|right]. exists m. by rewrite Hp.
  - intros m Hms Hm0. rewrite Hp. by apply K.
  - intros m Hms. rewrite Hp. by apply F.
Qed.

Lemma sfs_io_write sv s v u : fs_ok s -> svs s !! sv = Some v -> inode_ok s (sv_i v) -> uio_ok curas u -> offset_ok u ->
  uio_rw u = UIO_WRITE ->
  exists r n s' v' u', sfs_io curas sv u s = Done (r, u') s' /\ written sv (uio_offset u) (wdata u n) s v s' v' /\ io_moved n [] u u' /\
    (r = 0 /\ Z.of_nat n = uio_resid u \/
     (r = EIO \/ r = ENOSPC \/ r = EFBIG /\ FILE_MAX < uio_offset u + Z.max 1 (uio_resid u)) /\ Z.of_nat n <= uio_resid u).
Proof.
  intros Hs Hsv Hi Hu Ho Hrw. pose proof Ho as [Ho1 Ho2]. pose proof (uk_resid _ _ Hu) as Hres. pose proof (io_size _ _ Hi) as Hsz.
  assert (Hget : get_sv sv s = Done v s) by (unfold get_sv, deref; by rewrite Hsv).
  unfold sfs_io. mrun Hget. rewrite Hrw. change (bool_decide (UIO_WRITE = UIO_READ)) with false. cbn [andb].
  mrun (kassert_true "uio->uio_resid > extraresid" (negb false || (0 <? uio_resid u)) s eq_refl).
  rewrite Z.sub_0_r. rewrite u32_small by (unfold is_u32; lia). rewrite set_resid_id.
  destruct (io_blocks_served sv s v u Hs Hsv Hi Hu Ho ltac:(lia)) as (r & s1 & v1 & u1 & He & Hs1 & Hsv1 & Hino & Href & Hu1 & Hr & n & Hn & Hn0 & [Hm Hx _ Hb Hmax]).
  mrun He. pose proof (im_same _ _ _ _ Hm) as (_ & Hrw1 & _ & _). pose proof (im_resid _ _ _ _ Hm) as Hr1. pose proof (im_offset _ _ _ _ Hm) as Hoff.
  assert (Hlk : svs s1 !! sv = Some v1) by (rewrite Hsv1; apply lookup_insert_eq).
  assert (Hget1 : get_sv sv s1 = Done v1 s1) by (unfold get_sv, deref; by rewrite Hlk).
  mrun Hget1. rewrite Hrw1, Hrw. change (bool_decide (UIO_WRITE = UIO_WRITE)) with true. rewrite andb_true_r.
  pose proof (ex_meta _ _ _ _ Hx) as Hmeta. unfold meta in Hmeta. injection Hmeta as Hmsz Hmty Hmlc Hmw. rewrite Hmsz, Hoff, Hr1.
  assert (Hc : negb (uio_resid u - Z.of_nat n =? uio_resid u) = negb (Nat.eqb n 0)).
  { f_equal. destruct (Nat.eqb_spec n 0); zbool. }
  rewrite Hc. rewrite Z.add_0_r. rewrite (u32_small (uio_resid u - Z.of_nat n)) by (unfold is_u32; lia).
  set (v' := grow n u v v1).
  assert (Hv' : sv_i v' = set_size (sfi_size (sv_i v')) (sv_i v1)) by (unfold v', grow; destruct (_ && _); [done|by destruct (sv_i v1)]).
  assert (Hsize : sfi_size (sv_i v') = if Nat.eqb n 0 then sfi_size (sv_i v) else Z.max (sfi_size (sv_i v)) (uio_offset u + Z.of_nat n)).
  { unfold v', grow. destruct (Nat.eqb n 0); cbn [negb andb]; [done|].
    destruct (Z.ltb_spec (sfi_size (sv_i v)) (uio_offset u + Z.of_nat n)); cbn [dirty sv_i set_size sfi_size]; lia. }
  set (s' := set_svs (<[sv := v']> (svs s1)) s1).
  assert (Hrun : (if negb (Nat.eqb n 0) && (sfi_size (sv_i v) <? uio_offset u + Z.of_nat n)
      then update_sv sv (dirty (set_size (u32 (uio_offset u + Z.of_nat n)))) else mret tt) s1 = Done tt s').
  { unfold s', v', grow. destruct (negb (Nat.eqb n 0) && _) eqn:E.
    - assert (FILE_MAX < 2 ^ 32) by done. assert (n <> O) by (by intros ->).
      rewrite u32_small by (unfold is_u32; lia). unfold update_sv. by mrun Hget1.
    - rewrite (insert_id (svs s1)) by done. by destruct s1. }
  mrun Hrun.
  exists r, n, s', v', (set_resid (uio_resid u - Z.of_nat n) u1). split_and!; [done| | |].
  - assert (Hlw : length (wdata u n) = n) by (unfold wdata; rewrite length_fmap, length_take; lia).
    apply (written_resize sv _ _ s v s1 v1); rewrite ?Hlw; try done.
    + intros k Hk. specialize (Hb k Hk). rewrite Hrw in Hb. change (bool_decide (UIO_WRITE = UIO_WRITE)) with true in Hb. exact Hb.
    + unfold v', grow. destruct (_ && _); [|done]. split; [done|]. eapply kept_trans; [done|apply kept_dirty].
  - rewrite <- Hr1, set_resid_id. eapply io_moved_ext; [|exact Hm]. by rewrite Hrw.
  - destruct Hr as [->|Hr]; [left; auto|right; split; [|lia]]. destruct Hr as [->|[[-> _]|[-> ?]]]; auto.
Qed.

(** Another file on the volume. *)
Definition apart (s : sfs_fs) (i j : dinode) : Prop :=
  forall n m, slot n -> slot m -> ptr s i n <> 0 -> ptr s i n <> ptr s j m.

Lemma written_apart sv off data s v s' v' j : written sv off data s v s' v' -> inode_ok s j -> apart s (sv_i v) j ->
  inode_ok s' j /\ apart s' (sv_i v') j /\ forall k, 0 <= k < FILE_MAX -> fbyte s' j k = fbyte s j k.
Proof.
  intros Hw Hj Hap. pose proof (wr_fs _ _ _ _ _ _ _ Hw) as (Hnb & _ & _).
  assert (Hblk : forall m, slot m -> ptr s j m <> 0 -> block s' (ptr s j m) = block s (ptr s j m)).
  { intros m Hm H0. destruct (io_ptr _ _ Hj m Hm H0). apply (wr_block _ _ _ _ _ _ _ Hw); [lia|done|].
    intros q Hq _ He. apply (Hap q m Hq Hm); congruence. }
  assert (Hind : sfi_indirect j <> 0 -> block s' (sfi_indirect j) = block s (sfi_indirect j)).
  { intros H0. apply (Hblk (-1) slot_indirect). done. }
  assert (Hp : forall m, ptr s' j m = ptr s j m) by (intros m; by apply ptr_ext).
  split_and!.
  - apply (inode_ok_frame s); try done. intros m Hm H0. destruct (io_ptr _ _ Hj m Hm H0). apply (wr_used _ _ _ _ _ _ _ Hw); [lia|done].
  - intros q m Hq Hm H0 He. rewrite Hp in He. destruct (decide (ptr s' (sv_i v') q = ptr s (sv_i v) q)) as [Hsame|Hne].
    + rewrite Hsame in *. by apply (Hap q m).
    + apply (wr_fresh _ _ _ _ _ _ _ Hw q Hq Hne). rewrite He in *. by apply (io_ptr _ _ Hj m).
  - intros k Hk. unfold fbyte. rewrite Hp. destruct (Z.eqb_spec (ptr s j (k / 512)) 0); [done|]. rewrite Hblk; [done| |done].
    unfold FILE_MAX, SFS_BLOCKSIZE in Hk. unfold slot. split; [assert (0 <= k / 512) by (apply Z.div_pos; lia); lia|].
    apply Z.div_lt_upper_bound; lia.
Qed.

End SfsIo.
End SfsIo.
