(* ===== verification/SfsTrunc.v ===== *)
(** * Truncation of SFS files: which blocks [sfs_itrunc] frees *)
From S2P Require Import Prelude Bitmap Copyinout Uio Lhd Sfs SfsErrors SfsFormat SfsProofs SfsIo.
Import Bitmap Copyinout Uio Lhd Sfs SfsErrors SfsFormat SfsProofs SfsIo.

Module SfsTrunc.

Section SfsTrunc.
Context {HW : LhdHardware} (curas : Z) {HL : LhdLaws}.

(** From [s] to [s'] the file of inode [i] lost blocks and became [i']: a slot keeps its
    block or is empty, and exactly the blocks that it lost became free. *)
Record shrunk (s : sfs_fs) (i : dinode) (s' : sfs_fs) (i' : dinode) : Prop := {
  sh_fs : fs_ok s';
  sh_direct : length (sfi_direct i') = 15%nat;
  sh_kind : sfi_type i' = sfi_type i /\ sfi_linkcount i' = sfi_linkcount i /\ sfi_waste i' = sfi_waste i;
  sh_same : sb_nblocks s' = sb_nblocks s /\ sfs_vnodes s' = sfs_vnodes s /\ fixed s s';
  sh_ptr : forall n, slot n -> ptr s' i' n = ptr s i n \/ ptr s' i' n = 0;
  sh_used : forall x, 0 < x -> used s' x <-> used s x /\ ~ exists n, slot n /\ ptr s i n = x /\ ptr s' i' n = 0;
  sh_block : forall x, 0 <= x -> x = 0 \/ x <> sfi_indirect i -> block s' x = block s x
}.

Lemma shrunk_refl s i d' : fs_ok s -> inode_ok s i -> quiet (sfs_device s) d' -> shrunk s i (set_device d' s) i.
Proof.
  intros Hs Hi Hq. assert (Hp : forall n, ptr (set_device d' s) i n = ptr s i n).
  { intros n. apply ptr_ext. intros _. unfold block. cbn. by destruct Hq as (_ & _ & ->). }
  split; try done.
  - by apply quiet_ok.
  - apply Hi.
  - intros n _. left. apply Hp.
  - intros x Hx. split; [|tauto]. intros Hu. split; [exact Hu|]. intros (n & _ & H1 & H2). rewrite Hp in H2. lia.
  - intros x _ _. unfold block. cbn. by destruct Hq as (_ & _ & ->).
Qed.

Lemma shrunk_trans s i s1 i1 s2 i2 : shrunk s i s1 i1 -> shrunk s1 i1 s2 i2 -> shrunk s i s2 i2.
Proof.
  intros [F1 D1 (K1 & K1' & K1'') (A1 & A2 & A3) P1 U1 B1] [F2 D2 (K2 & K2' & K2'') (C1 & C2 & C3) P2 U2 B2].
  assert (Hmono : forall n, slot n -> ptr s1 i1 n = 0 -> ptr s2 i2 n = 0) by (intros n Hn H; destruct (P2 n Hn); congruence).
  split; try done.
  - split_and!; congruence.
  - split; [congruence|]. split; [congruence|by eapply fixed_trans].
  - intros n Hn. destruct (P2 n Hn) as [->|]; [by apply P1|by right].
  - intros x Hx. rewrite (U2 x Hx), (U1 x Hx). split.
    + intros [[Hu H1] H2]. split; [done|]. intros (n & Hn & Hp & H0). destruct (P1 n Hn) as [He|He].
      * apply H2. exists n. split_and!; [done|congruence|done].
      * apply H1. by exists n.
    + intros [Hu H]. split_and!; [done|..]; intros (n & Hn & Hp & H0); apply H; exists n; split_and!; auto.
      destruct (P1 n Hn); [congruence|lia].
  - intros x Hx Hne. rewrite B2; [by apply B1|done|]. destruct (decide (x = 0)) as [|H0]; [by left|right]. intros ->.
    pose proof (P1 (-1) slot_indirect) as Hi. rewrite !ptr_indirect in Hi. destruct Hne, Hi; congruence.
Qed.

Lemma shrunk_inode s i s' i' : inode_ok s i -> shrunk s i s' i' -> 0 <= sfi_size i' <= FILE_MAX -> inode_ok s' i'.
Proof.
  intros Hi [F D _ (A & _ & _) P U _] Hsz. split; try done.
  - intros n Hn H0. destruct (P n Hn) as [He|]; [|done]. rewrite He in H0 |- *. destruct (io_ptr _ _ Hi n Hn H0) as [Hr Hu].
    rewrite A. split; [done|]. apply U; [lia|]. split; [done|]. intros (m & Hm & Hp & Hm0).
    assert (m = n) as -> by (apply (io_inj _ _ Hi); [done|done|congruence|done]). congruence.
  - intros n m Hn Hm H0 He. destruct (P n Hn) as [Hpn|]; [|done]. destruct (P m Hm) as [Hpm|Hpm]; [|congruence].
    apply (io_inj _ _ Hi); congruence.
Qed.

(** ** The direct blocks *)

(** Slot [k] of the direct blocks is emptied. *)
Lemma drop_direct sv s v k b : fs_ok s -> svs s !! sv = Some v -> inode_ok s (sv_i v) -> (k < 15)%nat -> sfi_direct (sv_i v) !! k = Some b -> b <> 0 ->
  let v' := dirty (set_direct k 0) v in
  exists s', (sfs_bfree b ;; update_sv sv (dirty (set_direct k 0))) s = Done tt s' /\ svs s' = <[sv := v']> (svs s) /\
    sfs_device s' = sfs_device s /\ shrunk s (sv_i v) s' (sv_i v') /\
    forall n, slot n -> ptr s' (sv_i v') n = if n =? Z.of_nat k then 0 else ptr s (sv_i v) n.
Proof.
  intros Hs Hsv Hi Hk Hb Hb0 v'. assert (Hpk : ptr s (sv_i v) (Z.of_nat k) = b).
  { unfold ptr, SFS_NDIRECT. replace (Z.of_nat k =? -1) with false by lia. replace (Z.of_nat k <? 15) with true by lia. by rewrite Nat2Z.id, Hb. }
  assert (Hsk : slot (Z.of_nat k)) by (unfold slot, NSLOTS; lia).
  destruct (io_ptr _ _ Hi (Z.of_nat k) Hsk ltac:(by rewrite Hpk)) as [Hbr Hbu]. rewrite Hpk in Hbr, Hbu.
  destruct (bfree_spec s b Hs Hbr Hbu) as (s1 & He & Hs1 & (S1 & S2 & S3 & S4) & Hdev & Hused).
  exists (set_svs (<[sv := v']> (svs s1)) s1). mrun He. unfold update_sv.
  assert (Hget : get_sv sv s1 = Done v s1) by (unfold get_sv, deref; rewrite S3; by rewrite Hsv).
  mrun Hget. split; [done|]. split; [cbn; by rewrite S3|]. split; [done|].
  assert (Hp : forall n, slot n -> ptr (set_svs (<[sv := v']> (svs s1)) s1) (sv_i v') n = if n =? Z.of_nat k then 0 else ptr s (sv_i v) n).
  { intros n Hn. pose proof (ptr_set_direct s s1 (sv_i v) (Z.of_nat k) 0 n Hi ltac:(unfold SFS_NDIRECT; lia) Hn) as H. rewrite Nat2Z.id in H.
    apply H. intros _. unfold block. by rewrite Hdev. }
  split; [|exact Hp]. split; try done.
  - by destruct Hs1.
  - cbn. rewrite length_insert. apply Hi.
  - intros n Hn. rewrite Hp by done. destruct (n =? Z.of_nat k); auto.
  - intros x Hx. change (used (set_svs (<[sv := v']> (svs s1)) s1) x) with (used s1 x). rewrite (Hused x) by lia. split.
    + intros [Hne Hu]. split; [done|]. intros (n & Hn & Hpn & H0). rewrite Hp in H0 by done.
      destruct (Z.eqb_spec n (Z.of_nat k)); [subst; congruence|lia].
    + intros [Hu Hno]. split; [|done]. intros ->. apply Hno. exists (Z.of_nat k). rewrite Hp by done. by rewrite Z.eqb_refl.
  - intros x _ _. unfold block. cbn. by rewrite Hdev.
Qed.

Lemma trunc_direct_spec sv bl n : forall k s v, (k + n = 15)%nat -> fs_ok s -> svs s !! sv = Some v -> inode_ok s (sv_i v) ->
  exists s' v', trunc_direct sv bl k n s = Done tt s' /\ svs s' = <[sv := v']> (svs s) /\ sfs_device s' = sfs_device s /\
    sv_ino v' = sv_ino v /\ kept v v' /\ sfi_size (sv_i v') = sfi_size (sv_i v) /\
    shrunk s (sv_i v) s' (sv_i v') /\
    forall m, slot m -> ptr s' (sv_i v') m = if (Z.of_nat k <=? m) && (m <? 15) && (bl <=? m) then 0 else ptr s (sv_i v) m.
Proof.
  induction n as [|n IH]; intros k s v Hkn Hs Hsv Hi; cbn [trunc_direct].
  { exists s, v. split_and!; try done; [by rewrite insert_id| |].
    - pose proof (shrunk_refl s (sv_i v) (sfs_device s) Hs Hi (quiet_refl _ (fo_dev _ Hs))) as H. by rewrite set_device_id in H.
    - intros m _. replace (_ && _) with false by (destruct (bl <=? m); zbool). done. }
  assert (Hget : get_sv sv s = Done v s) by (unfold get_sv, deref; by rewrite Hsv).
  mrun Hget. pose proof (io_direct _ _ Hi) as Hl. destruct (lookup_lt_is_Some_2 (sfi_direct (sv_i v)) k ltac:(lia)) as [b Hb].
  assert (Hd : deref (S := sfs_fs) "sfi_direct" (sfi_direct (sv_i v) !! k) s = Done b s) by (unfold deref; by rewrite Hb). mrun Hd.
  assert (Hpk : ptr s (sv_i v) (Z.of_nat k) = b).
  { unfold ptr, SFS_NDIRECT. replace (Z.of_nat k =? -1) with false by lia. replace (Z.of_nat k <? 15) with true by lia. by rewrite Nat2Z.id, Hb. }
  assert (Hstep : exists s1 v1, (if (bl <=? Z.of_nat k) && negb (b =? 0) then sfs_bfree b ;; update_sv sv (dirty (set_direct k 0)) else mret tt) s = Done tt s1 /\
    svs s1 = <[sv := v1]> (svs s) /\ sfs_device s1 = sfs_device s /\ sv_ino v1 = sv_ino v /\ kept v v1 /\
    sfi_size (sv_i v1) = sfi_size (sv_i v) /\ shrunk s (sv_i v) s1 (sv_i v1) /\
    forall m, slot m -> ptr s1 (sv_i v1) m = if (m =? Z.of_nat k) && (bl <=? m) then 0 else ptr s (sv_i v) m).
  { destruct ((bl <=? Z.of_nat k) && negb (b =? 0)) eqn:E.
    - destruct (drop_direct sv s v k b Hs Hsv Hi ltac:(lia) Hb ltac:(lia)) as (s1 & He & H1 & H2 & H3 & H4).
      eexists s1, _. split_and!; try done. intros m Hm. rewrite H4 by done.
      destruct (Z.eqb_spec m (Z.of_nat k)) as [->|]; [|done]. by replace (bl <=? Z.of_nat k) with true by lia.
    - exists s, v. split_and!; try done; [by rewrite insert_id| |].
      + pose proof (shrunk_refl s (sv_i v) (sfs_device s) Hs Hi (quiet_refl _ (fo_dev _ Hs))) as H. by rewrite set_device_id in H.
      + intros m _. destruct (Z.eqb_spec m (Z.of_nat k)) as [->|]; [|done]. cbn [andb]. rewrite Hpk.
        destruct (Z.leb_spec bl (Z.of_nat k)); [|done]. cbn in E. lia. }
  destruct Hstep as (s1 & v1 & He & Hsv1 & Hd1 & Hi1 & Hr1 & Hz1 & Hsh & Hp). mrun He.
  assert (Hin1 : inode_ok s1 (sv_i v1)) by (apply (shrunk_inode s (sv_i v)); [done|done|]; rewrite Hz1; apply Hi).
  destruct (IH (S k) s1 v1 ltac:(lia) (sh_fs _ _ _ _ Hsh) ltac:(rewrite Hsv1; apply lookup_insert_eq) Hin1) as (s2 & v2 & He2 & Hsv2 & Hd2 & Hi2 & Hr2 & Hz2 & Hsh2 & Hp2).
  exists s2, v2. split_and!; try congruence.
  - rewrite Hsv2, Hsv1. by rewrite insert_insert_eq.
  - by eapply kept_trans.
  - by eapply shrunk_trans.
  - intros m Hm. rewrite Hp2, Hp by done. destruct (Z.eqb_spec m (Z.of_nat k)), (Z.leb_spec bl m), (Z.leb_spec (Z.of_nat (S k)) m),
      (Z.leb_spec (Z.of_nat k) m), (Z.ltb_spec m 15); try lia; done.
Qed.

(** ** The indirect block *)

(** Entry [q] of the indirect block goes. *)
Definition cut_entry (bl : Z) (q : nat) : bool := bl <? 15 + Z.of_nat q.

(** The entries of the indirect block are blocks in use, each there once. *)
Definition entries_ok (s : sfs_fs) (j : nat) (idbuf : list Z) : Prop :=
  (forall q b, idbuf !! q = Some b -> b <> 0 -> 0 < b < sb_nblocks s /\ ((j <= q)%nat -> used s b)) /\
  (forall q q' b, idbuf !! q = Some b -> idbuf !! q' = Some b -> b <> 0 -> q = q').

Record trimmed (bl : Z) (j : nat) (idbuf : list Z) (s : sfs_fs) (idbuf' : list Z) (s' : sfs_fs) : Prop := {
  tr_ok : fs_ok s';
  tr_same : same_files s s' /\ sfs_device s' = sfs_device s;
  tr_length : length idbuf' = length idbuf;
  tr_entry : forall q, default 0 (idbuf' !! q) = if (Nat.leb j q) && cut_entry bl q then 0 else default 0 (idbuf !! q);
  tr_used : forall x, 0 < x -> used s' x <-> used s x /\ ~ exists q, (j <= q)%nat /\ cut_entry bl q = true /\ idbuf !! q = Some x
}.

Lemma trim_entry bl j idbuf s b : entries_ok s j idbuf -> idbuf !! j = Some b -> fs_ok s ->
  exists idbuf' dt' s', (forall dt, (if (bl <? SFS_NDIRECT + Z.of_nat j) && negb (b =? 0) then sfs_bfree b ;; mret (<[j := 0]> idbuf, true)
      else mret (idbuf, dt)) s = Done (idbuf', dt || dt') s') /\ (dt' = false -> idbuf' = idbuf) /\
    fs_ok s' /\ (same_files s s' /\ sfs_device s' = sfs_device s) /\ length idbuf' = length idbuf /\ entries_ok s' (S j) idbuf' /\
    (forall q, default 0 (idbuf' !! q) = if (Nat.eqb q j) && cut_entry bl q then 0 else default 0 (idbuf !! q)) /\
    (forall q, q <> j -> idbuf' !! q = idbuf !! q) /\
    (forall x, 0 < x -> used s' x <-> used s x /\ ~ (cut_entry bl j = true /\ x = b)).
Proof.
  intros [He1 He2] Hb Hs. unfold SFS_NDIRECT. fold (cut_entry bl j). pose proof (lookup_lt_Some _ _ _ Hb) as Hj.
  destruct (cut_entry bl j && negb (b =? 0)) eqn:E.
  - destruct (He1 j b Hb ltac:(destruct (cut_entry bl j); [cbn in E; lia|done])) as [Hbr Hbu].
    destruct (bfree_spec s b Hs Hbr (Hbu ltac:(lia))) as (s' & Hf & Hs' & Hsf & Hdev & Hused).
    assert (Hc : cut_entry bl j = true) by (by destruct (cut_entry bl j)).
    exists (<[j := 0]> idbuf), true, s'. split_and!; try done.
    + intros dt. mrun Hf. by rewrite orb_true_r.
    + apply length_insert.
    + destruct Hsf as (Hnb & _). split.
      * intros q b' Hq Hb'. destruct (decide (q = j)) as [->|Hne]; [rewrite list_lookup_insert_eq in Hq by done; congruence|].
        rewrite list_lookup_insert_ne in Hq by done. destruct (He1 q b' Hq Hb') as [Hr Hu]. rewrite Hnb. split; [done|].
        intros Hjq. apply Hused; [lia|]. split; [|apply Hu; lia]. intros ->. apply Hne. by apply (He2 q j b).
      * intros q q' b' Hq Hq' Hb'. destruct (decide (q = j)) as [->|]; [rewrite list_lookup_insert_eq in Hq by done; congruence|].
        destruct (decide (q' = j)) as [->|]; [rewrite list_lookup_insert_eq in Hq' by done; congruence|].
        rewrite list_lookup_insert_ne in Hq, Hq' by done. by apply (He2 q q' b').
    + intros q. destruct (Nat.eqb_spec q j) as [->|Hne]; cbn [andb].
      * by rewrite list_lookup_insert_eq, Hc by done.
      * by rewrite list_lookup_insert_ne by done.
    + intros q Hq. by rewrite list_lookup_insert_ne by done.
    + intros x Hx. rewrite (Hused x) by lia. rewrite Hc. naive_solver.
  - exists idbuf, false, s. split_and!; try done.
    + intros dt. by rewrite orb_false_r.
    + split; [|done]. intros q b' Hq Hb'. destruct (He1 q b' Hq Hb') as [Hr Hu]. split; [done|]. intros. apply Hu. lia.
    + intros q. destruct (Nat.eqb_spec q j) as [->|Hne]; [|done]. cbn [andb]. destruct (cut_entry bl j); [|done]. rewrite Hb. cbn in *. lia.
    + intros x Hx. split; [|tauto]. intros Hu. split; [done|]. intros [Hc ->]. rewrite Hc in E. cbn in E. lia.
Qed.

Lemma trunc_indirect_spec bl n : forall j idbuf s hn dt, (j + n = length idbuf)%nat -> fs_ok s -> entries_ok s j idbuf ->
  exists idbuf' hn' dt' s', trunc_indirect bl idbuf j n hn dt s = Done (idbuf', hn', dt') s' /\ trimmed bl j idbuf s idbuf' s' /\
    (hn' = true <-> hn = true \/ exists q, (j <= q)%nat /\ default 0 (idbuf' !! q) <> 0) /\ (dt' = false -> dt = false /\ idbuf' = idbuf).
Proof.
  induction n as [|n IH]; intros j idbuf s hn dt Hlen Hs Hent; cbn [trunc_indirect].
  { assert (Hnone : forall q, (j <= q)%nat -> idbuf !! q = None) by (intros q Hq; apply lookup_ge_None; lia).
    exists idbuf, hn, dt, s. split_and!; try done.
    - split; try done.
      + intros q. destruct (Nat.leb_spec j q); [|done]. rewrite Hnone by done. by destruct (cut_entry bl q).
      + intros x _. split; [|tauto]. intros Hu. split; [done|]. intros (q & Hq & _ & Hx). by rewrite Hnone in Hx.
    - split; [by left|]. intros [|(q & Hq & Hx)]; [done|]. by rewrite Hnone in Hx. }
  destruct (lookup_lt_is_Some_2 idbuf j ltac:(lia)) as [b Hb].
  assert (Hd : deref (S := sfs_fs) "idbuf" (idbuf !! j) s = Done b s) by (unfold deref; by rewrite Hb). mrun Hd.
  destruct (trim_entry bl j idbuf s b Hent Hb Hs) as (idbuf1 & dt1 & s1 & He & Hdt1 & Hs1 & (Hsf & Hdev) & Hl1 & Hent1 & Hval & Hoth & Hu1).
  specialize (He dt). mrun He. destruct (lookup_lt_is_Some_2 idbuf1 j ltac:(lia)) as [b1 Hb1].
  assert (Hd1 : deref (S := sfs_fs) "idbuf" (idbuf1 !! j) s1 = Done b1 s1) by (unfold deref; by rewrite Hb1). mrun Hd1.
  destruct (IH (S j) idbuf1 s1 (hn || negb (b1 =? 0)) (dt || dt1) ltac:(lia) Hs1 Hent1) as (idbuf2 & hn2 & dt2 & s2 & He2 & [T1 [T2 T3] T4 T5 T6] & Hhn & Hdt).
  exists idbuf2, hn2, dt2, s2. split_and!; try done.
  - split; try congruence.
    + destruct Hsf as (? & ? & ? & ?), T2 as (? & ? & ? & ?). split; [|congruence]. split; [congruence|]. split; [congruence|]. split; [congruence|by eapply fixed_trans].
    + intros q. rewrite T5, Hval. destruct (Nat.eqb_spec q j) as [->|Hne].
      * rewrite Nat.leb_refl. replace (Nat.leb (S j) j) with false by (symmetry; apply Nat.leb_gt; lia). done.
      * replace (Nat.leb (S j) q) with (Nat.leb j q); [done|]. destruct (Nat.leb_spec j q), (Nat.leb_spec (S j) q); try done; lia.
    + intros x Hx. rewrite (T6 x Hx), (Hu1 x Hx). split.
      * intros [[Hu H1] H2]. split; [done|]. intros (q & Hq & Hc & Hqx). destruct (decide (q = j)) as [->|Hne].
        { apply H1. split; [done|congruence]. }
        apply H2. exists q. split_and!; [lia|done|]. by rewrite Hoth.
      * intros [Hu H]. split_and!; [done| |].
        { intros [Hc ->]. apply H. by exists j. }
        intros (q & Hq & Hc & Hqx). apply H. exists q. split_and!; [lia|done|]. by rewrite <- Hoth by lia.
  - rewrite Hhn. assert (Hb2 : default 0 (idbuf2 !! j) = b1).
    { rewrite T5. replace (Nat.leb (S j) j) with false by (symmetry; apply Nat.leb_gt; lia). cbn [andb]. by rewrite Hb1. }
    split.
    + intros [Hor|(q & Hq & Hx)]; [|right; exists q; split; [lia|done]]. apply orb_true_iff in Hor as [|Hnz]; [by left|right].
      exists j. split; [lia|]. rewrite Hb2. lia.
    + intros [->|(q & Hq & Hx)]; [by left|]. destruct (decide (q = j)) as [->|Hne].
      * left. rewrite Hb2 in Hx. apply orb_true_iff. right. lia.
      * right. exists q. split; [lia|done].
  - intros H2. destruct (Hdt H2) as [Hor ->]. apply orb_false_iff in Hor as [-> Hd0]. split; [done|]. by apply Hdt1.
Qed.

(** ** sfs_itrunc *)

Lemma ptr_entry s i q : (q < 128)%nat -> ptr s i (15 + Z.of_nat q) = default 0 (ptrs s i !! q).
Proof.
  intros Hq. unfold ptr, SFS_NDIRECT. replace (15 + Z.of_nat q =? -1) with false by lia. replace (15 + Z.of_nat q <? 15) with false by lia.
  do 2 f_equal. lia.
Qed.

Lemma slot_cases n : slot n -> n = -1 \/ 0 <= n < 15 \/ exists q, (q < 128)%nat /\ n = 15 + Z.of_nat q.
Proof.
  unfold slot, NSLOTS. intros Hn. destruct (decide (n = -1)); [by left|]. destruct (decide (n < 15)); [right; left; lia|].
  right. right. exists (Z.to_nat (n - 15)). split; lia.
Qed.

Lemma ptrs_entries s i : fs_ok s -> inode_ok s i -> entries_ok s 0 (ptrs s i).
Proof.
  intros Hs Hi. assert (Hq : forall q b, ptrs s i !! q = Some b -> slot (15 + Z.of_nat q) /\ ptr s i (15 + Z.of_nat q) = b).
  { intros q b Hb. pose proof (lookup_lt_Some _ _ _ Hb) as Hl. rewrite length_ptrs in Hl by done. split; [unfold slot, NSLOTS; lia|].
    rewrite ptr_entry by done. by rewrite Hb. }
  split.
  - intros q b Hb H0. destruct (Hq q b Hb) as [Hsl <-]. by destruct (io_ptr _ _ Hi _ Hsl H0).
  - intros q q' b Hb Hb' H0. destruct (Hq q b Hb) as [Hsl He]. destruct (Hq q' b Hb') as [Hsl' He'].
    pose proof (io_inj _ _ Hi _ _ Hsl Hsl' ltac:(by rewrite He) ltac:(congruence)). lia.
Qed.

(** The state after the indirect block was trimmed: [i'] names the same indirect block,
    with the entries [idbuf'], or none when they are all 0. *)
Lemma trimmed_shrunk bl s i idbuf' s3 s' i' : fs_ok s -> inode_ok s i -> sfi_indirect i <> 0 -> trimmed bl 0 (ptrs s i) s idbuf' s3 ->
  fs_ok s' -> sfi_direct i' = sfi_direct i -> sfi_type i' = sfi_type i /\ sfi_linkcount i' = sfi_linkcount i /\ sfi_waste i' = sfi_waste i ->
  sb_nblocks s' = sb_nblocks s /\ sfs_vnodes s' = sfs_vnodes s /\ fixed s s' ->
  sfi_indirect i' = sfi_indirect i \/ sfi_indirect i' = 0 -> ptrs s' i' = idbuf' ->
  (forall x, 0 < x -> used s' x <-> used s3 x /\ ~ (sfi_indirect i' = 0 /\ x = sfi_indirect i)) ->
  (forall x, 0 <= x -> x = 0 \/ x <> sfi_indirect i -> block s' x = block s x) ->
  shrunk s i s' i' /\ forall m, 0 <= m < NSLOTS -> ptr s' i' m = if (15 <=? m) && (bl <? m) then 0 else ptr s i m.
Proof.
  intros Hs Hi Hid [_ _ Hlen Hent Hu3] Hs' Hdir Hkind Hsame Hi' Hptrs Hu' Hblk.
  assert (Hlow : forall m, 0 <= m < 15 -> ptr s' i' m = ptr s i m).
  { intros m Hm. unfold ptr, SFS_NDIRECT. replace (m =? -1) with false by lia. replace (m <? 15) with true by lia. by rewrite Hdir. }
  assert (Hhigh : forall q, (q < 128)%nat -> ptr s' i' (15 + Z.of_nat q) = if cut_entry bl q then 0 else ptr s i (15 + Z.of_nat q)).
  { intros q Hq. rewrite !ptr_entry by done. rewrite Hptrs, Hent. done. }
  assert (Hsome : forall q x, 0 < x -> (q < 128)%nat -> ptr s i (15 + Z.of_nat q) = x -> ptrs s i !! q = Some x).
  { intros q x Hx Hq. rewrite ptr_entry by done. destruct (ptrs s i !! q); cbn; [congruence|lia]. }
  split.
  - split; try done.
    + rewrite Hdir. apply Hi.
    + intros n Hn. destruct (slot_cases n Hn) as [->|[Hm|(q & Hq & ->)]].
      * rewrite !ptr_indirect. done.
      * left. by apply Hlow.
      * rewrite Hhigh by done. destruct (cut_entry bl q); auto.
    + intros x Hx. rewrite (Hu' x Hx), (Hu3 x Hx). split.
      * intros [[Hu H1] H2]. split; [done|]. intros (n & Hn & Hp & H0). destruct (slot_cases n Hn) as [->|[Hm|(q & Hq & ->)]].
        { apply H2. rewrite !ptr_indirect in *. done. }
        { rewrite Hlow in H0 by done. lia. }
        { rewrite Hhigh in H0 by done. destruct (cut_entry bl q) eqn:E; [|lia]. apply H1. exists q. split_and!; [lia|done|]. by apply Hsome. }
      * intros [Hu H]. split_and!; [done| |].
        { intros (q & _ & Hc & Hqx). pose proof (lookup_lt_Some _ _ _ Hqx) as Hl. rewrite length_ptrs in Hl by done.
          apply H. exists (15 + Z.of_nat q). split_and!; [unfold slot, NSLOTS; lia|by rewrite ptr_entry, Hqx by done|by rewrite Hhigh, Hc by done]. }
        { intros [H0 ->]. apply H. exists (-1). rewrite !ptr_indirect. split_and!; [apply slot_indirect|done|done]. }
  - intros m Hm. destruct (slot_cases m) as [->|[Hm'|(q & Hq & ->)]]; [unfold slot; lia|lia| |].
    + replace (15 <=? m) with false by lia. by apply Hlow.
    + rewrite Hhigh by done. replace (15 <=? 15 + Z.of_nat q) with true by lia. done.
Qed.

(** [bl] blocks are kept; of the indirect ones, one more. *)
Definition cut (bl m : Z) : bool := if m <? 15 then bl <=? m else bl <? m.

Record truncated (sv len : Z) (s : sfs_fs) (v : sfs_vnode) (s' : sfs_fs) (v' : sfs_vnode) : Prop := {
  tc_svs : svs s' = <[sv := v']> (svs s);
  tc_ino : sv_ino v' = sv_ino v /\ kept v v';
  tc_size : sfi_size (sv_i v') = len;
  tc_shrunk : shrunk s (sv_i v) s' (sv_i v');
  tc_ptr : forall m, 0 <= m < NSLOTS -> ptr s' (sv_i v') m = if cut ((len + 511) / 512) m then 0 else ptr s (sv_i v) m;
  tc_indirect : sfi_indirect (sv_i v') <> 0 -> 142 <= (len + 511) / 512 \/ exists m, 15 <= m < NSLOTS /\ ptr s' (sv_i v') m <> 0
}.

Lemma itrunc_indirect sv bl s v : fs_ok s -> svs s !! sv = Some v -> inode_ok s (sv_i v) ->
  exists r s' v', (let idblock := sfi_indirect (sv_i v) in
    if (bl <? SFS_NDIRECT + SFS_DBPERIDB - 1) && negb (idblock =? 0) then
       '(result, buf) ← sfs_readblock curas idblock zero_block;
       if negb (result =? 0) then mret result
       else
         '(idbuf, hasnonzero, iddirty) ← trunc_indirect bl (words_of buf) 0 (Z.to_nat SFS_DBPERIDB) false false;
         if negb hasnonzero then
           sfs_bfree idblock;;
           update_sv sv (dirty (set_indirect 0));;
           mret 0
         else if (iddirty : bool) then sfs_writeblock curas idblock (bytes_of idbuf)
         else mret 0
     else mret 0) s = Done r s' /\ svs s' = <[sv := v']> (svs s) /\
    sv_ino v' = sv_ino v /\ kept v v' /\ sfi_size (sv_i v') = sfi_size (sv_i v) /\ shrunk s (sv_i v) s' (sv_i v') /\
    (r = EIO /\ sfi_indirect (sv_i v) <> 0 \/ r = 0 /\ (forall m, 0 <= m < NSLOTS -> ptr s' (sv_i v') m = if (15 <=? m) && (bl <? m) then 0 else ptr s (sv_i v) m) /\
      (sfi_indirect (sv_i v') <> 0 -> 142 <= bl \/ exists m, 15 <= m < NSLOTS /\ ptr s' (sv_i v') m <> 0)).
Proof.
  intros Hs Hsv Hi. set (i := sv_i v) in *. cbv zeta. change (SFS_NDIRECT + SFS_DBPERIDB - 1) with 142.
  pose proof (shrunk_refl s i (sfs_device s) Hs Hi (quiet_refl _ (fo_dev _ Hs))) as Hrefl. rewrite set_device_id in Hrefl.
  destruct ((bl <? 142) && negb (sfi_indirect i =? 0)) eqn:E.
  2:{ exists 0, s, v. split_and!; try done; [by rewrite insert_id|]. right. split_and!; [done| |].
      - intros m Hm. destruct ((15 <=? m) && (bl <? m)) eqn:E2; [|done].
        destruct (Z.ltb_spec bl 142); [|unfold NSLOTS in *; lia]. cbn in E. assert (Hz : sfi_indirect i = 0) by lia.
        destruct (slot_cases m) as [->|[?|(q & Hq & ->)]]; [unfold slot; lia|lia|lia|]. fold i. rewrite ptr_entry by done. unfold ptrs. rewrite Hz. apply zeros_lookup.
      - intros Hid. left. destruct (Z.ltb_spec bl 142); [|lia]. cbn in E. fold i in Hid. lia. }
  assert (Hid : sfi_indirect i <> 0) by (destruct (bl <? 142); [cbn in E; lia|done]).
  destruct (io_ptr _ _ Hi (-1) slot_indirect) as [Hidr Hidu]; [by rewrite ptr_indirect|]. rewrite ptr_indirect in Hidr, Hidu.
  destruct (readblock_spec curas (sfi_indirect i) zero_block s Hs) as (r & buf & d1 & He & Hq & Hr); [unfold in_volume; lia|apply length_zero_block|].
  mrun He. destruct Hr as [[-> ->]| ->].
  2:{ exists EIO, (set_device d1 s), v. split_and!; try done; [cbn; by rewrite insert_id|by apply shrunk_refl|by left; split]. }
  cbn [negb Z.eqb]. set (s1 := set_device d1 s). assert (Hs1 : fs_ok s1) by (by apply quiet_ok).
  assert (Hb1 : forall x, block s1 x = block s x) by (intros x; unfold block; cbn; by destruct Hq as (_ & _ & ->)).
  assert (Hp1 : ptrs s1 i = ptrs s i) by (unfold ptrs; by rewrite Hb1).
  assert (Hi1 : inode_ok s1 i).
  { apply (inode_ok_frame s); try done. intros n Hn H0. by apply (io_ptr _ _ Hi n). }
  replace (words_of (block s (sfi_indirect i))) with (ptrs s1 i) by (rewrite Hp1; unfold ptrs; by replace (sfi_indirect i =? 0) with false by lia).
  destruct (trunc_indirect_spec bl 128 0 (ptrs s1 i) s1 false false ltac:(by rewrite length_ptrs) Hs1 (ptrs_entries s1 i Hs1 Hi1))
    as (idbuf' & hn & dt & s2 & He2 & Htr & Hhn & Hdt). mrun He2.
  pose proof Htr as [Hs2 [(S1 & S2 & S3 & S4) Hd2] Hlen _ _]. rewrite length_ptrs in Hlen by done.
  assert (Hb2 : forall x, block s2 x = block s x) by (intros x; unfold block; rewrite Hd2; apply Hb1).
  assert (Hfin : forall s' v', trimmed bl 0 (ptrs s1 i) s1 idbuf' s2 -> shrunk s1 i s' (sv_i v') -> shrunk s i s' (sv_i v')).
  { intros s' v' _ H. eapply shrunk_trans; [|exact H]. by apply shrunk_refl. }
  assert (Hpp : forall m, ptr s1 i m = ptr s i m) by (intros m; apply ptr_ext; intros; apply Hb1).
  destruct hn; cbn [negb].
  - (* some entry stays *)
    assert (Hnz : exists m, 15 <= m < NSLOTS /\ default 0 (idbuf' !! Z.to_nat (m - 15)) <> 0).
    { destruct (proj1 Hhn eq_refl) as [|(q & _ & Hx)]; [done|]. exists (15 + Z.of_nat q). replace (Z.to_nat (15 + Z.of_nat q - 15)) with q by lia.
      split; [|done]. destruct (idbuf' !! q) eqn:E2; [|done]. apply lookup_lt_Some in E2. unfold NSLOTS. lia. }
    assert (Hu32 : Forall is_u32 idbuf').
    { pose proof (ptrs_u32 s1 i Hs1 Hi1) as Hf. apply Forall_lookup. intros q x Hx. pose proof (tr_entry _ _ _ _ _ _ Htr q) as Hv. rewrite Hx in Hv. cbn in Hv.
      rewrite Hv. destruct (cut_entry bl q); [done|]. destruct (ptrs s1 i !! q) eqn:E2; [|done]. cbn. by apply (proj1 (Forall_lookup _ _) Hf q). }
    set (m0 := if dt then sfs_writeblock curas (sfi_indirect i) (bytes_of idbuf') else mret 0).
    assert (Hw : exists s', m0 s2 = Done 0 s' /\ fs_ok s' /\ same_files s2 s' /\ sfs_freemap s' = sfs_freemap s2 /\
      (forall x, x <> sfi_indirect i -> block s' x = block s x) /\ ptrs s' i = idbuf').
    { unfold m0. destruct dt.
      - destruct (writeblock_spec curas (sfi_indirect i) (bytes_of idbuf') s2 Hs2) as (d3 & He3 & Hd3 & Hbl3 & Hw3);
          [unfold in_volume; rewrite S1; cbn; lia|rewrite length_bytes_of; lia|].
        exists (set_device d3 s2). split_and!; try done; [by apply fs_ok_device| |].
        + intros x Hx. unfold block. cbn. rewrite Hw3. replace (x =? sfi_indirect i) with false by lia. apply Hb2.
        + unfold ptrs, block. cbn. replace (sfi_indirect i =? 0) with false by lia. rewrite Hw3, Z.eqb_refl. by apply words_bytes.
      - exists s2. split_and!; try done. destruct (Hdt eq_refl) as [_ ->]. rewrite Hp1. unfold ptrs. by rewrite Hb2. }
    destruct Hw as (s' & Hrun & Hs' & (W1 & W2 & W3 & W4) & Hfm & Hblk & Hptrs).
    destruct (trimmed_shrunk bl s1 i idbuf' s2 s' i Hs1 Hi1 Hid Htr) as [Hsh Hp]; try done.
    { split; [congruence|]. split; [congruence|]. eapply fixed_trans; [exact S4|done]. } { by left. }
    { intros x Hx. unfold used. rewrite Hfm. tauto. }
    { intros x Hx Hne. rewrite Hb1. apply Hblk. destruct Hne; congruence. }
    exists 0, s', v. split_and!; try done.
    + rewrite W3, S3. cbn. by rewrite insert_id.
    + by apply Hfin.
    + right. split_and!; [done|intros m Hm; fold i; rewrite Hp by done; by rewrite Hpp|]. intros _. right. destruct Hnz as (m & Hm & Hx).
      exists m. split; [done|]. fold i. replace m with (15 + Z.of_nat (Z.to_nat (m - 15))) by lia. rewrite ptr_entry by (unfold NSLOTS in *; lia).
      by rewrite Hptrs.
  - (* the indirect block goes *)
    assert (Hz : forall q, default 0 (idbuf' !! q) = 0).
    { intros q. destruct (decide (default 0 (idbuf' !! q) = 0)); [done|]. assert (false = true); [|done]. apply Hhn. right. exists q. split; [lia|done]. }
    assert (Hrep : idbuf' = replicate 128 0).
    { apply list_eq_same_length with 128%nat; [by rewrite length_replicate|done|]. intros q x y Hq9 Hx Hy. specialize (Hz q). rewrite Hx in Hz. cbn in Hz.
      apply lookup_replicate in Hy as [-> _]. done. }
    assert (Hidu2 : used s2 (sfi_indirect i)).
    { apply (tr_used _ _ _ _ _ _ Htr); [lia|]. split; [exact Hidu|]. intros (q & _ & _ & Hx). pose proof (lookup_lt_Some _ _ _ Hx) as Hl.
      rewrite length_ptrs in Hl by done. assert (-1 = 15 + Z.of_nat q); [|lia]. apply (io_inj _ _ Hi1); [apply slot_indirect|unfold slot, NSLOTS; lia|by rewrite ptr_indirect|].
      rewrite ptr_indirect, ptr_entry by done. by rewrite Hx. }
    destruct (bfree_spec s2 (sfi_indirect i) Hs2 ltac:(rewrite S1; cbn; lia) Hidu2) as (s3 & He3 & Hs3 & (W1 & W2 & W3 & W4) & Hd3 & Hu3). mrun He3.
    assert (Hget : get_sv sv s3 = Done v s3) by (unfold get_sv, deref; rewrite W3, S3; cbn; by rewrite Hsv).
    set (v' := dirty (set_indirect 0) v). set (s' := set_svs (<[sv := v']> (svs s3)) s3).
    assert (Hupd : update_sv sv (dirty (set_indirect 0)) s3 = Done tt s') by (unfold update_sv; by mrun Hget). mrun Hupd.
    destruct (trimmed_shrunk bl s1 i idbuf' s2 s' (sv_i v') Hs1 Hi1 Hid Htr) as [Hsh Hp]; try done.
    { by destruct Hs3. } { split_and!; [exact (eq_trans W1 S1)|exact (eq_trans W2 S2)|exact (fixed_trans _ _ _ S4 W4)]. } { by right. }
    { intros x Hx. change (used s' x) with (used s3 x). rewrite (Hu3 x) by lia. change (sfi_indirect (sv_i v')) with 0. tauto. }
    { intros x Hx Hne. unfold block. cbn. rewrite Hd3. change (block s2 x = block s1 x). by rewrite Hb2, Hb1. }
    exists 0, s', v'. split_and!; try done.
    + cbn. rewrite W3, S3. done.
    + apply kept_dirty.
    + by apply Hfin.
    + right. split_and!; [done|intros m Hm; rewrite Hp by done; by rewrite Hpp|done].
Qed.

Lemma blocklen_spec len : 0 <= len <= FILE_MAX -> u32 (Z.quot (len + SFS_BLOCKSIZE - 1) SFS_BLOCKSIZE) = (len + 511) / 512.
Proof.
  unfold FILE_MAX, NSLOTS, SFS_BLOCKSIZE. intros H. replace (len + 512 - 1) with (len + 511) by lia. rewrite Z.quot_div_nonneg by lia.
  apply u32_small. unfold is_u32. split; [apply Z.div_pos; lia|]. apply Z.div_lt_upper_bound; lia.
Qed.

Lemma itrunc_spec sv len s v : fs_ok s -> svs s !! sv = Some v -> inode_ok s (sv_i v) -> 0 <= len <= FILE_MAX ->
  exists r s' v', sfs_itrunc curas sv len s = Done r s' /\ svs s' = <[sv := v']> (svs s) /\ inode_ok s' (sv_i v') /\ shrunk s (sv_i v) s' (sv_i v') /\
    (r = 0 /\ truncated sv len s v s' v' \/ r = EIO /\ sfi_indirect (sv_i v) <> 0 /\ sfi_size (sv_i v') = sfi_size (sv_i v) /\ sv_ino v' = sv_ino v /\ kept v v').
Proof.
  intros Hs Hsv Hi Hlen. unfold sfs_itrunc. rewrite blocklen_spec by done. set (bl := (len + 511) / 512).
  destruct (trunc_direct_spec sv bl 15 0 s v eq_refl Hs Hsv Hi) as (s1 & v1 & He & Hsv1 & Hd1 & Hi1 & Hr1 & Hz1 & Hsh1 & Hp1). mrun He.
  assert (Hin1 : inode_ok s1 (sv_i v1)) by (apply (shrunk_inode s (sv_i v)); [done|done|]; rewrite Hz1; apply Hi).
  assert (Hlk1 : svs s1 !! sv = Some v1) by (rewrite Hsv1; apply lookup_insert_eq).
  assert (Hget1 : get_sv sv s1 = Done v1 s1) by (unfold get_sv, deref; by rewrite Hlk1). mrun Hget1.
  destruct (itrunc_indirect sv bl s1 v1 (sh_fs _ _ _ _ Hsh1) Hlk1 Hin1) as (r & s2 & v2 & He2 & Hsv2 & Hi2 & Hr2 & Hz2 & Hsh2 & Hr). mrun He2.
  pose proof (shrunk_trans _ _ _ _ _ _ Hsh1 Hsh2) as Hsh.
  assert (Hsv12 : svs s2 = <[sv := v2]> (svs s)) by (rewrite Hsv2, Hsv1; by rewrite insert_insert_eq).
  assert (Hin2 : inode_ok s2 (sv_i v2)) by (apply (shrunk_inode s (sv_i v)); [done|done|]; rewrite Hz2, Hz1; apply Hi).
  destruct Hr as [[-> Hid]|(-> & Hp2 & Hid)].
  { exists EIO, s2, v2. split_and!; try done. right. split_and!; try congruence; [|by eapply kept_trans].
    destruct (sh_ptr _ _ _ _ Hsh1 (-1) slot_indirect) as [Hp|Hp]; rewrite !ptr_indirect in Hp; congruence. }
  cbn [negb Z.eqb]. rewrite u32_small by (unfold is_u32, FILE_MAX, NSLOTS, SFS_BLOCKSIZE in *; lia).
  set (v' := dirty (set_size len) v2). set (s' := set_svs (<[sv := v']> (svs s2)) s2).
  assert (Hget2 : get_sv sv s2 = Done v2 s2) by (unfold get_sv, deref; rewrite Hsv12; by rewrite lookup_insert_eq).
  assert (Hupd : update_sv sv (dirty (set_size len)) s2 = Done tt s') by (unfold update_sv; by mrun Hget2). mrun Hupd.
  assert (Hsh' : shrunk s (sv_i v) s' (sv_i v')).
  { destruct Hsh as [F D K S P U B]. split; try done. by destruct F. }
  assert (Hsv' : svs s' = <[sv := v']> (svs s)) by (cbn; rewrite Hsv12; by rewrite insert_insert_eq).
  exists 0, s', v'. split_and!; try done; [by apply (shrunk_inode s (sv_i v))|]. left. split; [done|]. split; try done.
  - split; [cbn; congruence|]. eapply kept_trans; [exact Hr1|]. eapply kept_trans; [exact Hr2|]. apply kept_dirty.
  - intros m Hm. change (ptr s' (sv_i v') m) with (ptr s2 (sv_i v2) m). rewrite Hp2, Hp1 by (done || unfold slot; lia). fold bl. unfold cut.
    destruct (Z.leb_spec 15 m), (Z.ltb_spec m 15); try lia; cbn [andb].
    + destruct (Z.ltb_spec bl m); [done|]. by rewrite andb_false_r.
    + destruct (Z.leb_spec (Z.of_nat 0) m); [done|lia].
Qed.

(** What the file reads after it: the kept bytes are the old ones. *)
Lemma truncated_bytes sv len s v s' v' k : inode_ok s (sv_i v) -> truncated sv len s v s' v' -> 0 <= len <= FILE_MAX -> 0 <= k < FILE_MAX ->
  fbyte s' (sv_i v') k = if cut ((len + 511) / 512) (k / 512) then 0 else fbyte s (sv_i v) k.
Proof.
  intros Hi [_ _ _ Hsh Hp _] Hlen Hk. unfold FILE_MAX, SFS_BLOCKSIZE in Hk.
  assert (Hm : 0 <= k / 512 < NSLOTS) by (split; [apply Z.div_pos; lia|apply Z.div_lt_upper_bound; lia]).
  unfold fbyte. rewrite Hp by done. destruct (cut ((len + 511) / 512) (k / 512)); [done|].
  destruct (Z.eqb_spec (ptr s (sv_i v) (k / 512)) 0) as [|H0]; [done|].
  assert (Hsl : slot (k / 512)) by (unfold slot; lia). destruct (io_ptr _ _ Hi _ Hsl H0) as [Hr _].
  rewrite (sh_block _ _ _ _ Hsh); [done|lia|]. right. intros He. assert (k / 512 = -1); [|lia].
  apply (io_inj _ _ Hi); [done|apply slot_indirect|done|]. by rewrite ptr_indirect.
Qed.

Lemma cut_kept len k : 0 <= k < len -> cut ((len + 511) / 512) (k / 512) = false.
Proof.
  intros Hk. assert (k / 512 < (len + 511) / 512).
  { assert (k / 512 + 1 <= (len + 511) / 512); [|lia]. replace (k / 512 + 1) with ((k + 1 * 512) / 512) by (rewrite Z.div_add; lia).
    apply Z.div_le_mono; lia. }
  unfold cut. destruct (k / 512 <? 15); lia.
Qed.

(** Nothing is left of a file that is cut to nothing. *)
Lemma truncated_empty sv s v s' v' n : truncated sv 0 s v s' v' -> slot n -> ptr s' (sv_i v') n = 0.
Proof.
  intros Htr Hn. assert (Hall : forall m, 0 <= m < NSLOTS -> ptr s' (sv_i v') m = 0).
  { intros m Hm. rewrite (tc_ptr _ _ _ _ _ _ Htr m Hm). unfold cut. change ((0 + 511) / 512) with 0. destruct (Z.ltb_spec m 15); [by replace (0 <=? m) with true by lia|].
    by replace (0 <? m) with true by lia. }
  destruct (decide (n = -1)) as [->|]; [|apply Hall; unfold slot in Hn; lia]. rewrite ptr_indirect.
  destruct (decide (sfi_indirect (sv_i v') = 0)) as [|H0]; [done|]. destruct (tc_indirect _ _ _ _ _ _ Htr H0) as [Hbig|(m & Hm & Hx)].
  - change ((0 + 511) / 512) with 0 in Hbig. lia.
  - destruct Hx. apply Hall. unfold NSLOTS in *. lia.
Qed.

(** The file has no block right behind a new end that lies among the indirect blocks. *)
Definition clean_end (len : Z) (s : sfs_fs) (i : dinode) : Prop := 15 <= (len + 511) / 512 < NSLOTS -> ptr s i ((len + 511) / 512) = 0.

Lemma truncated_exact sv len s v s' v' n : truncated sv len s v s' v' -> clean_end len s (sv_i v) -> 0 <= n < NSLOTS ->
  ptr s' (sv_i v') n = if (len + 511) / 512 <=? n then 0 else ptr s (sv_i v) n.
Proof.
  intros Htr Hend Hn. rewrite (tc_ptr _ _ _ _ _ _ Htr n Hn). unfold clean_end in Hend. set (bl := (len + 511) / 512) in *. unfold cut.
  destruct (Z.ltb_spec n 15); [done|]. destruct (Z.leb_spec bl n), (Z.ltb_spec bl n); try done; try lia.
  assert (bl = n) as <- by lia. apply Hend. lia.
Qed.


(** Truncation inside the indirect range keeps one block too many.  The loop frees
    block [j] of the indirect block only when [blocklen < baseblock + j], so when a file is
    cut to [n] whole blocks, [15 <= n], its block [n], which lies behind the new end, stays
    allocated and keeps its old contents. *)
Theorem sfs_itrunc_keeps_one_more sv n s v s' : fs_ok s -> svs s !! sv = Some v -> inode_ok s (sv_i v) -> 15 <= n < NSLOTS ->
  ptr s (sv_i v) n <> 0 -> sfs_itrunc curas sv (n * 512) s = Done 0 s' ->
  exists v', svs s' !! sv = Some v' /\ sfi_size (sv_i v') = n * 512 /\ ptr s' (sv_i v') n = ptr s (sv_i v) n /\
    used s' (ptr s (sv_i v) n) /\ forall j, 0 <= j < 512 -> fbyte s' (sv_i v') (n * 512 + j) = fbyte s (sv_i v) (n * 512 + j).
Proof.
  intros Hs Hsv Hi Hn H0 He. assert (Hlen : 0 <= n * 512 <= FILE_MAX) by (unfold FILE_MAX, SFS_BLOCKSIZE; lia).
  destruct (itrunc_spec sv (n * 512) s v Hs Hsv Hi Hlen) as (r & s1 & v' & He' & Hsv' & Hi' & Hsh & Hr). rewrite He in He'. injection He' as <- <-.
  destruct Hr as [[_ Htr]|[? _]]; [|done]. exists v'.
  assert (Hbl : (n * 512 + 511) / 512 = n) by (rewrite Z.div_add_l by lia; change (511 / 512) with 0; lia).
  assert (Hc : cut n n = false) by (unfold cut; replace (n <? 15) with false by lia; lia).
  assert (Hpn : ptr s' (sv_i v') n = ptr s (sv_i v) n) by (rewrite (tc_ptr _ _ _ _ _ _ Htr n) by lia; by rewrite Hbl, Hc).
  split_and!; [rewrite Hsv'; apply lookup_insert_eq|apply Htr|done| |].
  - rewrite <- Hpn. apply (io_ptr _ _ Hi'); [unfold slot; lia|by rewrite Hpn].
  - intros j Hj. rewrite (truncated_bytes sv (n * 512) s v s' v') by (done || unfold FILE_MAX, SFS_BLOCKSIZE; lia).
    destruct (block_index n j Hj) as [-> _]. by rewrite Hbl, Hc.
Qed.

End SfsTrunc.
End SfsTrunc.
