(* ===== verification/SfsDir.v ===== *)
(** * Directories of SFS: they are finite maps from names to inode numbers *)
From S2P Require Import Prelude Bitmap Copyinout Uio Lhd Sfs SfsFormat SfsProofs SfsIo.
Import Bitmap Copyinout Uio Lhd Sfs SfsFormat SfsProofs SfsIo.

Module SfsDir.

Section SfsDir.
Context {HW : LhdHardware} (curas : Z) {HL : LhdLaws}.

(** ** [sfs_metaio]: a range within one block *)

Lemma fbytes_block s i m buf skip len : block_image s i m buf -> 0 <= skip -> 0 <= len -> skip + len <= 512 ->
  take (Z.to_nat len) (drop (Z.to_nat skip) buf) = fbytes s i (m * 512 + skip) (Z.to_nat len).
Proof.
  intros [Hl Him] Hs Hn Hsl. assert (Hlen : length (take (Z.to_nat len) (drop (Z.to_nat skip) buf)) = Z.to_nat len) by (rewrite length_take, length_drop; lia).
  apply list_eq_same_length with (Z.to_nat len); [|done|].
  { unfold fbytes. rewrite length_fmap, length_seqZ. lia. }
  intros j x y Hj Hx Hy. rewrite lookup_take_lt, lookup_drop in Hx by lia.
  pose proof (Him (Z.to_nat skip + j)%nat ltac:(lia)) as Hb. rewrite Hx in Hb. cbn in Hb.
  pose proof (fbytes_lookup s i (m * 512 + skip) (Z.to_nat len) j Hj) as Hf. rewrite Hy in Hf. cbn in Hf. rewrite Hb, Hf. f_equal. lia.
Qed.

(** Positions of metadata. *)
Definition within (pos len : Z) : Prop := 0 <= pos /\ 0 < len /\ pos mod 512 + len <= 512 /\ pos + len < 2 ^ 32.

Lemma within_block pos len : within pos len -> u32 (Z.quot pos SFS_BLOCKSIZE) = pos / 512 /\ Z.rem pos SFS_BLOCKSIZE = pos mod 512 /\
  0 <= pos mod 512 < 512 /\ pos = pos / 512 * 512 + pos mod 512 /\ 0 <= pos / 512.
Proof.
  intros (H0 & Hl & _ & H32). split; [apply fileblock_spec; lia|]. unfold SFS_BLOCKSIZE. rewrite Z.rem_mod_nonneg by lia.
  pose proof (Z.div_mod pos 512 ltac:(lia)). pose proof (Z.mod_pos_bound pos 512 ltac:(lia)). pose proof (Z.div_pos pos 512 ltac:(lia) ltac:(lia)).
  split_and!; lia.
Qed.

Lemma metaio_read_spec sv s v pos len : fs_ok s -> svs s !! sv = Some v -> inode_ok s (sv_i v) -> within pos len -> pos < FILE_MAX ->
  exists r l d', sfs_metaio_read curas sv pos len s = Done (r, l) (set_device d' s) /\ quiet (sfs_device s) d' /\
    (r = 0 /\ l = fbytes s (sv_i v) pos (Z.to_nat len) \/ r = EIO).
Proof.
  intros Hs Hsv Hi Hw Hmax. destruct (within_block pos len Hw) as (E1 & E2 & Hmb & Hdm & Hm0). destruct Hw as (H0 & Hl & Hsl & _).
  assert (Hm : pos / 512 < NSLOTS) by (apply Z.div_lt_upper_bound; unfold FILE_MAX, SFS_BLOCKSIZE in *; lia).
  unfold sfs_metaio_read. rewrite E1, E2. destruct (bmap_look curas s sv v (pos / 512) Hs Hsv Hi ltac:(lia)) as (r & b & d1 & He & Hq & Hr).
  mrun He. destruct Hr as [[-> ->]| ->]; [|exists EIO, [], d1; split_and!; [done|done|by right]]. cbn [negb Z.eqb].
  destruct (Z.eqb_spec (ptr s (sv_i v) (pos / 512)) 0) as [Hz|Hz].
  - exists 0, (replicate (Z.to_nat len) 0), d1. split_and!; [done|done|left]. split; [done|].
    rewrite Hdm. rewrite <- (fbytes_block s (sv_i v) (pos / 512) zero_block) by (try apply image_zero; lia || done).
    unfold zero_block. rewrite drop_replicate, take_replicate. f_equal. unfold SFS_BLOCKSIZE. lia.
  - set (s1 := set_device d1 s). assert (Hs1 : fs_ok s1) by (by apply quiet_ok).
    destruct (readblock_spec curas (ptr s (sv_i v) (pos / 512)) zero_block s1 Hs1) as (r & buf & d2 & He2 & Hq2 & Hr2);
      [by apply (ptr_volume s (sv_i v) (pos / 512) Hi ltac:(unfold slot; lia))|apply length_zero_block|].
    mrun He2. assert (Hq' : quiet (sfs_device s) d2) by (destruct Hq as (? & ? & ?), Hq2 as (? & ? & ?); cbn in *; split_and!; congruence).
    destruct Hr2 as [[-> ->]| ->]; [|exists EIO, [], d2; split_and!; [done|done|by right]]. cbn [negb Z.eqb].
    eexists 0, _, d2. split_and!; [reflexivity|done|left]. split; [done|]. rewrite Hdm at 3. apply fbytes_block; try lia.
    replace (block s1 (ptr s (sv_i v) (pos / 512))) with (block s (ptr s (sv_i v) (pos / 512))); [by apply image_block|].
    unfold block. cbn. by destruct Hq as (_ & _ & ->).
Qed.

(** A write that fails leaves the contents of the file alone. *)
Lemma written_nothing sv off s v s1 v1 d' : fs_ok s -> inode_ok s (sv_i v) -> fs_ok s1 -> svs s1 = <[sv := v1]> (svs s) ->
  sv_ino v1 = sv_ino v /\ kept v v1 -> extended s (sv_i v) s1 (sv_i v1) ->
  (forall k, 0 <= k < FILE_MAX -> fbyte s1 (sv_i v1) k = fbyte s (sv_i v) k) -> quiet (sfs_device s1) d' -> 0 <= off ->
  written sv off [] s v (set_device d' s1) v1.
Proof.
  intros Hs Hi Hs1 Hsv1 Hino Hx Hb Hq Hoff. pose proof (ex_meta _ _ _ _ Hx) as M. injection M as Hmsz Hmty Hmlc Hmw.
  pose proof (written_resize sv off [] s v (set_device d' s1) v1 v1 (quiet_ok _ _ Hs1 Hq) Hi Hsv1) as H. cbn [length Nat.eqb] in H.
  replace (set_svs (<[sv:=v1]> (svs (set_device d' s1))) (set_device d' s1)) with (set_device d' s1) in H.
  - apply H; try done; [eapply extended_trans; [done|done|by apply extended_refl; [apply Hx|]]|by left| |by destruct (sv_i v1)].
    intros k Hk. replace (_ && _) with false by zbool. rewrite quiet_fbyte by done. by apply Hb.
  - rewrite (insert_id (svs _)); [by destruct s1|]. cbn. rewrite Hsv1. apply lookup_insert_eq.
Qed.

Lemma metaio_write_spec sv s v pos data : fs_ok s -> svs s !! sv = Some v -> inode_ok s (sv_i v) -> within pos (Z.of_nat (length data)) ->
  exists r s' v', sfs_metaio_write curas sv pos data s = Done r s' /\
    (r = 0 /\ written sv pos data s v s' v' \/
     (r = EIO \/ r = ENOSPC /\ ptr s (sv_i v) (pos / 512) = 0 \/ r = EFBIG /\ FILE_MAX <= pos) /\ written sv pos [] s v s' v').
Proof.
  intros Hs Hsv Hi Hw. destruct (within_block pos _ Hw) as (E1 & E2 & Hmb & Hdm & Hm0). destruct Hw as (H0 & Hl & Hsl & H32).
  unfold sfs_metaio_write. rewrite E1, E2. set (m := pos / 512) in *. set (skip := pos mod 512) in *.
  destruct (decide (m < NSLOTS)) as [Hm|Hm].
  2:{ mrun (bmap_big curas s sv m true ltac:(lia)). exists EFBIG, s, v. split; [done|]. right.
      split; [right; right; split; [done|unfold FILE_MAX, SFS_BLOCKSIZE; lia]|].
      pose proof (written_nothing sv pos s v s v (sfs_device s)) as H. rewrite set_device_id in H.
      assert (Hx : extended s (sv_i v) s (sv_i v)) by (rewrite <- (set_device_id s) at 2; apply extended_refl; [done|apply quiet_refl, Hs]).
      apply H; try done; [by rewrite insert_id|apply quiet_refl, Hs]. }
  destruct (bmap_alloc curas s sv v m Hs Hsv Hi ltac:(lia)) as (r & b & s1 & v1 & He & Hmap). mrun He.
  pose proof Hmap as (Hs1 & Hsv1 & Hino & Href & Hg & Hr). pose proof (fo_dev _ Hs1) as Hdev1.
  destruct (mapped_extended sv m r b s v s1 v1 ltac:(lia) Hi Hmap) as [Hx Hb].
  assert (Hnone : forall d', quiet (sfs_device s1) d' -> written sv pos [] s v (set_device d' s1) v1) by (intros d' Hq; by apply written_nothing).
  destruct Hr as [(-> & Hb0 & Hp & _ & _)|[Hr _]].
  2:{ replace (negb (r =? 0)) with true by (by destruct Hr as [-> | ->]). exists r, s1, v1. split; [done|right]. split.
      { destruct Hr as [-> | ->]; [|by left]. right. left. split; [done|]. apply dec_stable. intros Hp. rewrite (bmap_present curas s sv v m Hs Hsv Hi ltac:(lia) Hp) in He.
        destruct (bmap_look curas s sv v m Hs Hsv Hi ltac:(lia)) as (r & b2 & d & He2 & _ & Hr). rewrite He in He2. injection He2 as <- _ _. by destruct Hr as [[? _]|?]. }
      rewrite <- (set_device_id s1). apply Hnone. by apply quiet_refl. }
  cbn [negb Z.eqb]. assert (Hk : negb (b =? 0) = true) by (apply negb_true_iff, Z.eqb_neq; done).
  mrun (kassert_true "rw == UIO_READ" _ s1 Hk).
  assert (Hbv : in_volume s1 b).
  { pose proof (Hp m ltac:(lia)) as Hpm. rewrite Z.eqb_refl in Hpm. rewrite <- Hpm in Hb0 |- *.
    by apply (ptr_volume s1 (sv_i v1) m (gr_ok _ _ _ _ Hg) ltac:(unfold slot; lia)). }
  destruct (readblock_spec curas b zero_block s1 Hs1 Hbv length_zero_block) as (r & buf & d2 & He2 & Hq2 & Hr2). mrun He2.
  destruct Hr2 as [[-> ->]| ->].
  2:{ exists EIO, (set_device d2 s1), v1. split; [done|right]. split; [by left|]. by apply Hnone. }
  cbn [negb Z.eqb]. assert (Hlb : length (block s1 b) = 512%nat) by apply Hdev1.
  assert (Hs2 : fs_ok (set_device d2 s1)) by (by apply quiet_ok).
  destruct (writeblock_spec curas b (splice (Z.to_nat skip) data (block s1 b)) (set_device d2 s1) Hs2 Hbv) as (d3 & He3 & Hd3 & Hbl3 & Hw3);
    [rewrite length_splice; lia|]. mrun He3. cbn [negb Z.eqb]. set (s3 := set_device d3 s1).
  assert (Hs3 : fs_ok s3).
  { apply fs_ok_device; [done|done|]. cbn in Hbl3. rewrite Hbl3. apply Hq2. }
  destruct (patch_block sv b s v s1 v1 s3 m skip data Hs Hi ltac:(lia) Hmap ltac:(lia) ltac:(lia)) as [Hx3 Hb3]; [split_and!; [done|done|done|apply fixed_device]|done| |].
  { intros x. change (block s3 x) with (sectors d3 x). rewrite Hw3. destruct (x =? b); [done|]. cbn. by destruct Hq2 as (_ & _ & ->). }
  rewrite <- Hdm in Hb3.
  assert (Hget : get_sv sv s3 = Done v1 s3) by (unfold get_sv, deref; cbn; rewrite Hsv1; by rewrite lookup_insert_eq).
  change (set_device d3 (set_device d2 s1)) with s3. mrun Hget.
  pose proof (ex_meta _ _ _ _ Hx) as M. injection M as Hmsz Hmty Hmlc Hmw. rewrite Hmsz.
  set (endpos := pos + Z.of_nat (length data)). assert (Hend : endpos <= FILE_MAX) by (unfold endpos, FILE_MAX, SFS_BLOCKSIZE; lia).
  set (v' := if sfi_size (sv_i v) <? endpos then dirty (set_size endpos) v1 else v1).
  assert (Hupd : (if sfi_size (sv_i v) <? endpos then update_sv sv (dirty (set_size (u32 endpos))) else mret tt) s3 =
    Done tt (set_svs (<[sv := v']> (svs s3)) s3)).
  { rewrite u32_small by (unfold is_u32, endpos; lia). unfold v'. destruct (sfi_size (sv_i v) <? endpos).
    - unfold update_sv. by mrun Hget.
    - rewrite (insert_id (svs s3)); [by destruct s3|]. cbn. rewrite Hsv1. apply lookup_insert_eq. }
  mrun Hupd. eexists 0, _, v'. split; [reflexivity|left]. split; [done|]. apply (written_resize sv pos data s v s3 v1); try done.
  - by right.
  - unfold v'. destruct (sfi_size (sv_i v) <? endpos); [|done]. split; [done|]. eapply kept_trans; [done|apply kept_dirty].
  - unfold v'. destruct (sfi_size (sv_i v) <? endpos); [done|by destruct (sv_i v1)].
  - unfold v'. replace (Nat.eqb (length data) 0) with false by (symmetry; apply Nat.eqb_neq; lia).
    destruct (Z.ltb_spec (sfi_size (sv_i v)) endpos); cbn [dirty sv_i set_size sfi_size]; unfold endpos in *; lia.
Qed.

(** ** Entries *)

Definition nslots (i : dinode) : Z := sfi_size i / 64.
Definition entry (s : sfs_fs) (i : dinode) (k : Z) : direntry := direntry_of (fbytes s i (64 * k) 64).
Definition ename (e : direntry) : list Z := c_string (take 59 (sfd_name e)).

(** The inode is that of a directory. *)
Definition is_dir (i : dinode) : Prop := sfi_type i = SFS_TYPE_DIR /\ sfi_size i mod 64 = 0.

(** The directory is the finite map [m]: a name has an inode number, and a slot. *)
Definition dir_entry (s : sfs_fs) (i : dinode) (name : list Z) (ino k : Z) : Prop :=
  0 <= k < nslots i /\ sfd_ino (entry s i k) = ino /\ ino <> 0 /\ ename (entry s i k) = name.
Definition dir_models (s : sfs_fs) (i : dinode) (m : gmap (list Z) (Z * Z)) : Prop :=
  forall name ino k, m !! name = Some (ino, k) <-> dir_entry s i name ino k.

Lemma entry_within k : 0 <= k -> 64 * k < FILE_MAX -> within (64 * k) 64.
Proof.
  intros H0 Hm. unfold within, FILE_MAX, NSLOTS, SFS_BLOCKSIZE in *. split_and!; try lia.
  replace ((64 * k) mod 512) with (64 * (k mod 8)); [pose proof (Z.mod_pos_bound k 8); lia|]. change 512 with (64 * 8). by rewrite Z.mul_mod_distr_l.
Qed.

Lemma nslots_range s i k : inode_ok s i -> is_dir i -> 0 <= k < nslots i -> 64 * k + 64 <= sfi_size i /\ 64 * k < FILE_MAX.
Proof.
  intros Hi [_ Hmod] Hk. pose proof (io_size _ _ Hi) as Hsz. unfold nslots in Hk. pose proof (Z.div_mod (sfi_size i) 64 ltac:(lia)).
  fold FILE_MAX in Hsz. lia.
Qed.

Lemma quiet_entry s d' i k : quiet (sfs_device s) d' -> entry (set_device d' s) i k = entry s i k.
Proof.
  intros Hq. unfold entry. f_equal. unfold fbytes. apply list_fmap_ext. intros ? x _. by apply quiet_fbyte.
Qed.

Lemma quiet_models s d' i m : quiet (sfs_device s) d' -> dir_models s i m -> dir_models (set_device d' s) i m.
Proof. intros Hq Hm name ino k. rewrite (Hm name ino k). unfold dir_entry. by rewrite quiet_entry. Qed.

Lemma readdir_spec sv s v k : fs_ok s -> svs s !! sv = Some v -> inode_ok s (sv_i v) -> 0 <= k -> 64 * k < FILE_MAX ->
  exists r e d', sfs_readdir curas sv k s = Done (r, e) (set_device d' s) /\ quiet (sfs_device s) d' /\ (r = 0 /\ e = entry s (sv_i v) k \/ r = EIO).
Proof.
  intros Hs Hsv Hi Hk Hmax. pose proof (entry_within k Hk Hmax) as Hw. unfold sfs_readdir, SIZEOF_DIRENTRY.
  replace (k * 64) with (64 * k) by lia. rewrite u32_small by (unfold is_u32; destruct Hw as (_ & _ & _ & ?); lia).
  destruct (metaio_read_spec sv s v (64 * k) 64 Hs Hsv Hi Hw Hmax) as (r & l & d' & He & Hq & Hr). mrun He.
  eexists r, _, d'. split_and!; [reflexivity|done|]. destruct Hr as [[-> ->]|]; [left|by right]. done.
Qed.

(** What the loop knows after the first [i] slots. *)
Definition seen (s : sfs_fs) (d : dinode) (m : gmap (list Z) (Z * Z)) (name : list Z) (i : Z) (acc : found) : Prop :=
  fst acc = (match m !! name with Some (ino, k) => if k <? i then Some (ino, k) else None | None => None end) /\
  forall e, snd acc = Some e -> 0 <= e < i /\ sfd_ino (entry s d e) = 0.

Lemma seen_quiet s d' d m name i acc : quiet (sfs_device s) d' -> seen s d m name i acc -> seen (set_device d' s) d m name i acc.
Proof. intros Hq [H1 H2]. split; [done|]. intros e He. rewrite quiet_entry by done. by apply H2. Qed.

Lemma findname_loop_spec sv v m name n : forall i acc s, fs_ok s -> svs s !! sv = Some v -> inode_ok s (sv_i v) -> is_dir (sv_i v) ->
  dir_models s (sv_i v) m -> 0 <= i -> i + Z.of_nat n = nslots (sv_i v) -> seen s (sv_i v) m name i acc ->
  exists r acc' d', findname_loop curas sv name i n acc s = Done (r, acc') (set_device d' s) /\ quiet (sfs_device s) d' /\
    (r = 0 /\ seen s (sv_i v) m name (nslots (sv_i v)) acc' \/ r = EIO).
Proof.
  induction n as [|n IH]; intros i acc s Hs Hsv Hi Hdir Hm Hi0 Hn [Hf He]; cbn [findname_loop].
  { exists 0, acc, (sfs_device s). rewrite set_device_id. split_and!; [done|apply quiet_refl, Hs|]. left. split; [done|].
    replace (nslots (sv_i v)) with i by lia. by split. }
  destruct (nslots_range s (sv_i v) i Hi Hdir ltac:(lia)) as [_ Hmax].
  destruct (readdir_spec sv s v i Hs Hsv Hi Hi0 Hmax) as (r & e & d1 & Hr & Hq & He1). mrun Hr.
  destruct He1 as [[-> ->]| ->]; [|exists EIO, acc, d1; split_and!; [done|done|by right]]. cbn [negb Z.eqb].
  assert (Hgo : forall acc1, seen s (sv_i v) m name (i + 1) acc1 -> exists r acc' d',
    findname_loop curas sv name (i + 1) n acc1 (set_device d1 s) = Done (r, acc') (set_device d' s) /\ quiet (sfs_device s) d' /\
    (r = 0 /\ seen s (sv_i v) m name (nslots (sv_i v)) acc' \/ r = EIO)).
  { intros acc1 Hacc1. assert (Hi' : inode_ok (set_device d1 s) (sv_i v)).
    { apply (inode_ok_frame s); try done; [intros k Hk H0; by apply (io_ptr _ _ Hi k)|]. intros _. unfold block. cbn. by destruct Hq as (_ & _ & ->). }
    destruct (IH (i + 1) acc1 (set_device d1 s) (quiet_ok _ _ Hs Hq) Hsv Hi' Hdir (quiet_models _ _ _ _ Hq Hm) ltac:(lia) ltac:(lia)
      (seen_quiet _ _ _ _ _ _ _ Hq Hacc1)) as (r & acc' & d2 & Hl & Hq2 & Hr2).
    exists r, acc', d2. split_and!; [done|destruct Hq as (? & ? & ?), Hq2 as (? & ? & ?); cbn in *; split_and!; congruence|].
      destruct Hr2 as [[-> [H1 H2]]|]; [left|by right]. split; [done|]. split; [done|]. intros e He2. rewrite <- (quiet_entry s d1) by done. by apply H2. }
  change SFS_NOINO with 0. change (Z.to_nat (SFS_NAMELEN - 1)) with 59%nat. fold (ename (entry s (sv_i v) i)).
  destruct (Z.eqb_spec (sfd_ino (entry s (sv_i v) i)) 0) as [Hz|Hz].
  { (* an empty slot *)
    apply Hgo. split.
    - cbn [fst]. rewrite Hf. destruct (m !! name) as [[ino k]|] eqn:E; [|done]. apply Hm in E as (Hk & Hino & Hne & _).
      destruct (Z.ltb_spec k i), (Z.ltb_spec k (i + 1)); try done; try lia. assert (k = i) by lia. subst k. congruence.
    - intros e [= <-]. split; [lia|done]. }
  case_bool_decide as Hname.
  - assert (E : m !! name = Some (sfd_ino (entry s (sv_i v) i), i)) by (apply Hm; split_and!; (done || lia)).
    assert (Hk : bool_decide (fst acc = None) = true).
    { apply bool_decide_eq_true. rewrite Hf, E. by replace (i <? i) with false by lia. }
    mrun (kassert_true "found==0" _ (set_device d1 s) Hk). apply Hgo. split.
    + cbn [fst]. rewrite E. by replace (i <? i + 1) with true by lia.
    + intros e Hse. destruct (He e Hse). split; [lia|done].
  - apply Hgo. split.
    + rewrite Hf. destruct (m !! name) as [[ino k]|] eqn:E; [|done]. apply Hm in E as (Hk & Hino & Hne & Hnm).
      destruct (Z.ltb_spec k i), (Z.ltb_spec k (i + 1)); try done; try lia. assert (k = i) by lia. subst k. done.
    + intros e Hse. destruct (He e Hse). split; [lia|done].
Qed.

Lemma findname_spec sv s v m name : fs_ok s -> svs s !! sv = Some v -> inode_ok s (sv_i v) -> is_dir (sv_i v) -> dir_models s (sv_i v) m ->
  exists r acc d', sfs_dir_findname curas sv name s = Done (r, acc) (set_device d' s) /\ quiet (sfs_device s) d' /\
    (r = EIO \/ r = (if m !! name then 0 else ENOENT) /\ fst acc = m !! name /\
       forall e, snd acc = Some e -> 0 <= e < nslots (sv_i v) /\ sfd_ino (entry s (sv_i v) e) = 0).
Proof.
  intros Hs Hsv Hi Hdir Hm. pose proof Hdir as [Hty Hmod]. pose proof (io_size _ _ Hi) as Hsz.
  assert (Hget : get_sv sv s = Done v s) by (unfold get_sv, deref; by rewrite Hsv).
  assert (Hne : sfs_dir_nentries sv s = Done (nslots (sv_i v)) s).
  { unfold sfs_dir_nentries. mrun Hget. rewrite Hty. mrun (kassert_true "sv->sv_i.sfi_type == SFS_TYPE_DIR" (SFS_TYPE_DIR =? SFS_TYPE_DIR) s eq_refl).
    unfold SIZEOF_DIRENTRY. rewrite Hmod. done. }
  assert (Hns : 0 <= nslots (sv_i v)) by (apply Z.div_pos; lia).
  unfold sfs_dir_findname. mrun Hne.
  destruct (findname_loop_spec sv v m name (Z.to_nat (nslots (sv_i v))) 0 (None, None) s) as (r & acc & d' & He & Hq & Hr); try done; try lia.
  { split; [|done]. cbn. destruct (m !! name) as [[ino k]|] eqn:E; [|done]. apply Hm in E as (Hk & _). by replace (k <? 0) with false by lia. }
  mrun He. destruct Hr as [[-> [Hf Hem]]| ->]; [|exists EIO, acc, d'; split_and!; [done|done|by left]]. cbn [negb Z.eqb].
  assert (Hfst : fst acc = m !! name).
  { rewrite Hf. destruct (m !! name) as [[ino k]|] eqn:E; [|done]. apply Hm in E as (Hk & _). by replace (k <? nslots (sv_i v)) with true by lia. }
  eexists _, acc, d'. split_and!; [reflexivity|done|right]. split_and!; [|done|done]. rewrite Hfst. by destruct (m !! name).
Qed.

(** ** Changes of a directory *)

(** An entry was written to slot [k]. *)
Lemma written_entry sv k sd s v s' v' q : direntry_fits sd -> written sv (64 * k) (direntry_bytes sd) s v s' v' -> 0 <= k -> 0 <= q -> 64 * q < FILE_MAX ->
  entry s' (sv_i v') q = if q =? k then sd else entry s (sv_i v) q.
Proof.
  intros Hfit Hw Hk Hq Hmax. pose proof (length_direntry_bytes sd Hfit) as Hl. unfold entry.
  assert (Hfm : FILE_MAX = 64 * 1144) by done.
  assert (Hb : forall j, (j < 64)%nat -> fbyte s' (sv_i v') (64 * q + Z.of_nat j) =
    if q =? k then default 0 (direntry_bytes sd !! j) else fbyte s (sv_i v) (64 * q + Z.of_nat j)).
  { intros j Hj. rewrite (wr_bytes _ _ _ _ _ _ _ Hw) by lia. rewrite Hl. destruct (Z.eqb_spec q k) as [->|Hne].
    - replace (_ && _) with true by zbool. do 2 f_equal. lia.
    - by replace (_ && _) with false by zbool. }
  assert (Hlen : forall s i, length (fbytes s i (64 * q) 64) = 64%nat) by (intros; unfold fbytes; by rewrite length_fmap, length_seqZ).
  destruct (Z.eqb_spec q k) as [->|Hne].
  - transitivity (direntry_of (direntry_bytes sd)); [|by apply direntry_of_bytes]. f_equal. apply list_eq_same_length with 64%nat; [done|apply Hlen|].
    intros j x y Hj Hx Hy. pose proof (fbytes_lookup s' (sv_i v') (64 * k) 64 j Hj) as E. rewrite Hx in E. cbn in E. rewrite E, Hb by done. by rewrite Hy.
  - f_equal. apply list_eq_same_length with 64%nat; [apply Hlen|apply Hlen|]. intros j x y Hj Hx Hy.
    pose proof (fbytes_lookup s' (sv_i v') (64 * q) 64 j Hj) as E. rewrite Hx in E.
    pose proof (fbytes_lookup s (sv_i v) (64 * q) 64 j Hj) as E'. rewrite Hy in E'. cbn in E, E'. rewrite E, E'. by apply Hb.
Qed.

Lemma written_dir sv k sd s v s' v' : direntry_fits sd -> written sv (64 * k) (direntry_bytes sd) s v s' v' -> is_dir (sv_i v) ->
  inode_ok s (sv_i v) -> is_dir (sv_i v') /\ nslots (sv_i v') = Z.max (nslots (sv_i v)) (k + 1).
Proof.
  intros Hfit Hw [Hty Hmod] Hi. unfold is_dir, nslots. pose proof (wr_size _ _ _ _ _ _ _ Hw) as Hsz.
  rewrite (length_direntry_bytes sd Hfit) in Hsz. cbn [Nat.eqb] in Hsz. pose proof (Z.div_mod (sfi_size (sv_i v)) 64 ltac:(lia)) as Hdm.
  rewrite Hmod, Z.add_0_r in Hdm. set (n := sfi_size (sv_i v) / 64) in *.
  assert (He : sfi_size (sv_i v') = Z.max n (k + 1) * 64) by lia. rewrite He, Z.mod_mul, Z.div_mul by lia.
  destruct (wr_kind _ _ _ _ _ _ _ Hw) as [-> _]. done.
Qed.

(** Nothing was written. *)
Lemma written_nil_models sv off s v s' v' m : written sv off [] s v s' v' -> inode_ok s (sv_i v) -> is_dir (sv_i v) -> dir_models s (sv_i v) m ->
  is_dir (sv_i v') /\ dir_models s' (sv_i v') m.
Proof.
  intros Hw Hi Hdir Hm. pose proof (wr_size _ _ _ _ _ _ _ Hw) as Hsz. cbn in Hsz. destruct (wr_kind _ _ _ _ _ _ _ Hw) as [Hty _].
  assert (Hn : nslots (sv_i v') = nslots (sv_i v)) by (unfold nslots; by rewrite Hsz).
  split; [unfold is_dir in *; by rewrite Hty, Hsz|]. intros name ino k. rewrite (Hm name ino k). unfold dir_entry. rewrite Hn.
  assert (He : 0 <= k < nslots (sv_i v) -> entry s' (sv_i v') k = entry s (sv_i v) k).
  { intros Hk. destruct (nslots_range s (sv_i v) k Hi Hdir Hk) as [H1 _]. pose proof (io_size _ _ Hi) as Hs. fold FILE_MAX in Hs.
    unfold entry. f_equal. unfold fbytes. apply list_fmap_ext. intros j x Hx. apply lookup_seqZ in Hx as [-> Hj].
    rewrite (wr_bytes _ _ _ _ _ _ _ Hw) by lia. cbn [length]. by replace (_ && _) with false by zbool. }
  split; intros (Hk & H); rewrite He in * by done; done.
Qed.

(** The name goes to a slot that is free, or to a new one. *)
Lemma written_insert sv k sd s v s' v' m name : direntry_fits sd -> written sv (64 * k) (direntry_bytes sd) s v s' v' -> inode_ok s (sv_i v) ->
  is_dir (sv_i v) -> dir_models s (sv_i v) m -> m !! name = None -> ename sd = name -> sfd_ino sd <> 0 ->
  0 <= k < nslots (sv_i v) /\ sfd_ino (entry s (sv_i v) k) = 0 \/ k = nslots (sv_i v) ->
  dir_models s' (sv_i v') (<[name := (sfd_ino sd, k)]> m).
Proof.
  intros Hfit Hw Hi Hdir Hm Hnone Hname Hino Hfree. destruct (written_dir _ _ _ _ _ _ _ Hfit Hw Hdir Hi) as [Hdir' Hns].
  assert (Hk0 : 0 <= k) by (destruct Hfree as [[? _]| ->]; [lia|apply Z.div_pos; [apply Hi|lia]]).
  pose proof (wr_inode _ _ _ _ _ _ _ Hw) as Hi'.
  assert (Hent : forall q, 0 <= q < nslots (sv_i v') -> entry s' (sv_i v') q = if q =? k then sd else entry s (sv_i v) q).
  { intros q Hq. destruct (nslots_range s' (sv_i v') q Hi' Hdir' Hq). apply (written_entry sv k sd s v s' v'); done || lia. }
  intros name' ino' k'. unfold dir_entry. destruct (decide (name' = name)) as [->|Hne].
  - rewrite lookup_insert_eq. split.
    + intros [= <- <-]. rewrite Hent by lia. rewrite Z.eqb_refl. split_and!; done || lia.
    + intros (Hk' & He & H0 & Hn'). rewrite Hent in He, Hn' by done. destruct (Z.eqb_spec k' k) as [->|Hkk]; [by subst|].
      assert (E : m !! name = Some (ino', k')) by (apply Hm; split_and!; done || lia). congruence.
  - rewrite lookup_insert_ne by done. rewrite (Hm name' ino' k'). unfold dir_entry. split.
    + intros (Hk' & He & H0 & Hn'). rewrite Hent by lia. destruct (Z.eqb_spec k' k) as [->|Hkk]; [|split_and!; done || lia].
      destruct Hfree as [[_ ?]|?]; [congruence|lia].
    + intros (Hk' & He & H0 & Hn'). rewrite Hent in He, Hn' by done. destruct (Z.eqb_spec k' k) as [->|Hkk]; [congruence|]. split_and!; done || lia.
Qed.

(** The slot of a name becomes free. *)
Lemma written_delete sv k sd s v s' v' m name ino : direntry_fits sd -> written sv (64 * k) (direntry_bytes sd) s v s' v' -> inode_ok s (sv_i v) ->
  is_dir (sv_i v) -> dir_models s (sv_i v) m -> m !! name = Some (ino, k) -> sfd_ino sd = 0 -> dir_models s' (sv_i v') (delete name m).
Proof.
  intros Hfit Hw Hi Hdir Hm Hsome Hino. destruct (written_dir _ _ _ _ _ _ _ Hfit Hw Hdir Hi) as [Hdir' Hns].
  pose proof (proj1 (Hm name ino k) Hsome) as (Hk & Hek & Hi0 & Hnk). pose proof (wr_inode _ _ _ _ _ _ _ Hw) as Hi'.
  assert (Hent : forall q, 0 <= q < nslots (sv_i v') -> entry s' (sv_i v') q = if q =? k then sd else entry s (sv_i v) q).
  { intros q Hq. destruct (nslots_range s' (sv_i v') q Hi' Hdir' Hq). apply (written_entry sv k sd s v s' v'); done || lia. }
  intros name' ino' k'. rewrite lookup_delete_Some, (Hm name' ino' k'). unfold dir_entry. split.
  - intros (Hne & Hk' & He & H0 & Hn'). rewrite Hent by lia. destruct (Z.eqb_spec k' k) as [->|]; [congruence|]. split_and!; done || lia.
  - intros (Hk' & He & H0 & Hn'). rewrite Hent in He, Hn' by done. destruct (Z.eqb_spec k' k) as [->|Hkk]; [congruence|]. split_and!; try (done || lia).
    intros <-. assert (E : m !! name = Some (ino', k')) by (apply Hm; split_and!; done || lia). congruence.
Qed.

Lemma writedir_spec sv s v k sd : fs_ok s -> svs s !! sv = Some v -> inode_ok s (sv_i v) -> direntry_fits sd -> 0 <= k -> 64 * k <= FILE_MAX ->
  exists r s' v', sfs_writedir curas sv k sd s = Done r s' /\
    (r = 0 /\ written sv (64 * k) (direntry_bytes sd) s v s' v' \/
     (r = EIO \/ r = ENOSPC /\ ptr s (sv_i v) (64 * k / 512) = 0 \/ r = EFBIG /\ FILE_MAX <= 64 * k) /\ written sv (64 * k) [] s v s' v').
Proof.
  intros Hs Hsv Hi Hfit Hk Hmax. unfold sfs_writedir. assert (Hka : (0 <=? k) = true) by lia.
  mrun (kassert_true "slot>=0" _ s Hka). unfold SIZEOF_DIRENTRY. replace (k * 64) with (64 * k) by lia.
  assert (FILE_MAX < 2 ^ 20) by done. rewrite u32_small by (unfold is_u32; lia).
  apply metaio_write_spec; try done. rewrite length_direntry_bytes by done.
  destruct (decide (64 * k < FILE_MAX)); [by apply entry_within|]. replace (64 * k) with FILE_MAX by lia. done.
Qed.

(** ** The operations refine those of a finite map *)

Lemma quiet_inode s d' i : quiet (sfs_device s) d' -> inode_ok s i -> inode_ok (set_device d' s) i.
Proof.
  intros Hq Hi. apply (inode_ok_frame s); try done; [intros k Hk H0; by apply (io_ptr _ _ Hi k)|].
  intros _. unfold block. cbn. by destruct Hq as (_ & _ & ->).
Qed.

(** Every other file keeps its blocks and its bytes. *)
Definition others (s : sfs_fs) (i : dinode) (s' : sfs_fs) (i' : dinode) : Prop :=
  forall j, inode_ok s j -> apart s i j -> inode_ok s' j /\ apart s' i' j /\ forall k, 0 <= k < FILE_MAX -> fbyte s' j k = fbyte s j k.

Lemma others_quiet s i d' : quiet (sfs_device s) d' -> others s i (set_device d' s) i.
Proof.
  intros Hq j Hj Hap. split_and!; [by apply quiet_inode| |intros; by apply quiet_fbyte].
  assert (Hp : forall i n, ptr (set_device d' s) i n = ptr s i n).
  { intros i0 n. apply ptr_ext. intros _. unfold block. cbn. by destruct Hq as (_ & _ & ->). }
  intros n m Hn Hm. rewrite !Hp. by apply Hap.
Qed.

Lemma others_trans s i s1 i1 s2 i2 : others s i s1 i1 -> others s1 i1 s2 i2 -> others s i s2 i2.
Proof.
  intros H1 H2 j Hj Hap. destruct (H1 j Hj Hap) as (Hj1 & Hap1 & Hb1). destruct (H2 j Hj1 Hap1) as (Hj2 & Hap2 & Hb2).
  split_and!; [done|done|]. intros k Hk. by rewrite Hb2, Hb1.
Qed.

Lemma others_written sv off data s v s' v' : written sv off data s v s' v' -> others s (sv_i v) s' (sv_i v').
Proof. intros Hw j Hj Hap. by eapply written_apart. Qed.

(** A directory on a volume. *)
Definition dir_at (s : sfs_fs) (sv : Z) (v : sfs_vnode) (m : gmap (list Z) (Z * Z)) : Prop :=
  fs_ok s /\ svs s !! sv = Some v /\ inode_ok s (sv_i v) /\ is_dir (sv_i v) /\ dir_models s (sv_i v) m.

Lemma dir_at_quiet s sv v m d' : quiet (sfs_device s) d' -> dir_at s sv v m -> dir_at (set_device d' s) sv v m.
Proof.
  intros Hq (Hs & Hsv & Hi & Hdir & Hm). split_and!; [by apply quiet_ok|done|by apply quiet_inode|done|by apply quiet_models].
Qed.

Lemma dir_at_written sv off data s v s' v' m : written sv off data s v s' v' -> is_dir (sv_i v') -> dir_models s' (sv_i v') m -> dir_at s' sv v' m.
Proof.
  intros Hw Hdir Hm. split_and!; [apply Hw| |apply Hw|done|done]. rewrite (wr_svs _ _ _ _ _ _ _ Hw). apply lookup_insert_eq.
Qed.

Lemma writedir_fails sv k s v s' v' m : dir_at s sv v m -> written sv k [] s v s' v' -> dir_at s' sv v' m.
Proof.
  intros (_ & _ & Hi & Hdir & Hm) Hw. destruct (written_nil_models _ _ _ _ _ _ _ Hw Hi Hdir Hm) as [Hd' Hm']. by eapply dir_at_written.
Qed.

(** The file was read, and perhaps written. *)
Definition touched (sv : Z) (s : sfs_fs) (v : sfs_vnode) (s' : sfs_fs) (v' : sfs_vnode) : Prop :=
  exists d1, quiet (sfs_device s) d1 /\
    (s' = set_device d1 s /\ v' = v \/ exists off data, written sv off data (set_device d1 s) v s' v').

Lemma touched_written sv off data s v s' v' : fs_ok s -> written sv off data s v s' v' -> touched sv s v s' v'.
Proof. intros Hs Hw. exists (sfs_device s). rewrite set_device_id. split; [apply quiet_refl, Hs|right; by exists off, data]. Qed.

Lemma touched_others sv s v s' v' : touched sv s v s' v' -> others s (sv_i v) s' (sv_i v').
Proof.
  intros (d1 & Hq & [[-> ->]|(off & data & Hw)]); [by apply others_quiet|].
  eapply others_trans; [by apply others_quiet|by eapply others_written].
Qed.

(** [sfs_dir_findname] is lookup: on a directory that holds the map [m] it returns 0
    with the inode number and the slot of the name, or ENOENT when the name is not there,
    and an empty slot only if it is one; it changes nothing on the volume.  The only other
    result is a disk error. *)
Theorem dir_findname_correct sv s v m name : dir_at s sv v m ->
  exists r acc d', sfs_dir_findname curas sv name s = Done (r, acc) (set_device d' s) /\ dir_at (set_device d' s) sv v m /\
    sectors d' = sectors (sfs_device s) /\
    (r = EIO \/ r = (if m !! name then 0 else ENOENT) /\ fst acc = m !! name /\
       forall e, snd acc = Some e -> forall name' ino, m !! name' <> Some (ino, e)).
Proof.
  intros Hd. pose proof Hd as (Hs & Hsv & Hi & Hdir & Hm). destruct (findname_spec sv s v m name Hs Hsv Hi Hdir Hm) as (r & acc & d' & He & Hq & Hr).
  exists r, acc, d'. split_and!; [done|apply dir_at_quiet; [done|exact Hd]|apply Hq|]. destruct Hr as [|(Hr & Hf & Hem)]; [by left|right]. split_and!; [done|done|].
  intros e Hse name' ino Hx. apply Hm in Hx as (_ & H1 & H2 & _). destruct (Hem e Hse). congruence.
Qed.

Lemma dir_link_spec sv s v m name ino : dir_at s sv v m -> Forall (fun c => c <> 0) name -> is_u32 ino -> ino <> 0 ->
  exists r k s' v', sfs_dir_link curas sv name ino s = Done (r, k) s' /\ touched sv s v s' v' /\
    (r = 0 /\ m !! name = None /\ dir_at s' sv v' (<[name := (ino, k)]> m) \/
     (r = EEXIST /\ m !! name <> None \/ r = ENAMETOOLONG /\ 59 < Z.of_nat (length name) \/ r = EIO \/ r = ENOSPC \/ r = EFBIG /\ sfi_size (sv_i v) = FILE_MAX) /\ dir_at s' sv v' m).
Proof.
  intros Hd Hname Hino Hino0. pose proof Hd as (Hs & Hsv & Hi & Hdir & Hm).
  destruct (findname_spec sv s v m name Hs Hsv Hi Hdir Hm) as (r & acc & d1 & He & Hq & Hr).
  pose proof (dir_at_quiet s sv v m d1 Hq Hd) as Hd1. assert (Ho1 : touched sv s v (set_device d1 s) v) by (exists d1; split; [done|by left]). set (s1 := set_device d1 s) in *.
  unfold sfs_dir_link. mrun He. destruct Hr as [->|(-> & Hf & Hem)].
  { exists EIO, (-1), s1, v. split_and!; [done|done|]. right. split; [tauto|exact Hd1]. }
  destruct (m !! name) as [p|] eqn:E.
  { exists EEXIST, (-1), s1, v. split_and!; [done|done|]. right. split; [by left|exact Hd1]. }
  change (negb (ENOENT =? 0) && negb (ENOENT =? ENOENT)) with false. change (ENOENT =? 0) with false. cbv iota.
  destruct (Z.ltb_spec SFS_NAMELEN (Z.of_nat (length name) + 1)) as [Hlong|Hlong]; unfold SFS_NAMELEN in Hlong.
  { exists ENAMETOOLONG, (-1), s1, v. split_and!; [done|done|]. right. split; [right; left; split; [done|lia]|exact Hd1]. }
  assert (Hslot : exists k, (match snd acc with Some e => mret e | None => sfs_dir_nentries sv end) s1 = Done k s1 /\ 0 <= k /\ 64 * k <= FILE_MAX /\
    (0 <= k < nslots (sv_i v) /\ sfd_ino (entry s (sv_i v) k) = 0 \/ k = nslots (sv_i v))).
  { destruct (snd acc) as [e|] eqn:Ee.
    - destruct (Hem e eq_refl) as [Hr Hz]. destruct (nslots_range s (sv_i v) e Hi Hdir Hr). exists e. split_and!; [done|lia|lia|auto].
    - exists (nslots (sv_i v)). pose proof Hdir as [Hty Hmod]. pose proof (io_size _ _ Hi) as Hsz. fold FILE_MAX in Hsz.
      assert (Hget : get_sv sv s1 = Done v s1) by (unfold get_sv, deref; cbn; by rewrite Hsv).
      unfold sfs_dir_nentries. mrun Hget. rewrite Hty. mrun (kassert_true "sv->sv_i.sfi_type == SFS_TYPE_DIR" (SFS_TYPE_DIR =? SFS_TYPE_DIR) s1 eq_refl).
      unfold SIZEOF_DIRENTRY. rewrite Hmod. pose proof (Z.div_mod (sfi_size (sv_i v)) 64 ltac:(lia)). unfold nslots in *.
      split_and!; [done|apply Z.div_pos; lia|lia|by right]. }
  destruct Hslot as (k & Hk & Hk0 & Hkm & Hfree). mrun Hk.
  set (sd := mkDirentry ino (name ++ replicate (Z.to_nat SFS_NAMELEN - length name) 0)).
  assert (Hfit : direntry_fits sd).
  { split; [done|]. cbn. rewrite length_app, length_replicate. change (Z.to_nat SFS_NAMELEN) with 60%nat. lia. }
  assert (Hen : ename sd = name) by (apply c_string_padded; [done|lia]).
  pose proof Hd1 as (Hs1 & Hsv1 & Hi1 & _ & Hm1).
  destruct (writedir_spec sv s1 v k sd Hs1 Hsv1 Hi1 Hfit Hk0 Hkm) as (r & s2 & v2 & He2 & Hr2). mrun He2. exists r, k, s2, v2. split; [done|].
  destruct Hr2 as [[-> Hw]|[Hr Hw]]; (split; [exists d1; split; [done|right; eexists _, _; exact Hw]|]).
  - left. split_and!; [done|done|]. destruct (written_dir sv k sd s1 v s2 v2 Hfit Hw Hdir Hi1) as [Hdir2 _]. eapply dir_at_written; [exact Hw|exact Hdir2|].
    apply (written_insert sv k sd s1 v s2 v2 m name); try done. destruct Hfree as [[Hfr Hz]| ->]; [left|by right]. split; [done|].
    unfold s1. by rewrite quiet_entry.
  - right. split; [|by eapply writedir_fails]. destruct Hr as [|[[? _]|[? Hbig]]]; [tauto|tauto|]. do 4 right. split; [done|]. destruct Hfree as [[Hfr _]| ->]; [destruct (nslots_range s (sv_i v) k Hi Hdir Hfr); lia|].
    pose proof (io_size _ _ Hi) as Hsz. fold FILE_MAX in Hsz. destruct Hdir as [_ Hmod]. unfold nslots in Hbig. pose proof (Z.div_mod (sfi_size (sv_i v)) 64 ltac:(lia)). lia.
Qed.

(** An entry in a hole of the directory is an empty one. *)
Lemma entry_hole s i k : 0 <= k -> 64 * k < FILE_MAX -> ptr s i (64 * k / 512) = 0 -> sfd_ino (entry s i k) = 0.
Proof.
  intros Hk Hmax Hp. destruct (within_block _ _ (entry_within k Hk Hmax)) as (_ & _ & Hb & Hd & _). destruct (entry_within k Hk Hmax) as (_ & _ & Hsl & _).
  unfold entry. rewrite Hd. change 64%nat with (Z.to_nat 64). rewrite <- (fbytes_block s i _ zero_block) by (by apply image_zero || lia).
  unfold zero_block. rewrite drop_replicate, take_replicate. replace (Z.to_nat 64 `min` _)%nat with 64%nat; [reflexivity|]. unfold SFS_BLOCKSIZE. lia.
Qed.

Lemma dir_unlink_spec sv s v m name ino k : dir_at s sv v m -> m !! name = Some (ino, k) ->
  exists r s' v', sfs_dir_unlink curas sv k s = Done r s' /\ touched sv s v s' v' /\
    (r = 0 /\ dir_at s' sv v' (delete name m) \/ r = EIO /\ dir_at s' sv v' m).
Proof.
  intros Hd Hsome. pose proof Hd as (Hs & Hsv & Hi & Hdir & Hm). pose proof (proj1 (Hm name ino k) Hsome) as (Hk & _).
  destruct (nslots_range s (sv_i v) k Hi Hdir Hk) as [_ Hmax]. set (sd := mkDirentry SFS_NOINO (replicate (Z.to_nat SFS_NAMELEN) 0)).
  assert (Hfit : direntry_fits sd) by done.
  destruct (writedir_spec sv s v k sd Hs Hsv Hi Hfit ltac:(lia) ltac:(lia)) as (r & s2 & v2 & He2 & Hr2). exists r, s2, v2. split; [exact He2|].
  destruct Hr2 as [[-> Hw]|[Hr Hw]]; (split; [by eapply touched_written|]).
  - left. split; [done|]. destruct (written_dir sv k sd s v s2 v2 Hfit Hw Hdir Hi) as [Hdir2 _]. eapply dir_at_written; [exact Hw|exact Hdir2|].
    eapply (written_delete sv k sd s v s2 v2 m name ino); try done.
  - right. split; [|by eapply writedir_fails]. destruct Hr as [|[[_ Hhole]|[_ ?]]]; [done| |lia]. destruct (proj1 (Hm name ino k) Hsome) as (_ & Hino & Hne & _). destruct Hne. rewrite <- Hino. apply entry_hole; [lia|done|done].
Qed.

(** [sfs_dir_link] is insertion of a new name: when it returns 0 the name was not in
    the directory and now it is, in the slot it reports, and every other name is as before;
    EEXIST, ENAMETOOLONG and the errors of the disk leave the directory as it was.  No
    other file changes. *)
Theorem dir_link_correct sv s v m name ino : dir_at s sv v m -> Forall (fun c => c <> 0) name -> is_u32 ino -> ino <> 0 ->
  exists r k s' v', sfs_dir_link curas sv name ino s = Done (r, k) s' /\ others s (sv_i v) s' (sv_i v') /\
    (r = 0 /\ m !! name = None /\ dir_at s' sv v' (<[name := (ino, k)]> m) \/
     (r = EEXIST /\ m !! name <> None \/ r = ENAMETOOLONG /\ 59 < Z.of_nat (length name) \/ r = EIO \/ r = ENOSPC \/ r = EFBIG /\ sfi_size (sv_i v) = FILE_MAX) /\ dir_at s' sv v' m).
Proof.
  intros Hd Hname Hino H0. destruct (dir_link_spec sv s v m name ino Hd Hname Hino H0) as (r & k & s' & v' & He & Ht & Hr).
  exists r, k, s', v'. split_and!; [done|by eapply touched_others|done].
Qed.

(** [sfs_dir_unlink] is deletion: applied to the slot of a name it removes that name
    and no other, or fails with a disk error and leaves the directory as it was; no other
    file changes. *)
Theorem dir_unlink_correct sv s v m name ino k : dir_at s sv v m -> m !! name = Some (ino, k) ->
  exists r s' v', sfs_dir_unlink curas sv k s = Done r s' /\ others s (sv_i v) s' (sv_i v') /\
    (r = 0 /\ dir_at s' sv v' (delete name m) \/ r = EIO /\ dir_at s' sv v' m).
Proof.
  intros Hd Hk. destruct (dir_unlink_spec sv s v m name ino k Hd Hk) as (r & s' & v' & He & Ht & Hr).
  exists r, s', v'. split_and!; [done|by eapply touched_others|done].
Qed.

End SfsDir.
End SfsDir.
