(* ===== verification/SfsTheorems.v ===== *)
(** * The SFS file system: what reads and writes of files do

    The theorems of sfs_io.c, over every file system state in which the free map covers
    the volume and the inode's blocks are blocks of its own; then a small volume on which
    they are applied. *)
From S2P Require Import Prelude Bitmap Copyinout Uio Lhd Sfs SfsErrors SfsFormat SfsProofs SfsIo.
Import Bitmap Copyinout Uio Lhd Sfs SfsErrors SfsFormat SfsProofs SfsIo.

Module SfsTheorems.

Section Theorems.
Context {HW : LhdHardware} (curas : Z) {HL : LhdLaws}.

(** C9: A read of a file through [sfs_io], at any offset and length, through any list of
    buffers: it delivers the bytes of the file from the offset on, stops at the end of the
    file, advances the request by what it delivered, and changes nothing on the volume; the
    only error is a disk that keeps failing, and then what was delivered is right as well. *)
Theorem sfs_read_correct sv s v u : fs_ok s -> svs s !! sv = Some v -> inode_ok s (sv_i v) ->
  uio_ok curas u -> offset_ok u -> uio_rw u = UIO_READ ->
  exists r n u' d', sfs_io curas sv u s = Done (r, u') (set_device d' s) /\
    sectors d' = sectors (sfs_device s) /\
    (r = 0 /\ Z.of_nat n = readable (sv_i v) u \/ r = EIO /\ Z.of_nat n <= readable (sv_i v) u) /\
    io_moved n (fbytes s (sv_i v) (uio_offset u) n) u u'.
Proof.
  intros Hs Hsv Hi Hu Ho Hrw. destruct (sfs_io_read curas sv s v u Hs Hsv Hi Hu Ho Hrw) as (r & n & u' & d' & He & Hq & Hr & Hm).
  exists r, n, u', d'. split_and!; try done. apply Hq.
Qed.


Lemma length_wdata u n : uio_ok curas u -> Z.of_nat n = uio_resid u -> length (wdata u n) = n.
Proof. intros Hu Hn. pose proof (uk_resid _ _ Hu). unfold wdata. rewrite length_fmap, length_take. lia. Qed.

Lemma written_readable sv n s v u s' v' u2 : written sv (uio_offset u) (wdata u n) s v s' v' -> uio_ok curas u ->
  Z.of_nat n = uio_resid u -> uio_offset u2 = uio_offset u -> uio_resid u2 = uio_resid u -> readable (sv_i v') u2 = uio_resid u.
Proof.
  intros Hw Hu Hn Ho Hr. unfold readable. rewrite (wr_size _ _ _ _ _ _ _ Hw), Ho, Hr, length_wdata by done. pose proof (uk_resid _ _ Hu).
  destruct (Nat.eqb_spec n 0); lia.
Qed.


End Theorems.

(** ** A write that fails *)
Section Lost.
Context {HW : LhdHardware} (curas : Z).

(** A request for nothing, at any block up to the end of the disk. *)
Lemma lhd_io_nothing b u d : d_blocks d < 2 ^ 32 - 1 -> 0 <= b <= d_blocks d -> uio_offset u = b * 512 -> uio_resid u = 0 ->
  lhd_io curas u d = Done (0, u) d.
Proof.
  intros Hd Hb Ho Hr. unfold lhd_io. rewrite Ho, Hr. change LHD_SECTSIZE with 512.
  rewrite Z.rem_mul, Z.quot_mul by lia. change (u32 0) with 0. change (0 mod 512) with 0. change (0 / 512) with 0.
  change (negb (0 =? 0) || negb (0 =? 0)) with false. cbv iota. rewrite (u32_small b) by (unfold is_u32; lia).
  unfold mbind, M_bind, get. rewrite u32_small by (unfold is_u32; lia). by replace (d_blocks d <? b + 0) with false by lia.
Qed.

(** A media error during a write is lost.  [sfs_rwblock] retries, but the driver has
    already advanced the request past the block, so the retry asks for nothing and succeeds:
    [sfs_writeblock] returns 0 and the sector holds what the failed write left there. *)
Theorem sfs_write_error_lost b data s : sb_nblocks s <= d_blocks (sfs_device s) < 2 ^ 32 - 1 -> length (lh_buf (sfs_device s)) = 512%nat ->
  in_volume s b -> length data = 512%nat ->
  lhd_irq (lhd_status (lh_ops (sfs_device s)) UIO_WRITE) = Some EIO ->
  exists d', sfs_writeblock curas b data s = Done 0 (set_device d' s) /\
    wrote b (lhd_torn (lh_ops (sfs_device s)) (block s b) data) (sfs_device s) d'.
Proof.
  intros Hd Hbuf Hb Hlen Hst. unfold in_volume in Hb.
  destruct (kinit_ok curas b UIO_WRITE (buffer_space data)) as (Hu & Hbu & Ha).
  set (u := uio_kinit 0 SFS_BLOCKSIZE (b * SFS_BLOCKSIZE) UIO_WRITE (buffer_space data)) in *.
  destruct (sectors_write_fails curas b u (sfs_device s)) as (u' & d' & buf & He & Hm & Hbl & Hops & Hw); try done.
  { unfold is_u32. lia. }
  exists d'. assert (Hdata : contents (uio_mem u) <$> take 512 (addrs u) = data) by (rewrite Ha; by apply buffer_data).
  rewrite Hdata in Hw. split; [|done].
  rewrite <- lhd_io_sector in He by (done || lia).
  assert (H1 : devop_io curas u s = Done (EIO, u') (set_device d' s)) by (unfold devop_io; by rewrite He).
  assert (H2 : devop_io curas u' (set_device d' s) = Done (0, u') (set_device d' s)).
  { unfold devop_io. cbn [sfs_device set_device]. rewrite (lhd_io_nothing (b + 1) u' d'); [done|rewrite Hbl; apply Hd|lia| |].
    - rewrite (mv_offset _ _ _ _ _ _ Hm), (proj1 Hbu). unfold LHD_SECTSIZE. lia.
    - rewrite (mv_resid _ _ _ _ _ _ Hm), (proj2 Hbu). done. }
  assert (Hk : kassert "len == SFS_BLOCKSIZE" (Z.of_nat (length data) =? SFS_BLOCKSIZE) s = Done tt s) by (by rewrite Hlen).
  unfold sfs_writeblock. mrun Hk. fold u. assert (Hrun : sfs_rwblock curas u s = Done (0, u') (set_device d' s)).
  { unfold sfs_rwblock. cbn [rwblock_retry]. mrun H1. change (EIO =? EINVAL) with false. rewrite Z.eqb_refl. by mrun H2. }
  by mrun Hrun.
Qed.

End Lost.

End SfsTheorems.
