(* ===== verification/SfsVolume.v ===== *)
(** * A volume as a whole

    The invariant of a mounted SFS volume: what the free map, the inodes on the disk, the
    vnodes in memory and the files have to do with each other; every operation on one vnode
    keeps it. *)
From S2P Require Import Prelude Bitmap Copyinout Uio Lhd Sfs SfsFormat SfsProofs SfsIo.
From S2P Require Import SfsTrunc SfsDir SfsVnops.
Import Bitmap Copyinout Uio Lhd Sfs SfsFormat SfsProofs SfsIo SfsTrunc SfsDir SfsVnops.

Module SfsVolume.

(** The fields of an inode that the block map does not use. *)
Definition header_ok (i : dinode) : Prop :=
  0 <= sfi_type i < 2 ^ 16 /\ 0 <= sfi_linkcount i < 2 ^ 16 /\ length (sfi_waste i) = 110%nat /\ Forall is_u32 (sfi_waste i).

(** A superblock of a volume with [n] blocks. *)
Definition super_ok (n : Z) (l : list Z) : Prop := words_of l !! 0%nat = Some SFS_MAGIC /\ words_of l !! 1%nat = Some n.

(** Block [j] of the free map. *)
Definition map_block (s : sfs_fs) (j : Z) : list Z := take 512 (drop (Z.to_nat (512 * j)) (bitmap_getdata (sfs_freemap s))).

(** The blocks of the free map belong to the file system. *)
Definition layout (R : gset Z) (nblocks : Z) : Prop :=
  forall j, 0 <= j < SFS_FREEMAPBLOCKS nblocks -> SFS_FREEMAP_START + j ∈ R /\ SFS_FREEMAP_START + j < nblocks.

(** They are up to date unless the map is marked dirty. *)
Definition map_ok (s : sfs_fs) : Prop :=
  nbits (sfs_freemap s) = SFS_FREEMAPBITS (sb_nblocks s) /\
  (sfs_freemapdirty s = false -> forall j, 0 <= j < SFS_FREEMAPBLOCKS (sb_nblocks s) -> block s (SFS_FREEMAP_START + j) = map_block s j).

Lemma map_ok_recorded R s s' : map_ok s -> layout R (sb_nblocks s) -> sb_nblocks s' = sb_nblocks s -> recorded s s' ->
  (forall x, x ∈ R -> 0 < x -> block s' x = block s x) -> map_ok s'.
Proof.
  intros (A & C) B Hnb (_ & Hn & Hd) Hb. unfold map_ok. rewrite Hnb, Hn. split; [done|].
  intros Hclean j Hj. destruct Hd as [|[Hf Hdd]]; [congruence|]. destruct (B j Hj) as [HjR _]. rewrite Hb; [|done|unfold SFS_FREEMAP_START; lia].
  unfold map_block. rewrite Hf. apply C; [congruence|done].
Qed.

Section Volume.
Context {HW : LhdHardware}.

(** The files of a volume by inode number, with their inodes as the kernel sees them (in
    memory when the vnode is loaded), and how they share its blocks; [R] are the blocks the
    file system keeps for itself. *)
Record store (R : gset Z) (s : sfs_fs) (F : gmap Z dinode) : Prop := {
  st_fs : fs_ok s;
  st_ino : forall ino i, F !! ino = Some i -> 0 < ino < sb_nblocks s /\ used s ino;
  st_inode : forall ino i, F !! ino = Some i -> inode_ok s i /\ header_ok i;
  (** no block belongs to two files, and no inode's block to a file *)
  st_apart : forall ino1 ino2 i1 i2, F !! ino1 = Some i1 -> F !! ino2 = Some i2 -> ino1 <> ino2 -> apart s i1 i2;
  st_meta : forall ino i ino2 i2 n, F !! ino = Some i -> F !! ino2 = Some i2 -> slot n -> ptr s i2 n <> ino;
  (** the blocks the file system keeps for itself are in use and not files' *)
  st_reserved : forall x, x ∈ R -> 0 < x -> used s x /\ F !! x = None /\ forall ino i n, F !! ino = Some i -> slot n -> ptr s i n <> x;
  (** the superblock on the disk is that of the volume *)
  st_super : sfs_superdirty s = false /\ super_ok (sb_nblocks s) (block s SFS_SUPER_BLOCK);
  st_map : layout R (sb_nblocks s) /\ map_ok s;
  (** no block is lost *)
  st_tight : forall x, 0 < x < sb_nblocks s -> used s x ->
    x ∈ R \/ is_Some (F !! x) \/ exists ino i n, F !! ino = Some i /\ slot n /\ ptr s i n = x
}.

(** The vnodes in memory: the table holds them all, one for each inode at most; an inode
    that is not in memory, or not dirty, is on the disk. *)
Record cache (s : sfs_fs) (F : gmap Z dinode) : Prop := {
  ca_pool : NoDup (sfs_vnodes s) /\ forall a, a ∈ sfs_vnodes s <-> is_Some (svs s !! a);
  ca_vnode : forall a v, svs s !! a = Some v -> F !! sv_ino v = Some (sv_i v) /\ 1 <= vn_refcount v /\
    (sv_dirty v = false -> block s (sv_ino v) = dinode_bytes (sv_i v));
  ca_unique : forall a b va vb, svs s !! a = Some va -> svs s !! b = Some vb -> sv_ino va = sv_ino vb -> a = b;
  ca_disk : forall ino i, F !! ino = Some i -> (forall a v, svs s !! a = Some v -> sv_ino v <> ino) -> block s ino = dinode_bytes i
}.

Definition vol (R : gset Z) (s : sfs_fs) (F : gmap Z dinode) : Prop := store R s F /\ cache s F.

Lemma fits_of_ok s i : fs_ok s -> inode_ok s i -> header_ok i -> dinode_fits i.
Proof.
  intros Hs Hi (Ht & Hl & Hw & Hwu). pose proof (fo_nblocks _ Hs) as [_ Hn].
  assert (Hp : forall n, slot n -> is_u32 (ptr s i n)).
  { intros n Hsl. destruct (decide (ptr s i n = 0)) as [->|H0]; [unfold is_u32; lia|]. destruct (io_ptr _ _ Hi n Hsl H0). unfold is_u32. lia. }
  assert (H1 : is_u32 (sfi_size i)). { pose proof (io_size _ _ Hi). unfold NSLOTS, SFS_BLOCKSIZE, is_u32 in *. lia. }
  assert (H2 : Forall is_u32 (sfi_direct i)).
  { apply Forall_lookup. intros k x Hk. pose proof (lookup_lt_Some _ _ _ Hk) as Hlt. rewrite (io_direct _ _ Hi) in Hlt.
    specialize (Hp (Z.of_nat k) ltac:(unfold slot, NSLOTS; lia)). unfold ptr, SFS_NDIRECT in Hp.
    replace (Z.of_nat k =? -1) with false in Hp by lia. replace (Z.of_nat k <? 15) with true in Hp by lia. by rewrite Nat2Z.id, Hk in Hp. }
  assert (H3 : is_u32 (sfi_indirect i)). { specialize (Hp (-1) slot_indirect). by rewrite ptr_indirect in Hp. }
  pose proof (io_direct _ _ Hi). unfold dinode_fits. tauto.
Qed.

(** ** A change of one file *)

Record changed (sv : Z) (s : sfs_fs) (v : sfs_vnode) (s' : sfs_fs) (v' : sfs_vnode) : Prop := {
  ch_fs : fs_ok s';
  ch_svs : svs s' = <[sv := v']> (svs s);
  ch_same : sb_nblocks s' = sb_nblocks s /\ sfs_vnodes s' = sfs_vnodes s /\ recorded s s';
  ch_ino : sv_ino v' = sv_ino v /\ kept v v';
  ch_inode : inode_ok s' (sv_i v') /\ header_ok (sv_i v');
  (** the blocks of others stay *)
  ch_frame : forall x, 0 <= x -> used s x -> (forall n, slot n -> ptr s (sv_i v) n <> 0 -> ptr s (sv_i v) n <> x) -> used s' x /\ block s' x = block s x;
  (** the blocks the file gets were free, those it loses become free *)
  ch_gets : forall n, slot n -> ptr s' (sv_i v') n <> 0 -> (exists m, slot m /\ ptr s (sv_i v) m = ptr s' (sv_i v') n) \/ ~ used s (ptr s' (sv_i v') n);
  ch_new : forall x, 0 < x -> used s' x -> used s x \/ exists n, slot n /\ ptr s' (sv_i v') n = x;
  ch_loses : forall x n, 0 < x -> slot n -> ptr s (sv_i v) n = x -> (exists m, slot m /\ ptr s' (sv_i v') m = x) \/ ~ used s' x
}.

Lemma written_changed sv off data s v s' v' : header_ok (sv_i v) -> written sv off data s v s' v' -> changed sv s v s' v'.
Proof.
  intros Hh Hw. pose proof (wr_kind _ _ _ _ _ _ _ Hw) as (K1 & K2 & K3). pose proof (wr_fs _ _ _ _ _ _ _ Hw) as (N1 & N2 & N3). destruct N3 as [_ N3]. split; try apply Hw; try done.
  - split; [apply Hw|]. unfold header_ok. by rewrite K1, K2, K3.
  - intros x Hx Hu Hn. split; [apply (wr_used _ _ _ _ _ _ _ Hw); [lia|done]|apply (wr_block _ _ _ _ _ _ _ Hw); [lia|done|done]].
  - intros n Hn H0. destruct (decide (ptr s' (sv_i v') n = ptr s (sv_i v) n)) as [He|He]; [left; by exists n|right].
    by apply (wr_fresh _ _ _ _ _ _ _ Hw).
  - intros x Hx. apply (wr_new _ _ _ _ _ _ _ Hw). lia.
  - intros x n Hx Hn He. left. exists n. split; [done|]. rewrite (wr_keep _ _ _ _ _ _ _ Hw n Hn); [done|lia].
Qed.

Lemma shrunk_changed sv s v s' v' : header_ok (sv_i v) -> inode_ok s (sv_i v) -> shrunk s (sv_i v) s' (sv_i v') -> svs s' = <[sv := v']> (svs s) ->
  sv_ino v' = sv_ino v /\ kept v v' -> inode_ok s' (sv_i v') -> changed sv s v s' v'.
Proof.
  intros Hh Hi Hsh Hsv Hino Hi'. pose proof Hsh as [F D (K1 & K2 & K3) (N1 & N2 & N3) P U B]. destruct N3 as [_ N3]. split; try done.
  - split; [done|]. unfold header_ok. by rewrite K1, K2, K3.
  - intros x Hx Hu Hn. split.
    + destruct (decide (x = 0)) as [->|Hx0]; [apply (fo_super _ F)|]. apply U; [lia|]. split; [done|]. intros (n & Hsl & He & _). apply (Hn n); congruence.
    + apply B; [done|]. destruct (decide (x = 0)) as [|Hx0]; [by left|right]. intros ->. apply (Hn (-1) slot_indirect); [done|apply ptr_indirect].
  - intros n Hn H0. left. exists n. split; [done|]. by destruct (P n Hn).
  - intros x Hx Hu. left. by apply U.
  - intros x n Hx Hn He. destruct (P n Hn) as [Hp|Hp]; [left; exists n; split; [done|congruence]|right]. intros Hu.
    apply U in Hu as [_ Hno]; [|done]. apply Hno. by exists n.
Qed.

(** ** The blocks of the files *)

(** A lookup after an insertion. *)
Lemma insert_case {A} (F : gmap Z A) k x ino i : <[k := x]> F !! ino = Some i -> ino = k /\ i = x \/ ino <> k /\ F !! ino = Some i.
Proof. rewrite lookup_insert_Some. naive_solver. Qed.

Lemma ptr_blocks s s' i : (forall n, slot n -> ptr s i n <> 0 -> block s' (ptr s i n) = block s (ptr s i n)) -> forall n, ptr s' i n = ptr s i n.
Proof. intros Hb n. apply ptr_ext. intros H0. specialize (Hb (-1) slot_indirect). rewrite ptr_indirect in Hb. by apply Hb. Qed.

(** The files' blocks stay. *)
Lemma store_keep R s F s' : store R s F -> fs_ok s' -> sb_nblocks s' = sb_nblocks s -> sfs_superdirty s' = sfs_superdirty s -> map_ok s' ->
  block s' SFS_SUPER_BLOCK = block s SFS_SUPER_BLOCK -> (forall x, 0 < x -> used s' x <-> used s x) ->
  (forall ino i n, F !! ino = Some i -> slot n -> ptr s i n <> 0 -> block s' (ptr s i n) = block s (ptr s i n)) -> store R s' F.
Proof.
  intros [A B C D E G SU MP H] Hs' Hnb Hsd Hmo Hb0 Hu Hb. assert (Hp : forall ino i n, F !! ino = Some i -> ptr s' i n = ptr s i n).
  { intros ino i n Hi. apply ptr_blocks. intros; by eapply Hb. }
  split; try done.
  - intros ino i Hi. destruct (B ino i Hi). rewrite Hnb, Hu by lia. done.
  - intros ino i Hi. destruct (C ino i Hi) as [Hok Hh]. split; [|done]. apply (inode_ok_frame s); try done.
    + intros n Hn H0. destruct (io_ptr _ _ Hok n Hn H0). apply Hu; [lia|done].
    + intros H0. specialize (Hb ino i (-1) Hi slot_indirect). rewrite ptr_indirect in Hb. by apply Hb.
  - intros ino1 ino2 i1 i2 H1 H2 Hne n m Hn Hm. rewrite (Hp _ _ _ H1), (Hp _ _ _ H2). by apply (D ino1 ino2 i1 i2).
  - intros ino i ino2 i2 n H1 H2 Hn. rewrite (Hp _ _ _ H2). by apply (E ino i ino2 i2).
  - intros x Hx H0. destruct (G x Hx H0) as (Hux & Hnone & Hno). split_and!; [by apply Hu|done|].
    intros ino i n Hi Hn. rewrite (Hp _ _ _ Hi). by apply (Hno ino i).
  - by rewrite Hsd, Hnb, Hb0.
  - destruct MP. by rewrite Hnb.
  - intros x Hx Hux. rewrite Hnb in Hx. apply Hu in Hux; [|lia]. destruct (H x Hx Hux) as [|[|(ino & i & n & Hi & Hn & He)]]; auto.
    right; right. exists ino, i, n. by rewrite (Hp _ _ _ Hi).
Qed.

Lemma store_frame R s F s' : store R s F -> fs_ok s' -> sb_nblocks s' = sb_nblocks s -> recorded s s' ->
  (forall x, x ∈ {[SFS_SUPER_BLOCK]} ∪ R -> block s' x = block s x) -> (forall x, 0 < x -> used s' x <-> used s x) ->
  (forall ino i n, F !! ino = Some i -> slot n -> ptr s i n <> 0 -> block s' (ptr s i n) = block s (ptr s i n)) -> store R s' F.
Proof.
  intros HS Hs' Hnb Hr Hb0. destruct (st_map _ _ _ HS). apply store_keep; try done; [apply Hr| |apply Hb0; set_solver].
  apply (map_ok_recorded R s); try done. intros x Hx _. apply Hb0. set_solver.
Qed.

(** A block is allocated and belongs to no file yet. *)
Lemma store_alloc R s F s' b : store R s F -> fs_ok s' -> allocated b s s' -> store ({[b]} ∪ R) s' F /\ b ∉ R /\ F !! b = None.
Proof.
  intros HS Hs' [Hr Hf Hu Hb (Hnb & _ & _ & Hfx)]. pose proof HS as [A B C D E G SU MP H].
  assert (Hbl : forall x, used s x -> block s' x = block s x) by (intros x Hx; rewrite Hb; by destruct (Z.eqb_spec x b) as [->|]).
  assert (Hpu : forall ino i n, F !! ino = Some i -> slot n -> ptr s i n <> 0 -> 0 < ptr s i n /\ used s (ptr s i n)).
  { intros ino i n Hi Hn H0. destruct (C ino i Hi) as [Hok _]. destruct (io_ptr _ _ Hok n Hn H0). split; [lia|done]. }
  assert (Hp : forall ino i n, F !! ino = Some i -> ptr s' i n = ptr s i n).
  { intros ino i n Hi. apply ptr_blocks. intros m Hm H0. by apply Hbl, (Hpu ino i). }
  assert (HF : F !! b = None).
  { destruct (F !! b) as [i|] eqn:Ei; [|done]. destruct (B b i Ei). done. }
  split_and!; [|intros Hin; destruct (G b Hin); [lia|done]|done]. split; try done.
  - intros ino i Hi. destruct (B ino i Hi). rewrite Hnb, Hu by lia. auto.
  - intros ino i Hi. destruct (C ino i Hi) as [Hok Hh]. split; [|done]. apply (inode_ok_frame s); try done.
    + intros n Hn H0. destruct (Hpu ino i n Hi Hn H0). apply Hu; [lia|auto].
    + intros H0. apply Hbl. specialize (Hpu ino i (-1) Hi slot_indirect). rewrite ptr_indirect in Hpu. by apply Hpu.
  - intros ino1 ino2 i1 i2 H1 H2 Hne n m Hn Hm. rewrite (Hp _ _ _ H1), (Hp _ _ _ H2). by apply (D ino1 ino2 i1 i2).
  - intros ino i ino2 i2 n H1 H2 Hn. rewrite (Hp _ _ _ H2). by apply (E ino i ino2 i2).
  - intros x Hx H0. assert (Hxb : used s' x /\ F !! x = None /\ forall ino i n, F !! ino = Some i -> slot n -> ptr s i n <> x).
    { apply elem_of_union in Hx as [Hx|Hx].
      - apply elem_of_singleton in Hx as ->. split_and!; [apply Hu; [lia|auto]|done|]. intros ino i n Hi Hn He.
        destruct (Hpu ino i n Hi Hn) as [_ Hpx]; [lia|by rewrite He in Hpx].
      - destruct (G x Hx H0) as (Hux & Hnone & Hno). split_and!; [apply Hu; [lia|auto]|done|done]. }
    destruct Hxb as (X1 & X2 & X3). split_and!; [done|done|]. intros ino i n Hi Hn. rewrite (Hp _ _ _ Hi). by apply (X3 ino i).
  - destruct Hfx as [_ (-> & _)]. rewrite Hnb, Hbl; [done|apply (fo_super _ A)].
  - destruct MP as [LO MO]. rewrite Hnb. split; [intros j Hj; destruct (LO j Hj); split; [set_solver|done]|].
    apply (map_ok_recorded R s); try done; [apply Hfx|]. intros x Hx H0. apply Hbl. by apply (G x Hx H0).
  - intros x Hx Hux. rewrite Hnb in Hx. apply Hu in Hux as [->|Hux]; [left; set_solver| |lia].
    destruct (H x Hx Hux) as [|[|(ino & i & n & Hi & Hn & He)]]; [left; set_solver|auto|].
    right; right. exists ino, i, n. by rewrite (Hp _ _ _ Hi).
Qed.

(** It is given back. *)
Lemma store_free R s F s' b : store ({[b]} ∪ R) s F -> layout R (sb_nblocks s) -> b ∉ R -> 0 < b -> fs_ok s' -> sb_nblocks s' = sb_nblocks s ->
  recorded s s' -> (forall x, block s' x = block s x) -> (forall x, 0 <= x -> used s' x <-> x <> b /\ used s x) -> store R s' F.
Proof.
  intros [A B C D E G SU MP H] LO HbR Hb0 Hs' Hnb Hsd Hb Hu. destruct (G b ltac:(set_solver) Hb0) as (Hub & Hnone & Hno).
  assert (Hp : forall i n, ptr s' i n = ptr s i n) by (intros i n; apply ptr_ext; intros _; apply Hb). split; try done.
  - intros ino i Hi. destruct (B ino i Hi). rewrite Hnb, Hu by lia. split_and!; [lia|lia|congruence|done].
  - intros ino i Hi. destruct (C ino i Hi) as [Hok Hh]. split; [|done]. apply (inode_ok_frame s); try done.
    intros n Hn H0. destruct (io_ptr _ _ Hok n Hn H0). apply Hu; [lia|]. split; [by apply (Hno ino i)|done].
  - intros ino1 ino2 i1 i2 H1 H2 Hne n m Hn Hm. rewrite !Hp. by apply (D ino1 ino2 i1 i2).
  - intros ino i ino2 i2 n H1 H2 Hn. rewrite Hp. by apply (E ino i ino2 i2).
  - intros x Hx H0. destruct (G x ltac:(set_solver) H0) as (Hux & Hn & Hnx). split_and!; [|done|].
    + apply Hu; [lia|]. split; [by intros ->|done].
    + intros ino i n Hi Hsl. rewrite Hp. by apply (Hnx ino i).
  - destruct Hsd as (-> & _). by rewrite Hnb, Hb.
  - destruct MP as [_ MO]. rewrite Hnb. split; [done|]. by apply (map_ok_recorded R s).
  - intros x Hx Hux. rewrite Hnb in Hx. apply Hu in Hux as [Hne Hux]; [|lia].
    destruct (H x Hx Hux) as [Hin|[|(ino & i & n & Hi & Hn & He)]]; [left; set_solver|auto|].
    right; right. exists ino, i, n. by rewrite Hp.
Qed.

(** An inode without blocks. *)
Definition no_blocks (s : sfs_fs) (i : dinode) : Prop := forall n, slot n -> ptr s i n = 0.

(** A block becomes the inode of a file without blocks, or is no longer one. *)
Lemma store_add R s F b i : store ({[b]} ∪ R) s F -> layout R (sb_nblocks s) -> b ∉ R -> 0 < b < sb_nblocks s -> inode_ok s i -> header_ok i -> no_blocks s i ->
  store R s (<[b := i]> F).
Proof.
  intros [A B C D E G SU MP H] LO HbR Hb Hok Hh Hno. destruct (G b ltac:(set_solver) ltac:(lia)) as (Hub & Hnone & Hnp).
  split; try done.
  - intros ino j [[-> ->]|[Hne Hj]]%insert_case; [done|by apply (B ino j)].
  - intros ino j [[-> ->]|[Hne Hj]]%insert_case; [done|by apply (C ino j)].
  - intros ino1 ino2 i1 i2 [[-> ->]|[N1 H1]]%insert_case [[-> ->]|[N2 H2]]%insert_case Hne n m Hn Hm H0 He; [done|by rewrite Hno in H0| |by apply (D ino1 ino2 i1 i2 H1 H2 Hne n m)].
    by rewrite He, Hno in H0.
  - intros ino1 i1 ino2 i2 n [[-> ->]|[N1 H1]]%insert_case [[-> ->]|[N2 H2]]%insert_case Hn.
    + rewrite Hno by done. lia.
    + by apply (Hnp ino2 i2).
    + rewrite Hno by done. destruct (B ino1 i1 H1). lia.
    + by apply (E ino1 i1 ino2 i2).
  - intros x Hx H0. destruct (G x ltac:(set_solver) H0) as (Hux & Hxn & Hxp). split_and!; [done|rewrite lookup_insert_ne; [done|set_solver]|].
    intros ino j n [[-> ->]|[Hne Hj]]%insert_case Hn; [rewrite Hno by done; lia|by apply (Hxp ino j)].
  - split; [done|apply MP].
  - intros x Hx Hux. destruct (decide (x = b)) as [->|Hxb]; [right; left; rewrite lookup_insert_eq; eauto|].
    destruct (H x Hx Hux) as [Hin|[[j Hj]|(ino & j & n & Hi & Hn & He)]]; [left; set_solver|right; left; rewrite lookup_insert_ne; eauto|].
    right; right. exists ino, j, n. rewrite lookup_insert_ne; [done|]. intros <-. congruence.
Qed.

Lemma store_drop R s F b i : store R s F -> F !! b = Some i -> no_blocks s i -> store ({[b]} ∪ R) s (delete b F) /\ b ∉ R /\ 0 < b < sb_nblocks s /\ used s b.
Proof.
  intros [A B C D E G SU MP H] Hb Hno. destruct (B b i Hb) as [Hr Hub].
  split_and!; [|intros Hin; destruct (G b Hin) as (_ & ? & _); [lia|congruence]|lia|lia|done]. split; try done.
  - intros ino j [Hne Hj]%lookup_delete_Some. by apply (B ino j).
  - intros ino j [Hne Hj]%lookup_delete_Some. by apply (C ino j).
  - intros ino1 ino2 i1 i2 [N1 H1]%lookup_delete_Some [N2 H2]%lookup_delete_Some. by apply D.
  - intros ino1 i1 ino2 i2 n [N1 H1]%lookup_delete_Some [N2 H2]%lookup_delete_Some. by apply (E ino1 i1 ino2 i2).
  - intros x Hx H0. destruct (decide (x = b)) as [->|Hne].
    + split_and!; [done|apply lookup_delete_eq|]. intros ino j n [N1 H1]%lookup_delete_Some Hn. by apply (E b i ino j).
    + destruct (G x ltac:(set_solver) H0) as (Hux & Hxn & Hxp). split_and!; [done|by rewrite lookup_delete_ne|].
      intros ino j n [N1 H1]%lookup_delete_Some Hn. by apply (Hxp ino j).
  - destruct MP as [LO MO]. split; [intros j Hj; destruct (LO j Hj); split; [set_solver|done]|done].
  - intros x Hx Hux. destruct (decide (x = b)) as [->|Hne]; [left; set_solver|].
    destruct (H x Hx Hux) as [Hin|[[j Hj]|(ino & j & n & Hi & Hn & He)]]; [left; set_solver|right; left; rewrite lookup_delete_ne; eauto|].
    right; right. exists ino, j, n. split_and!; try done. rewrite lookup_delete_Some. split; [|done]. intros <-.
    rewrite Hb in Hi. injection Hi as <-. rewrite Hno in He by done. lia.
Qed.

Section Changed.
Context (R : gset Z) (sv : Z) (s : sfs_fs) (v : sfs_vnode) (s' : sfs_fs) (v' : sfs_vnode) (F : gmap Z dinode).
Hypotheses (HS : store R s F) (Hself : F !! sv_ino v = Some (sv_i v)) (HC : changed sv s v s' v').

(** Blocks of inodes. *)
Lemma changed_meta ino i : F !! ino = Some i -> used s' ino /\ block s' ino = block s ino.
Proof using HS Hself HC.
  intros Hi. destruct (st_ino _ _ _ HS ino i Hi). apply (ch_frame _ _ _ _ _ HC); [lia|done|].
  intros n Hn _. by apply (st_meta _ _ _ HS ino i _ _ n Hi Hself).
Qed.

(** Another file. *)
Lemma changed_other ino j : F !! ino = Some j -> ino <> sv_ino v ->
  (forall n, ptr s' j n = ptr s j n) /\ (forall n, slot n -> ptr s j n <> 0 -> used s' (ptr s j n) /\ block s' (ptr s j n) = block s (ptr s j n)).
Proof using HS Hself HC.
  intros Hj Hne. destruct (st_inode _ _ _ HS ino j Hj) as [Hok _].
  assert (Hb : forall n, slot n -> ptr s j n <> 0 -> used s' (ptr s j n) /\ block s' (ptr s j n) = block s (ptr s j n)).
  { intros n Hn H0. destruct (io_ptr _ _ Hok n Hn H0). apply (ch_frame _ _ _ _ _ HC); [lia|done|]. intros m Hm _ He.
    apply (st_apart _ _ _ HS ino (sv_ino v) j (sv_i v) Hj Hself Hne n m Hn Hm H0). done. }
  split; [|done]. apply ptr_blocks. intros n Hn H0. by apply Hb.
Qed.

(** The file's new blocks are none of those in use. *)
Lemma changed_gets n x : slot n -> 0 < x -> used s x -> (forall m, slot m -> ptr s (sv_i v) m <> x) -> ptr s' (sv_i v') n <> x.
Proof using HC.
  intros Hn Hx Hu Hno He. destruct (ch_gets _ _ _ _ _ HC n Hn ltac:(lia)) as [(q & Hq & Heq)|Hnu]; [apply (Hno q Hq); congruence|by rewrite He in Hnu].
Qed.

Lemma changed_apart ino j n m : F !! ino = Some j -> ino <> sv_ino v -> slot n -> slot m -> ptr s' (sv_i v') n <> 0 -> ptr s' (sv_i v') n <> ptr s j m.
Proof using HS Hself HC.
  intros Hj Hne Hn Hm H0. destruct (st_inode _ _ _ HS ino j Hj) as [Hok _]. destruct (decide (ptr s j m = 0)) as [->|Hm0]; [done|].
  destruct (io_ptr _ _ Hok m Hm Hm0). apply changed_gets; [done|lia|done|]. intros q Hq He.
  by apply (st_apart _ _ _ HS ino (sv_ino v) j (sv_i v) Hj Hself Hne m q Hm Hq Hm0).
Qed.

Lemma changed_store : store R s' (<[sv_ino v := sv_i v']> F).
Proof using HS Hself HC.
  destruct (ch_same _ _ _ _ _ HC) as (Hnb & _ & Hsd).
  assert (HF : forall ino i, <[sv_ino v := sv_i v']> F !! ino = Some i -> exists j, F !! ino = Some j).
  { intros ino i [[-> _]|[_ H']]%insert_case; [by exists (sv_i v)|by exists i]. }
  split.
  - apply HC.
  - intros ino i H. destruct (HF ino i H) as [j Hj]. destruct (st_ino _ _ _ HS ino j Hj). rewrite Hnb. split; [done|]. by apply (changed_meta ino j).
  - intros ino i [[-> ->]|[Hne H']]%insert_case; [apply HC|]. destruct (changed_other ino i H' Hne) as [Hp Hb].
    destruct (st_inode _ _ _ HS ino i H') as [Hok Hh]. split; [|done]. apply (inode_ok_frame s); try done; [intros n Hn H0; by apply Hb|].
    intros H0. destruct (Hb (-1) slot_indirect) as [_ Hbl]; [by rewrite ptr_indirect|]. by rewrite ptr_indirect in Hbl.
  - intros ino1 ino2 i1 i2 [[-> ->]|[Hn1 H1']]%insert_case [[-> ->]|[Hn2 H2']]%insert_case Hne n m Hn Hm H0 He; [done|..].
    + destruct (changed_other ino2 i2 H2' Hn2) as [Hp _]. rewrite Hp in He. by apply (changed_apart ino2 i2 n m).
    + destruct (changed_other ino1 i1 H1' Hn1) as [Hp _]. rewrite Hp in He, H0. apply (changed_apart ino1 i1 m n); try done. by rewrite <- He.
    + destruct (changed_other ino1 i1 H1' Hn1) as [Hp1 _]. destruct (changed_other ino2 i2 H2' Hn2) as [Hp2 _]. rewrite Hp1 in H0. rewrite Hp1, Hp2 in He.
      by apply (st_apart _ _ _ HS ino1 ino2 i1 i2 H1' H2' Hne n m).
  - intros ino i ino2 i2 n H1 [[-> ->]|[Hn2 H2']]%insert_case Hn; destruct (HF ino i H1) as [j Hj]; destruct (st_ino _ _ _ HS ino j Hj).
    + apply changed_gets; [done|lia|done|]. intros m Hm. by apply (st_meta _ _ _ HS ino j (sv_ino v) (sv_i v)).
    + destruct (changed_other ino2 i2 H2' Hn2) as [Hp _]. rewrite Hp. by apply (st_meta _ _ _ HS ino j ino2 i2).
  - intros x Hx Hx0. destruct (st_reserved _ _ _ HS x Hx Hx0) as (Hu & Hnone & Hno). split_and!.
    + apply (ch_frame _ _ _ _ _ HC); [lia|done|]. intros n Hn _. by apply (Hno (sv_ino v) (sv_i v)).
    + rewrite lookup_insert_ne; [done|]. intros <-. congruence.
    + intros ino i n [[-> ->]|[Hne H']]%insert_case Hn.
      * apply changed_gets; [done|done|done|]. intros m Hm. by apply (Hno (sv_ino v) (sv_i v)).
      * destruct (changed_other ino i H' Hne) as [Hp _]. rewrite Hp. by apply (Hno ino i).
  - destruct (st_super _ _ _ HS) as [Hd Hsu]. destruct Hsd as (-> & _). rewrite Hnb. split; [done|]. destruct (ch_frame _ _ _ _ _ HC SFS_SUPER_BLOCK) as [_ ->]; try done.
    apply (fo_super _ (st_fs _ _ _ HS)).
  - destruct (st_map _ _ _ HS) as [LO MO]. rewrite Hnb. split; [done|]. apply (map_ok_recorded R s); try done. intros x Hx H0. destruct (st_reserved _ _ _ HS x Hx H0) as (Hu & _ & Hno).
    apply (ch_frame _ _ _ _ _ HC); [lia|done|]. intros n Hn _. by apply (Hno (sv_ino v) (sv_i v)).
  - intros x Hx Hu. rewrite Hnb in Hx. destruct (ch_new _ _ _ _ _ HC x ltac:(lia) Hu) as [Hu0|(n & Hn & He)].
    2:{ right; right. exists (sv_ino v), (sv_i v'), n. split_and!; [apply lookup_insert_eq|done|done]. }
    destruct (st_tight _ _ _ HS x Hx Hu0) as [Hr|[[j Hj]|(ino & i & n & Hi & Hn & He)]]; [by left|right; left|right; right].
    + destruct (decide (x = sv_ino v)) as [->|Hne]; [rewrite lookup_insert_eq; eauto|rewrite lookup_insert_ne by done; eauto].
    + destruct (decide (ino = sv_ino v)) as [->|Hne].
      * rewrite Hself in Hi. injection Hi as <-. destruct (ch_loses _ _ _ _ _ HC x n ltac:(lia) Hn He) as [(m & Hm & Hem)|Hnu]; [|done].
        exists (sv_ino v), (sv_i v'), m. split_and!; [apply lookup_insert_eq|done|done].
      * exists ino, i, n. destruct (changed_other ino i Hi Hne) as [Hp _]. rewrite Hp. split_and!; [by rewrite lookup_insert_ne|done|done].
Qed.

End Changed.

(** ** The vnodes in memory *)

Lemma cache_frame s F s' : cache s F -> sfs_vnodes s' = sfs_vnodes s -> svs s' = svs s ->
  (forall ino i, F !! ino = Some i -> block s' ino = block s ino) -> cache s' F.
Proof.
  intros [A B C D] Hvn Hsv Hb. split; rewrite ?Hvn, ?Hsv; try done.
  - intros a v Ha. destruct (B a v Ha) as (H1 & H2 & H3). split_and!; [done|done|]. intros Hd. rewrite (Hb _ _ H1). by apply H3.
  - intros ino i Hi Hno. rewrite (Hb _ _ Hi). by apply D.
Qed.

(** One vnode changes. *)
Lemma cache_update s F s' sv v v' : cache s F -> svs s !! sv = Some v -> sfs_vnodes s' = sfs_vnodes s -> svs s' = <[sv := v']> (svs s) ->
  sv_ino v' = sv_ino v -> 1 <= vn_refcount v' -> (sv_dirty v' = false -> block s' (sv_ino v) = dinode_bytes (sv_i v')) ->
  (forall ino i, F !! ino = Some i -> ino <> sv_ino v -> block s' ino = block s ino) -> cache s' (<[sv_ino v := sv_i v']> F).
Proof.
  intros [[A1 A2] B C D] Hsv Hvn Hsvs Hino Href Hdirty Hb. split; rewrite ?Hvn, ?Hsvs.
  - split; [done|]. intros a. rewrite A2. destruct (decide (a = sv)) as [->|]; [rewrite lookup_insert_eq, Hsv; split; eauto|by rewrite lookup_insert_ne].
  - intros a w [[-> ->]|[Hne Hw]]%insert_case; [rewrite Hino, lookup_insert_eq; done|]. destruct (B a w Hw) as (H1 & H2 & H3).
    assert (sv_ino w <> sv_ino v) by (intros He; apply Hne; by apply (C a sv w v)). rewrite lookup_insert_ne by done.
    split_and!; [done|done|]. intros Hd. rewrite (Hb _ _ H1) by done. by apply H3.
  - intros a b va vb [[-> ->]|[Na Ha]]%insert_case [[-> ->]|[Nb Hb']]%insert_case He; [done|..|by apply (C a b va vb)]; rewrite Hino in He.
    + symmetry. by apply (C b sv vb v).
    + by apply (C a sv va v).
  - intros ino i [[-> ->]|[Hne Hi]]%insert_case Hno; [exfalso; by apply (Hno sv v'); [apply lookup_insert_eq|]|]. rewrite (Hb _ _ Hi) by done.
    apply (D ino i Hi). intros a w Hw. destruct (decide (a = sv)) as [->|Hna]; [rewrite Hsv in Hw; by injection Hw as <-|].
    apply (Hno a w). by rewrite lookup_insert_ne.
Qed.

Lemma cache_update_same s F s' sv v v' : cache s F -> svs s !! sv = Some v -> sfs_vnodes s' = sfs_vnodes s -> svs s' = <[sv := v']> (svs s) ->
  sv_ino v' = sv_ino v -> sv_i v' = sv_i v -> 1 <= vn_refcount v' -> (sv_dirty v' = false -> block s' (sv_ino v) = dinode_bytes (sv_i v')) ->
  (forall ino i, F !! ino = Some i -> ino <> sv_ino v -> block s' ino = block s ino) -> cache s' F.
Proof.
  intros Hc Hsv Hvn Hsvs Hino Hi Href Hd Hb. destruct (ca_vnode _ _ Hc sv v Hsv) as [HF _].
  pose proof (cache_update s F s' sv v v' Hc Hsv Hvn Hsvs Hino Href Hd Hb) as H. rewrite Hi in H. by rewrite insert_id in H.
Qed.

(** One vnode more. *)
Lemma cache_load s F s' sv v : cache s F -> svs s !! sv = None -> sfs_vnodes s' = sfs_vnodes s ++ [sv] -> svs s' = <[sv := v]> (svs s) ->
  (forall a w, svs s !! a = Some w -> sv_ino w <> sv_ino v) -> 1 <= vn_refcount v ->
  (sv_dirty v = false -> block s' (sv_ino v) = dinode_bytes (sv_i v)) ->
  (forall ino i, F !! ino = Some i -> ino <> sv_ino v -> block s' ino = block s ino) -> cache s' (<[sv_ino v := sv_i v]> F).
Proof.
  intros [[A1 A2] B C D] Hsv Hvn Hsvs Hnew Href Hdirty Hb. split; rewrite ?Hvn, ?Hsvs.
  - split.
    + apply NoDup_app. split_and!; [done| |apply NoDup_singleton]. intros a Ha ->%list_elem_of_singleton. apply A2 in Ha as [? ?]. congruence.
    + intros a. rewrite elem_of_app, list_elem_of_singleton, A2. destruct (decide (a = sv)) as [->|].
      * rewrite lookup_insert_eq. split; eauto.
      * rewrite lookup_insert_ne by done. split; [intros [|]; done|by left].
  - intros a w [[-> ->]|[Hne Hw]]%insert_case; [by rewrite lookup_insert_eq|]. destruct (B a w Hw) as (H1 & H2 & H3).
    pose proof (Hnew a w Hw). rewrite lookup_insert_ne by done. split_and!; [done|done|]. intros Hd. rewrite (Hb _ _ H1) by done. by apply H3.
  - intros a b va vb [[-> ->]|[Na Ha]]%insert_case [[-> ->]|[Nb Hb']]%insert_case He; [done|..|by apply (C a b va vb)].
    + by destruct (Hnew b vb Hb').
    + by destruct (Hnew a va Ha).
  - intros ino i [[-> ->]|[Hne Hi]]%insert_case Hno; [exfalso; by apply (Hno sv v); [apply lookup_insert_eq|]|]. rewrite (Hb _ _ Hi) by done.
    apply (D ino i Hi). intros a w Hw. apply (Hno a w). rewrite lookup_insert_ne; [done|]. intros <-. congruence.
Qed.

(** One vnode less: the inode is on the disk, or gone. *)
Lemma cache_unload s F s' F' sv v ix : cache s F -> svs s !! sv = Some v -> sfs_vnodes s !! ix = Some sv ->
  sfs_vnodes s' = delete ix (sfs_vnodes s) -> svs s' = delete sv (svs s) ->
  (forall ino, ino <> sv_ino v -> F' !! ino = F !! ino) -> (forall i, F' !! sv_ino v = Some i -> block s' (sv_ino v) = dinode_bytes i) ->
  (forall ino i, F !! ino = Some i -> ino <> sv_ino v -> block s' ino = block s ino) -> cache s' F'.
Proof.
  intros [[A1 A2] B C D] Hsv Hix Hvn Hsvs HF Hself Hb. split; rewrite ?Hvn, ?Hsvs.
  - assert (Hperm : sfs_vnodes s ≡ₚ sv :: delete ix (sfs_vnodes s)) by (by apply delete_Permutation).
    rewrite Hperm in A1. apply NoDup_cons in A1 as [Hnin Hnd]. split; [done|]. intros a. destruct (decide (a = sv)) as [->|Hne].
    + rewrite lookup_delete_eq. split; [done|by intros [? ?]].
    + rewrite lookup_delete_ne, <- A2 by done. pose proof (elem_of_Permutation_proper a _ _ Hperm) as Hin. rewrite elem_of_cons in Hin. tauto.
  - intros a w [Hne Hw]%lookup_delete_Some. destruct (B a w Hw) as (H1 & H2 & H3).
    assert (sv_ino w <> sv_ino v) by (intros He; apply Hne; symmetry; by apply (C a sv w v)). rewrite HF by done.
    split_and!; [done|done|]. intros Hd. rewrite (Hb _ _ H1) by done. by apply H3.
  - intros a b va vb [_ Ha]%lookup_delete_Some [_ Hb']%lookup_delete_Some. by apply C.
  - intros ino i Hi Hno. destruct (decide (ino = sv_ino v)) as [->|Hne]; [by apply Hself|]. rewrite HF in Hi by done. rewrite (Hb _ _ Hi) by done.
    apply (D ino i Hi). intros a w Hw. destruct (decide (a = sv)) as [->|Hna]; [rewrite Hsv in Hw; injection Hw as <-; congruence|].
    apply (Hno a w). by rewrite lookup_delete_ne.
Qed.

(** ** A change of one file *)

Section ChangedVol.
Context (R : gset Z) (sv : Z) (s : sfs_fs) (v : sfs_vnode) (s' : sfs_fs) (v' : sfs_vnode) (F : gmap Z dinode).
Hypotheses (HV : vol R s F) (Hsv : svs s !! sv = Some v) (HC : changed sv s v s' v').

Lemma changed_self : F !! sv_ino v = Some (sv_i v).
Proof using HV Hsv. destruct HV as [_ Hc]. by apply (ca_vnode _ _ Hc sv). Qed.

Lemma changed_vol : vol R s' (<[sv_ino v := sv_i v']> F).
Proof using HV Hsv HC.
  pose proof changed_self as Hself. destruct HV as [HS Hc]. destruct (ch_ino _ _ _ _ _ HC) as [Hino [Href Hdirty]].
  destruct (ca_vnode _ _ Hc sv v Hsv) as (_ & Hr & Hd). split; [by eapply changed_store|].
  apply (cache_update s F s' sv v v'); try apply HC; try done.
  - by rewrite Href.
  - intros Hclean. destruct Hdirty as [Heq|]; [|congruence]. rewrite (proj2 (changed_meta _ _ _ _ _ _ _ HS Hself HC _ _ Hself)), Heq.
    apply Hd. by rewrite <- Heq.
  - intros ino i Hi _. by apply (changed_meta _ _ _ _ _ _ _ HS Hself HC _ _ Hi).
Qed.

End ChangedVol.
End Volume.
End SfsVolume.
