(* ===== verification/SfsObjects.v ===== *)
(** * The life of a vnode on a volume

    What loading, creating, synchronising and releasing a vnode do to the files of a volume:
    the lemmas of sfs_inode.c over the invariant of SfsVolume.v. *)
From S2P Require Import Prelude Bitmap Copyinout Uio Lhd Sfs SfsErrors SfsFormat SfsProofs SfsIo.
From S2P Require Import SfsTrunc SfsDir SfsVnops SfsVolume.
Import Bitmap Copyinout Uio Lhd Sfs SfsErrors SfsFormat SfsProofs SfsIo SfsTrunc SfsDir SfsVnops SfsVolume.

Module SfsObjects.

(** ** What stays *)

Section Kept.
Context {HW : LhdHardware}.

(** The bytes of the files, those of [X] apart. *)
Definition bytes_kept (X : gset Z) (s s' : sfs_fs) (F : gmap Z dinode) : Prop :=
  forall ino i k, F !! ino = Some i -> ino ∉ X -> 0 <= k < FILE_MAX -> fbyte s' i k = fbyte s i k.

Lemma bytes_kept_trans X s s1 s2 F F1 : bytes_kept X s s1 F -> bytes_kept X s1 s2 F1 ->
  (forall ino i, F !! ino = Some i -> ino ∉ X -> F1 !! ino = Some i) -> bytes_kept X s s2 F.
Proof. intros H1 H2 HF ino i k Hi HX Hk. rewrite (H2 ino i k (HF ino i Hi HX) HX Hk). by apply (H1 ino i k). Qed.

Lemma bytes_kept_weaken X Y s s' F : X ⊆ Y -> bytes_kept X s s' F -> bytes_kept Y s s' F.
Proof. intros HXY H ino i k Hi HY. apply (H ino i k Hi). set_solver. Qed.

Lemma fbyte_blocks s s' i k : (forall n, slot n -> ptr s i n <> 0 -> block s' (ptr s i n) = block s (ptr s i n)) -> 0 <= k < FILE_MAX ->
  fbyte s' i k = fbyte s i k.
Proof.
  intros Hb Hk. unfold fbyte. rewrite (ptr_blocks s s' i Hb). destruct (Z.eqb_spec (ptr s i (k / 512)) 0); [done|]. rewrite Hb; [done| |done].
  unfold FILE_MAX, SFS_BLOCKSIZE in Hk. unfold slot. split; [assert (0 <= k / 512) by (apply Z.div_pos; lia); lia|]. apply Z.div_lt_upper_bound; lia.
Qed.

(** The block of an inode is none of the file system's own. *)
Lemma own_block R s F ino i x : store R s F -> F !! ino = Some i -> x ∈ {[SFS_SUPER_BLOCK]} ∪ R -> x <> ino.
Proof.
  intros HS Hi Hx ->. destruct (st_ino _ _ _ HS _ _ Hi) as [Hr _]. destruct (decide (ino ∈ R)) as [HR|]; [|unfold SFS_SUPER_BLOCK in *; set_solver by lia].
  destruct (st_reserved _ _ _ HS ino HR) as (_ & Hn & _); [lia|congruence].
Qed.

(** Only the block of an inode is written. *)
Lemma bytes_kept_meta R s s' F ino i : store R s F -> F !! ino = Some i -> (forall x, x <> ino -> block s' x = block s x) -> bytes_kept ∅ s s' F.
Proof. intros HS Hi Hb ino2 i2 k H2 _. apply fbyte_blocks. intros n Hn _. apply Hb. by apply (st_meta _ _ _ HS ino i ino2 i2). Qed.

Lemma bytes_kept_block X s s' F : (forall x, block s' x = block s x) -> bytes_kept X s s' F.
Proof. intros Hb ino i k _ _. apply fbyte_blocks. intros; apply Hb. Qed.

Lemma changed_bytes R sv s v s' v' F : vol R s F -> svs s !! sv = Some v -> changed sv s v s' v' -> bytes_kept {[sv_ino v]} s s' F.
Proof.
  intros HV Hsv HC ino i k Hi Hne. apply fbyte_blocks. pose proof (changed_self R sv s v F HV Hsv) as Hself. destruct HV as [HS _].
  destruct (changed_other R sv s v s' v' F HS Hself HC ino i Hi ltac:(set_solver)) as [_ Hb]. intros n Hn H0. by apply Hb.
Qed.

Lemma fs_ok_same s s' : fs_ok s -> sb_nblocks s' = sb_nblocks s -> sfs_freemap s' = sfs_freemap s -> sfs_device s' = sfs_device s -> fs_ok s'.
Proof. intros [A B C D E] Hn Hf Hd. split; unfold used; rewrite ?Hn, ?Hf, ?Hd; done. Qed.

(** Operations that change no block and no vnode. *)
Lemma vol_frame R s F s' : vol R s F -> fs_ok s' -> sb_nblocks s' = sb_nblocks s -> sfs_vnodes s' = sfs_vnodes s -> svs s' = svs s ->
  recorded s s' -> (forall x, 0 < x -> used s' x <-> used s x) -> (forall x, block s' x = block s x) -> vol R s' F.
Proof. intros [HS HC] Hs Hn Hvn Hsv Hsd Hu Hb. split; [by eapply store_frame|by eapply cache_frame]. Qed.

Lemma vol_quiet R s F d' : vol R s F -> quiet (sfs_device s) d' -> vol R (set_device d' s) F.
Proof.
  intros HV Hq. apply (vol_frame R s); try done; [apply quiet_ok; [apply HV|done]|]. intros x. unfold block. cbn. by destruct Hq as (_ & _ & ->).
Qed.

End Kept.

Section Objects.
Context {HW : LhdHardware} (curas : Z) {HL : LhdLaws} {SM : SfsMemory}.

(** [kmalloc] hands out an address at which there is no vnode. *)
Class SfsMemoryLaws : Prop := { sv_kmalloc_fresh n live : sv_kmalloc n live <> 0 -> sv_kmalloc n live ∉ live }.
Context {SML : SfsMemoryLaws}.

(** ** Synchronising *)

Lemma sync_inode_spec R s F sv v : vol R s F -> svs s !! sv = Some v ->
  exists s', sfs_sync_inode curas sv s = Done 0 s' /\ vol R s' F /\ svs s' = <[sv := set_clean v]> (svs s) /\ sfs_vnodes s' = sfs_vnodes s /\
    block s' (sv_ino v) = dinode_bytes (sv_i v) /\ (forall x, x <> sv_ino v -> block s' x = block s x) /\ sb_nblocks s' = sb_nblocks s.
Proof.
  intros HV Hsv. pose proof (changed_self R sv s v F HV Hsv) as Hself. pose proof HV as [HS HC]. pose proof (st_fs _ _ _ HS) as Hs.
  destruct (ca_vnode _ _ HC sv v Hsv) as (_ & Href & Hclean). unfold sfs_sync_inode. mrun (get_sv_spec s sv v Hsv).
  destruct (sv_dirty v) eqn:Hd.
  2:{ exists s. split_and!; try done; [|by apply Hclean]. rewrite insert_id; [done|]. rewrite Hsv. f_equal. unfold set_clean. destruct v. cbn in *. by subst. }
  destruct (st_ino _ _ _ HS _ _ Hself) as [Hr Hu]. destruct (st_inode _ _ _ HS _ _ Hself) as [Hok Hh].
  destruct (writeblock_spec curas (sv_ino v) (dinode_bytes (sv_i v)) s Hs) as (d' & He & Hd' & Hbl & Hw);
    [unfold in_volume; lia|apply length_dinode_bytes; by eapply fits_of_ok|].
  mrun He. cbn [negb Z.eqb]. mrun (update_sv_spec (set_device d' s) sv v set_clean Hsv). eexists. split; [reflexivity|].
  assert (Hb : forall x, sectors d' x = if x =? sv_ino v then dinode_bytes (sv_i v) else block s x) by (intros x; apply Hw).
  assert (Hself' : sectors d' (sv_ino v) = dinode_bytes (sv_i v)) by (by rewrite Hb, Z.eqb_refl).
  assert (Hoth : forall x, x <> sv_ino v -> sectors d' x = block s x) by (intros x Hx; rewrite Hb; by destruct (Z.eqb_spec x (sv_ino v))).
  split_and!; try done. split.
  - eapply store_frame; try done; [by apply (fs_ok_same (set_device d' s)); [apply fs_ok_device|..]|intros x Hx; apply Hoth; by apply (own_block R s F _ _ x HS Hself)|]. intros ino i n Hi Hn _. apply Hoth. by apply (st_meta _ _ _ HS _ _ ino i n Hself).
  - apply (cache_update_same s F _ sv v (set_clean v)); try done. intros ino i Hi Hne. by apply Hoth.
Qed.

(** ** Loading *)

Lemma find_loaded_spec R s F ino l : vol R s F -> (forall a, a ∈ l -> is_Some (svs s !! a)) ->
  exists o, find_loaded ino l s = Done o s /\
    (match o with Some sv => exists v, svs s !! sv = Some v /\ sv_ino v = ino | None => forall a v, a ∈ l -> svs s !! a = Some v -> sv_ino v <> ino end).
Proof.
  intros HV. pose proof HV as [HS HC]. induction l as [|a l IH]; intros Hl; [exists None; split; [done|]; intros a v Ha; by apply elem_of_nil in Ha|].
  cbn [find_loaded]. destruct (Hl a ltac:(left)) as [v Ha]. mrun (get_sv_spec s a v Ha). destruct (ca_vnode _ _ HC a v Ha) as [Hf _].
  destruct (st_ino _ _ _ HS _ _ Hf) as [Hr Hu]. mrun (bused_spec s (sv_ino v) (st_fs _ _ _ HS) ltac:(unfold in_volume; lia)).
  rewrite bool_decide_true by done. cbn [negb]. destruct (Z.eqb_spec (sv_ino v) ino) as [He|Hne]; [exists (Some a); split; [done|by exists v]|].
  destruct IH as (o & He & Ho); [intros b Hb; apply Hl; by right|]. exists o. split; [done|]. destruct o as [sv|]; [done|].
  intros b w Hb Hw. apply elem_of_cons in Hb as [->|Hb]; [congruence|by apply (Ho b)].
Qed.

(** The vnode that [sfs_loadvnode] hands back for inode [i] of number [ino]. *)
Definition opened_vnode (ino : Z) (i : dinode) (o : option sfs_vnode) : sfs_vnode :=
  match o with Some v => set_refcount (vn_refcount v + 1) v | None => mkSv i ino false 1 end.

Lemma vol_refcount R s F sv v c : vol R s F -> svs s !! sv = Some v -> 1 <= c -> vol R (set_svs (<[sv := set_refcount c v]> (svs s)) s) F.
Proof.
  intros [HS HC] Hsv Hc. destruct (ca_vnode _ _ HC sv v Hsv) as (_ & Href & Hcl). split.
  - by eapply store_frame; [|apply (fs_ok_same s); [apply (st_fs _ _ _ HS)|..]|..].
  - apply (cache_update_same s F _ sv v (set_refcount c v)); done.
Qed.

(** Reading an inode that is not in memory into a new vnode. *)
Definition read_inode (forcetype : Z) (buf : list Z) : dinode :=
  if forcetype =? SFS_TYPE_INVAL then dinode_of buf else set_type forcetype (dinode_of buf).
Definition with_vnode (sv : Z) (v : sfs_vnode) (s : sfs_fs) : sfs_fs :=
  set_vnodes (sfs_vnodes s ++ [sv]) (set_svs (<[sv := v]> (svs s)) s).

Lemma load_runs R s F ino ft : vol R s F -> (forall a v, svs s !! a = Some v -> sv_ino v <> ino) -> in_volume s ino -> used s ino ->
  ft = SFS_TYPE_INVAL \/ sfi_type (dinode_of (block s ino)) = SFS_TYPE_INVAL ->
  sfi_type (read_inode ft (block s ino)) = SFS_TYPE_FILE \/ sfi_type (read_inode ft (block s ino)) = SFS_TYPE_DIR ->
  exists r sv d', let s1 := set_device d' (count_alloc s) in quiet (sfs_device s) d' /\
    (r = 0 /\ svs s !! sv = None /\ sfs_loadvnode curas ino ft s =
       Done (0, sv) (with_vnode sv (mkSv (read_inode ft (block s ino)) ino (negb (ft =? SFS_TYPE_INVAL)) 1) s1) \/
     (r = EIO \/ r = ENOMEM) /\ sfs_loadvnode curas ino ft s = Done (r, 0) s1).
Proof.
  intros HV Hno Hr Hu Hf Hty. pose proof HV as [HS HC]. unfold sfs_loadvnode. mpure.
  destruct (find_loaded_spec R s F ino (sfs_vnodes s) HV) as (o & He & Ho); [intros a; apply (ca_pool _ _ HC)|]. mrun He.
  destruct o as [sv|]; [destruct Ho as (v & Hsv & Hino); by destruct (Hno sv v)|]. clear Ho. mpure. set (n := sv_allocs s). set (sv := sv_kmalloc n (dom (svs s))).
  pose proof (st_fs _ _ _ HS) as Hs. assert (Hs1 : fs_ok (count_alloc s)) by (by eapply fs_ok_same).
  destruct (Z.eqb_spec sv 0) as [Hz|Hz].
  { exists ENOMEM, 0, (sfs_device (count_alloc s)). split; [apply quiet_refl, Hs|]. right. rewrite (set_device_id (count_alloc s)). auto. }
  mrun (bused_spec (count_alloc s) ino Hs1 Hr). rewrite bool_decide_true by done. cbn [negb].
  destruct (readblock_spec curas ino zero_block (count_alloc s) Hs1 Hr length_zero_block) as (r & data & d' & Hrd & Hq & Hr').
  mrun Hrd. destruct Hr' as [[-> ->]| ->]; [|exists EIO, 0, d'; split; [done|]; right; auto]. cbn [negb Z.eqb].
  change (block (count_alloc s) ino) with (block s ino). set (s1 := set_device d' (count_alloc s)).
  assert (Hi : (if negb (ft =? SFS_TYPE_INVAL) then kassert "sv->sv_i.sfi_type == SFS_TYPE_INVAL" (sfi_type (dinode_of (block s ino)) =? SFS_TYPE_INVAL);;
      mret (set_type ft (dinode_of (block s ino)), true) else mret (dinode_of (block s ino), false)) s1 = Done (read_inode ft (block s ino), negb (ft =? SFS_TYPE_INVAL)) s1).
  { unfold read_inode. destruct (Z.eqb_spec ft SFS_TYPE_INVAL) as [|Hne]; [done|]. destruct Hf as [|Hf]; [done|].
    by rewrite Hf. }
  mrun Hi. replace (negb ((_ =? SFS_TYPE_FILE) || (_ =? SFS_TYPE_DIR))) with false by (by destruct Hty as [-> | ->]).
  destruct (vnodearray_grows n); cbn [negb]; [|exists ENOMEM, 0, d'; split; [done|]; right; auto]. mpure.
  exists 0, sv, d'. split; [done|left]. split_and!; [done|apply not_elem_of_dom, sv_kmalloc_fresh, Hz|done].
Qed.

Lemma vol_counted R s F d' : vol R s F -> quiet (sfs_device s) d' -> vol R (set_device d' (count_alloc s)) F.
Proof. intros HV Hq. pose proof (vol_quiet R s F d' HV Hq) as H. apply (vol_frame R (set_device d' s)); try done. eapply fs_ok_same; [apply H|done..]. Qed.

Lemma block_counted s d' x : quiet (sfs_device s) d' -> block (set_device d' (count_alloc s)) x = block s x.
Proof. intros Hq. unfold block. cbn. by destruct Hq as (_ & _ & ->). Qed.

Lemma loadvnode_spec R s F ino i : vol R s F -> F !! ino = Some i -> sfi_type i = SFS_TYPE_FILE \/ sfi_type i = SFS_TYPE_DIR ->
  exists r sv s', sfs_loadvnode curas ino SFS_TYPE_INVAL s = Done (r, sv) s' /\ vol R s' F /\ (forall x, block s' x = block s x) /\
    sb_nblocks s' = sb_nblocks s /\
    (r = 0 /\ svs s' = <[sv := opened_vnode ino i (svs s !! sv)]> (svs s) /\ (forall v, svs s !! sv = Some v -> sv_ino v = ino /\ sv_i v = i) \/
     (r = EIO \/ r = ENOMEM) /\ svs s' = svs s).
Proof.
  intros HV Hi Hty. pose proof HV as [HS HC].
  destruct (find_loaded_spec R s F ino (sfs_vnodes s) HV) as (o & He & Ho); [intros a; apply (ca_pool _ _ HC)|]. destruct o as [sv|].
  - destruct Ho as (v & Hsv & Hino). unfold sfs_loadvnode. mpure. mrun He.
    mrun (kassert_true "forcetype==SFS_TYPE_INVAL" (SFS_TYPE_INVAL =? SFS_TYPE_INVAL) s eq_refl).
    unfold vnode_incref. assert (Hinc : (v0 ← get_sv sv; update_sv sv (set_refcount (vn_refcount v0 + 1))) s =
      Done tt (set_svs (<[sv := set_refcount (vn_refcount v + 1) v]> (svs s)) s)) by (mrun (get_sv_spec s sv v Hsv); by apply update_sv_spec).
    mrun Hinc. eexists 0, sv, _. split; [reflexivity|]. split_and!; [apply vol_refcount; [done|done|]; destruct (ca_vnode _ _ HC sv v Hsv) as (_ & ? & _); lia|done|done|left].
    destruct (ca_vnode _ _ HC sv v Hsv) as (Hf & _). rewrite Hino in Hf. rewrite Hi in Hf. injection Hf as Hf.
    split_and!; [done|by rewrite Hsv|]. intros w Hw. rewrite Hsv in Hw. by injection Hw as <-.
  - assert (Hno' : forall a v, svs s !! a = Some v -> sv_ino v <> ino) by (intros a v Ha; apply (Ho a v); [apply (ca_pool _ _ HC); by exists v|done]).
    destruct (st_ino _ _ _ HS _ _ Hi) as [Hr Hu]. destruct (st_inode _ _ _ HS _ _ Hi) as [Hok Hh].
    assert (Hrd : read_inode SFS_TYPE_INVAL (block s ino) = i).
    { unfold read_inode. cbn. rewrite (ca_disk _ _ HC ino i Hi Hno'). apply dinode_of_bytes. by eapply fits_of_ok; [apply (st_fs _ _ _ HS)|..]. }
    destruct (load_runs R s F ino SFS_TYPE_INVAL HV Hno' ltac:(unfold in_volume; lia) Hu) as (r & sv & d' & Hq & Hrun); [by left|by rewrite Hrd|].
    pose proof (vol_counted R s F d' HV Hq) as HV1. set (s1 := set_device d' (count_alloc s)) in *. clear He. destruct Hrun as [(-> & Hnone & He)|[Hr' He]].
    2:{ exists r, 0, s1. split_and!; [done|done|intros; by apply block_counted|done|right; auto]. }
    eexists 0, sv, _. split; [exact He|]. rewrite Hrd. pose proof HV1 as [HS1 HC1]. split_and!; [|intros; by apply (block_counted s d')|done|left].
    + split; [by eapply store_frame; [|eapply (fs_ok_same s1); [apply (st_fs _ _ _ HS1)|..]|..]|]. rewrite <- (insert_id F ino i Hi).
      apply (cache_load s1 F _ sv (mkSv i ino false 1)); try done. intros _. cbn [sv_ino sv_i].
      change (block s1 ino = dinode_bytes i). unfold s1. rewrite block_counted by done. by apply (ca_disk _ _ HC).
    + split_and!; [done|by rewrite Hnone|]. intros w Hw. congruence.
Qed.

(** ** Creating *)

(** An inode of an empty file without links. *)
Definition new_inode (type : Z) : dinode := mkDinode 0 type 0 (replicate 15 0) 0 (replicate 110 0).

Lemma new_inode_blocks s type : no_blocks s (new_inode type).
Proof.
  intros n Hn. unfold ptr. destruct (Z.eqb_spec n (-1)); [done|]. destruct (Z.ltb_spec n SFS_NDIRECT).
  - cbn [new_inode sfi_direct]. rewrite lookup_replicate_2; [done|]. unfold slot, SFS_NDIRECT in *. lia.
  - unfold ptrs. cbn [new_inode sfi_indirect Z.eqb]. rewrite lookup_replicate_2; [done|]. unfold slot, NSLOTS, SFS_NDIRECT in *. lia.
Qed.

Lemma new_inode_ok s type : 0 <= type < 2 ^ 16 -> inode_ok s (new_inode type) /\ header_ok (new_inode type).
Proof.
  intros Ht. pose proof (new_inode_blocks s type) as Hn. split; [split; try done|].
  - intros n Hsl H0. by rewrite Hn in H0.
  - intros n m Hsl Hm H0. by rewrite Hn in H0.
  - split_and!; try done; try (cbn; lia). apply Forall_replicate. unfold is_u32. lia.
Qed.

Lemma read_new type : read_inode type zero_block = new_inode type.
Proof. unfold read_inode. assert (Hz : dinode_of zero_block = new_inode 0) by (by vm_compute). rewrite Hz. by destruct (Z.eqb_spec type SFS_TYPE_INVAL) as [->|]. Qed.

Lemma makeobj_spec R s F type : vol R s F -> type = SFS_TYPE_FILE \/ type = SFS_TYPE_DIR ->
  exists r sv s', sfs_makeobj curas type s = Done (r, sv) s' /\ bytes_kept ∅ s s' F /\ sb_nblocks s' = sb_nblocks s /\
    (r = 0 /\ (exists ino, F !! ino = None /\ 0 < ino < sb_nblocks s /\ svs s !! sv = None /\
       svs s' = <[sv := mkSv (new_inode type) ino true 1]> (svs s) /\ vol R s' (<[ino := new_inode type]> F)) \/
     (r = EIO \/ r = ENOMEM \/ r = ENOSPC) /\ svs s' = svs s /\ vol R s' F).
Proof.
  intros HV Hty. pose proof HV as [HS HC]. unfold sfs_makeobj. destruct (balloc_spec curas s (st_fs _ _ _ HS)) as (r & b & s1 & He & Hs1 & Hr). mrun He.
  destruct Hr as [[-> Hal]|[-> ->]]; [|exists ENOSPC, 0, s; split_and!; [done|by apply bytes_kept_block|done|right; auto]]. cbn [negb Z.eqb].
  destruct (store_alloc R s F s1 b HS Hs1 Hal) as (HS1 & HbR & HFb). pose proof Hal as [Hrange Hfree Hus Hbl (Hnb & Hvn & Hsvs & Hall)].
  assert (Hb1 : forall x, x <> b -> block s1 x = block s x) by (intros x Hx; rewrite Hbl; by destruct (Z.eqb_spec x b)).
  assert (HV1 : vol ({[b]} ∪ R) s1 F).
  { split; [done|]. apply (cache_frame s); try done. intros ino i Hi. apply Hb1. intros ->. congruence. }
  assert (Hzero : block s1 b = zero_block) by (by rewrite Hbl, Z.eqb_refl).
  assert (Hno : forall a v, svs s1 !! a = Some v -> sv_ino v <> b).
  { intros a v Ha Hv. destruct HV1 as [_ HC1]. destruct (ca_vnode _ _ HC1 a v Ha) as [Hf _]. congruence. }
  assert (Hkeep : forall s', (forall x, x <> b -> block s' x = block s x) -> bytes_kept ∅ s s' F).
  { intros s' Hb' ino i k Hi _. apply fbyte_blocks. intros n Hn H0. apply Hb'. intros Hpb.
    destruct (st_inode _ _ _ HS _ _ Hi) as [Hok _]. destruct (io_ptr _ _ Hok n Hn H0). congruence. }
  destruct (load_runs _ s1 F b type HV1 Hno) as (r & sv & d' & Hq & Hrun).
  { unfold in_volume. lia. } { apply Hus; [lia|by left]. } { right. by rewrite Hzero. } { rewrite Hzero, read_new. by destruct Hty; [left|right]. }
  pose proof (vol_counted _ s1 F d' HV1 Hq) as HV2. set (s2 := set_device d' (count_alloc s1)) in *.
  assert (Hb2 : forall x, block s2 x = block s1 x) by (intros x; by apply block_counted). pose proof HV2 as [HS2 HC2].
  assert (LO : layout R (sb_nblocks s2)) by (cbn; rewrite Hnb; apply (st_map _ _ _ HS)). destruct Hrun as [(-> & Hnone & Hrun)|[Hr Hrun]].
  - mrun Hrun. cbn [negb Z.eqb]. mpure. rewrite Hzero, read_new. rewrite Hsvs in Hnone. replace (negb (type =? SFS_TYPE_INVAL)) with true by (by destruct Hty as [-> | ->]).
    set (v := mkSv (new_inode type) b true 1). eexists 0, sv, _. split; [reflexivity|]. split_and!; [|cbn; lia|left].
    { apply Hkeep. intros x Hx. change (block s2 x = block s x). by rewrite Hb2, Hb1. }
    split; [done|]. exists b. split_and!; [done|lia|lia|done|cbn; by rewrite Hsvs|].
    assert (Hok : forall s, inode_ok s (new_inode type) /\ header_ok (new_inode type)) by (intros s0; apply new_inode_ok; destruct Hty as [-> | ->]; cbv; split; congruence).
    split.
    + apply (store_frame R s2); [|by eapply fs_ok_same; [apply (st_fs _ _ _ HS2)|..]|done..].
      apply store_add; [done|done|done|cbn; lia|apply Hok|apply (Hok s2)|apply new_inode_blocks].
    + apply (cache_load s2 F _ sv v); try done. cbn. by rewrite Hsvs.
  - mrun Hrun. replace (negb (r =? 0)) with true by (by destruct Hr as [-> | ->]).
    destruct (bfree_spec s2 b (st_fs _ _ _ HS2)) as (s3 & Hf & Hs3 & (N3 & V3 & S3 & X3) & D3 & U3); [cbn; lia|apply (st_reserved _ _ _ HS2); [set_solver|lia]|].
    mrun Hf. assert (Hb3 : forall x, block s3 x = block s2 x) by (intros x; unfold block; by rewrite D3).
    exists r, 0, s3. split_and!; [done|apply Hkeep; intros x Hx; by rewrite Hb3, Hb2, Hb1|rewrite N3; cbn; lia|right].
    split_and!; [destruct Hr; auto|rewrite S3; cbn; by rewrite Hsvs|]. split.
    + destruct X3 as [_ X3]. apply (store_free R s2 F s3 b); try done; lia.
    + apply (cache_frame s2); try done.
Qed.

(** ** Releasing *)

Lemma vnode_index_spec sv l : sv ∈ l -> exists ix, vnode_index sv l = Some ix /\ l !! ix = Some sv.
Proof.
  intros Hin. unfold vnode_index. destruct (list_find (eq sv) l) as [[ix a]|] eqn:E.
  - apply list_find_Some in E as (Hix & <- & _). by exists ix.
  - apply list_find_None, Forall_forall with (x := sv) in E; done.
Qed.

(** The end of [sfs_reclaim]. *)
Definition drop_vnode (sv : Z) (v : sfs_vnode) : M sfs_fs Z :=
  vnodes ← gets sfs_vnodes;
  match vnode_index sv vnodes with
  | None => panic "sfs: reclaim vnode not in vnode pool"
  | Some ix =>
      modify (set_vnodes (delete ix vnodes));;
      kassert "vn->vn_refcount == 1" (vn_refcount v =? 1);;
      free_sv sv;;
      mret 0
  end.

Lemma drop_vnode_spec s F F' sv v : cache s F -> svs s !! sv = Some v -> vn_refcount v = 1 ->
  (forall ino, ino <> sv_ino v -> F' !! ino = F !! ino) -> (forall i, F' !! sv_ino v = Some i -> block s (sv_ino v) = dinode_bytes i) ->
  exists s', drop_vnode sv v s = Done 0 s' /\ cache s' F' /\ svs s' = delete sv (svs s) /\ sb_nblocks s' = sb_nblocks s /\
    sfs_freemap s' = sfs_freemap s /\ sfs_device s' = sfs_device s /\ recorded s s'.
Proof.
  intros HC Hsv Href HF Hself. destruct (vnode_index_spec sv (sfs_vnodes s)) as (ix & Hix & Hl); [apply (ca_pool _ _ HC); by exists v|].
  unfold drop_vnode. mpure. rewrite Hix. mpure. mrun (kassert_true "vn->vn_refcount == 1" (vn_refcount v =? 1) (set_vnodes (delete ix (sfs_vnodes s)) s) ltac:(lia)).
  unfold free_sv. mpure. eexists. split; [reflexivity|]. split_and!; try done. by apply (cache_unload s F _ F' sv v ix).
Qed.

(** The last reference to a file that still has names: its inode goes to the disk. *)
Lemma reclaim_linked R s F sv v : vol R s F -> svs s !! sv = Some v -> vn_refcount v = 1 -> sfi_linkcount (sv_i v) <> 0 ->
  exists s', sfs_reclaim curas sv s = Done 0 s' /\ vol R s' F /\ svs s' = delete sv (svs s) /\ bytes_kept ∅ s s' F /\ sb_nblocks s' = sb_nblocks s.
Proof.
  intros HV Hsv Href Hl. pose proof (changed_self R sv s v F HV Hsv) as Hself. unfold sfs_reclaim. mrun (get_sv_spec s sv v Hsv).
  rewrite Href. change (1 =? 1) with true. cbn [negb]. replace (sfi_linkcount (sv_i v) =? 0) with false by lia. mpure. cbn [negb Z.eqb].
  destruct (sync_inode_spec R s F sv v HV Hsv) as (s1 & He & HV1 & Hsvs1 & Hvn1 & Hb1 & Hoth1 & Hnb1). mrun He. cbn [negb Z.eqb].
  assert (Hsv1 : svs s1 !! sv = Some (set_clean v)) by (rewrite Hsvs1; apply lookup_insert_eq). mrun (get_sv_spec s1 sv _ Hsv1).
  cbn [set_clean sv_i]. replace (sfi_linkcount (sv_i v) =? 0) with false by lia. mpure. destruct HV1 as [HS1 HC1].
  destruct (drop_vnode_spec s1 F F sv (set_clean v) HC1 Hsv1 Href) as (s2 & He2 & HC2 & Hsvs2 & Hnb2 & Hfm2 & Hd2 & Hsd2); [done| |].
  { cbn. intros i Hi. rewrite Hself in Hi. by injection Hi as <-. }
  unfold drop_vnode in He2. exists s2. split; [exact He2|].
  assert (Hb2 : forall x, block s2 x = block s1 x) by (intros x; unfold block; by rewrite Hd2). split_and!.
  - split; [|done]. eapply store_frame; try done; [by eapply fs_ok_same; [apply (st_fs _ _ _ HS1)|..]|]. intros x _. unfold used. by rewrite Hfm2.
  - by rewrite Hsvs2, Hsvs1, delete_insert_eq.
  - destruct HV as [HS _]. apply (bytes_kept_meta R s s2 F (sv_ino v) (sv_i v)); try done. intros x Hx. by rewrite Hb2, Hoth1.
  - congruence.
Qed.

(** The last reference to a file without names: its blocks and its inode are freed, unless
    the disk fails while the indirect block is read. *)
Lemma reclaim_unlinked R s F sv v : vol R s F -> svs s !! sv = Some v -> vn_refcount v = 1 -> sfi_linkcount (sv_i v) = 0 ->
  exists r s', sfs_reclaim curas sv s = Done r s' /\ bytes_kept {[sv_ino v]} s s' F /\ sb_nblocks s' = sb_nblocks s /\
    (r = 0 /\ svs s' = delete sv (svs s) /\ vol R s' (delete (sv_ino v) F) \/
     r = EIO /\ (disk_failed s s' /\ sfi_indirect (sv_i v) <> 0) /\ exists v', svs s' = <[sv := v']> (svs s) /\ sv_ino v' = sv_ino v /\ vn_refcount v' = 1 /\
       sfi_linkcount (sv_i v') = 0 /\ sfi_type (sv_i v') = sfi_type (sv_i v) /\ vol R s' (<[sv_ino v := sv_i v']> F)).
Proof.
  intros HV Hsv Href Hl. pose proof (changed_self R sv s v F HV Hsv) as Hself. pose proof HV as [HS HC].
  destruct (st_inode _ _ _ HS _ _ Hself) as [Hok Hh]. unfold sfs_reclaim. mrun (get_sv_spec s sv v Hsv).
  rewrite Href, Hl. change (1 =? 1) with true. change (0 =? 0) with true. cbn [negb]. assert (Hmax : 0 <= 0 <= FILE_MAX) by done.
  destruct (itrunc_spec curas sv 0 s v (st_fs _ _ _ HS) Hsv Hok Hmax) as (r & s1 & v1 & He & Hsvs1 & Hok1 & Hsh & Hr). mrun He.
  assert (Hino : sv_ino v1 = sv_ino v /\ kept v v1) by (destruct Hr as [[_ Htr]|(_ & _ & _ & Hr)]; [apply Htr|done]).
  pose proof (shrunk_changed sv s v s1 v1 Hh Hok Hsh Hsvs1 Hino Hok1) as Hch. pose proof (changed_vol R sv s v s1 v1 F HV Hsv Hch) as HV1.
  pose proof (changed_bytes R sv s v s1 v1 F HV Hsv Hch) as Hby1. pose proof Hsh as [_ _ (K1 & K2 & _) (N1 & _) _ _ _].
  assert (Hsv1 : svs s1 !! sv = Some v1) by (rewrite Hsvs1; apply lookup_insert_eq). destruct Hino as [Hino [Hrc _]].
  destruct Hr as [[-> Htr]|(-> & Hid & _)].
  2:{ exists EIO, s1. split_and!; try done. right. split; [done|]. split; [split; [|done]; exact (itrunc_reason curas sv 0 s EIO s1 (fs_covered s (st_fs _ _ _ HS)) He eq_refl)|]. exists v1. split_and!; congruence || done. }
  cbn [negb Z.eqb]. set (F1 := <[sv_ino v := sv_i v1]> F) in *. assert (Hself1 : F1 !! sv_ino v = Some (sv_i v1)) by apply lookup_insert_eq.
  destruct (sync_inode_spec R s1 F1 sv v1 HV1 Hsv1) as (s2 & He2 & HV2 & Hsvs2 & Hvn2 & Hb2 & Hoth2 & Hnb2). mrun He2. cbn [negb Z.eqb].
  assert (Hsv2 : svs s2 !! sv = Some (set_clean v1)) by (rewrite Hsvs2; apply lookup_insert_eq). mrun (get_sv_spec s2 sv _ Hsv2).
  cbn [set_clean sv_i sv_ino]. rewrite K2, Hl. cbn [Z.eqb]. rewrite Hino in *. destruct HV2 as [HS2 HC2].
  assert (Hnob : no_blocks s2 (sv_i v1)).
  { intros n Hn. rewrite (ptr_blocks s1 s2); [by apply (truncated_empty sv s v s1 v1)|]. intros m Hm H0. by destruct H0; apply (truncated_empty sv s v s1 v1). }
  destruct (store_drop R s2 F1 (sv_ino v) (sv_i v1) HS2 Hself1 Hnob) as (HS3 & HbR & Hrange & Hub).
  destruct (bfree_spec s2 (sv_ino v) (st_fs _ _ _ HS2) Hrange Hub) as (s3 & He3 & Hs3 & (N3 & V3 & S3 & X3) & D3 & U3). mrun He3. destruct X3 as [_ X3].
  assert (Hb3 : forall x, block s3 x = block s2 x) by (intros x; unfold block; by rewrite D3).
  assert (HS4 : store R s3 (delete (sv_ino v) F)).
  { replace (delete (sv_ino v) F) with (delete (sv_ino v) F1) by apply delete_insert_eq. apply (store_free R s2 _ s3 (sv_ino v)); try done; [apply (st_map _ _ _ HS2)|lia]. }
  assert (Hsv3 : svs s3 !! sv = Some (set_clean v1)) by (by rewrite S3).
  assert (HC3 : cache s3 F1) by (apply (cache_frame s2); try done).
  destruct (drop_vnode_spec s3 F1 (delete (sv_ino v) F) sv (set_clean v1) HC3 Hsv3) as (s4 & He4 & HC4 & Hsvs4 & Hnb4 & Hfm4 & Hd4 & Hsd4).
  { cbn. congruence. } { cbn. intros ino Hne. rewrite Hino in Hne. unfold F1. by rewrite lookup_delete_ne, lookup_insert_ne. }
  { cbn. rewrite Hino, lookup_delete_eq. done. }
  exists 0, s4. split; [exact He4|]. assert (Hb4 : forall x, block s4 x = block s3 x) by (intros x; unfold block; by rewrite Hd4). split_and!.
  - intros ino i k Hi Hne Hk. rewrite <- (Hby1 ino i k Hi Hne Hk). apply fbyte_blocks; [|done]. intros n Hn H0. rewrite Hb4, Hb3. apply Hoth2.
    destruct HV1 as [HS1 _]. apply (st_meta _ _ _ HS1 (sv_ino v) (sv_i v1) ino i); [done| |done]. unfold F1. rewrite lookup_insert_ne; [done|set_solver].
  - congruence.
  - left. split_and!; [done|by rewrite Hsvs4, S3, Hsvs2, Hsvs1, !delete_insert_eq|]. split; [|done].
    eapply store_frame; try done; [by eapply fs_ok_same|]. intros x _. unfold used. by rewrite Hfm4.
Qed.

(** What giving up a reference leads to, from the files [F] to [F']. *)
Inductive released (sv : Z) (v : sfs_vnode) (s : sfs_fs) (F : gmap Z dinode) (s' : sfs_fs) : gmap Z dinode -> Prop :=
| rel_shared : 1 < vn_refcount v -> svs s' = <[sv := set_refcount (vn_refcount v - 1) v]> (svs s) -> bytes_kept ∅ s s' F -> released sv v s F s' F
| rel_linked : vn_refcount v = 1 -> sfi_linkcount (sv_i v) <> 0 -> svs s' = delete sv (svs s) -> bytes_kept ∅ s s' F -> released sv v s F s' F
| rel_gone : vn_refcount v = 1 -> sfi_linkcount (sv_i v) = 0 -> svs s' = delete sv (svs s) -> bytes_kept {[sv_ino v]} s s' F ->
    released sv v s F s' (delete (sv_ino v) F)
| rel_stuck v' : vn_refcount v = 1 -> disk_failed s s' /\ sfi_indirect (sv_i v) <> 0 -> sfi_linkcount (sv_i v) = 0 -> svs s' = <[sv := v']> (svs s) -> sv_ino v' = sv_ino v -> vn_refcount v' = 1 ->
    sfi_linkcount (sv_i v') = 0 -> sfi_type (sv_i v') = sfi_type (sv_i v) -> bytes_kept {[sv_ino v]} s s' F ->
    released sv v s F s' (<[sv_ino v := sv_i v']> F).

Lemma decref_spec R s F sv v : vol R s F -> svs s !! sv = Some v ->
  exists s' F', vnode_decref curas sv s = Done tt s' /\ vol R s' F' /\ sb_nblocks s' = sb_nblocks s /\ released sv v s F s' F'.
Proof.
  intros HV Hsv. pose proof HV as [HS HC]. destruct (ca_vnode _ _ HC sv v Hsv) as (_ & Href & _). unfold vnode_decref.
  mrun (get_sv_spec s sv v Hsv). mrun (kassert_true "vn->vn_refcount > 0" (0 <? vn_refcount v) s ltac:(lia)).
  destruct (Z.ltb_spec 1 (vn_refcount v)) as [H1|H1].
  { rewrite (update_sv_spec s sv v _ Hsv). eexists _, F. split; [reflexivity|]. split_and!; [apply vol_refcount; done || lia|done|].
    apply rel_shared; [done|done|by apply bytes_kept_block]. }
  assert (Hone : vn_refcount v = 1) by lia. destruct (decide (sfi_linkcount (sv_i v) = 0)) as [Hl|Hl].
  - destruct (reclaim_unlinked R s F sv v HV Hsv Hone Hl) as (r & s' & He & Hb & Hn & [(-> & Hd & HV')|(-> & Hid & v' & Hs' & Hi & Hr & Hlc & Ht & HV')]);
      mrun He; eexists s', _; (split_and!; [done|exact HV'|done|]); [by apply rel_gone|by eapply rel_stuck].
  - destruct (reclaim_linked R s F sv v HV Hsv Hone Hl) as (s' & He & HV' & Hs' & Hb & Hn). mrun He. exists s', F. split_and!; try done. by apply rel_linked.
Qed.

(** ** Changes of the file through a vnode *)

Lemma touched_vol R s F sv v s' v' : vol R s F -> svs s !! sv = Some v -> touched sv s v s' v' ->
  vol R s' (<[sv_ino v := sv_i v']> F) /\ bytes_kept {[sv_ino v]} s s' F /\ svs s' = <[sv := v']> (svs s) /\ sv_ino v' = sv_ino v /\
    vn_refcount v' = vn_refcount v /\ sfi_linkcount (sv_i v') = sfi_linkcount (sv_i v) /\ sfi_type (sv_i v') = sfi_type (sv_i v) /\ sb_nblocks s' = sb_nblocks s.
Proof.
  intros HV Hsv (d1 & Hq & Ht). pose proof (changed_self R sv s v F HV Hsv) as Hself. pose proof (vol_quiet R s F d1 HV Hq) as HV1.
  assert (Hb1 : bytes_kept {[sv_ino v]} s (set_device d1 s) F) by (apply bytes_kept_block; intros x; unfold block; cbn; by destruct Hq as (_ & _ & ->)).
  destruct Ht as [[-> ->]|(off & data & Hw)]; [rewrite !insert_id by done; done|].
  pose proof (wr_kind _ _ _ _ _ _ _ Hw) as (K1 & K2 & _). pose proof (wr_ino _ _ _ _ _ _ _ Hw) as [Hi [Hr _]]. pose proof (wr_fs _ _ _ _ _ _ _ Hw) as (N & _).
  assert (Hch : changed sv (set_device d1 s) v s' v') by (eapply written_changed; [|exact Hw]; destruct HV as [HS _]; by apply (st_inode _ _ _ HS _ _ Hself)).
  split_and!; try done; [by eapply changed_vol| |apply Hw]. eapply bytes_kept_trans; [exact Hb1|by eapply changed_bytes|done].
Qed.

(** The number of links changes. *)
Definition relinked (l : Z) (v : sfs_vnode) : sfs_vnode := dirty (set_linkcount l) v.

Lemma relinked_vol R s F sv v l : vol R s F -> svs s !! sv = Some v -> 0 <= l < 2 ^ 16 ->
  vol R (set_svs (<[sv := relinked l v]> (svs s)) s) (<[sv_ino v := set_linkcount l (sv_i v)]> F).
Proof.
  intros HV Hsv Hl. pose proof (changed_self R sv s v F HV Hsv) as Hself. pose proof HV as [HS _]. destruct (st_inode _ _ _ HS _ _ Hself) as [Hok Hh].
  assert (Hp : forall s n, ptr s (set_linkcount l (sv_i v)) n = ptr s (sv_i v) n) by done.
  change (set_linkcount l (sv_i v)) with (sv_i (relinked l v)). apply changed_vol with (sv := sv) (s := s); try done.
  split; try done.
  - by eapply fs_ok_same; [apply (st_fs _ _ _ HS)|..].
  - split; [done|]. split; [done|by right].
  - split; [|unfold header_ok in *; cbn; tauto]. by destruct Hok; split.
  - intros n Hn H0. left. by exists n.
  - intros x Hx Hu. by left.
  - intros x n Hx Hn He. left. by exists n.
Qed.

End Objects.
End SfsObjects.
