(* ===== verification/SfsRefs.v ===== *)
(** * The references to the vnodes of a volume

    Reading and writing files and directories leaves the vnodes in memory and their
    reference counts alone; only opening and releasing a vnode change them. *)
From S2P Require Import Prelude Bitmap Copyinout Uio Lhd Sfs SfsFormat SfsProofs SfsIo.
From S2P Require Import SfsTrunc SfsDir SfsVnops SfsVolume SfsObjects.
Import Bitmap Copyinout Uio Lhd Sfs SfsFormat SfsProofs SfsIo SfsTrunc SfsDir SfsVnops SfsVolume SfsObjects.

Module SfsRefs.

(** The vnodes in memory: the inode number and the reference count of each. *)
Definition vnode_key (v : sfs_vnode) : Z * Z := (sv_ino v, vn_refcount v).
Definition shape (s : sfs_fs) : gmap Z (Z * Z) := vnode_key <$> svs s.
Definition refcount (s : sfs_fs) (sv : Z) : Z := default 0 (snd <$> shape s !! sv).

(** One reference more to the vnode at [sv], of inode [ino]. *)
Definition taken (sv ino : Z) (s s' : sfs_fs) : Prop :=
  shape s' = <[sv := (ino, refcount s sv + 1)]> (shape s) /\ forall p, shape s !! sv = Some p -> p.1 = ino.
(** One less; a vnode whose file could not be freed stays. *)
Definition dropped (sv : Z) (s s' : sfs_fs) : Prop := exists ino c, shape s !! sv = Some (ino, c) /\
  (1 < c /\ shape s' = <[sv := (ino, c - 1)]> (shape s) \/ c = 1 /\ (shape s' = delete sv (shape s) \/ shape s' = shape s)).
(** The same vnodes and counts, or one vnode more that stays. *)
Definition balanced (s s' : sfs_fs) : Prop := shape s' = shape s \/ exists sv ino, shape s !! sv = None /\ shape s' = <[sv := (ino, 1)]> (shape s).

Notation keeps m := (forall sh, preserves (fun s => shape s = sh) m).

Lemma keeps_use {A} (m : M sfs_fs A) s a s' : keeps m -> m s = Done a s' -> shape s' = shape s.
Proof. intros Hk He. by apply (Hk (shape s) s a s'). Qed.

Lemma keeps_get_sv sv : keeps (get_sv sv).
Proof. intros sh s a s' Hs He. unfold get_sv, deref in He. destruct (svs s !! sv); [|done]. by injection He as _ <-. Qed.
Lemma keeps_update_sv sv f : (forall v, vnode_key (f v) = vnode_key v) -> keeps (update_sv sv f).
Proof.
  intros Hf sh s a s' <- He. unfold update_sv, mbind, M_bind, get_sv, deref, modify in He. destruct (svs s !! sv) as [v|] eqn:E; [|done]. injection He as _ <-.
  unfold shape. cbn. rewrite fmap_insert, Hf. apply insert_id. by rewrite lookup_fmap, E.
Qed.
Lemma keeps_dirty sv f : keeps (update_sv sv (dirty f)).
Proof. by apply keeps_update_sv. Qed.
Lemma keeps_modify f : (forall s, svs (f s) = svs s) -> keeps (modify f).
Proof. intros Hf sh s a s' <- He. injection He as _ <-. unfold shape. by rewrite Hf. Qed.
Lemma keeps_set_freemap x : keeps (modify (set_freemap x)).
Proof. by apply keeps_modify. Qed.

Section Refs.
Context {HW : LhdHardware} (curas : Z).

Lemma keeps_devop_io u : keeps (devop_io curas u).
Proof. intros sh s a s' <- He. unfold devop_io in He. destruct (lhd_io curas u (sfs_device s)); try done. by injection He as _ <-. Qed.

End Refs.

#[export] Hint Resolve keeps_get_sv keeps_dirty keeps_set_freemap keeps_devop_io : preserves.

(** [m] is built from operations that keep the vnodes. *)
Ltac keep := intros sh; solve_structural @preserves_bind ltac:(eauto with preserves).

Section Refs.
Context {HW : LhdHardware} (curas : Z).

Lemma keeps_rwblock tries : forall u, keeps (rwblock_retry curas tries u).
Proof. induction tries as [|n IH]; intros u; cbn [rwblock_retry]; keep. Qed.
#[local] Hint Resolve keeps_rwblock : preserves.
Lemma keeps_readblock b old : keeps (sfs_readblock curas b old).
Proof. unfold sfs_readblock, sfs_rwblock. keep. Qed.
Lemma keeps_writeblock b data : keeps (sfs_writeblock curas b data).
Proof. unfold sfs_writeblock, sfs_rwblock. keep. Qed.
#[local] Hint Resolve keeps_readblock keeps_writeblock : preserves.

Lemma keeps_balloc : keeps (sfs_balloc curas).
Proof. unfold sfs_balloc, sfs_clearblock. keep. Qed.
Lemma keeps_bfree b : keeps (sfs_bfree b).
Proof. unfold sfs_bfree. keep. Qed.
Lemma keeps_bused b : keeps (sfs_bused b).
Proof. unfold sfs_bused. keep. Qed.
#[local] Hint Resolve keeps_balloc keeps_bfree keeps_bused : preserves.
Lemma keeps_check_used b : keeps (check_used b).
Proof. unfold check_used. keep. Qed.
#[local] Hint Resolve keeps_check_used : preserves.

Lemma keeps_bmap sv fb doalloc : keeps (sfs_bmap curas sv fb doalloc).
Proof. unfold sfs_bmap, bmap_direct, bmap_indirect. keep. Qed.
#[local] Hint Resolve keeps_bmap : preserves.

Lemma keeps_trunc_direct sv bl n : forall i, keeps (trunc_direct sv bl i n).
Proof. induction n as [|n IH]; intros i; cbn [trunc_direct]; keep. Qed.
Lemma keeps_trunc_indirect bl n : forall idbuf j a b, keeps (trunc_indirect bl idbuf j n a b).
Proof. induction n as [|n IH]; intros idbuf j a b; cbn [trunc_indirect]; keep. Qed.
#[local] Hint Resolve keeps_trunc_direct keeps_trunc_indirect : preserves.
Lemma keeps_itrunc sv len : keeps (sfs_itrunc curas sv len).
Proof. unfold sfs_itrunc. keep. Qed.

Lemma keeps_metaio_read sv pos len : keeps (sfs_metaio_read curas sv pos len).
Proof. unfold sfs_metaio_read. keep. Qed.
Lemma keeps_metaio_write sv pos data : keeps (sfs_metaio_write curas sv pos data).
Proof. unfold sfs_metaio_write. keep. Qed.
#[local] Hint Resolve keeps_metaio_read keeps_metaio_write : preserves.
Lemma keeps_findname_loop sv name n : forall i acc, keeps (findname_loop curas sv name i n acc).
Proof. induction n as [|n IH]; intros i acc; cbn [findname_loop]; unfold sfs_readdir; keep. Qed.
#[local] Hint Resolve keeps_findname_loop : preserves.
Lemma keeps_findname sv name : keeps (sfs_dir_findname curas sv name).
Proof. unfold sfs_dir_findname, sfs_dir_nentries. keep. Qed.
#[local] Hint Resolve keeps_findname : preserves.
Lemma keeps_dir_link sv name ino : keeps (sfs_dir_link curas sv name ino).
Proof. unfold sfs_dir_link, sfs_dir_nentries, sfs_writedir. keep. Qed.
Lemma keeps_dir_unlink sv slot : keeps (sfs_dir_unlink curas sv slot).
Proof. unfold sfs_dir_unlink, sfs_writedir. keep. Qed.
#[local] Hint Resolve keeps_dir_link keeps_dir_unlink keeps_itrunc : preserves.

Lemma keeps_sync_inode sv : keeps (sfs_sync_inode curas sv).
Proof. unfold sfs_sync_inode. intros sh. apply preserves_bind; [auto with preserves|]. intros v. destruct (sv_dirty v); [|auto with preserves]. apply preserves_bind; [auto with preserves|].
  intros r. destruct (negb (r =? 0)); [auto with preserves|]. apply preserves_bind; [by apply keeps_update_sv|auto with preserves]. Qed.

(** ** Opening *)

Lemma keeps_find_loaded ino l : keeps (find_loaded ino l).
Proof. induction l as [|a l IH]; cbn [find_loaded]; keep. Qed.

Lemma find_loaded_shape ino l s sv s' : find_loaded ino l s = Done (Some sv) s' -> exists c, shape s !! sv = Some (ino, c).
Proof.
  revert s. induction l as [|a l IH]; intros s H; cbn [find_loaded] in H; [done|]. mstep H. mstep H. destruct ret0; cbn [negb] in H; [|done].
  pose proof (keeps_use _ _ _ _ (keeps_get_sv a) E) as K1. pose proof (keeps_use _ _ _ _ (keeps_bused _) E0) as K2.
  unfold get_sv, deref in E. destruct (svs s !! a) as [v|] eqn:Ea; [|done]. injection E as <- <-. destruct (Z.eqb_spec (sv_ino v) ino) as [<-|Hne].
  - mprim. injection H as <-. exists (vn_refcount v). unfold shape. by rewrite lookup_fmap, Ea.
  - destruct (IH s1 H) as [c Hc]. exists c. congruence.
Qed.

Lemma incref_shape sv s s' : vnode_incref sv s = Done tt s' -> exists ino, taken sv ino s s' /\ shape s !! sv <> None.
Proof.
  unfold vnode_incref, update_sv, get_sv, mbind, M_bind, deref, modify. destruct (svs s !! sv) as [v|] eqn:E; [|done]. rewrite E. intros [= <-]. exists (sv_ino v).
  assert (Hs : shape s !! sv = Some (vnode_key v)) by (unfold shape; by rewrite lookup_fmap, E). unfold taken, refcount. rewrite Hs. split; [|done].
  split; [unfold shape; cbn; by rewrite fmap_insert|by intros p [= <-]].
Qed.

Lemma taken_after sv ino s s1 s' : shape s1 = shape s -> taken sv ino s1 s' -> taken sv ino s s'.
Proof. unfold taken, refcount. by intros ->. Qed.
Lemma taken_before sv ino s s1 s' : taken sv ino s s1 -> shape s' = shape s1 -> taken sv ino s s'.
Proof. unfold taken. by intros H ->. Qed.

End Refs.

Section Opening.
Context {HW : LhdHardware} (curas : Z) {SM : SfsMemory} {SML : SfsMemoryLaws}.

Lemma loadvnode_shape ino ft s r sv s' : sfs_loadvnode curas ino ft s = Done (r, sv) s' -> r = 0 /\ taken sv ino s s' \/ r <> 0 /\ shape s' = shape s.
Proof.
  unfold sfs_loadvnode. intros H. mstep H. mprim. apply bind_Done in H as (o & s1 & E1 & H). pose proof (keeps_use _ _ _ _ (keeps_find_loaded ino _) E1) as K1. destruct o as [a|].
  - apply bind_Done in H as ([] & s2 & E2 & H). apply bind_Done in H as ([] & s3 & E3 & H). mprim. injection H as -> ->.
    destruct (find_loaded_shape _ _ _ _ _ E1) as [c Hc]. left. split; [done|]. destruct (incref_shape _ _ _ E3) as (ino' & Ht & _).
    apply (taken_after _ _ s) in Ht; [|done]. assert (ino' = ino) as ->; [|done]. destruct Ht as [_ Ht]. by specialize (Ht _ Hc).
  - mstep H. mprim. mstep H. mprim. apply bind_Done in H as ([] & s2 & E2 & H). mprim. set (a := sv_kmalloc _ _) in *. destruct (Z.eqb_spec a 0) as [Ha|Ha]; [mprim; injection H as -> ->; right; done|].
    assert (Hfresh : svs s1 !! a = None) by (apply not_elem_of_dom; by apply sv_kmalloc_fresh).
    apply bind_Done in H as (used & s3 & E3 & H). pose proof (keeps_use _ _ _ _ (keeps_bused _) E3) as K3. destruct used; cbn [negb] in H; [|done].
    apply bind_Done in H as ([res buf] & s4 & E4 & H). pose proof (keeps_use _ _ _ _ (keeps_readblock curas _ _) E4) as K4. change (shape (count_alloc s1)) with (shape s1) in K3.
    destruct (Z.eqb_spec res 0) as [->|Hres]; cbn [negb] in H; [|mprim; injection H as -> ->; right; split; [done|congruence]].
    apply bind_Done in H as ([i isdirty] & s5 & E5 & H). assert (K5 : shape s5 = shape s4).
    { destruct (negb (ft =? SFS_TYPE_INVAL)); [mstep E5; mprim|mprim]; done. }
    destruct (negb (_ || _)) in H; [done|]. destruct (negb (vnodearray_grows _)) in H; [mprim; injection H as -> ->; right; split; [done|congruence]|].
    apply bind_Done in H as ([] & s6 & E6 & H). mprim. injection H as -> ->. left. split; [done|].
    assert (Hn : shape s !! a = None) by (rewrite <- K1; unfold shape; by rewrite lookup_fmap, Hfresh). split; [|intros p Hp; congruence].
    unfold refcount. rewrite Hn. cbn. unfold shape at 1. cbn. rewrite fmap_insert. fold (shape s5). by rewrite K5, K4, K3, K1.
Qed.

End Opening.

(** ** Giving up *)

Section Closing.
Context {HW : LhdHardware} (curas : Z) {SM : SfsMemory} {SML : SfsMemoryLaws}.

Lemma reclaim_shape sv v s r s' : svs s !! sv = Some v -> vn_refcount v = 1 -> sfs_reclaim curas sv s = Done r s' -> shape s' = delete sv (shape s) \/ shape s' = shape s.
Proof.
  intros Hsv Hc H. unfold sfs_reclaim in H. rewrite (bind_ret _ _ _ _ _ (get_sv_spec s sv v Hsv)) in H. rewrite Hc in H. change (negb (1 =? 1)) with false in H. cbv iota in H.
  apply bind_Done in H as (r1 & s1 & E1 & H). assert (K1 : shape s1 = shape s). { destruct (_ =? 0) in E1; [by apply (keeps_use _ _ _ _ (keeps_itrunc curas sv 0) E1)|by mprim]. }
  destruct (negb (r1 =? 0)); [mprim; by right|]. apply bind_Done in H as (r2 & s2 & E2 & H). pose proof (keeps_use _ _ _ _ (keeps_sync_inode curas sv) E2) as K2.
  destruct (negb (r2 =? 0)); [mprim; right; congruence|]. apply bind_Done in H as (w & s3 & E3 & H). pose proof (keeps_use _ _ _ _ (keeps_get_sv sv) E3) as K3.
  apply bind_Done in H as ([] & s4 & E4 & H). assert (K4 : shape s4 = shape s3). { destruct (_ =? 0) in E4; [by apply (keeps_use _ _ _ _ (keeps_bfree _) E4)|by mprim]. }
  mstep H. mprim. destruct (vnode_index sv (sfs_vnodes s4)); [|done]. mstep H. mprim. mstep H. mprim. mstep H. unfold free_sv in *. mprim. left.
  unfold shape at 1. cbn. rewrite fmap_delete. fold (shape s4). congruence.
Qed.

Lemma decref_shape sv s s' : vnode_decref curas sv s = Done tt s' -> dropped sv s s'.
Proof.
  unfold vnode_decref. intros H. apply bind_Done in H as (v & s1 & E1 & H). unfold get_sv, deref in E1. destruct (svs s !! sv) as [w|] eqn:E; [|done]. injection E1 as -> <-.
  apply bind_Done in H as ([] & s1 & E1 & H). mprim. assert (Hs : shape s !! sv = Some (vnode_key v)) by (unfold shape; by rewrite lookup_fmap, E).
  exists (sv_ino v), (vn_refcount v). split; [done|]. destruct (Z.ltb_spec 1 (vn_refcount v)) as [H1|H1].
  - left. split; [done|]. rewrite (update_sv_spec s sv v _ E) in H. injection H as <-. unfold shape. cbn. by rewrite fmap_insert.
  - right. assert (Hc : vn_refcount v = 1) by lia. split; [done|]. apply bind_Done in H as (r & s2 & E2 & H). mprim. by apply (reclaim_shape sv v s r).
Qed.

(** Taken and given up again. *)
Lemma taken_dropped sv ino s s1 s2 s' : (forall a p, shape s !! a = Some p -> 1 <= p.2) -> taken sv ino s s1 -> shape s2 = shape s1 -> dropped sv s2 s' -> balanced s s'.
Proof.
  intros Hpos [Ht Hino] H2 (i & c & Hc & Hd). rewrite H2, Ht, lookup_insert_eq in Hc. injection Hc as <- Hc. unfold refcount in Hc.
  destruct (shape s !! sv) as [[j d]|] eqn:E; cbn in Hc.
  - pose proof (Hpos _ _ E) as Hd1. pose proof (Hino _ eq_refl) as Hj. cbn in Hd1, Hj. subst j. destruct Hd as [[_ Hd]|[Hc1 _]]; [|lia]. left.
    rewrite Hd, H2, Ht, insert_insert_eq. apply insert_id. rewrite E. repeat f_equal. lia.
  - destruct Hd as [[H1 _]|[_ [Hd|Hd]]]; [lia|left; by rewrite Hd, H2, Ht, delete_insert_id|right]. exists sv, ino. split; [done|]. rewrite Hd, H2, Ht. unfold refcount. by rewrite E.
Qed.

(** ** The operations on names *)

Definition counted (s : sfs_fs) : Prop := forall a p, shape s !! a = Some p -> 1 <= p.2.

Lemma lookonce_shape dir name s r sv slot s' : sfs_lookonce curas dir name s = Done (r, sv, slot) s' -> r = 0 /\ (exists ino, taken sv ino s s') \/ r <> 0 /\ shape s' = shape s.
Proof.
  unfold sfs_lookonce. intros H. apply bind_Done in H as ([r1 acc] & s1 & E1 & H). pose proof (keeps_use _ _ _ _ (keeps_findname curas dir name) E1) as K1.
  destruct (Z.eqb_spec r1 0) as [->|Hr1]; cbn [negb] in H; [|mprim; injection H as -> -> ->; right; done].
  apply bind_Done in H as ([ino k] & s2 & E2 & H). mprim. apply bind_Done in H as ([r2 a] & s3 & E3 & H). apply (loadvnode_shape curas ino SFS_TYPE_INVAL) in E3.
  destruct (Z.eqb_spec r2 0) as [->|Hr2]; cbn [negb] in H.
  - destruct E3 as [[_ Ht]|[? _]]; [|done]. apply bind_Done in H as (v & s4 & E4 & H). pose proof (keeps_use _ _ _ _ (keeps_get_sv a) E4) as K4.
    destruct (_ =? 0) in H; [done|]. mprim. injection H as -> -> ->. left. split; [done|]. exists ino. apply (taken_before _ _ _ s3); [|done]. by apply (taken_after _ _ s) in Ht.
  - destruct E3 as [[? _]|[_ K3]]; [done|]. mprim. injection H as -> -> ->. right. split; [done|congruence].
Qed.

Lemma lookup_shape dir name s r sv s' : sfs_lookup curas dir name s = Done (r, sv) s' -> r = 0 /\ (exists ino, taken sv ino s s') \/ r <> 0 /\ shape s' = shape s.
Proof.
  unfold sfs_lookup. intros H. apply bind_Done in H as (v & s1 & E1 & H). pose proof (keeps_use _ _ _ _ (keeps_get_sv dir) E1) as K1.
  destruct (negb _) in H; [mprim; injection H as -> ->; right; done|]. apply bind_Done in H as ([[r2 a] k] & s2 & E2 & H). apply lookonce_shape in E2.
  destruct (Z.eqb_spec r2 0) as [->|Hr2]; cbn [negb] in H; mprim; injection H as -> ->.
  - destruct E2 as [[_ [ino Ht]]|[? _]]; [|done]. left. split; [done|]. exists ino. by apply (taken_after _ _ s) in Ht.
  - destruct E2 as [[? _]|[_ K2]]; [done|]. right. split; [done|congruence].
Qed.

Lemma keeps_add_link sv d : keeps (update_sv sv (add_link d)).
Proof. by apply keeps_update_sv. Qed.

Lemma makeobj_shape type s r sv s' : sfs_makeobj curas type s = Done (r, sv) s' -> r = 0 /\ (exists ino, taken sv ino s s') \/ r <> 0 /\ shape s' = shape s.
Proof.
  unfold sfs_makeobj. intros H. apply bind_Done in H as ([r1 ino] & s1 & E1 & H). pose proof (keeps_use _ _ _ _ (keeps_balloc curas) E1) as K1.
  destruct (Z.eqb_spec r1 0) as [->|Hr1]; cbn [negb] in H; [|mprim; injection H as -> ->; right; done].
  apply bind_Done in H as ([r2 a] & s2 & E2 & H). apply (loadvnode_shape curas ino type) in E2. apply bind_Done in H as ([] & s3 & E3 & H). mprim. injection H as -> ->.
  destruct (Z.eqb_spec r2 0) as [->|Hr2]; cbn [negb] in E3; mprim.
  - destruct E2 as [[_ Ht]|[? _]]; [|done]. left. split; [done|]. exists ino. by apply (taken_after _ _ s) in Ht.
  - destruct E2 as [[? _]|[_ K2]]; [done|]. pose proof (keeps_use _ _ _ _ (keeps_bfree ino) E3) as K3. right. split; [done|congruence].
Qed.

Lemma creat_shape dir name excl s r sv s' : counted s -> sfs_creat curas dir name excl s = Done (r, sv) s' ->
  r = 0 /\ (exists ino, taken sv ino s s') \/ r <> 0 /\ balanced s s'.
Proof.
  intros Hpos H. unfold sfs_creat in H. apply bind_Done in H as ([r1 acc] & s1 & E1 & H). pose proof (keeps_use _ _ _ _ (keeps_findname curas dir name) E1) as K1.
  assert (Hbal : forall s2, shape s2 = shape s -> balanced s s2) by (intros s2 Hs2; by left).
  destruct (negb (r1 =? 0) && negb (r1 =? ENOENT)) eqn:B1; [mprim; injection H as -> ->; right; split; [intros ->; done|by apply Hbal]|].
  destruct (Z.eqb_spec r1 0) as [->|Hr1]; cbn [andb] in H.
  - destruct excl; [mprim; injection H as -> ->; right; split; [done|by apply Hbal]|]. apply bind_Done in H as ([ino k] & s2 & E2 & H). mprim.
    apply bind_Done in H as ([r2 a] & s3 & E3 & H). apply (loadvnode_shape curas ino SFS_TYPE_INVAL) in E3.
    destruct (Z.eqb_spec r2 0) as [->|Hr2]; cbn [negb] in H; mprim; injection H as -> ->.
    + destruct E3 as [[_ Ht]|[? _]]; [|done]. left. split; [done|]. exists ino. by apply (taken_after _ _ s) in Ht.
    + destruct E3 as [[? _]|[_ K3]]; [done|]. right. split; [done|]. apply Hbal. congruence.
  - apply bind_Done in H as ([r2 a] & s2 & E2 & H). apply makeobj_shape in E2. destruct (Z.eqb_spec r2 0) as [->|Hr2]; cbn [negb] in H.
    2:{ mprim. injection H as -> ->. destruct E2 as [[? _]|[_ K2]]; [done|]. right. split; [done|]. apply Hbal. congruence. }
    destruct E2 as [[_ [ino Ht]]|[? _]]; [|done]. apply (taken_after _ _ s) in Ht; [|done]. apply bind_Done in H as (v & s3 & E3 & H). pose proof (keeps_use _ _ _ _ (keeps_get_sv a) E3) as K3.
    apply bind_Done in H as ([r4 k] & s4 & E4 & H). pose proof (keeps_use _ _ _ _ (keeps_dir_link curas dir name _) E4) as K4. destruct (Z.eqb_spec r4 0) as [->|Hr4]; cbn [negb] in H.
    + apply bind_Done in H as ([] & s5 & E5 & H). pose proof (keeps_use _ _ _ _ (keeps_add_link a 1) E5) as K5. mprim. injection H as -> ->.
      left. split; [done|]. exists ino. apply (taken_before _ _ _ s2); [done|congruence].
    + apply bind_Done in H as ([] & s5 & E5 & H). mprim. injection H as -> ->. right. split; [done|]. apply decref_shape in E5. apply (taken_dropped a ino s s2 s4); [done|done|congruence|done].
Qed.

Lemma link_shape dir name file s r s' : sfs_link curas dir name file s = Done r s' -> shape s' = shape s.
Proof.
  unfold sfs_link. intros H. apply bind_Done in H as (v & s1 & E1 & H). pose proof (keeps_use _ _ _ _ (keeps_get_sv file) E1) as K1. destruct (_ =? _) in H; [by mprim|].
  apply bind_Done in H as ([r2 k] & s2 & E2 & H). pose proof (keeps_use _ _ _ _ (keeps_dir_link curas dir name _) E2) as K2. destruct (negb (r2 =? 0)); [mprim; congruence|].
  apply bind_Done in H as ([] & s3 & E3 & H). pose proof (keeps_use _ _ _ _ (keeps_add_link file 1) E3) as K3. mprim. congruence.
Qed.

Lemma remove_shape dir name s r s' : counted s -> sfs_remove curas dir name s = Done r s' -> balanced s s'.
Proof.
  intros Hpos H. unfold sfs_remove in H. apply bind_Done in H as ([[r1 g] slot] & s1 & E1 & H). apply lookonce_shape in E1.
  destruct (Z.eqb_spec r1 0) as [->|Hr1]; cbn [negb] in H; [|mprim; destruct E1 as [[? _]|[_ K1]]; [done|by left]]. destruct E1 as [[_ [ino Ht]]|[? _]]; [|done].
  apply bind_Done in H as (r2 & s2 & E2 & H). pose proof (keeps_use _ _ _ _ (keeps_dir_unlink curas dir slot) E2) as K2.
  apply bind_Done in H as ([] & s3 & E3 & H). assert (K3 : shape s3 = shape s2).
  { destruct (r2 =? 0); [|by mprim]. apply bind_Done in E3 as (v & s5 & E5 & E3). pose proof (keeps_use _ _ _ _ (keeps_get_sv g) E5) as K5.
    apply bind_Done in E3 as ([] & s6 & E6 & E3). mprim. pose proof (keeps_use _ _ _ _ (keeps_add_link g (-1)) E3). congruence. }
  apply bind_Done in H as ([] & s4 & E4 & H). mprim. apply decref_shape in E4. apply (taken_dropped g ino s s1 s3); [done|done|congruence|done].
Qed.

Lemma rename_shape d1 n1 d2 n2 s r s' : counted s -> sfs_rename curas d1 n1 d2 n2 s = Done r s' -> balanced s s'.
Proof.
  intros Hpos H. unfold sfs_rename in H. apply bind_Done in H as ([] & s0 & E0 & H). mprim. apply bind_Done in H as (d & s0 & Ed & H). pose proof (keeps_use _ _ _ _ (keeps_get_sv d1) Ed) as K0.
  apply bind_Done in H as ([] & s0' & E0' & H). mprim. apply bind_Done in H as ([[r1 g] slot] & s1 & E1 & H). apply lookonce_shape in E1.
  destruct (Z.eqb_spec r1 0) as [->|Hr1]; cbn [negb] in H; [|mprim; destruct E1 as [[? _]|[_ K1]]; [done|left; congruence]]. destruct E1 as [[_ [ino Ht]]|[? _]]; [|done].
  apply (taken_after _ _ s) in Ht; [|done]. assert (Hend : forall s2 s3, shape s2 = shape s1 -> vnode_decref curas g s2 = Done tt s3 -> balanced s s3).
  { intros s2 s3 K2 E3. apply decref_shape in E3. by apply (taken_dropped g ino s s1 s2). }
  apply bind_Done in H as (v & s2 & E2 & H). pose proof (keeps_use _ _ _ _ (keeps_get_sv g) E2) as K2. apply bind_Done in H as ([] & s2' & E2' & H). mprim.
  apply bind_Done in H as ([r3 slot2] & s3 & E3 & H). pose proof (keeps_use _ _ _ _ (keeps_dir_link curas d1 n2 _) E3) as K3.
  destruct (negb (r3 =? 0)); [apply bind_Done in H as ([] & s4 & E4 & H); mprim; apply (Hend s3); [congruence|done]|].
  apply bind_Done in H as ([] & s4 & E4 & H). pose proof (keeps_use _ _ _ _ (keeps_add_link g 1) E4) as K4.
  apply bind_Done in H as (r5 & s5 & E5 & H). pose proof (keeps_use _ _ _ _ (keeps_dir_unlink curas d1 slot) E5) as K5. destruct (negb (r5 =? 0)).
  - apply bind_Done in H as (r6 & s6 & E6 & H). pose proof (keeps_use _ _ _ _ (keeps_dir_unlink curas d1 slot2) E6) as K6. destruct (negb (r6 =? 0)); [done|].
    apply bind_Done in H as ([] & s7 & E7 & H). apply (keeps_use (update_sv g _) _ _ _) in E7; [|by apply keeps_update_sv]. apply bind_Done in H as ([] & s8 & E8 & H). mprim. apply (Hend s7); [congruence|done].
  - apply bind_Done in H as (w & s6 & E6 & H). pose proof (keeps_use _ _ _ _ (keeps_get_sv g) E6) as K6. apply bind_Done in H as ([] & s6' & E6' & H). mprim.
    apply bind_Done in H as ([] & s7 & E7 & H). pose proof (keeps_use _ _ _ _ (keeps_add_link g (-1)) E7) as K7. apply bind_Done in H as ([] & s8 & E8 & H). mprim. apply (Hend s7); [congruence|done].
Qed.

End Closing.
End SfsRefs.
