(* ===== verification/SfsTree.v ===== *)
(** * The files of a volume and their names

    A mounted SFS volume as the operations of sfs_vnops.c see it: a root directory that is a
    finite map from names to files, where the number of links of a file is the number of its
    names.  Every operation keeps this, and changes the map and the files the way the
    operation of that name should. *)
From S2P Require Import Prelude Bitmap Copyinout Uio Lhd Sfs SfsErrors SfsFormat SfsProofs SfsIo.
From S2P Require Import SfsTrunc SfsDir SfsVnops SfsVolume SfsObjects.
Import Bitmap Copyinout Uio Lhd Sfs SfsErrors SfsFormat SfsProofs SfsIo SfsTrunc SfsDir SfsVnops SfsVolume SfsObjects.

Module SfsTree.

Notation dirmap := (gmap (list Z) (Z * Z)).

Lemma u16_small x : 0 <= x < 2 ^ 16 -> u16 x = x.
Proof. apply Z.mod_small. Qed.

Section Volume.
Context {HW : LhdHardware}.

(** ** Names *)

(** The number of names of a file. *)
Definition links (m : dirmap) (ino : Z) : Z := Z.of_nat (size (filter (fun p => fst (snd p) = ino) m)).

Lemma links_insert m name ino k x : m !! name = None -> links (<[name := (ino, k)]> m) x = links m x + (if decide (x = ino) then 1 else 0).
Proof.
  intros Hn. unfold links. destruct (decide (x = ino)) as [->|Hne].
  - rewrite map_filter_insert_True by done. rewrite map_size_insert_None; [lia|]. apply map_lookup_filter_None. by left.
  - rewrite map_filter_insert_False by (cbn; congruence). rewrite delete_id by done. lia.
Qed.

Lemma links_delete m name ino k x : m !! name = Some (ino, k) -> links (delete name m) x = links m x - (if decide (x = ino) then 1 else 0).
Proof.
  intros Hs. rewrite <- (insert_delete_id m name (ino, k) Hs) at 2. rewrite links_insert by apply lookup_delete_eq. lia.
Qed.

Lemma links_pos m name ino k : m !! name = Some (ino, k) -> 1 <= links m ino.
Proof.
  intros Hs. pose proof (links_delete m name ino k ino Hs) as H. rewrite decide_True in H by done. unfold links in *. lia.
Qed.

Lemma links_none m ino : (forall name k, m !! name <> Some (ino, k)) -> links m ino = 0.
Proof.
  intros Hn. unfold links. replace (filter _ m) with (∅ : dirmap); [done|]. symmetry. apply map_eq. intros name. rewrite lookup_empty. apply map_lookup_filter_None. right. intros [i k] Hs. cbn. intros ->. by apply (Hn name k).
Qed.

(** A directory has fewer names than a link count can hold. *)
Lemma links_bound s i m ino : inode_ok s i -> is_dir i -> dir_models s i m -> 0 <= links m ino <= 1144.
Proof.
  intros Hi Hdir Hm. split; [unfold links; lia|]. unfold links. set (m' := filter _ m).
  assert (Hsub : forall name q, m' !! name = Some q -> m !! name = Some q) by (intros name q Hq; by apply map_lookup_filter_Some in Hq as [? _]).
  set (l := (fun p => snd (snd p)) <$> map_to_list m').
  assert (Hlen : size m' = length l) by (unfold l; by rewrite length_fmap, length_map_to_list). rewrite Hlen.
  assert (Hnd : NoDup l).
  { apply NoDup_fmap_2_strong; [|apply NoDup_map_to_list]. intros [n1 [i1 k1]] [n2 [i2 k2]] H1 H2 He. cbn in He. subst k2.
    apply elem_of_map_to_list in H1, H2. pose proof (proj1 (Hm _ _ _) (Hsub _ _ H1)) as (_ & E1 & _ & N1). pose proof (proj1 (Hm _ _ _) (Hsub _ _ H2)) as (_ & E2 & _ & N2). congruence. }
  assert (Hin : l ⊆+ seqZ 0 1144).
  { apply NoDup_submseteq; [done|]. intros k Hk. apply list_elem_of_fmap in Hk as ([name [i1 k1]] & -> & Hk). apply elem_of_map_to_list in Hk.
    pose proof (proj1 (Hm _ _ _) (Hsub _ _ Hk)) as (Hr & _). destruct (nslots_range s i k1 Hi Hdir Hr). apply elem_of_seqZ. cbn.
    unfold FILE_MAX, NSLOTS, SFS_BLOCKSIZE in *. lia. }
  apply submseteq_length in Hin. rewrite length_seqZ in Hin. lia.
Qed.

(** The entries of a directory whose bytes stay. *)
Lemma dir_models_bytes s s' i m : inode_ok s i -> is_dir i -> (forall k, 0 <= k < FILE_MAX -> fbyte s' i k = fbyte s i k) -> dir_models s i m -> dir_models s' i m.
Proof.
  intros Hi Hdir Hb Hm name ino k. rewrite (Hm name ino k). unfold dir_entry.
  assert (He : 0 <= k < nslots i -> entry s' i k = entry s i k).
  { intros Hk. destruct (nslots_range s i k Hi Hdir Hk) as [H1 _]. pose proof (io_size _ _ Hi) as Hsz. fold FILE_MAX in Hsz. unfold entry, fbytes. f_equal.
    apply list_fmap_ext. intros j x Hx. apply lookup_seqZ in Hx as [-> Hj]. apply Hb. lia. }
  split; intros (Hk & H); rewrite He in * by done; done.
Qed.

(** ** The file system *)

Record fsys (R : gset Z) (s : sfs_fs) (F : gmap Z dinode) (m : dirmap) : Prop := {
  fy_vol : vol R s F;
  fy_root : exists i, F !! SFS_ROOTDIR_INO = Some i /\ is_dir i /\ sfi_linkcount i = 1 /\ dir_models s i m;
  (** the links of a file are its names *)
  fy_file : forall ino i, F !! ino = Some i -> ino <> SFS_ROOTDIR_INO -> sfi_type i = SFS_TYPE_FILE /\ sfi_linkcount i = links m ino;
  fy_name : forall name ino k, m !! name = Some (ino, k) -> ino <> SFS_ROOTDIR_INO /\ is_Some (F !! ino);
  (** a file without names is open *)
  fy_open : forall ino i, F !! ino = Some i -> sfi_linkcount i = 0 -> exists a v, svs s !! a = Some v /\ sv_ino v = ino
}.

(** The vnode of the root directory. *)
Definition root_at (s : sfs_fs) (dsv : Z) (dv : sfs_vnode) : Prop := svs s !! dsv = Some dv /\ sv_ino dv = SFS_ROOTDIR_INO.

(** The root directory is as large as a file can be. *)
Definition dir_full (F : gmap Z dinode) : Prop := exists i, F !! SFS_ROOTDIR_INO = Some i /\ sfi_size i = FILE_MAX.

Lemma fsys_dir R s F m dsv dv : fsys R s F m -> root_at s dsv dv ->
  F !! SFS_ROOTDIR_INO = Some (sv_i dv) /\ sfi_linkcount (sv_i dv) = 1 /\ dir_at s dsv dv m.
Proof.
  intros [[HS HC] (i & Hi & Hdir & Hl & Hm) _ _ _] [Hsv Hino]. destruct (ca_vnode _ _ HC dsv dv Hsv) as [Hf _]. rewrite Hino, Hi in Hf. injection Hf as ->.
  split_and!; [done|done|]. split_and!; [apply HS|done|by apply (st_inode _ _ _ HS _ _ Hi)|done|done].
Qed.

(** Files keep their bytes, their size and their type. *)
Definition files_kept (X : gset Z) (s : sfs_fs) (F : gmap Z dinode) (s' : sfs_fs) (F' : gmap Z dinode) : Prop :=
  forall ino i, F !! ino = Some i -> ino ∉ X ->
    exists i', F' !! ino = Some i' /\ sfi_size i' = sfi_size i /\ forall k, 0 <= k < FILE_MAX -> fbyte s' i' k = fbyte s i k.

Lemma files_kept_same X s F s' : bytes_kept X s s' F -> files_kept X s F s' F.
Proof. intros Hb ino i Hi HX. exists i. split_and!; [done|done|]. intros k. by apply (Hb ino i k). Qed.

Lemma files_kept_trans X s F s1 F1 s2 F2 : files_kept X s F s1 F1 -> files_kept X s1 F1 s2 F2 -> files_kept X s F s2 F2.
Proof.
  intros H1 H2 ino i Hi HX. destruct (H1 ino i Hi HX) as (i1 & Hi1 & Hs1 & Hb1). destruct (H2 ino i1 Hi1 HX) as (i2 & Hi2 & Hs2 & Hb2).
  exists i2. split_and!; [done|congruence|]. intros k Hk. by rewrite Hb2, Hb1.
Qed.

Lemma files_kept_insert X s F s' b i : b ∈ X \/ F !! b = None -> bytes_kept X s s' F -> files_kept X s F s' (<[b := i]> F).
Proof.
  intros Hb Hk ino j Hj HX. exists j. split_and!; [rewrite lookup_insert_ne; [done|]; intros <-; destruct Hb; [done|congruence]|done|].
  intros k. by apply (Hk ino j k).
Qed.

Lemma files_kept_relink s F ino i l s' : F !! ino = Some i -> (forall x, block s' x = block s x) -> files_kept ∅ s F s' (<[ino := set_linkcount l i]> F).
Proof.
  intros Hi Hb ino2 j Hj _. assert (Hfb : forall k, 0 <= k < FILE_MAX -> fbyte s' j k = fbyte s j k) by (intros k; apply fbyte_blocks; intros; apply Hb).
  destruct (decide (ino2 = ino)) as [->|Hne]; [|exists j; by rewrite lookup_insert_ne]. rewrite lookup_insert_eq. rewrite Hi in Hj. injection Hj as <-.
  by exists (set_linkcount l i).
Qed.

Lemma files_kept_drop X s F s1 F1 s2 ino : files_kept X s F s1 F1 -> F !! ino = None -> bytes_kept {[ino]} s1 s2 F1 -> files_kept X s F s2 (delete ino F1).
Proof.
  intros H1 Hn Hb x i Hi HX. destruct (H1 x i Hi HX) as (i1 & Hi1 & Hs1 & Hb1). assert (Hne : x <> ino) by congruence.
  exists i1. split_and!; [by rewrite lookup_delete_ne|done|]. intros k Hk. rewrite (Hb x i1 k Hi1); [by apply Hb1|set_solver|done].
Qed.

Lemma files_kept_unless X ino s F s1 F1 s2 F2 : files_kept X s F s1 F1 -> bytes_kept {[ino]} s1 s2 F1 -> (forall x, x <> ino -> F2 !! x = F1 !! x) ->
  files_kept (X ∪ {[ino]}) s F s2 F2.
Proof.
  intros H1 Hb HF x i Hi HX. destruct (H1 x i Hi ltac:(set_solver)) as (i1 & Hi1 & Hs1 & Hb1). exists i1. split_and!; [rewrite HF; [done|set_solver]|done|].
  intros k Hk. rewrite (Hb x i1 k Hi1); [by apply Hb1|set_solver|done].
Qed.

Lemma files_kept_weaken X Y s F s' F' : X ⊆ Y -> files_kept X s F s' F' -> files_kept Y s F s' F'.
Proof. intros HXY H ino i Hi HX. apply (H ino i Hi). set_solver. Qed.

(** Vnodes come, or change their counts. *)
Lemma fsys_frame R s F m s' : fsys R s F m -> vol R s' F -> bytes_kept ∅ s s' F ->
  (forall a v, svs s !! a = Some v -> exists a' v', svs s' !! a' = Some v' /\ sv_ino v' = sv_ino v) -> fsys R s' F m.
Proof.
  intros [[HS HC] (i & Hi & Hdir & Hl & Hm) Hf Hn Ho] HV Hb Hsv. split; [exact HV| |exact Hf|exact Hn|].
  - exists i. split_and!; [exact Hi|exact Hdir|exact Hl|]. apply (dir_models_bytes s); [by apply (st_inode _ _ _ HS _ _ Hi)|exact Hdir| |exact Hm]. intros k. by apply (Hb _ _ k Hi).
  - intros ino j Hj Hl0. destruct (Ho ino j Hj Hl0) as (a & v & Ha & Hv). destruct (Hsv a v Ha) as (a' & v' & Ha' & Hv'). exists a', v'. split; congruence.
Qed.

End Volume.

#[local] Opaque dir_models.

(** A vnode for inode [i] of number [ino] was handed out at [sv]. *)
Definition opened (ino : Z) (i : dinode) (sv : Z) (s s' : sfs_fs) : Prop :=
  svs s' = <[sv := opened_vnode ino i (svs s !! sv)]> (svs s) /\ (forall v, svs s !! sv = Some v -> sv_ino v = ino /\ sv_i v = i).

Lemma opened_at ino i sv s s' : opened ino i sv s s' -> exists v, svs s' !! sv = Some v /\ sv_ino v = ino /\ sv_i v = i /\
  vn_refcount v = 1 + match svs s !! sv with Some w => vn_refcount w | None => 0 end.
Proof.
  intros [Hs Hv]. eexists. split; [rewrite Hs; apply lookup_insert_eq|]. unfold opened_vnode. destruct (svs s !! sv) as [w|]; [|done].
  destruct (Hv w eq_refl). cbn. split_and!; [done|done|lia].
Qed.

Lemma opened_other ino i sv s s' a v : opened ino i sv s s' -> svs s !! a = Some v -> sv_ino v <> ino -> svs s' !! a = Some v.
Proof. intros [Hs Hv] Ha Hne. rewrite Hs, lookup_insert_ne; [done|]. intros <-. by destruct (Hv v Ha). Qed.

Lemma opened_stays ino i sv s s' a v : opened ino i sv s s' -> svs s !! a = Some v -> exists a' v', svs s' !! a' = Some v' /\ sv_ino v' = sv_ino v.
Proof.
  intros Ho Ha. destruct (decide (sv_ino v = ino)) as [He|Hne]; [|exists a, v; split; [by eapply opened_other|done]].
  destruct (opened_at _ _ _ _ _ Ho) as (w & Hw & Hi & _). exists sv, w. split; [done|congruence].
Qed.

Section Tree.
Context {HW : LhdHardware} (curas : Z) {HL : LhdLaws} {SM : SfsMemory} {SML : SfsMemoryLaws}.

Lemma fsys_quiet R s F m d' : fsys R s F m -> quiet (sfs_device s) d' -> fsys R (set_device d' s) F m.
Proof.
  intros Hf Hq. apply (fsys_frame R s); [done|apply vol_quiet; [apply Hf|done]| |intros a v Ha; by exists a, v].
  apply bytes_kept_block. intros x. unfold block. cbn. by destruct Hq as (_ & _ & ->).
Qed.

(** *** Looking up *)

Lemma load_named R s F m dsv dv name ino k : fsys R s F m -> root_at s dsv dv -> m !! name = Some (ino, k) ->
  exists r sv s', sfs_loadvnode curas ino SFS_TYPE_INVAL s = Done (r, sv) s' /\ fsys R s' F m /\ (forall x, block s' x = block s x) /\ root_at s' dsv dv /\
    (r = 0 /\ (exists i, F !! ino = Some i /\ opened ino i sv s s') \/ (r = EIO \/ r = ENOMEM) /\ svs s' = svs s).
Proof.
  intros Hf [Hd Hdi] Hm. destruct (fy_name _ _ _ _ Hf _ _ _ Hm) as [Hne [i Hi]]. destruct (fy_file _ _ _ _ Hf _ _ Hi Hne) as [Hty _].
  destruct (loadvnode_spec curas R s F ino i (fy_vol _ _ _ _ Hf) Hi ltac:(by left)) as (r & sv & s' & He & HV & Hb & _ & Hr).
  exists r, sv, s'. split; [done|]. destruct Hr as [(-> & Ho)|[Hr Hs]].
  - assert (Hop : opened ino i sv s s') by exact Ho. split_and!; [|done| |left; split; [done|by exists i]].
    + apply (fsys_frame R s); [done|done|by apply bytes_kept_block|]. intros a v Ha. by eapply opened_stays.
    + split; [|done]. eapply opened_other; [done|done|congruence].
  - split_and!; [|done|split; [by rewrite Hs|done]|right; done].
    apply (fsys_frame R s); [done|done|by apply bytes_kept_block|]. intros a v Ha. exists a, v. by rewrite Hs.
Qed.

Lemma lookonce_spec R s F m dsv dv name : fsys R s F m -> root_at s dsv dv ->
  exists r sv k s', sfs_lookonce curas dsv name s = Done (r, sv, k) s' /\ fsys R s' F m /\ (forall x, block s' x = block s x) /\ root_at s' dsv dv /\
    (r = 0 /\ (exists ino i, m !! name = Some (ino, k) /\ F !! ino = Some i /\ opened ino i sv s s') \/
     (r = ENOENT /\ m !! name = None \/ r = EIO \/ r = ENOMEM) /\ svs s' = svs s).
Proof.
  intros Hf Hr. destruct (fsys_dir _ _ _ _ _ _ Hf Hr) as (HF & _ & (Hs & Hsv & Hi & Hdir & Hm)).
  destruct (findname_spec curas dsv s dv m name Hs Hsv Hi Hdir Hm) as (r & acc & d1 & He & Hq & Hres). unfold sfs_lookonce. mrun He.
  pose proof (fsys_quiet _ _ _ _ _ Hf Hq) as Hf1. set (s1 := set_device d1 s) in *.
  assert (Hb1 : forall x, block s1 x = block s x) by (intros x; unfold block; cbn; by destruct Hq as (_ & _ & ->)).
  assert (Hr1 : root_at s1 dsv dv) by done.
  destruct Hres as [->|(-> & Hfst & _)]; [exists EIO, 0, 0, s1; split_and!; [done|done|done|exact Hr1|right; auto]|].
  destruct (m !! name) as [[ino k]|] eqn:E; [|exists ENOENT, 0, 0, s1; split_and!; [done|done|done|exact Hr1|right; auto]].
  cbn [negb Z.eqb]. mrun (deref_spec "ino" (fst acc) (ino, k) s1 Hfst).
  destruct (load_named R s1 F m dsv dv name ino k Hf1 Hr1 E) as (r & sv & s2 & He2 & Hf2 & Hb2 & Hr2 & Hres). mrun He2.
  assert (Hb : forall x, block s2 x = block s x) by (intros x; by rewrite Hb2, Hb1).
  destruct Hres as [[-> (i & HFi & Ho)]|[Hr' Hs2]].
  - cbn [negb Z.eqb]. destruct (opened_at _ _ _ _ _ Ho) as (v & Hv & Hvi & Hv2 & _). mrun (get_sv_spec s2 sv v Hv).
    destruct (fy_name _ _ _ _ Hf _ _ _ E) as [Hne _]. destruct (fy_file _ _ _ _ Hf _ _ HFi Hne) as [_ Hl]. pose proof (links_pos _ _ _ _ E) as Hp.
    rewrite Hv2, Hl. replace (links m ino =? 0) with false by lia.
    exists 0, sv, k, s2. split_and!; [done|done|done|exact Hr2|left]. split; [done|]. by exists ino, i.
  - replace (negb (r =? 0)) with true by (by destruct Hr' as [-> | ->]).
    exists r, 0, k, s2. split_and!; [done|done|done|exact Hr2|right]. split; [right; done|done].
Qed.

(** *** Giving up a reference *)

Lemma decref_fsys R s F m sv v : fsys R s F m -> svs s !! sv = Some v ->
  exists s' F', vnode_decref curas sv s = Done tt s' /\ fsys R s' F' m /\ released sv v s F s' F'.
Proof.
  intros Hf Hsv. pose proof (fy_vol _ _ _ _ Hf) as HV. destruct (decref_spec curas R s F sv v HV Hsv) as (s' & F' & He & HV' & _ & Hrel).
  exists s', F'. split_and!; [done| |done]. pose proof (changed_self R sv s v F HV Hsv) as Hself. pose proof HV as [HS HC].
  assert (Hlost : sfi_linkcount (sv_i v) = 0 -> sv_ino v <> SFS_ROOTDIR_INO /\ forall name k, m !! name <> Some (sv_ino v, k)).
  { intros Hl. assert (Hne : sv_ino v <> SFS_ROOTDIR_INO).
    { intros E. destruct (fy_root _ _ _ _ Hf) as (i & Hi & _ & Hl1 & _). rewrite E, Hi in Hself. injection Hself as ->. lia. }
    split; [done|]. intros name k E. apply links_pos in E. destruct (fy_file _ _ _ _ Hf _ _ Hself Hne). lia. }
  assert (Hopen : forall ino i, F !! ino = Some i -> sfi_linkcount i = 0 -> ino <> sv_ino v -> exists a w, a <> sv /\ svs s !! a = Some w /\ sv_ino w = ino).
  { intros ino i Hi Hl Hne. destruct (fy_open _ _ _ _ Hf ino i Hi Hl) as (a & w & Ha & Hw). exists a, w. split_and!; [|done|done]. intros ->. congruence. }
  assert (Hroot : sv_ino v <> SFS_ROOTDIR_INO -> bytes_kept {[sv_ino v]} s s' F -> exists i, F !! SFS_ROOTDIR_INO = Some i /\ is_dir i /\ sfi_linkcount i = 1 /\ dir_models s' i m).
  { intros Hne Hb. destruct (fy_root _ _ _ _ Hf) as (i & Hi & Hdir & Hl & Hm). exists i. split_and!; [done|done|done|].
    apply (dir_models_bytes s); [by apply (st_inode _ _ _ HS _ _ Hi)|done| |done]. intros k. apply (Hb _ _ k Hi). set_solver. }
  destruct Hrel as [H1 Hs' Hb|H1 Hl Hs' Hb|H1 Hl Hs' Hb|v' H1 _ Hl Hs' Hino Hr' Hl' Ht Hb].
  - apply (fsys_frame R s); [done|done|done|]. intros a w Ha. destruct (decide (a = sv)) as [->|Hne].
    + rewrite Hsv in Ha. injection Ha as <-. eexists sv, _. split; [rewrite Hs'; apply lookup_insert_eq|done].
    + exists a, w. by rewrite Hs', lookup_insert_ne.
  - destruct Hf as [_ (i & Hi & Hdir & Hl1 & Hm) Hfile Hname _]. split; [exact HV'| |exact Hfile|exact Hname|].
    + exists i. split_and!; [done|done|done|]. apply (dir_models_bytes s); [by apply (st_inode _ _ _ HS _ _ Hi)|done| |done]. intros k. by apply (Hb _ _ k Hi).
    + intros ino j Hj Hl0. destruct (Hopen ino j Hj Hl0) as (a & w & Hne & Ha & Hw); [intros ->; congruence|]. exists a, w. by rewrite Hs', lookup_delete_ne.
  - destruct (Hlost Hl) as [Hne Hno]. destruct (Hroot Hne Hb) as (i & Hi & Hri). split; [exact HV'| | | |].
    + exists i. by rewrite lookup_delete_ne.
    + intros ino j [_ Hj]%lookup_delete_Some. by apply (fy_file _ _ _ _ Hf).
    + intros name ino k E. destruct (fy_name _ _ _ _ Hf _ _ _ E) as [? ?]. split; [done|]. rewrite lookup_delete_ne; [done|]. intros <-. by apply (Hno name k).
    + intros ino j [Hn Hj]%lookup_delete_Some Hl0. destruct (Hopen ino j Hj Hl0) as (a & w & Hna & Ha & Hw); [done|]. exists a, w. by rewrite Hs', lookup_delete_ne.
  - destruct (Hlost Hl) as [Hne Hno]. destruct (Hroot Hne Hb) as (i & Hi & Hri). destruct (fy_file _ _ _ _ Hf _ _ Hself Hne) as [Hty Hlk]. split; [exact HV'| | | |].
    + exists i. by rewrite lookup_insert_ne.
    + intros ino j [[-> ->]|[_ Hj]]%insert_case; [intros _; split; congruence|by apply (fy_file _ _ _ _ Hf)].
    + intros name ino k E. destruct (fy_name _ _ _ _ Hf _ _ _ E) as [? ?]. split; [done|]. rewrite lookup_insert_ne; [done|]. intros <-. by apply (Hno name k).
    + intros ino j [[-> ->]|[Hn Hj]]%insert_case Hl0; [exists sv, v'; by rewrite Hs', lookup_insert_eq|].
      destruct (Hopen ino j Hj Hl0) as (a & w & Hna & Ha & Hw); [done|]. exists a, w. by rewrite Hs', lookup_insert_ne.
Qed.

(** A file that has a name stays. *)
Lemma decref_named R s F m sv v name k : fsys R s F m -> svs s !! sv = Some v -> m !! name = Some (sv_ino v, k) ->
  exists s', vnode_decref curas sv s = Done tt s' /\ fsys R s' F m /\ (forall X, files_kept X s F s' F) /\ forall a, a <> sv -> svs s' !! a = svs s !! a.
Proof.
  intros Hf Hsv E. pose proof (changed_self R sv s v F (fy_vol _ _ _ _ Hf) Hsv) as Hself. destruct (fy_name _ _ _ _ Hf _ _ _ E) as [Hne _].
  destruct (fy_file _ _ _ _ Hf _ _ Hself Hne) as [_ Hlk]. pose proof (links_pos _ _ _ _ E) as Hpos.
  destruct (decref_fsys R s F m sv v Hf Hsv) as (s' & F' & He & Hf' & Hrel). exists s'. split; [done|].
  destruct Hrel as [_ Hs Hb|_ _ Hs Hb|_ Hz _ _|w _ _ Hz _ _ _ _ _ _]; [| |lia|lia];
    (split_and!; [done|intros X; apply (files_kept_weaken ∅); [set_solver|by apply files_kept_same]|intros a Ha; rewrite Hs; by rewrite ?lookup_insert_ne, ?lookup_delete_ne]).
Qed.

(** *** Names and links *)

(** The directory and the link count of one file change together. *)
Lemma fsys_relink R s F m s' m' ino i di l : fsys R s F m -> F !! ino = Some i -> ino <> SFS_ROOTDIR_INO ->
  vol R s' (<[ino := set_linkcount l i]> (<[SFS_ROOTDIR_INO := di]> F)) -> is_dir di -> sfi_linkcount di = 1 -> dir_models s' di m' ->
  (forall x, links m' x = if decide (x = ino) then l else links m x) ->
  (forall name x k, m' !! name = Some (x, k) -> x = ino \/ exists name' k', m !! name' = Some (x, k')) ->
  (forall a v, svs s !! a = Some v -> exists a' v', svs s' !! a' = Some v' /\ sv_ino v' = sv_ino v) ->
  (exists a v, svs s' !! a = Some v /\ sv_ino v = ino) ->
  fsys R s' (<[ino := set_linkcount l i]> (<[SFS_ROOTDIR_INO := di]> F)) m'.
Proof.
  intros Hf Hi Hne HV Hdir Hl1 Hm Hlinks Hnames Hvn Hop. split; [exact HV| | | |].
  - exists di. by rewrite lookup_insert_ne, lookup_insert_eq.
  - intros x j [[-> ->]|[Hx [[-> ->]|[Hx' Hj]]%insert_case]]%insert_case Hxr; [|done|].
    + destruct (fy_file _ _ _ _ Hf _ _ Hi Hne) as [Hty _]. by rewrite Hlinks, decide_True.
    + rewrite Hlinks, decide_False by done. by apply (fy_file _ _ _ _ Hf).
  - intros name x k [->|(name' & k' & E)]%Hnames; [split; [done|]; rewrite lookup_insert_eq; eauto|].
    destruct (fy_name _ _ _ _ Hf _ _ _ E) as [Hx Hs]. split; [done|]. destruct (decide (x = ino)) as [->|]; [rewrite lookup_insert_eq; eauto|].
    by rewrite !lookup_insert_ne.
  - intros x j [[-> ->]|[Hx [[-> ->]|[Hx' Hj]]%insert_case]]%insert_case Hl0; [done|lia|].
    destruct (fy_open _ _ _ _ Hf _ _ Hj Hl0) as (a & v & Ha & Hv). destruct (Hvn a v Ha) as (a' & v' & Ha' & Hv'). exists a', v'. split; congruence.
Qed.

(** The directory changes, but not its names. *)
Lemma fsys_redir R s F m s' dsv dv dv' : fsys R s F m -> root_at s dsv dv -> touched dsv s dv s' dv' -> dir_at s' dsv dv' m ->
  exists F', fsys R s' F' m /\ root_at s' dsv dv' /\ files_kept {[SFS_ROOTDIR_INO]} s F s' F' /\ svs s' = <[dsv := dv']> (svs s) /\ dom F' = dom F.
Proof.
  intros Hf Hr Ht (_ & _ & _ & Hdir & Hm). destruct (fsys_dir _ _ _ _ _ _ Hf Hr) as (HF & Hl & _). destruct Hr as [Hsv Hino].
  destruct (touched_vol R s F dsv dv s' dv' (fy_vol _ _ _ _ Hf) Hsv Ht) as (HV & Hb & Hs' & Hino' & _ & Hl' & _ & _). rewrite Hino in *.
  exists (<[SFS_ROOTDIR_INO := sv_i dv']> F). split_and!; [|split; [by rewrite Hs', lookup_insert_eq|congruence]|by apply files_kept_insert; [left; set_solver|]|done|].
  2:{ rewrite dom_insert_L. apply elem_of_dom_2 in HF. set_solver. }
  destruct Hf as [_ _ Hfile Hname Hopen]. split; [exact HV| | | |].
  - exists (sv_i dv'). rewrite lookup_insert_eq. split_and!; [done|done|congruence|done].
  - intros x j [[-> ->]|[Hx Hj]]%insert_case; [done|by apply Hfile].
  - intros name x k E. destruct (Hname _ _ _ E). by rewrite lookup_insert_ne.
  - intros x j [[-> ->]|[Hx Hj]]%insert_case Hl0; [exists dsv, dv'; rewrite Hs', lookup_insert_eq; split; congruence|].
    destruct (Hopen _ _ Hj Hl0) as (a & v & Ha & Hv). exists a, v. rewrite Hs', lookup_insert_ne; [done|]. intros ->. congruence.
Qed.

(** The directory changed, then the link count of the file of vnode [g] is set to [l]. *)
Lemma relink_step R s F m dsv dv s1 dv1 g v l m' : fsys R s F m -> root_at s dsv dv -> svs s !! g = Some v -> sv_ino v <> SFS_ROOTDIR_INO ->
  touched dsv s dv s1 dv1 -> dir_at s1 dsv dv1 m' -> 0 <= l < 2 ^ 16 ->
  (forall x, links m' x = if decide (x = sv_ino v) then l else links m x) ->
  (forall name x k, m' !! name = Some (x, k) -> x = sv_ino v \/ exists name' k', m !! name' = Some (x, k')) ->
  svs s1 !! g = Some v /\ let s2 := set_svs (<[g := relinked l v]> (svs s1)) s1 in exists F', fsys R s2 F' m' /\ root_at s2 dsv dv1 /\
    files_kept {[SFS_ROOTDIR_INO]} s F s2 F' /\ dom F' = dom F /\ svs s2 !! g = Some (relinked l v) /\ forall a, a <> dsv -> a <> g -> svs s2 !! a = svs s !! a.
Proof.
  intros Hf Hr Hg Hne Ht (_ & _ & Hiok & Hdir & Hm) Hl Hlinks Hnames. destruct (fsys_dir _ _ _ _ _ _ Hf Hr) as (HF & Hl1 & _). destruct Hr as [Hsv Hino].
  pose proof (changed_self R g s v F (fy_vol _ _ _ _ Hf) Hg) as Hself. assert (Hgd : g <> dsv) by (intros ->; congruence).
  destruct (touched_vol R s F dsv dv s1 dv1 (fy_vol _ _ _ _ Hf) Hsv Ht) as (HV1 & Hb1 & Hs1 & Hino1 & _ & Hl' & _ & _). rewrite Hino in *.
  assert (Hg1 : svs s1 !! g = Some v) by (by rewrite Hs1, lookup_insert_ne). split; [done|].
  pose proof (relinked_vol R s1 _ g v l HV1 Hg1 Hl) as HV2. set (s2 := set_svs (<[g := relinked l v]> (svs s1)) s1) in *.
  assert (Hd2 : svs s2 !! dsv = Some dv1) by (cbn; rewrite lookup_insert_ne by done; by rewrite Hs1, lookup_insert_eq).
  assert (Hg2 : svs s2 !! g = Some (relinked l v)) by apply lookup_insert_eq.
  assert (Hoth : forall a, a <> dsv -> a <> g -> svs s2 !! a = svs s !! a) by (intros a Ha Hag; cbn; by rewrite lookup_insert_ne, Hs1, lookup_insert_ne).
  eexists. split_and!; [apply (fsys_relink R s F m s2 m' (sv_ino v) (sv_i v) (sv_i dv1) l); try done|by split|..|done|done].
  - congruence.
  - intros a w Ha. destruct (decide (a = dsv)) as [->|Hnd]; [rewrite Hsv in Ha; injection Ha as <-; exists dsv, dv1; split; congruence|].
    destruct (decide (a = g)) as [->|Hng]; [rewrite Hg in Ha; injection Ha as <-; by exists g, (relinked l v)|]. exists a, w. by rewrite Hoth.
  - by exists g, (relinked l v).
  - eapply files_kept_trans; [apply (files_kept_insert _ _ _ _ SFS_ROOTDIR_INO (sv_i dv1)); [left; set_solver|exact Hb1]|].
    eapply files_kept_weaken; [|apply files_kept_relink; [|done]]; [set_solver|]. rewrite lookup_insert_ne by done. done.
  - rewrite !dom_insert_L. apply elem_of_dom_2 in HF, Hself. set_solver.
Qed.

(** [sfs_dir_link] and [sfi_linkcount++]. *)
Lemma link_step R s F m dsv dv g v name : fsys R s F m -> root_at s dsv dv -> svs s !! g = Some v -> sv_ino v <> SFS_ROOTDIR_INO -> Forall (fun c => c <> 0) name ->
  exists r k s1, sfs_dir_link curas dsv name (sv_ino v) s = Done (r, k) s1 /\
    (r = 0 /\ m !! name = None /\ (exists s2 F' dv', let v' := relinked (sfi_linkcount (sv_i v) + 1) v in
       update_sv g (add_link 1) s1 = Done tt s2 /\ fsys R s2 F' (<[name := (sv_ino v, k)]> m) /\ root_at s2 dsv dv' /\
       files_kept {[SFS_ROOTDIR_INO]} s F s2 F' /\ dom F' = dom F /\ svs s2 !! g = Some v' /\ forall a, a <> dsv -> a <> g -> svs s2 !! a = svs s !! a) \/
     (r = EEXIST /\ m !! name <> None \/ r = ENAMETOOLONG /\ 59 < Z.of_nat (length name) \/ r = EIO \/ r = ENOSPC \/ r = EFBIG /\ dir_full F) /\
       exists F' dv', fsys R s1 F' m /\ root_at s1 dsv dv' /\ files_kept {[SFS_ROOTDIR_INO]} s F s1 F' /\ dom F' = dom F /\ svs s1 = <[dsv := dv']> (svs s)).
Proof.
  intros Hf Hr Hg Hne Hname. destruct (fsys_dir _ _ _ _ _ _ Hf Hr) as (_ & _ & Hd). pose proof (fy_vol _ _ _ _ Hf) as [HS HC].
  pose proof (changed_self R g s v F (fy_vol _ _ _ _ Hf) Hg) as Hself. destruct (st_ino _ _ _ HS _ _ Hself) as [Hrange _].
  pose proof (fo_nblocks _ (st_fs _ _ _ HS)) as [_ Hnb].
  destruct (dir_link_spec curas dsv s dv m name (sv_ino v) Hd Hname) as (r & k & s1 & dv1 & He & Ht & Hres); [unfold is_u32; lia|lia|].
  destruct (fsys_dir _ _ _ _ _ _ Hf Hr) as (HFd & _).
  exists r, k, s1. split; [done|]. destruct Hres as [(-> & Hnone & Hd1)|[Hr' Hd1]].
  - left. split_and!; [done|done|]. destruct (fy_file _ _ _ _ Hf _ _ Hself Hne) as [_ Hlk]. destruct Hd as (_ & _ & Hi & Hdir & Hm).
    pose proof (links_bound s _ m (sv_ino v) Hi Hdir Hm) as Hbound.
    destruct (relink_step R s F m dsv dv s1 dv1 g v (sfi_linkcount (sv_i v) + 1) (<[name := (sv_ino v, k)]> m)) as (Hg1 & F' & Hf2 & Hr2 & Hk & Hdom & Hg2 & Ho); try done.
    { lia. } { intros x. rewrite links_insert by done. destruct (decide (x = sv_ino v)) as [->|]; lia. }
    { intros n x q E. apply lookup_insert_Some in E as [[_ [= <- _]]|[_ E]]; [by left|right; eauto]. }
    eexists _, F', dv1. split_and!; [|exact Hf2|exact Hr2|exact Hk|done|exact Hg2|exact Ho].
    rewrite (update_sv_spec s1 g v _ Hg1). do 4 f_equal. unfold add_link, relinked, dirty. by rewrite u16_small by lia.
  - right. split; [assert (sfi_size (sv_i dv) = FILE_MAX -> dir_full F) by (by exists (sv_i dv)); tauto|].
    destruct (fsys_redir R s F m s1 dsv dv dv1 Hf Hr Ht Hd1) as (F' & H). exists F', dv1. tauto.
Qed.

(** [sfs_dir_unlink] and [sfi_linkcount--]. *)
Lemma unlink_step R s F m dsv dv g v name k : fsys R s F m -> root_at s dsv dv -> svs s !! g = Some v -> m !! name = Some (sv_ino v, k) ->
  exists r s1, sfs_dir_unlink curas dsv k s = Done r s1 /\
    (r = 0 /\ 0 < sfi_linkcount (sv_i v) /\ svs s1 !! g = Some v /\ (exists s2 F' dv', let v' := relinked (sfi_linkcount (sv_i v) - 1) v in
       update_sv g (add_link (-1)) s1 = Done tt s2 /\ fsys R s2 F' (delete name m) /\ root_at s2 dsv dv' /\
       files_kept {[SFS_ROOTDIR_INO]} s F s2 F' /\ dom F' = dom F /\ svs s2 !! g = Some v' /\ forall a, a <> dsv -> a <> g -> svs s2 !! a = svs s !! a) \/
     r = EIO /\ exists F' dv', fsys R s1 F' m /\ root_at s1 dsv dv' /\ files_kept {[SFS_ROOTDIR_INO]} s F s1 F' /\ dom F' = dom F /\ svs s1 = <[dsv := dv']> (svs s)).
Proof.
  intros Hf Hr Hg Hname. destruct (fsys_dir _ _ _ _ _ _ Hf Hr) as (_ & _ & Hd). destruct (fy_name _ _ _ _ Hf _ _ _ Hname) as [Hne _].
  pose proof (changed_self R g s v F (fy_vol _ _ _ _ Hf) Hg) as Hself.
  destruct (dir_unlink_spec curas dsv s dv m name (sv_ino v) k Hd Hname) as (r & s1 & dv1 & He & Ht & Hres).
  exists r, s1. split; [done|]. destruct Hres as [(-> & Hd1)|[Hr' Hd1]].
  - left. destruct (fy_file _ _ _ _ Hf _ _ Hself Hne) as [_ Hlk]. destruct Hd as (_ & _ & Hi & Hdir & Hm).
    pose proof (links_bound s _ m (sv_ino v) Hi Hdir Hm) as Hbound. pose proof (links_pos _ _ _ _ Hname) as Hpos.
    destruct (relink_step R s F m dsv dv s1 dv1 g v (sfi_linkcount (sv_i v) - 1) (delete name m)) as (Hg1 & F' & Hf2 & Hr2 & Hk & Hdom & Hg2 & Ho); try done.
    { lia. } { intros x. rewrite (links_delete m name (sv_ino v) k) by done. destruct (decide (x = sv_ino v)) as [->|]; lia. }
    { intros n x q [_ E]%lookup_delete_Some. right; eauto. }
    split_and!; [done|lia|done|]. eexists _, F', dv1. split_and!; [|exact Hf2|exact Hr2|exact Hk|done|exact Hg2|exact Ho].
    rewrite (update_sv_spec s1 g v _ Hg1). do 4 f_equal. unfold add_link, relinked, dirty. by rewrite u16_small by lia.
  - right. split; [done|]. destruct (fsys_redir R s F m s1 dsv dv dv1 Hf Hr Ht Hd1) as (F' & H). exists F', dv1. tauto.
Qed.

(** A new file, without names. *)
Lemma makeobj_fsys R s F m dsv dv : fsys R s F m -> root_at s dsv dv ->
  exists r sv s', sfs_makeobj curas SFS_TYPE_FILE s = Done (r, sv) s' /\ root_at s' dsv dv /\
    (r = 0 /\ (exists ino, F !! ino = None /\ svs s' !! sv = Some (mkSv (new_inode SFS_TYPE_FILE) ino true 1) /\ svs s !! sv = None /\
       fsys R s' (<[ino := new_inode SFS_TYPE_FILE]> F) m /\ files_kept ∅ s F s' (<[ino := new_inode SFS_TYPE_FILE]> F)) \/
     (r = EIO \/ r = ENOMEM \/ r = ENOSPC) /\ fsys R s' F m /\ files_kept ∅ s F s' F).
Proof.
  intros Hf [Hd Hdi]. destruct (makeobj_spec curas R s F SFS_TYPE_FILE (fy_vol _ _ _ _ Hf) ltac:(by left)) as (r & sv & s' & He & Hb & _ & Hr).
  exists r, sv, s'. destruct Hr as [(-> & ino & Hnone & Hrange & Hsv & Hs' & HV)|(Hr & Hs' & HV)].
  - assert (Hr' : root_at s' dsv dv) by (split; [rewrite Hs', lookup_insert_ne; [done|congruence]|done]). split_and!; [done|done|left]. split; [done|].
    exists ino. split_and!; [done|by rewrite Hs', lookup_insert_eq|done| |apply files_kept_insert; [by right|done]].
    assert (Hino1 : ino <> SFS_ROOTDIR_INO) by (intros ->; destruct (fy_root _ _ _ _ Hf) as (i & Hi & _); congruence).
    destruct (fy_root _ _ _ _ Hf) as (i & Hi & Hdir & Hl & Hm). pose proof (fy_vol _ _ _ _ Hf) as [HS _]. split; [exact HV| | | |].
    + exists i. rewrite lookup_insert_ne by done. split_and!; [done|done|done|]. apply (dir_models_bytes s); [by apply (st_inode _ _ _ HS _ _ Hi)|done| |done].
      intros k. by apply (Hb _ _ k Hi).
    + intros x j [[-> ->]|[Hx Hj]]%insert_case Hx1; [|by apply (fy_file _ _ _ _ Hf)]. split; [done|]. symmetry. apply links_none. intros name k E.
      destruct (fy_name _ _ _ _ Hf _ _ _ E) as [_ [? ?]]. congruence.
    + intros name x k E. destruct (fy_name _ _ _ _ Hf _ _ _ E) as [? [j Hj]]. split; [done|]. rewrite lookup_insert_ne; [eauto|congruence].
    + intros x j [[-> ->]|[Hx Hj]]%insert_case Hl0; [eexists sv, _; split; [rewrite Hs'; apply lookup_insert_eq|done]|].
      destruct (fy_open _ _ _ _ Hf _ _ Hj Hl0) as (a & w & Ha & Hw). exists a, w. rewrite Hs', lookup_insert_ne; [done|congruence].
  - split_and!; [done|split; [by rewrite Hs'|done]|right]. split_and!; [done| |by apply files_kept_same].
    apply (fsys_frame R s); [done|done|done|]. intros a v Ha. exists a, v. by rewrite Hs'.
Qed.

(** ** The operations of the file system *)

Lemma creat_spec R s F m dsv dv name excl : fsys R s F m -> root_at s dsv dv -> Forall (fun c => c <> 0) name ->
  exists r sv s' F' m', sfs_creat curas dsv name excl s = Done (r, sv) s' /\ fsys R s' F' m' /\ files_kept {[SFS_ROOTDIR_INO]} s F s' F' /\
    (r = 0 /\ excl = false /\ m' = m /\ F' = F /\ (exists ino k v, m !! name = Some (ino, k) /\ svs s' !! sv = Some v /\ sv_ino v = ino) \/
     r = 0 /\ m !! name = None /\ (exists ino k i, F !! ino = None /\ dom F' = {[ino]} ∪ dom F /\ m' = <[name := (ino, k)]> m /\
       F' !! ino = Some i /\ sfi_size i = 0 /\ sfi_linkcount i = 1 /\ svs s' !! sv = Some (mkSv i ino true 1)) \/
     (r = EEXIST /\ excl = true /\ m !! name <> None \/ r = ENAMETOOLONG /\ 59 < Z.of_nat (length name) \/ r = EIO \/ r = ENOMEM \/ r = ENOSPC \/ r = EFBIG /\ dir_full F) /\
       m' = m /\ dom F' = dom F).
Proof.
  intros Hf Hr Hname. destruct (fsys_dir _ _ _ _ _ _ Hf Hr) as (HF & _ & (Hs & Hsv & Hi & Hdir & Hm)).
  destruct (findname_spec curas dsv s dv m name Hs Hsv Hi Hdir Hm) as (r & acc & d1 & He & Hq & Hres). unfold sfs_creat. mrun He.
  pose proof (fsys_quiet _ _ _ _ _ Hf Hq) as Hf1. set (s1 := set_device d1 s) in *. assert (Hr1 : root_at s1 dsv dv) by done.
  assert (Hk1 : forall X, files_kept X s F s1 F) by (intros X; apply files_kept_same, bytes_kept_block; intros x; unfold block; cbn; by destruct Hq as (_ & _ & ->)).
  destruct Hres as [->|(-> & Hfst & _)]; [exists EIO, 0, s1, F, m; split_and!; try done; right; right; auto|].
  destruct (m !! name) as [[ino k]|] eqn:E.
  { change (0 =? 0) with true. cbn [negb andb]. destruct excl; [exists EEXIST, 0, s1, F, m; split_and!; try done; right; right; auto|].
    mrun (deref_spec "ino" (fst acc) (ino, k) s1 Hfst).
    destruct (load_named R s1 F m dsv dv name ino k Hf1 Hr1 E) as (r & sv & s2 & He2 & Hf2 & Hb2 & Hr2 & Hres). mrun He2.
    assert (Hk2 : files_kept {[SFS_ROOTDIR_INO]} s F s2 F) by (eapply files_kept_trans; [apply Hk1|by apply files_kept_same, bytes_kept_block]).
    destruct Hres as [[-> (i & HFi & Ho)]|[Hr' Hs2]].
    - destruct (opened_at _ _ _ _ _ Ho) as (v & Hv & Hvi & _). exists 0, sv, s2, F, m. split_and!; try done. left. split_and!; try done. by exists ino, k, v.
    - replace (negb (r =? 0)) with true by (by destruct Hr' as [-> | ->]). exists r, 0, s2, F, m. split_and!; try done. right; right. split; [|done]. destruct Hr'; auto. }
  change (ENOENT =? 0) with false. change (ENOENT =? ENOENT) with true. cbn [negb andb].
  destruct (makeobj_fsys R s1 F m dsv dv Hf1 Hr1) as (r & g & s2 & He2 & Hr2 & Hres). mrun He2.
  destruct Hres as [[-> (ino & Hnone & Hg & Hg0 & Hf2 & Hk2)]|(Hr' & Hf2 & Hk2)].
  2:{ replace (negb (r =? 0)) with true by (by destruct Hr' as [->|[-> | ->]]). exists r, 0, s2, F, m. split_and!; [done|done| |right; right].
      - eapply files_kept_trans; [apply Hk1|eapply files_kept_weaken; [|exact Hk2]; set_solver].
      - split; [|done]. destruct Hr' as [|[|]]; auto 6. }
  cbn [negb Z.eqb]. mrun (get_sv_spec s2 g _ Hg). set (v := mkSv (new_inode SFS_TYPE_FILE) ino true 1) in *. set (F2 := <[ino := new_inode SFS_TYPE_FILE]> F) in *.
  assert (Hk12 : files_kept {[SFS_ROOTDIR_INO]} s F s2 F2) by (eapply files_kept_trans; [apply Hk1|eapply files_kept_weaken; [|exact Hk2]; set_solver]).
  assert (Hino : sv_ino v <> SFS_ROOTDIR_INO) by (cbn; intros ->; congruence).
  assert (Hdom2 : dom F2 = {[ino]} ∪ dom F) by apply dom_insert_L.
  destruct (link_step R s2 F2 m dsv dv g v name Hf2 Hr2 Hg Hino Hname) as (r & k & s3 & He3 & Hres). change (sv_ino v) with ino in *. mrun He3.
  destruct Hres as [(-> & _ & s4 & F4 & dv4 & Hu & Hf4 & _ & Hk4 & Hd4 & Hg4 & _)|(Hr' & F3 & dv3 & Hf3 & _ & Hk3 & Hd3 & Hs3)].
  - cbn [negb Z.eqb]. mrun Hu. eexists 0, g, s4, F4, _. split_and!; [done|exact Hf4|by eapply files_kept_trans|]. right; left. split_and!; [done|done|].
    pose proof (fy_vol _ _ _ _ Hf4) as [_ HC4]. destruct (ca_vnode _ _ HC4 _ _ Hg4) as [HFi _].
    eexists ino, k, _. split_and!; [done|by rewrite Hd4|done|exact HFi|done|done|exact Hg4].
  - replace (negb (r =? 0)) with true by (by destruct Hr' as [[-> _]|[[-> _]|[->|[->|[-> _]]]]]).
    assert (Hg3 : svs s3 !! g = Some v).
    { rewrite Hs3, lookup_insert_ne; [done|]. intros ->. destruct Hr2 as [Hd _]. rewrite Hd in Hg. injection Hg as ->. destruct Hr1. done. }
    destruct (decref_fsys R s3 F3 m g v Hf3 Hg3) as (s4 & F4 & He4 & Hf4 & Hrel). mrun He4. exists r, 0, s4, F4, m.
    destruct Hrel as [Hx _ _|_ Hx _ _|_ _ _ Hb4|w _ [_ Hx] _ _ _ _ _ _ _]; cbn in Hx || idtac; [lia|done| |done].
    change (sv_ino v) with ino in *. split_and!; [done|done| |right; right].
    + apply (files_kept_drop _ s F s3 F3 s4 ino); [by eapply files_kept_trans|done|done].
    + assert (Hfull : dir_full F2 -> dir_full F) by (intros (j & Hj & Hz); exists j; unfold F2 in Hj; by rewrite lookup_insert_ne in Hj).
      split; [destruct Hr' as [[_ Hx]|[|[|[|[? ?%Hfull]]]]]; [done|auto 7..]|]. split; [done|]. rewrite dom_delete_L, Hd3, Hdom2. apply not_elem_of_dom in Hnone. set_solver.
Qed.

Lemma link_spec R s F m dsv dv name g v : fsys R s F m -> root_at s dsv dv -> svs s !! g = Some v -> Forall (fun c => c <> 0) name ->
  exists r s' F' m', sfs_link curas dsv name g s = Done r s' /\ fsys R s' F' m' /\ files_kept {[SFS_ROOTDIR_INO]} s F s' F' /\ dom F' = dom F /\
    (r = 0 /\ sfi_type (sv_i v) = SFS_TYPE_FILE /\ m !! name = None /\ (exists k v', m' = <[name := (sv_ino v, k)]> m /\
       svs s' !! g = Some v' /\ sv_ino v' = sv_ino v /\ sfi_linkcount (sv_i v') = sfi_linkcount (sv_i v) + 1) \/
     (r = EINVAL /\ sv_ino v = SFS_ROOTDIR_INO \/ r = EEXIST /\ m !! name <> None \/ r = ENAMETOOLONG /\ 59 < Z.of_nat (length name) \/
      r = EIO \/ r = ENOSPC \/ r = EFBIG /\ dir_full F) /\ m' = m).
Proof.
  intros Hf Hr Hg Hname. pose proof (changed_self R g s v F (fy_vol _ _ _ _ Hf) Hg) as Hself. unfold sfs_link. mrun (get_sv_spec s g v Hg).
  destruct (decide (sv_ino v = SFS_ROOTDIR_INO)) as [Hroot|Hne].
  { destruct (fy_root _ _ _ _ Hf) as (i & Hi & [Hty _] & _). rewrite Hroot, Hi in Hself. injection Hself as ->. rewrite Hty. cbn [Z.eqb].
    exists EINVAL, s, F, m. split_and!; [done|done|by apply files_kept_same, bytes_kept_block|done|right; auto]. }
  destruct (fy_file _ _ _ _ Hf _ _ Hself Hne) as [Hty _]. rewrite Hty. change (SFS_TYPE_FILE =? SFS_TYPE_DIR) with false. cbv iota.
  destruct (link_step R s F m dsv dv g v name Hf Hr Hg Hne Hname) as (r & k & s1 & He & Hres). mrun He.
  destruct Hres as [(-> & Hnone & s2 & F' & dv' & Hu & Hf2 & _ & Hk & Hd & Hg2 & _)|(Hr' & F' & dv' & Hf1 & _ & Hk & Hd & _)].
  - cbn [negb Z.eqb]. mrun Hu. eexists 0, s2, F', _. split_and!; [done|exact Hf2|done|done|left]. split_and!; [done|done|done|]. by eexists k, _.
  - replace (negb (r =? 0)) with true by (by destruct Hr' as [[-> _]|[[-> _]|[->|[->|[-> _]]]]]).
    exists r, s1, F', m. split_and!; [done|done|done|done|right]. split; [right; tauto|done].
Qed.

Lemma lookup_spec R s F m dsv dv name : fsys R s F m -> root_at s dsv dv ->
  exists r sv s', sfs_lookup curas dsv name s = Done (r, sv) s' /\ fsys R s' F m /\ files_kept ∅ s F s' F /\
    (r = 0 /\ (exists ino k v, m !! name = Some (ino, k) /\ svs s' !! sv = Some v /\ sv_ino v = ino /\ F !! ino = Some (sv_i v) /\
       vn_refcount v = 1 + match svs s !! sv with Some w => vn_refcount w | None => 0 end) \/
     (r = ENOENT /\ m !! name = None \/ r = EIO \/ r = ENOMEM) /\ svs s' = svs s).
Proof.
  intros Hf Hr. destruct (fsys_dir _ _ _ _ _ _ Hf Hr) as (_ & _ & (_ & Hsv & _ & [Hty _] & _)). unfold sfs_lookup. mrun (get_sv_spec s dsv dv Hsv).
  rewrite Hty. change (negb (SFS_TYPE_DIR =? SFS_TYPE_DIR)) with false. cbv iota.
  destruct (lookonce_spec R s F m dsv dv name Hf Hr) as (r & sv & k & s1 & He & Hf1 & Hb & _ & Hres). mrun He.
  assert (Hk : files_kept ∅ s F s1 F) by (by apply files_kept_same, bytes_kept_block).
  destruct Hres as [(-> & ino & i & E & Hi & Ho)|[Hr' Hs1]].
  - destruct (opened_at _ _ _ _ _ Ho) as (v & Hv & Hvi & Hv2 & Hrc). exists 0, sv, s1. split_and!; [done|done|done|left]. split; [done|].
    exists ino, k, v. split_and!; try done. by rewrite Hv2.
  - replace (negb (r =? 0)) with true by (by destruct Hr' as [[-> _]|[-> | ->]]). exists r, 0, s1. split_and!; [done|done|done|by right].
Qed.

(** There is a vnode of the file. *)
Definition is_open (s : sfs_fs) (ino : Z) : Prop := exists a v, svs s !! a = Some v /\ sv_ino v = ino.

Lemma opened_new ino i g s s' v F : cache s F -> cache s' F -> opened ino i g s s' -> svs s' !! g = Some v -> sv_ino v = ino -> (vn_refcount v = 1 <-> ~ is_open s ino).
Proof.
  intros HC HC' Ho Hv Hvi. destruct (opened_at _ _ _ _ _ Ho) as (v0 & Hv0 & _ & _ & Hrc). rewrite Hv in Hv0. injection Hv0 as <-. destruct Ho as [Hs Hw].
  destruct (svs s !! g) as [w|] eqn:Eg.
  - destruct (ca_vnode _ _ HC _ _ Eg) as (_ & ? & _). split; [lia|]. intros Hn. destruct Hn. exists g, w. split; [done|]. by destruct (Hw w eq_refl).
  - split; [|lia]. intros _ (a & w & Ha & Hwi). assert (a = g); [|congruence]. apply (ca_unique _ _ HC' a g w v); [|done|congruence].
    rewrite Hs, lookup_insert_ne; [done|congruence].
Qed.

Lemma remove_spec R s F m dsv dv name : fsys R s F m -> root_at s dsv dv ->
  exists r s' F' m', sfs_remove curas dsv name s = Done r s' /\ fsys R s' F' m' /\
    (r = 0 /\ (exists ino k i, m !! name = Some (ino, k) /\ F !! ino = Some i /\ m' = delete name m /\
       ((links m ino <> 1 \/ is_open s ino) /\ files_kept {[SFS_ROOTDIR_INO]} s F s' F' /\ dom F' = dom F \/
        links m ino = 1 /\ ~ is_open s ino /\ files_kept {[SFS_ROOTDIR_INO; ino]} s F s' F' /\
          (dom F' = dom F ∖ {[ino]} \/ disk_failed s s' /\ dom F' = dom F /\ is_open s' ino))) \/
     (r = ENOENT /\ m !! name = None \/ r = EIO \/ r = ENOMEM) /\ m' = m /\ files_kept {[SFS_ROOTDIR_INO]} s F s' F' /\ dom F' = dom F).
Proof.
  intros Hf Hr. unfold sfs_remove. destruct (lookonce_spec R s F m dsv dv name Hf Hr) as (r & g & k & s1 & He & Hf1 & Hb & Hr1 & Hres). mrun He.
  assert (Hk1 : files_kept {[SFS_ROOTDIR_INO]} s F s1 F) by (by apply files_kept_same, bytes_kept_block).
  destruct Hres as [(-> & ino & i & E & Hi & Ho)|[Hr' Hs1]].
  2:{ replace (negb (r =? 0)) with true by (by destruct Hr' as [[-> _]|[-> | ->]]). exists r, s1, F, m. split_and!; [done|done|right]. split_and!; done. }
  cbn [negb Z.eqb]. destruct (opened_at _ _ _ _ _ Ho) as (v & Hv & Hvi & Hv2 & Hrc). rewrite <- Hvi in *.
  destruct (fy_name _ _ _ _ Hf _ _ _ E) as [Hne _]. destruct (fy_file _ _ _ _ Hf _ _ Hi Hne) as [_ Hlk].
  destruct (unlink_step R s1 F m dsv dv g v name k Hf1 Hr1 Hv E) as (r & s2 & He2 & Hres). mrun He2.
  destruct Hres as [(-> & Hpos & Hg2 & s3 & F3 & dv3 & Hu & Hf3 & _ & Hk3 & Hd3 & Hg3 & Ho3)|(Hr' & F2 & dv2 & Hf2 & _ & Hk2 & Hd2 & Hs2)].
  - assert (Hstep : (if 0 =? 0 then v0 ← get_sv g; kassert "victim->sv_i.sfi_linkcount > 0" (0 <? sfi_linkcount (sv_i v0));; update_sv g (add_link (-1)) else mret tt) s2 = Done tt s3).
    { change (0 =? 0) with true. cbv iota. mrun (get_sv_spec s2 g v Hg2). mrun (kassert_true "victim->sv_i.sfi_linkcount > 0" (0 <? sfi_linkcount (sv_i v)) s2 ltac:(lia)). exact Hu. }
    mrun Hstep. set (v3 := relinked (sfi_linkcount (sv_i v) - 1) v) in *. destruct (decref_fsys R s3 F3 _ g v3 Hf3 Hg3) as (s4 & F4 & He4 & Hf4 & Hrel). mrun He4.
    exists 0, s4, F4, (delete name m). split_and!; [done|done|left]. split; [done|]. exists (sv_ino v), k, (sv_i v). rewrite Hv2.
    split_and!; [done|done|done|]. pose proof (files_kept_trans _ _ _ _ _ _ _ Hk1 Hk3) as Hk. rewrite <- Hlk, <- Hv2.
    pose proof (opened_new _ _ _ _ _ _ _ (proj2 (fy_vol _ _ _ _ Hf)) (proj2 (fy_vol _ _ _ _ Hf1)) Ho Hv eq_refl) as Hnew.
    destruct Hrel as [Hrc' _ Hb4|Hrc' Hl3 _ Hb4|Hrc' Hl3 _ Hb4|w Hrc' [Hind _] Hl3 Hs4 Hw _ _ _ Hb4]; cbn in Hrc'; cbn in Hl3 || idtac.
    + left. split_and!; [right|eapply files_kept_trans; [exact Hk|]; eapply files_kept_weaken; [|by apply files_kept_same]; set_solver|done].
      destruct (decide (vn_refcount v = 1)) as [|Hn]; [lia|]. destruct Ho as [_ Hw]. destruct (svs s !! g) as [w|] eqn:Eg; [|lia]. exists g, w. by destruct (Hw w eq_refl).
    + left. split_and!; [left; lia|eapply files_kept_trans; [exact Hk|]; eapply files_kept_weaken; [|by apply files_kept_same]; set_solver|done].
    + right. split_and!; [lia|by apply Hnew| |left; by rewrite dom_delete_L, Hd3].
      apply (files_kept_unless _ _ s F s3 F3 s4); [exact Hk|done|]. intros x Hx. by rewrite lookup_delete_ne.
    + right. split_and!; [lia|by apply Hnew| |right].
      * apply (files_kept_unless _ _ s F s3 F3 s4); [exact Hk|done|]. intros x Hx. by rewrite lookup_insert_ne.
      * split_and!; [|clear Hk1 Hk3|exists g, w; split; [rewrite Hs4; apply lookup_insert_eq|done]].
        { apply (disk_failed_before s s3 s4); [|done]. pose proof (fs_covered _ (st_fs _ _ _ (proj1 (fy_vol _ _ _ _ Hf)))) as Hc.
          destruct (runs_lookonce curas dsv name s Hc _ _ He) as [L1 _]. destruct (runs_dir_unlink curas _ _ s1 (la_covered _ _ _ L1) _ _ He2) as [L2 _].
          destruct (runs_update_sv _ _ s2 (la_covered _ _ _ L2) _ _ Hu) as [L3 _]. pose proof (la_ops _ _ _ L1). pose proof (la_ops _ _ _ L2). pose proof (la_ops _ _ _ L3). lia. }
        rewrite dom_insert_L, Hd3. apply elem_of_dom_2 in Hi. cbn. set_solver.
  - assert (Hstep : (if r =? 0 then v0 ← get_sv g; kassert "victim->sv_i.sfi_linkcount > 0" (0 <? sfi_linkcount (sv_i v0));; update_sv g (add_link (-1)) else mret tt) s2 = Done tt s2)
      by (by rewrite Hr').
    mrun Hstep. assert (Hg2 : svs s2 !! g = Some v).
    { rewrite Hs2, lookup_insert_ne; [done|]. intros ->. destruct Hr1. congruence. }
    destruct (decref_named R s2 F2 m g v name k Hf2 Hg2 E) as (s3 & He3 & Hf3 & Hk3 & _). mrun He3. exists r, s3, F2, m. split_and!; [done|done|right].
    split_and!; [auto|done| |done]. eapply files_kept_trans; [exact Hk1|]. eapply files_kept_trans; [exact Hk2|apply Hk3].
Qed.

(** Two of the disk operations that follow [s] fail. *)
Definition disk_fails_twice (s : sfs_fs) : Prop := exists n1 n2 n3, (ops s <= n1)%nat /\ failed n1 n2 /\ failed n2 n3.

Lemma rename_spec R s F m dsv dv n1 n2 : fsys R s F m -> root_at s dsv dv -> Forall (fun c => c <> 0) n2 ->
  sfs_rename curas dsv n1 dsv n2 s = Halt (Panic "sfs: rename: Cannot recover") /\ disk_fails_twice s \/
  exists r s' F' m', sfs_rename curas dsv n1 dsv n2 s = Done r s' /\ fsys R s' F' m' /\ files_kept {[SFS_ROOTDIR_INO]} s F s' F' /\ dom F' = dom F /\
    (r = 0 /\ (exists ino k1 k2, m !! n1 = Some (ino, k1) /\ m !! n2 = None /\ m' = delete n1 (<[n2 := (ino, k2)]> m)) \/
     (r = ENOENT /\ m !! n1 = None \/ r = EEXIST /\ m !! n2 <> None \/ r = ENAMETOOLONG /\ 59 < Z.of_nat (length n2) \/
      r = EIO \/ r = ENOMEM \/ r = ENOSPC /\ (free_blocks s < 2)%nat \/ r = EFBIG /\ dir_full F) /\ m' = m).
Proof.
  intros Hf Hr Hname. unfold sfs_rename. mrun (kassert_true "d1==d2" (dsv =? dsv) s ltac:(apply Z.eqb_refl)). pose proof Hr as [Hsv Hdi].
  mrun (get_sv_spec s dsv dv Hsv). mrun (kassert_true "sv->sv_ino == SFS_ROOTDIR_INO" (sv_ino dv =? SFS_ROOTDIR_INO) s ltac:(lia)).
  destruct (lookonce_spec R s F m dsv dv n1 Hf Hr) as (r & g & k1 & s1 & He & Hf1 & Hb & Hr1 & Hres). mrun He.
  assert (Hk1 : files_kept {[SFS_ROOTDIR_INO]} s F s1 F) by (by apply files_kept_same, bytes_kept_block).
  destruct Hres as [(-> & ino & i & E & Hi & Ho)|[Hr' Hs1]].
  2:{ right. replace (negb (r =? 0)) with true by (by destruct Hr' as [[-> _]|[-> | ->]]). exists r, s1, F, m. split_and!; try done. right. split; [tauto|done]. }
  cbn [negb Z.eqb]. destruct (opened_at _ _ _ _ _ Ho) as (v & Hv & Hvi & Hv2 & _). rewrite <- Hvi in *.
  destruct (fy_name _ _ _ _ Hf _ _ _ E) as [Hne _]. destruct (fy_file _ _ _ _ Hf _ _ Hi Hne) as [Hty _]. mrun (get_sv_spec s1 g v Hv).
  mrun (kassert_true "g1->sv_i.sfi_type == SFS_TYPE_FILE" (sfi_type (sv_i v) =? SFS_TYPE_FILE) s1 ltac:(rewrite Hv2, Hty; done)).
  assert (Hgd : g <> dsv) by (intros ->; destruct Hr1; congruence).
  destruct (link_step R s1 F m dsv dv g v n2 Hf1 Hr1 Hv Hne Hname) as (r & k2 & s2 & He2 & Hres). mrun He2.
  destruct Hres as [(-> & Hnone & s3 & F3 & dv3 & Hu & Hf3 & Hr3 & Hk3 & Hd3 & Hg3 & _)|(Hr' & F2 & dv2 & Hf2 & _ & Hk2 & Hd2 & Hs2)].
  2:{ right. replace (negb (r =? 0)) with true by (by destruct Hr' as [[-> _]|[[-> _]|[->|[->|[-> _]]]]]).
      assert (Hg2 : svs s2 !! g = Some v) by (by rewrite Hs2, lookup_insert_ne).
      assert (Hsp : r = ENOSPC -> (free_blocks s < 2)%nat).
      { destruct (runs_lookonce curas dsv n1 s (fs_covered _ (st_fs _ _ _ (proj1 (fy_vol _ _ _ _ Hf)))) _ _ He) as [L1 _].
        destruct (runs_dir_link curas _ _ _ s1 (la_covered _ _ _ L1) _ _ He2) as [_ (_ & _ & X)]. pose proof (la_free _ _ _ L1). intros Hx. specialize (X Hx). lia. }
      destruct (decref_named R s2 F2 m g v n1 k1 Hf2 Hg2 E) as (s3 & He3 & Hf3 & Hk3 & _). mrun He3. exists r, s3, F2, m. split_and!; [done|done| |done|right; split; [tauto|done]].
      eapply files_kept_trans; [exact Hk1|]. eapply files_kept_trans; [exact Hk2|apply Hk3]. }
  cbn [negb Z.eqb]. mrun Hu. set (v3 := relinked (sfi_linkcount (sv_i v) + 1) v) in *. set (m3 := <[n2 := (sv_ino v, k2)]> m) in *.
  assert (Hn12 : n1 <> n2) by congruence. assert (E3 : m3 !! n1 = Some (sv_ino v3, k1)) by (unfold m3; by rewrite lookup_insert_ne).
  assert (Hk13 : files_kept {[SFS_ROOTDIR_INO]} s F s3 F3) by (by eapply files_kept_trans).
  destruct (unlink_step R s3 F3 m3 dsv dv3 g v3 n1 k1 Hf3 Hr3 Hg3 E3) as (r & s4 & He4 & Hres). mrun He4.
  destruct Hres as [(-> & Hpos & Hg4 & s5 & F5 & dv5 & Hu5 & Hf5 & _ & Hk5 & Hd5 & Hg5 & _)|(Hr' & F4 & dv4 & Hf4 & Hr4 & Hk4 & Hd4 & Hs4)].
  - right. cbn [negb Z.eqb]. mrun (get_sv_spec s4 g v3 Hg4). mrun (kassert_true "g1->sv_i.sfi_linkcount>0" (0 <? sfi_linkcount (sv_i v3)) s4 ltac:(lia)). mrun Hu5.
    assert (E5 : delete n1 m3 !! n2 = Some (sv_ino v3, k2)) by (rewrite lookup_delete_ne by done; apply lookup_insert_eq).
    destruct (decref_named R s5 F5 _ g _ n2 k2 Hf5 Hg5 E5) as (s6 & He6 & Hf6 & Hk6 & _). mrun He6. exists 0, s6, F5, (delete n1 m3).
    split_and!; [done|done| |congruence|left]. { eapply files_kept_trans; [exact Hk13|]. eapply files_kept_trans; [exact Hk5|apply Hk6]. }
    split; [done|]. by exists (sv_ino v), k1, k2.
  - replace (negb (r =? 0)) with true by (by rewrite Hr').
    assert (Hg4 : svs s4 !! g = Some v3) by (by rewrite Hs4, lookup_insert_ne).
    assert (E4 : m3 !! n2 = Some (sv_ino v3, k2)) by apply lookup_insert_eq.
    destruct (unlink_step R s4 F4 m3 dsv dv4 g v3 n2 k2 Hf4 Hr4 Hg4 E4) as (r2 & s5 & He5 & Hres). mrun He5.
    destruct Hres as [(-> & Hpos & Hg5 & s6 & F6 & dv6 & Hu6 & Hf6 & _ & Hk6 & Hd6 & Hg6 & _)|(Hr2 & _)].
    2:{ left. rewrite Hr2 in *. split; [done|]. rewrite Hr' in *. pose proof (fs_covered _ (st_fs _ _ _ (proj1 (fy_vol _ _ _ _ Hf)))) as Hc.
        destruct (runs_lookonce curas dsv n1 s Hc _ _ He) as [L1 _]. destruct (runs_dir_link curas _ _ _ s1 (la_covered _ _ _ L1) _ _ He2) as [L2 _].
        destruct (runs_update_sv _ _ s2 (la_covered _ _ _ L2) _ _ Hu) as [L3 _]. destruct (runs_dir_unlink curas _ _ s3 (la_covered _ _ _ L3) _ _ He4) as [L4 (X4 & _)].
        destruct (runs_dir_unlink curas _ _ s4 (la_covered _ _ _ L4) _ _ He5) as [_ (X5 & _)]. exists (ops s3), (ops s4), (ops s5).
        split_and!; [|by apply X4|by apply X5]. pose proof (la_ops _ _ _ L1). pose proof (la_ops _ _ _ L2). pose proof (la_ops _ _ _ L3). lia. }
    right. cbn [negb Z.eqb]. rewrite (update_sv_spec s5 g v3 _ Hg5) in Hu6. injection Hu6 as Hs6.
    mrun (update_sv_spec s5 g v3 (fun v => mkSv (set_linkcount (u16 (sfi_linkcount (sv_i v) - 1)) (sv_i v)) (sv_ino v) (sv_dirty v) (vn_refcount v)) Hg5).
    change (mkSv (set_linkcount (u16 (sfi_linkcount (sv_i v3) - 1)) (sv_i v3)) (sv_ino v3) (sv_dirty v3) (vn_refcount v3)) with (add_link (-1) v3). rewrite Hs6.
    assert (Hm : delete n2 m3 = m) by (unfold m3; by rewrite delete_insert_id). rewrite Hm in Hf6.
    destruct (decref_named R s6 F6 m g _ n1 k1 Hf6 Hg6 E) as (s7 & He7 & Hf7 & Hk7 & _). mrun He7. exists r, s7, F6, m.
    split_and!; [done|done| |congruence|right; split; [auto 7|done]].
    eapply files_kept_trans; [exact Hk13|]. eapply files_kept_trans; [exact Hk4|]. eapply files_kept_trans; [exact Hk6|apply Hk7].
Qed.

(** *** Writing and cutting a file *)

Lemma fsys_changed R s F m g v s' v' : fsys R s F m -> svs s !! g = Some v -> sv_ino v <> SFS_ROOTDIR_INO -> changed g s v s' v' ->
  sfi_type (sv_i v') = sfi_type (sv_i v) -> sfi_linkcount (sv_i v') = sfi_linkcount (sv_i v) ->
  fsys R s' (<[sv_ino v := sv_i v']> F) m /\ files_kept {[sv_ino v]} s F s' (<[sv_ino v := sv_i v']> F).
Proof.
  intros Hf Hg Hne HC Hty Hl. pose proof (fy_vol _ _ _ _ Hf) as HV. pose proof (changed_self R g s v F HV Hg) as Hself.
  pose proof (changed_bytes R g s v s' v' F HV Hg HC) as Hb. split; [|apply files_kept_insert; [left; set_solver|done]].
  destruct (fy_root _ _ _ _ Hf) as (i & Hi & Hdir & Hl1 & Hm). pose proof HV as [HS _]. split; [by eapply changed_vol| | | |].
  - exists i. rewrite lookup_insert_ne by done. split_and!; [done|done|done|]. apply (dir_models_bytes s); [by apply (st_inode _ _ _ HS _ _ Hi)|done| |done].
    intros k. apply (Hb _ _ k Hi). set_solver.
  - intros x j [[-> ->]|[Hx Hj]]%insert_case Hx1; [|by apply (fy_file _ _ _ _ Hf)]. rewrite Hty, Hl. by apply (fy_file _ _ _ _ Hf).
  - intros name x k E. destruct (fy_name _ _ _ _ Hf _ _ _ E) as [? ?]. split; [done|]. destruct (decide (x = sv_ino v)) as [->|]; [rewrite lookup_insert_eq; eauto|by rewrite lookup_insert_ne].
  - assert (Hvn : forall a w, svs s !! a = Some w -> exists w', svs s' !! a = Some w' /\ sv_ino w' = sv_ino w).
    { intros a w Ha. rewrite (ch_svs _ _ _ _ _ HC). destruct (decide (a = g)) as [->|]; [|exists w; by rewrite lookup_insert_ne].
      exists v'. rewrite lookup_insert_eq. rewrite Hg in Ha. injection Ha as <-. split; [done|apply HC]. }
    intros x j Hj Hl0. assert (Hold : exists j0, F !! x = Some j0 /\ sfi_linkcount j0 = 0).
    { apply insert_case in Hj as [[-> ->]|[Hx Hj]]; [exists (sv_i v); split; congruence|by exists j]. }
    destruct Hold as (j0 & Hj0 & Hl0'). destruct (fy_open _ _ _ _ Hf _ _ Hj0 Hl0') as (a & w & Ha & Hw). destruct (Hvn a w Ha) as (w' & Ha' & Hw'). exists a, w'. split; congruence.
Qed.

Lemma write_truncate_spec R s F m g v : fsys R s F m -> svs s !! g = Some v -> sv_ino v <> SFS_ROOTDIR_INO ->
  (forall u, uio_ok curas u -> offset_ok u -> uio_rw u = UIO_WRITE ->
     exists r n s' v' u', sfs_write curas g u s = Done (r, u') s' /\ (r = 0 -> Z.of_nat n = uio_resid u) /\
       fsys R s' (<[sv_ino v := sv_i v']> F) m /\ files_kept {[sv_ino v]} s F s' (<[sv_ino v := sv_i v']> F) /\ svs s' !! g = Some v' /\
       written g (uio_offset u) (wdata u n) s v s' v') /\
  (forall len, 0 <= len <= FILE_MAX ->
     exists r s' v', sfs_truncate curas g len s = Done r s' /\ (r = 0 \/ r = EIO) /\
       fsys R s' (<[sv_ino v := sv_i v']> F) m /\ files_kept {[sv_ino v]} s F s' (<[sv_ino v := sv_i v']> F) /\ svs s' !! g = Some v' /\
       (r = 0 -> sfi_size (sv_i v') = len /\ forall k, 0 <= k < len -> fbyte s' (sv_i v') k = fbyte s (sv_i v) k)).
Proof.
  intros Hf Hg Hne. pose proof (fy_vol _ _ _ _ Hf) as HV. pose proof (changed_self R g s v F HV Hg) as Hself. pose proof HV as [HS _].
  destruct (st_inode _ _ _ HS _ _ Hself) as [Hok Hh]. split.
  - intros u Hu Ho Hrw. destruct (sfs_io_write curas g s v u (st_fs _ _ _ HS) Hg Hok Hu Ho Hrw) as (r & n & s' & v' & u' & He & Hw & _ & Hr).
    destruct (wr_kind _ _ _ _ _ _ _ Hw) as (K1 & K2 & _). destruct (fsys_changed R s F m g v s' v' Hf Hg Hne (written_changed _ _ _ _ _ _ _ Hh Hw) K1 K2) as [Hf' Hk].
    exists r, n, s', v', u'. split_and!; [|intros ->; destruct Hr as [[_ ?]|[[?|[?|[? _]]] _]]; done|done|done|rewrite (wr_svs _ _ _ _ _ _ _ Hw); apply lookup_insert_eq|done].
    unfold sfs_write. mrun (kassert_true "uio->uio_rw==UIO_WRITE" (bool_decide (uio_rw u = UIO_WRITE)) s ltac:(by apply bool_decide_eq_true)). exact He.
  - intros len Hlen. destruct (itrunc_spec curas g len s v (st_fs _ _ _ HS) Hg Hok Hlen) as (r & s' & v' & He & Hs' & Hi' & Hsh & Hr).
    assert (Hino : sv_ino v' = sv_ino v /\ kept v v') by (destruct Hr as [[_ Htr]|(_ & _ & _ & Hr)]; [apply Htr|done]).
    destruct (sh_kind _ _ _ _ Hsh) as (K1 & K2 & _).
    destruct (fsys_changed R s F m g v s' v' Hf Hg Hne (shrunk_changed g s v s' v' Hh Hok Hsh Hs' Hino Hi') K1 K2) as [Hf' Hk].
    exists r, s', v'. split_and!; [done|destruct Hr as [[? _]|[? _]]; auto|done|done|rewrite Hs'; apply lookup_insert_eq|].
    intros ->. destruct Hr as [[_ Htr]|[? _]]; [|done]. split; [apply Htr|]. intros k Hk'. rewrite (truncated_bytes g len s v s' v' k) by (done || lia). by rewrite cut_kept.
Qed.

(** A file survives being closed: when the last reference to its vnode is given up
    and the name is looked up again, the vnode that comes back has the same inode, field
    for field, and the file has the same bytes. *)
Theorem sfs_reopen_roundtrip R s F m dsv dv g v name k s1 g' s2 : fsys R s F m -> root_at s dsv dv -> svs s !! g = Some v ->
  m !! name = Some (sv_ino v, k) -> vnode_decref curas g s = Done tt s1 -> sfs_lookup curas dsv name s1 = Done (0, g') s2 ->
  exists v', svs s2 !! g' = Some v' /\ sv_ino v' = sv_ino v /\ sv_i v' = sv_i v /\ forall x, 0 <= x < FILE_MAX -> fbyte s2 (sv_i v') x = fbyte s (sv_i v) x.
Proof.
  intros Hf [Hd Hdi] Hg E He1 He2. destruct (decref_named R s F m g v name k Hf Hg E) as (s1' & He1' & Hf1 & Hk1 & Ho1). rewrite He1 in He1'. injection He1' as <-.
  destruct (fy_name _ _ _ _ Hf _ _ _ E) as [Hne _]. pose proof (changed_self R g s v F (fy_vol _ _ _ _ Hf) Hg) as Hself.
  assert (Hr1 : root_at s1 dsv dv) by (split; [rewrite Ho1; [done|]; intros ->; congruence|done]).
  destruct (fsys_dir _ _ _ _ _ _ Hf1 Hr1) as (_ & _ & (_ & Hsv & _ & [Hty _] & _)).
  destruct (lookonce_spec R s1 F m dsv dv name Hf1 Hr1) as (r & sv & k' & s2' & He3 & _ & Hb & _ & Hres).
  unfold sfs_lookup in He2. rewrite (bind_ret _ _ _ _ _ (get_sv_spec s1 dsv dv Hsv)) in He2. rewrite Hty in He2.
  change (negb (SFS_TYPE_DIR =? SFS_TYPE_DIR)) with false in He2. cbv beta iota in He2. rewrite (bind_ret _ _ _ _ _ He3) in He2. cbv beta iota in He2.
  destruct Hres as [(-> & ino & i & E' & Hi & Hop)|[Hr _]]; [|by destruct Hr as [[-> _]|[-> | ->]]].
  cbn [negb Z.eqb] in He2. injection He2 as <- <-. rewrite E in E'. injection E' as <- <-. rewrite Hself in Hi. injection Hi as <-.
  destruct (opened_at _ _ _ _ _ Hop) as (v' & Hv & Hvi & Hv2 & _). exists v'. split_and!; [done|done|done|]. intros x Hx. rewrite Hv2.
  destruct (Hk1 ∅ _ _ Hself ltac:(set_solver)) as (i' & Hi' & _ & Hb1). rewrite Hself in Hi'. injection Hi' as <-. rewrite <- Hb1 by done.
  apply fbyte_blocks; [|done]. intros n Hn _. apply Hb.
Qed.

End Tree.
End SfsTree.
