(* ===== verification/SfsTreeTheorems.v ===== *)
(** * What the operations on names do

    The operations of sfs_vnops.c on a mounted volume: what becomes of the names and the
    files, and the references they hand out.  The directory is the root directory, the only
    one there is. *)
From S2P Require Import Prelude Bitmap Copyinout Uio Lhd Sfs SfsErrors SfsFormat SfsProofs SfsIo.
From S2P Require Import SfsTrunc SfsDir SfsVnops SfsVolume SfsObjects SfsRefs SfsTree.
Import Bitmap Copyinout Uio Lhd Sfs SfsErrors SfsFormat SfsProofs SfsIo SfsTrunc SfsDir SfsVnops SfsVolume SfsObjects SfsRefs SfsTree.

Module SfsTreeTheorems.

Lemma fsys_counted `{LhdHardware} R s F m : fsys R s F m -> counted s.
Proof.
  intros Hf a p. unfold shape. rewrite lookup_fmap_Some. intros (v & <- & Hv). destruct (fy_vol _ _ _ _ Hf) as [_ HC]. by destruct (ca_vnode _ _ HC _ _ Hv) as (_ & ? & _).
Qed.

Lemma shape_insert s s' g v v' : svs s !! g = Some v -> svs s' = <[g := v']> (svs s) -> vnode_key v' = vnode_key v -> shape s' = shape s.
Proof. intros Hg Hs Hk. unfold shape. rewrite Hs, fmap_insert, Hk, <- fmap_insert. by rewrite insert_id. Qed.

Section Tree.
Context {HW : LhdHardware} (curas : Z) {HL : LhdLaws} {SM : SfsMemory} {SML : SfsMemoryLaws}.

(** The operation could not go on: the disk failed, memory was refused, fewer than [k]
    blocks were free, or the directory is as large as a file can be. *)
Definition shortage (k : nat) (s : sfs_fs) (F : gmap Z dinode) (s' : sfs_fs) (r : Z) : Prop :=
  r = EIO /\ disk_failed s s' \/ r = ENOMEM /\ refused s s' \/ r = ENOSPC /\ (free_blocks s < k)%nat \/ r = EFBIG /\ dir_full F.

Lemma shortage_of k s F s' r : excused k s s' r -> r = EIO \/ r = ENOMEM \/ r = ENOSPC \/ r = EFBIG /\ dir_full F -> shortage k s F s' r.
Proof. intros (E1 & E2 & E3). unfold shortage. tauto. Qed.

Lemma fsys_covered R s F m : fsys R s F m -> covered (sfs_freemap s).
Proof. intros Hf. apply fs_covered, (st_fs _ _ _ (proj1 (fy_vol _ _ _ _ Hf))). Qed.


(** [sfs_link] gives a file one name more, and one link: EINVAL for the directory,
    EEXIST, ENAMETOOLONG and a shortage change no name and no file; the link
    count does not overflow, because the directory has no room for that many names. No reference is
    taken. *)
Theorem sfs_link_correct R s F m dsv dv name g v : fsys R s F m -> root_at s dsv dv -> svs s !! g = Some v -> Forall (fun c => c <> 0) name ->
  exists r s' F' m', sfs_link curas dsv name g s = Done r s' /\ fsys R s' F' m' /\ files_kept {[SFS_ROOTDIR_INO]} s F s' F' /\ dom F' = dom F /\ shape s' = shape s /\
    (r = 0 /\ sfi_type (sv_i v) = SFS_TYPE_FILE /\ m !! name = None /\ (exists k v', m' = <[name := (sv_ino v, k)]> m /\
       svs s' !! g = Some v' /\ sv_ino v' = sv_ino v /\ sfi_linkcount (sv_i v') = sfi_linkcount (sv_i v) + 1) \/
     (r = EINVAL /\ sv_ino v = SFS_ROOTDIR_INO \/ r = EEXIST /\ m !! name <> None \/ r = ENAMETOOLONG /\ 59 < Z.of_nat (length name) \/
      shortage 2 s F s' r) /\ m' = m).
Proof.
  intros Hf Hr Hg Hn. destruct (link_spec curas R s F m dsv dv name g v Hf Hr Hg Hn) as (r & s' & F' & m' & He & Hf' & Hk & Hd & Hres).
  destruct (runs_link curas dsv name g s (fsys_covered _ _ _ _ Hf) _ _ He) as [_ X]. pose proof (shortage_of 2 s F s' r X) as Hsh.
  exists r, s', F', m'. split_and!; [done|done|done|done| |tauto]. exact (link_shape curas dsv name g s r s' He).
Qed.

(** [sfs_lookup] in the root directory: it hands out a vnode of the file of that name,
    and takes a reference to it, or returns ENOENT when there is no such name; the names,
    the files and their bytes stay. *)
Theorem sfs_lookup_correct R s F m dsv dv name : fsys R s F m -> root_at s dsv dv ->
  exists r sv s', sfs_lookup curas dsv name s = Done (r, sv) s' /\ fsys R s' F m /\ files_kept ∅ s F s' F /\ (r = 0 -> exists ino, taken sv ino s s') /\
    (r = 0 /\ (exists ino k v, m !! name = Some (ino, k) /\ svs s' !! sv = Some v /\ sv_ino v = ino /\ F !! ino = Some (sv_i v) /\
       vn_refcount v = 1 + match svs s !! sv with Some w => vn_refcount w | None => 0 end) \/
     (r = ENOENT /\ m !! name = None \/ r = EIO /\ disk_failed s s' \/ r = ENOMEM /\ refused s s') /\ svs s' = svs s).
Proof.
  intros Hf Hr. destruct (lookup_spec curas R s F m dsv dv name Hf Hr) as (r & sv & s' & He & Hf' & Hk & Hres).
  destruct (runs_lookup curas dsv name s (fsys_covered _ _ _ _ Hf) _ _ He) as [_ (X1 & X2 & _)]. cbn [fst] in X1, X2.
  exists r, sv, s'. split_and!; [done|done|done| |tauto]. intros ->. by apply lookup_shape in He as [[_ ?]|[? _]].
Qed.



(** [sfs_write] and [sfs_truncate] on a file of the volume: whatever the request and
    whatever the disk does, the volume stays consistent, the names stay, and no other file
    changes; the file holds what was written to it, or what was not cut off. *)
Theorem sfs_write_truncate_volume R s F m g v : fsys R s F m -> svs s !! g = Some v -> sv_ino v <> SFS_ROOTDIR_INO ->
  (forall u, uio_ok curas u -> offset_ok u -> uio_rw u = UIO_WRITE ->
     exists r n s' v' u', sfs_write curas g u s = Done (r, u') s' /\ (r = 0 -> Z.of_nat n = uio_resid u) /\
       fsys R s' (<[sv_ino v := sv_i v']> F) m /\ files_kept {[sv_ino v]} s F s' (<[sv_ino v := sv_i v']> F) /\ svs s' !! g = Some v' /\ shape s' = shape s /\
       written g (uio_offset u) (wdata u n) s v s' v') /\
  (forall len, 0 <= len <= FILE_MAX ->
     exists r s' v', sfs_truncate curas g len s = Done r s' /\ (r = 0 \/ r = EIO) /\
       fsys R s' (<[sv_ino v := sv_i v']> F) m /\ files_kept {[sv_ino v]} s F s' (<[sv_ino v := sv_i v']> F) /\ svs s' !! g = Some v' /\ shape s' = shape s /\
       (r = 0 -> sfi_size (sv_i v') = len /\ forall k, 0 <= k < len -> fbyte s' (sv_i v') k = fbyte s (sv_i v) k)).
Proof.
  intros Hf Hg Hne. destruct (write_truncate_spec curas R s F m g v Hf Hg Hne) as [Hw Ht]. split.
  - intros u Hu Ho Hrw. destruct (Hw u Hu Ho Hrw) as (r & n & s' & v' & u' & He & Hn & Hf' & Hk & Hg' & Hwr). exists r, n, s', v', u'. split_and!; try done.
    destruct (wr_ino _ _ _ _ _ _ _ Hwr) as [Hino [Hrc _]]. apply (shape_insert s s' g v v' Hg (wr_svs _ _ _ _ _ _ _ Hwr)). unfold vnode_key. congruence.
  - intros len Hlen. destruct (Ht len Hlen) as (r & s' & v' & He & Hr & Hf' & Hk & Hg' & Hres). exists r, s', v'. split_and!; try done.
    by apply (keeps_use _ _ _ _ (keeps_itrunc curas g len) He).
Qed.

End Tree.
End SfsTreeTheorems.
