(* ===== verification/SfsFsops.v ===== *)
(** * kern/fs/sfs/sfs_fsops.c: synchronising, unmounting and mounting a volume

    The allocations of [sfs_domount] are parameters: whether they succeed depends on the
    kernel heap.  *)
From S2P Require Import Prelude Bitmap Copyinout Uio Lhd Sfs SfsErrors SfsFormat SfsProofs SfsIo.
From S2P Require Import SfsTrunc SfsDir SfsVnops SfsVolume SfsObjects SfsTree.
Import Bitmap Copyinout Uio Lhd Sfs SfsErrors SfsFormat SfsProofs SfsIo SfsTrunc SfsDir SfsVnops SfsVolume SfsObjects SfsTree.

Module SfsFsops.

(** The bits of the free map, without [sfs_freemapdirty]. *)
Definition set_mapdata (l : list Z) (s : sfs_fs) : sfs_fs :=
  mkSfs (sb_nblocks s) (mkBitmap (nbits (sfs_freemap s)) l) (sfs_freemapdirty s) (sfs_vnodes s) (svs s) (sfs_device s) (sv_allocs s) (sfs_sb s) (sfs_superdirty s).
Definition set_mapclean (s : sfs_fs) : sfs_fs :=
  mkSfs (sb_nblocks s) (sfs_freemap s) false (sfs_vnodes s) (svs s) (sfs_device s) (sv_allocs s) (sfs_sb s) (sfs_superdirty s).
Definition set_superclean (s : sfs_fs) : sfs_fs :=
  mkSfs (sb_nblocks s) (sfs_freemap s) (sfs_freemapdirty s) (sfs_vnodes s) (svs s) (sfs_device s) (sv_allocs s) (sfs_sb s) false.
Definition set_super (n : Z) (sb : superblock) (s : sfs_fs) : sfs_fs :=
  mkSfs n (sfs_freemap s) (sfs_freemapdirty s) (sfs_vnodes s) (svs s) (sfs_device s) (sv_allocs s) sb (sfs_superdirty s).
Definition set_newmap (b : bitmap) (s : sfs_fs) : sfs_fs :=
  mkSfs (sb_nblocks s) b (sfs_freemapdirty s) (sfs_vnodes s) (svs s) (sfs_device s) (sv_allocs s) (sfs_sb s) (sfs_superdirty s).

(** struct sfs_superblock on the disk *)
Definition super_bytes (s : sfs_fs) : list Z :=
  put32 (sb_magic (sfs_sb s)) ++ put32 (sb_nblocks s) ++ sb_volname (sfs_sb s) ++ bytes_of (sb_reserved (sfs_sb s)).
Definition super_nblocks (buf : list Z) : Z := default 0 (words_of buf !! 1%nat).
Definition super_of (buf : list Z) : superblock :=
  mkSuper (default 0 (words_of buf !! 0%nat)) (take 32 (drop 8 buf)) (words_of (drop 40 buf)).

(** Whether the allocations of a mount succeed: the [sfs_fs], the vnode table, the two parts
    of the bitmap. *)
Record mount_memory : Type := mkMem { ok_fs : bool; ok_vnodes : bool; ok_map : bool; ok_mapdata : bool }.

Section Fsops.
Context {HW : LhdHardware} (curas : Z).

(** The loop of [sfs_freemapio] with [UIO_READ], [n] blocks from [j] on. *)
Fixpoint freemap_read (j : Z) (n : nat) : M sfs_fs Z :=
  match n with
  | O => mret 0
  | S n =>
      map ← gets sfs_freemap;
      let freemapdata := bitmap_getdata map in
      let ptr := Z.to_nat (j * SFS_BLOCKSIZE) in
      '(result, buf) ← sfs_readblock curas (SFS_FREEMAP_START + j) (take (Z.to_nat SFS_BLOCKSIZE) (drop ptr freemapdata));
      modify (set_mapdata (splice ptr buf freemapdata));;
      if negb (result =? 0) then mret result else freemap_read (j + 1) n
  end.

(** ... and with [UIO_WRITE]. *)
Fixpoint freemap_write (j : Z) (n : nat) : M sfs_fs Z :=
  match n with
  | O => mret 0
  | S n =>
      map ← gets sfs_freemap;
      let freemapdata := bitmap_getdata map in
      let ptr := Z.to_nat (j * SFS_BLOCKSIZE) in
      result ← sfs_writeblock curas (SFS_FREEMAP_START + j) (take (Z.to_nat SFS_BLOCKSIZE) (drop ptr freemapdata));
      if negb (result =? 0) then mret result else freemap_write (j + 1) n
  end.

Definition sfs_freemapio (rw : uio_rw_t) : M sfs_fs Z :=
  nblocks ← gets sb_nblocks;
  let freemapblocks := SFS_FREEMAPBLOCKS nblocks in
  match rw with
  | UIO_READ => freemap_read 0 (Z.to_nat freemapblocks)
  | UIO_WRITE => freemap_write 0 (Z.to_nat freemapblocks)
  end.

(** The results of [VOP_FSYNC] are dropped. *)
Fixpoint sync_vnodes_loop (l : list Z) : M sfs_fs unit :=
  match l with
  | [] => mret tt
  | v :: l => sfs_fsync curas v;; sync_vnodes_loop l
  end.

Definition sfs_sync_vnodes : M sfs_fs Z :=
  vnodes ← gets sfs_vnodes;
  sync_vnodes_loop vnodes;;
  mret 0.

Definition sfs_sync_freemap : M sfs_fs Z :=
  isdirty ← gets sfs_freemapdirty;
  if (isdirty : bool) then
    result ← sfs_freemapio UIO_WRITE;
    if negb (result =? 0) then mret result
    else modify set_mapclean;; mret 0
  else mret 0.

Definition sfs_sync_superblock : M sfs_fs Z :=
  isdirty ← gets sfs_superdirty;
  if (isdirty : bool) then
    sb ← gets super_bytes;
    result ← sfs_writeblock curas SFS_SUPER_BLOCK sb;
    if negb (result =? 0) then mret result
    else modify set_superclean;; mret 0
  else mret 0.

Definition sfs_sync : M sfs_fs Z :=
  result ← sfs_sync_vnodes;
  if negb (result =? 0) then mret result
  else
    result ← sfs_sync_freemap;
    if negb (result =? 0) then mret result
    else
      result ← sfs_sync_superblock;
      if negb (result =? 0) then mret result else mret 0.

(** When it returns 0 the [sfs_fs] is gone, and the device is the caller's again. *)
Definition sfs_unmount : M sfs_fs Z :=
  vnodes ← gets sfs_vnodes;
  if 0 <? Z.of_nat (length vnodes) then mret EBUSY
  else
    superdirty ← gets sfs_superdirty;
    kassert "sfs->sfs_superdirty == false" (negb superdirty);;
    freemapdirty ← gets sfs_freemapdirty;
    kassert "sfs->sfs_freemapdirty == false" (negb freemapdirty);;
    mret 0.

(** [sfs_fs_create], and the device the caller sets next; the superblock and the map are
    not there yet. *)
Definition sfs_fs_create (mm : mount_memory) (dev : lhd) : option sfs_fs :=
  if negb (ok_fs mm) then None
  else if negb (ok_vnodes mm) then None
  else Some (mkSfs 0 (mkBitmap 0 []) false [] ∅ dev 0 (mkSuper 0 [] []) false).

(** [sfs_domount] from the reading of the superblock on. *)
Definition mount_volume (mm : mount_memory) : M sfs_fs Z :=
  '(result, buf) ← sfs_readblock curas SFS_SUPER_BLOCK zero_block;
  let sb := super_of buf in
  modify (set_super (super_nblocks buf) sb);;
  if negb (result =? 0) then mret result
  else if negb (sb_magic sb =? SFS_MAGIC) then mret EINVAL
  else
    modify (set_super (super_nblocks buf) (mkSuper (sb_magic sb) (<[31%nat := 0]> (sb_volname sb)) (sb_reserved sb)));;
    nblocks ← gets sb_nblocks;
    map ← lift (bitmap_create (ok_map mm) (ok_mapdata mm) (SFS_FREEMAPBITS nblocks));
    match map with
    | None => mret ENOMEM
    | Some map =>
        modify (set_newmap map);;
        sfs_freemapio UIO_READ
    end.

(** [(result, *ret)]; the state is the device. *)
Definition sfs_domount (mm : mount_memory) : M lhd (Z * option sfs_fs) := fun dev =>
  if negb (LHD_SECTSIZE =? SFS_BLOCKSIZE) then Done (ENXIO, None) dev
  else match sfs_fs_create mm dev with
  | None => Done (ENOMEM, None) dev
  | Some sfs =>
      match mount_volume mm sfs with
      | Done result s => if negb (result =? 0) then Done (result, None) (sfs_device s) else Done (0, Some s) (sfs_device s)
      | Halt e => Halt e
      | Exited s => Exited (sfs_device s)
      | OutOfFuel => OutOfFuel
      end
  end.

End Fsops.

(** ** The size of the free map *)

Lemma freemap_size n : 0 < n < 2 ^ 23 -> SFS_FREEMAPBITS n = SFS_FREEMAPBLOCKS n * 4096 /\ 0 <= SFS_FREEMAPBLOCKS n /\ SFS_FREEMAPBLOCKS n < 2 ^ 12.
Proof.
  intros Hn. unfold SFS_FREEMAPBLOCKS, SFS_FREEMAPBITS, SFS_BITSPERBLOCK. rewrite (u32_small (n + 4096 - 1)) by (unfold is_u32; lia).
  set (q := (n + 4096 - 1) / 4096). assert (Hq : 0 <= q < 2 ^ 12) by (unfold q; split; [apply Z.div_pos; lia|apply Z.div_lt_upper_bound; lia]).
  rewrite u32_small by (unfold is_u32; lia). rewrite Z.div_mul by lia. lia.
Qed.

Lemma freemap_length `{LhdHardware} s : fs_ok s -> map_ok s -> Z.of_nat (length (v (sfs_freemap s))) = 512 * SFS_FREEMAPBLOCKS (sb_nblocks s).
Proof.
  intros Hs [Hn _]. pose proof (fo_nblocks _ Hs) as [Hb Hb2]. destruct (freemap_size (sb_nblocks s) ltac:(lia)) as (E & H0 & _).
  destruct (fo_map _ Hs) as [(_ & Hl & _) _]. rewrite Hl, Hn, E. replace (SFS_FREEMAPBLOCKS (sb_nblocks s) * 4096 + 7) with (SFS_FREEMAPBLOCKS (sb_nblocks s) * 512 * 8 + 7) by lia.
  rewrite Z.div_add_l by lia. change (7 / 8) with 0. lia.
Qed.

Section Proofs.
Context {HW : LhdHardware} (curas : Z) {HL : LhdLaws} {SM : SfsMemory} {SML : SfsMemoryLaws}.

(** ** Synchronising *)

Lemma freemap_write_spec n : forall j s, fs_ok s -> 0 <= j -> (forall q, j <= q < j + Z.of_nat n -> SFS_FREEMAP_START + q < sb_nblocks s) ->
  512 * (j + Z.of_nat n) <= Z.of_nat (length (v (sfs_freemap s))) ->
  exists d', freemap_write curas j n s = Done 0 (set_device d' s) /\ dev_ok d' /\ d_blocks d' = d_blocks (sfs_device s) /\
    forall x, sectors d' x = if (SFS_FREEMAP_START + j <=? x) && (x <? SFS_FREEMAP_START + j + Z.of_nat n) then map_block s (x - SFS_FREEMAP_START) else block s x.
Proof.
  induction n as [|n IH]; intros j s Hs Hj Hin Hlen; cbn [freemap_write].
  { exists (sfs_device s). rewrite set_device_id. split_and!; [done|apply Hs|done|]. intros x. by replace (_ && _) with false by zbool. }
  mpure. replace (j * SFS_BLOCKSIZE) with (512 * j) by (unfold SFS_BLOCKSIZE; lia). change (Z.to_nat SFS_BLOCKSIZE) with 512%nat. fold (map_block s j).
  destruct (writeblock_spec curas (SFS_FREEMAP_START + j) (map_block s j) s Hs) as (d1 & He & Hd1 & Hbl1 & Hw1).
  { unfold in_volume. specialize (Hin j). unfold SFS_FREEMAP_START in *. lia. }
  { unfold map_block, bitmap_getdata. rewrite length_take, length_drop. lia. }
  mrun He. cbn [negb Z.eqb]. destruct (IH (j + 1) (set_device d1 s)) as (d2 & He2 & Hd2 & Hbl2 & Hw2); [by apply fs_ok_device|lia| |cbn; lia|].
  { intros q Hq. apply Hin. lia. }
  exists d2. split_and!; [exact He2|done|by rewrite Hbl2|]. intros x. rewrite Hw2. change (map_block (set_device d1 s)) with (map_block s).
  change (block (set_device d1 s) x) with (sectors d1 x). rewrite Hw1. unfold SFS_FREEMAP_START.
  destruct (Z.eqb_spec x (2 + j)) as [->|Hne].
  - replace (_ && _) with false by zbool. replace (_ && _) with true by zbool. f_equal. lia.
  - destruct ((2 + (j + 1) <=? x) && (x <? 2 + (j + 1) + Z.of_nat n)) eqn:E; [replace (_ && _) with true by zbool|replace (_ && _) with false by zbool]; done.
Qed.

(** The vnodes of the list are clean, the others as they were. *)
Lemma sync_vnodes_spec R F l : forall s, vol R s F -> (forall a, a ∈ l -> is_Some (svs s !! a)) ->
  exists s', sync_vnodes_loop curas l s = Done tt s' /\ vol R s' F /\ bytes_kept ∅ s s' F /\ sfs_vnodes s' = sfs_vnodes s /\
    forall a, svs s' !! a = if decide (a ∈ l) then set_clean <$> svs s !! a else svs s !! a.
Proof.
  induction l as [|a l IH]; intros s HV Hl; cbn [sync_vnodes_loop].
  { exists s. split_and!; [done|done|by apply bytes_kept_block|done|]. intros a. by rewrite decide_False by apply not_elem_of_nil. }
  destruct (Hl a ltac:(left)) as [w Ha]. destruct (sync_inode_spec curas R s F a w HV Ha) as (s1 & He & HV1 & Hs1 & Hvn1 & _ & Hoth & _).
  unfold sfs_fsync. mrun He. destruct (IH s1 HV1) as (s2 & He2 & HV2 & Hb2 & Hvn2 & Hs2).
  { intros b Hb. rewrite Hs1. destruct (decide (b = a)) as [->|]; [rewrite lookup_insert_eq; eauto|]. rewrite lookup_insert_ne by done. apply Hl. by right. }
  exists s2. split_and!; [done|done| |congruence|].
  - apply (bytes_kept_trans ∅ s s1 s2 F F); [|done|done]. pose proof (changed_self R a s w F HV Ha) as Hself. destruct HV as [HS _]. by eapply bytes_kept_meta.
  - intros b. rewrite Hs2, Hs1. destruct (decide (b = a)) as [->|Hne].
    + rewrite lookup_insert_eq, Ha. rewrite (decide_True (P := a ∈ a :: l)) by left. by destruct (decide (a ∈ l)).
    + rewrite lookup_insert_ne by done. destruct (decide (b ∈ l)) as [|Hn]; [by rewrite decide_True by (by right)|]. rewrite decide_False; [done|]. intros [|]%elem_of_cons; done.
Qed.

Lemma sync_freemap_spec R s F : vol R s F ->
  exists s', sfs_sync_freemap curas s = Done 0 s' /\ vol R s' F /\ bytes_kept ∅ s s' F /\ sfs_freemapdirty s' = false /\ sfs_vnodes s' = sfs_vnodes s /\ svs s' = svs s.
Proof.
  intros HV. unfold sfs_sync_freemap. mpure. destruct (sfs_freemapdirty s) eqn:Ed; [|exists s; split_and!; [done|done|by apply bytes_kept_block|done|done|done]].
  pose proof HV as [HS HC]. destruct (st_map _ _ _ HS) as [LO MO]. pose proof (st_fs _ _ _ HS) as Hs. pose proof (fo_nblocks _ Hs) as [Hn1 Hn2].
  destruct (freemap_size (sb_nblocks s) ltac:(lia)) as (E1 & E2 & _). pose proof (freemap_length s Hs MO) as Hlen.
  destruct (freemap_write_spec (Z.to_nat (SFS_FREEMAPBLOCKS (sb_nblocks s))) 0 s Hs) as (d' & He & Hd' & Hbl & Hw); [lia| |lia|].
  { intros q Hq. apply LO. lia. }
  unfold sfs_freemapio. assert (Hrun : (nblocks ← gets sb_nblocks; freemap_write curas 0 (Z.to_nat (SFS_FREEMAPBLOCKS nblocks))) s = Done 0 (set_device d' s)) by (mpure; exact He).
  mrun Hrun. cbn [negb Z.eqb]. mpure. eexists. split; [reflexivity|]. set (s' := set_mapclean (set_device d' s)).
  assert (Hmap : forall x, 0 < x -> used s x -> x ∉ R -> sectors d' x = block s x).
  { intros x Hx Hu HxR. rewrite Hw. destruct ((_ <=? x) && (x <? _)) eqn:E; [|done]. exfalso. apply HxR. apply andb_prop in E as [Ea%Z.leb_le Eb%Z.ltb_lt]. unfold SFS_FREEMAP_START in *.
    destruct (LO (x - 2)) as [HR _]; [lia|]. unfold SFS_FREEMAP_START in HR. by replace (2 + (x - 2)) with x in HR by lia. }
  assert (Hfile : forall ino i n, F !! ino = Some i -> slot n -> ptr s i n <> 0 -> sectors d' (ptr s i n) = block s (ptr s i n)).
  { intros ino i n Hi Hn H0. destruct (st_inode _ _ _ HS _ _ Hi) as [Hok _]. destruct (io_ptr _ _ Hok n Hn H0). apply Hmap; [lia|done|].
    intros HR. destruct (st_reserved _ _ _ HS _ HR) as (_ & _ & Hno); [lia|]. by apply (Hno ino i n). }
  assert (Hinode : forall ino i, F !! ino = Some i -> sectors d' ino = block s ino).
  { intros ino i Hi. destruct (st_ino _ _ _ HS _ _ Hi). apply Hmap; [lia|done|]. intros HR. destruct (st_reserved _ _ _ HS _ HR) as (_ & Hno & _); [lia|congruence]. }
  split_and!; [|intros ino i k Hi _; apply fbyte_blocks; intros n Hn H0; by apply (Hfile ino i)|done|done|done].
  split; [|apply (cache_frame s); [done|done|done|exact Hinode]].
  apply (store_keep R s); try done.
  - apply (fs_ok_same (set_device d' s)); [by apply fs_ok_device|done..].
  - split; [apply MO|]. intros _ j Hj. change (block s' (SFS_FREEMAP_START + j)) with (sectors d' (SFS_FREEMAP_START + j)). change (sb_nblocks s') with (sb_nblocks s) in Hj.
    rewrite Hw. replace (_ && _) with true by (unfold SFS_FREEMAP_START; zbool). change (map_block s') with (map_block s). f_equal. lia.
  - change (sectors d' 0 = block s 0). rewrite Hw. by replace (_ && _) with false by (unfold SFS_FREEMAP_START; zbool).
Qed.

Lemma sync_spec R s F m : fsys R s F m ->
  exists s', sfs_sync curas s = Done 0 s' /\ fsys R s' F m /\ bytes_kept ∅ s s' F /\ svs s' = set_clean <$> svs s /\
    sfs_freemapdirty s' = false /\ sfs_vnodes s' = sfs_vnodes s.
Proof.
  intros Hf. pose proof (fy_vol _ _ _ _ Hf) as HV. unfold sfs_sync, sfs_sync_vnodes. mpure.
  destruct (sync_vnodes_spec R F (sfs_vnodes s) s HV) as (s1 & He1 & HV1 & Hb1 & Hvn1 & Hs1); [intros a; by apply (ca_pool _ _ (proj2 HV))|].
  assert (Hrun : (vnodes ← gets sfs_vnodes; sync_vnodes_loop curas vnodes;; mret 0) s = Done 0 s1) by (mpure; by mrun He1). mrun Hrun. cbn [negb Z.eqb].
  destruct (sync_freemap_spec R s1 F HV1) as (s2 & He2 & HV2 & Hb2 & Hd2 & Hvn2 & Hs2). mrun He2. cbn [negb Z.eqb].
  unfold sfs_sync_superblock. destruct (st_super _ _ _ (proj1 HV2)) as [Hsd _].
  assert (Hrun2 : (isdirty ← gets sfs_superdirty; if (isdirty : bool) then sb ← gets super_bytes; result ← sfs_writeblock curas SFS_SUPER_BLOCK sb;
    (if negb (result =? 0) then mret result else modify set_superclean;; mret 0) else mret 0) s2 = Done 0 s2) by (mpure; by rewrite Hsd).
  mrun Hrun2. cbn [negb Z.eqb]. assert (Hall : svs s2 = set_clean <$> svs s).
  { rewrite Hs2. apply map_eq. intros a. rewrite Hs1, lookup_fmap. destruct (decide (a ∈ sfs_vnodes s)) as [|Hn]; [done|].
    destruct (svs s !! a) eqn:E; [|done]. destruct Hn. apply (ca_pool _ _ (proj2 HV)). eauto. }
  assert (Hb : bytes_kept ∅ s s2 F) by (by apply (bytes_kept_trans ∅ s s1 s2 F F)). exists s2. split_and!; try done; [|congruence].
  apply (fsys_frame R s); [done|done|done|]. intros a w Ha. exists a, (set_clean w). by rewrite Hall, lookup_fmap, Ha.
Qed.

(** An inode is on the disk when no vnode is dirty. *)
Lemma synced_inode R s F m ino i : fsys R s F m -> (forall a w, svs s !! a = Some w -> sv_dirty w = false) -> F !! ino = Some i -> block s ino = dinode_bytes i.
Proof.
  intros Hf Hcl Hi. destruct (fy_vol _ _ _ _ Hf) as [HS HC].
  destruct (find_loaded_spec R s F ino (sfs_vnodes s) (fy_vol _ _ _ _ Hf)) as (o & _ & Ho); [intros a; apply (ca_pool _ _ HC)|]. destruct o as [a|].
  - destruct Ho as (w & Ha & Hw). destruct (ca_vnode _ _ HC a w Ha) as (Hf' & _ & Hd). rewrite Hw in *. rewrite Hi in Hf'. injection Hf' as ->. by apply Hd, (Hcl a).
  - apply (ca_disk _ _ HC ino i Hi). intros a w Ha. apply (Ho a w); [|done]. apply (ca_pool _ _ HC). eauto.
Qed.

(** [sfs_sync] writes everything out: afterwards every vnode is clean, with its inode
    on the disk, and so is the free map; the names, the files and their bytes are as before. *)
Theorem sfs_sync_correct R s F m : fsys R s F m ->
  exists s', sfs_sync curas s = Done 0 s' /\ fsys R s' F m /\ files_kept ∅ s F s' F /\ svs s' = set_clean <$> svs s /\
    (forall ino i, F !! ino = Some i -> block s' ino = dinode_bytes i) /\
    (forall j, 0 <= j < SFS_FREEMAPBLOCKS (sb_nblocks s') -> block s' (SFS_FREEMAP_START + j) = map_block s' j) /\
    sfs_freemapdirty s' = false /\ sfs_superdirty s' = false.
Proof.
  intros Hf. destruct (sync_spec R s F m Hf) as (s' & He & Hf' & Hb & Hs' & Hd & _). pose proof (fy_vol _ _ _ _ Hf') as [HS HC].
  exists s'. split_and!; [done|done|by apply files_kept_same|done| | |done|apply (st_super _ _ _ HS)].
  - intros ino i. apply (synced_inode R s' F m); [done|]. intros a w Ha. rewrite Hs', lookup_fmap in Ha. by apply fmap_Some in Ha as (w0 & _ & ->).
  - by apply (st_map _ _ _ HS).
Qed.

(** ** Mounting *)

(** Block I/O depends on nothing but the device. *)
Lemma rwblock_any tries : forall u s t x s', sfs_device t = sfs_device s -> rwblock_retry curas tries u s = Done x s' ->
  rwblock_retry curas tries u t = Done x (set_device (sfs_device s') t).
Proof.
  induction tries as [|tries IH]; intros u s t x s' Hd; cbn [rwblock_retry]; unfold devop_io, mbind, M_bind; rewrite Hd;
    (destruct (lhd_io curas u (sfs_device s)) as [[r u'] d| | |]; try done; cbv beta iota).
  - destruct (r =? EINVAL); [done|]. destruct (r =? EIO); intros [= <- <-]; done.
  - destruct (r =? EINVAL); [done|]. destruct (r =? EIO); [|intros [= <- <-]; done]. intros He. by apply (IH u' (set_device d s) (set_device d t)) in He.
Qed.

Lemma readblock_any b old s t x d' : sfs_device t = sfs_device s -> sfs_readblock curas b old s = Done x (set_device d' s) ->
  sfs_readblock curas b old t = Done x (set_device d' t).
Proof.
  intros Hd. unfold sfs_readblock, sfs_rwblock, mbind, M_bind, kassert. destruct (_ =? SFS_BLOCKSIZE); [|done]. cbv beta iota.
  destruct (rwblock_retry curas 10 (uio_kinit 0 SFS_BLOCKSIZE (b * SFS_BLOCKSIZE) UIO_READ (buffer_space old)) s) as [[r u] s1| | |] eqn:E; try done.
  rewrite (rwblock_any _ _ _ t _ _ Hd E). intros [= <- ->]. done.
Qed.

(** Reading fails only when the disk does. *)
Lemma readblock_fails b old s r data d' : fs_ok s -> sfs_readblock curas b old s = Done (r, data) (set_device d' s) ->
  (lh_ops (sfs_device s) <= lh_ops d')%nat /\ (r = EIO -> failed (lh_ops (sfs_device s)) (lh_ops d')).
Proof. intros Hs He. exact (readblock_reason curas b old s r data _ (fs_covered s Hs) He). Qed.

Lemma failed_le n n1 n2 n3 : (n <= n1)%nat -> (n2 <= n3)%nat -> failed n1 n2 -> failed n n3.
Proof. intros H1 H2 (k & rw & Hk & Hx). exists k, rw. split; [lia|done]. Qed.

(** The map that is read is the one on the disk: [s] is the volume as it was, [t] the one
    being mounted. *)
Lemma freemap_read_spec n : forall j s t, fs_ok s -> map_ok s -> sfs_freemapdirty s = false -> 
  (forall q, 0 <= q < SFS_FREEMAPBLOCKS (sb_nblocks s) -> SFS_FREEMAP_START + q < sb_nblocks s) ->
  sfs_device t = sfs_device s -> 0 <= j -> j + Z.of_nat n = SFS_FREEMAPBLOCKS (sb_nblocks s) ->
  length (v (sfs_freemap t)) = length (v (sfs_freemap s)) -> take (Z.to_nat (512 * j)) (v (sfs_freemap t)) = take (Z.to_nat (512 * j)) (v (sfs_freemap s)) ->
  exists r d' l, freemap_read curas j n t = Done r (set_device d' (set_mapdata l t)) /\ quiet (sfs_device s) d' /\
    (lh_ops (sfs_device s) <= lh_ops d')%nat /\ (r = 0 /\ l = v (sfs_freemap s) \/ r = EIO /\ failed (lh_ops (sfs_device s)) (lh_ops d')).
Proof.
  induction n as [|n IH]; intros j s t Hs MO Hclean LO Hd Hj Hn Hlen Hpre; pose proof (freemap_length s Hs MO) as Hsz; cbn [freemap_read].
  { exists 0, (sfs_device s), (v (sfs_freemap t)). split_and!; [|apply quiet_refl, Hs|done|left; split; [done|]].
    - f_equal. destruct t as [a [nb w] c d e f g h k]. cbn in *. by subst f.
    - rewrite !take_ge in Hpre by lia. done. }
  mpure. replace (j * SFS_BLOCKSIZE) with (512 * j) by (unfold SFS_BLOCKSIZE; lia). change (Z.to_nat SFS_BLOCKSIZE) with 512%nat. set (old := take 512 (drop (Z.to_nat (512 * j)) (bitmap_getdata (sfs_freemap t)))).
  assert (Hold : length old = 512%nat) by (unfold old, bitmap_getdata; rewrite length_take, length_drop; lia).
  pose proof (LO j ltac:(lia)) as Hin.
  destruct (readblock_spec curas (SFS_FREEMAP_START + j) old s Hs ltac:(unfold in_volume, SFS_FREEMAP_START in *; lia) Hold) as (r & data & d1 & He & Hq & Hr).
  destruct (readblock_fails _ _ _ _ _ _ Hs He) as [Hops Hfl]. apply (readblock_any _ _ s t) in He; [|done]. mrun He. mpure. set (t1 := set_mapdata _ _).
  destruct Hr as [[-> ->]| ->]; [|eexists EIO, d1, _; split_and!; [reflexivity|done|done|right; auto]]. cbn [negb Z.eqb]. clear Hfl.
  assert (Hbl : block s (SFS_FREEMAP_START + j) = map_block s j) by (apply MO; [done|lia]).
  assert (Hml : length (map_block s j) = 512%nat) by (unfold map_block, bitmap_getdata; rewrite length_take, length_drop; lia).
  destruct (IH (j + 1) (set_device d1 s) t1) as (r & d2 & l & He2 & Hq2 & Hops2 & Hr2); try done; try lia.
  - by apply quiet_ok.
  - destruct MO as [M1 M2]. split; [done|]. intros _ q Hqr. change (block (set_device d1 s) (SFS_FREEMAP_START + q)) with (sectors d1 (SFS_FREEMAP_START + q)).
    destruct Hq as (_ & _ & ->). by apply M2.
  - cbn. lia.
  - transitivity (length (v (sfs_freemap t))); [|exact Hlen]. assert (Hsp : (Z.to_nat (512 * j) + length (block s (SFS_FREEMAP_START + j)) <= length (v (sfs_freemap t)))%nat) by (rewrite Hbl; lia).
    exact (length_splice _ _ _ Hsp).
  - unfold t1, set_mapdata. cbn [sfs_freemap v]. rewrite Hbl. unfold splice, bitmap_getdata. rewrite Hpre, app_assoc.
    change (sfs_freemap (set_device d1 s)) with (sfs_freemap s).
    assert (Htk : take (Z.to_nat (512 * j)) (v (sfs_freemap s)) ++ map_block s j = take (Z.to_nat (512 * (j + 1))) (v (sfs_freemap s))).
    { unfold map_block, bitmap_getdata. replace (Z.to_nat (512 * (j + 1))) with (Z.to_nat (512 * j) + 512)%nat by lia. by rewrite take_take_drop. }
    rewrite Htk. rewrite take_app_le, take_take by (rewrite length_take; lia). by rewrite Nat.min_id.
  - exists r, d2, l. split_and!; [exact He2|destruct Hq as (? & ? & ?), Hq2 as (? & ? & ?); cbn in *; split_and!; congruence|cbn in *; lia|].
    destruct Hr2 as [?|[-> Hfl]]; [by left|right]. split; [done|]. eapply failed_le; [exact Hops|apply le_n|exact Hfl].
Qed.

(** The volume that a mount of the device of [s] makes. *)
Definition remounted (s : sfs_fs) (d : lhd) (sb : superblock) : sfs_fs :=
  mkSfs (sb_nblocks s) (sfs_freemap s) false [] ∅ d 0 sb false.

Lemma map_created s mm : fs_ok s -> map_ok s -> ok_map mm = true -> ok_mapdata mm = true ->
  exists l, bitmap_create (ok_map mm) (ok_mapdata mm) (SFS_FREEMAPBITS (sb_nblocks s)) = Ok (Some (mkBitmap (nbits (sfs_freemap s)) l)) /\
    length l = length (v (sfs_freemap s)).
Proof.
  intros Hs MO -> ->. pose proof (fo_nblocks _ Hs) as [Hn1 Hn2]. destruct (freemap_size (sb_nblocks s) ltac:(lia)) as (E1 & E2 & E3). pose proof MO as [Hnb _].
  destruct (bitmap_create_spec (SFS_FREEMAPBITS (sb_nblocks s)) ltac:(lia)) as (m & He & (_ & Hl & _) & Hm & _). rewrite Hm in Hl.
  destruct (fo_map _ Hs) as [(_ & Hl2 & _) _]. rewrite Hnb in Hl2. exists (v m). rewrite He, Hnb, <- Hm. split; [by destruct m|lia].
Qed.

Lemma mount_spec R s F mm : vol R s F -> sfs_freemapdirty s = false ->
  exists r o d', sfs_domount curas mm (sfs_device s) = Done (r, o) d' /\ quiet (sfs_device s) d' /\
    (r = 0 /\ (exists sb, o = Some (remounted s d' sb)) \/
     (r = EIO /\ failed (lh_ops (sfs_device s)) (lh_ops d') \/ r = ENOMEM /\ (ok_fs mm && ok_vnodes mm && ok_map mm && ok_mapdata mm) = false) /\ o = None).
Proof.
  intros [HS HC] Hclean. pose proof (st_fs _ _ _ HS) as Hs. destruct (st_map _ _ _ HS) as [LO MO]. destruct (st_super _ _ _ HS) as [_ [Hw0 Hw1]].
  pose proof (quiet_refl _ (fo_dev _ Hs)) as Hq0. unfold sfs_domount. change (negb (LHD_SECTSIZE =? SFS_BLOCKSIZE)) with false. cbv iota. unfold sfs_fs_create.
  destruct (ok_fs mm) eqn:Ef; [|exists ENOMEM, None, (sfs_device s); split_and!; [done|done|right; split; [right; done|done]]].
  destruct (ok_vnodes mm) eqn:Ev; [|exists ENOMEM, None, (sfs_device s); split_and!; [done|done|right; split; [right; done|done]]]. cbn [negb].
  set (t := mkSfs 0 _ _ _ _ _ _ _ _). unfold mount_volume. pose proof (fo_nblocks _ Hs) as [Hn1 Hn2].
  destruct (readblock_spec curas SFS_SUPER_BLOCK zero_block s Hs ltac:(unfold in_volume, SFS_SUPER_BLOCK; lia) length_zero_block) as (r & buf & d1 & He & Hq & Hr).
  destruct (readblock_fails _ _ _ _ _ _ Hs He) as [Hops Hfl]. apply (readblock_any _ _ s t) in He; [|done]. mrun He. mpure. destruct Hr as [[-> ->]| ->].
  2:{ exists EIO, None, d1. split_and!; [done|done|right; auto]. }
  cbn [negb Z.eqb]. unfold super_of. cbn [sb_magic]. rewrite Hw0. change (negb (default 0 (Some SFS_MAGIC) =? SFS_MAGIC)) with false. cbv iota. mpure.
  set (t1 := set_super _ _ _). assert (Hnb1 : sb_nblocks t1 = sb_nblocks s) by (unfold t1, super_nblocks; cbn; by rewrite Hw1). rewrite Hnb1.
  destruct (ok_map mm && ok_mapdata mm) eqn:Em.
  2:{ assert (Hc : lift (bitmap_create (ok_map mm) (ok_mapdata mm) (SFS_FREEMAPBITS (sb_nblocks s))) t1 = Done None t1) by (unfold lift, bitmap_create; by destruct (ok_map mm), (ok_mapdata mm)).
      mrun Hc. exists ENOMEM, None, d1. split_and!; [done|done|right; split; [right; split; [done|]|done]]. by destruct (ok_map mm), (ok_mapdata mm). }
  apply andb_prop in Em as [Em1 Em2]. destruct (map_created s mm Hs MO Em1 Em2) as (l0 & Hc & Hl0).
  assert (Hc' : lift (bitmap_create (ok_map mm) (ok_mapdata mm) (SFS_FREEMAPBITS (sb_nblocks s))) t1 = Done (Some (mkBitmap (nbits (sfs_freemap s)) l0)) t1) by (unfold lift; by rewrite Hc).
  mrun Hc'. mpure. set (t2 := set_newmap _ _). unfold sfs_freemapio.
  assert (Hs1 : fs_ok (set_device d1 s)) by (by apply quiet_ok).
  assert (MO1 : map_ok (set_device d1 s)).
  { destruct MO as [M1 M2]. split; [done|]. intros Hd j Hj. change (block (set_device d1 s) (SFS_FREEMAP_START + j)) with (sectors d1 (SFS_FREEMAP_START + j)).
    destruct Hq as (_ & _ & ->). by apply M2. }
  destruct (freemap_size (sb_nblocks s) ltac:(lia)) as (_ & E2 & _).
  destruct (freemap_read_spec (Z.to_nat (SFS_FREEMAPBLOCKS (sb_nblocks s))) 0 (set_device d1 s) t2 Hs1 MO1 Hclean) as (r & d2 & l & He2 & Hq2 & Hops2 & Hr2); try done.
  { intros q Hqr. by apply LO. } { cbn. lia. }
  mpure. change (sb_nblocks t2) with (sb_nblocks t1). rewrite Hnb1, He2.
  assert (Hq12 : quiet (sfs_device s) d2) by (destruct Hq as (? & ? & ?), Hq2 as (? & ? & ?); cbn in *; split_and!; congruence).
  destruct Hr2 as [[-> ->]|[-> Hfl2]].
  - eexists 0, _, d2. split_and!; [reflexivity|done|left]. split; [done|]. exists (sfs_sb t2). f_equal. unfold remounted. rewrite <- Hnb1.
    unfold t2, set_newmap, set_mapdata, set_device. cbn [sfs_freemap nbits]. by destruct (sfs_freemap s).
  - exists EIO, None, d2. split_and!; [done|done|right; split; [left|done]]. split; [done|]. eapply failed_le; [exact Hops|apply le_n|exact Hfl2].
Qed.

(** The new volume holds the files of the old one. *)
Lemma remounted_fsys R s F m d' sb : fsys R s F m -> svs s = ∅ -> sfs_freemapdirty s = false -> quiet (sfs_device s) d' -> fsys R (remounted s d' sb) F m.
Proof.
  intros Hf Hsv Hclean Hq. pose proof (fy_vol _ _ _ _ Hf) as [HS HC]. pose proof (st_super _ _ _ HS) as [Hsd _].
  assert (Hb : forall x, block (remounted s d' sb) x = block s x) by (intros x; unfold block; cbn; by destruct Hq as (_ & _ & ->)).
  assert (Hs' : fs_ok (remounted s d' sb)) by (apply (fs_ok_same (set_device d' s)); [apply quiet_ok; [apply HS|done]|done..]).
  apply (fsys_frame R s); [done| |by apply bytes_kept_block|intros a w Ha; by rewrite Hsv in Ha]. split.
  - apply (store_frame R s); try done. by apply recorded_same.
  - split; cbn.
    + split; [apply NoDup_nil_2|]. intros a. rewrite lookup_empty. split; [by intros ?%elem_of_nil|by intros [? ?]].
    + intros a w Ha. by rewrite lookup_empty in Ha.
    + intros a b va vb Ha. by rewrite lookup_empty in Ha.
    + intros ino i Hi _. rewrite Hb. apply (ca_disk _ _ HC ino i Hi). intros a w Ha. by rewrite Hsv in Ha.
Qed.

(** Without vnodes, and synchronised, the volume can be unmounted. *)
Lemma unmount_idle R s F m : fsys R s F m -> svs s = ∅ -> sfs_freemapdirty s = false -> sfs_unmount s = Done 0 s.
Proof.
  intros Hf Hs Hd. destruct (fy_vol _ _ _ _ Hf) as [HS HC]. assert (Hvn : sfs_vnodes s = []).
  { destruct (sfs_vnodes s) as [|a l] eqn:E; [done|]. destruct (proj1 (proj2 (ca_pool _ _ HC) a)) as [w Hw]; [rewrite E; left|]. by rewrite Hs in Hw. }
  unfold sfs_unmount. mpure. rewrite Hvn. change (0 <? Z.of_nat (length [])) with false. cbv iota. mpure. destruct (st_super _ _ _ HS) as [-> _].
  mrun (kassert_true "sfs->sfs_superdirty == false" (negb false) s eq_refl). mpure. rewrite Hd. by mrun (kassert_true "sfs->sfs_freemapdirty == false" (negb false) s eq_refl).
Qed.

(** A volume survives being unmounted: when no file is open, [sfs_sync] and
    [sfs_unmount] succeed, and mounting the device again yields a volume with the same
    names, the same inodes and the same bytes in every file; the mount can only fail for
    want of memory or because the disk does. *)
Theorem sfs_remount_roundtrip R s F m mm : fsys R s F m -> svs s = ∅ ->
  exists s1, sfs_sync curas s = Done 0 s1 /\ sfs_unmount s1 = Done 0 s1 /\
  exists r o d', sfs_domount curas mm (sfs_device s1) = Done (r, o) d' /\
    (r = 0 /\ (exists s2, o = Some s2 /\ sfs_device s2 = d' /\ fsys R s2 F m /\ files_kept ∅ s F s2 F) \/
     (r = EIO /\ failed (lh_ops (sfs_device s1)) (lh_ops d') \/ r = ENOMEM /\ (ok_fs mm && ok_vnodes mm && ok_map mm && ok_mapdata mm) = false) /\ o = None).
Proof.
  intros Hf Hsv. destruct (sync_spec R s F m Hf) as (s1 & He & Hf1 & Hb & Hs1 & Hd1 & _). rewrite Hsv, fmap_empty in Hs1. pose proof (fy_vol _ _ _ _ Hf1) as [HS1 HC1].
  exists s1. split_and!; [done|by apply (unmount_idle R s1 F m)|].
  - destruct (mount_spec R s1 F mm (fy_vol _ _ _ _ Hf1) Hd1) as (r & o & d' & He2 & Hq & Hr). exists r, o, d'. split; [done|].
    destruct Hr as [[-> [sb ->]]|Hr]; [left|by right]. split; [done|]. eexists. split_and!; [done|done|by apply remounted_fsys|].
    eapply files_kept_trans; [by apply files_kept_same|]. apply files_kept_same, bytes_kept_block. intros x. unfold block. cbn. by destruct Hq as (_ & _ & ->).
Qed.

End Proofs.
End SfsFsops.
