(* ===== verification/ExampleVolume.v ===== *)
(** * A small SFS volume, on which the theorems about the file system are applied

    64 blocks: the superblock, the root directory's inode and the free map in blocks 0 to
    2, the inodes of two files in blocks 3 and 4, the root directory's entries (5), a file
    of two blocks (6 and 7), and a sparse file whose only blocks are its indirect block (8)
    and its block 15 (9).  Two disks: one that never fails, and one whose first write meets
    a media error. *)
From S2P Require Import Prelude Bitmap Copyinout Uio Lhd Sfs SfsFormat SfsProofs SfsIo SfsTrunc.
From S2P Require Import SfsDir SfsTheorems SfsVnops SfsVolume SfsObjects SfsTree SfsTreeTheorems SfsFsops.
Import Bitmap Copyinout Uio Lhd Sfs SfsFormat SfsProofs SfsIo SfsTrunc SfsDir SfsTheorems.

Module ExampleVolume.

(** ** Checks that run *)

Definition slot_ptrs (s : sfs_fs) (i : dinode) : list (Z * Z) := (fun n => (n, ptr s i n)) <$> seqZ (-1) 144.
Lemma slot_ptrs_in s i n : slot n -> In (n, ptr s i n) (slot_ptrs s i).
Proof.
  intros Hn. apply list_elem_of_In, list_elem_of_fmap. exists n. split; [done|]. apply elem_of_seqZ. unfold slot, NSLOTS in Hn. lia.
Qed.

Definition inode_okb (s : sfs_fs) (i : dinode) : bool :=
  let l := filter (fun p => snd p <> 0) (slot_ptrs s i) in
  Nat.eqb (length (sfi_direct i)) 15 && (0 <=? sfi_size i) && (sfi_size i <=? NSLOTS * SFS_BLOCKSIZE) &&
  forallb (fun p => (0 <? snd p) && (snd p <? sb_nblocks s) && bit (sfs_freemap s) (snd p)) l &&
  forallb (fun p => forallb (fun q => negb (snd p =? snd q) || (fst p =? fst q)) l) l.

Lemma inode_okb_sound s i : inode_okb s i = true -> inode_ok s i.
Proof.
  unfold inode_okb. set (l := filter _ _). rewrite !andb_true_iff, !forallb_forall, Nat.eqb_eq. intros ((((H1 & H2) & H3) & H4) & H5).
  assert (Hin : forall n, slot n -> ptr s i n <> 0 -> In (n, ptr s i n) l).
  { intros n Hn H0. apply list_elem_of_In, list_elem_of_filter. split; [done|]. by apply list_elem_of_In, slot_ptrs_in. }
  split; try done; try lia.
  - intros n Hn H0. specialize (H4 _ (Hin n Hn H0)). cbn in H4. apply andb_true_iff in H4 as [H4 H4']. split; [lia|done].
  - intros n m Hn Hm H0 He. assert (Hm0 : ptr s i m <> 0) by (by rewrite <- He).
    specialize (H5 _ (Hin n Hn H0)). rewrite forallb_forall in H5. specialize (H5 _ (Hin m Hm Hm0)). cbn in H5. rewrite He, Z.eqb_refl in H5. cbn in H5. lia.
Qed.

(** Two files without a common block. *)
Definition apartb (s : sfs_fs) (i j : dinode) : bool :=
  let l := slot_ptrs s j in forallb (fun p => (snd p =? 0) || forallb (fun q => negb (snd p =? snd q)) l) (slot_ptrs s i).

Lemma apartb_sound s i j : apartb s i j = true -> apart s i j.
Proof.
  unfold apartb. rewrite forallb_forall. intros H n m Hn Hm H0. specialize (H _ (slot_ptrs_in s i n Hn)). cbn in H.
  apply orb_true_iff in H as [H|H]; [lia|]. rewrite forallb_forall in H. specialize (H _ (slot_ptrs_in s j m Hm)). cbn in H. lia.
Qed.

(** ** The disks *)

Definition good_disk : LhdHardware := {| lhd_status := fun _ _ => LHD_OK; lhd_torn := fun _ old _ => old |}.
Definition bad_disk : LhdHardware :=
  {| lhd_status := fun n rw => if Nat.eqb n 0 && bool_decide (rw = UIO_WRITE) then LHD_MEDIA else LHD_OK; lhd_torn := fun _ old _ => old |}.

Lemma good_laws : @LhdLaws good_disk.
Proof. split. intros n rw. left. reflexivity. Qed.
#[local] Existing Instance good_disk.

(** ** The volume *)

Definition letters (n : nat) (c : Z) : list Z := replicate n c.
Definition file_inode : dinode := mkDinode 600 SFS_TYPE_FILE 1 (6 :: 7 :: replicate 13 0) 0 (replicate 110 0).
Definition root_inode : dinode := mkDinode 128 SFS_TYPE_DIR 1 (5 :: replicate 14 0) 0 (replicate 110 0).
Definition sparse_inode : dinode := mkDinode 8192 SFS_TYPE_FILE 1 (replicate 15 0) 8 (replicate 110 0).
Definition map_bytes : list Z := [0xff; 3; 0; 0; 0; 0; 0; 0] ++ replicate 504 0xff.
Definition entry_a : direntry := mkDirentry 3 ([97] ++ replicate 59 0).
Definition entry_c : direntry := mkDirentry 4 ([99] ++ replicate 59 0).
Definition dir_block : list Z := direntry_bytes entry_a ++ direntry_bytes entry_c ++ replicate 384 0.
Definition disk_sector (b : Z) : list Z :=
  if b =? 0 then bytes_of ([SFS_MAGIC; 64] ++ replicate 126 0)
  else if b =? 1 then dinode_bytes root_inode
  else if b =? 2 then map_bytes
  else if b =? 3 then dinode_bytes file_inode
  else if b =? 4 then dinode_bytes sparse_inode
  else if b =? 5 then dir_block
  else if b =? 6 then letters 512 65
  else if b =? 7 then letters 512 66
  else if b =? 8 then bytes_of (9 :: replicate 127 0)
  else if b =? 9 then letters 512 67
  else zero_block.

Definition disk : lhd := mkLhd 64 (replicate 512 0) disk_sector 0.
Definition map64 : bitmap := mkBitmap 4096 map_bytes.

Definition the_file : sfs_vnode := mkSv file_inode 3 false 1.
Definition the_dir : sfs_vnode := mkSv root_inode 1 false 1.
Definition sparse : sfs_vnode := mkSv sparse_inode 4 false 1.

Definition super : superblock := mkSuper SFS_MAGIC (replicate 32 0) (replicate 118 0).
Definition volume : sfs_fs := mkSfs 64 map64 false [100; 200; 300] {[100 := the_file; 200 := the_dir; 300 := sparse]} disk 0 super false.

Lemma length_sectors b : length (disk_sector b) = 512%nat.
Proof. unfold disk_sector. repeat (destruct (b =? _); [vm_compute; reflexivity|]). vm_compute. reflexivity. Qed.

Lemma map64_tail b : 64 <= b < 4096 -> bit map64 b = true.
Proof.
  intros Hb. assert (Hall : forallb (bit map64) (seqZ 64 4032) = true) by (vm_compute; reflexivity).
  rewrite forallb_forall in Hall. apply Hall, list_elem_of_In, elem_of_seqZ. lia.
Qed.

Lemma map64_wf : wf map64.
Proof.
  split_and!; [cbn; lia|cbn; lia|reflexivity| |cbn; lia]. unfold map64, map_bytes. cbn [v].
  apply Forall_app. split; [repeat constructor; unfold is_u8; lia|]. apply Forall_replicate. unfold is_u8. lia.
Qed.

Lemma volume_ok : fs_ok volume.
Proof.
  split.
  - split_and!; [cbn; lia|cbn; lia|vm_compute; reflexivity|exact length_sectors|by intros m _].
  - cbn. lia.
  - split; [exact map64_wf|cbn; lia].
  - intros b Hb. exact (map64_tail b Hb).
  - vm_compute. reflexivity.
Qed.

Lemma the_file_ok : inode_ok volume (sv_i the_file).
Proof. apply inode_okb_sound. vm_compute. reflexivity. Qed.
Lemma the_dir_ok : inode_ok volume (sv_i the_dir).
Proof. apply inode_okb_sound. vm_compute. reflexivity. Qed.
Lemma sparse_ok : inode_ok volume (sv_i sparse).
Proof. apply inode_okb_sound. vm_compute. reflexivity. Qed.

Lemma apart_dir : apart volume (sv_i the_file) (sv_i the_dir).
Proof. apply apartb_sound. vm_compute. reflexivity. Qed.

(** ** Requests *)

Definition ramp : space := mkSpace (fun a => a mod 256) (fun _ => false).
Definition request (base len off : Z) (rw : uio_rw_t) : uio := uio_kinit base len off rw ramp.

Lemma request_ok curas base len off rw : 0 <= base -> 0 <= len -> base + len < 2 ^ 32 -> uio_ok curas (request base len off rw).
Proof.
  intros Hb Hl Hbl. assert (Ha : addrs (request base len off rw) = seqZ base len).
  { unfold addrs, iov_addrs, request, uio_kinit. cbn [uio_iov fmap list_fmap mjoin list_join iov_base iov_len]. by rewrite app_nil_r. }
  split.
  - apply Forall_singleton. unfold iov_ok. cbn. lia.
  - rewrite Ha. apply NoDup_seqZ.
  - rewrite Ha, length_seqZ. cbn. lia.
  - intros a _. by left.
  - done.
Qed.

(** ** Runs *)

Definition io_after {S} (m : M S (Z * uio)) (s : S) (u : uio) : uio := match m s with Done (_, u') _ => u' | _ => u end.
Definition io_result {S} (m : M S (Z * uio)) (s : S) : Z := match m s with Done (r, _) _ => r | _ => -1 end.

Lemma io_result_eq {S} (m : M S (Z * uio)) s r u s' : m s = Done (r, u) s' -> r = io_result m s.
Proof. unfold io_result. by intros ->. Qed.

Lemma io_runs {S} (m : M S (Z * uio)) s u : 0 <= io_result m s -> m s = Done (io_result m s, io_after m s u) (after m s).
Proof. unfold io_result, io_after, after. destruct (m s) as [[r' u'] s'| | |]; intros H; [done|lia..]. Qed.

(** 50 bytes asked for, 20 from the end of the file. *)
Definition reading : uio := request 0 50 580 UIO_READ.
(** 700 bytes over the end of the file: into its two blocks and a new one. *)
Definition writing : uio := request 0 700 500 UIO_WRITE.
Definition rereading : uio := request 4096 700 500 UIO_READ.

Lemma read_runs : io_result (@sfs_io good_disk 0 100 reading) volume = 0.
Proof. vm_compute. reflexivity. Qed.
Lemma write_runs : io_result (@sfs_io good_disk 0 100 writing) volume = 0.
Proof. vm_compute. reflexivity. Qed.

#[local] Opaque volume.

Lemma sfs_read_correct_witness : exists n u' d', @sfs_io good_disk 0 100 reading volume = Done (0, u') (set_device d' volume) /\
  n = 20%nat /\ sectors d' = sectors (sfs_device volume) /\ io_moved n (fbytes volume (sv_i the_file) 580 n) reading u'.
Proof.
  destruct (@sfs_read_correct good_disk 0 good_laws 100 volume the_file reading volume_ok eq_refl the_file_ok) as (r & n & u' & d' & He & Hd & Hr & Hm);
    [apply request_ok; lia|split; vm_compute; congruence|reflexivity|].
  pose proof (io_result_eq _ _ _ _ _ He) as H0. rewrite read_runs in H0. subst r. destruct Hr as [[_ Hn]|[? _]]; [|done].
  exists n, u', d'. split; [exact He|]. split; [change (readable (sv_i the_file) reading) with 20 in Hn; lia|]. split; [exact Hd|exact Hm].
Defined.



Lemma sfs_write_error_lost_witness : exists d', @sfs_writeblock bad_disk 0 10 (letters 512 90) volume = Done 0 (set_device d' volume) /\
  sectors d' 10 = block volume 10.
Proof.
  destruct (@sfs_write_error_lost bad_disk 0 10 (letters 512 90) volume) as (d' & He & Hw);
    [vm_compute; split; congruence|reflexivity|vm_compute; split; congruence|reflexivity|reflexivity|].
  exists d'. split; [exact He|]. exact (Hw 10).
Defined.

(** ** Truncation *)

Lemma truncate_runs : returns 0 (@sfs_itrunc good_disk 0 100 0) volume = true /\ returns 0 (@sfs_itrunc good_disk 0 300 (15 * 512)) volume = true.
Proof. split; vm_compute; reflexivity. Qed.


Lemma sfs_itrunc_keeps_one_more_witness : let s' := after (@sfs_itrunc good_disk 0 300 (15 * 512)) volume in
  exists v', svs s' !! 300 = Some v' /\ sfi_size (sv_i v') = 15 * 512 /\ used s' 9 /\ fbyte s' (sv_i v') (15 * 512) = 67.
Proof.
  intros s'. destruct (@sfs_itrunc_keeps_one_more good_disk 0 good_laws 300 15 volume sparse s' volume_ok eq_refl sparse_ok) as (v' & Hsv & Hsz & Hp & Hu & Hb);
    [vm_compute; split; congruence|vm_compute; congruence|exact (returns_runs 0 _ _ (proj2 truncate_runs))|].
  exists v'. split; [exact Hsv|]. split; [exact Hsz|]. split; [exact Hu|]. rewrite <- (Z.add_0_r (15 * 512)). rewrite (Hb 0 ltac:(lia)). vm_compute. reflexivity.
Defined.

(** ** Directories *)

Definition name_a : list Z := [97].
Definition name_b : list Z := [98].
Definition name_c : list Z := [99].
Definition dir_map : gmap (list Z) (Z * Z) := {[name_a := (3, 0); name_c := (4, 1)]}.

Lemma root_models s : sectors (sfs_device s) 5 = dir_block -> dir_models s root_inode dir_map.
Proof.
  intros H5. assert (He : forall k, 0 <= k < 2 -> entry s root_inode k = if k =? 0 then entry_a else entry_c).
  { intros k Hk. assert (Hb : forall j, 0 <= j < 512 -> fbyte s root_inode j = default 0 (dir_block !! Z.to_nat j)).
    { intros j Hj. unfold fbyte. rewrite Z.div_small, Z.mod_small by lia. change (ptr s root_inode 0) with 5. cbn [Z.eqb]. unfold block. by rewrite H5. }
    unfold entry. assert (Hf : fbytes s root_inode (64 * k) 64 = (fun j => default 0 (dir_block !! Z.to_nat j)) <$> seqZ (64 * k) 64).
    { unfold fbytes. apply list_fmap_ext. intros i x Hx. apply lookup_seqZ in Hx as [-> Hi]. apply Hb. lia. }
    rewrite Hf. assert (k = 0 \/ k = 1) as [->| ->] by lia; vm_compute; reflexivity. }
  intros name ino k. unfold dir_map, dir_entry. rewrite lookup_insert_Some, lookup_singleton_Some. change (nslots root_inode) with 2. split.
  - intros [[<- [= <- <-]]|[_ [<- [= <- <-]]]]; (rewrite He by lia; split_and!; (done || lia)).
  - intros (Hk & Hi & H0 & Hn). rewrite He in Hi, Hn by lia. destruct (Z.eqb_spec k 0) as [->|Hk0].
    + left. cbn in Hi, Hn. subst. done.
    + assert (k = 1) by lia. subst k. right. cbn in Hi, Hn. subst. done.
Qed.

Lemma the_dir_at : dir_at volume 200 the_dir dir_map.
Proof.
  split; [apply volume_ok|]. split; [reflexivity|]. split; [apply the_dir_ok|]. split; [done|]. by apply root_models.
Qed.

Lemma dir_findname_correct_witness : exists r acc d', @sfs_dir_findname good_disk 0 200 name_a volume = Done (r, acc) (set_device d' volume) /\
  (r = EIO \/ r = 0 /\ fst acc = Some (3, 0)).
Proof.
  destruct (@dir_findname_correct good_disk 0 good_laws 200 volume the_dir dir_map name_a the_dir_at) as (r & acc & d' & He & _ & _ & Hr).
  exists r, acc, d'. split; [exact He|]. destruct Hr as [Hr|(Hr & Hf & _)]; [left; exact Hr|right]. split; [exact Hr|exact Hf].
Defined.

Lemma dir_link_correct_witness : exists r k s' v', @sfs_dir_link good_disk 0 200 name_b 4 volume = Done (r, k) s' /\
  (r = 0 -> dir_at s' 200 v' (<[name_b := (4, k)]> dir_map)).
Proof.
  destruct (@dir_link_correct good_disk 0 good_laws 200 volume the_dir dir_map name_b 4 the_dir_at) as (r & k & s' & v' & He & _ & Hr);
    [repeat constructor; lia|unfold is_u32; lia|lia|].
  exists r, k, s', v'. split; [exact He|]. intros ->. destruct Hr as [(_ & _ & H)|[[[E _]|[[E _]|[E|[E|[E _]]]]] _]]; [exact H|discriminate E..].
Defined.

Lemma dir_unlink_correct_witness : exists r s' v', @sfs_dir_unlink good_disk 0 200 0 volume = Done r s' /\ (r = 0 -> dir_at s' 200 v' (delete name_a dir_map)).
Proof.
  destruct (@dir_unlink_correct good_disk 0 good_laws 200 volume the_dir dir_map name_a 3 0 the_dir_at eq_refl) as (r & s' & v' & He & _ & Hr).
  exists r, s', v'. split; [exact He|]. intros ->. destruct Hr as [[_ H]|[E _]]; [exact H|discriminate E].
Defined.

End ExampleVolume.

(** * A file system on the example volume

    The root directory of the example volume names its two files; the volume is consistent,
    with all vnodes in memory and with none, and the theorems about the file system as a
    whole are applied to it. *)
Import Bitmap Copyinout Uio Lhd Sfs SfsFormat SfsProofs SfsIo SfsTrunc SfsDir SfsTheorems.
Import SfsVnops SfsVolume SfsObjects SfsTree SfsTreeTheorems SfsFsops ExampleVolume.

Module ExampleTree.

#[local] Existing Instance good_disk.

(** ** Memory for vnodes *)

Definition heap : SfsMemory :=
  {| sv_kmalloc := fun n live => let a := 0x80001000 + 64 * Z.of_nat n in if decide (a ∈ live) then 0 else a; vnodearray_grows := fun _ => true |}.
Lemma heap_laws : @SfsMemoryLaws heap.
Proof. split. intros n live. cbn. by case_decide. Qed.

(** ** The file system *)

(** The volume with some vnodes in memory. *)
Definition with_vnodes (vs : list Z) (t : gmap Z sfs_vnode) : sfs_fs := mkSfs 64 map64 false vs t disk 0 super false.
Definition closed : sfs_fs := with_vnodes [] ∅.
Definition files : gmap Z dinode := {[1 := root_inode; 3 := file_inode; 4 := sparse_inode]}.
Definition own : gset Z := {[2]}.

Lemma files_case ino i : files !! ino = Some i -> (ino, i) = (1, root_inode) \/ (ino, i) = (3, file_inode) \/ (ino, i) = (4, sparse_inode).
Proof.
  unfold files. rewrite !lookup_insert_Some, lookup_singleton_Some. intros [[<- <-]|[_ [[<- <-]|[_ [<- <-]]]]]; auto.
Qed.

Ltac each_file H := apply files_case in H as [[= -> ->]|[[= -> ->]|[= -> ->]]].

Section Consistent.
Context (vs : list Z) (t : gmap Z sfs_vnode).
Let s := with_vnodes vs t.

Lemma fs_ok_with : fs_ok s.
Proof. destruct volume_ok as [A B C D E]. split; [exact A|exact B|exact C|exact D|exact E]. Qed.

Lemma inode_ok_with i : inode_okb volume i = true -> inode_ok s i.
Proof. intros H. apply inode_okb_sound. exact H. Qed.

Lemma used_case x : 0 < x < 64 -> used s x -> 0 < x < 10.
Proof.
  intros Hx Hu. assert (H : forallb (fun b => negb (bit map64 b)) (seqZ 10 54) = true) by (vm_compute; reflexivity).
  destruct (decide (x < 10)); [lia|]. rewrite forallb_forall in H. assert (Hin : In x (seqZ 10 54)) by (apply list_elem_of_In, elem_of_seqZ; lia). specialize (H x Hin).
  unfold used in Hu. change (sfs_freemap s) with map64 in Hu. by rewrite Hu in H.
Qed.

(** No slot of a file holds block [x]. *)
Lemma no_slot i x n : forallb (fun p => negb (snd p =? x)) (slot_ptrs volume i) = true -> slot n -> ptr s i n <> x.
Proof. rewrite forallb_forall. intros H Hn. specialize (H _ (slot_ptrs_in volume i n Hn)). cbn in H. change (ptr s i n) with (ptr volume i n). lia. Qed.

Lemma store_with : store own s files.
Proof.
  split.
  - exact fs_ok_with.
  - intros ino i H. each_file H; (split; [cbn; lia|vm_compute; reflexivity]).
  - intros ino i H. each_file H; (split; [apply inode_ok_with; vm_compute; reflexivity|split; [split; vm_compute; congruence|]; split; [split; vm_compute; congruence|]; split; [reflexivity|apply Forall_replicate; unfold is_u32; lia]]).
  - intros a b i j Ha Hb Hab. each_file Ha; each_file Hb; try done; apply apartb_sound; vm_compute; reflexivity.
  - intros a i b j n Ha Hb Hn. each_file Ha; each_file Hb; (apply no_slot; [vm_compute; reflexivity|done]).
  - intros x Hx _. apply elem_of_singleton in Hx as ->. split_and!; [vm_compute; reflexivity|reflexivity|].
    intros ino i n H Hn. each_file H; (apply no_slot; [vm_compute; reflexivity|done]).
  - split; [done|]. split; vm_compute; reflexivity.
  - change (sb_nblocks s) with 64. split.
    + intros j Hj. change (SFS_FREEMAPBLOCKS 64) with 1 in Hj. assert (j = 0) as -> by lia. split; [apply elem_of_singleton; done|done].
    + split; [reflexivity|]. intros _ j Hj. change (SFS_FREEMAPBLOCKS (sb_nblocks s)) with 1 in Hj. assert (j = 0) as -> by lia. vm_compute. reflexivity.
  - intros x Hx Hu. apply used_case in Hu; [|exact Hx]. unfold own. rewrite elem_of_singleton.
    assert (x = 1 \/ x = 2 \/ x = 3 \/ x = 4 \/ x = 5 \/ x = 6 \/ x = 7 \/ x = 8 \/ x = 9) as [->|[->|[->|[->|[->|[->|[->|[->| ->]]]]]]]] by lia;
      try (right; left; eexists; reflexivity); try (by left); right; right.
    + exists 1, root_inode, 0. split_and!; try reflexivity; unfold slot, NSLOTS; lia.
    + exists 3, file_inode, 0. split_and!; try reflexivity; unfold slot, NSLOTS; lia.
    + exists 3, file_inode, 1. split_and!; try reflexivity; unfold slot, NSLOTS; lia.
    + exists 4, sparse_inode, (-1). split_and!; try reflexivity; unfold slot, NSLOTS; lia.
    + exists 4, sparse_inode, 15. split_and!; try (unfold slot, NSLOTS; lia); vm_compute; reflexivity.
Qed.

Lemma fsys_with : cache s files -> fsys own s files dir_map.
Proof.
  intros HC. split.
  - split; [exact store_with|exact HC].
  - exists root_inode. split_and!; try done. by apply root_models.
  - intros ino i H Hr. each_file H; [done|..]; (split; vm_compute; reflexivity).
  - intros name ino k. unfold dir_map. rewrite lookup_insert_Some, lookup_singleton_Some.
    intros [[_ [= <- _]]|[_ [_ [= <- _]]]]; (split; [done|eexists; reflexivity]).
  - intros ino i H Hl. each_file H; done.
Qed.
End Consistent.

Lemma closed_fsys : fsys own closed files dir_map.
Proof.
  apply fsys_with. split.
  - split; [constructor|]. intros a. split; [intros H; by apply not_elem_of_nil in H|intros [v H]; done].
  - intros a v H. done.
  - intros a b va vb H. done.
  - intros ino i H _. each_file H; vm_compute; reflexivity.
Qed.

(** Only the root directory is open. *)
Definition idle : sfs_fs := with_vnodes [200] {[200 := the_dir]}.
Lemma idle_case a v : svs idle !! a = Some v -> (a, v) = (200, the_dir).
Proof. unfold idle, with_vnodes. cbn [svs]. by intros [<- <-]%lookup_singleton_Some. Qed.
Lemma idle_fsys : fsys own idle files dir_map.
Proof.
  apply fsys_with. split.
  - split; [apply NoDup_singleton|]. intros a. change (sfs_vnodes _) with [200]. rewrite list_elem_of_singleton. split.
    + intros ->. eexists. reflexivity.
    + intros [v H]. by apply idle_case in H as [= -> _].
  - intros a v H. apply idle_case in H as [= -> ->]. split; [reflexivity|]. split; [cbn; lia|]. intros _. vm_compute. reflexivity.
  - intros a b va vb Ha Hb. apply idle_case in Ha as [= -> _], Hb as [= -> _]. done.
  - intros ino i H _. each_file H; vm_compute; reflexivity.
Qed.

Lemma vnodes_case a v : svs volume !! a = Some v -> (a, v) = (100, the_file) \/ (a, v) = (200, the_dir) \/ (a, v) = (300, sparse).
Proof.
  unfold volume. cbn [svs]. rewrite !lookup_insert_Some, lookup_singleton_Some. intros [[<- <-]|[_ [[<- <-]|[_ [<- <-]]]]]; auto.
Qed.

Lemma volume_fsys : fsys own volume files dir_map.
Proof.
  apply (fsys_with [100; 200; 300] {[100 := the_file; 200 := the_dir; 300 := sparse]}). split.
  - split; [apply (bool_decide_eq_true_1 (NoDup [100; 200; 300])); vm_compute; reflexivity|]. intros a. change (sfs_vnodes _) with [100; 200; 300]. split.
    + rewrite !elem_of_cons. intros [->|[->|[->|H]]]; [eexists; reflexivity..|by apply not_elem_of_nil in H].
    + intros [v H]. apply vnodes_case in H as [[= -> ->]|[[= -> ->]|[= -> ->]]]; repeat constructor.
  - intros a v H. apply vnodes_case in H as [[= -> ->]|[[= -> ->]|[= -> ->]]]; (split; [reflexivity|]; split; [cbn; lia|]; intros _; vm_compute; reflexivity).
  - intros a b va vb Ha Hb. apply vnodes_case in Ha as [[= -> ->]|[[= -> ->]|[= -> ->]]], Hb as [[= -> ->]|[[= -> ->]|[= -> ->]]]; done.
  - intros ino i H _. each_file H; vm_compute; reflexivity.
Qed.
Lemma volume_root : root_at volume 200 the_dir.
Proof. done. Qed.
Lemma idle_root : root_at idle 200 the_dir.
Proof. done. Qed.
Lemma idle_not_open : ~ is_open idle 3.
Proof. intros (a & w & H & Hw). by apply idle_case in H as [= _ ->]. Qed.

(** ** Runs *)

Lemma creat_runs : returns (0, 0x80001000) (@sfs_creat good_disk 0 heap 200 name_b true) volume = true.
Proof. vm_compute. reflexivity. Qed.
Lemma link_runs : returns 0 (@sfs_link good_disk 0 200 name_b 100) volume = true.
Proof. vm_compute. reflexivity. Qed.
Lemma remove_runs : returns 0 (@sfs_remove good_disk 0 heap 200 name_a) idle = true.
Proof. vm_compute. reflexivity. Qed.
Lemma rename_runs : returns 0 (@sfs_rename good_disk 0 heap 200 name_a 200 name_b) volume = true.
Proof. vm_compute. reflexivity. Qed.
Lemma lookup_runs : returns (0, 0x80001000) (@sfs_lookup good_disk 0 heap 200 name_a) idle = true.
Proof. vm_compute. reflexivity. Qed.
Lemma close_runs : returns tt (@vnode_decref good_disk 0 100) volume = true.
Proof. vm_compute. reflexivity. Qed.
Lemma reopen_runs : returns (0, 0x80001000) (@sfs_lookup good_disk 0 heap 200 name_a) (after (@vnode_decref good_disk 0 100) volume) = true.
Proof. vm_compute. reflexivity. Qed.
Definition plenty : mount_memory := mkMem true true true true.

#[local] Opaque volume idle closed.


Lemma sfs_link_correct_witness : exists s' F' k v', @sfs_link good_disk 0 200 name_b 100 volume = Done 0 s' /\
  fsys own s' F' (<[name_b := (3, k)]> dir_map) /\ svs s' !! 100 = Some v' /\ sfi_linkcount (sv_i v') = 2.
Proof.
  destruct (@sfs_link_correct good_disk 0 good_laws heap heap_laws own volume files dir_map 200 the_dir name_b 100 the_file volume_fsys volume_root eq_refl)
    as (r & s' & F' & m' & He & Hf & _ & _ & _ & Hr); [repeat constructor; lia|].
  pose proof (returns_Done _ _ _ _ _ link_runs He) as ->.
  destruct Hr as [(_ & _ & _ & k & v' & -> & Hg & _ & Hl)|[[[E _]|[[E _]|[[E _]|[[E _]|[[E _]|[[E _]|[E _]]]]]]] _]]; [|discriminate E..].
  exists s', F', k, v'. split; [exact He|]. split; [exact Hf|]. split; [exact Hg|exact Hl].
Defined.

Lemma sfs_lookup_correct_witness : exists s' v, @sfs_lookup good_disk 0 heap 200 name_a idle = Done (0, 0x80001000) s' /\
  fsys own s' files dir_map /\ svs s' !! 0x80001000 = Some v /\ sv_ino v = 3 /\ vn_refcount v = 1.
Proof.
  destruct (@sfs_lookup_correct good_disk 0 good_laws heap heap_laws own idle files dir_map 200 the_dir name_a idle_fsys idle_root) as (r & sv & s' & He & Hf & _ & _ & Hr).
  destruct (proj1 (pair_equal_spec r 0 sv 0x80001000) (returns_Done _ _ _ _ _ lookup_runs He)) as [-> ->].
  destruct Hr as [(_ & ino & k & v & Hm & Hg & Hv & _ & Hc)|[[[E _]|[[E _]|[E _]]] _]]; [|discriminate E..].
  exists s', v. split; [exact He|]. split; [exact Hf|]. split; [exact Hg|]. split; [rewrite Hv; injection Hm as <- _; reflexivity|exact Hc].
Defined.



Lemma sfs_write_truncate_volume_witness :
  (exists r n s' v' u', @sfs_write good_disk 0 100 writing volume = Done (r, u') s' /\ (r = 0 -> Z.of_nat n = 700) /\
     fsys own s' (<[3 := sv_i v']> files) dir_map) /\
  (exists r s' v', @sfs_truncate good_disk 0 100 0 volume = Done r s' /\ fsys own s' (<[3 := sv_i v']> files) dir_map /\ (r = 0 -> sfi_size (sv_i v') = 0)).
Proof.
  destruct (@sfs_write_truncate_volume good_disk 0 good_laws heap heap_laws own volume files dir_map 100 the_file volume_fsys eq_refl ltac:(discriminate)) as [Hw Ht]. split.
  - destruct (Hw writing) as (r & n & s' & v' & u' & He & Hn & Hf & _); [apply request_ok; lia|split; vm_compute; congruence|reflexivity|].
    exists r, n, s', v', u'. split; [exact He|]. split; [exact Hn|exact Hf].
  - destruct (Ht 0) as (r & s' & v' & He & _ & Hf & _ & _ & _ & Hr); [vm_compute; split; congruence|].
    exists r, s', v'. split; [exact He|]. split; [exact Hf|]. intros H0. exact (proj1 (Hr H0)).
Defined.

Lemma sfs_reopen_roundtrip_witness : let s1 := after (@vnode_decref good_disk 0 100) volume in let s2 := after (@sfs_lookup good_disk 0 heap 200 name_a) s1 in
  exists v', svs s2 !! 0x80001000 = Some v' /\ sv_i v' = file_inode /\ forall x, 0 <= x < FILE_MAX -> fbyte s2 (sv_i v') x = fbyte volume file_inode x.
Proof.
  intros s1 s2. destruct (@sfs_reopen_roundtrip good_disk 0 good_laws heap heap_laws own volume files dir_map 200 the_dir 100 the_file name_a 0 s1 0x80001000 s2 volume_fsys volume_root eq_refl eq_refl)
    as (v' & Hg & _ & Hi & Hb); [exact (returns_runs _ _ _ close_runs)|exact (returns_runs _ _ _ reopen_runs)|].
  exists v'. split; [exact Hg|]. split; [exact Hi|exact Hb].
Defined.

Lemma sfs_sync_correct_witness : exists s', @sfs_sync good_disk 0 volume = Done 0 s' /\ fsys own s' files dir_map /\ block s' 3 = dinode_bytes file_inode.
Proof.
  destruct (@sfs_sync_correct good_disk 0 own volume files dir_map volume_fsys) as (s' & He & Hf & _ & _ & Hb & _).
  exists s'. split; [exact He|]. split; [exact Hf|]. exact (Hb 3 file_inode eq_refl).
Defined.

Lemma sfs_remount_roundtrip_witness : exists s1 r o d', @sfs_sync good_disk 0 closed = Done 0 s1 /\ @sfs_domount good_disk 0 plenty (sfs_device s1) = Done (r, o) d' /\
  ((exists s2, o = Some s2 /\ fsys own s2 files dir_map) \/ r = EIO).
Proof.
  destruct (@sfs_remount_roundtrip good_disk 0 good_laws own closed files dir_map plenty closed_fsys eq_refl) as (s1 & He & _ & r & o & d' & Hm & Hr).
  exists s1, r, o, d'. split; [exact He|]. split; [exact Hm|]. destruct Hr as [(_ & s2 & -> & _ & Hf & _)|[[[E _]|[_ E]] _]]; [left; exists s2; split; [reflexivity|exact Hf]|right; exact E|discriminate E].
Defined.

End ExampleTree.
