(* ===== verification/Vnode.v ===== *)
(** * Vnodes: the interface between the VFS layer and the file systems

    kern/include/vnode.h, kern/include/fs.h, kern/include/device.h and kern/vfs/vfsfail.c:
    the operations of a vnode as a table of functions, the operations of a file system and
    of a device as classes.  A file system is a type of states; its vnodes are addresses,
    and its operations are computations on its state.  A [struct vnode] is known to the
    VFS layer by the file system it belongs to ([vn_fs]) and its address there; the vnodes
    of devices have no file system. *)
From S2P Require Import Prelude Copyinout Uio Lhd Sfs SfsVnops.
Import Uio Sfs SfsVnops.

Module Vnode.

Definition EXDEV : Z := 24.
Definition ENODEV : Z := 25.

Definition O_WRONLY : Z := 1.
Definition O_RDWR : Z := 2.
Definition O_CREAT : Z := 4.
Definition O_EXCL : Z := 8.
Definition O_TRUNC : Z := 16.
Definition S_IFCHR : Z := 0x6000.
Definition S_IFBLK : Z := 0x7000.
Definition NAME_MAX : Z := 255.

(** ** struct vnode_ops

    A name is a C string without its terminator.  [vop_creat] and [vop_lookup] return
    [(result, *ret)], [vop_gettype] [(result, *ret)], [vop_lookparent] [(result, *ret,
    buf)]; the last argument of [vop_lookparent] is the length of the buffer. *)
Record vnode_ops (S : Type) : Type := mkOps {
  vop_eachopen : Z -> Z -> M S Z;
  vop_read : Z -> uio -> M S (Z * uio);
  vop_readlink : Z -> uio -> M S (Z * uio);
  vop_write : Z -> uio -> M S (Z * uio);
  vop_gettype : Z -> M S (Z * Z);
  vop_fsync : Z -> M S Z;
  vop_truncate : Z -> Z -> M S Z;
  vop_namefile : Z -> uio -> M S (Z * uio);
  vop_creat : Z -> list Z -> bool -> M S (Z * Z);
  vop_symlink : Z -> list Z -> list Z -> M S Z;
  vop_mkdir : Z -> list Z -> M S Z;
  vop_link : Z -> list Z -> Z -> M S Z;
  vop_remove : Z -> list Z -> M S Z;
  vop_rmdir : Z -> list Z -> M S Z;
  vop_rename : Z -> list Z -> Z -> list Z -> M S Z;
  vop_lookup : Z -> list Z -> M S (Z * Z);
  vop_lookparent : Z -> list Z -> Z -> M S (Z * Z * list Z)
}.
Arguments mkOps {S}.
Arguments vop_eachopen {S}. Arguments vop_read {S}. Arguments vop_readlink {S}. Arguments vop_write {S}.
Arguments vop_gettype {S}. Arguments vop_fsync {S}. Arguments vop_truncate {S}. Arguments vop_namefile {S}.
Arguments vop_creat {S}. Arguments vop_symlink {S}. Arguments vop_mkdir {S}. Arguments vop_link {S}.
Arguments vop_remove {S}. Arguments vop_rmdir {S}. Arguments vop_rename {S}. Arguments vop_lookup {S}. Arguments vop_lookparent {S}.

(** ** vfsfail.c: operations that fail *)
Section Vfsfail.
Context {S : Type}.
Definition vopfail_uio_notdir (vn : Z) (u : uio) : M S (Z * uio) := mret (ENOTDIR, u).
Definition vopfail_uio_isdir (vn : Z) (u : uio) : M S (Z * uio) := mret (EISDIR, u).
Definition vopfail_uio_inval (vn : Z) (u : uio) : M S (Z * uio) := mret (EINVAL, u).
Definition vopfail_truncate_isdir (vn pos : Z) : M S Z := mret EISDIR.
Definition vopfail_creat_notdir (vn : Z) (name : list Z) (excl : bool) : M S (Z * Z) := mret (ENOTDIR, 0).
Definition vopfail_symlink_notdir (vn : Z) (contents name : list Z) : M S Z := mret ENOTDIR.
Definition vopfail_symlink_nosys (vn : Z) (contents name : list Z) : M S Z := mret ENOSYS.
Definition vopfail_mkdir_notdir (vn : Z) (name : list Z) : M S Z := mret ENOTDIR.
Definition vopfail_mkdir_nosys (vn : Z) (name : list Z) : M S Z := mret ENOSYS.
Definition vopfail_link_notdir (dir : Z) (name : list Z) (file : Z) : M S Z := mret ENOTDIR.
Definition vopfail_string_notdir (vn : Z) (name : list Z) : M S Z := mret ENOTDIR.
Definition vopfail_string_nosys (vn : Z) (name : list Z) : M S Z := mret ENOSYS.
Definition vopfail_rename_notdir (fromdir : Z) (fromname : list Z) (todir : Z) (toname : list Z) : M S Z := mret ENOTDIR.
Definition vopfail_rename_nosys (fromdir : Z) (fromname : list Z) (todir : Z) (toname : list Z) : M S Z := mret ENOSYS.
Definition vopfail_link_nosys (dir : Z) (name : list Z) (file : Z) : M S Z := mret ENOSYS.
Definition vopfail_lookup_notdir (vn : Z) (path : list Z) : M S (Z * Z) := mret (ENOTDIR, 0).
Definition vopfail_lookparent_notdir (vn : Z) (path : list Z) (len : Z) : M S (Z * Z * list Z) := mret (ENOTDIR, 0, []).
End Vfsfail.

(** ** struct fs and struct device

    [F] are the states of a file system, [D] those of a device.  [vn_ops e a] is the table
    of the vnode at [a], if there is one; [VOP_INCREF] and [VOP_DECREF] are kern/vfs/vnode.c
    with the file system's [vop_reclaim].  A mounted file system has its device's state. *)
Class FileSystem (F D : Type) : Type := {
  vn_ops : F -> Z -> option (vnode_ops F);
  fs_incref : Z -> M F unit;
  fs_decref : Z -> M F unit;
  FSOP_SYNC : M F Z;
  FSOP_GETVOLNAME : F -> option (list Z);
  FSOP_GETROOT : M F (Z * Z);
  FSOP_UNMOUNT : M F Z;
  fs_device : F -> option D;
  set_fs_device : D -> F -> F
}.

Class DeviceOps (D : Type) : Type := {
  DEVOP_EACHOPEN : D -> Z -> Z;
  DEVOP_IO : uio -> M D (Z * uio)
}.

(** A [struct vnode *]. *)
Inductive vnode : Type :=
| DevVnode (a : Z)
| FsVnode (fs a : Z).

#[global] Instance vnode_eq_dec : EqDecision vnode.
Proof. solve_decision. Defined.
#[global] Instance vnode_countable : Countable vnode.
Proof.
  apply (inj_countable' (fun v => match v with DevVnode a => inl a | FsVnode f a => inr (f, a) end) (fun x => match x with inl a => DevVnode a | inr (f, a) => FsVnode f a end)).
  by intros [].
Defined.

(** NULL: no device vnode is at address 0. *)
Definition NULL : vnode := DevVnode 0.

End Vnode.
