(* ===== verification/Semfs.v ===== *)
(** * Userland semaphores: kern/fs/semfs

    semfs.h, semfs_obj.c, semfs_vnops.c and semfs_fsops.c, with the reference counts of
    kern/vfs/vnode.c.  A semaphore, a directory entry and a vnode are objects of the kernel
    heap; the three tables of a semfs are arrays of pointers ([Array] shows that an array is
    the list of its elements), in which 0 is NULL.  Reading is P, writing is V: the functions
    on one semaphore are written on the semaphore alone, so that [SemfsThreads] can let
    threads interleave between them.  [semfs_tablelock] and [semfs_dirlock] make the table
    operations sections; here one runs at a time. *)
From S2P Require Import Prelude Wp Copyinout Uio Lhd Sfs SfsVnops Vnode.
Import Copyinout Uio Sfs SfsVnops Vnode.

Module Semfs.

Definition SEMFS_ROOTDIR : Z := 0xffffffff.

(** [sems_cv]: the threads asleep on the condition variable, in order. *)
Record semfs_sem : Type := mkSem { sems_count : Z; sems_hasvnode : bool; sems_linked : bool; sems_cv : list nat }.
Record semfs_direntry : Type := mkDent { semd_name : list Z; semd_semnum : Z }.
(** [semv_refcount] is the count of the abstract vnode inside. *)
Record semfs_vnode : Type := mkSemv { semv_semnum : Z; semv_refcount : Z }.

(** [sf_asks] counts the requests for memory. *)
Record semfs : Type := mkSemfs {
  semfs_vnodes : list Z; semfs_sems : list Z; semfs_dents : list Z;
  sem_heap : gmap Z semfs_sem; dent_heap : gmap Z semfs_direntry; semv_heap : gmap Z semfs_vnode; sf_asks : nat }.

Definition set_vnodes (x : list Z) (s : semfs) : semfs := mkSemfs x (semfs_sems s) (semfs_dents s) (sem_heap s) (dent_heap s) (semv_heap s) (sf_asks s).
Definition set_sems (x : list Z) (s : semfs) : semfs := mkSemfs (semfs_vnodes s) x (semfs_dents s) (sem_heap s) (dent_heap s) (semv_heap s) (sf_asks s).
Definition set_dents (x : list Z) (s : semfs) : semfs := mkSemfs (semfs_vnodes s) (semfs_sems s) x (sem_heap s) (dent_heap s) (semv_heap s) (sf_asks s).
Definition set_sem_heap (x : gmap Z semfs_sem) (s : semfs) : semfs := mkSemfs (semfs_vnodes s) (semfs_sems s) (semfs_dents s) x (dent_heap s) (semv_heap s) (sf_asks s).
Definition set_dent_heap (x : gmap Z semfs_direntry) (s : semfs) : semfs := mkSemfs (semfs_vnodes s) (semfs_sems s) (semfs_dents s) (sem_heap s) x (semv_heap s) (sf_asks s).
Definition set_semv_heap (x : gmap Z semfs_vnode) (s : semfs) : semfs := mkSemfs (semfs_vnodes s) (semfs_sems s) (semfs_dents s) (sem_heap s) (dent_heap s) x (sf_asks s).

(** ** One semaphore *)

(** [cv_signal] takes the first thread off the condition variable, [cv_broadcast] all; the
    threads woken are the second result. *)
Definition semfs_wakeup (sem : semfs_sem) (newcount : Z) : semfs_sem * list nat :=
  if (0 <? sems_count sem) || (newcount =? 0) then (sem, [])
  else if newcount =? 1 then
    match sems_cv sem with
    | [] => (sem, [])
    | t :: cv => (mkSem (sems_count sem) (sems_hasvnode sem) (sems_linked sem) cv, [t])
    end
  else (mkSem (sems_count sem) (sems_hasvnode sem) (sems_linked sem) [], sems_cv sem).

Definition set_count (x : Z) (sem : semfs_sem) : semfs_sem := mkSem x (sems_hasvnode sem) (sems_linked sem) (sems_cv sem).
Definition set_hasvnode (x : bool) (sem : semfs_sem) : semfs_sem := mkSem (sems_count sem) x (sems_linked sem) (sems_cv sem).
Definition set_linked (x : bool) (sem : semfs_sem) : semfs_sem := mkSem (sems_count sem) (sems_hasvnode sem) x (sems_cv sem).

(** The loop of [semfs_read] from where the thread gets the lock to where it returns or waits:
    [true] when it returns.  One turn is enough: it ends with nothing left to take or nothing
    left. *)
Definition semfs_read_section (sem : semfs_sem) (u : uio) : semfs_sem * uio * bool :=
  if 0 <? uio_resid u then
    let '(sem, u) :=
      if 0 <? sems_count sem then
        let consume := if sems_count sem <? uio_resid u then sems_count sem else uio_resid u in
        (set_count (sems_count sem - consume) sem, set_resid (uio_resid u - consume) (set_offset (uio_offset u + consume) u))
      else (sem, u) in
    (sem, u, uio_resid u =? 0)
  else (sem, u, true).

(** [semfs_write]: the result, and the threads woken. *)
Definition semfs_write_section (sem : semfs_sem) (u : uio) : Z * semfs_sem * uio * list nat :=
  if 0 <? uio_resid u then
    let newcount := u32 (sems_count sem + uio_resid u) in
    if newcount <? sems_count sem then (EFBIG, sem, u, [])
    else
      let '(sem, woken) := semfs_wakeup sem newcount in
      (0, set_count newcount sem, set_resid 0 (set_offset (uio_offset u + uio_resid u) u), woken)
  else (0, sem, u, []).

Definition semfs_truncate_section (sem : semfs_sem) (newcount : Z) : semfs_sem * list nat :=
  let '(sem, woken) := semfs_wakeup sem newcount in (set_count newcount sem, woken).

(** ** Objects *)

(** The kernel heap as semfs sees it: the address of the [n]-th object asked for, given those
    that are there (0 is NULL), and whether the [n]-th request for something whose address does
    not matter (a lock, a condition variable, a copy of a name, a larger array) is served. *)
Class SemfsMemory : Type := {
  sf_kmalloc : nat -> gset Z -> Z;
  sf_room : nat -> bool
}.

Section Semfs.
Context {SM : SemfsMemory} (curas : Z).
(** What the other threads do while this one waits for a semaphore. *)
Context (others : M semfs unit).

Definition ask_object (live : semfs -> gset Z) : M semfs Z := fun s =>
  Done (sf_kmalloc (sf_asks s) (live s)) (mkSemfs (semfs_vnodes s) (semfs_sems s) (semfs_dents s) (sem_heap s) (dent_heap s) (semv_heap s) (S (sf_asks s))).
Definition ask_room : M semfs bool := fun s =>
  Done (sf_room (sf_asks s)) (mkSemfs (semfs_vnodes s) (semfs_sems s) (semfs_dents s) (sem_heap s) (dent_heap s) (semv_heap s) (S (sf_asks s))).

Definition get_sem (p : Z) : M semfs semfs_sem := s ← get; deref "sem" (sem_heap s !! p).
Definition put_sem (p : Z) (x : semfs_sem) : M semfs unit := modify (fun s => set_sem_heap (<[p := x]> (sem_heap s)) s).
Definition get_dent (p : Z) : M semfs semfs_direntry := s ← get; deref "dent" (dent_heap s !! p).
Definition get_semv (p : Z) : M semfs semfs_vnode := s ← get; deref "semv" (semv_heap s !! p).
Definition put_semv (p : Z) (x : semfs_vnode) : M semfs unit := modify (fun s => set_semv_heap (<[p := x]> (semv_heap s)) s).

(** [semfs_semarray_get] and [_set]: an index past the end fails the array's assertion. *)
Definition sems_get (i : Z) : M semfs Z :=
  l ← gets semfs_sems;
  kassert "index < a->num" (i <? Z.of_nat (length l));; deref "array" (l !! Z.to_nat i).
Definition sems_set (i p : Z) : M semfs unit :=
  l ← gets semfs_sems;
  kassert "index < a->num" (i <? Z.of_nat (length l));; modify (set_sems (<[Z.to_nat i := p]> l)).
Definition dents_set (i : nat) (p : Z) : M semfs unit :=
  l ← gets semfs_dents;
  kassert "index < a->num" (Z.of_nat i <? Z.of_nat (length l));; modify (set_dents (<[i := p]> l)).

(** *** semfs_obj.c *)

(** The semaphore, its lock, its condition variable; the names go through buffers of 32 bytes. *)
Definition semfs_sem_create : M semfs Z :=
  p ← ask_object (fun s => dom (sem_heap s));
  if p =? 0 then mret 0 else
  lock ← ask_room;
  if negb lock then mret 0 else
  cv ← ask_room;
  if negb cv then mret 0 else
  put_sem p (mkSem 0 false false []);; mret p.

(** [cv_destroy] asserts that nobody waits. *)
Definition semfs_sem_destroy (p : Z) : M semfs unit :=
  sem ← get_sem p;
  kassert "wchan_isempty" (bool_decide (sems_cv sem = []));;
  modify (fun s => set_sem_heap (delete p (sem_heap s)) s).

Fixpoint first_null (l : list Z) (i : nat) : option nat :=
  match l with [] => None | p :: l' => if p =? 0 then Some i else first_null l' (S i) end.

(** [(result, *ret)] *)
Definition semfs_sem_insert (p : Z) : M semfs (Z * Z) :=
  l ← gets semfs_sems;
  if Z.of_nat (length l) =? SEMFS_ROOTDIR then mret (ENOSPC, 0) else
  match first_null l 0 with
  | Some i => sems_set (Z.of_nat i) p;; mret (0, Z.of_nat i)
  | None =>
      room ← ask_room;
      if negb room then mret (ENOMEM, 0) else modify (set_sems (l ++ [p]));; mret (0, Z.of_nat (length l))
  end.

Definition semfs_direntry_create (name : list Z) (semnum : Z) : M semfs Z :=
  p ← ask_object (fun s => dom (dent_heap s));
  if p =? 0 then mret 0 else
  room ← ask_room;
  if negb room then mret 0 else
  modify (fun s => set_dent_heap (<[p := mkDent name semnum]> (dent_heap s)) s);; mret p.

Definition semfs_direntry_destroy (p : Z) : M semfs unit :=
  _ ← get_dent p; modify (fun s => set_dent_heap (delete p (dent_heap s)) s).

(** *** Vnodes *)

Definition semfs_vnode_create (semnum : Z) : M semfs Z :=
  p ← ask_object (fun s => dom (semv_heap s));
  if p =? 0 then mret 0 else put_semv p (mkSemv semnum 1);; mret p.
Definition semfs_vnode_destroy (p : Z) : M semfs unit :=
  v ← get_semv p;
  kassert "vn->vn_refcount == 1" (semv_refcount v =? 1);;
  modify (fun s => set_semv_heap (delete p (semv_heap s)) s).

Definition semfs_incref (p : Z) : M semfs unit := v ← get_semv p; put_semv p (mkSemv (semv_semnum v) (semv_refcount v + 1)).

Fixpoint find_semv (semnum : Z) (l : list Z) : M semfs (option Z) :=
  match l with
  | [] => mret None
  | p :: l' => v ← get_semv p; if semv_semnum v =? semnum then mret (Some p) else find_semv semnum l'
  end.

(** [(result, *ret)] *)
Definition semfs_getvnode (semnum : Z) : M semfs (Z * Z) :=
  l ← gets semfs_vnodes;
  found ← find_semv semnum l;
  match found with
  | Some p => semfs_incref p;; mret (0, p)
  | None =>
      p ← semfs_vnode_create semnum;
      if p =? 0 then mret (ENOMEM, 0) else
      room ← ask_room;
      if negb room then semfs_vnode_destroy p;; mret (ENOMEM, 0) else
      modify (set_vnodes (l ++ [p]));;
      (if negb (semnum =? SEMFS_ROOTDIR) then
         a ← sems_get semnum;
         kassert "sem != NULL" (negb (a =? 0));;
         sem ← get_sem a;
         kassert "sem->sems_hasvnode == false" (negb (sems_hasvnode sem));;
         put_sem a (set_hasvnode true sem)
       else mret tt);;
      mret (0, p)
  end.

Definition semfs_reclaim (p : Z) : M semfs Z :=
  v ← get_semv p;
  if 1 <? semv_refcount v then put_semv p (mkSemv (semv_semnum v) (semv_refcount v - 1));; mret EBUSY else
  l ← gets semfs_vnodes;
  (match list_find (eq p) l with Some (i, _) => modify (set_vnodes (delete i l)) | None => mret tt end);;
  (if negb (semv_semnum v =? SEMFS_ROOTDIR) then
     a ← sems_get (semv_semnum v);
     sem ← get_sem a;
     kassert "sem->sems_hasvnode" (sems_hasvnode sem);;
     put_sem a (set_hasvnode false sem);;
     if negb (sems_linked sem) then sems_set (semv_semnum v) 0;; semfs_sem_destroy a else mret tt
   else mret tt);;
  semfs_vnode_destroy p;;
  mret 0.

(** kern/vfs/vnode.c: [VOP_DECREF]. *)
Definition semfs_decref (p : Z) : M semfs unit :=
  v ← get_semv p;
  kassert "vn->vn_refcount > 0" (0 <? semv_refcount v);;
  if 1 <? semv_refcount v then put_semv p (mkSemv (semv_semnum v) (semv_refcount v - 1))
  else _ ← semfs_reclaim p; mret tt.

(** *** Vnode operations *)

Definition semfs_eachopen (p openflags : Z) : M semfs Z :=
  v ← get_semv p;
  if semv_semnum v =? SEMFS_ROOTDIR then
    if negb (Z.land openflags O_ACCMODE =? O_RDONLY) then mret EISDIR
    else if negb (Z.land openflags O_APPEND =? 0) then mret EISDIR else mret 0
  else mret 0.

Definition semfs_gettype (p : Z) : M semfs (Z * Z) :=
  v ← get_semv p; mret (0, if semv_semnum v =? SEMFS_ROOTDIR then S_IFDIR else S_IFREG).
Definition semfs_isseekable (p : Z) : M semfs bool := v ← get_semv p; mret (semv_semnum v =? SEMFS_ROOTDIR).
Definition semfs_fsync (p : Z) : M semfs Z := mret 0.
Definition semfs_ioctl (p op data : Z) : M semfs Z := mret EINVAL.

Definition semfs_getsembynum (semnum : Z) : M semfs Z := sems_get semnum.
Definition semfs_getsem (p : Z) : M semfs Z := v ← get_semv p; semfs_getsembynum (semv_semnum v).

(** [(st_size, st_nlink)], the fields that change. *)
Definition semfs_semstat (p : Z) : M semfs (Z * Z) :=
  a ← semfs_getsem p; sem ← get_sem a; mret (sems_count sem, if sems_linked sem then 1 else 0).
Definition semfs_dirstat (p : Z) : M semfs (Z * Z) := l ← gets semfs_dents; mret (Z.of_nat (length l), 2).

Fixpoint semfs_read_loop (fuel : nat) (a : Z) (u : uio) : M semfs (Z * uio) :=
  match fuel with
  | O => fun _ => OutOfFuel
  | S f =>
      sem ← get_sem a;
      let '(sem, u, returns) := semfs_read_section sem u in
      put_sem a sem;;
      if returns : bool then mret (0, u) else others;; semfs_read_loop f a u
  end.
(** The number of times the thread may wait bounds the loop. *)
Definition semfs_read (waits : nat) (p : Z) (u : uio) : M semfs (Z * uio) := a ← semfs_getsem p; semfs_read_loop (S waits) a u.

Definition semfs_write (p : Z) (u : uio) : M semfs (Z * uio) :=
  a ← semfs_getsem p;
  sem ← get_sem a;
  let '(result, sem, u, woken) := semfs_write_section sem u in
  put_sem a sem;; mret (result, u).

Definition semfs_truncate (p len : Z) : M semfs Z :=
  if len <? 0 then mret EINVAL
  else if 2 ^ 32 - 1 <? len then mret EFBIG
  else
    a ← semfs_getsem p;
    sem ← get_sem a;
    let '(sem, woken) := semfs_truncate_section sem len in
    put_sem a sem;; mret 0.

Definition semfs_getdirentry (p : Z) (u : uio) : M semfs (Z * uio) :=
  kassert "uio->uio_offset >= 0" (0 <=? uio_offset u);;
  let pos := u32 (uio_offset u) in
  l ← gets semfs_dents;
  if Z.of_nat (length l) <=? pos then mret (0, u) else
  a ← deref "array" (l !! Z.to_nat pos);
  d ← get_dent a;
  match uiomove curas (semd_name d) (Z.of_nat (length (semd_name d))) u with
  | Done (r, _) u' => mret (r, u')
  | Halt r => halt r
  | Exited _ => leave
  | OutOfFuel => fun _ => OutOfFuel
  end.

Definition semfs_namefile (p : Z) (u : uio) : M semfs (Z * uio) := mret (0, u).

Definition dot : list Z := [46].
Definition dotdot : list Z := [46; 46].

(** The search of [semfs_creat]: the entry with the name, or the first slot that is empty. *)
Fixpoint creat_scan (name : list Z) (l : list Z) (i : nat) (empty : option nat) : M semfs (semfs_direntry + option nat) :=
  match l with
  | [] => mret (inr empty)
  | p :: l' =>
      if p =? 0 then creat_scan name l' (S i) (match empty with None => Some i | _ => empty end) else
      d ← get_dent p;
      if bool_decide (semd_name d = name) then mret (inl d) else creat_scan name l' (S i) empty
  end.

(** The end of [semfs_creat], from the new semaphore on, with its clean-up; where the code
    returns without having set [*resultvn], the vnode is 0. *)
Definition creat_entry (name : list Z) (sem : Z) (empty : option nat) : M semfs (Z * Z) :=
  '(result, semnum) ← semfs_sem_insert sem;
  if negb (result =? 0) then semfs_sem_destroy sem;; mret (result, 0) else
  dent ← semfs_direntry_create name semnum;
  if dent =? 0 then sems_set semnum 0;; semfs_sem_destroy sem;; mret (result, 0) else
  '(result, slot) ←
    (match empty with
     | Some i => dents_set i dent;; mret (0, i)
     | None =>
         l ← gets semfs_dents;
         room ← ask_room;
         if negb room then mret (ENOMEM, 0%nat) else modify (set_dents (l ++ [dent]));; mret (0, length l)
     end);
  if negb (result =? 0) then
    semfs_direntry_destroy dent;; sems_set semnum 0;; semfs_sem_destroy sem;; mret (result, 0)
  else
  '(result, vn) ← semfs_getvnode semnum;
  if negb (result =? 0) then
    dents_set slot 0;; semfs_direntry_destroy dent;; sems_set semnum 0;; semfs_sem_destroy sem;; mret (result, 0)
  else
  x ← get_sem sem;
  put_sem sem (set_linked true x);;
  mret (0, vn).

Definition semfs_creat (dir : Z) (name : list Z) (excl : bool) : M semfs (Z * Z) :=
  if bool_decide (name = dot) || bool_decide (name = dotdot) then mret (EEXIST, 0) else
  l ← gets semfs_dents;
  found ← creat_scan name l 0 None;
  match found with
  | inl d => if excl then mret (EEXIST, 0) else semfs_getvnode (semd_semnum d)
  | inr empty =>
      sem ← semfs_sem_create;
      if sem =? 0 then mret (ENOMEM, 0) else creat_entry name sem empty
  end.

(** The entry with the name: its slot and its address. *)
Fixpoint find_dent (name : list Z) (l : list Z) (i : nat) : M semfs (option (nat * Z)) :=
  match l with
  | [] => mret None
  | p :: l' =>
      if p =? 0 then find_dent name l' (S i) else
      d ← get_dent p;
      if bool_decide (name = semd_name d) then mret (Some (i, p)) else find_dent name l' (S i)
  end.

Definition semfs_remove (dir : Z) (name : list Z) : M semfs Z :=
  if bool_decide (name = dot) || bool_decide (name = dotdot) then mret EINVAL else
  l ← gets semfs_dents;
  found ← find_dent name l 0;
  match found with
  | None => mret ENOENT
  | Some (i, p) =>
      d ← get_dent p;
      a ← semfs_getsembynum (semd_semnum d);
      sem ← get_sem a;
      kassert "sem->sems_linked" (sems_linked sem);;
      put_sem a (set_linked false sem);;
      (if negb (sems_hasvnode sem) then sems_set (semd_semnum d) 0;; semfs_sem_destroy a else mret tt);;
      dents_set i 0;;
      semfs_direntry_destroy p;;
      mret 0
  end.

Definition semfs_lookup (dir : Z) (path : list Z) : M semfs (Z * Z) :=
  if bool_decide (path = dot) || bool_decide (path = dotdot) then semfs_incref dir;; mret (0, dir) else
  l ← gets semfs_dents;
  found ← find_dent path l 0;
  match found with
  | None => mret (ENOENT, 0)
  | Some (_, p) => d ← get_dent p; semfs_getvnode (semd_semnum d)
  end.

Definition semfs_lookparent (dir : Z) (path : list Z) (bufmax : Z) : M semfs (Z * Z * list Z) :=
  if bufmax <? Z.of_nat (length path) + 1 then mret (ENAMETOOLONG, 0, [])
  else semfs_incref dir;; mret (0, dir, path).

Definition semfs_dirops : vnode_ops semfs :=
  mkOps semfs_eachopen vopfail_uio_isdir vopfail_uio_isdir vopfail_uio_isdir semfs_gettype semfs_fsync vopfail_truncate_isdir semfs_namefile
    semfs_creat vopfail_symlink_nosys vopfail_mkdir_nosys vopfail_link_nosys semfs_remove vopfail_string_nosys
    vopfail_rename_nosys semfs_lookup semfs_lookparent.
Definition semfs_semops (waits : nat) : vnode_ops semfs :=
  mkOps semfs_eachopen (semfs_read waits) vopfail_uio_inval semfs_write semfs_gettype semfs_fsync semfs_truncate vopfail_uio_notdir
    vopfail_creat_notdir vopfail_symlink_notdir vopfail_mkdir_notdir vopfail_link_notdir vopfail_string_notdir vopfail_string_notdir
    vopfail_rename_notdir vopfail_lookup_notdir vopfail_lookparent_notdir.

(** *** semfs_fsops.c *)

Definition semfs_sync : M semfs Z := mret 0.
Definition semfs_getvolname (s : semfs) : option (list Z) := Some [115; 101; 109].
Definition semfs_getroot : M semfs (Z * Z) :=
  '(result, vn) ← semfs_getvnode SEMFS_ROOTDIR;
  if negb (result =? 0) then mret (result, 0) else mret (0, vn).

Fixpoint destroy_sems (l : list Z) : M semfs unit :=
  match l with [] => mret tt | p :: l' => semfs_sem_destroy p;; destroy_sems l' end.
Fixpoint destroy_dents (l : list Z) : M semfs unit :=
  match l with [] => mret tt | p :: l' => semfs_direntry_destroy p;; destroy_dents l' end.
(** [vnodearray_destroy] asserts that the array is empty. *)
Definition semfs_destroy : M semfs unit :=
  l ← gets semfs_sems; destroy_sems l;; modify (set_sems []);;
  l ← gets semfs_dents; destroy_dents l;; modify (set_dents []);;
  l ← gets semfs_vnodes; kassert "a->num == 0" (Z.of_nat (length l) =? 0).

Definition semfs_unmount : M semfs Z :=
  l ← gets semfs_vnodes;
  if 0 <? Z.of_nat (length l) then mret EBUSY else semfs_destroy;; mret 0.

(** [semfs_create]: the structure, two locks and three arrays. *)
Definition semfs_create (room : nat -> bool) : option semfs :=
  if forallb room (seq 0 6) then Some (mkSemfs [] [] [] ∅ ∅ ∅ 0) else None.

(** The table [semfs_vnode_create] gives a vnode. *)
Definition semfs_ops (waits : nat) (s : semfs) (p : Z) : option (vnode_ops semfs) :=
  v ← semv_heap s !! p; Some (if semv_semnum v =? SEMFS_ROOTDIR then semfs_dirops else semfs_semops waits).

Definition semfs_fsops {D} (waits : nat) : FileSystem semfs D := {|
  vn_ops := semfs_ops waits; fs_incref := semfs_incref; fs_decref := semfs_decref; FSOP_SYNC := semfs_sync; FSOP_GETVOLNAME := semfs_getvolname;
  FSOP_GETROOT := semfs_getroot; FSOP_UNMOUNT := semfs_unmount; fs_device := fun _ => None; set_fs_device := fun _ s => s |}.
End Semfs.

End Semfs.
