(* ===== verification/Vfs.v ===== *)
(** * The VFS layer

    kern/vfs/device.c, kern/vfs/vfslist.c, kern/vfs/vfslookup.c, kern/vfs/vfscwd.c and
    kern/vfs/vfspath.c over the interface of [Vnode].  The state is the table of devices,
    the devices and their vnodes, the mounted file systems, the boot file system's root
    and the current directory of the current process.  [vfs_biglock] serialises these
    functions and is not part of the state (its own model is [Biglock]).  A path is a C string without
    its terminator; the pieces that [getdevice] cuts it into are values of their own, and
    no caller reads the path again. *)
From S2P Require Import Prelude Wp Copyinout Uio Lhd Sfs SfsVnops Vnode.
Import Uio Sfs SfsVnops Vnode.

Module Vfs.

Definition COLON : Z := 58.
Definition SLASH : Z := 47.

(** [kd_fs]: NULL, [SWAP_FS] or a file system. *)
Inductive kfs : Type := NO_FS | SWAP_FS | MOUNTED (fs : Z).
#[global] Instance kfs_eq_dec : EqDecision kfs.
Proof. solve_decision. Defined.

Record knowndev : Type := mkKd {
  kd_name : list Z; kd_rawname : option (list Z); kd_device : option Z; kd_vnode : Z; kd_fs : kfs
}.
Definition set_kd_fs (x : kfs) (kd : knowndev) : knowndev := mkKd (kd_name kd) (kd_rawname kd) (kd_device kd) (kd_vnode kd) x.

(** The vnode of a device. *)
Record dev_vnode : Type := mkDv { dv_refcount : Z; dv_device : option Z }.

Section Vfs.
Context {F D : Type} {FS : FileSystem F D} {DO : DeviceOps D}.

Record device : Type := mkDev { d_blocks : Z; d_blocksize : Z; d_devnumber : Z; d_data : D }.
Definition set_data (x : D) (d : device) : device := mkDev (d_blocks d) (d_blocksize d) (d_devnumber d) x.
Definition set_devnumber (x : Z) (d : device) : device := mkDev (d_blocks d) (d_blocksize d) x (d_data d).

Record vfs : Type := mkVfs {
  knowndevs : list knowndev;
  devices : gmap Z device;
  dev_vnodes : gmap Z dev_vnode;
  fss : gmap Z F;
  bootfs_vnode : option vnode;
  p_cwd : option vnode
}.
Definition set_knowndevs x s := mkVfs x (devices s) (dev_vnodes s) (fss s) (bootfs_vnode s) (p_cwd s).
Definition set_devices x s := mkVfs (knowndevs s) x (dev_vnodes s) (fss s) (bootfs_vnode s) (p_cwd s).
Definition set_dev_vnodes x s := mkVfs (knowndevs s) (devices s) x (fss s) (bootfs_vnode s) (p_cwd s).
Definition set_fss x s := mkVfs (knowndevs s) (devices s) (dev_vnodes s) x (bootfs_vnode s) (p_cwd s).
Definition set_bootfs x s := mkVfs (knowndevs s) (devices s) (dev_vnodes s) (fss s) x (p_cwd s).
Definition set_cwd x s := mkVfs (knowndevs s) (devices s) (dev_vnodes s) (fss s) (bootfs_vnode s) x.

(** ** Parts of the state *)

Definition on_fs {A} (f : Z) (m : M F A) : M vfs A :=
  zoom "struct fs" (fun s => fss s !! f) (fun e s => set_fss (<[f := e]> (fss s)) s) m.

(** The file system that is mounted on a device and has its state. *)
Definition mounted_on (d : Z) (s : vfs) : option Z :=
  kd ← snd <$> list_find (fun kd => kd_device kd = Some d) (knowndevs s);
  match kd_fs kd with MOUNTED f => e ← fss s !! f; fs_device e;; Some f | _ => None end.

(** The state of a device is with the file system that is mounted on it. *)
Definition on_device {A} (d : Z) (m : M D A) : M vfs A :=
  owner ← gets (mounted_on d);
  match owner with
  | Some f => on_fs f (zoom "fs device" fs_device set_fs_device m)
  | None => zoom "struct device" (fun s => d_data <$> devices s !! d) (fun x s => set_devices (alter (set_data x) d (devices s)) s) m
  end.

Definition get_device (d : Z) : M vfs device := s ← get; deref "struct device" (devices s !! d).
Definition get_dv (a : Z) : M vfs dev_vnode := s ← get; deref "struct vnode" (dev_vnodes s !! a).
(** [vn->vn_data] of a device vnode. *)
Definition dv_data (a : Z) : M vfs Z := dv ← get_dv a; deref "struct device" (dv_device dv).
Definition put_dv (a : Z) (x : dev_vnode) : M vfs unit := modify (fun s => set_dev_vnodes (<[a := x]> (dev_vnodes s)) s).

(** ** device.c *)

Definition dev_incref (a : Z) : M vfs unit := dv ← get_dv a; put_dv a (mkDv (dv_refcount dv + 1) (dv_device dv)).

(** [dev_reclaim] does nothing: the last reference stays. *)
Definition dev_decref (a : Z) : M vfs unit :=
  dv ← get_dv a;
  kassert "vn->vn_refcount > 0" (0 <? dv_refcount dv);;
  if 1 <? dv_refcount dv then put_dv a (mkDv (dv_refcount dv - 1) (dv_device dv)) else mret tt.

Definition dev_eachopen (a flags : Z) : M vfs Z :=
  d ← dv_data a;
  if negb (Z.land flags (Z.lor O_CREAT (Z.lor O_TRUNC (Z.lor O_EXCL O_APPEND))) =? 0) then mret EINVAL
  else on_device d (gets (fun x => DEVOP_EACHOPEN x flags)).

Definition dev_tryseek (d : device) (pos : Z) : Z :=
  if 0 <? d_blocks d then
    if negb (Z.rem pos (d_blocksize d) =? 0) then EINVAL
    else if d_blocks d <=? Z.quot pos (d_blocksize d) then EINVAL
    else 0
  else 0.

Definition dev_read (a : Z) (u : uio) : M vfs (Z * uio) :=
  i ← dv_data a; d ← get_device i;
  let result := dev_tryseek d (uio_offset u) in
  if negb (result =? 0) then mret (result, u)
  else
    kassert "uio->uio_rw == UIO_READ" (bool_decide (uio_rw u = UIO_READ));;
    on_device i (DEVOP_IO u).

Definition dev_write (a : Z) (u : uio) : M vfs (Z * uio) :=
  i ← dv_data a; d ← get_device i;
  let result := dev_tryseek d (uio_offset u) in
  if negb (result =? 0) then mret (result, u)
  else
    kassert "uio->uio_rw == UIO_WRITE" (bool_decide (uio_rw u = UIO_WRITE));;
    on_device i (DEVOP_IO u).

Definition dev_gettype (a : Z) : M vfs (Z * Z) :=
  i ← dv_data a; d ← get_device i;
  mret (0, if 0 <? d_blocks d then S_IFBLK else S_IFCHR).

Definition null_fsync (a : Z) : M vfs Z := mret 0.

Definition dev_truncate (a len : Z) : M vfs Z :=
  i ← dv_data a; d ← get_device i;
  if (0 <? d_blocks d) && (u32 (d_blocks d * d_blocksize d) =? len) then mret 0 else mret EINVAL.

Definition dev_namefile (a : Z) (u : uio) : M vfs (Z * uio) := mret (0, u).

Definition dev_lookup (dir : Z) (pathname : list Z) : M vfs (Z * Z) :=
  if 0 <? Z.of_nat (length pathname) then mret (ENOENT, 0)
  else dev_incref dir;; mret (0, dir).

Definition dev_vnode_ops : vnode_ops vfs :=
  mkOps dev_eachopen dev_read vopfail_uio_inval dev_write dev_gettype null_fsync dev_truncate dev_namefile
    vopfail_creat_notdir vopfail_symlink_notdir vopfail_mkdir_notdir vopfail_link_notdir vopfail_string_notdir vopfail_string_notdir
    vopfail_rename_notdir dev_lookup vopfail_lookparent_notdir.

(** [dev_create_vnode] with the address that [kmalloc] returns; 0 is NULL. *)
Definition dev_create_vnode (a : Z) (dev : option Z) : M vfs Z :=
  if a =? 0 then mret 0
  else put_dv a (mkDv 1 dev);; mret a.

Definition dev_uncreate_vnode (a : Z) : M vfs unit :=
  dv ← get_dv a;
  kassert "vn->vn_refcount == 1" (dv_refcount dv =? 1);;
  modify (fun s => set_dev_vnodes (delete a (dev_vnodes s)) s).

(** ** The VOP macros: a vnode's function is found through its table. *)

(** [vop] of the vnode [v]. *)
Definition VOP {A} (v : vnode) (call : forall S, vnode_ops S -> Z -> M S A) : M vfs A :=
  match v with
  | DevVnode a => get_dv a;; call vfs dev_vnode_ops a
  | FsVnode f a => on_fs f (e ← get; ops ← deref "vn_ops" (vn_ops e a); call F ops a)
  end.

(** A vnode that [v]'s file system handed back. *)
Definition sibling (v : vnode) (a : Z) : vnode := match v with DevVnode _ => DevVnode a | FsVnode f _ => FsVnode f a end.

Definition VOP_INCREF (v : vnode) : M vfs unit := match v with DevVnode a => dev_incref a | FsVnode f a => on_fs f (fs_incref a) end.
Definition VOP_DECREF (v : vnode) : M vfs unit := match v with DevVnode a => dev_decref a | FsVnode f a => on_fs f (fs_decref a) end.

Definition VOP_EACHOPEN (v : vnode) (flags : Z) : M vfs Z := VOP v (fun S ops a => vop_eachopen ops a flags).
Definition VOP_TRUNCATE (v : vnode) (len : Z) : M vfs Z := VOP v (fun S ops a => vop_truncate ops a len).
Definition VOP_GETTYPE (v : vnode) : M vfs (Z * Z) := VOP v (fun S ops a => vop_gettype ops a).
Definition VOP_READLINK (v : vnode) (u : uio) : M vfs (Z * uio) := VOP v (fun S ops a => vop_readlink ops a u).
Definition VOP_NAMEFILE (v : vnode) (u : uio) : M vfs (Z * uio) := VOP v (fun S ops a => vop_namefile ops a u).
Definition VOP_SYMLINK (v : vnode) (x y : list Z) : M vfs Z := VOP v (fun S ops a => vop_symlink ops a x y).
Definition VOP_MKDIR (v : vnode) (name : list Z) : M vfs Z := VOP v (fun S ops a => vop_mkdir ops a name).
Definition VOP_REMOVE (v : vnode) (name : list Z) : M vfs Z := VOP v (fun S ops a => vop_remove ops a name).
Definition VOP_RMDIR (v : vnode) (name : list Z) : M vfs Z := VOP v (fun S ops a => vop_rmdir ops a name).
Definition VOP_CREAT (v : vnode) (name : list Z) (excl : bool) : M vfs (Z * vnode) :=
  '(result, a) ← VOP v (fun S ops a => vop_creat ops a name excl); mret (result, sibling v a).
Definition VOP_LOOKUP (v : vnode) (path : list Z) : M vfs (Z * vnode) :=
  '(result, a) ← VOP v (fun S ops a => vop_lookup ops a path); mret (result, sibling v a).
Definition VOP_LOOKPARENT (v : vnode) (path : list Z) (len : Z) : M vfs (Z * vnode * list Z) :=
  '(result, a, buf) ← VOP v (fun S ops a => vop_lookparent ops a path len); mret (result, sibling v a, buf).

(** [vn_fs] *)
Definition vn_fs (v : vnode) : option Z := match v with DevVnode _ => None | FsVnode f _ => Some f end.
Definition vn_addr (v : vnode) : Z := match v with DevVnode a => a | FsVnode _ a => a end.

(** The file systems' functions assert that the other vnode is theirs. *)
Definition VOP_LINK (dir : vnode) (name : list Z) (file : vnode) : M vfs Z :=
  kassert "file->vn_fs == dir->vn_fs" (bool_decide (vn_fs file = vn_fs dir));;
  VOP dir (fun S ops a => vop_link ops a name (vn_addr file)).
Definition VOP_RENAME (d1 : vnode) (n1 : list Z) (d2 : vnode) (n2 : list Z) : M vfs Z :=
  kassert "d1==d2" (bool_decide (vn_fs d1 = vn_fs d2));;
  VOP d1 (fun S ops a => vop_rename ops a n1 (vn_addr d2) n2).

(** ** vfslist.c *)

Definition streq (a b : list Z) : bool := bool_decide (a = b).

(** [FSOP_GETVOLNAME(fs)] *)
Definition volname (f : Z) : M vfs (option (list Z)) := on_fs f (gets FSOP_GETVOLNAME).

Definition update_kd (i : nat) (g : knowndev -> knowndev) : M vfs unit := modify (fun s => set_knowndevs (alter g i (knowndevs s)) s).

Fixpoint vfs_sync_loop (l : list knowndev) : M vfs unit :=
  match l with
  | [] => mret tt
  | dev :: l =>
      (match kd_fs dev with MOUNTED f => on_fs f FSOP_SYNC;; mret tt | _ => mret tt end);;
      vfs_sync_loop l
  end.

Definition vfs_sync : M vfs Z := l ← gets knowndevs; vfs_sync_loop l;; mret 0.

(** A reference to the device itself. *)
Definition device_ref (kd : knowndev) : M vfs (Z * vnode) :=
  kassert "kd->kd_device != NULL" (bool_decide (kd_device kd <> None));;
  VOP_INCREF (DevVnode (kd_vnode kd));;
  mret (0, DevVnode (kd_vnode kd)).

Fixpoint getroot_loop (devname : list Z) (l : list knowndev) : M vfs (Z * vnode) :=
  match l with
  | [] => mret (ENODEV, NULL)
  | kd :: l =>
      let self :=
        if streq (kd_name kd) devname then
          kassert "kd->kd_fs==NULL" (bool_decide (kd_fs kd = NO_FS));;
          kassert "kd->kd_rawname==NULL" (bool_decide (kd_rawname kd = None));;
          device_ref kd
        else if bool_decide (kd_rawname kd = Some devname) then device_ref kd
        else getroot_loop devname l in
      match kd_fs kd with
      | MOUNTED f =>
          vol ← volname f;
          if streq (kd_name kd) devname || bool_decide (vol = Some devname) then
            '(result, a) ← on_fs f FSOP_GETROOT; mret (result, FsVnode f a)
          else self
      | _ =>
          if bool_decide (kd_rawname kd <> None) && streq (kd_name kd) devname then mret (ENXIO, NULL)
          else self
      end
  end.

Definition vfs_getroot (devname : list Z) : M vfs (Z * vnode) := l ← gets knowndevs; getroot_loop devname l.

Definition vfs_getdevname (f : Z) : M vfs (option (list Z)) :=
  l ← gets knowndevs;
  mret (kd_name ∘ snd <$> list_find (fun kd => kd_fs kd = MOUNTED f) l).

Definition mkrawname (name : list Z) : list Z := name ++ [114; 97; 119].

(** Whether the string [a] is one of the other three; none of them need be there. *)
Definition samestring (a b : option (list Z)) : bool :=
  match a, b with Some a, Some b => streq a b | _, _ => false end.
Definition samestring3 (a b c d : option (list Z)) : bool := samestring a b || samestring a c || samestring a d.

Fixpoint badnames_loop (n1 n2 n3 : option (list Z)) (l : list knowndev) : M vfs bool :=
  match l with
  | [] => mret false
  | kd :: l =>
      let names := if samestring3 (kd_rawname kd) n1 n2 n3 || samestring3 (Some (kd_name kd)) n1 n2 n3 then mret true else badnames_loop n1 n2 n3 l in
      match kd_fs kd with
      | MOUNTED f => vol ← volname f; if samestring3 vol n1 n2 n3 then mret true else names
      | _ => names
      end
  end.
Definition badnames (n1 n2 n3 : option (list Z)) : M vfs bool := l ← gets knowndevs; badnames_loop n1 n2 n3 l.

(** What the allocations of [vfs_doadd] return: the copies of the names, the vnode, the
    entry, the table's growth ([knowndevarray_add]). *)
Record add_memory : Type := mkAdd { ok_name : bool; ok_rawname : bool; vnode_at : Z; ok_kd : bool; ok_array : bool }.

(** The end of [vfs_doadd] when it fails; [vn] is 0 before the vnode is made. *)
Definition doadd_fail (vn result : Z) : M vfs Z := (if vn =? 0 then mret tt else dev_uncreate_vnode vn);; mret result.

Definition vfs_doadd (mem : add_memory) (dname : list Z) (mountable : bool) (dev fs : option Z) : M vfs Z :=
  if negb (ok_name mem) then doadd_fail 0 ENOMEM
  else if mountable && negb (ok_rawname mem) then doadd_fail 0 ENOMEM
  else
    let rawname := if mountable then Some (mkrawname dname) else None in
    vn ← dev_create_vnode (vnode_at mem) dev;
    if vn =? 0 then doadd_fail 0 ENOMEM
    else if negb (ok_kd mem) then doadd_fail vn ENOMEM
    else
      vol ← (match fs with Some f => volname f | None => mret None end);
      bad ← badnames (Some dname) rawname vol;
      if (bad : bool) then doadd_fail vn EEXIST
      else if negb (ok_array mem) then doadd_fail vn ENOMEM
      else
        l ← gets knowndevs;
        let index := Z.of_nat (length l) in
        modify (set_knowndevs (l ++ [mkKd dname rawname dev vn (match fs with Some f => MOUNTED f | None => NO_FS end)]));;
        (match dev with
         | Some d => modify (fun s => set_devices (alter (set_devnumber (index + 1)) d (devices s)) s)
         | None => mret tt
         end);;
        mret 0.

Definition vfs_adddev (mem : add_memory) (devname : list Z) (dev : Z) (mountable : bool) : M vfs Z := vfs_doadd mem devname mountable (Some dev) None.
Definition vfs_addfs (mem : add_memory) (devname : list Z) (fs : Z) : M vfs Z := vfs_doadd mem devname false None (Some fs).

(** The index of the mountable device of that name. *)
Definition findmount (devname : list Z) : M vfs (option nat) :=
  l ← gets knowndevs;
  mret (fst <$> list_find (fun kd => kd_rawname kd <> None /\ devname = kd_name kd) l).

Definition get_kd (i : nat) : M vfs knowndev := s ← get; deref "struct knowndev" (knowndevs s !! i).

(** [mountfunc] hands back the address of a [struct fs] and the file system's state. *)
Definition vfs_mount (devname : list Z) (mountfunc : M D (Z * option (Z * F))) : M vfs Z :=
  found ← findmount devname;
  match found with
  | None => mret ENODEV
  | Some i =>
      kd ← get_kd i;
      if bool_decide (kd_fs kd <> NO_FS) then mret EBUSY
      else
        kassert "kd->kd_rawname != NULL" (bool_decide (kd_rawname kd <> None));;
        kassert "kd->kd_device != NULL" (bool_decide (kd_device kd <> None));;
        d ← deref "kd->kd_device" (kd_device kd);
        '(result, fs) ← on_device d mountfunc;
        if negb (result =? 0) then mret result
        else
          kassert "fs != NULL" (bool_decide (fs <> None));;
          '(f, e) ← deref "fs" fs;
          modify (fun s => set_fss (<[f := e]> (fss s)) s);;
          update_kd i (set_kd_fs (MOUNTED f));;
          mret 0
  end.

(** The name without a trailing colon. *)
Definition trim_colon (devname : list Z) : list Z :=
  if bool_decide (last devname = Some COLON) then take (length devname - 1) devname else devname.

Definition vfs_swapon (ok_dup : bool) (devname : list Z) : M vfs (Z * vnode) :=
  if bool_decide (last devname = Some COLON) && negb ok_dup then mret (ENOMEM, NULL)
  else
    found ← findmount (trim_colon devname);
    match found with
    | None => mret (ENODEV, NULL)
    | Some i =>
        kd ← get_kd i;
        if bool_decide (kd_fs kd <> NO_FS) then mret (EBUSY, NULL)
        else
          kassert "kd->kd_rawname != NULL" (bool_decide (kd_rawname kd <> None));;
          kassert "kd->kd_device != NULL" (bool_decide (kd_device kd <> None));;
          update_kd i (set_kd_fs SWAP_FS);;
          VOP_INCREF (DevVnode (kd_vnode kd));;
          mret (0, DevVnode (kd_vnode kd))
    end.

(** [FSOP_UNMOUNT]: when it succeeds the file system is gone and leaves the device. *)
Definition fs_unmount (kd : knowndev) (f : Z) : M vfs Z :=
  result ← on_fs f FSOP_UNMOUNT;
  if negb (result =? 0) then mret result
  else
    modify (fun s =>
      let left := fss s !! f ≫= fs_device in
      set_fss (delete f (fss s)) (match kd_device kd, left with Some d, Some x => set_devices (alter (set_data x) d (devices s)) s | _, _ => s end));;
    mret 0.

Definition vfs_unmount (devname : list Z) : M vfs Z :=
  found ← findmount devname;
  match found with
  | None => mret ENODEV
  | Some i =>
      kd ← get_kd i;
      match kd_fs kd with
      | MOUNTED f =>
          kassert "kd->kd_rawname != NULL" (bool_decide (kd_rawname kd <> None));;
          kassert "kd->kd_device != NULL" (bool_decide (kd_device kd <> None));;
          result ← on_fs f FSOP_SYNC;
          if negb (result =? 0) then mret result
          else
            result ← fs_unmount kd f;
            if negb (result =? 0) then mret result
            else update_kd i (set_kd_fs NO_FS);; mret 0
      | _ => mret EINVAL
      end
  end.

Definition vfs_swapoff (devname : list Z) : M vfs Z :=
  found ← findmount devname;
  match found with
  | None => mret ENODEV
  | Some i =>
      kd ← get_kd i;
      if bool_decide (kd_fs kd <> SWAP_FS) then mret EINVAL
      else update_kd i (set_kd_fs NO_FS);; mret 0
  end.

(** One turn of the loop of [vfs_unmountall]. *)
Definition unmountall_step (i : nat) : M vfs unit :=
  dev ← get_kd i;
  if bool_decide (kd_rawname dev = None) then mret tt
  else
    match kd_fs dev with
    | NO_FS => mret tt
    | SWAP_FS => update_kd i (set_kd_fs NO_FS)
    | MOUNTED f =>
        result ← on_fs f FSOP_SYNC;
        result ← (if negb (result =? 0) then on_fs f FSOP_SYNC else mret 0);
        if negb (result =? 0) then mret tt
        else
          result ← fs_unmount dev f;
          if result =? EBUSY then mret tt
          else if negb (result =? 0) then mret tt
          else update_kd i (set_kd_fs NO_FS)
    end.
Fixpoint unmountall_loop (i n : nat) : M vfs unit :=
  match n with O => mret tt | S n => unmountall_step i;; unmountall_loop (S i) n end.
Definition vfs_unmountall : M vfs Z := l ← gets knowndevs; unmountall_loop 0 (length l);; mret 0.

(** ** vfscwd.c *)

Definition vfs_getcurdir : M vfs (Z * vnode) :=
  cwd ← gets p_cwd;
  match cwd with
  | Some v => VOP_INCREF v;; mret (0, v)
  | None => mret (ENOENT, NULL)
  end.

Definition decref_old (old : option vnode) : M vfs unit := match old with Some v => VOP_DECREF v | None => mret tt end.

Definition vfs_setcurdir (dir : vnode) : M vfs Z :=
  '(result, vtype) ← VOP_GETTYPE dir;
  if negb (result =? 0) then mret result
  else if negb (vtype =? S_IFDIR) then mret ENOTDIR
  else
    VOP_INCREF dir;;
    old ← gets p_cwd;
    modify (set_cwd (Some dir));;
    decref_old old;;
    mret 0.

Definition vfs_clearcurdir : M vfs Z :=
  old ← gets p_cwd;
  modify (set_cwd None);;
  decref_old old;;
  mret 0.

(** ** vfslookup.c *)

(** The loop of [getdevice]: [(colon, slash)], the position of the first of them, the
    others -1. *)
Fixpoint first_mark (i : Z) (path : list Z) : Z * Z :=
  match path with
  | [] => (-1, -1)
  | c :: path =>
      if c =? COLON then (i, -1)
      else if c =? SLASH then (-1, i)
      else first_mark (i + 1) path
  end.

Fixpoint skip_slashes (path : list Z) : list Z :=
  match path with c :: path' => if c =? SLASH then skip_slashes path' else path | [] => [] end.

(** [(result, *subpath, *startvn)] *)
Definition getdevice (path : list Z) : M vfs (Z * list Z * vnode) :=
  if bool_decide (path = []) then mret (EINVAL, [], NULL)
  else
    let '(colon, slash) := first_mark 0 path in
    if (colon <? 0) && negb (slash =? 0) then
      '(result, startvn) ← vfs_getcurdir; mret (result, path, startvn)
    else if 0 <? colon then
      let subpath := skip_slashes (drop (Z.to_nat (colon + 1)) path) in
      '(result, startvn) ← vfs_getroot (take (Z.to_nat colon) path);
      if negb (result =? 0) then mret (result, subpath, NULL) else mret (0, subpath, startvn)
    else
      kassert "colon==0 || slash==0" ((colon =? 0) || (slash =? 0));;
      '(result, startvn) ←
        (if bool_decide (head path = Some SLASH) then
           boot ← gets bootfs_vnode;
           match boot with
           | None => mret (ENOENT, NULL)
           | Some v => VOP_INCREF v;; mret (0, v)
           end
         else
           kassert "path[0]==':'" (bool_decide (head path = Some COLON));;
           '(result, vn) ← vfs_getcurdir;
           if negb (result =? 0) then mret (result, NULL)
           else
             kassert "vn->vn_fs!=NULL" (bool_decide (vn_fs vn <> None));;
             f ← deref "vn->vn_fs" (vn_fs vn);
             '(result, a) ← on_fs f FSOP_GETROOT;
             VOP_DECREF vn;;
             mret (result, FsVnode f a));
      if negb (result =? 0) then mret (result, [], NULL)
      else mret (0, skip_slashes (drop 1 path), startvn).

Definition vfs_lookparent (path : list Z) (buflen : Z) : M vfs (Z * vnode * list Z) :=
  '(result, path, startvn) ← getdevice path;
  if negb (result =? 0) then mret (result, NULL, [])
  else
    '(result, ret, buf) ←
      (if bool_decide (path = []) then mret (EINVAL, NULL, []) else VOP_LOOKPARENT startvn path buflen);
    VOP_DECREF startvn;;
    mret (result, ret, buf).

Definition vfs_lookup (path : list Z) : M vfs (Z * vnode) :=
  '(result, path, startvn) ← getdevice path;
  if negb (result =? 0) then mret (result, NULL)
  else if bool_decide (path = []) then mret (0, startvn)
  else
    '(result, ret) ← VOP_LOOKUP startvn path;
    VOP_DECREF startvn;;
    mret (result, ret).

Definition vfs_chdir (path : list Z) : M vfs Z :=
  '(result, vn) ← vfs_lookup path;
  if negb (result =? 0) then mret result
  else
    result ← vfs_setcurdir vn;
    VOP_DECREF vn;;
    mret result.

Definition change_bootfs (newvn : option vnode) : M vfs unit :=
  oldvn ← gets bootfs_vnode;
  modify (set_bootfs newvn);;
  decref_old oldvn.

(** The rest of a string from the first [c] on. *)
Fixpoint strchr (c : Z) (l : list Z) : option (list Z) :=
  match l with [] => None | x :: l' => if x =? c then Some l else strchr c l' end.

(** [snprintf] into [sizeof(tmp)-1] bytes keeps NAME_MAX-1 characters. *)
Definition vfs_setbootfs (fsname : list Z) : M vfs Z :=
  let tmp := take (Z.to_nat (NAME_MAX - 1)) fsname in
  let bad := match strchr COLON tmp with Some s => 0 <? Z.of_nat (length s) | None => false end in
  if bad then mret EINVAL
  else
    let tmp := match strchr COLON tmp with Some _ => tmp | None => tmp ++ [COLON] end in
    result ← vfs_chdir tmp;
    if negb (result =? 0) then mret result
    else
      '(result, newguy) ← vfs_getcurdir;
      if negb (result =? 0) then mret result
      else change_bootfs (Some newguy);; mret 0.

Definition vfs_clearbootfs : M vfs unit := change_bootfs None.

(** ** vfscwd.c: [vfs_getcwd] *)

Definition vfs_getcwd (curas : Z) (u : uio) : M vfs (Z * uio) :=
  kassert "uio->uio_rw==UIO_READ" (bool_decide (uio_rw u = UIO_READ));;
  '(result, cwd) ← vfs_getcurdir;
  if negb (result =? 0) then mret (result, u)
  else
    kassert "cwd->vn_fs != NULL" (bool_decide (vn_fs cwd <> None));;
    f ← deref "cwd->vn_fs" (vn_fs cwd);
    vol ← volname f;
    name ← (match vol with Some _ => mret vol | None => vfs_getdevname f end);
    kassert "name != NULL" (bool_decide (name <> None));;
    name ← deref "name" name;
    let move ptr u : M vfs (Z * uio) := fun s =>
      match uiomove curas ptr (Z.of_nat (length ptr)) u with
      | Done (r, _) u' => Done (r, u') s | Halt e => Halt e | Exited _ => Exited s | OutOfFuel => OutOfFuel
      end in
    '(result, u) ← move name u;
    '(result, u) ←
      (if negb (result =? 0) then mret (result, u)
       else
         '(result, u) ← move [COLON] u;
         if negb (result =? 0) then mret (result, u) else VOP_NAMEFILE cwd u);
    VOP_DECREF cwd;;
    mret (result, u).

(** ** vfspath.c *)

(** [(result, *ret)] *)
Definition vfs_open (path : list Z) (openflags : Z) : M vfs (Z * vnode) :=
  let how := Z.land openflags O_ACCMODE in
  if negb ((how =? O_RDONLY) || (how =? O_WRONLY) || (how =? O_RDWR)) then mret (EINVAL, NULL)
  else
    let canwrite := negb (how =? O_RDONLY) in
    '(result, vn) ←
      (if negb (Z.land openflags O_CREAT =? 0) then
         '(result, dir, name) ← vfs_lookparent path (NAME_MAX + 1);
         if negb (result =? 0) then mret (result, NULL)
         else
           '(result, vn) ← VOP_CREAT dir name (negb (Z.land openflags O_EXCL =? 0));
           VOP_DECREF dir;;
           mret (result, vn)
       else vfs_lookup path);
    if negb (result =? 0) then mret (result, NULL)
    else
      kassert "vn != NULL" (bool_decide (vn <> NULL));;
      result ← VOP_EACHOPEN vn openflags;
      if negb (result =? 0) then VOP_DECREF vn;; mret (result, NULL)
      else
        result ←
          (if negb (Z.land openflags O_TRUNC =? 0) then
             if canwrite then VOP_TRUNCATE vn 0 else mret EINVAL
           else mret 0);
        if negb (result =? 0) then VOP_DECREF vn;; mret (result, NULL)
        else mret (0, vn).

Definition vfs_close (vn : vnode) : M vfs unit := VOP_DECREF vn.

(** An operation on a name in the directory of a path. *)
Definition in_parent (path : list Z) (op : vnode -> list Z -> M vfs Z) : M vfs Z :=
  '(result, dir, name) ← vfs_lookparent path (NAME_MAX + 1);
  if negb (result =? 0) then mret result
  else
    result ← op dir name;
    VOP_DECREF dir;;
    mret result.

Definition vfs_remove (path : list Z) : M vfs Z := in_parent path VOP_REMOVE.
Definition vfs_symlink (contents path : list Z) : M vfs Z := in_parent path (fun dir name => VOP_SYMLINK dir name contents).
Definition vfs_mkdir (path : list Z) : M vfs Z := in_parent path VOP_MKDIR.
Definition vfs_rmdir (path : list Z) : M vfs Z := in_parent path VOP_RMDIR.

(** [a->vn_fs==NULL || b->vn_fs==NULL || a->vn_fs != b->vn_fs] *)
Definition xdev (a b : vnode) : bool := bool_decide (vn_fs a = None) || bool_decide (vn_fs b = None) || bool_decide (vn_fs a <> vn_fs b).

Definition vfs_rename (oldpath newpath : list Z) : M vfs Z :=
  '(result, olddir, oldname) ← vfs_lookparent oldpath (NAME_MAX + 1);
  if negb (result =? 0) then mret result
  else
    '(result, newdir, newname) ← vfs_lookparent newpath (NAME_MAX + 1);
    if negb (result =? 0) then VOP_DECREF olddir;; mret result
    else if xdev olddir newdir then VOP_DECREF newdir;; VOP_DECREF olddir;; mret EXDEV
    else
      result ← VOP_RENAME olddir oldname newdir newname;
      VOP_DECREF newdir;;
      VOP_DECREF olddir;;
      mret result.

Definition vfs_link (oldpath newpath : list Z) : M vfs Z :=
  '(result, oldfile) ← vfs_lookup oldpath;
  if negb (result =? 0) then mret result
  else
    '(result, newdir, newname) ← vfs_lookparent newpath (NAME_MAX + 1);
    if negb (result =? 0) then VOP_DECREF oldfile;; mret result
    else if xdev oldfile newdir then VOP_DECREF newdir;; VOP_DECREF oldfile;; mret EXDEV
    else
      result ← VOP_LINK newdir newname oldfile;
      VOP_DECREF newdir;;
      VOP_DECREF oldfile;;
      mret result.

Definition vfs_readlink (path : list Z) (u : uio) : M vfs (Z * uio) :=
  '(result, vn) ← vfs_lookup path;
  if negb (result =? 0) then mret (result, u)
  else
    '(result, u) ← VOP_READLINK vn u;
    VOP_DECREF vn;;
    mret (result, u).

End Vfs.
End Vfs.
