(* ===== verification/VfsProofs.v ===== *)
(** * The VFS layer keeps its references

    What a file system promises ([FileSystemLaws]): run on vnodes to which the caller holds
    references, its operations return, and they give and take exactly the references that
    vnode.h documents.  On top of it, the invariant of the VFS layer and that every
    operation on paths keeps it: on every branch, errors included, no reference is lost,
    none is given up twice, and no vnode is used without one. *)
From S2P Require Import Prelude Wp Copyinout Uio Lhd Sfs SfsVnops Vnode Vfs.
Import Uio Sfs SfsVnops Vnode Vfs.

Module VfsProofs.

(** ** The promises of a file system

    A reference is the address of a vnode and whether the holder knows it to be a
    directory; [fs_ok e H]: the file system is consistent and its users hold the
    references [H]. *)
Notation refs := (list (Z * bool)).
(** How many references there are to a vnode. *)
Definition held (a : Z) (H : refs) : Z := Z.of_nat (length (filter (fun x => x.1 = a) H)).
Lemma held_cons a x b H : held a ((x, b) :: H) = held a H + if decide (x = a) then 1 else 0.
Proof. unfold held. rewrite filter_cons. cbn [fst]. destruct (decide (x = a)); cbn [length]; lia. Qed.
Lemma held_nonneg a H : 0 <= held a H.
Proof. unfold held. lia. Qed.
Lemma held_in a b H : (a, b) ∈ H -> 1 <= held a H.
Proof.
  intros Hin. apply elem_of_Permutation in Hin as [H' HP]. unfold held. rewrite HP, filter_cons. cbn [fst]. rewrite decide_True by done. cbn [length]. lia.
Qed.

Definition cstr (l : list Z) : Prop := Forall (fun c => c <> 0) l.

Section Laws.
Context {F D : Type} {FS : FileSystem F D} (ok : F -> refs -> Prop).

(** A vnode is handed out with a reference, or there is an error. *)
Definition handed (H : refs) (r a : Z) (dir : bool) (e : F) : Prop := r = 0 /\ ok e ((a, dir) :: H) \/ r <> 0 /\ ok e H.

(** The table of a vnode to which there is a reference. *)
Record ops_ok (ops : vnode_ops F) (a : Z) (e : F) (H : refs) : Prop := {
  ok_eachopen flags : wp never (vop_eachopen ops a flags) e (fun _ e' => ok e' H);
  ok_truncate : wp never (vop_truncate ops a 0) e (fun _ e' => ok e' H);
  ok_gettype : wp never (vop_gettype ops a) e (fun _ e' => ok e' H);
  ok_readlink u : wp never (vop_readlink ops a u) e (fun _ e' => ok e' H);
  ok_creat name excl : cstr name -> wp never (vop_creat ops a name excl) e (fun '(r, b) e' => handed H r b false e');
  ok_symlink x y : cstr x -> cstr y -> wp never (vop_symlink ops a x y) e (fun _ e' => ok e' H);
  ok_mkdir name : cstr name -> wp never (vop_mkdir ops a name) e (fun _ e' => ok e' H);
  ok_remove name : cstr name -> wp never (vop_remove ops a name) e (fun _ e' => ok e' H);
  ok_rmdir name : cstr name -> wp never (vop_rmdir ops a name) e (fun _ e' => ok e' H);
  ok_link name b : cstr name -> b ∈ fst <$> H -> wp never (vop_link ops a name b) e (fun _ e' => ok e' H);
  (** a rename may panic when it cannot be undone *)
  ok_rename n1 b n2 : cstr n1 -> cstr n2 -> (a, true) ∈ H -> (b, true) ∈ H -> wp panics (vop_rename ops a n1 b n2) e (fun _ e' => ok e' H);
  ok_lookup path : cstr path -> wp never (vop_lookup ops a path) e (fun '(r, b) e' => handed H r b false e');
  ok_lookparent path len : cstr path ->
    wp never (vop_lookparent ops a path len) e (fun '(r, b, buf) e' => handed H r b true e' /\ cstr buf)
}.
End Laws.

Class FileSystemLaws {F D : Type} (FS : FileSystem F D) : Type := {
  fs_ok : F -> refs -> Prop;
  fs_synced : F -> Prop;
  fs_ok_perm e :: Proper ((≡ₚ) ==> iff) (fs_ok e);
  law_incref e a b H : fs_ok e ((a, b) :: H) -> wp never (fs_incref a) e (fun _ e' => fs_ok e' ((a, b) :: (a, b) :: H));
  law_decref e a b H : fs_ok e ((a, b) :: H) -> wp never (fs_decref a) e (fun _ e' => fs_ok e' H);
  law_getroot e H : fs_ok e H -> wp never FSOP_GETROOT e (fun '(r, a) e' => handed fs_ok H r a false e');
  law_ops e a b H : fs_ok e H -> (a, b) ∈ H -> exists ops, vn_ops e a = Some ops /\ ops_ok fs_ok ops a e H;
  law_sync e H : fs_ok e H -> wp never FSOP_SYNC e (fun r e' => fs_ok e' H /\ (r = 0 -> fs_synced e'));
  (** looking at the device changes nothing *)
  law_device e x : fs_device e = Some x -> set_fs_device x e = e;
  law_unmount e H : fs_ok e H -> fs_synced e -> wp never FSOP_UNMOUNT e (fun r e' => r = 0 /\ H = [] \/ r <> 0 /\ fs_ok e' H)
}.

(** ** The invariant *)

Section VfsProofs.
Context {F D : Type} {FS : FileSystem F D} {DO : DeviceOps D} {FL : FileSystemLaws FS}.

Local Notation vfs := (vfs (F := F) (D := D)).
Notation vrefs := (list (vnode * bool)).

(** The references of the VFS layer itself. *)
Definition own_ref (o : option vnode) : vrefs := match o with Some v => [(v, false)] | None => [] end.
Definition own (s : vfs) : vrefs := own_ref (bootfs_vnode s) ++ own_ref (p_cwd s).

(** The references to the vnodes of a file system, and to a device's vnode. *)
Definition fs_part (f : Z) : vrefs -> refs :=
  omap (fun x => match x with (FsVnode g a, b) => if decide (g = f) then Some (a, b) else None | _ => None end).
Definition dev_part (a : Z) (H : vrefs) : Z := Z.of_nat (length (filter (fun x => x.1 = DevVnode a) H)).

Definition kd_ok (s : vfs) (kd : knowndev) : Prop :=
  (exists dv, dev_vnodes s !! kd_vnode kd = Some dv /\ dv_device dv = kd_device kd) /\
  (forall d, kd_device kd = Some d -> is_Some (devices s !! d)) /\
  (kd_device kd = None -> kd_rawname kd = None /\ exists f, kd_fs kd = MOUNTED f) /\
  (kd_fs kd = SWAP_FS -> kd_rawname kd <> None) /\
  (forall f, kd_fs kd = MOUNTED f -> is_Some (fss s !! f)).

(** No two entries have the same device or the same file system. *)
Definition table_ok (l : list knowndev) : Prop := forall i j ki kj, l !! i = Some ki -> l !! j = Some kj -> i <> j ->
  (forall f, kd_fs ki = MOUNTED f -> kd_fs kj <> MOUNTED f) /\ (forall d, kd_device ki = Some d -> kd_device kj <> Some d).

Record vfs_ok (s : vfs) (H : vrefs) : Prop := {
  vo_fs f e : fss s !! f = Some e -> fs_ok e (fs_part f (own s ++ H));
  vo_ref v b : (v, b) ∈ own s ++ H -> match v with
    | FsVnode f _ => is_Some (fss s !! f)
    | DevVnode a => b = false /\ a <> 0 /\ exists dv d, dev_vnodes s !! a = Some dv /\ dv_device dv = Some d /\ is_Some (devices s !! d)
    end;
  vo_dev a dv : dev_vnodes s !! a = Some dv -> a <> 0 /\ dv_refcount dv = 1 + dev_part a (own s ++ H);
  vo_kd kd : kd ∈ knowndevs s -> kd_ok s kd;
  vo_table : table_ok (knowndevs s);
  (** a current directory is in a file system *)
  vo_cwd v : p_cwd s = Some v -> vn_fs v <> None
}.

#[global] Instance vfs_ok_perm s : Proper ((≡ₚ) ==> iff) (vfs_ok s).
Proof.
  assert (Hone : forall H H', H ≡ₚ H' -> vfs_ok s H -> vfs_ok s H').
  { intros H H' HP [A B C K T W]. assert (HP' : own s ++ H ≡ₚ own s ++ H') by (by rewrite HP). split.
    - intros f e He. unfold fs_part. rewrite <- HP'. by apply A.
    - intros v b Hv. apply B. by rewrite HP'.
    - intros a dv Ha. unfold dev_part. rewrite <- HP'. by apply C.
    - done.
    - done.
    - done. }
  intros H H' HP. split; [by apply Hone|]. apply Hone. by symmetry.
Qed.

Lemma fs_part_app f H H' : fs_part f (H ++ H') = fs_part f H ++ fs_part f H'.
Proof. apply omap_app. Qed.
Lemma dev_part_app a H H' : dev_part a (H ++ H') = dev_part a H + dev_part a H'.
Proof. unfold dev_part. rewrite filter_app, length_app. lia. Qed.

(** References to a file system's vnodes, as the VFS layer has them. *)
Definition lift_refs (f : Z) (l : refs) : vrefs := (fun x => (FsVnode f x.1, x.2)) <$> l.
Lemma fs_part_lift f l : fs_part f (lift_refs f l) = l.
Proof. induction l as [|[a b] l IH]; [done|]. cbn. rewrite decide_True by done. by rewrite <- IH at 2. Qed.
Lemma fs_part_other f g l : f <> g -> fs_part g (lift_refs f l) = [].
Proof. intros Hfg. induction l as [|[a b] l IH]; [done|]. cbn. by rewrite decide_False by done. Qed.
Lemma dev_part_lift f a l : dev_part a (lift_refs f l) = 0.
Proof. induction l as [|[x b] l IH]; [done|]. unfold dev_part in *. cbn. rewrite decide_False by done. done. Qed.

(** Work on one file system: the rest of the state and the other references stay. *)
Definition put_fs (f : Z) (e : F) (s : vfs) : vfs := set_fss (<[f := e]> (fss s)) s.

Lemma kd_ok_put f e s kd : is_Some (fss s !! f) -> kd_ok s kd -> kd_ok (put_fs f e s) kd.
Proof.
  intros Hf (A & B & C & E & G). split_and!; try done. intros g Hg. cbn. destruct (decide (g = f)) as [->|]; [rewrite lookup_insert_eq; eauto|rewrite lookup_insert_ne by done; eauto].
Qed.

Lemma vfs_focus s f l H : vfs_ok s (lift_refs f l ++ H) -> is_Some (fss s !! f) ->
  exists e, fss s !! f = Some e /\ fs_ok e (l ++ fs_part f (own s ++ H)) /\
    forall e' l', fs_ok e' (l' ++ fs_part f (own s ++ H)) -> vfs_ok (put_fs f e' s) (lift_refs f l' ++ H).
Proof.
  intros [A B C K T W] [e He]. exists e. split; [done|].
  assert (Hpart : forall g l0, fs_part g (own s ++ lift_refs f l0 ++ H) ≡ₚ (if decide (f = g) then l0 else []) ++ fs_part g (own s ++ H)).
  { intros g l0. rewrite !fs_part_app. destruct (decide (f = g)) as [->|Hne]; [rewrite fs_part_lift|rewrite fs_part_other by done; done]. by rewrite !(assoc_L (++)), (comm (++) _ l0). }
  split.
  - specialize (A f e He). rewrite Hpart in A. by rewrite decide_True in A by done.
  - intros e' l' Hok. split.
    + intros g x Hx. change (own (put_fs f e' s)) with (own s). rewrite Hpart. cbn in Hx. destruct (decide (f = g)) as [<-|Hne].
      * rewrite lookup_insert_eq in Hx. by injection Hx as <-.
      * rewrite lookup_insert_ne in Hx by done. specialize (A g x Hx). rewrite Hpart in A. by rewrite decide_False in A by done.
    + intros v b Hv. change (own (put_fs f e' s)) with (own s) in Hv. assert (Hput : forall g, is_Some (fss s !! g) -> is_Some (fss (put_fs f e' s) !! g)).
      { intros g Hg. cbn. destruct (decide (g = f)) as [->|]; [rewrite lookup_insert_eq; eauto|by rewrite lookup_insert_ne]. }
      rewrite !elem_of_app in Hv. assert (Hold : (v, b) ∈ own s ++ lift_refs f l ++ H \/ exists a, v = FsVnode f a).
      { rewrite !elem_of_app. destruct Hv as [|[Hv|]]; [tauto| |tauto]. right. apply list_elem_of_fmap in Hv as ([a c] & [= -> _] & _). eauto. }
      destruct Hold as [Hold|[a ->]]; [|apply Hput; eauto]. specialize (B v b Hold). destruct v; [done|by apply Hput].
    + intros a dv Ha. change (own (put_fs f e' s)) with (own s). specialize (C a dv Ha). rewrite !dev_part_app, !dev_part_lift in *. lia.
    + intros kd Hkd. apply kd_ok_put; [eauto|by apply K].
    + done.
    + done.
Qed.

(** The same for a computation on the file system. *)
Lemma wp_on_fs {A} E s f l H (m : M F A) (Q : A -> vfs -> Prop) : vfs_ok s (lift_refs f l ++ H) -> is_Some (fss s !! f) ->
  (forall e, fs_ok e (l ++ fs_part f (own s ++ H)) -> wp E m e (fun a e' => exists l', fs_ok e' (l' ++ fs_part f (own s ++ H)) /\
     forall s', vfs_ok s' (lift_refs f l' ++ H) -> s' = put_fs f e' s -> Q a s')) ->
  wp E (on_fs f m) s Q.
Proof.
  intros Hok Hf Hm. destruct (vfs_focus s f l H Hok Hf) as (e & He & Hfs & Hback). apply (wp_zoom _ _ _ _ _ _ e); [done|].
  eapply wp_mono; [by apply Hm|]. intros a e' (l' & Hl' & HQ). apply HQ; [by apply Hback|done].
Qed.

(** Work on a device's vnode: [n] references more. *)
Lemma dev_adjust s a dv H H' n : vfs_ok s H -> dev_vnodes s !! a = Some dv -> (forall f, fs_part f H' = fs_part f H) ->
  (forall x, dev_part x H' = dev_part x H + if decide (x = a) then n else 0) ->
  (forall v b, (v, b) ∈ H' -> (v, b) ∈ H \/ v = DevVnode a /\ b = false /\ exists d, dv_device dv = Some d /\ is_Some (devices s !! d)) ->
  vfs_ok (set_dev_vnodes (<[a := mkDv (dv_refcount dv + n) (dv_device dv)]> (dev_vnodes s)) s) H'.
Proof.
  intros [A B C K T W] Ha Hfs Hdev Hin. set (s' := set_dev_vnodes _ s). change (own s) with (own s') in *.
  assert (Hlook : forall x y, dev_vnodes s !! x = Some y -> exists y', dev_vnodes s' !! x = Some y' /\ dv_device y' = dv_device y).
  { intros x y Hx. cbn. destruct (decide (x = a)) as [->|Hne]; [rewrite lookup_insert_eq; eexists; split; [done|]; cbn; congruence|rewrite lookup_insert_ne by done; eauto]. }
  split.
  - intros f e He. rewrite fs_part_app, Hfs, <- fs_part_app. by apply A.
  - intros v b Hv. rewrite elem_of_app in Hv. assert (Hv' : (v, b) ∈ own s' ++ H \/ v = DevVnode a /\ b = false /\ exists d, dv_device dv = Some d /\ is_Some (devices s !! d)).
    { rewrite elem_of_app. destruct Hv as [|Hv]; [tauto|]. destruct (Hin v b Hv); tauto. }
    destruct Hv' as [Hv'|(-> & -> & d & Hd & Hdd)].
    + specialize (B v b Hv'). destruct v as [x|]; [|done]. destruct B as (-> & H0 & y & d & Hy & Hd & Hdd). destruct (Hlook x y Hy) as (y' & Hy' & Hd').
      split_and!; [done|done|]. exists y', d. split_and!; [done|congruence|done].
    + destruct (C a dv Ha) as [H0 _]. destruct (Hlook a dv Ha) as (y' & Hy' & Hd'). split_and!; [done|done|]. exists y', d. split_and!; [done|congruence|done].
  - intros x y Hx. cbn in Hx. rewrite dev_part_app, Hdev. destruct (decide (x = a)) as [->|Hne].
    + rewrite lookup_insert_eq in Hx. injection Hx as <-. destruct (C a dv Ha) as [H0 Hc]. rewrite dev_part_app in Hc. cbn. lia.
    + rewrite lookup_insert_ne in Hx by done. destruct (C x y Hx) as [H0 Hc]. rewrite dev_part_app in Hc. lia.
  - intros kd Hkd. destruct (K kd Hkd) as ((y & Hy & Hd) & Hrest). destruct (Hlook _ _ Hy) as (y' & Hy' & Hd'). split; [exists y'; split; [done|congruence]|done].
  - done.
  - done.
Qed.

Lemma dev_part_cons a x b H : dev_part a ((x, b) :: H) = dev_part a H + if decide (x = DevVnode a) then 1 else 0.
Proof. unfold dev_part. rewrite filter_cons. cbn [fst]. destruct (decide (x = DevVnode a)); [cbn [length]; lia|lia]. Qed.
Lemma dev_part_nonneg a H : 0 <= dev_part a H.
Proof. unfold dev_part. lia. Qed.

Ltac dev_counts := intros; rewrite ?dev_part_cons; repeat case_decide; simplify_eq; lia.

(** ** References *)

Lemma incref_ok E s v b H Q : vfs_ok s H -> (v, b) ∈ own s ++ H -> (forall s', vfs_ok s' ((v, b) :: H) -> p_cwd s' = p_cwd s -> Q tt s') -> wp E (VOP_INCREF v) s Q.
Proof.
  intros Hok Hin HQ. pose proof (vo_ref _ _ Hok v b Hin) as Hv. destruct v as [a|f a]; cbn.
  - destruct Hv as (-> & H0 & dv & d & Ha & Hd & Hdd). unfold dev_incref, get_dv, put_dv. wgo. apply (wp_deref _ _ _ dv); [done|]. wgo. apply HQ; [|done].
    apply (dev_adjust s a dv H); [exact Hok|exact Ha|reflexivity|dev_counts|]. intros v b. rewrite elem_of_cons. intros [[= -> ->]|]; [right|by left]. split_and!; [done|done|by exists d].
  - apply (wp_on_fs E s f [] H); [exact Hok|exact Hv|]. intros e He. cbn [app] in He.
    assert (Hp : (a, b) ∈ fs_part f (own s ++ H)). { apply list_elem_of_omap. exists (FsVnode f a, b). split; [exact Hin|]. by rewrite decide_True. }
    apply elem_of_Permutation in Hp as [R HR]. rewrite HR in He. eapply wp_use; [by eapply law_incref|].
    intros [] e' He'. exists [(a, b)]. split; [cbn; by rewrite HR|]. intros s' Hs' ->. by apply HQ.
Qed.

Lemma decref_ok E s v b H Q : vfs_ok s ((v, b) :: H) -> (forall s', vfs_ok s' H -> p_cwd s' = p_cwd s -> Q tt s') -> wp E (VOP_DECREF v) s Q.
Proof.
  intros Hok HQ. assert (Hin : (v, b) ∈ own s ++ (v, b) :: H) by (apply elem_of_app; right; left). pose proof (vo_ref _ _ Hok v b Hin) as Hv. destruct v as [a|f a]; cbn.
  - destruct Hv as (-> & H0 & dv & d & Ha & Hd & Hdd). destruct (vo_dev _ _ Hok a dv Ha) as [_ Hc]. rewrite dev_part_app, dev_part_cons, decide_True in Hc by done.
    pose proof (dev_part_nonneg a (own s)). pose proof (dev_part_nonneg a H).
    unfold dev_decref, get_dv, put_dv. wgo. apply (wp_deref _ _ _ dv); [done|]. wgo. apply wp_kassert; [zbool|]. replace (1 <? dv_refcount dv) with true by lia. wgo. apply HQ; [|done].
    replace (dv_refcount dv - 1) with (dv_refcount dv + -1) by lia.
    eapply (dev_adjust s a dv ((DevVnode a, false) :: H)); [exact Hok|exact Ha|reflexivity|dev_counts|]. intros v b Hvb. left. by right.
  - apply (wp_on_fs E s f [(a, b)] H); [exact Hok|exact Hv|]. intros e He. eapply wp_use; [by eapply law_decref|].
    intros [] e' He'. exists []. split; [done|]. intros s' Hs' ->. by apply HQ.
Qed.

(** ** Vnode operations *)

Lemma on_device_gets {A} s d (g : D -> A) : is_Some (devices s !! d) -> exists x, on_device d (gets g) s = Done (g x) s.
Proof.
  intros [dv Hd]. unfold on_device, mbind, M_bind, gets. destruct (mounted_on d s) as [f|] eqn:Em.
  - assert (exists e x, fss s !! f = Some e /\ fs_device e = Some x) as (e & x & He & Hx).
    { unfold mounted_on in Em. destruct (snd <$> list_find _ _) as [kd|]; [|done]. cbn in Em. destruct (kd_fs kd) as [| |g0]; try done.
      destruct (fss s !! g0) as [e|] eqn:Ee; [|done]. cbn in Em. destruct (fs_device e) as [x|] eqn:Ex; [|done]. cbn in Em. injection Em as <-. eauto. }
    exists x. unfold on_fs, zoom. rewrite He, Hx, (law_device e x Hx). f_equal. destruct s as [k dd dn ff bb cc]. unfold set_fss. cbn in *. f_equal. by apply insert_id.
  - exists (d_data dv). unfold zoom. rewrite Hd. cbn. f_equal. destruct s as [k dd dn ff bb cc]. unfold set_devices. cbn in *. f_equal.
    apply map_eq. intros j. destruct (decide (j = d)) as [->|]; [|by rewrite lookup_alter_ne]. rewrite lookup_alter_eq, Hd. cbn. by destruct dv.
Qed.

(** An operation on a vnode: through the table of devices, or through its file system's. *)
Lemma vop_ok {A} E s v b H (call : forall S, vnode_ops S -> Z -> M S A) Q : vfs_ok s H -> (v, b) ∈ H ->
  (forall a dv d, v = DevVnode a -> b = false -> dev_vnodes s !! a = Some dv -> dv_device dv = Some d -> is_Some (devices s !! d) -> wp E (call vfs dev_vnode_ops a) s Q) ->
  (forall f a ops e R, v = FsVnode f a -> ops_ok fs_ok ops a e R -> R = fs_part f (own s ++ H) ->
     wp E (call F ops a) e (fun r e' => exists l', fs_ok e' (l' ++ R) /\ forall s', vfs_ok s' (lift_refs f l' ++ H) -> own s' = own s -> p_cwd s' = p_cwd s -> Q r s')) ->
  wp E (VOP v call) s Q.
Proof.
  intros Hok Hin Hdev Hfs. pose proof (vo_ref _ _ Hok v b ltac:(apply elem_of_app; by right)) as Hv. destruct v as [a|f a].
  - destruct Hv as (Hb & H0 & dv & d & Ha & Hd & Hdd). unfold VOP, get_dv. wgo. apply (wp_deref _ _ _ dv); [done|]. by eapply Hdev.
  - cbn. apply (wp_on_fs E s f [] H); [exact Hok|exact Hv|]. intros e He. cbn [app] in He.
    destruct (law_ops e a b _ He) as (ops & Hops & Hok'). { apply list_elem_of_omap. exists (FsVnode f a, b). split; [apply elem_of_app; by right|]. by rewrite decide_True. }
    wgo. eapply wp_deref; [exact Hops|]. eapply wp_mono; [by eapply Hfs|]. intros r e' (l' & Hl' & HQ). exists l'. split; [exact Hl'|]. intros s' Hs' ->. by apply HQ.
Qed.

(** What holds after an operation that takes and gives no reference. *)
Definition settles {A} (s : vfs) (H : vrefs) (Q : A -> vfs -> Prop) : Prop := forall r s', vfs_ok s' H -> own s' = own s -> p_cwd s' = p_cwd s -> Q r s'.

Lemma vop_settles {A} E s v b H (call : forall S, vnode_ops S -> Z -> M S A) Q : vfs_ok s H -> (v, b) ∈ H ->
  (forall a dv d, v = DevVnode a -> dev_vnodes s !! a = Some dv -> dv_device dv = Some d -> is_Some (devices s !! d) -> wp E (call vfs dev_vnode_ops a) s Q) ->
  (forall ops a e R, ops_ok fs_ok ops a e R -> wp never (call F ops a) e (fun _ e' => fs_ok e' R)) -> settles s H Q ->
  wp E (VOP v call) s Q.
Proof.
  intros Hok Hin Hdev Hfs HQ. eapply vop_ok; [exact Hok|exact Hin|intros; by eapply Hdev|]. intros f a ops e R -> Hops ->.
  eapply wp_use; [by apply Hfs|]. intros r e' He'. exists []. split; [exact He'|]. intros s' Hs' Ho Hc. by apply HQ.
Qed.

(** The operations that devices do not have return an error there. *)
Ltac vop_fails law := intros Hok Hin; intros; eapply vop_settles; [exact Hok|exact Hin|intros; wgo; match goal with HQ : settles _ _ _ |- _ => by apply HQ end|intros ? ? ? ? Hops; by law Hops|done].

Lemma symlink_ok E s v b H x y Q : vfs_ok s H -> (v, b) ∈ H -> cstr x -> cstr y -> settles s H Q -> wp E (VOP_SYMLINK v x y) s Q.
Proof. vop_fails ltac:(fun Hops => apply (ok_symlink _ _ _ _ _ Hops)). Qed.
Lemma mkdir_ok E s v b H name Q : vfs_ok s H -> (v, b) ∈ H -> cstr name -> settles s H Q -> wp E (VOP_MKDIR v name) s Q.
Proof. vop_fails ltac:(fun Hops => apply (ok_mkdir _ _ _ _ _ Hops)). Qed.
Lemma remove_ok E s v b H name Q : vfs_ok s H -> (v, b) ∈ H -> cstr name -> settles s H Q -> wp E (VOP_REMOVE v name) s Q.
Proof. vop_fails ltac:(fun Hops => apply (ok_remove _ _ _ _ _ Hops)). Qed.
Lemma rmdir_ok E s v b H name Q : vfs_ok s H -> (v, b) ∈ H -> cstr name -> settles s H Q -> wp E (VOP_RMDIR v name) s Q.
Proof. vop_fails ltac:(fun Hops => apply (ok_rmdir _ _ _ _ _ Hops)). Qed.
Lemma readlink_ok E s v b H u Q : vfs_ok s H -> (v, b) ∈ H -> settles s H Q -> wp E (VOP_READLINK v u) s Q.
Proof. vop_fails ltac:(fun Hops => apply (ok_readlink _ _ _ _ _ Hops)). Qed.

Lemma dv_data_ok E s a dv d (Q : Z -> vfs -> Prop) : dev_vnodes s !! a = Some dv -> dv_device dv = Some d -> Q d s -> wp E (dv_data a) s Q.
Proof. intros Ha Hd HQ. unfold dv_data, get_dv. wgo. apply (wp_deref _ _ _ dv); [done|]. by apply (wp_deref _ _ _ d). Qed.
Lemma get_device_ok E s d (Q : device -> vfs -> Prop) : is_Some (devices s !! d) -> (forall x, devices s !! d = Some x -> Q x s) -> wp E (get_device d) s Q.
Proof. intros [x Hx] HQ. unfold get_device. wgo. apply (wp_deref _ _ _ x); [done|]. by apply HQ. Qed.

Lemma eachopen_ok E s v b H flags Q : vfs_ok s H -> (v, b) ∈ H -> settles s H Q -> wp E (VOP_EACHOPEN v flags) s Q.
Proof.
  intros Hok Hin HQ. eapply vop_settles; [exact Hok|exact Hin| |intros ? ? ? ? Hops; apply (ok_eachopen _ _ _ _ _ Hops)|done].
  intros a dv d -> Ha Hd Hdd. cbn. unfold dev_eachopen. wgo. eapply dv_data_ok; [done|done|]. destruct (negb _); [wgo; by apply HQ|].
  destruct (on_device_gets s d (fun x => DEVOP_EACHOPEN x flags) Hdd) as (x & Hx). eapply wp_done; [exact Hx|]. by apply HQ.
Qed.

Lemma truncate_ok E s v b H Q : vfs_ok s H -> (v, b) ∈ H -> settles s H Q -> wp E (VOP_TRUNCATE v 0) s Q.
Proof.
  intros Hok Hin HQ. eapply vop_settles; [exact Hok|exact Hin| |intros ? ? ? ? Hops; apply (ok_truncate _ _ _ _ _ Hops)|done].
  intros a dv d -> Ha Hd Hdd. cbn. unfold dev_truncate. wgo. eapply dv_data_ok; [done|done|]. wgo. apply get_device_ok; [done|]. intros x _. destruct (_ && _); wgo; by apply HQ.
Qed.

(** A device is not a directory. *)
Lemma gettype_ok E s v b H Q : vfs_ok s H -> (v, b) ∈ H ->
  (forall r ty s', vfs_ok s' H -> own s' = own s -> p_cwd s' = p_cwd s -> (ty = S_IFDIR -> vn_fs v <> None) -> Q (r, ty) s') -> wp E (VOP_GETTYPE v) s Q.
Proof.
  intros Hok Hin HQ. eapply vop_ok; [exact Hok|exact Hin| |].
  - intros a dv d -> _ Ha Hd Hdd. cbn. unfold dev_gettype. wgo. eapply dv_data_ok; [done|done|]. wgo. apply get_device_ok; [done|]. intros x _. wgo.
    apply HQ; try done. by destruct (0 <? d_blocks x).
  - intros f a ops e R -> Hops ->. eapply wp_use; [apply (ok_gettype _ _ _ _ _ Hops)|]. intros [r ty] e' He'. exists []. split; [exact He'|]. intros s' Hs' Ho Hc. by apply HQ.
Qed.

(** Operations that hand out a vnode. *)
Definition hands (s : vfs) (H : vrefs) (r : Z) (v : vnode) (dir : bool) (s' : vfs) : Prop :=
  (r = 0 /\ vfs_ok s' ((v, dir) :: H) \/ r <> 0 /\ vfs_ok s' H) /\ p_cwd s' = p_cwd s.

Lemma hands_fs s f a (H : vrefs) R r b dir e' (Q : vfs -> Prop) : handed fs_ok R r b dir e' ->
  (forall s', hands s H r (sibling (FsVnode f a) b) dir s' -> Q s') ->
  exists l', fs_ok e' (l' ++ R) /\ forall s', vfs_ok s' (lift_refs f l' ++ H) -> own s' = own s -> p_cwd s' = p_cwd s -> Q s'.
Proof.
  intros [[-> He]|[Hr He]] HQ.
  - exists [(b, dir)]. split; [exact He|]. intros s' Hs' _ Hc. apply HQ. split; [left; done|done].
  - exists []. split; [exact He|]. intros s' Hs' _ Hc. apply HQ. split; [right; done|done].
Qed.

Lemma creat_ok E s v b H name excl Q : vfs_ok s H -> (v, b) ∈ H -> cstr name -> (forall r w s', hands s H r w false s' -> Q (r, w) s') -> wp E (VOP_CREAT v name excl) s Q.
Proof.
  intros Hok Hin Hn HQ. unfold VOP_CREAT. wgo. eapply vop_ok; [exact Hok|exact Hin| |].
  - intros a dv d -> _ Ha Hd Hdd. wgo. apply HQ. split; [right; done|done].
  - intros f a ops e R -> Hops ->. eapply wp_use; [by apply (ok_creat _ _ _ _ _ Hops)|]. intros [r c] e' He'. eapply (hands_fs s f a); [exact He'|]. intros s' Hs'. wgo. by apply HQ.
Qed.

Lemma lookup_ok E s v b H path Q : vfs_ok s H -> (v, b) ∈ H -> cstr path -> path <> [] -> (forall r w s', hands s H r w false s' -> Q (r, w) s') -> wp E (VOP_LOOKUP v path) s Q.
Proof.
  intros Hok Hin Hn Hne HQ. unfold VOP_LOOKUP. wgo. eapply vop_ok; [exact Hok|exact Hin| |].
  - intros a dv d -> _ Ha Hd Hdd. cbn [vop_lookup dev_vnode_ops]. unfold dev_lookup. destruct path; [done|]. wgo. apply HQ. split; [right; done|done].
  - intros f a ops e R -> Hops ->. eapply wp_use; [by apply (ok_lookup _ _ _ _ _ Hops)|]. intros [r c] e' He'. eapply (hands_fs s f a); [exact He'|]. intros s' Hs'. wgo. by apply HQ.
Qed.

Lemma lookparent_ok E s v b H path len Q : vfs_ok s H -> (v, b) ∈ H -> cstr path ->
  (forall r w buf s', hands s H r w true s' -> cstr buf -> Q (r, w, buf) s') -> wp E (VOP_LOOKPARENT v path len) s Q.
Proof.
  intros Hok Hin Hn HQ. unfold VOP_LOOKPARENT. wgo. eapply vop_ok; [exact Hok|exact Hin| |].
  - intros a dv d -> _ Ha Hd Hdd. wgo. apply HQ; [|apply Forall_nil_2]. split; [right; done|done].
  - intros f a ops e R -> Hops ->. eapply wp_use; [by apply (ok_lookparent _ _ _ _ _ Hops)|]. intros [[r c] buf] e' [He' Hbuf]. eapply (hands_fs s f a); [exact He'|]. intros s' Hs'. wgo. by apply HQ.
Qed.

Lemma link_ok E s d b name g c H Q : vfs_ok s H -> (d, b) ∈ H -> (g, c) ∈ H -> cstr name -> vn_fs g = vn_fs d -> settles s H Q -> wp E (VOP_LINK d name g) s Q.
Proof.
  intros Hok Hd Hg Hn Hfs HQ. unfold VOP_LINK. wgo. apply wp_kassert; [by apply bool_decide_eq_true|]. eapply vop_ok; [exact Hok|exact Hd|intros; wgo; by apply HQ|].
  intros f a ops e R -> Hops ->. eapply wp_use; [apply (ok_link _ _ _ _ _ Hops); [done|]|].
  - apply list_elem_of_fmap. exists (vn_addr g, c). split; [done|]. apply list_elem_of_omap. exists (g, c). split; [apply elem_of_app; by right|].
    destruct g as [|g0 a0]; [done|]. injection Hfs as ->. cbn. by rewrite decide_True.
  - intros r e' He'. exists []. split; [exact He'|]. intros s' Hs' Ho Hc. by apply HQ.
Qed.

Lemma rename_ok s d n1 d2 n2 H Q : vfs_ok s H -> (d, true) ∈ H -> (d2, true) ∈ H -> cstr n1 -> cstr n2 -> vn_fs d = vn_fs d2 -> settles s H Q -> wp panics (VOP_RENAME d n1 d2 n2) s Q.
Proof.
  intros Hok Hd Hd2 Hn1 Hn2 Hfs HQ. unfold VOP_RENAME. wgo. apply wp_kassert; [by apply bool_decide_eq_true|]. eapply vop_ok; [exact Hok|exact Hd|intros; wgo; by apply HQ|].
  intros f a ops e R -> Hops ->. assert (Hin : forall w, (w, true) ∈ H -> vn_fs w = Some f -> (vn_addr w, true) ∈ fs_part f (own s ++ H)).
  { intros w Hw Hwf. apply list_elem_of_omap. exists (w, true). split; [apply elem_of_app; by right|]. destruct w as [|g0 a0]; [done|]. injection Hwf as ->. cbn. by rewrite decide_True. }
  eapply wp_mono; [apply (ok_rename _ _ _ _ _ Hops); [done|done|by apply (Hin (FsVnode f a))|by apply Hin]|].
  intros r e' He'. exists []. split; [exact He'|]. intros s' Hs' Ho Hc. by apply HQ.
Qed.

(** ** The device table *)

Lemma put_same f e s : fss s !! f = Some e -> put_fs f e s = s.
Proof. intros He. destruct s as [k dd dn ff bb cc]. unfold put_fs, set_fss. cbn in *. f_equal. by apply insert_id. Qed.

Lemma volname_ok E s f (Q : option (list Z) -> vfs -> Prop) : is_Some (fss s !! f) -> (forall o, Q o s) -> wp E (volname f) s Q.
Proof. intros [e He] HQ. apply (wp_zoom _ _ _ _ _ _ e); [done|]. wgo. pose proof (put_same f e s He) as Hput. unfold put_fs in Hput. rewrite Hput. apply HQ. Qed.

(** The table's own reference to a device's vnode is enough to take another. *)
Lemma kd_incref_ok E s H kd Q : vfs_ok s H -> kd ∈ knowndevs s -> kd_device kd <> None ->
  (forall s', vfs_ok s' ((DevVnode (kd_vnode kd), false) :: H) -> p_cwd s' = p_cwd s -> Q tt s') -> wp E (VOP_INCREF (DevVnode (kd_vnode kd))) s Q.
Proof.
  intros Hok Hkd Hdev HQ. destruct (vo_kd _ _ Hok kd Hkd) as ((dv & Hdv & Hd) & Hval & _). destruct (kd_device kd) as [d|] eqn:Ed; [|done].
  unfold VOP_INCREF, dev_incref, get_dv, put_dv. wgo. apply (wp_deref _ _ _ dv); [done|]. wgo. apply HQ; [|done].
  apply (dev_adjust s (kd_vnode kd) dv H); [exact Hok|done|done|dev_counts|].
  intros v b. rewrite elem_of_cons. intros [[= -> ->]|]; [right|by left]. split_and!; [done|done|]. exists d. split; [done|]. by apply Hval.
Qed.

Lemma device_ref_ok E s H kd Q : vfs_ok s H -> kd ∈ knowndevs s -> kd_device kd <> None ->
  (forall r v s', hands s H r v false s' -> Q (r, v) s') -> wp E (device_ref kd) s Q.
Proof.
  intros Hok Hkd Hdev HQ. unfold device_ref. wgo. apply wp_kassert; [by apply bool_decide_eq_true|]. wgo.
  apply (kd_incref_ok _ _ H); [exact Hok|done|done|]. intros s' Hs' Hc. wgo. apply HQ. split; [by left|done].
Qed.

Lemma getroot_fs_ok E s H f Q : vfs_ok s H -> is_Some (fss s !! f) -> (forall r a s', hands s H r (FsVnode f a) false s' -> Q (r, a) s') ->
  wp E (on_fs f FSOP_GETROOT) s Q.
Proof.
  intros Hok Hf HQ. apply (wp_on_fs E s f [] H); [exact Hok|exact Hf|]. intros e He. eapply wp_use; [apply law_getroot; exact He|].
  intros [r a] e' He'. destruct (hands_fs s f a H _ r a false e' (fun s' => Q (r, a) s') He') as (l' & Hl' & HQ'); [intros s' Hs'; by apply HQ|].
  exists l'. split; [exact Hl'|]. intros s' Hs' ->. by apply HQ'.
Qed.

Lemma getroot_loop_ok E s H devname Q l : vfs_ok s H -> (forall kd, kd ∈ l -> kd ∈ knowndevs s) ->
  (forall r v s', hands s H r v false s' -> Q (r, v) s') -> wp E (getroot_loop devname l) s Q.
Proof.
  intros Hok Hl HQ. induction l as [|kd l IH]; [wgo; apply HQ; split; [right; done|done]|].
  assert (Hkd : kd ∈ knowndevs s) by (apply Hl; left). specialize (IH (fun x Hx => Hl x (list_elem_of_further _ _ _ Hx))).
  destruct (vo_kd _ _ Hok kd Hkd) as (_ & _ & Hnone & Hswap & Hmnt). cbn [getroot_loop].
  assert (Hself : ((streq (kd_name kd) devname = true -> kd_fs kd = NO_FS /\ kd_rawname kd = None) ->
    wp E (if streq (kd_name kd) devname then
          kassert "kd->kd_fs==NULL" (bool_decide (kd_fs kd = NO_FS));;
          kassert "kd->kd_rawname==NULL" (bool_decide (kd_rawname kd = None));;
          device_ref kd
        else if bool_decide (kd_rawname kd = Some devname) then device_ref kd
        else getroot_loop devname l) s Q)).
  { intros Hname. destruct (streq (kd_name kd) devname) eqn:En.
    - destruct (Hname eq_refl) as [H1 H2]. wgo. apply wp_kassert; [by apply bool_decide_eq_true|]. wgo. apply wp_kassert; [by apply bool_decide_eq_true|].
      apply (device_ref_ok _ _ H); try done. intros Hd. destruct (Hnone Hd) as [_ [f Hf]]. congruence.
    - case_bool_decide as Hraw; [|exact IH]. apply (device_ref_ok _ _ H); try done. intros Hd. destruct (Hnone Hd) as [H1 _]. congruence. }
  destruct (kd_fs kd) as [| |f] eqn:Ef.
  - destruct (bool_decide (kd_rawname kd <> None)) eqn:Er; cbn [andb].
    + destruct (streq (kd_name kd) devname) eqn:En; [wgo; apply HQ; split; [right; done|done]|]. by apply Hself.
    + apply Hself. intros _. split; [done|]. apply bool_decide_eq_false in Er. by apply dec_stable.
  - rewrite bool_decide_true by (by apply Hswap). cbn [andb]. destruct (streq (kd_name kd) devname) eqn:En; [wgo; apply HQ; split; [right; done|done]|]. by apply Hself.
  - wgo. apply volname_ok; [by apply Hmnt|]. intros o. destruct (streq (kd_name kd) devname || bool_decide (o = Some devname)) eqn:En.
    + wgo. apply (getroot_fs_ok _ _ H); [exact Hok|by apply Hmnt|]. intros r a s' Hs'. wgo. by apply HQ.
    + apply Hself. intros Hn. by rewrite Hn in En.
Qed.

Lemma getroot_ok E s H devname Q : vfs_ok s H -> (forall r v s', hands s H r v false s' -> Q (r, v) s') -> wp E (vfs_getroot devname) s Q.
Proof. intros Hok HQ. unfold vfs_getroot. wgo. by apply (getroot_loop_ok _ _ H). Qed.

(** ** Current directory *)

(** The references move between the VFS layer and its users. *)
Lemma vfs_ok_moved s s' H H' : vfs_ok s H -> fss s' = fss s -> dev_vnodes s' = dev_vnodes s -> devices s' = devices s -> knowndevs s' = knowndevs s ->
  own s' ++ H' ≡ₚ own s ++ H -> (forall v, p_cwd s' = Some v -> vn_fs v <> None) -> vfs_ok s' H'.
Proof.
  intros [A B C K T W] Hf Hv Hd Hk Hp Hc. split.
  - intros f e. rewrite Hf. intros He. unfold fs_part. rewrite Hp. by apply A.
  - intros v b. rewrite Hp, Hf, Hv, Hd. apply B.
  - intros a dv. rewrite Hv. unfold dev_part. rewrite Hp. apply C.
  - intros kd. rewrite Hk. intros Hkd. specialize (K kd Hkd). unfold kd_ok in *. by rewrite Hf, Hv, Hd.
  - by rewrite Hk.
  - exact Hc.
Qed.

Lemma swap_cwd s o H : vfs_ok s (own_ref o ++ H) -> (forall v, o = Some v -> vn_fs v <> None) -> vfs_ok (set_cwd o s) (own_ref (p_cwd s) ++ H).
Proof. intros Hok Ho. apply (vfs_ok_moved s _ (own_ref o ++ H)); try done. unfold own. cbn [bootfs_vnode p_cwd set_cwd set_bootfs]. solve_Permutation. Qed.

Lemma swap_bootfs s o H : vfs_ok s (own_ref o ++ H) -> vfs_ok (set_bootfs o s) (own_ref (bootfs_vnode s) ++ H).
Proof. intros Hok. apply (vfs_ok_moved s _ (own_ref o ++ H)); try done; [|apply Hok]. unfold own. cbn [bootfs_vnode p_cwd set_cwd set_bootfs]. solve_Permutation. Qed.

Lemma decref_old_ok E s o H Q : vfs_ok s (own_ref o ++ H) -> (forall s', vfs_ok s' H -> p_cwd s' = p_cwd s -> Q tt s') -> wp E (decref_old o) s Q.
Proof. intros Hok HQ. destruct o as [v|]; unfold decref_old; [|wgo; by apply HQ]. apply (decref_ok _ _ _ false H); [exact Hok|exact HQ]. Qed.

Lemma getcurdir_ok E s H Q : vfs_ok s H -> (forall r v s', hands s H r v false s' -> (r = 0 -> p_cwd s = Some v) -> Q (r, v) s') -> wp E vfs_getcurdir s Q.
Proof.
  intros Hok HQ. unfold vfs_getcurdir. wgo. destruct (p_cwd s) as [v|] eqn:Ec.
  - wgo. apply (incref_ok _ _ _ false H); [exact Hok|unfold own; rewrite Ec, !elem_of_app; left; right; left|]. intros s' Hs' Hc. wgo. apply HQ; [|done]. split; [by left|done].
  - wgo. apply HQ; [|done]. split; [by right|done].
Qed.

Lemma setcurdir_ok E s v H Q : vfs_ok s H -> (v, false) ∈ H -> (forall r s', vfs_ok s' H -> (r = 0 -> p_cwd s' = Some v) -> Q r s') -> wp E (vfs_setcurdir v) s Q.
Proof.
  intros Hok Hin HQ. unfold vfs_setcurdir. wgo. eapply gettype_ok; [exact Hok|exact Hin|]. intros r ty s1 H1 Ho Hc Hty. cbv beta iota.
  destruct (negb (r =? 0)) eqn:Er; [wgo; apply HQ; [done|lia]|]. destruct (negb (ty =? S_IFDIR)) eqn:Et; [wgo; by apply HQ|].
  wgo. apply (incref_ok _ _ _ false H); [exact H1|apply elem_of_app; by right|]. intros s2 H2 _. wgo. apply (decref_old_ok _ _ _ H).
  - apply (swap_cwd s2 (Some v) H); [exact H2|]. intros w [= <-]. apply Hty. lia.
  - intros s3 H3 Hc3. wgo. by apply HQ.
Qed.

Lemma clearcurdir_ok E s H Q : vfs_ok s H -> (forall s', vfs_ok s' H -> p_cwd s' = None -> Q 0 s') -> wp E vfs_clearcurdir s Q.
Proof.
  intros Hok HQ. unfold vfs_clearcurdir. wgo. apply (decref_old_ok _ _ _ H); [by apply (swap_cwd s None H)|]. intros s' Hs' Hc. wgo. by apply HQ.
Qed.

(** ** Paths *)

Lemma first_mark_range i path : 0 <= i -> let '(colon, slash) := first_mark i path in
  colon = -1 /\ slash = -1 \/ i <= colon /\ slash = -1 \/ colon = -1 /\ i <= slash.
Proof.
  revert i. induction path as [|c path IH]; intros i Hi; cbn; [auto|]. destruct (c =? COLON); [lia|]. destruct (c =? SLASH); [lia|].
  specialize (IH (i + 1) ltac:(lia)). destruct (first_mark (i + 1) path). lia.
Qed.

Lemma cstr_drop n l : cstr l -> cstr (drop n l).
Proof. apply Forall_drop. Qed.
Lemma cstr_skip l : cstr l -> cstr (skip_slashes l).
Proof. induction 1 as [|c l Hc Hl IH]; cbn; [constructor|]. destruct (c =? SLASH); [done|by constructor]. Qed.

Lemma hands_error s H r v dir s' : hands s H r v dir s' -> r <> 0 -> forall w d, hands s H r w d s'.
Proof. intros [[[-> _]|[_ Hok]] Hc] Hr w d; [done|]. split; [by right|done]. Qed.
Lemma hands_ok s H v dir s' : hands s H 0 v dir s' -> vfs_ok s' ((v, dir) :: H).
Proof. by intros [[[_ H']|[? _]] _]. Qed.
Lemma hands_fail s H r v dir s' : hands s H r v dir s' -> r <> 0 -> vfs_ok s' H.
Proof. by intros [[[? _]|[_ H']] _] ?. Qed.
Lemma hands_err s H r dir : vfs_ok s H -> r <> 0 -> forall v, hands s H r v dir s.
Proof. intros Hok Hr v. split; [by right|done]. Qed.

Lemma hands_cwd s s1 H r v dir s' : p_cwd s1 = p_cwd s -> hands s1 H r v dir s' = hands s H r v dir s'.
Proof. unfold hands. by intros ->. Qed.

Lemma vfs_swap s x y H : vfs_ok s (x :: y :: H) -> vfs_ok s (y :: x :: H).
Proof. by rewrite (Permutation_swap x y H). Qed.

(** A reference is given back after an operation that hands out another one. *)
Lemma decref_handed E s s1 v b H r w dir Q : hands s ((v, b) :: H) r w dir s1 -> (forall s2, hands s H r w dir s2 -> Q tt s2) -> wp E (VOP_DECREF v) s1 Q.
Proof.
  intros [[[-> Hok]|[Hr Hok]] Hc] HQ.
  - apply vfs_swap in Hok. eapply decref_ok; [exact Hok|]. intros s2 H2 Hc2. apply HQ. split; [by left|congruence].
  - eapply decref_ok; [exact Hok|]. intros s2 H2 Hc2. apply HQ. split; [by right|congruence].
Qed.

(** Case analysis on a result: 0, or an error. *)
Ltac on_result r := destruct (Z.eqb_spec r 0) as [->|?]; cbn [negb]; cbv iota.

Lemma getdevice_ok E s H path Q : vfs_ok s H -> cstr path -> (forall r sub v s', hands s H r v false s' -> cstr sub -> Q (r, sub, v) s') -> wp E (getdevice path) s Q.
Proof.
  intros Hok Hp HQ. unfold getdevice. destruct path as [|c p]; [rewrite bool_decide_true by done; wgo; apply HQ; [by apply hands_err|constructor]|].
  rewrite bool_decide_false by done. pose proof (first_mark_range 0 (c :: p) ltac:(lia)) as Hr.
  assert (H0 : let '(colon, slash) := first_mark 0 (c :: p) in (colon = 0 -> c = COLON) /\ (slash = 0 -> c = SLASH)).
  { cbn. destruct (Z.eqb_spec c COLON); [done|]. destruct (Z.eqb_spec c SLASH); [done|]. pose proof (first_mark_range 1 p ltac:(lia)) as Hr1. destruct (first_mark (0 + 1) p) as [x y] eqn:E1. change (0 + 1) with 1 in E1. rewrite E1 in Hr1. lia. }
  destruct (first_mark 0 (c :: p)) as [colon slash]. destruct ((colon <? 0) && negb (slash =? 0)) eqn:E1.
  - wgo. apply (getcurdir_ok _ _ H); [exact Hok|]. intros r v s' Hs' _. wgo. by apply HQ.
  - destruct (0 <? colon) eqn:E2.
    + wgo. apply (getroot_ok _ _ H); [exact Hok|]. intros r v s' Hs'. cbv iota. on_result r; wgo; (apply HQ; [|by apply cstr_skip, cstr_drop]); [exact Hs'|by eapply hands_error].
    + wgo. apply wp_kassert; [lia|]. wgo.
      assert (Hend : forall r v s', hands s H r v false s' -> wp E (if negb (r =? 0) then mret (r, [], NULL) else mret (0, skip_slashes (drop 1 (c :: p)), v)) s' Q).
      { intros r v s' Hs'. on_result r; wgo; apply HQ; [exact Hs'|by apply cstr_skip, cstr_drop|by eapply hands_error|constructor]. }
      case_bool_decide as Hc.
      * wgo. destruct (bootfs_vnode s) as [v|] eqn:Eb; [|wgo; apply Hend; by apply hands_err]. wgo. apply (incref_ok _ _ _ false H); [exact Hok|unfold own; rewrite Eb, !elem_of_app; left; left; left|].
        intros s' Hs' Hcw. wgo. apply Hend. split; [by left|done].
      * wgo. apply wp_kassert; [apply bool_decide_eq_true; cbn in Hc |- *; destruct H0 as [Hx Hy]; rewrite Hx; [done|]; assert (slash <> 0) by (intros He; by rewrite (Hy He) in Hc); lia|].
        wgo. apply (getcurdir_ok _ _ H); [exact Hok|]. intros r v s1 Hs1 Hcur. cbv iota. on_result r; [|wgo; apply Hend; by eapply hands_error].
        pose proof (vo_cwd _ _ Hok v (Hcur eq_refl)) as Hfs. pose proof (hands_ok _ _ _ _ _ Hs1) as Hok1. destruct Hs1 as [_ Hc1]. wgo. apply wp_kassert; [by apply bool_decide_eq_true|].
        destruct (vn_fs v) as [f|] eqn:Ef; [|done]. wgo. apply (wp_deref _ _ _ f); [done|]. destruct v as [|g a]; [done|]. injection Ef as ->.
        pose proof (vo_ref _ _ Hok1 (FsVnode f a) false ltac:(apply elem_of_app; right; left)) as Hv.
        wgo. apply (getroot_fs_ok _ _ ((FsVnode f a, false) :: H)); [exact Hok1|exact Hv|]. intros r a' s2 Hs2. wgo.
        eapply decref_handed; [exact Hs2|]. intros s3 Hs3. wgo. apply Hend. by rewrite <- (hands_cwd _ _ _ _ _ _ _ Hc1).
Qed.

(** A start vnode, an operation on it that may hand out another one, and the start is given back. *)
Lemma lookparent_path_ok E s H path len Q : vfs_ok s H -> cstr path -> (forall r v buf s', hands s H r v true s' -> cstr buf -> Q (r, v, buf) s') -> wp E (vfs_lookparent path len) s Q.
Proof.
  intros Hok Hp HQ. unfold vfs_lookparent. wgo. apply (getdevice_ok _ _ H); [exact Hok|exact Hp|]. intros r sub v s1 Hs1 Hsub. cbv iota.
  on_result r; [|wgo; apply HQ; [by eapply hands_error|constructor]]. pose proof (hands_ok _ _ _ _ _ Hs1) as Hok1. wgo.
  assert (Hend : forall r w buf s2, hands s1 ((v, false) :: H) r w true s2 -> cstr buf -> wp E (VOP_DECREF v;; mret (r, w, buf)) s2 Q).
  { intros r w buf s2 Hs2 Hbuf. wgo. eapply decref_handed; [exact Hs2|]. intros s3 Hs3. wgo. apply HQ; [|done]. by rewrite <- (hands_cwd _ _ _ _ _ _ _ (proj2 Hs1)). }
  case_bool_decide; [wstep; apply Hend; [by apply hands_err|constructor]|]. apply (lookparent_ok _ _ _ false ((v, false) :: H)); [exact Hok1|left|done|]. intros r w buf s2 Hs2 Hbuf. by apply Hend.
Qed.

Lemma lookup_path_ok E s H path Q : vfs_ok s H -> cstr path -> (forall r v s', hands s H r v false s' -> Q (r, v) s') -> wp E (vfs_lookup path) s Q.
Proof.
  intros Hok Hp HQ. unfold vfs_lookup. wgo. apply (getdevice_ok _ _ H); [exact Hok|exact Hp|]. intros r sub v s1 Hs1 Hsub. cbv iota.
  on_result r; [|wgo; apply HQ; by eapply hands_error]. pose proof (hands_ok _ _ _ _ _ Hs1) as Hok1.
  case_bool_decide; wgo; [by apply HQ|]. apply (lookup_ok _ _ _ false ((v, false) :: H)); [exact Hok1|left|done|done|]. intros r w s2 Hs2. wgo.
  eapply decref_handed; [exact Hs2|]. intros s3 Hs3. wgo. apply HQ. by rewrite <- (hands_cwd _ _ _ _ _ _ _ (proj2 Hs1)).
Qed.

(** ** The operations on paths *)

Lemma open_ok E s H path flags Q : vfs_ok s H -> cstr path -> (forall r v s', hands s H r v false s' -> Q (r, v) s') -> wp E (vfs_open path flags) s Q.
Proof.
  intros Hok Hp HQ. unfold vfs_open. destruct (negb (_ || _)); [wgo; apply HQ; by apply hands_err|]. wgo.
  set (canwrite := negb (Z.land flags O_ACCMODE =? O_RDONLY)). set (rest := fun rv : Z * vnode => _).
  assert (Hrest : forall r v s1, hands s H r v false s1 -> rest (r, v) s1).
  { intros r v s1 Hs1. unfold rest. cbv beta iota. on_result r; [|wgo; apply HQ; by eapply hands_error]. pose proof (hands_ok _ _ _ _ _ Hs1) as Hok1. destruct Hs1 as [_ Hc1].
    assert (Hnn : v <> NULL). { intros ->. pose proof (vo_ref _ _ Hok1 NULL false ltac:(apply elem_of_app; right; left)) as (_ & ? & _). done. }
    assert (Hfail : forall r s2, r <> 0 -> vfs_ok s2 ((v, false) :: H) -> p_cwd s2 = p_cwd s -> wp E (VOP_DECREF v;; mret (r, NULL)) s2 Q).
    { intros r s2 Hr H2 Hc2. wgo. eapply decref_ok; [exact H2|]. intros s3 H3 Hc3. wgo. apply HQ. split; [by right|congruence]. }
    wgo. apply wp_kassert; [by apply bool_decide_eq_true|]. wgo. eapply eachopen_ok; [exact Hok1|left|]. intros r s2 H2 _ Hc2. on_result r; [|apply Hfail; [done|done|congruence]].
    assert (Hlast : forall r s3, vfs_ok s3 ((v, false) :: H) -> p_cwd s3 = p_cwd s -> wp E (if negb (r =? 0) then VOP_DECREF v;; mret (r, NULL) else mret (0, v)) s3 Q).
    { intros r s3 H3 Hc3. on_result r; [wgo; apply HQ; split; [by left|done]|by apply Hfail]. }
    wgo. destruct (negb (Z.land flags O_TRUNC =? 0)); [|wstep; by apply (Hlast 0); [|congruence]].
    destruct canwrite; [|wstep; by apply (Hlast EINVAL); [|congruence]]. eapply truncate_ok; [exact H2|left|]. intros r s3 H3 _ Hc3. apply Hlast; [done|congruence]. }
  destruct (negb (Z.land flags O_CREAT =? 0)).
  - wgo. apply (lookparent_path_ok _ _ H); [exact Hok|exact Hp|]. intros r dir name s1 Hs1 Hname. cbv iota. on_result r; [|wstep; apply Hrest; by eapply hands_error].
    pose proof (hands_ok _ _ _ _ _ Hs1) as Hok1. wgo. eapply creat_ok; [exact Hok1|left|exact Hname|]. intros r v s2 Hs2. cbv iota. wgo.
    eapply decref_handed; [exact Hs2|]. intros s3 Hs3. wstep. apply Hrest. by rewrite <- (hands_cwd _ _ _ _ _ _ _ (proj2 Hs1)).
  - eapply lookup_path_ok; [exact Hok|exact Hp|]. intros r v s1 Hs1. by apply Hrest.
Qed.

Lemma in_parent_ok E s H path op Q : vfs_ok s H -> cstr path ->
  (forall s1 dir name Q', vfs_ok s1 ((dir, true) :: H) -> cstr name -> settles s1 ((dir, true) :: H) Q' -> wp E (op dir name) s1 Q') ->
  (forall r s', vfs_ok s' H -> Q r s') -> wp E (in_parent path op) s Q.
Proof.
  intros Hok Hp Hop HQ. unfold in_parent. wgo. apply (lookparent_path_ok _ _ H); [exact Hok|exact Hp|]. intros r dir name s1 Hs1 Hname. cbv iota.
  on_result r; [|wgo; apply HQ; by eapply hands_fail]. wgo. apply Hop; [by eapply hands_ok|done|]. intros r s2 H2 _ _. wgo.
  eapply decref_ok; [exact H2|]. intros s3 H3 _. wgo. by apply HQ.
Qed.

(** Two references are given back. *)
Lemma decref2_ok {A} E s v b w c H (r : A) Q : vfs_ok s ((v, b) :: (w, c) :: H) -> (forall s', vfs_ok s' H -> Q r s') -> wp E (VOP_DECREF v;; VOP_DECREF w;; mret r) s Q.
Proof.
  intros Hok HQ. wgo. eapply decref_ok; [exact Hok|]. intros s1 H1 _. wgo. eapply decref_ok; [exact H1|]. intros s2 H2 _. wgo. by apply HQ.
Qed.

Lemma xdev_false a b : xdev a b = false -> vn_fs a = vn_fs b.
Proof. unfold xdev. intros H. apply orb_false_iff in H as [_ H]. apply bool_decide_eq_false in H. by apply dec_stable. Qed.

(** The one way for a rename to stop: both directories are found, and the file system's own
    rename panics. *)
Definition rename_stops (s : vfs) (oldpath newpath : list Z) (r : stop) : Prop := panics r /\ exists d1 n1 s1 d2 n2 s2,
  vfs_lookparent oldpath (NAME_MAX + 1) s = Done (0, d1, n1) s1 /\ vfs_lookparent newpath (NAME_MAX + 1) s1 = Done (0, d2, n2) s2 /\ VOP_RENAME d1 n1 d2 n2 s2 = Halt r.

Lemma lookparent_path_runs s H path : vfs_ok s H -> cstr path ->
  exists r dir name s', vfs_lookparent path (NAME_MAX + 1) s = Done (r, dir, name) s' /\ hands s H r dir true s' /\ cstr name.
Proof.
  intros Hok Hp. assert (Hw : wp never (vfs_lookparent path (NAME_MAX + 1)) s (fun x s' => hands s H x.1.1 x.1.2 true s' /\ cstr x.2)) by (by apply (lookparent_path_ok _ _ H)).
  apply wp_never in Hw as ([[r dir] name] & s' & E & Hh & Hn). by exists r, dir, name, s'.
Qed.

Lemma rename_path_ok s H oldpath newpath (Q : Z -> vfs -> Prop) : vfs_ok s H -> cstr oldpath -> cstr newpath -> (forall r s', vfs_ok s' H -> Q r s') -> wp (rename_stops s oldpath newpath) (vfs_rename oldpath newpath) s Q.
Proof.
  intros Hok Hp1 Hp2 HQ. unfold vfs_rename. wgo. destruct (lookparent_path_runs s H oldpath Hok Hp1) as (r & olddir & oldname & s1 & E1 & Hs1 & Hn1). apply (wp_done _ _ _ _ _ _ E1). cbv iota.
  on_result r; [|wgo; apply HQ; by eapply hands_fail]. wgo. destruct (lookparent_path_runs s1 ((olddir, true) :: H) newpath) as (r & newdir & newname & s2 & E2 & Hs2 & Hn2); [by eapply hands_ok|exact Hp2|]. apply (wp_done _ _ _ _ _ _ E2). cbv iota.
  on_result r; [|wgo; eapply decref_ok; [by eapply hands_fail|]; intros s3 H3 _; wgo; by apply HQ]. pose proof (hands_ok _ _ _ _ _ Hs2) as Hok2.
  destruct (xdev olddir newdir) eqn:Ex; [eapply decref2_ok; [exact Hok2|]; intros; by apply HQ|]. wgo.
  assert (Hr : wp panics (VOP_RENAME olddir oldname newdir newname) s2 (fun r s3 => vfs_ok s3 ((newdir, true) :: (olddir, true) :: H))).
  { eapply rename_ok; [exact Hok2|right; left|left|done|done|by apply xdev_false|]. by intros r s3 H3 _ _. }
  eapply wp_mono; [apply (wp_stops panics); [exact Hr|]|].
  - intros x Hx Hp. split; [done|]. by exists olddir, oldname, s1, newdir, newname, s2.
  - intros r s3 H3. eapply decref2_ok; [exact H3|]. intros; by apply HQ.
Qed.

Lemma link_path_ok E s H oldpath newpath (Q : Z -> vfs -> Prop) : vfs_ok s H -> cstr oldpath -> cstr newpath -> (forall r s', vfs_ok s' H -> Q r s') -> wp E (vfs_link oldpath newpath) s Q.
Proof.
  intros Hok Hp1 Hp2 HQ. unfold vfs_link. wgo. apply (lookup_path_ok _ _ H); [exact Hok|exact Hp1|]. intros r oldfile s1 Hs1. cbv iota.
  on_result r; [|wgo; apply HQ; by eapply hands_fail]. wgo. eapply lookparent_path_ok; [by eapply hands_ok|exact Hp2|]. intros r newdir newname s2 Hs2 Hn2. cbv iota.
  on_result r; [|wgo; eapply decref_ok; [by eapply hands_fail|]; intros s3 H3 _; wgo; by apply HQ]. pose proof (hands_ok _ _ _ _ _ Hs2) as Hok2.
  destruct (xdev oldfile newdir) eqn:Ex; [eapply decref2_ok; [exact Hok2|]; intros; by apply HQ|]. wgo.
  eapply link_ok; [exact Hok2|left|right; left|done|by apply xdev_false|]. intros r s3 H3 _ _. eapply decref2_ok; [exact H3|]. intros; by apply HQ.
Qed.

Lemma chdir_ok E s H path (Q : Z -> vfs -> Prop) : vfs_ok s H -> cstr path -> (forall r s', vfs_ok s' H -> Q r s') -> wp E (vfs_chdir path) s Q.
Proof.
  intros Hok Hp HQ. unfold vfs_chdir. wgo. apply (lookup_path_ok _ _ H); [exact Hok|exact Hp|]. intros r v s1 Hs1. cbv iota. on_result r; [|wgo; apply HQ; by eapply hands_fail].
  wgo. eapply setcurdir_ok; [by eapply hands_ok|left|]. intros r s2 H2 _. wgo. eapply decref_ok; [exact H2|]. intros s3 H3 _. wgo. by apply HQ.
Qed.

Lemma readlink_path_ok E s H path u (Q : Z * uio -> vfs -> Prop) : vfs_ok s H -> cstr path -> (forall r s', vfs_ok s' H -> Q r s') -> wp E (vfs_readlink path u) s Q.
Proof.
  intros Hok Hp HQ. unfold vfs_readlink. wgo. apply (lookup_path_ok _ _ H); [exact Hok|exact Hp|]. intros r v s1 Hs1. cbv iota. on_result r; [|wgo; apply HQ; by eapply hands_fail].
  wgo. eapply readlink_ok; [by eapply hands_ok|left|]. intros [r u'] s2 H2 _ _. wgo. eapply decref_ok; [exact H2|]. intros s3 H3 _. wgo. by apply HQ.
Qed.

Lemma change_bootfs_ok E s o H Q : vfs_ok s (own_ref o ++ H) -> (forall s', vfs_ok s' H -> Q tt s') -> wp E (change_bootfs o) s Q.
Proof. intros Hok HQ. unfold change_bootfs. wgo. apply (decref_old_ok _ _ _ H); [by apply swap_bootfs|]. intros s' Hs' _. by apply HQ. Qed.

Lemma setbootfs_ok E s H fsname (Q : Z -> vfs -> Prop) : vfs_ok s H -> cstr fsname -> (forall r s', vfs_ok s' H -> Q r s') -> wp E (vfs_setbootfs fsname) s Q.
Proof.
  intros Hok Hp HQ. unfold vfs_setbootfs. set (tmp := take _ fsname). assert (Ht : cstr tmp) by (by apply Forall_take).
  destruct (match strchr COLON tmp with Some _ => _ | None => _ end); [wgo; by apply HQ|]. wgo. apply (chdir_ok _ _ H); [exact Hok| |].
  { destruct (strchr COLON tmp); [done|]. apply Forall_app. split; [done|]. by constructor. }
  intros r s1 H1. on_result r; [|wgo; by apply HQ]. wgo. apply (getcurdir_ok _ _ H); [exact H1|]. intros r v s2 Hs2 _. cbv iota. on_result r; [|wgo; apply HQ; by eapply hands_fail].
  wgo. apply (change_bootfs_ok _ _ _ H); [exact (hands_ok _ _ _ _ _ Hs2)|]. intros s3 H3. wgo. by apply HQ.
Qed.

(** ** Mounting *)

Lemma sync_fs_ok E s H f (Q : Z -> vfs -> Prop) : vfs_ok s H -> is_Some (fss s !! f) ->
  (forall r e' s', vfs_ok s' H -> s' = put_fs f e' s -> (r = 0 -> fs_synced e') -> Q r s') -> wp E (on_fs f FSOP_SYNC) s Q.
Proof.
  intros Hok Hf HQ. apply (wp_on_fs E s f [] H); [exact Hok|exact Hf|]. intros e He. eapply wp_use; [apply law_sync; exact He|]. intros r e' [He' Hsy].
  exists []. split; [exact He'|]. intros s' Hs' Hp. by apply (HQ r e').
Qed.

Lemma vfs_sync_ok E s H (Q : Z -> vfs -> Prop) : vfs_ok s H -> (forall r s', vfs_ok s' H -> Q r s') -> wp E vfs_sync s Q.
Proof.
  intros Hok HQ. unfold vfs_sync. wgo.
  assert (Hloop : forall l s, vfs_ok s H -> (forall kd, kd ∈ l -> kd ∈ knowndevs s) -> forall Q', (forall s', vfs_ok s' H -> Q' tt s') -> wp E (vfs_sync_loop l) s Q').
  { induction l as [|kd l IH]; intros s0 H0 Hl Q' HQ'; cbn [vfs_sync_loop]; [wgo; by apply HQ'|]. wgo.
    destruct (kd_fs kd) as [| |f] eqn:Ef; [wstep; apply IH; [done|intros x Hx; apply Hl; by right|done]..|]. wgo.
    destruct (vo_kd _ _ H0 kd (Hl kd (list_elem_of_here _ _))) as (_ & _ & _ & _ & Hm). apply (sync_fs_ok _ _ H); [exact H0|by apply Hm|]. intros r e' s1 H1 -> _. wstep.
    apply IH; [exact H1|intros x Hx; apply Hl; by right|done]. }
  apply Hloop; [exact Hok|done|]. intros s' Hs'. wgo. by apply HQ.
Qed.

(** Another file system for one entry of the table. *)
Lemma update_kd_ok s i kd x H : vfs_ok s H -> knowndevs s !! i = Some kd -> kd_device kd <> None -> kd_rawname kd <> None ->
  (forall f, x = MOUNTED f -> is_Some (fss s !! f) /\ forall j kj, knowndevs s !! j = Some kj -> j <> i -> kd_fs kj <> MOUNTED f) ->
  vfs_ok (set_knowndevs (alter (set_kd_fs x) i (knowndevs s)) s) H.
Proof.
  intros [A B C K T W] Hi Hd Hraw Hx. split; try done; cbn [knowndevs set_knowndevs].
  - intros kd' Hin. apply list_elem_of_lookup in Hin as [j Hj]. destruct (decide (j = i)) as [->|Hne].
    + rewrite list_lookup_alter_eq, Hi in Hj. injection Hj as <-. destruct (K kd (list_elem_of_lookup_2 _ _ _ Hi)) as (K1 & K2 & K3 & K4 & K5).
      split_and!; try done. intros f Hf. by apply Hx.
    + rewrite list_lookup_alter_ne in Hj by done. by apply (K kd'), (list_elem_of_lookup_2 _ _ _ Hj).
  - intros j k kj kk Hj Hk Hjk. assert (Hold : forall n kn, alter (set_kd_fs x) i (knowndevs s) !! n = Some kn ->
      n = i /\ kn = set_kd_fs x kd \/ n <> i /\ knowndevs s !! n = Some kn).
    { intros n kn Hn. destruct (decide (n = i)) as [->|Hne]; [rewrite list_lookup_alter_eq, Hi in Hn; left; split; [done|by injection Hn]|rewrite list_lookup_alter_ne in Hn by done; by right]. }
    destruct (Hold j kj Hj) as [[-> ->]|[Hji Hj']], (Hold k kk Hk) as [[-> ->]|[Hki Hk']]; try done.
    + destruct (T i k kd kk Hi Hk' Hjk) as [_ T2]. split; [|done]. intros f Hf. by apply (proj2 (Hx f Hf) k kk).
    + destruct (T j i kj kd Hj' Hi Hjk) as [_ T2]. split; [|done]. intros f Hf He. by apply (proj2 (Hx f He) j kj).
    + by apply (T j k kj kk).
Qed.

Lemma findmount_ok E s devname (Q : option nat -> vfs -> Prop) : (forall i kd, knowndevs s !! i = Some kd -> kd_rawname kd <> None -> kd_name kd = devname -> Q (Some i) s) -> Q None s ->
  wp E (findmount devname) s Q.
Proof.
  intros H1 H0. unfold findmount. wgo. destruct (list_find _ (knowndevs s)) as [[i kd]|] eqn:Ef; [|done]. apply list_find_Some in Ef as (Hi & [Hr Hn] & _). by apply (H1 i kd).
Qed.

Lemma get_kd_ok E s i kd (Q : knowndev -> vfs -> Prop) : knowndevs s !! i = Some kd -> Q kd s -> wp E (get_kd i) s Q.
Proof. intros Hi HQ. unfold get_kd. wgo. by apply (wp_deref _ _ _ kd). Qed.

(** A mountable entry has a device. *)
Lemma mountable s H i kd : vfs_ok s H -> knowndevs s !! i = Some kd -> kd_rawname kd <> None -> exists d, kd_device kd = Some d /\ is_Some (devices s !! d).
Proof.
  intros Hok Hi Hr. destruct (vo_kd _ _ Hok kd (list_elem_of_lookup_2 _ _ _ Hi)) as (_ & Hd & Hn & _). destruct (kd_device kd) as [d|]; [eauto|]. by destruct (Hn eq_refl).
Qed.

Lemma swapoff_ok E s H devname (Q : Z -> vfs -> Prop) : vfs_ok s H -> (forall r s', vfs_ok s' H -> Q r s') -> wp E (vfs_swapoff devname) s Q.
Proof.
  intros Hok HQ. unfold vfs_swapoff. wgo. apply findmount_ok; [|wgo; by apply HQ]. intros i kd Hi Hr _. wgo. apply (get_kd_ok _ _ _ kd); [done|].
  case_bool_decide; [wgo; by apply HQ|]. unfold update_kd. wgo. apply HQ. destruct (mountable s H i kd Hok Hi Hr) as (d & Hd & _). eapply update_kd_ok; [done|exact Hi|congruence|done|done].
Qed.

Lemma swapon_ok E s H ok_dup devname Q : vfs_ok s H -> (forall r v s', hands s H r v false s' -> Q (r, v) s') -> wp E (vfs_swapon ok_dup devname) s Q.
Proof.
  intros Hok HQ. unfold vfs_swapon. destruct (_ && _); [wgo; apply HQ; by apply hands_err|]. wgo. apply findmount_ok; [|wgo; apply HQ; by apply hands_err].
  intros i kd Hi Hr _. wgo. apply (get_kd_ok _ _ _ kd); [done|]. case_bool_decide as Hfs; [wgo; apply HQ; by apply hands_err|]. destruct (mountable s H i kd Hok Hi Hr) as (d & Hd & Hdd).
  wgo. apply wp_kassert; [by apply bool_decide_eq_true|]. wgo. apply wp_kassert; [apply bool_decide_eq_true; congruence|]. unfold update_kd. wgo.
  set (s1 := set_knowndevs _ s). assert (H1 : vfs_ok s1 H) by (eapply update_kd_ok; [done|exact Hi|congruence|done|done]).
  assert (Hin : set_kd_fs SWAP_FS kd ∈ knowndevs s1) by (apply (list_elem_of_lookup_2 _ i); cbn; by rewrite list_lookup_alter_eq, Hi).
  apply (kd_incref_ok E s1 H (set_kd_fs SWAP_FS kd)); [exact H1|exact Hin|cbn; congruence|]. intros s' Hs' Hc. wgo. apply HQ. split; [by left|done].
Qed.

(** A file system that is gone: nobody has a reference to it, and no entry of the table. *)
Definition devices_kept (s : vfs) (ds : gmap Z (device (D := D))) : Prop := forall d, is_Some (devices s !! d) -> is_Some (ds !! d).

Lemma vfs_ok_drop s f H ds : vfs_ok s H -> fs_part f (own s ++ H) = [] -> (forall kd, kd ∈ knowndevs s -> kd_fs kd <> MOUNTED f) -> devices_kept s ds ->
  vfs_ok (set_fss (delete f (fss s)) (set_devices ds s)) H.
Proof.
  intros [A B C K T W] Hnone Hkd Hdev. split; try done; change (own (set_fss _ _)) with (own s).
  - intros g e Hg. cbn in Hg. apply lookup_delete_Some in Hg as [_ Hg]. by apply A.
  - intros v b Hv. specialize (B v b Hv). destruct v as [a|g a].
    + destruct B as (-> & H0 & dv & d' & Hdv & Hd' & Hdd). split_and!; [done|done|]. exists dv, d'. split_and!; [done|done|]. by apply Hdev.
    + cbn. destruct (decide (g = f)) as [->|]; [|by rewrite lookup_delete_ne]. exfalso. apply (not_elem_of_nil (a, b)). rewrite <- Hnone.
      apply list_elem_of_omap. exists (FsVnode f a, b). split; [done|]. by rewrite decide_True.
  - intros kd Hin. destruct (K kd Hin) as (K1 & K2 & K3 & K4 & K5). split_and!; try done.
    + intros d' Hd'. by apply Hdev, K2.
    + intros g Hg. cbn. rewrite lookup_delete_ne; [by apply K5|]. intros ->. by apply (Hkd kd).
Qed.

Lemma alter_kept s d x : devices_kept s (alter (set_data x) d (devices s)).
Proof. intros d' [y Hy]. destruct (decide (d' = d)) as [->|]; [rewrite lookup_alter_eq, Hy; eauto|rewrite lookup_alter_ne by done; eauto]. Qed.

Lemma fs_unmount_ok E s H i kd f e (Q : Z -> vfs -> Prop) : vfs_ok s H -> knowndevs s !! i = Some kd -> kd_rawname kd <> None -> kd_fs kd = MOUNTED f -> fss s !! f = Some e -> fs_synced e ->
  (forall r e', r <> 0 -> vfs_ok (put_fs f e' s) H -> Q r (put_fs f e' s)) ->
  (forall s', knowndevs s' = knowndevs s -> vfs_ok (set_knowndevs (alter (set_kd_fs NO_FS) i (knowndevs s')) s') H -> Q 0 s') ->
  wp E (fs_unmount kd f) s Q.
Proof.
  intros Hok Hi Hr Hf He Hsy HQ1 HQ0. unfold fs_unmount. wgo. destruct (vfs_focus s f [] H Hok ltac:(eauto)) as (e0 & He0 & Hfs & Hback). rewrite He in He0. injection He0 as <-. cbn [app] in Hfs.
  apply (wp_zoom _ _ _ _ _ _ e); [done|]. eapply wp_use; [by apply law_unmount|]. intros r e' [[-> Hnone]|[Hr0 He']].
  2:{ destruct (Z.eqb_spec r 0); [done|]. cbn [negb]. wgo. apply HQ1; [done|]. by apply (Hback e' []). }
  cbn [negb Z.eqb]. wgo. destruct (mountable s H i kd Hok Hi Hr) as (d & Hd & Hdd). rewrite Hd. apply HQ0; [by destruct (_ ≫= fs_device)|].
  set (ds := match fss (put_fs f e' s) !! f ≫= fs_device with Some x => alter (set_data x) d (devices s) | None => devices s end).
  assert (Hds : devices_kept s ds). { unfold ds. destruct (_ ≫= fs_device); [apply alter_kept|by intros ?]. }
  set (s1 := set_knowndevs (alter (set_kd_fs NO_FS) i (knowndevs s)) s). assert (H1 : vfs_ok s1 H) by (eapply update_kd_ok; [done|exact Hi|congruence|done|done]).
  assert (Hgone : forall k, k ∈ knowndevs s1 -> kd_fs k <> MOUNTED f).
  { intros k Hk. apply list_elem_of_lookup in Hk as [j Hj]. cbn in Hj. destruct (decide (j = i)) as [->|Hji]; [rewrite list_lookup_alter_eq, Hi in Hj; by injection Hj as <-|].
    rewrite list_lookup_alter_ne in Hj by done. by apply (vo_table _ _ Hok i j kd k). }
  pose proof (vfs_ok_drop s1 f H ds H1 Hnone Hgone Hds) as Hd1. unfold s1, ds in Hd1. destruct s as [kk dd dn ff bb cc]. cbn in *.
  rewrite delete_insert_eq. rewrite lookup_insert_eq in *. cbn in *. by destruct (fs_device e').
Qed.

Lemma unmount_ok E s H devname (Q : Z -> vfs -> Prop) : vfs_ok s H -> (forall r s', vfs_ok s' H -> Q r s') -> wp E (vfs_unmount devname) s Q.
Proof.
  intros Hok HQ. unfold vfs_unmount. wgo. apply findmount_ok; [|wgo; by apply HQ]. intros i kd Hi Hr _. wgo. apply (get_kd_ok _ _ _ kd); [done|].
  destruct (kd_fs kd) as [| |f] eqn:Ef; [wgo; by apply HQ..|]. destruct (mountable s H i kd Hok Hi Hr) as (d & Hd & Hdd).
  wgo. apply wp_kassert; [by apply bool_decide_eq_true|]. wgo. apply wp_kassert; [apply bool_decide_eq_true; congruence|]. wgo.
  destruct (vo_kd _ _ Hok kd (list_elem_of_lookup_2 _ _ _ Hi)) as (_ & _ & _ & _ & Hm). apply (sync_fs_ok _ _ H); [exact Hok|by apply Hm|]. intros r e1 s1 H1 -> Hsy.
  on_result r; [|wgo; by apply HQ]. wgo. apply (fs_unmount_ok _ _ H i kd f e1); [exact H1|done|done|done|cbn; by rewrite lookup_insert_eq|by apply Hsy| |].
  - intros r e2 Hr2 H2. destruct (Z.eqb_spec r 0); [done|]. wgo. by apply HQ.
  - intros s2 _ H2. cbn [negb Z.eqb]. unfold update_kd. wgo. by apply HQ.
Qed.

Lemma unmountall_step_ok E s H i (Q : unit -> vfs -> Prop) : vfs_ok s H -> (i < length (knowndevs s))%nat ->
  (forall s', vfs_ok s' H -> length (knowndevs s') = length (knowndevs s) -> Q tt s') -> wp E (unmountall_step i) s Q.
Proof.
  intros Hok Hlt HQ. destruct (lookup_lt_is_Some_2 _ _ Hlt) as [kd Hi]. unfold unmountall_step. wgo. apply (get_kd_ok _ _ _ kd); [done|]. case_bool_decide as Hr; [wgo; by apply HQ|].
  destruct (mountable s H i kd Hok Hi Hr) as (d & Hd & Hdd). destruct (kd_fs kd) as [| |f] eqn:Ef; [wgo; by apply HQ| |].
  { unfold update_kd. wgo. apply HQ; [|cbn; by rewrite length_alter]. eapply update_kd_ok; [done|exact Hi|congruence|done|done]. }
  destruct (vo_kd _ _ Hok kd (list_elem_of_lookup_2 _ _ _ Hi)) as (_ & _ & _ & _ & Hm). wgo.
  apply (sync_fs_ok _ _ H); [exact Hok|by apply Hm|]. intros r e1 s1 H1 -> Hsy1. set (rest := fun r : Z => _).
  assert (Hrest : forall r e2 s2, vfs_ok s2 H -> knowndevs s2 = knowndevs s -> fss s2 !! f = Some e2 -> (r = 0 -> fs_synced e2) -> wp E (rest r) s2 Q).
  { clear r Hsy1. intros r e2 s2 H2 Hk2 He2 Hsy. unfold rest. on_result r; [|wgo; apply HQ; [done|by rewrite Hk2]]. wgo.
    apply (fs_unmount_ok _ _ H i kd f e2); [exact H2|by rewrite Hk2|done|done|done|by apply Hsy| |].
    - intros r e3 Hr3 H3. destruct (Z.eqb_spec r EBUSY); [wgo; apply HQ; [done|cbn; by rewrite Hk2]|]. destruct (Z.eqb_spec r 0); [done|]. cbn [negb]. wgo. apply HQ; [done|cbn; by rewrite Hk2].
    - intros s3 Hk3 H3. change (0 =? EBUSY) with false. change (0 =? 0) with true. cbn [negb]. unfold update_kd. wgo. apply HQ; [done|cbn; by rewrite length_alter, Hk3, Hk2]. }
  wgo. on_result r; [wstep; apply (Hrest 0 e1); [exact H1|done|cbn; by rewrite lookup_insert_eq|done]|].
  apply (sync_fs_ok _ _ H); [exact H1|cbn; rewrite lookup_insert_eq; eauto|]. intros r' e2 s2 H2 -> Hsy2. apply (Hrest r' e2); [exact H2|done|cbn; by rewrite lookup_insert_eq|done].
Qed.

Lemma unmountall_ok E s H (Q : Z -> vfs -> Prop) : vfs_ok s H -> (forall r s', vfs_ok s' H -> Q r s') -> wp E vfs_unmountall s Q.
Proof.
  intros Hok HQ. unfold vfs_unmountall. wgo. assert (Hloop : forall n i s, vfs_ok s H -> (i + n <= length (knowndevs s))%nat -> forall Q', (forall s', vfs_ok s' H -> Q' tt s') -> wp E (unmountall_loop i n) s Q').
  { induction n as [|n IH]; intros i s0 H0 Hl Q' HQ'; cbn [unmountall_loop]; [wgo; by apply HQ'|]. wgo. apply (unmountall_step_ok _ _ H); [exact H0|lia|]. intros s1 H1 Hl1. apply IH; [exact H1|lia|done]. }
  apply Hloop; [exact Hok|lia|]. intros s' Hs'. wgo. by apply HQ.
Qed.

Lemma no_fs_refs s H f : vfs_ok s H -> fss s !! f = None -> fs_part f (own s ++ H) = [].
Proof.
  intros Hok Hf. destruct (fs_part f (own s ++ H)) as [|[a b] l] eqn:E; [done|]. exfalso.
  assert (Hin : (a, b) ∈ fs_part f (own s ++ H)) by (rewrite E; left). apply list_elem_of_omap in Hin as ([v c] & Hv & Hx).
  destruct v as [|g a']; [done|]. case_decide as Hg; [subst g|done]. destruct (vo_ref _ _ Hok _ _ Hv). congruence.
Qed.

Lemma vfs_ok_devices s H ds : vfs_ok s H -> devices_kept s ds -> vfs_ok (set_devices ds s) H.
Proof.
  intros [A B C K T W] Hdev. split; try done.
  - intros v b Hv. specialize (B v b Hv). destruct v as [a|]; [|done]. destruct B as (-> & H0 & dv & d' & Hdv & Hd' & Hdd). split_and!; [done|done|]. exists dv, d'. split_and!; [done|done|]. by apply Hdev.
  - intros kd Hin. destruct (K kd Hin) as (K1 & K2 & K3 & K4 & K5). split_and!; try done. intros d' Hd'. by apply Hdev, K2.
Qed.

Lemma vfs_ok_new s f e H : vfs_ok s H -> fss s !! f = None -> fs_ok e [] -> vfs_ok (put_fs f e s) H.
Proof.
  intros Hok Hf He. pose proof (no_fs_refs s H f Hok Hf) as Hnone. destruct Hok as [A B C K T W].
  assert (Hput : forall g, is_Some (fss s !! g) -> is_Some (<[f := e]> (fss s) !! g)).
  { intros g Hg. destruct (decide (g = f)) as [->|]; [rewrite lookup_insert_eq; eauto|by rewrite lookup_insert_ne]. }
  split; try done; change (own (put_fs f e s)) with (own s).
  - intros g x Hx. cbn in Hx. apply lookup_insert_Some in Hx as [[<- <-]|[_ Hx]]; [by rewrite Hnone|by apply A].
  - intros v b Hv. specialize (B v b Hv). destruct v as [a|g a]; [done|]. by apply Hput.
  - intros kd Hin. destruct (K kd Hin) as (K1 & K2 & K3 & K4 & K5). split_and!; try done. intros g Hg. by apply Hput, K5.
Qed.

Lemma on_device_free {A} E s H i kd d x (m : M D A) Q : vfs_ok s H -> knowndevs s !! i = Some kd -> kd_device kd = Some d -> kd_fs kd = NO_FS -> d_data <$> devices s !! d = Some x ->
  wp E m x (fun a x' => Q a (set_devices (alter (set_data x') d (devices s)) s)) -> wp E (on_device d m) s Q.
Proof.
  intros Hok Hi Hd Hf Hx Hm. unfold on_device. wgo. assert (Hnone : mounted_on d s = None).
  { unfold mounted_on. destruct (list_find _ (knowndevs s)) as [[j kj]|] eqn:E0; [|done]. apply list_find_Some in E0 as (Hj & Hdj & _). cbn.
    destruct (decide (i = j)) as [<-|Hij]; [by rewrite Hi in Hj; injection Hj as <-; rewrite Hf|]. destruct (vo_table _ _ Hok i j kd kj Hi Hj Hij) as [_ HT]. by destruct (HT d Hd). }
  rewrite Hnone. by apply (wp_zoom _ _ _ _ _ _ x).
Qed.

(** What a mount function promises: a new file system to which nobody has a reference. *)
Definition mountfunc_ok (s : vfs) (x : D) (mountfunc : M D (Z * option (Z * F))) : Prop :=
  wp never mountfunc x (fun ro _ => ro.1 <> 0 \/ ro.1 = 0 /\ exists f e, ro.2 = Some (f, e) /\ fss s !! f = None /\ fs_ok e []).

(** ... when it is run on the device of that name. *)
Definition mounts_ok (s : vfs) (devname : list Z) (mountfunc : M D (Z * option (Z * F))) : Prop :=
  forall kd d dv, kd ∈ knowndevs s -> kd_name kd = devname -> kd_fs kd = NO_FS -> kd_device kd = Some d -> devices s !! d = Some dv -> mountfunc_ok s (d_data dv) mountfunc.

Lemma mount_ok E s H devname mountfunc (Q : Z -> vfs -> Prop) : vfs_ok s H -> mounts_ok s devname mountfunc ->
  (forall r s', vfs_ok s' H -> Q r s') -> wp E (vfs_mount devname mountfunc) s Q.
Proof.
  intros Hok Hmf HQ. unfold vfs_mount. wgo. apply findmount_ok; [|wgo; by apply HQ]. intros i kd Hi Hr Hname. wgo. apply (get_kd_ok _ _ _ kd); [done|].
  case_bool_decide as Hfs; [wgo; by apply HQ|]. destruct (mountable s H i kd Hok Hi Hr) as (d & Hd & [dv Hdv]).
  wgo. apply wp_kassert; [by apply bool_decide_eq_true|]. wgo. apply wp_kassert; [apply bool_decide_eq_true; congruence|]. wgo. apply (wp_deref _ _ _ d); [done|]. wgo.
  eapply (on_device_free _ s H i kd d (d_data dv)); [exact Hok|done|done|done|by rewrite Hdv|]. eapply wp_use; [by apply (Hmf kd d dv); [eapply list_elem_of_lookup_2| | | |]|]. intros [r o] x' Hro. cbn [fst snd] in Hro. cbv iota.
  set (ds := alter (set_data x') d (devices s)). assert (H1 : vfs_ok (set_devices ds s) H) by (apply vfs_ok_devices; [done|apply alter_kept]).
  destruct Hro as [Hr0|(-> & f & e & -> & Hf & He)].
  - destruct (Z.eqb_spec r 0); [done|]. cbn [negb]. wgo. by apply HQ.
  - change (0 =? 0) with true. cbn [negb]. wgo. apply wp_kassert; [done|]. wgo. apply (wp_deref _ _ _ (f, e)); [done|]. unfold update_kd. wgo. apply HQ.
    set (s2 := put_fs f e (set_devices ds s)). assert (H2 : vfs_ok s2 H) by (by apply vfs_ok_new). change (set_fss _ _) with s2.
    eapply (update_kd_ok s2 i kd); [exact H2|done|congruence|done|]. intros g [= <-]. split; [cbn; rewrite lookup_insert_eq; eauto|]. intros j kj Hj _ Hm.
    destruct (vo_kd _ _ Hok kj (list_elem_of_lookup_2 _ _ _ Hj)) as (_ & _ & _ & _ & Hk). destruct (Hk f Hm). congruence.
Qed.

(** ** Adding devices *)

(** The names of an entry: its device, its raw device, its volume. *)
Definition vol_of (s : vfs) (kd : knowndev) : option (list Z) := match kd_fs kd with MOUNTED f => e ← fss s !! f; FSOP_GETVOLNAME e | _ => None end.
Definition kd_names (s : vfs) (kd : knowndev) : list (list Z) := option_list (vol_of s kd) ++ option_list (kd_rawname kd) ++ [kd_name kd].
Definition all_names (s : vfs) : list (list Z) := mjoin (kd_names s <$> knowndevs s).

Lemma volname_is s f e : fss s !! f = Some e -> volname f s = Done (FSOP_GETVOLNAME e) s.
Proof. intros He. unfold volname, on_fs, zoom. rewrite He. cbn. f_equal. by apply put_same. Qed.

Lemma samestring_spec a b : samestring a b = true <-> exists x, a = Some x /\ b = Some x.
Proof.
  unfold samestring, streq. destruct a as [a|], b as [b|]; rewrite ?bool_decide_eq_true; (split; [intros Hx|intros (x & Hx & Hy)]); try done; [subst; eauto|congruence].
Qed.
Lemma samestring3_spec a b c d : samestring3 a b c d = true <-> exists x, a = Some x /\ (b = Some x \/ c = Some x \/ d = Some x).
Proof.
  unfold samestring3. rewrite !orb_true_iff, !samestring_spec. split.
  - intros [[(x & Hx & Hy)|(x & Hx & Hy)]|(x & Hx & Hy)]; exists x; tauto.
  - intros (x & Hx & [Hy|[Hy|Hy]]); [left; left|left; right|right]; eauto.
Qed.

Lemma elem_of_names s kd x : x ∈ kd_names s kd <-> vol_of s kd = Some x \/ kd_rawname kd = Some x \/ kd_name kd = x.
Proof.
  unfold kd_names. rewrite !elem_of_app, list_elem_of_singleton. assert (Ho : forall o : option (list Z), x ∈ option_list o <-> o = Some x).
  { intros [y|]; cbn; [rewrite list_elem_of_singleton; split; congruence|split; [by intros ?%elem_of_nil|done]]. }
  rewrite !Ho. split; intros [|[|]]; auto.
Qed.

(** [badnames] looks for a name in use. *)
Lemma badnames_is s H n1 n2 n3 : vfs_ok s H -> exists b, badnames n1 n2 n3 s = Done b s /\
  (b = true <-> exists x, x ∈ all_names s /\ (n1 = Some x \/ n2 = Some x \/ n3 = Some x)).
Proof.
  intros Hok. unfold badnames, mbind, M_bind, gets, all_names. assert (Hl : forall kd, kd ∈ knowndevs s -> kd ∈ knowndevs s) by done. revert Hl.
  generalize (knowndevs s) at 1 3 4 as l. induction l as [|kd l IH]; intros Hl.
  { exists false. split; [done|]. split; [done|]. intros (x & Hx & _). by apply elem_of_nil in Hx. }
  destruct IH as (b & Hb & Hspec); [intros x Hx; apply Hl; by right|].
  set (c := samestring3 (vol_of s kd) n1 n2 n3 || samestring3 (kd_rawname kd) n1 n2 n3 || samestring3 (Some (kd_name kd)) n1 n2 n3).
  exists (c || b). split.
  - destruct (vo_kd _ _ Hok kd (Hl kd (list_elem_of_here _ _))) as (_ & _ & _ & _ & Hm). unfold c, vol_of. cbn [badnames_loop].
    destruct (kd_fs kd) as [| |f]; [by destruct (samestring3 (kd_rawname kd) n1 n2 n3), (samestring3 (Some (kd_name kd)) n1 n2 n3)..|].
    destruct (Hm f eq_refl) as [e He]. unfold mbind, M_bind. rewrite (volname_is s f e He), He. cbn.
    by destruct (samestring3 (FSOP_GETVOLNAME e) n1 n2 n3), (samestring3 (kd_rawname kd) n1 n2 n3), (samestring3 (Some (kd_name kd)) n1 n2 n3).
  - assert (Hc : c = true <-> exists x, x ∈ kd_names s kd /\ (n1 = Some x \/ n2 = Some x \/ n3 = Some x)).
    { unfold c. rewrite !orb_true_iff, !samestring3_spec. setoid_rewrite elem_of_names. split.
      - intros [[(x & Hx & Hy)|(x & Hx & Hy)]|(x & [= Hx] & Hy)]; exists x; tauto.
      - intros (x & [Hx|[Hx|Hx]] & Hy); [left; left|left; right|right]; exists x; split; try done. by rewrite Hx. }
    rewrite orb_true_iff, Hc, Hspec. change (mjoin (kd_names s <$> kd :: l)) with (kd_names s kd ++ mjoin (kd_names s <$> l)). split.
    + intros [(x & Hx & Hy)|(x & Hx & Hy)]; exists x; rewrite elem_of_app; tauto.
    + intros (x & Hx & Hy). apply elem_of_app in Hx as [Hx|Hx]; [left|right]; eauto.
Qed.

(** What [vfs_doadd] needs: fresh memory; a device, or a file system of its own, that is not in
    the table yet. *)
Definition can_add (s : vfs) (mem : add_memory) (mountable : bool) (dev fs : option Z) : Prop :=
  (vnode_at mem <> 0 -> dev_vnodes s !! vnode_at mem = None) /\
  match dev, fs with
  | Some d, None => is_Some (devices s !! d) /\ forall kd, kd ∈ knowndevs s -> kd_device kd <> Some d
  | None, Some f => mountable = false /\ is_Some (fss s !! f) /\ forall kd, kd ∈ knowndevs s -> kd_fs kd <> MOUNTED f
  | _, _ => False
  end.

Definition new_kd (dname : list Z) (mountable : bool) (dev fs : option Z) (a : Z) : knowndev :=
  mkKd dname (if mountable then Some (mkrawname dname) else None) dev a (match fs with Some f => MOUNTED f | None => NO_FS end).

Lemma vfs_ok_new_vnode s a dev H : vfs_ok s H -> a <> 0 -> dev_vnodes s !! a = None -> vfs_ok (set_dev_vnodes (<[a := mkDv 1 dev]> (dev_vnodes s)) s) H.
Proof.
  intros [A B C K T W] Ha Hn. assert (Hlook : forall x y, dev_vnodes s !! x = Some y -> <[a := mkDv 1 dev]> (dev_vnodes s) !! x = Some y) by (intros x y Hx; rewrite lookup_insert_ne; [done|congruence]).
  split; try done.
  - intros v b Hv. specialize (B v b Hv). destruct v as [x|]; [|done]. destruct B as (-> & H0 & dv & d & Hdv & Hr). split_and!; [done|done|]. exists dv, d. split; [by apply Hlook|done].
  - intros x y Hx. cbn in Hx. apply lookup_insert_Some in Hx as [[<- <-]|[_ Hx]]; [|by apply C]. split; [done|]. cbn. change (own (set_dev_vnodes _ s)) with (own s).
    assert (Hz : filter (fun z => z.1 = DevVnode a) (own s ++ H) = []).
    { destruct (filter _ _) as [|[v b] l] eqn:E; [done|]. exfalso. assert (Hin : (v, b) ∈ filter (fun z => z.1 = DevVnode a) (own s ++ H)) by (rewrite E; left).
      apply list_elem_of_filter in Hin as [Hv Hin]. cbn in Hv. subst v. destruct (B _ _ Hin) as (_ & _ & dv & d & Hdv & _). congruence. }
    unfold dev_part. by rewrite Hz.
  - intros kd Hin. destruct (K kd Hin) as ((dv & Hdv & Hd) & K2). split; [exists dv; split; [by apply Hlook|done]|done].
Qed.

Lemma vfs_ok_append s kd H : vfs_ok s H -> kd_ok s kd -> (forall k, k ∈ knowndevs s -> (forall f, kd_fs kd = MOUNTED f -> kd_fs k <> MOUNTED f) /\ (forall d, kd_device kd = Some d -> kd_device k <> Some d)) ->
  vfs_ok (set_knowndevs (knowndevs s ++ [kd]) s) H.
Proof.
  intros [A B C K T W] Hkd Hnew. split; try done; cbn [knowndevs set_knowndevs].
  - intros k. rewrite elem_of_app, list_elem_of_singleton. intros [Hk| ->]; [by apply K|done].
  - intros i j ki kj Hi Hj Hij. apply lookup_snoc_Some in Hi as [[_ Hi]|[-> <-]], Hj as [[_ Hj]|[-> <-]]; try done; [by apply (T i j)| |].
    + destruct (Hnew ki (list_elem_of_lookup_2 _ _ _ Hi)) as [H1 H2]. split; [intros f Hf Hf'; by apply (H1 f Hf')|intros d Hd Hd'; by apply (H2 d Hd')].
    + by apply Hnew, (list_elem_of_lookup_2 _ j).
Qed.

(** Every allocation of [vfs_doadd] succeeds. *)
Definition enough (mem : add_memory) (mountable : bool) : bool :=
  ok_name mem && (negb mountable || ok_rawname mem) && negb (vnode_at mem =? 0) && ok_kd mem && ok_array mem.

Definition clash (s : vfs) (names : list (list Z)) : Prop := exists x, x ∈ all_names s /\ x ∈ names.

Lemma doadd_ok E s H mem dname mountable dev fs (Q : Z -> vfs -> Prop) : vfs_ok s H -> can_add s mem mountable dev fs ->
  let names := kd_names s (new_kd dname mountable dev fs (vnode_at mem)) in
  (forall r, r = ENOMEM /\ enough mem mountable = false \/ r = EEXIST /\ clash s names -> Q r s) ->
  (forall s', vfs_ok s' H -> knowndevs s' = knowndevs s ++ [new_kd dname mountable dev fs (vnode_at mem)] -> fss s' = fss s -> ~ clash s names -> Q 0 s') ->
  wp E (vfs_doadd mem dname mountable dev fs) s Q.
Proof.
  intros Hok [Hfresh Hadd] names HQ1 HQ0. unfold vfs_doadd. set (a := vnode_at mem) in *. unfold enough in HQ1. fold a in HQ1.
  destruct (ok_name mem); cbn [negb]; [|unfold doadd_fail; wgo; apply HQ1; auto]. destruct (mountable && negb (ok_rawname mem)) eqn:Er.
  { unfold doadd_fail. wgo. apply HQ1. left. split; [done|]. by destruct mountable, (ok_rawname mem). }
  wgo. unfold dev_create_vnode. destruct (Z.eqb_spec a 0) as [Ha|Ha].
  { wgo. change (0 =? 0) with true. unfold doadd_fail. wgo. apply HQ1. left. split; [done|]. by destruct (negb mountable || ok_rawname mem). }
  unfold put_dv. wgo. destruct (Z.eqb_spec a 0); [done|]. specialize (Hfresh Ha). set (s1 := set_dev_vnodes _ s). pose proof (vfs_ok_new_vnode s a dev H Hok Ha Hfresh) as H1. fold s1 in H1.
  assert (Hfail : forall r, r = ENOMEM /\ ok_kd mem && ok_array mem = false \/ r = EEXIST /\ clash s names -> wp E (doadd_fail a r) s1 Q).
  { intros r Hr0. assert (Hr : r = ENOMEM /\ true && (negb mountable || ok_rawname mem) && negb false && ok_kd mem && ok_array mem = false \/ r = EEXIST /\ clash s names).
    { destruct Hr0 as [[-> Hm]|]; [left|by right]. split; [done|]. by destruct (negb mountable || ok_rawname mem), (ok_kd mem), (ok_array mem). } unfold doadd_fail, dev_uncreate_vnode, get_dv. destruct (Z.eqb_spec a 0); [done|]. wgo. eapply wp_deref; [cbn; apply lookup_insert_eq|]. wgo. apply wp_kassert; [done|]. wgo.
    replace (set_dev_vnodes _ s1) with s; [by apply HQ1|]. destruct s as [k dd dn ff bb cc]. unfold s1, set_dev_vnodes. cbn in *. f_equal. by rewrite delete_insert_id. }
  destruct (ok_kd mem); cbn [negb]; [|by apply Hfail; left]. wgo. set (kd := new_kd dname mountable dev fs a) in *.
  assert (Hvol : wp E (match fs with Some f => volname f | None => mret None end) s1 (fun o s2 => o = vol_of s kd /\ s2 = s1)).
  { destruct fs as [f|]; [|by wgo]. assert (is_Some (fss s !! f)) as [e He] by (destruct dev; [done|apply Hadd]). eapply wp_done; [by apply (volname_is s1 f e)|]. cbn. by rewrite He. }
  eapply wp_mono; [exact Hvol|]. cbv beta. intros o s2 [-> ->]. wgo. destruct (badnames_is s1 H (Some dname) (kd_rawname kd) (vol_of s kd) H1) as (b & Hb & Hspec). eapply wp_done; [exact Hb|].
  assert (Hcl : b = true <-> clash s names).
  { rewrite Hspec. unfold clash. change (all_names s1) with (all_names s). split; intros (x & Hx & Hy); exists x; (split; [done|]).
    - apply elem_of_names. destruct Hy as [[= ->]|[Hy|Hy]]; auto.
    - apply elem_of_names in Hy as [Hy|[Hy|Hy]]; [auto|auto|left; by rewrite <- Hy]. }
  destruct b; [apply Hfail; right; split; [done|by apply Hcl]|]. destruct (ok_array mem); cbn [negb]; [|by apply Hfail; left]. wgo. set (s3 := set_knowndevs _ s1).
  assert (H3 : vfs_ok s3 H).
  { apply (vfs_ok_append s1 kd); [exact H1| |].
    - split; [exists (mkDv 1 dev); split; [cbn; apply lookup_insert_eq|done]|]. destruct dev as [d|], fs as [f|]; try done.
      + destruct Hadd as [Hd _]. split_and!; try done. by intros d' [= <-].
      + destruct Hadd as (-> & Hf & _). split_and!; try done; [intros _; split; [done|by exists f]|]. by intros g [= <-].
    - intros k Hk. destruct dev as [d|], fs as [f|]; try done.
      + destruct Hadd as [_ Hd]. split; [done|]. intros d' [= <-]. by apply Hd.
      + destruct Hadd as (_ & _ & Hf). split; [|done]. intros g [= <-]. by apply Hf. }
  assert (Hnc : ~ clash s names) by (rewrite <- Hcl; done).
  destruct dev as [d|]; wgo; apply HQ0; try done. apply vfs_ok_devices; [exact H3|]. intros d' [y Hy].
  destruct (decide (d' = d)) as [->|]; [rewrite lookup_alter_eq, Hy; eauto|rewrite lookup_alter_ne by done; eauto].
Qed.

End VfsProofs.
End VfsProofs.
