(* ===== verification/SemfsProofs.v ===== *)
(** * semfs as a map of semaphores

    The abstract state of a semfs: for each number that is in use, the count of the semaphore,
    its name, if it has one, and its vnode with the number of references, if it is open; and
    the vnode of the root directory.  [rep u s A]: the tables and objects of [s] stand for [A],
    with nothing left over.  Each operation of semfs does to [A] what its name says. *)
From S2P Require Import Prelude Wp Copyinout Uio Lhd Sfs SfsVnops Vnode Semfs Vfs.
From S2P Require Import VfsProofs.
Import Copyinout Uio Sfs SfsVnops Vnode Vfs VfsProofs Semfs.

Module SemfsProofs.

(** ** Tables of pointers *)

(** The pointers in a table are different, and they are those of the heap [D]. *)
Definition ptr_ok (l : list Z) (D : gset Z) : Prop :=
  (forall i j p, p <> 0 -> l !! i = Some p -> l !! j = Some p -> i = j) /\
  (forall p, p ∈ D <-> p <> 0 /\ exists i, l !! i = Some p).

Lemma ptr_ok_in l D i p : ptr_ok l D -> l !! i = Some p -> p <> 0 -> p ∈ D.
Proof. intros [_ H] Hi Hp. apply H. eauto. Qed.
Lemma ptr_ok_zero l D : ptr_ok l D -> 0 ∉ D.
Proof. intros [_ H] H0. by apply H in H0 as [? _]. Qed.

Lemma insert_Some_cases (l : list Z) i j x q : <[i := x]> l !! j = Some q -> j = i /\ q = x \/ j <> i /\ l !! j = Some q.
Proof.
  destruct (decide (j = i)) as [->|Hne].
  - intros H. left. split; [done|]. pose proof (lookup_lt_Some _ _ _ H) as Hl. rewrite length_insert in Hl. rewrite list_lookup_insert_eq in H by done. congruence.
  - rewrite list_lookup_insert_ne by done. auto.
Qed.

Lemma ptr_ok_fill l D i p : ptr_ok l D -> l !! i = Some 0 -> p <> 0 -> p ∉ D -> ptr_ok (<[i := p]> l) ({[p]} ∪ D).
Proof.
  intros [H1 H2] Hi Hp Hn. assert (Hlt : (i < length l)%nat) by (by eapply lookup_lt_Some). split.
  - intros j k q Hq Hj Hk. apply insert_Some_cases in Hj as [[-> ->]|[Hj' Hj]]; apply insert_Some_cases in Hk as [[-> Ek]|[Hk' Hk]]; [done|exfalso; apply Hn, H2; eauto| |by eapply H1].
    subst q. exfalso. apply Hn, H2. eauto.
  - intros q. rewrite elem_of_union, elem_of_singleton, H2. split.
    + intros [->|[Hq [j Hj]]]; [split; [done|exists i; by apply list_lookup_insert_eq]|]. split; [done|]. exists j. rewrite list_lookup_insert_ne; [done|]. intros ->. congruence.
    + intros [Hq [j Hj]]. apply insert_Some_cases in Hj as [[-> ->]|[_ Hj]]; [by left|right; eauto].
Qed.

Lemma ptr_ok_snoc l D p : ptr_ok l D -> p <> 0 -> p ∉ D -> ptr_ok (l ++ [p]) ({[p]} ∪ D).
Proof.
  intros [H1 H2] Hp Hn. split.
  - intros j k q Hq Hj Hk. apply lookup_app_Some in Hj, Hk. rewrite !list_lookup_singleton_Some in Hj, Hk.
    destruct Hj as [Hj|(? & ? & Ej)], Hk as [Hk|(? & ? & Ek)]; [by eapply H1| | |lia]; subst q; exfalso; apply Hn, H2; eauto.
  - intros q. rewrite elem_of_union, elem_of_singleton, H2. split.
    + intros [->|[Hq [j Hj]]]; [split; [done|exists (length l); by rewrite lookup_app_r, Nat.sub_diag by lia]|]. split; [done|]. exists j. by apply lookup_app_l_Some.
    + intros [Hq [j Hj]]. apply lookup_app_Some in Hj. rewrite list_lookup_singleton_Some in Hj. destruct Hj as [Hj|(? & ? & Ej)]; [right; eauto|by left].
Qed.

Lemma ptr_ok_clear l D i p : ptr_ok l D -> l !! i = Some p -> p <> 0 -> ptr_ok (<[i := 0]> l) (D ∖ {[p]}).
Proof.
  intros [H1 H2] Hi Hp. assert (Hlt : (i < length l)%nat) by (by eapply lookup_lt_Some). split.
  - intros j k q Hq Hj Hk. apply insert_Some_cases in Hj as [[_ ?]|[_ Hj]]; [done|]. apply insert_Some_cases in Hk as [[_ ?]|[_ Hk]]; [done|]. by eapply H1.
  - intros q. rewrite elem_of_difference, elem_of_singleton, H2. split.
    + intros [[Hq [j Hj]] Hne]. split; [done|]. exists j. rewrite list_lookup_insert_ne; [done|]. intros ->. congruence.
    + intros [Hq [j Hj]]. apply insert_Some_cases in Hj as [[_ ?]|[Hne Hj]]; [done|]. split; [eauto|]. intros ->. apply Hne. by eapply H1.
Qed.

Lemma ptr_ok_delete l D i p : ptr_ok l D -> l !! i = Some p -> p <> 0 -> ptr_ok (delete i l) (D ∖ {[p]}).
Proof.
  intros [H1 H2] Hi Hp.
  assert (Hl : forall j, delete i l !! j = l !! (if decide (j < i)%nat then j else S j)).
  { intros j. case_decide; [by apply list_lookup_delete_lt|apply list_lookup_delete_ge; lia]. }
  split.
  - intros j k q Hq Hj Hk. rewrite Hl in Hj, Hk. pose proof (H1 _ _ _ Hq Hj Hk). repeat case_decide; lia.
  - intros q. rewrite elem_of_difference, elem_of_singleton, H2. split.
    + intros [[Hq [j Hj]] Hne]. split; [done|]. assert (j <> i) by (intros ->; congruence). exists (if decide (j < i)%nat then j else (j - 1)%nat). rewrite Hl.
      destruct (decide (j < i)%nat); [by rewrite decide_True|rewrite decide_False by lia]. by replace (S (j - 1)) with j by lia.
    + intros [Hq [j Hj]]. rewrite Hl in Hj. split; [eauto|]. intros ->. pose proof (H1 _ _ _ Hp Hi Hj). case_decide; lia.
Qed.

(** ** The abstract state *)

Record asem := mkAsem { as_count : Z; as_name : option (list Z); as_vn : option (Z * Z) }.
Record afs := mkAfs { af_sems : gmap Z asem; af_root : option (Z * Z) }.

Definition name_of (A : afs) (k : Z) : option (list Z) := x ← af_sems A !! k; as_name x.
Definition vn_of (A : afs) (k : Z) : option (Z * Z) := if decide (k = SEMFS_ROOTDIR) then af_root A else x ← af_sems A !! k; as_vn x.

(** The semaphore that stands for an abstract one; nobody waits.  [u]: a semaphore that has its
    name but is not marked so yet, in the middle of its creation. *)
Definition conc (u : option Z) (k : Z) (x : asem) : semfs_sem :=
  mkSem (as_count x) (bool_decide (is_Some (as_vn x))) (bool_decide (is_Some (as_name x) /\ u <> Some k)) [].

(** The semaphore with a number. *)
Definition sem_of (s : semfs) (k : Z) : option semfs_sem := if decide (0 <= k) then a ← semfs_sems s !! Z.to_nat k; sem_heap s !! a else None.

Record rep (u : option Z) (s : semfs) (A : afs) : Prop := {
  r_sems : ptr_ok (semfs_sems s) (dom (sem_heap s));
  r_len : Z.of_nat (length (semfs_sems s)) <= SEMFS_ROOTDIR;
  r_sem : forall k, sem_of s k = conc u k <$> af_sems A !! k;
  r_dents : ptr_ok (semfs_dents s) (dom (dent_heap s));
  r_dent : forall p d, dent_heap s !! p = Some d -> name_of A (semd_semnum d) = Some (semd_name d);
  r_named : forall k n, name_of A k = Some n -> exists p, dent_heap s !! p = Some (mkDent n k);
  r_dinj : forall p q d e, dent_heap s !! p = Some d -> dent_heap s !! q = Some e -> semd_semnum d = semd_semnum e -> p = q;
  r_names : forall k k' n, name_of A k = Some n -> name_of A k' = Some n -> k = k';
  r_vnodes : ptr_ok (semfs_vnodes s) (dom (semv_heap s));
  r_nonull : 0 ∉ semfs_vnodes s;
  r_vn : forall p v, semv_heap s !! p = Some v <-> vn_of A (semv_semnum v) = Some (p, semv_refcount v);
  r_counts : forall k p c, vn_of A k = Some (p, c) -> 0 < c }.

(** The requests for memory do not show. *)
Definition same_but_asks (s s' : semfs) : Prop :=
  semfs_vnodes s' = semfs_vnodes s /\ semfs_sems s' = semfs_sems s /\ semfs_dents s' = semfs_dents s /\
  sem_heap s' = sem_heap s /\ dent_heap s' = dent_heap s /\ semv_heap s' = semv_heap s.

Lemma rep_asks u s s' A : same_but_asks s s' -> rep u s A -> rep u s' A.
Proof.
  intros (E1 & E2 & E3 & E4 & E5 & E6) [R1 R2 R3 R4 R5 R6 R7 R8 R9 R10 R11 R12].
  split; rewrite ?E1, ?E2, ?E3, ?E4, ?E5, ?E6; try done. intros k. rewrite <- R3. unfold sem_of. by rewrite E2, E4.
Qed.

(** A number in use, and where its semaphore is. *)
Lemma rep_sem u s A k x : rep u s A -> af_sems A !! k = Some x ->
  0 <= k < Z.of_nat (length (semfs_sems s)) /\ exists a, semfs_sems s !! Z.to_nat k = Some a /\ a <> 0 /\ sem_heap s !! a = Some (conc u k x).
Proof.
  intros R Hk. pose proof (r_sem _ _ _ R k) as E. rewrite Hk in E. unfold sem_of in E. case_decide as H0; [|done].
  destruct (semfs_sems s !! Z.to_nat k) as [a|] eqn:Ea; [|done]. cbn in E. pose proof (lookup_lt_Some _ _ _ Ea). split; [lia|].
  exists a. split_and!; [done| |done]. intros ->. apply (ptr_ok_zero _ _ (r_sems _ _ _ R)), elem_of_dom. eauto.
Qed.
Lemma rep_not_root u s A k x : rep u s A -> af_sems A !! k = Some x -> k <> SEMFS_ROOTDIR.
Proof. intros R Hk. pose proof (rep_sem u s A k x R Hk) as [H _]. pose proof (r_len _ _ _ R). lia. Qed.

Lemma rep_vnode u s A p v : rep u s A -> semv_heap s !! p = Some v -> p <> 0 /\ exists i, semfs_vnodes s !! i = Some p.
Proof. intros R Hp. apply (proj2 (r_vnodes _ _ _ R)). apply elem_of_dom. eauto. Qed.


(** ** Changing the vnode of a number *)

(** [semv_heap] lists the vnodes that [f] gives the numbers. *)
Definition vn_map (h : gmap Z semfs_vnode) (f : Z -> option (Z * Z)) : Prop :=
  forall p v, h !! p = Some v <-> f (semv_semnum v) = Some (p, semv_refcount v).
Definition set_at (f : Z -> option (Z * Z)) (k : Z) (o : option (Z * Z)) : Z -> option (Z * Z) := fun k' => if decide (k' = k) then o else f k'.

Lemma vn_map_ext h f g : (forall k, f k = g k) -> vn_map h f -> vn_map h g.
Proof. intros E H p v. rewrite <- E. apply H. Qed.

Lemma vn_map_insert h f k p c : vn_map h f -> (forall v, h !! p = Some v -> semv_semnum v = k) -> (forall q c0, f k = Some (q, c0) -> q = p) ->
  vn_map (<[p := mkSemv k c]> h) (set_at f k (Some (p, c))).
Proof.
  unfold vn_map. intros H Hp Hk q [k' c']. unfold set_at. cbn [semv_semnum semv_refcount]. destruct (decide (q = p)) as [->|Hq].
  - rewrite lookup_insert_eq. split; [intros [= <- <-]; by rewrite decide_True|]. case_decide as Hd; [subst; by intros [= <-]|].
    intros Hf. exfalso. apply Hd. apply (Hp (mkSemv k' c')), H. done.
  - rewrite lookup_insert_ne by done. rewrite H. cbn. case_decide as Hd; [subst k'|done]. split; [intros Hf; apply Hk in Hf; done|]. intros [= -> ?]. done.
Qed.

Lemma vn_map_delete h f k p c : vn_map h f -> f k = Some (p, c) -> vn_map (delete p h) (set_at f k None).
Proof.
  unfold vn_map. intros H Hk q [k' c']. unfold set_at. cbn [semv_semnum semv_refcount].
  assert (Hp : h !! p = Some (mkSemv k c)) by (by apply H). destruct (decide (q = p)) as [->|Hq].
  - rewrite lookup_delete_eq. split; [done|]. case_decide as Hd; [done|]. intros Hf. apply (H p (mkSemv k' c')) in Hf. rewrite Hp in Hf. congruence.
  - rewrite lookup_delete_ne by done. rewrite H. cbn. case_decide as Hd; [subst k'|done]. rewrite Hk. split; [intros [= -> ?]; done|done].
Qed.

Definition set_vn (k : Z) (o : option (Z * Z)) (A : afs) : afs :=
  if decide (k = SEMFS_ROOTDIR) then mkAfs (af_sems A) o
  else mkAfs (alter (fun x => mkAsem (as_count x) (as_name x) o) k (af_sems A)) (af_root A).

(** The root directory or a semaphore. *)
Definition known (A : afs) (k : Z) : Prop := k = SEMFS_ROOTDIR \/ k <> SEMFS_ROOTDIR /\ is_Some (af_sems A !! k).

Lemma vn_of_set_vn A k o k' : known A k -> vn_of (set_vn k o A) k' = set_at (vn_of A) k o k'.
Proof.
  intros Hk. unfold vn_of, set_vn, set_at. destruct (decide (k = SEMFS_ROOTDIR)) as [->|Hne]; cbn.
  - by destruct (decide (k' = SEMFS_ROOTDIR)).
  - destruct Hk as [?|[_ [x Hx]]]; [done|]. destruct (decide (k' = k)) as [->|Hk'].
    + rewrite decide_False by done. rewrite lookup_alter_eq, Hx. done.
    + destruct (decide (k' = SEMFS_ROOTDIR)); [done|]. by rewrite lookup_alter_ne.
Qed.
Lemma set_vn_lookup A k o k' : af_sems (set_vn k o A) !! k' =
  (fun x => if decide (k' = k /\ k <> SEMFS_ROOTDIR) then mkAsem (as_count x) (as_name x) o else x) <$> af_sems A !! k'.
Proof.
  unfold set_vn. destruct (decide (k = SEMFS_ROOTDIR)) as [->|Hne]; cbn.
  - destruct (af_sems A !! k'); cbn; [|done]. by rewrite decide_False by tauto.
  - destruct (decide (k' = k)) as [->|Hk'].
    + rewrite lookup_alter_eq. destruct (af_sems A !! k); cbn; [|done]. by rewrite decide_True.
    + rewrite lookup_alter_ne by done. destruct (af_sems A !! k'); cbn; [|done]. by rewrite decide_False by tauto.
Qed.
Lemma name_of_set_vn A k o k' : name_of (set_vn k o A) k' = name_of A k'.
Proof. unfold name_of. rewrite set_vn_lookup. destruct (af_sems A !! k'); cbn; [|done]. by case_decide. Qed.

(** The table, the heap of semaphores and the vnodes change together. *)
Lemma rep_set_vn u s s' A k o : rep u s A -> known A k ->
  semfs_sems s' = semfs_sems s -> semfs_dents s' = semfs_dents s -> dent_heap s' = dent_heap s -> dom (sem_heap s') = dom (sem_heap s) ->
  (forall k', sem_of s' k' = conc u k' <$> af_sems (set_vn k o A) !! k') ->
  ptr_ok (semfs_vnodes s') (dom (semv_heap s')) -> 0 ∉ semfs_vnodes s' -> vn_map (semv_heap s') (set_at (vn_of A) k o) ->
  (forall p c, o = Some (p, c) -> 0 < c) ->
  rep u s' (set_vn k o A).
Proof.
  intros R Hk E1 E2 E3 E4 Hsem Hptr Hnull Hvn Hc. split; rewrite ?E1, ?E2, ?E3, ?E4; try (by apply R); try done.
  - intros p d Hp. rewrite name_of_set_vn. by eapply r_dent.
  - intros k' n Hn. rewrite name_of_set_vn in Hn. by eapply r_named.
  - intros k1 k2 n. rewrite !name_of_set_vn. by eapply r_names.
  - eapply vn_map_ext; [|exact Hvn]. intros k'. symmetry. by apply vn_of_set_vn.
  - intros k' p c. rewrite vn_of_set_vn by done. unfold set_at. case_decide; [apply Hc|by apply R].
Qed.

Section Ops.
Context {SM : SemfsMemory}.

Class SemfsMemoryLaws : Prop := sf_fresh : forall n live, sf_kmalloc n live <> 0 -> sf_kmalloc n live ∉ live.
Context {SML : SemfsMemoryLaws}.

Lemma wp_ask_object live s (Q : Z -> semfs -> Prop) :
  (forall p s', (p <> 0 -> p ∉ live s) -> same_but_asks s s' -> Q p s') -> wp never (ask_object live) s Q.
Proof. intros H. unfold wp, ask_object. apply H; [apply sf_fresh|by split_and!]. Qed.
Lemma wp_ask_room s (Q : bool -> semfs -> Prop) : (forall b s', same_but_asks s s' -> Q b s') -> wp never ask_room s Q.
Proof. intros H. unfold wp, ask_room. apply H. by split_and!. Qed.

Lemma wp_get_sem p x s (Q : semfs_sem -> semfs -> Prop) : sem_heap s !! p = Some x -> Q x s -> wp never (get_sem p) s Q.
Proof. intros H HQ. unfold get_sem. wgo. by eapply wp_deref. Qed.
Lemma wp_get_dent p x s (Q : semfs_direntry -> semfs -> Prop) : dent_heap s !! p = Some x -> Q x s -> wp never (get_dent p) s Q.
Proof. intros H HQ. unfold get_dent. wgo. by eapply wp_deref. Qed.
Lemma wp_get_semv p x s (Q : semfs_vnode -> semfs -> Prop) : semv_heap s !! p = Some x -> Q x s -> wp never (get_semv p) s Q.
Proof. intros H HQ. unfold get_semv. wgo. by eapply wp_deref. Qed.
Lemma wp_sems_get k a s (Q : Z -> semfs -> Prop) : 0 <= k -> semfs_sems s !! Z.to_nat k = Some a -> Q a s -> wp never (sems_get k) s Q.
Proof.
  intros H0 H HQ. unfold sems_get. wgo. apply wp_kassert; [apply Z.ltb_lt; apply lookup_lt_Some in H; lia|]. by eapply wp_deref.
Qed.
Lemma wp_sems_set k p s (Q : unit -> semfs -> Prop) : 0 <= k < Z.of_nat (length (semfs_sems s)) -> Q tt (set_sems (<[Z.to_nat k := p]> (semfs_sems s)) s) -> wp never (sems_set k p) s Q.
Proof. intros H HQ. unfold sems_set. wgo. apply wp_kassert; [apply Z.ltb_lt; lia|]. wgo. done. Qed.
Lemma wp_dents_set i p s (Q : unit -> semfs -> Prop) : (i < length (semfs_dents s))%nat -> Q tt (set_dents (<[i := p]> (semfs_dents s)) s) -> wp never (dents_set i p) s Q.
Proof. intros H HQ. unfold dents_set. wgo. apply wp_kassert; [apply Z.ltb_lt; lia|]. wgo. done. Qed.

(** One reference more, or one less while there are others. *)
Lemma rep_recount u s A k p c c' : rep u s A -> vn_of A k = Some (p, c) -> 0 < c' ->
  rep u (set_semv_heap (<[p := mkSemv k c']> (semv_heap s)) s) (set_vn k (Some (p, c')) A).
Proof.
  intros R Hk Hc. assert (Hp : semv_heap s !! p = Some (mkSemv k c)) by (by apply (r_vn _ _ _ R)).
  assert (Hkn : known A k).
  { unfold vn_of in Hk. case_decide; [by left|right]. split; [done|]. destruct (af_sems A !! k); [eauto|done]. }
  eapply (rep_set_vn u s _ A k); cbn; try done.
  - intros k'. unfold sem_of. cbn. fold (sem_of s k'). rewrite (r_sem _ _ _ R), set_vn_lookup. destruct (af_sems A !! k') as [x|] eqn:Ex; cbn; [|done].
    case_decide as Hd; [|done]. destruct Hd as [-> Hr]. unfold conc. cbn. do 2 f_equal. unfold vn_of in Hk. rewrite decide_False, Ex in Hk by done. cbn in Hk. by rewrite Hk.
  - rewrite dom_insert_lookup_L by eauto. apply R.
  - apply R.
  - apply vn_map_insert; [exact (r_vn _ _ _ R)| |]; [intros v Hv; rewrite Hp in Hv; by injection Hv as <-|]. intros q c0 Hq. congruence.
  - intros q c0 [= <- <-]. done.
Qed.

Lemma semfs_incref_wp u s A k p c : rep u s A -> vn_of A k = Some (p, c) ->
  wp never (semfs_incref p) s (fun _ s' => rep u s' (set_vn k (Some (p, c + 1)) A)).
Proof.
  intros R Hk. unfold semfs_incref. apply wp_bind. eapply wp_get_semv; [by apply (r_vn _ _ _ R (p) (mkSemv k c))|]. cbn.
  unfold put_semv. wgo. eapply rep_recount; [done|done|]. pose proof (r_counts _ _ _ R _ _ _ Hk). lia.
Qed.

Lemma find_semv_eq k l s : (forall p, p ∈ l -> is_Some (semv_heap s !! p)) ->
  exists o, find_semv k l s = Done o s /\
    match o with Some p => p ∈ l /\ exists v, semv_heap s !! p = Some v /\ semv_semnum v = k
               | None => forall p v, p ∈ l -> semv_heap s !! p = Some v -> semv_semnum v <> k end.
Proof.
  induction l as [|p l IH]; intros Hl; cbn [find_semv]; [exists None; split; [done|]; intros p v Hp; by apply not_elem_of_nil in Hp|].
  destruct (Hl p) as [v Hv]; [by left|]. erewrite bind_ret; [|unfold get_semv; erewrite bind_ret; [|done]; by rewrite Hv].
  destruct (Z.eqb_spec (semv_semnum v) k) as [Hk|Hk].
  - exists (Some p). split; [done|]. split; [by left|eauto].
  - destruct IH as (o & E & Ho); [intros q Hq; apply Hl; by right|]. exists o. split; [done|]. destruct o as [q|].
    + destruct Ho as [Hq ?]. split; [by right|done].
    + intros q w Hq Hw. apply elem_of_cons in Hq as [->|Hq]; [congruence|by eapply Ho].
Qed.

(** What is in the table of vnodes. *)
Lemma find_semv_rep u s A k : rep u s A -> exists o, find_semv k (semfs_vnodes s) s = Done o s /\
  match o with Some p => exists c, vn_of A k = Some (p, c) | None => vn_of A k = None end.
Proof.
  intros R. destruct (find_semv_eq k (semfs_vnodes s) s) as (o & E & Ho).
  { intros p Hp. apply elem_of_dom. apply list_elem_of_lookup_1 in Hp as [i Hi]. apply (proj2 (r_vnodes _ _ _ R)). split; [|eauto]. intros ->. apply (r_nonull _ _ _ R). by eapply list_elem_of_lookup_2. }
  exists o. split; [done|]. destruct o as [p|].
  - destruct Ho as (_ & v & Hv & <-). exists (semv_refcount v). by apply (r_vn _ _ _ R).
  - destruct (vn_of A k) as [[p c]|] eqn:Ek; [|done]. exfalso. assert (Hp : semv_heap s !! p = Some (mkSemv k c)) by (by apply (r_vn _ _ _ R)).
    destruct (rep_vnode _ _ _ _ _ R Hp) as [_ [i Hi]]. eapply (Ho p); [by eapply list_elem_of_lookup_2|exact Hp|done].
Qed.

(** A vnode with one reference more: the one there is, or a new one. *)
Definition opened (A : afs) (k p : Z) (A' : afs) : Prop :=
  (exists c, vn_of A k = Some (p, c) /\ A' = set_vn k (Some (p, c + 1)) A) \/
  vn_of A k = None /\ p <> 0 /\ (forall k' c, vn_of A k' <> Some (p, c)) /\ A' = set_vn k (Some (p, 1)) A.

(** Storing a semaphore that has a number. *)
Lemma sem_of_insert u s A k x a y s' k' : rep u s A -> af_sems A !! k = Some x -> semfs_sems s !! Z.to_nat k = Some a ->
  semfs_sems s' = semfs_sems s -> sem_heap s' = <[a := y]> (sem_heap s) -> sem_of s' k' = if decide (k' = k) then Some y else sem_of s k'.
Proof.
  intros R Hx Ha E1 E2. destruct (rep_sem _ _ _ _ _ R Hx) as [[Hk0 _] (a2 & Ha2 & Hz & _)]. assert (a2 = a) as -> by congruence.
  unfold sem_of. rewrite E1, E2. destruct (decide (k' = k)) as [->|Hne].
  - rewrite decide_True by done. rewrite Ha. cbn. apply lookup_insert_eq.
  - destruct (decide (0 <= k')) as [H0|]; [|done]. destruct (semfs_sems s !! Z.to_nat k') as [a'|] eqn:Ea'; [|done]. cbn.
    apply lookup_insert_ne. intros <-. pose proof (proj1 (r_sems _ _ _ R) _ _ _ Hz Ha Ea'). lia.
Qed.

Lemma rep_new_vnode u s A k p x a : rep u s A -> known A k -> vn_of A k = None -> p <> 0 -> semv_heap s !! p = None ->
  (k <> SEMFS_ROOTDIR -> af_sems A !! k = Some x /\ semfs_sems s !! Z.to_nat k = Some a /\ sem_heap s !! a = Some (conc u k x)) ->
  rep u (mkSemfs (semfs_vnodes s ++ [p]) (semfs_sems s) (semfs_dents s) (if decide (k = SEMFS_ROOTDIR) then sem_heap s else <[a := set_hasvnode true (conc u k x)]> (sem_heap s))
         (dent_heap s) (<[p := mkSemv k 1]> (semv_heap s)) (sf_asks s)) (set_vn k (Some (p, 1)) A).
Proof.
  intros R Hkn Hv Hp Hfree Hsem. eapply (rep_set_vn u s _ A k); cbn; try done.
  - case_decide as Hr; [done|]. destruct (Hsem Hr) as (_ & _ & Ha). apply dom_insert_lookup_L. eauto.
  - intros k'. rewrite set_vn_lookup. destruct (decide (k = SEMFS_ROOTDIR)) as [->|Hr].
    + unfold sem_of. cbn. fold (sem_of s k'). rewrite (r_sem _ _ _ R). destruct (af_sems A !! k'); cbn; [|done]. by rewrite decide_False by tauto.
    + destruct (Hsem Hr) as (Hx & Ha & Hh). erewrite sem_of_insert; [|exact R|exact Hx|exact Ha|reflexivity|reflexivity].
      destruct (decide (k' = k)) as [->|Hne]; [rewrite Hx; cbn; by rewrite decide_True|].
      rewrite (r_sem _ _ _ R). destruct (af_sems A !! k'); cbn; [|done]. by rewrite decide_False by tauto.
  - rewrite dom_insert_L. apply ptr_ok_snoc; [apply R|done|]. by apply not_elem_of_dom.
  - intros Hin. apply elem_of_app in Hin as [Hin|Hin]; [by apply (r_nonull _ _ _ R)|]. apply list_elem_of_singleton in Hin. done.
  - apply vn_map_insert; [exact (r_vn _ _ _ R)|intros v Hv'; congruence|intros q c Hq; congruence].
  - intros q c [= <- <-]. lia.
Qed.

Lemma semfs_getvnode_wp u s A k : rep u s A -> known A k ->
  wp never (semfs_getvnode k) s (fun '(r, p) s' => (r = 0 /\ exists A', opened A k p A' /\ rep u s' A') \/ r = ENOMEM /\ rep u s' A).
Proof.
  intros R Hkn. unfold semfs_getvnode. wgo. destruct (find_semv_rep u s A k R) as (o & E & Ho). eapply wp_done; [exact E|]. destruct o as [p|].
  { destruct Ho as [c Hc]. apply wp_bind. eapply wp_mono; [by eapply semfs_incref_wp|]. cbv beta. intros _ s' R'. wgo. left. split; [done|].
    eexists. split; [left; eauto|done]. }
  apply wp_bind. unfold semfs_vnode_create. apply wp_bind. apply wp_ask_object. intros p s1 Hfr Hs1. pose proof (rep_asks _ _ _ _ Hs1 R) as R1.
  destruct (Z.eqb_spec p 0) as [->|Hp]; [wgo; right; by split|]. unfold put_semv. wgo. rewrite (proj2 (Z.eqb_neq p 0)) by done.
  set (s2 := set_semv_heap (<[p := mkSemv k 1]> (semv_heap s1)) s1). apply wp_bind, wp_ask_room. intros room s3 Hs3. destruct Hs3 as (E1 & E2 & E3 & E4 & E5 & E6).
  assert (Hfree : semv_heap s1 !! p = None). { destruct Hs1 as (_ & _ & _ & _ & _ & ->). apply not_elem_of_dom, Hfr. done. }
  destruct room; cbn [negb].
  2: { unfold semfs_vnode_destroy. apply wp_bind, wp_bind. eapply wp_get_semv; [rewrite E6; apply lookup_insert_eq|]. wgo. apply wp_kassert; [done|]. wgo. right. split; [done|].
       eapply rep_asks; [|exact R1]. split_and!; cbn; try done. rewrite E6. cbn. by rewrite delete_insert_id. }
  assert (Hl1 : semfs_vnodes s = semfs_vnodes s1) by (by destruct Hs1 as (-> & _)). rewrite Hl1. wgo. unfold s2 in *. cbn in E1, E2, E3, E4, E5, E6.
  assert (Hdone : forall x a, (k <> SEMFS_ROOTDIR -> af_sems A !! k = Some x /\ semfs_sems s1 !! Z.to_nat k = Some a /\ sem_heap s1 !! a = Some (conc u k x)) ->
    forall s4, same_but_asks (mkSemfs (semfs_vnodes s1 ++ [p]) (semfs_sems s1) (semfs_dents s1) (if decide (k = SEMFS_ROOTDIR) then sem_heap s1 else <[a := set_hasvnode true (conc u k x)]> (sem_heap s1))
         (dent_heap s1) (<[p := mkSemv k 1]> (semv_heap s1)) (sf_asks s1)) s4 -> (0 = 0 /\ exists A', opened A k p A' /\ rep u s4 A') \/ 0 = ENOMEM /\ rep u s4 A).
  { intros x a Hx s4 Hs4. left. split; [done|]. exists (set_vn k (Some (p, 1)) A). split.
    - right. split_and!; [done|done| |done]. intros k' c Hc. assert (semv_heap s1 !! p = Some (mkSemv k' c)) by (by apply (r_vn _ _ _ R1)). congruence.
    - eapply rep_asks; [exact Hs4|]. by apply rep_new_vnode. }
  destruct Hkn as [->|[Hr [x Hx]]].
  - rewrite Z.eqb_refl. cbn [negb]. wgo. eapply (Hdone (mkAsem 0 None None) 0); [done|]. rewrite decide_True by done. split_and!; cbn; done.
  - rewrite (proj2 (Z.eqb_neq k SEMFS_ROOTDIR)) by done. cbn [negb]. destruct (rep_sem _ _ _ _ _ R1 Hx) as [[Hk0 _] (a & Ha & Hz & Hh)].
    apply wp_bind. eapply wp_sems_get; [done|cbn; by rewrite E2|]. wgo. apply wp_kassert; [by rewrite (proj2 (Z.eqb_neq a 0))|]. wgo. eapply wp_get_sem; [cbn; by rewrite E4|].
    wgo. apply wp_kassert; [cbn; unfold vn_of in Ho; rewrite decide_False, Hx in Ho by done; cbn in Ho; by rewrite Ho|]. unfold put_sem. wgo.
    eapply (Hdone x a); [intros _; by split_and!|]. rewrite decide_False by done. split_and!; cbn; try done. by rewrite E4.
Qed.

(** ** Closing *)

Definition del_sem (k : Z) (A : afs) : afs := mkAfs (delete k (af_sems A)) (af_root A).

Lemma rep_drop_vn u s A k p c x a i : rep u s A -> known A k -> vn_of A k = Some (p, c) -> semfs_vnodes s !! i = Some p ->
  (k <> SEMFS_ROOTDIR -> af_sems A !! k = Some x /\ semfs_sems s !! Z.to_nat k = Some a /\ sem_heap s !! a = Some (conc u k x)) ->
  rep u (mkSemfs (delete i (semfs_vnodes s)) (semfs_sems s) (semfs_dents s) (if decide (k = SEMFS_ROOTDIR) then sem_heap s else <[a := set_hasvnode false (conc u k x)]> (sem_heap s))
         (dent_heap s) (delete p (semv_heap s)) (sf_asks s)) (set_vn k None A).
Proof.
  intros R Hkn Hv Hi Hsem. assert (Hp : semv_heap s !! p = Some (mkSemv k c)) by (by apply (r_vn _ _ _ R)). destruct (rep_vnode _ _ _ _ _ R Hp) as [Hz _].
  eapply (rep_set_vn u s _ A k); cbn; try done.
  - case_decide as Hr; [done|]. destruct (Hsem Hr) as (_ & _ & Ha). apply dom_insert_lookup_L. eauto.
  - intros k'. rewrite set_vn_lookup. destruct (decide (k = SEMFS_ROOTDIR)) as [->|Hr].
    + unfold sem_of. cbn. fold (sem_of s k'). rewrite (r_sem _ _ _ R). destruct (af_sems A !! k'); cbn; [|done]. by rewrite decide_False by tauto.
    + destruct (Hsem Hr) as (Hx & Ha & Hh). erewrite sem_of_insert; [|exact R|exact Hx|exact Ha|reflexivity|reflexivity].
      destruct (decide (k' = k)) as [->|Hne]; [rewrite Hx; cbn; by rewrite decide_True|].
      rewrite (r_sem _ _ _ R). destruct (af_sems A !! k'); cbn; [|done]. by rewrite decide_False by tauto.
  - rewrite dom_delete_L. apply ptr_ok_delete; [apply R|done|done].
  - intros Hin. apply (r_nonull _ _ _ R). apply list_elem_of_lookup_1 in Hin as [j Hj]. destruct (decide (j < i)%nat).
    + rewrite list_lookup_delete_lt in Hj by lia. by eapply list_elem_of_lookup_2.
    + rewrite list_lookup_delete_ge in Hj by lia. by eapply list_elem_of_lookup_2.
  - eapply vn_map_delete; [exact (r_vn _ _ _ R)|done].
Qed.

(** A semaphore without name and vnode goes away. *)
Lemma rep_del u s A k a c : rep u s A -> af_sems A !! k = Some (mkAsem c None None) -> semfs_sems s !! Z.to_nat k = Some a ->
  rep u (set_sem_heap (delete a (sem_heap s)) (set_sems (<[Z.to_nat k := 0]> (semfs_sems s)) s)) (del_sem k A).
Proof.
  intros R Hx Ha. destruct (rep_sem _ _ _ _ _ R Hx) as [[Hk0 Hkl] (a2 & Ha2 & Hz & Hh)]. assert (a2 = a) as -> by congruence.
  assert (Hvn : forall k', vn_of (del_sem k A) k' = vn_of A k').
  { intros k'. unfold vn_of, del_sem. cbn. case_decide; [done|]. destruct (decide (k' = k)) as [->|]; [by rewrite lookup_delete_eq, Hx|by rewrite lookup_delete_ne]. }
  assert (Hnm : forall k', name_of (del_sem k A) k' = name_of A k').
  { intros k'. unfold name_of, del_sem. cbn. destruct (decide (k' = k)) as [->|]; [by rewrite lookup_delete_eq, Hx|by rewrite lookup_delete_ne]. }
  split; cbn; try (by apply R).
  - rewrite dom_delete_L. apply ptr_ok_clear; [apply R|done|done].
  - rewrite length_insert. apply R.
  - intros k'. unfold sem_of. cbn. destruct (decide (k' = k)) as [->|Hne].
    + rewrite lookup_delete_eq. case_decide; [|done]. rewrite list_lookup_insert_eq by lia. cbn.
      rewrite lookup_delete_ne by done. apply not_elem_of_dom, (ptr_ok_zero _ _ (r_sems _ _ _ R)).
    + rewrite lookup_delete_ne by done. rewrite <- (r_sem _ _ _ R k'). unfold sem_of. case_decide; [|done]. rewrite list_lookup_insert_ne by lia.
      destruct (semfs_sems s !! Z.to_nat k') as [a'|] eqn:Ea'; [|done]. cbn. apply lookup_delete_ne. intros <-. pose proof (proj1 (r_sems _ _ _ R) _ _ _ Hz Ha Ea'). lia.
  - intros p d. rewrite Hnm. apply R.
  - intros k' n. rewrite Hnm. apply R.
  - intros k1 k2 n. rewrite !Hnm. apply R.
  - intros p v. rewrite Hvn. apply R.
  - intros k' p c'. rewrite Hvn. apply R.
Qed.

(** Giving up a reference: the last one closes the vnode, and with it the semaphore when it
    has no name any more. *)
Definition close_vn (k : Z) (A : afs) : afs :=
  match vn_of A k with
  | None => A
  | Some (p, c) =>
      if 1 <? c then set_vn k (Some (p, c - 1)) A
      else if decide (k <> SEMFS_ROOTDIR /\ name_of A k = None) then del_sem k A else set_vn k None A
  end.

Lemma del_set_vn k o A : k <> SEMFS_ROOTDIR -> del_sem k (set_vn k o A) = del_sem k A.
Proof. intros Hk. unfold del_sem, set_vn. rewrite decide_False by done. cbn. f_equal. apply map_eq. intros j. destruct (decide (j = k)) as [->|]; [by rewrite !lookup_delete_eq|]. rewrite !lookup_delete_ne by done. by rewrite lookup_alter_ne. Qed.

Lemma known_vn A k pc : vn_of A k = Some pc -> known A k.
Proof. unfold vn_of, known. case_decide; [by left|]. destruct (af_sems A !! k) eqn:E; [|done]. right. split; [done|eauto]. Qed.

Lemma semfs_decref_wp s A k p c : rep None s A -> vn_of A k = Some (p, c) -> wp never (semfs_decref p) s (fun _ s' => rep None s' (close_vn k A)).
Proof.
  intros R Hv. pose proof (r_counts _ _ _ R _ _ _ Hv) as Hc. pose proof (known_vn _ _ _ Hv) as Hkn.
  assert (Hp : semv_heap s !! p = Some (mkSemv k c)) by (by apply (r_vn _ _ _ R)). unfold semfs_decref, close_vn. rewrite Hv.
  apply wp_bind. eapply wp_get_semv; [exact Hp|]. wgo. apply wp_kassert; [by apply Z.ltb_lt|]. cbn [semv_refcount semv_semnum].
  destruct (Z.ltb_spec 1 c) as [H1|H1]. { unfold put_semv. wgo. eapply rep_recount; [done|done|lia]. }
  apply wp_bind. unfold semfs_reclaim. apply wp_bind. eapply wp_get_semv; [exact Hp|]. cbn [semv_refcount semv_semnum]. rewrite (proj2 (Z.ltb_ge 1 c)) by lia. wgo.
  destruct (rep_vnode _ _ _ _ _ R Hp) as [Hz [i Hi]].
  destruct (list_find (eq p) (semfs_vnodes s)) as [[j q]|] eqn:Ef.
  2: { exfalso. apply list_find_None in Ef. rewrite Forall_forall in Ef. eapply (Ef p); [by eapply list_elem_of_lookup_2|done]. }
  apply list_find_Some in Ef as (Hj & <- & _). wgo.
  assert (Hlast : forall x a, (k <> SEMFS_ROOTDIR -> af_sems A !! k = Some x /\ semfs_sems s !! Z.to_nat k = Some a /\ sem_heap s !! a = Some (conc None k x)) ->
    rep None (mkSemfs (delete j (semfs_vnodes s)) (semfs_sems s) (semfs_dents s) (if decide (k = SEMFS_ROOTDIR) then sem_heap s else <[a := set_hasvnode false (conc None k x)]> (sem_heap s))
         (dent_heap s) (delete p (semv_heap s)) (sf_asks s)) (set_vn k None A)) by (intros x a Hxa; by eapply rep_drop_vn).
  assert (Hend : forall s1 A1, semv_heap s1 = semv_heap s -> rep None (set_semv_heap (delete p (semv_heap s1)) s1) A1 -> wp never (semfs_vnode_destroy p) s1 (fun _ s2 => wp never (mret 0) s2 (fun _ s3 => wp never (mret ()) s3 (fun _ s4 => rep None s4 A1)))).
  { intros s1 A1 E1 R1. unfold semfs_vnode_destroy. apply wp_bind. eapply wp_get_semv; [by rewrite E1|]. wgo. apply wp_kassert; [cbn; apply Z.eqb_eq; lia|]. wgo. exact R1. }
  destruct (decide (k = SEMFS_ROOTDIR)) as [->|Hr].
  { rewrite Z.eqb_refl. cbn [negb]. wgo. rewrite decide_False by tauto. apply Hend; [done|]. apply (Hlast (mkAsem 0 None None) 0). done. }
  rewrite (proj2 (Z.eqb_neq k SEMFS_ROOTDIR)) by done. cbn [negb]. destruct Hkn as [?|[_ [x Hx]]]; [done|]. destruct (rep_sem _ _ _ _ _ R Hx) as [[Hk0 Hkl] (a & Ha & Haz & Hh)].
  specialize (Hlast x a (fun _ => conj Hx (conj Ha Hh))).
  assert (Hxv : as_vn x = Some (p, c)) by (unfold vn_of in Hv; by rewrite decide_False, Hx in Hv).
  apply wp_bind. apply wp_bind. eapply wp_sems_get; [done|exact Ha|]. wgo. eapply wp_get_sem; [exact Hh|]. wgo. apply wp_kassert; [cbn; by rewrite Hxv|].
  unfold put_sem. wgo. cbn [sems_linked conc]. assert (Hnm : name_of A k = as_name x) by (unfold name_of; by rewrite Hx).
  destruct (as_name x) as [n|] eqn:En.
  - rewrite bool_decide_true by (split; [eauto|done]). cbn [negb]. wgo. rewrite decide_False by (rewrite Hnm; naive_solver). apply Hend; [done|]. eapply rep_asks; [|exact Hlast]. by split_and!.
  - rewrite bool_decide_false by (intros [[? ?] _]; done). cbn [negb]. rewrite decide_True by done.
    apply wp_bind. eapply wp_sems_set; [cbn; lia|]. unfold semfs_sem_destroy. apply wp_bind. eapply wp_get_sem; [apply lookup_insert_eq|]. wgo. apply wp_kassert; [done|]. wgo.
    apply Hend; [done|]. rewrite <- (del_set_vn k None) by done.
    assert (Hx' : af_sems (set_vn k None A) !! k = Some (mkAsem (as_count x) None None)) by (rewrite set_vn_lookup, Hx; cbn; rewrite decide_True by done; by rewrite En).
    eapply rep_asks; [|eapply (rep_del None _ (set_vn k None A) k a); [exact Hlast|exact Hx'|exact Ha]]. by split_and!.
Qed.
End Ops.

End SemfsProofs.

(** * The directory of semfs

    Names: lookup, creation and removal of semaphores do to the abstract state what their
    names say; [semfs_creat] on every path of its clean-up. *)
Import Copyinout Uio Sfs SfsVnops Vnode Vfs VfsProofs Semfs SemfsProofs.

Module SemfsNames.

Definition set_name (k : Z) (o : option (list Z)) (A : afs) : afs :=
  mkAfs (alter (fun x => mkAsem (as_count x) o (as_vn x)) k (af_sems A)) (af_root A).
Definition add_sem (k : Z) (x : asem) (A : afs) : afs := mkAfs (<[k := x]> (af_sems A)) (af_root A).

Lemma set_name_lookup A k o k' : af_sems (set_name k o A) !! k' =
  (fun x => if decide (k' = k) then mkAsem (as_count x) o (as_vn x) else x) <$> af_sems A !! k'.
Proof.
  unfold set_name. cbn. destruct (decide (k' = k)) as [->|Hne]; [by rewrite lookup_alter_eq|]. rewrite lookup_alter_ne by done. by destruct (af_sems A !! k').
Qed.
Lemma vn_of_set_name A k o k' : vn_of (set_name k o A) k' = vn_of A k'.
Proof. unfold vn_of. case_decide; [done|]. rewrite set_name_lookup. destruct (af_sems A !! k'); cbn; [|done]. by case_decide. Qed.
Lemma name_of_set_name A k o k' : is_Some (af_sems A !! k) -> name_of (set_name k o A) k' = if decide (k' = k) then o else name_of A k'.
Proof.
  intros [x Hx]. unfold name_of. rewrite set_name_lookup. destruct (decide (k' = k)) as [->|]; [by rewrite Hx|]. by destruct (af_sems A !! k').
Qed.

(** The entry of a name is made; the semaphore is marked later. *)
Lemma rep_name s s' A k x n p : rep None s A -> af_sems A !! k = Some x -> as_name x = None -> (forall k', name_of A k' <> Some n) ->
  semfs_sems s' = semfs_sems s -> sem_heap s' = sem_heap s -> semfs_vnodes s' = semfs_vnodes s -> semv_heap s' = semv_heap s ->
  dent_heap s !! p = None -> dent_heap s' = <[p := mkDent n k]> (dent_heap s) -> ptr_ok (semfs_dents s') (dom (dent_heap s')) ->
  rep (Some k) s' (set_name k (Some n) A).
Proof.
  intros R Hx Hn Hfresh E1 E2 E3 E4 Hp E5 Hptr. pose proof (fun k' => name_of_set_name A k (Some n) k' (mk_is_Some _ _ Hx)) as Hnm.
  assert (Hk : name_of A k = None) by (unfold name_of; by rewrite Hx).
  split; rewrite ?E1, ?E2, ?E3, ?E4; try (by apply R); try done.
  - intros k'. transitivity (sem_of s k'); [unfold sem_of; by rewrite E1, E2|]. rewrite (r_sem _ _ _ R), set_name_lookup. destruct (af_sems A !! k') as [y|] eqn:Ey; cbn; [|done]. f_equal.
    unfold conc. destruct (decide (k' = k)) as [->|Hne]; cbn.
    + assert (y = x) as -> by congruence. rewrite Hn. f_equal. rewrite !bool_decide_false; [done|intros [_ ?]; congruence|intros [[? ?] _]; done].
    + f_equal. apply bool_decide_ext. split; intros [? _]; (split; [done|congruence]).
  - intros q d. rewrite E5, Hnm. destruct (decide (q = p)) as [->|Hq]; [rewrite lookup_insert_eq; intros [= <-]; by rewrite decide_True|].
    rewrite lookup_insert_ne by done. intros Hd. pose proof (r_dent _ _ _ R _ _ Hd) as Hd'. rewrite decide_False; [done|]. intros E. rewrite E in Hd'. congruence.
  - intros k' m. rewrite Hnm, E5. case_decide as Hd; [subst k'; intros [= <-]; exists p; apply lookup_insert_eq|]. intros Hm. destruct (r_named _ _ _ R _ _ Hm) as [q Hq].
    exists q. rewrite lookup_insert_ne; [done|]. intros ->. congruence.
  - intros q1 q2 d1 d2. rewrite E5. assert (Hno : forall q d, dent_heap s !! q = Some d -> semd_semnum d <> k).
    { intros q d Hd E. pose proof (r_dent _ _ _ R _ _ Hd) as Hd'. rewrite E in Hd'. congruence. }
    destruct (decide (q1 = p)) as [->|H1], (decide (q2 = p)) as [->|H2]; rewrite ?lookup_insert_eq, ?lookup_insert_ne by done; try done.
    + intros [= <-] Hd2 E. exfalso. by eapply (Hno q2 d2). + intros Hd1 [= <-] E. exfalso. by eapply (Hno q1 d1). + apply R.
  - intros k1 k2 m. rewrite !Hnm. repeat case_decide; subst; try done; [intros [= <-] Hm|intros Hm [= <-]|apply R]; exfalso; by eapply Hfresh.
  - intros q v. rewrite vn_of_set_name. apply R.
  - intros k' q c. rewrite vn_of_set_name. apply R.
Qed.

(** The entry of a name goes away. *)
Lemma rep_unname u s s' A k x p d : rep u s A -> af_sems A !! k = Some x -> dent_heap s !! p = Some d -> semd_semnum d = k -> (u = None \/ u = Some k) ->
  semfs_sems s' = semfs_sems s -> dom (sem_heap s') = dom (sem_heap s) -> semfs_vnodes s' = semfs_vnodes s -> semv_heap s' = semv_heap s ->
  (forall k', sem_of s' k' = if decide (k' = k) then Some (set_linked false (conc u k x)) else sem_of s k') ->
  dent_heap s' = delete p (dent_heap s) -> ptr_ok (semfs_dents s') (dom (dent_heap s')) ->
  rep None s' (set_name k None A).
Proof.
  intros R Hx Hp Hd Hu E1 E2 E3 E4 Hsem E5 Hptr. pose proof (fun k' => name_of_set_name A k None k' (mk_is_Some _ _ Hx)) as Hnm.
  split; rewrite ?E1, ?E2, ?E3, ?E4; try (by apply R); try done.
  - intros k'. rewrite Hsem, set_name_lookup. destruct (decide (k' = k)) as [->|Hne]; [rewrite Hx; cbn; unfold set_linked, conc; cbn; f_equal; rewrite bool_decide_false by (intros [[? ?] _]; done); done|].
    rewrite (r_sem _ _ _ R). destruct (af_sems A !! k'); cbn; [|done]. unfold conc. do 2 f_equal. apply bool_decide_ext. destruct Hu as [->| ->]; split; intros [? _]; (split; [done|congruence]).
  - intros q e. rewrite E5, Hnm. destruct (decide (q = p)) as [->|Hq]; [by rewrite lookup_delete_eq|]. rewrite lookup_delete_ne by done. intros He. rewrite decide_False; [by eapply (r_dent _ _ _ R)|].
    intros E. apply Hq. eapply (r_dinj _ _ _ R); [done|done|congruence].
  - intros k' m. rewrite Hnm, E5. case_decide as Hk'; [done|]. intros Hm. destruct (r_named _ _ _ R _ _ Hm) as [q Hq]. exists q. rewrite lookup_delete_ne; [done|].
    intros ->. rewrite Hp in Hq. injection Hq as ->. done.
  - intros q1 q2 d1 d2. rewrite E5. intros H1 H2. apply lookup_delete_Some in H1 as [_ H1], H2 as [_ H2]. by apply (r_dinj _ _ _ R).
  - intros k1 k2 m. rewrite !Hnm. repeat case_decide; subst; try done. apply R.
  - intros q v. rewrite vn_of_set_name. apply R.
  - intros k' q c. rewrite vn_of_set_name. apply R.
Qed.

(** The semaphore is marked. *)
Lemma rep_linked s A k x a n : rep (Some k) s A -> af_sems A !! k = Some x -> as_name x = Some n -> semfs_sems s !! Z.to_nat k = Some a -> sem_heap s !! a = Some (conc (Some k) k x) ->
  rep None (set_sem_heap (<[a := set_linked true (conc (Some k) k x)]> (sem_heap s)) s) A.
Proof.
  intros R Hx Hn Ha Hh. split; cbn; try (by apply R).
  - rewrite dom_insert_lookup_L by eauto. apply R.
  - intros k'. erewrite sem_of_insert; [|exact R|exact Hx|exact Ha|reflexivity|reflexivity]. destruct (decide (k' = k)) as [->|Hne].
    + rewrite Hx. cbn. unfold set_linked, conc. cbn. do 2 f_equal. rewrite Hn. by rewrite bool_decide_true by (split; [eauto|done]).
    + rewrite (r_sem _ _ _ R). destruct (af_sems A !! k'); cbn; [|done]. unfold conc. do 2 f_equal. apply bool_decide_ext. split; intros [? _]; (split; [done|congruence]).
Qed.

(** A new semaphore. *)
Lemma vn_of_add_sem A k k' : af_sems A !! k = None -> vn_of (add_sem k (mkAsem 0 None None) A) k' = vn_of A k'.
Proof. intros Hk. unfold vn_of, add_sem. cbn. case_decide; [done|]. destruct (decide (k' = k)) as [->|]; [by rewrite lookup_insert_eq, Hk|by rewrite lookup_insert_ne]. Qed.
Lemma name_of_add_sem A k k' : af_sems A !! k = None -> name_of (add_sem k (mkAsem 0 None None) A) k' = name_of A k'.
Proof. intros Hk. unfold name_of, add_sem. cbn. destruct (decide (k' = k)) as [->|]; [by rewrite lookup_insert_eq, Hk|by rewrite lookup_insert_ne]. Qed.
Lemma rep_add s s' A k a : rep None s A -> 0 <= k < SEMFS_ROOTDIR -> af_sems A !! k = None -> sem_heap s !! a = None ->
  semfs_sems s' !! Z.to_nat k = Some a -> (forall i, i <> Z.to_nat k -> semfs_sems s' !! i = semfs_sems s !! i) -> Z.of_nat (length (semfs_sems s')) <= SEMFS_ROOTDIR ->
  ptr_ok (semfs_sems s') (dom (sem_heap s')) -> sem_heap s' = <[a := mkSem 0 false false []]> (sem_heap s) ->
  semfs_dents s' = semfs_dents s -> dent_heap s' = dent_heap s -> semfs_vnodes s' = semfs_vnodes s -> semv_heap s' = semv_heap s ->
  rep None s' (add_sem k (mkAsem 0 None None) A).
Proof.
  intros R Hk0 Hk Ha Hs Ho Hlen Hptr E1 E2 E3 E4 E5.
  pose proof (fun k' => vn_of_add_sem A k k' Hk) as Hvn. pose proof (fun k' => name_of_add_sem A k k' Hk) as Hnm.
  split; rewrite ?E2, ?E3, ?E4, ?E5; try (by apply R); try done.
  - intros k'. unfold sem_of, add_sem. cbn. rewrite E1. destruct (decide (k' = k)) as [->|Hne].
    + rewrite decide_True by lia. rewrite Hs, lookup_insert_eq. cbn. by rewrite lookup_insert_eq.
    + rewrite (lookup_insert_ne (af_sems A)) by done. rewrite <- (r_sem _ _ _ R k'). unfold sem_of. case_decide; [|done]. rewrite Ho by lia.
      destruct (semfs_sems s !! Z.to_nat k') as [a'|] eqn:Ea'; [|done]. cbn. apply lookup_insert_ne. intros <-.
      assert (Z.to_nat k' <> Z.to_nat k) by lia. destruct (decide (a = 0)) as [->|Hz].
      * apply (ptr_ok_zero _ _ Hptr). rewrite E1, dom_insert_L. set_solver.
      * rewrite <- (Ho (Z.to_nat k')) in Ea' by lia. pose proof (proj1 Hptr _ _ _ Hz Ea' Hs). lia.
  - intros p d. rewrite Hnm. apply R.
  - intros k' n. rewrite Hnm. apply R.
  - intros k1 k2 n. rewrite !Hnm. apply R.
  - intros p v. rewrite Hvn. apply R.
  - intros k' p c'. rewrite Hvn. apply R.
Qed.

(** ** Searching the directory *)

Lemma find_dent_eq u s A name l i : rep u s A -> (forall p, p ∈ l -> p <> 0 -> is_Some (dent_heap s !! p)) ->
  exists o, find_dent name l i s = Done o s /\
    match o with
    | Some (j, p) => exists k d, l !! k = Some p /\ j = (i + k)%nat /\ p <> 0 /\ dent_heap s !! p = Some d /\ semd_name d = name
    | None => forall p d, p ∈ l -> p <> 0 -> dent_heap s !! p = Some d -> semd_name d <> name
    end.
Proof.
  intros R. revert i. induction l as [|p l IH]; intros i Hl; cbn [find_dent]; [exists None; split; [done|]; intros p d Hp; by apply not_elem_of_nil in Hp|].
  assert (Hrec : exists o, find_dent name l (S i) s = Done o s /\ match o with
    | Some (j, q) => exists k d, (p :: l) !! k = Some q /\ j = (i + k)%nat /\ q <> 0 /\ dent_heap s !! q = Some d /\ semd_name d = name
    | None => forall q d, q ∈ l -> q <> 0 -> dent_heap s !! q = Some d -> semd_name d <> name end).
  { destruct (IH (S i)) as (o & E & Ho); [intros q Hq; apply Hl; by right|]. exists o. split; [done|]. destruct o as [[j q]|]; [|done].
    destruct Ho as (k & d & Hk & -> & Hd). exists (S k), d. split; [done|]. split; [lia|done]. }
  destruct Hrec as (o & E & Ho). destruct (Z.eqb_spec p 0) as [->|Hp].
  { exists o. split; [done|]. destruct o as [[j q]|]; [done|]. intros q d Hq Hz. apply elem_of_cons in Hq as [->|Hq]; [done|]. by apply Ho. }
  destruct (Hl p) as [d Hd]; [by left|done|]. erewrite bind_ret; [|unfold get_dent; erewrite bind_ret; [|done]; by rewrite Hd].
  case_bool_decide as Hn.
  - exists (Some (i, p)). split; [done|]. exists 0%nat, d. split; [done|]. split; [lia|done].
  - exists o. split; [done|]. destruct o as [[j q]|]; [done|]. intros q e Hq Hz He. apply elem_of_cons in Hq as [->|Hq]; [congruence|by eapply Ho].
Qed.

Lemma dents_mapped u s A p : rep u s A -> p ∈ semfs_dents s -> p <> 0 -> is_Some (dent_heap s !! p).
Proof. intros R Hp Hz. apply elem_of_dom. apply (proj2 (r_dents _ _ _ R)). split; [done|]. by apply list_elem_of_lookup_1. Qed.

Lemma no_such_name u s A name : rep u s A -> (forall p d, p ∈ semfs_dents s -> p <> 0 -> dent_heap s !! p = Some d -> semd_name d <> name) -> forall k, name_of A k <> Some name.
Proof.
  intros R H k Hk. destruct (r_named _ _ _ R _ _ Hk) as [p Hp]. destruct (proj1 (proj2 (r_dents _ _ _ R) p)) as [Hz [i Hi]]; [apply elem_of_dom; eauto|].
  eapply H; [by eapply list_elem_of_lookup_2|done|exact Hp|done].
Qed.

(** The directory as a whole: the slot, the entry and the number of a name. *)
Lemma find_dent_rep u s A name : rep u s A -> exists o, find_dent name (semfs_dents s) 0 s = Done o s /\
  match o with
  | Some (i, p) => exists d, semfs_dents s !! i = Some p /\ p <> 0 /\ dent_heap s !! p = Some d /\ semd_name d = name /\ name_of A (semd_semnum d) = Some name
  | None => forall k, name_of A k <> Some name
  end.
Proof.
  intros R. destruct (find_dent_eq u s A name (semfs_dents s) 0 R) as (o & E & Ho); [intros p; by eapply dents_mapped|]. exists o. split; [done|]. destruct o as [[i p]|].
  - destruct Ho as (k & d & Hk & -> & Hz & Hd & Hn). exists d. split_and!; try done. rewrite <- Hn. by apply (r_dent _ _ _ R p).
  - by eapply no_such_name.
Qed.

Lemma creat_scan_eq u s A name l : rep u s A -> (forall p, p ∈ l -> p <> 0 -> is_Some (dent_heap s !! p)) ->
  forall pre e, semfs_dents s = pre ++ l -> (forall i, e = Some i -> semfs_dents s !! i = Some 0) ->
  exists o, creat_scan name l (length pre) e s = Done o s /\
    match o with
    | inl d => exists p, p ∈ l /\ dent_heap s !! p = Some d /\ semd_name d = name
    | inr e' => (forall i, e' = Some i -> semfs_dents s !! i = Some 0) /\ forall p d, p ∈ l -> p <> 0 -> dent_heap s !! p = Some d -> semd_name d <> name
    end.
Proof.
  intros R. induction l as [|p l IH]; intros Hl pre e Hpre He; cbn [creat_scan]; [exists (inr e); split; [done|]; split; [done|]; intros p d Hp; by apply not_elem_of_nil in Hp|].
  assert (Hrec : forall e', (forall i, e' = Some i -> semfs_dents s !! i = Some 0) -> exists o, creat_scan name l (S (length pre)) e' s = Done o s /\
    match o with
    | inl d => exists p, p ∈ l /\ dent_heap s !! p = Some d /\ semd_name d = name
    | inr e' => (forall i, e' = Some i -> semfs_dents s !! i = Some 0) /\ forall p d, p ∈ l -> p <> 0 -> dent_heap s !! p = Some d -> semd_name d <> name
    end).
  { intros e' He'. destruct (IH ltac:(intros q Hq; apply Hl; by right) (pre ++ [p]) e') as (o & E & Ho); [by rewrite <- app_assoc|done|]. rewrite length_app, Nat.add_1_r in E. eauto. }
  destruct (Z.eqb_spec p 0) as [->|Hp].
  { destruct (Hrec (match e with None => Some (length pre) | _ => e end)) as (o & E & Ho).
    { destruct e; [done|]. intros i [= <-]. rewrite Hpre. by rewrite lookup_app_r, Nat.sub_diag by lia. }
    exists o. split; [done|]. destruct o as [d|e']; [destruct Ho as (q & Hq & ?); exists q; split; [by right|done]|]. destruct Ho as [H1 H2]. split; [done|].
    intros q d Hq Hz. apply elem_of_cons in Hq as [->|Hq]; [done|]. by apply H2. }
  destruct (Hl p) as [d Hd]; [by left|done|]. erewrite bind_ret; [|unfold get_dent; erewrite bind_ret; [|done]; by rewrite Hd].
  case_bool_decide as Hn; [exists (inl d); split; [done|]; exists p; split; [by left|done]|].
  destruct (Hrec e He) as (o & E & Ho). exists o. split; [done|]. destruct o as [d'|e']; [destruct Ho as (q & Hq & ?); exists q; split; [by right|done]|]. destruct Ho as [H1 H2]. split; [done|].
  intros q d' Hq Hz Hd'. apply elem_of_cons in Hq as [->|Hq]; [congruence|by eapply H2].
Qed.

Section Ops.
Context {SM : SemfsMemory} {SML : SemfsMemoryLaws}.

(** Looking a name up. *)
Definition dots (name : list Z) : bool := bool_decide (name = dot) || bool_decide (name = dotdot).

Lemma semfs_lookup_wp s A dir c path : rep None s A -> af_root A = Some (dir, c) ->
  wp never (semfs_lookup dir path) s (fun '(r, p) s' =>
    (r = 0 /\ exists k A', (if dots path then k = SEMFS_ROOTDIR else name_of A k = Some path) /\ opened A k p A' /\ rep None s' A') \/
    (r = ENOENT /\ (dots path = false /\ forall k, name_of A k <> Some path) \/ r = ENOMEM) /\ rep None s' A).
Proof.
  intros R Hr. unfold semfs_lookup. fold (dots path). destruct (dots path) eqn:Ed.
  { assert (Hv : vn_of A SEMFS_ROOTDIR = Some (dir, c)) by (unfold vn_of; by rewrite decide_True).
    apply wp_bind. eapply wp_mono; [by eapply semfs_incref_wp|]. cbv beta. intros _ s' R'. wgo. left. split; [done|]. exists SEMFS_ROOTDIR. eexists. split_and!; [done| |exact R'].
    left. eauto. }
  wgo. destruct (find_dent_rep None s A path R) as (o & E & Ho). eapply wp_done; [exact E|]. destruct o as [[i p]|].
  2: { wgo. right. split; [left; by split_and!|done]. }
  destruct Ho as (d & Hi & Hz & Hd & Hn & Hk). apply wp_bind. eapply wp_get_dent; [exact Hd|].
  assert (Hkn : known A (semd_semnum d)).
  { unfold name_of in Hk. destruct (af_sems A !! semd_semnum d) as [x|] eqn:Ex; [|done]. right. split; [by eapply rep_not_root|eauto]. }
  eapply wp_mono; [by eapply semfs_getvnode_wp|]. intros [r q] s' [[-> (A' & Ho & R')]|[-> R']]; [left|right; split; [by right|done]].
  split; [done|]. exists (semd_semnum d), A'. by split_and!.
Qed.

(** Removing a name. *)
Definition unlink_sem (k : Z) (A : afs) : afs := match vn_of A k with None => del_sem k A | Some _ => set_name k None A end.

Lemma del_set_name k o A : del_sem k (set_name k o A) = del_sem k A.
Proof. unfold del_sem, set_name. cbn. f_equal. apply map_eq. intros j. destruct (decide (j = k)) as [->|]; [by rewrite !lookup_delete_eq|]. rewrite !lookup_delete_ne by done. by rewrite lookup_alter_ne. Qed.

Lemma semfs_remove_wp s A dir name : rep None s A ->
  wp never (semfs_remove dir name) s (fun r s' =>
    (r = 0 /\ exists k, name_of A k = Some name /\ rep None s' (unlink_sem k A)) \/
    (r = EINVAL /\ dots name = true \/ r = ENOENT /\ forall k, name_of A k <> Some name) /\ rep None s' A).
Proof.
  intros R. unfold semfs_remove. fold (dots name). destruct (dots name) eqn:Ed; [wgo; right; split; [by left|done]|].
  wgo. destruct (find_dent_rep None s A name R) as (o & E & Ho). eapply wp_done; [exact E|]. destruct o as [[i p]|].
  2: { wgo. right. split; [by right|done]. }
  destruct Ho as (d & Hi & Hz & Hd & Hn & Hk). apply wp_bind. eapply wp_get_dent; [exact Hd|]. set (k := semd_semnum d) in *.
  pose proof Hk as Hk'. unfold name_of in Hk'. destruct (af_sems A !! k) as [x|] eqn:Ex; [|done]. cbn in Hk'.
  destruct (rep_sem _ _ _ _ _ R Ex) as [[Hk0 Hkl] (a & Ha & Haz & Hh)]. assert (Hkr : k <> SEMFS_ROOTDIR) by (by eapply rep_not_root).
  assert (Hvx : vn_of A k = as_vn x) by (unfold vn_of; by rewrite decide_False, Ex).
  assert (Hil : (i < length (semfs_dents s))%nat) by (by eapply lookup_lt_Some).
  set (s1 := set_sem_heap (<[a := set_linked false (conc None k x)]> (sem_heap s)) s).
  assert (R1 : rep None (set_dent_heap (delete p (dent_heap s)) (set_dents (<[i := 0]> (semfs_dents s)) s1)) (set_name k None A)).
  { eapply (rep_unname None s _ A k x p d); try done; cbn; [by left|by apply dom_insert_lookup_L; eauto| |rewrite dom_delete_L; apply ptr_ok_clear; [apply R|done|done]].
    intros k'. eapply sem_of_insert; [exact R|exact Ex|exact Ha|reflexivity|reflexivity]. }
  wgo. unfold semfs_getsembynum. eapply wp_sems_get; [done|exact Ha|]. wgo. eapply wp_get_sem; [exact Hh|]. wgo.
  apply wp_kassert; [cbn; rewrite Hk'; by rewrite bool_decide_true by (split; [eauto|done])|]. unfold put_sem. wgo. fold s1. cbn [sems_hasvnode conc].
  assert (Hfin : forall s2 A2, semfs_dents s2 = semfs_dents s -> dent_heap s2 = dent_heap s -> name_of A k = Some name -> unlink_sem k A = A2 ->
    rep None (set_dent_heap (delete p (dent_heap s2)) (set_dents (<[i := 0]> (semfs_dents s2)) s2)) A2 ->
    wp never (dents_set i 0) s2 (fun _ s3 => wp never (semfs_direntry_destroy p;; mret 0) s3 (fun r s' => (r = 0 /\ exists k, name_of A k = Some name /\ rep None s' (unlink_sem k A)) \/
    (r = EINVAL /\ false = true \/ r = ENOENT /\ forall k, name_of A k <> Some name) /\ rep None s' A))).
  { intros s2 A2 E1 E2 Hnm E3 R2. eapply wp_dents_set; [by rewrite E1|]. unfold semfs_direntry_destroy. apply wp_bind, wp_bind. eapply wp_get_dent; [cbn; by rewrite E2|]. wgo. left. split; [done|].
    exists k. split; [done|]. by rewrite E3. }
  destruct (as_vn x) as [pc|] eqn:Ev.
  - rewrite bool_decide_true by eauto. cbn [negb]. wgo. eapply (Hfin _ (set_name k None A)); try done. unfold unlink_sem. by rewrite Hvx.
  - rewrite bool_decide_false by (intros [? ?]; done). cbn [negb]. apply wp_bind. apply wp_bind. eapply wp_sems_set; [cbn; lia|]. unfold semfs_sem_destroy. wgo.
    eapply wp_get_sem; [apply lookup_insert_eq|]. wgo. apply wp_kassert; [done|]. wgo.
    eapply (Hfin _ (del_sem k A)); try done; [unfold unlink_sem; by rewrite Hvx|]. rewrite <- (del_set_name k None).
    eapply rep_asks; [|eapply (rep_del None _ (set_name k None A) k a (as_count x)); [exact R1| |exact Ha]]; [by split_and!|]. rewrite set_name_lookup, Ex. cbn. rewrite decide_True by done. by rewrite Ev.
Qed.

(** ** Creation *)

Lemma wp_keeps {S A} (m : M S A) (P : S -> Prop) s Q : wp never m s Q -> preserves P m -> P s -> wp never m s (fun a s' => Q a s' /\ P s').
Proof. unfold wp. intros H HP Hs. destruct (m s) as [a s'| | |] eqn:E; try done. split; [done|]. by eapply HP. Qed.

(** What opening a vnode does not touch. *)
Definition tables (l : list Z) (ds : list Z) (dh : gmap Z semfs_direntry) (s : semfs) : Prop := semfs_sems s = l /\ semfs_dents s = ds /\ dent_heap s = dh.

Lemma getvnode_keeps l ds dh k : preserves (tables l ds dh) (semfs_getvnode k).
Proof.
  assert (Hget : preserves (tables l ds dh) get) by (intros s a s' H E; by injection E as <- <-).
  assert (Hroom : preserves (tables l ds dh) ask_room) by (intros s a s' H E; by injection E as <- <-).
  assert (Hobj : forall f, preserves (tables l ds dh) (ask_object f)) by (intros f s a s' H E; by injection E as <- <-).
  assert (Hm : forall f, (forall s, tables l ds dh s -> tables l ds dh (f s)) -> preserves (tables l ds dh) (modify f)) by (intros f Hf; by apply preserves_modify).
  assert (Hfind : forall k v, preserves (tables l ds dh) (find_semv k v)).
  { intros k' v. induction v as [|q v IH]; cbn [find_semv]; [apply preserves_ret|]. unfold get_semv. apply preserves_bind; [apply preserves_bind; [done|intros; apply preserves_deref]|]. intros x. destruct (_ =? _); [apply preserves_ret|apply IH]. }
  unfold semfs_getvnode, semfs_vnode_create, semfs_vnode_destroy, semfs_incref, get_semv, put_semv, get_sem, put_sem, sems_get.
  repeat first [done | apply Hm; by intros ? (? & ? & ?) | apply Hfind | apply Hobj | apply preserves_gets | apply preserves_ret | apply preserves_kassert | apply preserves_deref
               | apply preserves_bind; [|intros] | progress (match goal with |- context [match ?x with _ => _ end] => destruct x end)].
Qed.

Lemma first_null_spec l i : match first_null l i with Some j => (i <= j)%nat /\ l !! (j - i)%nat = Some 0 | None => Forall (fun p => p <> 0) l end.
Proof.
  revert i. induction l as [|p l IH]; intros i; cbn; [constructor|]. destruct (Z.eqb_spec p 0) as [->|Hp]; [split; [lia|by rewrite Nat.sub_diag]|].
  specialize (IH (S i)). destruct (first_null l (S i)) as [j|]; [|by constructor]. destruct IH as [H1 H2]. split; [lia|]. by replace (j - i)%nat with (S (j - S i)) by lia.
Qed.

Definition new_sem : semfs_sem := mkSem 0 false false [].

(** The semaphore is in the heap and not in the table. *)
Lemma semfs_sem_insert_wp s0 s A a : rep None s0 A -> same_but_asks (set_sem_heap (<[a := new_sem]> (sem_heap s0)) s0) s -> a <> 0 -> sem_heap s0 !! a = None ->
  wp never (semfs_sem_insert a) s (fun '(r, k) s' =>
    ((r = ENOMEM \/ r = ENOSPC /\ Z.of_nat (length (semfs_sems s0)) = SEMFS_ROOTDIR) /\ same_but_asks s s') \/
    r = 0 /\ 0 <= k /\ af_sems A !! k = None /\ semfs_sems s' !! Z.to_nat k = Some a /\ rep None s' (add_sem k (mkAsem 0 None None) A) /\
      semfs_dents s' = semfs_dents s0 /\ dent_heap s' = dent_heap s0).
Proof.
  intros R (E1 & E2 & E3 & E4 & E5 & E6) Ha Hfree. cbn in E1, E2, E3, E4, E5, E6. unfold new_sem in E4. unfold semfs_sem_insert. wgo. rewrite E2.
  destruct (Z.eqb_spec (Z.of_nat (length (semfs_sems s0))) SEMFS_ROOTDIR) as [Hfull|Hroom]; [wgo; left; split; [by right|by split_and!]|].
  pose proof (r_len _ _ _ R) as Hlen. pose proof (first_null_spec (semfs_sems s0) 0) as Hf.
  assert (Hd : a ∉ dom (sem_heap s0)) by (by apply not_elem_of_dom).
  destruct (first_null (semfs_sems s0) 0) as [i|].
  - destruct Hf as [_ Hi]. rewrite Nat.sub_0_r in Hi. assert (Hil : (i < length (semfs_sems s0))%nat) by (by eapply lookup_lt_Some).
    apply wp_bind. eapply wp_sems_set; [rewrite E2; lia|]. wgo. right. rewrite Nat2Z.id, E2.
    assert (Hk : af_sems A !! Z.of_nat i = None).
    { destruct (af_sems A !! Z.of_nat i) as [x|] eqn:Ex; [|done]. destruct (rep_sem _ _ _ _ _ R Ex) as (_ & b & Hb & Hbz & _). rewrite Nat2Z.id in Hb. congruence. }
    split_and!; [done|lia|done|cbn; by apply list_lookup_insert_eq| |done|done].
    eapply (rep_add s0 _ A (Z.of_nat i) a); cbn; try done; rewrite ?Nat2Z.id; [lia|by apply list_lookup_insert_eq|intros j Hj; by apply list_lookup_insert_ne|by rewrite length_insert|].
    rewrite E4, dom_insert_L. by apply ptr_ok_fill; [apply R| | |].
  - apply wp_bind, wp_ask_room. intros room s1 (F1 & F2 & F3 & F4 & F5 & F6). destruct room; cbn [negb]; wgo; [right|left; split; [by left|by split_and!]].
    assert (Hk : af_sems A !! Z.of_nat (length (semfs_sems s0)) = None).
    { destruct (af_sems A !! Z.of_nat (length (semfs_sems s0))) as [x|] eqn:Ex; [|done]. destruct (rep_sem _ _ _ _ _ R Ex) as [H _]. lia. }
    split_and!; [done|lia|done|cbn; rewrite Nat2Z.id; by rewrite lookup_app_r, Nat.sub_diag by lia| |cbn; congruence|cbn; congruence].
    eapply (rep_add s0 _ A (Z.of_nat (length (semfs_sems s0))) a); cbn; try done; rewrite ?Nat2Z.id; try congruence; [lia|by rewrite lookup_app_r, Nat.sub_diag by lia| |rewrite length_app; cbn; lia|].
    + intros j Hj. destruct (decide (j < length (semfs_sems s0))%nat); [by rewrite lookup_app_l|]. rewrite (lookup_ge_None_2 (semfs_sems s0)) by lia. apply lookup_ge_None_2. rewrite length_app. cbn. lia.
    + rewrite F4, E4, dom_insert_L. by apply ptr_ok_snoc; [apply R| |].
Qed.

(** Taking a semaphore without name and vnode out again. *)
Lemma take_out_wp {B} s A k a c (m : M semfs B) (Q : B -> semfs -> Prop) : rep None s A -> af_sems A !! k = Some (mkAsem c None None) -> semfs_sems s !! Z.to_nat k = Some a ->
  (forall s', rep None s' (del_sem k A) -> wp never m s' Q) -> wp never (sems_set k 0) s (fun _ s' => wp never (semfs_sem_destroy a;; m) s' Q).
Proof.
  intros R Hx Ha HQ. destruct (rep_sem _ _ _ _ _ R Hx) as [[Hk0 Hkl] (a2 & Ha2 & Hz & Hh)]. assert (a2 = a) as -> by congruence.
  eapply wp_sems_set; [lia|]. unfold semfs_sem_destroy. apply wp_bind, wp_bind. eapply wp_get_sem; [exact Hh|]. wgo. apply wp_kassert; [done|]. wgo. apply HQ. exact (rep_del None s A k a c R Hx Ha).
Qed.

Lemma del_add_sem k x A : af_sems A !! k = None -> del_sem k (add_sem k x A) = A.
Proof. intros H. unfold del_sem, add_sem. cbn. rewrite delete_insert_id by done. by destruct A. Qed.

(** The outcomes of a creation: a new semaphore of count 0 with this name, open once; an error,
    of memory or because the table of semaphores, [n] long, is full, and nothing has changed; or,
    when there is no memory for the entry, 0 and nothing has changed. *)
Definition created (n : nat) (A : afs) (name : list Z) (r p : Z) (s' : semfs) : Prop :=
  (r = 0 /\ exists k, af_sems A !! k = None /\ k <> SEMFS_ROOTDIR /\ p <> 0 /\ (forall k' c, vn_of A k' <> Some (p, c)) /\ rep None s' (add_sem k (mkAsem 0 (Some name) (Some (p, 1))) A)) \/
  (r = ENOMEM \/ r = ENOSPC /\ Z.of_nat n = SEMFS_ROOTDIR) /\ rep None s' A \/ r = 0 /\ p = 0 /\ rep None s' A.

Section Entry.
Context (s0 s : semfs) (A : afs) (a : Z) (name : list Z) (empty : option nat).
Context (R : rep None s0 A) (Hs : same_but_asks (set_sem_heap (<[a := new_sem]> (sem_heap s0)) s0) s) (Ha : a <> 0) (Hfree : sem_heap s0 !! a = None).
Context (Hempty : forall i, empty = Some i -> semfs_dents s0 !! i = Some 0) (Hname : forall k, name_of A k <> Some name).

(** From the entry on: [s2] has the semaphore in the table and the entry in the heap. *)
Lemma creat_named_wp s1 k p slot ds : rep None s1 (add_sem k (mkAsem 0 None None) A) -> af_sems A !! k = None -> 0 <= k -> semfs_sems s1 !! Z.to_nat k = Some a ->
  p <> 0 -> dent_heap s1 !! p = None -> ds !! slot = Some p -> ptr_ok ds (dom (<[p := mkDent name k]> (dent_heap s1))) ->
  wp never ('(result, vn) ← semfs_getvnode k;
    if negb (result =? 0) then dents_set slot 0;; semfs_direntry_destroy p;; sems_set k 0;; semfs_sem_destroy a;; mret (result, 0)
    else x ← get_sem a; put_sem a (set_linked true x);; mret (0, vn)) (set_dents ds (set_dent_heap (<[p := mkDent name k]> (dent_heap s1)) s1)) (fun '(r, vn) s' => created (length (semfs_sems s0)) A name r vn s').
Proof.
  intros R1 Hk Hk0 Ha1 Hp Hpf Hslot Hptr. set (A1 := add_sem k (mkAsem 0 None None) A) in *.
  assert (Hx1 : af_sems A1 !! k = Some (mkAsem 0 None None)) by apply lookup_insert_eq. assert (Hkr : k <> SEMFS_ROOTDIR) by (by eapply rep_not_root).
  assert (Hn1 : forall k', name_of A1 k' <> Some name) by (intros k'; unfold A1; by rewrite name_of_add_sem).
  set (s2 := set_dents ds (set_dent_heap (<[p := mkDent name k]> (dent_heap s1)) s1)). set (A2 := set_name k (Some name) A1).
  assert (R2 : rep (Some k) s2 A2) by (exact (rep_name s1 s2 A1 k _ name p R1 Hx1 eq_refl Hn1 eq_refl eq_refl eq_refl eq_refl Hpf eq_refl Hptr)).
  assert (Hx2 : af_sems A2 !! k = Some (mkAsem 0 (Some name) None)) by (unfold A2; rewrite set_name_lookup, Hx1; cbn; by rewrite decide_True).
  apply wp_bind. eapply wp_mono; [apply (wp_keeps _ (tables (semfs_sems s1) ds (<[p := mkDent name k]> (dent_heap s1)))); [eapply semfs_getvnode_wp; [exact R2|right; eauto]|apply getvnode_keeps|by split_and!]|].
  intros [r vn] s3 [Hr (T1 & T2 & T3)]. assert (Hvk : vn_of A2 k = None) by (unfold vn_of; by rewrite decide_False, Hx2).
  destruct Hr as [[-> (A3 & Ho & R3)]|[-> R3]]; cbn [negb Z.eqb].
  - destruct Ho as [(c & Hc & _)|(_ & Hvn & Hfr & ->)]; [congruence|].
    assert (Hx3 : af_sems (set_vn k (Some (vn, 1)) A2) !! k = Some (mkAsem 0 (Some name) (Some (vn, 1)))) by (rewrite set_vn_lookup, Hx2; cbn; by rewrite decide_True).
    destruct (rep_sem _ _ _ _ _ R3 Hx3) as [_ (a3 & Ha3 & _ & Hh3)]. assert (a3 = a) as -> by congruence.
    apply wp_bind. eapply wp_get_sem; [exact Hh3|]. unfold put_sem. wgo. left. split; [done|]. exists k. split_and!; [done|done|done| |].
    + intros k' c. specialize (Hfr k' c). unfold A2 in Hfr. rewrite vn_of_set_name in Hfr. unfold A1 in Hfr. by rewrite vn_of_add_sem in Hfr.
    + replace (add_sem k (mkAsem 0 (Some name) (Some (vn, 1))) A) with (set_vn k (Some (vn, 1)) A2); [by eapply rep_linked|].
      unfold set_vn, A2, set_name, A1, add_sem. rewrite decide_False by done. cbn. f_equal. apply map_eq. intros j. destruct (decide (j = k)) as [->|]; [by rewrite !lookup_alter_eq, !lookup_insert_eq|by rewrite !lookup_alter_ne, !lookup_insert_ne].
  - assert (Hsl : (slot < length (semfs_dents s3))%nat) by (rewrite T2; by eapply lookup_lt_Some).
    apply wp_bind. eapply wp_dents_set; [done|]. unfold semfs_direntry_destroy. apply wp_bind, wp_bind. eapply wp_get_dent; [cbn; rewrite T3; apply lookup_insert_eq|]. wgo.
    set (s4 := set_dent_heap _ _).
    destruct (rep_sem _ _ _ _ _ R3 Hx2) as [_ (a3 & Ha3 & _ & Hh3)]. assert (a3 = a) as -> by congruence.
    assert (R4 : rep None s4 (set_name k None A2)).
    { eapply (rep_unname (Some k) s3 s4 A2 k _ p (mkDent name k)); try done; cbn; [by rewrite T3, lookup_insert_eq|by right| |].
      - intros k'. destruct (decide (k' = k)) as [->|]; [|done]. unfold sem_of, s4. cbn. rewrite decide_True by done. rewrite T1, Ha1. cbn. rewrite Hh3. unfold conc, set_linked. cbn. by rewrite bool_decide_false by (intros [_ ?]; done).
      - rewrite dom_delete_L, T2, T3. by apply ptr_ok_clear. }
    eapply (take_out_wp s4 (set_name k None A2) k a 0); [exact R4| |cbn; by rewrite T1|]; [rewrite set_name_lookup, Hx2; cbn; by rewrite decide_True|].
    intros s5 R5. wgo. right. left. split; [by left|]. unfold A2, A1 in R5. by rewrite !del_set_name, del_add_sem in R5.
Qed.

Lemma creat_undone k (r p : Z) s1 : rep None s1 (add_sem k (mkAsem 0 None None) A) -> af_sems A !! k = None -> semfs_sems s1 !! Z.to_nat k = Some a ->
  (r = 0 /\ p = 0 \/ r = ENOMEM) -> wp never (sems_set k 0) s1 (fun _ s' => wp never (semfs_sem_destroy a;; mret (r, p)) s' (fun '(r, vn) s' => created (length (semfs_sems s0)) A name r vn s')).
Proof.
  intros R1 Hk Ha1 Hr. eapply (take_out_wp _ _ _ _ 0); [exact R1|apply lookup_insert_eq|done|]. intros s2 R2. rewrite del_add_sem in R2 by done. wgo. right.
  destruct Hr as [[-> ->]| ->]; [by right|left; by split; [left|]].
Qed.

Lemma creat_entry_wp : wp never (creat_entry name a empty) s (fun '(r, vn) s' => created (length (semfs_sems s0)) A name r vn s').
Proof.
  unfold creat_entry. apply wp_bind. eapply wp_mono; [by eapply semfs_sem_insert_wp|]. intros [r k] s1 [[Hr Hs1]|(-> & Hk0 & Hk & Ha1 & R1 & D1 & D2)].
  { assert (r <> 0) by (by destruct Hr as [->|[-> _]]). destruct (Z.eqb_spec r 0); [done|]. cbn [negb]. destruct Hs as (E1 & E2 & E3 & E4 & E5 & E6), Hs1 as (F1 & F2 & F3 & F4 & F5 & F6). cbn in E1, E2, E3, E4, E5, E6. unfold semfs_sem_destroy.
    apply wp_bind, wp_bind. eapply wp_get_sem; [rewrite F4, E4; apply lookup_insert_eq|]. wgo. apply wp_kassert; [done|]. wgo. right. left. split; [done|].
    eapply rep_asks; [|exact R]. split_and!; cbn; try congruence. rewrite F4, E4. by apply delete_insert_id. }
  cbn [negb Z.eqb]. unfold semfs_direntry_create. apply wp_bind, wp_bind, wp_ask_object. intros p s2 Hp Hs2. pose proof (rep_asks _ _ _ _ Hs2 R1) as R2.
  destruct Hs2 as (G1 & G2 & G3 & G4 & G5 & G6). destruct (Z.eqb_spec p 0) as [->|Hpz].
  { wgo. apply wp_bind. eapply creat_undone; [done|done|congruence|by left]. }
  apply wp_bind, wp_ask_room. intros room s3 Hs3. pose proof (rep_asks _ _ _ _ Hs3 R2) as R3. destruct Hs3 as (F1 & F2 & F3 & F4 & F5 & F6).
  destruct room; cbn [negb]; [|wgo; apply wp_bind; eapply creat_undone; [done|done|congruence|by left]].
  wgo. rewrite (proj2 (Z.eqb_neq p 0)) by done.
  assert (Hd3 : dent_heap s3 !! p = None) by (apply not_elem_of_dom; rewrite F5, G5; by apply Hp).
  assert (Hds : forall l, ptr_ok l ({[p]} ∪ dom (dent_heap s3)) -> ptr_ok l (dom (<[p := mkDent name k]> (dent_heap s3)))) by (intros l; by rewrite dom_insert_L).
  assert (Hd3' : p ∉ dom (dent_heap s3)) by (by apply not_elem_of_dom). destruct empty as [i|].
  - assert (Hi : semfs_dents s3 !! i = Some 0) by (rewrite F3, G3, D1; by apply Hempty). pose proof (lookup_lt_Some _ _ _ Hi) as Hil.
    apply wp_bind, wp_bind. eapply wp_dents_set; [done|]. wgo. cbn [negb Z.eqb].
    eapply (creat_named_wp s3 k p i (<[i := p]> (semfs_dents s3))); [done|done|done|congruence|done|done|by apply list_lookup_insert_eq|].
    apply Hds, ptr_ok_fill; [apply R3|done|done|done].
  - apply wp_bind. wgo. apply wp_ask_room. intros room s4 (H1 & H2 & H3 & H4 & H5 & H6). cbn in H1, H2, H3, H4, H5, H6.
    set (s4' := set_dent_heap (dent_heap s3) s4). assert (R4 : rep None s4' (add_sem k (mkAsem 0 None None) A)) by (eapply rep_asks; [|exact R3]; by split_and!).
    destruct room; cbn [negb]; wgo; cbn [negb Z.eqb].
    + assert (E4 : s4 = set_dent_heap (<[p := mkDent name k]> (dent_heap s4')) s4') by (unfold s4', set_dent_heap; destruct s4; cbn in *; congruence). rewrite E4.
      eapply (creat_named_wp s4' k p (length (semfs_dents s3)) (semfs_dents s3 ++ [p])); [done|done|done|cbn; congruence|done|done|by rewrite lookup_app_r, Nat.sub_diag by lia|].
      apply Hds, ptr_ok_snoc; [apply R3|done|done].
    + unfold semfs_direntry_destroy. apply wp_bind, wp_bind. eapply wp_get_dent; [rewrite H5; apply lookup_insert_eq|]. wgo. eapply creat_undone; [|done|cbn; congruence|by right].
      eapply rep_asks; [|exact R4]. split_and!; try done. cbn. rewrite H5. by apply delete_insert_id.
Qed.
End Entry.

Lemma semfs_sem_create_wp s0 : wp never semfs_sem_create s0 (fun a s => a = 0 /\ same_but_asks s0 s \/
  a <> 0 /\ a ∉ dom (sem_heap s0) /\ same_but_asks (set_sem_heap (<[a := new_sem]> (sem_heap s0)) s0) s).
Proof.
  unfold semfs_sem_create, same_but_asks. apply wp_bind, wp_ask_object. intros p s1 Hp (E1 & E2 & E3 & E4 & E5 & E6). destruct (Z.eqb_spec p 0) as [->|Hz]; [wgo; left; by split_and!|].
  apply wp_bind, wp_ask_room. intros b s2 (F1 & F2 & F3 & F4 & F5 & F6). destruct b; cbn [negb]; [|wgo; left; split_and!; congruence].
  apply wp_bind, wp_ask_room. intros b s3 (G1 & G2 & G3 & G4 & G5 & G6). destruct b; cbn [negb]; [|wgo; left; split_and!; congruence].
  unfold put_sem. wgo. right. split_and!; [done|by apply Hp|..]; cbn; unfold new_sem; congruence.
Qed.

Lemma semfs_creat_wp s A dir name excl : rep None s A ->
  wp never (semfs_creat dir name excl) s (fun '(r, p) s' =>
    if dots name then r = EEXIST /\ rep None s' A else
    (exists k, name_of A k = Some name /\
       (excl = true /\ r = EEXIST /\ rep None s' A \/ excl = false /\ (r = 0 /\ (exists A', opened A k p A' /\ rep None s' A') \/ r = ENOMEM /\ rep None s' A))) \/
    (forall k, name_of A k <> Some name) /\ created (length (semfs_sems s)) A name r p s').
Proof.
  intros R. unfold semfs_creat. fold (dots name). destruct (dots name); [by wgo|]. wgo.
  destruct (creat_scan_eq None s A name (semfs_dents s) R ltac:(intros p; by eapply dents_mapped) [] None eq_refl ltac:(done)) as (o & E & Ho). eapply wp_done; [exact E|]. destruct o as [d|empty].
  - destruct Ho as (p & Hp & Hd & Hn). pose proof (r_dent _ _ _ R _ _ Hd) as Hk. rewrite Hn in Hk. destruct excl; [wgo; left; exists (semd_semnum d); split; [done|by left]|].
    assert (Hkn : known A (semd_semnum d)).
    { unfold name_of in Hk. destruct (af_sems A !! semd_semnum d) as [x|] eqn:Ex; [|done]. right. split; [by eapply rep_not_root|eauto]. }
    eapply wp_mono; [by eapply semfs_getvnode_wp|]. intros [r q] s' Hr. left. exists (semd_semnum d). split; [done|]. right. split; [done|]. destruct Hr as [[-> ?]|[-> ?]]; auto.
  - destruct Ho as [He Hn]. assert (Hno : forall k, name_of A k <> Some name) by (by eapply no_such_name).
    apply wp_bind. eapply wp_mono; [apply semfs_sem_create_wp|]. intros a s1 [[-> Hs1]|(Ha & Hf & Hs1)].
    + wgo. right. split; [done|]. right. left. split; [by left|]. by eapply rep_asks.
    + rewrite (proj2 (Z.eqb_neq a 0)) by done. eapply wp_mono; [eapply creat_entry_wp; [exact R|exact Hs1|done|by apply not_elem_of_dom|done|done]|]. intros [r q] s'. by right.
Qed.
End Ops.
End SemfsNames.
