(* ===== verification/SemfsTheorems.v ===== *)
(** * What semfs promises

    The requests the kernel makes of a semfs, run one at a time, are the operations of a map
    of counting semaphores with names and references; and what becomes of a volume at unmount. *)
From S2P Require Import Prelude Wp Copyinout Uio Lhd Sfs SfsVnops Vnode Semfs.
From S2P Require Import Vfs VfsProofs SemfsProofs.
Import Copyinout Uio Sfs SfsVnops Vnode Vfs VfsProofs Semfs SemfsProofs SemfsNames.

Module SemfsTheorems.

(** ** Requests *)

Inductive request :=
| Root | Lookup (dir : Z) (path : list Z) | Creat (dir : Z) (name : list Z) (excl : bool) | Remove (dir : Z) (name : list Z)
| Open (p : Z) | Close (p : Z) | Down (p : Z) (u : uio) | Up (p : Z) (u : uio) | Set_to (p len : Z).

Definition set_amount (k c : Z) (A : afs) : afs := mkAfs (alter (fun x => mkAsem c (as_name x) (as_vn x)) k (af_sems A)) (af_root A).

(** The semaphore behind a vnode, and its count. *)
Definition sem_behind (A : afs) (p k c : Z) : Prop := k <> SEMFS_ROOTDIR /\ exists r n, af_sems A !! k = Some (mkAsem c n (Some (p, r))).

(** What may be asked: names in the root directory while it is open, vnodes that are open;
    a P that does not have to wait. *)
Definition allowed (A : afs) (q : request) : Prop :=
  match q with
  | Root => True
  | Lookup dir _ | Creat dir _ _ | Remove dir _ => exists c, af_root A = Some (dir, c)
  | Open p | Close p => exists k c, vn_of A k = Some (p, c)
  | Down p u => exists k c, sem_behind A p k c /\ 0 <= uio_resid u <= c
  | Up p u => exists k c, sem_behind A p k c /\ 0 <= uio_resid u < 2 ^ 32
  | Set_to p len => exists k c, sem_behind A p k c
  end.

(** What each request does to the map; [(r, v)] is the error code and the vnode, or the
    number of bytes the request has left. *)
Definition effect (A : afs) (q : request) (rv : Z * Z) (A' : afs) : Prop :=
  let '(r, v) := rv in
  match q with
  | Root => r = 0 /\ opened A SEMFS_ROOTDIR v A'
  | Lookup dir path =>
      (r = 0 /\ exists k, (if dots path then k = SEMFS_ROOTDIR else name_of A k = Some path) /\ opened A k v A') \/
      r = ENOENT /\ dots path = false /\ (forall k, name_of A k <> Some path) /\ A' = A
  | Creat dir name excl =>
      if dots name then r = EEXIST /\ A' = A else
      (exists k, name_of A k = Some name /\ (excl = true /\ r = EEXIST /\ A' = A \/ excl = false /\ r = 0 /\ opened A k v A')) \/
      (forall k, name_of A k <> Some name) /\ r = 0 /\
        exists k, af_sems A !! k = None /\ v <> 0 /\ (forall k' c, vn_of A k' <> Some (v, c)) /\ A' = add_sem k (mkAsem 0 (Some name) (Some (v, 1))) A
  | Remove dir name =>
      (r = 0 /\ exists k, name_of A k = Some name /\ A' = unlink_sem k A) \/
      (r = EINVAL /\ dots name = true \/ r = ENOENT /\ forall k, name_of A k <> Some name) /\ A' = A
  | Open p => exists k c, vn_of A k = Some (p, c) /\ A' = set_vn k (Some (p, c + 1)) A
  | Close p => exists k c, vn_of A k = Some (p, c) /\ A' = close_vn k A
  | Down p u => exists k c, sem_behind A p k c /\ r = 0 /\ v = 0 /\ A' = set_amount k (c - uio_resid u) A
  | Up p u => exists k c, sem_behind A p k c /\
      if c + uio_resid u <? 2 ^ 32 then r = 0 /\ v = 0 /\ A' = set_amount k (c + uio_resid u) A else r = EFBIG /\ v = uio_resid u /\ A' = A
  | Set_to p len => exists k c, sem_behind A p k c /\
      if len <? 0 then r = EINVAL /\ A' = A else if len <? 2 ^ 32 then r = 0 /\ A' = set_amount k len A else r = EFBIG /\ A' = A
  end.

(** How a request that needs memory reports that there was none: ENOMEM; but [semfs_creat]
    returns 0, and sets no vnode, when it is the directory entry that there is no memory for. *)
Definition no_memory (q : request) (rv : Z * Z) : Prop :=
  match q with
  | Root | Lookup _ _ => rv.1 = ENOMEM
  | Creat _ _ _ => rv.1 = ENOMEM \/ rv = (0, 0)
  | _ => False
  end.

(** A semaphore that is not forgotten, with a count of 32 bits. *)
Definition sem_good (x : asem) : Prop := (is_Some (as_name x) \/ is_Some (as_vn x)) /\ 0 <= as_count x < 2 ^ 32.
Definition good (A : afs) : Prop := map_Forall (fun _ => sem_good) (af_sems A).

Definition models (s : semfs) (A : afs) : Prop := rep None s A /\ good A.

Lemma good_alter A f k : good A -> (forall x, af_sems A !! k = Some x -> sem_good x -> sem_good (f x)) -> map_Forall (fun _ => sem_good) (alter f k (af_sems A)).
Proof.
  intros H Hf k' x Hx. destruct (decide (k' = k)) as [->|Hne]; [|rewrite lookup_alter_ne in Hx by done; by eapply H].
  rewrite lookup_alter_eq in Hx. destruct (af_sems A !! k) as [y|] eqn:Ey; [|done]. injection Hx as <-. apply Hf; [done|by eapply H].
Qed.

Lemma good_set_vn A k pc : good A -> good (set_vn k (Some pc) A).
Proof. intros H. unfold good, set_vn. case_decide; [done|]. apply good_alter; [done|]. intros x _ [_ Hc]. split; [right; by eexists|done]. Qed.
Lemma good_opened A k p A' : good A -> opened A k p A' -> good A'.
Proof. intros H [(c & _ & ->)|(_ & _ & _ & ->)]; by apply good_set_vn. Qed.
Lemma good_del A k : good A -> good (del_sem k A).
Proof. intros H. by apply map_Forall_delete. Qed.
Lemma good_close A k : good A -> good (close_vn k A).
Proof.
  intros H. unfold close_vn. destruct (vn_of A k) as [[p c]|]; [|done]. destruct (1 <? c); [by apply good_set_vn|]. case_decide as Hd; [by apply good_del|].
  unfold good, set_vn. case_decide; [done|]. apply good_alter; [done|]. intros x Hx [_ Hc]. split; [left|done]. cbn. unfold name_of in Hd. rewrite Hx in Hd. cbn in Hd.
  destruct (as_name x); [eauto|tauto].
Qed.
Lemma good_unlink A k : good A -> k <> SEMFS_ROOTDIR -> good (unlink_sem k A).
Proof.
  intros H Hk. unfold unlink_sem. destruct (vn_of A k) as [pc|] eqn:Hv; [|by apply good_del]. apply good_alter; [done|]. intros x Hx [_ Hc]. split; [right|done]. cbn.
  unfold vn_of in Hv. rewrite decide_False, Hx in Hv by done. by exists pc.
Qed.
Lemma good_amount A k c : good A -> 0 <= c < 2 ^ 32 -> good (set_amount k c A).
Proof. intros H Hc. apply good_alter; [done|]. intros x _ [Ha _]. by split. Qed.
Lemma good_add A k name v : good A -> good (add_sem k (mkAsem 0 (Some name) v) A).
Proof. intros H. apply map_Forall_insert_2; [|done]. split; [left; by eexists|cbn; lia]. Qed.

Lemma rep_created room s : semfs_create room = Some s -> models s (mkAfs ∅ None).
Proof.
  unfold semfs_create. destruct (forallb room (seq 0 6)); [|done]. intros [= <-]. split; [|by apply map_Forall_empty].
  assert (Hp : ptr_ok [] ∅) by (split; [done|]; intros p; split; [set_solver|intros [_ [i Hi]]; done]).
  assert (Hv : forall k, vn_of (mkAfs ∅ None) k = None) by (intros k; unfold vn_of; case_decide; done).
  split; cbn; rewrite ?dom_empty_L; try done; [intros k; unfold sem_of; by case_decide|by apply not_elem_of_nil|intros p v; by rewrite Hv, lookup_empty|intros k p c; by rewrite Hv].
Qed.

Section Run.
Context {SM : SemfsMemory} (others : M semfs unit).

Definition run (q : request) : M semfs (Z * Z) :=
  match q with
  | Root => semfs_getroot
  | Lookup dir path => semfs_lookup dir path
  | Creat dir name excl => semfs_creat dir name excl
  | Remove dir name => r ← semfs_remove dir name; mret (r, 0)
  | Open p => semfs_incref p;; mret (0, 0)
  | Close p => semfs_decref p;; mret (0, 0)
  | Down p u => '(r, u') ← semfs_read others 0 p u; mret (r, uio_resid u')
  | Up p u => '(r, u') ← semfs_write p u; mret (r, uio_resid u')
  | Set_to p len => r ← semfs_truncate p len; mret (r, 0)
  end.

(** ** P, V and truncation *)

Lemma vn_of_amount A k c k' : vn_of (set_amount k c A) k' = vn_of A k'.
Proof. unfold vn_of, set_amount. case_decide; [done|]. cbn. destruct (decide (k' = k)) as [->|]; [rewrite lookup_alter_eq; by destruct (af_sems A !! k)|by rewrite lookup_alter_ne]. Qed.
Lemma name_of_amount A k c k' : name_of (set_amount k c A) k' = name_of A k'.
Proof. unfold name_of, set_amount. cbn. destruct (decide (k' = k)) as [->|]; [rewrite lookup_alter_eq; by destruct (af_sems A !! k)|by rewrite lookup_alter_ne]. Qed.

Lemma rep_amount s A k x a c : rep None s A -> af_sems A !! k = Some x -> semfs_sems s !! Z.to_nat k = Some a -> sem_heap s !! a = Some (conc None k x) ->
  rep None (set_sem_heap (<[a := set_count c (conc None k x)]> (sem_heap s)) s) (set_amount k c A).
Proof.
  intros R Hx Ha Hh. split; cbn; try (by apply R).
  - rewrite dom_insert_lookup_L by eauto. apply R.
  - intros k'. erewrite sem_of_insert; [|exact R|exact Hx|exact Ha|reflexivity|reflexivity]. destruct (decide (k' = k)) as [->|Hne].
    + by rewrite lookup_alter_eq, Hx.
    + rewrite lookup_alter_ne by done. apply (r_sem _ _ _ R).
  - intros p d. rewrite name_of_amount. apply R.
  - intros k' n. rewrite name_of_amount. apply R.
  - intros k1 k2 n. rewrite !name_of_amount. apply R.
  - intros p v. rewrite vn_of_amount. apply R.
  - intros k' p c'. rewrite vn_of_amount. apply R.
Qed.

(** From the vnode to the semaphore. *)
Lemma behind s A p k c : rep None s A -> sem_behind A p k c -> exists a x, as_count x = c /\ af_sems A !! k = Some x /\ semfs_getsem p s = Done a s /\
  get_sem a s = Done (conc None k x) s /\ forall c', rep None (set_sem_heap (<[a := set_count c' (conc None k x)]> (sem_heap s)) s) (set_amount k c' A).
Proof.
  intros R [Hk (r & n & Hx)]. assert (Hv : vn_of A k = Some (p, r)) by (unfold vn_of; by rewrite decide_False, Hx).
  assert (Hp : semv_heap s !! p = Some (mkSemv k r)) by (by apply (r_vn _ _ _ R)). destruct (rep_sem _ _ _ _ _ R Hx) as [[H0 Hl] (a & Ha & Hz & Hh)].
  exists a. eexists. split_and!; [|exact Hx|..]; [done| | |].
  - unfold semfs_getsem, get_semv. erewrite bind_ret; [|erewrite bind_ret; [|done]; by rewrite Hp]. cbn. unfold semfs_getsembynum, sems_get. erewrite bind_ret; [|done].
    rewrite (proj2 (Z.ltb_lt _ _)) by done. cbn. by rewrite Ha.
  - unfold get_sem. erewrite bind_ret; [|done]. by rewrite Hh.
  - intros c'. by eapply rep_amount.
Qed.

Lemma down_wp s A p u k c : rep None s A -> sem_behind A p k c -> 0 <= uio_resid u <= c ->
  wp never (semfs_read others 0 p u) s (fun '(r, u') s' => r = 0 /\ uio_resid u' = 0 /\ rep None s' (set_amount k (c - uio_resid u) A)).
Proof.
  intros R Hb Hu. destruct (behind _ _ _ _ _ R Hb) as (a & x & Hc & Hx & E1 & E2 & HR). unfold semfs_read. apply wp_bind. eapply wp_done; [exact E1|].
  cbn [semfs_read_loop]. apply wp_bind. eapply wp_done; [exact E2|]. unfold semfs_read_section. destruct (Z.ltb_spec 0 (uio_resid u)) as [Hr|Hr].
  - cbn [sems_count conc]. rewrite Hc, (proj2 (Z.ltb_lt 0 c)) by lia. rewrite (proj2 (Z.ltb_ge c (uio_resid u))) by lia. cbn [uio_resid set_resid set_offset]. rewrite Z.sub_diag.
    unfold put_sem. wgo. cbn [uio_resid]. split_and!; [done|done|]. apply HR.
  - unfold put_sem. wgo. split_and!; [done|lia|]. specialize (HR c). replace (c - uio_resid u) with c by lia. by rewrite <- Hc in HR at 1.
Qed.

Lemma set_amount_same A k x : af_sems A !! k = Some x -> set_amount k (as_count x) A = A.
Proof. intros Hx. unfold set_amount. destruct A as [m r]. cbn in *. f_equal. apply map_eq. intros j. destruct (decide (j = k)) as [->|]; [rewrite lookup_alter_eq, Hx; by destruct x|by rewrite lookup_alter_ne]. Qed.

Lemma wakeup_alone x n k : semfs_wakeup (conc None k x) n = (conc None k x, []).
Proof. unfold semfs_wakeup. cbn. by repeat case_match. Qed.

Lemma up_wp s A p u k c : rep None s A -> sem_behind A p k c -> 0 <= uio_resid u < 2 ^ 32 -> 0 <= c < 2 ^ 32 ->
  wp never (semfs_write p u) s (fun '(r, u') s' =>
    if c + uio_resid u <? 2 ^ 32 then r = 0 /\ uio_resid u' = 0 /\ rep None s' (set_amount k (c + uio_resid u) A) else r = EFBIG /\ uio_resid u' = uio_resid u /\ rep None s' A).
Proof.
  intros R Hb Hu Hcb. destruct (behind _ _ _ _ _ R Hb) as (a & x & Hc & Hx & E1 & E2 & HR). unfold semfs_write. apply wp_bind. eapply wp_done; [exact E1|].
  apply wp_bind. eapply wp_done; [exact E2|]. unfold semfs_write_section.
  rewrite wakeup_alone. cbn [sems_count conc]. rewrite Hc. destruct (Z.ltb_spec 0 (uio_resid u)) as [Hr|Hr].
  - destruct (Z.ltb_spec (c + uio_resid u) (2 ^ 32)) as [Hs|Hs].
    + rewrite u32_small by (unfold is_u32; lia). rewrite (proj2 (Z.ltb_ge _ _)) by lia. unfold put_sem. wgo. split_and!; [done|done|]. apply HR.
    + replace (u32 (c + uio_resid u)) with (c + uio_resid u - 2 ^ 32); [|unfold u32; apply (Z.mod_unique _ _ 1); lia].
      rewrite (proj2 (Z.ltb_lt _ _)) by lia. unfold put_sem. wgo. split_and!; [done|done|]. rewrite <- (set_amount_same A k x) by done. apply HR.
  - rewrite (proj2 (Z.ltb_lt (c + _) _)) by lia. unfold put_sem. wgo. split_and!; [done|lia|]. replace (c + uio_resid u) with (as_count x) by lia. apply (HR (as_count x)).
Qed.

Lemma set_to_wp s A p len k c : rep None s A -> sem_behind A p k c ->
  wp never (semfs_truncate p len) s (fun r s' =>
    if len <? 0 then r = EINVAL /\ rep None s' A else if len <? 2 ^ 32 then r = 0 /\ rep None s' (set_amount k len A) else r = EFBIG /\ rep None s' A).
Proof.
  intros R Hb. destruct (behind _ _ _ _ _ R Hb) as (a & x & Hc & Hx & E1 & E2 & HR). unfold semfs_truncate.
  destruct (Z.ltb_spec len 0); [by wgo|]. destruct (Z.ltb_spec (2 ^ 32 - 1) len); [rewrite (proj2 (Z.ltb_ge _ _)) by lia; by wgo|]. rewrite (proj2 (Z.ltb_lt len _)) by lia.
  apply wp_bind. eapply wp_done; [exact E1|]. apply wp_bind. eapply wp_done; [exact E2|]. unfold semfs_truncate_section. rewrite wakeup_alone. unfold put_sem. wgo. split; [done|]. apply HR.
Qed.

(** ** Who is to blame

    [refused n n']: of the requests for memory numbered from [n] up to [n'], one was refused.
    A computation whose bad results are all due to that. *)

Definition refused (n n' : nat) : Prop := exists i, (n <= i < n')%nat /\ (sf_room i = false \/ exists live, sf_kmalloc i live = 0).

Definition blames {B} (bad : B -> Prop) (m : M semfs B) : Prop := forall s r s', 0 ∉ semfs_vnodes s -> m s = Done r s' ->
  0 ∉ semfs_vnodes s' /\ (sf_asks s <= sf_asks s')%nat /\ (bad r -> refused (sf_asks s) (sf_asks s')).

Lemma blames_bind {B C} (bad1 : B -> Prop) (bad : C -> Prop) (m : M semfs B) (k : B -> M semfs C) : blames bad1 m ->
  (forall x, blames bad (k x) \/ bad1 x /\ blames (fun _ => False) (k x)) -> blames bad (m ≫= k).
Proof.
  intros Hm Hk s r s' H0 H. unfold mbind, M_bind in H. destruct (m s) as [x s1| | |] eqn:E; try done. destruct (Hm s x s1 H0 E) as (H1 & L1 & B1).
  destruct (Hk x) as [Hb|[Hx Hb]]; destruct (Hb s1 r s' H1 H) as (H2 & L2 & B2); (split_and!; [done|lia|]).
  - intros Hr. destruct (B2 Hr) as (i & Hi & ?). exists i. split; [lia|done].
  - intros _. destruct (B1 Hx) as (i & Hi & ?). exists i. split; [lia|done].
Qed.

Lemma blames_ret {B} (bad : B -> Prop) x : ~ bad x -> blames bad (mret x).
Proof. intros Hx s r s' H0 [= <- <-]. done. Qed.

(** Steps that neither ask for memory nor touch the table of vnodes. *)
Definition quiet {B} (m : M semfs B) : Prop := forall l n, preserves (fun s => semfs_vnodes s = l /\ sf_asks s = n) m.
Lemma blames_quiet {B} (m : M semfs B) : quiet m -> blames (fun _ => False) m.
Proof. intros Hq s r s' H0 H. destruct (Hq (semfs_vnodes s) (sf_asks s) s r s' (conj eq_refl eq_refl) H) as [-> ->]. by split_and!. Qed.

Lemma blames_seq {B C} (bad : C -> Prop) (m : M semfs B) (k : B -> M semfs C) : quiet m -> (forall x, blames bad (k x)) -> blames bad (m ≫= k).
Proof. intros Hq Hk. eapply blames_bind; [by apply blames_quiet|]. intros x. left. apply Hk. Qed.

Lemma quiet_gets {B} (f : semfs -> B) : quiet (gets f).
Proof. intros l n. apply preserves_gets. Qed.
Lemma quiet_modify f : (forall s, semfs_vnodes (f s) = semfs_vnodes s /\ sf_asks (f s) = sf_asks s) -> quiet (modify f).
Proof. intros Hf l n. apply preserves_modify. intros s [<- <-]. apply Hf. Qed.
Lemma quiet_bind {B C} (m : M semfs B) (k : B -> M semfs C) : quiet m -> (forall x, quiet (k x)) -> quiet (m ≫= k).
Proof. intros Hm Hk l n. apply preserves_bind; [apply Hm|]. intros x. apply Hk. Qed.
Lemma quiet_get {B} (f : semfs -> option B) what : quiet (s ← get; deref what (f s)).
Proof. intros l n s x s' H E. unfold mbind, M_bind, get in E. by mprim. Qed.
Lemma quiet_ret {B} (x : B) : quiet (mret x).
Proof. intros l n. apply preserves_ret. Qed.
Lemma quiet_kassert what b : quiet (kassert what b).
Proof. intros l n. apply preserves_kassert. Qed.
Lemma quiet_deref {B} what (o : option B) : quiet (deref what o).
Proof. intros l n. apply preserves_deref. Qed.

Ltac solve_quiet := repeat first
  [ done | apply quiet_get | apply quiet_gets | apply quiet_ret | apply quiet_kassert | apply quiet_deref | (apply quiet_modify; by intros [])
  | apply quiet_bind; [|intros ?] | progress (match goal with |- context [match ?x with _ => _ end] => destruct x end) ].

Lemma blames_ask_room : blames (fun b => b = false) ask_room.
Proof. intros s b s' H0 [= <- <-]. split_and!; [done|cbn; lia|]. intros Hb. exists (sf_asks s). split; [cbn; lia|by left]. Qed.
Lemma blames_ask_object live : blames (fun p => p = 0) (ask_object live).
Proof. intros s p s' H0 [= <- <-]. split_and!; [done|cbn; lia|]. intros Hp. exists (sf_asks s). split; [cbn; lia|right; eauto]. Qed.

Lemma quiet_find_semv k l : quiet (find_semv k l).
Proof. induction l as [|p l IH]; cbn [find_semv]; [solve_quiet|]. unfold get_semv. solve_quiet. Qed.
Lemma quiet_find_dent name l : forall i, quiet (find_dent name l i).
Proof. induction l as [|p l IH]; intros i; cbn [find_dent]; [solve_quiet|]. destruct (p =? 0); [apply IH|]. unfold get_dent. apply quiet_bind; [solve_quiet|]. intros d. destruct (bool_decide _); [solve_quiet|apply IH]. Qed.
Lemma quiet_creat_scan name l : forall i e, quiet (creat_scan name l i e).
Proof. induction l as [|p l IH]; intros i e; cbn [creat_scan]; [solve_quiet|]. destruct (p =? 0); [apply IH|]. unfold get_dent. apply quiet_bind; [solve_quiet|]. intros d. destruct (bool_decide _); [solve_quiet|apply IH]. Qed.

Lemma find_semv_in k l s r s' : find_semv k l s = Done (Some r) s' -> r ∈ l.
Proof.
  revert s. induction l as [|p l IH]; intros s H; cbn [find_semv] in H; [by mprim|]. mstep H. destruct (semv_semnum ret =? k); [mprim; simplify_eq; by left|]. right. by eapply IH.
Qed.

(** A vnode, or the blame. *)
Lemma blames_getvnode k : blames (fun rv => rv.1 = ENOMEM \/ rv.2 = 0) (semfs_getvnode k).
Proof.
  intros s rv s' H0 H. unfold semfs_getvnode in H. mstep H. apply gets_Done in E as [-> ->]. mstep H. destruct ret as [p|].
  - pose proof (find_semv_in _ _ _ _ _ E) as Hp. destruct (blames_quiet _ (quiet_find_semv k (semfs_vnodes s)) s _ _ H0 E) as (H1 & L1 & _).
    assert (Hq : quiet (semfs_incref p)) by (unfold semfs_incref, get_semv, put_semv; solve_quiet). mstep H. destruct (blames_quiet _ Hq _ _ _ H1 E0) as (H2 & L2 & _).
    mprim. split_and!; [done|lia|]. cbn. intros [?| ->]; done.
  - assert (Hb : blames (fun rv => rv.1 = ENOMEM \/ rv.2 = 0) (p ← semfs_vnode_create k; if p =? 0 then mret (ENOMEM, 0) else room ← ask_room;
        if negb room then semfs_vnode_destroy p;; mret (ENOMEM, 0) else modify (set_vnodes (semfs_vnodes s ++ [p]));;
        (if negb (k =? SEMFS_ROOTDIR) then a ← sems_get k; kassert "sem != NULL" (negb (a =? 0));; sem ← get_sem a;
           kassert "sem->sems_hasvnode == false" (negb (sems_hasvnode sem));; put_sem a (set_hasvnode true sem) else mret tt);; mret (0, p))).
    { eapply (blames_bind (fun p => p = 0)).
      - unfold semfs_vnode_create. eapply blames_bind; [apply blames_ask_object|]. intros p. destruct (Z.eqb_spec p 0) as [->|Hp]; [right; split; [done|by apply blames_ret; intros []]|left].
        apply blames_seq; [unfold put_semv; solve_quiet|]. intros _. by apply blames_ret.
      - intros p. destruct (Z.eqb_spec p 0) as [->|Hp]; [right; split; [done|apply blames_ret; tauto]|left]. eapply blames_bind; [apply blames_ask_room|]. intros [].
        + left. eapply blames_bind with (bad1 := fun _ => False).
          * intros s1 u s2 H1 E1. unfold modify in E1. inv E1. split_and!; [|cbn; lia|done]. cbn [semfs_vnodes set_vnodes]. rewrite elem_of_app, list_elem_of_singleton. intros [?|?]; [done|congruence].
          * intros _. left. apply blames_seq; [unfold sems_get, get_sem, put_sem; solve_quiet|]. intros _. apply blames_ret. cbn. intros [?|?]; done.
        + right. split; [done|]. apply blames_seq; [unfold semfs_vnode_destroy, get_semv; solve_quiet|]. intros _. apply blames_ret. tauto. }
    destruct (blames_quiet _ (quiet_find_semv k (semfs_vnodes s)) s _ _ H0 E) as (H1 & L1 & _). destruct (Hb s0 rv s' H1 H) as (H2 & L2 & B2).
    split_and!; [done|lia|]. intros Hr. destruct (B2 Hr) as (i & Hi & ?). exists i. split; [lia|done].
Qed.

Lemma quiet_sem_destroy p : quiet (semfs_sem_destroy p).
Proof. unfold semfs_sem_destroy, get_sem. solve_quiet. Qed.
Lemma quiet_direntry_destroy p : quiet (semfs_direntry_destroy p).
Proof. unfold semfs_direntry_destroy, get_dent. solve_quiet. Qed.
Lemma quiet_sems_set k p : quiet (sems_set k p).
Proof. unfold sems_set. solve_quiet. Qed.
Lemma quiet_dents_set i p : quiet (dents_set i p).
Proof. unfold dents_set. solve_quiet. Qed.

Ltac blame_seq := repeat (apply blames_seq; [first [apply quiet_sem_destroy|apply quiet_direntry_destroy|apply quiet_sems_set|apply quiet_dents_set|unfold get_sem, put_sem; solve_quiet]|intros ?]).

Lemma blames_sem_create : blames (fun p => p = 0) semfs_sem_create.
Proof.
  unfold semfs_sem_create. eapply blames_bind; [apply blames_ask_object|]. intros p. destruct (Z.eqb_spec p 0) as [->|Hp]; [right; split; [done|by apply blames_ret; intros []]|left].
  eapply blames_bind; [apply blames_ask_room|]. intros []; [left|right; split; [done|by apply blames_ret; intros []]].
  eapply blames_bind; [apply blames_ask_room|]. intros []; [left|right; split; [done|by apply blames_ret; intros []]]. blame_seq. by apply blames_ret.
Qed.
Lemma blames_sem_insert p : blames (fun rv => rv.1 = ENOMEM) (semfs_sem_insert p).
Proof.
  unfold semfs_sem_insert. apply blames_seq; [apply quiet_gets|]. intros l. destruct (_ =? _); [by apply blames_ret|]. destruct (first_null l 0); [blame_seq; by apply blames_ret|].
  eapply blames_bind; [apply blames_ask_room|]. intros []; [left|right; split; [done|by apply blames_ret; intros []]]. blame_seq. by apply blames_ret.
Qed.
Lemma blames_direntry_create name k : blames (fun p => p = 0) (semfs_direntry_create name k).
Proof.
  unfold semfs_direntry_create. eapply blames_bind; [apply blames_ask_object|]. intros p. destruct (Z.eqb_spec p 0) as [->|Hp]; [right; split; [done|by apply blames_ret; intros []]|left].
  eapply blames_bind; [apply blames_ask_room|]. intros []; [left|right; split; [done|by apply blames_ret; intros []]]. blame_seq. by apply blames_ret.
Qed.

Definition creat_bad (rv : Z * Z) : Prop := rv.1 = ENOMEM \/ rv = (0, 0).

Lemma blames_creat_entry name sem empty : blames creat_bad (creat_entry name sem empty).
Proof.
  unfold creat_entry. eapply blames_bind; [apply blames_sem_insert|]. intros [r k]. destruct (Z.eqb_spec r ENOMEM) as [->|Hr]; cbn [negb Z.eqb].
  { right. split; [done|]. blame_seq. by apply blames_ret; intros []. }
  left. destruct (Z.eqb_spec r 0) as [->|Hr0]; cbn [negb]; [|blame_seq; apply blames_ret; unfold creat_bad; cbn; intros [?|[= ?]]; done].
  eapply blames_bind; [apply blames_direntry_create|]. intros p. destruct (Z.eqb_spec p 0) as [->|Hp]; [right; split; [done|]; blame_seq; by apply blames_ret; intros []|left].
  eapply (blames_bind (fun rv : Z * nat => rv.1 <> 0)).
  { destruct empty as [i|]; [blame_seq; apply blames_ret; intros H; by apply H|]. apply blames_seq; [apply quiet_gets|]. intros l. eapply blames_bind; [apply blames_ask_room|].
    intros []; [left; blame_seq; apply blames_ret; intros H; by apply H|right; split; [done|by apply blames_ret; intros []]]. }
  intros [r slot]. destruct (Z.eqb_spec r 0) as [->|Hr1]; cbn [negb]; [left|right; split; [done|]; blame_seq; by apply blames_ret; intros []].
  eapply blames_bind; [apply blames_getvnode|]. intros [r vn]. destruct (Z.eqb_spec r ENOMEM) as [->|Hm]; cbn [negb Z.eqb].
  { right. split; [by left|]. blame_seq. by apply blames_ret; intros []. }
  destruct (Z.eqb_spec vn 0) as [->|Hv]; [right; split; [by right|]|left]; destruct (negb (r =? 0)) eqn:E; blame_seq; apply blames_ret; unfold creat_bad; cbn; try tauto.
  - intros [?|[= ->]]; done. - intros [?|[= ?]]; done.
Qed.

(** The requests that may run out of memory. *)
Lemma run_blames q : blames (no_memory q) (run q) \/ match q with Root | Lookup _ _ | Creat _ _ _ => False | _ => True end.
Proof.
  destruct q as [|dir path|dir name excl| | | | | | ]; [left..|by right|by right|by right|by right|by right|by right]; cbn [run no_memory].
  - unfold semfs_getroot. eapply blames_bind; [apply blames_getvnode|]. intros [r v]. destruct (Z.eqb_spec r ENOMEM) as [->|Hr]; cbn [negb Z.eqb];
      [right; split; [by left|by apply blames_ret; intros []]|left]. destruct (negb _); by apply blames_ret.
  - unfold semfs_lookup. destruct (_ || _); [apply blames_seq; [unfold semfs_incref, get_semv, put_semv; solve_quiet|]; intros _; by apply blames_ret|].
    apply blames_seq; [apply quiet_gets|]. intros l. apply blames_seq; [apply quiet_find_dent|]. intros [[i p]|]; [|by apply blames_ret].
    apply blames_seq; [unfold get_dent; solve_quiet|]. intros d s rv s' H0 H. destruct (blames_getvnode _ s rv s' H0 H) as (? & ? & Hb). split_and!; auto.
  - unfold semfs_creat. destruct (_ || _); [apply blames_ret; cbn; intros [?|?]; done|]. apply blames_seq; [apply quiet_gets|]. intros l. apply blames_seq; [apply quiet_creat_scan|].
    intros [d|e].
    + destruct excl; [apply blames_ret; cbn; intros [?|?]; done|]. intros s rv s' H0 H. destruct (blames_getvnode _ s rv s' H0 H) as (? & ? & Hb). split_and!; auto.
      intros [?| ->]; apply Hb; [by left|by right].
    + eapply blames_bind; [apply blames_sem_create|]. intros sem. destruct (Z.eqb_spec sem 0) as [->|]; [right; split; [done|by apply blames_ret; intros []]|left]. apply blames_creat_entry.
Qed.

(** ** The promise *)

Context {SML : SemfsMemoryLaws}.

(** What a request gives: its effect; or nothing changes, and one of the requests for memory
    it made was refused, or [semfs_creat] has found the table of semaphores full. *)
Definition outcome (A : afs) (q : request) (s : semfs) (rv : Z * Z) (s' : semfs) (A' : afs) : Prop :=
  effect A q rv A' \/
  A' = A /\ no_memory q rv /\ refused (sf_asks s) (sf_asks s') \/
  A' = A /\ rv.1 = ENOSPC /\ Z.of_nat (length (semfs_sems s)) = SEMFS_ROOTDIR /\ exists dir name excl, q = Creat dir name excl.

(** The effect of a request, or its excuse. *)
Definition request_post (A : afs) (q : request) (s : semfs) (rv : Z * Z) (s' : semfs) : Prop := exists A', models s' A' /\
  (effect A q rv A' \/ A' = A /\ (no_memory q rv \/
     rv.1 = ENOSPC /\ Z.of_nat (length (semfs_sems s)) = SEMFS_ROOTDIR /\ exists dir name excl, q = Creat dir name excl)).

Lemma request_wp s A q : models s A -> allowed A q -> wp never (run q) s (request_post A q s).
Proof.
  intros [R G] Hq. unfold request_post. destruct q as [|dir path|dir name excl|dir name|p|p|p u|p u|p len]; cbn [run effect allowed no_memory] in *.
  - unfold semfs_getroot. apply wp_bind. eapply wp_mono; [eapply semfs_getvnode_wp; [done|by left]|]. intros [r v] s' [[-> (A' & Ho & R')]|[-> R']]; cbn; wgo.
    + exists A'. split; [|by left]. split; [done|by eapply good_opened]. + exists A. split; [by split|]. right. split; [done|by left].
  - destruct Hq as [c Hc]. eapply wp_mono; [by eapply semfs_lookup_wp|]. intros [r v] s' [[-> (k & A' & Hk & Ho & R')]|[[(-> & Hd & Hn)| ->] R']].
    + exists A'. split; [|left; left; eauto]. split; [done|by eapply good_opened].
    + exists A. split; [by split|]. left. right. by split_and!.
    + exists A. split; [by split|]. right. split; [done|by left].
  - eapply wp_mono; [by eapply semfs_creat_wp|]. intros [r v] s'. cbn [effect]. destruct (dots name); [intros [-> R']; exists A; split; [by split|by left]|]. intros [(k & Hk & Hr)|[Hno Hr]].
    + destruct Hr as [(-> & -> & R')|[-> [[-> (A' & Ho & R')]|[-> R']]]]; [exists A|exists A'|exists A]; (split; [split; [exact R'|]|]); [done| |by eapply good_opened| |done|].
      * left. left. exists k. split; [done|by left]. * left. left. exists k. split; [done|by right]. * right. split; [done|]. left. by left.
    + destruct Hr as [[-> (k & Hk & Hkr & Hv & Hf & R')]|[[Hr R']|(-> & -> & R')]]; [eexists|exists A|exists A]; (split; [split; [exact R'|]|]); [by apply good_add| |done| |done|].
      * left. right. split_and!; [done|done|]. exists k. by split_and!.
      * right. split; [done|]. destruct Hr as [->|[-> Hl]]; [left; by left|right]. split_and!; [done|done|eauto].
      * right. split; [done|]. left. by right.
  - apply wp_bind. eapply wp_mono; [by eapply semfs_remove_wp|]. intros r s' [[-> (k & Hk & R')]|[Hr R']]; wgo.
    + exists (unlink_sem k A). split; [|left; left; eauto]. split; [done|]. apply good_unlink; [done|]. unfold name_of in Hk. destruct (af_sems A !! k) eqn:Ex; [|done]. exact (rep_not_root _ _ _ _ _ R Ex).
    + exists A. split; [by split|]. left. right. tauto.
  - destruct Hq as (k & c & Hk). apply wp_bind. eapply wp_mono; [by eapply semfs_incref_wp|]. cbv beta. intros _ s' R'. wgo. eexists. split; [split; [exact R'|by apply good_set_vn]|]. left. exists k, c. by split.
  - destruct Hq as (k & c & Hk). apply wp_bind. eapply wp_mono; [by eapply semfs_decref_wp|]. cbv beta. intros _ s' R'. wgo. eexists. split; [split; [exact R'|by apply good_close]|]. left. exists k, c. by split.
  - destruct Hq as (k & c & Hb & Hu). apply wp_bind. eapply wp_mono; [by eapply down_wp|]. intros [r u'] s' (-> & -> & R'). wgo. eexists. split; [split; [exact R'|]|left; exists k, c; by split_and!].
    apply good_amount; [done|]. destruct Hb as [_ (? & ? & Hx)]. apply G in Hx as [_ Hx]. cbn in Hx. lia.
  - destruct Hq as (k & c & Hb & Hu). assert (Hc : 0 <= c < 2 ^ 32) by (destruct Hb as [_ (? & ? & Hx)]; by apply G in Hx as [_ Hx]).
    apply wp_bind. eapply wp_mono; [by eapply up_wp|]. intros [r u'] s' H. wgo. cbn [effect]. destruct (c + uio_resid u <? 2 ^ 32) eqn:E; destruct H as (-> & -> & R').
    + eexists. split; [split; [exact R'|by apply good_amount; [|lia]]|]. left. exists k, c. rewrite E. by split_and!.
    + exists A. split; [by split|]. left. exists k, c. rewrite E. by split_and!.
  - destruct Hq as (k & c & Hb). apply wp_bind. eapply wp_mono; [by eapply set_to_wp|]. intros r s' H. wgo. cbn [effect]. destruct (len <? 0) eqn:E1; [|destruct (len <? 2 ^ 32) eqn:E2]; destruct H as [-> R'].
    + exists A. split; [by split|]. left. exists k, c. by split_and!.
    + eexists. split; [split; [exact R'|apply good_amount; [done|lia]]|]. left. exists k, c. by split_and!.
    + exists A. split; [by split|]. left. exists k, c. by split_and!.
Qed.

End Run.

(** ** Unmounting *)

Definition cleared {X} (m : gmap Z X) (l : list Z) : gmap Z X := foldl (fun m p => delete p m) m l.

Lemma cleared_dom {X} (m : gmap Z X) l : dom (cleared m l) = dom m ∖ list_to_set l.
Proof. revert m. induction l as [|p l IH]; intros m; [unfold cleared; cbn; set_solver|]. unfold cleared in *. cbn. rewrite IH, dom_delete_L. set_solver. Qed.

(** The two loops of [semfs_destroy] are the same: each object of the table is destroyed, and
    a null pointer in the table stops the kernel. *)
Lemma destroy_each {X} (h : semfs -> gmap Z X) (put : gmap Z X -> semfs -> semfs) (d : Z -> M semfs unit) (loop : list Z -> M semfs unit) (idle : X -> Prop) (what : string) :
  (forall m s, h (put m s) = m) -> (forall s, put (h s) s = s) -> (forall m m' s, put m (put m' s) = put m s) ->
  loop [] = mret tt -> (forall p l, loop (p :: l) = (d p;; loop l)) ->
  (forall s p x, h s !! p = Some x -> idle x -> d p s = Done tt (put (delete p (h s)) s)) ->
  (forall s p, h s !! p = None -> d p s = Halt (Undefined what)) ->
  forall l s, (forall i j p, p <> 0 -> l !! i = Some p -> l !! j = Some p -> i = j) -> (forall p, p ∈ l -> p <> 0 -> exists x, h s !! p = Some x /\ idle x) -> h s !! 0 = None ->
  if decide (0 ∈ l) then loop l s = Halt (Undefined what) else loop l s = Done tt (put (cleared (h s) l) s).
Proof.
  intros P1 P2 P3 L0 L1 Hd Hn. induction l as [|p l IH]; intros s Hinj Hl H0.
  { rewrite decide_False by apply not_elem_of_nil. rewrite L0. cbn. by rewrite P2. }
  rewrite L1. destruct (decide (p = 0)) as [->|Hp].
  { rewrite decide_True by (by left). by apply bind_halt, Hn. }
  destruct (Hl p) as (x & Hx & Hi); [by left|done|]. erewrite bind_ret; [|by eapply Hd].
  assert (Hpl : p ∉ l) by (intros [j Hj]%list_elem_of_lookup_1; specialize (Hinj 0%nat (S j) p Hp eq_refl Hj); lia).
  specialize (IH (put (delete p (h s)) s)). rewrite P1 in IH. rewrite P3 in IH. assert (Heq : (0 ∈ p :: l) <-> 0 ∈ l) by (rewrite elem_of_cons; intuition congruence).
  rewrite (decide_ext _ _ _ _ Heq). apply IH; [intros i j q Hq Hi' Hj; specialize (Hinj (S i) (S j) q Hq Hi' Hj); lia| |].
  - intros q Hq Hz. destruct (Hl q) as (y & Hy & Hid); [by right|done|]. exists y. split; [|done]. rewrite lookup_delete_ne; [done|congruence].
  - by rewrite lookup_delete_ne.
Qed.

Lemma rep_idle s A k p : rep None s A -> semfs_sems s !! k = Some p -> p <> 0 -> exists x, sem_heap s !! p = Some x /\ sems_cv x = [].
Proof.
  intros R Hk Hz. assert (Hp : p ∈ dom (sem_heap s)) by (apply (proj2 (r_sems _ _ _ R)); eauto). apply elem_of_dom in Hp as [x Hx]. exists x. split; [done|].
  pose proof (r_sem _ _ _ R (Z.of_nat k)) as E. unfold sem_of in E. rewrite decide_True, Nat2Z.id, Hk in E by lia. cbn in E. rewrite Hx in E. destruct (af_sems A !! Z.of_nat k); [|done]. by injection E as ->.
Qed.

Lemma ptr_ok_cleared {X} (m : gmap Z X) l : ptr_ok l (dom m) -> cleared m l = ∅.
Proof.
  intros [_ H]. apply dom_empty_inv_L. rewrite cleared_dom. apply set_eq. intros p. rewrite elem_of_difference, H, elem_of_list_to_set. split; [|set_solver].
  intros [[_ [i Hi]] Hn]. exfalso. apply Hn. by eapply list_elem_of_lookup_2.
Qed.

Lemma destroy_sems_spec s A : rep None s A -> if decide (0 ∈ semfs_sems s) then destroy_sems (semfs_sems s) s = Halt (Undefined "sem")
  else destroy_sems (semfs_sems s) s = Done tt (set_sem_heap ∅ s).
Proof.
  intros R. rewrite <- (ptr_ok_cleared _ _ (r_sems _ _ _ R)).
  apply (destroy_each sem_heap set_sem_heap semfs_sem_destroy destroy_sems (fun x => sems_cv x = []) "sem"); try done; [by intros []|..].
  - intros s1 p x Hx Hi. unfold semfs_sem_destroy, get_sem. erewrite bind_ret; [|erewrite bind_ret; [|done]; by rewrite Hx]. by rewrite Hi.
  - intros s1 p Hp. unfold semfs_sem_destroy, get_sem. apply bind_halt. erewrite bind_ret; [|done]. by rewrite Hp.
  - apply R.
  - intros p [k Hk]%list_elem_of_lookup_1 Hz. by eapply rep_idle.
  - apply not_elem_of_dom, (ptr_ok_zero _ _ (r_sems _ _ _ R)).
Qed.

Lemma destroy_dents_spec s A s1 : rep None s A -> semfs_dents s1 = semfs_dents s -> dent_heap s1 = dent_heap s -> if decide (0 ∈ semfs_dents s) then destroy_dents (semfs_dents s) s1 = Halt (Undefined "dent")
  else destroy_dents (semfs_dents s) s1 = Done tt (set_dent_heap ∅ s1).
Proof.
  intros R E1 E2. rewrite <- (ptr_ok_cleared _ _ (r_dents _ _ _ R)), <- E2.
  apply (destroy_each dent_heap set_dent_heap semfs_direntry_destroy destroy_dents (fun _ => True) "dent"); try done; [by intros []|..].
  - intros s2 p x Hx _. unfold semfs_direntry_destroy, get_dent. erewrite bind_ret; [|erewrite bind_ret; [|done]; by rewrite Hx]. done.
  - intros s2 p Hp. unfold semfs_direntry_destroy, get_dent. apply bind_halt. erewrite bind_ret; [|done]. by rewrite Hp.
  - apply R.
  - intros p Hp Hz. rewrite E2. destruct (dents_mapped _ _ _ _ R Hp Hz) as [x Hx]. eauto.
  - rewrite E2. apply not_elem_of_dom, (ptr_ok_zero _ _ (r_dents _ _ _ R)).
Qed.

(** The first table is that of the semaphores. *)
Definition null_object (s : semfs) : string := if decide (0 ∈ semfs_sems s) then "sem" else "dent".

Lemma semfs_destroy_spec s A : rep None s A -> semfs_vnodes s = [] -> if decide (0 ∈ semfs_sems s \/ 0 ∈ semfs_dents s) then semfs_destroy s = Halt (Undefined (null_object s))
  else exists s', semfs_destroy s = Done tt s' /\ sem_heap s' = ∅ /\ dent_heap s' = ∅ /\ semv_heap s' = ∅.
Proof.
  intros R Hv. unfold semfs_destroy. erewrite bind_ret; [|done]. pose proof (destroy_sems_spec s A R) as Hs. destruct (decide (0 ∈ semfs_sems s)) as [H1|H1].
  { rewrite decide_True by (by left). unfold null_object. rewrite decide_True by done. by apply bind_halt. }
  rewrite (bind_ret _ _ _ _ _ Hs). erewrite bind_ret; [|done]. erewrite bind_ret; [|done]. set (s1 := set_sems [] _).
  pose proof (destroy_dents_spec s A s1 R eq_refl eq_refl) as Hd. destruct (decide (0 ∈ semfs_dents s)) as [H2|H2].
  { rewrite decide_True by (by right). unfold null_object. rewrite decide_False by done. by apply bind_halt. }
  rewrite decide_False by tauto. rewrite (bind_ret _ _ _ _ _ Hd). erewrite bind_ret; [|done]. erewrite bind_ret; [|done]. eexists. split; [cbn; by rewrite Hv|]. split_and!; [done|done|].
  cbn. apply dom_empty_inv_L. apply set_eq. intros p. rewrite (proj2 (r_vnodes _ _ _ R)), Hv. split; [intros [_ [i Hi]]; done|set_solver].
Qed.

(** C33: what unmounting a semfs does: with a vnode open it returns EBUSY; with none, it frees
    every semaphore and every entry, if the tables have no null pointers in them; if a semaphore
    or a name has been removed and its slot not used again, it dereferences that null pointer. *)
Theorem semfs_unmount_spec s A : models s A ->
  (semfs_vnodes s <> [] -> semfs_unmount s = Done EBUSY s) /\
  (semfs_vnodes s = [] -> if decide (0 ∈ semfs_sems s \/ 0 ∈ semfs_dents s) then semfs_unmount s = Halt (Undefined (null_object s))
     else exists s', semfs_unmount s = Done 0 s' /\ sem_heap s' = ∅ /\ dent_heap s' = ∅ /\ semv_heap s' = ∅).
Proof.
  intros [R _]. split; intros Hv; unfold semfs_unmount; (erewrite bind_ret; [|done]).
  { rewrite (proj2 (Z.ltb_lt _ _)); [done|]. destruct (semfs_vnodes s); [done|cbn; lia]. }
  rewrite Hv. change (0 <? Z.of_nat (length [])) with false. cbv iota. pose proof (semfs_destroy_spec s A R Hv) as Hd. case_decide.
  - by apply bind_halt.
  - destruct Hd as (s' & Hs' & Hh). exists s'. split; [|done]. by rewrite (bind_ret _ _ _ _ _ Hs').
Qed.

(** ** On a concrete kernel *)

(** Addresses count up; [full n]: the [n]-th request for an object is refused. *)
Definition example_memory (full : nat -> bool) : SemfsMemory := {|
  sf_kmalloc := fun n live => if full n || bool_decide (Z.of_nat (S n) ∈ live) then 0 else Z.of_nat (S n);
  sf_room := fun _ => true |}.

Lemma example_memory_laws full : @SemfsMemoryLaws (example_memory full).
Proof. intros n live. cbn. destruct (full n); [done|]. cbn. by case_bool_decide. Qed.

Definition empty_semfs : semfs := mkSemfs [] [] [] ∅ ∅ ∅ 0.


(** A volume whose only semaphore has been removed. *)
Definition emptied_semfs : semfs := mkSemfs [] [0] [0] ∅ ∅ ∅ 11.
Lemma emptied_models : models emptied_semfs (mkAfs ∅ None).
Proof.
  split; [|by apply map_Forall_empty]. assert (Hp : ptr_ok [0] ∅).
  { split; [intros [|i] [|j] p Hz Hi Hj; cbn in *; try done; congruence|]. intros p. split; [set_solver|]. intros [Hz [[|i] Hi]]; [injection Hi as <-; done|by destruct i]. }
  assert (Hp0 : ptr_ok [] ∅) by (split; [done|]; intros p; split; [set_solver|intros [_ [i Hi]]; done]).
  assert (Hv : forall k, vn_of (mkAfs ∅ None) k = None) by (intros k; unfold vn_of; case_decide; done).
  split; cbn; rewrite ?dom_empty_L; try done; [|by apply not_elem_of_nil|intros p v; by rewrite Hv, lookup_empty|intros k p c; by rewrite Hv].
  intros k. unfold sem_of. case_decide; [|done]. cbn. destruct (Z.to_nat k) as [|[|n]]; done.
Qed.

Lemma semfs_unmount_spec_witness : semfs_unmount emptied_semfs = Halt (Undefined "sem") /\ exists s', semfs_unmount empty_semfs = Done 0 s' /\ sem_heap s' = ∅ /\ dent_heap s' = ∅ /\ semv_heap s' = ∅.
Proof.
  split; [exact (proj2 (semfs_unmount_spec emptied_semfs (mkAfs ∅ None) emptied_models) eq_refl)|].
  exact (proj2 (semfs_unmount_spec empty_semfs (mkAfs ∅ None) (rep_created (fun _ => true) _ eq_refl)) eq_refl).
Defined.

Fixpoint run_all {SM : SemfsMemory} (l : list request) : M semfs (list (Z * Z)) :=
  match l with [] => mret [] | q :: l' => rv ← run (mret tt) q; rvs ← run_all l'; mret (rv :: rvs) end.

(** A semaphore is made, closed and removed, and the volume unmounted: a null pointer. *)
Example semfs_unmount_null :
  @run_all (example_memory (fun _ => false)) [Root; Creat 1 [97] true; Close 10; Remove 1 [97]; Close 1] empty_semfs = Done [(0, 1); (0, 10); (0, 0); (0, 0); (0, 0)] emptied_semfs /\
    semfs_unmount emptied_semfs = Halt (Undefined "sem").
Proof. split; vm_compute; reflexivity. Qed.

(** There is no memory for the directory entry: [semfs_creat] returns 0, and there is no
    semaphore and no vnode. *)
Example semfs_creat_silent :
  exists s, @run_all (example_memory (Nat.eqb 6)) [Root; Creat 1 [97] true] empty_semfs = Done [(0, 1); (0, 0)] s /\ sem_heap s = ∅ /\ dent_heap s = ∅.
Proof. eexists. vm_compute. auto. Qed.

End SemfsTheorems.
