(* ===== verification/SemfsThreads.v ===== *)
(** * Threads at one semfs semaphore

    The sections of semfs_vnops.c that run under the lock of a semaphore - a turn of the loop
    of [semfs_read], [semfs_write], the end of [semfs_truncate] - interleaved: a reader that
    finds too little sleeps on the condition variable and takes its next turn after it has
    been woken.  Nothing is taken that was not given; a reader that is alone sleeps only while
    there is nothing to take and gets what is given; two readers can be left asleep beside a
    count that is not 0. *)
From S2P Require Import Prelude Copyinout Uio Semfs.
Import Copyinout Uio Semfs.

Module SemfsThreads.

(** [sy_readers]: the threads in [semfs_read], with what each still wants; those in [sems_cv]
    are asleep.  [sy_taken], [sy_given]: what has been read and written so far. *)
Record sys := mkSys { sy_sem : semfs_sem; sy_readers : gmap nat uio; sy_taken : Z; sy_given : Z }.

Inductive event := Start (t : nat) (u : uio) | Turn (t : nat) | Give (u : uio) | Truncate (n : Z).

(** [cv_wait]: to the end of the queue. *)
Definition cv_wait (t : nat) (sem : semfs_sem) : semfs_sem := mkSem (sems_count sem) (sems_hasvnode sem) (sems_linked sem) (sems_cv sem ++ [t]).

Definition step (e : event) (y : sys) : option sys :=
  match e with
  | Start t u => match sy_readers y !! t with None => Some (mkSys (sy_sem y) (<[t := u]> (sy_readers y)) (sy_taken y) (sy_given y)) | Some _ => None end
  | Turn t =>
      u ← sy_readers y !! t;
      if bool_decide (t ∈ sems_cv (sy_sem y)) then None else
      let '(sem, u', returns) := semfs_read_section (sy_sem y) u in
      Some (mkSys (if returns then sem else cv_wait t sem) (if returns then delete t (sy_readers y) else <[t := u']> (sy_readers y))
                  (sy_taken y + (uio_resid u - uio_resid u')) (sy_given y))
  | Give u =>
      let '(_, sem, u', _) := semfs_write_section (sy_sem y) u in
      Some (mkSys sem (sy_readers y) (sy_taken y) (sy_given y + (uio_resid u - uio_resid u')))
  | Truncate n =>
      let '(sem, _) := semfs_truncate_section (sy_sem y) n in
      Some (mkSys sem (sy_readers y) (sy_taken y) (sy_given y + (n - sems_count (sy_sem y))))
  end.

Fixpoint steps (l : list event) (y : sys) : option sys :=
  match l with [] => Some y | e :: l' => y' ← step e y; steps l' y' end.

Lemma steps_cons e l y y1 : step e y = Some y1 -> steps (e :: l) y = steps l y1.
Proof. intros E. cbn [steps]. by rewrite E. Qed.

(** Sizes are 32 bits wide; [semfs_truncate] has checked the new count. *)
Definition fits (e : event) : Prop :=
  match e with Start _ u | Give u => 0 <= uio_resid u < 2 ^ 32 | Turn _ => True | Truncate n => 0 <= n < 2 ^ 32 end.

Definition new_sys : sys := mkSys (mkSem 0 true true []) ∅ 0 0.

Record inv (y : sys) : Prop := {
  iv_count : 0 <= sems_count (sy_sem y) < 2 ^ 32;
  iv_balance : sems_count (sy_sem y) + sy_taken y = sy_given y;
  iv_nodup : NoDup (sems_cv (sy_sem y));
  iv_asleep : forall t, t ∈ sems_cv (sy_sem y) -> exists u, sy_readers y !! t = Some u /\ 0 < uio_resid u;
  iv_readers : forall t u, sy_readers y !! t = Some u -> 0 <= uio_resid u < 2 ^ 32 }.

Lemma wakeup_cases sem n : exists cv, fst (semfs_wakeup sem n) = mkSem (sems_count sem) (sems_hasvnode sem) (sems_linked sem) cv /\ cv `suffix_of` sems_cv sem /\
  (sems_count sem = 0 -> 0 < n -> 0 <= sems_count sem -> sems_cv sem = [] \/ (length cv < length (sems_cv sem))%nat).
Proof.
  unfold semfs_wakeup. destruct sem as [c v k cv]. cbn. destruct (Z.ltb_spec 0 c), (Z.eqb_spec n 0); cbn; try (by exists cv; split; [done|split; [done|lia]]).
  destruct (Z.eqb_spec n 1).
  - destruct cv as [|t cv]; cbn; [by exists []; split_and!; auto|]. exists cv. split_and!; [done|by exists [t]|]. right. cbn. lia.
  - cbn. exists []. split_and!; [done|by apply suffix_nil|]. destruct cv; [by left|right; cbn; lia].
Qed.

Lemma read_section_eq sem u : 0 <= sems_count sem -> 0 <= uio_resid u -> let d := Z.min (sems_count sem) (uio_resid u) in
  exists u', semfs_read_section sem u = (set_count (sems_count sem - d) sem, u', uio_resid u - d =? 0) /\ uio_resid u' = uio_resid u - d.
Proof.
  intros Hc Hu d. assert (Hs : set_count (sems_count sem) sem = sem) by (by destruct sem). unfold semfs_read_section, d. destruct (Z.ltb_spec 0 (uio_resid u)) as [H|H].
  - destruct (Z.ltb_spec 0 (sems_count sem)) as [H1|H1].
    + destruct (Z.ltb_spec (sems_count sem) (uio_resid u)); [rewrite Z.min_l by lia|rewrite Z.min_r by lia]; eexists; split; reflexivity.
    + rewrite Z.min_l by lia. replace (sems_count sem) with 0 in * by lia. exists u. rewrite !Z.sub_0_r, Hs. done.
  - rewrite Z.min_r by lia. replace (uio_resid u) with 0 by lia. exists u. rewrite !Z.sub_0_r, Hs. split; [done|lia].
Qed.

(** Writing: too much is refused; the count grows by what is written, threads leave the front
    of the queue, and when there was nothing to take and someone waits, one leaves at least. *)
Lemma write_section_eq sem u : 0 <= sems_count sem < 2 ^ 32 -> 0 <= uio_resid u < 2 ^ 32 -> exists r sem' u' woken, semfs_write_section sem u = (r, sem', u', woken) /\
  (sem' = sem /\ u' = u /\ (2 ^ 32 <= sems_count sem + uio_resid u \/ uio_resid u = 0) \/
   exists cv, sem' = mkSem (sems_count sem + uio_resid u) (sems_hasvnode sem) (sems_linked sem) cv /\ sems_count sem + uio_resid u < 2 ^ 32 /\ 0 < uio_resid u /\ uio_resid u' = 0 /\
     cv `suffix_of` sems_cv sem /\ (sems_count sem = 0 -> sems_cv sem = [] \/ (length cv < length (sems_cv sem))%nat)).
Proof.
  intros Hc Hu. unfold semfs_write_section. destruct (Z.ltb_spec 0 (uio_resid u)) as [Hr|Hr]; [|eexists _, _, _, _; split; [done|]; left; split_and!; [done|done|lia]].
  destruct (Z.le_gt_cases (2 ^ 32) (sems_count sem + uio_resid u)) as [Ho|Ho].
  - replace (u32 (sems_count sem + uio_resid u)) with (sems_count sem + uio_resid u - 2 ^ 32); [|unfold u32; apply (Z.mod_unique _ _ 1); lia].
    rewrite (proj2 (Z.ltb_lt _ _)) by lia. eexists _, _, _, _. split; [done|]. left. auto.
  - rewrite u32_small by (unfold is_u32; lia). rewrite (proj2 (Z.ltb_ge _ _)) by lia.
    destruct (wakeup_cases sem (sems_count sem + uio_resid u)) as (cv & E & Hs & Hl). destruct (semfs_wakeup _ _) as [sem' woken]. cbn in E. subst sem'.
    eexists _, _, _, _. split; [done|]. right. exists cv. split_and!; try done. intros H0. apply Hl; lia.
Qed.

Lemma suffix_elem {A} (l k : list A) x : l `suffix_of` k -> x ∈ l -> x ∈ k.
Proof. intros [z ->] H. apply elem_of_app. by right. Qed.
Lemma suffix_nodup {A} (l k : list A) : l `suffix_of` k -> NoDup k -> NoDup l.
Proof. intros [z ->] H. by apply NoDup_app in H as (_ & _ & ?). Qed.

Lemma step_inv e y y' : inv y -> fits e -> step e y = Some y' -> inv y'.
Proof.
  intros [I1 I2 I3 I4 I5] Hf. destruct e as [t u|t|u|n]; cbn [step fits] in *.
  - destruct (sy_readers y !! t) eqn:Et; [done|]. intros [= <-]. split; cbn; try done.
    + intros t' Ht'. destruct (I4 t' Ht') as (u' & Hu' & Hp). exists u'. split; [|done]. rewrite lookup_insert_ne; [done|]. congruence.
    + intros t' u'. rewrite lookup_insert_Some. intros [[_ <-]|[_ ?]]; [done|by eapply I5].
  - destruct (sy_readers y !! t) as [u|] eqn:Et; [|done]. cbn. case_bool_decide as Hin; [done|]. pose proof (I5 _ _ Et) as Hu.
    destruct (read_section_eq (sy_sem y) u ltac:(lia) ltac:(lia)) as (u' & -> & Hu'). intros [= <-]. destruct (Z.eqb_spec (uio_resid u - Z.min (sems_count (sy_sem y)) (uio_resid u)) 0) as [Hz|Hz].
    + split; cbn; try done; [lia|lia| |].
      * intros t' Ht'. destruct (I4 t' Ht') as (v & Hv & Hp). exists v. split; [|done]. rewrite lookup_delete_ne; [done|congruence].
      * intros t' v. rewrite lookup_delete_Some. intros [_ ?]. by eapply I5.
    + split; cbn; [lia|lia| | |].
      * apply NoDup_app. split_and!; [done| |apply NoDup_singleton]. intros x Hx ->%list_elem_of_singleton. done.
      * intros t' Ht'. apply elem_of_app in Ht' as [Ht'| ->%list_elem_of_singleton]; [|exists u'; split; [apply lookup_insert_eq|lia]].
        destruct (I4 t' Ht') as (v & Hv & Hp). exists v. split; [|done]. rewrite lookup_insert_ne; [done|congruence].
      * intros t' v. rewrite lookup_insert_Some. intros [[_ <-]|[_ ?]]; [lia|by eapply I5].
  - destruct (write_section_eq (sy_sem y) u I1 Hf) as (r & sem' & u' & w & -> & H). intros [= <-].
    destruct H as [(-> & -> & _)|(cv & -> & Hlt & Hp & Hu' & Hs & _)]; split; cbn; try done; [lia|lia|lia|by eapply suffix_nodup|]. intros t Ht. by apply I4, (suffix_elem cv).
  - unfold semfs_truncate_section. destruct (wakeup_cases (sy_sem y) n) as (cv & E & Hs & _). destruct (semfs_wakeup _ _) as [sem' w]. cbn in E. subst sem'. intros [= <-].
    split; cbn; try done; [lia|by eapply suffix_nodup|]. intros t Ht. by apply I4, (suffix_elem cv).
Qed.

(** C31: however readers, writers and truncations interleave at a semaphore, its count and what
    has been taken add up to what has been given, the count stays within 32 bits, and a thread
    that sleeps is a reader that still wants something and is queued once. *)
Theorem semfs_conserves l y : Forall fits l -> steps l new_sys = Some y -> inv y.
Proof.
  assert (H0 : inv new_sys). { split; cbn; try done; [constructor|]. intros t Ht. by apply not_elem_of_nil in Ht. }
  revert H0. generalize new_sys. induction l as [|e l IH]; intros y0 H0 Hf E; [by injection E as <-|]. apply Forall_cons in Hf as [He Hf]. cbn in E.
  destruct (step e y0) as [y1|] eqn:E1; [|done]. eapply IH; [|done|exact E]. by eapply step_inv.
Qed.

(** ** A reader that is alone *)

Record alone (t : nat) (y : sys) : Prop := {
  al_inv : inv y;
  al_only : forall t', is_Some (sy_readers y !! t') -> t' = t;
  al_empty : t ∈ sems_cv (sy_sem y) -> sems_count (sy_sem y) = 0 }.

Definition starts_only (t : nat) (e : event) : Prop := match e with Start t' _ => t' = t | _ => True end.

Lemma alone_queue t y : alone t y -> sems_cv (sy_sem y) = [] \/ sems_cv (sy_sem y) = [t] /\ sems_count (sy_sem y) = 0.
Proof.
  intros [I Ho He]. assert (Hall : forall t', t' ∈ sems_cv (sy_sem y) -> t' = t) by (intros t' Ht'; apply Ho; destruct (iv_asleep _ I _ Ht') as (u & ? & _); eauto).
  destruct (sems_cv (sy_sem y)) as [|a [|b l]] eqn:E; [by left|right|].
  - assert (a = t) as -> by (apply Hall; by left). split; [done|]. apply He. by left.
  - exfalso. pose proof (iv_nodup _ I) as Hn. rewrite E in Hn. apply NoDup_cons in Hn as [Hn _]. apply Hn. rewrite (Hall a) by (by left). rewrite (Hall b) by (right; by left). by left.
Qed.

(** What is given wakes the reader. *)
Lemma alone_woken t y cv : alone t y -> cv `suffix_of` sems_cv (sy_sem y) -> (sems_count (sy_sem y) = 0 -> sems_cv (sy_sem y) = [] \/ (length cv < length (sems_cv (sy_sem y)))%nat) -> cv = [].
Proof.
  intros Ha Hs Hl. destruct (alone_queue _ _ Ha) as [E|[E E0]]; rewrite E in *; [by apply suffix_nil_inv in Hs|]. destruct (Hl E0) as [?|H]; [done|]. cbn in H. destruct cv; [done|cbn in H; lia].
Qed.

Lemma step_alone t e y y' : alone t y -> fits e -> starts_only t e -> step e y = Some y' -> alone t y'.
Proof.
  intros Ha Hf Hs E. pose proof (step_inv _ _ _ (al_inv _ _ Ha) Hf E) as I'. split; [done|..]; destruct e as [t' u|t'|u|n]; cbn [step fits starts_only] in *; subst.
  - destruct (sy_readers y !! t); [done|]. injection E as <-. cbn. intros t' [x [[-> _]|[_ Hx]]%lookup_insert_Some]; [done|]. apply (al_only _ _ Ha). eauto.
  - destruct (sy_readers y !! t') as [u|] eqn:Et; [|done]. cbn in E. case_bool_decide; [done|]. destruct (semfs_read_section _ _) as [[sem u'] []]; injection E as <-; cbn.
    + intros t2 [x [_ Hx]%lookup_delete_Some]. apply (al_only _ _ Ha). eauto.
    + intros t2 [x [[-> _]|[_ Hx]]%lookup_insert_Some]; apply (al_only _ _ Ha); eauto.
  - destruct (semfs_write_section _ _) as [[[? ?] ?] ?]. injection E as <-. apply (al_only _ _ Ha).
  - destruct (semfs_truncate_section _ _) as [? ?]. injection E as <-. apply (al_only _ _ Ha).
  - destruct (sy_readers y !! t); [done|]. injection E as <-. apply (al_empty _ _ Ha).
  - destruct (sy_readers y !! t') as [u|] eqn:Et; [|done]. cbn in E. case_bool_decide as Hin; [done|]. pose proof (iv_readers _ (al_inv _ _ Ha) _ _ Et) as Hu. pose proof (iv_count _ (al_inv _ _ Ha)) as Hc.
    assert (t' = t) as -> by (apply (al_only _ _ Ha); eauto).
    destruct (read_section_eq (sy_sem y) u ltac:(lia) ltac:(lia)) as (u' & E' & Hu'). rewrite E' in E. destruct (Z.eqb_spec (uio_resid u - Z.min (sems_count (sy_sem y)) (uio_resid u)) 0); injection E as <-; cbn; [done|lia].
  - destruct (write_section_eq (sy_sem y) u (iv_count _ (al_inv _ _ Ha)) Hf) as (r & sem' & u' & w & E' & H). rewrite E' in E. injection E as <-.
    destruct H as [(-> & _)|(cv & -> & _ & _ & _ & Hcv & Hl)]; [apply Ha|]. cbn. rewrite (alone_woken t y cv) by done. by intros ?%not_elem_of_nil.
  - unfold semfs_truncate_section in E. destruct (wakeup_cases (sy_sem y) n) as (cv & E' & Hcv & Hl). destruct (semfs_wakeup _ _) as [sem' w]. cbn in E'. subst sem'. injection E as <-. cbn.
    destruct (decide (n = 0)) as [->|]; [done|]. rewrite (alone_woken t y cv); [by intros ?%not_elem_of_nil|done|done|]. intros H0. apply Hl; lia.
Qed.

Lemma steps_alone t l y y' : alone t y -> Forall fits l -> Forall (starts_only t) l -> steps l y = Some y' -> alone t y'.
Proof.
  revert y. induction l as [|e l IH]; intros y Ha Hf Hs E; [by injection E as <-|]. apply Forall_cons in Hf as [Hf1 Hf], Hs as [Hs1 Hs]. cbn in E.
  destruct (step e y) as [y1|] eqn:E1; [|done]. eapply IH; [|done|done|exact E]. by eapply step_alone.
Qed.

Lemma alone_new t : alone t new_sys.
Proof. split; [split; cbn; try done; [constructor|intros t' Ht'; by apply not_elem_of_nil in Ht']|intros t' [x Hx]; done|intros H; by apply not_elem_of_nil in H]. Qed.

(** Writers come one after the other, and the reader takes a turn after each. *)
Definition serve (t : nat) (gs : list uio) : list event := flat_map (fun g => [Give g; Turn t]) gs.
Definition total (gs : list uio) : Z := foldr (fun g n => uio_resid g + n) 0 gs.

Lemma total_nonneg gs : Forall (fun g => 0 < uio_resid g < 2 ^ 32) gs -> 0 <= total gs.
Proof. induction 1 as [|g gs Hg Hgs IH]; cbn; [done|]. unfold total in *. lia. Qed.

Lemma served t gs : forall y u, alone t y -> t ∈ sems_cv (sy_sem y) -> sy_readers y !! t = Some u -> Forall (fun g => 0 < uio_resid g < 2 ^ 32) gs -> total gs = uio_resid u ->
  exists y', steps (serve t gs) y = Some y' /\ sy_readers y' !! t = None /\ sems_count (sy_sem y') = 0.
Proof.
  induction gs as [|g gs IH]; intros y u Ha Hin Hu Hg Ht.
  { exfalso. destruct (iv_asleep _ (al_inv _ _ Ha) _ Hin) as (v & Hv & Hp). cbn in Ht. rewrite Hu in Hv. injection Hv as <-. lia. }
  apply Forall_cons in Hg as [Hg1 Hg]. pose proof (total_nonneg gs Hg) as Hrest.
  cbn [total foldr] in Ht. fold (total gs) in Ht. pose proof (al_empty _ _ Ha Hin) as H0. pose proof (iv_readers _ (al_inv _ _ Ha) _ _ Hu) as Hub.
  destruct (write_section_eq (sy_sem y) g (iv_count _ (al_inv _ _ Ha)) ltac:(lia)) as (r & sem' & g' & w & E & H). destruct H as [(_ & _ & [?|?])|(cv & -> & _ & _ & _ & Hcv & Hl)]; [lia|lia|].
  pose proof (alone_woken t y cv Ha Hcv Hl) as ->. rewrite H0, Z.add_0_l in E. set (y1 := mkSys (mkSem (uio_resid g) (sems_hasvnode (sy_sem y)) (sems_linked (sy_sem y)) []) (sy_readers y) (sy_taken y) (sy_given y + (uio_resid g - uio_resid g'))).
  assert (E1 : step (Give g) y = Some y1) by (cbn [step]; by rewrite E). assert (Ha1 : alone t y1) by (eapply (step_alone t (Give g)); [exact Ha|cbn; lia|done|exact E1]).
  destruct (read_section_eq (sy_sem y1) u ltac:(cbn; lia) ltac:(lia)) as (u' & E2 & Hu'). cbn [sems_count sy_sem y1] in E2, Hu'. rewrite Z.min_l in E2, Hu' by lia.
  assert (E3 : exists y2, step (Turn t) y1 = Some y2 /\ sems_count (sy_sem y2) = 0 /\ if decide (total gs = 0) then sy_readers y2 !! t = None else t ∈ sems_cv (sy_sem y2) /\ sy_readers y2 !! t = Some u').
  { eexists. split; [cbn [step sy_readers y1]; rewrite Hu; cbn; unfold y1 in E2; cbn in E2; rewrite E2; reflexivity|]. replace (uio_resid u - uio_resid g) with (total gs) by lia.
    case_decide as Hd; [rewrite Hd|rewrite (proj2 (Z.eqb_neq _ _) Hd)]; cbn; rewrite Z.sub_diag; (split; [done|]); [apply lookup_delete_eq|]. split; [by left|apply lookup_insert_eq]. }
  destruct E3 as (y2 & E3 & Hc2 & Hy2). change (serve t (g :: gs)) with (Give g :: Turn t :: serve t gs). rewrite (steps_cons _ _ _ _ E1), (steps_cons _ _ _ _ E3).
  destruct gs as [|g2 gs]; [exists y2; auto|]. case_decide as Hd.
  { exfalso. apply Forall_cons in Hg as [Hg2 Hg]. pose proof (total_nonneg gs Hg). cbn in Hd. unfold total in *. lia. }
  destruct Hy2 as [Hin2 Hr2]. destruct (IH y2 u') as (y' & E' & Hy'); [eapply (step_alone t (Turn t)); [exact Ha1|done|done|exact E3]|done|done|done|lia|].
  by exists y'.
Qed.

(** C32: a reader that is the only one sleeps only while the count is 0; and asleep and wanting
    [n], it is woken by every write and returns after writes of [n] in all. *)
Theorem semfs_single_reader t l y u gs : Forall fits l -> Forall (starts_only t) l -> steps l new_sys = Some y -> t ∈ sems_cv (sy_sem y) -> sy_readers y !! t = Some u ->
  Forall (fun g => 0 < uio_resid g < 2 ^ 32) gs -> total gs = uio_resid u ->
  sems_count (sy_sem y) = 0 /\ exists y', steps (serve t gs) y = Some y' /\ sy_readers y' !! t = None /\ sems_count (sy_sem y') = 0.
Proof.
  intros Hf Hs E Hin Hu Hg Ht. pose proof (steps_alone t l _ _ (alone_new t) Hf Hs E) as Ha. split; [by apply Ha|]. by eapply served.
Qed.

(** ** Two readers *)

(** A request for [n]. *)
Definition wants (n : Z) : uio := mkUio [] 0 n UIO_SYSSPACE UIO_READ 0 (mkSpace (fun _ => 0) (fun _ => false)).

(** two readers of 1 sleep, and two writers write 1 each: the first write signals one
    reader, the second finds the count above 0 and signals nobody.  The reader that was woken
    takes 1 and returns; the other sleeps on beside a count of 1, and no thread is left that
    would wake it. *)
Theorem semfs_lost_wakeup : exists l y, Forall fits l /\ steps l new_sys = Some y /\
  sems_count (sy_sem y) = 1 /\ sems_cv (sy_sem y) = [2%nat] /\ (uio_resid <$> sy_readers y !! 2%nat) = Some 1 /\ (forall t, is_Some (sy_readers y !! t) -> t = 2%nat).
Proof.
  exists [Start 1 (wants 1); Turn 1; Start 2 (wants 1); Turn 2; Give (wants 1); Give (wants 1); Turn 1], (mkSys (mkSem 1 true true [2%nat]) {[ 2%nat := wants 1 ]} 1 2).
  split; [repeat constructor; cbn; lia|]. split; [vm_compute; reflexivity|]. split_and!; try done. intros t. cbn. rewrite lookup_singleton_is_Some. done.
Qed.

(** ** On concrete sequences *)

Lemma semfs_conserves_witness : let l := [Start 1 (wants 3); Turn 1; Give (wants 2); Turn 1; Give (wants 2); Turn 1; Truncate 7] in
  let y := mkSys (mkSem 7 true true []) ∅ 3 10 in steps l new_sys = Some y /\ inv y.
Proof. intros l y. assert (E : steps l new_sys = Some y) by (vm_compute; reflexivity). split; [exact E|]. apply (semfs_conserves l); [|exact E]. repeat constructor; cbn; lia. Defined.

Lemma semfs_single_reader_witness : let l := [Start 1 (wants 3); Turn 1] in let y := mkSys (mkSem 0 true true [1%nat]) {[ 1%nat := wants 3 ]} 0 0 in
  steps l new_sys = Some y /\ exists y', steps (serve 1 [wants 1; wants 2]) y = Some y' /\ sy_readers y' !! 1%nat = None.
Proof.
  intros l y. assert (E : steps l new_sys = Some y) by (vm_compute; reflexivity). split; [exact E|].
  destruct (semfs_single_reader 1 l y (wants 3) [wants 1; wants 2]) as [_ (y' & E' & H & _)]; [repeat constructor; cbn; lia|repeat constructor|exact E|by left|done|repeat constructor; cbn; lia|done|].
  by exists y'.
Defined.

End SemfsThreads.
