(* ===== verification/SfsVfs.v ===== *)
(** * SFS under the VFS layer

    The tables [sfs_fileops] and [sfs_dirops] of sfs_vnops.c, [sfs_fsops] of sfs_fsops.c
    and [lhd_devops] of lhd.c, as instances of the interface of [Vnode]; and that SFS keeps
    the promises of [FileSystemLaws]: a vnode's reference count is the number of
    references to it that the VFS layer and its users hold, or one more when the file could
    not be freed and the vnode stays. *)
From S2P Require Import Prelude Wp Bitmap Copyinout Uio Lhd Sfs SfsFormat SfsProofs SfsIo.
From S2P Require Import SfsTrunc SfsDir SfsVnops SfsVolume SfsObjects SfsRefs SfsTree.
From S2P Require Import SfsTreeTheorems SfsFsops Vnode Vfs VfsProofs.
Import Bitmap Copyinout Uio Lhd Sfs SfsFormat SfsProofs SfsIo SfsTrunc SfsDir SfsVnops SfsVolume SfsObjects SfsRefs SfsTree.
Import SfsTreeTheorems SfsFsops Vnode Vfs VfsProofs.

Module SfsVfs.

Section Tables.
Context {HW : LhdHardware} (curas : Z) {SM : SfsMemory}.

Definition sfs_eachopen (sv openflags : Z) : Z := 0.

Definition sfs_namefile (sv : Z) (u : uio) : M sfs_fs (Z * uio) :=
  v ← get_sv sv;
  kassert "sv->sv_ino == SFS_ROOTDIR_INO" (sv_ino v =? SFS_ROOTDIR_INO);;
  mret (0, u).

Definition sfs_fileops : vnode_ops sfs_fs :=
  mkOps (fun sv flags => mret (sfs_eachopen sv flags)) (sfs_read curas) vopfail_uio_notdir (sfs_write curas) sfs_gettype (sfs_fsync curas) (sfs_truncate curas) vopfail_uio_notdir
    vopfail_creat_notdir vopfail_symlink_notdir vopfail_mkdir_notdir vopfail_link_notdir vopfail_string_notdir vopfail_string_notdir
    vopfail_rename_notdir vopfail_lookup_notdir vopfail_lookparent_notdir.

Definition sfs_dirops : vnode_ops sfs_fs :=
  mkOps (fun _ flags => mret (sfs_eachopendir flags)) vopfail_uio_isdir vopfail_uio_inval vopfail_uio_isdir sfs_gettype (sfs_fsync curas) vopfail_truncate_isdir sfs_namefile
    (sfs_creat curas) vopfail_symlink_nosys vopfail_mkdir_nosys (sfs_link curas) (sfs_remove curas) vopfail_string_nosys
    (sfs_rename curas) (sfs_lookup curas) sfs_lookparent.

(** The table [sfs_loadvnode] gives a vnode, by the type of its inode. *)
Definition sfs_ops (s : sfs_fs) (sv : Z) : option (vnode_ops sfs_fs) :=
  v ← svs s !! sv;
  if sfi_type (sv_i v) =? SFS_TYPE_FILE then Some sfs_fileops
  else if sfi_type (sv_i v) =? SFS_TYPE_DIR then Some sfs_dirops
  else None.

Definition sfs_getvolname (s : sfs_fs) : option (list Z) := Some (c_string (sb_volname (sfs_sb s))).

#[global] Instance sfs_fsops : FileSystem sfs_fs lhd := {|
  vn_ops := sfs_ops; fs_incref := vnode_incref; fs_decref := vnode_decref curas; FSOP_SYNC := sfs_sync curas; FSOP_GETVOLNAME := sfs_getvolname;
  FSOP_GETROOT := sfs_getroot curas; FSOP_UNMOUNT := sfs_unmount; fs_device := fun s => Some (sfs_device s); set_fs_device := set_device
|}.

Definition lhd_eachopen (d : lhd) (openflags : Z) : Z := 0.
#[global] Instance lhd_devops : DeviceOps lhd := {| DEVOP_EACHOPEN := lhd_eachopen; DEVOP_IO := lhd_io curas |}.

End Tables.

(** ** References *)

Definition kcount (sh : gmap Z (Z * Z)) (a : Z) : Z := default 0 (snd <$> sh !! a).

(** The counts of the vnodes are those of the references; a vnode known to be a directory
    is the root's. *)
Definition agree (sh : gmap Z (Z * Z)) (H : refs) : Prop :=
  (forall a, held a H <= kcount sh a <= held a H + 1) /\ forall a, (a, true) ∈ H -> fst <$> sh !! a = Some SFS_ROOTDIR_INO.

Definition sfs_ok `{LhdHardware} (s : sfs_fs) (H : refs) : Prop := (exists R F m, fsys R s F m) /\ agree (shape s) H.
Definition sfs_synced (s : sfs_fs) : Prop := sfs_superdirty s = false /\ sfs_freemapdirty s = false.

#[global] Instance agree_perm sh : Proper ((≡ₚ) ==> iff) (agree sh).
Proof.
  assert (Hone : forall H H', H ≡ₚ H' -> agree sh H -> agree sh H').
  { intros H H' HP [A B]. split; [intros a; specialize (A a); unfold held in *; by rewrite <- HP|]. intros a Ha. apply B. by rewrite HP. }
  intros H H' HP. split; [by apply Hone|]. apply Hone. by symmetry.
Qed.

Lemma agree_in sh H a b : agree sh H -> (a, b) ∈ H -> exists ino c, sh !! a = Some (ino, c).
Proof.
  intros [A _] Hin. specialize (A a). pose proof (held_in a b H Hin). unfold kcount in A. destruct (sh !! a) as [[ino c]|]; [eauto|cbn in A; lia].
Qed.

Lemma agree_taken s s' H a b ino : agree (shape s) H -> taken a ino s s' -> (b = true -> ino = SFS_ROOTDIR_INO) -> agree (shape s') ((a, b) :: H).
Proof.
  intros [A B] [Hs Hino] Hb. rewrite Hs. split.
  - intros x. rewrite held_cons. specialize (A x). unfold kcount, refcount in *. destruct (decide (a = x)) as [->|Hne]; [rewrite lookup_insert_eq; cbn|rewrite lookup_insert_ne by done]; lia.
  - intros x Hx. assert (Hcase : x = a /\ ino = SFS_ROOTDIR_INO \/ x <> a /\ (x, true) ∈ H).
    { apply elem_of_cons in Hx as [[= -> <-]|Hx]; [left; auto|]. destruct (decide (x = a)) as [->|]; [left|by right]. split; [done|].
      specialize (B a Hx). destruct (shape s !! a) as [p|]; [|done]. injection B as <-. symmetry. by apply Hino. }
    destruct Hcase as [[-> ->]|[Hne Hx']]; [by rewrite lookup_insert_eq|rewrite lookup_insert_ne by done; by apply B].
Qed.

Lemma agree_dropped s s' H a b : agree (shape s) ((a, b) :: H) -> dropped a s s' -> agree (shape s') H.
Proof.
  intros [A B] (ino & c & Ha & Hd). pose proof (A a) as Aa. rewrite held_cons, decide_True in Aa by done. unfold kcount in Aa. rewrite Ha in Aa. cbn in Aa.
  assert (Hrest : forall x, x <> a -> held x H <= kcount (shape s) x <= held x H + 1) by (intros x Hx; specialize (A x); rewrite held_cons, decide_False in A by done; lia).
  assert (HB : forall x, (x, true) ∈ H -> fst <$> shape s !! x = Some SFS_ROOTDIR_INO) by (intros x Hx; apply B; by right).
  destruct Hd as [[Hc Hs]|[-> [Hs|Hs]]]; rewrite Hs; (split; [intros x; destruct (decide (x = a)) as [->|Hne]|]).
  - unfold kcount. rewrite lookup_insert_eq. cbn. lia.
  - unfold kcount. rewrite lookup_insert_ne by done. by apply Hrest.
  - intros x Hx. destruct (decide (x = a)) as [->|]; [rewrite lookup_insert_eq|rewrite lookup_insert_ne by done]; [|by apply HB]. specialize (HB a Hx). by rewrite Ha in HB.
  - unfold kcount. rewrite lookup_delete_eq. cbn. pose proof (held_nonneg a H). lia.
  - unfold kcount. rewrite lookup_delete_ne by done. by apply Hrest.
  - intros x Hx. rewrite lookup_delete_ne; [by apply HB|]. intros <-. pose proof (held_in _ _ _ Hx). lia.
  - unfold kcount. rewrite Ha. cbn. pose proof (held_nonneg a H). lia.
  - by apply Hrest.
  - exact HB.
Qed.

Lemma agree_balanced s s' H : agree (shape s) H -> balanced s s' -> agree (shape s') H.
Proof.
  intros [A B] [->|(a & ino & Ha & Hs)]; [done|]. rewrite Hs. split.
  - intros x. specialize (A x). unfold kcount in *. destruct (decide (x = a)) as [->|]; [rewrite lookup_insert_eq|by rewrite lookup_insert_ne]. rewrite Ha in A. cbn in *. pose proof (held_nonneg a H). lia.
  - intros x Hx. rewrite lookup_insert_ne; [by apply B|]. intros <-. specialize (B a Hx). by rewrite Ha in B.
Qed.

(** ** The promises *)

Section Laws.
Context {HW : LhdHardware} (curas : Z) {HL : LhdLaws} {SM : SfsMemory} {SML : SfsMemoryLaws}.

#[local] Hint Extern 0 (FileSystem sfs_fs _) => exact (sfs_fsops curas) : typeclass_instances.

Lemma sfs_ok_vnode s H a b : sfs_ok s H -> (a, b) ∈ H -> exists v, svs s !! a = Some v.
Proof.
  intros [_ Ha] Hin. destruct (agree_in _ _ _ _ Ha Hin) as (ino & c & Hs). unfold shape in Hs. apply lookup_fmap_Some in Hs as (v & _ & Hv). eauto.
Qed.

(** A directory's vnode is the root's. *)
Lemma dir_is_root R s F m a v : fsys R s F m -> svs s !! a = Some v -> sfi_type (sv_i v) = SFS_TYPE_DIR -> root_at s a v.
Proof.
  intros Hf Hv Hty. split; [done|]. destruct (decide (sv_ino v = SFS_ROOTDIR_INO)) as [|Hne]; [done|]. pose proof (changed_self R a s v F (fy_vol _ _ _ _ Hf) Hv) as Hself.
  destruct (fy_file _ _ _ _ Hf _ _ Hself Hne) as [E _]. by rewrite E in Hty.
Qed.

Lemma vnode_type R s F m a v : fsys R s F m -> svs s !! a = Some v -> sfi_type (sv_i v) = SFS_TYPE_FILE \/ sfi_type (sv_i v) = SFS_TYPE_DIR.
Proof.
  intros Hf Hv. pose proof (changed_self R a s v F (fy_vol _ _ _ _ Hf) Hv) as Hself. destruct (decide (sv_ino v = SFS_ROOTDIR_INO)) as [E|Hne].
  - right. destruct (fy_root _ _ _ _ Hf) as (i & Hi & [Hty _] & _). rewrite E, Hi in Hself. by injection Hself as <-.
  - left. by destruct (fy_file _ _ _ _ Hf _ _ Hself Hne).
Qed.

(** One reference more to a vnode, which is the root's if the holder knows it to be a directory. *)
Lemma incref_agree s H a b v : sfs_ok s H -> svs s !! a = Some v -> (b = true -> sv_ino v = SFS_ROOTDIR_INO) -> wp never (vnode_incref a) s (fun _ s' => sfs_ok s' ((a, b) :: H)).
Proof.
  intros [(R & F & m & Hf) Ha] Hv Hb. assert (He : vnode_incref a s = Done tt (set_svs (<[a := set_refcount (vn_refcount v + 1) v]> (svs s)) s)).
  { unfold vnode_incref. mrun (get_sv_spec s a v Hv). apply (update_sv_spec s a v _ Hv). }
  apply (wp_done _ _ _ _ _ _ He). apply incref_shape in He as (ino & Ht & _). split.
  - exists R, F, m. pose proof (fy_vol _ _ _ _ Hf) as HV. destruct (ca_vnode _ _ (proj2 HV) a v Hv) as (_ & Hrc & _). apply (fsys_frame R s); [done|apply vol_refcount; [done|done|lia]|by apply bytes_kept_block|].
    intros x w Hx. destruct (decide (x = a)) as [->|Hne]; [|exists x, w; cbn; by rewrite lookup_insert_ne]. eexists a, _. split; [apply lookup_insert_eq|]. by simplify_eq.
  - eapply agree_taken; [exact Ha|exact Ht|]. intros Hbt. destruct Ht as [_ Hi]. specialize (Hi (vnode_key v)). unfold shape in Hi. rewrite lookup_fmap, Hv in Hi. rewrite <- (Hi eq_refl). by apply Hb.
Qed.

Lemma incref_law s a b H : sfs_ok s ((a, b) :: H) -> wp never (vnode_incref a) s (fun _ s' => sfs_ok s' ((a, b) :: (a, b) :: H)).
Proof.
  intros Hok. destruct (sfs_ok_vnode s _ a b Hok) as [v Hv]; [left|]. apply (incref_agree s _ a b v Hok Hv). intros ->. destruct Hok as [_ [_ B]].
  specialize (B a ltac:(left)). unfold shape in B. rewrite lookup_fmap, Hv in B. by injection B as <-.
Qed.

Lemma decref_law s a b H : sfs_ok s ((a, b) :: H) -> wp never (vnode_decref curas a) s (fun _ s' => sfs_ok s' H).
Proof.
  intros Hok. destruct (sfs_ok_vnode s _ a b Hok) as [v Hv]; [left|]. destruct Hok as [(R & F & m & Hf) Ha].
  destruct (decref_fsys curas R s F m a v Hf Hv) as (s' & F' & He & Hf' & _). apply (wp_done _ _ _ _ _ _ He). split; [eauto|]. eapply agree_dropped; [exact Ha|].
  exact (decref_shape curas a s s' He).
Qed.

Lemma getroot_law s H : sfs_ok s H -> wp never (sfs_getroot curas) s (fun '(r, a) s' => handed sfs_ok H r a false s').
Proof.
  intros [(R & F & m & Hf) Ha]. destruct (fy_root _ _ _ _ Hf) as (i & Hi & [Hty Hd] & _).
  destruct (loadvnode_spec curas R s F SFS_ROOTDIR_INO i (fy_vol _ _ _ _ Hf) Hi ltac:(by right)) as (r & sv & s' & He & HV & Hb & _ & Hr).
  pose proof He as Hsh. apply (loadvnode_shape curas SFS_ROOTDIR_INO SFS_TYPE_INVAL) in Hsh.
  assert (Hf' : fsys R s' F m).
  { apply (fsys_frame R s); [done|done|by apply bytes_kept_block|]. intros x w Hx. destruct Hr as [[-> Ho]|[_ Hs]]; [|exists x, w; by rewrite Hs].
    eapply (opened_stays SFS_ROOTDIR_INO i sv); [exact Ho|done]. }
  unfold sfs_getroot. wgo. apply (wp_done _ _ _ _ _ _ He). cbv iota. destruct Hr as [[-> Ho]|[Hr Hs]].
  - change (negb (0 =? 0)) with false. cbv iota. destruct (opened_at SFS_ROOTDIR_INO i sv s s' Ho) as (v & Hv & _ & Hvi & _). wgo. apply (wp_done _ _ _ _ _ _ (get_sv_spec s' sv v Hv)).
    rewrite Hvi, Hty. change (negb (SFS_TYPE_DIR =? SFS_TYPE_DIR)) with false. cbv iota. wgo. left. split; [done|]. split; [eauto|].
    destruct Hsh as [[_ Ht]|[? _]]; [|done]. by eapply agree_taken.
  - assert (r <> 0) by (by destruct Hr as [-> | ->]). destruct (Z.eqb_spec r 0); [done|]. cbn [negb]. wgo. right. split; [done|]. split; [eauto|]. unfold shape. by rewrite Hs.
Qed.

(** A computation that gives and takes no reference. *)
Lemma settled s H {A} (m : M sfs_fs A) E : sfs_ok s H -> (forall R F mm, fsys R s F mm -> (exists r, m s = Halt r /\ E r) \/ exists r s' F' m', m s = Done r s' /\ fsys R s' F' m' /\ balanced s s') ->
  wp E m s (fun _ s' => sfs_ok s' H).
Proof.
  intros [(R & F & mm & Hf) Ha] Hm. destruct (Hm R F mm Hf) as [(r & He & HE)|(r & s' & F' & m' & He & Hf' & Hb)]; [unfold wp; by rewrite He|].
  apply (wp_done _ _ _ _ _ _ He). split; [eauto|]. by eapply agree_balanced.
Qed.

Lemma gettype_law s H a b : sfs_ok s H -> (a, b) ∈ H -> wp never (sfs_gettype a) s (fun _ s' => sfs_ok s' H).
Proof.
  intros Hok Hin. destruct (sfs_ok_vnode s _ a b Hok Hin) as [v Hv]. unfold sfs_gettype. wgo. apply (wp_done _ _ _ _ _ _ (get_sv_spec s a v Hv)).
  pose proof Hok as [(R & F & m & Hf) _]. destruct (vnode_type R s F m a v Hf Hv) as [-> | ->]; wgo; exact Hok.
Qed.

Lemma fileops_law s H a b v : sfs_ok s H -> (a, b) ∈ H -> svs s !! a = Some v -> sfi_type (sv_i v) = SFS_TYPE_FILE -> ops_ok sfs_ok (sfs_fileops curas) a s H.
Proof.
  intros Hok Hin Hv Hty. assert (Hsame : forall r a' dir, r <> 0 -> handed sfs_ok H r a' dir s) by (intros; by right).
  split; intros; try (wgo; exact Hok); try (wgo; by apply Hsame).
  - apply settled; [exact Hok|]. intros R F m Hf. right.
    assert (Hne : sv_ino v <> SFS_ROOTDIR_INO). { intros E. destruct (fsys_dir R s F m a v Hf (conj Hv E)) as (_ & _ & (_ & _ & _ & [Hd _] & _)). by rewrite Hd in Hty. }
    destruct (write_truncate_spec curas R s F m a v Hf Hv Hne) as [_ Ht]. destruct (Ht 0) as (r & s' & v' & He & _ & Hf' & _); [vm_compute; split; congruence|].
    exists r, s', (<[sv_ino v := sv_i v']> F), m. split_and!; [exact He|exact Hf'|]. left. exact (keeps_use _ _ _ _ (keeps_itrunc curas a 0) He).
  - eapply gettype_law; [exact Hok|exact Hin].
  - wgo. split; [by apply Hsame|constructor].
Qed.

(** The operations of the root directory. *)
Section Dirops.
Context (s : sfs_fs) (H : refs) (a : Z) (b : bool) (v : sfs_vnode) (Hok : sfs_ok s H) (Hin : (a, b) ∈ H) (Hv : svs s !! a = Some v) (Hty : sfi_type (sv_i v) = SFS_TYPE_DIR).

Lemma dir_root R F m : fsys R s F m -> root_at s a v.
Proof. intros Hf. by apply (dir_is_root R s F m). Qed.

Lemma dir_creat name excl : cstr name -> wp never (sfs_creat curas a name excl) s (fun '(r, x) s' => handed sfs_ok H r x false s').
Proof.
  intros Hn. pose proof Hok as [(R & F & m & Hf) Ha]. destruct (creat_spec curas R s F m a v name excl Hf (dir_root R F m Hf) Hn) as (r & sv & s' & F' & m' & He & Hf' & _).
  apply (wp_done _ _ _ _ _ _ He). destruct (creat_shape curas a name excl s r sv s' (fsys_counted _ _ _ _ Hf) He) as [[-> [ino Ht]]|[Hr Hb]]; [left|right]; (split; [done|]; split; [eauto|]).
  - by eapply agree_taken.
  - by eapply agree_balanced.
Qed.

Lemma dir_lookup path : wp never (sfs_lookup curas a path) s (fun '(r, x) s' => handed sfs_ok H r x false s').
Proof.
  pose proof Hok as [(R & F & m & Hf) Ha]. destruct (lookup_spec curas R s F m a v path Hf (dir_root R F m Hf)) as (r & sv & s' & He & Hf' & _).
  apply (wp_done _ _ _ _ _ _ He). destruct (lookup_shape curas a path s r sv s' He) as [[-> [ino Ht]]|[Hr Hb]]; [left|right]; (split; [done|]; split; [eauto|]).
  - by eapply agree_taken.
  - by rewrite Hb.
Qed.

Lemma dir_link name x : cstr name -> x ∈ fst <$> H -> wp never (sfs_link curas a name x) s (fun _ s' => sfs_ok s' H).
Proof.
  intros Hn Hx. apply list_elem_of_fmap in Hx as ([y c] & -> & Hy). destruct (sfs_ok_vnode s _ y c Hok Hy) as [w Hw]. apply settled; [exact Hok|]. intros R F m Hf. right.
  destruct (link_spec curas R s F m a v name y w Hf (dir_root R F m Hf) Hw Hn) as (r & s' & F' & m' & He & Hf' & _). exists r, s', F', m'. split_and!; [done|done|left].
  exact (link_shape curas a name y s r s' He).
Qed.

Lemma dir_remove name : wp never (sfs_remove curas a name) s (fun _ s' => sfs_ok s' H).
Proof.
  apply settled; [exact Hok|]. intros R F m Hf. right. destruct (remove_spec curas R s F m a v name Hf (dir_root R F m Hf)) as (r & s' & F' & m' & He & Hf' & _).
  exists r, s', F', m'. split_and!; [done|done|]. exact (remove_shape curas a name s r s' (fsys_counted _ _ _ _ Hf) He).
Qed.

Lemma dir_rename n1 x n2 : cstr n2 -> (a, true) ∈ H -> (x, true) ∈ H -> wp panics (sfs_rename curas a n1 x n2) s (fun _ s' => sfs_ok s' H).
Proof.
  intros Hn Ha Hx. apply settled; [exact Hok|]. intros R F m Hf. assert (x = a) as ->.
  { destruct Hok as [_ [_ B]]. destruct (sfs_ok_vnode s _ x true Hok Hx) as [w Hw]. specialize (B x Hx). unfold shape in B. rewrite lookup_fmap, Hw in B. injection B as Hino.
    destruct (dir_root R F m Hf) as [_ Hvi]. destruct (fy_vol _ _ _ _ Hf) as [_ HC]. apply (ca_unique _ _ HC x a w v Hw Hv). congruence. }
  destruct (rename_spec curas R s F m a v n1 n2 Hf (dir_root R F m Hf) Hn) as [[He _]|(r & s' & F' & m' & He & Hf' & _)]; [left; by eexists|right].
  exists r, s', F', m'. split_and!; [done|done|]. exact (rename_shape curas a n1 a n2 s r s' (fsys_counted _ _ _ _ Hf) He).
Qed.

Lemma dir_lookparent path len : cstr path -> wp never (sfs_lookparent a path len) s (fun '(r, x, buf) s' => handed sfs_ok H r x true s' /\ cstr buf).
Proof.
  intros Hp. assert (Hsame : forall r x, r <> 0 -> handed sfs_ok H r x true s) by (intros; by right). unfold sfs_lookparent. wgo. apply (wp_done _ _ _ _ _ _ (get_sv_spec s a v Hv)). rewrite Hty.
  change (negb (SFS_TYPE_DIR =? SFS_TYPE_DIR)) with false. cbv iota. destruct (_ <? _); [wgo; split; [by apply Hsame|constructor]|]. wgo.
  eapply wp_use; [apply (incref_agree s H a true v Hok Hv); intros _; pose proof Hok as [(R & F & m & Hf) _]; by destruct (dir_root R F m Hf)|].
  intros [] s' Hs'. wgo. split; [by left|exact Hp].
Qed.

Lemma dirops_law : ops_ok sfs_ok (sfs_dirops curas) a s H.
Proof.
  split; intros; cbn; try (wgo; exact Hok).
  - eapply gettype_law; [exact Hok|exact Hin].
  - by apply dir_creat.
  - by apply dir_remove.
  - by apply dir_link.
  - by apply dir_rename.
  - by apply dir_lookup.
  - by apply dir_lookparent.
Qed.
End Dirops.

Lemma ops_law s a b H : sfs_ok s H -> (a, b) ∈ H -> exists ops, sfs_ops curas s a = Some ops /\ ops_ok sfs_ok ops a s H.
Proof.
  intros Hok Hin. destruct (sfs_ok_vnode s _ a b Hok Hin) as [v Hv]. pose proof Hok as [(R & F & m & Hf) _]. unfold sfs_ops. rewrite Hv. cbn [mbind option_bind].
  destruct (vnode_type R s F m a v Hf Hv) as [E|E]; rewrite E; (eexists; split; [reflexivity|]).
  - by eapply fileops_law.
  - by eapply dirops_law.
Qed.

Lemma sync_law s H : sfs_ok s H -> wp never (sfs_sync curas) s (fun r s' => sfs_ok s' H /\ (r = 0 -> sfs_synced s')).
Proof.
  intros [(R & F & m & Hf) Ha]. destruct (sync_spec curas R s F m Hf) as (s' & He & Hf' & _ & Hs & Hd & _). apply (wp_done _ _ _ _ _ _ He). split; [split; [eauto|]|].
  - assert (Hsh : shape s' = shape s) by (unfold shape; rewrite Hs, <- map_fmap_compose; by apply map_fmap_ext). by rewrite Hsh.
  - intros _. split; [|done]. destruct (fy_vol _ _ _ _ Hf') as [HS _]. by destruct (st_super _ _ _ HS).
Qed.

Lemma unmount_law s H : sfs_ok s H -> sfs_synced s -> wp never sfs_unmount s (fun r s' => r = 0 /\ H = [] \/ r <> 0 /\ sfs_ok s' H).
Proof.
  intros Hok [Hd1 Hd2]. pose proof Hok as [(R & F & m & Hf) Ha]. unfold sfs_unmount. wgo. destruct (sfs_vnodes s) as [|a l] eqn:El.
  - change (0 <? Z.of_nat (length [])) with false. cbv iota. wgo. apply wp_kassert; [by rewrite Hd1|]. wgo. apply wp_kassert; [by rewrite Hd2|]. wgo. left. split; [done|].
    destruct H as [|[x b] H]; [done|]. destruct (sfs_ok_vnode s _ x b Hok) as [v Hv]; [left|]. destruct (fy_vol _ _ _ _ Hf) as [_ HC].
    assert (Hx : x ∈ sfs_vnodes s) by (apply (ca_pool _ _ HC); eauto). rewrite El in Hx. by apply not_elem_of_nil in Hx.
  - destruct (Z.ltb_spec 0 (Z.of_nat (length (a :: l)))) as [_|Hl]; [|cbn in Hl; lia]. wgo. right. split; [done|exact Hok].
Qed.

(** SFS keeps the promises of a file system. *)
#[global] Instance sfs_laws : FileSystemLaws (sfs_fsops curas).
Proof.
  refine {| VfsProofs.fs_ok := sfs_ok; fs_synced := sfs_synced |}.
  - intros e H H' HP. unfold sfs_ok. by rewrite HP.
  - exact incref_law.
  - exact decref_law.
  - exact getroot_law.
  - exact ops_law.
  - exact sync_law.
  - intros e x [= <-]. by destruct e.
  - exact unmount_law.
Defined.

(** ** Mounting

    [sfs_mount] calls [vfs_mount] with [sfs_domount]; the new [struct fs] is at the address
    that [kmalloc] returns. *)
Definition sfs_mountfunc (mm : mount_memory) (addr : Z) : M lhd (Z * option (Z * sfs_fs)) :=
  '(result, o) ← sfs_domount curas mm; mret (result, (addr,.) <$> o).
Definition sfs_mount (mm : mount_memory) (addr : Z) (device : list Z) : M vfs Z := vfs_mount device (sfs_mountfunc mm addr).

(** A device that holds a clean volume: one from which a consistent file system without
    open files was unmounted. *)
Definition holds_volume (d : lhd) (R : gset Z) (F : gmap Z dinode) (m : dirmap) : Prop :=
  exists s, fsys R s F m /\ svs s = ∅ /\ sfs_synced s /\ sfs_device s = d.

Lemma mountfunc_law (s : vfs) d R F m mm addr : holds_volume d R F m -> fss s !! addr = None -> mountfunc_ok s d (sfs_mountfunc mm addr).
Proof.
  intros (t & Hf & Hsv & [_ Hcl] & <-) Hfree. destruct (mount_spec curas R t F mm (fy_vol _ _ _ _ Hf) Hcl) as (r & o & d' & He & Hq & Hr). unfold mountfunc_ok, sfs_mountfunc. wgo.
  apply (wp_done _ _ _ _ _ _ He). cbv iota. wgo. cbn [fst snd]. destruct Hr as [[-> [sb ->]]|[Hr ->]].
  - right. split; [done|]. eexists addr, _. split_and!; [reflexivity|done|]. split; [exists R, F, m; by apply remounted_fsys|]. split; [|by intros a ?%not_elem_of_nil].
    intros a. change (held a []) with 0. unfold kcount, shape. cbn [svs remounted]. rewrite lookup_fmap, lookup_empty. cbn [fmap option_fmap option_map default]. lia.
  - left. by destruct Hr as [[-> _]|[-> _]].
Qed.

End Laws.
End SfsVfs.
