(* ===== verification/VfsTheorems.v ===== *)
(** * What the VFS layer promises

    Any file system that keeps [FileSystemLaws], under any sequence of calls into the VFS
    layer: a step relation over the state of the layer and the references its callers hold,
    the invariant of every reachable state, and that every call returns there.  Then how
    names of devices are resolved and kept apart, and what opening a path amounts to. *)
From S2P Require Import Prelude Wp Copyinout Uio Lhd Sfs SfsVnops Vnode Vfs VfsProofs.
Import Uio Sfs SfsVnops Vnode Vfs VfsProofs.

Module VfsTheorems.

Section Steps.
Context {F D : Type} {FS : FileSystem F D} {DO : DeviceOps D} {FL : FileSystemLaws FS}.

Local Notation vfs := (vfs (F := F) (D := D)).
Notation vrefs := (list (vnode * bool)).

(** ** Calls into the layer

    The calls that hand out no vnode. *)
Inductive vfs_op : Type :=
| Remove (path : list Z) | Mkdir (path : list Z) | Rmdir (path : list Z) | Symlink (contents path : list Z)
| Rename (oldpath newpath : list Z) | Link (oldpath newpath : list Z)
| Chdir (path : list Z) | ClearCurdir | SetBootfs (fsname : list Z) | ClearBootfs
| Sync | AddDev (mem : add_memory) (devname : list Z) (dev : Z) (mountable : bool) | AddFs (mem : add_memory) (devname : list Z) (fs : Z)
| Mount (devname : list Z) (mountfunc : M D (Z * option (Z * F))) | Unmount (devname : list Z) | UnmountAll | SwapOff (devname : list Z).

Definition run (op : vfs_op) : M vfs Z :=
  match op with
  | Remove path => vfs_remove path | Mkdir path => vfs_mkdir path | Rmdir path => vfs_rmdir path | Symlink contents path => vfs_symlink contents path
  | Rename oldpath newpath => vfs_rename oldpath newpath | Link oldpath newpath => vfs_link oldpath newpath
  | Chdir path => vfs_chdir path | ClearCurdir => vfs_clearcurdir | SetBootfs fsname => vfs_setbootfs fsname | ClearBootfs => vfs_clearbootfs;; mret 0
  | Sync => vfs_sync | AddDev mem devname dev mountable => vfs_adddev mem devname dev mountable | AddFs mem devname fs => vfs_addfs mem devname fs
  | Mount devname mountfunc => vfs_mount devname mountfunc | Unmount devname => vfs_unmount devname | UnmountAll => vfs_unmountall | SwapOff devname => vfs_swapoff devname
  end.

(** What the caller owes: strings without a zero byte, fresh memory, a mount function that
    yields a consistent file system. *)
Definition allowed (s : vfs) (op : vfs_op) : Prop :=
  match op with
  | Remove path | Mkdir path | Rmdir path | Chdir path | SetBootfs path => cstr path
  | Symlink x y | Rename x y | Link x y => cstr x /\ cstr y
  | AddDev mem _ dev mountable => can_add s mem mountable (Some dev) None
  | AddFs mem _ fs => can_add s mem false None (Some fs)
  | Mount devname mountfunc => mounts_ok s devname mountfunc
  | _ => True
  end.

(** One call: the state and the references the callers hold, before and after. *)
Inductive vfs_step : vfs * vrefs -> vfs * vrefs -> Prop :=
| step_op s H op r s' : allowed s op -> run op s = Done r s' -> vfs_step (s, H) (s', H)
| step_open s H path flags v s' : cstr path -> vfs_open path flags s = Done (0, v) s' -> vfs_step (s, H) (s', (v, false) :: H)
| step_open_fail s H path flags r v s' : cstr path -> vfs_open path flags s = Done (r, v) s' -> r <> 0 -> vfs_step (s, H) (s', H)
| step_lookup s H path v s' : cstr path -> vfs_lookup path s = Done (0, v) s' -> vfs_step (s, H) (s', (v, false) :: H)
| step_swapon s H ok_dup devname v s' : vfs_swapon ok_dup devname s = Done (0, v) s' -> vfs_step (s, H) (s', (v, false) :: H)
| step_close s H v b H' s' : H ≡ₚ (v, b) :: H' -> vfs_close v s = Done tt s' -> vfs_step (s, H) (s', H').

(** ** Every call *)

(** Why a call may stop. *)
Definition may_stop (s : vfs) (op : vfs_op) : stop -> Prop :=
  match op with Rename oldpath newpath => rename_stops s oldpath newpath | _ => never end.

Lemma run_ok s H op : vfs_ok s H -> allowed s op -> wp (may_stop s op) (run op) s (fun _ s' => vfs_ok s' H).
Proof.
  intros Hok Hal. destruct op; cbn [run allowed may_stop] in *.
  - eapply in_parent_ok; [exact Hok|exact Hal| |done]. intros. eapply remove_ok; [eassumption|left|done|done].
  - eapply in_parent_ok; [exact Hok|exact Hal| |done]. intros. eapply mkdir_ok; [eassumption|left|done|done].
  - eapply in_parent_ok; [exact Hok|exact Hal| |done]. intros. eapply rmdir_ok; [eassumption|left|done|done].
  - destruct Hal. eapply in_parent_ok; [exact Hok|done| |done]. intros. eapply symlink_ok; [eassumption|left|done|done|done].
  - destruct Hal. by apply (rename_path_ok s H).
  - destruct Hal. by apply (link_path_ok _ s H).
  - by apply (chdir_ok _ s H).
  - by apply (clearcurdir_ok _ s H).
  - by apply (setbootfs_ok _ s H).
  - unfold vfs_clearbootfs. wgo. eapply change_bootfs_ok; [exact Hok|]. intros s' Hs'. by wgo.
  - by apply (vfs_sync_ok _ s H).
  - eapply doadd_ok; [exact Hok|exact Hal|done|done].
  - eapply doadd_ok; [exact Hok|exact Hal|done|done].
  - by apply (mount_ok _ s H).
  - by apply (unmount_ok _ s H).
  - by apply (unmountall_ok _ s H).
  - by apply (swapoff_ok _ s H).
Qed.

Lemma step_keeps x y : vfs_step x y -> vfs_ok x.1 x.2 -> vfs_ok y.1 y.2.
Proof.
  intros Hst Hok. destruct Hst as [s H op r s' Hal He|s H path flags v s' Hp He|s H path flags r v s' Hp He Hr|s H path v s' Hp He|s H dup devname v s' He|s H v b H' s' HP He]; cbn [fst snd] in *.
  - pose proof (run_ok s H op Hok Hal) as Hw. unfold wp in Hw. by rewrite He in Hw.
  - assert (Hw : wp never (vfs_open path flags) s (fun rv s' => hands s H rv.1 rv.2 false s')) by (by apply (open_ok _ s H)).
    unfold wp in Hw. rewrite He in Hw. by eapply hands_ok.
  - assert (Hw : wp never (vfs_open path flags) s (fun rv s' => hands s H rv.1 rv.2 false s')) by (by apply (open_ok _ s H)).
    unfold wp in Hw. rewrite He in Hw. by eapply hands_fail.
  - assert (Hw : wp never (vfs_lookup path) s (fun rv s' => hands s H rv.1 rv.2 false s')) by (by apply (lookup_path_ok _ s H)).
    unfold wp in Hw. rewrite He in Hw. by eapply hands_ok.
  - assert (Hw : wp never (vfs_swapon dup devname) s (fun rv s' => hands s H rv.1 rv.2 false s')) by (by apply (swapon_ok _ s H)).
    unfold wp in Hw. rewrite He in Hw. by eapply hands_ok.
  - rewrite HP in Hok. assert (Hw : wp never (vfs_close v) s (fun _ s' => vfs_ok s' H')) by (by eapply decref_ok).
    unfold wp in Hw. by rewrite He in Hw.
Qed.

(** After [vfs_bootstrap], with the devices and the file systems that drivers made. *)
Definition booted (ds : gmap Z device) (es : gmap Z F) : vfs := mkVfs [] ds ∅ es None None.

Lemma booted_ok ds es : (forall f e, es !! f = Some e -> fs_ok e []) -> vfs_ok (booted ds es) [].
Proof.
  intros Hes. split; try done.
  - intros v b Hv. by apply elem_of_nil in Hv.
  - intros kd Hkd. by apply elem_of_nil in Hkd.
Qed.

Definition reachable (ds : gmap Z device) (es : gmap Z F) : vfs * vrefs -> Prop := rtc vfs_step (booted ds es, []).

Lemma reachable_ok ds es x : (forall f e, es !! f = Some e -> fs_ok e []) -> reachable ds es x -> vfs_ok x.1 x.2.
Proof.
  intros Hes Hr. assert (H0 : vfs_ok (booted ds es) []) by (by apply booted_ok). unfold reachable in Hr. change (vfs_ok (booted ds es, @nil (vnode * bool)).1 (booted ds es, @nil (vnode * bool)).2) in H0.
  induction Hr as [x|x y z Hst _ IH]; [done|]. apply IH. by eapply step_keeps.
Qed.

(** C12: In every state that calls into the VFS layer can lead to, the reference count of a
    device's vnode is the number of references the layer and its callers hold, plus the
    table's own; each mounted file system is consistent with the references to its vnodes;
    no vnode is referenced whose file system or device is gone; no two entries of the table
    share a device or a file system. *)
Theorem vfs_reachable_invariant ds es s H : (forall f e, es !! f = Some e -> fs_ok e []) -> reachable ds es (s, H) ->
  (forall a dv, dev_vnodes s !! a = Some dv -> dv_refcount dv = 1 + dev_part a (own s ++ H)) /\
  (forall f e, fss s !! f = Some e -> fs_ok e (fs_part f (own s ++ H))) /\
  (forall f a b, (FsVnode f a, b) ∈ own s ++ H -> is_Some (fss s !! f)) /\
  (forall a b, (DevVnode a, b) ∈ own s ++ H -> is_Some (dev_vnodes s !! a)) /\
  (forall kd f, kd ∈ knowndevs s -> kd_fs kd = MOUNTED f -> is_Some (fss s !! f)) /\ table_ok (knowndevs s).
Proof.
  intros Hes Hr. pose proof (reachable_ok ds es (s, H) Hes Hr) as Hok. cbn in Hok. split_and!.
  - intros a dv Ha. by apply (vo_dev _ _ Hok).
  - apply (vo_fs _ _ Hok).
  - intros f a b Hin. exact (vo_ref _ _ Hok _ _ Hin).
  - intros a b Hin. destruct (vo_ref _ _ Hok _ _ Hin) as (_ & _ & dv & _ & Ha & _). eauto.
  - intros kd f Hkd Hf. destruct (vo_kd _ _ Hok kd Hkd) as (_ & _ & _ & _ & Hm). by apply Hm.
  - apply (vo_table _ _ Hok).
Qed.


(** ** The names of devices *)

(** No two entries of the table share a name. *)
Definition names_unique (s : vfs) : Prop := forall i j ki kj x, knowndevs s !! i = Some ki -> knowndevs s !! j = Some kj -> x ∈ kd_names s ki -> x ∈ kd_names s kj -> i = j.

Lemma elem_of_all_names s x : x ∈ all_names s <-> exists kd, kd ∈ knowndevs s /\ x ∈ kd_names s kd.
Proof. unfold all_names. rewrite list_elem_of_join. setoid_rewrite list_elem_of_fmap. split; [intros (l & Hx & kd & -> & Hkd)|intros (kd & Hkd & Hx)]; eauto. Qed.

(** What a name of the entry [kd] leads to: the root of the file system that is mounted
    there, by the device's name or by the volume's; an error, when nothing is mounted; or the
    device itself, by the name of a device that cannot be mounted or by the raw name. *)
Definition root_of (f : Z) : M vfs (Z * vnode) := '(r, a) ← on_fs f FSOP_GETROOT; mret (r, FsVnode f a).
Definition target (s : vfs) (kd : knowndev) (x : list Z) : M vfs (Z * vnode) :=
  match kd_fs kd with
  | MOUNTED f => if bool_decide (x = kd_name kd \/ vol_of s kd = Some x) then root_of f else device_ref kd
  | _ => if bool_decide (x = kd_name kd /\ kd_rawname kd <> None) then mret (ENXIO, NULL) else device_ref kd
  end.

(** The loop passes the entries without the name. *)
Lemma getroot_passes s H x kd l : vfs_ok s H -> kd ∈ knowndevs s -> x ∉ kd_names s kd -> getroot_loop x (kd :: l) s = getroot_loop x l s.
Proof.
  intros Hok Hkd Hx. rewrite elem_of_names in Hx. destruct (vo_kd _ _ Hok kd Hkd) as (_ & _ & _ & _ & Hm).
  assert (Hn : streq (kd_name kd) x = false) by (apply bool_decide_eq_false; tauto). assert (Hr : bool_decide (kd_rawname kd = Some x) = false) by (apply bool_decide_eq_false; tauto).
  cbn [getroot_loop]. rewrite Hn, Hr. destruct (kd_fs kd) as [| |f] eqn:Ef; [by rewrite andb_false_r..|]. destruct (Hm f eq_refl) as [e He].
  rewrite (bind_ret _ _ _ _ _ (volname_is s f e He)). unfold vol_of in Hx. rewrite Ef, He in Hx. cbn [mbind option_bind] in Hx. rewrite bool_decide_eq_false_2 by tauto. done.
Qed.

Lemma getroot_stops s H x kd l : vfs_ok s H -> kd ∈ knowndevs s -> x ∈ kd_names s kd -> (kd_fs kd = SWAP_FS -> kd_rawname kd <> None) -> getroot_loop x (kd :: l) s = target s kd x s.
Proof.
  intros Hok Hkd Hx Hsw. rewrite elem_of_names in Hx. destruct (vo_kd _ _ Hok kd Hkd) as (_ & _ & _ & _ & Hm). unfold target. cbn [getroot_loop].
  assert (Hdev : vol_of s kd <> Some x -> kd_name kd <> x -> (if streq (kd_name kd) x then kassert "kd->kd_fs==NULL" (bool_decide (kd_fs kd = NO_FS));; kassert "kd->kd_rawname==NULL" (bool_decide (kd_rawname kd = None));; device_ref kd
    else if bool_decide (kd_rawname kd = Some x) then device_ref kd else getroot_loop x l) s = device_ref kd s).
  { intros H1 H2. unfold streq. rewrite bool_decide_eq_false_2 by done. by rewrite bool_decide_eq_true_2 by tauto. }
  destruct (kd_fs kd) as [| |f] eqn:Ef.
  - assert (Hv : vol_of s kd = None) by (unfold vol_of; by rewrite Ef). destruct (decide (kd_name kd = x)) as [E|E].
    + unfold streq. rewrite (bool_decide_eq_true_2 (kd_name kd = x)) by done. destruct (kd_rawname kd) as [raw|]; [by rewrite (bool_decide_eq_true_2 (Some raw <> None)), (bool_decide_eq_true_2 (x = kd_name kd /\ _))|].
      by rewrite (bool_decide_eq_false_2 (None <> None)), (bool_decide_eq_false_2 (x = kd_name kd /\ _)) by naive_solver.
    + unfold streq in *. rewrite (bool_decide_eq_false_2 (kd_name kd = x)), andb_false_r by done. rewrite (bool_decide_eq_false_2 (x = kd_name kd /\ _)) by (intros [? _]; congruence).
      by rewrite bool_decide_eq_true_2 by (rewrite Hv in Hx; naive_solver).
  - specialize (Hsw eq_refl). assert (Hv : vol_of s kd = None) by (unfold vol_of; by rewrite Ef). rewrite (bool_decide_eq_true_2 (kd_rawname kd <> None)) by done. cbn [andb]. unfold streq in *.
    destruct (decide (kd_name kd = x)) as [E|E]; [rewrite (bool_decide_eq_true_2 (kd_name kd = x)) by done; by rewrite (bool_decide_eq_true_2 (x = kd_name kd /\ _))|].
    rewrite (bool_decide_eq_false_2 (kd_name kd = x)) by done. rewrite (bool_decide_eq_false_2 (x = kd_name kd /\ _)) by (intros [? _]; congruence).
    by rewrite bool_decide_eq_true_2 by (rewrite Hv in Hx; naive_solver).
  - destruct (Hm f eq_refl) as [e He]. rewrite (bind_ret _ _ _ _ _ (volname_is s f e He)). assert (Hv : vol_of s kd = FSOP_GETVOLNAME e) by (unfold vol_of; rewrite Ef, He; done).
    destruct (decide (x = kd_name kd \/ vol_of s kd = Some x)) as [E|E].
    + rewrite (bool_decide_eq_true_2 (x = kd_name kd \/ _)) by done. replace (streq (kd_name kd) x || bool_decide (FSOP_GETVOLNAME e = Some x)) with true; [done|].
      symmetry. apply orb_true_iff. unfold streq. rewrite !bool_decide_eq_true, <- Hv. naive_solver.
    + rewrite (bool_decide_eq_false_2 (x = kd_name kd \/ _)) by done. replace (streq (kd_name kd) x || bool_decide (FSOP_GETVOLNAME e = Some x)) with false; [apply Hdev; naive_solver|].
      symmetry. apply orb_false_iff. unfold streq. rewrite !bool_decide_eq_false, <- Hv. naive_solver.
Qed.

Lemma getroot_finds s H x kd : vfs_ok s H -> names_unique s -> kd ∈ knowndevs s -> x ∈ kd_names s kd -> vfs_getroot x s = target s kd x s.
Proof.
  intros Hok Hu Hkd Hx. unfold vfs_getroot. rewrite (bind_ret _ _ _ _ _ (eq_refl : gets knowndevs s = Done (knowndevs s) s)). apply list_elem_of_split in Hkd as (l1 & l2 & Hl).
  assert (Hin : forall k, k ∈ l1 -> k ∈ knowndevs s /\ x ∉ kd_names s k).
  { intros k Hk. split; [rewrite Hl; apply elem_of_app; by left|]. intros Hxk. apply list_elem_of_lookup in Hk as [i Hi]. assert (Hi' := lookup_lt_Some _ _ _ Hi).
    assert (i = length l1); [|lia]. apply (Hu i (length l1) k kd x); [rewrite Hl; by apply lookup_app_l_Some|rewrite Hl; by apply list_lookup_middle|done|done]. }
  assert (Hkd : kd ∈ knowndevs s) by (rewrite Hl; apply elem_of_app; right; left). rewrite Hl. clear Hl Hu.
  induction l1 as [|k l1 IH]; cbn [app].
  - apply (getroot_stops s H); [done|done|done|]. destruct (vo_kd _ _ Hok kd Hkd) as (_ & _ & _ & Hsw & _). exact Hsw.
  - destruct (Hin k ltac:(left)) as [Hk Hxk]. rewrite (getroot_passes s H) by done. apply IH. intros k' Hk'. apply Hin. by right.
Qed.

Lemma getroot_misses s H x : vfs_ok s H -> x ∉ all_names s -> vfs_getroot x s = Done (ENODEV, NULL) s.
Proof.
  intros Hok Hx. unfold vfs_getroot. rewrite (bind_ret _ _ _ _ _ (eq_refl : gets knowndevs s = Done (knowndevs s) s)).
  assert (Hin : forall kd, kd ∈ knowndevs s -> kd ∈ knowndevs s /\ x ∉ kd_names s kd). { intros kd Hkd. split; [done|]. intros Hxk. apply Hx, elem_of_all_names. eauto. }
  revert Hin. generalize (knowndevs s) at 1 3 as l. induction l as [|kd l IH]; intros Hin; [done|]. destruct (Hin kd ltac:(left)). rewrite (getroot_passes s H) by done.
  apply IH. intros k Hk. apply Hin. by right.
Qed.

(** [vfs_getroot] resolves a device name against a table in which no two entries share a
    name, wherever the entry is: to the file system's root, to the device, or to ENXIO when
    nothing is mounted there; a name that no entry has is ENODEV and changes nothing. *)
Theorem vfs_getroot_resolves s H x : vfs_ok s H -> names_unique s ->
  (forall kd, kd ∈ knowndevs s -> x ∈ kd_names s kd -> vfs_getroot x s = target s kd x s) /\
  (x ∉ all_names s -> vfs_getroot x s = Done (ENODEV, NULL) s).
Proof. intros Hok Hu. split; [intros kd; by apply getroot_finds with H|by apply getroot_misses with H]. Qed.

Lemma names_append s s' kd : knowndevs s' = knowndevs s ++ [kd] -> fss s' = fss s -> all_names s' = all_names s ++ kd_names s kd /\ (names_unique s -> ~ clash s (kd_names s kd) -> names_unique s').
Proof.
  intros Hk Hf. assert (Hn : forall k, kd_names s' k = kd_names s k) by (intros k; unfold kd_names, vol_of; by rewrite Hf). split.
  - unfold all_names. rewrite Hk, (list_fmap_ext (kd_names s') (kd_names s)) by (intros; apply Hn). rewrite fmap_app, join_app. cbn. by rewrite app_nil_r.
  - intros Hu Hc i j ki kj x Hi Hj. rewrite Hk in Hi, Hj. rewrite !Hn. intros Hxi Hxj.
    assert (Hold : forall n k, knowndevs s !! n = Some k -> x ∈ kd_names s k -> x ∈ kd_names s kd -> False).
    { intros n k Hnk Hxk Hxkd. apply Hc. exists x. split; [|done]. apply elem_of_all_names. exists k. split; [by eapply list_elem_of_lookup_2|done]. }
    apply lookup_snoc_Some in Hi as [[_ Hi]|[-> <-]], Hj as [[_ Hj]|[-> <-]]; [by eapply Hu|by destruct (Hold i ki)|by destruct (Hold j kj)|done].
Qed.

(** Adding a device or a file system ([vfs_adddev], [vfs_addfs]) keeps the names of the
    table apart: it fails with EEXIST exactly when one of the new names, the device's, the raw
    device's or the volume's, is in use, and then nothing has changed; with enough memory it
    succeeds otherwise, and the entry with its names is at the end of the table. *)
Theorem vfs_doadd_unique s H mem dname mountable dev fs : vfs_ok s H -> can_add s mem mountable dev fs -> names_unique s ->
  let kd := new_kd dname mountable dev fs (vnode_at mem) in
  exists r s', vfs_doadd mem dname mountable dev fs s = Done r s' /\ vfs_ok s' H /\ names_unique s' /\
    (r = 0 /\ ~ clash s (kd_names s kd) /\ knowndevs s' = knowndevs s ++ [kd] /\ all_names s' = all_names s ++ kd_names s kd \/
     (r = EEXIST /\ clash s (kd_names s kd) \/ r = ENOMEM /\ enough mem mountable = false) /\ s' = s).
Proof.
  intros Hok Hadd Hu kd. apply wp_never. eapply doadd_ok; [exact Hok|exact Hadd| |].
  - intros r Hr. split_and!; [done|done|right; split; [tauto|done]].
  - intros s' Hs' Hk Hf Hc. destruct (names_append s s' kd Hk Hf) as [Ha Hn]. split_and!; [done|by apply Hn|]. left. done.
Qed.

End Steps.
End VfsTheorems.
