(* ===== verification/VfsPaths.v ===== *)
(** * Paths into a mounted file system

    Opening a path of the form [device:rest] through vfslookup.c and vfspath.c is the same
    as running the file system's own operations: the layer finds the file system, and
    everything else happens there.  The reference is a program over the operations of one
    file system, without the table of devices. *)
From S2P Require Import Prelude Wp Copyinout Uio Lhd Sfs SfsVnops Vnode Vfs VfsProofs VfsTheorems.
Import Uio Sfs SfsVnops Vnode Vfs VfsProofs VfsTheorems.

Module VfsPaths.

Section Direct.
Context {F D : Type} {FS : FileSystem F D}.

(** A function of the table of the vnode at [a]. *)
Definition fs_vop {A} (a : Z) (call : forall S, vnode_ops S -> Z -> M S A) : M F A := e ← get; ops ← deref "vn_ops" (vn_ops e a); call F ops a.

(** The file at [path] below the root. *)
Definition fs_walk (path : list Z) : M F (Z * Z) :=
  '(r, root) ← FSOP_GETROOT;
  if negb (r =? 0) then mret (r, 0)
  else if bool_decide (path = []) then mret (0, root)
  else
    '(r, a) ← fs_vop root (fun S ops x => vop_lookup ops x path);
    fs_decref root;;
    mret (r, a).

(** Its directory, and its name there. *)
Definition fs_walkparent (path : list Z) (len : Z) : M F (Z * Z * list Z) :=
  '(r, root) ← FSOP_GETROOT;
  if negb (r =? 0) then mret (r, 0, [])
  else
    '(r, a, name) ← (if bool_decide (path = []) then mret (EINVAL, 0, []) else fs_vop root (fun S ops x => vop_lookparent ops x path len));
    fs_decref root;;
    mret (r, a, name).

Definition fs_creat (path : list Z) (excl : bool) : M F (Z * Z) :=
  '(r, dir, name) ← fs_walkparent path (NAME_MAX + 1);
  if negb (r =? 0) then mret (r, 0)
  else
    '(r, a) ← fs_vop dir (fun S ops x => vop_creat ops x name excl);
    fs_decref dir;;
    mret (r, a).

(** A file that was found is opened, and truncated if that is asked for. *)
Definition fs_opened (a flags : Z) : M F (Z * Z) :=
  r ← fs_vop a (fun S ops x => vop_eachopen ops x flags);
  if negb (r =? 0) then fs_decref a;; mret (r, 0)
  else
    r ← (if negb (Z.land flags O_TRUNC =? 0) then
           if negb (Z.land flags O_ACCMODE =? O_RDONLY) then fs_vop a (fun S ops x => vop_truncate ops x 0) else mret EINVAL
         else mret 0);
    if negb (r =? 0) then fs_decref a;; mret (r, 0) else mret (0, a).

Definition fs_open (path : list Z) (flags : Z) : M F (Z * Z) :=
  if negb ((Z.land flags O_ACCMODE =? O_RDONLY) || (Z.land flags O_ACCMODE =? O_WRONLY) || (Z.land flags O_ACCMODE =? O_RDWR)) then mret (EINVAL, 0)
  else
    '(r, a) ← (if negb (Z.land flags O_CREAT =? 0) then fs_creat path (negb (Z.land flags O_EXCL =? 0)) else fs_walk path);
    if negb (r =? 0) then mret (r, 0) else fs_opened a flags.

Definition fs_remove (path : list Z) : M F Z :=
  '(r, dir, name) ← fs_walkparent path (NAME_MAX + 1);
  if negb (r =? 0) then mret r
  else
    r ← fs_vop dir (fun S ops x => vop_remove ops x name);
    fs_decref dir;;
    mret r.
End Direct.

Section Paths.
Context {F D : Type} {FS : FileSystem F D} {DO : DeviceOps D} {FL : FileSystemLaws FS}.
Local Notation vfs := (vfs (F := F) (D := D)).

(** A program of the file system [f], with its result as the layer has it. *)
Definition via {A B} (f : Z) (m : M F A) (g : A -> B) : M vfs B := x ← on_fs f m; mret (g x).

Definition present (f : Z) (s : vfs) : Prop := is_Some (fss s !! f).

(** The layer's program [m'] does what [m] does in the file system, and nothing else; the
    results are related by [R]. *)
Definition sim {A B} (f : Z) (R : A -> B -> Prop) (m : M F A) (m' : M vfs B) (s : vfs) : Prop :=
  match fss s !! f with
  | None => False
  | Some e =>
      match m e, m' s with
      | Done a e', Done b s' => s' = put_fs f e' s /\ R a b
      | Halt r, Halt r' => r = r'
      | Exited e', Exited s' => s' = put_fs f e' s
      | OutOfFuel, OutOfFuel => True
      | _, _ => False
      end
  end.

Lemma sim_bind {A B C E} f (R : A -> B -> Prop) (R' : C -> E -> Prop) m m' (k : A -> M F C) (k' : B -> M vfs E) s :
  sim f R m m' s -> (forall a b s', R a b -> present f s' -> sim f R' (k a) (k' b) s') -> sim f R' (x ← m; k x) (y ← m'; k' y) s.
Proof.
  unfold sim, mbind, M_bind. intros Hm Hk. destruct (fss s !! f) as [e|]; [|done]. destruct (m e) as [a e'|r|e'|], (m' s) as [b s'|r'|s'|]; try done. destruct Hm as [-> HR].
  specialize (Hk a b (put_fs f e' s) HR ltac:(red; cbn; rewrite lookup_insert_eq; eauto)). cbn in Hk. rewrite lookup_insert_eq in Hk.
  assert (Hput : forall x, put_fs f x (put_fs f e' s) = put_fs f x s) by (intros x; unfold put_fs, set_fss; cbn; by rewrite insert_insert_eq).
  by destruct (k a e'), (k' b (put_fs f e' s)); rewrite ?Hput in Hk.
Qed.

Lemma sim_ret {A B} f (R : A -> B -> Prop) a b s : present f s -> R a b -> sim f R (mret a) (mret b) s.
Proof. unfold sim. intros [e He] HR. rewrite He. split; [symmetry; by apply put_same|done]. Qed.

Lemma sim_on {A} f (m : M F A) s : present f s -> sim f eq m (on_fs f m) s.
Proof. unfold sim, on_fs, zoom. intros [e He]. rewrite He. by destruct (m e). Qed.

Lemma sim_mono {A B} f (R R' : A -> B -> Prop) m m' s : sim f R m m' s -> (forall a b, R a b -> R' a b) -> sim f R' m m' s.
Proof. unfold sim. intros Hm HR. destruct (fss s !! f) as [e|]; [|done]. destruct (m e), (m' s); try done. destruct Hm; auto. Qed.

Lemma sim_map {A B C} f (R : A -> B -> Prop) (R' : A -> C -> Prop) m m' (k : B -> M vfs C) s : sim f R m m' s -> (forall a b s', R a b -> exists c, k b s' = Done c s' /\ R' a c) -> sim f R' m (y ← m'; k y) s.
Proof.
  unfold sim, mbind, M_bind. intros Hm Hk. destruct (fss s !! f) as [e|]; [|done]. destruct (m e) as [a e'|r|e'|], (m' s) as [b s'|r'|s'|]; try done. destruct Hm as [-> HR].
  destruct (Hk a b (put_fs f e' s) HR) as (c & -> & Hc). done.
Qed.

Lemma sim_via {A B} f (m : M F A) (m' : M vfs B) (h : A -> B) s : sim f (fun a b => b = h a) m m' s -> m' s = via f m h s.
Proof.
  unfold sim, via, on_fs, zoom, mbind, M_bind. destruct (fss s !! f) as [e|]; [|done]. destruct (m e) as [a e'|r|e'|], (m' s) as [b s'|r'|s'|]; try done; [by intros [-> ->]|congruence|by intros ->].
Qed.

Lemma sim_of_via {A B} f (m : M F A) (m' : M vfs B) (h : A -> B) s : present f s -> m' s = via f m h s -> sim f (fun a b => b = h a) m m' s.
Proof. intros [e He] Hm. unfold sim. rewrite Hm. unfold via, on_fs, zoom, mbind, M_bind. rewrite He. by destruct (m e). Qed.

(** The result of a lookup: [*ret] counts when there is no error. *)
Definition found (f : Z) (x : Z * Z) : Z * vnode := (x.1, if x.1 =? 0 then FsVnode f x.2 else NULL).

(** ** The device part of a path *)

Lemma first_mark_colon i dev rest : COLON ∉ dev -> SLASH ∉ dev -> first_mark i (dev ++ COLON :: rest) = (i + Z.of_nat (length dev), -1).
Proof.
  revert i. induction dev as [|c dev IH]; intros i Hc Hs; cbn [app first_mark length].
  - change (COLON =? COLON) with true. cbv iota. f_equal. lia.
  - apply not_elem_of_cons in Hc as [Hc1 Hc2], Hs as [Hs1 Hs2]. destruct (Z.eqb_spec c COLON) as [|_]; [done|]. destruct (Z.eqb_spec c SLASH) as [|_]; [done|].
    rewrite IH by done. f_equal. lia.
Qed.

Definition dev_path (dev rest : list Z) : list Z := dev ++ COLON :: rest.

(** The device name of a path leads to the file system [f]. *)
Record leads (s : vfs) (dev : list Z) (f : Z) : Prop := {
  le_word : dev <> [] /\ COLON ∉ dev /\ SLASH ∉ dev;
  le_root : vfs_getroot dev s = root_of f s;
  le_fs : present f s
}.

Lemma mounted_leads s H kd f dev : vfs_ok s H -> names_unique s -> kd ∈ knowndevs s -> kd_fs kd = MOUNTED f -> dev = kd_name kd \/ vol_of s kd = Some dev ->
  dev <> [] -> COLON ∉ dev -> SLASH ∉ dev -> leads s dev f.
Proof.
  intros Hok Hu Hkd Hf Hdev H1 H2 H3. split; [done| |].
  - rewrite (getroot_finds s H dev kd Hok Hu Hkd) by (apply elem_of_names; naive_solver). unfold target. rewrite Hf. by rewrite bool_decide_eq_true_2.
  - destruct (vo_kd _ _ Hok kd Hkd) as (_ & _ & _ & _ & Hm). by apply Hm.
Qed.

Lemma getdevice_leads s dev rest f : leads s dev f ->
  getdevice (dev_path dev rest) s = via f FSOP_GETROOT (fun x => (x.1, skip_slashes rest, (found f x).2)) s.
Proof.
  intros [(H1 & H2 & H3) Hr Hp]. unfold getdevice, dev_path. rewrite bool_decide_eq_false_2 by (intros E; by apply app_eq_nil in E as [_ ?]). rewrite first_mark_colon, Z.add_0_l by done.
  destruct dev as [|c dev]; [done|]. set (n := length (c :: dev)) in *. assert (Hn : 0 < Z.of_nat n) by (cbn; lia).
  replace (Z.of_nat n <? 0) with false by lia. cbn [andb]. replace (0 <? Z.of_nat n) with true by lia. rewrite !Nat2Z.id.
  assert (Hdrop : drop (Z.to_nat (Z.of_nat n + 1)) ((c :: dev) ++ COLON :: rest) = rest).
  { rewrite cons_middle, (assoc_L (++)). apply drop_app_length'. rewrite length_app. fold n. cbn [length]. lia. }
  rewrite Hdrop, (take_app_length' (c :: dev)) by done. clear Hdrop. unfold via.
  unfold mbind at 1, M_bind. rewrite Hr. unfold root_of, mbind, M_bind. destruct (on_fs f FSOP_GETROOT s) as [[r a] s1| | |]; try done. cbn.
  unfold found. cbn. by destruct (Z.eqb_spec r 0) as [->|].
Qed.

(** ** Walking and opening *)

(** A vnode of [f], if there is no error. *)
Definition same (f : Z) (x : Z * Z) (y : Z * vnode) : Prop := x.1 = y.1 /\ (x.1 = 0 -> y.2 = FsVnode f x.2).

Lemma sim_getdevice s dev rest f : leads s dev f -> sim f (fun x y => y = (x.1, skip_slashes rest, (found f x).2)) FSOP_GETROOT (getdevice (dev_path dev rest)) s.
Proof. intros Hl. apply sim_of_via; [apply Hl|by apply getdevice_leads]. Qed.

Lemma sim_vop {A} f a (call : forall S, vnode_ops S -> Z -> M S A) s : present f s -> sim f eq (fs_vop a call) (VOP (FsVnode f a) call) s.
Proof. intros Hp. by apply sim_on. Qed.
Lemma sim_decref f a s : present f s -> sim f eq (fs_decref a) (VOP_DECREF (FsVnode f a)) s.
Proof. intros Hp. by apply sim_on. Qed.

(** A reference is given up, and the result returned. *)
Lemma sim_drop {A B} f (R : A -> B -> Prop) d a b s : present f s -> R a b -> sim f R (fs_decref d;; mret a) (VOP_DECREF (FsVnode f d);; mret b) s.
Proof. intros Hp HR. eapply sim_bind; [by apply sim_decref|]. intros _ _ s' _ Hp'. by apply sim_ret. Qed.

Lemma sim_walk s dev rest f : leads s dev f -> sim f (same f) (fs_walk (skip_slashes rest)) (vfs_lookup (dev_path dev rest)) s.
Proof.
  intros Hl. unfold fs_walk, vfs_lookup. eapply sim_bind; [by apply sim_getdevice|]. intros [r root] y s1 -> Hp. cbn [fst snd found]. destruct (Z.eqb_spec r 0) as [->|Hr]; cbn [negb].
  - destruct (bool_decide (skip_slashes rest = [])); [by apply sim_ret|]. unfold VOP_LOOKUP. eapply sim_bind with (R := same f).
    + eapply sim_map; [by apply sim_vop|]. intros [r a] [r' a'] s2 [= <- <-]. by eexists.
    + intros [r a] [r' v] s2 Hs Hp2. by apply sim_drop.
  - by apply sim_ret.
Qed.

Lemma sim_walkparent s dev rest len f : leads s dev f ->
  sim f (fun x y => same f x.1 y.1 /\ x.2 = y.2) (fs_walkparent (skip_slashes rest) len) (vfs_lookparent (dev_path dev rest) len) s.
Proof.
  intros Hl. unfold fs_walkparent, vfs_lookparent. eapply sim_bind; [by apply sim_getdevice|]. intros [r root] y s1 -> Hp. cbn [fst snd found]. destruct (Z.eqb_spec r 0) as [->|Hr]; cbn [negb].
  - eapply sim_bind with (R := fun x y => same f x.1 y.1 /\ x.2 = y.2).
    + destruct (bool_decide (skip_slashes rest = [])); [by apply sim_ret|]. unfold VOP_LOOKPARENT. eapply sim_map; [by apply sim_vop|]. intros [[r a] n] [[r' a'] n'] s2 [= <- <- <-]. by eexists.
    + intros [[r a] n] [[r' v] n'] s2 Hs Hp2. by apply sim_drop.
  - by apply sim_ret.
Qed.

Lemma sim_creat s dev rest excl f : leads s dev f ->
  sim f (same f) (fs_creat (skip_slashes rest) excl)
    ('(r, dir, name) ← vfs_lookparent (dev_path dev rest) (NAME_MAX + 1);
     if negb (r =? 0) then mret (r, NULL) else '(r, vn) ← VOP_CREAT dir name excl; VOP_DECREF dir;; mret (r, vn)) s.
Proof.
  intros Hl. unfold fs_creat. eapply sim_bind; [by apply sim_walkparent|]. intros [[r a] n] [[r' v] n'] s1 [[Hr Hv] Hn] Hp. cbn [fst snd] in *. subst r' n'.
  destruct (Z.eqb_spec r 0) as [->|Hr]; cbn [negb]; [|by apply sim_ret]. rewrite (Hv eq_refl). eapply sim_bind with (R := same f).
  - unfold VOP_CREAT. eapply sim_map; [by apply sim_vop|]. intros [r b] [r' b'] s2 [= <- <-]. by eexists.
  - intros [r b] [r' w] s2 Hs Hp2. by apply sim_drop.
Qed.

Lemma sim_open s dev rest flags f : leads s dev f -> sim f (fun x y => y = found f x) (fs_open (skip_slashes rest) flags) (vfs_open (dev_path dev rest) flags) s.
Proof.
  intros Hl. pose proof (le_fs _ _ _ Hl) as Hp0. unfold fs_open, vfs_open. destruct (negb (_ || _)); [by apply sim_ret|]. eapply sim_bind with (R := same f).
  { destruct (negb (Z.land flags O_CREAT =? 0)); [by apply sim_creat|by apply sim_walk]. }
  intros [r a] [r' v] s1 [Hr Hv] Hp. cbn [fst snd] in *. subst r'. assert (Hfail : forall r s', r <> 0 -> present f s' -> sim f (fun x y => y = found f x) (fs_decref a;; mret (r, 0)) (VOP_DECREF (FsVnode f a);; mret (r, NULL)) s').
  { intros r' s' Hr' Hp'. apply sim_drop; [done|]. unfold found. cbn. by destruct (Z.eqb_spec r' 0). }
  destruct (Z.eqb_spec r 0) as [->|Hr]; cbn [negb]; [|apply sim_ret; [done|]; unfold found; cbn; by destruct (Z.eqb_spec r 0)]. rewrite (Hv eq_refl). unfold fs_opened.
  assert (Hnn : bool_decide (FsVnode f a <> NULL) = true) by (by apply bool_decide_eq_true). rewrite Hnn.
  change (sim f (fun x y => y = found f x) (r ← fs_vop a (fun S ops x => vop_eachopen ops x flags);
    (if negb (r =? 0) then fs_decref a;; mret (r, 0)
     else r ← (if negb (Z.land flags O_TRUNC =? 0) then (if negb (Z.land flags O_ACCMODE =? O_RDONLY) then fs_vop a (fun S ops x => vop_truncate ops x 0) else mret EINVAL) else mret 0);
          (if negb (r =? 0) then fs_decref a;; mret (r, 0) else mret (0, a))))
    (r ← VOP_EACHOPEN (FsVnode f a) flags;
    (if negb (r =? 0) then VOP_DECREF (FsVnode f a);; mret (r, NULL)
     else r ← (if negb (Z.land flags O_TRUNC =? 0) then (if negb (Z.land flags O_ACCMODE =? O_RDONLY) then VOP_TRUNCATE (FsVnode f a) 0 else mret EINVAL) else mret 0);
          (if negb (r =? 0) then VOP_DECREF (FsVnode f a);; mret (r, NULL) else mret (0, FsVnode f a)))) s1).
  eapply sim_bind; [by apply sim_vop|]. intros r r' s2 <- Hp2. destruct (Z.eqb_spec r 0) as [->|Hr]; cbn [negb]; [|by apply Hfail].
  eapply sim_bind with (R := eq).
  { destruct (negb (Z.land flags O_TRUNC =? 0)); [|by apply sim_ret]. destruct (negb (Z.land flags O_ACCMODE =? O_RDONLY)); [by apply sim_vop|by apply sim_ret]. }
  intros r r' s3 <- Hp3. destruct (Z.eqb_spec r 0) as [->|Hr]; cbn [negb]; [by apply sim_ret|by apply Hfail].
Qed.

Lemma sim_remove s dev rest f : leads s dev f -> sim f eq (fs_remove (skip_slashes rest)) (vfs_remove (dev_path dev rest)) s.
Proof.
  intros Hl. unfold fs_remove, vfs_remove, in_parent. eapply sim_bind; [by apply sim_walkparent|]. intros [[r a] n] [[r' v] n'] s1 [[Hr Hv] Hn] Hp. cbn [fst snd] in *. subst r' n'.
  destruct (Z.eqb_spec r 0) as [->|Hr]; cbn [negb]; [|by apply sim_ret]. rewrite (Hv eq_refl). eapply sim_bind; [by apply sim_vop|]. intros r r' s2 <- Hp2. by apply sim_drop.
Qed.

(** Opening, looking up or removing [device:path] is running the operations of the file
    system that is mounted on the device, and nothing else: the same results, the same state
    of that file system, and no change to any other part of the layer.  The device may be
    given by its own name or by the name of its volume. *)
Theorem vfs_paths_direct s H kd f dev rest flags : vfs_ok s H -> names_unique s -> kd ∈ knowndevs s -> kd_fs kd = MOUNTED f -> dev = kd_name kd \/ vol_of s kd = Some dev ->
  dev <> [] -> COLON ∉ dev -> SLASH ∉ dev ->
  vfs_open (dev_path dev rest) flags s = via f (fs_open (skip_slashes rest) flags) (found f) s /\
  vfs_remove (dev_path dev rest) s = via f (fs_remove (skip_slashes rest)) id s /\
  sim f (same f) (fs_walk (skip_slashes rest)) (vfs_lookup (dev_path dev rest)) s.
Proof.
  intros Hok Hu Hkd Hf Hdev H1 H2 H3. pose proof (mounted_leads s H kd f dev Hok Hu Hkd Hf Hdev H1 H2 H3) as Hl. split_and!.
  - apply sim_via. by apply sim_open.
  - apply sim_via. eapply sim_mono; [by apply sim_remove|]. by intros a b ->.
  - by apply sim_walk.
Qed.

End Paths.
End VfsPaths.
