(* ===== verification/SfsPaths.v ===== *)
(** * Paths on an SFS volume

    [vfs_open] and [vfs_remove] on a path into a mounted SFS volume, from the device name
    down to the directory entries: the VFS layer of [VfsPaths] over the operations of
    [SfsTree]. *)
From S2P Require Import Prelude Wp Bitmap Copyinout Uio Lhd Sfs SfsErrors SfsFormat SfsProofs SfsIo.
From S2P Require Import SfsTrunc SfsDir SfsVnops SfsVolume SfsObjects SfsRefs SfsTree.
From S2P Require Import SfsTreeTheorems SfsFsops Vnode Vfs VfsProofs SfsVfs VfsTheorems VfsPaths.
Import Bitmap Copyinout Uio Lhd Sfs SfsErrors SfsFormat SfsProofs SfsIo SfsTrunc SfsDir SfsVnops SfsVolume SfsObjects SfsRefs SfsTree.
Import SfsTreeTheorems SfsFsops Vnode Vfs VfsProofs SfsVfs VfsTheorems VfsPaths.

Module SfsPaths.

Section Paths.
Context {HW : LhdHardware} (curas : Z) {HL : LhdLaws} {SM : SfsMemory} {SML : SfsMemoryLaws}.
#[local] Hint Extern 0 (FileSystem sfs_fs _) => exact (sfs_fsops curas) : typeclass_instances.
#[local] Hint Extern 0 (DeviceOps lhd) => exact (lhd_devops curas) : typeclass_instances.
#[local] Hint Extern 0 (FileSystemLaws _) => exact (sfs_laws curas) : typeclass_instances.

(** ** The root *)

Lemma getroot_spec R e F m : fsys R e F m ->
  exists r a e', sfs_getroot curas e = Done (r, a) e' /\ fsys R e' F m /\ (forall x, block e' x = block e x) /\
    (r = 0 /\ (exists v, root_at e' a v) \/ r = EIO \/ r = ENOMEM).
Proof.
  intros Hf. destruct (fy_root _ _ _ _ Hf) as (i & Hi & [Hty Hd] & _).
  destruct (loadvnode_spec curas R e F SFS_ROOTDIR_INO i (fy_vol _ _ _ _ Hf) Hi ltac:(by right)) as (r & a & e' & He & HV & Hb & _ & Hr).
  assert (Hf' : fsys R e' F m).
  { apply (fsys_frame R e); [done|done|by apply bytes_kept_block|]. intros x w Hx. destruct Hr as [[-> Ho]|[_ Hs]]; [|exists x, w; by rewrite Hs].
    eapply (opened_stays SFS_ROOTDIR_INO i a); [exact Ho|done]. }
  unfold sfs_getroot. mrun He. destruct Hr as [[-> Ho]|[Hr Hs]].
  - cbn [negb Z.eqb]. destruct (opened_at SFS_ROOTDIR_INO i a e e' Ho) as (v & Hv & Hino & Hvi & _). mrun (get_sv_spec e' a v Hv). rewrite Hvi, Hty. change (negb (SFS_TYPE_DIR =? SFS_TYPE_DIR)) with false. cbv iota.
    exists 0, a, e'. split_and!; [done|done|done|left]. split; [done|]. by exists v.
  - replace (negb (r =? 0)) with true by (by destruct Hr as [-> | ->]). exists r, 0, e'. split_and!; [done|done|done|]. by right.
Qed.

(** Giving up a reference to the root changes no file. *)
Lemma decref_root R e F m a v : fsys R e F m -> root_at e a v ->
  exists e', vnode_decref curas a e = Done tt e' /\ fsys R e' F m /\ bytes_kept ∅ e e' F /\ (forall x, x <> a -> svs e' !! x = svs e !! x).
Proof.
  intros Hf Hr. destruct (fsys_dir _ _ _ _ _ _ Hf Hr) as (_ & Hl & _). destruct Hr as [Hv Hino]. destruct (decref_fsys curas R e F m a v Hf Hv) as (e' & F' & He & Hf' & Hrel). exists e'.
  destruct Hrel as [H1 Hs Hb|H1 Hl2 Hs Hb|H1 Hl2 Hs Hb|v' H1 _ Hl2 Hs _ _ _ _ Hb]; [| |congruence|congruence]; (split_and!; [done|done|done|]); intros x Hx; rewrite Hs; [by rewrite lookup_insert_ne|by rewrite lookup_delete_ne].
Qed.

Lemma vop_root {A} (call : forall S, vnode_ops S -> Z -> M S A) R e F m a v : fsys R e F m -> root_at e a v -> fs_vop a call e = call sfs_fs (sfs_dirops curas) a e.
Proof.
  intros Hf Hr. destruct (fsys_dir _ _ _ _ _ _ Hf Hr) as (_ & _ & (_ & Hv & _ & [Hty _] & _)). unfold fs_vop, mbind, M_bind, get, deref. cbn. unfold sfs_ops. rewrite Hv. cbn. by rewrite Hty.
Qed.

Lemma vop_file {A} (call : forall S, vnode_ops S -> Z -> M S A) e a v : svs e !! a = Some v -> sfi_type (sv_i v) = SFS_TYPE_FILE -> fs_vop a call e = call sfs_fs (sfs_fileops curas) a e.
Proof. intros Hv Hty. unfold fs_vop, mbind, M_bind, get, deref. cbn. unfold sfs_ops. rewrite Hv. cbn. by rewrite Hty. Qed.

(** ** The directory of a path: the root, and the rest is the name *)

Lemma walkparent_spec R e F m path : fsys R e F m -> path <> [] ->
  exists r a e', fs_walkparent path (NAME_MAX + 1) e = Done (r, a, if r =? 0 then path else []) e' /\ fsys R e' F m /\ bytes_kept ∅ e e' F /\
    (r = 0 /\ (exists v, root_at e' a v) \/ (r = EIO \/ r = ENOMEM \/ r = ENAMETOOLONG /\ 255 < Z.of_nat (length path))).
Proof.
  intros Hf Hne. destruct (getroot_spec R e F m Hf) as (r & root & e1 & He & Hf1 & Hb1 & Hr). unfold fs_walkparent. mrun He. assert (Hk1 : bytes_kept ∅ e e1 F) by (by apply bytes_kept_block).
  destruct Hr as [[-> [v Hv]]|Hr].
  2:{ replace (negb (r =? 0)) with true by (by destruct Hr as [-> | ->]). exists r, 0, e1. replace (r =? 0) with false by (by destruct Hr as [-> | ->]). split_and!; [done|done|done|]. right. tauto. }
  cbn [negb Z.eqb]. rewrite bool_decide_eq_false_2 by done. pose proof Hv as [Hsv Hino]. destruct (fsys_dir _ _ _ _ _ _ Hf1 Hv) as (_ & _ & (_ & _ & _ & [Hty _] & _)).
  assert (Hlp : fs_vop root (fun S ops x => vop_lookparent ops x path (NAME_MAX + 1)) e1 = sfs_lookparent root path (NAME_MAX + 1) e1) by (by rewrite (vop_root _ R e1 F m root v Hf1 Hv)).
  unfold sfs_lookparent in Hlp. rewrite (bind_ret _ _ _ _ _ (get_sv_spec e1 root v Hsv)), Hty in Hlp. change (negb (SFS_TYPE_DIR =? SFS_TYPE_DIR)) with false in Hlp. cbv iota in Hlp.
  change (NAME_MAX + 1) with 256 in *. destruct (Z.ltb_spec 256 (Z.of_nat (length path) + 1)) as [Hlen|Hlen].
  - mrun Hlp. destruct (decref_root R e1 F m root v Hf1 Hv) as (e2 & He2 & Hf2 & Hb2 & _). change (fs_decref root e1) with (vnode_decref curas root e1). mrun He2. exists ENAMETOOLONG, 0, e2.
    split_and!; [done|done|by apply (bytes_kept_trans ∅ e e1 e2 F F)|]. right. right. right. split; [done|lia].
  - set (e2 := set_svs (<[root := set_refcount (vn_refcount v + 1) v]> (svs e1)) e1).
    assert (Hi : vnode_incref root e1 = Done tt e2) by (unfold vnode_incref; mrun (get_sv_spec e1 root v Hsv); apply (update_sv_spec e1 root v _ Hsv)).
    rewrite (bind_ret _ _ _ _ _ Hi) in Hlp. mrun Hlp. pose proof (fy_vol _ _ _ _ Hf1) as HV1. destruct (ca_vnode _ _ (proj2 HV1) root v Hsv) as (_ & Hrc & _).
    assert (Hf2 : fsys R e2 F m).
    { apply (fsys_frame R e1); [done|apply vol_refcount; [done|done|lia]|by apply bytes_kept_block|].
      intros x w Hx. destruct (decide (x = root)) as [->|Hxr]; [|exists x, w; cbn; by rewrite lookup_insert_ne]. eexists root, _. split; [apply lookup_insert_eq|]. by simplify_eq. }
    set (v2 := set_refcount (vn_refcount v + 1) v) in *. assert (Hv2 : root_at e2 root v2) by (split; [apply lookup_insert_eq|done]).
    destruct (decref_fsys curas R e2 F m root v2 Hf2 (proj1 Hv2)) as (e3 & F3 & He3 & Hf3 & Hrel). change (fs_decref root e2) with (vnode_decref curas root e2). mrun He3.
    destruct Hrel as [H1 Hs Hb|H1 _ _ _|H1 _ _ _|v' H1 _ _ _ _ _ _ _ _]; [|cbn in H1; lia..]. exists 0, root, e3. split_and!; [done|done| |].
    + apply (bytes_kept_trans ∅ e e1 e3 F F); [done| |done]. apply (bytes_kept_trans ∅ e1 e2 e3 F F); [by apply bytes_kept_block|done|done].
    + left. split; [done|]. eexists. split; [rewrite Hs; apply lookup_insert_eq|done].
Qed.

(** ** Opening *)

(** A file is opened without a further check. *)
Lemma opened_file e a v flags : svs e !! a = Some v -> sfi_type (sv_i v) = SFS_TYPE_FILE -> Z.land flags O_TRUNC = 0 -> fs_opened a flags e = Done (0, a) e.
Proof.
  intros Hv Hty Htr. unfold fs_opened. assert (He : fs_vop a (fun S ops x => vop_eachopen ops x flags) e = Done 0 e) by (by rewrite (vop_file _ e a v Hv Hty)).
  mrun He. cbn [negb Z.eqb]. rewrite Htr. by cbn [negb Z.eqb].
Qed.

Lemma named_file R e F m a v name ino k : fsys R e F m -> svs e !! a = Some v -> sv_ino v = ino -> m !! name = Some (ino, k) -> sfi_type (sv_i v) = SFS_TYPE_FILE.
Proof.
  intros Hf Hv Hino Hm. destruct (fy_name _ _ _ _ Hf _ _ _ Hm) as [Hne _]. subst ino. pose proof (changed_self R a e v F (fy_vol _ _ _ _ Hf) Hv) as Hself.
  by destruct (fy_file _ _ _ _ Hf _ _ Hself Hne).
Qed.

(** The file of a name, found in the directory. *)
Definition names (m : dirmap) (name : list Z) (e : sfs_fs) (a : Z) : Prop := exists v ino k, svs e !! a = Some v /\ sv_ino v = ino /\ m !! name = Some (ino, k).

Lemma names_other m name e e' a : names m name e a -> svs e' !! a = svs e !! a -> names m name e' a.
Proof. intros (v & ino & k & Hv & H) Hs. exists v, ino, k. by rewrite Hs. Qed.

(** Giving up the root's reference leaves the vnode of a named file. *)
Lemma drop_root R e F m name a root rv : fsys R e F m -> root_at e root rv -> names m name e a ->
  exists e', vnode_decref curas root e = Done tt e' /\ fsys R e' F m /\ bytes_kept ∅ e e' F /\ names m name e' a.
Proof.
  intros Hf Hr Hn. destruct (decref_root R e F m root rv Hf Hr) as (e' & He & Hf' & Hb & Hs). exists e'. split_and!; [done|done|done|]. eapply names_other; [exact Hn|]. apply Hs.
  destruct Hn as (v & ino & k & Hv & Hino & Hm). intros ->. destruct Hr as [Hr Hri]. destruct (fy_name _ _ _ _ Hf _ _ _ Hm) as [Hne _]. congruence.
Qed.

(** The root's vnode is still there. *)
Lemma shape_root s a c : shape s !! a = Some (SFS_ROOTDIR_INO, c) -> exists v, root_at s a v.
Proof. unfold shape. rewrite lookup_fmap_Some. intros (v & Hk & Hv). exists v. split; [done|]. by injection Hk. Qed.
Lemma root_shape s a v : root_at s a v -> exists c, shape s !! a = Some (SFS_ROOTDIR_INO, c).
Proof. intros [Hv Hi]. exists (vn_refcount v). unfold shape. rewrite lookup_fmap, Hv. cbn. unfold vnode_key. by rewrite Hi. Qed.
Lemma root_taken s s' a v sv ino : root_at s a v -> taken sv ino s s' -> exists w, root_at s' a w.
Proof.
  intros Hr [Hs Hi]. destruct (root_shape s a v Hr) as [c Hc]. destruct (decide (a = sv)) as [->|Hne].
  - specialize (Hi _ Hc). cbn in Hi. subst ino. eapply shape_root. rewrite Hs. apply lookup_insert_eq.
  - eapply shape_root. rewrite Hs, lookup_insert_ne by done. exact Hc.
Qed.
Lemma root_balanced s s' a v : root_at s a v -> balanced s s' -> exists w, root_at s' a w.
Proof.
  intros Hr Hb. destruct (root_shape s a v Hr) as [c Hc]. destruct Hb as [Hs|(sv & ino & Hn & Hs)]; (eapply shape_root; rewrite Hs; [exact Hc || (rewrite lookup_insert_ne; [exact Hc|congruence])]).
Qed.

Definition disk_error (F : gmap Z dinode) (r : Z) : Prop := r = EIO \/ r = ENOMEM \/ r = ENOSPC \/ r = EFBIG /\ dir_full F.

(** The file at [name] was opened: the one there was, or a new one, empty. *)
Definition created (F : gmap Z dinode) (m : dirmap) (F' : gmap Z dinode) (m' : dirmap) (name : list Z) : Prop :=
  m !! name = None /\ exists ino k i, F !! ino = None /\ dom F' = {[ino]} ∪ dom F /\ m' = <[name := (ino, k)]> m /\ F' !! ino = Some i /\ sfi_size i = 0 /\ sfi_linkcount i = 1.

Lemma files_kept_bytes X e F e1 e2 F' : bytes_kept ∅ e e1 F -> files_kept X e1 F e2 F' -> files_kept X e F e2 F'.
Proof. intros Hb Hk. eapply files_kept_trans; [|exact Hk]. apply files_kept_same. intros ino i k Hi _. apply (Hb ino i k Hi). set_solver. Qed.

Lemma bytes_after X e F e1 F1 e2 : files_kept X e F e1 F1 -> bytes_kept ∅ e1 e2 F1 -> files_kept X e F e2 F1.
Proof. intros Hk Hb. eapply files_kept_trans; [exact Hk|]. apply files_kept_same. intros ino i k Hi _. apply (Hb ino i k Hi). set_solver. Qed.

Lemma fs_creat_spec R e F m name excl : fsys R e F m -> name <> [] -> cstr name ->
  exists r a e' F' m', fs_creat name excl e = Done (r, a) e' /\ fsys R e' F' m' /\ files_kept {[SFS_ROOTDIR_INO]} e F e' F' /\
    (r = 0 /\ names m' name e' a /\ (excl = false /\ m' = m /\ F' = F \/ created F m F' m' name) \/
     (r = EEXIST /\ excl = true /\ m !! name <> None \/ r = ENAMETOOLONG /\ 59 < Z.of_nat (length name) \/ disk_error F r) /\ m' = m /\ dom F' = dom F).
Proof.
  intros Hf Hne Hc. destruct (walkparent_spec R e F m name Hf Hne) as (r & root & e1 & He & Hf1 & Hb1 & Hr). unfold fs_creat. mrun He. destruct Hr as [[-> [v Hv]]|Hr].
  2:{ replace (negb (r =? 0)) with true by (by destruct Hr as [-> |[-> |[-> _]]]). exists r, 0, e1, F, m. split_and!; [done|done|apply files_kept_same; intros ino i k Hi _; apply (Hb1 ino i k Hi); set_solver|].
      right. split; [|done]. unfold disk_error. destruct Hr as [|[|[? ?]]]; [tauto|tauto|]. right. left. split; [done|lia]. }
  cbn [negb Z.eqb]. assert (Hvop : fs_vop root (fun S ops x => vop_creat ops x name excl) e1 = sfs_creat curas root name excl e1) by (by rewrite (vop_root _ R e1 F m root v Hf1 Hv)).
  destruct (creat_spec curas R e1 F m root v name excl Hf1 Hv Hc) as (r & a & e2 & F2 & m2 & He2 & Hf2 & Hk2 & Hres). rewrite He2 in Hvop. mrun Hvop.
  destruct (creat_shape curas root name excl e1 r a e2 (fsys_counted _ _ _ _ Hf1) He2) as [[-> [ino0 Ht]]|[Hr Hbal]].
  - destruct (root_taken e1 e2 root v a ino0 Hv Ht) as [w Hw].
    assert (Hn : names m2 name e2 a /\ (excl = false /\ m2 = m /\ F2 = F \/ created F m F2 m2 name)).
    { destruct Hres as [(_ & -> & -> & -> & ino & k & x & Hm & Hx & Hxi)|[(_ & Hm & ino & k & i & Hn & Hd & -> & Hi & Hz & Hl & Hsv)|[Hr _]]].
      - split; [|left; done]. by exists x, ino, k.
      - split; [exists (mkSv i ino true 1), ino, k; split_and!; [done|done|apply lookup_insert_eq]|]. right. split; [done|]. exists ino, k, i. done.
      - exfalso. destruct Hr as [[? _]|[[? _]|[?|[?|[?|[? _]]]]]]; done. }
    destruct Hn as [Hn Hcase]. destruct (drop_root R e2 F2 m2 name a root w Hf2 Hw Hn) as (e3 & He3 & Hf3 & Hb3 & Hn3). change (fs_decref root e2) with (vnode_decref curas root e2). mrun He3.
    exists 0, a, e3, F2, m2. split_and!; [done|done| |left; done]. eapply bytes_after; [|exact Hb3]. by eapply files_kept_bytes.
  - destruct (root_balanced e1 e2 root v Hv Hbal) as [w Hw]. destruct (decref_root R e2 F2 m2 root w Hf2 Hw) as (e3 & He3 & Hf3 & Hb3 & _). change (fs_decref root e2) with (vnode_decref curas root e2). mrun He3.
    exists r, a, e3, F2, m2. split_and!; [done|done|eapply bytes_after; [|exact Hb3]; by eapply files_kept_bytes|]. right.
    destruct Hres as [(-> & _)|[(-> & _)|[Hr' Hm]]]; [done|done|]. split; [|done]. unfold disk_error. tauto.
Qed.

Lemma fs_walk_spec R e F m name : fsys R e F m -> name <> [] ->
  exists r a e', fs_walk name e = Done (r, a) e' /\ fsys R e' F m /\ bytes_kept ∅ e e' F /\ (r = 0 /\ names m name e' a \/ (r = ENOENT /\ m !! name = None \/ disk_error F r)).
Proof.
  intros Hf Hne. destruct (getroot_spec R e F m Hf) as (r & root & e1 & He & Hf1 & Hb1 & Hr). unfold fs_walk. mrun He. assert (Hk1 : bytes_kept ∅ e e1 F) by (by apply bytes_kept_block).
  destruct Hr as [[-> [v Hv]]|Hr].
  2:{ replace (negb (r =? 0)) with true by (by destruct Hr as [-> | ->]). exists r, 0, e1. split_and!; [done|done|done|]. right. right. unfold disk_error. tauto. }
  cbn [negb Z.eqb]. rewrite bool_decide_eq_false_2 by done.
  assert (Hvop : fs_vop root (fun S ops x => vop_lookup ops x name) e1 = sfs_lookup curas root name e1) by (by rewrite (vop_root _ R e1 F m root v Hf1 Hv)).
  destruct (lookup_spec curas R e1 F m root v name Hf1 Hv) as (r & a & e2 & He2 & Hf2 & Hk2 & Hres). rewrite He2 in Hvop. mrun Hvop.
  assert (Hk : bytes_kept ∅ e e2 F). { intros ino i k Hi HX Hkr. destruct (Hk2 ino i Hi HX) as (i' & Hi' & _ & Hb). simplify_eq. rewrite Hb by done. by apply (Hk1 ino i k). }
  destruct Hres as [(-> & ino & k & w & Hm & Hw & Hwi & _)|[Hr Hs]].
  - assert (Hroot : exists x, root_at e2 root x). { destruct (lookup_shape curas root name e1 0 a e2 He2) as [[_ [i0 Ht]]|[? _]]; [by eapply root_taken|done]. }
    destruct Hroot as [x Hx]. destruct (drop_root R e2 F m name a root x Hf2 Hx) as (e3 & He3 & Hf3 & Hb3 & Hn3); [by exists w, ino, k|]. change (fs_decref root e2) with (vnode_decref curas root e2). mrun He3.
    exists 0, a, e3. split_and!; [done|done| |left; done]. by apply (bytes_kept_trans ∅ e e2 e3 F F).
  - assert (Hx : root_at e2 root v) by (split; [rewrite Hs; apply Hv|apply Hv]). destruct (decref_root R e2 F m root v Hf2 Hx) as (e3 & He3 & Hf3 & Hb3 & _). change (fs_decref root e2) with (vnode_decref curas root e2). mrun He3.
    exists r, a, e3. split_and!; [done|done|by apply (bytes_kept_trans ∅ e e2 e3 F F)|]. right. unfold disk_error. tauto.
Qed.

(** How a file may be opened, without being truncated. *)
Definition flags_ok (flags : Z) : Prop :=
  (Z.land flags O_ACCMODE = O_RDONLY \/ Z.land flags O_ACCMODE = O_WRONLY \/ Z.land flags O_ACCMODE = O_RDWR) /\ Z.land flags O_TRUNC = 0.

Lemma fs_open_spec R e F m name flags : fsys R e F m -> name <> [] -> cstr name -> flags_ok flags ->
  exists r a e' F' m', fs_open name flags e = Done (r, a) e' /\ fsys R e' F' m' /\ files_kept {[SFS_ROOTDIR_INO]} e F e' F' /\
    (r = 0 /\ names m' name e' a /\ (m' = m /\ F' = F /\ (Z.land flags O_CREAT <> 0 -> Z.land flags O_EXCL = 0) \/ Z.land flags O_CREAT <> 0 /\ created F m F' m' name) \/
     (r = ENOENT /\ m !! name = None /\ Z.land flags O_CREAT = 0 \/ r = EEXIST /\ m !! name <> None /\ Z.land flags O_EXCL <> 0 \/
      r = ENAMETOOLONG /\ 59 < Z.of_nat (length name) \/ disk_error F r) /\ m' = m /\ dom F' = dom F).
Proof.
  intros Hf Hne Hc [Hacc Htr]. unfold fs_open.
  replace (negb _) with false by (destruct Hacc as [-> |[-> | ->]]; reflexivity). cbv iota.
  assert (Hfin : forall e' F' m' a, fsys R e' F' m' -> names m' name e' a -> fs_opened a flags e' = Done (0, a) e').
  { intros e' F' m' a Hf' (v & ino & k & Hv & Hino & Hm). apply (opened_file e' a v); [done| |done]. by apply (named_file R e' F' m' a v name ino k). }
  destruct (Z.eqb_spec (Z.land flags O_CREAT) 0) as [Hcr|Hcr]; cbn [negb].
  - destruct (fs_walk_spec R e F m name Hf Hne) as (r & a & e' & He & Hf' & Hb & Hr). mrun He.
    assert (Hk : files_kept {[SFS_ROOTDIR_INO]} e F e' F) by (apply files_kept_same; intros ino i k Hi _; apply (Hb ino i k Hi); set_solver).
    destruct Hr as [[-> Hn]|Hr].
    + cbn [negb Z.eqb]. exists 0, a, e', F, m. split_and!; [by apply (Hfin e' F m)|done|done|]. left. split_and!; [done|done|left; done].
    + replace (negb (r =? 0)) with true by (by unfold disk_error in Hr; destruct Hr as [[-> _]|[-> |[-> |[-> |[-> _]]]]]). exists r, 0, e', F, m. split_and!; [done|done|done|]. right. split; [tauto|done].
  - destruct (fs_creat_spec R e F m name (negb (Z.land flags O_EXCL =? 0)) Hf Hne Hc) as (r & a & e' & F' & m' & He & Hf' & Hk & Hr). mrun He.
    destruct Hr as [(-> & Hn & Hcase)|[Hr Hm]].
    + cbn [negb Z.eqb]. exists 0, a, e', F', m'. split_and!; [by apply (Hfin e' F' m')|done|done|]. left. split_and!; [done|done|].
      destruct Hcase as [(Hx & -> & ->)|Hcr2]; [left|right; done]. split_and!; [done|done|]. intros _. destruct (Z.eqb_spec (Z.land flags O_EXCL) 0); [done|done].
    + replace (negb (r =? 0)) with true by (by unfold disk_error in Hr; destruct Hr as [[-> _]|[[-> _]|[-> |[-> |[-> |[-> _]]]]]]). exists r, 0, e', F', m'. split_and!; [done|done|done|].
      right. split; [|done]. destruct Hr as [(-> & Hx & Hm0)|[Hr|Hr]]; [right; left|tauto|tauto]. split_and!; [done|done|]. by destruct (Z.eqb_spec (Z.land flags O_EXCL) 0).
Qed.

Lemma fs_remove_spec R e F m name : fsys R e F m -> name <> [] ->
  exists r e' F' m', fs_remove name e = Done r e' /\ fsys R e' F' m' /\
    (r = 0 /\ (exists ino k, m !! name = Some (ino, k) /\ m' = delete name m /\ files_kept {[SFS_ROOTDIR_INO; ino]} e F e' F' /\ (dom F' = dom F \/ links m ino = 1 /\ dom F' = dom F ∖ {[ino]})) \/
     (r = ENOENT /\ m !! name = None \/ r = ENAMETOOLONG /\ 255 < Z.of_nat (length name) \/ disk_error F r) /\ m' = m /\ files_kept {[SFS_ROOTDIR_INO]} e F e' F' /\ dom F' = dom F).
Proof.
  intros Hf Hne. destruct (walkparent_spec R e F m name Hf Hne) as (r & root & e1 & He & Hf1 & Hb1 & Hr). unfold fs_remove. mrun He. destruct Hr as [[-> [v Hv]]|Hr].
  2:{ replace (negb (r =? 0)) with true by (by destruct Hr as [-> |[-> |[-> _]]]). exists r, e1, F, m. split_and!; [done|done|]. right. split; [unfold disk_error; tauto|]. split_and!; [done| |done].
      apply files_kept_same. intros ino i k Hi _. apply (Hb1 ino i k Hi). set_solver. }
  cbn [negb Z.eqb]. assert (Hvop : fs_vop root (fun S ops x => vop_remove ops x name) e1 = sfs_remove curas root name e1) by (by rewrite (vop_root _ R e1 F m root v Hf1 Hv)).
  destruct (remove_spec curas R e1 F m root v name Hf1 Hv) as (r & e2 & F2 & m2 & He2 & Hf2 & Hres). rewrite He2 in Hvop. mrun Hvop.
  pose proof (remove_shape curas root name e1 r e2 (fsys_counted _ _ _ _ Hf1) He2) as Hbal. destruct (root_balanced e1 e2 root v Hv Hbal) as [w Hw].
  destruct (decref_root R e2 F2 m2 root w Hf2 Hw) as (e3 & He3 & Hf3 & Hb3 & _). change (fs_decref root e2) with (vnode_decref curas root e2). mrun He3.
  exists r, e3, F2, m2. split_and!; [done|done|]. assert (Hk : forall X, files_kept X e1 F e2 F2 -> files_kept X e F e3 F2) by (intros X HX; eapply bytes_after; [|exact Hb3]; by eapply files_kept_bytes).
  destruct Hres as [(-> & ino & k & i & Hm & Hi & -> & Hcase)|(Hr & -> & Hk2 & Hd)]; [left|right].
  - split; [done|]. exists ino, k. split_and!; [done|done| |].
    + apply Hk. destruct Hcase as [(_ & Hk2 & _)|(_ & _ & Hk2 & _)]; [|done]. eapply files_kept_weaken; [|exact Hk2]. set_solver.
    + destruct Hcase as [(_ & _ & Hd)|(Hl & _ & _ & [Hd|(_ & Hd & _)])]; [by left|by right|by left].
  - split_and!; [unfold disk_error; tauto|done|by apply Hk|done].
Qed.

(** ** Where the errors come from *)

Lemma runs_vop {A} k code a (call : forall S, vnode_ops S -> Z -> M S A) :
  runs k code (call sfs_fs (sfs_dirops curas) a) -> runs k code (call sfs_fs (sfs_fileops curas) a) -> runs k code (fs_vop a call).
Proof.
  intros Hd Hf s Hc x s' H. unfold fs_vop in H. apply bind_Done in H as (e & s1 & E1 & H). inversion E1; subst. apply bind_Done in H as (tab & s2 & E2 & H).
  cbn in E2. unfold sfs_ops in E2. destruct (svs s1 !! a) as [v|]; [|done]. cbn in E2. destruct (_ =? SFS_TYPE_FILE); [inversion E2; subst; by apply Hf|].
  destruct (_ =? SFS_TYPE_DIR); [inversion E2; subst; by apply Hd|done].
Qed.

Lemma runs_fs_decref a : runs 0 fine (fs_decref a).
Proof. apply (runs_decref curas). Qed.
#[local] Hint Resolve runs_fs_decref : runs.

Lemma runs_walkparent path len : runs 0 (fun x => x.1.1) (fs_walkparent path len).
Proof.
  assert (Hv : forall a, runs 0 (fun x => x.1.1) (fs_vop a (fun S ops x => vop_lookparent ops x path len))).
  { intros a. apply runs_vop; cbn; unfold sfs_lookparent, vopfail_lookparent_notdir; follow. }
  unfold fs_walkparent. change FSOP_GETROOT with (sfs_getroot curas). follow.
Qed.

Lemma runs_fs_walk path : runs 0 fst (fs_walk path).
Proof.
  assert (Hv : forall a, runs 0 fst (fs_vop a (fun S ops x => vop_lookup ops x path))).
  { intros a. apply runs_vop; cbn; [apply runs_lookup|unfold vopfail_lookup_notdir; follow]. }
  unfold fs_walk. change FSOP_GETROOT with (sfs_getroot curas). follow.
Qed.

Lemma runs_fs_creat path excl : runs 3 fst (fs_creat path excl).
Proof.
  assert (Hv : forall a name, runs 3 fst (fs_vop a (fun S ops x => vop_creat ops x name excl))).
  { intros a name. apply runs_vop; cbn; [apply runs_creat|unfold vopfail_creat_notdir; follow]. }
  unfold fs_creat. pose proof (runs_walkparent path (NAME_MAX + 1)) as Hw. follow.
Qed.

Lemma runs_fs_opened a flags : runs 0 fst (fs_opened a flags).
Proof.
  assert (He : runs 0 id (fs_vop a (fun S ops x => vop_eachopen ops x flags))).
  { apply runs_vop; cbn; [unfold sfs_eachopendir; destruct (_ =? O_RDONLY), (Z.land flags O_APPEND =? 0)|unfold sfs_eachopen]; follow. }
  assert (Ht : runs 0 id (fs_vop a (fun S ops x => vop_truncate ops x 0))).
  { apply runs_vop; cbn; [unfold vopfail_truncate_isdir; follow|apply runs_itrunc]. }
  unfold fs_opened. follow.
Qed.

Lemma runs_fs_open path flags : runs 3 fst (fs_open path flags).
Proof.
  pose proof (runs_fs_walk path) as Hw. pose proof (runs_fs_creat path (negb (Z.land flags O_EXCL =? 0))) as Hc. pose proof (fun a => runs_fs_opened a flags) as Ho.
  unfold fs_open. follow.
Qed.

(** ** Through the layer *)

Local Notation vfs := (vfs (F := sfs_fs) (D := lhd)).

(** The volume [e] of a file system that is mounted on the device called [dev]. *)
Record mounted (s : vfs) (dev : list Z) (f : Z) (e : sfs_fs) : Prop := {
  mo_leads : leads s dev f;
  mo_vol : fss s !! f = Some e
}.

Lemma via_done {A B} (s : vfs) f e (n : M sfs_fs A) (h : A -> B) a e' : fss s !! f = Some e -> n e = Done a e' -> via f n h s = Done (h a) (put_fs f e' s).
Proof. intros He Hn. unfold via, on_fs, zoom, mbind, M_bind. by rewrite He, Hn. Qed.

Lemma skip_none name : head name <> Some SLASH -> skip_slashes name = name.
Proof. destruct name as [|c l]; [done|]. cbn. by destruct (Z.eqb_spec c SLASH) as [->|]. Qed.


(** [vfs_remove] of [device:name] on a mounted SFS volume: the name goes, and its file
    with its blocks when that was its last name; ENOENT when there is no such name; an error
    leaves every name.  The volume stays consistent, no other file changes, and nothing of
    the layer's state changes but that volume. *)
Theorem vfs_remove_sfs s dev f e R F m name : mounted s dev f e -> fsys R e F m -> name <> [] -> head name <> Some SLASH ->
  exists r e' F' m', vfs_remove (dev_path dev name) s = Done r (put_fs f e' s) /\ fsys R e' F' m' /\
    (r = 0 /\ (exists ino k, m !! name = Some (ino, k) /\ m' = delete name m /\ files_kept {[SFS_ROOTDIR_INO; ino]} e F e' F' /\ (dom F' = dom F \/ links m ino = 1 /\ dom F' = dom F ∖ {[ino]})) \/
     (r = ENOENT /\ m !! name = None \/ r = ENAMETOOLONG /\ 255 < Z.of_nat (length name) \/ disk_error F r) /\ m' = m /\ files_kept {[SFS_ROOTDIR_INO]} e F e' F' /\ dom F' = dom F).
Proof.
  intros [Hl He] Hf Hne Hsl. destruct (fs_remove_spec R e F m name Hf Hne) as (r & e' & F' & m' & Ho & Hf' & Hr).
  assert (Hs : sim f (fun a b => b = id a) (fs_remove (skip_slashes name)) (vfs_remove (dev_path dev name)) s) by (eapply sim_mono; [by apply sim_remove|]; by intros a b ->).
  apply sim_via in Hs. rewrite (skip_none name Hsl), (via_done s f e _ _ _ _ He Ho) in Hs. exists r, e', F', m'. split_and!; [exact Hs|done|done].
Qed.

(** ** Unmounting and mounting *)

Lemma findmount_is (s : vfs) i kd : names_unique s -> knowndevs s !! i = Some kd -> kd_rawname kd <> None -> findmount (kd_name kd) s = Done (Some i) s.
Proof.
  intros Hu Hi Hr. unfold findmount. rewrite (bind_ret _ _ _ _ _ (eq_refl : gets knowndevs s = Done (knowndevs s) s)).
  assert (Hfind : list_find (fun k => kd_rawname k <> None /\ kd_name kd = kd_name k) (knowndevs s) = Some (i, kd)).
  { apply list_find_Some. split; [done|split; [done|]]. intros j y Hj Hlt [_ Hn]. assert (j = i); [|lia]. apply (Hu j i y kd (kd_name kd)); [done|done|apply elem_of_names; auto..]. }
  by rewrite Hfind.
Qed.

Lemma get_kd_is (s : vfs) i kd : knowndevs s !! i = Some kd -> get_kd i s = Done kd s.
Proof. intros Hi. unfold get_kd, mbind, M_bind, get. by rewrite Hi. Qed.

(** The state after the volume [e] of device [d], entry [i], was unmounted. *)
Definition unmounted (s : vfs) (i : nat) (f d : Z) (e : sfs_fs) : vfs :=
  mkVfs (alter (set_kd_fs NO_FS) i (knowndevs s)) (alter (set_data (sfs_device e)) d (devices s)) (dev_vnodes s) (delete f (fss s)) (bootfs_vnode s) (p_cwd s).

Lemma unmount_runs s i kd f d e R F m : names_unique s -> knowndevs s !! i = Some kd -> kd_rawname kd <> None -> kd_device kd = Some d -> kd_fs kd = MOUNTED f ->
  fss s !! f = Some e -> fsys R e F m -> svs e = ∅ ->
  exists e', vfs_unmount (kd_name kd) s = Done 0 (unmounted s i f d e') /\ fsys R e' F m /\ bytes_kept ∅ e e' F /\ svs e' = ∅ /\ sfs_synced e'.
Proof.
  intros Hu Hi Hr Hd Hf He Hfs Hsv. destruct (sync_spec curas R e F m Hfs) as (e' & Hsync & Hf' & Hb & Hs' & Hcl & _). rewrite Hsv, fmap_empty in Hs'.
  exists e'. assert (Hsup : sfs_superdirty e' = false) by (destruct (fy_vol _ _ _ _ Hf') as [HS _]; by destruct (st_super _ _ _ HS)). split_and!; [|done|done|done|done].
  pose proof (unmount_idle R e' F m Hf' Hs' Hcl) as Hun. unfold vfs_unmount. mrun (findmount_is s i kd Hu Hi Hr). mrun (get_kd_is s i kd Hi). rewrite Hf.
  mrun (kassert_true "kd->kd_rawname != NULL" (bool_decide (kd_rawname kd <> None)) s ltac:(by apply bool_decide_eq_true)).
  mrun (kassert_true "kd->kd_device != NULL" (bool_decide (kd_device kd <> None)) s ltac:(apply bool_decide_eq_true; congruence)).
  set (s1 := put_fs f e' s). assert (H1 : on_fs f FSOP_SYNC s = Done 0 s1) by (unfold on_fs, zoom; rewrite He; change (FSOP_SYNC e) with (sfs_sync curas e); by rewrite Hsync).
  mrun H1. cbn [negb Z.eqb]. unfold fs_unmount. assert (H2 : on_fs f FSOP_UNMOUNT s1 = Done 0 (put_fs f e' s)).
  { unfold on_fs, zoom. cbn. rewrite lookup_insert_eq. change (FSOP_UNMOUNT e') with (sfs_unmount e'). rewrite Hun. unfold s1, put_fs, set_fss. cbn. by rewrite insert_insert_eq. }
  assert (H3 : fs_unmount kd f s1 = Done 0 (mkVfs (knowndevs s) (alter (set_data (sfs_device e')) d (devices s)) (dev_vnodes s) (delete f (fss s)) (bootfs_vnode s) (p_cwd s))).
  { unfold fs_unmount. mrun H2. cbn [negb Z.eqb]. mpure. cbn. rewrite Hd, lookup_insert_eq. cbn. unfold set_fss, set_devices. cbn. by rewrite delete_insert_eq. }
  unfold fs_unmount in H3. mrun H3. cbn [negb Z.eqb]. done.
Qed.

(** From [s] to [s'] an operation of the disk of device [d] failed. *)
Definition device_failed (d : Z) (s s' : vfs) : Prop :=
  exists dv dv', devices s !! d = Some dv /\ devices s' !! d = Some dv' /\ failed (lh_ops (d_data dv)) (lh_ops (d_data dv')).

(** The entry of the device, and the device, are free. *)
Lemma mount_runs s i kd d dv R F m mm addr : names_unique s -> table_ok (knowndevs s) -> knowndevs s !! i = Some kd -> kd_rawname kd <> None -> kd_device kd = Some d -> kd_fs kd = NO_FS ->
  devices s !! d = Some dv -> holds_volume (d_data dv) R F m ->
  exists r s' d', sfs_mount curas mm addr (kd_name kd) s = Done r s' /\
    (r = 0 /\ (exists e, fss s' !! addr = Some e /\ knowndevs s' !! i = Some (set_kd_fs (MOUNTED addr) kd) /\ sfs_device e = d' /\ fsys R e F m /\ (forall x, block e x = sectors (d_data dv) x)) \/
     (r = EIO /\ device_failed d s s' \/ r = ENOMEM /\ (ok_fs mm && ok_vnodes mm && ok_map mm && ok_mapdata mm) = false) /\ knowndevs s' = knowndevs s /\ fss s' = fss s).
Proof.
  intros Hu Ht Hi Hr Hd Hf Hdv (e & Hfs & Hsv & [_ Hcl] & Hdev). destruct (mount_spec curas R e F mm (fy_vol _ _ _ _ Hfs) Hcl) as (r & o & d' & He & Hq & Hres). rewrite Hdev in He, Hq.
  assert (Hfree : mounted_on d s = None).
  { unfold mounted_on. destruct (list_find _ _) as [[j k]|] eqn:El; [|done]. apply list_find_Some in El as (Hj & Hk & _). assert (j = i) as ->.
    { destruct (decide (j = i)) as [|Hne]; [done|]. destruct (Ht j i k kd Hj Hi Hne) as [_ Hdd]. by destruct (Hdd d Hk). }
    rewrite Hi in Hj. injection Hj as <-. cbn. by rewrite Hf. }
  set (s1 := set_devices (alter (set_data d') d (devices s)) s).
  assert (Hmf : on_device d (sfs_mountfunc curas mm addr) s = Done (r, (addr,.) <$> o) s1).
  { unfold on_device. rewrite (bind_ret _ _ _ _ _ (eq_refl : gets (mounted_on d) s = Done (mounted_on d s) s)), Hfree. unfold zoom. rewrite Hdv. cbn. unfold sfs_mountfunc.
    by rewrite (bind_ret _ _ _ _ _ He). }
  unfold sfs_mount, vfs_mount. mrun (findmount_is s i kd Hu Hi Hr). mrun (get_kd_is s i kd Hi). rewrite Hf, bool_decide_eq_false_2 by (intros Hx; by apply Hx).
  mrun (kassert_true "kd->kd_rawname != NULL" (bool_decide (kd_rawname kd <> None)) s ltac:(by apply bool_decide_eq_true)).
  mrun (kassert_true "kd->kd_device != NULL" (bool_decide (kd_device kd <> None)) s ltac:(apply bool_decide_eq_true; congruence)).
  mrun (deref_spec "kd->kd_device" (kd_device kd) d s Hd). mrun Hmf. destruct Hres as [[-> [sb ->]]|[Hr' ->]].
  - cbn [negb Z.eqb fmap option_fmap option_map]. mrun (kassert_true "fs != NULL" (bool_decide (Some (addr, remounted e d' sb) <> None)) s1 eq_refl).
    mrun (deref_spec "fs" (Some (addr, remounted e d' sb)) (addr, remounted e d' sb) s1 eq_refl). eexists 0, _, d'. split; [reflexivity|]. left. split; [done|]. exists (remounted e d' sb). split_and!.
    + cbn. apply lookup_insert_eq.
    + cbn. by rewrite list_lookup_alter_eq, Hi.
    + done.
    + apply remounted_fsys; [done|done|done|by rewrite Hdev].
    + intros x. unfold block. cbn. by destruct Hq as (_ & _ & ->).
  - replace (negb (r =? 0)) with true by (by destruct Hr' as [[-> _]|[-> _]]). exists r, s1, d'. split; [done|]. right. split; [|done].
    destruct Hr' as [[-> Hfl]|?]; [left|by right]. split; [done|]. exists dv, (set_data d' dv). split_and!; [done|cbn; by rewrite lookup_alter_eq, Hdv|]. rewrite Hdev in Hfl. exact Hfl.
Qed.

(** The other names stay apart. *)
Lemma unmounted_unique s i kd f d e : names_unique s -> table_ok (knowndevs s) -> knowndevs s !! i = Some kd -> kd_fs kd = MOUNTED f -> names_unique (unmounted s i f d e).
Proof.
  intros Hu Ht Hi Hf.
  assert (Hold : forall j k', knowndevs (unmounted s i f d e) !! j = Some k' -> exists k, knowndevs s !! j = Some k /\ forall x, x ∈ kd_names (unmounted s i f d e) k' -> x ∈ kd_names s k).
  { intros j k' Hj. cbn in Hj. destruct (decide (j = i)) as [->|Hne].
    - rewrite list_lookup_alter_eq, Hi in Hj. injection Hj as <-. exists kd. split; [done|]. intros x. rewrite !elem_of_names. intros [E|E]; [discriminate E|by right].
    - rewrite list_lookup_alter_ne in Hj by done. exists k'. split; [done|]. intros x. rewrite !elem_of_names. unfold vol_of. cbn. destruct (kd_fs k') as [| |g] eqn:Eg; [done|done|].
      rewrite lookup_delete_ne; [done|]. intros <-. destruct (Ht j i k' kd Hj Hi Hne) as [HT _]. by apply (HT f Eg). }
  intros a b ka kb x Ha Hb Hxa Hxb. destruct (Hold a ka Ha) as (ka' & Ha' & Hna). destruct (Hold b kb Hb) as (kb' & Hb' & Hnb). apply (Hu a b ka' kb' x); auto.
Qed.


End Paths.
End SfsPaths.
