(* ===== verification/ExampleVfs.v ===== *)
(** * A VFS layer with the example volume

    Two disks, the example volume on the first: the theorems about the layer are applied to
    it, after it was mounted by hand and after it was reached from boot. *)
From S2P Require Import Prelude Wp Bitmap Copyinout Uio Lhd Sfs SfsFormat SfsProofs SfsIo.
From S2P Require Import SfsTrunc SfsDir SfsVnops SfsVolume SfsObjects SfsRefs SfsTree SfsFsops.
From S2P Require Import ExampleVolume Vnode Vfs VfsProofs SfsVfs VfsTheorems VfsPaths SfsPaths.
Import Bitmap Copyinout Uio Lhd Sfs SfsFormat SfsProofs SfsIo SfsTrunc SfsDir SfsVnops SfsVolume SfsObjects SfsRefs SfsTree SfsFsops.
Import ExampleVolume ExampleTree Vnode Vfs VfsProofs SfsVfs VfsTheorems VfsPaths SfsPaths.

Module ExampleVfs.

#[local] Existing Instances good_disk good_laws heap heap_laws.
#[local] Hint Extern 0 (FileSystem sfs_fs _) => exact (sfs_fsops 0) : typeclass_instances.
#[local] Hint Extern 0 (DeviceOps lhd) => exact (lhd_devops 0) : typeclass_instances.
#[local] Hint Extern 0 (FileSystemLaws _) => exact (sfs_laws 0) : typeclass_instances.

Local Notation vfs := (vfs (F := sfs_fs) (D := lhd)).

Definition lhd0 : list Z := [108; 104; 100; 48].
Definition lhd1 : list Z := [108; 104; 100; 49].

(** The disks, before and after their entries were made. *)
Definition disk0 (n : Z) : device (D := lhd) := mkDev 64 512 n disk.
Definition devices0 (n : Z) : gmap Z (device (D := lhd)) := {[5 := disk0 n; 6 := disk0 0]}.
Definition kd0 (x : kfs) : knowndev := mkKd lhd0 (Some (mkrawname lhd0)) (Some 5) 0x2000 x.

(** The volume is mounted, nothing is open. *)
Definition running : vfs := mkVfs [kd0 (MOUNTED 7)] (devices0 1) {[0x2000 := mkDv 1 (Some 5)]} {[7 := closed]} None None.

Lemma closed_ok : sfs_ok closed [].
Proof.
  split; [exists ExampleTree.own, files, dir_map; exact closed_fsys|]. split; [|by intros a ?%not_elem_of_nil]. intros a. change (held a []) with 0. unfold kcount, shape. cbn [svs closed with_vnodes].
  rewrite lookup_fmap, lookup_empty. cbn [fmap option_fmap option_map default]. lia.
Qed.

Lemma closed_volume : holds_volume disk ExampleTree.own files dir_map.
Proof. exists closed. split; [exact closed_fsys|]. done. Qed.

Lemma running_ok : vfs_ok running [].
Proof.
  split.
  - intros f e He. cbn in He. apply lookup_singleton_Some in He as [<- <-]. exact closed_ok.
  - intros v b Hv. by apply not_elem_of_nil in Hv.
  - intros a dv Ha. cbn in Ha. apply lookup_singleton_Some in Ha as [<- <-]. done.
  - intros kd Hkd. apply list_elem_of_singleton in Hkd as ->. split; [exists (mkDv 1 (Some 5)); done|]. split; [intros d [= <-]; by eexists|]. split; [done|]. split; [done|]. intros f [= <-]. by eexists.
  - intros i j ki kj Hi Hj Hij. apply list_lookup_singleton_Some in Hi as [-> _], Hj as [-> _]. done.
  - done.
Qed.

Lemma running_unique : names_unique running.
Proof. intros i j ki kj x Hi Hj _ _. apply list_lookup_singleton_Some in Hi as [-> _], Hj as [-> _]. done. Qed.

Lemma lhd0_word : lhd0 <> [] /\ COLON ∉ lhd0 /\ SLASH ∉ lhd0.
Proof. split; [done|]. by split; apply (bool_decide_eq_true_1 _). Qed.

Lemma running_mounted : mounted 0 running lhd0 7 closed.
Proof.
  destruct lhd0_word as (H1 & H2 & H3). split; [|done].
  apply (mounted_leads running [] (kd0 (MOUNTED 7)) 7 lhd0 running_ok running_unique); [left|done|by left|done|done|done].
Qed.

(** From boot: the entry of the first disk, then the mount, then a file is opened. *)
Definition mem0 : add_memory := mkAdd true true 0x2000 true true.
Definition added : vfs := mkVfs [kd0 NO_FS] (devices0 1) {[0x2000 := mkDv 1 (Some 5)]} ∅ None None.
Definition op_add : vfs_op (F := sfs_fs) (D := lhd) := AddDev mem0 lhd0 5 true.
Definition op_mount : vfs_op (F := sfs_fs) (D := lhd) := Mount lhd0 (sfs_mountfunc 0 plenty 7).
Definition started : vfs := after (run op_mount) added.
Definition path_a : list Z := dev_path lhd0 name_a.

Lemma add_runs : run op_add (booted (devices0 0) ∅) = Done 0 added.
Proof. reflexivity. Qed.
Lemma op_mount_runs : returns 0 (run op_mount) added = true.
Proof. vm_compute. reflexivity. Qed.
Lemma open_runs : returns (0, FsVnode 7 0x80001040) (vfs_open path_a O_RDWR) started = true.
Proof. vm_compute. reflexivity. Qed.

Lemma add_allowed : allowed (booted (devices0 0) ∅) op_add.
Proof. split; [done|]. split; [by eexists|]. intros kd Hkd. by apply not_elem_of_nil in Hkd. Qed.

Lemma mount_allowed : allowed added op_mount.
Proof.
  intros kd d dv Hkd _ _ Hd Hdv. apply list_elem_of_singleton in Hkd as ->. injection Hd as <-. change (devices added !! 5) with (Some (disk0 1)) in Hdv. injection Hdv as <-.
  exact (mountfunc_law 0 added disk ExampleTree.own files dir_map plenty 7 closed_volume eq_refl).
Qed.

Lemma path_a_cstr : cstr path_a.
Proof. apply (bool_decide_eq_true_1 (Forall (fun c => c <> 0) path_a)). vm_compute. reflexivity. Qed.

Definition opened_a : vfs := after (vfs_open path_a O_RDWR) started.

#[local] Opaque closed disk.

Lemma started_reachable : reachable (devices0 0) ∅ (started, []).
Proof.
  apply (rtc_l _ _ (added, [])); [exact (step_op _ _ op_add 0 _ add_allowed add_runs)|].
  apply (rtc_l _ _ (started, [])); [exact (step_op _ _ op_mount 0 _ mount_allowed (returns_runs _ _ _ op_mount_runs))|]. apply rtc_refl.
Qed.

Lemma opened_reachable : reachable (devices0 0) ∅ (opened_a, [(FsVnode 7 0x80001040, false)]).
Proof.
  unfold reachable. eapply rtc_r; [exact started_reachable|]. exact (step_open _ _ path_a O_RDWR _ _ path_a_cstr (returns_runs _ _ _ open_runs)).
Qed.

Lemma no_fs f e : (∅ : gmap Z sfs_fs) !! f = Some e -> VfsProofs.fs_ok e [].
Proof. intros H. rewrite lookup_empty in H. discriminate H. Qed.

(** ** Witnesses *)

Lemma vfs_reachable_invariant_witness : exists (s : vfs) (H : list (vnode * bool)), reachable (devices0 0) ∅ (s, H) /\ length H = 1%nat /\
  (forall f e, fss s !! f = Some e -> VfsProofs.fs_ok e (fs_part f (VfsProofs.own s ++ H))) /\ table_ok (knowndevs s).
Proof.
  exists opened_a, [(FsVnode 7 0x80001040, false)]. destruct (vfs_reachable_invariant (devices0 0) ∅ opened_a [(FsVnode 7 0x80001040, false)] no_fs opened_reachable) as (_ & Hfs & _ & _ & _ & Ht).
  split; [exact opened_reachable|]. split; [reflexivity|]. split; [exact Hfs|exact Ht].
Defined.


Lemma vfs_getroot_resolves_witness : vfs_getroot lhd0 running = root_of 7 running /\ vfs_getroot (mkrawname lhd0) running = device_ref (kd0 (MOUNTED 7)) running /\
  vfs_getroot lhd1 running = Done (ENODEV, NULL) running.
Proof.
  destruct (vfs_getroot_resolves running [] lhd0 running_ok running_unique) as [H0 _]. destruct (vfs_getroot_resolves running [] (mkrawname lhd0) running_ok running_unique) as [Hr _].
  destruct (vfs_getroot_resolves running [] lhd1 running_ok running_unique) as [_ H1]. split; [|split].
  - rewrite (H0 (kd0 (MOUNTED 7))); [reflexivity|left|]. apply elem_of_names. right. right. reflexivity.
  - rewrite (Hr (kd0 (MOUNTED 7))); [reflexivity|left|]. apply elem_of_names. right. left. reflexivity.
  - apply H1. intros Hin. apply elem_of_all_names in Hin as (kd & Hkd & Hx). apply list_elem_of_singleton in Hkd as ->. apply elem_of_names in Hx as [Hx|[Hx|Hx]]; discriminate Hx.
Defined.

Lemma can_add1 : can_add running (mkAdd true true 0x3000 true true) true (Some 6) None.
Proof. split; [done|]. split; [by eexists|]. intros kd Hkd. apply list_elem_of_singleton in Hkd as ->. discriminate. Qed.

Lemma vfs_doadd_unique_witness : exists s', vfs_doadd (mkAdd true true 0x3000 true true) lhd1 true (Some 6) None running = Done 0 s' /\ names_unique s' /\ length (knowndevs s') = 2%nat.
Proof.
  destruct (vfs_doadd_unique running [] (mkAdd true true 0x3000 true true) lhd1 true (Some 6) None running_ok can_add1 running_unique) as (r & s' & He & _ & Hu & Hr).
  exists s'. destruct Hr as [(-> & _ & Hk & _)|[[[_ Hc]|[_ Hm]] _]].
  - split; [exact He|]. split; [exact Hu|]. rewrite Hk. reflexivity.
  - exfalso. destruct Hc as (x & Hx & Hy). apply elem_of_all_names in Hx as (kd & Hkd & Hx). apply list_elem_of_singleton in Hkd as ->.
    apply elem_of_names in Hx as [[= <-]|[[= <-]| <-]]; apply elem_of_names in Hy as [Hy|[Hy|Hy]]; discriminate Hy.
  - discriminate Hm.
Defined.

Lemma vfs_paths_direct_witness : vfs_open path_a O_RDWR running = via 7 (fs_open name_a O_RDWR) (found 7) running.
Proof.
  destruct lhd0_word as (H1 & H2 & H3).
  destruct (vfs_paths_direct running [] (kd0 (MOUNTED 7)) 7 lhd0 name_a O_RDWR running_ok running_unique) as [Ho _]; [left|reflexivity|left; reflexivity|exact H1|exact H2|exact H3|exact Ho].
Defined.

Lemma create_runs : returns (0, FsVnode 7 0x80001040) (vfs_open (dev_path lhd0 name_b) (O_RDWR + O_CREAT + O_EXCL)) running = true.
Proof. vm_compute. reflexivity. Qed.
Lemma unlink_runs : returns 0 (vfs_remove path_a) running = true.
Proof. vm_compute. reflexivity. Qed.


Lemma vfs_remove_sfs_witness : exists e' F', vfs_remove path_a running = Done 0 (put_fs 7 e' running) /\ fsys ExampleTree.own e' F' (delete name_a dir_map).
Proof.
  destruct (@vfs_remove_sfs _ 0 _ _ _ running lhd0 7 closed ExampleTree.own files dir_map name_a running_mounted closed_fsys) as (r & e' & F' & m' & He & Hf & Hr); [discriminate|discriminate|].
  pose proof (returns_Done _ _ _ _ _ unlink_runs He) as ->. exists e', F'. split; [exact He|].
  destruct Hr as [(_ & ino & k & _ & -> & _)|[[[E _]|[[E _]|[E|[E|[E|[E _]]]]]] _]]; [exact Hf|discriminate E..].
Defined.


End ExampleVfs.
