(* ===== verification/FileSyscalls.v ===== *)
(** * kern/syscall/file_syscalls.c: open files

    The system open file table, the descriptors of the current process, its memory and
    the console.  Descriptors are pointers into the system table: an index, or NULL;
    an index outside the table stands for the uninitialised descriptors a new process
    starts with. *)
From S2P Require Import Prelude Bitmap Vmstats Tlb Ram Segments Kmalloc Machine.
Import Machine.

Module FileSyscalls.

Definition OPEN_MAX : Z := 128.
Definition SYS_OPEN_MAX : Z := 10 * OPEN_MAX.
Definition STDIN_FILENO : Z := 0.
Definition STDOUT_FILENO : Z := 1.
Definition STDERR_FILENO : Z := 2.

(** struct openfile; [of_v] is 0 for NULL, [proc_cnt] is unsigned. *)
Record openfile : Type := mkOf { of_v : Z; offset : Z; proc_cnt : Z }.

(** The conversion of a [size_t] to [int]. *)
Definition to_int (x : Z) : Z := if x <? 2 ^ 31 then x else x - 2 ^ 32.

Section FileSyscalls.
Context {VO : VnodeOps}.

Record fstate : Type := mkF {
  ffs : fstore;
  sys_open_ftable : list openfile;
  p_open_ftable : list (option nat);
  umem : mem;
  con_in : list Z;   (* characters typed and not yet read *)
  con_out : list Z   (* characters printed, the last one first *)
}.

Definition set_ffs x s := mkF x (sys_open_ftable s) (p_open_ftable s) (umem s) (con_in s) (con_out s).
Definition set_sys_open_ftable x s := mkF (ffs s) x (p_open_ftable s) (umem s) (con_in s) (con_out s).
Definition set_p_open_ftable x s := mkF (ffs s) (sys_open_ftable s) x (umem s) (con_in s) (con_out s).
Definition set_umem x s := mkF (ffs s) (sys_open_ftable s) (p_open_ftable s) x (con_in s) (con_out s).
Definition set_con_in x s := mkF (ffs s) (sys_open_ftable s) (p_open_ftable s) (umem s) x (con_out s).
Definition set_con_out x s := mkF (ffs s) (sys_open_ftable s) (p_open_ftable s) (umem s) (con_in s) x.

Definition get_of (i : nat) : M fstate openfile := fun s =>
  deref "open file" (sys_open_ftable s !! i) s.
Definition put_of (i : nat) (o : openfile) : M fstate unit :=
  modify (fun s => set_sys_open_ftable (<[i := o]> (sys_open_ftable s)) s).

(** [VOP_DECREF] asserts that there is a vnode. *)
Definition close_vnode (v : Z) : M fstate unit :=
  kassert "vn != NULL" (negb (v =? 0));;
  modify (fun s => set_ffs (vfs_close (ffs s) v) s).

(** [p->p_open_ftable[fd]], the array having [OPEN_MAX] elements. *)
Definition descriptor (fd : Z) : M fstate (option nat) := fun s =>
  deref "p->p_open_ftable[fd]" (p_open_ftable s !! Z.to_nat fd) s.

(** The checks [file_read], [file_write] and [sys_close] begin with. *)
Definition fd_in_range (fd : Z) : bool := negb ((fd <? STDERR_FILENO) || (OPEN_MAX <? fd)).

Definition file_read (fd buf size : Z) : M fstate Z :=
  if negb (fd_in_range fd) then mret EBADF
  else
    p ← descriptor fd;
    match p with
    | None => mret EFAULT
    | Some i =>
        o ← get_of i;
        if of_v o =? 0 then mret EFAULT
        else
          s ← get;
          let '(res, resid, d, f) := vop_read (ffs s) (of_v o) (offset o) size in
          modify (fun s => set_umem (mem_write buf (size - resid) d (umem s)) (set_ffs f s));;
          if negb (res =? 0) then mret res
          else
            put_of i (mkOf (of_v o) (offset o + (size - resid)) (proc_cnt o));;
            mret (size - resid)
    end.

Definition file_write (fd buf size : Z) : M fstate Z :=
  if negb (fd_in_range fd) then mret EBADF
  else
    p ← descriptor fd;
    match p with
    | None => mret EFAULT
    | Some i =>
        o ← get_of i;
        if of_v o =? 0 then mret EFAULT
        else
          s ← get;
          let '(res, resid, f) := vop_write (ffs s) (of_v o) (offset o) size (fun k => umem s (buf + k)) in
          modify (set_ffs f);;
          if negb (res =? 0) then mret res
          else
            put_of i (mkOf (of_v o) (offset o + (size - resid)) (proc_cnt o));;
            mret (size - resid)
    end.

(** The path is the string in user memory; when [vfs_open] fails [v] is still NULL. *)
Definition sys_open (pathname : string) (flags : Z) : M fstate Z :=
  s ← get;
  let '(rv, v, f) := vfs_open (ffs s) pathname flags in
  modify (set_ffs f);;
  if negb (rv =? 0) then close_vnode 0;; mret (-1)
  else
    t ← gets sys_open_ftable;
    match list_find (fun o => of_v o = 0) (take (Z.to_nat SYS_OPEN_MAX) t) with
    | None => close_vnode v;; mret (-1)
    | Some (i, _) =>
        put_of i (mkOf v 0 1);;
        p ← gets p_open_ftable;
        match list_find (fun x => x = None) (drop (Z.to_nat (STDERR_FILENO + 1)) (take (Z.to_nat OPEN_MAX) p)) with
        | None => close_vnode v;; mret (-1)
        | Some (k, _) =>
            let fd := (k + Z.to_nat (STDERR_FILENO + 1))%nat in
            modify (set_p_open_ftable (<[fd := Some i]> p));;
            mret (Z.of_nat fd)
        end
    end.

Definition sys_close (fd : Z) : M fstate Z :=
  if negb (fd_in_range fd) then mret EBADF
  else
    p ← descriptor fd;
    match p with
    | None => mret EFAULT
    | Some i =>
        o ← get_of i;
        if of_v o =? 0 then mret EFAULT
        else
          modify (fun s => set_p_open_ftable (<[Z.to_nat fd := None]> (p_open_ftable s)) s);;
          let cnt := u32 (proc_cnt o - 1) in
          put_of i (mkOf (of_v o) (offset o) cnt);;
          (if cnt =? 0 then
             close_vnode (of_v o);;
             put_of i (mkOf 0 (offset o) cnt)
           else mret tt);;
          mret 0
    end.

(** ** The console *)

Definition putch (c : Z) : M fstate unit := modify (fun s => set_con_out (c :: con_out s) s).
(** [getch] waits for a character; the model has those that will be typed. *)
Definition getch : M fstate Z :=
  l ← gets con_in;
  match l with
  | [] => (fun _ => OutOfFuel) : M fstate Z
  | c :: l => modify (set_con_in l);; mret c
  end.

(** The bodies of the two loops, [n] characters from [i] on. *)
Fixpoint write_loop (buf : Z) (i n : nat) : M fstate unit :=
  match n with
  | O => mret tt
  | S n => s ← get; putch (umem s (buf + Z.of_nat i));; write_loop buf (S i) n
  end.
Fixpoint read_loop (buf : Z) (i n : nat) : M fstate unit :=
  match n with
  | O => mret tt
  | S n =>
      c ← getch;
      modify (fun s => set_umem (mem_write (buf + Z.of_nat i) 1 (fun _ => c) (umem s)) s);;
      read_loop buf (S i) n
  end.

Definition sys_write (fd buf size : Z) : M fstate Z :=
  if negb (fd =? STDOUT_FILENO) && negb (fd =? STDERR_FILENO) then file_write fd buf size
  else write_loop buf 0 (Z.to_nat (to_int size));; mret (to_int size).

Definition sys_read (fd buf size : Z) : M fstate Z :=
  if negb (fd =? STDIN_FILENO) && negb (fd =? STDERR_FILENO) then file_read fd buf size
  else read_loop buf 0 (Z.to_nat (to_int size));; mret (to_int size).

End FileSyscalls.
End FileSyscalls.
