(* ===== verification/Objects.v ===== *)
(** * Objects on the kernel heap

    [kstrdup] (kern/lib/misc.c), wait channels (kern/thread/thread.c), and the creation
    and destruction of semaphores, locks and condition variables (kern/thread/synch.c),
    as far as memory is concerned; 0 is NULL.  What threads do to each other through
    them is the subject of [Synch]. *)
From S2P Require Import Prelude Bitmap Vmstats Tlb Ram Segments Kmalloc Machine Swapfile Coremap.
Import Kmalloc Machine Swapfile Coremap.

Module Objects.

Definition SIZEOF_SEMAPHORE : Z := 20.
Definition SIZEOF_LOCK : Z := 20.
Definition SIZEOF_CV : Z := 16.
Definition SIZEOF_WCHAN : Z := 32.

Section Objects.
Context {VO : VnodeOps}.

Definition put_obj (a : Z) (o : kobj) : M kstate unit :=
  modify (fun s => set_kobjs (<[a := o]> (kobjs s)) s).
Definition get_obj (a : Z) : M kstate kobj := fun s => deref "kernel object" (kobjs s !! a) s.

(** [kfree] ends the life of the object at [a]. *)
Definition free_obj (a : Z) : M kstate unit :=
  modify (fun s => set_kobjs (delete a (kobjs s)) s);;
  kfree a.

Definition get_string (a : Z) : M kstate string :=
  o ← get_obj a;
  deref "string" (match o with KString str => Some str | _ => None end).

Definition kstrdup (str : string) : M kstate Z :=
  z ← kmalloc (Z.of_nat (String.length str) + 1);
  if z =? 0 then mret 0
  else put_obj z (KString str);; mret z.

Definition wchan_create (name : Z) : M kstate Z :=
  wc ← kmalloc SIZEOF_WCHAN;
  if wc =? 0 then mret 0
  else put_obj wc (KWchan name);; mret wc.

(** [threadlist_cleanup] finds no thread: nobody sleeps in this model. *)
Definition wchan_destroy (wc : Z) : M kstate unit := free_obj wc.

(** [sem_create], [lock_create] and [cv_create] have the same shape: the structure, a
    copy of the name, a wait channel; what was allocated is freed on failure.  [mk] is
    the structure they store. *)
Definition synch_create (size : Z) (mk : Z -> Z -> kobj) (name : string) : M kstate Z :=
  obj ← kmalloc size;
  if obj =? 0 then mret 0
  else
    put_obj obj KRaw;;
    copy ← kstrdup name;
    if copy =? 0 then free_obj obj;; mret 0
    else
      wchan ← wchan_create copy;
      if wchan =? 0 then free_obj copy;; free_obj obj;; mret 0
      else put_obj obj (mk copy wchan);; mret obj.

Definition sem_create (name : string) (initial_count : Z) : M kstate Z :=
  synch_create SIZEOF_SEMAPHORE (fun n w => KSem n w initial_count) name.
Definition lock_create (name : string) : M kstate Z := synch_create SIZEOF_LOCK KLock name.
Definition cv_create (name : string) : M kstate Z := synch_create SIZEOF_CV KCv name.

Definition sem_destroy (sem : Z) : M kstate unit :=
  kassert "sem != NULL" (negb (sem =? 0));;
  o ← get_obj sem;
  '(sem_name, sem_wchan) ← deref "semaphore" (match o with KSem n w _ => Some (n, w) | _ => None end);
  wchan_destroy sem_wchan;;
  free_obj sem_name;;
  free_obj sem.

Definition lock_destroy (lock : Z) : M kstate unit :=
  kassert "lock != NULL" (negb (lock =? 0));;
  o ← get_obj lock;
  '(lk_name, lk_wchan) ← deref "lock" (match o with KLock n w => Some (n, w) | _ => None end);
  wchan_destroy lk_wchan;;
  free_obj lk_name;;
  free_obj lock.

Definition cv_destroy (cv : Z) : M kstate unit :=
  kassert "cv != NULL" (negb (cv =? 0));;
  o ← get_obj cv;
  '(cv_name, cv_wchan) ← deref "cv" (match o with KCv n w => Some (n, w) | _ => None end);
  wchan_destroy cv_wchan;;
  free_obj cv_name;;
  free_obj cv.

End Objects.
End Objects.
