(* ===== verification/Vm.v ===== *)
(** * kern/vm/vm.c and kern/vm/pt.c: page faults

    With [load_page] of kern/syscall/loadelf.c, the process operations [vm_fault]
    uses (kern/proc/proc.c, kern/syscall/proc_syscalls.c) and the start-up of the
    VM system (coremap.c, swapfile.c, vm.c). *)
From S2P Require Import Prelude Bitmap Vmstats Tlb Ram Segments Kmalloc Machine Swapfile Coremap Objects.
Import Bitmap Vmstats Tlb Segments Kmalloc Machine Swapfile Coremap Objects.

Module Vm.

Definition VM_FAULT_READ : Z := 0.
Definition VM_FAULT_WRITE : Z := 1.
Definition VM_FAULT_READONLY : Z := 2.

Definition SIZEOF_BITMAP : Z := 8.

Section Vm.
Context {VO : VnodeOps}.

(** ** The current process *)

(** 0 is NULL, for the process and for the address space. *)
Definition proc_getas : M kstate Z :=
  cur ← gets curproc;
  if cur =? 0 then mret 0 else p ← get_curproc; mret (p_addrspace p).

Definition set_p_addrspace (a : Z) (p : proc) : proc :=
  mkProc (p_name p) (p_numthreads p) a (p_cwd p) (p_cv p) (p_cv_lock p) (p_status_set p) (p_status p) (p_pid p) (p_open_ftable p).
Definition set_exit (status : Z) (p : proc) : proc :=
  mkProc (p_name p) (p_numthreads p) (p_addrspace p) (p_cwd p) (p_cv p) (p_cv_lock p) true status (p_pid p) (p_open_ftable p).
Definition set_numthreads (n : Z) (p : proc) : proc :=
  mkProc (p_name p) n (p_addrspace p) (p_cwd p) (p_cv p) (p_cv_lock p) (p_status_set p) (p_status p) (p_pid p) (p_open_ftable p).

Definition update_curproc (f : proc -> proc) : M kstate unit :=
  p ← get_curproc;
  cur ← gets curproc;
  modify (fun s => set_procs (<[cur := f p]> (procs s)) s).

Definition proc_setas (newas : Z) : M kstate Z :=
  cur ← gets curproc;
  kassert "proc != NULL" (negb (cur =? 0));;
  p ← get_curproc;
  update_curproc (set_p_addrspace newas);;
  mret (p_addrspace p).

(** [proc_remthread] on the current thread: afterwards it has no process. *)
Definition proc_remthread_cur : M kstate unit :=
  cur ← gets curproc;
  kassert "proc != NULL" (negb (cur =? 0));;
  p ← get_curproc;
  kassert "proc->p_numthreads > 0" (0 <? p_numthreads p);;
  update_curproc (set_numthreads (p_numthreads p - 1));;
  modify (set_curproc 0).

(** [thread_exit] does not return: the processor goes to another thread. *)
Definition thread_exit : M kstate unit :=
  proc_remthread_cur;;
  leave.

Definition sys__exit (status : Z) : M kstate Z :=
  update_curproc (set_exit status);;
  thread_exit;;
  mret status.

Definition sys_getpid : M kstate Z :=
  cur ← gets curproc;
  kassert "curproc != NULL" (negb (cur =? 0));;
  p ← get_curproc;
  mret (p_pid p).

(** ** Page tables *)

Definition set_page_table (i t : Z) (a : addrspace) : addrspace :=
  mkAs (as_segments a) (<[Z.to_nat i := t]> (as_page_table a)).

Definition null_pte : pt_entry := mkPte 0 false false.

Definition inner_pt_create (as_ vaddr : Z) : M kstate Z :=
  kassert "as != NULL" (negb (as_ =? 0));;
  t ← kmalloc (SIZEOF_PT_ENTRY * INNER_PT_SIZE);
  a ← get_as as_;
  modify (fun s => set_addrspaces (<[as_ := set_page_table (OUTER_PT_INDEX vaddr) t a]> (addrspaces s)) s);;
  if t =? 0 then mret EPERM
  else
    modify (fun s => set_inner_pts (<[t := replicate (Z.to_nat INNER_PT_SIZE) null_pte]> (inner_pts s)) s);;
    mret 0.

Definition load_page (v paddr page_size offset : Z) (is_executable : bool) : M kstate Z :=
  '(result, _) ← VOP_READ_kernel v (PADDR_TO_KVADDR paddr) page_size offset;
  mret result.

Definition pt_load (s : segment) (vaddr paddr : Z) : M kstate Z :=
  kassert "s->elf_file != NULL" (negb (elf_file s =? 0));;
  let page_index := u32 (vaddr - vbase s) in
  let elf_offset := u32 (elf_segment_start s + page_index) in
  let '(paddr, elf_offset, page_size) := segments_before_load s vaddr paddr elf_offset PAGE_SIZE in
  res ← load_page (elf_file s) paddr page_size elf_offset (executable s);
  if negb (res =? 0) then mret res
  else
    count inc_pagefaultself;;
    count inc_pagefaultsdisk;;
    mret 0.

Definition pt_insert (as_ vaddr paddr : Z) : M kstate Z := mret 0.

(** ** vm_fault *)

Definition get_segments (a : Z) : M kstate (list segment) := fun s =>
  deref "as->segments" (segtabs s !! a) s.

(** [vmtlb_insert] on the kernel state. *)
Definition tlb_insert (vaddr paddr : Z) (iswritable : bool) : M kstate Z := fun s =>
  ('(r, t, v) ← lift (vmtlb_insert vaddr paddr iswritable (hwtlb s) (vms s));
   modify (fun s => set_hwtlb t (set_vms v s));;
   mret r) s.

(** The frame of the faulting page, with the page table entry brought up to date. *)
Definition fault_page (s : segment) (entry : pte_ptr) (faultaddress : Z) : M kstate Z :=
  e ← load_pte entry;
  if negb (pte_valid e) then
    paddr ← coremap_alloc faultaddress;
    store_pte entry (mkPte paddr true false);;
    (if negb (elf_file s =? 0) then
       e ← load_pte entry;
       pt_load s faultaddress (pte_paddr e);; mret tt
     else
       bzero_kernel (PADDR_TO_KVADDR paddr) PAGE_SIZE;;
       count inc_pagefaultszeroed);;
    mret paddr
  else if pte_swapped e then
    paddr ← coremap_alloc faultaddress;
    e ← load_pte entry;
    let swap_index := pte_paddr e in
    swapfile_readpage paddr swap_index;;
    e ← load_pte entry;
    store_pte entry (mkPte paddr (pte_valid e) false);;
    mret paddr
  else
    count inc_tlbreloads;;
    mret (pte_paddr e).

(** From the page table entry to the TLB. *)
Definition fault_map (s : segment) (as_ faultaddress : Z) (iswritable : bool) : M kstate Z :=
  entry ← pt_get as_ faultaddress;
  kassert "entry != NULL" (negb (bool_decide (entry = (0, 0))));;
  paddr ← fault_page s entry faultaddress;
  kassert "(paddr & PAGE_FRAME) == paddr" (Z.land paddr PAGE_FRAME =? paddr);;
  tlb_insert faultaddress paddr iswritable.

(** The handling of a read or write fault. *)
Definition fault_handle (faultaddress : Z) : M kstate Z :=
  cur ← gets curproc;
  if cur =? 0 then mret EFAULT
  else
    as_ ← proc_getas;
    if as_ =? 0 then mret EFAULT
    else
      a ← get_as as_;
      segments ← get_segments (as_segments a);
      match segments_find_segment segments faultaddress with
      | None => mret EFAULT
      | Some s =>
          let iswritable := writable s in
          count inc_tlbfaults;;
          t ← deref "as->page_table" (as_page_table a !! Z.to_nat (OUTER_PT_INDEX faultaddress));
          res ← (if t =? 0 then inner_pt_create as_ faultaddress else mret 0);
          if negb (res =? 0) then mret res
          else
            fault_map s as_ faultaddress iswritable
      end.

Definition vm_fault (faulttype faultaddress : Z) : M kstate Z :=
  let faultaddress := Z.land faultaddress PAGE_FRAME in
  if faulttype =? VM_FAULT_READONLY then sys__exit 1;; fault_handle faultaddress
  else if (faulttype =? VM_FAULT_READ) || (faulttype =? VM_FAULT_WRITE) then fault_handle faultaddress
  else mret EINVAL.

(** ** Frames for other callers *)

Definition getppages (npages vaddr : Z) : M kstate Z :=
  ini ← gets vm_initialized;
  if (ini : bool) then
    if npages =? 1 then coremap_alloc vaddr else coremap_kalloc npages
  else
    r ← gets ram;
    let '(addr, r') := Ram.ram_stealmem npages r in
    modify (set_ram r');;
    mret addr.

Definition freeppages (paddr npages : Z) : M kstate unit :=
  ini ← gets vm_initialized;
  if (ini : bool) then if npages =? 1 then coremap_free paddr else mret tt
  else mret tt.

Definition vm_tlbshootdown : M kstate unit := mret tt.

(** The output is not part of the state: the lines printed are the result. *)
Definition vm_shutdown : M kstate (list stat_line) := fun s => Done (print_vm_stats (vms s)) s.

(** ** Start-up *)

(** [O_RDWR | O_CREAT] *)
Definition SWAPFILE_FLAGS : Z := Z.lor 2 4.

Definition swapfile_init : M kstate Z :=
  f ← gets fs;
  let '(result, v, f') := vfs_open f "emu0:/SWAPFILE" SWAPFILE_FLAGS in
  modify (set_fs f');;
  if negb (result =? 0) then mret result
  else
    modify (set_swapfile v);;
    kassert "swapfile != NULL" (negb (v =? 0));;
    b ← kmalloc SIZEOF_BITMAP;
    data ← (if b =? 0 then mret 0 else kmalloc (DIVROUNDUP SWAPFILE_MAX_PAGES BITS_PER_WORD));
    (if negb (b =? 0) && (data =? 0) then kfree b else mret tt);;
    map ← lift (bitmap_create (negb (b =? 0)) (negb (data =? 0)) SWAPFILE_MAX_PAGES);
    modify (set_swapfile_freeentries map);;
    match map with
    | None => panic "Cannot initialize swapfile free bitmap..."
    | Some _ => mret 0
    end.

(** [junk] is what the memory of the coremap holds before it is initialised: the
    loop assigns [is_free] only. *)
Definition coremap_init (junk : nat -> coremap_entry) : M kstate unit :=
  r ← gets ram;
  let n := Ram.ram_getsize r / PAGE_SIZE in
  modify (set_num_frames n);;
  cm ← kmalloc (u32 (SIZEOF_COREMAP_ENTRY * n));
  (if cm =? 0 then panic "Cannot initialize the coremap!" else mret tt);;
  r ← gets ram;
  let '(firstfree, r') := Ram.ram_getfirstfree r in
  modify (set_ram r');;
  modify (set_coremap
    ((fun i => ce_set_free (negb (Z.of_nat i <? COREMAP_INDEX firstfree)) (junk i)) <$> seq 0 (Z.to_nat n)));;
  lock ← lock_create "coremap lock";
  kassert "coremap_lock != NULL" (negb (lock =? 0)).

Definition vm_bootstrap (junk : nat -> coremap_entry) : M kstate unit :=
  swapfile_init;;
  coremap_init junk;;
  modify (set_vm_initialized true).

End Vm.
End Vm.
