(* ===== verification/Addrspace.v ===== *)
(** * kern/vm/addrspace.c and kern/syscall/loadelf.c: address spaces and programs *)
From S2P Require Import Prelude Bitmap Vmstats Tlb Ram Segments Kmalloc Machine Swapfile Coremap Vm.
Import Bitmap Vmstats Tlb Segments Kmalloc Machine Swapfile Coremap Vm.

Module Addrspace.

(** [USERSTACK] is the top of user memory. *)
Definition USERSTACK : Z := 0x80000000.

(** *** ELF constants, <elf.h> *)
Definition EI_NIDENT : Z := 16.
Definition SIZEOF_EHDR : Z := 52.
Definition SIZEOF_PHDR : Z := 32.
Definition ET_EXEC : Z := 2.
Definition EM_MIPS : Z := 8.
Definition EV_CURRENT : Z := 1.
Definition PT_NULL : Z := 0.
Definition PT_LOAD : Z := 1.
Definition PT_PHDR : Z := 6.
Definition PT_MIPS_REGINFO : Z := 0x70000000.
Definition PF_R : Z := 4.
Definition PF_W : Z := 2.
Definition PF_X : Z := 1.

Section Addrspace.
Context {VO : VnodeOps}.

(** ** Life of an address space *)

(** Writing back the object an [addrspace] pointer refers to. *)
Definition put_as (as_ : Z) (a : addrspace) : M kstate unit :=
  modify (fun s => set_addrspaces (<[as_ := a]> (addrspaces s)) s).
Definition put_segtab (p : Z) (tab : list segment) : M kstate unit :=
  modify (fun s => set_segtabs (<[p := tab]> (segtabs s)) s).

(** [junk]: the uninitialised contents of the new objects, the segment pointer and
    the segment table. *)
Definition as_create (junk : Z * list segment) : M kstate Z :=
  as_ ← kmalloc SIZEOF_ADDRSPACE;
  if as_ =? 0 then mret 0
  else
    put_as as_ (mkAs (fst junk) (replicate (Z.to_nat OUTER_PT_SIZE) 0));;
    segs ← kmalloc (SIZEOF_SEGMENT * NUM_SEGMENTS);
    if segs =? 0 then
      kfree (u32 (as_ + 4));;
      modify (fun s => set_addrspaces (delete as_ (addrspaces s)) s);;
      kfree as_;;
      mret 0
    else
      a ← get_as as_;
      put_as as_ (mkAs segs (as_page_table a));;
      put_segtab segs (snd junk);;
      mret as_.

(** The result and the new address space stored through [ret]. *)
Definition as_copy (junk : Z * list segment) (old : Z) : M kstate (Z * option Z) :=
  newas ← as_create junk;
  if newas =? 0 then mret (ENOMEM, None) else mret (0, Some newas).

(** The loop of [as_destroy] over the outer table. *)
Fixpoint free_tables (ts : list Z) : M kstate unit :=
  match ts with
  | [] => mret tt
  | t :: ts =>
      (if t =? 0 then mret tt
       else
         modify (fun s => set_inner_pts (delete t (inner_pts s)) s);;
         kfree t);;
      free_tables ts
  end.

Definition as_destroy (as_ : Z) : M kstate unit :=
  a ← get_as as_;
  free_tables (as_page_table a);;
  segs ← get_segments (as_segments a);
  s0 ← deref "as->segments[0]" (segs !! 0%nat);
  modify (fun s => set_fs (vfs_close (fs s) (elf_file s0)) s);;
  modify (fun s => set_segtabs (delete (as_segments a) (segtabs s)) s);;
  kfree (as_segments a);;
  modify (fun s => set_addrspaces (delete as_ (addrspaces s)) s);;
  kfree as_.

Definition as_activate : M kstate unit :=
  as_ ← proc_getas;
  if as_ =? 0 then mret tt
  else modify (fun s => let '(t, v) := vmtlb_reset (hwtlb s) (vms s) in set_hwtlb t (set_vms v s)).

Definition as_deactivate : M kstate unit := mret tt.

(** ** Regions *)

(** [&as->segments[seg_index]], the index being a signed [int]. *)
Definition nth_segment (tab : list segment) (seg_index : Z) : option segment :=
  if seg_index <? 0 then None else tab !! Z.to_nat seg_index.

Definition as_define_region (as_ seg_index vaddr sz readable writeable executable v offset : Z)
  : M kstate Z :=
  kassert "as != NULL" (negb (as_ =? 0));;
  a ← get_as as_;
  tab ← get_segments (as_segments a);
  _ ← deref "as->segments[seg_index]" (nth_segment tab seg_index);
  put_segtab (as_segments a)
    (<[Z.to_nat seg_index := region_segment vaddr sz readable writeable executable v offset]> tab);;
  mret 0.

Definition as_prepare_load (as_ : Z) : M kstate Z := mret 0.
Definition as_complete_load (as_ : Z) : M kstate Z := mret 0.

(** The result and the stack pointer stored through [stackptr]. *)
Definition as_define_stack (as_ : Z) : M kstate (Z * Z) :=
  kassert "as != NULL" (negb (as_ =? 0));;
  a ← get_as as_;
  tab ← get_segments (as_segments a);
  s ← deref "as->segments[NUM_SEGMENTS-1]" (nth_segment tab (NUM_SEGMENTS - 1));
  put_segtab (as_segments a) (<[Z.to_nat (NUM_SEGMENTS - 1) := stack_segment s USERSTACK]> tab);;
  mret (0, USERSTACK).

(** ** Loading an executable *)

(** VOP_READ into a local variable of [len] bytes: errno, residual, and the bytes. *)
Definition read_struct (v len off : Z) : M kstate (Z * Z * (Z -> Z)) := fun s =>
  let '(e, r, d, f) := vop_read (fs s) v off len in Done (e, r, d) (set_fs f s).

(** The fields of the headers, as bytes of memory: the machine is big-endian. *)
Definition byte_at (d : Z -> Z) (o : Z) : Z := u8 (d o).
Definition be16 (d : Z -> Z) (o : Z) : Z := byte_at d o * 256 + byte_at d (o + 1).
Definition be32 (d : Z -> Z) (o : Z) : Z := be16 d o * 65536 + be16 d (o + 2).

(** Elf_Ehdr: the identification is ELF, 32 bits, big-endian, version 1; the file is
    an executable for the MIPS. *)
Definition ehdr_ok (d : Z -> Z) : bool :=
  (byte_at d 0 =? 0x7f) && (byte_at d 1 =? 0x45) && (byte_at d 2 =? 0x4c) && (byte_at d 3 =? 0x46) && (byte_at d 4 =? 1) && (byte_at d 5 =? 2) &&
  (byte_at d 6 =? EV_CURRENT) && (be32 d 20 =? EV_CURRENT) && (be16 d 16 =? ET_EXEC) && (be16 d 18 =? EM_MIPS).
Definition e_entry (d : Z -> Z) : Z := be32 d 24.
Definition e_phoff (d : Z -> Z) : Z := be32 d 28.
Definition e_phentsize (d : Z -> Z) : Z := be16 d 42.
Definition e_phnum (d : Z -> Z) : Z := be16 d 44.

(** Elf_Phdr *)
Definition p_type (d : Z -> Z) : Z := be32 d 0.
Definition p_offset (d : Z -> Z) : Z := be32 d 4.
Definition p_vaddr (d : Z -> Z) : Z := be32 d 8.
Definition p_memsz (d : Z -> Z) : Z := be32 d 20.
Definition p_flags (d : Z -> Z) : Z := be32 d 24.

(** The loop over the program headers: header [i], [n] to go. *)
Fixpoint load_phdrs (v as_ : Z) (eh : Z -> Z) (i : Z) (n : nat) : M kstate Z :=
  match n with
  | O => mret 0
  | S n =>
      let offset := u32 (e_phoff eh + u32 (i * e_phentsize eh)) in
      '(result, resid, ph) ← read_struct v SIZEOF_PHDR offset;
      if negb (result =? 0) then mret result
      else if negb (resid =? 0) then mret ENOEXEC
      else if (p_type ph =? PT_NULL) || (p_type ph =? PT_PHDR) || (p_type ph =? PT_MIPS_REGINFO)
      then load_phdrs v as_ eh (i + 1) n
      else if negb (p_type ph =? PT_LOAD) then mret ENOEXEC
      else
        result ← as_define_region as_ (i - 1) (p_vaddr ph) (p_memsz ph)
                   (Z.land (p_flags ph) PF_R) (Z.land (p_flags ph) PF_W) (Z.land (p_flags ph) PF_X)
                   v (p_offset ph);
        if negb (result =? 0) then mret result else load_phdrs v as_ eh (i + 1) n
  end.

(** The result and the entry point stored through [entrypoint]. *)
Definition load_elf (v : Z) : M kstate (Z * option Z) :=
  as_ ← proc_getas;
  '(result, resid, eh) ← read_struct v SIZEOF_EHDR 0;
  if negb (result =? 0) then mret (result, None)
  else if negb (resid =? 0) then mret (ENOEXEC, None)
  else if negb (ehdr_ok eh) then mret (ENOEXEC, None)
  else
    result ← load_phdrs v as_ eh 0 (Z.to_nat (e_phnum eh));
    if negb (result =? 0) then mret (result, None)
    else
      result ← as_prepare_load as_;
      if negb (result =? 0) then mret (result, None)
      else
        result ← as_complete_load as_;
        if negb (result =? 0) then mret (result, None)
        else mret (0, Some (e_entry eh)).

End Addrspace.
End Addrspace.
