(* ===== verification/Proc.v ===== *)
(** * kern/proc/proc.c and kern/syscall/proc_syscalls.c: processes *)
From S2P Require Import Prelude Bitmap Vmstats Tlb Ram Segments Kmalloc Machine Swapfile Coremap Objects Vm.
From S2P Require Import Addrspace.
Import Kmalloc Machine Swapfile Coremap Objects Vm Addrspace.

Module Proc.

Definition SIZEOF_PROC : Z := 556.
Definition MAX_PROC : Z := 100.
Definition PID_MIN : Z := 2.
Definition TABLE_SIZE : Z := (MAX_PROC - PID_MIN) + 1.

Section Proc.
Context {VO : VnodeOps}.

(** ** Access to process structures *)

Definition get_proc (a : Z) : M kstate proc := fun s => deref "proc" (procs s !! a) s.
Definition put_proc (a : Z) (p : proc) : M kstate unit :=
  modify (fun s => set_procs (<[a := p]> (procs s)) s).
Definition update_proc (a : Z) (f : proc -> proc) : M kstate unit :=
  p ← get_proc a; put_proc a (f p).
(** [kfree(proc)] *)
Definition free_proc (a : Z) : M kstate unit :=
  modify (fun s => set_procs (delete a (procs s)) s);;
  kfree a.

Definition set_p_name (x : Z) (p : proc) : proc :=
  mkProc x (p_numthreads p) (p_addrspace p) (p_cwd p) (p_cv p) (p_cv_lock p) (p_status_set p) (p_status p) (p_pid p) (p_open_ftable p).
Definition set_p_cwd (x : Z) (p : proc) : proc :=
  mkProc (p_name p) (p_numthreads p) (p_addrspace p) x (p_cv p) (p_cv_lock p) (p_status_set p) (p_status p) (p_pid p) (p_open_ftable p).
Definition set_p_cv (x : Z) (p : proc) : proc :=
  mkProc (p_name p) (p_numthreads p) (p_addrspace p) (p_cwd p) x (p_cv_lock p) (p_status_set p) (p_status p) (p_pid p) (p_open_ftable p).
Definition set_p_cv_lock (x : Z) (p : proc) : proc :=
  mkProc (p_name p) (p_numthreads p) (p_addrspace p) (p_cwd p) (p_cv p) x (p_status_set p) (p_status p) (p_pid p) (p_open_ftable p).
Definition set_p_status_set (x : bool) (p : proc) : proc :=
  mkProc (p_name p) (p_numthreads p) (p_addrspace p) (p_cwd p) (p_cv p) (p_cv_lock p) x (p_status p) (p_pid p) (p_open_ftable p).
Definition set_p_pid (x : Z) (p : proc) : proc :=
  mkProc (p_name p) (p_numthreads p) (p_addrspace p) (p_cwd p) (p_cv p) (p_cv_lock p) (p_status_set p) (p_status p) x (p_open_ftable p).

(** ** The process table *)

Definition proc_assign_pid (p : Z) : M kstate unit :=
  update_proc p (set_p_pid (-1));;
  table ← gets pid_table;
  match list_find (fun q => q = 0) (take (Z.to_nat TABLE_SIZE) table) with
  | Some (i, _) =>
      update_proc p (set_p_pid (Z.of_nat i + 1));;
      modify (set_pid_table (<[i := p]> table))
  | None => mret tt
  end.

(** The index is a signed [int]; a store outside the table is undefined. *)
Definition proc_unassign_pid (p : Z) : M kstate unit :=
  pr ← get_proc p;
  table ← gets pid_table;
  let i := p_pid pr - 1 in
  _ ← deref "pt.pid_table[p->p_pid-1]" (if i <? 0 then None else table !! Z.to_nat i);
  modify (set_pid_table (<[Z.to_nat i := 0]> table)).

Definition proc_find_by_pid (pid : Z) : M kstate Z :=
  kassert "pid >= PID_MIN && pid <= MAX_PROC" ((PID_MIN <=? pid) && (pid <=? MAX_PROC));;
  table ← gets pid_table;
  proc ← deref "pt.pid_table[pid-1]" (table !! Z.to_nat (pid - 1));
  kassert "proc != NULL" (negb (proc =? 0));;
  p ← get_proc proc;
  kassert "proc->p_pid == pid" (p_pid p =? pid);;
  mret proc.

(** ** Creation and destruction *)

(** The OPT_WAITPID part of [proc_create]: the condition variable and its lock, and
    the process id. *)
Definition proc_create_waitpid (proc p_name : Z) : M kstate Z :=
  str ← get_string p_name;
  cv ← cv_create str;
  update_proc proc (set_p_cv cv);;
  if cv =? 0 then free_obj p_name;; free_proc proc;; mret 0
  else
    lock ← lock_create str;
    update_proc proc (set_p_cv_lock lock);;
    if lock =? 0 then free_obj cv;; free_obj p_name;; free_proc proc;; mret 0
    else
      update_proc proc (set_p_status_set false);;
      proc_assign_pid proc;;
      p ← get_proc proc;
      if p_pid p <? 0
      then panic "Process table is full of processes, can't create a new one..."
      else mret proc.

(** [junk] is what the memory of the structure holds before it is initialised:
    [p_status] and [p_open_ftable] are not assigned. *)
Definition proc_create (junk : proc) (name : string) : M kstate Z :=
  proc ← kmalloc SIZEOF_PROC;
  if proc =? 0 then mret 0
  else
    put_proc proc junk;;
    p_name ← kstrdup name;
    update_proc proc (set_p_name p_name);;
    if p_name =? 0 then free_proc proc;; mret 0
    else
      update_proc proc (fun p => set_p_cwd 0 (set_p_addrspace 0 (set_numthreads 0 p)));;
      proc_create_waitpid proc p_name.

Definition proc_destroy (proc : Z) : M kstate unit :=
  kassert "proc != NULL" (negb (proc =? 0));;
  k ← gets kproc;
  kassert "proc != kproc" (negb (proc =? k));;
  p ← get_proc proc;
  (if negb (p_cwd p =? 0) then
     modify (fun s => set_fs (vfs_close (fs s) (p_cwd p)) s);;
     update_proc proc (set_p_cwd 0)
   else mret tt);;
  (if negb (p_addrspace p =? 0) then
     cur ← gets curproc;
     as_ ← (if proc =? cur then as_ ← proc_setas 0; as_deactivate;; mret as_
            else update_proc proc (set_p_addrspace 0);; mret (p_addrspace p));
     as_destroy as_
   else mret tt);;
  p ← get_proc proc;
  kassert "proc->p_numthreads == 0" (p_numthreads p =? 0);;
  cv_destroy (p_cv p);;
  lock_destroy (p_cv_lock p);;
  proc_unassign_pid proc;;
  free_obj (p_name p);;
  free_proc proc.

Definition proc_bootstrap (junk : proc) : M kstate unit :=
  modify (set_pid_table (replicate (Z.to_nat TABLE_SIZE) 0));;
  p ← proc_create junk "[kernel]";
  modify (set_kproc p);;
  if p =? 0 then panic "proc_create for kproc failed" else mret tt.

Definition proc_create_runprogram (junk : proc) (name : string) : M kstate Z :=
  newproc ← proc_create junk name;
  if newproc =? 0 then mret 0
  else
    update_proc newproc (set_p_addrspace 0);;
    cur ← get_curproc;
    (if negb (p_cwd cur =? 0) then
       modify (fun s => set_fs (vop_incref (fs s) (p_cwd cur)) s);;
       update_proc newproc (set_p_cwd (p_cwd cur))
     else mret tt);;
    mret newproc.

(** The thread is its field [t_proc]: the argument is its value before, the result its
    value after.  [p_numthreads] is unsigned. *)
Definition proc_addthread (proc t_proc : Z) : M kstate (Z * Z) :=
  kassert "t->t_proc == NULL" (t_proc =? 0);;
  update_proc proc (fun p => set_numthreads (u32 (p_numthreads p + 1)) p);;
  mret (0, proc).

Definition proc_remthread (t_proc : Z) : M kstate Z :=
  kassert "proc != NULL" (negb (t_proc =? 0));;
  p ← get_proc t_proc;
  kassert "proc->p_numthreads > 0" (0 <? p_numthreads p);;
  update_proc t_proc (fun p => set_numthreads (p_numthreads p - 1) p);;
  mret 0.

(** ** Waiting *)

(** [while (!p->p_status_set) cv_wait(...)]: [others] is what the other threads do to
    the kernel state while this one sleeps in [cv_wait]. *)
Fixpoint wait_exit (fuel : nat) (others : M kstate unit) (p : Z) : M kstate unit :=
  match fuel with
  | O => fun _ => OutOfFuel
  | S fuel =>
      pr ← get_proc p;
      if p_status_set pr then mret tt else others;; wait_exit fuel others p
  end.

Definition proc_wait (fuel : nat) (others : M kstate unit) (p : Z) : M kstate Z :=
  kassert "p != NULL" (negb (p =? 0));;
  k ← gets kproc;
  kassert "p != kproc" (negb (p =? k));;
  wait_exit fuel others p;;
  pr ← get_proc p;
  let status := p_status pr in
  proc_destroy p;;
  mret status.

(** [return p->p_pid] reads the structure after [proc_destroy] freed it. *)
Definition sys_waitpid (fuel : nat) (others : M kstate unit) (pid : Z) : M kstate (Z * Z) :=
  p ← proc_find_by_pid pid;
  if p =? 0 then mret (-1, 0)
  else
    p_status ← proc_wait fuel others p;
    pr ← get_proc p;
    mret (p_pid pr, p_status).

Definition sys_fork (junk : proc) (as_junk : Z * list Segments.segment) : M kstate Z :=
  cur ← gets curproc;
  kassert "curproc != NULL" (negb (cur =? 0));;
  parent ← get_curproc;
  name ← get_string (p_name parent);
  child ← proc_create_runprogram junk name;
  if child =? 0 then mret (-1)
  else
    '(_, new) ← as_copy as_junk (p_addrspace parent);
    (match new with Some a => update_proc child (set_p_addrspace a) | None => mret tt end);;
    c ← get_proc child;
    if p_addrspace c =? 0 then proc_destroy child;; mret (-1) else mret (-1).

End Proc.
End Proc.
