(* ===== verification/VmInv.v ===== *)
(** * The invariant of the VM system

    Every frame that is not free has one owner: the kernel image, a kernel
    allocation, the kernel heap, a user page, or the page fault in progress.  The
    invariant of this file states it for the whole kernel state, and the relation
    [krel] states what a user page may see of a change of state: nothing. *)
From S2P Require Import Prelude Bitmap Vmstats Tlb Ram Segments Kmalloc KmallocProofs Machine Swapfile Coremap.
Import Bitmap Vmstats Tlb Segments Kmalloc KmallocProofs Machine Swapfile Coremap.

Module VmInv.
Section VmInv.
Context {VO : VnodeOps} {VL : VnodeLaws}.

(** ** Frames and pages *)

(** The kernel address of frame [i]. *)
Definition kva (i : nat) : Z := MIPS_KSEG0 + Z.of_nat i * PAGE_SIZE.

Definition nonfree (s : kstate) (i : nat) : Prop :=
  exists c, coremap s !! i = Some c /\ ce_is_free c = false.

(** The page table entry in slot [j] of the inner table at [t]. *)
Definition pte (s : kstate) (t : Z) (j : nat) : option pt_entry :=
  l ← inner_pts s !! t; l !! j.

Definition resident (e : pt_entry) : Prop := pte_valid e = true /\ pte_swapped e = false.
Definition swapped (e : pt_entry) : Prop := pte_valid e = true /\ pte_swapped e = true.

(** The slot that translates [vaddr] in the address space at [as_]. *)
Definition slot_of (s : kstate) (as_ vaddr : Z) : option (Z * nat) :=
  if as_ =? 0 then None
  else
    a ← addrspaces s !! as_;
    t ← as_page_table a !! Z.to_nat (OUTER_PT_INDEX vaddr);
    Some (t, Z.to_nat (INNER_PT_INDEX vaddr)).

(** The bytes of a user page: in its frame, or in the swap file. *)
Definition content (s : kstate) (e : pt_entry) (k : Z) : Z :=
  if pte_swapped e then fbyte (fs s) (swapfile s) (pte_paddr e * PAGE_SIZE + k)
  else pmem s (pte_paddr e + k).

(** The kernel pages in use. *)
Definition pages (W Y : gset Z) (s : kstate) : gset Z := W ∪ Y ∪ owned (kheap_st s).

(** The kernel objects on the heap that outlive the operation that made them: segment
    tables, processes, and the strings, wait channels, locks and condition variables
    they point to.  No address is two of these. *)
Definition objects (s : kstate) (q : Z) : Prop :=
  is_Some (segtabs s !! q) \/ is_Some (procs s !! q) \/ is_Some (kobjs s !! q).
Definition one_object (s : kstate) : Prop := forall q,
  (is_Some (segtabs s !! q) -> procs s !! q = None /\ kobjs s !! q = None) /\
  (is_Some (procs s !! q) -> kobjs s !! q = None).

(** The heap blocks the kernel holds pointers to: queue nodes and objects. *)
Definition vm_held (s : kstate) (q : Z) : Prop :=
  q ∈ qn_addr <$> replacement_queue s \/ objects s q.

(** A queue node refers to the frame of a resident user page, and the coremap
    entry leads back to its page table entry. *)
Definition queued (s : kstate) (n : queue_node) : Prop :=
  exists c t j e, coremap s !! qn_entry n = Some c /\
    ce_paddr c = Z.of_nat (qn_entry n) * PAGE_SIZE /\
    slot_of s (ce_as c) (ce_vaddr c) = Some (t, j) /\
    pte s t j = Some e /\ resident e /\ pte_paddr e = Z.of_nat (qn_entry n) * PAGE_SIZE.

(** The part of the invariant about the swap file. *)
Definition swap_ok (s : kstate) : Prop :=
  swapfile s <> 0 /\
  (exists b, swapfile_freeentries s = Some b /\ wf b /\ nbits b = SWAPFILE_MAX_PAGES /\
    forall t j e, pte s t j = Some e -> swapped e ->
      0 <= pte_paddr e < SWAPFILE_MAX_PAGES /\ bit b (pte_paddr e) = true /\
      (pte_paddr e + 1) * PAGE_SIZE <= fsize (fs s) (swapfile s)) /\
  (forall t j e t' j' e', pte s t j = Some e -> swapped e ->
    pte s t' j' = Some e' -> swapped e' -> pte_paddr e = pte_paddr e' -> t = t' /\ j = j').

(** [P]: coremap entries of the frames that a page fault in progress has taken;
    [W], [Y]: the kernel pages in use outside the heap, [Y] the single pages the
    heap code itself is working on. *)
Record kinv (P : gmap nat coremap_entry) (W Y : gset Z) (s : kstate) : Prop := {
  k_init : vm_initialized s = true;
  k_len : Z.of_nat (length (coremap s)) = num_frames s;
  k_max : num_frames s <= 2 ^ 17;
  k_zero : nonfree s 0;
  k_heap : heap_ok (kheap_st s);
  k_disj : W ## Y /\ owned (kheap_st s) ## W /\ owned (kheap_st s) ## Y;
  k_pages : forall p, p ∈ pages W Y s -> exists i, p = kva i /\ i <> 0%nat /\ nonfree s i /\ P !! i = None;
  k_single : forall i c, kva i ∈ Y ∪ owned (kheap_st s) -> coremap s !! i = Some c -> ce_alloc_size c <= 1;
  k_pin : forall i c, P !! i = Some c -> i <> 0%nat /\ coremap s !! i = Some c /\ ce_is_free c = false;
  k_res : forall t j e, pte s t j = Some e -> resident e ->
    exists f, pte_paddr e = Z.of_nat f * PAGE_SIZE /\ f <> 0%nat /\ nonfree s f /\
      kva f ∉ pages W Y s /\ P !! f = None;
  k_inj : forall t j e t' j' e', pte s t j = Some e -> resident e ->
    pte s t' j' = Some e' -> resident e' -> pte_paddr e = pte_paddr e' -> t = t' /\ j = j';
  k_swap : swap_ok s;
  k_queue : NoDup (qn_entry <$> replacement_queue s) /\
    forall n, n ∈ replacement_queue s -> queued s n;
  k_nodes : NoDup (qn_addr <$> replacement_queue s) /\ one_object s /\
    forall q, q ∈ qn_addr <$> replacement_queue s -> ~ objects s q;
  k_held : forall q, vm_held s q -> allocated (kheap_st s) q;
  k_tables : forall t l, inner_pts s !! t = Some l -> t ∈ W /\ length l = Z.to_nat INNER_PT_SIZE;
  k_spaces : forall a x, addrspaces s !! a = Some x -> a ∈ W /\
    length (as_page_table x) = Z.to_nat OUTER_PT_SIZE
}.

(** ** What user pages see *)

(** A page table entry may change only from resident to swapped, and a valid page
    keeps its bytes. *)
Definition pte_rel (s s' : kstate) (e e' : pt_entry) : Prop :=
  (e' = e \/ resident e /\ swapped e') /\
  (pte_valid e = true -> forall k, 0 <= k < PAGE_SIZE -> content s' e' k = content s e k).

Record krel (s s' : kstate) : Prop := {
  r_same : addrspaces s' = addrspaces s /\ segtabs s' = segtabs s /\ hwtlb s' = hwtlb s /\
    procs s' = procs s /\ curproc s' = curproc s /\ swapfile s' = swapfile s /\
    pmem s' = pmem s /\ num_frames s' = num_frames s /\ kobjs s' = kobjs s /\
    pid_table s' = pid_table s /\ kproc s' = kproc s;
  r_tables : dom (inner_pts s') = dom (inner_pts s);
  r_queue : replacement_queue s' `suffix_of` replacement_queue s;
  r_pte : forall t j, option_Forall2 (pte_rel s s') (pte s t j) (pte s' t j);
  r_files : forall v, v <> swapfile s -> fsize (fs s') v = fsize (fs s) v /\
    forall a, 0 <= a < fsize (fs s) v -> fbyte (fs s') v a = fbyte (fs s) v a;
  r_stats : exists w, vms s' = let v := vms s in
    mkVmstats (vms_tlbfaults v) (vms_tlbfaultsfree v) (vms_tlbfaultsreplace v)
      (vms_tlbinvalidations v) (vms_tlbreloads v) (vms_pagefaultszeroed v) (vms_pagefaultsdisk v)
      (vms_pagefaultself v) (vms_pagefaultsswapfile v) w
}.

Lemma krel_refl s : krel s s.
Proof.
  split; try done.
  - intros t j. destruct (pte s t j); constructor. split; [by left|done].
  - exists (vms_swapfilewrites (vms s)). by destruct (vms s).
Qed.

Lemma pte_rel_trans s1 s2 s3 e1 e2 e3 :
  pte_rel s1 s2 e1 e2 -> pte_rel s2 s3 e2 e3 -> pte_rel s1 s3 e1 e3.
Proof.
  intros [H1 C1] [H2 C2]. split.
  - unfold resident, swapped in *. destruct H1 as [->|[? ?]], H2 as [->|[? ?]]; intuition congruence.
  - intros Hv k Hk. rewrite C2, C1; try done. destruct H1 as [->|[? [? ?]]]; congruence.
Qed.

Lemma krel_trans s1 s2 s3 : krel s1 s2 -> krel s2 s3 -> krel s1 s3.
Proof.
  intros [S1 T1 Q1 P1 F1 V1] [S2 T2 Q2 P2 F2 V2]. split.
  - naive_solver congruence.
  - congruence.
  - by etrans.
  - intros t j. specialize (P1 t j). specialize (P2 t j).
    destruct P1 as [e1 e2 H1|]; inv P2; constructor. by eapply pte_rel_trans.
  - intros v Hv. assert (Hv2 : v <> swapfile s2) by naive_solver congruence.
    destruct (F1 v Hv) as [Hs1 Hb1]. destruct (F2 v Hv2) as [Hs2 Hb2].
    split; [congruence|]. intros a Ha. rewrite Hb2, Hb1; [done|done|lia].
  - destruct V1 as [w1 V1], V2 as [w2 V2]. exists w2. by rewrite V2, V1.
Qed.

(** ** Frame ownership *)

Lemma kva_inj i j : kva i = kva j -> i = j.
Proof. unfold kva, PAGE_SIZE. lia. Qed.

(** Frame [i] has an owner. *)
Definition used (P : gmap nat coremap_entry) (W Y : gset Z) (s : kstate) (i : nat) : Prop :=
  i = 0%nat \/ kva i ∈ pages W Y s \/ is_Some (P !! i) \/
  exists t j e, pte s t j = Some e /\ resident e /\ pte_paddr e = Z.of_nat i * PAGE_SIZE.

Lemma used_nonfree P W Y s i : kinv P W Y s -> used P W Y s i -> nonfree s i.
Proof.
  intros K [->|[Hp|[[c Hc]|(t & j & e & He & Hr & Hf)]]].
  - apply (k_zero _ _ _ _ K).
  - destruct (k_pages _ _ _ _ K _ Hp) as (i' & Heq & _ & Hn & _). by apply kva_inj in Heq as ->.
  - destruct (k_pin _ _ _ _ K _ _ Hc) as (_ & ? & ?). by exists c.
  - destruct (k_res _ _ _ _ K _ _ _ He Hr) as (f & Hpf & _ & Hn & _).
    assert (i = f) as -> by (unfold PAGE_SIZE in *; lia). done.
Qed.

Lemma free_not_used P W Y s i c : kinv P W Y s -> coremap s !! i = Some c -> ce_is_free c = true ->
  ~ used P W Y s i.
Proof. intros K Hc Hf Hu. destruct (used_nonfree _ _ _ _ _ K Hu) as (c' & Hc' & ?). congruence. Qed.

(** A change of the coremap that leaves the entries of the used frames alone. *)
Lemma kinv_coremap P W Y s cm : kinv P W Y s -> length cm = length (coremap s) ->
  (forall i, used P W Y s i -> cm !! i = coremap s !! i) -> kinv P W Y (set_coremap cm s).
Proof.
  intros K Hlen Hcm.
  assert (Hnf : forall i, used P W Y s i -> nonfree (set_coremap cm s) i).
  { intros i Hu. destruct (used_nonfree _ _ _ _ _ K Hu) as (c & Hc & ?). exists c.
    cbn [coremap set_coremap]. by rewrite Hcm. }
  destruct K as [K1 K2 K3 K4 K5 K6 K7 K8 K9 K10 K11 K12 K13 K14 K15 K16 K17].
  split; try done.
  - cbn [coremap set_coremap num_frames]. by rewrite Hlen.
  - apply Hnf. by left.
  - intros p Hp. destruct (K7 p Hp) as (i & -> & Hi & _ & Hpin). exists i. split_and!; try done.
    apply Hnf. right. by left.
  - intros i c Hi Hc. cbn [coremap set_coremap] in Hc.
    rewrite Hcm in Hc by (right; left; unfold pages; set_solver). by apply (K8 i).
  - intros i c Hc. destruct (K9 i c Hc) as (? & ? & ?). split_and!; try done.
    cbn [coremap set_coremap]. rewrite Hcm; [done|]. right. right. left. eauto.
  - intros t j e He Hr. destruct (K10 t j e He Hr) as (f & ? & ? & ? & ? & ?). exists f.
    split_and!; try done. apply Hnf. do 3 right. by exists t, j, e.
  - destruct K13 as [Hnd Hq]. split; [done|]. intros n Hn.
    destruct (Hq n Hn) as (c & t & j & e & Hc & ? & ? & ? & ? & ?). exists c, t, j, e.
    split_and!; try done. cbn [coremap set_coremap]. rewrite Hcm; [done|]. do 3 right. by exists t, j, e.
Qed.

Lemma krel_coremap s cm : krel s (set_coremap cm s).
Proof. destruct (krel_refl s). by split. Qed.

(** One frame changes hands. *)
Lemma kinv_frame P W Y s i c : kinv P W Y s -> ~ used P W Y s i -> kinv P W Y (set_coremap (<[i := c]> (coremap s)) s).
Proof.
  intros K Hu. apply kinv_coremap; [done|by rewrite length_insert|]. intros k Hk.
  apply list_lookup_insert_ne. by intros ->.
Qed.

Lemma kinv_take_Y P W Y s i c : kinv P W Y s -> ~ used P W Y s i -> coremap s !! i = Some c ->
  ce_is_free c = false -> ce_alloc_size c <= 1 -> kinv P W ({[kva i]} ∪ Y) s.
Proof.
  intros K Hu Hc Hf Hsz.
  assert (Hp : forall p, p ∈ pages W ({[kva i]} ∪ Y) s <-> p = kva i \/ p ∈ pages W Y s)
    by (unfold pages; set_solver).
  assert (Hi : kva i ∉ pages W Y s) by (unfold used in Hu; tauto).
  destruct K as [K1 K2 K3 K4 K5 K6 K7 K8 K9 K10 K11 K12 K13 K14 K15 K16 K17]. split; try done.
  - unfold pages in Hi. set_solver.
  - intros p [->|Hin]%Hp; [|by apply K7]. exists i. split_and!; [done|..].
    + intros ->. apply Hu. by left.
    + by exists c.
    + apply eq_None_not_Some. intros ?. apply Hu. do 2 right. by left.
  - intros k ck Hk Hck. destruct (decide (k = i)) as [->|Hne]; [congruence|]. apply (K8 k); [|done].
    assert (kva k <> kva i) by (by intros ?%kva_inj). set_solver.
  - intros t j e He Hr. destruct (K10 t j e He Hr) as (f & ? & ? & ? & ? & ?). exists f.
    split_and!; try done. rewrite Hp. intros [Heq%kva_inj|?]; [|done]. subst f.
    apply Hu. do 3 right. by exists t, j, e.
Qed.

Lemma kinv_take_W P W Y s i : kinv P W Y s -> ~ used P W Y s i -> nonfree s i ->
  kinv P ({[kva i]} ∪ W) Y s.
Proof.
  intros K Hu Hf.
  assert (Hp : forall p, p ∈ pages ({[kva i]} ∪ W) Y s <-> p = kva i \/ p ∈ pages W Y s)
    by (unfold pages; set_solver).
  assert (Hi : kva i ∉ pages W Y s) by (unfold used in Hu; tauto).
  destruct K as [K1 K2 K3 K4 K5 K6 K7 K8 K9 K10 K11 K12 K13 K14 K15 K16 K17]. split; try done.
  - unfold pages in Hi. set_solver.
  - intros p [->|Hin]%Hp; [|by apply K7]. exists i. split_and!; [done|..|done|].
    + intros ->. apply Hu. by left.
    + apply eq_None_not_Some. intros ?. apply Hu. do 2 right. by left.
  - intros t j e He Hr. destruct (K10 t j e He Hr) as (f & ? & ? & ? & ? & ?). exists f.
    split_and!; try done. rewrite Hp. intros [Heq%kva_inj|?]; [|done]. subst f.
    apply Hu. do 3 right. by exists t, j, e.
  - intros t l Ht. destruct (K16 t l Ht). set_solver.
  - intros a x Ha. destruct (K17 a x Ha). set_solver.
Qed.

Lemma kinv_take_pin W Y s i c : kinv ∅ W Y s -> ~ used ∅ W Y s i -> coremap s !! i = Some c ->
  ce_is_free c = false -> kinv {[i := c]} W Y s.
Proof.
  intros K Hu Hc Hf. assert (Hi : kva i ∉ pages W Y s) by (unfold used in Hu; tauto).
  destruct K as [K1 K2 K3 K4 K5 K6 K7 K8 K9 K10 K11 K12 K13 K14 K15 K16 K17]. split; try done.
  - intros p Hp. destruct (K7 p Hp) as (k & -> & ? & ? & _). exists k. split_and!; try done.
    apply lookup_singleton_ne. by intros ->.
  - intros k ck Hk. apply lookup_singleton_Some in Hk as [<- <-]. split_and!; try done.
    intros ->. apply Hu. by left.
  - intros t j e He Hr. destruct (K10 t j e He Hr) as (f & ? & ? & ? & ? & ?). exists f.
    split_and!; try done. apply lookup_singleton_ne. intros ->. apply Hu. do 3 right. by exists t, j, e.
Qed.

(** A page leaves [Y]. *)
Lemma kinv_drop_Y P W Y s p : kinv P W Y s -> kinv P W (Y ∖ {[p]}) s.
Proof.
  intros [K1 K2 K3 K4 K5 K6 K7 K8 K9 K10 K11 K12 K13 K14 K15 K16 K17].
  assert (Hsub : pages W (Y ∖ {[p]}) s ⊆ pages W Y s) by (unfold pages; set_solver).
  split; try done.
  - set_solver.
  - intros q Hq. apply K7. set_solver.
  - intros i c Hi. apply K8. set_solver.
  - intros t j e He Hr. destruct (K10 t j e He Hr) as (f & ? & ? & ? & ? & ?). exists f.
    split_and!; try done. set_solver.
Qed.

(** The heap changes its records. *)
Lemma kinv_set_heap P W Y Y' h s : kinv P W Y s -> heap_ok h ->
  owned h ∪ Y' = owned (kheap_st s) ∪ Y -> owned h ## Y' ->
  (forall q, vm_held s q -> allocated h q) -> kinv P W Y' (set_kheap_st h s).
Proof.
  intros K Hok Hown Hd Hheld.
  assert (Hown' : Y' ∪ owned h = Y ∪ owned (kheap_st s)).
  { rewrite (union_comm_L Y'), (union_comm_L Y). done. }
  assert (Hpages : pages W Y' (set_kheap_st h s) = pages W Y s).
  { unfold pages. cbn [kheap_st set_kheap_st]. by rewrite <- !(assoc_L (∪)), Hown'. }
  destruct K as [K1 K2 K3 K4 K5 K6 K7 K8 K9 K10 K11 K12 K13 K14 K15 K16 K17]. split; try done.
  - cbn [kheap_st set_kheap_st]. clear -K6 Hown' Hd. set_solver.
  - by rewrite Hpages.
  - intros i c Hi Hc. apply (K8 i); [|done]. cbn [kheap_st set_kheap_st] in Hi. by rewrite <- Hown'.
  - by rewrite Hpages.
Qed.

(** The kernel objects change: the new ones lie in blocks that nobody held. *)
Lemma kinv_objects P W Y s st ps cur os pt kp :
  let s' := set_segtabs st (set_procs ps (set_curproc cur (set_kobjs os (set_pid_table pt (set_kproc kp s))))) in
  kinv P W Y s -> one_object s' ->
  (forall q, objects s' q -> objects s q \/ allocated (kheap_st s) q /\ ~ vm_held s q) -> kinv P W Y s'.
Proof.
  intros s' [K1 K2 K3 K4 K5 K6 K7 K8 K9 K10 K11 K12 K13 K14 K15 K16 K17] H1 Hobj. split; try done.
  - destruct K14 as (Hnd & _ & Hn). split_and!; [done|done|]. intros q Hq Ho.
    destruct (Hobj q Ho) as [?|[_ Hh]]; [by apply (Hn q)|]. apply Hh. by left.
  - intros q [Hq|Ho]; [apply K15; by left|]. destruct (Hobj q Ho) as [?|[? _]]; [|done]. apply K15. by right.
Qed.

Lemma krel_set_heap h s : krel s (set_kheap_st h s).
Proof. destruct (krel_refl s). by split. Qed.

(** ** Giving kernel pages back *)

Lemma kva_index i : Z.of_nat i < 2 ^ 17 ->
  Z.to_nat (COREMAP_INDEX (u32 (kva i - MIPS_KSEG0))) = i.
Proof.
  intros Hi. unfold COREMAP_INDEX, kva.
  replace (MIPS_KSEG0 + _ - _) with (Z.of_nat i * PAGE_SIZE) by lia.
  rewrite u32_small by (unfold is_u32, PAGE_SIZE; lia). rewrite Z.div_mul by done. lia.
Qed.

(** A page of [Y] is a single frame of the coremap, used by nothing else. *)
Lemma Y_page P W Y s p : kinv P W Y s -> p ∈ Y ->
  exists i c, p = kva i /\ Z.of_nat i < 2 ^ 17 /\ coremap s !! i = Some c /\ ce_alloc_size c <= 1 /\
    ~ used P W (Y ∖ {[p]}) s i.
Proof.
  intros K Hp. destruct (k_pages _ _ _ _ K p) as (i & -> & Hi & (c & Hc & Hf) & Hpin).
  { unfold pages. set_solver. }
  exists i, c. pose proof (lookup_lt_Some _ _ _ Hc) as Hlt.
  pose proof (k_len _ _ _ _ K). pose proof (k_max _ _ _ _ K). split_and!; try done; [lia| |].
  - apply (k_single _ _ _ _ K i c); [set_solver|done].
  - intros [?|[Hin|[[? ?]|(t & j & e & He & Hr & Hpa)]]]; [done| |congruence|].
    + destruct (k_disj _ _ _ _ K) as (? & ? & ?). unfold pages in Hin. set_solver.
    + destruct (k_res _ _ _ _ K t j e He Hr) as (f & Hf2 & _ & _ & Hnp & _).
      assert (f = i) as -> by (unfold PAGE_SIZE in *; lia). apply Hnp. unfold pages. set_solver.
Qed.

Lemma vm_free_inv P W Y s p s' : kinv P W Y s -> p ∈ Y -> vm_free_kpages p s = Done tt s' ->
  kinv P W (Y ∖ {[p]}) s' /\ krel s s' /\ kheap_st s' = kheap_st s /\
  (forall q, vm_held s' q <-> vm_held s q).
Proof.
  intros K Hp H. destruct (Y_page P W Y s p K Hp) as (i & c & -> & Hi & Hc & Hsz & Hu).
  apply (kinv_drop_Y _ _ _ _ (kva i)) in K. unfold vm_free_kpages in H. mgo H.
  rewrite (k_init _ _ _ _ K) in H. unfold coremap_kfree in H. mgo H.
  rewrite kva_index in * by done. rewrite Hc in E0. inv E0.
  destruct (Z.to_nat (ce_alloc_size ret)) as [|[|]] eqn:En; [| |lia]; cbn [free_frames] in H; mgo H.
  - split_and!; try done. apply krel_refl.
  - split_and!; try done; [by apply kinv_frame|apply krel_coremap].
Qed.

(** The changes [kfree] makes: the heap, and frames that become free. *)
Definition frees (s s' : kstate) : Prop :=
  exists h cm, s' = set_kheap_st h (set_coremap cm s) /\
    Forall2 (fun c c' => c' = c \/ c' = ce_set_free true c) (coremap s) cm.

Lemma frees_refl s : frees s s.
Proof.
  exists (kheap_st s), (coremap s). split; [by destruct s|]. apply Forall_Forall2_diag.
  apply Forall_true. by left.
Qed.

Lemma free_frames_frees s n : forall i, preserves (frees s) (free_frames i n).
Proof.
  induction n as [|n IH]; intros i s1 [] s2 HP H; cbn [free_frames] in H; mgo H; [done|].
  eapply IH; [|done]. destruct HP as (h & cm & -> & Hcm). cbn in E |- *.
  exists h, (<[i := ce_set_free true ret]> cm). split; [done|].
  destruct (Forall2_lookup_r _ _ _ _ _ Hcm E) as (c & Hc & Hor).
  rewrite <- (list_insert_id (coremap s) i c) by done. apply Forall2_insert; [done|].
  right. destruct Hor as [-> | ->]; done.
Qed.

Lemma vm_free_frees s p : preserves (frees s) (vm_free_kpages p).
Proof.
  pose proof (free_frames_frees s). unfold vm_free_kpages, coremap_kfree, load_ce. 
  intros s1 [] s2 HP Hd. mgo Hd. destruct (vm_initialized s1); mgo Hd; [|done]. mgo Hd.
  by eapply H.
Qed.

Lemma kfree_frees s p s' : kfree p s = Done tt s' -> frees s s'.
Proof.
  intros H. eapply (kfree_preserves (frees s)); [| |apply frees_refl|done].
  - intros h s1 (h1 & cm & -> & Hcm). by exists h, cm.
  - intros q. apply vm_free_frees.
Qed.

#[global] Instance kstate_free_laws (P : gmap nat coremap_entry) : FreeLaws kstate.
Proof.
  refine {| Inv := kinv P; Rel := krel; held := vm_held |}.
  - apply krel_refl.
  - apply krel_trans.
  - done.
  - done.
  - intros W Y s. apply k_heap.
  - intros W Y s K. by destruct (k_disj _ _ _ _ K) as (_ & _ & ?).
  - intros W Y s q K. by apply (k_held _ _ _ _ K).
  - intros W Y Y' h s K Hok Hown Hd Hheld. split; [by apply (kinv_set_heap P W Y)|apply krel_set_heap].
  - intros W Y s p s'. apply vm_free_inv.
Defined.

End VmInv.
End VmInv.
