(* ===== verification/Replacement.v ===== *)
(** * Page replacement and frame allocation

    What [coremap_replace], [coremap_kalloc] and [coremap_alloc] of kern/vm/coremap.c
    do to a state that satisfies the invariant of [VmInv]: the victim is the oldest
    page, its bytes reach the swap file and its frame becomes free; no user page
    changes its contents; the frames handed out belong to nobody else. *)
From S2P Require Import Prelude Bitmap Vmstats Tlb Ram Segments Kmalloc KmallocProofs Machine Swapfile Coremap VmInv.
Import Bitmap Vmstats Tlb Segments Kmalloc KmallocProofs Machine Swapfile Coremap VmInv.

Module Replacement.
Section Replacement.
Context {VO : VnodeOps} {VL : VnodeLaws}.

(** ** Page table entries *)

Lemma pte_insert s t l j e t' j' : inner_pts s !! t = Some l -> (j < length l)%nat ->
  pte (set_inner_pts (<[t := <[j := e]> l]> (inner_pts s)) s) t' j' =
  if decide (t' = t /\ j' = j) then Some e else pte s t' j'.
Proof.
  intros Ht Hj. unfold pte. cbn [inner_pts set_inner_pts].
  destruct (decide (t' = t)) as [->|Hne].
  - rewrite lookup_insert_eq, Ht. cbn. destruct (decide (j' = j)) as [->|Hne].
    + rewrite list_lookup_insert_eq by done. by rewrite decide_True.
    + rewrite list_lookup_insert_ne by done. by rewrite decide_False by tauto.
  - rewrite lookup_insert_ne by done. by rewrite decide_False by tauto.
Qed.

Lemma pte_table s t j e : pte s t j = Some e ->
  exists l, inner_pts s !! t = Some l /\ l !! j = Some e /\ (j < length l)%nat.
Proof.
  unfold pte. destruct (inner_pts s !! t) as [l|] eqn:E; [|discriminate]. cbn.
  intros H. exists l. split_and!; try done. by eapply lookup_lt_Some.
Qed.

(** ** Taking the oldest page off the queue *)

Lemma kinv_pop P W Y s n q : kinv P W Y s -> replacement_queue s = n :: q ->
  let s0 := set_replacement_queue q s in
  kinv P W Y s0 /\ ~ vm_held s0 (qn_addr n) /\ allocated (kheap_st s) (qn_addr n).
Proof.
  intros [K1 K2 K3 K4 K5 K6 K7 K8 K9 K10 K11 K12 K13 K14 K15 K16 K17] Hq s0.
  rewrite Hq in *. rewrite !fmap_cons in *. destruct K13 as [Hnd Hqd], K14 as (Hna & Hone & Hns).
  apply NoDup_cons in Hnd as [Hn1 Hnd]. apply NoDup_cons in Hna as [Hn2 Hna]. split_and!.
  - split; try done.
    + split; [done|]. intros m Hm. apply Hqd. by right.
    + split_and!; [done|done|]. intros a Ha. apply Hns. by right.
    + intros a [Ha|Ha]; apply K15; [left|by right]. rewrite Hq, fmap_cons. by right.
  - intros [?|Hs]; [done|]. by apply (Hns (qn_addr n)); [left|].
  - apply K15. left. rewrite Hq, fmap_cons. left.
Qed.

Lemma krel_set_queue q s : q `suffix_of` replacement_queue s -> krel s (set_replacement_queue q s).
Proof. intros Hq. destruct (krel_refl s). by split. Qed.

(** The blocks of the heap that the VM system does not hold are kept. *)
Definition keeps_blocks (s s' : kstate) : Prop :=
  forall q n, block (kheap_st s) q n -> ~ vm_held s q -> block (kheap_st s') q n /\ ~ vm_held s' q.
Lemma keeps_blocks_refl s : keeps_blocks s s.
Proof. by intros q n. Qed.
Lemma keeps_blocks_trans s1 s2 s3 : keeps_blocks s1 s2 -> keeps_blocks s2 s3 -> keeps_blocks s1 s3.
Proof. intros H1 H2 q n Hb Hh. destruct (H1 q n Hb Hh). auto. Qed.

Lemma queue_pop_inv P W Y s n q r s' : kinv P W Y s -> replacement_queue s = n :: q ->
  queue_pop s = Done r s' ->
  r = Some (qn_entry n) /\ kinv P W Y s' /\ krel s s' /\
  heap_shrinks (kheap_st s) (kheap_st s') /\ keeps_blocks s s' /\ frees (set_replacement_queue q s) s'.
Proof.
  intros K Hq H. unfold queue_pop in H. mgo H. rewrite Hq in H. mgo H.
  destruct (kinv_pop P W Y s n q K Hq) as (K0 & Hnh & Hal).
  destruct (kfree_inv (FL := kstate_free_laws P) W Y _ _ _ _ K0 Hnh Hal E) as (K1 & R1 & Hsh & Hheld & Hkeep).
  split_and!; try done.
  - eapply krel_trans; [apply krel_set_queue|exact R1]. rewrite Hq. by exists [n].
  - intros p m Hb Hh. assert (p <> qn_addr n).
    { intros ->. apply Hh. left. rewrite Hq, fmap_cons. left. }
    split; [by apply Hkeep|]. intros [Hp|Hp]%Hheld; apply Hh; [left|by right].
    rewrite Hq, fmap_cons. by right.
  - by apply kfree_frees in E.
Qed.

(** The victim is always the head of the queue: its frame is in use. *)
Lemma pop_victim_inv P W Y s n q fuel v s' : kinv P W Y s -> replacement_queue s = n :: q ->
  pop_victim (S fuel) s = Done v s' ->
  v = qn_entry n /\ kinv P W Y s' /\ krel s s' /\ heap_shrinks (kheap_st s) (kheap_st s') /\
  keeps_blocks s s' /\ replacement_queue s' = q /\ queued s' n /\ inner_pts s' = inner_pts s /\
  frees (set_replacement_queue q s) s'.
Proof.
  intros K Hq H. cbn [pop_victim] in H. mgo H.
  destruct (queue_pop_inv P W Y s n q _ _ K Hq E) as (-> & K1 & R1 & Hsh & Hkb & Hfr). inv E0.
  pose proof Hfr as (h & cm & -> & Hcm).
  destruct (k_queue _ _ _ _ K) as [_ Hqd].
  destruct (Hqd n) as (c & t & j & e & Hc & Hpa & Hslot & Hpte & Hres & Hep); [rewrite Hq; left|].
  destruct (k_res _ _ _ _ K1 t j e Hpte Hres) as (f & Hf & _ & (c' & Hc' & Hnf) & _).
  assert (f = qn_entry n) as -> by (unfold PAGE_SIZE in *; lia).
  destruct (Forall2_lookup_lr _ _ _ _ _ _ Hcm Hc Hc') as [-> | ->]; [|done].
  cbn in E1. cbn in Hc'. rewrite Hc' in E1. inv E1. rewrite Hnf in H. mprim.
  split_and!; try done. by eexists _, t, j, e.
Qed.

(** ** Swapping a page out *)

(** The state after the page of entry [(t, j)], resident in frame [v], went to slot
    [idx] of the swap file. *)
Definition swap_out (t : Z) (l : list pt_entry) (j : nat) (idx : Z) (v : nat) (c : coremap_entry)
    (b : bitmap) (f : fstore) (s : kstate) : kstate :=
  set_inner_pts (<[t := <[j := mkPte idx true true]> l]> (inner_pts s))
    (set_coremap (<[v := ce_set_free true c]> (coremap s))
      (set_vms (inc_swapfilewrites (vms s))
        (set_fs f (set_swapfile_freeentries (Some b) s)))).

Lemma swap_alloc_spec P W Y s b b' idx : kinv P W Y s -> swapfile_freeentries s = Some b ->
  bitmap_alloc b = Ok (b', inr idx) ->
  0 <= idx < SWAPFILE_MAX_PAGES /\ wf b' /\ nbits b' = SWAPFILE_MAX_PAGES /\
  bit b idx = false /\ forall i, 0 <= i -> bit b' i = (i =? idx) || bit b i.
Proof.
  intros K Hb Ha.
  destruct (k_swap _ _ _ _ K) as (_ & (b0 & Hb0 & Hwf & Hn & _) & _). rewrite Hb in Hb0. inv Hb0.
  destruct (bitmap_alloc_spec b0 Hwf) as (b1 & r & Hr & Hwf1 & Hn1 & Hspec). rewrite Ha in Hr. inv Hr.
  destruct Hspec as (Hi & Hbit & _ & Hall). split_and!; try done; lia.
Qed.

(** What replacement does besides the queue and the page table: slot [idx] of the swap
    file, free before, is taken and is the only part of it that is written; of the
    coremap, entry [v] changes, and entries of kernel pages may be freed. *)
Definition evicted (v : nat) (idx : Z) (s s' : kstate) : Prop :=
  (exists b b', swapfile_freeentries s = Some b /\ swapfile_freeentries s' = Some b' /\
     bit b idx = false /\ forall i, 0 <= i -> bit b' i = (i =? idx) || bit b i) /\
  (forall x, 0 <= x < fsize (fs s) (swapfile s) -> x / PAGE_SIZE <> idx ->
     fbyte (fs s') (swapfile s) x = fbyte (fs s) (swapfile s) x) /\
  (forall i, i <> v -> coremap s' !! i = coremap s !! i \/
     coremap s' !! i = ce_set_free true <$> coremap s !! i).

Section SwapOut.
Context (P : gmap nat coremap_entry) (W Y : gset Z) (s : kstate).
Context (t : Z) (l : list pt_entry) (j : nat) (e : pt_entry).
Context (idx : Z) (v : nat) (c : coremap_entry) (b b' : bitmap) (f : fstore).
Hypothesis K : kinv P W Y s.
Hypothesis Ht : inner_pts s !! t = Some l.
Hypothesis Hj : l !! j = Some e.
Hypothesis Hres : resident e.
Hypothesis Hpa : pte_paddr e = Z.of_nat v * PAGE_SIZE.
Hypothesis Hc : coremap s !! v = Some c.
Hypothesis Hnq : v ∉ qn_entry <$> replacement_queue s.
Hypothesis Hb : swapfile_freeentries s = Some b.
Hypothesis Ha : bitmap_alloc b = Ok (b', inr idx).
Hypothesis Hw : vop_write (fs s) (swapfile s) (idx * PAGE_SIZE) PAGE_SIZE
  (fun k => pmem s (Z.of_nat v * PAGE_SIZE + k)) = (0, 0, f).

Let s' := swap_out t l j idx v c b' f s.

Lemma swap_out_pte t' j' : pte s' t' j' =
  if decide (t' = t /\ j' = j) then Some (mkPte idx true true) else pte s t' j'.
Proof. by apply (pte_insert s); [|eapply lookup_lt_Some]. Qed.

Lemma swap_out_victim : pte s t j = Some e.
Proof. unfold pte. by rewrite Ht. Qed.

Lemma swap_out_bitmap : 0 <= idx < SWAPFILE_MAX_PAGES /\ wf b' /\ nbits b' = SWAPFILE_MAX_PAGES /\
  bit b idx = false /\ forall i, 0 <= i -> bit b' i = (i =? idx) || bit b i.
Proof. by apply (swap_alloc_spec P W Y s). Qed.

(** The slots other pages use in the swap file are not the new one. *)
Lemma swap_out_other t' j' e' : pte s t' j' = Some e' -> swapped e' ->
  0 <= pte_paddr e' < SWAPFILE_MAX_PAGES /\ pte_paddr e' <> idx /\ bit b (pte_paddr e') = true /\
  (pte_paddr e' + 1) * PAGE_SIZE <= fsize (fs s) (swapfile s).
Proof.
  intros He Hs. destruct (k_swap _ _ _ _ K) as (_ & (b0 & Hb0 & _ & _ & Hsw) & _).
  assert (b0 = b) as -> by congruence. destruct (Hsw t' j' e' He Hs) as (? & Hbit & ?).
  destruct swap_out_bitmap as (_ & _ & _ & Hclr & _). split_and!; try done; try lia.
  intros Heq. congruence.
Qed.

Lemma swap_out_file :
  fsize f (swapfile s) = Z.max (fsize (fs s) (swapfile s)) (idx * PAGE_SIZE + PAGE_SIZE) /\
  (forall k, 0 <= k < PAGE_SIZE -> fbyte f (swapfile s) (idx * PAGE_SIZE + k) = pmem s (Z.of_nat v * PAGE_SIZE + k)) /\
  (forall x, 0 <= x < fsize (fs s) (swapfile s) -> x / PAGE_SIZE <> idx ->
     fbyte f (swapfile s) x = fbyte (fs s) (swapfile s) x) /\
  (forall v', v' <> swapfile s -> fsize f v' = fsize (fs s) v' /\
     forall x, 0 <= x < fsize (fs s) v' -> fbyte f v' x = fbyte (fs s) v' x).
Proof.
  destruct swap_out_bitmap as (Hi & _).
  destruct (vop_write_ok _ _ _ _ _ _ _ Hw) as (_ & Hsz & Hszo & Hd & Ho);
    [unfold PAGE_SIZE; lia..|].
  split_and!; try done.
  - intros x Hx Hne. apply Ho; [done|]. right. intros Hr. apply Hne.
    symmetry. apply (Z.div_unique x PAGE_SIZE idx (x - idx * PAGE_SIZE)); unfold PAGE_SIZE in *; lia.
  - intros v' Hv. split; [by apply Hszo|]. intros x Hx. apply Ho; [done|]. by left.
Qed.

Lemma swap_out_content t' j' e' k : pte s t' j' = Some e' -> pte_valid e' = true ->
  (t', j') <> (t, j) -> 0 <= k < PAGE_SIZE -> content s' e' k = content s e' k.
Proof.
  intros He Hv Hne Hk. unfold content. cbn. destruct (pte_swapped e') eqn:Hs; [|done].
  destruct (swap_out_other t' j' e' He) as (Hr & Hni & _ & Hsz); [done|].
  destruct swap_out_file as (_ & _ & Hold & _). apply Hold; [unfold PAGE_SIZE in *; lia|].
  rewrite Z.mul_comm, Z.add_comm. unfold PAGE_SIZE in *.
  rewrite (Z.mul_comm 4096), Z.div_add, Z.div_small by lia. lia.
Qed.

Lemma swap_out_rel : krel s s'.
Proof.
  split; try done.
  - cbn [inner_pts s' swap_out set_inner_pts]. rewrite dom_insert_L. apply elem_of_dom_2 in Ht. set_solver.
  - intros t' j'. rewrite swap_out_pte. case_decide as Hd.
    + destruct Hd as [-> ->]. rewrite swap_out_victim. constructor. split; [by right|].
      intros _ k Hk. unfold content. cbn. destruct Hres as [_ ->]. rewrite Hpa.
      by apply swap_out_file.
    + destruct (pte s t' j') as [e'|] eqn:He; constructor. split; [by left|]. intros Hv k Hk.
      eapply swap_out_content; try done. intros [= -> ->]. tauto.
  - apply swap_out_file.
  - by eexists.
Qed.

Let s0 := set_coremap (coremap s) s'.

Lemma swap_out_resident t' j' e' : pte s' t' j' = Some e' -> resident e' ->
  pte s t' j' = Some e' /\ ~ (t' = t /\ j' = j).
Proof. rewrite swap_out_pte. case_decide; [|done]. intros [= <-] [_ ?]. done. Qed.

Lemma swap_out_swapped t' j' e' : pte s' t' j' = Some e' -> swapped e' ->
  t' = t /\ j' = j /\ pte_paddr e' = idx \/ pte s t' j' = Some e' /\ pte_paddr e' <> idx.
Proof.
  rewrite swap_out_pte. case_decide as Hd; [intros [= <-] _; left; tauto|]. intros He Hs. right.
  split; [done|]. by apply (swap_out_other t' j').
Qed.

Lemma swap_out_swap_ok : swap_ok s0.
Proof.
  destruct swap_out_bitmap as (Hi & Hwf & Hn & _ & Hall). destruct swap_out_file as (Hsz & _).
  split_and!; [apply (k_swap _ _ _ _ K)| |].
  - exists b'. split_and!; try done. intros t' j' e' He Hs.
    destruct (swap_out_swapped t' j' e' He Hs) as [(-> & -> & ->)|[He' Hne]].
    + split_and!; [lia|lia| |cbn; unfold PAGE_SIZE in *; lia]. rewrite Hall, Z.eqb_refl by lia. done.
    + destruct (swap_out_other t' j' e' He' Hs) as (? & _ & Hbit & ?).
      split_and!; [lia|lia| |cbn; lia]. rewrite Hall, Hbit by lia. apply orb_true_r.
  - intros t1 j1 e1 t2 j2 e2 H1 S1 H2 S2 Heq. destruct (k_swap _ _ _ _ K) as (_ & _ & Hinj).
    destruct (swap_out_swapped t1 j1 e1 H1 S1) as [(-> & -> & ?)|[H1' ?]],
      (swap_out_swapped t2 j2 e2 H2 S2) as [(-> & -> & ?)|[H2' ?]]; try done; try congruence.
    by eapply Hinj.
Qed.

Lemma swap_out_queued n : n ∈ replacement_queue s -> queued s0 n.
Proof.
  intros Hn. destruct (k_queue _ _ _ _ K) as [_ Hq].
  destruct (Hq n Hn) as (cn & tn & jn & en & Hcn & Hpn & Hslot & Hen & Hrn & Hfn).
  exists cn, tn, jn, en. split_and!; try done. change (pte s' tn jn = Some en).
  rewrite swap_out_pte. case_decide as Hd; [|done]. destruct Hd as [-> ->].
  rewrite swap_out_victim in Hen. exfalso. apply Hnq, list_elem_of_fmap. exists n. split; [|done].
  assert (en = e) as -> by congruence. unfold PAGE_SIZE in *. lia.
Qed.

Lemma swap_out_inv : kinv P W Y s'.
Proof.
  assert (Hv : exists f, pte_paddr e = Z.of_nat f * PAGE_SIZE /\ f <> 0%nat /\ nonfree s f /\
    kva f ∉ pages W Y s /\ P !! f = None) by (by apply (k_res _ _ _ _ K t j), Hres; apply swap_out_victim).
  assert (K0 : kinv P W Y s0).
  { pose proof swap_out_swap_ok as Hsw. pose proof swap_out_queued as Hqu.
    pose proof swap_out_resident as Hre.
    destruct K as [K1 K2 K3 K4 K5 K6 K7 K8 K9 K10 K11 K12 K13 K14 K15 K16 K17]. split; try done.
    - intros t' j' e' He Hr. destruct (Hre t' j' e' He Hr) as [He' _]. by apply (K10 t' j').
    - intros t1 j1 e1 t2 j2 e2 H1 R1 H2 R2.
      destruct (Hre _ _ _ H1 R1) as [H1' _]. destruct (Hre _ _ _ H2 R2) as [H2' _]. by eapply K11.
    - split; [apply K13|done].
    - intros t' l' Hl. cbn in Hl. apply lookup_insert_Some in Hl as [[<- <-]|[_ Hl]]; [|by apply K16].
      rewrite length_insert. by apply K16. }
  apply (kinv_frame P W Y s0 v (ce_set_free true c) K0). destruct Hv as (f' & Hf & H0 & _ & Hp & Hpin).
  assert (f' = v) as -> by (unfold PAGE_SIZE in *; lia).
  intros [?|[?|[[? ?]|(t' & j' & e' & He & Hr & Hp')]]]; [done|done|congruence|].
  destruct (swap_out_resident t' j' e' He Hr) as [He' Hne]. apply Hne.
  apply (k_inj _ _ _ _ K t' j' e' t j e); try done; [apply swap_out_victim|congruence].
Qed.

Lemma swap_out_evicted q s1 : frees (set_replacement_queue q s1) s -> evicted v idx s1 s'.
Proof.
  destruct swap_out_bitmap as (_ & _ & _ & Hbi & Hall). destruct swap_out_file as (_ & _ & Hold & _).
  intros (h & cm & Heq & Hcm). unfold s'. rewrite Heq in *. split_and!.
  - by exists b, b'.
  - exact Hold.
  - intros i Hi. cbn [coremap swap_out set_inner_pts set_coremap]. rewrite list_lookup_insert_ne by done.
    cbn [coremap set_kheap_st set_coremap set_replacement_queue] in Hcm |- *.
    pose proof (proj1 (Forall2_lookup _ _ _) Hcm i) as Hx.
    destruct (coremap s1 !! i) as [x|], (cm !! i) as [y|]; inv Hx; [|by left].
    destruct H1 as [->| ->]; [by left|by right].
Qed.

End SwapOut.

(** ** coremap_replace *)

Lemma pt_get_Done a va s ptr s' : pt_get a va s = Done ptr s' ->
  s' = s /\ exists t, ptr = (t, INNER_PT_INDEX va) /\
    slot_of s a va = Some (t, Z.to_nat (INNER_PT_INDEX va)).
Proof.
  intros H. unfold pt_get in H. mgo H. split; [done|]. exists ret0. split; [done|].
  unfold slot_of. apply negb_true_iff in E. rewrite E, E0. cbn. by rewrite E1.
Qed.

Lemma swapfile_writepage_Done pa st s r s' : swapfile_writepage pa st s = Done r s' ->
  exists b b' idx er resid f, swapfile_freeentries s = Some b /\ bitmap_alloc b = Ok (b', inr idx) /\
    swapfile s <> 0 /\
    vop_write (fs s) (swapfile s) (u32 (idx * PAGE_SIZE)) PAGE_SIZE
      (fun k => pmem s (KVADDR_TO_PADDR (PADDR_TO_KVADDR pa) + k)) = (er, resid, f) /\
    let s1 := set_fs f (set_swapfile_freeentries (Some b') s) in
    (er <> 0 /\ r = er /\ s' = s1 \/
     er = 0 /\ r = 0 /\ st idx (set_vms (inc_swapfilewrites (vms s)) s1) = Done tt s').
Proof.
  intros H. unfold swapfile_writepage in H. mgo H. destruct ret0 as [b' [?|idx]]; mgo H.
  unfold VOP_WRITE_kernel in E2. cbn in E2.
  destruct (vop_write _ _ _ _ _) as [[er resid] f] eqn:Hw. inv E2.
  exists ret, b', idx, er, resid, f. split_and!; try done.
  destruct (Z.eqb_spec er 0) as [->|Hne]; cbn [negb] in H; mgo H.
  - by right.
  - by left.
Qed.

Lemma kseg0_roundtrip pa : 0 <= pa < 2 ^ 29 -> KVADDR_TO_PADDR (PADDR_TO_KVADDR pa) = pa.
Proof.
  intros H. unfold KVADDR_TO_PADDR, PADDR_TO_KVADDR, MIPS_KSEG0.
  rewrite (u32_small (pa + _)) by (unfold is_u32; lia). rewrite u32_small by (unfold is_u32; lia). lia.
Qed.

(** Replacement frees the frame of the oldest page of the queue and keeps the
    invariant; no page changes its contents. *)
Lemma coremap_replace_inv P W Y s pa s' : kinv P W Y s -> coremap_replace s = Done pa s' ->
  kinv P W Y s' /\ krel s s' /\ heap_shrinks (kheap_st s) (kheap_st s') /\ keeps_blocks s s' /\
  exists n q c, replacement_queue s = n :: q /\ replacement_queue s' = q /\
    pa = Z.of_nat (qn_entry n) * PAGE_SIZE /\
    coremap s' !! qn_entry n = Some (ce_set_free true c) /\
    exists t j e idx, pte s t j = Some e /\ resident e /\ pte_paddr e = pa /\
      evicted (qn_entry n) idx s s' /\
      forall t' j', pte s' t' j' = if decide (t' = t /\ j' = j) then Some (mkPte idx true true) else pte s t' j'.
Proof.
  intros K H. unfold coremap_replace in H. mgo H.
  destruct (replacement_queue s) as [|n q] eqn:Hq; [done|]. cbn [length] in E0.
  destruct (pop_victim_inv P W Y s n q _ _ _ K Hq E0) as (-> & K1 & R1 & Sh1 & Kb1 & Hq1 & Hqn & Hpts & Hfr).
  apply pt_get_Done in E3 as (-> & t & -> & Hslot).
  destruct Hqn as (c & t' & j & e & Hc & Hcp & Hslot' & He & Hr & Hpa).
  rewrite Hc in E1. inv E1.
  destruct (pte_table _ _ _ _ He) as (tl & Ht & Hl & Hlt).
  apply swapfile_writepage_Done in E4 as (b & b' & idx & er & resid & f & Hb & Ha & Hsw & Hw & Hst).
  destruct Hst as [(Hne & -> & ->)|(-> & -> & Hst)].
  { apply Z.eqb_neq in Hne. rewrite Hne in E5. cbn [negb] in E5. mprim. }
  rewrite Z.eqb_refl in E5. cbn [negb] in E5. mgo Hst. 
  cbn [fst snd inner_pts coremap set_inner_pts set_coremap set_vms set_fs set_swapfile_freeentries] in *.
  rewrite lookup_insert_eq in E8, E9. rewrite Ht in E1. cbn in E1, E8. simplify_eq.
  rewrite list_lookup_insert_eq in E8 by done. simplify_eq. cbn [pte_paddr pte_valid]. rewrite insert_insert_eq, list_insert_insert_eq.
  pose proof Hr as [Hrv _]. rewrite Hrv.
  set (j := Z.to_nat (INNER_PT_INDEX (ce_vaddr ret3))) in *.
  pose proof (lookup_lt_Some _ _ _ E6) as Hvl. pose proof (k_len _ _ _ _ K1) as Hlen.
  pose proof (k_max _ _ _ _ K1) as Hmax.
  assert (Hidx : 0 <= idx < SWAPFILE_MAX_PAGES).
  { by apply (swap_alloc_spec P W Y s0 b b' idx). }
  change SWAPFILE_MAX_PAGES with 2304 in Hidx.
  rewrite u32_small in Hw by (unfold is_u32, PAGE_SIZE; lia).
  rewrite Hcp, kseg0_roundtrip in Hw by (unfold PAGE_SIZE; lia).
  assert (resid = 0) as -> by (eapply vop_write_ok; [exact Hw|unfold PAGE_SIZE; lia..]).
  assert (Hnq : qn_entry n ∉ qn_entry <$> replacement_queue s0).
  { destruct (k_queue _ _ _ _ K) as [Hnd _]. rewrite Hq, fmap_cons in Hnd. by apply NoDup_cons in Hnd as [? _]. }
  pose proof (swap_out_inv P W Y s0 t l0 j ret idx (qn_entry n) ret3 b b' f K1) as Hinv.
  pose proof (swap_out_rel P W Y s0 t l0 j ret idx (qn_entry n) ret3 b b' f K1) as Hrel.
  split_and!.
  - by apply Hinv.
  - eapply krel_trans; [exact R1|]. by apply Hrel.
  - done.
  - done.
  - exists n, (replacement_queue s0), ret3. split_and!; try done.
    + by apply list_lookup_insert_eq.
    + exists t, j, ret, idx. split; [by unfold pte in *; rewrite <- Hpts|]. split; [done|]. split; [congruence|].
      split; [by eapply swap_out_evicted|].
      intros t' j'. etrans; [by eapply swap_out_pte|]. unfold pte. by rewrite Hpts.
Qed.

(** ** Runs of frames for the kernel *)

Definition free_at (cm : list coremap_entry) (k : nat) : Prop :=
  exists c, cm !! k = Some c /\ ce_is_free c = true.

(** What the scan knows when it reaches frame [i]: if the frame before is free, the
    run of free frames that ends there began at [first] and is too short. *)
Definition run (cm : list coremap_entry) (npages : Z) (i : nat) (first : Z) : Prop :=
  forall j, i = S j -> free_at cm j -> 0 <= first < Z.of_nat i /\
    (forall k, first <= Z.of_nat k < Z.of_nat i -> free_at cm k) /\ Z.of_nat i - first < npages.

Lemma kscan_spec cm npages n : 0 < npages -> Z.of_nat (length cm) <= 2 ^ 17 ->
  forall i first first' last, run cm npages i first ->
  kscan cm npages i n first = Ok (first', Some last) ->
  exists f : nat, first' = Z.of_nat f /\ last = Z.of_nat f + npages - 1 /\
    forall k, (f <= k)%nat -> Z.of_nat k <= last -> free_at cm k.
Proof.
  intros Hnp Hlen. induction n as [|n IH]; intros i first first' last Hrun H; cbn [kscan] in H; [by inv H|].
  mstep H. destruct (cm !! i) as [c|] eqn:Hc; [|done]. inv E.
  pose proof (lookup_lt_Some _ _ _ Hc) as Hi.
  destruct (ce_is_free ret) eqn:Hf.
  2:{ eapply IH; [|exact H]. intros j [= <-] (c & Hc' & ?). congruence. }
  mstep H. destruct i as [|j]; [discriminate|].
  destruct (cm !! j) as [p|] eqn:Hp; [|done]. inv E.
  set (first1 := if _ || _ then _ else first) in H.
  assert (Hf1 : 0 <= first1 < Z.of_nat (S (S j)) /\ Z.of_nat (S j) - first1 < npages /\
    forall k, first1 <= Z.of_nat k < Z.of_nat (S (S j)) -> free_at cm k).
  { unfold first1. replace (Z.of_nat (S j) =? 0) with false by (symmetry; apply Z.eqb_neq; lia).
    cbn [orb]. destruct (ce_is_free ret0) eqn:Hfp; cbn [negb].
    - destruct (Hrun j eq_refl) as (? & Hall & ?); [by exists ret0|]. split_and!; try lia.
      intros k Hk. destruct (decide (k = S j)) as [->|]; [by exists ret|]. apply Hall. lia.
    - split_and!; try lia. intros k Hk. assert (k = S j) as -> by lia. by exists ret. }
  destruct Hf1 as (Hr1 & Hs1 & Hall1). rewrite u32_small in H by (unfold is_u32; lia). clearbody first1.
  destruct (Z.leb_spec npages (Z.of_nat (S j) - first1 + 1)).
  - injection H as <- <-. exists (Z.to_nat first1). split_and!; [lia|lia|]. intros k Hk1 Hk2. apply Hall1. lia.
  - eapply IH; [|exact H]. intros j' [= <-] _. split_and!; try lia. intros k Hk. apply Hall1. lia.
Qed.

Lemma mark_allocated_spec n : forall first i npages s s',
  mark_allocated first i n npages s = Done tt s' ->
  exists cm, s' = set_coremap cm s /\ length cm = length (coremap s) /\
    (forall k, (k < first + i \/ first + i + n <= k)%nat -> cm !! k = coremap s !! k) /\
    forall k, (first + i <= k < first + i + n)%nat ->
      exists c, cm !! k = Some c /\ ce_is_free c = false /\
        (k = first -> i = 0%nat -> ce_alloc_size c = npages).
Proof.
  induction n as [|n IH]; intros first i npages s s' H; cbn [mark_allocated] in H.
  - mprim. exists (coremap s). split_and!; try done; [by destruct s|lia].
  - mgo H. apply IH in H as (cm & -> & Hlen & Hout & Hin). cbn [coremap set_coremap] in *.
    pose proof (lookup_lt_Some _ _ _ E) as Hlt. exists cm. rewrite length_insert in Hlen.
    split_and!; try done.
    + intros k Hk. rewrite Hout by lia. apply list_lookup_insert_ne. lia.
    + intros k Hk. destruct (decide (k = first + i)%nat) as [->|].
      * rewrite Hout, list_lookup_insert_eq by lia. eexists. split_and!; try done.
        intros _ ->. done.
      * destruct (Hin k) as (c & Hc & Hf & _); [lia|]. exists c. split_and!; try done. lia.
Qed.

(** A run of fresh frames joins the pages in use. *)
Lemma kinv_take_range P Y s f n : forall W, kinv P W Y s ->
  (forall k, (f <= k < f + n)%nat -> nonfree s k /\ ~ used P W Y s k) ->
  kinv P (page_range (kva f) (Z.of_nat n) ∪ W) Y s /\ page_range (kva f) (Z.of_nat n) ## W.
Proof.
  unfold page_range. rewrite Nat2Z.id. induction n as [|n IH]; intros W K Hk.
  - cbn. split; [by rewrite union_empty_l_L|set_solver].
  - destruct (IH W K) as [K' Hd]; [intros k Hr; apply Hk; lia|].
    destruct (Hk (f + n)%nat) as [Hnf Hu]; [lia|].
    rewrite seq_S, fmap_app, list_to_set_app_L. cbn. rewrite union_empty_r_L.
    replace (kva f + Z.of_nat n * PAGE_SIZE) with (kva (f + n)) by (unfold kva; lia).
    set (A := list_to_set _) in *.
    assert (Hna : kva (f + n) ∉ A).
    { unfold A. rewrite elem_of_list_to_set, list_elem_of_fmap. intros (k & Heq & Hin%elem_of_seq).
      unfold kva, PAGE_SIZE in Heq. lia. }
    assert (Hnw : kva (f + n) ∉ W) by (unfold used, pages in Hu; set_solver).
    split; [|set_solver]. replace (A ∪ {[kva (f + n)]} ∪ W) with ({[kva (f + n)]} ∪ (A ∪ W)) by set_solver.
    apply kinv_take_W; try done. intros [Hx|[Hx|Hx]]; apply Hu; [by left| |do 2 right; done].
    right. left. unfold pages in *. set_solver.
Qed.

(** The frames [coremap_kalloc] hands out: [npages] consecutive ones, free before,
    owned by nobody. *)
Lemma kalloc_found P W Y s first npages first' last s' : kinv P W Y s -> 0 < npages ->
  kscan (coremap s) npages 0 (Z.to_nat (num_frames s)) first = Ok (first', Some last) ->
  mark_allocated (Z.to_nat first') 0 (Z.to_nat (u32 (last - first' + 1))) npages s = Done tt s' ->
  exists f : nat, u32 (first' * PAGE_SIZE) = Z.of_nat f * PAGE_SIZE /\ Z.of_nat f < 2 ^ 17 /\
    kinv P W Y s' /\ krel s s' /\ kheap_st s' = kheap_st s /\ keeps_blocks s s' /\
    forall k, (f <= k < f + Z.to_nat npages)%nat -> ~ used P W Y s' k /\
      exists c, coremap s' !! k = Some c /\ ce_is_free c = false /\ (k = f -> ce_alloc_size c = npages).
Proof.
  intros K Hnp Hscan Hmark. pose proof (k_len _ _ _ _ K) as Hl. pose proof (k_max _ _ _ _ K) as Hm.
  apply kscan_spec in Hscan as (f & -> & -> & Hfree); [|done|lia|by intros j].
  assert (Hlast : Z.of_nat f + npages - 1 < 2 ^ 17).
  { destruct (Hfree (Z.to_nat (Z.of_nat f + npages - 1))) as (c & Hc & _); [lia|lia|].
    apply lookup_lt_Some in Hc. lia. }
  replace (Z.of_nat f + npages - 1 - Z.of_nat f + 1) with npages in Hmark by lia.
  rewrite Nat2Z.id, u32_small in Hmark by (unfold is_u32; lia).
  apply mark_allocated_spec in Hmark as (cm & -> & Hlen & Hout & Hin). rewrite Nat.add_0_r in *.
  assert (Hu : forall k, (f <= k < f + Z.to_nat npages)%nat -> ~ used P W Y s k).
  { intros k Hk. destruct (Hfree k) as (c & Hc & ?); [lia|lia|]. by eapply free_not_used. }
  exists f. split_and!; try done.
  - rewrite u32_small; [done|]. unfold is_u32, PAGE_SIZE. lia.
  - lia.
  - apply kinv_coremap; [done|done|]. intros k Hk. apply Hout.
    destruct (decide (f <= k < f + Z.to_nat npages)%nat); [|lia]. exfalso. by eapply Hu.
  - apply krel_coremap.
  - intros k Hk. split; [by apply Hu|]. destruct (Hin k Hk) as (c & ? & ? & Hsz). exists c. 
    split_and!; try done. intros ->. by apply Hsz.
Qed.

Lemma coremap_kalloc_loop_inv P W Y fuel : forall first npages s r s', kinv P W Y s -> 0 < npages ->
  coremap_kalloc_loop fuel npages first s = Done r s' ->
  exists f : nat, r = Z.of_nat f * PAGE_SIZE /\ Z.of_nat f < 2 ^ 17 /\
    kinv P W Y s' /\ krel s s' /\ heap_shrinks (kheap_st s) (kheap_st s') /\ keeps_blocks s s' /\
    forall k, (f <= k < f + Z.to_nat npages)%nat -> ~ used P W Y s' k /\
      exists c, coremap s' !! k = Some c /\ ce_is_free c = false /\ (k = f -> ce_alloc_size c = npages).
Proof.
  induction fuel as [|fuel IH]; intros first npages s r s' K Hnp H; [discriminate|].
  cbn [coremap_kalloc_loop] in H. mgo H. destruct ret as [first' [last|]]; mgo H.
  - destruct (kalloc_found P W Y s first npages first' last s0 K Hnp E E0)
      as (f & -> & Hf & K' & R' & Hh & Hkb & Hk).
    exists f. split_and!; try done. rewrite Hh. apply heap_shrinks_refl.
  - destruct (coremap_replace_inv P W Y s _ _ K E0) as (K1 & R1 & Sh1 & Kb1 & _).
    destruct (IH _ _ _ _ _ K1 Hnp H) as (f & ? & ? & K2 & R2 & Sh2 & Kb2 & Hk).
    exists f. split_and!; try done; [by eapply krel_trans|by eapply heap_shrinks_trans|by eapply keeps_blocks_trans].
Qed.

Lemma kva_PADDR f : Z.of_nat f < 2 ^ 17 -> PADDR_TO_KVADDR (Z.of_nat f * PAGE_SIZE) = kva f.
Proof.
  intros Hf. unfold PADDR_TO_KVADDR, kva. rewrite u32_small; [lia|].
  unfold is_u32, MIPS_KSEG0, PAGE_SIZE. lia.
Qed.

Lemma kva_page_ok f : Z.of_nat f < 2 ^ 17 -> page_ok (kva f).
Proof.
  intros Hf. unfold page_ok, kva. split; [|unfold MIPS_KSEG0, PAGE_SIZE; lia].
  rewrite Z.mod_add by done. done.
Qed.

#[global] Instance kstate_alloc_laws P : AllocLaws kstate (FL := kstate_free_laws P).
Proof.
  intros W Y s n r s' K Hn H. change (kinv P W Y s) in K. unfold alloc_kpages, kstate_alloc_pages in H.
  unfold vm_alloc_kpages in H. mgo H. rewrite (k_init _ _ _ _ K) in H. mgo H.
  unfold coremap_kalloc in E. mgo E.
  destruct (coremap_kalloc_loop_inv P W Y _ _ _ _ _ _ K Hn E) as (f & -> & Hf & K' & R' & Sh & Kb & Hk).
  rewrite kva_PADDR by done. pose proof (kva_page_ok f Hf) as Hpok.
  split_and!; [done|done|done|]. right.
  destruct (Hk f) as (Hu & c & Hc & Hnf & Hsz); [lia|].
  split_and!; [destruct Hpok as [_ ?]; unfold MIPS_KSEG0 in *; lia|done| |].
  - intros ->. unfold used, pages in Hu. split_and!; [set_solver|set_solver|].
    eapply kinv_take_Y; try done. rewrite Hsz by done. lia.
  - intros _. rewrite <- (Z2Nat.id n) by lia. 
    destruct (kinv_take_range P Y _ f (Z.to_nat n) W K') as [Kn Hd]; [|by split].
    intros k Hr. destruct (Hk k) as (? & c' & ? & ? & _); [lia|]. split; [by exists c'|done].
Qed.

(** ** Frames for user pages *)

(** [queue_push] keeps the invariant while the frame is pinned; afterwards the queue
    has gained a node for it, unless the heap was full. *)
Lemma queue_push_inv P W Y s i r s' : kinv P W Y s -> queue_push i s = Done r s' ->
  exists s2, kinv P W Y s2 /\ krel s s2 /\
    (s' = s2 /\ r = ENOMEM \/ r = 0 /\
     exists node, allocated (kheap_st s2) node /\ ~ vm_held s2 node /\
       s' = set_replacement_queue (replacement_queue s2 ++ [mkNode node i]) s2).
Proof.
  intros K H. unfold queue_push in H. mgo H.
  destruct (kmalloc_small_inv (FL := kstate_free_laws P) W Y s SIZEOF_QUEUE_NODE ret s0 K)
    as (K1 & R1 & _ & Hr); [unfold SIZEOF_QUEUE_NODE, LARGEST_SUBPAGE_SIZE; lia|exact E|].
  exists s0. split_and!; [done|done|].
  destruct Hr as [->|(Hr0 & Hnh & _ & nb & _ & Hal%block_allocated)]; [rewrite Z.eqb_refl in H; mprim; by left|].
  rewrite (proj2 (Z.eqb_neq _ _) Hr0) in H. right.
  pose proof (r_queue _ _ R1) as Hsuf. destruct (replacement_queue s) as [|hd q]; mgo H.
  - apply suffix_nil_inv in Hsuf. rewrite Hsuf. eauto.
  - destruct (replacement_queue s0) as [|hd' q'] eqn:Hq; mgo H.
    destruct (qn_addr hd' =? qn_addr hd); mgo H. eauto.
Qed.

Lemma coremap_alloc_loop_inv W Y fuel : forall as_ vaddr s r s', kinv ∅ W Y s ->
  coremap_alloc_loop fuel as_ vaddr s = Done r s' ->
  exists i sz s2, r = Z.of_nat i * PAGE_SIZE /\
    kinv {[i := mkCe as_ vaddr r false sz]} W Y s2 /\ krel s s2 /\
    (s' = s2 \/ exists node, allocated (kheap_st s2) node /\ ~ vm_held s2 node /\
       s' = set_replacement_queue (replacement_queue s2 ++ [mkNode node i]) s2).
Proof.
  induction fuel as [|fuel IH]; intros as_ vaddr s r s' K H; [discriminate|].
  cbn [coremap_alloc_loop] in H. mgo H.
  destruct (list_find _ _) as [[i c]|] eqn:Hf; mgo H.
  - apply list_find_Some in Hf as (Hc & Hfree & _). apply lookup_take_Some in Hc as [Hc Hi].
    pose proof (k_len _ _ _ _ K). pose proof (k_max _ _ _ _ K).
    pose proof (lookup_lt_Some _ _ _ Hc) as Hlt.
    rewrite u32_small in * by (unfold is_u32, PAGE_SIZE; lia).
    pose proof (free_not_used _ _ _ _ _ _ K Hc Hfree) as Hu.
    set (c' := mkCe as_ vaddr (Z.of_nat i * PAGE_SIZE) false (ce_alloc_size c)) in *.
    assert (K1 : kinv {[i := c']} W Y (set_coremap (<[i := c']> (coremap s)) s)).
    { apply kinv_take_pin; [by apply kinv_frame|done| |done]. cbn [coremap set_coremap].
      by apply list_lookup_insert_eq. }
    destruct (queue_push_inv _ _ _ _ _ _ _ K1 E) as (s2 & K2 & R2 & Hs).
    exists i, (ce_alloc_size c), s2. split_and!; try done.
    + eapply krel_trans; [apply krel_coremap|exact R2].
    + naive_solver.
  - destruct (coremap_replace_inv ∅ W Y s _ _ K E) as (K1 & R1 & _).
    destruct (IH _ _ _ _ _ K1 H) as (i & sz & s2 & ? & K2 & R2 & Hs).
    exists i, sz, s2. split_and!; try done. by eapply krel_trans.
Qed.

End Replacement.
End Replacement.
