(* ===== verification/FaultProofs.v ===== *)
(** * The page fault handler

    [vm_fault] keeps the invariant of the VM system; every page that was valid
    keeps its contents; a fault that returns 0 leaves the faulting page resident
    and translated by the TLB. *)
From S2P Require Import Prelude Bitmap Vmstats Tlb Ram Segments Kmalloc KmallocProofs Machine Swapfile Coremap Vm.
From S2P Require Import VmInv Replacement.
Import Bitmap Vmstats Tlb Segments Kmalloc KmallocProofs Machine Swapfile Coremap Vm VmInv Replacement.

Module FaultProofs.
Section FaultProofs.
Context {VO : VnodeOps} {VL : VnodeLaws}.

(** ** Changes the invariant does not see *)

Lemma kinv_env P W Y s m f v tb : kinv P W Y s ->
  fsize (fs s) (swapfile s) <= fsize f (swapfile s) ->
  kinv P W Y (set_pmem m (set_fs f (set_vms v (set_hwtlb tb s)))).
Proof.
  intros [K1 K2 K3 K4 K5 K6 K7 K8 K9 K10 K11 K12 K13 K14 K15 K16 K17] Hf. split; try done.
  destruct K12 as (Hsw & (b & Hb & Hwf & Hn & Hall) & Hinj). split_and!; [done| |done].
  exists b. split_and!; try done. intros t j e He Hs. destruct (Hall t j e He Hs) as (? & ? & ?).
  split_and!; try done; try lia. cbn in *. lia.
Qed.

(** ** Transparency: what a program can see of its own pages *)

Definition transparent (s s' : kstate) : Prop :=
  forall t j e, pte s t j = Some e -> pte_valid e = true ->
  exists e', pte s' t j = Some e' /\ pte_valid e' = true /\
    forall k, 0 <= k < PAGE_SIZE -> content s' e' k = content s e k.

Lemma transparent_trans s1 s2 s3 : transparent s1 s2 -> transparent s2 s3 -> transparent s1 s3.
Proof.
  intros H12 H23 t j e He Hv. destruct (H12 t j e He Hv) as (e2 & He2 & Hv2 & Hc2).
  destruct (H23 t j e2 He2 Hv2) as (e3 & ? & ? & Hc3). exists e3. split_and!; try done.
  intros k Hk. rewrite Hc3, Hc2; done.
Qed.

(** The page that entry [e] keeps in the swap file can be read back: reads at its place
    do not fail. *)
Definition swap_in_ok (s : kstate) (e : pt_entry) : Prop := forall f er rs d f',
  vop_read f (swapfile s) (pte_paddr e * PAGE_SIZE) PAGE_SIZE = (er, rs, d, f') -> er = 0.

(** Every page stays valid, and every page keeps its bytes, the page of slot [(t, j)]
    provided that, if it is in the swap file, it can be read back from there. *)
Definition transparent_but (t : Z) (j : nat) (s s' : kstate) : Prop :=
  forall t' j' e, pte s t' j' = Some e -> pte_valid e = true ->
  exists e', pte s' t' j' = Some e' /\ pte_valid e' = true /\
    ((t' = t -> j' = j -> swapped e -> swap_in_ok s e) ->
     forall k, 0 <= k < PAGE_SIZE -> content s' e' k = content s e k).

Lemma transparent_but_weaken t j s s' : transparent s s' -> transparent_but t j s s'.
Proof. intros H t' j' e He Hv. destruct (H t' j' e He Hv) as (e' & ? & ? & ?). by exists e'. Qed.

Lemma transparent_but_trans t j s1 s2 s3 :
  transparent_but t j s1 s2 -> transparent s2 s3 -> transparent_but t j s1 s3.
Proof.
  intros H12 H23 t' j' e He Hv. destruct (H12 t' j' e He Hv) as (e2 & He2 & Hv2 & Hc2).
  destruct (H23 t' j' e2 He2 Hv2) as (e3 & ? & ? & Hc3). exists e3. split_and!; try done.
  intros Hok k Hk. rewrite Hc3, Hc2; done.
Qed.

Lemma krel_transparent s s' : krel s s' -> transparent s s'.
Proof.
  intros R t j e He Hv. pose proof (r_pte _ _ R t j) as Hp. rewrite He in Hp. inv Hp.
  match goal with H : pte_rel _ _ _ _ |- _ => destruct H as [Hor Hc] end.
  eexists. split_and!; [done| |by apply Hc]. destruct Hor as [->|[_ [? _]]]; done.
Qed.

(** An entry that is not resident is left alone. *)
Lemma krel_not_resident s s' t j e : krel s s' -> pte s t j = Some e -> ~ resident e ->
  pte s' t j = Some e.
Proof.
  intros R He Hr. pose proof (r_pte _ _ R t j) as Hp. rewrite He in Hp. inv Hp.
  match goal with H : pte_rel _ _ _ _ |- _ => destruct H as [[->|[? _]] _] end; done.
Qed.

Lemma krel_transparent_but s s1 s' t j e : krel s s1 -> pte s t j = Some e -> ~ resident e ->
  transparent_but t j s1 s' -> transparent_but t j s s'.
Proof.
  intros R He Hr T t' j' e1 He1 Hv.
  destruct (krel_transparent _ _ R t' j' e1 He1 Hv) as (e2 & He2 & Hv2 & Hc2).
  destruct (T t' j' e2 He2 Hv2) as (e3 & He3 & Hv3 & Hc3). exists e3. split_and!; try done.
  intros Hok k Hk. rewrite Hc3, Hc2; try done. intros -> -> Hs.
  pose proof (krel_not_resident _ _ _ _ _ R He Hr). assert (e2 = e) as -> by congruence.
  assert (e1 = e) as -> by congruence. unfold swap_in_ok. 
  destruct (r_same _ _ R) as (_ & _ & _ & _ & _ & -> & _). by apply Hok.
Qed.

(** ** A frame becomes the home of a page *)
Section Map.
Context (W Y : gset Z) (s : kstate) (t : Z) (l : list pt_entry) (j : nat) (e : pt_entry).
Context (i : nat) (as_ va sz : Z) (b b' : bitmap) (q : list queue_node).
Hypothesis K : kinv {[i := mkCe as_ va (Z.of_nat i * PAGE_SIZE) false sz]} W Y s.
Hypothesis Ht : inner_pts s !! t = Some l.
Hypothesis Hj : l !! j = Some e.
Hypothesis Hslot : slot_of s as_ va = Some (t, j).
Hypothesis He : ~ resident e.
Hypothesis Hb : swapfile_freeentries s = Some b.
Hypothesis Hb' : wf b' /\ nbits b' = SWAPFILE_MAX_PAGES /\
  forall x, 0 <= x < SWAPFILE_MAX_PAGES -> bit b x = true -> (swapped e -> x <> pte_paddr e) ->
    bit b' x = true.
Hypothesis Hq : q = replacement_queue s \/ exists node, allocated (kheap_st s) node /\
  ~ vm_held s node /\ q = replacement_queue s ++ [mkNode node i].

Definition map_in : kstate :=
  set_inner_pts (<[t := <[j := mkPte (Z.of_nat i * PAGE_SIZE) true false]> l]> (inner_pts s))
    (set_replacement_queue q (set_swapfile_freeentries (Some b') s)).

Lemma map_in_pte t' j' : pte map_in t' j' =
  if decide (t' = t /\ j' = j) then Some (mkPte (Z.of_nat i * PAGE_SIZE) true false) else pte s t' j'.
Proof. by apply (pte_insert s); [|eapply lookup_lt_Some]. Qed.

Lemma map_in_old : pte s t j = Some e.
Proof. unfold pte. by rewrite Ht. Qed.

Lemma map_in_pin : coremap s !! i = Some (mkCe as_ va (Z.of_nat i * PAGE_SIZE) false sz) /\ i <> 0%nat.
Proof. destruct (k_pin _ _ _ _ K i _ (lookup_singleton_eq _ _)) as (? & ? & _). done. Qed.

(** The pinned frame is nobody's home. *)
Lemma map_in_fresh t' j' e' : pte s t' j' = Some e' -> resident e' ->
  pte_paddr e' <> Z.of_nat i * PAGE_SIZE.
Proof.
  intros He' Hr Heq. destruct (k_res _ _ _ _ K t' j' e' He' Hr) as (f & Hf & _ & _ & _ & Hn).
  assert (f = i) as -> by (unfold PAGE_SIZE in *; lia). by rewrite lookup_singleton_eq in Hn.
Qed.

Lemma map_in_page : kva i ∉ pages W Y s.
Proof.
  intros Hin. destruct (k_pages _ _ _ _ K _ Hin) as (k & Hk%kva_inj & _ & _ & Hn). subst k.
  by rewrite lookup_singleton_eq in Hn.
Qed.

Lemma map_in_swap_ok : swap_ok map_in.
Proof.
  destruct (k_swap _ _ _ _ K) as (Hsw & (b0 & Hb0 & _ & _ & Hall) & Hinj).
  assert (b0 = b) as -> by congruence. destruct Hb' as (Hwf & Hn & Hbits).
  assert (Hold : forall t' j' e', pte map_in t' j' = Some e' -> swapped e' ->
    pte s t' j' = Some e' /\ ~ (t' = t /\ j' = j)).
  { intros t' j' e'. rewrite map_in_pte. case_decide; [|done]. intros [= <-] [_ ?]. done. }
  split_and!; [done| |].
  - exists b'. split_and!; try done. intros t' j' e' He' Hs.
    destruct (Hold t' j' e' He' Hs) as [Hp Hne]. destruct (Hall t' j' e' Hp Hs) as (Hr & Hbit & ?).
    split_and!; try done; try lia. apply Hbits; [done|done|]. intros Hse Heq. apply Hne.
    apply (Hinj t' j' e' t j e); try done. apply map_in_old.
  - intros t1 j1 e1 t2 j2 e2 H1 S1 H2 S2. destruct (Hold _ _ _ H1 S1), (Hold _ _ _ H2 S2).
    by eapply Hinj.
Qed.

Lemma map_in_queued n : n ∈ q -> queued map_in n.
Proof.
  assert (Hcase : n ∈ replacement_queue s -> queued map_in n).
  { intros Hn. destruct (k_queue _ _ _ _ K) as [_ Hqs].
    destruct (Hqs n Hn) as (c & tn & jn & en & Hc & Hpn & Hsn & Hen & Hrn & Hfn).
    exists c, tn, jn, en. split_and!; try done. rewrite map_in_pte. case_decide as Hd; [|done].
    destruct Hd as [-> ->]. rewrite map_in_old in Hen. exfalso. apply He. congruence. }
  intros Hn. destruct Hq as [->|(node & _ & _ & ->)]; [by apply Hcase|].
  apply elem_of_app in Hn as [Hn|Hn%list_elem_of_singleton]; [by apply Hcase|]. subst n.
  destruct map_in_pin as [Hpin _]. eexists _, t, j, (mkPte (Z.of_nat i * PAGE_SIZE) true false).
  split_and!; try done. by rewrite map_in_pte, decide_True by done.
Qed.

Lemma map_in_nodes : NoDup (qn_entry <$> q) /\ NoDup (qn_addr <$> q) /\
  (forall a, a ∈ qn_addr <$> q -> ~ objects s a) /\
  (forall a, vm_held map_in a -> allocated (kheap_st s) a).
Proof.
  destruct (k_queue _ _ _ _ K) as [Hnd Hqs]. destruct (k_nodes _ _ _ _ K) as (Hna & _ & Hns).
  pose proof (k_held _ _ _ _ K) as Hh. pose proof map_in_fresh as Hfresh.
  assert (Hheld : forall a, vm_held map_in a -> a ∈ qn_addr <$> q \/ vm_held s a).
  { intros a [Ha|Ha]; [by left|right; by right]. }
  destruct Hq as [Heq|(node & Hal & Hnh & Heq)]; rewrite Heq in Hheld |- *; [split; [done|split; [done|split; [done|]]]|].
  { intros a [Ha|Ha]%Hheld; apply Hh; [by left|done]. }
  rewrite fmap_app in Hheld. rewrite !fmap_app. cbn [fmap list_fmap qn_entry qn_addr] in Hheld |- *. split_and!.
  - apply NoDup_app. split_and!; [done| |apply NoDup_singleton]. intros x Hx ->%list_elem_of_singleton.
    apply list_elem_of_fmap in Hx as (n & -> & Hn).
    destruct (Hqs n Hn) as (c & tn & jn & en & _ & _ & _ & Hen & Hrn & Hfn).
    by eapply Hfresh.
  - apply NoDup_app. split_and!; [done| |apply NoDup_singleton]. intros x Hx ->%list_elem_of_singleton.
    apply Hnh. by left.
  - intros a [Ha| ->%list_elem_of_singleton]%elem_of_app; [by apply Hns|].
    intros ?. apply Hnh. by right.
  - intros a [[Ha|Ha%list_elem_of_singleton]%elem_of_app|Ha]%Hheld; [apply Hh; by left|by subst|by apply Hh].
Qed.

Lemma map_in_inv : kinv ∅ W Y map_in.
Proof.
  pose proof map_in_swap_ok as Hsw. pose proof map_in_queued as Hqu. pose proof map_in_pte as Hpt.
  pose proof map_in_fresh as Hfresh. pose proof map_in_page as Hpg. pose proof map_in_pin as [Hpin Hi0].
  destruct map_in_nodes as (Hn1 & Hn2 & Hn3 & Hn4).
  destruct K as [K1 K2 K3 K4 K5 K6 K7 K8 K9 K10 K11 K12 K13 K14 K15 K16 K17]. split; try done.
  - intros p Hp. destruct (K7 p Hp) as (k & ? & ? & ? & _). by exists k.
  - intros t' j' e'. rewrite Hpt. case_decide as Hd.
    + intros [= <-] _. exists i. split_and!; try done. by eexists.
    + intros He' Hr. destruct (K10 t' j' e' He' Hr) as (f & ? & ? & ? & ? & _). by exists f.
  - intros t1 j1 e1 t2 j2 e2. rewrite !Hpt. repeat case_decide.
    + intros _ _ _ _ _. intuition congruence.
    + intros [= <-] _ H2 R2 Heq. exfalso. by eapply Hfresh.
    + intros H1 R1 [= <-] _ Heq. exfalso. by eapply Hfresh.
    + by apply K11.
  - destruct K14 as (_ & Hone & _). by split_and!.
  - intros t' l' Hl. cbn in Hl. apply lookup_insert_Some in Hl as [[<- <-]|[_ Hl]]; [|by apply K16].
    rewrite length_insert. by apply K16.
Qed.

(** The other pages keep their bytes when only the bytes of the new frame change. *)
Lemma map_in_transparent s' : inner_pts s' = inner_pts map_in -> swapfile s' = swapfile s ->
  (forall a, ~ (Z.of_nat i * PAGE_SIZE <= a < Z.of_nat i * PAGE_SIZE + PAGE_SIZE) -> pmem s' a = pmem s a) ->
  (forall a, 0 <= a < fsize (fs s) (swapfile s) -> fbyte (fs s') (swapfile s) a = fbyte (fs s) (swapfile s) a) ->
  (swapped e -> swap_in_ok s e -> forall k, 0 <= k < PAGE_SIZE ->
     pmem s' (Z.of_nat i * PAGE_SIZE + k) = content s e k) ->
  transparent_but t j s s'.
Proof.
  intros Hpts Hsw Hmem Hfile Hnew t' j' e' He' Hv.
  assert (Hp : pte s' t' j' = pte map_in t' j') by (unfold pte; by rewrite Hpts).
  rewrite map_in_pte in Hp. case_decide as Hd.
  - destruct Hd as [-> ->]. rewrite map_in_old in He'. assert (e' = e) as -> by congruence.
    eexists. split_and!; [done|done|]. intros Hok k Hk. unfold content at 1. cbn [pte_swapped pte_paddr].
    assert (swapped e) by (split; [done|]; destruct (pte_swapped e) eqn:Hs; [done|]; by destruct He).
    apply Hnew; auto.
  - rewrite He' in Hp. exists e'. split_and!; try done. intros _ k Hk. unfold content. rewrite Hsw.
    destruct (pte_swapped e') eqn:Hs.
    + destruct (k_swap _ _ _ _ K) as (_ & (b0 & _ & _ & _ & Hall) & _).
      destruct (Hall t' j' e' He' (conj Hv Hs)) as (? & _ & ?). apply Hfile. unfold PAGE_SIZE in *. lia.
    + apply Hmem. destruct (k_res _ _ _ _ K t' j' e' He' (conj Hv Hs)) as (f & Hf & _ & _ & _ & Hn).
      rewrite Hf. assert (f <> i) by (intros ->; by rewrite lookup_singleton_eq in Hn).
      unfold PAGE_SIZE in *. lia.
Qed.
End Map.

Lemma map_in_same s t l j i b q : swapfile_freeentries s = Some b ->
  map_in s t l j i b q = set_inner_pts (<[t := <[j := mkPte (Z.of_nat i * PAGE_SIZE) true false]> l]> (inner_pts s))
    (set_replacement_queue q s).
Proof. intros Hb. unfold map_in. rewrite <- Hb. by destruct s. Qed.

(** ** Reading a page from a file *)

(** The changes a read into the frame at [pa] makes. *)
Definition reads_into (pa : Z) (s s' : kstate) : Prop :=
  exists m f v, s' = set_pmem m (set_fs f (set_vms v s)) /\
    (forall a, ~ (pa <= a < pa + PAGE_SIZE) -> m a = pmem s a) /\
    (forall x, fsize f x = fsize (fs s) x) /\
    (forall x a, 0 <= a < fsize (fs s) x -> fbyte f x a = fbyte (fs s) x a).

Lemma VOP_READ_reads_into v pa off len p0 s r s' : 0 <= p0 -> pa <= p0 -> 0 <= len -> p0 + len <= pa + PAGE_SIZE ->
  p0 < 2 ^ 29 -> 0 <= off -> VOP_READ_kernel v (PADDR_TO_KVADDR p0) len off s = Done r s' ->
  reads_into pa s s' /\
  (fst r = 0 -> forall k, 0 <= k < len -> off + k < fsize (fs s) v ->
     pmem s' (p0 + k) = fbyte (fs s) v (off + k)) /\
  exists d f, vop_read (fs s) v off len = (fst r, snd r, d, f).
Proof.
  intros H0 H1 H2 H3 H4 H5 H. unfold VOP_READ_kernel in H.
  destruct (vop_read _ _ _ _) as [[[er rs] d] f] eqn:Hr. inv H.
  destruct (vop_read_ok _ _ _ _ _ _ _ _ Hr H5 H2) as (Hrs & Hsz & Hby & Hok).
  rewrite kseg0_roundtrip by lia. split_and!; [| |by exists d, f].
  - eexists _, f, (vms s). split_and!; try done. intros a Ha. unfold mem_write.
    destruct (Z.leb_spec p0 a), (Z.ltb_spec a (p0 + (len - rs))); cbn; try done. lia.
  - cbn [fst pmem set_pmem]. intros He k Hk Hf. destruct (Hok He) as [Hlen Hd]. unfold mem_write.
    rewrite (proj2 (Z.leb_le _ _)), (proj2 (Z.ltb_lt _ _)) by lia. cbn.
    replace (p0 + k - p0) with k by lia. apply Hd. lia.
Qed.

Lemma reads_into_stats pa s s' v : reads_into pa s s' -> reads_into pa s (set_vms v s').
Proof. intros (m & f & v' & -> & ? & ? & ?). by exists m, f, v. Qed.

(** What [as_define_region] guarantees of a segment it stored. *)
Definition seg_ok (g : segment) : Prop := 0 <= elf_base_offset g < PAGE_SIZE /\ is_u32 (elf_segment_start g).

(** The part of the frame that [segments_before_load] selects. *)
Lemma before_load_frame g va i eo p0 off len : 0 <= elf_base_offset g < PAGE_SIZE ->
  is_u32 (elf_segment_start g) -> Z.of_nat i < 2 ^ 17 -> 0 <= eo ->
  segments_before_load g va (Z.of_nat i * PAGE_SIZE) eo PAGE_SIZE = (p0, off, len) ->
  Z.of_nat i * PAGE_SIZE <= p0 /\ 0 <= len /\ p0 + len <= Z.of_nat i * PAGE_SIZE + PAGE_SIZE /\
  p0 < 2 ^ 29 /\ 0 <= off.
Proof.
  intros Ho Hs Hi He Hb. unfold segments_before_load, is_u32, PAGE_SIZE in *.
  destruct (_ =? 0); [|destruct (_ <? _)]; injection Hb as <- <- <-.
  - rewrite !u32_small by (unfold is_u32; lia). lia.
  - pose proof (u32_range (elf_segment_start g + u32 (4096 - elf_base_offset g) +
      (u32 (va - vbase g) / 4096 - 1) * 4096)) as Hu. unfold is_u32 in Hu. lia.
  - lia.
Qed.

Lemma pt_load_reads_into g va i s r s' : seg_ok g -> Z.of_nat i < 2 ^ 17 ->
  pt_load g va (Z.of_nat i * PAGE_SIZE) s = Done r s' -> reads_into (Z.of_nat i * PAGE_SIZE) s s'.
Proof.
  intros [Ho Hs] Hi H. unfold pt_load in H. mgo H.
  destruct (segments_before_load _ _ _ _ _) as [[p0 off] len] eqn:Hb. mgo H.
  unfold load_page in E0. mgo E0. destruct ret0 as [er rs]. mprim.
  pose proof (before_load_frame g va i _ _ _ _ Ho Hs Hi (proj1 (u32_range _)) Hb) as Hr.
  destruct Hr as (? & ? & ? & ? & ?).
  eapply VOP_READ_reads_into in E1 as (Hri & _); [|unfold PAGE_SIZE in *; lia|done..].
  destruct (Z.eqb_spec er 0); cbn [negb] in H; mgo H; [|done]. by do 2 apply reads_into_stats.
Qed.

(** Reads of file [v] do not fail. *)
Definition reads_ok (v : Z) : Prop := forall f off len er rs d f',
  vop_read f v off len = (er, rs, d, f') -> er = 0.

(** The page at [va] is one of the pages of the region that [g] describes. *)
Definition page_of (g : segment) (va : Z) : Prop :=
  vbase g mod PAGE_SIZE = 0 /\ va mod PAGE_SIZE = 0 /\ 0 <= vbase g /\ is_u32 va /\
  vbase g <= va < vbase g + npages g * PAGE_SIZE /\
  elf_segment_start g + (va - vbase g) + PAGE_SIZE < 2 ^ 32.

(** The region's own bytes in the page come from the file. *)
Definition program_bytes (g : segment) (va : Z) (f : fstore) (mem_at : Z -> Z) : Prop :=
  let start := vbase g + elf_base_offset g in
  forall a, Z.max va start <= a < va + PAGE_SIZE ->
    elf_segment_start g + (a - start) < fsize f (elf_file g) ->
    mem_at (a - va) = fbyte f (elf_file g) (elf_segment_start g + (a - start)).

Lemma pt_load_bytes g va i s r s' : seg_ok g -> page_of g va -> Z.of_nat i < 2 ^ 17 ->
  reads_ok (elf_file g) -> pt_load g va (Z.of_nat i * PAGE_SIZE) s = Done r s' ->
  program_bytes g va (fs s) (fun k => pmem s' (Z.of_nat i * PAGE_SIZE + k)).
Proof.
  intros [Hb Hst] (Hv1 & Hv2 & Hv3 & Hv4 & Hv5 & Hv6) Hi Hro H. unfold pt_load in H. mgo H.
  destruct (segments_before_load _ _ _ _ _) as [[p0 off] len] eqn:Hw.
  rewrite before_load_window in Hw by (try done; unfold is_u32, PAGE_SIZE in *; lia).
  mgo H. unfold load_page in E0. mstep E0. destruct ret0 as [er rs]. mprim.
  assert (Hgeo : Z.of_nat i * PAGE_SIZE <= p0 /\ 0 <= len /\ p0 + len = Z.of_nat i * PAGE_SIZE + PAGE_SIZE /\
    p0 = Z.of_nat i * PAGE_SIZE + (Z.max va (vbase g + elf_base_offset g) - va) /\
    off = elf_segment_start g + (va + (p0 - Z.of_nat i * PAGE_SIZE) - (vbase g + elf_base_offset g)) /\ 0 <= off).
  { apply Z.mod_divide in Hv1 as [x Hx], Hv2 as [y Hy]; [|done..]. unfold is_u32, PAGE_SIZE in *.
    destruct (Z.eqb_spec va (vbase g)); inv Hw; lia. }
  destruct Hgeo as (G1 & G2 & G3 & G4 & G5 & G6).
  apply (VOP_READ_reads_into _ (Z.of_nat i * PAGE_SIZE)) in E1 as (_ & Hbytes & d & f & Hr);
    [|unfold PAGE_SIZE in *; lia..].
  assert (er = 0) as -> by exact (Hro _ _ _ _ _ _ _ Hr). rewrite Z.eqb_refl in H. cbn [negb] in H. mgo H.
  intros a Ha Hsz. cbn [pmem set_vms].
  replace (Z.of_nat i * PAGE_SIZE + (a - va)) with (p0 + (a - va - (p0 - Z.of_nat i * PAGE_SIZE))) by lia.
  rewrite Hbytes; [f_equal; lia|done|lia|lia].
Qed.

(** Reading a page back: the frame holds its bytes and its slot is free again. *)
Lemma swapfile_readpage_spec i idx s b r s' : swapfile_freeentries s = Some b ->
  Z.of_nat i < 2 ^ 17 -> 0 <= idx -> swapfile_readpage (Z.of_nat i * PAGE_SIZE) idx s = Done r s' ->
  exists s1 b', reads_into (Z.of_nat i * PAGE_SIZE) s s1 /\
    s' = set_swapfile_freeentries (Some b') s1 /\
    (r <> 0 /\ b' = b /\
       (exists rs d f, vop_read (fs s) (swapfile s) (idx * PAGE_SIZE) PAGE_SIZE = (r, rs, d, f)) \/
     r = 0 /\ bitmap_unmark b idx = Ok b' /\ forall k, 0 <= k < PAGE_SIZE ->
       idx * PAGE_SIZE + k < fsize (fs s) (swapfile s) ->
       pmem s' (Z.of_nat i * PAGE_SIZE + k) = fbyte (fs s) (swapfile s) (idx * PAGE_SIZE + k)).
Proof.
  intros Hb Hi Hx H. unfold swapfile_readpage in H. mgo H. apply Z.ltb_lt in E.
  change SWAPFILE_MAX_PAGES with 2304 in E. destruct ret as [er rs].
  rewrite u32_small in E1 by (unfold is_u32, PAGE_SIZE; lia).
  eapply VOP_READ_reads_into with (pa := Z.of_nat i * PAGE_SIZE) in E1 as (Hri & Hd & Hvop);
    [|unfold PAGE_SIZE; lia..].
  assert (Hfe : swapfile_freeentries s0 = Some b) by (destruct Hri as (? & ? & ? & -> & _); done).
  destruct (Z.eqb_spec er 0) as [->|Hne]; cbn [negb] in H; mgo H.
  - rewrite Hfe in E1. inv E1. exists (set_vms (inc_pagefaultsdisk (inc_pagefaultsswapfile (vms s0))) s0), ret0.
    split; [by apply reads_into_stats|]. split; [done|]. right. split_and!; try done. intros k Hk Hf. by apply Hd.
  - exists s0, b. split_and!; [done|rewrite <- Hfe; by destruct s0|]. left. split_and!; try done. by exists rs.
Qed.

Lemma coremap_alloc_inv W Y va s r s' : kinv ∅ W Y s -> coremap_alloc va s = Done r s' ->
  exists p i sz s2 q, procs s !! curproc s = Some p /\ r = Z.of_nat i * PAGE_SIZE /\
    kinv {[i := mkCe (p_addrspace p) va (Z.of_nat i * PAGE_SIZE) false sz]} W Y s2 /\ krel s s2 /\
    s' = set_replacement_queue q s2 /\
    (q = replacement_queue s2 \/ exists node, allocated (kheap_st s2) node /\ ~ vm_held s2 node /\
       q = replacement_queue s2 ++ [mkNode node i]).
Proof.
  intros K H. unfold coremap_alloc in H. mgo H.
  destruct (coremap_alloc_loop_inv W Y 2 _ _ _ _ _ K H) as (i & sz & s2 & -> & K2 & R2 & Hs).
  destruct Hs as [->|(node & ? & ? & ->)].
  - exists ret, i, sz, s2, (replacement_queue s2). split_and!; try done; [by destruct s2|by left].
  - exists ret, i, sz, s2, (replacement_queue s2 ++ [mkNode node i]). split_and!; try done. right. eauto.
Qed.

(** ** Bringing the page in *)

Definition same_env (s s' : kstate) : Prop :=
  addrspaces s' = addrspaces s /\ segtabs s' = segtabs s /\ hwtlb s' = hwtlb s /\
  procs s' = procs s /\ curproc s' = curproc s /\ swapfile s' = swapfile s.

(** The page of slot [(t, j)] is resident at [pa], and all the rest is as before. *)
Definition paged_in (W Y : gset Z) (s s' : kstate) (t : Z) (j : nat) (pa : Z) : Prop :=
  kinv ∅ W Y s' /\ transparent_but t j s s' /\ same_env s s' /\
  exists e, pte s' t j = Some e /\ resident e /\ pte_paddr e = pa.

Section Install.
Context (W Y : gset Z) (s s2 : kstate) (p : proc) (va t : Z) (j : nat) (e : pt_entry) (i : nat) (sz : Z).
Context (q : list queue_node) (b : bitmap).
Hypothesis Hslot : slot_of s (p_addrspace p) va = Some (t, j).
Hypothesis Hpte : pte s t j = Some e.
Hypothesis He : ~ resident e.
Hypothesis K2 : kinv {[i := mkCe (p_addrspace p) va (Z.of_nat i * PAGE_SIZE) false sz]} W Y s2.
Hypothesis R2 : krel s s2.
Hypothesis Hq : q = replacement_queue s2 \/ exists node, allocated (kheap_st s2) node /\
  ~ vm_held s2 node /\ q = replacement_queue s2 ++ [mkNode node i].
Hypothesis Hb : swapfile_freeentries s2 = Some b.

Lemma install_bound : Z.of_nat i < 2 ^ 17.
Proof.
  destruct (k_pin _ _ _ _ K2 i _ (lookup_singleton_eq _ _)) as (_ & Hc & _).
  apply lookup_lt_Some in Hc. pose proof (k_len _ _ _ _ K2). pose proof (k_max _ _ _ _ K2). lia.
Qed.

Lemma install_table : exists l, inner_pts s2 !! t = Some l /\ l !! j = Some e.
Proof.
  pose proof (krel_not_resident _ _ _ _ _ R2 Hpte He) as Hp.
  destruct (pte_table _ _ _ _ Hp) as (l & ? & ? & _). by exists l.
Qed.

Lemma install_slot : slot_of s2 (p_addrspace p) va = Some (t, j).
Proof. unfold slot_of. destruct (r_same _ _ R2) as (-> & _). exact Hslot. Qed.

(** Whatever the frame was filled with, provided a swapped page got its bytes. *)
Lemma install_paged_in l b' m f v : inner_pts s2 !! t = Some l -> l !! j = Some e ->
  (wf b' /\ nbits b' = SWAPFILE_MAX_PAGES /\
   forall x, 0 <= x < SWAPFILE_MAX_PAGES -> bit b x = true -> (swapped e -> x <> pte_paddr e) ->
     bit b' x = true) ->
  (forall a, ~ (Z.of_nat i * PAGE_SIZE <= a < Z.of_nat i * PAGE_SIZE + PAGE_SIZE) -> m a = pmem s2 a) ->
  (forall x, fsize f x = fsize (fs s2) x) ->
  (forall x a, 0 <= a < fsize (fs s2) x -> fbyte f x a = fbyte (fs s2) x a) ->
  (swapped e -> swap_in_ok s2 e -> forall k, 0 <= k < PAGE_SIZE -> m (Z.of_nat i * PAGE_SIZE + k) = content s2 e k) ->
  paged_in W Y s (set_pmem m (set_fs f (set_vms v (map_in s2 t l j i b' q)))) t j (Z.of_nat i * PAGE_SIZE).
Proof.
  intros Ht Hj Hb' Hm Hfs Hfb Hnew. pose proof install_slot as Hslot2.
  pose proof (map_in_inv W Y s2 t l j e i _ va sz b b' q K2 Ht Hj Hslot2 He Hb Hb' Hq) as Ki.
  split_and!.
  - apply (kinv_env ∅ W Y _ m f v (hwtlb s2)) in Ki; [exact Ki|]. cbn [fs map_in set_inner_pts
      set_replacement_queue set_swapfile_freeentries swapfile]. rewrite Hfs. lia.
  - apply (krel_transparent_but s s2 _ t j e R2 Hpte He).
    eapply (map_in_transparent W Y s2 t l j e i (p_addrspace p) va sz b' q); try done. intros a Ha. by apply Hfb.
  - destruct (r_same _ _ R2) as (? & ? & ? & ? & ? & ? & _). done.
  - exists (mkPte (Z.of_nat i * PAGE_SIZE) true false). split_and!; [|done|done].
    change (pte (map_in s2 t l j i b' q) t j = Some (mkPte (Z.of_nat i * PAGE_SIZE) true false)).
    rewrite map_in_pte with (e := e) by done. by rewrite decide_True.
Qed.
End Install.

Section FaultPage.
Context (W Y : gset Z) (s : kstate) (p : proc) (g : segment) (va t jz : Z).
Hypothesis K : kinv ∅ W Y s.
Hypothesis Hp : procs s !! curproc s = Some p.
Hypothesis Hslot : slot_of s (p_addrspace p) va = Some (t, Z.to_nat jz).
Hypothesis Hg : seg_ok g.

Lemma bitmap_keep s2 P e : kinv P W Y s2 -> exists b, swapfile_freeentries s2 = Some b /\
  (wf b /\ nbits b = SWAPFILE_MAX_PAGES /\
   forall x, 0 <= x < SWAPFILE_MAX_PAGES -> bit b x = true -> (swapped e -> x <> pte_paddr e) ->
     bit b x = true).
Proof.
  intros K2. destruct (k_swap _ _ _ _ K2) as (_ & (b & ? & ? & ? & _) & _). by exists b.
Qed.

(** A page touched for the first time. *)
Lemma fault_new_inv e pa s' : pte s t (Z.to_nat jz) = Some e -> pte_valid e = false ->
  fault_page g (t, jz) va s = Done pa s' ->
  paged_in W Y s s' t (Z.to_nat jz) pa /\
  (elf_file g = 0 -> forall k, 0 <= k < PAGE_SIZE -> pmem s' (pa + k) = 0) /\
  (elf_file g <> 0 -> elf_file g <> swapfile s -> reads_ok (elf_file g) -> page_of g va ->
     program_bytes g va (fs s) (fun k => pmem s' (pa + k))).
Proof.
  intros He Hv H. unfold fault_page in H. mgo H.
  assert (ret = e) as -> by (unfold pte in He; congruence). rewrite Hv in H. cbn [negb] in H. mgo H.
  destruct (coremap_alloc_inv W Y va s _ _ K E0) as (p' & i & sz & s2 & q & Hp' & -> & K2 & R2 & -> & Hq).
  assert (p' = p) as -> by congruence. assert (Hr : ~ resident e) by (intros [? _]; congruence).
  destruct (install_table s s2 t (Z.to_nat jz) e He Hr R2) as (l2 & Ht2 & Hj2).
  pose proof (install_bound W Y s2 p va i sz K2) as Hi.
  destruct (bitmap_keep s2 _ e K2) as (b & Hb & Hb').
  pose proof (install_paged_in W Y s s2 p va t _ e i sz q b Hslot He Hr K2 R2 Hq Hb l2 b) as Hin.
  cbn [inner_pts set_replacement_queue] in E1, E2. assert (l = l2) as -> by congruence.
  rewrite <- (map_in_same s2 t l2 (Z.to_nat jz) i b q Hb) in E2.
  assert (Hns : ~ swapped e) by (intros [? _]; congruence).
  destruct (Z.eqb_spec (elf_file g) 0) as [Hz|Hz]; cbn [negb] in E2; mgo E2.
  - unfold bzero_kernel in E3. inv E3. rewrite kseg0_roundtrip by (unfold PAGE_SIZE; lia).
    split_and!; [| |done].
    + apply (Hin (mem_write (Z.of_nat i * PAGE_SIZE) PAGE_SIZE (fun _ => 0) (pmem s2)) (fs s2)
        (inc_pagefaultszeroed (vms s2))); try done. intros a Ha. unfold mem_write.
      destruct (Z.leb_spec (Z.of_nat i * PAGE_SIZE) a), (Z.ltb_spec a (Z.of_nat i * PAGE_SIZE + PAGE_SIZE)); cbn; try done.
      lia.
    + intros _ k Hk. cbn [pmem set_vms set_pmem]. unfold mem_write.
      by rewrite (proj2 (Z.leb_le _ _)), (proj2 (Z.ltb_lt _ _)) by lia.
  - assert (pte_paddr ret = Z.of_nat i * PAGE_SIZE) as Hpa.
    { change (pte (map_in s2 t l2 (Z.to_nat jz) i b q) t (Z.to_nat jz) = Some ret) in E3.
      rewrite map_in_pte with (e := e) in E3 by done. rewrite decide_True in E3 by done. by inv E3. }
    rewrite Hpa in E4.
    pose proof E4 as E4'. apply pt_load_reads_into in E4 as (m & f & v & -> & Hm & Hfs & Hfb); try done.
    split_and!; [by apply Hin|done|]. intros _ Hne Hro Hpg.
    pose proof (pt_load_bytes g va i _ _ _ Hg Hpg Hi Hro E4') as Hb1.
    destruct (r_files _ _ R2 _ Hne) as [Hsz Hby]. intros a Ha Hlt. rewrite <- Hby.
    + apply Hb1; [done|]. cbn. by rewrite Hsz.
    + split; [|done]. destruct Hg as [? [? _]]. lia.
Qed.

(** A page that comes back from the swap file. *)
Lemma fault_swapped_inv e pa s' : pte s t (Z.to_nat jz) = Some e -> swapped e ->
  fault_page g (t, jz) va s = Done pa s' ->
  paged_in W Y s s' t (Z.to_nat jz) pa.
Proof.
  intros He Hs H. unfold fault_page in H. mgo H.
  assert (ret = e) as -> by (unfold pte in He; congruence). pose proof Hs as [Hv Hsw].
  rewrite Hv, Hsw in H. cbn [negb] in H. mgo H.
  destruct (coremap_alloc_inv W Y va s _ _ K E0) as (p' & i & sz & s2 & q & Hp' & -> & K2 & R2 & -> & Hq).
  assert (p' = p) as -> by congruence. assert (Hr : ~ resident e) by (intros [_ ?]; congruence).
  destruct (install_table s s2 t (Z.to_nat jz) e He Hr R2) as (l2 & Ht2 & Hj2).
  pose proof (install_bound W Y s2 p va i sz K2) as Hi.
  destruct (k_swap _ _ _ _ K2) as (_ & (b & Hb & Hwf & Hn & Hall) & _).
  destruct (Hall t (Z.to_nat jz) e) as (Hx & Hbit & Hsz); [unfold pte; by rewrite Ht2|done|].
  cbn [inner_pts set_replacement_queue] in E1. rewrite Ht2 in E1. cbn in E1.
  assert (ret0 = e) as -> by congruence.
  destruct (swapfile_readpage_spec i (pte_paddr e) (set_replacement_queue q s2) b _ _ Hb Hi ltac:(lia) E2)
    as (s3 & b' & (m & f & v & -> & Hm & Hfs & Hfb) & -> & Hcase). cbn in Hm, Hfs, Hfb, E3, E4.
  assert (l = l2) as -> by congruence. rewrite Ht2 in E3. cbn in E3. assert (ret2 = e) as -> by congruence.
  destruct Hcase as [(Hne & -> & rs & d & f' & Hvop)|(-> & Hun & Hrd)].
  { rewrite Hv. apply (install_paged_in W Y s s2 p va t _ e i sz q b Hslot He Hr K2 R2 Hq Hb l2 b m f v Ht2 Hj2); try done.
    - intros _ Hok. destruct Hne. by eapply Hok. }
  pose proof (bitmap_unmark_spec b (pte_paddr e) Hwf ltac:(lia)) as Hspec. rewrite Hbit in Hspec.
  destruct Hspec as (b1 & Hun' & Hwf' & Hn' & Hbits). assert (b1 = b') as -> by congruence.
  pose proof (install_paged_in W Y s s2 p va t _ e i sz q b Hslot He Hr K2 R2 Hq Hb l2 b' m f v Ht2 Hj2) as Hin.
  rewrite Hv. apply Hin; try done.
  - split_and!; [done|lia|]. intros x Hxr Hbx Hne. rewrite Hbits, Hbx by lia.
    specialize (Hne Hs). by rewrite (proj2 (Z.eqb_neq _ _) Hne).
  - intros _ _ k Hk. unfold content. rewrite Hsw. apply Hrd; [done|]. cbn. unfold PAGE_SIZE in *. lia.
Qed.

(** A page that only lost its TLB entry. *)
Lemma fault_resident_inv e pa s' : pte s t (Z.to_nat jz) = Some e -> resident e ->
  fault_page g (t, jz) va s = Done pa s' ->
  pa = pte_paddr e /\ s' = set_vms (inc_tlbreloads (vms s)) s.
Proof.
  intros He [Hv Hsw] H. unfold fault_page in H. mgo H.
  assert (ret = e) as -> by (unfold pte in He; congruence). rewrite Hv, Hsw in H. cbn [negb] in H. by mgo H.
Qed.

Lemma fault_page_inv pa s' : fault_page g (t, jz) va s = Done pa s' ->
  paged_in W Y s s' t (Z.to_nat jz) pa.
Proof.
  intros H. assert (He : exists e, pte s t (Z.to_nat jz) = Some e).
  { unfold fault_page in H. mgo H. by exists ret. }
  destruct He as [e He]. destruct (pte_valid e) eqn:Hv; [destruct (pte_swapped e) eqn:Hs|].
  - by eapply fault_swapped_inv.
  - destruct (fault_resident_inv e pa s' He (conj Hv Hs) H) as [-> ->]. split_and!.
    + apply (kinv_env ∅ W Y s (pmem s) (fs s) (inc_tlbreloads (vms s)) (hwtlb s) K). lia.
    + apply transparent_but_weaken. intros t' j' e' He' Hv'. by exists e'.
    + done.
    + by exists e.
  - by eapply fault_new_inv.
Qed.
End FaultPage.

(** ** Inner page tables *)

Lemma no_table_0 P W Y s : kinv P W Y s -> inner_pts s !! 0 = None.
Proof.
  intros K. apply eq_None_not_Some. intros [l Hl]. destruct (k_tables _ _ _ _ K 0 l Hl) as [Hw _].
  destruct (k_pages _ _ _ _ K 0) as (i & Hi & _); [unfold pages; set_solver|].
  unfold kva, MIPS_KSEG0, PAGE_SIZE in Hi. lia.
Qed.

Section NewTable.
Context (W Y : gset Z) (s : kstate) (as_ : Z) (a : addrspace) (k : nat) (t : Z).
Hypothesis K : kinv ∅ W Y s.
Hypothesis Ha : addrspaces s !! as_ = Some a.
Hypothesis Hk : as_page_table a !! k = Some 0.
Hypothesis Ht : inner_pts s !! t = None.
Hypothesis HW : t ∈ W.

Definition new_table : kstate :=
  set_inner_pts (<[t := replicate (Z.to_nat INNER_PT_SIZE) null_pte]> (inner_pts s))
    (set_addrspaces (<[as_ := mkAs (as_segments a) (<[k := t]> (as_page_table a))]> (addrspaces s)) s).

Lemma new_table_pte t' j e : pte new_table t' j = Some e -> pte_valid e = true -> pte s t' j = Some e /\ t' <> t.
Proof.
  unfold pte. cbn [inner_pts new_table set_inner_pts]. destruct (decide (t' = t)) as [->|Hne].
  - rewrite lookup_insert_eq. intros He Hv. exfalso. revert He. cbn -[replicate].
    intros [-> _]%lookup_replicate. done.
  - rewrite lookup_insert_ne by done. done.
Qed.

Lemma new_table_old t' j e : pte s t' j = Some e -> pte new_table t' j = Some e.
Proof using Ht.
  intros He. unfold pte in *. cbn [inner_pts new_table set_inner_pts]. rewrite lookup_insert_ne; [done|].
  intros Heq. by rewrite <- Heq, Ht in He.
Qed.

Lemma new_table_slot as' va t' j : slot_of s as' va = Some (t', j) -> t' <> 0 ->
  slot_of new_table as' va = Some (t', j).
Proof.
  unfold slot_of. destruct (as' =? 0); [done|]. cbn [addrspaces new_table set_inner_pts set_addrspaces].
  destruct (decide (as' = as_)) as [->|Hne]; [|by rewrite lookup_insert_ne].
  rewrite lookup_insert_eq, Ha. cbn. destruct (decide (Z.to_nat (OUTER_PT_INDEX va) = k)) as [->|Hnk].
  - rewrite Hk. cbn. intros [= <- <-]. done.
  - by rewrite list_lookup_insert_ne.
Qed.

Lemma new_table_inv : kinv ∅ W Y new_table.
Proof.
  pose proof new_table_pte as Hn. pose proof new_table_old as Ho. pose proof new_table_slot as Hsl.
  pose proof (no_table_0 _ _ _ _ K) as H0.
  destruct K as [K1 K2 K3 K4 K5 K6 K7 K8 K9 K10 K11 K12 K13 K14 K15 K16 K17]. split; try done.
  - intros t' j e He Hr. destruct (Hn t' j e He) as [He' _]; [apply Hr|]. by apply (K10 t' j).
  - intros t1 j1 e1 t2 j2 e2 H1 R1 H2 R2. destruct (Hn _ _ _ H1) as [H1' _]; [apply R1|].
    destruct (Hn _ _ _ H2) as [H2' _]; [apply R2|]. by eapply K11.
  - destruct K12 as (Hsw & (b & Hb & Hwf & Hnb & Hall) & Hinj). split_and!; [done| |].
    + exists b. split_and!; try done. intros t' j e He Hs. destruct (Hn _ _ _ He) as [He' _]; [apply Hs|].
      by apply (Hall t' j).
    + intros t1 j1 e1 t2 j2 e2 H1 R1 H2 R2. destruct (Hn _ _ _ H1) as [H1' _]; [apply R1|].
      destruct (Hn _ _ _ H2) as [H2' _]; [apply R2|]. by eapply Hinj.
  - destruct K13 as [Hnd Hq]. split; [done|]. intros n Hin.
    destruct (Hq n Hin) as (c & tn & jn & en & ? & ? & Hs & He & ? & ?). exists c, tn, jn, en.
    split_and!; try done; [|by apply Ho]. apply Hsl; [done|]. intros ->. unfold pte in He. by rewrite H0 in He.
  - intros t' l Hl. cbn [inner_pts new_table set_inner_pts] in Hl.
    apply lookup_insert_Some in Hl as [[<- <-]|[_ Hl]]; [by rewrite length_replicate|by apply K16].
  - intros a' x Hx. cbn [addrspaces new_table set_inner_pts set_addrspaces] in Hx.
    apply lookup_insert_Some in Hx as [[<- <-]|[_ Hx]]; [|by apply K17].
    cbn [as_page_table]. rewrite length_insert. by apply (K17 as_ a).
Qed.

Lemma new_table_transparent : transparent s new_table.
Proof using Ht. intros t' j e He Hv. exists e. split_and!; [by apply new_table_old|done|done]. Qed.
End NewTable.

(** [inner_pt_create] adds a table of invalid entries where there was none; without
    memory it leaves the address space as it was. *)
Lemma inner_pt_create_inv W Y s as_ a va r s' : kinv ∅ W Y s -> addrspaces s !! as_ = Some a ->
  as_page_table a !! Z.to_nat (OUTER_PT_INDEX va) = Some 0 -> inner_pt_create as_ va s = Done r s' ->
  (exists W', W ⊆ W' /\ kinv ∅ W' Y s') /\ transparent s s' /\
  segtabs s' = segtabs s /\ hwtlb s' = hwtlb s /\ procs s' = procs s /\ curproc s' = curproc s /\
  swapfile s' = swapfile s /\
  (r = 0 -> forall t j, slot_of s' as_ va = Some (t, j) -> inner_pts s !! t = None).
Proof.
  intros K Ha Hk H. unfold inner_pt_create in H. mgo H.
  destruct (kmalloc_large_inv (FL := kstate_free_laws ∅) W Y s (SIZEOF_PT_ENTRY * INNER_PT_SIZE) ret s0 K)
    as (R & Hcase); [done|done|exact E0|].
  change (DIVROUNDUP (SIZEOF_PT_ENTRY * INNER_PT_SIZE) PAGE_SIZE) with 2 in Hcase.
  destruct (r_same _ _ R) as (Has & Hseg & Htlb & Hpr & Hcur & Hsw & _).
  assert (ret0 = a) as -> by congruence. pose proof (krel_transparent _ _ R) as Htr.
  destruct Hcase as [[-> K0]|(Hne & Hpok & _ & H2)].
  - rewrite Z.eqb_refl in H. mprim. unfold set_page_table. rewrite list_insert_id by done.
    replace (mkAs (as_segments a) (as_page_table a)) with a by (by destruct a).
    rewrite insert_id by congruence.
    replace (set_addrspaces (addrspaces s0) s0) with s0 by (by destruct s0).
    split_and!; try done. by exists W.
  - rewrite (proj2 (Z.eqb_neq _ _) Hne) in H. mgo H. destruct H2 as [Hd K1]; [done|].
    assert (Hin : ret ∈ page_range ret 2).
    { unfold page_range. rewrite elem_of_list_to_set, list_elem_of_fmap. exists 0%nat.
      split; [lia|]. apply elem_of_seq. lia. }
    set (R2 := page_range ret 2) in *. clearbody R2.
    assert (Hnew : inner_pts s !! ret = None).
    { apply eq_None_not_Some. intros [l Hl]. destruct (k_tables _ _ _ _ K _ _ Hl) as [Hw _]. exact (Hd ret Hin Hw). }
    assert (Hfresh : inner_pts s0 !! ret = None).
    { apply not_elem_of_dom. rewrite (r_tables _ _ R). by apply not_elem_of_dom. }
    split_and!; try done.
    + exists (R2 ∪ W). split; [by apply union_subseteq_r|].
      apply (new_table_inv _ _ s0 as_ a (Z.to_nat (OUTER_PT_INDEX va)) ret); try done; first [congruence|by apply elem_of_union_l].
    + eapply transparent_trans; [exact Htr|].
      by apply (new_table_transparent s0 as_ a (Z.to_nat (OUTER_PT_INDEX va)) ret).
    + intros _ t j Hs. unfold slot_of in Hs. cbn [addrspaces set_inner_pts set_addrspaces] in Hs.
      destruct (as_ =? 0); [done|]. rewrite lookup_insert_eq in Hs. cbn in Hs.
      rewrite list_lookup_insert_eq in Hs by (by eapply lookup_lt_Some). by inv Hs.
Qed.

(** ** The whole handler *)

(** Every segment of every segment table was stored by [as_define_region] or
    [as_define_stack]. *)
Definition segs_ok (s : kstate) : Prop := forall x tab g, segtabs s !! x = Some tab -> g ∈ tab -> seg_ok g.

(** The fault was handled: the page is resident, and the TLB translates it. *)
Definition handled (va : Z) (s s' : kstate) : Prop :=
  exists p a tab g t j e, procs s !! curproc s = Some p /\ addrspaces s !! p_addrspace p = Some a /\
    segtabs s !! as_segments a = Some tab /\ segments_find_segment tab va = Some g /\
    slot_of s' (p_addrspace p) va = Some (t, j) /\ pte s' t j = Some e /\ resident e /\
    translate (hwtlb s') va = Some (pte_paddr e, writable g).

Lemma find_segment_elem tab va g : segments_find_segment tab va = Some g -> g ∈ tab /\ in_segment va g.
Proof.
  unfold segments_find_segment. intros ([i g'] & Hf & ->)%fmap_Some.
  apply list_find_Some in Hf as (Hi & Hin & _). apply lookup_take_Some in Hi as [Hi _].
  split; [by eapply list_elem_of_lookup_2|done].
Qed.

Lemma proc_getas_Done s r s' : proc_getas s = Done r s' ->
  s' = s /\ (r <> 0 -> exists p, procs s !! curproc s = Some p /\ r = p_addrspace p) /\
  (forall p, procs s !! curproc s = Some p -> curproc s <> 0 -> r = p_addrspace p).
Proof.
  intros H. unfold proc_getas in H. mgo H. destruct (Z.eqb_spec (curproc s) 0); mgo H; [done|].
  split_and!; [done|eauto|]. intros p Hp _. congruence.
Qed.

Lemma resident_frame P W Y s t j e : kinv P W Y s -> pte s t j = Some e -> resident e ->
  frame_addr (pte_paddr e).
Proof.
  intros K He Hr. destruct (k_res _ _ _ _ K t j e He Hr) as (f & -> & _ & (c & Hc & _) & _).
  apply lookup_lt_Some in Hc. pose proof (k_len _ _ _ _ K). pose proof (k_max _ _ _ _ K).
  split; [unfold is_u32, PAGE_SIZE; lia|apply Z.mod_mul; done].
Qed.

(** A page address of the machine that is not in the TLB. *)
Definition tlb_miss (va : Z) (s : kstate) : Prop :=
  tlb_wf (hwtlb s) /\ Z.land va TLBHI_VPAGE = va /\
  Forall (fun e => ~ matches va e) (entries (hwtlb s)).

Lemma tlb_insert_inv W Y s va pa w r s' : kinv ∅ W Y s -> tlb_miss va s -> frame_addr pa ->
  tlb_insert va pa w s = Done r s' ->
  r = 0 /\ translate (hwtlb s') va = Some (pa, w) /\ kinv ∅ W Y s' /\ transparent s s' /\
  (forall as_, slot_of s' as_ va = slot_of s as_ va) /\ (forall t j, pte s' t j = pte s t j) /\
  segtabs s' = segtabs s /\ swapfile s' = swapfile s.
Proof.
  intros K (Hwf & Hal & Hm) Hpa H. unfold tlb_insert in H.
  destruct (vmtlb_insert_translate va pa w (hwtlb s) (vms s) Hwf Hpa Hal Hm)
    as (tb & vs & Hins & _ & Htr & _).
  rewrite Hins in H. mgo H. inv E. mgo H. split_and!; try done.
  - apply (kinv_env ∅ W Y s (pmem s) (fs s) vs tb K). lia.
  - intros t j e He Hv. by exists e.
Qed.

Lemma fault_map_inv W Y s p g va w r s' : kinv ∅ W Y s -> procs s !! curproc s = Some p ->
  seg_ok g -> tlb_miss va s ->
  fault_map g (p_addrspace p) va w s = Done r s' ->
  r = 0 /\ kinv ∅ W Y s' /\ segtabs s' = segtabs s /\ swapfile s' = swapfile s /\
  exists t j e, slot_of s (p_addrspace p) va = Some (t, j) /\ transparent_but t j s s' /\
    slot_of s' (p_addrspace p) va = Some (t, j) /\ pte s' t j = Some e /\ resident e /\
    translate (hwtlb s') va = Some (pte_paddr e, w).
Proof.
  intros K Hp Hg Hm H. unfold fault_map in H. mgo H.
  apply pt_get_Done in E as (-> & t & -> & Hslot).
  destruct (fault_page_inv W Y s p g va t _ K Hp Hslot Hg _ _ E1) as (K1 & T1 & Henv & e & He & Hr & Hpa).
  destruct Henv as (Has & Hst & Htb & _ & _ & Hsf).
  assert (Hm1 : tlb_miss va s1) by (unfold tlb_miss; by rewrite Htb).
  rewrite <- Hpa in H. pose proof (resident_frame _ _ _ _ _ _ _ K1 He Hr) as Hfr.
  destruct (tlb_insert_inv W Y s1 va _ w r s' K1 Hm1 Hfr H) as (-> & Htr & K2 & T2 & Hsl & Hpt & Hst2 & Hsf2).
  split_and!; try done; try congruence.
  exists t, (Z.to_nat (INNER_PT_INDEX va)), e. rewrite Hpt, Hsl. split_and!; try done; [by eapply transparent_but_trans|].
  unfold slot_of in *. by rewrite Has.
Qed.

(** What a fault at [va] leaves of the pages: all stay valid, and keep their bytes,
    the page of [va] itself provided that it can be read back if it is swapped out. *)
Definition fault_transparent (va : Z) (s s' : kstate) : Prop :=
  forall t j e, pte s t j = Some e -> pte_valid e = true ->
  exists e', pte s' t j = Some e' /\ pte_valid e' = true /\
    ((forall p, procs s !! curproc s = Some p -> slot_of s (p_addrspace p) va = Some (t, j) ->
        swapped e -> swap_in_ok s e) ->
     forall k, 0 <= k < PAGE_SIZE -> content s' e' k = content s e k).

Lemma transparent_fault va s s' : transparent s s' -> fault_transparent va s s'.
Proof. intros T t j e He Hv. destruct (T t j e He Hv) as (e' & ? & ? & ?). by exists e'. Qed.

Lemma fault_handle_inv W Y s va r s' : kinv ∅ W Y s -> segs_ok s ->
  tlb_miss va s -> fault_handle va s = Done r s' ->
  (exists W', W ⊆ W' /\ kinv ∅ W' Y s') /\ fault_transparent va s s' /\ (r = 0 -> handled va s s') /\
  segtabs s' = segtabs s /\ swapfile s' = swapfile s.
Proof.
  intros K Hsegs Hm H. unfold fault_handle in H. mgo H.
  assert (Hrefl : fault_transparent va s s) by (apply transparent_fault; intros t j e He Hv; by exists e).
  assert (HW : exists W', W ⊆ W' /\ kinv ∅ W' Y s) by (by exists W).
  destruct (Z.eqb_spec (curproc s) 0) as [|Hcur]; mgo H; [done|].
  apply proc_getas_Done in E as (-> & Hp & _).
  destruct (Z.eqb_spec ret 0) as [->|Has]; mgo H; [done|].
  destruct (Hp Has) as (p & Hp' & ->). unfold get_segments in E0. mprim.
  destruct (segments_find_segment ret1 va) as [g|] eqn:Hf; mgo H; [|done].
  destruct (find_segment_elem _ _ _ Hf) as [Hin _]. pose proof (Hsegs _ _ _ E0 Hin) as Hg.
  set (sf := set_vms _ s) in *.
  assert (K0 : kinv ∅ W Y sf).
  { apply (kinv_env ∅ W Y s (pmem s) (fs s) (inc_tlbfaults (vms s)) (hwtlb s) K). lia. }
  assert (T0 : transparent s sf) by (intros t j e He Hv; by exists e).
  assert (Hmid : (exists W', W ⊆ W' /\ kinv ∅ W' Y s0) /\ transparent s s0 /\
    segtabs s0 = segtabs sf /\ hwtlb s0 = hwtlb sf /\ procs s0 = procs sf /\ curproc s0 = curproc sf /\
    swapfile s0 = swapfile sf /\
    (ret2 = 0 -> forall t j, slot_of s0 (p_addrspace p) va = Some (t, j) -> inner_pts s !! t = None \/ s0 = sf)).
  { destruct (Z.eqb_spec ret 0) as [->|]; mgo E2.
    - destruct (inner_pt_create_inv W Y sf _ _ va _ _ K0 E E1 E2) as (? & T1 & ? & ? & ? & ? & ? & Hnew).
      split; [done|]. split; [exact (transparent_trans _ _ _ T0 T1)|]. split_and!; try done.
      intros Hz t j Hs. left. by apply (Hnew Hz t j).
    - split; [by exists W|]. split_and!; try done. by right. }
  destruct Hmid as ((W' & HW' & K1) & T1 & Hseg & Htb & Hpr & Hcu & Hsw & Hnew).
  destruct (Z.eqb_spec ret2 0) as [->|Hne]; cbn [negb] in H; mgo H.
  - destruct (fault_map_inv W' Y s0 p g va (writable g) r s' K1) as (-> & K2 & Hseg2 & Hsw2 & t & j & e & Hs0 & T2 & Hh); try done.
    { rewrite Hpr, Hcu. done. }
    { unfold tlb_miss. by rewrite Htb. }
    split_and!; try congruence; [by exists W'| | |by rewrite Hseg2|by rewrite Hsw2].
    + intros t' j' e' He' Hv'. destruct (T1 t' j' e' He' Hv') as (e1 & He1 & Hv1 & Hc1).
      destruct (T2 t' j' e1 He1 Hv1) as (e2 & He2 & Hv2 & Hc2). exists e2. split_and!; try done.
      intros Hok k Hk. rewrite Hc2, Hc1; try done. intros -> -> Hs1.
      destruct (Hnew eq_refl t j Hs0) as [Hn| ->]; [unfold pte in He'; by rewrite Hn in He'|].
      change (pte s t j = Some e1) in He1. assert (e1 = e') as -> by congruence. by apply (Hok p).
    + intros _. exists p, ret0, ret1, g, t, j, e. done.
  - split_and!; try done; [by exists W'|by apply transparent_fault].
Qed.

End FaultProofs.
End FaultProofs.
