(* ===== verification/AddrspaceProofs.v ===== *)
(** * Address spaces and programs: theorems *)
From S2P Require Import Prelude Bitmap Vmstats Tlb Ram Segments Kmalloc KmallocProofs Machine Swapfile Coremap Vm.
From S2P Require Import Addrspace VmInv Replacement FaultProofs.
Import Bitmap Vmstats Tlb Segments Kmalloc KmallocProofs Machine Swapfile Coremap Vm Addrspace VmInv
  Replacement FaultProofs.

Module AddrspaceProofs.
Section AddrspaceProofs.
Context {VO : VnodeOps} {VL : VnodeLaws}.

(** ** Creating an address space *)

(** A new address space object, not yet referred to. *)
Lemma kinv_new_space P W Y s a x : kinv P W Y s -> addrspaces s !! a = None -> a ∈ W ->
  length (as_page_table x) = Z.to_nat OUTER_PT_SIZE ->
  kinv P W Y (set_addrspaces (<[a := x]> (addrspaces s)) s).
Proof.
  intros [K1 K2 K3 K4 K5 K6 K7 K8 K9 K10 K11 K12 K13 K14 K15 K16 K17] Ha HW Hl. split; try done.
  - destruct K13 as [Hnd Hq]. split; [done|]. intros n Hn.
    destruct (Hq n Hn) as (c & t & j & e & ? & ? & Hs & ? & ? & ?). exists c, t, j, e.
    split_and!; try done. unfold slot_of in *. cbn [addrspaces set_addrspaces].
    destruct (ce_as c =? 0); [done|]. rewrite lookup_insert_ne; [done|]. intros Heq.
    by rewrite <- Heq, Ha in Hs.
  - intros a' x' Hx. cbn [addrspaces set_addrspaces] in Hx.
    apply lookup_insert_Some in Hx as [[<- <-]|[_ Hx]]; [done|by apply K17].
Qed.

(** A new segment pointer in an existing address space. *)
Lemma kinv_set_segments P W Y s a x p : kinv P W Y s -> addrspaces s !! a = Some x ->
  kinv P W Y (set_addrspaces (<[a := mkAs p (as_page_table x)]> (addrspaces s)) s).
Proof.
  intros [K1 K2 K3 K4 K5 K6 K7 K8 K9 K10 K11 K12 K13 K14 K15 K16 K17] Ha. split; try done.
  - destruct K13 as [Hnd Hq]. split; [done|]. intros n Hn.
    destruct (Hq n Hn) as (c & t & j & e & ? & ? & Hs & ? & ? & ?). exists c, t, j, e.
    split_and!; try done. unfold slot_of in *. cbn [addrspaces set_addrspaces].
    destruct (ce_as c =? 0); [done|]. destruct (decide (ce_as c = a)) as [Heq|].
    + rewrite Heq in *. rewrite lookup_insert_eq. cbn. rewrite Ha in Hs. exact Hs.
    + by rewrite lookup_insert_ne.
  - intros a' x' Hx. cbn [addrspaces set_addrspaces] in Hx.
    apply lookup_insert_Some in Hx as [[<- <-]|[_ Hx]]; [by apply (K17 a x)|by apply K17].
Qed.

(** A segment table at a block of the heap that nobody held. *)
Lemma kinv_new_segtab P W Y s p tab : kinv P W Y s ->
  (allocated (kheap_st s) p /\ ~ vm_held s p \/ is_Some (segtabs s !! p)) ->
  kinv P W Y (set_segtabs (<[p := tab]> (segtabs s)) s).
Proof.
  intros K Hp.
  apply (kinv_objects P W Y s (<[p := tab]> (segtabs s)) (procs s) (curproc s) (kobjs s) (pid_table s) (kproc s) K).
  - destruct (k_nodes _ _ _ _ K) as (_ & Hone & _). intros q. cbn. destruct (Hone q) as [H1 H2]. split; [|done].
    destruct (decide (q = p)) as [->|Hne]; [|by rewrite lookup_insert_ne]. intros _.
    destruct Hp as [[_ Hnh]|Hs]; [|by apply H1].
    split; apply eq_None_not_Some; intros ?; apply Hnh; right; unfold objects; tauto.
  - intros q Hq. destruct (decide (q = p)) as [->|Hne].
    + destruct Hp as [[? ?]|Hs]; [by right|left; by left].
    + left. unfold objects in *. cbn in Hq. by rewrite lookup_insert_ne in Hq.
Qed.

(** An address inside a page of [W] is in no page of the heap. *)
Lemma kfree_W_offset P W Y s p o s' : kinv P W Y s -> p ∈ W -> 0 < o < PAGE_SIZE ->
  kfree (u32 (p + o)) s <> Done tt s'.
Proof.
  intros K Hp Ho H.
  destruct (k_pages _ _ _ _ K p) as (i & -> & _ & (c & Hc & _) & _); [unfold pages; set_solver|].
  apply lookup_lt_Some in Hc. pose proof (k_len _ _ _ _ K). pose proof (k_max _ _ _ _ K).
  assert (Hr : u32 (kva i + o) = kva i + o).
  { apply u32_small. unfold is_u32, kva, MIPS_KSEG0, PAGE_SIZE in *. lia. }
  assert (Hmod : (kva i + o) mod PAGE_SIZE = o).
  { unfold kva. replace (MIPS_KSEG0 + Z.of_nat i * PAGE_SIZE + o)
      with (o + (0x80000 + Z.of_nat i) * PAGE_SIZE) by (unfold MIPS_KSEG0, PAGE_SIZE; lia).
    rewrite Z.mod_add by done. apply Z.mod_small. lia. }
  rewrite Hr in H. unfold kfree in H. destruct (_ =? 0) eqn:E0; mprim.
  { apply Z.eqb_eq in E0. unfold kva, MIPS_KSEG0, PAGE_SIZE in *. lia. }
  mstep H. unfold subpage_kfree in E. mgo E. apply find_page_spec in E1 as [-> Hfp].
  destruct ret0 as [[a pr]|]; mprim.
  - destruct Hfp as (Ha & Hpr & Hrange).
    destruct (ok_refs _ (k_heap _ _ _ _ K) a Ha) as (pr' & Hpr' & Hok).
    assert (pr' = pr) as -> by (cbn in Hpr; congruence).
    destruct (pr_page _ Hok) as [Hal Hpg].
    rewrite u32_small in Hrange by (unfold is_u32, MIPS_KSEG0, PAGE_SIZE in *; lia).
    assert (kva i = PR_PAGEADDR pr) as Heq.
    { eapply (aligned_same_page _ _ (kva i + o)); [|done| |done].
      - destruct (kva_page_ok i) as [? _]; [lia|done].
      - lia. }
    destruct (k_disj _ _ _ _ K) as (_ & Hd & _). apply (Hd (PR_PAGEADDR pr)).
    + apply elem_of_owned. left. apply elem_of_subpages. eauto.
    + by rewrite <- Heq.
  - rewrite (proj2 (Z.eqb_neq (-1) 0)) in H by done. mgo H. apply Z.eqb_eq in E. lia.
Qed.

(** The memory of a new address space: two pages that no other one occupies. *)
Lemma alloc_space_inv W Y s r s0 : kinv ∅ W Y s -> kmalloc SIZEOF_ADDRSPACE s = Done r s0 ->
  krel s s0 /\
  (r = 0 /\ kinv ∅ W Y s0 \/
   r <> 0 /\ addrspaces s !! r = None /\ r ∈ page_range r 2 /\ kinv ∅ (page_range r 2 ∪ W) Y s0).
Proof.
  intros K E.
  destruct (kmalloc_large_inv (FL := kstate_free_laws ∅) W Y s SIZEOF_ADDRSPACE r s0 K)
    as (R & Hcase); [done|done|exact E|].
  change (DIVROUNDUP SIZEOF_ADDRSPACE PAGE_SIZE) with 2 in Hcase. split; [exact R|].
  destruct Hcase as [[-> K0]|(Hne & Hpok & _ & H2)]; [by left|right].
  destruct H2 as [Hd K1]; [done|].
  assert (Hin : r ∈ page_range r 2).
  { unfold page_range. rewrite elem_of_list_to_set, list_elem_of_fmap. exists 0%nat.
    split; [lia|]. apply elem_of_seq. lia. }
  split_and!; try done. apply eq_None_not_Some. intros [x Hx].
  destruct (k_spaces _ _ _ _ K _ _ Hx) as [Hw _]. exact (Hd r Hin Hw).
Qed.

(** [as_create] hands out a fresh, empty address space. *)
Lemma as_create_inv W Y s junk r s' : kinv ∅ W Y s -> as_create junk s = Done r s' ->
  transparent s s' /\ same_env (set_segtabs (segtabs s') (set_addrspaces (addrspaces s') s)) s' /\
  (r = 0 /\ kinv ∅ W Y s' /\ addrspaces s' = addrspaces s /\ segtabs s' = segtabs s \/
   r <> 0 /\ kinv ∅ (page_range r 2 ∪ W) Y s' /\ addrspaces s !! r = None /\
   exists segs, segtabs s !! segs = None /\ segtabs s' = <[segs := snd junk]> (segtabs s) /\
     addrspaces s' = <[r := mkAs segs (replicate (Z.to_nat OUTER_PT_SIZE) 0)]> (addrspaces s)).
Proof.
  intros K H. unfold as_create in H. mgo H. destruct (alloc_space_inv W Y s ret s0 K E) as (R & Hcase).
  pose proof (krel_transparent _ _ R) as T0.
  destruct (r_same _ _ R) as (Has & Hseg & Htlb & Hpr & Hcur & Hsw & _).
  destruct Hcase as [[-> K0]|(Hne & Hfresh & Hin & K1)].
  { rewrite Z.eqb_refl in H. mprim. split_and!; try done; try congruence. by left. }
  rewrite (proj2 (Z.eqb_neq _ _) Hne) in H. unfold put_as, put_segtab in H. mgo H.
  set (x0 := mkAs (fst junk) _) in *.
  set (s1a := set_addrspaces _ s0) in *.
  assert (K2 : kinv ∅ (page_range ret 2 ∪ W) Y s1a).
  { apply kinv_new_space; [done|by rewrite Has|by apply elem_of_union_l|by apply length_replicate]. }
  destruct (kmalloc_small_inv (FL := kstate_free_laws ∅) _ Y _ (SIZEOF_SEGMENT * NUM_SEGMENTS) ret0 s1 K2)
    as (K3 & R3 & _ & Hr); [done|exact E0|]. change (krel s1a s1) in R3. change (kinv ∅ (page_range ret 2 ∪ W) Y s1) in K3.
  destruct (r_same _ _ R3) as (Has3 & Hseg3 & Htlb3 & Hpr3 & Hcur3 & Hsw3 & _).
  pose proof (krel_transparent _ _ R3) as T3.
  destruct Hr as [->|(Hr0 & Hnh & _ & nb & _ & Hal%block_allocated)].
  { rewrite Z.eqb_refl in H. mgo H. exfalso.
    eapply (kfree_W_offset ∅ (page_range ret 2 ∪ W) Y s1 ret 4); [done|by apply elem_of_union_l|done|exact E1]. }
  rewrite (proj2 (Z.eqb_neq _ _) Hr0) in H. mgo H.
  cbn [addrspaces segtabs hwtlb procs curproc swapfile s1a set_addrspaces set_segtabs] in *.
  rewrite Has3, lookup_insert_eq in E1. inv E1. cbn [as_page_table].
  assert (Hns : segtabs s !! ret0 = None).
  { apply eq_None_not_Some. intros Hs. apply Hnh. right. left. by rewrite Hseg3, Hseg. }
  split_and!; try congruence.
  - change (transparent s s1). change (transparent s s1a) in T0. exact (transparent_trans _ _ _ T0 T3).
  - split_and!; cbn; congruence.
  - right. split_and!; try done.
    + set (x1 := mkAs ret0 _). apply (kinv_new_segtab ∅ _ Y (set_addrspaces (<[ret := x1]> (addrspaces s1)) s1) ret0);
        [|left; split; [exact Hal|exact Hnh]].
      apply (kinv_set_segments ∅ (page_range ret 2 ∪ W) Y s1 ret (mkAs (fst junk) (replicate (Z.to_nat OUTER_PT_SIZE) 0)) ret0 K3).
      by rewrite Has3, lookup_insert_eq.
    + exists ret0. split_and!; [done|by rewrite Hseg3, Hseg|].
      by rewrite Has3, insert_insert_eq, Has.
Qed.

(** ** Regions *)

Lemma nth_segment_lookup tab i g : nth_segment tab i = Some g -> 0 <= i /\ tab !! Z.to_nat i = Some g.
Proof. unfold nth_segment. destruct (Z.ltb_spec i 0); [done|]. done. Qed.

Lemma as_define_region_eq s as_ i va sz r w x v off res s' :
  as_define_region as_ i va sz r w x v off s = Done res s' ->
  res = 0 /\ exists a tab, addrspaces s !! as_ = Some a /\ segtabs s !! as_segments a = Some tab /\
    0 <= i < Z.of_nat (length tab) /\
    s' = set_segtabs (<[as_segments a := <[Z.to_nat i := region_segment va sz r w x v off]> tab]> (segtabs s)) s.
Proof.
  intros H. unfold as_define_region, get_segments, put_segtab in H. mgo H. split; [done|].
  apply nth_segment_lookup in E2 as [Hi Hl]. apply lookup_lt_Some in Hl.
  exists ret, ret0. split_and!; try done; lia.
Qed.

Lemma as_define_stack_eq s as_ res sp s' : as_define_stack as_ s = Done (res, sp) s' ->
  res = 0 /\ sp = USERSTACK /\ exists a tab g, addrspaces s !! as_ = Some a /\
    segtabs s !! as_segments a = Some tab /\ tab !! 2%nat = Some g /\
    s' = set_segtabs (<[as_segments a := <[2%nat := stack_segment g USERSTACK]> tab]> (segtabs s)) s.
Proof.
  intros H. unfold as_define_stack, get_segments, put_segtab in H. mgo H. injection H as -> ->.
  apply nth_segment_lookup in E2 as [_ Hl]. split_and!; try done. by exists ret, ret0, ret1.
Qed.

Lemma as_define_region_inv P W Y s as_ i va sz r w x v off res s' : kinv P W Y s ->
  as_define_region as_ i va sz r w x v off s = Done res s' -> kinv P W Y s'.
Proof.
  intros K H. apply as_define_region_eq in H as (_ & a & tab & _ & Ht & _ & ->).
  apply kinv_new_segtab; [done|]. right. eauto.
Qed.

Lemma as_define_stack_inv P W Y s as_ res s' : kinv P W Y s ->
  as_define_stack as_ s = Done res s' -> kinv P W Y s'.
Proof.
  intros K H. destruct res. apply as_define_stack_eq in H as (_ & _ & a & tab & g & _ & Ht & _ & ->).
  apply kinv_new_segtab; [done|]. right. eauto.
Qed.

Lemma segs_ok_insert s p tab : segs_ok s -> Forall seg_ok tab ->
  segs_ok (set_segtabs (<[p := tab]> (segtabs s)) s).
Proof.
  intros Hs Ht x tab' g Hx Hg. cbn [segtabs set_segtabs] in Hx.
  apply lookup_insert_Some in Hx as [[_ <-]|[_ Hx]]; [|by eapply Hs].
  rewrite Forall_forall in Ht. by apply Ht.
Qed.

Lemma segs_ok_table s p tab : segs_ok s -> segtabs s !! p = Some tab -> Forall seg_ok tab.
Proof. intros Hs Ht. apply Forall_forall. intros g Hg. by eapply Hs. Qed.

Lemma region_segment_seg_ok va sz r w x v off : is_u32 off -> seg_ok (region_segment va sz r w x v off).
Proof.
  intros Ho. split; [|done]. cbn [region_segment elf_base_offset].
  change (u32 (Z.lnot PAGE_FRAME)) with 0xfff. rewrite land_page_offset. by apply Z.mod_pos_bound.
Qed.

Lemma as_define_region_segs_ok s as_ i va sz r w x v off res s' : segs_ok s -> is_u32 off ->
  as_define_region as_ i va sz r w x v off s = Done res s' -> segs_ok s'.
Proof.
  intros Hs Ho H. apply as_define_region_eq in H as (_ & a & tab & _ & Ht & _ & ->).
  apply segs_ok_insert; [done|]. apply Forall_insert; [by eapply segs_ok_table|by apply region_segment_seg_ok].
Qed.

Lemma as_define_stack_segs_ok s as_ res s' : segs_ok s -> as_define_stack as_ s = Done res s' -> segs_ok s'.
Proof.
  intros Hs H. destruct res. apply as_define_stack_eq in H as (_ & _ & a & tab & g & _ & Ht & Hg & ->).
  pose proof (segs_ok_table _ _ _ Hs Ht) as Hf. apply segs_ok_insert; [done|]. apply Forall_insert; [done|].
  destruct (Forall_lookup_1 _ _ _ _ Hf Hg) as [_ ?]. done.
Qed.

(** A process structure at a block that is one already, or that nobody held. *)
Lemma kinv_put_proc P W Y s a p : kinv P W Y s ->
  (allocated (kheap_st s) a /\ ~ vm_held s a \/ is_Some (procs s !! a)) ->
  kinv P W Y (set_procs (<[a := p]> (procs s)) s).
Proof.
  intros K Ha.
  change (set_procs (<[a := p]> (procs s)) s) with
    (set_segtabs (segtabs s) (set_procs (<[a := p]> (procs s)) (set_curproc (curproc s)
      (set_kobjs (kobjs s) (set_pid_table (pid_table s) (set_kproc (kproc s) s)))))).
  apply (kinv_objects P W Y s); [done|..].
  - destruct (k_nodes _ _ _ _ K) as (_ & Hone & _). intros q. cbn. destruct (Hone q) as [H1 H2].
    destruct (decide (q = a)) as [->|Hne]; [|by rewrite lookup_insert_ne].
    destruct Ha as [[_ Hnh]|Hs].
    + split; intros ?; [exfalso; apply Hnh; right; by left|].
      apply eq_None_not_Some. intros ?. apply Hnh. right. unfold objects. tauto.
    + split; intros Hx; [|by apply H2]. destruct (H1 Hx) as [Hn _]. rewrite Hn in Hs. by destruct Hs.
  - intros q Hq. destruct (decide (q = a)) as [->|Hne].
    + destruct Ha as [[? ?]|Hs]; [by right|left; right; by left].
    + left. unfold objects in *. cbn in Hq. by rewrite lookup_insert_ne in Hq.
Qed.

(** Which process is current, and the process table, are not part of the invariant. *)
Lemma kinv_set_cur P W Y s cur pt kp : kinv P W Y s ->
  kinv P W Y (set_curproc cur (set_pid_table pt (set_kproc kp s))).
Proof. intros [K1 K2 K3 K4 K5 K6 K7 K8 K9 K10 K11 K12 K13 K14 K15 K16 K17]. by split. Qed.

Lemma proc_setas_eq a s r s' : proc_setas a s = Done r s' ->
  exists p, procs s !! curproc s = Some p /\ r = p_addrspace p /\
    s' = set_procs (<[curproc s := set_p_addrspace a p]> (procs s)) s.
Proof.
  intros H. unfold proc_setas in H. mgo H. unfold update_curproc in E1. mgo E1.
  assert (ret0 = ret) as -> by congruence. by exists ret.
Qed.

(** ** Loading a program *)

Lemma be16_ext d d' o n : 0 <= o -> o + 2 <= n -> (forall k, 0 <= k < n -> d k = d' k) -> be16 d o = be16 d' o.
Proof. intros Ho Hn H. unfold be16, byte_at. rewrite !H by lia. done. Qed.
Lemma be32_ext d d' o n : 0 <= o -> o + 4 <= n -> (forall k, 0 <= k < n -> d k = d' k) -> be32 d o = be32 d' o.
Proof. intros Ho Hn H. unfold be32. rewrite !(be16_ext d d' _ n) by (done || lia). done. Qed.
Lemma be32_range d o : is_u32 (be32 d o).
Proof.
  unfold be32, be16, byte_at, is_u32, u8. pose proof (Z.mod_pos_bound (d o) (2 ^ 8)).
  pose proof (Z.mod_pos_bound (d (o + 1)) (2 ^ 8)). pose proof (Z.mod_pos_bound (d (o + 2)) (2 ^ 8)).
  pose proof (Z.mod_pos_bound (d (o + 2 + 1)) (2 ^ 8)). lia.
Qed.

Lemma ehdr_ext d d' : (forall k, 0 <= k < SIZEOF_EHDR -> d k = d' k) ->
  ehdr_ok d = ehdr_ok d' /\ e_entry d = e_entry d' /\ e_phoff d = e_phoff d' /\
  e_phentsize d = e_phentsize d' /\ e_phnum d = e_phnum d'.
Proof.
  intros H. unfold SIZEOF_EHDR in H. unfold ehdr_ok, e_entry, e_phoff, e_phentsize, e_phnum.
  rewrite !(be32_ext d d' _ 52), !(be16_ext d d' _ 52) by (done || lia).
  unfold byte_at. rewrite !H by lia. done.
Qed.

Lemma phdr_ext d d' : (forall k, 0 <= k < SIZEOF_PHDR -> d k = d' k) ->
  p_type d = p_type d' /\ p_offset d = p_offset d' /\ p_vaddr d = p_vaddr d' /\
  p_memsz d = p_memsz d' /\ p_flags d = p_flags d'.
Proof.
  intros H. unfold SIZEOF_PHDR in H. unfold p_type, p_offset, p_vaddr, p_memsz, p_flags.
  rewrite !(be32_ext d d' _ 32) by (done || lia). done.
Qed.

(** Two file systems with the same files. *)
Definition same_files (f f' : fstore) : Prop :=
  (forall v, fsize f' v = fsize f v) /\
  (forall v a, 0 <= a < fsize f v -> fbyte f' v a = fbyte f v a).

Lemma same_files_trans f1 f2 f3 : same_files f1 f2 -> same_files f2 f3 -> same_files f1 f3.
Proof.
  intros [S1 B1] [S2 B2]. split; [congruence|]. intros v a Ha. rewrite B2, B1; [done|done|].
  by rewrite S1.
Qed.

(** A header that was read completely is what the file holds. *)
Lemma read_struct_spec v len off s er d s' : 0 <= off -> 0 < len ->
  read_struct v len off s = Done (er, 0, d) s' ->
  s' = set_fs (fs s') s /\ same_files (fs s) (fs s') /\
  (er = 0 -> off + len <= fsize (fs s) v /\
     forall k, 0 <= k < len -> d k = fbyte (fs s) v (off + k)).
Proof.
  intros Ho Hl H. unfold read_struct in H. destruct (vop_read _ _ _ _) as [[[e0 r0] d0] f0] eqn:Hv. inv H.
  destruct (vop_read_ok _ _ _ _ _ _ _ _ Hv Ho) as (Hr & Hs & Hb & Hok); [lia|].
  split_and!; try done. intros He. destruct (Hok He) as [Hn Hd]. split; [lia|].
  intros k Hk. apply Hd. lia.
Qed.

(** Program header [k] of the program in file [v], and the segment it asks for. *)
Definition phdr_offset (eh : Z -> Z) (k : Z) : Z := u32 (e_phoff eh + u32 (k * e_phentsize eh)).
Definition phdr (f : fstore) (v : Z) (eh : Z -> Z) (k o : Z) : Z := fbyte f v (phdr_offset eh k + o).
Definition skipped (ph : Z -> Z) : Prop :=
  p_type ph = PT_NULL \/ p_type ph = PT_PHDR \/ p_type ph = PT_MIPS_REGINFO.
Definition phdr_segment (v : Z) (ph : Z -> Z) : segment :=
  region_segment (p_vaddr ph) (p_memsz ph) (Z.land (p_flags ph) PF_R) (Z.land (p_flags ph) PF_W)
    (Z.land (p_flags ph) PF_X) v (p_offset ph).

(** The bytes of the segment that are in the file; past them, up to [p_memsz], ELF wants
    zeros.  A header a linker may write: the file part is in the file and no longer than
    the segment, and neither runs out of user memory or of 32-bit offsets. *)
Definition p_filesz (d : Z -> Z) : Z := be32 d 16.
Definition phdr_ok (f : fstore) (v : Z) (ph : Z -> Z) : Prop :=
  p_filesz ph <= p_memsz ph /\ p_vaddr ph + p_memsz ph <= 2 ^ 31 /\
  p_offset ph + p_filesz ph <= fsize f v /\ p_offset ph + p_filesz ph + 2 * PAGE_SIZE <= 2 ^ 32.

(** The page of an address in the file part is one of the pages of the segment. *)
Lemma phdr_page f v ph va : phdr_ok f v ph -> p_vaddr ph <= va < p_vaddr ph + p_filesz ph ->
  let g := phdr_segment v ph in
  page_of g (Z.land va PAGE_FRAME) /\ vbase g + elf_base_offset g = p_vaddr ph.
Proof.
  intros (Hm & Hu & _ & Ho) Hva g.
  assert (Hv : is_u32 (p_vaddr ph)) by apply be32_range. unfold is_u32 in Hv.
  destruct (define_region_covers (p_vaddr ph) (p_memsz ph) (Z.land (p_flags ph) PF_R) (Z.land (p_flags ph) PF_W)
    (Z.land (p_flags ph) PF_X) v (p_offset ph)) as (_ & Hb & _ & Hs & _ & _ & Ht);
    [done|lia|unfold PAGE_SIZE in *; lia|].
  destruct (region_segment_spec (p_vaddr ph) (p_memsz ph) (Z.land (p_flags ph) PF_R) (Z.land (p_flags ph) PF_W)
    (Z.land (p_flags ph) PF_X) v (p_offset ph)) as (Hb' & Hd & _ & Hc & _ & _); [done|lia|unfold PAGE_SIZE in *; lia|].
  fold (phdr_segment v ph) g in Hb, Hs, Ht, Hb', Hd, Hc. split; [|done].
  assert (Hf : elf_segment_start g = p_offset ph) by done.
  assert (Huv : is_u32 va) by (unfold is_u32; lia). unfold page_of. rewrite land_page_frame by done.
  pose proof (Z.mod_pos_bound va PAGE_SIZE ltac:(done)). pose proof (Z.mod_pos_bound (p_vaddr ph) PAGE_SIZE ltac:(done)).
  pose proof (Z.div_mod va PAGE_SIZE ltac:(done)). pose proof (Z.div_mod (p_vaddr ph) PAGE_SIZE ltac:(done)).
  assert (p_vaddr ph / PAGE_SIZE <= va / PAGE_SIZE) by (apply Z.div_le_mono; [done|lia]).
  assert (Hvp : (va - va mod PAGE_SIZE) mod PAGE_SIZE = 0).
  { replace (va - va mod PAGE_SIZE) with (va / PAGE_SIZE * PAGE_SIZE) by lia. by apply Z.mod_mul. }
  unfold is_u32. rewrite Hf. unfold PAGE_SIZE in *. split_and!; try done; lia.
Qed.

(** The segment table of the address space at [as_] has [g] in slot [k]. *)
Definition has_segment (s : kstate) (as_ k : Z) (g : segment) : Prop :=
  exists a tab, addrspaces s !! as_ = Some a /\ segtabs s !! as_segments a = Some tab /\
    nth_segment tab k = Some g.

Lemma has_segment_define s as_ i g g0 k a tab : addrspaces s !! as_ = Some a ->
  segtabs s !! as_segments a = Some tab -> 0 <= i < Z.of_nat (length tab) ->
  (k = i /\ g = g0 \/ k <> i /\ has_segment s as_ k g) ->
  has_segment (set_segtabs (<[as_segments a := <[Z.to_nat i := g0]> tab]> (segtabs s)) s) as_ k g.
Proof.
  intros Ha Ht Hi Hk. exists a, (<[Z.to_nat i := g0]> tab). cbn [addrspaces segtabs set_segtabs].
  rewrite lookup_insert_eq. split_and!; try done. unfold nth_segment.
  destruct Hk as [[-> ->]|[Hne (a' & tab' & Ha' & Ht' & Hg)]].
  - destruct (Z.ltb_spec i 0); [lia|]. by rewrite list_lookup_insert_eq by lia.
  - assert (a' = a) as -> by congruence. assert (tab' = tab) as -> by congruence.
    apply nth_segment_lookup in Hg as [Hk Hg]. destruct (Z.ltb_spec k 0); [lia|].
    by rewrite list_lookup_insert_ne by lia.
Qed.

(** Header [k] was read in full, and was skipped or became its segment. *)
Definition loaded (f : fstore) (v as_ : Z) (eh : Z -> Z) (k : Z) (s' : kstate) : Prop :=
  let ph := phdr f v eh k in
  phdr_offset eh k + SIZEOF_PHDR <= fsize f v /\
  (skipped ph \/ p_type ph = PT_LOAD /\ has_segment s' as_ (k - 1) (phdr_segment v ph)).

Lemma loaded_same_files f f' v as_ eh k s' : same_files f f' -> loaded f' v as_ eh k s' ->
  loaded f v as_ eh k s'.
Proof.
  intros [S B] [Hsz Hk]. assert (Hx : forall o, 0 <= o < SIZEOF_PHDR -> phdr f' v eh k o = phdr f v eh k o).
  { intros o Ho. unfold phdr. apply B. pose proof (u32_range (e_phoff eh + u32 (k * e_phentsize eh))) as Hu.
    rewrite S in Hsz. unfold phdr_offset, is_u32 in *. lia. }
  destruct (phdr_ext _ _ Hx) as (Et & Eo & Ev & Em & Ef).
  assert (Eg : phdr_segment v (phdr f' v eh k) = phdr_segment v (phdr f v eh k))
    by (unfold phdr_segment; by rewrite Eo, Ev, Em, Ef).
  unfold loaded, skipped in *. rewrite Et, Eg, S in *. done.
Qed.

Lemma loaded_ext f v as_ eh eh' k s' : phdr_offset eh k = phdr_offset eh' k ->
  loaded f v as_ eh k s' -> loaded f v as_ eh' k s'.
Proof. intros He. unfold loaded, phdr. by rewrite He. Qed.

(** What the loop has done when it returns 0; the segments of the headers before [i]
    are still there. *)
Lemma load_phdrs_spec v as_ eh n : forall i s s', 0 <= i -> load_phdrs v as_ eh i n s = Done 0 s' ->
  same_files (fs s) (fs s') /\
  (forall k, i <= k < i + Z.of_nat n -> loaded (fs s) v as_ eh k s') /\
  (forall k g, k < i - 1 -> has_segment s as_ k g -> has_segment s' as_ k g).
Proof.
  induction n as [|n IH]; intros i s s' Hi H; cbn [load_phdrs] in H.
  { mprim. split_and!; [done|intros k ?; lia|done]. }
  mgo H. destruct ret as [[er resid] d].
  destruct (Z.eqb_spec er 0) as [->|He]; cbn [negb] in H; mgo H; [|done].
  destruct (Z.eqb_spec resid 0) as [->|Hr]; cbn [negb] in H; mgo H; [|by inv H].
  apply read_struct_spec in E as (Hs & Hsame & Hd); [|apply u32_range|done].
  destruct (Hd eq_refl) as [Hsz Hbytes]. fold (phdr_offset eh i) in Hsz, Hbytes.
  destruct (phdr_ext d (phdr (fs s) v eh i) Hbytes) as (Et & Eo & Ev & Em & Ef).
  assert (Hseg : forall k g, has_segment s as_ k g -> has_segment s0 as_ k g) by (rewrite Hs; done).
  destruct (_ || _) eqn:Hskip.
  - destruct (IH (i + 1) s0 s') as (Hf & Hall & Hold); [lia|done|].
    split_and!; [by eapply same_files_trans| |intros k g Hk Hg; apply Hold; [lia|by apply Hseg]].
    intros k Hk. destruct (decide (k = i)) as [->|].
    + split; [done|]. left. unfold skipped. rewrite <- Et. rewrite !orb_true_iff, !Z.eqb_eq in Hskip. tauto.
    + eapply loaded_same_files; [done|]. apply Hall. lia.
  - destruct (Z.eqb_spec (p_type d) PT_LOAD) as [Hl|]; cbn [negb] in H; mgo H; [|by inv H].
    apply as_define_region_eq in E as (-> & a & tab & Ha & Ht & Hr & ->).
    rewrite Z.eqb_refl in H. cbn [negb] in H. 
    destruct (IH (i + 1) _ _ ltac:(lia) H) as (Hf & Hall & Hold).
    cbn [fs set_segtabs] in *.
    pose proof (fun k g => has_segment_define s0 as_ (i - 1) g (phdr_segment v d) k a tab Ha Ht Hr) as Hdef.
    split_and!; [by eapply same_files_trans| |].
    + intros k Hk. destruct (decide (k = i)) as [->|].
      * split; [done|]. right. split; [by rewrite <- Et|]. apply Hold; [lia|]. apply Hdef. left.
        split; [done|]. unfold phdr_segment. by rewrite Eo, Ev, Em, Ef.
      * eapply loaded_same_files; [done|]. apply Hall. lia.
    + intros k g Hk Hg. apply Hold; [lia|]. apply Hdef. right. split; [lia|by apply Hseg].
Qed.

(** [load_elf] accepts an executable only with a complete, valid header and
    program headers it understands; when it returns 0 the entry point is the one in
    the header, and every PT_LOAD header of the file has become the segment it asks
    for, in the slot before its own number. *)
Theorem load_elf_sets_up_segments v s ep s' : load_elf v s = Done (0, ep) s' ->
  let eh k := fbyte (fs s) v k in
  SIZEOF_EHDR <= fsize (fs s) v /\ ehdr_ok eh = true /\ ep = Some (e_entry eh) /\
  forall p, procs s !! curproc s = Some p -> curproc s <> 0 ->
  forall k, 0 <= k < e_phnum eh -> loaded (fs s) v (p_addrspace p) eh k s'.
Proof.
  intros H eh. unfold load_elf in H. mgo H. apply proc_getas_Done in E as (-> & _ & Has).
  destruct ret0 as [[er resid] d].
  destruct (Z.eqb_spec er 0) as [->|He]; cbn [negb] in H; mgo H; [|by inv H].
  destruct (Z.eqb_spec resid 0) as [->|Hr]; cbn [negb] in H; mgo H; [|by inv H].
  apply read_struct_spec in E0 as (Hs & Hsame & Hd); [|done|done]. destruct (Hd eq_refl) as [Hsz Hb].
  destruct (ehdr_ext d eh Hb) as (Eok & Een & Eoff & Ees & Enum).
  destruct (ehdr_ok d) eqn:Hok; cbn [negb] in H; mgo H; [|by inv H].
  destruct (Z.eqb_spec ret0 0) as [->|Hne]; cbn [negb] in H; mgo H; [|by inv H].
  unfold as_prepare_load in E0. unfold as_complete_load in H. mprim. cbn [negb Z.eqb] in H.
  mgo H. cbn [negb Z.eqb] in H. mgo H. injection H as ->.
  split_and!; [done|done|by rewrite Een|]. intros p Hp Hc k Hk. rewrite (Has p Hp Hc) in E.
  apply load_phdrs_spec in E as (_ & Hall & _); [|done].
  apply (loaded_ext _ _ _ d); [unfold phdr_offset; by rewrite Eoff, Ees|].
  eapply loaded_same_files; [done|]. apply Hall. rewrite Enum in *. lia.
Qed.

End AddrspaceProofs.
End AddrspaceProofs.
