(* ===== verification/ProcProofs.v ===== *)
(** * Kernel objects and processes: theorems *)
From S2P Require Import Prelude Bitmap Vmstats Tlb Ram Segments Kmalloc KmallocProofs Machine Swapfile Coremap Objects.
From S2P Require Import Vm Addrspace Proc VmInv Replacement FaultProofs AddrspaceProofs.
Import Kmalloc KmallocProofs Machine Swapfile Coremap Objects Vm Addrspace Proc VmInv Replacement
  FaultProofs AddrspaceProofs.

Module ProcProofs.
Section ProcProofs.
Context {VO : VnodeOps} {VL : VnodeLaws}.

(** ** The VM system and the kernel objects

    [krelo]: as [krel], whatever happened to processes and kernel objects. *)
Definition erase (s : kstate) : kstate :=
  set_procs ∅ (set_kobjs ∅ (set_pid_table [] (set_kproc 0 (set_curproc 0 s)))).
Definition krelo (s s' : kstate) : Prop := krel (erase s) (erase s').

Lemma krelo_refl s : krelo s s.
Proof. apply krel_refl. Qed.
Lemma krelo_trans s1 s2 s3 : krelo s1 s2 -> krelo s2 s3 -> krelo s1 s3.
Proof. apply krel_trans. Qed.
Lemma krel_krelo s s' : krel s s' -> krelo s s'.
Proof.
  intros [S T Q Pt F V]. split; try done.
  destruct S as (? & ? & ? & ? & ? & ? & ? & ? & ? & ? & ?). by split_and!.
Qed.
Lemma krelo_transparent s s' : krelo s s' -> transparent s s'.
Proof. intros R. exact (krel_transparent _ _ R). Qed.

(** The process side of the state is as before. *)
Definition same_procs (s s' : kstate) : Prop :=
  procs s' = procs s /\ curproc s' = curproc s /\ pid_table s' = pid_table s /\ kproc s' = kproc s.

(** What the creation and destruction of kernel objects leaves alone. *)
Definition orel (s s' : kstate) : Prop := krelo s s' /\ same_procs s s'.

Lemma orel_refl s : orel s s.
Proof. split; [apply krelo_refl|done]. Qed.
Lemma orel_trans s1 s2 s3 : orel s1 s2 -> orel s2 s3 -> orel s1 s3.
Proof.
  intros [R1 (A1 & B1 & C1 & D1)] [R2 (A2 & B2 & C2 & D2)]. split; [by eapply krelo_trans|].
  split_and!; congruence.
Qed.
Lemma orel_krel s s' : krel s s' -> orel s s'.
Proof.
  intros R. destruct (r_same _ _ R) as (_ & _ & _ & ? & ? & _ & _ & _ & ? & ? & ?).
  split; [by apply krel_krelo|done].
Qed.
Lemma orel_segtabs s s' : orel s s' -> segtabs s' = segtabs s.
Proof. intros [R _]. by destruct (r_same _ _ R) as (_ & ? & _). Qed.

Lemma orel_put s s' a o : orel s s' -> orel s (set_kobjs (<[a := o]> (kobjs s')) s').
Proof. intros [R P]. by split. Qed.

(** Objects stay objects while [kobjs] grows. *)
Lemma orel_objects s s' q : orel s s' -> (is_Some (kobjs s !! q) -> is_Some (kobjs s' !! q)) ->
  objects s q -> objects s' q.
Proof.
  intros R Hk. unfold objects. rewrite (orel_segtabs _ _ R). destruct R as [_ (-> & _)]. tauto.
Qed.

(** [kmalloc] of a small object. *)
Lemma kmalloc_obj W Y s sz r s' : kinv ∅ W Y s -> 0 <= sz < LARGEST_SUBPAGE_SIZE ->
  kmalloc sz s = Done r s' ->
  kinv ∅ W Y s' /\ orel s s' /\ kobjs s' = kobjs s /\
  (r = 0 \/ r <> 0 /\ allocated (kheap_st s') r /\ ~ vm_held s' r /\ ~ objects s r).
Proof.
  intros K Hsz H.
  destruct (kmalloc_small_inv (FL := kstate_free_laws ∅) W Y s sz r s' K Hsz H) as (K' & R & _ & Hr).
  pose proof (orel_krel _ _ R) as Ro. destruct (r_same _ _ R) as (_ & _ & _ & _ & _ & _ & _ & _ & Hob & _).
  split; [done|]. split; [done|]. split; [done|].
  destruct Hr as [->|(Hr0 & Hnh & _ & n & _ & Hb)]; [by left|right].
  split_and!; [done|by eapply block_allocated|done|]. intros Ho. apply Hnh. right.
  apply (orel_objects _ _ _ Ro); [|done]. by rewrite Hob.
Qed.

(** Storing an object in a block that is one already, or that nobody held. *)
Lemma kinv_put_obj P W Y s a o : kinv P W Y s ->
  (allocated (kheap_st s) a /\ ~ vm_held s a \/ is_Some (kobjs s !! a)) ->
  kinv P W Y (set_kobjs (<[a := o]> (kobjs s)) s).
Proof.
  intros K Ha.
  change (set_kobjs (<[a := o]> (kobjs s)) s) with
    (set_segtabs (segtabs s) (set_procs (procs s) (set_curproc (curproc s)
      (set_kobjs (<[a := o]> (kobjs s)) (set_pid_table (pid_table s) (set_kproc (kproc s) s)))))).
  apply (kinv_objects P W Y s); [done|..].
  - destruct (k_nodes _ _ _ _ K) as (_ & Hone & _). intros q. cbn. destruct (Hone q) as [H1 H2].
    destruct (decide (q = a)) as [->|Hne]; [|by rewrite lookup_insert_ne].
    destruct Ha as [[_ Hnh]|[x Hx]].
    + split; intros ?; exfalso; apply Hnh; right; unfold objects; tauto.
    + split; intros Hs; [apply H1 in Hs as [_ Hn]|apply H2 in Hs as Hn]; congruence.
  - intros q Hq. destruct (decide (q = a)) as [->|Hne].
    + destruct Ha as [[? ?]|Hs]; [by right|left; right; by right].
    + left. unfold objects in *. cbn in Hq. by rewrite lookup_insert_ne in Hq.
Qed.

(** Ending the life of an object. *)
Lemma kinv_del_obj P W Y s a : kinv P W Y s -> is_Some (kobjs s !! a) ->
  let s' := set_kobjs (delete a (kobjs s)) s in
  kinv P W Y s' /\ allocated (kheap_st s) a /\ ~ vm_held s' a.
Proof.
  intros K Ha s'. destruct (k_nodes _ _ _ _ K) as (_ & Hone & Hn). split_and!.
  - change s' with
      (set_segtabs (segtabs s) (set_procs (procs s) (set_curproc (curproc s)
        (set_kobjs (delete a (kobjs s)) (set_pid_table (pid_table s) (set_kproc (kproc s) s)))))).
    apply (kinv_objects P W Y s); [done|..].
    + intros q. cbn. destruct (Hone q) as [H1 H2].
      destruct (decide (q = a)) as [->|Hne]; [|by rewrite lookup_delete_ne].
      rewrite lookup_delete_eq. split; [|done]. intros Hs. by destruct (H1 Hs).
    + intros q Hq. left. unfold objects in *. cbn in Hq.
      destruct (decide (q = a)) as [->|Hne]; [tauto|by rewrite lookup_delete_ne in Hq].
  - apply (k_held _ _ _ _ K). right. right. by right.
  - destruct (Hone a) as [H1 H2]. intros [Hq|[Hs|[Hs|Hs]]].
    + apply (Hn a Hq). right. by right.
    + destruct (H1 Hs) as [_ ?]. destruct Ha. congruence.
    + specialize (H2 Hs). destruct Ha. congruence.
    + cbn in Hs. rewrite lookup_delete_eq in Hs. by destruct Hs.
Qed.

Lemma kfree_obj W Y s a s' : kinv ∅ W Y s -> allocated (kheap_st s) a -> ~ vm_held s a ->
  kfree a s = Done tt s' -> kinv ∅ W Y s' /\ orel s s' /\ kobjs s' = kobjs s.
Proof.
  intros K Ha Hh H.
  destruct (kfree_inv (FL := kstate_free_laws ∅) W Y s a s' tt K Hh Ha H) as (K' & R & _ & _).
  split; [done|]. split; [by apply orel_krel|].
  by destruct (r_same _ _ R) as (_ & _ & _ & _ & _ & _ & _ & _ & ? & _).
Qed.

Lemma free_obj_inv W Y s a s' : kinv ∅ W Y s -> is_Some (kobjs s !! a) -> free_obj a s = Done tt s' ->
  kinv ∅ W Y s' /\ orel s s' /\ kobjs s' = delete a (kobjs s).
Proof.
  intros K Ha H. unfold free_obj in H. mgo H.
  destruct (kinv_del_obj ∅ W Y s a K Ha) as (K0 & Hal & Hnh).
  exact (kfree_obj W Y _ a s' K0 Hal Hnh H).
Qed.

(** An object made in one block: [kstrdup] and [wchan_create]. *)
Definition one_block (W Y : gset Z) (s : kstate) (o : kobj) (r : Z) (s' : kstate) : Prop :=
  kinv ∅ W Y s' /\ orel s s' /\
  (r = 0 /\ kobjs s' = kobjs s \/ r <> 0 /\ ~ objects s r /\ kobjs s' = <[r := o]> (kobjs s)).

Lemma alloc_object W Y s sz o r s' : kinv ∅ W Y s -> 0 <= sz < LARGEST_SUBPAGE_SIZE ->
  (z ← kmalloc sz; if z =? 0 then mret 0 else put_obj z o;; mret z) s = Done r s' ->
  one_block W Y s o r s'.
Proof.
  intros K Hsz H. mgo H.
  destruct (kmalloc_obj W Y s sz _ _ K Hsz E) as (K1 & R1 & Ho & Hr).
  destruct (Z.eqb_spec ret 0) as [->|Hne]; mgo H; [by split_and!; try left|].
  destruct Hr as [?|(_ & Hal & Hnh & Hno)]; [done|]. unfold put_obj in E0. mgo E0. split_and!.
  - apply kinv_put_obj; [done|by left].
  - by apply orel_put.
  - right. split_and!; [done|done|by cbn; rewrite Ho].
Qed.

Lemma kstrdup_inv W Y s str r s' : kinv ∅ W Y s -> Z.of_nat (String.length str) < 2047 ->
  kstrdup str s = Done r s' -> one_block W Y s (KString str) r s'.
Proof. intros K Hlen. apply alloc_object; [done|unfold LARGEST_SUBPAGE_SIZE; lia]. Qed.
Lemma wchan_create_inv W Y s name r s' : kinv ∅ W Y s ->
  wchan_create name s = Done r s' -> one_block W Y s (KWchan name) r s'.
Proof. intros K. by apply alloc_object. Qed.

(** [sem_create], [lock_create] and [cv_create]: three new objects, or none. *)
Definition three_blocks (W Y : gset Z) (s : kstate) (mk : Z -> Z -> kobj) (name : string) (r : Z)
    (s' : kstate) : Prop :=
  kinv ∅ W Y s' /\ orel s s' /\
  (r = 0 /\ kobjs s' = kobjs s \/
   r <> 0 /\ exists n w, NoDup [r; n; w] /\ Forall (fun a => ~ objects s a) [r; n; w] /\
     kobjs s' = <[r := mk n w]> (<[w := KWchan n]> (<[n := KString name]> (kobjs s)))).

Lemma synch_create_inv W Y s size mk name r s' : kinv ∅ W Y s -> 0 <= size < LARGEST_SUBPAGE_SIZE ->
  Z.of_nat (String.length name) < 2047 -> synch_create size mk name s = Done r s' ->
  three_blocks W Y s mk name r s'.
Proof.
  intros K Hsz Hlen H. unfold synch_create in H. mgo H.
  destruct (kmalloc_obj W Y s _ _ _ K Hsz E) as (K1 & R1 & O1 & Hr).
  destruct (Z.eqb_spec ret 0) as [->|Hne]; mgo H; [by split_and!; try left|].
  destruct Hr as [?|(_ & Hal & Hnh & Hno)]; [done|]. unfold put_obj in E0. mgo E0.
  pose proof (kinv_put_obj ∅ W Y s0 ret KRaw K1 (or_introl (conj Hal Hnh))) as K2.
  assert (Hfresh : kobjs s !! ret = None) by (apply eq_None_not_Some; intros ?; apply Hno; right; by right).
  apply (orel_put _ _ ret KRaw) in R1. set (sr := set_kobjs _ s0) in *.
  assert (O2 : kobjs sr = <[ret := KRaw]> (kobjs s)) by (cbn; by rewrite O1).
  destruct (kstrdup_inv W Y sr _ _ _ K2 Hlen E1) as (K3 & R3 & Hr3). rewrite O2 in Hr3.
  assert (R13 := orel_trans _ _ _ R1 R3).
  destruct Hr3 as [[-> O3]|(Hn0 & Hnn & O3)].
  { rewrite Z.eqb_refl in H. mgo H.
    destruct (free_obj_inv W Y _ ret _ K3 ltac:(rewrite O3, lookup_insert_eq; eauto) E0) as (K4 & R4 & O4).
    split_and!; [done|by eapply orel_trans|left; split; [done|]]. rewrite O4, O3. by apply delete_insert_id. }
  rewrite (proj2 (Z.eqb_neq _ _) Hn0) in H. mgo H.
  assert (Hnr : ret0 <> ret) by (intros ->; apply Hnn; right; right; rewrite O2, lookup_insert_eq; eauto).
  assert (Hno0 : ~ objects s ret0).
  { intros Ho. apply Hnn, (orel_objects _ _ _ R1); [|done]. by rewrite O2, lookup_insert_ne. }
  destruct (wchan_create_inv W Y _ ret0 _ _ K3 E0) as (K5 & R5 & Hr5). rewrite O3 in Hr5.
  assert (R15 := orel_trans _ _ _ R13 R5).
  destruct Hr5 as [[-> O5]|(Hw0 & Hwn & O5)].
  { rewrite Z.eqb_refl in H. mgo H.
    destruct (free_obj_inv W Y _ ret0 _ K5 ltac:(rewrite O5, lookup_insert_eq; eauto) E2) as (K6 & R6 & O6).
    assert (Hf0 : (<[ret := KRaw]> (kobjs s)) !! ret0 = None).
    { rewrite lookup_insert_ne by done. apply eq_None_not_Some. intros ?. apply Hno0. right. by right. }
    rewrite O5, (delete_insert_id _ _ _ Hf0) in O6.
    destruct (free_obj_inv W Y _ ret _ K6 ltac:(rewrite O6, lookup_insert_eq; eauto) E3) as (K7 & R7 & O7).
    split_and!; [done|by do 2 (eapply orel_trans; [eassumption|])|left; split; [done|]].
    rewrite O7, O6. by apply delete_insert_id. }
  rewrite (proj2 (Z.eqb_neq _ _) Hw0) in H. mgo H. unfold put_obj in E2. mgo E2.
  assert (Hwr : ret1 <> ret).
  { intros ->. apply Hwn. right. right. rewrite O3, lookup_insert_ne, lookup_insert_eq by done. eauto. }
  assert (Hwn0 : ret1 <> ret0) by (intros ->; apply Hwn; right; right; rewrite O3, lookup_insert_eq; eauto).
  assert (Hno1 : ~ objects s ret1).
  { intros Ho. apply Hwn, (orel_objects _ _ _ R13); [|done]. by rewrite O3, !lookup_insert_ne. }
  assert (Hin : kobjs s1 !! ret = Some KRaw).
  { rewrite O5, !lookup_insert_ne, lookup_insert_eq by done. done. }
  split_and!; [apply kinv_put_obj; [done|right; by rewrite Hin]|by apply orel_put|right].
  split; [done|]. exists ret0, ret1. split_and!.
  - repeat constructor; rewrite ?elem_of_cons, ?elem_of_nil; intuition congruence.
  - by repeat constructor.
  - cbn. rewrite O5. apply map_eq. intros q.
    destruct (decide (q = ret)) as [->|]; [by rewrite !lookup_insert_eq|].
    rewrite !(lookup_insert_ne _ ret) by done.
    destruct (decide (q = ret1)) as [->|]; [by rewrite !lookup_insert_eq|].
    rewrite !(lookup_insert_ne _ ret1) by done.
    destruct (decide (q = ret0)) as [->|]; [by rewrite !lookup_insert_eq|].
    by rewrite !lookup_insert_ne.
Qed.

Lemma lock_create_inv W Y s name r s' : kinv ∅ W Y s -> Z.of_nat (String.length name) < 2047 ->
  lock_create name s = Done r s' -> three_blocks W Y s KLock name r s'.
Proof. intros K Hl H. by apply (synch_create_inv W Y s SIZEOF_LOCK). Qed.
Lemma cv_create_inv W Y s name r s' : kinv ∅ W Y s -> Z.of_nat (String.length name) < 2047 ->
  cv_create name s = Done r s' -> three_blocks W Y s KCv name r s'.
Proof. intros K Hl H. by apply (synch_create_inv W Y s SIZEOF_CV). Qed.

(** ** Groups of new objects *)

(** The map with the bindings of [l] added. *)
Definition inserted (l : list (Z * kobj)) (m : gmap Z kobj) : gmap Z kobj :=
  foldr (fun kv m => <[fst kv := snd kv]> m) m l.
Definition fresh_keys (l : list (Z * kobj)) (m : gmap Z kobj) : Prop :=
  NoDup (fst <$> l) /\ Forall (fun k => m !! k = None) (fst <$> l).

Lemma inserted_ne l m q : q ∉ fst <$> l -> inserted l m !! q = m !! q.
Proof.
  induction l as [|[k o] l IH]; [done|]. rewrite fmap_cons, not_elem_of_cons. intros [Hne Hl].
  cbn. rewrite lookup_insert_ne by (by apply not_eq_sym). by apply IH.
Qed.

Lemma inserted_Some l m k o : NoDup (fst <$> l) -> (k, o) ∈ l -> inserted l m !! k = Some o.
Proof.
  induction l as [|[k' o'] l IH]; [by intros _ ?%not_elem_of_nil|]. rewrite fmap_cons, NoDup_cons.
  intros [Hk Hnd] [[= -> ->]|Hin]%elem_of_cons; cbn; [by rewrite lookup_insert_eq|].
  rewrite lookup_insert_ne; [by apply IH|]. intros ->. apply Hk. cbn.
  change k with (fst (k, o)). by apply list_elem_of_fmap_2.
Qed.

Lemma fresh_keys_app l1 l2 m : fresh_keys l1 m -> fresh_keys l2 (inserted l1 m) ->
  fresh_keys (l2 ++ l1) m /\ inserted (l2 ++ l1) m = inserted l2 (inserted l1 m).
Proof.
  intros [Hn1 Hf1] [Hn2 Hf2]. split; [|by unfold inserted; rewrite foldr_app].
  rewrite Forall_forall in Hf1, Hf2.
  assert (Hdis : forall k, k ∈ fst <$> l2 -> k ∉ fst <$> l1).
  { intros k Hk Hk1. specialize (Hf2 k Hk). apply list_elem_of_fmap in Hk1 as ([k' o'] & -> & Hin).
    by rewrite (inserted_Some _ _ _ o' Hn1 Hin) in Hf2. }
  unfold fresh_keys. rewrite fmap_app. split; [by apply NoDup_app|].
  rewrite Forall_forall. intros k [Hk|Hk]%elem_of_app; [|by apply Hf1].
  rewrite <- (inserted_ne l1) by (by apply Hdis). by apply Hf2.
Qed.

(** Three new objects of [synch_create] as such a group. *)
Lemma three_blocks_fresh W Y s mk name r s' : three_blocks W Y s mk name r s' -> r <> 0 ->
  exists n w, let l := [(r, mk n w); (w, KWchan n); (n, KString name)] in
    fresh_keys l (kobjs s) /\ kobjs s' = inserted l (kobjs s).
Proof.
  intros (_ & _ & [[? _]|(_ & n & w & Hnd & Hno & Ho)]) Hr; [done|]. exists n, w.
  split; [|exact Ho]. split.
  - cbn. rewrite !NoDup_cons, !not_elem_of_cons in Hnd |- *. pose proof (NoDup_nil_2 (A := Z)).
    pose proof (not_elem_of_nil r). pose proof (not_elem_of_nil n). pose proof (not_elem_of_nil w).
    destruct_and! Hnd. repeat split; try done; congruence.
  - cbn. rewrite !Forall_cons in Hno |- *. destruct_and! Hno.
    assert (forall a, ~ objects s a -> kobjs s !! a = None).
    { intros a Ha. apply eq_None_not_Some. intros ?. apply Ha. right. by right. }
    repeat split; try (by apply Forall_nil); auto.
Qed.

(** ** Creating a process *)

Lemma update_proc_Done a f s u s' : update_proc a f s = Done u s' ->
  exists p, procs s !! a = Some p /\ s' = set_procs (<[a := f p]> (procs s)) s.
Proof. intros H. unfold update_proc, get_proc, put_proc in H. mgo H. eauto. Qed.

(** Ending the life of a process structure. *)
Lemma kinv_del_proc P W Y s a : kinv P W Y s -> is_Some (procs s !! a) ->
  let s' := set_procs (delete a (procs s)) s in
  kinv P W Y s' /\ allocated (kheap_st s) a /\ ~ vm_held s' a.
Proof.
  intros K Ha s'. destruct (k_nodes _ _ _ _ K) as (_ & Hone & Hn). split_and!.
  - change s' with
      (set_segtabs (segtabs s) (set_procs (delete a (procs s)) (set_curproc (curproc s)
        (set_kobjs (kobjs s) (set_pid_table (pid_table s) (set_kproc (kproc s) s)))))).
    apply (kinv_objects P W Y s); [done|..].
    + intros q. cbn. destruct (Hone q) as [H1 H2].
      destruct (decide (q = a)) as [->|Hne]; [|by rewrite lookup_delete_ne].
      rewrite lookup_delete_eq. split; [|by intros []]. intros Hs. by destruct (H1 Hs).
    + intros q Hq. left. unfold objects in *. cbn in Hq.
      destruct (decide (q = a)) as [->|Hne]; [tauto|by rewrite lookup_delete_ne in Hq].
  - apply (k_held _ _ _ _ K). right. right. by left.
  - destruct (Hone a) as [H1 H2]. intros [Hq|[Hs|[Hs|Hs]]].
    + apply (Hn a Hq). right. by left.
    + destruct (H1 Hs) as [? _]. destruct Ha. congruence.
    + cbn in Hs. rewrite lookup_delete_eq in Hs. by destruct Hs.
    + specialize (H2 Ha). cbn in Hs. rewrite H2 in Hs. by destruct Hs.
Qed.

Lemma free_proc_inv W Y s a s' : kinv ∅ W Y s -> is_Some (procs s !! a) -> free_proc a s = Done tt s' ->
  kinv ∅ W Y s' /\ orel (set_procs (delete a (procs s)) s) s' /\ kobjs s' = kobjs s.
Proof.
  intros K Ha H. unfold free_proc in H. mgo H.
  destruct (kinv_del_proc ∅ W Y s a K Ha) as (K0 & Hal & Hnh).
  exact (kfree_obj W Y _ a s' K0 Hal Hnh H).
Qed.

(** The state while [proc_create] fills in the structure at [a]. *)
Definition creating (W Y : gset Z) (s : kstate) (a : Z) (p : proc) (si : kstate) : Prop :=
  kinv ∅ W Y si /\ krelo s si /\ procs si = <[a := p]> (procs s) /\ curproc si = curproc s /\
  pid_table si = pid_table s /\ kproc si = kproc s.

Lemma creating_update W Y s a p si f u si' : creating W Y s a p si -> update_proc a f si = Done u si' ->
  creating W Y s a (f p) si' /\ kobjs si' = kobjs si.
Proof.
  intros (K & R & Hp & Hc & Ht & Hk) H. apply update_proc_Done in H as (p0 & Hp0 & ->).
  assert (p0 = p) as -> by (rewrite Hp, lookup_insert_eq in Hp0; congruence).
  split; [|done]. split_and!; try done; [|cbn; by rewrite Hp, insert_insert_eq].
  apply kinv_put_proc; [done|right]. rewrite Hp0. eauto.
Qed.
Lemma creating_orel W Y s a p si si' : creating W Y s a p si -> kinv ∅ W Y si' -> orel si si' ->
  creating W Y s a p si'.
Proof.
  intros (K & R & Hp & Hc & Ht & Hk) K' [R' (P1 & P2 & P3 & P4)].
  split_and!; try congruence. by eapply krelo_trans.
Qed.

Lemma creating_free_obj W Y s a p si q si' : creating W Y s a p si -> is_Some (kobjs si !! q) ->
  free_obj q si = Done tt si' -> creating W Y s a p si' /\ kobjs si' = delete q (kobjs si).
Proof.
  intros C Hq H. destruct (free_obj_inv W Y si q si' (proj1 C) Hq H) as (K & R & O).
  split; [by eapply creating_orel|done].
Qed.

(** Nothing is left of a process that could not be created. *)
Definition not_created (W Y : gset Z) (s s' : kstate) : Prop :=
  kinv ∅ W Y s' /\ krelo s s' /\ same_procs s s'.

Lemma creating_free W Y s a p si si' : creating W Y s a p si -> procs s !! a = None ->
  free_proc a si = Done tt si' -> not_created W Y s si'.
Proof.
  intros (K & R & Hp & Hc & Ht & Hk) Ha H.
  destruct (free_proc_inv W Y si a si' K) as (K' & [R' (P1 & P2 & P3 & P4)] & _); [|exact H|].
  { rewrite Hp, lookup_insert_eq. eauto. }
  cbn [procs curproc pid_table kproc set_procs] in P1, P2, P3, P4.
  split; [done|]. split; [exact (krelo_trans _ _ _ R R')|].
  split_and!; try congruence. rewrite P1, Hp. by apply delete_insert_id.
Qed.

(** The first free slot of the process table. *)
Definition first_free (table : list Z) (i : nat) : Prop :=
  table !! i = Some 0 /\ (i < Z.to_nat TABLE_SIZE)%nat /\
  forall j q, (j < i)%nat -> table !! j = Some q -> q <> 0.

Lemma proc_assign_pid_spec W Y s a p si u si' : creating W Y s a p si ->
  proc_assign_pid a si = Done u si' ->
  (exists i, first_free (pid_table s) i /\ kinv ∅ W Y si' /\ krelo s si' /\
     procs si' = <[a := set_p_pid (Z.of_nat i + 1) p]> (procs s) /\ curproc si' = curproc s /\
     pid_table si' = <[i := a]> (pid_table s) /\ kproc si' = kproc s /\ kobjs si' = kobjs si) \/
  creating W Y s a (set_p_pid (-1) p) si'.
Proof.
  intros Hcr H. unfold proc_assign_pid in H. mgo H.
  destruct (creating_update _ _ _ _ _ _ _ _ _ Hcr E) as [Hcr1 O1].
  destruct (list_find _ _) as [[i x]|] eqn:Hf; mgo H; [left|by right].
  apply list_find_Some in Hf as (Hi & -> & Hmin). apply lookup_take_Some in Hi as [Hi Hlt].
  destruct (creating_update _ _ _ _ _ _ _ _ _ Hcr1 E0) as [(K2 & R2 & P2 & C2 & T2 & D2) O2].
  destruct Hcr1 as (_ & _ & _ & _ & Ht & _). rewrite Ht in *. exists i. split_and!; try done.
  - split_and!; [done|done|]. intros j q Hj Hq. apply (Hmin j); [|done]. apply lookup_take_Some. split; [done|lia].
  - exact (kinv_set_cur ∅ W Y s1 (curproc s1) _ (kproc s1) K2).
  - cbn. congruence.
Qed.

(** The new process as [proc_create] leaves it, and its name, condition variable and
    lock, seven objects that were not there before. *)
Definition process_objects (p : proc) (name : string) (n1 w1 n2 w2 : Z) : list (Z * kobj) :=
  [(p_cv_lock p, KLock n2 w2); (w2, KWchan n2); (n2, KString name);
   (p_cv p, KCv n1 w1); (w1, KWchan n1); (n1, KString name); (p_name p, KString name)].
Definition new_process (s s' : kstate) (name : string) (i : nat) (p : proc) : Prop :=
  p_pid p = Z.of_nat i + 1 /\ p_numthreads p = 0 /\ p_addrspace p = 0 /\ p_cwd p = 0 /\
  p_status_set p = false /\
  exists n1 w1 n2 w2, fresh_keys (process_objects p name n1 w1 n2 w2) (kobjs s) /\
    kobjs s' = inserted (process_objects p name n1 w1 n2 w2) (kobjs s).

(** A new process at [r], or nothing. *)
Definition created (W Y : gset Z) (s : kstate) (name : string) (r : Z) (s' : kstate) : Prop :=
  r = 0 /\ not_created W Y s s' \/
  r <> 0 /\ ~ objects s r /\ kinv ∅ W Y s' /\ krelo s s' /\ curproc s' = curproc s /\ kproc s' = kproc s /\
  (exists i p, first_free (pid_table s) i /\ pid_table s' = <[i := r]> (pid_table s) /\
     procs s' = <[r := p]> (procs s) /\ new_process s s' name i p).

Lemma proc_create_waitpid_spec W Y s a p si name r s' : creating W Y s a p si -> ~ objects s a -> a <> 0 ->
  kobjs s !! p_name p = None -> kobjs si = <[p_name p := KString name]> (kobjs s) ->
  Z.of_nat (String.length name) < 2047 -> p_numthreads p = 0 -> p_addrspace p = 0 -> p_cwd p = 0 ->
  proc_create_waitpid a (p_name p) si = Done r s' -> created W Y s name r s'.
Proof.
  intros C1 Hno Ha Hnone Hsi Hlen Hn1 Hn2 Hn3 H. unfold proc_create_waitpid in H. mgo H.
  assert (Hfresh : procs s !! a = None) by (apply eq_None_not_Some; intros ?; apply Hno; right; by left).
  assert (Hname : kobjs si !! p_name p = Some (KString name)) by (by rewrite Hsi, lookup_insert_eq).
  unfold get_string, get_obj in E. mgo E. rewrite Hname in E2. injection E2 as <-. injection E as <-.
  pose proof (cv_create_inv W Y _ _ _ _ (proj1 C1) Hlen E0) as Hcv.
  pose proof Hcv as (K2 & R2 & Ocv). pose proof (creating_orel _ _ _ _ _ _ _ C1 K2 R2) as C2.
  destruct (creating_update _ _ _ _ _ _ _ _ _ C2 E1) as [C3 O3].
  destruct (Z.eqb_spec ret0 0) as [->|Hcv0]; mgo H.
  { left. split; [done|]. destruct Ocv as [[_ Ocv]|[? _]]; [|done]. rewrite Ocv in O3.
    destruct (creating_free_obj _ _ _ _ _ _ _ _ C3 ltac:(rewrite O3, Hname; eauto) E) as [C4 _].
    by eapply creating_free. }
  destruct (three_blocks_fresh _ _ _ _ _ _ _ Hcv Hcv0) as (n1 & w1 & F1 & O1). rewrite <- O3 in O1.
  pose proof (lock_create_inv W Y _ _ _ _ (proj1 C3) Hlen E) as Hlk.
  pose proof Hlk as (K4 & R4 & Olk). pose proof (creating_orel _ _ _ _ _ _ _ C3 K4 R4) as C4.
  destruct (creating_update _ _ _ _ _ _ _ _ _ C4 E2) as [C5 O5].
  destruct (Z.eqb_spec ret 0) as [->|Hlk0]; mgo H.
  { left. split; [done|]. destruct Olk as [[_ Olk]|[? _]]; [|done]. rewrite Olk in O5.
    assert (G1 : kobjs s2 !! ret0 = Some (KCv n1 w1)) by (rewrite O1; apply inserted_Some; [apply F1|left]).
    assert (G2 : kobjs s2 !! p_name p = Some (KString name)).
    { rewrite O1, inserted_ne; [done|]. destruct F1 as [_ F1]. rewrite Forall_forall in F1. intros Hin.
      specialize (F1 _ Hin). congruence. }
    destruct (creating_free_obj _ _ _ _ _ _ _ _ C5 ltac:(rewrite O5, G1; eauto) E3) as [C6 O6].
    assert (p_name p <> ret0) by congruence.
    destruct (creating_free_obj _ _ _ _ _ _ (p_name p) s5 C6) as [C7 _]; [|exact E4|by eapply creating_free].
    rewrite O6, O5, lookup_delete_ne, G2 by done. eauto. }
  destruct (three_blocks_fresh _ _ _ _ _ _ _ Hlk Hlk0) as (n2 & w2 & F2 & O2). rewrite <- O5, O1 in O2.
  rewrite O1 in F2. destruct (creating_update _ _ _ _ _ _ _ _ _ C5 E3) as [C6 O6].
  unfold get_proc in E5. mprim.
  destruct (proc_assign_pid_spec _ _ _ _ _ _ _ _ C6 E4)
    as [(i & Hi & K7 & R7 & P7 & Hc7 & T7 & Hk7 & O7)|(_ & _ & P7 & _)];
    rewrite P7, lookup_insert_eq in E5; injection E5 as <-; cbn in H; mprim.
  rewrite (proj2 (Z.ltb_ge _ _)) in H by lia. mprim. right. rewrite O6, O2, Hsi in O7. rewrite Hsi in F1, F2.
  assert (F0 : fresh_keys [(p_name p, KString name)] (kobjs s)).
  { split; cbn; [apply NoDup_singleton|by apply Forall_singleton]. }
  destruct (fresh_keys_app _ _ _ F0 F1) as [F01 I01]. change (<[p_name p := KString name]> (kobjs s)) with
    (inserted [(p_name p, KString name)] (kobjs s)) in F2, O7. rewrite <- I01 in F2, O7.
  destruct (fresh_keys_app _ _ _ F01 F2) as [F02 I02]. rewrite <- I02 in O7.
  split_and!; try done.
  exists i, (set_p_pid (Z.of_nat i + 1) (set_p_status_set false (set_p_cv_lock ret (set_p_cv ret0 p)))).
  split_and!; try done. split_and!; try done. by exists n1, w1, n2, w2.
Qed.

Lemma proc_create_spec W Y s junk name r s' : kinv ∅ W Y s -> Z.of_nat (String.length name) < 2047 ->
  proc_create junk name s = Done r s' -> created W Y s name r s'.
Proof.
  intros K Hlen H. unfold proc_create in H. mgo H.
  destruct (kmalloc_obj W Y s SIZEOF_PROC _ _ K ltac:(done) E) as (K1 & R1 & O1 & Hr).
  destruct (Z.eqb_spec ret 0) as [->|Hne]; mgo H; [left; split; [done|]; by destruct R1|].
  destruct Hr as [?|(_ & Hal & Hnh & Hno)]; [done|]. unfold put_proc in E0. mgo E0.
  assert (Hfresh : procs s !! ret = None) by (apply eq_None_not_Some; intros ?; apply Hno; right; by left).
  assert (C1 : creating W Y s ret junk (set_procs (<[ret := junk]> (procs s0)) s0)).
  { destruct R1 as [Rk (P1 & P2 & P3 & P4)]. split_and!; try done; [|cbn; by rewrite P1].
    apply kinv_put_proc; [done|by left]. }
  set (sa := set_procs _ s0) in *. assert (Oa : kobjs sa = kobjs s) by exact O1.
  destruct (kstrdup_inv W Y sa _ _ _ (proj1 C1) Hlen E1) as (K2 & R2 & Hr2). rewrite Oa in Hr2.
  pose proof (creating_orel _ _ _ _ _ _ _ C1 K2 R2) as C2.
  destruct (creating_update _ _ _ _ _ _ _ _ _ C2 E2) as [C3 O3].
  destruct (Z.eqb_spec ret0 0) as [->|Hn0]; mgo H; [left; split; [done|]; by eapply creating_free|].
  destruct Hr2 as [[? _]|(_ & Hnn & O2)]; [done|].
  destruct (creating_update _ _ _ _ _ _ _ _ _ C3 E0) as [C4 O4]. rewrite O3, O2 in O4.
  eapply (proc_create_waitpid_spec _ _ _ _ _ _ _ _ _ C4); try done.
  cbn. apply eq_None_not_Some. intros ?. apply Hnn. right. right. by rewrite Oa.
Qed.

(** ** Destroying a process *)

(** The three objects of a lock or condition variable. *)
Lemma free_three W Y s a n w s' : kinv ∅ W Y s ->
  is_Some (kobjs s !! a) -> is_Some (kobjs s !! n) -> is_Some (kobjs s !! w) -> NoDup [a; n; w] ->
  (free_obj w;; free_obj n;; free_obj a) s = Done tt s' ->
  kinv ∅ W Y s' /\ orel s s' /\ kobjs s' = delete a (delete n (delete w (kobjs s))).
Proof.
  intros K Ha Hn Hw Hnd H. mgo H. rewrite !NoDup_cons, !not_elem_of_cons in Hnd.
  destruct Hnd as ((Han & Haw & _) & (Hnw & _) & _).
  destruct (free_obj_inv W Y s w _ K Hw E) as (K1 & R1 & O1).
  destruct (free_obj_inv W Y _ n _ K1 ltac:(by rewrite O1, lookup_delete_ne) E0) as (K2 & R2 & O2).
  destruct (free_obj_inv W Y _ a _ K2 ltac:(by rewrite O2, O1, !lookup_delete_ne) H) as (K3 & R3 & O3).
  split_and!; [done|by do 2 (eapply orel_trans; [eassumption|])|by rewrite O3, O2, O1].
Qed.

Lemma cv_destroy_inv W Y s a n w s' : kinv ∅ W Y s -> kobjs s !! a = Some (KCv n w) ->
  is_Some (kobjs s !! n) -> is_Some (kobjs s !! w) -> NoDup [a; n; w] -> cv_destroy a s = Done tt s' ->
  kinv ∅ W Y s' /\ orel s s' /\ kobjs s' = delete a (delete n (delete w (kobjs s))).
Proof.
  intros K Ha Hn Hw Hnd H. unfold cv_destroy, get_obj, wchan_destroy in H. mgo H.
  rewrite Ha in E0. injection E0 as <-. injection E1 as <-. 
  eapply free_three; try done.
Qed.
Lemma lock_destroy_inv W Y s a n w s' : kinv ∅ W Y s -> kobjs s !! a = Some (KLock n w) ->
  is_Some (kobjs s !! n) -> is_Some (kobjs s !! w) -> NoDup [a; n; w] -> lock_destroy a s = Done tt s' ->
  kinv ∅ W Y s' /\ orel s s' /\ kobjs s' = delete a (delete n (delete w (kobjs s))).
Proof.
  intros K Ha Hn Hw Hnd H. unfold lock_destroy, get_obj, wchan_destroy in H. mgo H.
  rewrite Ha in E0. injection E0 as <-. injection E1 as <-. 
  eapply free_three; try done.
Qed.

(** The process has its seven objects to itself. *)
Definition owns_objects (s : kstate) (p : proc) (name : string) (n1 w1 n2 w2 : Z) : Prop :=
  let l := process_objects p name n1 w1 n2 w2 in
  NoDup (fst <$> l) /\ forall k o, (k, o) ∈ l -> kobjs s !! k = Some o.

(** The objects without those of [l]. *)
Definition without (l : list (Z * kobj)) (m : gmap Z kobj) : gmap Z kobj :=
  foldr (fun kv m => delete (fst kv) m) m l.

Lemma lookup_without l m q : without l m !! q = if decide (q ∈ fst <$> l) then None else m !! q.
Proof.
  induction l as [|[k o] l IH]; [by rewrite decide_False by apply not_elem_of_nil|].
  change (without ((k, o) :: l) m) with (delete k (without l m)). rewrite fmap_cons. cbn [fst].
  destruct (decide (q = k)) as [->|Hne].
  - rewrite lookup_delete_eq. by rewrite decide_True by left.
  - rewrite lookup_delete_ne by done. rewrite IH. repeat case_decide; try done; rewrite elem_of_cons in *; naive_solver.
Qed.

Lemma without_inserted l m : fresh_keys l m -> without l (inserted l m) = m.
Proof.
  intros [_ Hf]. rewrite Forall_forall in Hf. apply map_eq. intros q.
  rewrite lookup_without. case_decide as Hq; [by rewrite Hf|by apply inserted_ne].
Qed.

Lemma without_ext l1 l2 m : (forall q, q ∈ fst <$> l1 <-> q ∈ fst <$> l2) -> without l1 m = without l2 m.
Proof.
  intros H. apply map_eq. intros q. rewrite !lookup_without. repeat case_decide; try done; naive_solver.
Qed.

Lemma proc_destroy_spec W Y s a p name n1 w1 n2 w2 s' : kinv ∅ W Y s -> procs s !! a = Some p ->
  p_cwd p = 0 -> p_addrspace p = 0 -> owns_objects s p name n1 w1 n2 w2 ->
  proc_destroy a s = Done tt s' ->
  a <> kproc s /\ p_numthreads p = 0 /\ kinv ∅ W Y s' /\ krelo s s' /\
  procs s' = delete a (procs s) /\ curproc s' = curproc s /\ kproc s' = kproc s /\
  pid_table s' = <[Z.to_nat (p_pid p - 1) := 0]> (pid_table s) /\
  kobjs s' = without (process_objects p name n1 w1 n2 w2) (kobjs s).
Proof.
  intros K Hp Hcwd Has [Hnd Hown] H. unfold proc_destroy, get_proc in H. mgo H.
  rewrite Hp in E1. injection E1 as <-. rewrite Hcwd, Has, Z.eqb_refl in *. cbn [negb] in *. mprim.
  rewrite Hp in E4. injection E4 as <-. apply negb_true_iff, Z.eqb_neq in E0. apply Z.eqb_eq in E5.
  unfold process_objects in Hnd, Hown. cbn in Hnd. rewrite !NoDup_cons, !not_elem_of_cons in Hnd. destruct_and! Hnd.
  pose proof (Hown _ _ ltac:(left)) as Glk. pose proof (Hown _ _ ltac:(right; left)) as Gw2.
  pose proof (Hown _ _ ltac:(do 2 right; left)) as Gn2. pose proof (Hown _ _ ltac:(do 3 right; left)) as Gcv.
  pose proof (Hown _ _ ltac:(do 4 right; left)) as Gw1. pose proof (Hown _ _ ltac:(do 5 right; left)) as Gn1.
  pose proof (Hown _ _ ltac:(do 6 right; left)) as Gname.
  assert (Hnd3 : forall x y z : Z, x <> y -> x <> z -> y <> z -> NoDup [x; y; z]).
  { intros x y z ? ? ?. rewrite !NoDup_cons, !not_elem_of_cons.
    pose proof (NoDup_nil_2 (A := Z)). repeat split; try done; apply not_elem_of_nil. }
  destruct (cv_destroy_inv W Y s (p_cv p) n1 w1 s2 K Gcv) as (K2 & R2 & O2);
    [by rewrite Gn1|by rewrite Gw1|by apply Hnd3|exact E6|].
  destruct (lock_destroy_inv W Y s2 (p_cv_lock p) n2 w2 s3 K2) as (K3 & R3 & O3);
    [by rewrite O2, !lookup_delete_ne|by rewrite O2, !lookup_delete_ne, Gn2|by rewrite O2, !lookup_delete_ne, Gw2
    |by apply Hnd3|exact E7|].
  pose proof (orel_trans _ _ _ R2 R3) as [R23 (P3 & C3 & T3 & D3)].
  unfold proc_unassign_pid, get_proc in E8. mgo E8. rewrite P3, Hp in E1. injection E1 as <-.
  set (sp := set_pid_table _ s3) in *.
  pose proof (kinv_set_cur ∅ W Y s3 (curproc s3) (<[Z.to_nat (p_pid p - 1) := 0]> (pid_table s3)) (kproc s3) K3) as K4.
  change (kinv ∅ W Y sp) in K4.
  destruct (free_obj_inv W Y sp (p_name p) s5 K4) as (K5 & R5 & O5);
    [change (kobjs sp) with (kobjs s3); by rewrite O3, O2, !lookup_delete_ne, Gname|exact E9|].
  destruct R5 as [R5 (P5 & C5 & T5 & D5)].
  destruct (free_proc_inv W Y s5 a s' K5) as (K6 & [R6 (P6 & C6 & T6 & D6)] & O6);
    [rewrite P5; cbn; rewrite P3, Hp; eauto|exact H|].
  cbn [procs curproc pid_table kproc set_procs sp set_pid_table] in *.
  split_and!; try congruence.
  - eapply krelo_trans; [exact R23|]. eapply krelo_trans; [exact R5|exact R6].
  - rewrite O6, O5. change (kobjs sp) with (kobjs s3). rewrite O3, O2.
    apply (without_ext [(p_name p, KRaw); (p_cv_lock p, KRaw); (n2, KRaw); (w2, KRaw); (p_cv p, KRaw); (n1, KRaw); (w1, KRaw)]).
    intros q. cbn. rewrite !elem_of_cons. tauto.
Qed.

End ProcProofs.
End ProcProofs.
