(* ===== verification/FirstTouch.v ===== *)
(** * The first access to a page

    What a page contains after the fault that created it: zeros, or the bytes of the
    program file; and which counters of the statistics the fault increments. *)
From S2P Require Import Prelude Bitmap Vmstats Tlb Ram Segments Kmalloc KmallocProofs Machine Swapfile Coremap Vm.
From S2P Require Import VmInv Replacement FaultProofs.
Import Bitmap Vmstats Tlb Segments Kmalloc KmallocProofs Machine Swapfile Coremap Vm VmInv Replacement
  FaultProofs.

Module FirstTouch.
Section FirstTouch.
Context {VO : VnodeOps} {VL : VnodeLaws}.

(** No page of the address space is at [va] yet. *)
Definition untouched (s : kstate) (as_ va : Z) : Prop :=
  forall t j e, slot_of s as_ va = Some (t, j) -> pte s t j = Some e -> pte_valid e = false.

(** No page is there when there is no inner table. *)
Lemma untouched_no_table P W Y s as_ va j : kinv P W Y s -> slot_of s as_ va = Some (0, j) ->
  untouched s as_ va.
Proof.
  intros K Hs t' j' e Hs' He. rewrite Hs in Hs'. injection Hs' as <- <-.
  unfold pte in He. by rewrite (no_table_0 _ _ _ _ K) in He.
Qed.

(** All files but the swap file have the same bytes. *)
Definition files_kept (s s' : kstate) : Prop := forall v, v <> swapfile s ->
  fsize (fs s') v = fsize (fs s) v /\
  forall a, 0 <= a < fsize (fs s) v -> fbyte (fs s') v a = fbyte (fs s) v a.

(** What a new page holds, as the segment says. *)
Definition first_content (g : segment) (va : Z) (s s' : kstate) (pa : Z) : Prop :=
  (elf_file g = 0 -> forall k, 0 <= k < PAGE_SIZE -> pmem s' (pa + k) = 0) /\
  (elf_file g <> 0 -> elf_file g <> swapfile s -> reads_ok (elf_file g) -> page_of g va ->
     program_bytes g va (fs s) (fun k => pmem s' (pa + k))).

Lemma program_bytes_kept g va s s1 f : seg_ok g -> files_kept s s1 -> elf_file g <> swapfile s ->
  page_of g va -> program_bytes g va (fs s1) f -> program_bytes g va (fs s) f.
Proof.
  intros [Ho [Hs _]] Hk Hne Hpg Hp a Ha Hlt. destruct (Hk _ Hne) as [Hsz Hby].
  rewrite <- Hby by lia. apply Hp; [done|by rewrite Hsz].
Qed.

Lemma inner_pt_create_first W Y s as_ va s' : kinv ∅ W Y s -> inner_pt_create as_ va s = Done 0 s' ->
  files_kept s s' /\ untouched s' as_ va.
Proof.
  intros K H. unfold inner_pt_create in H. mgo H.
  destruct (kmalloc_large_inv (FL := kstate_free_laws ∅) W Y s
    (SIZEOF_PT_ENTRY * INNER_PT_SIZE) ret s0 K) as (R & _); [done|done|exact E0|].
  change (krel s s0) in R. destruct (Z.eqb_spec ret 0) as [|Hne]; mgo H; [done|].
  split; [exact (r_files _ _ R)|]. intros t j e Hs He. unfold slot_of in Hs.
  destruct (as_ =? 0); [done|]. cbn [addrspaces set_inner_pts set_addrspaces] in Hs.
  rewrite lookup_insert_eq in Hs. cbn [mbind option_bind] in Hs. cbn [as_page_table set_page_table] in Hs.
  destruct (decide (Z.to_nat (OUTER_PT_INDEX va) < length (as_page_table ret0))%nat) as [Hlt|Hge].
  - rewrite list_lookup_insert_eq in Hs by done. injection Hs as <- <-.
    unfold pte in He. cbn [inner_pts set_inner_pts] in He. rewrite lookup_insert_eq in He.
    cbn [mbind option_bind] in He. apply lookup_replicate in He as [-> _]. done.
  - rewrite (proj2 (lookup_ge_None _ _)) in Hs by (rewrite length_insert; lia). done.
Qed.

Lemma fault_map_first W Y s p g va w s' : kinv ∅ W Y s -> procs s !! curproc s = Some p ->
  seg_ok g -> untouched s (p_addrspace p) va -> fault_map g (p_addrspace p) va w s = Done 0 s' ->
  exists pa, first_content g va s s' pa /\
    forall t j e, slot_of s' (p_addrspace p) va = Some (t, j) -> pte s' t j = Some e -> pte_paddr e = pa.
Proof.
  intros K Hp Hg Hu H. unfold fault_map in H. mgo H.
  apply pt_get_Done in E as (-> & t & -> & Hslot). exists ret0.
  pose proof E1 as Hfp. unfold fault_page in E1. mstep E1. apply load_pte_Done in E as [He ->]. clear E1.
  pose proof (Hu _ _ _ Hslot He) as Hinv.
  destruct (fault_new_inv W Y s p g va t _ K Hp Hslot Hg ret ret0 s1 He Hinv Hfp)
    as ((_ & _ & Henv & e & He1 & _ & Hpa) & Hzero & Helf).
  unfold tlb_insert in H. mgo H. destruct ret1 as [[r tb] vs]. mgo H.
  split; [by split|]. destruct Henv as (Has & _). intros t' j' e' Hs' He'.
  unfold slot_of in Hs', Hslot. cbn [addrspaces set_hwtlb set_vms] in Hs'. rewrite Has, Hslot in Hs'.
  injection Hs' as <- <-. change (pte s1 t (Z.to_nat (INNER_PT_INDEX va)) = Some e') in He'. congruence.
Qed.

Lemma fault_handle_first W Y s p a tab g va s' : kinv ∅ W Y s -> segs_ok s ->
  procs s !! curproc s = Some p -> addrspaces s !! p_addrspace p = Some a ->
  segtabs s !! as_segments a = Some tab -> segments_find_segment tab va = Some g ->
  untouched s (p_addrspace p) va -> fault_handle va s = Done 0 s' ->
  exists pa, first_content g va s s' pa /\
    forall t j e, slot_of s' (p_addrspace p) va = Some (t, j) -> pte s' t j = Some e -> pte_paddr e = pa.
Proof.
  intros K Hsegs Hp Ha Htab Hf Hu H. unfold fault_handle in H. mgo H.
  destruct (Z.eqb_spec (curproc s) 0) as [|Hcur]; mgo H; [done|].
  apply proc_getas_Done in E as (-> & _ & Hgp). rewrite (Hgp p Hp Hcur) in *. clear Hgp.
  destruct (Z.eqb_spec (p_addrspace p) 0) as [|Has]; mgo H; [done|].
  unfold get_segments in E0. mprim. rewrite Ha in E. injection E as <-. rewrite Htab in E0. injection E0 as <-.
  rewrite Hf in H. mgo H. destruct (find_segment_elem _ _ _ Hf) as [Hin _].
  pose proof (Hsegs _ _ _ Htab Hin) as Hg. set (sf := set_vms _ s) in *.
  assert (K0 : kinv ∅ W Y sf)
    by (apply (kinv_env ∅ W Y s (pmem s) (fs s) (inc_tlbfaults (vms s)) (hwtlb s) K); lia).
  destruct (Z.eqb_spec ret1 0) as [->|]; cbn [negb] in H; mgo H; [|done].
  assert (Hmid : exists W', kinv ∅ W' Y s0 /\ procs s0 !! curproc s0 = Some p /\ swapfile s0 = swapfile s /\
    files_kept s s0 /\ untouched s0 (p_addrspace p) va).
  { destruct (Z.eqb_spec ret0 0) as [->|]; mgo E0.
    - destruct (inner_pt_create_inv W Y sf _ _ va _ _ K0 Ha E E0) as ((W' & _ & K1) & _ & _ & _ & Hpr & Hcu & Hsw & _).
      destruct (inner_pt_create_first W Y sf _ va s0 K0 E0) as [Hk Hun].
      exists W'. split_and!; try done. by rewrite Hpr, Hcu.
    - exists W. split_and!; try done. }
  destruct Hmid as (W' & K1 & Hp1 & Hsw & Hkept & Hun).
  destruct (fault_map_first W' Y s0 p g va (writable g) s' K1 Hp1 Hg Hun H) as (pa & [Hz Hpb] & Hpa).
  exists pa. split; [|done]. split; [done|]. intros Hne Hns Hro Hpg.
  apply (program_bytes_kept g va s s0); try done. apply Hpb; try done. by rewrite Hsw.
Qed.

(** ** Statistics *)

(** The counters but for the number of pages written out. *)
Definition same_counts (v v' : vmstats) : Prop := exists w, v' =
  mkVmstats (vms_tlbfaults v) (vms_tlbfaultsfree v) (vms_tlbfaultsreplace v)
    (vms_tlbinvalidations v) (vms_tlbreloads v) (vms_pagefaultszeroed v) (vms_pagefaultsdisk v)
    (vms_pagefaultself v) (vms_pagefaultsswapfile v) w.

Lemma same_counts_refl v : same_counts v v.
Proof. exists (vms_swapfilewrites v). by destruct v. Qed.
Lemma same_counts_trans v1 v2 v3 : same_counts v1 v2 -> same_counts v2 v3 -> same_counts v1 v3.
Proof. intros [w1 ->] [w2 ->]. by exists w2. Qed.

(** The one way in which the page was brought in. *)
Definition page_counted (v v' : vmstats) : Prop :=
  v' = inc_pagefaultszeroed v \/ v' = inc_pagefaultsdisk (inc_pagefaultself v) \/
  v' = inc_pagefaultsdisk (inc_pagefaultsswapfile v) \/ v' = inc_tlbreloads v.

(** A handled fault, from the TLB fault to the TLB entry, keeps the balance. *)
Lemma balanced_fault v v1 v2 v3 : balanced v -> same_counts (inc_tlbfaults v) v1 ->
  page_counted v1 v2 -> v3 = inc_tlbfaultsfree v2 \/ v3 = inc_tlbfaultsreplace v2 -> balanced v3.
Proof.
  intros (Ht & Hp & Hd) [w ->] Hpc Hin. unfold balanced, balanced_tlb, balanced_pf, balanced_disk in *.
  destruct v as [c1 c2 c3 c4 c5 c6 c7 c8 c9 c10]. cbn in *.
  destruct Hpc as [->|[->|[->| ->]]], Hin as [-> | ->]; cbn; split_and!; unfold u32 in *;
    Z.to_euclidean_division_equations; lia.
Qed.

Lemma coremap_alloc_counts W Y va s r s' : kinv ∅ W Y s -> coremap_alloc va s = Done r s' ->
  same_counts (vms s) (vms s').
Proof.
  intros K H. destruct (coremap_alloc_inv W Y va s r s' K H) as (p & i & sz & s2 & q & _ & _ & _ & R & -> & _).
  exact (r_stats _ _ R).
Qed.

Lemma pt_load_counts g va pa s r s' : reads_ok (elf_file g) -> pt_load g va pa s = Done r s' ->
  vms s' = inc_pagefaultsdisk (inc_pagefaultself (vms s)).
Proof.
  intros Hro H. unfold pt_load in H. mgo H.
  destruct (segments_before_load _ _ _ _ _) as [[p0 off] len]. mgo H.
  unfold load_page in E0. mstep E0. destruct ret0 as [er rs]. mprim. unfold VOP_READ_kernel in E1.
  destruct (vop_read _ _ _ _) as [[[er' rs'] d] f] eqn:Hv. injection E1 as -> -> <-.
  rewrite (Hro _ _ _ _ _ _ _ Hv) in H. cbn in H. mgo H. done.
Qed.

Lemma swapfile_readpage_counts pa i s r s' : reads_ok (swapfile s) -> swapfile_readpage pa i s = Done r s' ->
  vms s' = inc_pagefaultsdisk (inc_pagefaultsswapfile (vms s)).
Proof.
  intros Hro H. unfold swapfile_readpage in H. mgo H. destruct ret as [er rs]. unfold VOP_READ_kernel in E1.
  destruct (vop_read _ _ _ _) as [[[er' rs'] d] f] eqn:Hv. injection E1 as -> -> <-.
  rewrite (Hro _ _ _ _ _ _ _ Hv) in H. cbn in H. mgo H. done.
Qed.

Lemma inner_pt_create_counts W Y s as_ va r s' : kinv ∅ W Y s -> inner_pt_create as_ va s = Done r s' ->
  same_counts (vms s) (vms s').
Proof.
  intros K H. unfold inner_pt_create in H. mgo H.
  destruct (kmalloc_large_inv (FL := kstate_free_laws ∅) W Y s
    (SIZEOF_PT_ENTRY * INNER_PT_SIZE) ret s0 K) as (R & _); [done|done|exact E0|].
  change (krel s s0) in R. pose proof (r_stats _ _ R). destruct (ret =? 0); mgo H; done.
Qed.

Lemma fault_page_counts W Y g ptr va s pa s' : kinv ∅ W Y s -> reads_ok (swapfile s) ->
  (elf_file g <> 0 -> reads_ok (elf_file g)) -> fault_page g ptr va s = Done pa s' ->
  exists v, same_counts (vms s) v /\ page_counted v (vms s').
Proof.
  intros K Hro Helf H. unfold fault_page in H. destruct ptr as [t j]. mgo H.
  destruct (pte_valid ret) eqn:Hv; cbn [negb] in H; [destruct (pte_swapped ret) eqn:Hs|]; mgo H.
  - destruct (coremap_alloc_inv W Y va s _ _ K E0) as (p & i & sz & s2 & q & _ & _ & _ & R & -> & _).
    destruct (r_same _ _ R) as (_ & _ & _ & _ & _ & Hsw & _).
    exists (vms s2). split; [exact (r_stats _ _ R)|]. do 2 right. left.
    apply swapfile_readpage_counts in E2; [done|]. cbn. by rewrite Hsw.
  - exists (vms s). split; [apply same_counts_refl|]. by do 3 right.
  - exists (vms s0). split; [by eapply coremap_alloc_counts|]. unfold page_counted.
    destruct (Z.eqb_spec (elf_file g) 0) as [|Hne]; cbn [negb] in E2; mgo E2.
    + unfold bzero_kernel in E3. injection E3 as <-. by left.
    + right. left. by apply pt_load_counts in E4; [|by apply Helf].
Qed.

Lemma tlb_insert_counts va pa w s s' : tlb_insert va pa w s = Done 0 s' ->
  vms s' = inc_tlbfaultsfree (vms s) \/ vms s' = inc_tlbfaultsreplace (vms s).
Proof.
  intros H. unfold tlb_insert in H. mgo H. destruct ret as [[r tb] vs]. mgo H. cbn.
  unfold vmtlb_insert in E. mstep E. destruct ret as [i|]; [inv E; by left|].
  destruct (tlb_getrrvictim _) as [victim tb0]. destruct (victim =? -1); inv E; by right.
Qed.

Lemma fault_handle_counts W Y va s s' : kinv ∅ W Y s -> segs_ok s -> reads_ok (swapfile s) ->
  (forall x tab g, segtabs s !! x = Some tab -> g ∈ tab -> elf_file g <> 0 -> reads_ok (elf_file g)) ->
  fault_handle va s = Done 0 s' -> balanced (vms s) -> balanced (vms s').
Proof.
  intros K Hsegs Hro Helf H Hbal. unfold fault_handle in H. mgo H.
  destruct (Z.eqb_spec (curproc s) 0) as [|Hcur]; mgo H; [done|].
  apply proc_getas_Done in E as (-> & _). destruct (Z.eqb_spec ret 0) as [|Has]; mgo H; [done|].
  unfold get_segments in E0. mprim.
  destruct (segments_find_segment ret1 va) as [g|] eqn:Hf; mgo H; [|done].
  destruct (find_segment_elem _ _ _ Hf) as [Hin _]. set (sf := set_vms _ s) in *.
  assert (K0 : kinv ∅ W Y sf)
    by (apply (kinv_env ∅ W Y s (pmem s) (fs s) (inc_tlbfaults (vms s)) (hwtlb s) K); lia).
  destruct (Z.eqb_spec ret3 0) as [->|]; cbn [negb] in H; mgo H; [|done].
  assert (Hmid : exists W', kinv ∅ W' Y s0 /\ same_counts (vms sf) (vms s0) /\ swapfile s0 = swapfile s).
  { destruct (Z.eqb_spec ret2 0) as [->|]; mgo E2.
    - destruct (inner_pt_create_inv W Y sf _ _ va _ _ K0 E E1 E2) as ((W' & _ & K1) & _ & _ & _ & _ & _ & Hsw & _).
      exists W'. split_and!; try done. by eapply inner_pt_create_counts.
    - exists W. split_and!; try done. apply same_counts_refl. }
  destruct Hmid as (W' & K1 & Hc1 & Hsw). unfold fault_map in H. mgo H.
  apply pt_get_Done in E3 as (-> & t & -> & _).
  destruct (fault_page_counts W' Y g (t, INNER_PT_INDEX va) va s0 ret4 s2 K1) as (v & Hc2 & Hpc); [by rewrite Hsw|by eauto|exact E5|].
  apply tlb_insert_counts in H.
  eapply balanced_fault; [exact Hbal| |exact Hpc|exact H]. by eapply same_counts_trans.
Qed.

End FirstTouch.
End FirstTouch.
