(* ===== verification/Termination.v ===== *)
(** * The loops of the VM code end

    The loops of coremap.c are bounded by the length of the replacement queue: each
    turn that finds no room takes at least one node off it.  The fuel the model gives
    them is that length, so running out of fuel would be a loop that does not end. *)
From S2P Require Import Prelude Bitmap Vmstats Tlb Ram Segments Kmalloc KmallocProofs Machine Swapfile Coremap Vm.
From S2P Require Import VmInv Replacement FaultProofs.
Import Bitmap Vmstats Tlb Segments Kmalloc KmallocProofs Machine Swapfile Coremap Vm VmInv
  Replacement FaultProofs.

Module Termination.

(** ** The heap *)
Section Heap.
Context {S : Type} {HS : HeapState S} {FP : FreePages S} {AP : AllocPages S}.
Hypothesis free_terminates : forall p, terminates (free_kpages p).
Hypothesis alloc_terminates : forall n, terminates (alloc_kpages n).

Lemma modify_heap_terminates f : terminates (modify_heap f).
Proof. discriminate. Qed.
Lemma get_pageref_terminates a : terminates (get_pageref a).
Proof. intros s. apply terminates_deref. Qed.
Lemma get_root_terminates i : terminates (get_root i).
Proof. intros s. apply terminates_deref. Qed.
#[local] Hint Resolve modify_heap_terminates get_pageref_terminates get_root_terminates : terminates.

Lemma find_page_terminates p l : terminates (find_page p l).
Proof. induction l; cbn [find_page]; solve_terminates. Qed.
Lemma find_free_page_terminates t l : terminates (find_free_page t l).
Proof. induction l; cbn [find_free_page]; solve_terminates. Qed.
#[local] Hint Resolve find_page_terminates find_free_page_terminates : terminates.

Lemma kfree_terminates p : terminates (kfree p).
Proof. unfold kfree, subpage_kfree, remove_lists, freepageref, blocksize. solve_terminates. Qed.

Lemma kmalloc_terminates sz : terminates (kmalloc sz).
Proof.
  unfold kmalloc, subpage_kmalloc, blocktype, allocpageref, allocpagerefpage, doalloc, blocksize.
  solve_terminates.
Qed.
End Heap.

Section Vm.
Context {VO : VnodeOps} {VL : VnodeLaws}.

Lemma load_ce_terminates i : terminates (load_ce i).
Proof. intros s. apply terminates_deref. Qed.
Lemma store_ce_terminates i c : terminates (store_ce i c).
Proof. discriminate. Qed.
Lemma count_terminates f : terminates (count f).
Proof. discriminate. Qed.
Lemma load_pte_terminates p : terminates (load_pte p).
Proof.
  intros s. unfold load_pte, mbind, M_bind, deref. destruct (inner_pts s !! p.1) as [l|]; [|discriminate].
  by destruct (l !! Z.to_nat p.2).
Qed.
Lemma store_pte_terminates p e : terminates (store_pte p e).
Proof. intros s. unfold store_pte, mbind, M_bind, deref. by destruct (inner_pts s !! p.1). Qed.
Lemma get_as_terminates a : terminates (get_as a).
Proof. intros s. apply terminates_deref. Qed.
Lemma get_curproc_terminates : terminates get_curproc.
Proof. intros s. apply terminates_deref. Qed.
Lemma VOP_WRITE_terminates v k len off : terminates (VOP_WRITE_kernel v k len off).
Proof. intros s. unfold VOP_WRITE_kernel. by destruct (vop_write _ _ _ _ _) as [[? ?] ?]. Qed.
#[local] Hint Resolve load_ce_terminates store_ce_terminates count_terminates load_pte_terminates
  store_pte_terminates get_as_terminates get_curproc_terminates VOP_WRITE_terminates : terminates.

Lemma free_frames_terminates n : forall i, terminates (free_frames i n).
Proof. induction n; intros i; cbn [free_frames]; solve_terminates. Qed.
#[local] Hint Resolve free_frames_terminates : terminates.
Lemma vm_free_terminates p : terminates (vm_free_kpages p).
Proof. unfold vm_free_kpages, coremap_kfree. solve_terminates. Qed.
Lemma kfree_k_terminates p : terminates (kfree (S := kstate) p).
Proof. apply kfree_terminates, vm_free_terminates. Qed.
#[local] Hint Resolve kfree_k_terminates : terminates.
Lemma queue_pop_terminates : terminates queue_pop.
Proof. unfold queue_pop. solve_terminates. Qed.
Lemma pt_get_terminates a v : terminates (pt_get a v).
Proof. unfold pt_get. solve_terminates. Qed.
#[local] Hint Resolve queue_pop_terminates pt_get_terminates : terminates.
Lemma swapfile_writepage_terminates pa st : (forall i, terminates (st i)) -> terminates (swapfile_writepage pa st).
Proof. intros Hst. unfold swapfile_writepage, nonnull. solve_terminates. Qed.

(** ** The replacement queue gets shorter *)

Lemma queue_pop_length s n s' : queue_pop s = Done (Some n) s' ->
  length (replacement_queue s) = Datatypes.S (length (replacement_queue s')).
Proof.
  intros H. unfold queue_pop in H. mgo H. destruct (replacement_queue s) as [|nd q]; mgo H; [by inv H|].
  apply kfree_frees in E as (h & cm & -> & _). done.
Qed.

Lemma pop_victim_terminates fuel : forall s, (length (replacement_queue s) < fuel)%nat ->
  pop_victim fuel s <> OutOfFuel.
Proof.
  induction fuel as [|fuel IH]; intros s Hl H; [lia|]. cbn [pop_victim] in H.
  unfold mbind, M_bind in H. destruct (queue_pop s) as [v s1| | |] eqn:E; try discriminate.
  2:{ by apply (queue_pop_terminates s). }
  destruct v as [n|]; [|discriminate]. cbn [deref] in H. apply queue_pop_length in E.
  destruct (load_ce n s1) as [c s2| | |] eqn:E2; try discriminate; [|by apply (load_ce_terminates n s1)].
  apply load_ce_Done in E2 as [_ ->]. destruct (ce_is_free c); [|discriminate]. apply (IH s1); [lia|done].
Qed.

Lemma pop_victim_length fuel : forall s v s', pop_victim fuel s = Done v s' ->
  (length (replacement_queue s') < length (replacement_queue s))%nat.
Proof.
  induction fuel as [|fuel IH]; intros s v s' H; [discriminate|]. cbn [pop_victim] in H. mgo H.
  subst. apply queue_pop_length in E. destruct (ce_is_free _); mgo H; [|lia].
  apply IH in H. lia.
Qed.

Lemma coremap_replace_terminates : terminates coremap_replace.
Proof.
  intros s. unfold coremap_replace. unfold mbind at 1, M_bind at 1, gets.
  unfold mbind at 1, M_bind at 1, kassert at 1. destruct (negb _); [|discriminate].
  unfold mbind at 1, M_bind at 1.
  destruct (pop_victim _ s) as [v s1| | |] eqn:E; try discriminate.
  2:{ apply pop_victim_terminates in E; [done|lia]. }
  revert s1 E. intros s1 _. generalize s1. clear s1. change (terminates
    (c ← load_ce v;
     kassert "!victim->is_free" (negb (ce_is_free c));;
     entry ← pt_get (ce_as c) (ce_vaddr c);
     res ← swapfile_writepage (ce_paddr c) (fun index =>
             e ← load_pte entry; store_pte entry (mkPte index (pte_valid e) (pte_swapped e)));
     (if negb (res =? 0) then panic "coremap_replace: Page swapout failure" else mret tt);;
     c0 ← load_ce v;
     store_ce v (ce_set_free true c0);;
     kassert "entry != NULL" (negb (bool_decide (entry = (0, 0))));;
     e ← load_pte entry;
     store_pte entry (mkPte (pte_paddr e) (pte_valid e) true);;
     mret (ce_paddr c))).
  pose proof swapfile_writepage_terminates. solve_terminates.
Qed.

(** What runs after the victim is chosen leaves the queue alone. *)
Definition has_queue (q : list queue_node) (s : kstate) : Prop := replacement_queue s = q.

Lemma load_ce_queue q i : preserves (has_queue q) (load_ce i).
Proof. intros s c s' Hq H. by apply load_ce_Done in H as [_ ->]. Qed.
Lemma store_ce_queue q i c : preserves (has_queue q) (store_ce i c).
Proof. intros s u s' Hq H. by apply store_ce_Done in H as ->. Qed.
Lemma load_pte_queue q p : preserves (has_queue q) (load_pte p).
Proof. intros s e s' Hq H. destruct p. by apply load_pte_Done in H as [_ ->]. Qed.
Lemma store_pte_queue q p e : preserves (has_queue q) (store_pte p e).
Proof. intros s u s' Hq H. destruct p. by apply store_pte_Done in H as (l & _ & ->). Qed.
Lemma pt_get_queue q a v : preserves (has_queue q) (pt_get a v).
Proof. intros s p s' Hq H. by apply pt_get_Done in H as [-> _]. Qed.
Lemma VOP_WRITE_queue q v k len off : preserves (has_queue q) (VOP_WRITE_kernel v k len off).
Proof.
  intros s r s' Hq H. unfold VOP_WRITE_kernel in H. destruct (vop_write _ _ _ _ _) as [[? ?] ?]. by inv H.
Qed.
Lemma count_queue q f : preserves (has_queue q) (count f).
Proof. intros s u s' Hq H. by apply count_Done in H as ->. Qed.
#[local] Hint Resolve load_ce_queue store_ce_queue load_pte_queue store_pte_queue pt_get_queue
  VOP_WRITE_queue count_queue : preserves.

Lemma swapfile_writepage_queue q pa st : (forall i, preserves (has_queue q) (st i)) ->
  preserves (has_queue q) (swapfile_writepage pa st).
Proof. intros Hst. unfold swapfile_writepage, nonnull. solve_preserves. Qed.

Lemma coremap_replace_length s pa s' : coremap_replace s = Done pa s' ->
  (length (replacement_queue s') < length (replacement_queue s))%nat.
Proof.
  intros H. unfold coremap_replace in H. mstep H. mprim. mstep H. mprim. mstep H.
  apply pop_victim_length in E0.
  match type of H with ?m _ = _ => assert (Hq : preserves (has_queue (replacement_queue s0)) m) end.
  { pose proof swapfile_writepage_queue. solve_preserves. }
  specialize (Hq _ _ _ eq_refl H). unfold has_queue in Hq. rewrite Hq. exact E0.
Qed.

(** ** The allocators *)

Lemma mark_allocated_terminates n : forall first i np, terminates (mark_allocated first i n np).
Proof. induction n; intros; cbn [mark_allocated]; solve_terminates. Qed.
#[local] Hint Resolve mark_allocated_terminates coremap_replace_terminates : terminates.

Lemma kalloc_loop_terminates fuel : forall np first s, (length (replacement_queue s) < fuel)%nat ->
  coremap_kalloc_loop fuel np first s <> OutOfFuel.
Proof.
  induction fuel as [|fuel IH]; intros np first s Hl H; [lia|]. cbn [coremap_kalloc_loop] in H.
  unfold gets in H. unfold mbind at 1, M_bind at 1 in H. unfold mbind at 1, M_bind at 1 in H.
  unfold mbind at 1, M_bind at 1, lift in H. destruct (kscan _ _ _ _ _) as [[first' [last|]]|]; [| |discriminate].
  - revert H. apply terminates_bind; solve_terminates.
  - unfold mbind, M_bind in H. destruct (coremap_replace s) as [pa s1| | |] eqn:E; try discriminate.
    + apply coremap_replace_length in E. apply (IH np first' s1); [lia|done].
    + by apply (coremap_replace_terminates s).
Qed.

Lemma kalloc_terminates np : terminates (coremap_kalloc np).
Proof. intros s. unfold coremap_kalloc, gets, mbind, M_bind. apply kalloc_loop_terminates. lia. Qed.
#[local] Hint Resolve kalloc_terminates : terminates.

Lemma vm_alloc_terminates n : terminates (vm_alloc_kpages n).
Proof. unfold vm_alloc_kpages. solve_terminates. Qed.

Lemma kmalloc_k_terminates sz : terminates (kmalloc (S := kstate) sz).
Proof. apply kmalloc_terminates; [apply vm_free_terminates|apply vm_alloc_terminates]. Qed.
#[local] Hint Resolve kmalloc_k_terminates : terminates.

Lemma queue_push_terminates i : terminates (queue_push i).
Proof. unfold queue_push. solve_terminates. Qed.
#[local] Hint Resolve queue_push_terminates : terminates.

(** After a replacement the scan of [coremap_alloc] finds the victim's frame. *)
Lemma coremap_alloc_no_fuel W Y va s : kinv ∅ W Y s -> coremap_alloc va s <> OutOfFuel.
Proof.
  intros K. unfold coremap_alloc. unfold mbind at 1, M_bind at 1.
  destruct (get_curproc s) as [p s0| | |] eqn:E; try discriminate; [|by apply get_curproc_terminates in E].
  apply get_curproc_Done in E as [_ ->]. generalize (p_addrspace p). intros a.
  assert (Hfound : forall fuel s, (exists i c, coremap s !! i = Some c /\ ce_is_free c = true /\ Z.of_nat i < num_frames s) ->
    coremap_alloc_loop (Datatypes.S fuel) a va s <> OutOfFuel).
  { clear. intros fuel s (i & c & Hc & Hf & Hi). cbn [coremap_alloc_loop]. unfold gets.
    unfold mbind at 1, M_bind at 1. unfold mbind at 1, M_bind at 1.
    destruct (list_find _ _) as [[k ck]|] eqn:Hl.
    - apply terminates_bind; solve_terminates.
    - exfalso. rewrite list_find_None in Hl. rewrite Forall_lookup in Hl. apply (Hl i c); [|done].
      apply lookup_take_Some. split; [done|lia]. }
  cbn [coremap_alloc_loop]. unfold gets. unfold mbind at 1, M_bind at 1. unfold mbind at 1, M_bind at 1.
  destruct (list_find _ _) as [[k ck]|] eqn:Hl; [apply terminates_bind; solve_terminates|].
  unfold mbind at 1, M_bind at 1. destruct (coremap_replace s) as [pa s1| | |] eqn:E; try discriminate.
  2:{ by apply coremap_replace_terminates in E. }
  destruct (coremap_replace_inv ∅ W Y s pa s1 K E) as (K1 & _ & _ & _ & n & q & c & _ & _ & _ & Hc & _).
  apply (Hfound 0%nat). exists (qn_entry n), (ce_set_free true c). split_and!; try done.
  apply lookup_lt_Some in Hc. pose proof (k_len _ _ _ _ K1). lia.
Qed.

(** ** The page fault handler *)

Lemma VOP_READ_terminates v k len off : terminates (VOP_READ_kernel v k len off).
Proof. intros s. unfold VOP_READ_kernel. by destruct (vop_read _ _ _ _) as [[[? ?] ?] ?]. Qed.
Lemma bzero_terminates k len : terminates (bzero_kernel k len).
Proof. discriminate. Qed.
#[local] Hint Resolve VOP_READ_terminates bzero_terminates : terminates.
Lemma pt_load_terminates g va pa : terminates (pt_load g va pa).
Proof. unfold pt_load, load_page. solve_terminates. Qed.
Lemma swapfile_readpage_terminates pa i : terminates (swapfile_readpage pa i).
Proof. unfold swapfile_readpage, nonnull. solve_terminates. Qed.
Lemma inner_pt_create_terminates a va : terminates (inner_pt_create a va).
Proof. unfold inner_pt_create. solve_terminates. Qed.
Lemma get_segments_terminates a : terminates (get_segments a).
Proof. intros s. apply terminates_deref. Qed.
Lemma proc_getas_terminates : terminates proc_getas.
Proof. unfold proc_getas. solve_terminates. Qed.
Lemma tlb_insert_terminates va pa w : terminates (tlb_insert va pa w).
Proof.
  intros s. unfold tlb_insert. revert s. intros s.
  assert (H : terminates ('(r, t, v) ← lift (vmtlb_insert va pa w (hwtlb s) (vms s));
    modify (fun s => set_hwtlb t (set_vms v s));; mret r)) by solve_terminates.
  apply H.
Qed.
#[local] Hint Resolve pt_load_terminates swapfile_readpage_terminates inner_pt_create_terminates
  get_segments_terminates proc_getas_terminates tlb_insert_terminates : terminates.

(** A step that cannot run out of fuel, followed by one that does not from the state
    it is reached in. *)
Lemma bind_no_fuel {A B} (m : M kstate A) (k : A -> M kstate B) s : m s <> OutOfFuel ->
  (forall a s', m s = Done a s' -> k a s' <> OutOfFuel) -> (m ≫= k) s <> OutOfFuel.
Proof. intros Hm Hk. unfold mbind, M_bind. destruct (m s); try done. by apply Hk. Qed.

Lemma fault_page_no_fuel W Y g p va s : kinv ∅ W Y s -> fault_page g p va s <> OutOfFuel.
Proof.
  intros K. destruct p as [t j]. unfold fault_page. apply bind_no_fuel; [apply load_pte_terminates|].
  intros e s1 [_ ->]%load_pte_Done. destruct (pte_valid e); cbn [negb]; [destruct (pte_swapped e)|].
  - apply bind_no_fuel; [by eapply coremap_alloc_no_fuel|]. intros pa s2 _.
    apply terminates_bind; solve_terminates.
  - apply terminates_bind; solve_terminates.
  - apply bind_no_fuel; [by eapply coremap_alloc_no_fuel|]. intros pa s2 _.
    apply terminates_bind; solve_terminates.
Qed.

Lemma fault_handle_no_fuel W Y va s : kinv ∅ W Y s -> fault_handle va s <> OutOfFuel.
Proof.
  intros K. unfold fault_handle. apply bind_no_fuel; [done|]. intros cur s0 [-> ->]%gets_Done.
  destruct (curproc s =? 0); [done|]. apply bind_no_fuel; [apply proc_getas_terminates|].
  intros as_ s0 (-> & _)%proc_getas_Done. destruct (as_ =? 0); [done|].
  apply bind_no_fuel; [apply get_as_terminates|]. intros a s0 [Ha ->]%get_as_Done.
  apply bind_no_fuel; [apply get_segments_terminates|]. intros tab s0 [_ ->]%deref_Done.
  destruct (segments_find_segment tab va) as [g|]; [|done].
  apply bind_no_fuel; [done|]. intros u s0 ->%count_Done.
  apply bind_no_fuel; [apply terminates_deref|]. intros t s0 [Ht ->]%deref_Done.
  apply bind_no_fuel; [destruct (t =? 0); [apply inner_pt_create_terminates|done]|].
  intros r s1 Hr. destruct (negb (r =? 0)); [done|].
  assert (exists W', kinv ∅ W' Y s1) as [W' K1].
  { assert (K0 : kinv ∅ W Y (set_vms (inc_tlbfaults (vms s)) s)).
    { apply (kinv_env ∅ W Y s (pmem s) (fs s) (inc_tlbfaults (vms s)) (hwtlb s) K). lia. }
    destruct (Z.eqb_spec t 0) as [->|]; [|apply mret_Done in Hr as [_ ->]; by exists W].
    destruct (inner_pt_create_inv W Y _ _ _ va _ _ K0 Ha Ht Hr) as ((W' & _ & K1) & _). by exists W'. }
  unfold fault_map. apply bind_no_fuel; [apply pt_get_terminates|]. intros e s2 [-> _]%pt_get_Done.
  apply bind_no_fuel; [apply terminates_kassert|]. intros u' s2 [_ ->]%kassert_Done.
  apply bind_no_fuel; [by eapply fault_page_no_fuel|]. intros pa s2 _.
  apply terminates_bind; solve_terminates.
Qed.

End Vm.
End Termination.
