(* ===== verification/ExampleMachine.v ===== *)
(** * A small machine

    A machine with eighteen frames and an in-memory file system, on which the theorems
    about the VM system are applied to concrete executions: the hypotheses they make
    are those of a running system, not only of an idle one. *)
From S2P Require Import Prelude Bitmap Vmstats Tlb Ram Segments Kmalloc KmallocProofs Machine Swapfile Coremap Objects.
From S2P Require Import Vm Addrspace Proc VmInv Replacement FaultProofs AddrspaceProofs ProcProofs.
Import Bitmap Vmstats Tlb Segments Kmalloc KmallocProofs Machine Swapfile Coremap Objects Vm Addrspace Proc
  VmInv Replacement FaultProofs AddrspaceProofs ProcProofs.

Module ExampleMachine.

(** ** Files in memory *)

(** A file is its size and its bytes. *)
Record files : Type := mkFiles { file_size : Z -> Z; file_byte : Z -> Z -> Z }.

Definition files_read (f : files) (v off len : Z) : Z * Z * (Z -> Z) * files :=
  let n := Z.max 0 (Z.min len (file_size f v - off)) in
  (0, len - n, fun k => file_byte f v (off + k), f).
Definition files_write (f : files) (v off len : Z) (d : Z -> Z) : Z * Z * files :=
  (0, 0, mkFiles
    (fun v' => if v' =? v then Z.max (file_size f v) (off + len) else file_size f v')
    (fun v' a => if (v' =? v) && (off <=? a) && (a <? off + len) then d (a - off) else file_byte f v' a)).

#[global] Instance files_ops : VnodeOps := {|
  fstore := files;
  vop_read := files_read;
  vop_write := files_write;
  vfs_open f path _ := (0, if String.eqb path "prog" then 3 else 1, f);
  vfs_close f _ := f;
  vop_incref f _ := f
|}.

#[global] Instance files_laws : VnodeLaws.
Proof.
  refine {| fsize := file_size : fstore -> Z -> Z; fbyte := file_byte : fstore -> Z -> Z -> Z |}.
  - intros f v off len e r d f' H Ho Hl. unfold vop_read, files_ops, files_read in H. inv H.
    split_and!; try done; try lia. intros _. split; [lia|done].
  - intros f v off len d r f' H Ho Hl. unfold vop_write, files_ops, files_write in H. inv H.
    cbn. rewrite Z.eqb_refl. split_and!; try done.
    + intros v' Hv. by rewrite (proj2 (Z.eqb_neq _ _) Hv).
    + intros k Hk. rewrite (proj2 (Z.leb_le _ _)), (proj2 (Z.ltb_lt _ _)) by lia. cbn. f_equal. lia.
    + intros v' a Ha Hor.
      destruct (Z.eqb_spec v' v) as [->|]; [|done]. destruct (Z.leb_spec off a), (Z.ltb_spec a (off + len)); cbn; try done.
      destruct Hor as [?|Hn]; [done|]. exfalso. apply Hn. lia.
Defined.

Lemma files_reads_ok v : reads_ok v.
Proof. intros f off len er rs d f' H. unfold vop_read, files_ops, files_read in H. by inv H. Qed.

(** ** The machine just after start-up *)

Definition free_entry : coremap_entry := mkCe 0 0 0 true 0.
Definition kernel_entry : coremap_entry := mkCe 0 0 0 false 0.

(** File 1 is the swap file, file 2 a program. *)
Definition boot_files : files := mkFiles (fun v => if v =? 2 then 0x3000 else 0) (fun v a => (v * 7 + a) mod 256).

Definition machine (frames : nat) : kstate :=
  mkK (Ram.mkRam 0 0) true (kernel_entry :: replicate frames free_entry) (1 + Z.of_nat frames) []
    kheap0 ∅ ∅ ∅
    (mkTlb ((fun i => (TLBHI_INVALID (Z.of_nat i), TLBLO_INVALID)) <$> seq 0 64) 0)
    vms0 1 (Some (mkBitmap SWAPFILE_MAX_PAGES (replicate 288 0))) boot_files (fun a => a mod 253)
    ∅ 0 ∅ (replicate 99 0) 0.

Lemma heap_ok_kheap0 : heap_ok kheap0.
Proof.
  split; cbn [kheap0 allbase pagerefs sizebases kheaproots]; try done.
  - intros a Ha. by apply not_elem_of_nil in Ha.
  - constructor.
  - assert (subpages kheap0 ++ rootpages kheap0 = []) as -> by (vm_compute; reflexivity). constructor.
  - intros t l Hl. apply lookup_replicate in Hl as [-> _]. split; [constructor|].
    intros a Ha. by apply not_elem_of_nil in Ha.
  - intros a Ha. by apply not_elem_of_nil in Ha.
  - intros r root Hr. apply lookup_replicate in Hr as [-> _]. split; [done|by left].
Qed.

Lemma owned_kheap0 : owned kheap0 = ∅.
Proof. vm_compute. reflexivity. Qed.

Lemma kinv_machine n : Z.of_nat n < 2 ^ 17 -> kinv ∅ ∅ ∅ (machine n).
Proof.
  intros Hn. assert (Hpg : pages ∅ ∅ (machine n) = ∅).
  { unfold pages. change (kheap_st (machine n)) with kheap0. rewrite owned_kheap0. set_solver. }
  assert (Hnone : forall t j, pte (machine n) t j = None).
  { intros t j. unfold pte. change (inner_pts (machine n)) with (∅ : gmap Z (list pt_entry)).
    by rewrite lookup_empty. }
  split.
  - done.
  - cbn [machine coremap num_frames length]. rewrite length_replicate. lia.
  - cbn [machine num_frames]. lia.
  - by exists kernel_entry.
  - apply heap_ok_kheap0.
  - change (kheap_st (machine n)) with kheap0. rewrite owned_kheap0. set_solver.
  - rewrite Hpg. intros p Hp. by apply elem_of_empty in Hp.
  - change (kheap_st (machine n)) with kheap0. rewrite owned_kheap0, union_empty_l_L.
    intros i c Hi. by apply elem_of_empty in Hi.
  - intros i c Hc. by rewrite lookup_empty in Hc.
  - intros t j e He. by rewrite Hnone in He.
  - intros t j e t' j' e' He. by rewrite Hnone in He.
  - split_and!; [done| |intros t j e t' j' e' He; by rewrite Hnone in He].
    exists (mkBitmap SWAPFILE_MAX_PAGES (replicate 288 0)).
    split; [done|]. split; [by apply wf_replicate|]. split; [done|].
    intros t j e He. by rewrite Hnone in He.
  - split; [constructor|]. intros m Hm. by apply not_elem_of_nil in Hm.
  - split; [constructor|]. split.
    + intros q. cbn [machine segtabs procs kobjs]. rewrite !lookup_empty. split; by intros [].
    + intros q Hq. by apply not_elem_of_nil in Hq.
  - intros q [Hq|[[x Hx]|[[x Hx]|[x Hx]]]]; [by apply not_elem_of_nil in Hq|..];
      cbn [machine segtabs procs kobjs] in Hx; by rewrite lookup_empty in Hx.
  - intros t l Hl. cbn [machine inner_pts] in Hl. by rewrite lookup_empty in Hl.
  - intros a x Hx. cbn [machine addrspaces] in Hx. by rewrite lookup_empty in Hx.
Qed.

(** ** A process with a stack and a program segment *)

Definition blank : segment := mkSegment 0 0 0 false false false 0 0 0.
Definition junk : Z * list segment := (0, [blank; blank; blank]).

Definition junk_proc : proc := mkProc 0 77 78 79 80 81 true 82 83 [].

(** A process runs; its structure and its address space come from the kernel heap. *)
Definition start : M kstate unit :=
  p ← proc_create junk_proc "init";
  modify (set_curproc p);;
  _ ← proc_addthread p 0;
  mret tt.
Definition started : kstate := after start (machine 17).

Definition setup : M kstate Z :=
  as_ ← as_create junk;
  proc_setas as_;;
  as_define_region as_ 0 0x400000 0x2000 4 0 1 2 0x100;;
  as_define_region as_ 1 0x10000000 0x1000 4 2 0 2 0x2100;;
  as_define_stack as_;;
  mret as_.

Definition running : kstate := after setup started.
Definition space : Z := result 0 setup started.


Lemma setup_inv s r s' : kinv ∅ ∅ ∅ s -> segs_ok s -> setup s = Done r s' -> r <> 0 ->
  kinv ∅ (page_range r 2 ∪ ∅) ∅ s' /\ segs_ok s'.
Proof.
  intros K Hs H Hr. unfold setup in H. mgo H.
  destruct (as_create_inv ∅ ∅ s junk ret s0 K E) as (_ & _ & [[-> _]|(_ & K0 & _ & segs & _ & Hst & _)]); [done|].
  assert (Hs0 : segs_ok s0).
  { intros x tab g Hx Hg. rewrite Hst in Hx. apply lookup_insert_Some in Hx as [[_ <-]|[_ Hx]]; [|by eapply Hs].
    assert (Hb : Forall seg_ok (snd junk)) by (repeat constructor; done). rewrite Forall_forall in Hb. by apply Hb. }
  apply proc_setas_eq in E0 as (p & Hp & _ & ->).
  set (sp := set_procs _ s0) in *.
  assert (K2 : kinv ∅ (page_range ret 2 ∪ ∅) ∅ sp) by (apply kinv_put_proc; [done|right; by eexists]).
  split.
  - eapply as_define_stack_inv; [|exact E3]. eapply as_define_region_inv; [|exact E2].
    eapply as_define_region_inv; [exact K2|exact E1].
  - eapply as_define_stack_segs_ok; [|exact E3]. eapply as_define_region_segs_ok; [| |exact E2]; [|done].
    eapply as_define_region_segs_ok; [| |exact E1]; done.
Qed.

Lemma setup_runs : setup started = Done space running.
Proof. refine (returns_runs space setup started _). vm_compute. reflexivity. Qed.

Lemma start_runs : start (machine 17) = Done tt started.
Proof. refine (returns_runs tt start (machine 17) _). vm_compute. reflexivity. Qed.

Lemma start_inv s s' : kinv ∅ ∅ ∅ s -> start s = Done tt s' -> kinv ∅ ∅ ∅ s'.
Proof.
  intros K0 H. unfold start in H. mgo H.
  destruct (proc_create_spec ∅ ∅ s junk_proc "init" _ _ K0 ltac:(done) E)
    as [(_ & K & _)|(_ & _ & K & _)];
    apply (kinv_set_cur _ _ _ _ ret (pid_table s0) (kproc s0)) in K;
    unfold proc_addthread in E0; mgo E0; apply update_proc_Done in E2 as (p & Hp & ->);
    (apply kinv_put_proc; [exact K|right; by eexists]).
Qed.

Lemma started_inv : kinv ∅ ∅ ∅ started.
Proof. exact (start_inv _ _ (kinv_machine 17 ltac:(done)) start_runs). Qed.

Lemma running_inv : kinv ∅ (page_range space 2 ∪ ∅) ∅ running /\ segs_ok running.
Proof.
  eapply (setup_inv started); [exact started_inv| |exact setup_runs|by vm_compute].
  assert (Hseg : segtabs started = ∅) by (vm_compute; reflexivity).
  intros x tab g Hx. rewrite Hseg in Hx. by rewrite lookup_empty in Hx.
Qed.

(** ** A machine that has run out of frames *)

Definition miss_b (va : Z) (s : kstate) : bool :=
  bool_decide (tlb_wf (hwtlb s) /\ Z.land va TLBHI_VPAGE = va /\
               Forall (fun e => ~ matches va e) (entries (hwtlb s))).

Lemma miss_b_true va s : miss_b va s = true -> tlb_miss va s.
Proof. intros H. by apply bool_decide_eq_true in H. Qed.

(** Write faults on pages that are not in the TLB. *)
Fixpoint touches (vas : list Z) : M kstate unit :=
  match vas with
  | [] => mret tt
  | va :: vas =>
      s ← get;
      kassert "TLB miss" (miss_b va s);;
      _ ← fault_handle va;
      touches vas
  end.

Lemma touches_inv vas : forall W s s', kinv ∅ W ∅ s -> segs_ok s -> touches vas s = Done tt s' ->
  (exists W', W ⊆ W' /\ kinv ∅ W' ∅ s') /\ segs_ok s'.
Proof.
  induction vas as [|va vas IH]; intros W s s' K Hs H; cbn [touches] in H.
  - mprim. split; [by exists W|done].
  - mstep H. injection E as <- <-. mgo H. apply miss_b_true in E.
    destruct (fault_handle_inv W ∅ s va _ _ K Hs E E0) as ((W1 & H1 & K1) & _ & _ & Hseg & _).
    match type of H with touches _ ?s0 = _ =>
      assert (Hs1 : segs_ok s0) by (unfold segs_ok; by rewrite Hseg);
      destruct (IH W1 s0 s' K1 Hs1 H) as ((W2 & H2 & K2) & Hs2) end.
    split; [|done]. exists W2. split; [by etrans|done].
Qed.

(** Eight stack pages fill the memory. *)
Definition stack_pages : list Z := (fun k => 0x7ffff000 - 0x1000 * Z.of_nat k) <$> seq 0 8.
Definition full : kstate := after (touches stack_pages) running.

Lemma full_runs : touches stack_pages running = Done tt full.
Proof. refine (returns_runs tt (touches stack_pages) running _). vm_compute. reflexivity. Qed.

Lemma full_inv : (exists W, kinv ∅ W ∅ full) /\ segs_ok full.
Proof.
  destruct (touches_inv stack_pages _ running full (proj1 running_inv) (proj2 running_inv) full_runs)
    as ((W & _ & K) & Hs).
  split; [by exists W|done].
Qed.

Lemma full_miss va : miss_b va full = true -> tlb_miss va full.
Proof. apply miss_b_true. Qed.

End ExampleMachine.
