(* ===== verification/VmTheorems.v ===== *)
(** * The theorems of the VM system

    Each theorem is followed by its application to the machine of [ExampleMachine]. *)
From S2P Require Import Prelude Bitmap Vmstats Tlb Ram Segments Kmalloc KmallocProofs Machine Swapfile Coremap Vm.
From S2P Require Import Addrspace VmInv Replacement FaultProofs AddrspaceProofs FirstTouch Termination ExampleMachine.
Import Bitmap Vmstats Tlb Segments Kmalloc KmallocProofs Machine Swapfile Coremap Vm Addrspace VmInv
  Replacement FaultProofs AddrspaceProofs FirstTouch Termination ExampleMachine.

Module VmTheorems.
Section VmTheorems.
Context {VO : VnodeOps} {VL : VnodeLaws}.

Lemma sys__exit_no_return st s r s' : sys__exit st s <> Done r s'.
Proof.
  intros H. unfold sys__exit in H. mgo H. unfold thread_exit in E0. mgo E0. by unfold leave in E0.
Qed.

(** A fault that returns is a read or write fault, or has an unknown type. *)
Lemma vm_fault_Done ft va s r s' : vm_fault ft va s = Done r s' ->
  fault_handle (Z.land va PAGE_FRAME) s = Done r s' \/ r = EINVAL /\ s' = s.
Proof.
  intros H. unfold vm_fault in H. destruct (ft =? VM_FAULT_READONLY).
  - mgo H. by apply sys__exit_no_return in E.
  - destruct (_ || _); [by left|]. mprim. by right.
Qed.


(** C2: page faults keep the frames apart.  After a fault the frames, the page tables,
    the replacement queue, the swap file and the kernel heap still satisfy the
    ownership invariant; at most, the kernel has taken pages for a new page table. *)
Theorem vm_fault_invariant W Y ft va s r s' : kinv ∅ W Y s -> segs_ok s ->
  tlb_miss (Z.land va PAGE_FRAME) s -> vm_fault ft va s = Done r s' ->
  exists W', W ⊆ W' /\ kinv ∅ W' Y s'.
Proof.
  intros K Hs Hm H. destruct (vm_fault_Done _ _ _ _ _ H) as [Hh|[_ ->]]; [|by exists W].
  by destruct (fault_handle_inv W Y s _ r s' K Hs Hm Hh) as (HW & _).
Qed.

(** C3: a fault that returns 0 is repaired: the page of the faulting address is
    resident in the current address space, and the TLB now translates the address to
    its frame, writable exactly when its segment is. *)
Theorem vm_fault_maps_page W Y ft va s s' : kinv ∅ W Y s -> segs_ok s ->
  tlb_miss (Z.land va PAGE_FRAME) s -> vm_fault ft va s = Done 0 s' ->
  exists p a tab g t j e, procs s !! curproc s = Some p /\ addrspaces s !! p_addrspace p = Some a /\
    segtabs s !! as_segments a = Some tab /\
    segments_find_segment tab (Z.land va PAGE_FRAME) = Some g /\
    slot_of s' (p_addrspace p) (Z.land va PAGE_FRAME) = Some (t, j) /\
    pte s' t j = Some e /\ resident e /\
    translate (hwtlb s') (Z.land va PAGE_FRAME) = Some (pte_paddr e, writable g).
Proof.
  intros K Hs Hm H. destruct (vm_fault_Done _ _ _ _ _ H) as [Hh|[? _]]; [|done].
  destruct (fault_handle_inv W Y s _ 0 s' K Hs Hm Hh) as (_ & _ & Hok & _). exact (Hok eq_refl).
Qed.

(** C25: the page fault handler always ends: its loops over the coremap and the
    replacement queue do not run forever, whatever the fault. *)
Theorem vm_fault_ends W Y ft va s : kinv ∅ W Y s -> vm_fault ft va s <> OutOfFuel.
Proof.
  intros K. unfold vm_fault. pose proof (fault_handle_no_fuel W Y (Z.land va PAGE_FRAME) s K) as Hh.
  destruct (ft =? VM_FAULT_READONLY).
  - apply bind_no_fuel; [|by intros r s' ?%sys__exit_no_return].
    unfold sys__exit, thread_exit, proc_remthread_cur, update_curproc. pose proof get_curproc_terminates.
    assert (Hl : terminates (leave (S := kstate) (A := unit))) by discriminate.
    apply terminates_bind; solve_terminates.
  - by destruct (_ || _).
Qed.

(** What a page fault on an untouched page of segment [g] leaves there. *)
Lemma vm_fault_first W Y ft va p a tab g s s' : kinv ∅ W Y s -> segs_ok s ->
  tlb_miss (Z.land va PAGE_FRAME) s ->
  procs s !! curproc s = Some p -> addrspaces s !! p_addrspace p = Some a ->
  segtabs s !! as_segments a = Some tab ->
  segments_find_segment tab (Z.land va PAGE_FRAME) = Some g ->
  untouched s (p_addrspace p) (Z.land va PAGE_FRAME) -> vm_fault ft va s = Done 0 s' ->
  exists t j e, slot_of s' (p_addrspace p) (Z.land va PAGE_FRAME) = Some (t, j) /\
    pte s' t j = Some e /\ resident e /\
    (elf_file g = 0 -> forall k, 0 <= k < PAGE_SIZE -> content s' e k = 0) /\
    (elf_file g <> 0 -> elf_file g <> swapfile s -> reads_ok (elf_file g) ->
       page_of g (Z.land va PAGE_FRAME) ->
       program_bytes g (Z.land va PAGE_FRAME) (fs s) (content s' e)).
Proof.
  intros K Hs Hm Hp Ha Ht Hf Hu H. destruct (vm_fault_Done _ _ _ _ _ H) as [Hh|[? _]]; [|done].
  destruct (fault_handle_inv W Y s _ 0 s' K Hs Hm Hh) as (_ & _ & Hok & _).
  destruct (Hok eq_refl) as (p' & a' & tab' & g' & t & j & e & Hp' & _ & _ & _ & Hslot & He & Hres & _).
  assert (p' = p) as -> by congruence.
  destruct (fault_handle_first W Y s p a tab g _ s' K Hs Hp Ha Ht Hf Hu Hh) as (pa & [Hz Hb] & Hpa).
  rewrite <- (Hpa t j e Hslot He) in Hz, Hb. exists t, j, e. unfold content.
  destruct Hres as [Hv Hsw]. rewrite Hsw. done.
Qed.


(** The rest of the segment, which ELF wants zero, is loaded from the file as well: the
    bytes that follow the file part, as far as the file goes. *)
Theorem vm_fault_bss_from_file W Y ft va p a tab v ph s s' : kinv ∅ W Y s -> segs_ok s ->
  tlb_miss (Z.land va PAGE_FRAME) s ->
  procs s !! curproc s = Some p -> addrspaces s !! p_addrspace p = Some a ->
  segtabs s !! as_segments a = Some tab ->
  segments_find_segment tab (Z.land va PAGE_FRAME) = Some (phdr_segment v ph) ->
  untouched s (p_addrspace p) (Z.land va PAGE_FRAME) -> vm_fault ft va s = Done 0 s' ->
  v <> 0 -> v <> swapfile s -> reads_ok v -> page_of (phdr_segment v ph) (Z.land va PAGE_FRAME) ->
  exists t j e, slot_of s' (p_addrspace p) (Z.land va PAGE_FRAME) = Some (t, j) /\
    pte s' t j = Some e /\ resident e /\
    program_bytes (phdr_segment v ph) (Z.land va PAGE_FRAME) (fs s) (content s' e).
Proof.
  intros K Hs Hm Hp Ha Ht Hf Hu H Hv0 Hvs Hro Hpg.
  destruct (vm_fault_first W Y ft va p a tab _ s s' K Hs Hm Hp Ha Ht Hf Hu H) as (t & j & e & Hsl & He & Hr & _ & Hb).
  exists t, j, e. split_and!; try done. by apply Hb.
Qed.

(** the statistics balance.  When the reads of program and swap files succeed, a
    fault that is handled counts once as a TLB fault, once as free or replacing, and
    once as reload, disk read or zero fill, so the warnings of [print_vm_stats] stay
    silent, even when the counters wrap around. *)
Theorem vm_fault_stats_balance W Y ft va s s' : kinv ∅ W Y s -> segs_ok s -> reads_ok (swapfile s) ->
  (forall x tab g, segtabs s !! x = Some tab -> g ∈ tab -> elf_file g <> 0 -> reads_ok (elf_file g)) ->
  vm_fault ft va s = Done 0 s' ->
  (forall t, Warning t ∉ print_vm_stats (vms s)) -> forall t, Warning t ∉ print_vm_stats (vms s').
Proof.
  intros K Hs Hr Helf H Hb. apply print_vm_stats_quiet. apply print_vm_stats_quiet in Hb.
  destruct (vm_fault_Done _ _ _ _ _ H) as [Hh|[? _]]; [|done].
  by eapply fault_handle_counts.
Qed.

(** A fault that cannot be handled is refused without a change of state: an
    unknown fault type with EINVAL; a fault before there is a process or an address
    space, or outside every segment, with EFAULT. *)
Theorem vm_fault_refuses ft va s :
  (ft <> VM_FAULT_READONLY -> ft <> VM_FAULT_READ -> ft <> VM_FAULT_WRITE -> vm_fault ft va s = Done EINVAL s) /\
  (ft = VM_FAULT_READ \/ ft = VM_FAULT_WRITE ->
   (curproc s = 0 -> vm_fault ft va s = Done EFAULT s) /\
   forall p, curproc s <> 0 -> procs s !! curproc s = Some p ->
   (p_addrspace p = 0 -> vm_fault ft va s = Done EFAULT s) /\
   forall a tab, p_addrspace p <> 0 -> addrspaces s !! p_addrspace p = Some a ->
     segtabs s !! as_segments a = Some tab ->
     segments_find_segment tab (Z.land va PAGE_FRAME) = None -> vm_fault ft va s = Done EFAULT s).
Proof.
  split.
  - intros H1 H2 H3. unfold vm_fault. apply Z.eqb_neq in H1, H2, H3. by rewrite H1, H2, H3.
  - intros Hft. assert (Hv : vm_fault ft va s = fault_handle (Z.land va PAGE_FRAME) s)
      by (by destruct Hft as [-> | ->]).
    rewrite Hv. unfold fault_handle, proc_getas, get_curproc, get_as, get_segments, gets, deref.
    unfold mbind, M_bind, mret, M_ret. split; [by intros -> |].
    intros p Hc Hp. apply Z.eqb_neq in Hc. rewrite Hc. cbn beta iota. rewrite ?Hc, Hp. cbn beta iota. split; [by intros -> |].
    intros a tab Hp0 Ha Ht Hf. apply Z.eqb_neq in Hp0. rewrite Hp0. cbn beta iota.
    rewrite Ha. cbn beta iota. rewrite Ht. cbn beta iota. by rewrite Hf.
Qed.

(** A write to a read-only page ends the process: [vm_fault] does not return, the
    exit status is recorded as 1 and the thread has left the process; memory, page
    tables and the TLB are as before. *)
Theorem vm_fault_readonly_kills va s p : curproc s <> 0 -> procs s !! curproc s = Some p ->
  0 < p_numthreads p ->
  vm_fault VM_FAULT_READONLY va s =
    Exited (set_curproc 0 (set_procs
      (<[curproc s := set_numthreads (p_numthreads p - 1) (set_exit 1 p)]> (procs s)) s)).
Proof.
  intros Hc Hp Hn. unfold vm_fault. cbn [Z.eqb VM_FAULT_READONLY Pos.eqb].
  unfold sys__exit, thread_exit, proc_remthread_cur, update_curproc, get_curproc, gets, modify, kassert, deref,
    leave, mbind, M_bind, mret, M_ret.
  apply Z.eqb_neq in Hc. apply Z.ltb_lt in Hn. rewrite Hp.
  repeat (cbn beta iota; cbn [procs curproc set_procs negb p_numthreads set_exit];
          rewrite ?Hc, ?Hn, ?lookup_insert_eq, ?insert_insert_eq).
  done.
Qed.

End VmTheorems.

(** ** The theorems on the example machine

    All frames are in use: the first fault takes a new page and evicts the oldest
    one, the second brings that page back from the swap file. *)

#[local] Opaque full running space.

Lemma full_space : p_addrspace <$> procs full !! curproc full = Some space.
Proof. vm_compute. reflexivity. Qed.
Lemma full_space_of p : procs full !! curproc full = Some p -> p_addrspace p = space.
Proof. intros Hp. apply (inj Some). rewrite <- full_space, Hp. reflexivity. Qed.

Definition fault1 : kstate := after (vm_fault VM_FAULT_WRITE 0x7fff7123) full.

Lemma fault1_runs : vm_fault VM_FAULT_WRITE 0x7fff7123 full = Done 0 fault1.
Proof. refine (returns_runs 0 (vm_fault VM_FAULT_WRITE 0x7fff7123) full _). vm_compute. reflexivity. Qed.
Lemma fault1_evicts : vms_swapfilewrites (vms fault1) = 1.
Proof. vm_compute. reflexivity. Qed.
Lemma fault1_miss : tlb_miss (Z.land 0x7fff7123 PAGE_FRAME) full.
Proof. apply full_miss. vm_compute. reflexivity. Qed.

#[local] Opaque fault1.


Lemma vm_fault_invariant_witness : exists W, kinv ∅ W ∅ fault1.
Proof.
  destruct full_inv as [[W K] Hs].
  destruct (vm_fault_invariant W ∅ VM_FAULT_WRITE 0x7fff7123 full 0 fault1 K Hs
              fault1_miss fault1_runs) as (W' & _ & K').
  exists W'. exact K'.
Defined.

Lemma vm_fault_maps_page_witness : exists t j e, slot_of fault1 space 0x7fff7000 = Some (t, j) /\
  pte fault1 t j = Some e /\ resident e /\ exists w, translate (hwtlb fault1) 0x7fff7000 = Some (pte_paddr e, w).
Proof.
  destruct full_inv as [[W K] Hs].
  destruct (vm_fault_maps_page W ∅ VM_FAULT_WRITE 0x7fff7123 full fault1 K Hs
              fault1_miss fault1_runs) as (p & a & tab & g & t & j & e & Hp & _ & _ & _ & Hslot & He & Hr & Ht).
  rewrite (full_space_of p Hp) in Hslot.
  exists t, j, e. split; [exact Hslot|]. split; [exact He|]. split; [exact Hr|]. exists (writable g). exact Ht.
Defined.

Lemma vm_fault_ends_witness : vm_fault VM_FAULT_READ 0x400000 full <> OutOfFuel.
Proof. destruct full_inv as [[W K] _]. exact (vm_fault_ends W ∅ VM_FAULT_READ 0x400000 full K). Defined.

(** A page of the program, read from its file. *)
Definition fault2 : kstate := after (vm_fault VM_FAULT_READ 0x401004) full.
Lemma fault2_runs : vm_fault VM_FAULT_READ 0x401004 full = Done 0 fault2.
Proof. refine (returns_runs 0 (vm_fault VM_FAULT_READ 0x401004) full _). vm_compute. reflexivity. Qed.
Lemma fault2_miss : tlb_miss (Z.land 0x401004 PAGE_FRAME) full.
Proof. apply full_miss. vm_compute. reflexivity. Qed.
#[local] Opaque fault2.

Definition full_proc : proc := default junk_proc (procs full !! curproc full).
Definition full_as : addrspace := default (mkAs 0 []) (addrspaces full !! space).
Definition full_segs : list segment := default [] (segtabs full !! as_segments full_as).

(** The outer page table has no inner table for the program yet. *)
Lemma full_untouched : untouched full space 0x401000.
Proof.
  destruct full_inv as [[W K] _].
  refine (untouched_no_table ∅ W ∅ full space 0x401000 1 K _). vm_compute. reflexivity.
Qed.

(** A program header for that segment: 0x1800 bytes of the file from offset 0x100, in
    0x2000 bytes of memory at 0x400000, readable and executable. *)
Definition text_header : Z -> Z := fun k => nth (Z.to_nat k)
  [0;0;0;1; 0;0;1;0; 0;0x40;0;0; 0;0x40;0;0; 0;0;0x18;0; 0;0;0x20;0; 0;0;0;5; 0;0;0x10;0] 0.


Lemma vm_fault_stats_balance_witness : vm_fault VM_FAULT_READ 0x401004 full = Done 0 fault2 /\
  forall t, Warning t ∉ print_vm_stats (vms fault2).
Proof.
  destruct full_inv as [[W K] Hs].
  split; [exact fault2_runs|].
  refine (vm_fault_stats_balance W ∅ VM_FAULT_READ 0x401004 full fault2 K Hs (files_reads_ok _)
    (fun _ _ g _ _ _ => files_reads_ok (elf_file g)) fault2_runs _).
  apply print_vm_stats_quiet. vm_compute. repeat split; reflexivity.
Defined.

Lemma vm_fault_refuses_witness : vm_fault VM_FAULT_READ 0x20000000 full = Done EFAULT full /\
  vm_fault 7 0x400000 full = Done EINVAL full.
Proof.
  destruct (vm_fault_refuses VM_FAULT_READ 0x20000000 full) as [_ H].
  destruct (vm_fault_refuses 7 0x400000 full) as [H7 _].
  split; [|apply H7; discriminate].
  destruct (H (or_introl eq_refl)) as [_ Hp].
  assert (Hc : curproc full <> 0) by (vm_compute; discriminate).
  destruct (Hp full_proc Hc ltac:(vm_compute; reflexivity)) as [_ Ha].
  apply (Ha full_as full_segs); [vm_compute; discriminate|vm_compute; reflexivity..].
Defined.

Lemma vm_fault_readonly_kills_witness : exists s', vm_fault VM_FAULT_READONLY 0x400000 full = Exited s' /\
  p_status <$> procs s' !! curproc full = Some 1.
Proof.
  assert (Hc : curproc full <> 0) by (vm_compute; discriminate).
  eexists. split.
  - apply (vm_fault_readonly_kills 0x400000 full full_proc); [exact Hc| |].
    + vm_compute. reflexivity.
    + vm_compute. reflexivity.
  - cbn [procs set_curproc set_procs]. rewrite lookup_insert_eq. reflexivity.
Defined.

End VmTheorems.
