(* ===== verification/MemTheorems.v ===== *)
(** * The theorems of the memory allocators

    Frames ([coremap.c]), the swap file ([swapfile.c]), the kernel heap ([kmalloc.c])
    and address spaces ([addrspace.c]), on the machine as a whole. *)
From S2P Require Import Prelude Bitmap Vmstats Tlb Ram Segments Kmalloc KmallocProofs Machine Swapfile Coremap Vm.
From S2P Require Import Addrspace VmInv Replacement FaultProofs AddrspaceProofs Termination ExampleMachine.
Import Bitmap Vmstats Tlb Segments Kmalloc KmallocProofs Machine Swapfile Coremap Vm Addrspace VmInv
  Replacement FaultProofs AddrspaceProofs Termination ExampleMachine.

Module MemTheorems.
Section MemTheorems.
Context {VO : VnodeOps} {VL : VnodeLaws}.

(** ** Frames *)

(** After a replacement, the frames still in use have the coremap entries they had. *)
Lemma evicted_used P W Y v idx s s' i : kinv P W Y s' -> evicted v idx s s' -> free_at (coremap s') v ->
  used P W Y s' i -> coremap s' !! i = coremap s !! i.
Proof.
  intros K (_ & _ & Hcm) (c & Hc & Hf) Hu. destruct (used_nonfree _ _ _ _ _ K Hu) as (c' & Hc' & Hnf).
  destruct (Hcm i) as [?|He]; [intros ->; congruence|done|].
  rewrite He in Hc'. destruct (coremap s !! i); by inv Hc'.
Qed.

(** C22: page replacement is first-in first-out and loses nothing: the frame it frees
    is that of the head of the replacement queue, the page that was there is now in a
    swap slot that was free, with the same bytes; and nothing else changes: no other
    page table entry and no page's contents, not a byte of physical memory, no other
    slot of the swap file (its bytes and its bit) and no other file, not the rest of
    the queue, the coremap entries of the frames still in use, the address spaces,
    segments, TLB, processes and kernel objects; the blocks of the kernel heap stay,
    those of the queue apart; the system invariant holds again. *)
Theorem coremap_replace_fifo P W Y s pa s' : kinv P W Y s -> coremap_replace s = Done pa s' ->
  kinv P W Y s' /\
  (exists n q t j e e', replacement_queue s = n :: q /\ replacement_queue s' = q /\
    pa = Z.of_nat (qn_entry n) * PAGE_SIZE /\ free_at (coremap s') (qn_entry n) /\
    pte s t j = Some e /\ resident e /\ pte_paddr e = pa /\
    pte s' t j = Some e' /\ swapped e' /\
    (forall k, 0 <= k < PAGE_SIZE -> content s' e' k = content s e k) /\
    (forall t' j', ~ (t' = t /\ j' = j) -> pte s' t' j' = pte s t' j') /\
    (exists b b', swapfile_freeentries s = Some b /\ swapfile_freeentries s' = Some b' /\
      bit b (pte_paddr e') = false /\
      forall i, 0 <= i -> bit b' i = (i =? pte_paddr e') || bit b i) /\
    (forall x, 0 <= x < fsize (fs s) (swapfile s) -> x / PAGE_SIZE <> pte_paddr e' ->
      fbyte (fs s') (swapfile s) x = fbyte (fs s) (swapfile s) x)) /\
  transparent s s' /\ pmem s' = pmem s /\
  (forall v, v <> swapfile s -> fsize (fs s') v = fsize (fs s) v /\
    forall a, 0 <= a < fsize (fs s) v -> fbyte (fs s') v a = fbyte (fs s) v a) /\
  (forall i, used P W Y s' i -> coremap s' !! i = coremap s !! i) /\
  addrspaces s' = addrspaces s /\ segtabs s' = segtabs s /\ hwtlb s' = hwtlb s /\
  procs s' = procs s /\ kobjs s' = kobjs s /\ swapfile s' = swapfile s /\
  forall p m, block (kheap_st s) p m -> ~ vm_held s p -> block (kheap_st s') p m /\ ~ vm_held s' p.
Proof.
  intros K H.
  destruct (coremap_replace_inv P W Y s pa s' K H)
    as (K' & R & _ & Kb & n & q & c & Hq & Hq' & Hpa & Hc & t & j & e & idx & He & Hr & Hep & Hev & Hpte).
  destruct (r_same _ _ R) as (? & ? & ? & ? & _ & ? & ? & _ & ? & _).
  assert (Hfa : free_at (coremap s') (qn_entry n)) by (by exists (ce_set_free true c)).
  split; [done|]. split_and!; try done;
    [|by apply krel_transparent|apply (r_files _ _ R)|intros i; by eapply evicted_used].
  exists n, q, t, j, e, (mkPte idx true true).
  assert (He' : pte s' t j = Some (mkPte idx true true)) by (rewrite Hpte; by rewrite decide_True).
  destruct Hev as (Hbits & Hbytes & _). split_and!; try done.
  - pose proof (r_pte _ _ R t j) as Hrel. rewrite He, He' in Hrel.
    inversion Hrel as [? ? [_ Hcont]|]. destruct Hr as [Hv _]. by apply Hcont.
  - intros t' j' Hne. by rewrite Hpte, decide_False.
Qed.

(** page replacement leaves the TLB alone: a translation to the victim's frame
    survives the eviction, while the coremap already offers the frame to others. *)
Theorem coremap_replace_stale_tlb P W Y s pa s' va w : kinv P W Y s -> coremap_replace s = Done pa s' ->
  translate (hwtlb s) va = Some (pa, w) ->
  translate (hwtlb s') va = Some (pa, w) /\ free_at (coremap s') (Z.to_nat (pa / PAGE_SIZE)).
Proof.
  intros K H Ht.
  destruct (coremap_replace_inv P W Y s pa s' K H) as (_ & R & _ & _ & n & q & c & _ & _ & -> & Hc & _).
  destruct (r_same _ _ R) as (_ & _ & Htb & _). rewrite Htb. split; [done|].
  rewrite Z.div_mul, Nat2Z.id by done. by exists (ce_set_free true c).
Qed.

(** the frame [coremap_alloc] returns belongs to nobody else: no resident page is
    in it and no kernel page is on it; the coremap records it for the page of the
    current process it was asked for; and no page has lost its contents. *)
Theorem coremap_alloc_exclusive W Y va s pa s' : kinv ∅ W Y s -> coremap_alloc va s = Done pa s' ->
  exists p i c, procs s !! curproc s = Some p /\ pa = Z.of_nat i * PAGE_SIZE /\
    coremap s' !! i = Some c /\ ce_is_free c = false /\ ce_as c = p_addrspace p /\
    ce_vaddr c = va /\ ce_paddr c = pa /\ kva i ∉ pages W Y s' /\
    (forall t j e, pte s' t j = Some e -> resident e -> pte_paddr e <> pa) /\ transparent s s'.
Proof.
  intros K H.
  destruct (coremap_alloc_inv W Y va s pa s' K H)
    as (p & i & sz & s2 & q & Hp & -> & K2 & R2 & -> & _).
  destruct (k_pin _ _ _ _ K2 i _ (lookup_singleton_eq _ _)) as (_ & Hc & Hf).
  exists p, i, (mkCe (p_addrspace p) va (Z.of_nat i * PAGE_SIZE) false sz). split_and!; try done.
  - intros Hin. destruct (k_pages _ _ _ _ K2 _ Hin) as (i' & <-%kva_inj & _ & _ & Hnone).
    by rewrite lookup_singleton_eq in Hnone.
  - intros t j e He Hr. destruct (k_res _ _ _ _ K2 t j e He Hr) as (f & -> & _ & _ & _ & Hnone).
    intros Heq. assert (f = i) as -> by (unfold PAGE_SIZE in *; lia).
    by rewrite lookup_singleton_eq in Hnone.
  - exact (krel_transparent _ _ R2).
Qed.

(** [coremap_kalloc] returns [npages] consecutive frames that nobody uses, marked
    as taken, and records their number in the first one for [coremap_kfree]; pages
    that had to be evicted for it keep their contents in the swap file. *)
Theorem coremap_kalloc_run W Y npages s pa s' : kinv ∅ W Y s -> 0 < npages ->
  coremap_kalloc npages s = Done pa s' ->
  kinv ∅ W Y s' /\ transparent s s' /\
  exists f : nat, pa = Z.of_nat f * PAGE_SIZE /\
    forall k, (f <= k < f + Z.to_nat npages)%nat -> ~ used ∅ W Y s' k /\
      exists c, coremap s' !! k = Some c /\ ce_is_free c = false /\ (k = f -> ce_alloc_size c = npages).
Proof.
  intros K Hn H. unfold coremap_kalloc in H. mgo H.
  destruct (coremap_kalloc_loop_inv ∅ W Y _ 0 npages s pa s' K Hn H) as (f & -> & _ & K' & R & _ & _ & Hk).
  split; [done|]. split; [by apply krel_transparent|]. by exists f.
Qed.

(** [coremap_kalloc] ends in every state: each turn of its outer loop that finds
    no run of free frames shortens the replacement queue. *)
Theorem coremap_kalloc_ends npages s : coremap_kalloc npages s <> OutOfFuel.
Proof. apply kalloc_terminates. Qed.

(** [free_frames] frees a range of entries and nothing else. *)
Lemma free_frames_spec n : forall i s s', free_frames i n s = Done tt s' ->
  exists cm, s' = set_coremap cm s /\ length cm = length (coremap s) /\
    forall k, cm !! k = if decide (i <= k < i + n)%nat then ce_set_free true <$> coremap s !! k
                        else coremap s !! k.
Proof.
  induction n as [|n IH]; intros i s s' H; cbn [free_frames] in H; mgo H.
  - exists (coremap s). split_and!; [by destruct s|done|]. intros k. by rewrite decide_False by lia.
  - destruct (IH _ _ _ H) as (cm & -> & Hlen & Hcm). cbn in Hlen, Hcm.
    exists cm. split; [done|]. split; [by rewrite Hlen, length_insert|].
    intros k. rewrite Hcm. destruct (decide (k = i)) as [->|Hne].
    + rewrite decide_False, decide_True by lia. rewrite E.
      by rewrite list_lookup_insert_eq by (by eapply lookup_lt_Some).
    + rewrite list_lookup_insert_ne by done. by repeat case_decide; try lia.
Qed.

(** Freeing kernel pages undoes their allocation: [coremap_kfree] at the address
    [coremap_kalloc] returned makes exactly the frames of that run free again. *)
Theorem kalloc_kfree_frames W Y npages s pa s1 s2 : kinv ∅ W Y s -> 0 < npages ->
  coremap_kalloc npages s = Done pa s1 -> coremap_kfree pa s1 = Done tt s2 ->
  forall k, coremap s2 !! k =
    if decide (pa / PAGE_SIZE <= Z.of_nat k < pa / PAGE_SIZE + npages)
    then ce_set_free true <$> coremap s1 !! k else coremap s1 !! k.
Proof.
  intros K Hn H1 H2. unfold coremap_kalloc in H1. mgo H1.
  destruct (coremap_kalloc_loop_inv ∅ W Y _ 0 npages s pa s1 K Hn H1) as (f & -> & _ & _ & _ & _ & _ & Hk).
  destruct (Hk f) as (_ & c & Hc & _ & Hsz); [lia|].
  unfold coremap_kfree in H2. mgo H2. unfold COREMAP_INDEX in *.
  rewrite Z.div_mul, Nat2Z.id in * by done. rewrite Hc in E0. inv E0. rewrite Hsz in H2 by done.
  apply free_frames_spec in H2 as (cm & -> & _ & Hcm). intros k. cbn. rewrite Hcm.
  by repeat case_decide; try lia.
Qed.

(** ** The swap file *)

(** a page written to the swap file and read back into any frame has the same
    bytes, the slot it went through was free before and is free again, and no other
    memory changes. *)
Theorem swap_roundtrip b s i s1 : swapfile_freeentries s = Some b -> wf b ->
  nbits b = SWAPFILE_MAX_PAGES -> Z.of_nat i < 2 ^ 17 ->
  swapfile_writepage (Z.of_nat i * PAGE_SIZE) (fun _ => mret tt) s = Done 0 s1 ->
  exists idx, 0 <= idx < SWAPFILE_MAX_PAGES /\ bit b idx = false /\
  forall f s2, Z.of_nat f < 2 ^ 17 -> swapfile_readpage (Z.of_nat f * PAGE_SIZE) idx s1 = Done 0 s2 ->
    (forall k, 0 <= k < PAGE_SIZE -> pmem s2 (Z.of_nat f * PAGE_SIZE + k) = pmem s (Z.of_nat i * PAGE_SIZE + k)) /\
    (forall a, ~ (Z.of_nat f * PAGE_SIZE <= a < Z.of_nat f * PAGE_SIZE + PAGE_SIZE) -> pmem s2 a = pmem s a) /\
    swapfile_freeentries s2 = Some b.
Proof.
  intros Hb Hwf Hn Hi H.
  destruct (swapfile_writepage_Done _ _ _ _ _ H) as (b0 & b' & idx & er & resid & fl & Hb0 & Ha & Hsw & Hw & Hor).
  rewrite Hb in Hb0. inv Hb0. destruct Hor as [(Hne & Heq & _)|(-> & _ & Hst)]; [congruence|]. mprim.
  destruct (bitmap_alloc_spec b0 Hwf) as (b1 & r & Hr & Hwf1 & Hn1 & Hspec). rewrite Ha in Hr. inv Hr.
  destruct Hspec as (Hrange & Hbit & _ & Hall). rewrite Hn in Hrange.
  exists idx. split; [done|]. split; [done|]. intros f s2 Hf H2.
  change SWAPFILE_MAX_PAGES with 2304 in Hrange.
  rewrite u32_small in Hw by (unfold is_u32, PAGE_SIZE; lia).
  rewrite kseg0_roundtrip in Hw by (unfold PAGE_SIZE; lia).
  destruct (vop_write_ok _ _ _ _ _ _ _ Hw) as (_ & Hsz & _ & Hbytes & _); [unfold PAGE_SIZE; lia..|].
  eapply (swapfile_readpage_spec f idx _ b1) in H2 as (s3 & b2 & Hinto & -> & [(? & _)|(_ & Hu & Hk)]); [done| |done|done|lia].
  destruct Hinto as (m & f' & v & -> & Hm & _). split_and!.
  - intros k Hrk. rewrite Hk; [|done|].
    + cbn [fs set_vms set_fs set_swapfile_freeentries swapfile]. by apply Hbytes.
    + cbn [fs set_vms set_fs set_swapfile_freeentries swapfile]. rewrite Hsz. lia.
  - intros a Ha'. cbn [pmem set_swapfile_freeentries set_pmem]. by rewrite Hm.
  - cbn [swapfile_freeentries set_swapfile_freeentries].
    assert (Hround : bitmap_unmark b1 idx = Ok b0) by (by apply bitmap_alloc_unmark).
    congruence.
Qed.

(** ** The kernel heap *)

(** C24: the block [kmalloc] returns for a small request has at least the size asked
    for and overlaps no block handed out before: every block that was handed out when
    it was called, queue nodes of the VM system apart, is still handed out, with its
    size, and lies outside the new one; so does every block, the VM system's included,
    that is handed out afterwards. The system invariant holds afterwards, and no user
    page has changed, even when pages were evicted to make room. *)
Theorem kmalloc_fresh_block W Y s sz r s' : kinv ∅ W Y s -> 0 <= sz < LARGEST_SUBPAGE_SIZE ->
  kmalloc sz s = Done r s' ->
  kinv ∅ W Y s' /\ transparent s s' /\
  (forall q m, block (kheap_st s) q m -> ~ vm_held s q -> block (kheap_st s') q m) /\
  (r = 0 \/ exists n, sz <= n /\ block (kheap_st s') r n /\ ~ vm_held s' r /\
     (forall q m, block (kheap_st s) q m -> ~ vm_held s q -> q + m <= r \/ r + n <= q) /\
     (forall q m, block (kheap_st s') q m -> q <> r -> q + m <= r \/ r + n <= q)).
Proof.
  intros K Hsz H.
  destruct (kmalloc_small_inv (FL := kstate_free_laws ∅) W Y s sz r s' K Hsz H) as (K' & R & Kb & Hr).
  split; [done|]. split; [by apply krel_transparent|]. split; [intros q m Hb Hh; by apply Kb|].
  destruct Hr as [->|(Hr0 & Hnh & Hnew & n & Hn & Hb)]; [by left|]. right. exists n. split_and!; try done.
  - intros q m Hq Hh. destruct (Kb q m Hq Hh) as [Hq' _].
    exact (block_disjoint _ q m r n (k_heap _ _ _ _ K') Hq' Hb (Hnew q m Hq Hh)).
  - intros q m Hq Hne. exact (block_disjoint _ q m r n (k_heap _ _ _ _ K') Hq Hb Hne).
Qed.

(** A request of more than one page is served with whole pages that lie outside
    every kernel allocation made so far and outside the heap. *)
Theorem kmalloc_fresh_pages W Y s sz r s' : kinv ∅ W Y s -> PAGE_SIZE < sz ->
  sz + PAGE_SIZE - 1 < 2 ^ 32 -> kmalloc sz s = Done r s' -> r <> 0 ->
  let n := DIVROUNDUP sz PAGE_SIZE in
  sz <= n * PAGE_SIZE /\ page_range r n ## W /\ page_range r n ## Y /\
  page_range r n ## owned (kheap_st s') /\ kinv ∅ (page_range r n ∪ W) Y s' /\ transparent s s'.
Proof.
  intros K Hsz Hov H Hr n.
  assert (Hn : n = (sz + PAGE_SIZE - 1) / PAGE_SIZE).
  { unfold n, DIVROUNDUP. rewrite u32_small; [done|]. unfold is_u32, PAGE_SIZE in *. lia. }
  assert (1 < n /\ sz <= n * PAGE_SIZE) as [Hn1 Hcov].
  { rewrite Hn. unfold PAGE_SIZE in *. assert (2 <= (sz + 4096 - 1) / 4096) by (apply Z.div_le_lower_bound; lia). split; [lia|].
    pose proof (Z.div_mod (sz + 4096 - 1) 4096). pose proof (Z.mod_pos_bound (sz + 4096 - 1) 4096). lia. }
  destruct (kmalloc_large_inv (FL := kstate_free_laws ∅) W Y s sz r s' K) as (R & Hcase);
    [unfold LARGEST_SUBPAGE_SIZE, PAGE_SIZE in *; lia|done|done|].
  destruct Hcase as [[? _]|(_ & _ & _ & Hmany)]; [done|].
  destruct Hmany as [Hd K']; [fold n; lia|]. fold n in Hd, K'.
  change (kinv ∅ (page_range r n ∪ W) Y s') in K'. change (krel s s') in R.
  destruct (k_disj _ _ _ _ K') as (H1 & H2 & _).
  split; [done|]. split; [done|]. clear -H1 H2 K' R VL.
  split; [set_solver|]. split; [set_solver|]. split; [done|]. by apply krel_transparent.
Qed.

(** [kfree] of a block that the VM system does not hold keeps the invariant and
    all user pages; the queue nodes and segment tables in use stay allocated. *)
Theorem kfree_keeps_system W Y s p s' : kinv ∅ W Y s -> allocated (kheap_st s) p -> ~ vm_held s p ->
  kfree p s = Done tt s' ->
  kinv ∅ W Y s' /\ transparent s s' /\ forall q, vm_held s q -> allocated (kheap_st s') q.
Proof.
  intros K Ha Hh H.
  destruct (kfree_inv (FL := kstate_free_laws ∅) W Y s p s' tt K Hh Ha H) as (K' & R & _ & Hheld & _).
  split; [done|]. split; [by apply krel_transparent|].
  intros q Hq. apply (k_held _ _ _ _ K'). by apply Hheld.
Qed.

(** ** Address spaces *)

(** The address space [as_create] returns is a new one, with an empty page table
    and a segment table of its own; no other address space or page changes. *)
Theorem as_create_fresh W Y s junk r s' : kinv ∅ W Y s -> as_create junk s = Done r s' -> r <> 0 ->
  kinv ∅ (page_range r 2 ∪ W) Y s' /\ transparent s s' /\ addrspaces s !! r = None /\
  exists segs, segtabs s !! segs = None /\ segtabs s' = <[segs := snd junk]> (segtabs s) /\
    addrspaces s' = <[r := mkAs segs (replicate (Z.to_nat OUTER_PT_SIZE) 0)]> (addrspaces s).
Proof.
  intros K H Hr. destruct (as_create_inv W Y s junk r s' K H) as (T & _ & [(? & _)|(_ & K' & Hn & Hx)]); [done|].
  done.
Qed.

End MemTheorems.

(** ** The theorems on the example machine

    [full] has no free frame, so every allocation evicts. *)
#[local] Opaque full running.

Definition replaced : kstate := after coremap_replace full.
Lemma replaced_runs : coremap_replace full = Done 0xa000 replaced.
Proof. refine (returns_runs 0xa000 coremap_replace full _). vm_compute. reflexivity. Qed.
#[local] Opaque replaced.

Lemma coremap_replace_fifo_witness : exists t j e e', pte full t j = Some e /\ resident e /\
  pte_paddr e = 0xa000 /\ pte replaced t j = Some e' /\ swapped e' /\
  (forall k, 0 <= k < PAGE_SIZE -> content replaced e' k = content full e k) /\ pmem replaced = pmem full.
Proof.
  destruct full_inv as [[W K] _].
  destruct (coremap_replace_fifo ∅ W ∅ full 0xa000 replaced K replaced_runs)
    as (_ & (n & q & t & j & e & e' & _ & _ & _ & _ & He & Hr & Hpa & He' & Hs & Hc & _) & _ & Hm & _).
  exists t, j, e, e'. auto 10.
Defined.

Lemma coremap_replace_stale_tlb_witness :
  translate (hwtlb replaced) 0x7ffff000 = Some (0xa000, true) /\ free_at (coremap replaced) 10.
Proof.
  destruct full_inv as [[W K] _].
  refine (coremap_replace_stale_tlb ∅ W ∅ full 0xa000 replaced 0x7ffff000 true K replaced_runs _).
  vm_compute. reflexivity.
Defined.

(** The frames of a destroyed address space stay in the coremap and in the replacement
    queue, so the next eviction follows a pointer to freed memory. *)
Definition destroyed : kstate := after (as_destroy space) full.
Lemma destroyed_runs : as_destroy space full = Done tt destroyed.
Proof. refine (returns_runs tt (as_destroy space) full _). vm_compute. reflexivity. Qed.
Lemma destroyed_replace : coremap_replace destroyed = Halt (Undefined "address space").
Proof. vm_compute. reflexivity. Qed.

Definition alloced : kstate := after (coremap_alloc 0x7fff7000) full.
Lemma alloced_runs : coremap_alloc 0x7fff7000 full = Done 0xa000 alloced.
Proof. refine (returns_runs 0xa000 (coremap_alloc 0x7fff7000) full _). vm_compute. reflexivity. Qed.
#[local] Opaque alloced.

Lemma coremap_alloc_exclusive_witness : coremap_alloc 0x7fff7000 full = Done 0xa000 alloced /\
  forall t j e, pte alloced t j = Some e -> resident e -> pte_paddr e <> 0xa000.
Proof.
  destruct full_inv as [[W K] _].
  destruct (coremap_alloc_exclusive W ∅ 0x7fff7000 full 0xa000 alloced K alloced_runs)
    as (p & i & c & _ & _ & _ & _ & _ & _ & _ & _ & H & _).
  exact (conj alloced_runs H).
Defined.

(** Three frames in a row: three evictions. *)
Definition kalloced : kstate := after (coremap_kalloc 3) full.
Lemma kalloced_runs : coremap_kalloc 3 full = Done 0xa000 kalloced.
Proof. refine (returns_runs 0xa000 (coremap_kalloc 3) full _). vm_compute. reflexivity. Qed.
#[local] Opaque kalloced.

Lemma coremap_kalloc_run_witness : transparent full kalloced /\ exists W,
  forall k, (10 <= k < 13)%nat -> ~ used ∅ W ∅ kalloced k.
Proof.
  destruct full_inv as [[W K] _].
  destruct (coremap_kalloc_run W ∅ 3 full 0xa000 kalloced K ltac:(lia) kalloced_runs)
    as (_ & T & f & Hf & Hk).
  split; [exact T|]. exists W. intros k Hr. apply Hk. unfold PAGE_SIZE in Hf. lia.
Defined.

Definition kfreed : kstate := after (coremap_kfree 0xa000) kalloced.
Lemma kfreed_runs : coremap_kfree 0xa000 kalloced = Done tt kfreed.
Proof. refine (returns_runs tt (coremap_kfree 0xa000) kalloced _). vm_compute. reflexivity. Qed.
#[local] Opaque kfreed.

Lemma kalloc_kfree_frames_witness : coremap_kfree 0xa000 kalloced = Done tt kfreed /\
  forall k, coremap kfreed !! k =
    if decide (0xa000 / PAGE_SIZE <= Z.of_nat k < 0xa000 / PAGE_SIZE + 3)
    then ce_set_free true <$> coremap kalloced !! k else coremap kalloced !! k.
Proof.
  destruct full_inv as [[W K] _].
  split; [exact kfreed_runs|].
  exact (kalloc_kfree_frames W ∅ 3 full 0xa000 kalloced kfreed K ltac:(lia) kalloced_runs kfreed_runs).
Defined.

Definition written : kstate := after (swapfile_writepage (Z.of_nat 11 * PAGE_SIZE) (fun _ => mret tt)) full.
Lemma written_runs : swapfile_writepage (Z.of_nat 11 * PAGE_SIZE) (fun _ => mret tt) full = Done 0 written.
Proof. refine (returns_runs 0 (swapfile_writepage (Z.of_nat 11 * PAGE_SIZE) (fun _ => mret tt)) full _). vm_compute. reflexivity. Qed.
#[local] Opaque written.

Lemma swap_roundtrip_witness : exists idx, 0 <= idx < SWAPFILE_MAX_PAGES /\
  forall s2, swapfile_readpage (Z.of_nat 12 * PAGE_SIZE) idx written = Done 0 s2 ->
  forall k, 0 <= k < PAGE_SIZE -> pmem s2 (Z.of_nat 12 * PAGE_SIZE + k) = pmem full (Z.of_nat 11 * PAGE_SIZE + k).
Proof.
  destruct full_inv as [[W K] _]. destruct (k_swap _ _ _ _ K) as (_ & (b & Hb & Hwf & Hn & _) & _).
  destruct (swap_roundtrip b full 11 written Hb Hwf Hn ltac:(done) written_runs) as (idx & Hi & _ & H).
  exists idx. split; [exact Hi|]. intros s2 H2. destruct (H 12%nat s2 ltac:(done) H2) as (Hk & _). exact Hk.
Defined.

Definition kmalloced : kstate := after (kmalloc 100) full.
Definition kmalloced_at : Z := result 0 (kmalloc 100) full.
Lemma kmalloced_runs : kmalloc 100 full = Done kmalloced_at kmalloced.
Proof. refine (returns_runs kmalloced_at (kmalloc 100) full _). vm_compute. reflexivity. Qed.
Lemma kmalloced_nonnull : kmalloced_at <> 0.
Proof. vm_compute. discriminate. Qed.
#[local] Opaque kmalloced kmalloced_at.

Lemma kmalloc_fresh_block_witness : exists n, 100 <= n /\ block (kheap_st kmalloced) kmalloced_at n /\
  transparent full kmalloced /\
  forall q m, block (kheap_st full) q m -> ~ vm_held full q -> q + m <= kmalloced_at \/ kmalloced_at + n <= q.
Proof.
  destruct full_inv as [[W K] _].
  destruct (kmalloc_fresh_block W ∅ full 100 kmalloced_at kmalloced K ltac:(done) kmalloced_runs)
    as (_ & T & _ & [H0|(n & Hn & Hb & _ & Hd & _)]).
  - destruct (kmalloced_nonnull H0).
  - exists n. split; [exact Hn|]. split; [exact Hb|]. split; [exact T|exact Hd].
Defined.

Definition kmalloced2 : kstate := after (kmalloc 8000) full.
Definition kmalloced2_at : Z := result 0 (kmalloc 8000) full.
Lemma kmalloced2_runs : kmalloc 8000 full = Done kmalloced2_at kmalloced2.
Proof. refine (returns_runs kmalloced2_at (kmalloc 8000) full _). vm_compute. reflexivity. Qed.
Lemma kmalloced2_nonnull : kmalloced2_at <> 0.
Proof. vm_compute. discriminate. Qed.
#[local] Opaque kmalloced2 kmalloced2_at.

Lemma kmalloc_fresh_pages_witness :
  page_range kmalloced2_at 2 ## owned (kheap_st kmalloced2) /\ transparent full kmalloced2.
Proof.
  destruct full_inv as [[W K] _].
  destruct (kmalloc_fresh_pages W ∅ full 8000 kmalloced2_at kmalloced2 K ltac:(done) ltac:(done)
              kmalloced2_runs kmalloced2_nonnull) as (_ & _ & _ & H & _ & T).
  split; [exact H|exact T].
Defined.

(** The block that [kmalloc] returned above is given back. *)
Definition freed : kstate := after (kfree kmalloced_at) kmalloced.
Lemma freed_runs : kfree kmalloced_at kmalloced = Done tt freed.
Proof. refine (returns_runs tt (kfree kmalloced_at) kmalloced _). vm_compute. reflexivity. Qed.
#[local] Opaque freed.

Lemma kfree_keeps_system_witness : transparent kmalloced freed.
Proof.
  destruct full_inv as [[W K] _].
  destruct (kmalloc_small_inv (FL := kstate_free_laws ∅) W ∅ full 100 kmalloced_at kmalloced K ltac:(done) kmalloced_runs)
    as (K1 & _ & _ & [H0|(_ & Hh & _ & n & _ & Hb)]); [destruct (kmalloced_nonnull H0)|].
  destruct (kfree_keeps_system W ∅ kmalloced kmalloced_at freed K1 (block_allocated _ _ _ Hb) Hh freed_runs)
    as (_ & T & _).
  exact T.
Defined.

Definition spaced : kstate := after (as_create junk) full.
Definition spaced_at : Z := result 0 (as_create junk) full.
Lemma spaced_runs : as_create junk full = Done spaced_at spaced.
Proof. refine (returns_runs spaced_at (as_create junk) full _). vm_compute. reflexivity. Qed.
Lemma spaced_nonnull : spaced_at <> 0.
Proof. vm_compute. discriminate. Qed.
#[local] Opaque spaced spaced_at.

Lemma as_create_fresh_witness : addrspaces full !! spaced_at = None /\ transparent full spaced.
Proof.
  destruct full_inv as [[W K] _].
  destruct (as_create_fresh W ∅ full junk spaced_at spaced K spaced_runs spaced_nonnull) as (_ & T & H & _).
  split; [exact H|exact T].
Defined.

(** A program with a register-information header and one segment to load, at offset
    0x94 of the file, for address 0x400000. *)
Definition elf_bytes : list Z :=
  [0x7f; 0x45; 0x4c; 0x46; 1; 2; 1; 0; 0; 0; 0; 0; 0; 0; 0; 0;
   0; 2; 0; 8; 0; 0; 0; 1; 0; 0x40; 0; 0x10; 0; 0; 0; 52; 0; 0; 0; 0;
   0; 0; 0; 0; 0; 52; 0; 32; 0; 2; 0; 0; 0; 0; 0; 0;
   0x70; 0; 0; 0; 0; 0; 0; 0x74; 0; 0; 0; 0; 0; 0; 0; 0; 0; 0; 0; 24; 0; 0; 0; 24; 0; 0; 0; 4; 0; 0; 0; 4;
   0; 0; 0; 1; 0; 0; 0; 0x94; 0; 0x40; 0; 0; 0; 0x40; 0; 0; 0; 0; 0x10; 0; 0; 0; 0x20; 0; 0; 0; 0; 5; 0; 0; 0x10; 0].
Definition elf_files : files := mkFiles (fun v => if v =? 3 then 0x1100 else 0)
  (fun _ a => nth (Z.to_nat a) elf_bytes (a mod 251)).
Definition program : kstate := set_fs elf_files running.
Definition loaded_program : kstate := after (load_elf 3) program.
Lemma loaded_program_runs : load_elf 3 program = Done (0, Some 0x400010) loaded_program.
Proof. refine (returns_runs (0, Some 0x400010) (load_elf 3) program _). vm_compute. reflexivity. Qed.
#[local] Opaque loaded_program.

Lemma load_elf_sets_up_segments_witness :
  loaded (fs program) 3 space (fun k => fbyte (fs program) 3 k) 1 loaded_program.
Proof.
  destruct (load_elf_sets_up_segments 3 program (Some 0x400010) loaded_program loaded_program_runs)
    as (_ & _ & _ & H).
  set (p := default junk_proc (procs program !! curproc program)).
  assert (Hp : procs program !! curproc program = Some p) by (vm_compute; reflexivity).
  assert (Hsp : p_addrspace p = space) by (vm_compute; reflexivity).
  rewrite <- Hsp. apply (H p Hp); [vm_compute; discriminate|].
  split; [discriminate|vm_compute; reflexivity].
Defined.

End MemTheorems.
