(* ===== verification/Usermode.v ===== *)
(** * Entering user mode and coming back: kern/syscall/runprogram.c, kern/arch/mips/locore/trap.c

    [runprogram] from opening the file to the trap frame it enters user mode with; the
    exceptions that [mips_trap] handles with [vm_fault] (interrupts are in [Spl] and [Threads]);
    and the processor's side, a load that misses the TLB, traps and is tried again.  Together:
    the program that was started reads the bytes of its file. *)
From S2P Require Import Prelude Bitmap Vmstats Tlb Ram Segments Kmalloc KmallocProofs Machine Swapfile Coremap.
From S2P Require Import Vm Addrspace VmInv Replacement FaultProofs AddrspaceProofs FirstTouch Termination ExampleMachine MemTheorems.
Import Bitmap Vmstats Tlb Segments Kmalloc KmallocProofs Machine Swapfile Coremap Vm Addrspace VmInv
  Replacement FaultProofs AddrspaceProofs FirstTouch Termination.

Module Usermode.

(** *** <mips/specialreg.h>, <mips/trapframe.h> *)
Definition CST_IEp : Z := 0x4.
Definition CST_KUp : Z := 0x8.
Definition CST_IRQMASK : Z := 0xff00.
Definition CCA_CODE : Z := 0x3c.
Definition CCA_CODESHIFT : Z := 2.
Definition EX_IRQ : Z := 0.
Definition EX_MOD : Z := 1.
Definition EX_TLBL : Z := 2.
Definition EX_TLBS : Z := 3.
Definition EX_IBE : Z := 6.
Definition EX_DBE : Z := 7.
Definition EX_SYS : Z := 8.
Definition NTRAPCODES : Z := 13.

(** struct trapframe: the registers the kernel reads or sets. *)
Record trapframe : Type := mkTf { tf_vaddr : Z; tf_status : Z; tf_cause : Z; tf_a0 : Z; tf_a1 : Z; tf_a2 : Z; tf_sp : Z; tf_epc : Z }.
Definition set_epc (x : Z) (tf : trapframe) : trapframe :=
  mkTf (tf_vaddr tf) (tf_status tf) (tf_cause tf) (tf_a0 tf) (tf_a1 tf) (tf_a2 tf) (tf_sp tf) x.

(** The frame with which [mips_usermode] leaves the kernel. *)
Definition enter_new_process (argc argv env stack entry : Z) : trapframe :=
  mkTf 0 (Z.lor (Z.lor CST_IRQMASK CST_IEp) CST_KUp) 0 argc argv env stack entry.

Section Usermode.
Context {VO : VnodeOps}.

Definition O_RDONLY : Z := 0.

(** [runprogram] returns an error or goes to user mode. *)
Inductive launch : Type := Failed (result : Z) | UserMode (tf : trapframe).

Definition close_file (v : Z) : M kstate unit := modify (fun s => set_fs (vfs_close (fs s) v) s).

(** As configured: OPT_PAGING keeps the file open, OPT_ARGS is off. *)
Definition runprogram (junk : Z * list segment) (progname : string) : M kstate launch :=
  f ← gets fs;
  let '(result, v, f') := vfs_open f progname O_RDONLY in
  modify (set_fs f');;
  if negb (result =? 0) then mret (Failed result) else
  old ← proc_getas;
  kassert "proc_getas() == NULL" (old =? 0);;
  as_ ← as_create junk;
  if as_ =? 0 then close_file v;; mret (Failed ENOMEM) else
  proc_setas as_;;
  as_activate;;
  '(result, entrypoint) ← load_elf v;
  if negb (result =? 0) then close_file v;; mret (Failed result) else
  '(result, stackptr) ← as_define_stack as_;
  if negb (result =? 0) then mret (Failed result) else
  entry ← deref "entrypoint" entrypoint;
  mret (UserMode (enter_new_process 0 0 0 stackptr entry)).

(** A fatal fault of a user program stops the kernel. *)
Definition kill_curthread (code : Z) : M kstate unit :=
  kassert "code < NTRAPCODES" (code <? NTRAPCODES);;
  kassert "0" (negb ((code =? EX_IRQ) || (code =? EX_IBE) || (code =? EX_DBE) || (code =? EX_SYS)));;
  panic "I don't know how to handle this".

(** The exceptions of [mips_trap]; [badfaultfunc] is the thread's [tm_badfaultfunc]. *)
Definition exception (badfaultfunc : Z) (tf : trapframe) : M kstate trapframe :=
  let code := Z.shiftr (Z.land (tf_cause tf) CCA_CODE) CCA_CODESHIFT in
  let iskern := Z.land (tf_status tf) CST_KUp =? 0 in
  let fault ft := r ← vm_fault ft (tf_vaddr tf); mret (r =? 0) in
  done ← (if code =? EX_MOD then fault VM_FAULT_READONLY
          else if code =? EX_TLBL then fault VM_FAULT_READ
          else if code =? EX_TLBS then fault VM_FAULT_WRITE
          else if (code =? EX_IBE) || (code =? EX_DBE) then panic "Bus error exception" else mret false);
  if done : bool then mret tf
  else if negb iskern then kill_curthread code;; mret tf
  else if negb (badfaultfunc =? 0) then mret (set_epc badfaultfunc tf)
  else panic "I can't handle this... I think I'll just die now...".

(** The processor in user mode loads a byte: through the TLB, or it traps and tries again. *)
Definition miss_frame (va epc : Z) : trapframe :=
  mkTf va (Z.lor (Z.lor CST_IRQMASK CST_IEp) CST_KUp) (Z.shiftl EX_TLBL CCA_CODESHIFT) 0 0 0 0 epc.
Fixpoint user_load (fuel : nat) (epc va : Z) : M kstate Z :=
  match fuel with
  | O => fun _ => OutOfFuel
  | S fuel =>
      s ← get;
      match translate (hwtlb s) (Z.land va PAGE_FRAME) with
      | Some (pa, _) => mret (pmem s (pa + va mod PAGE_SIZE))
      | None => exception 0 (miss_frame va epc);; user_load fuel epc va
      end
  end.
End Usermode.

(** ** Starting a program *)

(** Opening a file for reading changes the contents of no file. *)
Class OpenLaws {VO : VnodeOps} {VL : VnodeLaws} : Prop := {
  open_ok f path e v f' : vfs_open f path O_RDONLY = (e, v, f') -> same_files f f' }.

Section Start.
Context {VO : VnodeOps} {VL : VnodeLaws}.

(** What loading does to the machine: it reads files and fills in segments. *)
Record loading (W Y : gset Z) (s s' : kstate) : Prop := {
  ld_inv : kinv ∅ W Y s';
  ld_segs : segs_ok s';
  ld_transparent : transparent s s';
  ld_files : same_files (fs s) (fs s');
  ld_same : addrspaces s' = addrspaces s /\ hwtlb s' = hwtlb s /\ procs s' = procs s /\ curproc s' = curproc s /\ swapfile s' = swapfile s }.

Lemma same_files_refl f : same_files f f.
Proof. by split. Qed.

Lemma loading_trans W Y s1 s2 s3 : loading W Y s1 s2 -> loading W Y s2 s3 -> loading W Y s1 s3.
Proof.
  intros [_ _ T1 F1 (?&?&?&?&?)] [K S T2 F2 (?&?&?&?&?)].
  split; [done|done|by eapply transparent_trans|by eapply same_files_trans|split_and!; congruence].
Qed.

Lemma transparent_pte s s' : (forall t j, pte s' t j = pte s t j) -> (forall t j e k, pte s t j = Some e -> pte_valid e = true -> 0 <= k < PAGE_SIZE -> content s' e k = content s e k) -> transparent s s'.
Proof. intros Hp Hc t j e He Hv. exists e. rewrite Hp. split_and!; [done|done|]. intros k Hk. by eapply Hc. Qed.

Lemma loading_refl W Y s : kinv ∅ W Y s -> segs_ok s -> loading W Y s s.
Proof. intros K Hs. split; [done|done|by apply transparent_pte|apply same_files_refl|done]. Qed.

Lemma kinv_set_fs W Y s f : kinv ∅ W Y s -> fsize (fs s) (swapfile s) <= fsize f (swapfile s) -> kinv ∅ W Y (set_fs f s).
Proof. intros K H. exact (kinv_env ∅ W Y s (pmem s) f (vms s) (hwtlb s) K H). Qed.

Lemma loading_fs W Y s f : kinv ∅ W Y s -> segs_ok s -> same_files (fs s) f -> loading W Y s (set_fs f s).
Proof.
  intros K Hs [Hsz Hby]. split; [|done| |done|done].
  - apply kinv_set_fs; [done|rewrite Hsz; lia].
  - apply transparent_pte; [done|]. intros t j e k He Hv Hk. unfold content. cbn [fs set_fs swapfile pmem]. destruct (pte_swapped e) eqn:Hsw; [|done].
    destruct (k_swap _ _ _ _ K) as (_ & (b & _ & _ & _ & Hall) & _). destruct (Hall t j e He) as (H1 & _ & H2); [by split|]. apply Hby. unfold PAGE_SIZE in *. lia.
Qed.

Lemma read_struct_loading W Y v len off s r s' : kinv ∅ W Y s -> segs_ok s -> 0 <= off -> 0 <= len -> read_struct v len off s = Done r s' -> loading W Y s s'.
Proof.
  intros K Hs Ho Hl H. unfold read_struct in H. destruct (vop_read _ _ _ _) as [[[e0 r0] d0] f0] eqn:Hv. inv H.
  destruct (vop_read_ok _ _ _ _ _ _ _ _ Hv Ho Hl) as (_ & Hz & Hb & _). by apply loading_fs.
Qed.

Lemma define_region_loading W Y s as_ i va sz r w x v off res s' : kinv ∅ W Y s -> segs_ok s -> is_u32 off ->
  as_define_region as_ i va sz r w x v off s = Done res s' -> loading W Y s s'.
Proof.
  intros K Hs Ho H. split; [by eapply as_define_region_inv|by eapply as_define_region_segs_ok|..];
    apply as_define_region_eq in H as (_ & a & tab & _ & _ & _ & ->); [by apply transparent_pte|apply same_files_refl|done].
Qed.

Lemma load_phdrs_loading W Y v as_ eh n : forall i s r s', kinv ∅ W Y s -> segs_ok s -> load_phdrs v as_ eh i n s = Done r s' -> loading W Y s s'.
Proof.
  induction n as [|n IH]; intros i s r s' K Hs H; cbn [load_phdrs] in H.
  { mprim. by apply loading_refl. }
  mgo H. destruct ret as [[er resid] d]. assert (L : loading W Y s s0) by (eapply read_struct_loading; [done|done| | |exact E]; [apply u32_range|done]).
  destruct (negb (er =? 0)); [by mprim|]. destruct (negb (resid =? 0)); [by mprim|].
  destruct (_ || _); [eapply loading_trans; [exact L|eapply IH; [apply L|apply L|exact H]]|]. destruct (negb _); [by mprim|]. mgo H.
  assert (L1 : loading W Y s s1) by (eapply loading_trans; [exact L|eapply define_region_loading; [apply L|apply L|apply be32_range|exact E0]]).
  destruct (negb (ret =? 0)); [by mprim|]. eapply loading_trans; [exact L1|eapply IH; [apply L1|apply L1|exact H]].
Qed.

Lemma load_elf_loading W Y v s r s' : kinv ∅ W Y s -> segs_ok s -> load_elf v s = Done r s' -> loading W Y s s'.
Proof.
  intros K Hs H. unfold load_elf in H. mgo H. apply proc_getas_Done in E as (-> & _).
  destruct ret0 as [[er resid] d]. assert (L : loading W Y s s1) by (eapply read_struct_loading; [done|done| | |exact E0]; done).
  destruct (negb (er =? 0)); [by mprim|]. destruct (negb (resid =? 0)); [by mprim|]. destruct (negb (ehdr_ok d)); [by mprim|]. mgo H.
  assert (L1 : loading W Y s s0) by (eapply loading_trans; [exact L|eapply load_phdrs_loading; [apply L|apply L|exact E]]).
  destruct (negb (ret0 =? 0)); [by mprim|]. unfold as_prepare_load, as_complete_load in H. mgo H. cbn [negb Z.eqb] in H. mgo H. cbn [negb Z.eqb] in H. by mprim.
Qed.

Lemma same_files_sym f f' : same_files f f' -> same_files f' f.
Proof. intros [S B]. split; [done|]. intros v a Ha. rewrite B; [done|by rewrite <- S]. Qed.

(** After a reset the TLB has no entry for a user page. *)
Definition tlb_shape (t : tlb) : Prop := Z.of_nat (length (entries t)) = NUM_TLB /\ 0 <= next_victim t < NUM_TLB.
Definition user_page (va : Z) : Prop := 0 <= va < 2 ^ 31 /\ Z.land va TLBHI_VPAGE = va.

Lemma reset_kernel : Forall (fun e => 2 ^ 31 <= Z.land (fst e) TLBHI_VPAGE) reset_entries.
Proof. apply (bool_decide_unpack _). by vm_compute. Qed.
Lemma reset_entries_eq t vs : tlb_shape t -> entries (fst (vmtlb_reset t vs)) = reset_entries.
Proof. intros [Hl _]. destruct (reset_loop (Z.to_nat NUM_TLB) 0 t) as [He _]; [lia|done|]. exact He. Qed.
Lemma reset_miss t vs va : tlb_shape t -> user_page va -> tlb_wf (fst (vmtlb_reset t vs)) /\ Forall (fun e => ~ matches va e) (entries (fst (vmtlb_reset t vs))).
Proof.
  intros Ht [Hr _]. split; [|rewrite reset_entries_eq by done].
  - destruct Ht as [Hl Hv]. pose proof (vmtlb_reset_invalidates t vs Hl Hv) as Hwf. by destruct (vmtlb_reset t vs), Hwf.
  - eapply Forall_impl; [exact reset_kernel|]. intros e Hk Hm. cbv beta in Hk. unfold matches in Hm. lia.
Qed.

Lemma as_activate_eq s r s' : as_activate s = Done r s' -> forall p, procs s !! curproc s = Some p -> curproc s <> 0 -> p_addrspace p <> 0 ->
  s' = set_hwtlb (fst (vmtlb_reset (hwtlb s) (vms s))) (set_vms (snd (vmtlb_reset (hwtlb s) (vms s))) s).
Proof.
  intros H p Hp Hc Ha. unfold as_activate in H. mgo H. apply proc_getas_Done in E as (-> & _ & Hg). rewrite (Hg p Hp Hc) in H.
  rewrite (proj2 (Z.eqb_neq _ _) Ha) in H. mprim. by destruct (vmtlb_reset _ _).
Qed.

(** The state in which the program runs: the file [v] is loaded in the new address space
    [as_], no page of it is there yet, no other process notices. *)
Record ready (W Y : gset Z) (s s' : kstate) (v as_ : Z) (tf : trapframe) : Prop := {
  rd_inv : kinv ∅ W Y s';
  rd_segs : segs_ok s';
  rd_transparent : transparent s s';
  rd_fresh : addrspaces s !! as_ = None;
  rd_proc : curproc s' = curproc s /\ exists p, procs s !! curproc s = Some p /\ p_addrspace p = 0 /\ procs s' = <[curproc s := set_p_addrspace as_ p]> (procs s);
  rd_swapfile : swapfile s' = swapfile s;
  rd_header : SIZEOF_EHDR <= fsize (fs s') v /\ ehdr_ok (fbyte (fs s') v) = true;
  rd_frame : tf = enter_new_process 0 0 0 USERSTACK (e_entry (fbyte (fs s') v));
  rd_segments : forall k, 0 <= k < e_phnum (fbyte (fs s') v) -> k <> 3 -> loaded (fs s') v as_ (fbyte (fs s') v) k s';
  rd_stack : exists g, has_segment s' as_ 2 (stack_segment g USERSTACK);
  rd_nothing : forall va, user_page va -> tlb_miss va s' /\ untouched s' as_ va }.

(** A new address space is in place and its TLB is empty. *)
Lemma new_space W Y junk s as_ s1 p r s2 r' s3 : kinv ∅ W Y s -> segs_ok s -> Forall seg_ok (snd junk) -> tlb_shape (hwtlb s) -> curproc s <> 0 -> procs s !! curproc s = Some p ->
  as_create junk s = Done as_ s1 -> as_ <> 0 -> proc_setas as_ s1 = Done r s2 -> as_activate s2 = Done r' s3 ->
  exists W', W ⊆ W' /\ kinv ∅ W' Y s3 /\ segs_ok s3 /\ transparent s s3 /\ addrspaces s !! as_ = None /\ curproc s3 = curproc s /\ swapfile s3 = swapfile s /\
    procs s3 = <[curproc s := set_p_addrspace as_ p]> (procs s) /\
    (exists a, addrspaces s3 !! as_ = Some a /\ as_page_table a = replicate (Z.to_nat OUTER_PT_SIZE) 0) /\
    forall va, user_page va -> tlb_wf (hwtlb s3) /\ Forall (fun e => ~ matches va e) (entries (hwtlb s3)).
Proof.
  intros K Hs Hj Ht Hc Hp E1 Hne E2 E3.
  destruct (as_create_inv W Y s junk as_ s1 K E1) as (T & (_ & _ & Htlb & Hpr & Hcu & Hsw) & [(? & _)|(_ & K1 & Hfresh & segs & _ & Hst & Has)]); [done|].
  cbn in Htlb, Hpr, Hcu, Hsw. apply proc_setas_eq in E2 as (p' & Hp' & _ & ->).
  assert (p' = p) as -> by congruence. apply as_activate_eq with (p := set_p_addrspace as_ p) in E3; [|cbn; by rewrite lookup_insert_eq|cbn; by rewrite Hcu|done].
  cbn [hwtlb vms set_procs] in E3. subst s3. set (s2 := set_procs _ s1).
  assert (Hmiss : forall va, user_page va -> tlb_wf (fst (vmtlb_reset (hwtlb s1) (vms s1))) /\ Forall (fun e => ~ matches va e) (entries (fst (vmtlb_reset (hwtlb s1) (vms s1)))))
    by (intros va Hva; apply reset_miss; [by rewrite Htlb|done]).
  exists (page_range as_ 2 ∪ W). split; [apply union_subseteq_r|]. split_and!; try done; try (intros va Hva; by apply Hmiss).
  - assert (K2 : kinv ∅ (page_range as_ 2 ∪ W) Y s2) by (apply kinv_put_proc; [done|right; by eexists]).
    exact (kinv_env ∅ _ Y s2 (pmem s2) (fs s2) (snd (vmtlb_reset (hwtlb s1) (vms s1))) (fst (vmtlb_reset (hwtlb s1) (vms s1))) K2 ltac:(lia)).
  - intros x tab g Hx Hg. cbn in Hx. rewrite Hst in Hx. apply lookup_insert_Some in Hx as [[_ <-]|[_ Hx]]; [rewrite Forall_forall in Hj; by apply Hj|by eapply Hs].
  - cbn. by rewrite Hpr, Hcu.
  - cbn. rewrite Has. eexists. split; [apply lookup_insert_eq|done].
Qed.

Lemma untouched_empty W Y s as_ a va : kinv ∅ W Y s -> addrspaces s !! as_ = Some a -> as_page_table a = replicate (Z.to_nat OUTER_PT_SIZE) 0 -> untouched s as_ va.
Proof.
  intros K Ha He t j e Hs. unfold slot_of in Hs. destruct (as_ =? 0) eqn:E0; [done|]. rewrite Ha in Hs. cbn [mbind option_bind] in Hs. rewrite He in Hs.
  destruct (replicate _ _ !! _) as [t'|] eqn:El; [|done]. apply lookup_replicate in El as [-> _]. cbn in Hs. injection Hs as <- <-.
  unfold pte. by rewrite (no_table_0 _ _ _ _ K).
Qed.

(** [load_elf] and [as_define_stack] on an address space that is in place. *)
Lemma load_ready v as_ s p ep s1 res sp s2 : curproc s <> 0 -> procs s !! curproc s = Some p -> p_addrspace p = as_ -> same_files (fs s) (fs s1) ->
  load_elf v s = Done (0, ep) s1 -> as_define_stack as_ s1 = Done (res, sp) s2 ->
  res = 0 /\ sp = USERSTACK /\ SIZEOF_EHDR <= fsize (fs s2) v /\ ehdr_ok (fbyte (fs s2) v) = true /\ ep = Some (e_entry (fbyte (fs s2) v)) /\
  (forall k, 0 <= k < e_phnum (fbyte (fs s2) v) -> k <> 3 -> loaded (fs s2) v as_ (fbyte (fs s2) v) k s2) /\
  exists g, has_segment s2 as_ 2 (stack_segment g USERSTACK).
Proof.
  intros Hc Hp Has Hsame H1 H2. destruct (load_elf_sets_up_segments v s ep s1 H1) as (Hsz & Hok & -> & Hall). specialize (Hall p Hp Hc). rewrite Has in Hall. cbv beta in *.
  apply as_define_stack_eq in H2 as (-> & -> & a & tab & g & Ha & Ht & Hg & ->). cbn [fs set_segtabs].
  destruct (ehdr_ext (fun k => fbyte (fs s) v k) (fbyte (fs s1) v)) as (Eok & Een & Eoff & Ees & Enum).
  { intros k Hk. destruct Hsame as [_ Hb]. symmetry. apply Hb. lia. }
  pose proof (lookup_lt_Some _ _ _ Hg) as Hlen.
  pose proof (fun k g' => has_segment_define s1 as_ 2 g' (stack_segment g USERSTACK) k a tab Ha Ht ltac:(lia)) as Hdef. change (Z.to_nat 2) with 2%nat in Hdef.
  split_and!; [done|done|by rewrite (proj1 Hsame)|by rewrite <- Eok|by rewrite Een| |exists g; apply Hdef; by left].
  intros k Hk Hk3. rewrite <- Enum in Hk. destruct (loaded_same_files (fs s1) (fs s) v as_ (fbyte (fs s1) v) k s1) as [L1 L2].
  - by apply same_files_sym.
  - apply (loaded_ext _ _ _ (fun k => fbyte (fs s) v k)); [unfold phdr_offset; by rewrite Eoff, Ees|by apply Hall].
  - split; [done|]. destruct L2 as [L2|[L2 L3]]; [by left|right]. split; [done|]. apply Hdef. right. split; [lia|done].
Qed.

#[local] Hint Resolve get_as_terminates get_segments_terminates proc_getas_terminates get_curproc_terminates kfree_k_terminates kmalloc_k_terminates : terminates.
Lemma as_define_region_terminates as_ i va sz r w x v off : terminates (as_define_region as_ i va sz r w x v off).
Proof. unfold as_define_region, put_segtab. solve_terminates. Qed.
#[local] Hint Resolve as_define_region_terminates : terminates.
Lemma read_struct_terminates v len off : terminates (read_struct v len off).
Proof. intros s. unfold read_struct. by destruct (vop_read _ _ _ _) as [[[? ?] ?] ?]. Qed.
#[local] Hint Resolve read_struct_terminates : terminates.
Lemma load_phdrs_terminates v as_ eh n : forall i, terminates (load_phdrs v as_ eh i n).
Proof. induction n; intros i; cbn [load_phdrs]; solve_terminates. Qed.
#[local] Hint Resolve load_phdrs_terminates : terminates.
Lemma runprogram_terminates junk path : terminates (runprogram junk path).
Proof.
  unfold runprogram, as_create, put_as, put_segtab, proc_setas, update_curproc, as_activate, load_elf, as_prepare_load, as_complete_load, as_define_stack, close_file. solve_terminates.
Qed.

(** What [runprogram] leaves: an error with the file closed again, or a program that is ready. *)
Definition ran (W Y : gset Z) (path : string) (s : kstate) (r : launch) (s' : kstate) : Prop :=
  let '(e, v, f) := vfs_open (fs s) path O_RDONLY in
  let s0 := set_fs f s in
  match r with
  | Failed err => err <> 0 /\ (err = e /\ s' = s0 \/ e = 0 /\ exists W' s1, W ⊆ W' /\ kinv ∅ W' Y s1 /\ segs_ok s1 /\ transparent s0 s1 /\ s' = set_fs (vfs_close (fs s1) v) s1)
  | UserMode tf => e = 0 /\ exists W' as_, W ⊆ W' /\ ready W' Y s0 s' v as_ tf
  end.

Lemma runprogram_ran {OL : OpenLaws} W Y junk path s p : kinv ∅ W Y s -> segs_ok s -> Forall seg_ok (snd junk) -> tlb_shape (hwtlb s) ->
  curproc s <> 0 -> procs s !! curproc s = Some p -> forall r s', runprogram junk path s = Done r s' -> ran W Y path s r s'.
Proof.
  intros K Hs Hj Ht Hc Hp. intros r s' H. unfold ran, runprogram in *. mstep H. apply gets_Done in E as [-> ->].
  destruct (vfs_open (fs s) path O_RDONLY) as [[e v] f] eqn:Eo. mgo H. destruct (Z.eqb_spec e 0) as [->|He]; cbn [negb] in H; [|mprim; split; [done|by left]].
  assert (L : loading W Y s (set_fs f s)) by (apply loading_fs; [done|done|by eapply open_ok]). set (s0 := set_fs f s) in *.
  mgo H. apply proc_getas_Done in E as (-> & _ & Hg). rewrite (Hg p Hp Hc) in *.
  apply Z.eqb_eq in E0. destruct (Z.eqb_spec ret0 0) as [->|Hne].
  { unfold close_file in H. mgo H. destruct (as_create_inv W Y s0 junk 0 s2 (ld_inv _ _ _ _ L) E1) as (T & _ & [(_ & K2 & _ & Hseg)|(? & _)]); [|done].
    split; [done|]. right. split; [done|]. exists W, s2. split_and!; try done. unfold segs_ok. rewrite Hseg. exact Hs. }
  mgo H. destruct (new_space W Y junk s0 ret0 s2 p ret1 s1 () s3 (ld_inv _ _ _ _ L) Hs Hj Ht Hc Hp E1 Hne E E2) as (W' & HW & K3 & Hs3 & T3 & Hfr & Hcu & Hsw & Hpr & (a & Ha & Hpt) & Hmiss).
  destruct ret2 as [res ep]. pose proof (load_elf_loading W' Y v s3 _ _ K3 Hs3 E3) as L4. destruct (Z.eqb_spec res 0) as [->|Hres]; cbn [negb] in H; mgo H.
  2:{ match goal with E : close_file v _ = _ |- _ => unfold close_file in E; mprim end. split; [done|]. right. split; [done|]. exists W', s4. split_and!; [done|apply L4|apply L4| |done]. eapply transparent_trans; [exact T3|apply L4]. }
  destruct ret2 as [res2 sp]. destruct (ld_same _ _ _ _ L4) as (Q1 & Q2 & Q3 & Q4 & Q5).
  destruct (load_ready v ret0 s3 (set_p_addrspace ret0 p) ep s4 res2 sp s5) as (-> & -> & Hsz & Hok & -> & Hload & Hst); [by rewrite Hcu|by rewrite Hpr, Hcu, lookup_insert_eq|done|apply L4|exact E3|exact E4|].
  cbn [negb Z.eqb] in H. mgo H. injection E5 as <-. split; [done|]. exists W', ret0. split; [done|].
  pose proof (as_define_stack_inv _ _ _ _ _ _ _ (ld_inv _ _ _ _ L4) E4) as K5. pose proof (as_define_stack_segs_ok _ _ _ _ (ld_segs _ _ _ _ L4) E4) as Hs5.
  pose proof E4 as E5. apply as_define_stack_eq in E5 as (_ & _ & a5 & tab5 & g5 & _ & _ & _ & E5). split; try done; subst s5; cbn [curproc procs swapfile set_segtabs].
  - eapply transparent_trans; [eapply transparent_trans; [exact T3|apply L4]|by apply transparent_pte].
  - split; [by rewrite Q4|]. exists p. split_and!; [done|done|by rewrite Q3, Hpr].
  - by rewrite Q5.
  - intros va Hva. split; [split; [|split; [apply Hva|]]; cbn [hwtlb set_segtabs]; rewrite Q2; by apply (Hmiss va Hva)|].
    eapply untouched_empty; [exact K5|cbn; by rewrite Q1|done].
Qed.


(** ** Running it *)

Lemma miss_translate va s : tlb_miss va s -> translate (hwtlb s) va = None.
Proof.
  intros (_ & _ & Hm). unfold translate. destruct (list_find _ _) as [[i e]|] eqn:E; [|done].
  apply list_find_Some in E as (Hi & He & _). exfalso. rewrite Forall_lookup in Hm. by apply (Hm _ _ Hi).
Qed.

Lemma user_page_of va : 0 <= va < 2 ^ 31 -> user_page (Z.land va PAGE_FRAME) /\ Z.land va PAGE_FRAME = va - va mod PAGE_SIZE.
Proof.
  intros Hv. assert (Hu : is_u32 va) by (unfold is_u32; lia). pose proof (land_page_frame va Hu) as E. split; [|done].
  split; [rewrite E; pose proof (Z.mod_pos_bound va PAGE_SIZE ltac:(done)); pose proof (Z.mod_le va PAGE_SIZE ltac:(lia) ltac:(done)); lia|].
  change TLBHI_VPAGE with PAGE_FRAME. by rewrite <- Z.land_assoc, Z.land_diag.
Qed.

(** A page fault taken in user mode: the program goes on where it was, or the kernel stops. *)
Lemma miss_exception epc va s : exception 0 (miss_frame va epc) s =
  match fault_handle (Z.land va PAGE_FRAME) s with
  | Done r s' => if r =? 0 then Done (miss_frame va epc) s' else Halt (Panic "I don't know how to handle this")
  | Halt r => Halt r | Exited s' => Exited s' | OutOfFuel => OutOfFuel
  end.
Proof.
  unfold exception. cbn [tf_vaddr tf_cause tf_status miss_frame]. change (vm_fault VM_FAULT_READ va) with (fault_handle (Z.land va PAGE_FRAME)).
  unfold mbind at 1, M_bind at 1. change (Z.shiftr (Z.land (Z.shiftl EX_TLBL CCA_CODESHIFT) CCA_CODE) CCA_CODESHIFT) with EX_TLBL.
  cbn [Z.eqb EX_TLBL EX_MOD Pos.eqb]. unfold mbind at 1, M_bind at 1. destruct (fault_handle _ s) as [r s'| | |]; [|done..]. cbn. by destruct (r =? 0).
Qed.

(** The first load from an address of the segment [g]. *)
Lemma user_load_first W Y s p a tab g epc va : kinv ∅ W Y s -> segs_ok s -> 0 <= va < 2 ^ 31 ->
  tlb_miss (Z.land va PAGE_FRAME) s -> procs s !! curproc s = Some p -> addrspaces s !! p_addrspace p = Some a -> segtabs s !! as_segments a = Some tab ->
  segments_find_segment tab (Z.land va PAGE_FRAME) = Some g -> untouched s (p_addrspace p) (Z.land va PAGE_FRAME) ->
  user_load 2 epc va s <> OutOfFuel /\
  forall b s', user_load 2 epc va s = Done b s' ->
    (elf_file g = 0 -> b = 0) /\
    (elf_file g <> 0 -> elf_file g <> swapfile s -> reads_ok (elf_file g) -> page_of g (Z.land va PAGE_FRAME) ->
     let start := vbase g + elf_base_offset g in
     start <= va -> elf_segment_start g + (va - start) < fsize (fs s) (elf_file g) -> b = fbyte (fs s) (elf_file g) (elf_segment_start g + (va - start))).
Proof.
  intros K Hs Hva Hm Hp Ha Ht Hf Hu. destruct (user_page_of va Hva) as [_ Epage]. pose proof (Z.mod_pos_bound va PAGE_SIZE ltac:(done)) as Hmod.
  pose proof (fault_handle_no_fuel W Y (Z.land va PAGE_FRAME) s K) as Hnf.
  assert (E : user_load 2 epc va s = (exception 0 (miss_frame va epc);; user_load 1 epc va) s).
  { cbn [user_load]. unfold get. unfold mbind at 1, M_bind at 1. by rewrite (miss_translate _ _ Hm). }
  rewrite E. unfold mbind, M_bind. rewrite miss_exception. destruct (fault_handle _ s) as [r s1| | |] eqn:Eh; [|done..].
  destruct (Z.eqb_spec r 0) as [->|]; [|done].
  destruct (fault_handle_inv W Y s _ 0 s1 K Hs Hm Eh) as (_ & _ & Hh & _).
  destruct (Hh eq_refl) as (p' & a' & tab' & g' & t & j & e & Hp' & _ & _ & _ & Hslot & He & _ & Htr).
  assert (p' = p) as -> by congruence.
  destruct (fault_handle_first W Y s p a tab g _ s1 K Hs Hp Ha Ht Hf Hu Eh) as (pa & [Hz Hb] & Hpa). rewrite (Hpa _ _ _ Hslot He) in Htr.
  cbn [user_load]. unfold get, mbind, M_bind. rewrite Htr. split; [done|]. intros b s' [= <- <-]. split.
  - intros Hg. apply Hz; [done|lia].
  - intros H1 H2 H3 H4 Hst Hsz. specialize (Hb H1 H2 H3 H4 va). rewrite Epage in Hb. replace (va - (va - va mod PAGE_SIZE)) with (va mod PAGE_SIZE) in Hb by lia.
    apply Hb; [lia|done].
Qed.

End Start.

(** ** On the example machine *)

Import ExampleMachine MemTheorems.

#[global] Instance trapframe_eq_dec : EqDecision trapframe.
Proof. solve_decision. Defined.
#[global] Instance launch_eq_dec : EqDecision launch.
Proof. solve_decision. Defined.
#[global] Instance files_open : OpenLaws.
Proof. split. intros f path e v f' H. cbn in H. injection H as _ _ <-. apply same_files_refl. Qed.

(** A process without an address space, and a program on the disk. *)
Definition disk_program : kstate := set_fs elf_files started.
Definition entered : kstate := after (runprogram junk "prog") disk_program.
Definition user_frame : trapframe := enter_new_process 0 0 0 USERSTACK 0x400010.
Lemma entered_runs : runprogram junk "prog" disk_program = Done (UserMode user_frame) entered.
Proof. refine (returns_runs (UserMode user_frame) (runprogram junk "prog") disk_program _). vm_compute. reflexivity. Qed.

Definition disk_proc : proc := default junk_proc (procs disk_program !! curproc disk_program).
Lemma disk_program_ok : kinv ∅ ∅ ∅ disk_program /\ segs_ok disk_program /\ Forall seg_ok (snd junk) /\ tlb_shape (hwtlb disk_program) /\
  curproc disk_program <> 0 /\ procs disk_program !! curproc disk_program = Some disk_proc.
Proof.
  split; [apply kinv_set_fs; [exact started_inv|vm_compute; discriminate]|].
  split; [|split; [repeat constructor; done|split; [vm_compute; done|split; vm_compute; done]]].
  assert (Hseg : segtabs disk_program = ∅) by (vm_compute; reflexivity). intros x tab g Hx. rewrite Hseg in Hx. by rewrite lookup_empty in Hx.
Qed.


Definition loaded_state : kstate := after (user_load 2 0x400010 0x400004) entered.
Definition loaded_byte : Z := result 1 (user_load 2 0x400010 0x400004) entered.
Lemma user_load_runs : user_load 2 0x400010 0x400004 entered = Done loaded_byte loaded_state.
Proof. refine (returns_runs loaded_byte (user_load 2 0x400010 0x400004) entered _). vm_compute. reflexivity. Qed.

Definition entered_proc : proc := default junk_proc (procs entered !! curproc entered).
Definition entered_as : addrspace := default (mkAs 0 []) (addrspaces entered !! p_addrspace entered_proc).
Definition entered_segs : list segment := default [] (segtabs entered !! as_segments entered_as).
Definition text_header : Z -> Z := phdr (fs entered) 3 (fbyte (fs entered) 3) 1.

#[local] Opaque entered.

End Usermode.
