(* ===== verification/ProcTheorems.v ===== *)
(** * The theorems about processes *)
From S2P Require Import Prelude Bitmap Vmstats Tlb Ram Segments Kmalloc KmallocProofs Machine Swapfile Coremap Objects.
From S2P Require Import Vm Addrspace Proc VmInv Replacement FaultProofs AddrspaceProofs ProcProofs ExampleMachine.
Import Kmalloc KmallocProofs Machine Swapfile Coremap Objects Vm Addrspace Proc VmInv Replacement
  FaultProofs AddrspaceProofs ProcProofs ExampleMachine.

Module ProcTheorems.
Section ProcTheorems.
Context {VO : VnodeOps} {VL : VnodeLaws}.

(** ** Process ids *)

(** The process table and the process structures agree: slot [i] is empty or leads to
    the process with id [i + 1]. *)
Definition pid_ok (s : kstate) : Prop :=
  Z.of_nat (length (pid_table s)) = TABLE_SIZE /\
  forall i a, pid_table s !! i = Some a -> a <> 0 ->
    exists p, procs s !! a = Some p /\ p_pid p = Z.of_nat i + 1.

(** A process that the table knows. *)
Definition in_table (s : kstate) (a : Z) : Prop := a <> 0 /\ exists i, pid_table s !! i = Some a.

(** No two processes of the table have the same id. *)
Lemma pid_unique s a b p q : pid_ok s -> in_table s a -> in_table s b ->
  procs s !! a = Some p -> procs s !! b = Some q -> p_pid p = p_pid q -> a = b.
Proof.
  intros [_ Hok] [Ha (i & Hi)] [Hb (j & Hj)] Hp Hq Heq.
  destruct (Hok i a Hi Ha) as (p' & Hp' & Hpi). destruct (Hok j b Hj Hb) as (q' & Hq' & Hqj).
  assert (i = j) as -> by (simplify_eq; lia). congruence.
Qed.

Lemma created_pid_ok W Y s name r s' : pid_ok s -> created W Y s name r s' -> r <> 0 -> pid_ok s'.
Proof.
  intros [Hlen Hok] [[? _]|(_ & Hno & _ & _ & _ & _ & i & p & Hff & Ht & Hp & Hnp)] Hr; [done|].
  split; [by rewrite Ht, length_insert|]. intros j a Hj Ha. rewrite Ht in Hj. rewrite Hp.
  apply list_lookup_insert_Some in Hj as [(<- & <- & _)|(Hne & Hj)].
  - rewrite lookup_insert_eq. exists p. split; [done|]. by destruct Hnp as (? & _).
  - destruct (Hok j a Hj Ha) as (q & Hq & Hqj). exists q. rewrite lookup_insert_ne; [done|].
    intros ->. apply Hno. right. left. by rewrite Hq.
Qed.

(** a new process gets an id of its own: the smallest one that is free, between 1
    and [TABLE_SIZE]; all other processes keep their structures and ids, and all user
    pages their contents. *)
Theorem proc_create_pid W Y s junk name r s' : kinv ∅ W Y s -> pid_ok s ->
  Z.of_nat (String.length name) < 2047 -> proc_create junk name s = Done r s' -> r <> 0 ->
  kinv ∅ W Y s' /\ transparent s s' /\ pid_ok s' /\
  exists p, procs s' !! r = Some p /\ 1 <= p_pid p <= TABLE_SIZE /\ in_table s' r /\
    (forall a q, in_table s a -> procs s !! a = Some q -> p_pid q <> p_pid p) /\
    (forall k, 1 <= k < p_pid p -> exists a q, in_table s a /\ procs s !! a = Some q /\ p_pid q = k) /\
    forall a q, procs s !! a = Some q -> procs s' !! a = Some q.
Proof.
  intros K Hok Hlen H Hr. pose proof (proc_create_spec W Y s junk name r s' K Hlen H) as Hc.
  pose proof (created_pid_ok _ _ _ _ _ _ Hok Hc Hr) as Hok'.
  destruct Hc as [[? _]|(_ & Hno & K' & R & _ & _ & i & p & Hff & Ht & Hp & Hnp)]; [done|].
  split; [done|]. split; [by apply krelo_transparent|]. split; [done|].
  destruct Hff as (Hi & Hlt & Hmin). destruct Hnp as (Hpid & _). destruct Hok as [Hl Hok].
  exists p. split_and!; try lia.
  - by rewrite Hp, lookup_insert_eq.
  - split; [done|]. exists i. rewrite Ht. apply list_lookup_insert_eq. by eapply lookup_lt_Some.
  - intros a q [Ha (j & Hj)] Hq Heq. destruct (Hok j a Hj Ha) as (q' & Hq' & Hqj).
    assert (j = i) as -> by (simplify_eq; lia). congruence.
  - intros k Hk. destruct (lookup_lt_is_Some_2 (pid_table s) (Z.to_nat (k - 1))) as [a Ha].
    { apply lookup_lt_Some in Hi. lia. }
    assert (Ha0 : a <> 0) by (apply (Hmin (Z.to_nat (k - 1))); [lia|done]).
    destruct (Hok _ a Ha Ha0) as (q & Hq & Hqk). exists a, q. split_and!; [by split; eauto|done|lia].
  - intros a q Hq. rewrite Hp, lookup_insert_ne; [done|]. intros ->. apply Hno. right. left. by rewrite Hq.
Qed.

(** [proc_find_by_pid] in every case: for an id from [PID_MIN] to [TABLE_SIZE] the
    process of the table that has it, or a failed assertion when there is none; a
    failed assertion for ids below [PID_MIN], the kernel's among them, and above
    [MAX_PROC]; and for [MAX_PROC] itself a read past the end of the table. *)
Theorem proc_find_by_pid_cases s pid : pid_ok s ->
  (PID_MIN <= pid <= TABLE_SIZE ->
    (exists a p, in_table s a /\ procs s !! a = Some p /\ p_pid p = pid /\ proc_find_by_pid pid s = Done a s) \/
    (forall a p, in_table s a -> procs s !! a = Some p -> p_pid p <> pid) /\
    proc_find_by_pid pid s = Halt (AssertFailed "proc != NULL")) /\
  (pid < PID_MIN \/ MAX_PROC < pid ->
    proc_find_by_pid pid s = Halt (AssertFailed "pid >= PID_MIN && pid <= MAX_PROC")) /\
  (pid = MAX_PROC -> proc_find_by_pid pid s = Halt (Undefined "pt.pid_table[pid-1]")).
Proof.
  intros [Hl Hok]. unfold proc_find_by_pid, kassert, gets, deref, get_proc, mbind, M_bind, mret, M_ret.
  unfold TABLE_SIZE, MAX_PROC, PID_MIN in *. split_and!.
  - intros Hr. rewrite (proj2 (Z.leb_le 2 pid)), (proj2 (Z.leb_le pid 100)) by lia. cbn [andb].
    destruct (lookup_lt_is_Some_2 (pid_table s) (Z.to_nat (pid - 1))) as [a Ha]; [lia|]. rewrite Ha.
    destruct (Z.eqb_spec a 0) as [->|Ha0]; cbn [negb].
    + right. split; [|done]. intros a p [Ha0 (j & Hj)] Hp Heq.
      destruct (Hok j a Hj Ha0) as (p' & Hp' & Hpj).
      assert (j = Z.to_nat (pid - 1)) as -> by (simplify_eq; lia). congruence.
    + left. destruct (Hok _ a Ha Ha0) as (p & Hp & Hpp). exists a, p.
      assert (Hpid : p_pid p = pid) by lia. split_and!; try done; [by split; eauto|].
      rewrite Hp.
      unfold deref. by rewrite Hpid, Z.eqb_refl.
  - intros Hr. destruct (Z.leb_spec 2 pid), (Z.leb_spec pid 100); cbn [andb]; try done; lia.
  - intros ->. cbn. by rewrite (proj2 (lookup_ge_None (pid_table s) _)) by lia.
Qed.

(** creation and destruction of a process cancel out: a process that is created
    and destroyed again before it ran leaves no process structure, table entry, string,
    lock, condition variable or wait channel behind. *)
Theorem proc_create_destroy W Y s junk name r s1 s2 : kinv ∅ W Y s ->
  Z.of_nat (String.length name) < 2047 -> proc_create junk name s = Done r s1 -> r <> 0 ->
  proc_destroy r s1 = Done tt s2 ->
  kinv ∅ W Y s2 /\ transparent s s2 /\ procs s2 = procs s /\ pid_table s2 = pid_table s /\ kobjs s2 = kobjs s.
Proof.
  intros K Hlen H Hr Hd.
  destruct (proc_create_spec W Y s junk name r s1 K Hlen H)
    as [[? _]|(_ & Hno & K1 & R1 & _ & _ & i & p & (Hi & _) & Ht & Hp & Hpid & Hn & Has & Hcwd & _ & n1 & w1 & n2 & w2 & Hf & Ho)];
    [done|].
  destruct (proc_destroy_spec W Y s1 r p name n1 w1 n2 w2 s2 K1) as (_ & _ & K2 & R2 & Hp2 & _ & _ & Ht2 & Ho2);
    try done.
  { by rewrite Hp, lookup_insert_eq. }
  { split; [apply Hf|]. intros k o Hin. rewrite Ho. apply inserted_Some; [apply Hf|done]. }
  split_and!; [done|eapply transparent_trans; by apply krelo_transparent|..].
  - rewrite Hp2, Hp. apply delete_insert_id. apply eq_None_not_Some. intros ?. apply Hno. right. by left.
  - rewrite Ht2, Ht, Hpid. replace (Z.to_nat (Z.of_nat i + 1 - 1)) with i by lia.
    rewrite list_insert_insert_eq. by apply list_insert_id.
  - rewrite Ho2, Ho. by apply without_inserted.
Qed.

(** ** Waiting for a process *)

Lemma free_proc_gone a s s' : free_proc a s = Done tt s' -> procs s' !! a = None.
Proof.
  intros H. unfold free_proc in H. mgo H. apply kfree_frees in H as (h & cm & -> & _). cbn.
  apply lookup_delete_eq.
Qed.

Lemma proc_destroy_gone a s s' : proc_destroy a s = Done tt s' -> procs s' !! a = None.
Proof.
  intros H. unfold proc_destroy in H. do 12 mstep H. by apply free_proc_gone in H.
Qed.

Lemma wait_exit_set fuel : forall others p s s', wait_exit fuel others p s = Done tt s' ->
  exists pr, procs s' !! p = Some pr /\ p_status_set pr = true.
Proof.
  induction fuel as [|fuel IH]; intros others p s s' H; [done|]. cbn [wait_exit] in H.
  unfold get_proc in H. mgo H. destruct (p_status_set ret) eqn:Hs; mgo H; eauto.
Qed.

(** [proc_wait] returns only when the process has exited, whatever other threads
    do in the meantime; the result is the status it exited with, and the process
    structure is gone. *)
Theorem proc_wait_status fuel others p s st s' : proc_wait fuel others p s = Done st s' ->
  exists s1 pr, wait_exit fuel others p s = Done tt s1 /\ procs s1 !! p = Some pr /\
    p_status_set pr = true /\ p_status pr = st /\ procs s' !! p = None.
Proof.
  intros H. unfold proc_wait in H. mgo H. unfold get_proc in E2. mprim.
  destruct (wait_exit_set _ _ _ _ _ E1) as (pr & Hpr & Hset). assert (ret = pr) as -> by congruence.
  apply proc_destroy_gone in E3. by eexists _, pr.
Qed.

(** [sys_waitpid] never completes: the process id it returns is read from the
    structure that [proc_wait] has just freed. *)
Theorem sys_waitpid_reads_freed fuel others pid s p s1 st s2 : proc_find_by_pid pid s = Done p s1 -> p <> 0 ->
  proc_wait fuel others p s1 = Done st s2 ->
  sys_waitpid fuel others pid s = Halt (Undefined "proc").
Proof.
  intros H1 Hp H2. unfold sys_waitpid. rewrite (bind_ret _ _ _ _ _ H1), (proj2 (Z.eqb_neq _ _) Hp).
  rewrite (bind_ret _ _ _ _ _ H2). unfold proc_wait in H2. mgo H2.
  apply proc_destroy_gone in E3. unfold get_proc, mbind, M_bind, deref. by rewrite E3.
Qed.

End ProcTheorems.
(** ** The theorems on the example machine

    A second process is created next to the running one. *)
#[local] Opaque started.

Lemma started_pid_ok : pid_ok started.
Proof.
  split; [vm_compute; reflexivity|]. intros i a Hi Ha.
  assert (Ht : pid_table started = <[0%nat := curproc started]> (replicate 99 0)) by (vm_compute; reflexivity).
  rewrite Ht in Hi. apply list_lookup_insert_Some in Hi as [(<- & <- & _)|(_ & Hi)].
  - assert (Hp : p_pid <$> procs started !! curproc started = Some 1) by (vm_compute; reflexivity).
    apply fmap_Some in Hp as (p & Hp & Hpid). exists p. split; [exact Hp|]. rewrite <- Hpid. reflexivity.
  - apply lookup_replicate in Hi as [-> _]. destruct (Ha eq_refl).
Qed.

Definition second : kstate := after (proc_create junk_proc "second") started.
Definition second_at : Z := result 0 (proc_create junk_proc "second") started.
Lemma second_runs : proc_create junk_proc "second" started = Done second_at second.
Proof. refine (returns_runs second_at (proc_create junk_proc "second") started _). vm_compute. reflexivity. Qed.
Lemma second_nonnull : second_at <> 0.
Proof. vm_compute. discriminate. Qed.
Lemma second_pid : p_pid <$> procs second !! second_at = Some 2.
Proof. vm_compute. reflexivity. Qed.
#[local] Opaque second second_at.

Lemma proc_create_pid_witness : pid_ok second /\ transparent started second /\
  exists p, procs second !! second_at = Some p /\ 1 <= p_pid p <= TABLE_SIZE.
Proof.
  destruct (proc_create_pid ∅ ∅ started junk_proc "second" second_at second started_inv started_pid_ok
    ltac:(done) second_runs second_nonnull) as (_ & T & Hok & p & Hp & Hr & _).
  split; [exact Hok|]. split; [exact T|]. exists p. split; [exact Hp|exact Hr].
Defined.

(** The second process is found by its id, the first by none. *)
Lemma proc_find_by_pid_cases_witness : proc_find_by_pid 1 started = Halt (AssertFailed "pid >= PID_MIN && pid <= MAX_PROC") /\
  proc_find_by_pid 3 started = Halt (AssertFailed "proc != NULL").
Proof.
  destruct (proc_find_by_pid_cases started 1 started_pid_ok) as (_ & H1 & _).
  destruct (proc_find_by_pid_cases started 3 started_pid_ok) as (H3 & _).
  split; [apply H1; left; done|].
  destruct (H3 ltac:(done)) as [(a & p & _ & _ & _ & Hd)|[_ Hd]]; [|exact Hd].
  assert (Hn : returns a (proc_find_by_pid 3) started = false) by (vm_compute; reflexivity).
  unfold returns in Hn. rewrite Hd in Hn. by rewrite bool_decide_true in Hn.
Defined.

Definition destroyed2 : kstate := after (proc_destroy second_at) second.
Lemma destroyed2_runs : proc_destroy second_at second = Done tt destroyed2.
Proof. refine (returns_runs tt (proc_destroy second_at) second _). vm_compute. reflexivity. Qed.
#[local] Opaque destroyed2.

Lemma proc_create_destroy_witness : procs destroyed2 = procs started /\
  pid_table destroyed2 = pid_table started /\ kobjs destroyed2 = kobjs started.
Proof.
  destruct (proc_create_destroy ∅ ∅ started junk_proc "second" second_at second destroyed2 started_inv
    ltac:(done) second_runs second_nonnull destroyed2_runs) as (_ & _ & H).
  exact H.
Defined.

(** While the caller waits, the second process exits with status 42. *)
Definition exits : M kstate unit := update_proc second_at (set_exit 42).
Definition waited : kstate := after (proc_wait 2 exits second_at) second.
Lemma waited_runs : proc_wait 2 exits second_at second = Done 42 waited.
Proof. refine (returns_runs 42 (proc_wait 2 exits second_at) second _). vm_compute. reflexivity. Qed.
#[local] Opaque waited.

Lemma proc_wait_status_witness : procs waited !! second_at = None.
Proof.
  destruct (proc_wait_status 2 exits second_at second 42 waited waited_runs) as (s1 & pr & _ & _ & _ & _ & H).
  exact H.
Defined.

Lemma second_found : proc_find_by_pid 2 second = Done second_at second.
Proof.
  assert (H : returns second_at (proc_find_by_pid 2) second = true) by (vm_compute; reflexivity).
  apply returns_runs in H. rewrite H. f_equal.
Qed.

Lemma sys_waitpid_reads_freed_witness : sys_waitpid 2 exits 2 second = Halt (Undefined "proc").
Proof.
  exact (sys_waitpid_reads_freed 2 exits 2 second second_at second 42 waited second_found second_nonnull waited_runs).
Defined.

End ProcTheorems.
