(* ===== verification/FileTheorems.v ===== *)
(** * Open files: theorems *)
From S2P Require Import Prelude Bitmap Vmstats Tlb Ram Segments Kmalloc Machine FileSyscalls ExampleMachine.
Import Machine FileSyscalls ExampleMachine.

Module FileTheorems.
Section FileTheorems.
Context {VO : VnodeOps} {VL : VnodeLaws}.

(** ** The tables *)

Definition free_of (o : openfile) : Prop := of_v o = 0.

(** Every descriptor in use has an entry of the system table to itself. *)
Record ftable_ok (s : fstate) : Prop := {
  ft_len : length (p_open_ftable s) = Z.to_nat OPEN_MAX;
  ft_sys : length (sys_open_ftable s) = Z.to_nat SYS_OPEN_MAX;
  ft_open : forall fd i, p_open_ftable s !! fd = Some (Some i) ->
    exists o, sys_open_ftable s !! i = Some o /\ of_v o <> 0 /\ proc_cnt o = 1;
  ft_inj : forall fd fd' i, p_open_ftable s !! fd = Some (Some i) ->
    p_open_ftable s !! fd' = Some (Some i) -> fd = fd'
}.

(** The search for a free descriptor. *)
Lemma find_fd_spec p k x : list_find (fun x => x = None)
    (drop (Z.to_nat (STDERR_FILENO + 1)) (take (Z.to_nat OPEN_MAX) p)) = Some (k, x) ->
  let fd := (k + Z.to_nat (STDERR_FILENO + 1))%nat in
  p !! fd = Some (None : option nat) /\ 3 <= Z.of_nat fd < OPEN_MAX /\
  forall j, (3 <= j < fd)%nat -> exists i, p !! j = Some (Some i).
Proof.
  intros (Hk & -> & Hmin)%list_find_Some fd. rewrite lookup_drop in Hk. apply lookup_take_Some in Hk as [Hk Hlt].
  change (Z.to_nat (STDERR_FILENO + 1)) with 3%nat in *. unfold fd.
  assert (Hk3 : p !! (k + 3)%nat = Some None) by (by rewrite Nat.add_comm).
  split_and!; [done|lia|unfold OPEN_MAX in *; lia|]. intros j Hj.
  destruct (lookup_lt_is_Some_2 p j) as [y Hy]; [apply lookup_lt_Some in Hk3; lia|].
  destruct y as [i|]; [by eauto|]. exfalso. apply (Hmin (j - 3)%nat None); [|lia|done].
  rewrite lookup_drop. apply lookup_take_Some. replace (3 + (j - 3))%nat with j by lia. split; [done|lia].
Qed.

Lemma sys_open_spec path flags s v f r s' : ftable_ok s ->
  vfs_open (ffs s) path flags = (0, v, f) -> v <> 0 -> sys_open path flags s = Done r s' ->
  (r = -1 /\ p_open_ftable s' = p_open_ftable s) \/
  (3 <= r < OPEN_MAX /\ ftable_ok s' /\ p_open_ftable s !! Z.to_nat r = Some None /\
   (forall fd, 3 <= fd < r -> exists i, p_open_ftable s !! Z.to_nat fd = Some (Some i)) /\
   (exists i, p_open_ftable s' = <[Z.to_nat r := Some i]> (p_open_ftable s) /\
      sys_open_ftable s' = <[i := mkOf v 0 1]> (sys_open_ftable s) /\
      (forall fd, p_open_ftable s !! fd <> Some (Some i)) /\
      exists o, sys_open_ftable s !! i = Some o /\ free_of o)).
Proof.
  intros Hok Hv Hv0 H. unfold sys_open, get in H. mstep H. injection E as <- <-. rewrite Hv in H. mgo H.
  cbn [negb Z.eqb] in H. mgo H. cbn [sys_open_ftable set_ffs] in H.
  destruct (list_find _ _) as [[i o]|] eqn:Hf; mgo H.
  2: { unfold close_vnode in E. mgo E. left. done. }
  apply list_find_Some in Hf as (Hi & Hfree & _). apply lookup_take_Some in Hi as [Hi _].
  unfold put_of in E. mgo E. cbn [p_open_ftable set_sys_open_ftable set_ffs] in H.
  destruct (list_find _ _) as [[k x]|] eqn:Hf2; mgo H.
  2: { unfold close_vnode in E. mgo E. left. done. }
  apply find_fd_spec in Hf2 as (Hk & Hr & Hmin). cbv zeta in Hk, Hr, Hmin.
  set (fd := (k + Z.to_nat (STDERR_FILENO + 1))%nat) in *. right. rewrite Nat2Z.id.
  assert (Hno : forall fd', p_open_ftable s !! fd' <> Some (Some i)).
  { intros fd' Hfd'. destruct (ft_open _ Hok _ _ Hfd') as (o' & Ho' & Hne & _). congruence. }
  split; [done|]. split; [|split; [done|split; [|exists i; split_and!; [done|done|done|by exists o]]]].
  - split; cbn [p_open_ftable sys_open_ftable set_p_open_ftable set_sys_open_ftable set_ffs].
    + rewrite length_insert. apply (ft_len _ Hok).
    + rewrite length_insert. apply (ft_sys _ Hok).
    + intros fd' i' [(<- & [= <-] & _)|(Hne & Hfd')]%list_lookup_insert_Some.
      * rewrite list_lookup_insert_eq by (by eapply lookup_lt_Some). eauto.
      * rewrite list_lookup_insert_ne by (intros ->; exact (Hno _ Hfd')). by apply (ft_open _ Hok fd').
    + intros a b i' [(<- & [= <-] & _)|(Hna & Ha)]%list_lookup_insert_Some
        [(<- & Hb & _)|(Hnb & Hb)]%list_lookup_insert_Some; try done.
      * by apply Hno in Hb.
      * injection Hb as <-. by apply Hno in Ha.
      * by eapply (ft_inj _ Hok).
  - intros fd' Hfd. apply Hmin. lia.
Qed.

(** [sys_open] either hands out the smallest free descriptor above the standard
    ones, backed by a fresh entry of the system table at offset 0, or returns -1; the
    descriptors in use keep their files and positions. *)
Theorem sys_open_descriptor path flags s v f r s' : ftable_ok s ->
  vfs_open (ffs s) path flags = (0, v, f) -> v <> 0 -> sys_open path flags s = Done r s' ->
  (r = -1 /\ p_open_ftable s' = p_open_ftable s) \/
  (3 <= r < OPEN_MAX /\ ftable_ok s' /\ p_open_ftable s !! Z.to_nat r = Some None /\
   (forall fd, 3 <= fd < r -> exists i, p_open_ftable s !! Z.to_nat fd = Some (Some i)) /\
   (exists i, p_open_ftable s' = <[Z.to_nat r := Some i]> (p_open_ftable s) /\
      sys_open_ftable s' = <[i := mkOf v 0 1]> (sys_open_ftable s) /\
      (forall fd, p_open_ftable s !! fd <> Some (Some i)) /\
      exists o, sys_open_ftable s !! i = Some o /\ free_of o)).
Proof. apply sys_open_spec. Qed.

(** [sys_close] gives up what [sys_open] took: the descriptor is free again and so
    is the entry of the system table; every other descriptor and entry is as before. *)
Theorem sys_open_close path flags s v f fd s1 r s2 : ftable_ok s ->
  vfs_open (ffs s) path flags = (0, v, f) -> v <> 0 -> sys_open path flags s = Done fd s1 -> fd <> -1 ->
  sys_close fd s1 = Done r s2 ->
  r = 0 /\ p_open_ftable s2 = p_open_ftable s /\
  forall i o, sys_open_ftable s !! i = Some o ->
    sys_open_ftable s2 !! i = Some o \/ free_of o /\ exists o', sys_open_ftable s2 !! i = Some o' /\ free_of o'.
Proof.
  intros Hok Hv Hv0 Ho Hfd Hc.
  destruct (sys_open_spec _ _ _ _ _ _ _ Hok Hv Hv0 Ho) as [[-> _]|(Hr & Hok1 & Hnone & _ & i & Hp & Hs & Hno & o0 & Ho0 & Hfree)]; [done|].
  assert (Hlt : (Z.to_nat fd < length (p_open_ftable s))%nat) by (by eapply lookup_lt_Some).
  assert (Hp1 : p_open_ftable s1 !! Z.to_nat fd = Some (Some i)) by (by rewrite Hp, list_lookup_insert_eq).
  destruct (ft_open _ Hok1 _ _ Hp1) as (o1 & Ho1 & _).
  pose proof (lookup_lt_Some _ _ _ Ho1) as Hil. rewrite Hs, length_insert in Hil.
  assert (o1 = mkOf v 0 1) as -> by (rewrite Hs, list_lookup_insert_eq in Ho1 by done; congruence).
  unfold sys_close in Hc. assert (Hb : fd_in_range fd = true).
  { unfold fd_in_range, STDERR_FILENO, OPEN_MAX in *. destruct (Z.ltb_spec fd 2), (Z.ltb_spec 128 fd); try done; lia. }
  rewrite Hb in Hc. cbn [negb] in Hc. unfold descriptor, get_of in Hc. mgo Hc. rewrite Hp1 in E. injection E as <-.
  mgo Hc. rewrite Ho1 in E. injection E as <-. cbn [of_v proc_cnt offset] in Hc.
  rewrite (proj2 (Z.eqb_neq _ _) Hv0) in Hc. mgo Hc. unfold put_of in E. mgo E.
  change (u32 (1 - 1) =? 0) with true in E0. cbn in E0. unfold close_vnode, put_of in E0. mgo E0. mgo E.
  split; [done|]. cbn. split.
  - rewrite Hp, list_insert_insert_eq. by apply list_insert_id.
  - intros i' o' Ho'. rewrite Hs, !list_insert_insert_eq. destruct (decide (i' = i)) as [->|Hne].
    + right. rewrite list_lookup_insert_eq by done. split; [congruence|by eexists].
    + left. by rewrite list_lookup_insert_ne.
Qed.

(** ** Reading and writing *)

(** The file that descriptor [fd] stands for. *)
Definition open_at (s : fstate) (fd : Z) (i : nat) (o : openfile) : Prop :=
  3 <= fd < OPEN_MAX /\ p_open_ftable s !! Z.to_nat fd = Some (Some i) /\
  sys_open_ftable s !! i = Some o /\ of_v o <> 0.

Lemma open_at_range s fd i o : open_at s fd i o -> fd_in_range fd = true.
Proof.
  intros (Hr & _). unfold fd_in_range, STDERR_FILENO, OPEN_MAX in *.
  destruct (Z.ltb_spec fd 2), (Z.ltb_spec 128 fd); try done; lia.
Qed.

(** The state after a transfer of [n] bytes that moved the position of entry [i]. *)
Definition moved (i : nat) (o : openfile) (n : Z) (s : fstate) : fstate :=
  set_sys_open_ftable (<[i := mkOf (of_v o) (offset o + n) (proc_cnt o)]> (sys_open_ftable s)) s.

Lemma file_read_Done fd buf size i o s r s' : open_at s fd i o -> file_read fd buf size s = Done r s' ->
  exists res resid d f, vop_read (ffs s) (of_v o) (offset o) size = (res, resid, d, f) /\
    let s1 := set_umem (mem_write buf (size - resid) d (umem s)) (set_ffs f s) in
    (res <> 0 /\ r = res /\ s' = s1 \/ res = 0 /\ r = size - resid /\ s' = moved i o (size - resid) s1).
Proof.
  intros Ho H. pose proof (open_at_range _ _ _ _ Ho) as Hr. destruct Ho as (_ & Hp & Hi & Hv).
  unfold file_read in H. rewrite Hr in H. cbn [negb] in H. unfold descriptor, get_of in H. mgo H.
  rewrite Hp in E. injection E as <-. mgo H. rewrite Hi in E. injection E as <-.
  rewrite (proj2 (Z.eqb_neq _ _) Hv) in H. mstep H. injection E as <- <-.
  destruct (vop_read _ _ _ _) as [[[res resid] d] f] eqn:Hvr. mgo H.
  exists res, resid, d, f. split; [done|]. destruct (Z.eqb_spec res 0) as [->|Hne]; cbn [negb] in H; mgo H.
  - unfold put_of in E. mgo E. by right.
  - by left.
Qed.

Lemma file_write_Done fd buf size i o s r s' : open_at s fd i o -> file_write fd buf size s = Done r s' ->
  exists res resid f, vop_write (ffs s) (of_v o) (offset o) size (fun k => umem s (buf + k)) = (res, resid, f) /\
    (res <> 0 /\ r = res /\ s' = set_ffs f s \/
     res = 0 /\ r = size - resid /\ s' = moved i o (size - resid) (set_ffs f s)).
Proof.
  intros Ho H. pose proof (open_at_range _ _ _ _ Ho) as Hr. destruct Ho as (_ & Hp & Hi & Hv).
  unfold file_write in H. rewrite Hr in H. cbn [negb] in H. unfold descriptor, get_of in H. mgo H.
  rewrite Hp in E. injection E as <-. mgo H. rewrite Hi in E. injection E as <-.
  rewrite (proj2 (Z.eqb_neq _ _) Hv) in H. mstep H. injection E as <- <-.
  destruct (vop_write _ _ _ _ _) as [[res resid] f] eqn:Hvw. mgo H.
  exists res, resid, f. split; [done|]. destruct (Z.eqb_spec res 0) as [->|Hne]; cbn [negb] in H; mgo H.
  - unfold put_of in E. mgo E. by right.
  - by left.
Qed.

(** A read through a descriptor delivers the bytes of the file from the current
    position on, as many as were asked for and are there, advances the position by
    their number, and changes no other memory, descriptor or position. *)
Theorem file_read_bytes fd buf size i o s r s' : open_at s fd i o -> 0 <= size -> 0 <= offset o ->
  (forall er rs d f, vop_read (ffs s) (of_v o) (offset o) size = (er, rs, d, f) -> er = 0) ->
  file_read fd buf size s = Done r s' ->
  r = Z.max 0 (Z.min size (fsize (ffs s) (of_v o) - offset o)) /\
  (forall k, 0 <= k < r -> umem s' (buf + k) = fbyte (ffs s) (of_v o) (offset o + k)) /\
  (forall a, ~ (buf <= a < buf + r) -> umem s' a = umem s a) /\
  p_open_ftable s' = p_open_ftable s /\
  sys_open_ftable s' = <[i := mkOf (of_v o) (offset o + r) (proc_cnt o)]> (sys_open_ftable s).
Proof.
  intros Ho Hsz Hoff Hro H. destruct (file_read_Done _ _ _ _ _ _ _ _ Ho H) as (res & resid & d & f & Hv & Hor).
  pose proof (Hro _ _ _ _ Hv) as ->. destruct Hor as [[? _]|(_ & -> & ->)]; [done|].
  destruct (vop_read_ok _ _ _ _ _ _ _ _ Hv Hoff Hsz) as (Hrs & _ & _ & Hok). destruct (Hok eq_refl) as [Hn Hd].
  split; [done|]. split_and!; try done; cbn [umem moved set_sys_open_ftable set_umem]; unfold mem_write.
  - intros k Hk. rewrite (proj2 (Z.leb_le _ _)), (proj2 (Z.ltb_lt _ _)) by lia. cbn.
    rewrite <- Hd by lia. f_equal. lia.
  - intros a Ha. destruct (Z.leb_spec buf a), (Z.ltb_spec a (buf + (size - resid))); cbn; try done. lia.
Qed.

(** what was written is what is read: after a write of [size] bytes through one
    descriptor, a read of the same length through another descriptor of the same file,
    which stands where the write began, delivers those bytes.  (Errors are returned as
    positive numbers, as counts are: the write must not have failed with a code that
    equals [size].) *)
Theorem file_write_read fd fd2 buf buf2 size i i2 o o2 s s1 r2 s2 : open_at s fd i o -> open_at s fd2 i2 o2 ->
  i <> i2 -> of_v o2 = of_v o -> offset o2 = offset o -> 0 <= size -> 0 <= offset o ->
  (forall fs1 er rs d f, vop_read fs1 (of_v o) (offset o) size = (er, rs, d, f) -> er = 0) ->
  file_write fd buf size s = Done size s1 ->
  (forall rs f, vop_write (ffs s) (of_v o) (offset o) size (fun k => umem s (buf + k)) <> (size, rs, f)) ->
  file_read fd2 buf2 size s1 = Done r2 s2 ->
  r2 = size /\ forall k, 0 <= k < size -> umem s2 (buf2 + k) = umem s (buf + k).
Proof.
  intros Ho Ho2 Hi Hv2 Hoff2 Hsz Hoff Hro Hw Hnoerr Hr.
  destruct (file_write_Done _ _ _ _ _ _ _ _ Ho Hw) as (res & resid & f & Hvw & Hor).
  destruct Hor as [(Hne & Heq & _)|(-> & Hres & ->)].
  { subst res. by apply Hnoerr in Hvw. }
  destruct (vop_write_ok _ _ _ _ _ _ _ Hvw Hoff Hsz) as (-> & Hfs & _ & Hbytes & _).
  assert (Ho2' : open_at (moved i o (size - 0) (set_ffs f s)) fd2 i2 o2).
  { destruct Ho2 as (? & ? & ? & ?). split; [done|]. split; [done|]. split; [|done]. cbn. by rewrite list_lookup_insert_ne. }
  destruct (file_read_Done _ _ _ _ _ _ _ _ Ho2' Hr) as (res & resid & d & f2 & Hvr & Hor).
  cbn [ffs moved set_sys_open_ftable set_ffs] in Hvr. rewrite Hv2, Hoff2 in Hvr.
  pose proof (Hro _ _ _ _ _ Hvr) as ->. destruct Hor as [[? _]|(_ & -> & ->)]; [done|].
  destruct (vop_read_ok _ _ _ _ _ _ _ _ Hvr Hoff Hsz) as (_ & _ & _ & Hok). destruct (Hok eq_refl) as [Hn Hd].
  assert (resid = 0) as -> by (rewrite Hfs in Hn; lia). split; [lia|]. intros k Hk.
  cbn [umem moved set_sys_open_ftable set_umem]. unfold mem_write.
  rewrite (proj2 (Z.leb_le _ _)), (proj2 (Z.ltb_lt _ _)) by lia. cbn.
  replace (buf2 + k - buf2) with k by lia. rewrite Hd, Hbytes by lia. done.
Qed.

(** the errors of [file_read], [file_write] and [sys_close]: a descriptor below
    [STDERR_FILENO] or above [OPEN_MAX] is EBADF, one that is not open is EFAULT, both
    without effect; the descriptor [OPEN_MAX] passes the test and is read past the end
    of the table. *)
Theorem file_descriptor_errors fd buf size s : ftable_ok s ->
  (fd < STDERR_FILENO \/ OPEN_MAX < fd ->
     file_read fd buf size s = Done EBADF s /\ file_write fd buf size s = Done EBADF s /\
     sys_close fd s = Done EBADF s) /\
  (STDERR_FILENO <= fd < OPEN_MAX -> p_open_ftable s !! Z.to_nat fd = Some None ->
     file_read fd buf size s = Done EFAULT s /\ file_write fd buf size s = Done EFAULT s /\
     sys_close fd s = Done EFAULT s) /\
  (fd = OPEN_MAX ->
     file_read fd buf size s = Halt (Undefined "p->p_open_ftable[fd]") /\
     file_write fd buf size s = Halt (Undefined "p->p_open_ftable[fd]") /\
     sys_close fd s = Halt (Undefined "p->p_open_ftable[fd]")).
Proof.
  intros Hok. unfold file_read, file_write, sys_close, descriptor, deref, mbind, M_bind. split_and!.
  - intros Hr. assert (Hb : fd_in_range fd = false).
    { unfold fd_in_range, STDERR_FILENO, OPEN_MAX in *.
      destruct (Z.ltb_spec fd 2), (Z.ltb_spec 128 fd); try done; lia. }
    by rewrite Hb.
  - intros Hr Hp. assert (Hb : fd_in_range fd = true).
    { unfold fd_in_range, STDERR_FILENO, OPEN_MAX in *.
      destruct (Z.ltb_spec fd 2), (Z.ltb_spec 128 fd); try done; lia. }
    rewrite Hb. cbn [negb]. by rewrite Hp.
  - intros ->. change (fd_in_range OPEN_MAX) with true. cbn [negb].
    by rewrite (proj2 (lookup_ge_None _ _)) by (rewrite (ft_len _ Hok); done).
Qed.

(** ** The console *)

Definition bytes_at (m : mem) (buf : Z) (n : nat) : list Z := (fun k => m (buf + Z.of_nat k)) <$> seq 0 n.

Lemma write_loop_spec buf n : forall i s,
  write_loop buf i n s =
    Done tt (set_con_out (reverse ((fun k => umem s (buf + Z.of_nat k)) <$> seq i n) ++ con_out s) s).
Proof.
  induction n as [|n IH]; intros i s; cbn [write_loop].
  - unfold mret, M_ret. f_equal. by destruct s.
  - unfold get, putch, modify, mbind, M_bind. rewrite IH. f_equal.
    cbn [seq fmap list_fmap]. rewrite reverse_cons, <- (assoc_L (++)). done.
Qed.

(** A write to the console prints the bytes of the buffer in order, every one of
    them once, and returns their number. *)
Theorem sys_write_console fd buf size s : fd = STDOUT_FILENO \/ fd = STDERR_FILENO -> 0 <= size < 2 ^ 31 ->
  sys_write fd buf size s =
    Done size (set_con_out (reverse (bytes_at (umem s) buf (Z.to_nat size)) ++ con_out s) s).
Proof.
  intros Hfd Hsz. unfold sys_write, to_int.
  replace (negb (fd =? STDOUT_FILENO) && negb (fd =? STDERR_FILENO)) with false by (by destruct Hfd as [-> | ->]).
  rewrite (proj2 (Z.ltb_lt _ _)) by lia. unfold mbind, M_bind. by rewrite write_loop_spec.
Qed.

End FileTheorems.
(** ** The theorems on an example: one process, a file opened twice *)

Definition no_files : fstate :=
  mkF boot_files (replicate 1280 (mkOf 0 0 0)) (replicate 128 None) (fun a => a mod 251) [] [].

Lemma no_files_ok : ftable_ok no_files.
Proof.
  split; try done.
  - intros fd i Hp. cbn in Hp. by apply (lookup_replicate_1 128) in Hp as [? _].
  - intros fd fd' i Hp. cbn in Hp. by apply (lookup_replicate_1 128) in Hp as [? _].
Qed.

Definition open1 : fstate := after (sys_open "f" 0) no_files.
Lemma open1_runs : sys_open "f" 0 no_files = Done 3 open1.
Proof. refine (returns_runs 3 (sys_open "f" 0) no_files _). vm_compute. reflexivity. Qed.

Lemma sys_open_descriptor_witness : ftable_ok open1 /\ exists i, p_open_ftable open1 = <[3%nat := Some i]> (p_open_ftable no_files).
Proof.
  destruct (sys_open_descriptor "f" 0 no_files 1 boot_files 3 open1 no_files_ok eq_refl ltac:(done) open1_runs)
    as [[? _]|(_ & Hok & _ & _ & i & Hp & _)]; [done|].
  split; [exact Hok|]. exists i. exact Hp.
Defined.

Definition closed1 : fstate := after (sys_close 3) open1.
Lemma closed1_runs : sys_close 3 open1 = Done 0 closed1.
Proof. refine (returns_runs 0 (sys_close 3) open1 _). vm_compute. reflexivity. Qed.

Lemma sys_open_close_witness : p_open_ftable closed1 = p_open_ftable no_files.
Proof.
  destruct (sys_open_close "f" 0 no_files 1 boot_files 3 open1 0 closed1 no_files_ok eq_refl ltac:(done) open1_runs
    ltac:(done) closed1_runs) as (_ & H & _).
  exact H.
Defined.

Definition open2 : fstate := after (sys_open "f" 0) open1.

Lemma open2_at3 : open_at open2 3 0 (mkOf 1 0 1).
Proof. split; [done|]. repeat split; vm_compute; try reflexivity; discriminate. Qed.
Lemma open2_at4 : open_at open2 4 1 (mkOf 1 0 1).
Proof. split; [done|]. repeat split; vm_compute; try reflexivity; discriminate. Qed.

Definition wrote : fstate := after (file_write 3 0x1000 8) open2.
Lemma wrote_runs : file_write 3 0x1000 8 open2 = Done 8 wrote.
Proof. refine (returns_runs 8 (file_write 3 0x1000 8) open2 _). vm_compute. reflexivity. Qed.
Definition reread : fstate := after (file_read 4 0x2000 8) wrote.
Lemma reread_runs : file_read 4 0x2000 8 wrote = Done 8 reread.
Proof. refine (returns_runs 8 (file_read 4 0x2000 8) wrote _). vm_compute. reflexivity. Qed.

Lemma file_write_read_witness : file_read 4 0x2000 8 wrote = Done 8 reread /\
  forall k, 0 <= k < 8 -> umem reread (0x2000 + k) = umem open2 (0x1000 + k).
Proof.
  destruct (file_write_read 3 4 0x1000 0x2000 8 0 1 (mkOf 1 0 1) (mkOf 1 0 1) open2 wrote 8 reread
    open2_at3 open2_at4 ltac:(done) eq_refl eq_refl ltac:(done) ltac:(done)
    (fun f er rs d f' H => files_reads_ok 1 f _ _ er rs d f' H) wrote_runs ltac:(intros; discriminate) reread_runs)
    as [_ H].
  exact (conj reread_runs H).
Defined.

Lemma file_read_bytes_witness : sys_open_ftable reread = <[1%nat := mkOf 1 8 1]> (sys_open_ftable wrote).
Proof.
  assert (Ho : open_at wrote 4 1 (mkOf 1 0 1)).
  { split; [done|]. repeat split; vm_compute; try reflexivity; discriminate. }
  destruct (file_read_bytes 4 0x2000 8 1 (mkOf 1 0 1) wrote 8 reread Ho ltac:(done) ltac:(done)
    (fun er rs d f' H => files_reads_ok 1 _ _ _ er rs d f' H) reread_runs) as (_ & _ & _ & _ & H).
  exact H.
Defined.

Lemma file_descriptor_errors_witness : file_read 3 0 1 no_files = Done EFAULT no_files /\
  file_read 1 0 1 no_files = Done EBADF no_files.
Proof.
  destruct (file_descriptor_errors 3 0 1 no_files no_files_ok) as (_ & H3 & _).
  destruct (file_descriptor_errors 1 0 1 no_files no_files_ok) as (H1 & _).
  split; [apply H3; done|apply H1; left; done].
Defined.

Lemma sys_write_console_witness :
  sys_write STDOUT_FILENO 0x100 3 no_files = Done 3 (set_con_out [7; 6; 5] no_files).
Proof. exact (sys_write_console STDOUT_FILENO 0x100 3 no_files (or_introl eq_refl) ltac:(done)). Defined.

End FileTheorems.
